(* ===== verification/_CoqProject ===== *)
-Q . S2P
Prelude.v
StringCompare.v
Atoi.v
ParseUnits.v
Base64.v
Utf8.v
Sprintf.v
SprintfFormat.v
Sort.v
Inet.v
InetText.v
InetPort.v
InetCidr.v
Escape.v
Rwlock.v
WeightBalance.v
RoundRobin.v
RoundRobinTheory.v
RoundRobinCycle.v
Buffer.v
HttpRequest.v
HttpUri.v
HttpUriTheory.v
HttpRequestLine.v
HttpRequestLineTheory.v
HttpRequestAccept.v
HttpHeader.v
HttpHeaderTheory.v
HttpHeaderAccept.v
HttpStatus.v
HttpStatusTheory.v
HttpSearch.v
HttpSearchTheory.v
HttpChunked.v
HttpChunkedAccept.v
Times.v
TimesText.v
TimesGrammar.v
TimesRoundtrip.v
TimesCache.v
Queue.v
QueueTheory.v
RbTree.v
RbTreeShape.v
RbTreeInsert.v
RbTreeDelete.v
RbTreeRemove.v
RbTreeTheory.v
EventTimer.v
EventTimerTheory.v
RadixTree.v
RadixTreeTheory.v
HuffTables.v
Huff.v
HuffTheory.v
HpackString.v
HpackStringTheory.v
HpackTable.v
HpackTableTheory.v
