(* ===== verification/Prelude.v ===== *)
(** A verification of the core of nginx 1.12.1, the main program under
    src/projects/nginx-1.12.1/src/ (paths below are relative to it).

    ** What the repository is

    The repository is an artifact built around two web servers, nginx and
    lighttpd: their sources, and thousands of copies of single files with one
    change each, with tables of results.  The program is nginx; this library
    models the parts of it whose correctness is a matter of pure logic: the
    routines every other module calls to read and print text, numbers and
    addresses, the containers and the timers, the parsers of the HTTP protocol, the
    header compression of HTTP/2, and the shared-memory load balancer with the lock
    that protects it.

    ** How the parts interact

    Bytes from a client go through the parsers of http/ngx_http_parse.c, which
    are state machines resumed whenever more bytes arrive; the loop over the header
    lines of http/ngx_http_request.c is a client of one of them and makes the list
    of headers, which the searches of the same file look through, and the body goes
    through the chunked filter of http/ngx_http_request_body.c, a client of another.
    The answer of an upstream server starts with a status line, read by a parser of
    the same kind.  Headers that hold dates go through core/ngx_parse_time.c, and
    the dates of answers and logs come from the cache of times of core/ngx_times.c,
    a client of the formatter.  Configuration text goes through core/ngx_parse.c, a client of the
    number parsers of core/ngx_string.c, and core/ngx_inet.c, a client of the
    number parsers, the string primitives and the formatter.  The upstream
    module asks the round robin balancer for a peer; the counters of the peers
    are in memory that worker processes share, and every access is made between
    a locking and an unlocking function of core/ngx_rwlock.c.  The timers of the event
    loop are nodes of the red-black tree of core/ngx_rbtree.c, which is ordered by an
    insert function its client gives; the radix tree holds prefixes of addresses of the
    kind core/ngx_inet.c reads.  The headers of HTTP/2 are indices in the tables of
    http/v2/ngx_http_v2_table.c or strings, which may be in the Huffman code and may
    arrive in parts.

    ** Files

    - Prelude: literals, return codes, machine integers, the outcome monad, the
      functions of the C library that are used, tactics and shared lemmas.
    - StringCompare (core/ngx_string.c): copying, comparing, searching.
    - Atoi (core/ngx_string.c): ngx_atoi and relatives, ngx_atofp, ngx_hextoi,
      ngx_hex_dump.
    - ParseUnits (core/ngx_parse.c): sizes, offsets and times with units.
    - Base64, Utf8, Escape (core/ngx_string.c): the codings.  Escape models
      ngx_unescape_uri on a memory where source and destination may overlap,
      which is how its callers use it.
    - Sprintf (core/ngx_string.c): ngx_vslprintf with every conversion of the
      Unix build, on tagged arguments.
    - SprintfFormat: a call of ngx_sprintf as the list of the pieces of its format.
    - Sort (core/ngx_string.c): ngx_sort, with the comparison as a parameter.
    - Inet, InetText, InetPort, InetCidr (core/ngx_inet.c): text and binary
      forms of addresses; the last three hold the theory.
    - Buffer: the parts of the buffers that the parsers share, bytes at an offset.
    - HttpHeader (http/ngx_http_parse.c, http/ngx_http_request.c, core/ngx_hash.c):
      ngx_http_parse_header_line and the loop that makes the list of headers;
      HttpHeaderTheory has the invariant and the fragments, HttpHeaderAccept the
      blocks of headers that are read.
    - HttpStatus, HttpStatusTheory (http/ngx_http_parse.c): status lines.
    - HttpSearch, HttpSearchTheory (http/ngx_http_parse.c): unsafe URIs, searches in
      header lines and in arguments.
    - HttpChunked (http/ngx_http_parse.c, http/ngx_http_request_body.c): chunked
      bodies, an automaton over their bytes, the grammar and its decoding;
      HttpChunkedAccept has what is accepted, rejected and waited for.
    - HttpRequest (http/ngx_http_request.h): the fields of a request that the
      parsers share, and the table of usual characters.
    - HttpUri, HttpUriTheory (http/ngx_http_parse.c, http/ngx_http_request.c): the
      two parsers of the URI and ngx_http_process_request_uri, against a reference
      that decodes the text and resolves its dot segments.
    - HttpRequestLine (http/ngx_http_parse.c): ngx_http_parse_request_line;
      HttpRequestLineTheory has its invariant and the fragments, HttpRequestAccept
      the lines it accepts.
    - Queue, QueueTheory (core/ngx_queue.c, core/ngx_queue.h): linked queues on a
      memory of nodes, which is a finite map from addresses.
    - Times (core/ngx_times.c): ngx_gmtime and the calendar it is measured against;
      TimesText (core/ngx_parse_time.c) the parser of dates, TimesGrammar the grammar
      of the texts it accepts and TimesRoundtrip those that are printed; TimesCache the
      cache of times with its updates, as operations on the static variables.
    - RbTree (core/ngx_rbtree.c, core/ngx_rbtree.h): the red-black tree on a memory of
      nodes, with the insert function as a parameter; RbTreeShape relates the nodes to a
      tree, RbTreeInsert, RbTreeDelete and RbTreeRemove have the steps, RbTreeTheory the
      operations, the minimum and the interface of insert functions.
    - EventTimer, EventTimerTheory (event/ngx_event_timer.c, event/ngx_event_timer.h):
      timers over the tree, with the handlers of events as a parameter.
    - RadixTree, RadixTreeTheory (core/ngx_radix_tree.c): prefixes of addresses of 32 and
      of 128 bits, with the allocation of nodes from pages.
    - HuffTables, Huff, HuffTheory (http/v2/ngx_http_v2_huff_encode.c,
      http/v2/ngx_http_v2_huff_decode.c): the tables of the Huffman code, the coder with
      its register of 64 bits and the decoder, which goes on from one call to the next.
    - HpackString, HpackStringTheory (http/v2/ngx_http_v2.c,
      http/v2/ngx_http_v2_filter_module.c): integers and strings of HPACK, written, and
      read in parts.
    - HpackTable, HpackTableTheory (http/v2/ngx_http_v2_table.c): the static and the
      dynamic table.
    - Rwlock (core/ngx_rwlock.c): the lock as interleaved atomic steps, and the
      interface Class rwlock its clients are proved against.
    - WeightBalance: the arithmetic of weighted choice, independent of the code.
    - RoundRobin (http/ngx_http_upstream_round_robin.c): the balancer, over the
      interface of the lock; RoundRobinTheory and RoundRobinCycle its theory.

    ** How C is modelled

    An integer of C is a Z together with the range of its type; unsigned
    arithmetic is written with its wrap-around, signed arithmetic goes through
    [int64], which gives [UB] on overflow.  A pointer into an object is the list
    of the bytes from it to the end of the object, or an offset in the list of
    the bytes of the object; reading or writing outside gives [UB].  Structures that point
    to one another, the nodes of queues and of trees, are a finite map from addresses for
    each member, read with [load_at] and written with [store_at], so that aliasing is part
    of the model and an access through a null pointer gives [UB].  A theorem
    that ends in [= Ok ...] therefore also says that no access is out of bounds
    and no signed operation overflows.  Loops are structural recursions on the
    list they walk where they are; the others take fuel, the theorems give them
    a number of rounds computed from the input (the length of the buffer plus
    one, the width of the integer) and show that [NoFuel] does not occur: the walks in a
    radix tree take a round for each bit of a key and one more, the removals from the
    dynamic table one for each of the 128 entries that fit and one more, the integers of
    HPACK ten, and the loops of the red-black tree and of the timers as many as there are
    nodes.  Allocations that can fail are a boolean, or a function of the number of the
    allocation; the pages of the radix tree are a list that may end.  The platform is the one of the configure script on Linux
    x86-64: LP64, little endian, with IPv6 and Unix sockets.

    ** What the theorems show

    Each file states, for the functions it models, that the result is the one a
    reference definition gives (a parser against a grammar that is stated apart from
    it and the value of the text, a printer against the canonical text), what happens on every error path,
    that the buffers are large enough, and for each pair of inverse functions the
    round trip.  For the lock: mutual exclusion in every interleaving, progress
    of a process that runs alone, and refinement of the sequential interface.
    For the balancer: refinement of an abstract balancer, an invariant of the
    shared counters kept by every operation, and fairness over a cycle.  For the
    resumed parsers: the same result however the bytes are cut.  For chunked bodies:
    what is decoded, what no continuation can mend, and the least number of bytes that
    can end the body.  For the queues and the trees: refinement of lists and of maps by
    the linked nodes, with the order, the balance and the nodes that are left alone.  For
    the timers: the order of the calls when the handlers change the timers too, and that a
    run of them ends.  For the times: that the closed formulas are the calendar, where a
    day follows another, that exactly the texts of a grammar are dates, and that the slots
    of the cache are not written to while they are read, but for the milliseconds of the
    current one.  For HTTP/2: that the strings that are decoded are exactly the codes of
    the output with their padding, and that the dynamic table is a queue of bounded size.

    The comment over a property starts with its number, C1 being the most
    important.  Behaviour that differs from what a comment or a caller expects
    is shown by Examples in the file of the component.

    ** Not modelled

    - The allocators, the logging and the calls of the operating system: what the
      modelled functions need of them is a parameter or left out.
    - Functions that resolve names (ngx_parse_url, ngx_inet_resolve_host), and the
      TLS and zone functions of the balancer.
    - The phases, filters and modules of the HTTP server, the frames and streams of HTTP/2
      and the representations of its headers, the mail and stream proxies, the event
      modules and processes: chains of callbacks over connections.
    - The hash tables of core/ngx_hash.c but for its hash functions, and the digests.
    - lighttpd, and the copies of files under src/mutants/. *)

From stdpp Require Import base numbers list option strings gmap.
From Stdlib Require Import ZArith Lia Ascii Strings.Byte.
Local Open Scope Z_scope.

(** * Character and byte literals

    A C character constant ['x'] is written ["x"%ch] and denotes its code, so
    that [lia] sees the numeral. *)

Definition parse_ch (l : list Byte.byte) : option Z :=
  match l with [b] => Some (Z.of_N (Byte.to_N b)) | _ => None end.
Definition print_ch (z : Z) : option (list Byte.byte) := None.

Declare Scope ch_scope.
Delimit Scope ch_scope with ch.
String Notation Z parse_ch print_ch : ch_scope.

(** The bytes of a string literal, without the terminating NUL. *)
Fixpoint bytes (s : string) : list Z :=
  match s with
  | EmptyString => []
  | String a s' => Z.of_N (N_of_ascii a) :: bytes s'
  end.

(** * Return codes (ngx_core.h) *)

Definition NGX_OK : Z := 0.
Definition NGX_ERROR : Z := -1.
Definition NGX_AGAIN : Z := -2.
Definition NGX_BUSY : Z := -3.
Definition NGX_DONE : Z := -4.
Definition NGX_DECLINED : Z := -5.

(** * Machine integers

    The platform is the one of objs/ngx_auto_config.h: LP64, little endian,
    8-bit [u_char].  An unsigned value of width w is an integer in [0, 2^w),
    a signed one an integer in [-2^(w-1), 2^(w-1)). *)

Definition to_u8 (z : Z) : Z := z mod 2 ^ 8.
Definition to_u32 (z : Z) : Z := z mod 2 ^ 32.
Definition to_u64 (z : Z) : Z := z mod 2 ^ 64.
Definition to_i64 (z : Z) : Z := (z + 2 ^ 63) mod 2 ^ 64 - 2 ^ 63.

(** NGX_MAX_INT_T_VALUE, and the equal limits of [ssize_t], [off_t] and
    [time_t] in objs/ngx_auto_config.h. *)
Definition NGX_MAX_INT_T_VALUE : Z := 9223372036854775807.
Definition NGX_MAX_SIZE_T_VALUE : Z := 9223372036854775807.
Definition NGX_MAX_OFF_T_VALUE : Z := 9223372036854775807.
Definition NGX_MAX_TIME_T_VALUE : Z := 9223372036854775807.
Definition NGX_INT64_LEN : nat := 20.

Definition byte_ok (b : Z) : Prop := 0 <= b < 256.
Definition bytes_ok (l : list Z) : Prop := Forall byte_ok l.

(** * Outcomes

    [UB] is the undefined behaviour the code must avoid: an access outside the
    object a pointer points into, or an overflow of signed arithmetic; [Ok v]
    is a defined result.  [NoFuel] is not a behaviour of the code: it says that
    the fuel of a modelled loop was too small, and the theorems about such a
    loop show that it does not occur. *)

Inductive outcome (A : Type) : Type :=
| Ok (a : A)
| UB
| NoFuel.
Arguments Ok {A} a.
Arguments UB {A}.
Arguments NoFuel {A}.

#[export] Instance outcome_ret : MRet outcome := fun A a => Ok a.
#[export] Instance outcome_bind : MBind outcome :=
  fun A B f m => match m with Ok a => f a | UB => UB | NoFuel => NoFuel end.
#[export] Instance outcome_fmap : FMap outcome :=
  fun A B f m => match m with Ok a => Ok (f a) | UB => UB | NoFuel => NoFuel end.

(** [*(p + i)] where the object is the list [p]. *)
Definition deref (p : list Z) (i : nat) : outcome Z :=
  match p !! i with Some c => Ok c | None => UB end.

(** [t[i]] for an array [t] and an integer expression [i]. *)
Definition at_ (t : list Z) (i : Z) : outcome Z :=
  if i <? 0 then UB else deref t (Z.to_nat i).

(** [*(p + i) = c] where the object is the list [p]. *)
Definition store (p : list Z) (i : nat) (c : Z) : outcome (list Z) :=
  if (i <? length p)%nat then Ok (<[i:=c]> p) else UB.

(** Structures that point to one another: each member has a map from the addresses of
    the structures to its values.  [load_at m x] is [x->f] for the map [m] of the member
    [f], and [store_at m x v] is [x->f = v]. *)
Definition NULL : Z := 0.
Definition load_at (m : gmap Z Z) (x : Z) : outcome Z :=
  match m !! x with Some v => Ok v | None => UB end.
Definition store_at (m : gmap Z Z) (x v : Z) : outcome (gmap Z Z) :=
  match m !! x with Some _ => Ok (<[x := v]> m) | None => UB end.

(** The result of signed 64-bit arithmetic. *)
Definition int64 (z : Z) : outcome Z :=
  if (- 2 ^ 63 <=? z) && (z <? 2 ^ 63) then Ok z else UB.

Definition is_ok {A} (m : outcome A) : Prop := exists a, m = Ok a.

(** * Strings of the C library

    [strlen], [strncmp] and [memcmp] are functions of the C standard library;
    a pointer is the list of the bytes from it to the end of its object. *)

Fixpoint strlen (s : list Z) : outcome nat :=
  match s with
  | [] => UB
  | c :: s' => if c =? 0 then Ok 0%nat else n ← strlen s'; Ok (S n)
  end.

Fixpoint strncmp (s1 s2 : list Z) (n : nat) {struct n} : outcome Z :=
  match n with
  | O => Ok 0
  | S n' =>
      match s1, s2 with
      | c1 :: s1', c2 :: s2' =>
          if negb (c1 =? c2) then Ok (c1 - c2)
          else if c1 =? 0 then Ok 0 else strncmp s1' s2' n'
      | _, _ => UB
      end
  end.

Fixpoint memcmp (s1 s2 : list Z) (n : nat) {struct n} : outcome Z :=
  match n with
  | O => Ok 0
  | S n' =>
      match s1, s2 with
      | c1 :: s1', c2 :: s2' =>
          if negb (c1 =? c2) then Ok (c1 - c2) else memcmp s1' s2' n'
      | _, _ => UB
      end
  end.

(** [s] without NUL bytes, and the C string a byte sequence starts with. *)
Definition no_nul (s : list Z) : Prop := Forall (fun c => c <> 0) s.

(** * Lexicographic difference

    The reference the comparison functions are measured against: the first
    difference of two sequences, the end of a sequence counting as 0. *)

Fixpoint lexdiff (l1 l2 : list Z) : Z :=
  match l1, l2 with
  | [], [] => 0
  | [], y :: _ => 0 - y
  | x :: _, [] => x - 0
  | x :: l1', y :: l2' => if x =? y then lexdiff l1' l2' else x - y
  end.

(** * Updates of records

    [r <| f := v |>] is the record [r] with [v] in the field [f], the assignment
    [r->f = v] of the code.  A record type has an instance of [Eta], the record
    rebuilt from its fields; the instances of [Update] are derived from it. *)

Class Eta (R : Type) := eta_record : R -> R.
Class Update {R T : Type} (f : R -> T) := update_field : (T -> T) -> R -> R.
Arguments update_field {R T} f {_} _ _.

Ltac derive_update :=
  lazymatch goal with
  | |- @Update ?R ?T ?f =>
      let i := lazymatch constr:(@eta_record R _) with @eta_record _ ?i => i end in
      let body := eval cbv delta [i] in i in
      lazymatch eval pattern f in body with
      | ?build _ =>
          let t := eval cbv beta in (fun (u : T -> T) (r : R) => build (fun r => u (f r)) r) in
          exact t
      end
  end.
#[export] Hint Extern 1 (Update _) => derive_update : typeclass_instances.

Notation "r <| f := v |>" := (update_field f (fun _ => v) r)
  (at level 1, left associativity, f at level 0, v at level 99, format "r  <| f  :=  v |>").

(** * Automation *)

(** [cbn] leaves integer operations alone: [tests] and [lia] handle them. *)
#[global] Arguments Nat.div : simpl never.
#[global] Arguments Nat.modulo : simpl never.
#[global] Arguments Z.eqb : simpl never.
#[global] Arguments Z.leb : simpl never.
#[global] Arguments Z.ltb : simpl never.
#[global] Arguments Z.lor : simpl never.
#[global] Arguments Z.land : simpl never.
#[global] Arguments Z.shiftl : simpl never.
#[global] Arguments Z.shiftr : simpl never.
#[global] Arguments Z.pow : simpl never.
#[global] Arguments Z.modulo : simpl never.
#[global] Arguments Z.div : simpl never.
#[global] Arguments Z.sub : simpl never.
#[global] Arguments Z.add : simpl never.
#[global] Arguments Z.mul : simpl never.

(** Case analysis on the boolean tests of the code. *)
Ltac destruct_test :=
  match goal with
  | |- context [?a =? ?b] => destruct (Z.eqb_spec a b)
  | |- context [?a <=? ?b] => destruct (Z.leb_spec a b)
  | |- context [?a <? ?b] => destruct (Z.ltb_spec a b)
  | |- context [(?a =? ?b)%nat] => destruct (Nat.eqb_spec a b)
  | |- context [(?a <=? ?b)%nat] => destruct (Nat.leb_spec a b)
  | |- context [(?a <? ?b)%nat] => destruct (Nat.ltb_spec a b)
  | H : context [?a =? ?b] |- _ => destruct (Z.eqb_spec a b)
  | H : context [?a <=? ?b] |- _ => destruct (Z.leb_spec a b)
  | H : context [?a <? ?b] |- _ => destruct (Z.ltb_spec a b)
  end; cbn [andb orb negb] in *.

Ltac tests :=
  repeat (destruct_test; try solve [lia | assumption | reflexivity]).

(** Unfold the integer casts and normalise the powers of two. *)
Ltac unfold_casts :=
  unfold to_u8, to_u32, to_u64, to_i64, byte_ok in *;
  change (2 ^ 8) with 256 in *;
  change (2 ^ 32) with 4294967296 in *;
  change (2 ^ 63) with 9223372036854775808 in *;
  change (2 ^ 64) with 18446744073709551616 in *.

Ltac casts := unfold_casts; Z.div_mod_to_equations; lia.

(** Linear arithmetic over the named limits and the casts. *)
Ltac ilia :=
  unfold NGX_MAX_INT_T_VALUE, NGX_MAX_SIZE_T_VALUE, NGX_MAX_OFF_T_VALUE,
    NGX_MAX_TIME_T_VALUE, NGX_OK, NGX_ERROR, NGX_DONE, NGX_DECLINED in *;
  unfold_casts; Z.div_mod_to_equations; lia.

(** Split an [Ok] result of a bind. *)
Ltac inv_ok :=
  repeat match goal with
  | H : Ok _ = Ok _ |- _ => injection H as H; subst
  | H : UB = Ok _ |- _ => discriminate H
  | H : Ok _ = UB |- _ => discriminate H
  end.

Create HintDb ngx.
Create Rewrite HintDb ngx_rw.

(** * Shared lemmas *)

Lemma to_u8_id b : byte_ok b -> to_u8 b = b.
Proof. intros H. casts. Qed.

Lemma to_u8_ok z : byte_ok (to_u8 z).
Proof. casts. Qed.

Lemma to_i64_id z : - 2 ^ 63 <= z < 2 ^ 63 -> to_i64 z = z.
Proof. intros H. casts. Qed.

Lemma to_u32_id z : 0 <= z < 2 ^ 32 -> to_u32 z = z.
Proof. intros H. casts. Qed.

Lemma to_u64_id z : 0 <= z < 2 ^ 64 -> to_u64 z = z.
Proof. intros H. casts. Qed.

(** Converting the wrapped [ngx_uint_t] difference back to [ngx_int_t] gives
    the signed difference. *)
Lemma to_i64_u64 z : - 2 ^ 63 <= z < 2 ^ 63 -> to_i64 (to_u64 z) = z.
Proof. intros H. casts. Qed.

Lemma store_at_ok (m : gmap Z Z) x u v : m !! x = Some u -> store_at m x v = Ok (<[x := v]> m).
Proof. intros E. unfold store_at. by rewrite E. Qed.
Lemma store_at_some (m : gmap Z Z) x v : is_Some (m !! x) -> store_at m x v = Ok (<[x := v]> m).
Proof. intros [u E]. by eapply store_at_ok. Qed.
Lemma load_at_ok (m : gmap Z Z) x v : m !! x = Some v -> load_at m x = Ok v.
Proof. intros E. unfold load_at. by rewrite E. Qed.

Lemma int64_ok z : - 2 ^ 63 <= z < 2 ^ 63 -> int64 z = Ok z.
Proof. intros H. unfold int64. tests. Qed.

(** Shifting in [k] low bits. *)
Lemma lor_shiftl_add u r k : 0 <= k -> 0 <= r < 2 ^ k -> Z.lor (Z.shiftl u k) r = u * 2 ^ k + r.
Proof.
  intros Hk Hr. assert (Hd : Z.land (Z.shiftl u k) r = 0).
  { apply Z.bits_inj'. intros i Hi. rewrite Z.land_spec, Z.bits_0.
    destruct (Z.ltb_spec i k); [by rewrite Z.shiftl_spec_low|].
    rewrite <- (Z.mod_small r (2 ^ k)), Z.mod_pow2_bits_high by lia. apply andb_false_r. }
  rewrite <- Z.lxor_lor, <- Z.add_nocarry_lxor, Z.shiftl_mul_pow2 by done. done.
Qed.

(** A fact about a small range of integers is checked by computation. *)
Lemma range_forall n (P : Z -> bool) :
  forallb P (seqZ 0 n) = true -> forall b, 0 <= b < n -> P b = true.
Proof.
  intros H b Hb. rewrite forallb_forall in H. apply H.
  apply list_elem_of_In, elem_of_seqZ. lia.
Qed.

Lemma byte_forall (P : Z -> bool) :
  forallb P (seqZ 0 256) = true -> forall b, byte_ok b -> P b = true.
Proof. apply range_forall. Qed.

Lemma range_decide n (P : Z -> Prop) `{forall b, Decision (P b)} :
  forallb (fun b => bool_decide (P b)) (seqZ 0 n) = true -> forall b, 0 <= b < n -> P b.
Proof. intros Hall b Hb. apply (range_forall n _ Hall) in Hb. by apply bool_decide_eq_true in Hb. Qed.

Lemma byte_forall2 (P : Z -> Z -> bool) :
  forallb (fun a => forallb (P a) (seqZ 0 256)) (seqZ 0 256) = true ->
  forall a b, byte_ok a -> byte_ok b -> P a b = true.
Proof.
  intros H a b Ha Hb. by apply (byte_forall (P a)); [apply (byte_forall (fun a => _) H)|].
Qed.

Lemma bytes_ok_cons b l : bytes_ok (b :: l) <-> byte_ok b /\ bytes_ok l.
Proof. apply Forall_cons. Qed.

Lemma bytes_ok_app l1 l2 : bytes_ok (l1 ++ l2) <-> bytes_ok l1 /\ bytes_ok l2.
Proof. apply Forall_app. Qed.

(** [bytes_ok] of concrete data, by computation. *)
Definition bytes_okb (l : list Z) : bool := forallb (fun b => (0 <=? b) && (b <? 256)) l.

Lemma bytes_okb_true l : bytes_okb l = true -> bytes_ok l.
Proof.
  intros H. apply Forall_forall. intros b Hb. unfold bytes_okb in H.
  rewrite forallb_forall in H. apply list_elem_of_In, H in Hb. casts.
Qed.

Lemma no_nul_cons c l : no_nul (c :: l) <-> c <> 0 /\ no_nul l.
Proof. unfold no_nul. by rewrite Forall_cons. Qed.

#[export] Hint Resolve to_u8_ok : ngx.
#[export] Hint Rewrite bytes_ok_cons bytes_ok_app no_nul_cons : ngx_rw.

Lemma deref_lookup p i c : p !! i = Some c -> deref p i = Ok c.
Proof. unfold deref. by intros ->. Qed.

Lemma at_lookup t i c : 0 <= i -> t !! Z.to_nat i = Some c -> at_ t i = Ok c.
Proof. intros Hi H. unfold at_. tests. by apply deref_lookup. Qed.

Lemma store_ok p i c : (i < length p)%nat -> store p i c = Ok (<[i:=c]> p).
Proof. intros H. unfold store. tests. Qed.

Lemma lexdiff_refl l : lexdiff l l = 0.
Proof. induction l as [|x l IH]; cbn; [done|]. by rewrite Z.eqb_refl. Qed.

Lemma lexdiff_zero_iff l1 l2 :
  Forall (fun c => 0 < c) l1 -> Forall (fun c => 0 < c) l2 ->
  lexdiff l1 l2 = 0 <-> l1 = l2.
Proof.
  intros H1 H2. split; [|intros ->; apply lexdiff_refl].
  revert l2 H2. induction H1 as [|x l1 Hx _ IH]; intros l2 [|Hy Hl2]; cbn; try lia.
  - done.
  - tests. intros E. subst. f_equal. by apply IH.
Qed.

Lemma lexdiff_anti l1 l2 : lexdiff l1 l2 = - lexdiff l2 l1.
Proof.
  revert l2. induction l1 as [|x l1 IH]; intros [|y l2]; cbn; try lia.
  rewrite (Z.eqb_sym y x). tests. apply IH.
Qed.

(** On positive sequences the sign of [lexdiff] is a transitive order. *)
Lemma lexdiff_trans l1 l2 l3 :
  Forall (fun c => 0 < c) l1 -> Forall (fun c => 0 < c) l2 ->
  Forall (fun c => 0 < c) l3 ->
  lexdiff l1 l2 <= 0 -> lexdiff l2 l3 <= 0 -> lexdiff l1 l3 <= 0.
Proof.
  intros H1. revert l2 l3.
  induction H1 as [|x l1 Hx _ IH]; intros l2 l3 H2 H3 H12 H23.
  - destruct H3; cbn; lia.
  - destruct H2 as [|y l2 Hy H2]; cbn in H12; [lia|].
    destruct H3 as [|z l3 Hz H3]; cbn in H23 |- *; [lia|].
    tests. by apply (IH l2 l3).
Qed.

(** Induction by three elements. *)
Lemma list_ind3 {A} (P : list A -> Prop) :
  P [] -> (forall a, P [a]) -> (forall a b, P [a; b]) ->
  (forall a b c l, P l -> P (a :: b :: c :: l)) -> forall l, P l.
Proof.
  intros H0 H1 H2 H3.
  fix IH 1. intros [|a [|b [|c l]]]; [done|apply H1|apply H2|apply H3, IH].
Qed.

(** * Strings of bits *)

(** The [n] low bits of [v], the highest first. *)
Fixpoint bits_of (n : nat) (v : Z) : list bool :=
  match n with O => [] | S k => Z.testbit v (Z.of_nat k) :: bits_of k v end.

Lemma bits_of_length n v : length (bits_of n v) = n.
Proof. induction n; [done|]. cbn. by f_equal. Qed.

Lemma bits_of_ext n v w : (forall i, 0 <= i < Z.of_nat n -> Z.testbit v i = Z.testbit w i) -> bits_of n v = bits_of n w.
Proof. induction n as [|n IH]; intros H; [done|]. cbn. f_equal; [apply H; lia|]. apply IH. intros i Hi. apply H. lia. Qed.

Lemma bits_of_app a b v : bits_of (a + b) v = bits_of a (Z.shiftr v (Z.of_nat b)) ++ bits_of b v.
Proof.
  induction a as [|a IH]; [done|]. cbn. rewrite IH. f_equal. rewrite Z.shiftr_spec by lia. f_equal. lia.
Qed.

Lemma bits_of_lor n v w : bits_of n (Z.lor v w) = zip_with orb (bits_of n v) (bits_of n w).
Proof. induction n as [|n IH]; [done|]. cbn. rewrite Z.lor_spec. by f_equal. Qed.

Lemma bits_of_mod n k v : (n <= k)%nat -> bits_of n (v mod 2 ^ Z.of_nat k) = bits_of n v.
Proof. intros Hk. apply bits_of_ext. intros i Hi. apply Z.mod_pow2_bits_low. lia. Qed.

Lemma bits_of_zeros n : bits_of n 0 = replicate n false.
Proof. induction n as [|n IH]; [done|]. cbn. by rewrite Z.testbit_0_l, IH. Qed.

Lemma bits_of_ones n k : (n <= k)%nat -> bits_of n (2 ^ Z.of_nat k - 1) = replicate n true.
Proof.
  intros Hk. rewrite Z.sub_1_r, <- Z.ones_equiv. induction n as [|n IH]; [done|]. cbn. rewrite IH by lia.
  by rewrite Z.ones_spec_low by lia.
Qed.

Lemma bits_of_shiftl n k v : bits_of (n + k) (Z.shiftl v (Z.of_nat k)) = bits_of n v ++ replicate k false.
Proof.
  rewrite bits_of_app, Z.shiftr_shiftl_l by lia. rewrite Z.sub_diag, Z.shiftl_0_r. f_equal.
  rewrite <- (bits_of_zeros k). apply bits_of_ext. intros i Hi. by rewrite Z.shiftl_spec_low, Z.testbit_0_l by lia.
Qed.

Lemma bits_of_small n k v : 0 <= v < 2 ^ Z.of_nat k -> bits_of (n + k) v = replicate n false ++ bits_of k v.
Proof.
  intros Hv. rewrite bits_of_app. f_equal. rewrite Z.shiftr_div_pow2, Z.div_small by lia. apply bits_of_zeros.
Qed.

Lemma bits_of_shiftr n k v : (k <= n)%nat -> 0 <= v < 2 ^ Z.of_nat n ->
  bits_of n (Z.shiftr v (Z.of_nat k)) = replicate k false ++ take (n - k) (bits_of n v).
Proof.
  intros Hk Hv. assert (En : n = (k + (n - k))%nat) by lia.
  assert (E : bits_of n v = bits_of (n - k) (Z.shiftr v (Z.of_nat k)) ++ bits_of k v) by (rewrite <- bits_of_app; f_equal; lia).
  rewrite E. rewrite take_app_length' by (by rewrite bits_of_length).
  replace (bits_of n (Z.shiftr v (Z.of_nat k))) with (bits_of (k + (n - k)) (Z.shiftr v (Z.of_nat k))) by (f_equal; lia).
  apply bits_of_small. rewrite Z.shiftr_div_pow2 by lia. split; [apply Z.div_pos; lia|].
  apply Z.div_lt_upper_bound; [lia|]. rewrite <- Z.pow_add_r by lia. replace (Z.of_nat k + Z.of_nat (n - k)) with (Z.of_nat n) by lia. lia.
Qed.

(** A number below a power of two is its bits. *)
Lemma bits_of_inj n v w : 0 <= v < 2 ^ Z.of_nat n -> 0 <= w < 2 ^ Z.of_nat n -> bits_of n v = bits_of n w -> v = w.
Proof.
  intros Hv Hw E. apply Z.bits_inj'. intros i Hi. destruct (Z_lt_le_dec i (Z.of_nat n)) as [Hn|Hn].
  - clear Hv Hw. induction n as [|n IH]; [lia|]. cbn in E. injection E as E1 E2. destruct (decide (i = Z.of_nat n)) as [->|]; [done|].
    apply IH; [done|lia].
  - assert (Hb : forall u, 0 <= u < 2 ^ Z.of_nat n -> Z.testbit u i = false).
    { intros u Hu. destruct (Z.eq_dec u 0) as [->|]; [apply Z.testbit_0_l|]. apply Z.bits_above_log2; [lia|].
      assert (Z.log2 u < Z.of_nat n) by (apply Z.log2_lt_pow2; lia). lia. }
    by rewrite !Hb.
Qed.
