(* ===== verification/StringCompare.v ===== *)
(** Component "string primitives": the copying, comparing and searching
    functions of src/core/ngx_string.c and the macros of ngx_string.h they use.
    A pointer is the list of the bytes from it to the end of its object, a
    buffer that is written is the list of the bytes stored in it, in order. *)

From stdpp Require Import base numbers list option strings.
From Stdlib Require Import ZArith Lia.
From S2P Require Import Prelude.
Local Open Scope Z_scope.

(** * Definitions *)

(** The expression [(c >= 'A' && c <= 'Z') ? (c | 0x20) : c]. *)
Definition fold_case (c : Z) : Z :=
  if ("A"%ch <=? c) && (c <=? "Z"%ch) then Z.lor c 0x20 else c.

Definition ngx_tolower (c : Z) : Z := to_u8 (fold_case c).

(** [ngx_strlow(dst, src, n)]: the bytes stored in [dst]. *)
Fixpoint ngx_strlow (src : list Z) (n : nat) {struct n} : outcome (list Z) :=
  match n with
  | O => Ok []
  | S n' =>
      match src with
      | [] => UB
      | c :: src' => dst ← ngx_strlow src' n'; Ok (ngx_tolower c :: dst)
      end
  end.

(** [ngx_cpystrn(dst, src, n)]: the bytes stored and the offset returned. *)
Fixpoint cpystrn_loop (src : list Z) (n : nat) {struct n}
  : outcome (list Z * nat) :=
  match n with
  | O => Ok ([0], 0%nat)
  | S n' =>
      match src with
      | [] => UB
      | c :: src' =>
          if c =? 0 then Ok ([c], 0%nat)
          else '(dst, off) ← cpystrn_loop src' n'; Ok (c :: dst, S off)
      end
  end.

Definition ngx_cpystrn (src : list Z) (n : nat) : outcome (list Z * nat) :=
  match n with O => Ok ([], 0%nat) | S n' => cpystrn_loop src n' end.

(** The value [return c1 - c2] has when the operands are [ngx_uint_t] and the
    function returns [ngx_int_t]. *)
Definition uint_diff (c1 c2 : Z) : Z := to_i64 (to_u64 (c1 - c2)).

Fixpoint ngx_strcasecmp (s1 s2 : list Z) : outcome Z :=
  match s1, s2 with
  | c1 :: s1', c2 :: s2' =>
      let c1 := fold_case c1 in
      let c2 := fold_case c2 in
      if c1 =? c2 then
        if negb (c1 =? 0) then ngx_strcasecmp s1' s2' else Ok 0
      else Ok (uint_diff c1 c2)
  | _, _ => UB
  end.

Fixpoint ngx_strncasecmp (s1 s2 : list Z) (n : nat) {struct n} : outcome Z :=
  match n with
  | O => Ok 0
  | S n' =>
      match s1, s2 with
      | c1 :: s1', c2 :: s2' =>
          let c1 := fold_case c1 in
          let c2 := fold_case c2 in
          if c1 =? c2 then
            if negb (c1 =? 0) then ngx_strncasecmp s1' s2' n' else Ok 0
          else Ok (uint_diff c1 c2)
      | _, _ => UB
      end
  end.

(** The searching functions return the offset of the match in [s1], [None]
    for the null pointer.  The two nested [do] loops become one recursion over
    [s1]: a mismatch of the first character and a failed comparison both
    continue with the next position. *)

Fixpoint strnstr_loop (s1 : list Z) (c2 : Z) (s2 : list Z) (n len pos : nat)
    {struct len} : outcome (option nat) :=
  match len with
  | O => Ok None
  | S len' =>
      match s1 with
      | [] => UB
      | c1 :: s1' =>
          if c1 =? 0 then Ok None
          else if negb (c1 =? c2) then strnstr_loop s1' c2 s2 n len' (S pos)
          else if (len' <? n)%nat then Ok None
          else m ← strncmp s1' s2 n;
               if negb (m =? 0) then strnstr_loop s1' c2 s2 n len' (S pos)
               else Ok (Some pos)
      end
  end.

Definition ngx_strnstr (s1 s2 : list Z) (len : nat) : outcome (option nat) :=
  match s2 with
  | [] => UB
  | c2 :: s2' => n ← strlen s2'; strnstr_loop s1 c2 s2' n len 0
  end.

Fixpoint strstrn_loop (s1 : list Z) (c2 : Z) (s2 : list Z) (n pos : nat)
  : outcome (option nat) :=
  match s1 with
  | [] => UB
  | c1 :: s1' =>
      if c1 =? 0 then Ok None
      else if negb (c1 =? c2) then strstrn_loop s1' c2 s2 n (S pos)
      else m ← strncmp s1' s2 n;
           if negb (m =? 0) then strstrn_loop s1' c2 s2 n (S pos)
           else Ok (Some pos)
  end.

Definition ngx_strstrn (s1 s2 : list Z) (n : nat) : outcome (option nat) :=
  match s2 with [] => UB | c2 :: s2' => strstrn_loop s1 c2 s2' n 0 end.

Fixpoint strcasestrn_loop (s1 : list Z) (c2 : Z) (s2 : list Z) (n pos : nat)
  : outcome (option nat) :=
  match s1 with
  | [] => UB
  | c1 :: s1' =>
      if c1 =? 0 then Ok None
      else if negb (fold_case c1 =? c2) then
        strcasestrn_loop s1' c2 s2 n (S pos)
      else m ← ngx_strncasecmp s1' s2 n;
           if negb (m =? 0) then strcasestrn_loop s1' c2 s2 n (S pos)
           else Ok (Some pos)
  end.

Definition ngx_strcasestrn (s1 s2 : list Z) (n : nat) : outcome (option nat) :=
  match s2 with
  | [] => UB
  | c2 :: s2' => strcasestrn_loop s1 (fold_case c2) s2' n 0
  end.

(** [room] is [last - s1], after [last -= n]. *)
Fixpoint strlcasestrn_loop (s1 : list Z) (room : Z) (c2 : Z) (s2 : list Z)
    (n pos : nat) : outcome (option nat) :=
  if room <=? 0 then Ok None
  else
    match s1 with
    | [] => UB
    | c1 :: s1' =>
        if negb (fold_case c1 =? c2) then
          strlcasestrn_loop s1' (room - 1) c2 s2 n (S pos)
        else m ← ngx_strncasecmp s1' s2 n;
             if negb (m =? 0) then
               strlcasestrn_loop s1' (room - 1) c2 s2 n (S pos)
             else Ok (Some pos)
    end.

Definition ngx_strlcasestrn (s1 : list Z) (last : nat) (s2 : list Z) (n : nat)
  : outcome (option nat) :=
  match s2 with
  | [] => UB
  | c2 :: s2' =>
      strlcasestrn_loop s1 (Z.of_nat last - Z.of_nat n) (fold_case c2) s2' n 0
  end.

(** The reverse comparisons; [n] is the index of the byte compared next. *)
Fixpoint rstrncmp_loop (s1 s2 : list Z) (n : nat) : outcome Z :=
  c1 ← deref s1 n; c2 ← deref s2 n;
  if negb (c1 =? c2) then Ok (c1 - c2)
  else match n with O => Ok 0 | S n' => rstrncmp_loop s1 s2 n' end.

Definition ngx_rstrncmp (s1 s2 : list Z) (n : nat) : outcome Z :=
  match n with O => Ok 0 | S n' => rstrncmp_loop s1 s2 n' end.

(** [c -= 'a' - 'A'] on a lower-case letter. *)
Definition upper_case (c : Z) : Z :=
  if ("a"%ch <=? c) && (c <=? "z"%ch) then to_u8 (c - ("a"%ch - "A"%ch)) else c.

Fixpoint rstrncasecmp_loop (s1 s2 : list Z) (n : nat) : outcome Z :=
  c1 ← deref s1 n; c2 ← deref s2 n;
  if negb (upper_case c1 =? upper_case c2) then
    Ok (upper_case c1 - upper_case c2)
  else match n with O => Ok 0 | S n' => rstrncasecmp_loop s1 s2 n' end.

Definition ngx_rstrncasecmp (s1 s2 : list Z) (n : nat) : outcome Z :=
  match n with O => Ok 0 | S n' => rstrncasecmp_loop s1 s2 n' end.

Definition ngx_memn2cmp (s1 s2 : list Z) (n1 n2 : nat) : outcome Z :=
  let '(n, z) := if (n1 <=? n2)%nat then (n1, -1) else (n2, 1) in
  m ← memcmp s1 s2 n;
  if negb (m =? 0) || (n1 =? n2)%nat then Ok m else Ok z.

(** In [ngx_dns_strcmp] the character '.' sorts as ' '. *)
Definition dns_key (c : Z) : Z := if c =? "."%ch then " "%ch else c.

Fixpoint ngx_dns_strcmp (s1 s2 : list Z) : outcome Z :=
  match s1, s2 with
  | c1 :: s1', c2 :: s2' =>
      let c1 := fold_case c1 in
      let c2 := fold_case c2 in
      if c1 =? c2 then
        if negb (c1 =? 0) then ngx_dns_strcmp s1' s2' else Ok 0
      else Ok (uint_diff (dns_key c1) (dns_key c2))
  | _, _ => UB
  end.

(** NGX_HAVE_CASELESS_FILESYSTEM is off on the modelled platform. *)
Fixpoint ngx_filename_cmp (s1 s2 : list Z) (n : nat) {struct n} : outcome Z :=
  match n with
  | O => Ok 0
  | S n' =>
      match s1, s2 with
      | c1 :: s1', c2 :: s2' =>
          if c1 =? c2 then
            if negb (c1 =? 0) then ngx_filename_cmp s1' s2' n' else Ok 0
          else if (c1 =? 0) || (c2 =? 0) then Ok (uint_diff c1 c2)
          else
            let c1 := if c1 =? "/"%ch then 0 else c1 in
            let c2 := if c2 =? "/"%ch then 0 else c2 in
            Ok (uint_diff c1 c2)
      | _, _ => UB
      end
  end.

(** [ngx_strlchr(p, last, c)]: the offset of the first [c] before [last]. *)
Fixpoint ngx_strlchr (p : list Z) (last : nat) (c : Z) {struct last}
  : outcome (option nat) :=
  match last with
  | O => Ok None
  | S last' =>
      match p with
      | [] => UB
      | b :: p' =>
          if b =? c then Ok (Some 0%nat)
          else r ← ngx_strlchr p' last' c; Ok (option_map S r)
      end
  end.

(** * The C string inside the first [n] bytes *)

Fixpoint cpre (n : nat) (s : list Z) {struct n} : list Z :=
  match n, s with
  | S n', c :: s' => if c =? 0 then [] else c :: cpre n' s'
  | _, _ => []
  end.

(** [n] bytes, or fewer up to a NUL, can be read at [s]. *)
Fixpoint readable (n : nat) (s : list Z) {struct n} : Prop :=
  match n, s with
  | O, _ => True
  | S _, [] => False
  | S n', c :: s' => c = 0 \/ readable n' s'
  end.

Lemma readable_length n s : (n <= length s)%nat -> readable n s.
Proof.
  revert s. induction n as [|n IH]; intros [|c s]; cbn; try lia; [done..|].
  intros H. right. apply IH. lia.
Qed.

Lemma readable_cstring n s r : readable n (s ++ 0 :: r).
Proof.
  revert n. induction s as [|c s IH]; intros [|n]; cbn; auto.
Qed.

Lemma cpre_app n s r : no_nul s -> (length s < n)%nat -> cpre n (s ++ 0 :: r) = s.
Proof.
  revert n. induction s as [|c s IH]; intros [|n] Hs Hn; cbn in *; try lia; [done|].
  apply no_nul_cons in Hs as [Hc Hs]. tests. f_equal. apply IH; auto. lia.
Qed.

Lemma cpre_no_nul n s : no_nul s -> cpre n s = take n s.
Proof.
  revert s. induction n as [|n IH]; intros [|c s] Hs; cbn; auto.
  apply no_nul_cons in Hs as [Hc Hs]. tests. f_equal. by apply IH.
Qed.

Lemma cpre_ok n s : bytes_ok s -> bytes_ok (cpre n s).
Proof.
  intros H. revert n. induction H as [|c s Hc _ IH]; intros [|n]; cbn; try by constructor.
  destruct_test; constructor; [done | apply IH].
Qed.

Lemma cpre_nonzero n s : no_nul (cpre n s).
Proof.
  revert s. induction n as [|n IH]; intros [|c s]; cbn; try by constructor.
  destruct_test; constructor; [done | apply IH].
Qed.

Lemma cpre_length n s : (length (cpre n s) <= n)%nat.
Proof.
  revert s. induction n as [|n IH]; intros [|c s]; cbn; try lia.
  destruct_test; cbn; [lia|]. specialize (IH s). lia.
Qed.

Lemma lor_0x20_upper c : 65 <= c <= 90 -> Z.lor c 0x20 = c + 32.
Proof.
  intros H. pose proof (byte_forall
    (fun c => negb ((65 <=? c) && (c <=? 90)) || (Z.lor c 0x20 =? c + 32)) eq_refl c) as B.
  cbn beta in B. unfold byte_ok in B. tests. all: specialize (B ltac:(lia)); tests.
Qed.

Lemma fold_case_byte c : byte_ok c -> byte_ok (fold_case c).
Proof.
  intros H. unfold fold_case. tests. rewrite lor_0x20_upper by lia.
  unfold byte_ok in *. lia.
Qed.

Lemma fold_case_zero c : fold_case c = 0 <-> c = 0.
Proof.
  unfold fold_case. tests. rewrite lor_0x20_upper by lia. lia.
Qed.

Lemma ngx_tolower_fold c : byte_ok c -> ngx_tolower c = fold_case c.
Proof. intros H. by apply to_u8_id, fold_case_byte. Qed.

Lemma uint_diff_bytes c1 c2 : byte_ok c1 -> byte_ok c2 -> uint_diff c1 c2 = c1 - c2.
Proof. intros H1 H2. apply to_i64_u64. unfold byte_ok in *. lia. Qed.
#[export] Hint Resolve fold_case_byte : ngx.

(** * Copying *)

Lemma cpystrn_loop_spec src n :
  readable n src ->
  cpystrn_loop src n = Ok (cpre n src ++ [0], length (cpre n src)).
Proof.
  revert src. induction n as [|n IH]; intros src H; [done|].
  destruct src as [|c src]; [by destruct H|]. cbn [cpystrn_loop cpre].
  destruct_test; [by subst|]. rewrite IH by (destruct H; [lia|done]). done.
Qed.

(** * Comparisons *)

(** Both case-insensitive comparisons compute the lexicographic difference of
    the folded C strings. *)
Lemma strncasecmp_lexdiff s1 s2 n :
  bytes_ok s1 -> bytes_ok s2 -> readable n s1 -> readable n s2 ->
  ngx_strncasecmp s1 s2 n =
    Ok (lexdiff (fold_case <$> cpre n s1) (fold_case <$> cpre n s2)).
Proof.
  revert s1 s2. induction n as [|n IH]; intros s1 s2 B1 B2 R1 R2; [done|].
  destruct s1 as [|c1 s1], s2 as [|c2 s2]; cbn in R1, R2; try done.
  apply bytes_ok_cons in B1 as [Hc1 B1]. apply bytes_ok_cons in B2 as [Hc2 B2].
  cbn [ngx_strncasecmp cpre].
  pose proof (fold_case_zero c1). pose proof (fold_case_zero c2).
  rewrite uint_diff_bytes by auto with ngx.
  destruct (Z.eqb_spec c1 0) as [->|N1], (Z.eqb_spec c2 0) as [->|N2]; cbn; tests; try done.
  destruct R1, R2; try lia. by apply IH.
Qed.

(** [ngx_strcasecmp] is [ngx_strncasecmp] without a limit. *)
Lemma strcasecmp_strncasecmp a r s2 n :
  no_nul a -> (length a < n)%nat ->
  ngx_strcasecmp (a ++ 0 :: r) s2 = ngx_strncasecmp (a ++ 0 :: r) s2 n.
Proof.
  revert s2 n. induction a as [|c1 a IH]; intros s2 [|n] H L; cbn in *; try lia.
  - destruct s2 as [|c2 s2]; [done|]. by case_match.
  - apply no_nul_cons in H as [Hc H]. destruct s2 as [|c2 s2]; [done|].
    by rewrite (IH s2 n) by (done || lia).
Qed.

(** [ngx_filename_cmp] orders paths by this key, '/' first. *)
Definition path_key (c : Z) : Z := if c =? "/"%ch then 1 else c + 1.

Lemma filename_cmp_key s1 s2 n :
  bytes_ok s1 -> bytes_ok s2 -> readable n s1 -> readable n s2 ->
  exists r, ngx_filename_cmp s1 s2 n = Ok r /\
    Z.sgn r = Z.sgn (lexdiff (path_key <$> cpre n s1) (path_key <$> cpre n s2)).
Proof.
  revert s1 s2. induction n as [|n IH]; intros s1 s2 B1 B2 R1 R2; [by exists 0|].
  destruct s1 as [|c1 s1], s2 as [|c2 s2]; cbn in R1, R2; try done.
  apply bytes_ok_cons in B1 as [Hc1 B1]. apply bytes_ok_cons in B2 as [Hc2 B2].
  cbn [ngx_filename_cmp cpre].
  assert (Hz : byte_ok 0) by (unfold byte_ok; lia).
  assert (D : forall a b, byte_ok a -> byte_ok b -> uint_diff a b = a - b)
    by (intros; by apply uint_diff_bytes).
  destruct (Z.eqb_spec c1 c2) as [<-|N].
  - destruct (Z.eqb_spec c1 0) as [->|N1]; [by exists 0|].
    destruct R1 as [|R1]; [done|]. destruct R2 as [|R2]; [done|].
    destruct (IH s1 s2 B1 B2 R1 R2) as (r & -> & Hr).
    exists r. split; [done|]. rewrite Hr. cbn. by rewrite Z.eqb_refl.
  - destruct ((c1 =? 0) || (c2 =? 0)) eqn:E; (eexists; split; [done|]).
    all: rewrite D by (repeat case_match; done).
    all: unfold byte_ok in *; unfold path_key; tests; cbn; tests; cbn; try lia.
Qed.

Lemma fold_cpre_pos n s :
  bytes_ok s -> Forall (fun c => 0 < c) (fold_case <$> cpre n s).
Proof.
  intros B. apply Forall_fmap.
  assert (H : Forall (fun c => byte_ok c /\ c <> 0) (cpre n s))
    by (apply Forall_and; split; [by apply cpre_ok | apply cpre_nonzero]).
  eapply Forall_impl; [exact H|]. intros c [Hc Hz]. cbn. apply fold_case_byte in Hc as Hf.
  pose proof (fold_case_zero c). unfold byte_ok in Hf. lia.
Qed.

Lemma path_cpre_pos n s :
  bytes_ok s -> Forall (fun c => 0 < c) (path_key <$> cpre n s).
Proof.
  intros B. apply Forall_fmap. eapply Forall_impl; [by apply cpre_ok|].
  intros c Hc. unfold path_key, byte_ok in *. cbn. tests.
Qed.

Lemma path_key_inj c d : byte_ok c -> byte_ok d -> c <> 0 -> d <> 0 ->
  path_key c = path_key d -> c = d.
Proof. unfold path_key, byte_ok. intros. tests. Qed.

Lemma path_key_cpre_inj l1 l2 :
  bytes_ok l1 -> bytes_ok l2 -> no_nul l1 -> no_nul l2 ->
  path_key <$> l1 = path_key <$> l2 -> l1 = l2.
Proof.
  revert l2. induction l1 as [|c l1 IH]; intros [|d l2] B1 B2 N1 N2 E; try done.
  apply bytes_ok_cons in B1 as [], B2 as []. apply no_nul_cons in N1 as [], N2 as [].
  injection E as E1 E2. f_equal; [by apply path_key_inj | by apply IH].
Qed.

(** * Theorems on copying and comparing *)

Theorem ngx_cpystrn_terminates_string s r n :
  no_nul s -> (0 < n)%nat ->
  exists dst off, ngx_cpystrn (s ++ 0 :: r) n = Ok (dst, off) /\
    dst = take (n - 1) s ++ [0] /\ off = length (take (n - 1) s) /\
    (length dst <= n)%nat.
Proof.
  intros Hs Hn. destruct n as [|n]; [lia|]. cbn [ngx_cpystrn].
  rewrite cpystrn_loop_spec by apply readable_cstring.
  replace (S n - 1)%nat with n by lia.
  assert (E : cpre n (s ++ 0 :: r) = take n s).
  { clear Hn. revert n. induction s as [|c s IH]; intros [|n]; cbn; try done.
    apply no_nul_cons in Hs as [Hc Hs]. tests. f_equal. by apply IH. }
  rewrite E. do 2 eexists. repeat split. rewrite length_app, length_take. cbn. lia.
Qed.

Lemma ngx_cpystrn_terminates_string_witness :
  exists dst off, ngx_cpystrn (bytes "nginx" ++ 0 :: []) 4 = Ok (dst, off) /\
    dst = take (4 - 1) (bytes "nginx") ++ [0] /\
    off = length (take (4 - 1) (bytes "nginx")) /\ (length dst <= 4)%nat.
Proof.
  apply (ngx_cpystrn_terminates_string (bytes "nginx") [] 4).
  - repeat constructor; discriminate.
  - lia.
Defined.

Theorem ngx_strncasecmp_correct s1 s2 n :
  bytes_ok s1 -> bytes_ok s2 -> readable n s1 -> readable n s2 ->
  let a := fold_case <$> cpre n s1 in
  let b := fold_case <$> cpre n s2 in
  ngx_strncasecmp s1 s2 n = Ok (lexdiff a b) /\ (lexdiff a b = 0 <-> a = b).
Proof.
  intros B1 B2 R1 R2. split; [by apply strncasecmp_lexdiff|].
  apply lexdiff_zero_iff; by apply fold_cpre_pos.
Qed.

Theorem ngx_filename_cmp_order s1 s2 s3 n :
  bytes_ok s1 -> bytes_ok s2 -> bytes_ok s3 ->
  readable n s1 -> readable n s2 -> readable n s3 ->
  exists r12 r21 r23 r13,
    ngx_filename_cmp s1 s2 n = Ok r12 /\ ngx_filename_cmp s2 s1 n = Ok r21 /\
    ngx_filename_cmp s2 s3 n = Ok r23 /\ ngx_filename_cmp s1 s3 n = Ok r13 /\
    Z.sgn r21 = - Z.sgn r12 /\
    (r12 <= 0 -> r23 <= 0 -> r13 <= 0) /\
    (r12 = 0 <-> cpre n s1 = cpre n s2).
Proof.
  intros B1 B2 B3 R1 R2 R3.
  destruct (filename_cmp_key s1 s2 n) as (r12 & ? & E12); auto.
  destruct (filename_cmp_key s2 s1 n) as (r21 & ? & E21); auto.
  destruct (filename_cmp_key s2 s3 n) as (r23 & ? & E23); auto.
  destruct (filename_cmp_key s1 s3 n) as (r13 & ? & E13); auto.
  exists r12, r21, r23, r13. do 4 (split; [done|]).
  pose proof (path_cpre_pos n s1 B1) as P1. pose proof (path_cpre_pos n s2 B2) as P2.
  pose proof (path_cpre_pos n s3 B3) as P3. split_and!.
  - rewrite E12, E21, lexdiff_anti. apply Z.sgn_opp.
  - intros L12 L23. pose proof (lexdiff_trans _ _ _ P1 P2 P3). lia.
  - transitivity (path_key <$> cpre n s1 = path_key <$> cpre n s2).
    + rewrite <- lexdiff_zero_iff by done. lia.
    + split; [|by intros ->].
      apply path_key_cpre_inj; auto using cpre_ok, cpre_nonzero.
Qed.

(** * Theorems on searching *)

(** [pat] occurs in [hay] at offset [i], letter case ignored. *)
Definition occurs_nocase (hay pat : list Z) (i : nat) : Prop :=
  fold_case <$> take (length pat) (drop i hay) = fold_case <$> pat.

(** The offset [r] is the first one below [bound] satisfying [P], if any. *)
Definition is_first (P : nat -> Prop) (bound : Z) (r : option nat) : Prop :=
  match r with
  | Some i => Z.of_nat i < bound /\ P i /\ forall j, (j < i)%nat -> ~ P j
  | None => forall j, Z.of_nat j < bound -> ~ P j
  end.

Lemma is_first_here (P : nat -> Prop) b : 0 < b -> P 0%nat -> is_first P b (Some 0%nat).
Proof. intros Hb HP. split; [lia|]. split; [done|]. lia. Qed.

Lemma is_first_none (P : nat -> Prop) b : b <= 0 -> is_first P b None.
Proof. intros Hb j Hj. lia. Qed.

Lemma is_first_next (P : nat -> Prop) b r :
  ~ P 0%nat -> is_first (fun j => P (S j)) (b - 1) r -> is_first P b (option_map S r).
Proof.
  intros H0. destruct r as [i|]; cbn.
  - intros (Hb & Hi & Hlt). split; [lia|]. split; [done|].
    intros [|j] Hj; [done|]. apply Hlt. lia.
  - intros H [|j] Hj; [done|]. apply H. lia.
Qed.

Lemma cpre_full n s : length (cpre n s) = n -> cpre n s = take n s.
Proof.
  revert s. induction n as [|n IH]; intros [|c s]; cbn; try done.
  destruct_test; cbn; [done|]. intros [= E]. f_equal. by apply IH.
Qed.

Lemma fold_no_nul l : no_nul (fold_case <$> l) <-> no_nul l.
Proof.
  unfold no_nul. rewrite Forall_fmap.
  split; intros H; (eapply Forall_impl; [exact H|]); intros c; cbn.
  all: pose proof (fold_case_zero c); lia.
Qed.

Lemma cpre_take n s : cpre n (take n s) = cpre n s.
Proof.
  revert s. induction n as [|n IH]; intros [|c s]; cbn; try done.
  by rewrite IH.
Qed.

Lemma fold_cpre_match n s pat :
  no_nul pat -> length pat = n ->
  (fold_case <$> cpre n s = fold_case <$> pat <->
   fold_case <$> take n s = fold_case <$> pat).
Proof.
  intros Hp L. split; intros E.
  - rewrite <- E, cpre_full; [done|].
    apply (f_equal length) in E. rewrite !length_fmap in E. by rewrite E.
  - assert (N : no_nul (take n s)) by (rewrite <- fold_no_nul, E; by apply fold_no_nul).
    rewrite <- cpre_take, (cpre_no_nul n (take n s)) by done.
    by rewrite take_take, Nat.min_id.
Qed.

Lemma strncasecmp_match s pat n :
  bytes_ok s -> bytes_ok pat -> no_nul pat -> length pat = n -> (n <= length s)%nat ->
  exists m, ngx_strncasecmp s pat n = Ok m /\
    (m = 0 <-> fold_case <$> take n s = fold_case <$> pat).
Proof.
  intros Bs Bp Np L Ls.
  assert (R1 : readable n s) by (apply readable_length; lia).
  assert (R2 : readable n pat) by (apply readable_length; lia).
  eexists. split; [by apply strncasecmp_lexdiff|].
  rewrite lexdiff_zero_iff by by apply fold_cpre_pos. rewrite (cpre_no_nul n pat) by done.
  rewrite (take_ge pat) by lia. by apply fold_cpre_match.
Qed.

Lemma strlcasestrn_loop_spec s1 room p pat n pos :
  bytes_ok s1 -> bytes_ok pat -> no_nul pat -> length pat = n ->
  room + Z.of_nat n <= Z.of_nat (length s1) ->
  exists r, strlcasestrn_loop s1 room (fold_case p) pat n pos
      = Ok (option_map (Nat.add pos) r) /\
    is_first (occurs_nocase s1 (p :: pat)) room r.
Proof.
  intros B1 Bp Np L. revert room pos.
  induction B1 as [|c1 s1 Hc1 B1 IH]; intros room pos Hr; cbn [strlcasestrn_loop].
  - cbn in Hr. tests. exists None. split; [done|]. apply is_first_none. lia.
  - destruct (Z.leb_spec room 0).
    { exists None. split; [done|]. by apply is_first_none. }
    cbn [length] in Hr.
    destruct (IH (room - 1) (S pos)) as (r & Er & Fr); [lia|].
    assert (Skip : ~ occurs_nocase (c1 :: s1) (p :: pat) 0 ->
      exists r0, strlcasestrn_loop s1 (room - 1) (fold_case p) pat n (S pos)
        = Ok (option_map (Nat.add pos) r0) /\
      is_first (occurs_nocase (c1 :: s1) (p :: pat)) room r0).
    { intros H0. exists (option_map S r). rewrite Er. split.
      - destruct r as [k|]; cbn; [|done]. do 2 f_equal. lia.
      - by apply is_first_next. }
    destruct (Z.eqb_spec (fold_case c1) (fold_case p)) as [Ec|Ec]; cbn [negb].
    + destruct (strncasecmp_match s1 pat n) as (m & -> & Hm); auto; [lia|].
      cbn. destruct (Z.eqb_spec m 0) as [->|Nm]; cbn [negb].
      * exists (Some 0%nat). split; [cbn; do 2 f_equal; lia|].
        apply is_first_here; [done|]. unfold occurs_nocase. cbn. rewrite L.
        f_equal; [done|]. by apply Hm.
      * apply Skip. unfold occurs_nocase. cbn. rewrite L. intros [= _ E2].
        apply Nm. by apply Hm.
    + apply Skip. unfold occurs_nocase. cbn. intros [= E1 _]. done.
Qed.

Theorem ngx_strlcasestrn_first s1 last pat :
  bytes_ok s1 -> bytes_ok pat -> no_nul pat -> pat <> [] ->
  (last <= length s1)%nat ->
  exists r, ngx_strlcasestrn s1 last pat (length pat - 1) = Ok r /\
    is_first (occurs_nocase s1 pat)
      (Z.of_nat last - Z.of_nat (length pat - 1)) r.
Proof.
  intros B1 Bp Np Hne Hl. destruct pat as [|p pat]; [done|].
  apply bytes_ok_cons in Bp as [_ Bp]. apply no_nul_cons in Np as [_ Np].
  replace (length (p :: pat) - 1)%nat with (length pat) by (cbn; lia).
  cbn [ngx_strlcasestrn].
  destruct (strlcasestrn_loop_spec s1 (Z.of_nat last - Z.of_nat (length pat)) p
              pat (length pat) 0) as (r & E & F); auto; [lia|].
  exists r. split; [|done]. rewrite E. by destruct r.
Qed.

(** The exact search inside the C string of at most [len] bytes. *)
Definition occurs (hay pat : list Z) (i : nat) : Prop :=
  take (length pat) (drop i hay) = pat.

Lemma readable_le m n s : (m <= n)%nat -> readable n s -> readable m s.
Proof.
  revert n s. induction m as [|m IH]; intros [|n] [|c s] L; cbn; try lia; try done.
  intros [|H]; [by left|right]. apply (IH n); [lia|done].
Qed.

Lemma take_cpre m n s : (m <= n)%nat -> take m (cpre n s) = cpre m s.
Proof.
  revert n s. induction m as [|m IH]; intros [|n] [|c s] L; cbn; try lia; try done.
  destruct_test; cbn; [done|]. f_equal. apply IH. lia.
Qed.

Lemma strncmp_match s pat r n :
  readable n s -> no_nul pat -> length pat = n ->
  exists m, strncmp s (pat ++ r) n = Ok m /\ (m = 0 <-> cpre n s = pat).
Proof.
  revert s pat. induction n as [|n IH]; intros s pat R N L.
  - destruct pat; [|done]. by exists 0.
  - destruct pat as [|p pat]; [done|]. destruct s as [|c s]; [by destruct R|].
    apply no_nul_cons in N as [Np N]. cbn in L, R. injection L as L. cbn.
    destruct (Z.eqb_spec c p) as [->|Hcp]; cbn.
    + destruct (Z.eqb_spec p 0); [done|]. destruct R as [|R]; [done|].
      destruct (IH s pat) as (m & -> & Hm); auto. exists m. split; [done|].
      rewrite Hm. split; [by intros ->|by intros [=]].
    + exists (c - p). split; [done|].
      destruct_test; split; try done; try lia. by intros [= ->].
Qed.

Lemma strnstr_loop_spec s1 len p pat n pos :
  readable len s1 -> no_nul (p :: pat) -> length pat = n ->
  exists r, strnstr_loop s1 p (pat ++ [0]) n len pos
      = Ok (option_map (Nat.add pos) r) /\
    is_first (occurs (cpre len s1) (p :: pat))
      (Z.of_nat (length (cpre len s1)) - Z.of_nat n) r.
Proof.
  intros R N L. apply no_nul_cons in N as [Np N].
  revert s1 pos R. induction len as [|len IH]; intros s1 pos R.
  { exists None. split; [done|]. apply is_first_none. cbn. lia. }
  destruct s1 as [|c1 s1]; [by destruct R|]. cbn in R. cbn [strnstr_loop cpre].
  destruct (Z.eqb_spec c1 0) as [->|Hc].
  { exists None. split; [done|]. apply is_first_none. cbn. lia. }
  destruct R as [|R]; [done|].
  destruct (IH s1 (S pos) R) as (r & Er & Fr).
  assert (Skip : ~ occurs (c1 :: cpre len s1) (p :: pat) 0 ->
    exists r0, strnstr_loop s1 p (pat ++ [0]) n len (S pos)
        = Ok (option_map (Nat.add pos) r0) /\
      is_first (occurs (c1 :: cpre len s1) (p :: pat))
        (Z.of_nat (length (c1 :: cpre len s1)) - Z.of_nat n) r0).
  { intros H0. exists (option_map S r). rewrite Er. split.
    - destruct r as [k|]; cbn; [|done]. do 2 f_equal. lia.
    - apply is_first_next; [done|].
      replace (_ - 1) with (Z.of_nat (length (cpre len s1)) - Z.of_nat n) by (cbn; lia).
      done. }
  destruct (Z.eqb_spec c1 p) as [->|Hcp]; cbn [negb].
  2: { apply Skip. unfold occurs. cbn. by intros [= E1 _]. }
  destruct (Nat.ltb_spec len n).
  { exists None. split; [done|]. apply is_first_none.
    pose proof (cpre_length len s1). cbn. lia. }
  destruct (strncmp_match s1 pat [0] n) as (m & -> & Hm); auto.
  { by apply (readable_le n len). }
  cbn. destruct (Z.eqb_spec m 0) as [->|Nm]; cbn [negb].
  - exists (Some 0%nat). split; [cbn; do 2 f_equal; lia|].
    assert (E : cpre n s1 = pat) by (by apply Hm).
    rewrite <- (take_cpre n len) in E by lia.
    apply (f_equal length) in E as E'. rewrite length_take in E'.
    apply is_first_here; [cbn; lia|]. unfold occurs. cbn. by rewrite L, E.
  - apply Skip. unfold occurs. cbn. rewrite L, take_cpre by lia. intros [= E]. by apply Nm, Hm.
Qed.

Theorem ngx_strnstr_first s1 pat len :
  readable len s1 -> no_nul pat -> pat <> [] ->
  exists r, ngx_strnstr s1 (pat ++ [0]) len = Ok r /\
    is_first (occurs (cpre len s1) pat)
      (Z.of_nat (length (cpre len s1)) - Z.of_nat (length pat - 1)) r.
Proof.
  intros R N Hne. destruct pat as [|p pat]; [done|].
  assert (E : strlen (pat ++ [0]) = Ok (length pat)).
  { apply no_nul_cons in N as [_ N]. clear -N. induction pat as [|c pat IH]; [done|].
    apply no_nul_cons in N as [Hc N]. cbn. tests. by rewrite IH. }
  cbn [ngx_strnstr app]. rewrite E. cbn.
  destruct (strnstr_loop_spec s1 len p pat (length pat) 0) as (r & Er & F); auto.
  exists r. rewrite Er. rewrite Nat.sub_0_r. split; [by destruct r|done].
Qed.

(** * Witnesses *)

Lemma ngx_strncasecmp_correct_witness :
  ngx_strncasecmp (bytes "Nginx" ++ [0]) (bytes "nGINX" ++ [0]) 6 = Ok 0.
Proof.
  refine (proj1 (ngx_strncasecmp_correct (bytes "Nginx" ++ [0]) (bytes "nGINX" ++ [0]) 6 _ _ _ _)).
  - apply bytes_okb_true. reflexivity.
  - apply bytes_okb_true. reflexivity.
  - apply readable_length. cbn. lia.
  - apply readable_length. cbn. lia.
Defined.

Lemma ngx_filename_cmp_order_witness :
  exists r12 r21 r23 r13,
    ngx_filename_cmp (bytes "a/b") (bytes "a.b") 3 = Ok r12 /\
    ngx_filename_cmp (bytes "a.b") (bytes "a/b") 3 = Ok r21 /\
    ngx_filename_cmp (bytes "a.b") (bytes "aab") 3 = Ok r23 /\
    ngx_filename_cmp (bytes "a/b") (bytes "aab") 3 = Ok r13 /\
    Z.sgn r21 = - Z.sgn r12 /\
    (r12 <= 0 -> r23 <= 0 -> r13 <= 0) /\
    (r12 = 0 <-> cpre 3 (bytes "a/b") = cpre 3 (bytes "a.b")).
Proof.
  apply (ngx_filename_cmp_order (bytes "a/b") (bytes "a.b") (bytes "aab") 3).
  1-3: apply bytes_okb_true; reflexivity.
  1-3: apply readable_length; cbn; lia.
Defined.

Lemma ngx_strlcasestrn_first_witness :
  exists r, ngx_strlcasestrn (bytes "GET /Index") 10 (bytes "/index") (6 - 1) = Ok r /\
    is_first (occurs_nocase (bytes "GET /Index") (bytes "/index"))
      (Z.of_nat 10 - Z.of_nat (6 - 1)) r.
Proof.
  apply (ngx_strlcasestrn_first (bytes "GET /Index") 10 (bytes "/index")).
  1-2: apply bytes_okb_true; reflexivity.
  - repeat constructor; discriminate.
  - discriminate.
  - cbn. lia.
Defined.

Lemma ngx_strnstr_first_witness :
  exists r, ngx_strnstr (bytes "keep-alive") (bytes "alive" ++ [0]) 10 = Ok r /\
    is_first (occurs (cpre 10 (bytes "keep-alive")) (bytes "alive"))
      (Z.of_nat (length (cpre 10 (bytes "keep-alive"))) - Z.of_nat (5 - 1)) r.
Proof.
  apply (ngx_strnstr_first (bytes "keep-alive") (bytes "alive") 10).
  - apply readable_length. cbn. lia.
  - repeat constructor; discriminate.
  - discriminate.
Defined.
