(* ===== verification/Atoi.v ===== *)
(** Component "number parsing": ngx_atoi and its relatives, ngx_hextoi and
    ngx_hex_dump of src/core/ngx_string.c.  Signed arithmetic goes through
    [int64], so that a result [Ok] also says that nothing overflowed. *)

From stdpp Require Import base numbers list option strings.
From Stdlib Require Import ZArith Lia.
From S2P Require Import Prelude.
Local Open Scope Z_scope.

(** * Definitions *)

(** [value * 10 + (c - '0')] in signed arithmetic. *)
Definition push_digit (base value d : Z) : outcome Z :=
  m ← int64 (value * base); int64 (m + d).

(** [value >= cutoff && (value > cutoff || *line - '0' > cutlim)] *)
Definition over_limit (cutoff cutlim value d : Z) : bool :=
  (cutoff <=? value) && ((cutoff <? value) || (cutlim <? d)).

(** The loop ngx_atoi, ngx_atosz, ngx_atoof and ngx_atotm share word for word. *)
Fixpoint atoi_loop (cutoff cutlim : Z) (line : list Z) (n : nat) (value : Z)
    {struct n} : outcome Z :=
  match n with
  | O => Ok value
  | S n' =>
      match line with
      | [] => UB
      | c :: line' =>
          if (c <? "0"%ch) || ("9"%ch <? c) then Ok NGX_ERROR
          else if over_limit cutoff cutlim value (c - "0"%ch) then Ok NGX_ERROR
          else value ← push_digit 10 value (c - "0"%ch);
               atoi_loop cutoff cutlim line' n' value
      end
  end.

Definition ngx_atoi (line : list Z) (n : nat) : outcome Z :=
  if (n =? 0)%nat then Ok NGX_ERROR
  else atoi_loop (NGX_MAX_INT_T_VALUE / 10) (NGX_MAX_INT_T_VALUE mod 10) line n 0.

Definition ngx_atosz (line : list Z) (n : nat) : outcome Z :=
  if (n =? 0)%nat then Ok NGX_ERROR
  else atoi_loop (NGX_MAX_SIZE_T_VALUE / 10) (NGX_MAX_SIZE_T_VALUE mod 10) line n 0.

Definition ngx_atoof (line : list Z) (n : nat) : outcome Z :=
  if (n =? 0)%nat then Ok NGX_ERROR
  else atoi_loop (NGX_MAX_OFF_T_VALUE / 10) (NGX_MAX_OFF_T_VALUE mod 10) line n 0.

Definition ngx_atotm (line : list Z) (n : nat) : outcome Z :=
  if (n =? 0)%nat then Ok NGX_ERROR
  else atoi_loop (NGX_MAX_TIME_T_VALUE / 10) (NGX_MAX_TIME_T_VALUE mod 10) line n 0.

(** ngx_atofp: the first loop yields the digits and the unused part of
    [point], [None] standing for [return NGX_ERROR]. *)
Fixpoint atofp_digits (line : list Z) (n : nat) (point : nat) (dot : bool)
    (value : Z) {struct n} : outcome (option (Z * nat)) :=
  match n with
  | O => Ok (Some (value, point))
  | S n' =>
      if (point =? 0)%nat then Ok None
      else
        match line with
        | [] => UB
        | c :: line' =>
            if c =? "."%ch then
              if dot then Ok None else atofp_digits line' n' point true value
            else if (c <? "0"%ch) || ("9"%ch <? c) then Ok None
            else if over_limit (NGX_MAX_INT_T_VALUE / 10)
                      (NGX_MAX_INT_T_VALUE mod 10) value (c - "0"%ch) then Ok None
            else value ← push_digit 10 value (c - "0"%ch);
                 atofp_digits line' n' (if dot then point - 1 else point)%nat dot value
        end
  end.

(** [while (point--)]: the missing fractional digits. *)
Fixpoint atofp_scale (point : nat) (value : Z) : outcome Z :=
  match point with
  | O => Ok value
  | S point' =>
      if NGX_MAX_INT_T_VALUE / 10 <? value then Ok NGX_ERROR
      else value ← int64 (value * 10); atofp_scale point' value
  end.

Definition ngx_atofp (line : list Z) (n point : nat) : outcome Z :=
  if (n =? 0)%nat then Ok NGX_ERROR
  else
    r ← atofp_digits line n point false 0;
    match r with
    | None => Ok NGX_ERROR
    | Some (value, point) => atofp_scale point value
    end.

Fixpoint hextoi_loop (line : list Z) (n : nat) (value : Z) {struct n} : outcome Z :=
  match n with
  | O => Ok value
  | S n' =>
      if NGX_MAX_INT_T_VALUE / 16 <? value then Ok NGX_ERROR
      else
        match line with
        | [] => UB
        | ch :: line' =>
            if ("0"%ch <=? ch) && (ch <=? "9"%ch) then
              value ← push_digit 16 value (ch - "0"%ch); hextoi_loop line' n' value
            else
              let c := to_u8 (Z.lor ch 0x20) in
              if ("a"%ch <=? c) && (c <=? "f"%ch) then
                value ← push_digit 16 value (c - "a"%ch + 10);
                hextoi_loop line' n' value
              else Ok NGX_ERROR
        end
  end.

Definition ngx_hextoi (line : list Z) (n : nat) : outcome Z :=
  if (n =? 0)%nat then Ok NGX_ERROR else hextoi_loop line n 0.

(** The digit strings [hex] and [HEX] of the printing functions. *)
Definition hex_digits : list Z := bytes "0123456789abcdef".
Definition HEX_digits : list Z := bytes "0123456789ABCDEF".

(** ngx_hex_dump: the bytes stored at [dst]. *)
Fixpoint ngx_hex_dump (src : list Z) (len : nat) {struct len} : outcome (list Z) :=
  match len with
  | O => Ok []
  | S len' =>
      match src with
      | [] => UB
      | b :: src' =>
          h ← deref hex_digits (Z.to_nat (Z.shiftr b 4));
          l ← deref hex_digits (Z.to_nat (Z.land b 0xf));
          rest ← ngx_hex_dump src' len';
          Ok (h :: l :: rest)
      end
  end.

(** * The reference: positional notation *)

Definition is_digit (c : Z) : bool := ("0"%ch <=? c) && (c <=? "9"%ch).

(** The value of a digit string read after [v]. *)
Definition dec_from (v : Z) (s : list Z) : Z :=
  fold_left (fun v c => v * 10 + (c - "0"%ch)) s v.
Definition dec_value (s : list Z) : Z := dec_from 0 s.

Definition hex_digit (c : Z) : option Z :=
  if is_digit c then Some (c - "0"%ch)
  else if ("a"%ch <=? c) && (c <=? "f"%ch) then Some (c - "a"%ch + 10)
  else if ("A"%ch <=? c) && (c <=? "F"%ch) then Some (c - "A"%ch + 10)
  else None.

Fixpoint hex_from (v : Z) (s : list Z) : option Z :=
  match s with
  | [] => Some v
  | c :: s' => match hex_digit c with Some d => hex_from (v * 16 + d) s' | None => None end
  end.

(** The big-endian value of a byte string. *)
Definition be_from (v : Z) (s : list Z) : Z := fold_left (fun v b => v * 256 + b) s v.

(** * Lemmas *)

Lemma dec_from_cons v c s : dec_from v (c :: s) = dec_from (v * 10 + (c - "0"%ch)) s.
Proof. done. Qed.

Lemma dec_from_app v s t : dec_from v (s ++ t) = dec_from (dec_from v s) t.
Proof. apply fold_left_app. Qed.

Lemma dec_from_le v s : 0 <= v -> forallb is_digit s = true -> v <= dec_from v s.
Proof.
  revert v. induction s as [|c s IH]; intros v Hv H; [cbn; lia|].
  cbn [forallb] in H. apply andb_prop in H as [Hc H].
  rewrite dec_from_cons. unfold is_digit in Hc. tests.
  specialize (IH (v * 10 + (c - "0"%ch)) ltac:(lia) H). lia.
Qed.

Lemma push_digit_ok base v d m :
  0 <= v -> 0 <= d -> 0 < base -> v * base + d <= m -> m < 2 ^ 63 ->
  push_digit base v d = Ok (v * base + d).
Proof.
  intros Hv Hd Hb H Hm. unfold push_digit.
  assert (0 <= v * base) by (apply Z.mul_nonneg_nonneg; lia).
  rewrite int64_ok by (unfold_casts; lia). cbn.
  by rewrite int64_ok by (unfold_casts; lia).
Qed.

(** The overflow test is exact. *)
Lemma over_limit_spec m v d :
  0 <= v -> 0 <= d < 10 -> 0 <= m ->
  over_limit (m / 10) (m mod 10) v d = (m <? v * 10 + d).
Proof.
  intros Hv Hd Hm. unfold over_limit. Z.div_mod_to_equations.
  apply eq_true_iff_eq. rewrite Z.ltb_lt, andb_true_iff, orb_true_iff, Z.leb_le, !Z.ltb_lt.
  lia.
Qed.

Lemma not_digit c : (c <? "0"%ch) || ("9"%ch <? c) = negb (is_digit c).
Proof. unfold is_digit. tests. Qed.

Lemma atoi_loop_spec m line n v :
  0 <= v <= m -> m < 2 ^ 63 -> (n <= length line)%nat ->
  let s := take n line in
  atoi_loop (m / 10) (m mod 10) line n v =
    Ok (if forallb is_digit s && (dec_from v s <=? m) then dec_from v s
        else NGX_ERROR).
Proof.
  intros Hv Hm. revert line v Hv. induction n as [|n IH]; intros line v Hv Hn.
  { rewrite take_0. cbn. unfold dec_from. cbn. tests. }
  destruct line as [|c line]; [cbn in Hn; lia|]. cbn [atoi_loop take forallb].
  rewrite not_digit. destruct (is_digit c) eqn:Hc; cbn [negb andb]; [|done].
  unfold is_digit in Hc. rewrite dec_from_cons.
  assert (Hd : 0 <= c - "0"%ch < 10) by tests.
  rewrite over_limit_spec by lia.
  destruct (Z.ltb_spec m (v * 10 + (c - "0"%ch))).
  - destruct (forallb is_digit (take n line)) eqn:Hs; cbn [andb]; [|done].
    pose proof (dec_from_le (v * 10 + (c - "0"%ch)) _ ltac:(lia) Hs). tests.
  - rewrite (push_digit_ok 10 v _ m) by lia. cbn. apply IH; [lia|].
    cbn in Hn. lia.
Qed.

(** * Decimal parsers *)

(** What ngx_atoi and its relatives return on the text [s], limit [m]. *)
Definition atoi_spec (m : Z) (s : list Z) : Z :=
  match s with
  | [] => NGX_ERROR
  | _ => if forallb is_digit s && (dec_value s <=? m) then dec_value s else NGX_ERROR
  end.

Lemma atoi_spec_loop m line n :
  0 <= m < 2 ^ 63 -> (n <= length line)%nat ->
  (if (n =? 0)%nat then Ok NGX_ERROR else atoi_loop (m / 10) (m mod 10) line n 0)
  = Ok (atoi_spec m (take n line)).
Proof.
  intros Hm Hn. destruct n as [|n]; [by rewrite take_0|].
  rewrite atoi_loop_spec by lia. by destruct line as [|c line]; [cbn in Hn; lia|].
Qed.

Lemma atoi_family line n :
  (n <= length line)%nat ->
  ngx_atoi line n = Ok (atoi_spec NGX_MAX_INT_T_VALUE (take n line)) /\
  ngx_atosz line n = Ok (atoi_spec NGX_MAX_SIZE_T_VALUE (take n line)) /\
  ngx_atoof line n = Ok (atoi_spec NGX_MAX_OFF_T_VALUE (take n line)) /\
  ngx_atotm line n = Ok (atoi_spec NGX_MAX_TIME_T_VALUE (take n line)).
Proof. intros Hn. split_and!; by apply atoi_spec_loop. Qed.

Theorem atoi_family_correct line n :
  (n <= length line)%nat ->
  ngx_atoi line n = Ok (atoi_spec NGX_MAX_INT_T_VALUE (take n line)) /\
  ngx_atosz line n = Ok (atoi_spec NGX_MAX_SIZE_T_VALUE (take n line)) /\
  ngx_atoof line n = Ok (atoi_spec NGX_MAX_OFF_T_VALUE (take n line)) /\
  ngx_atotm line n = Ok (atoi_spec NGX_MAX_TIME_T_VALUE (take n line)).
Proof. apply atoi_family. Qed.

(** * Fixed point *)

Lemma atofp_digits_spec line n point (dot : bool) v :
  0 <= v <= NGX_MAX_INT_T_VALUE -> (n <= length line)%nat ->
  forallb is_digit (take n line) = true ->
  (if dot then n <= point else 0 < point)%nat ->
  let s := take n line in
  atofp_digits line n point dot v =
    Ok (if dec_from v s <=? NGX_MAX_INT_T_VALUE
        then Some (dec_from v s, if dot then point - n else point)%nat
        else None).
Proof.
  revert line point v. induction n as [|n IH]; intros line point v Hv Hn Hd Hp.
  { rewrite take_0. cbn. unfold dec_from. cbn. rewrite Nat.sub_0_r.
    destruct dot; tests. }
  destruct line as [|c line]; [cbn in Hn; lia|].
  cbn [take forallb] in Hd. apply andb_prop in Hd as [Hc Hd]. cbn in Hn.
  assert (Hdc : 0 <= c - "0"%ch < 10) by (unfold is_digit in Hc; tests).
  cbn [atofp_digits take]. rewrite not_digit, Hc, dec_from_cons. cbn [negb].
  destruct (Nat.eqb_spec point 0); [destruct dot; lia|].
  destruct (Z.eqb_spec c "."%ch); [lia|].
  rewrite over_limit_spec by (unfold NGX_MAX_INT_T_VALUE; lia).
  destruct (Z.ltb_spec NGX_MAX_INT_T_VALUE (v * 10 + (c - "0"%ch))).
  - pose proof (dec_from_le (v * 10 + (c - "0"%ch)) _ ltac:(lia) Hd).
    destruct (Z.leb_spec (dec_from (v * 10 + (c - "0"%ch)) (take n line))
                NGX_MAX_INT_T_VALUE); [lia|done].
  - rewrite (push_digit_ok 10 v _ NGX_MAX_INT_T_VALUE) by ilia. cbn [mbind outcome_bind].
    rewrite IH; try done; [|lia..|destruct dot; cbn in *; lia].
    destruct dot; [|done]. by replace (point - 1 - n)%nat with (point - S n)%nat by lia.
Qed.

Lemma atofp_scale_spec point v :
  0 <= v <= NGX_MAX_INT_T_VALUE ->
  atofp_scale point v =
    Ok (if v * 10 ^ Z.of_nat point <=? NGX_MAX_INT_T_VALUE
        then v * 10 ^ Z.of_nat point else NGX_ERROR).
Proof.
  revert v. induction point as [|point IH]; intros v Hv; cbn [atofp_scale].
  { rewrite Z.mul_1_r. tests. }
  rewrite Nat2Z.inj_succ, Z.pow_succ_r, Z.mul_assoc by lia.
  assert (0 < 10 ^ Z.of_nat point) by (apply Z.pow_pos_nonneg; lia).
  destruct (Z.ltb_spec (NGX_MAX_INT_T_VALUE / 10) v) as [L|L].
  - assert (NGX_MAX_INT_T_VALUE < v * 10) by ilia.
    destruct (Z.leb_spec (v * 10 * 10 ^ Z.of_nat point) NGX_MAX_INT_T_VALUE); [nia|done].
  - rewrite int64_ok by ilia. cbn. apply IH. ilia.
Qed.

(** The text of a fixed point number: digits, and a fraction if any. *)
Definition fixed_text (a : list Z) (frac : option (list Z)) : list Z :=
  match frac with None => a | Some b => a ++ "."%ch :: b end.

Lemma forallb_digit_app a b :
  forallb is_digit (a ++ b) = forallb is_digit a && forallb is_digit b.
Proof. apply forallb_app. Qed.

Lemma atofp_dot a b point v :
  0 <= v <= NGX_MAX_INT_T_VALUE -> (0 < point)%nat ->
  forallb is_digit a = true ->
  atofp_digits (a ++ "."%ch :: b) (length (a ++ "."%ch :: b)) point false v =
    (if dec_from v a <=? NGX_MAX_INT_T_VALUE
     then atofp_digits b (length b) point true (dec_from v a) else Ok None).
Proof.
  revert v. induction a as [|c a IH]; intros v Hv Hp Ha.
  - cbn [app length atofp_digits]. destruct (Nat.eqb_spec point 0); [lia|].
    rewrite Z.eqb_refl. unfold dec_from. cbn. tests.
  - cbn [forallb] in Ha. apply andb_prop in Ha as [Hc Ha].
    assert (Hdc : 0 <= c - "0"%ch < 10) by (unfold is_digit in Hc; tests).
    cbn [app length atofp_digits]. rewrite not_digit, Hc, dec_from_cons. cbn [negb].
    destruct (Nat.eqb_spec point 0); [lia|]. destruct (Z.eqb_spec c "."%ch); [lia|].
    rewrite over_limit_spec by (unfold NGX_MAX_INT_T_VALUE; lia).
    destruct (Z.ltb_spec NGX_MAX_INT_T_VALUE (v * 10 + (c - "0"%ch))).
    + pose proof (dec_from_le (v * 10 + (c - "0"%ch)) _ ltac:(lia) Ha).
      destruct (Z.leb_spec (dec_from (v * 10 + (c - "0"%ch)) a)
                  NGX_MAX_INT_T_VALUE); [lia|done].
    + rewrite (push_digit_ok 10 v _ NGX_MAX_INT_T_VALUE) by ilia. cbn [mbind outcome_bind].
      apply IH; auto. lia.
Qed.

Theorem ngx_atofp_correct a frac point :
  let b := default [] frac in
  let text := fixed_text a frac in
  forallb is_digit (a ++ b) = true -> text <> [] ->
  (0 < point)%nat -> (length b <= point)%nat ->
  let v := dec_value (a ++ b) * 10 ^ Z.of_nat (point - length b) in
  ngx_atofp text (length text) point
    = Ok (if v <=? NGX_MAX_INT_T_VALUE then v else NGX_ERROR).
Proof.
  intros b text Hd Hne Hp Hb v. unfold ngx_atofp.
  assert (Hlen : (length text =? 0)%nat = false).
  { apply Nat.eqb_neq. by destruct text. }
  rewrite Hlen.
  assert (Hab' := Hd). rewrite forallb_digit_app in Hab'.
  apply andb_prop in Hab' as [Ha Hb'].
  assert (Hm : 0 <= 0 <= NGX_MAX_INT_T_VALUE) by ilia.
  pose proof (dec_from_le 0 (a ++ b) ltac:(lia) Hd) as Hab.
  assert (Hv : v <= NGX_MAX_INT_T_VALUE -> dec_from 0 (a ++ b) <= NGX_MAX_INT_T_VALUE).
  { unfold v, dec_value.
    assert (0 < 10 ^ Z.of_nat (point - length b)) by (apply Z.pow_pos_nonneg; lia). nia. }
  assert (E : atofp_digits text (length text) point false 0 =
    Ok (if dec_from 0 (a ++ b) <=? NGX_MAX_INT_T_VALUE
        then Some (dec_from 0 (a ++ b), (point - length b)%nat) else None)).
  { subst text b. destruct frac as [b|]; cbn [fixed_text default from_option id] in *.
    - rewrite atofp_dot by done. rewrite dec_from_app in *.
      pose proof (dec_from_le 0 a ltac:(lia) Ha).
      pose proof (dec_from_le (dec_from 0 a) b ltac:(lia) Hb').
      destruct (Z.leb_spec (dec_from 0 a) NGX_MAX_INT_T_VALUE).
      + rewrite atofp_digits_spec by (rewrite ?firstn_all; done || lia).
        by rewrite firstn_all.
      + destruct (Z.leb_spec (dec_from (dec_from 0 a) b) NGX_MAX_INT_T_VALUE); [lia|done].
    - rewrite app_nil_r in *. rewrite atofp_digits_spec by (rewrite ?firstn_all; done || lia).
      by rewrite firstn_all, Nat.sub_0_r. }
  rewrite E. cbn [mbind outcome_bind].
  destruct (Z.leb_spec (dec_from 0 (a ++ b)) NGX_MAX_INT_T_VALUE).
  - by rewrite atofp_scale_spec by lia.
  - destruct (Z.leb_spec v NGX_MAX_INT_T_VALUE); [lia|done].
Qed.

(** * Hexadecimal *)

Lemma hex_digit_bound c d : hex_digit c = Some d -> 0 <= d < 16.
Proof. unfold hex_digit, is_digit. intros H. repeat case_match; inversion H; subst; tests. Qed.

(** The test of ngx_hextoi recognises exactly the hexadecimal digits. *)
Lemma hextoi_digit (c : Z) :
  byte_ok c ->
  hex_digit c =
    if ("0"%ch <=? c) && (c <=? "9"%ch) then Some (c - "0"%ch)
    else if ("a"%ch <=? to_u8 (Z.lor c 0x20)) && (to_u8 (Z.lor c 0x20) <=? "f"%ch)
         then Some (to_u8 (Z.lor c 0x20) - "a"%ch + 10) else None.
Proof.
  intros Hc. pose proof (byte_forall (fun c => bool_decide (hex_digit c =
    if ("0"%ch <=? c) && (c <=? "9"%ch) then Some (c - "0"%ch)
    else if ("a"%ch <=? to_u8 (Z.lor c 0x20)) && (to_u8 (Z.lor c 0x20) <=? "f"%ch)
         then Some (to_u8 (Z.lor c 0x20) - "a"%ch + 10) else None)) eq_refl c Hc) as B.
  by apply bool_decide_eq_true in B.
Qed.

Lemma hex_from_le v s w : 0 <= v -> hex_from v s = Some w -> v <= w.
Proof.
  revert v. induction s as [|c s IH]; intros v Hv; cbn; [intros [= ->]; lia|].
  destruct (hex_digit c) as [d|] eqn:E; [|done]. apply hex_digit_bound in E.
  intros H. apply IH in H; lia.
Qed.

Lemma hextoi_loop_spec line n v :
  bytes_ok line -> 0 <= v <= NGX_MAX_INT_T_VALUE -> (n <= length line)%nat ->
  hextoi_loop line n v =
    Ok match hex_from v (take n line) with
       | Some w => if w <=? NGX_MAX_INT_T_VALUE then w else NGX_ERROR
       | None => NGX_ERROR
       end.
Proof.
  intros B. revert n v. induction B as [|c line Hc B IH]; intros n v Hv Hn.
  { destruct n; [|cbn in Hn; lia]. cbn. tests. }
  destruct n as [|n]; [cbn; tests|]. cbn in Hn. cbn [hextoi_loop take hex_from].
  destruct (Z.ltb_spec (NGX_MAX_INT_T_VALUE / 16) v) as [L|L].
  - destruct (hex_digit c) as [d|] eqn:E; [|done]. apply hex_digit_bound in E.
    destruct (hex_from _ _) as [w|] eqn:W; [|done]. apply hex_from_le in W; [|ilia].
    destruct (Z.leb_spec w NGX_MAX_INT_T_VALUE); [|done]. ilia.
  - pose proof (hextoi_digit c Hc) as E.
    destruct (("0"%ch <=? c) && (c <=? "9"%ch)) eqn:T1; rewrite E.
    + apply hex_digit_bound in E.
      rewrite (push_digit_ok 16 v _ NGX_MAX_INT_T_VALUE) by ilia.
      apply IH; [ilia|lia].
    + destruct (("a"%ch <=? to_u8 (Z.lor c 0x20)) && (to_u8 (Z.lor c 0x20) <=? "f"%ch));
        [|done].
      apply hex_digit_bound in E.
      rewrite (push_digit_ok 16 v _ NGX_MAX_INT_T_VALUE) by ilia.
      apply IH; [ilia|lia].
Qed.

Definition hextoi_spec (s : list Z) : Z :=
  match s with
  | [] => NGX_ERROR
  | _ => match hex_from 0 s with
         | Some w => if w <=? NGX_MAX_INT_T_VALUE then w else NGX_ERROR
         | None => NGX_ERROR
         end
  end.

Lemma ngx_hextoi_correct line n :
  bytes_ok line -> (n <= length line)%nat ->
  ngx_hextoi line n = Ok (hextoi_spec (take n line)).
Proof.
  intros B Hn. unfold ngx_hextoi. destruct n as [|n]; [by rewrite take_0|]. cbn [Nat.eqb].
  rewrite hextoi_loop_spec by (done || ilia).
  by destruct line as [|c line]; [cbn in Hn; lia|].
Qed.

Lemma hex_dump_digits b :
  byte_ok b ->
  exists h l, deref hex_digits (Z.to_nat (Z.shiftr b 4)) = Ok h /\
    deref hex_digits (Z.to_nat (Z.land b 0xf)) = Ok l /\
    byte_ok h /\ byte_ok l /\
    hex_digit h = Some (b / 16) /\ hex_digit l = Some (b mod 16).
Proof.
  intros Hb. pose proof (byte_forall (fun b =>
    match deref hex_digits (Z.to_nat (Z.shiftr b 4)),
          deref hex_digits (Z.to_nat (Z.land b 0xf)) with
    | Ok h, Ok l => (0 <=? h) && (h <? 256) && (0 <=? l) && (l <? 256) &&
        bool_decide (hex_digit h = Some (b / 16)) &&
        bool_decide (hex_digit l = Some (b mod 16))
    | _, _ => false
    end) eq_refl b Hb) as B. cbn beta in B.
  destruct (deref hex_digits (Z.to_nat (Z.shiftr b 4))) as [h| |]; [|done..].
  destruct (deref hex_digits (Z.to_nat (Z.land b 0xf))) as [l| |]; [|done..].
  repeat (apply andb_prop in B as [B ?]).
  exists h, l. unfold byte_ok. split_and!; try done; try tests.
  all: eapply bool_decide_eq_true_1; eassumption.
Qed.

Lemma hex_dump_spec src v :
  bytes_ok src ->
  exists text, ngx_hex_dump src (length src) = Ok text /\ bytes_ok text /\
    length text = (2 * length src)%nat /\ hex_from v text = Some (be_from v src).
Proof.
  intros B. revert v. induction B as [|b src Hb B IH]; intros v.
  { exists []. split_and!; try done. constructor. }
  destruct (hex_dump_digits b Hb) as (h & l & Eh & El & Hh & Hl & Dh & Dl).
  destruct (IH (v * 256 + b)) as (text & E & Bt & Lt & Ht).
  exists (h :: l :: text). cbn [length ngx_hex_dump]. rewrite Eh, El. cbn.
  rewrite E, Dh, Dl. cbn. split_and!; [done|by do 2 (constructor; [done|])|lia|].
  replace ((v * 16 + b / 16) * 16 + b mod 16) with (v * 256 + b).
  - exact Ht.
  - rewrite (Z.div_mod b 16) at 1 by lia. lia.
Qed.

Theorem ngx_hextoi_hex_dump src :
  bytes_ok src -> src <> [] ->
  exists text, ngx_hex_dump src (length src) = Ok text /\
    length text = (2 * length src)%nat /\
    ngx_hextoi text (length text) =
      Ok (if be_from 0 src <=? NGX_MAX_INT_T_VALUE then be_from 0 src else NGX_ERROR).
Proof.
  intros B Hne. destruct (hex_dump_spec src 0 B) as (text & E & Bt & Lt & Ht).
  exists text. split_and!; try done.
  rewrite ngx_hextoi_correct, firstn_all by (done || lia).
  unfold hextoi_spec. rewrite Ht. destruct text as [|t text]; [|done].
  destruct src; [done|cbn in Lt; lia].
Qed.

(** * Witnesses *)

Lemma atoi_family_correct_witness :
  ngx_atoi (bytes "8080") 4 = Ok 8080 /\ ngx_atosz (bytes "8080") 4 = Ok 8080 /\
  ngx_atoof (bytes "8080") 4 = Ok 8080 /\ ngx_atotm (bytes "8080") 4 = Ok 8080.
Proof. exact (atoi_family_correct (bytes "8080") 4 ltac:(cbn; lia)). Defined.

Lemma ngx_atofp_correct_witness :
  ngx_atofp (bytes "10.5") 4 2 = Ok 1050.
Proof.
  apply (ngx_atofp_correct (bytes "10") (Some (bytes "5")) 2).
  - reflexivity.
  - discriminate.
  - lia.
  - cbn; lia.
Defined.

Lemma ngx_hextoi_hex_dump_witness :
  exists text, ngx_hex_dump [0xde; 0xad] 2 = Ok text /\ length text = 4%nat /\
    ngx_hextoi text (length text) = Ok 0xdead.
Proof.
  apply (ngx_hextoi_hex_dump [0xde; 0xad]).
  - repeat constructor; discriminate.
  - discriminate.
Defined.
