(* ===== verification/ParseUnits.v ===== *)
(** Component "sizes and times": src/core/ngx_parse.c, the values of
    configuration directives such as [10m] or [1h 30m].  Client of Atoi. *)

From stdpp Require Import base numbers list option strings.
From Stdlib Require Import ZArith Lia.
From S2P Require Import Prelude Atoi.
Local Open Scope Z_scope.

(** * Definitions *)

(** ngx_parse_size; [line] is the data of the [ngx_str_t]. *)
Definition ngx_parse_size (line : list Z) : outcome Z :=
  let len := length line in
  if (len =? 0)%nat then Ok NGX_ERROR
  else
    unit ← deref line (len - 1);
    let '(len, max, scale) :=
      if (unit =? "K"%ch) || (unit =? "k"%ch) then
        ((len - 1)%nat, NGX_MAX_SIZE_T_VALUE / 1024, 1024)
      else if (unit =? "M"%ch) || (unit =? "m"%ch) then
        ((len - 1)%nat, NGX_MAX_SIZE_T_VALUE / (1024 * 1024), 1024 * 1024)
      else (len, NGX_MAX_SIZE_T_VALUE, 1) in
    size ← ngx_atosz line len;
    if (size =? NGX_ERROR) || (max <? size) then Ok NGX_ERROR
    else int64 (size * scale).

Definition ngx_parse_offset (line : list Z) : outcome Z :=
  let len := length line in
  if (len =? 0)%nat then Ok NGX_ERROR
  else
    unit ← deref line (len - 1);
    let '(len, max, scale) :=
      if (unit =? "K"%ch) || (unit =? "k"%ch) then
        ((len - 1)%nat, NGX_MAX_OFF_T_VALUE / 1024, 1024)
      else if (unit =? "M"%ch) || (unit =? "m"%ch) then
        ((len - 1)%nat, NGX_MAX_OFF_T_VALUE / (1024 * 1024), 1024 * 1024)
      else if (unit =? "G"%ch) || (unit =? "g"%ch) then
        ((len - 1)%nat, NGX_MAX_OFF_T_VALUE / (1024 * 1024 * 1024),
          1024 * 1024 * 1024)
      else (len, NGX_MAX_OFF_T_VALUE, 1) in
    offset ← ngx_atoof line len;
    if (offset =? NGX_ERROR) || (max <? offset) then Ok NGX_ERROR
    else int64 (offset * scale).

(** The enum of ngx_parse_time, in its order. *)
Inductive time_step :=
| st_start | st_year | st_month | st_week | st_day | st_hour | st_min | st_sec
| st_msec | st_last.

Definition step_num (s : time_step) : nat :=
  match s with
  | st_start => 0 | st_year => 1 | st_month => 2 | st_week => 3 | st_day => 4
  | st_hour => 5 | st_min => 6 | st_sec => 7 | st_msec => 8 | st_last => 9
  end.

Definition step_ge (a b : time_step) : bool := (step_num b <=? step_num a)%nat.

(** The switch on [*p++]: the new [step], [max] and [scale], and whether the
    s of "ms" is consumed too; [None] is [return NGX_ERROR].  [next_s] is the
    test [p < last && *p == 's']. *)
Definition time_unit (c : Z) (next_s is_sec : bool) (step : time_step)
  : option (time_step * Z * Z * bool) :=
  let M := NGX_MAX_INT_T_VALUE in
  if c =? "y"%ch then
    if negb (step_num step =? 0)%nat then None
    else Some (st_year, M / (60 * 60 * 24 * 365), 60 * 60 * 24 * 365, false)
  else if c =? "M"%ch then
    if step_ge step st_month then None
    else Some (st_month, M / (60 * 60 * 24 * 30), 60 * 60 * 24 * 30, false)
  else if c =? "w"%ch then
    if step_ge step st_week then None
    else Some (st_week, M / (60 * 60 * 24 * 7), 60 * 60 * 24 * 7, false)
  else if c =? "d"%ch then
    if step_ge step st_day then None
    else Some (st_day, M / (60 * 60 * 24), 60 * 60 * 24, false)
  else if c =? "h"%ch then
    if step_ge step st_hour then None
    else Some (st_hour, M / (60 * 60), 60 * 60, false)
  else if c =? "m"%ch then
    if next_s then
      if is_sec || step_ge step st_msec then None else Some (st_msec, M, 1, true)
    else if step_ge step st_min then None else Some (st_min, M / 60, 60, false)
  else if c =? "s"%ch then
    if step_ge step st_sec then None else Some (st_sec, M, 1, false)
  else if c =? " "%ch then
    if step_ge step st_sec then None else Some (st_last, M, 1, false)
  else None.

(** [p < last && *p == 's'] *)
Definition starts_with_s (p : list Z) : bool :=
  match p with [] => false | c :: _ => c =? "s"%ch end.

(** [step != st_msec && !is_sec] turns seconds into milliseconds. *)
Definition time_msec (is_sec : bool) (step : time_step) (max scale : Z)
  : Z * Z :=
  if negb (step_num step =? 8)%nat && negb is_sec then (max / 1000, scale * 1000)
  else (max, scale).

(** The part of the loop body after the switch; [None] is NGX_ERROR. *)
Definition time_add (max scale value total : Z) : outcome (option Z) :=
  if max <? value then Ok None
  else
    value ← int64 (value * scale);
    room ← int64 (NGX_MAX_INT_T_VALUE - value);
    if room <? total then Ok None
    else total ← int64 (total + value); Ok (Some total).

(** The code after the loop. *)
Definition time_end (is_sec valid : bool) (value total : Z) : outcome Z :=
  if negb valid then Ok NGX_ERROR
  else if negb is_sec && (NGX_MAX_INT_T_VALUE / 1000 <? value) then Ok NGX_ERROR
  else
    value ← (if negb is_sec then int64 (value * 1000) else Ok value);
    room ← int64 (NGX_MAX_INT_T_VALUE - value);
    if room <? total then Ok NGX_ERROR else int64 (total + value).

(** The loop over [p]; [spaces] says that control is in the inner loop
    [while (p < last && *p == ' ')]. *)
Fixpoint parse_time_loop (is_sec : bool) (p : list Z) (spaces : bool)
    (step : time_step) (value total : Z) (valid : bool) {struct p} : outcome Z :=
  match p with
  | [] => time_end is_sec valid value total
  | c :: p' =>
      if spaces && (c =? " "%ch) then
        parse_time_loop is_sec p' true step value total valid
      else if ("0"%ch <=? c) && (c <=? "9"%ch) then
        if over_limit (NGX_MAX_INT_T_VALUE / 10) (NGX_MAX_INT_T_VALUE mod 10)
             value (c - "0"%ch) then Ok NGX_ERROR
        else
          value ← push_digit 10 value (c - "0"%ch);
          parse_time_loop is_sec p' false step value total true
      else
        match time_unit c (starts_with_s p') is_sec step with
        | None => Ok NGX_ERROR
        | Some (step, max, scale, two) =>
            let '(max, scale) := time_msec is_sec step max scale in
            r ← time_add max scale value total;
            match r with
            | None => Ok NGX_ERROR
            | Some total =>
                if two then
                  match p' with
                  | [] => UB
                  | _ :: p'' => parse_time_loop is_sec p'' true step 0 total valid
                  end
                else parse_time_loop is_sec p' true step 0 total valid
            end
        end
  end.

Definition ngx_parse_time (line : list Z) (is_sec : bool) : outcome Z :=
  parse_time_loop is_sec line false (if is_sec then st_start else st_month)
    0 0 false.

Example parse_time_1h30m : ngx_parse_time (bytes "1h 30m") true = Ok 5400.
Proof. reflexivity. Qed.
Example parse_time_ms : ngx_parse_time (bytes "1s500ms") false = Ok 1500.
Proof. reflexivity. Qed.
Example parse_time_order : ngx_parse_time (bytes "30m 1h") true = Ok NGX_ERROR.
Proof. reflexivity. Qed.
Example parse_size_8k : ngx_parse_size (bytes "8k") = Ok 8192.
Proof. reflexivity. Qed.

(** * Sizes and offsets *)

(** The multiplier a unit letter stands for. *)
Definition size_scale (u : Z) : option Z :=
  if (u =? "K"%ch) || (u =? "k"%ch) then Some 1024
  else if (u =? "M"%ch) || (u =? "m"%ch) then Some (1024 * 1024) else None.

Definition offset_scale (u : Z) : option Z :=
  match size_scale u with
  | Some s => Some s
  | None => if (u =? "G"%ch) || (u =? "g"%ch) then Some (1024 * 1024 * 1024) else None
  end.

(** The number a digit string stands for in units of [scale], limit [m]. *)
Definition scaled_spec (m scale : Z) (ds : list Z) : Z :=
  if negb (length ds =? 0)%nat && forallb is_digit ds && (dec_value ds * scale <=? m)
  then dec_value ds * scale else NGX_ERROR.

(** The text without its unit letter, and the multiplier. *)
Definition split_unit (scale : Z -> option Z) (line : list Z) : list Z * Z :=
  match last line with
  | Some u => match scale u with
              | Some s => (take (length line - 1) line, s)
              | None => (line, 1)
              end
  | None => (line, 1)
  end.

Lemma scaled_spec_atoi m scale ds :
  0 < scale -> 0 <= m < 2 ^ 63 ->
  (if (atoi_spec m ds =? NGX_ERROR) || (m / scale <? atoi_spec m ds)
   then Ok NGX_ERROR else int64 (atoi_spec m ds * scale))
  = Ok (scaled_spec m scale ds).
Proof.
  intros Hs Hm. unfold scaled_spec, atoi_spec.
  destruct ds as [|d ds]; [done|]. set (s := d :: ds).
  change (negb (length s =? 0)%nat) with true. cbn [andb].
  destruct (forallb is_digit s) eqn:Hd; cbn [andb]; [|done].
  pose proof (dec_from_le 0 s ltac:(lia) Hd) as Hv. fold (dec_value s) in Hv.
  pose proof (Z.div_mod m scale ltac:(lia)). pose proof (Z.mod_pos_bound m scale Hs).
  destruct (Z.leb_spec (dec_value s) m) as [L|L].
  - destruct (Z.eqb_spec (dec_value s) NGX_ERROR); [ilia|]. cbn [orb].
    destruct (Z.ltb_spec (m / scale) (dec_value s));
      destruct (Z.leb_spec (dec_value s * scale) m); try nia; [done|].
    rewrite int64_ok; [done|]. unfold_casts. nia.
  - rewrite Z.eqb_refl. cbn [orb].
    destruct (Z.leb_spec (dec_value s * scale) m); [nia|done].
Qed.

Lemma last_deref (line : list Z) :
  line <> [] -> exists u, last line = Some u /\ deref line (length line - 1) = Ok u.
Proof.
  intros H. destruct (exists_last H) as (l & u & ->). exists u.
  rewrite last_snoc. split; [done|]. apply deref_lookup.
  rewrite length_app, lookup_app_r by (cbn; lia).
  by replace (length l + length [u] - 1 - length l)%nat with 0%nat by (cbn; lia).
Qed.

Theorem ngx_parse_size_correct line :
  ngx_parse_size line =
    (let '(ds, scale) := split_unit size_scale line in
     Ok (scaled_spec NGX_MAX_SIZE_T_VALUE scale ds)) /\
  ngx_parse_offset line =
    (let '(ds, scale) := split_unit offset_scale line in
     Ok (scaled_spec NGX_MAX_OFF_T_VALUE scale ds)).
Proof.
  destruct (decide (line = [])) as [->|Hne]; [done|].
  destruct (last_deref line Hne) as (u & Hu & Du).
  assert (Hl : (length line =? 0)%nat = false) by (apply Nat.eqb_neq; by destruct line).
  unfold ngx_parse_size, ngx_parse_offset, split_unit, offset_scale, size_scale.
  rewrite Hl, Hu, Du. cbn [mbind outcome_bind].
  destruct (atoi_family line (length line)) as (_ & S1 & O1 & _); [lia|].
  destruct (atoi_family line (length line - 1)) as (_ & S2 & O2 & _); [lia|].
  rewrite firstn_all in S1, O1. split.
  - destruct ((u =? "K"%ch) || (u =? "k"%ch)); [|destruct ((u =? "M"%ch) || (u =? "m"%ch))].
    1,2: rewrite S2; cbn [mbind outcome_bind]; apply scaled_spec_atoi; ilia.
    rewrite S1. cbn [mbind outcome_bind]. rewrite <- scaled_spec_atoi by ilia.
    by rewrite Z.div_1_r.
  - destruct ((u =? "K"%ch) || (u =? "k"%ch)); [|destruct ((u =? "M"%ch) || (u =? "m"%ch));
      [|destruct ((u =? "G"%ch) || (u =? "g"%ch))]].
    1,2,3: rewrite O2; cbn [mbind outcome_bind]; apply scaled_spec_atoi; ilia.
    rewrite O1. cbn [mbind outcome_bind]. rewrite <- scaled_spec_atoi by ilia.
    by rewrite Z.div_1_r.
Qed.

(** * Times: no overflow on any input *)

Definition in_limit (v : Z) : Prop := 0 <= v <= NGX_MAX_INT_T_VALUE.

Lemma time_add_spec max scale value total :
  0 < scale -> 0 <= max -> max * scale <= NGX_MAX_INT_T_VALUE ->
  NGX_MAX_INT_T_VALUE < (max + 1) * scale ->
  in_limit value -> in_limit total ->
  time_add max scale value total =
    Ok (if total + value * scale <=? NGX_MAX_INT_T_VALUE
        then Some (total + value * scale) else None).
Proof.
  unfold in_limit, time_add. intros Hs Hm Hms Hms' Hv Ht.
  destruct (Z.ltb_spec max value) as [L|L].
  - assert (NGX_MAX_INT_T_VALUE < value * scale) by nia.
    destruct (Z.leb_spec (total + value * scale) NGX_MAX_INT_T_VALUE); [lia|done].
  - assert (0 <= value * scale <= NGX_MAX_INT_T_VALUE) by nia.
    rewrite (int64_ok (value * scale)) by ilia. cbn [mbind outcome_bind].
    rewrite (int64_ok (NGX_MAX_INT_T_VALUE - value * scale)) by ilia. cbn [mbind outcome_bind].
    destruct (Z.ltb_spec (NGX_MAX_INT_T_VALUE - value * scale) total);
      destruct (Z.leb_spec (total + value * scale) NGX_MAX_INT_T_VALUE); try lia; [done|].
    by rewrite int64_ok by ilia.
Qed.

Lemma time_end_spec (is_sec valid : bool) value total :
  in_limit value -> in_limit total ->
  let v := if is_sec then value else value * 1000 in
  time_end is_sec valid value total =
    Ok (if valid && (total + v <=? NGX_MAX_INT_T_VALUE) then total + v else NGX_ERROR).
Proof.
  unfold in_limit, time_end. intros Hv Ht. destruct valid; [|done]. cbn [negb andb].
  destruct is_sec; cbn [negb andb].
  - cbn [mbind outcome_bind].
    rewrite (int64_ok (NGX_MAX_INT_T_VALUE - value)) by ilia. cbn [mbind outcome_bind].
    destruct (Z.ltb_spec (NGX_MAX_INT_T_VALUE - value) total);
      destruct (Z.leb_spec (total + value) NGX_MAX_INT_T_VALUE); try lia; [done|].
    by rewrite int64_ok by ilia.
  - destruct (Z.ltb_spec (NGX_MAX_INT_T_VALUE / 1000) value).
    { destruct (Z.leb_spec (total + value * 1000) NGX_MAX_INT_T_VALUE); [ilia|done]. }
    rewrite (int64_ok (value * 1000)) by ilia. cbn [mbind outcome_bind].
    rewrite (int64_ok (NGX_MAX_INT_T_VALUE - value * 1000)) by ilia. cbn [mbind outcome_bind].
    destruct (Z.ltb_spec (NGX_MAX_INT_T_VALUE - value * 1000) total);
      destruct (Z.leb_spec (total + value * 1000) NGX_MAX_INT_T_VALUE); try lia; [done|].
    by rewrite int64_ok by ilia.
Qed.

(** Seconds (milliseconds when [is_sec] is off) per unit. *)
Definition unit_scale (is_sec : bool) (s : time_step) : Z :=
  let sec := match s with
             | st_start => 0
             | st_year => 60 * 60 * 24 * 365
             | st_month => 60 * 60 * 24 * 30
             | st_week => 60 * 60 * 24 * 7
             | st_day => 60 * 60 * 24
             | st_hour => 60 * 60
             | st_min => 60
             | st_sec | st_msec | st_last => 1
             end in
  if is_sec then sec else match s with st_msec => 1 | _ => sec * 1000 end.

Definition unit_max (is_sec : bool) (s : time_step) : Z :=
  NGX_MAX_INT_T_VALUE / unit_scale is_sec s.

(** The limit and the multiplier the switch sets agree: [max] is the largest
    value that can be multiplied. *)
Lemma time_unit_scale c next_s is_sec step step' max scale two :
  time_unit c next_s is_sec step = Some (step', max, scale, two) ->
  step' <> st_start /\
  time_msec is_sec step' max scale = (unit_max is_sec step', unit_scale is_sec step') /\
  (two = true -> next_s = true).
Proof.
  unfold time_unit. intros H.
  repeat match type of H with context [match ?x with _ => _ end] =>
    lazymatch x with
    | Some _ => fail
    | _ => destruct x eqn:?
    end
  end; try discriminate H; injection H as <- <- <- <-.
  all: split; [discriminate|]; split; [destruct is_sec; reflexivity|].
  all: congruence || discriminate.
Qed.

Lemma unit_scale_exact is_sec s :
  s <> st_start ->
  0 < unit_scale is_sec s /\ 0 <= unit_max is_sec s /\
  unit_max is_sec s * unit_scale is_sec s <= NGX_MAX_INT_T_VALUE /\
  NGX_MAX_INT_T_VALUE < (unit_max is_sec s + 1) * unit_scale is_sec s.
Proof.
  intros Hs. assert (P : 0 < unit_scale is_sec s) by (destruct s, is_sec; done).
  unfold unit_max. split; [done|].
  pose proof (Z.div_mod NGX_MAX_INT_T_VALUE (unit_scale is_sec s) ltac:(lia)).
  pose proof (Z.mod_pos_bound NGX_MAX_INT_T_VALUE _ P).
  assert (0 <= NGX_MAX_INT_T_VALUE) by ilia. split_and!; nia.
Qed.

Lemma parse_time_loop_safe is_sec p sp step value total valid :
  in_limit value -> in_limit total ->
  exists r, parse_time_loop is_sec p sp step value total valid = Ok r /\
    (r = NGX_ERROR \/ in_limit r).
Proof.
  remember (length p) as k eqn:Hk. revert p Hk sp step value total valid.
  induction (lt_wf k) as [k _ IH]. intros p Hk sp step value total valid Hv Ht.
  assert (H0 : in_limit 0) by (unfold in_limit; ilia).
  destruct p as [|c p]; cbn [parse_time_loop].
  { rewrite time_end_spec by done. eexists. split; [done|].
    unfold in_limit in *. destruct (_ && _) eqn:E; [right|by left].
    apply andb_prop in E as [_ E]. destruct is_sec; tests. }
  destruct (sp && (c =? " "%ch)); [by apply (IH (length p)); subst; cbn; try lia|].
  destruct (("0"%ch <=? c) && (c <=? "9"%ch)) eqn:Hd.
  { assert (0 <= c - "0"%ch < 10) by tests.
    rewrite over_limit_spec by (unfold in_limit in *; lia || ilia).
    destruct (Z.ltb_spec NGX_MAX_INT_T_VALUE (value * 10 + (c - "0"%ch)));
      [eexists; split; [done|by left]|].
    unfold in_limit in *. rewrite (push_digit_ok 10 value _ NGX_MAX_INT_T_VALUE) by ilia.
    apply (IH (length p)); subst; cbn; unfold in_limit; try lia. }
  destruct (time_unit c (starts_with_s p) is_sec step) as [[[[step' max] scale] two]|] eqn:E;
    [|eexists; split; [done|by left]].
  apply time_unit_scale in E as (Hne & -> & Htwo).
  destruct (unit_scale_exact is_sec step' Hne) as (? & ? & ? & ?).
  rewrite time_add_spec by done. cbn [mbind outcome_bind].
  destruct (Z.leb_spec (total + value * unit_scale is_sec step') NGX_MAX_INT_T_VALUE);
    [|eexists; split; [done|by left]].
  assert (in_limit (total + value * unit_scale is_sec step')) by (unfold in_limit in *; nia).
  destruct two; [|by apply (IH (length p)); subst; cbn; try lia].
  destruct p as [|d p]; [by specialize (Htwo eq_refl)|].
  apply (IH (length p)); subst; cbn; try done; lia.
Qed.

Theorem ngx_parse_time_total line is_sec :
  exists r, ngx_parse_time line is_sec = Ok r /\
    (r = NGX_ERROR \/ 0 <= r <= NGX_MAX_INT_T_VALUE).
Proof. apply parse_time_loop_safe; unfold in_limit; ilia. Qed.

(** * Times: the value of a duration *)

(** The letters a unit is written with. *)
Definition unit_text (s : time_step) : list Z :=
  match s with
  | st_year => bytes "y" | st_month => bytes "M" | st_week => bytes "w"
  | st_day => bytes "d" | st_hour => bytes "h" | st_min => bytes "m"
  | st_sec => bytes "s" | st_msec => bytes "ms"
  | st_start | st_last => []
  end.

(** An item of a duration: digits, a unit and spaces, as in "30m ". *)
Record time_item := TimeItem { ti_digits : list Z; ti_unit : time_step; ti_spaces : nat }.

Definition item_text (i : time_item) : list Z :=
  ti_digits i ++ unit_text (ti_unit i) ++ replicate (ti_spaces i) " "%ch.

(** A duration is a list of items and a last number without unit, in
    seconds, that may be absent. *)
Definition duration_text (items : list time_item) (tail : list Z) : list Z :=
  concat (item_text <$> items) ++ tail.

Definition item_value (is_sec : bool) (i : time_item) : Z :=
  dec_value (ti_digits i) * unit_scale is_sec (ti_unit i).

Fixpoint duration_value (is_sec : bool) (items : list time_item) (tail : list Z) : Z :=
  match items with
  | [] => dec_value tail * (if is_sec then 1 else 1000)
  | i :: items' => item_value is_sec i + duration_value is_sec items' tail
  end.

Definition item_ok (is_sec : bool) (i : time_item) : Prop :=
  forallb is_digit (ti_digits i) = true /\ ti_digits i <> [] /\
  unit_text (ti_unit i) <> [] /\ (is_sec = true -> ti_unit i <> st_msec).

(** Units come in the order of the enum, each at most once. *)
Fixpoint ordered_from (s : nat) (items : list time_item) : Prop :=
  match items with
  | [] => True
  | i :: items' => (s < step_num (ti_unit i))%nat /\
                   ordered_from (step_num (ti_unit i)) items'
  end.

Lemma parse_time_digits is_sec ds rest (sp : bool) step v total valid :
  in_limit v -> forallb is_digit ds = true -> ds <> [] ->
  parse_time_loop is_sec (ds ++ rest) sp step v total valid =
    if dec_from v ds <=? NGX_MAX_INT_T_VALUE
    then parse_time_loop is_sec rest false step (dec_from v ds) total true
    else Ok NGX_ERROR.
Proof.
  revert sp v valid. induction ds as [|c ds IH]; intros sp v valid Hv Hd Hne; [done|].
  cbn [forallb] in Hd. apply andb_prop in Hd as [Hc Hd].
  assert (Hdc : 0 <= c - "0"%ch < 10) by (unfold is_digit in Hc; tests).
  unfold in_limit in *. cbn [app parse_time_loop]. rewrite dec_from_cons.
  destruct (Z.eqb_spec c " "%ch); [lia|]. rewrite andb_false_r.
  unfold is_digit in Hc. rewrite Hc, over_limit_spec by ilia.
  pose proof (dec_from_le (v * 10 + (c - "0"%ch)) ds ltac:(lia) Hd).
  destruct (Z.ltb_spec NGX_MAX_INT_T_VALUE (v * 10 + (c - "0"%ch))).
  { destruct (Z.leb_spec (dec_from (v * 10 + (c - "0"%ch)) ds) NGX_MAX_INT_T_VALUE);
      [lia|done]. }
  rewrite (push_digit_ok 10 v _ NGX_MAX_INT_T_VALUE) by ilia. cbn [mbind outcome_bind].
  destruct ds as [|d ds]; [|by apply IH; [lia|done|done]].
  cbn [app]. unfold dec_from. cbn [fold_left].
  by destruct (Z.leb_spec (v * 10 + (c - "0"%ch)) NGX_MAX_INT_T_VALUE); [|lia].
Qed.

Lemma parse_time_spaces is_sec k rest step v total valid :
  parse_time_loop is_sec (replicate k " "%ch ++ rest) true step v total valid =
  parse_time_loop is_sec rest true step v total valid.
Proof. induction k as [|k IH]; [done|]. cbn. exact IH. Qed.

Definition unit_two (u : time_step) : bool :=
  match u with st_msec => true | _ => false end.

(** The switch recognises the letter of a unit that is in order. *)
Lemma time_unit_text is_sec u step (next_s : bool) :
  unit_text u <> [] -> (is_sec = true -> u <> st_msec) ->
  (step_num step < step_num u)%nat ->
  (u = st_min \/ u = st_msec -> next_s = unit_two u) ->
  exists max scale,
    time_unit (hd 0 (unit_text u)) next_s is_sec step = Some (u, max, scale, unit_two u).
Proof.
  intros Hu Hms Hstep Hn.
  destruct u; try done; try rewrite Hn by auto; destruct step; cbn in Hstep; try lia.
  all: destruct is_sec; try (by destruct (Hms eq_refl)); do 2 eexists; reflexivity.
Qed.

(** A unit multiplies the pending value and adds it to the total. *)
Lemma parse_time_unit is_sec u rest step v total valid :
  unit_text u <> [] -> (is_sec = true -> u <> st_msec) ->
  (step_num step < step_num u)%nat -> starts_with_s rest = false ->
  in_limit v -> in_limit total ->
  parse_time_loop is_sec (unit_text u ++ rest) false step v total valid =
    if total + v * unit_scale is_sec u <=? NGX_MAX_INT_T_VALUE
    then parse_time_loop is_sec rest true u 0 (total + v * unit_scale is_sec u) valid
    else Ok NGX_ERROR.
Proof.
  intros Hu Hms Hstep Hr Hv Ht.
  assert (Hne : u <> st_start) by (by destruct u).
  destruct (unit_scale_exact is_sec u Hne) as (? & ? & ? & ?).
  destruct (time_unit_text is_sec u step (starts_with_s (tl (unit_text u) ++ rest)))
    as (max & scale & E); try done.
  { by intros [->| ->]. }
  assert (Hc : (("0"%ch <=? hd 0 (unit_text u)) && (hd 0 (unit_text u) <=? "9"%ch)) = false)
    by (by destruct u).
  assert (Ht' : unit_text u = hd 0 (unit_text u) :: tl (unit_text u)) by (by destruct u).
  rewrite Ht'. cbn [app parse_time_loop andb]. rewrite Hc, E.
  apply time_unit_scale in E as (_ & -> & _). rewrite time_add_spec by done.
  cbn [mbind outcome_bind].
  destruct (total + v * unit_scale is_sec u <=? NGX_MAX_INT_T_VALUE); [|done].
  by destruct u.
Qed.

Lemma duration_text_no_s is_sec items tail k :
  Forall (item_ok is_sec) items -> forallb is_digit tail = true ->
  starts_with_s (replicate k " "%ch ++ duration_text items tail) = false.
Proof.
  intros Hi Ht. destruct k as [|k]; [|done]. cbn [replicate app].
  assert (D : forall ds t, forallb is_digit ds = true -> ds <> [] ->
            starts_with_s (ds ++ t) = false).
  { intros [|d ds] t H Hne; [done|]. cbn in H |- *. apply andb_prop in H as [H _].
    unfold is_digit in H. tests. }
  unfold duration_text. destruct Hi as [|i items (Hd & Hne & _) _]; cbn.
  - destruct tail as [|c tail]; [done|]. rewrite <- (app_nil_r (c :: tail)). by apply D.
  - unfold item_text. rewrite <- !app_assoc. by apply D.
Qed.

Lemma dec_value_nonneg ds : forallb is_digit ds = true -> 0 <= dec_value ds.
Proof. apply dec_from_le. lia. Qed.

Lemma item_value_bounds is_sec i :
  item_ok is_sec i ->
  0 < unit_scale is_sec (ti_unit i) /\ 0 <= dec_value (ti_digits i) <= item_value is_sec i.
Proof.
  intros (Hd & _ & Hu & _). pose proof (dec_value_nonneg _ Hd) as Hn. unfold item_value.
  assert (Hs : ti_unit i <> st_start) by (by destruct (ti_unit i)).
  destruct (unit_scale_exact is_sec _ Hs) as (? & _). split; [done|]. nia.
Qed.

Lemma duration_value_nonneg is_sec items tail :
  Forall (item_ok is_sec) items -> forallb is_digit tail = true ->
  0 <= duration_value is_sec items tail.
Proof.
  intros Hi Ht. pose proof (dec_value_nonneg _ Ht).
  induction Hi as [|i items Hi _ IH]; cbn; [destruct is_sec; lia|].
  pose proof (item_value_bounds is_sec i Hi). lia.
Qed.

Lemma parse_time_duration is_sec items tail (sp : bool) step total valid :
  Forall (item_ok is_sec) items -> ordered_from (step_num step) items ->
  forallb is_digit tail = true -> in_limit total ->
  valid = true \/ items <> [] \/ tail <> [] ->
  let t := total + duration_value is_sec items tail in
  parse_time_loop is_sec (duration_text items tail) sp step 0 total valid =
    Ok (if t <=? NGX_MAX_INT_T_VALUE then t else NGX_ERROR).
Proof.
  intros Hi. revert sp step total valid.
  induction Hi as [|i items Hok Hi IH]; intros sp step total valid Ho Ht Htot Hne; cbn zeta.
  - assert (Z0 : in_limit 0) by (unfold in_limit; ilia).
    unfold duration_text. cbn [fmap list_fmap concat app duration_value].
    pose proof (dec_value_nonneg _ Ht) as Hn. destruct tail as [|c tail].
    + cbn [parse_time_loop]. rewrite time_end_spec by done.
      destruct valid; [|by destruct Hne as [|[|]]]. by destruct is_sec.
    + rewrite <- (app_nil_r (c :: tail)) at 1. rewrite parse_time_digits by done.
      fold (dec_value (c :: tail)). destruct (Z.leb_spec (dec_value (c :: tail)) NGX_MAX_INT_T_VALUE).
      * cbn [parse_time_loop]. rewrite time_end_spec by done.
        destruct is_sec; cbn [andb]; [by rewrite Z.mul_1_r|done].
      * unfold in_limit in *. destruct is_sec; tests.
  - destruct (item_value_bounds is_sec i Hok) as [Hsc Hv].
    destruct Hok as (Hd & Hnd & Hu & Hms). cbn [ordered_from] in Ho. destruct Ho as [Ho Ho'].
    pose proof (duration_value_nonneg is_sec items tail Hi Ht) as Hrest.
    assert (Htext : duration_text (i :: items) tail = ti_digits i ++ unit_text (ti_unit i) ++
              replicate (ti_spaces i) " "%ch ++ duration_text items tail).
    { unfold duration_text, item_text. cbn. by rewrite <- !app_assoc. }
    rewrite Htext, parse_time_digits by (done || unfold in_limit; ilia).
    fold (dec_value (ti_digits i)). cbn [duration_value].
    destruct (Z.leb_spec (dec_value (ti_digits i)) NGX_MAX_INT_T_VALUE); [|unfold in_limit in *; tests].
    rewrite parse_time_unit by (done || (by apply (duration_text_no_s is_sec))
                                || (unfold in_limit; lia)).
    fold (item_value is_sec i).
    destruct (Z.leb_spec (total + item_value is_sec i) NGX_MAX_INT_T_VALUE); [|tests].
    rewrite parse_time_spaces, IH; try done; [|unfold in_limit in *; lia|by left].
    by rewrite Z.add_assoc.
Qed.

Theorem ngx_parse_time_value is_sec items tail :
  Forall (item_ok is_sec) items ->
  ordered_from (step_num (if is_sec then st_start else st_month)) items ->
  forallb is_digit tail = true -> items <> [] \/ tail <> [] ->
  let t := duration_value is_sec items tail in
  ngx_parse_time (duration_text items tail) is_sec =
    Ok (if t <=? NGX_MAX_INT_T_VALUE then t else NGX_ERROR).
Proof.
  intros Hi Ho Ht Hne. unfold ngx_parse_time.
  rewrite parse_time_duration by (done || (by right) || (unfold in_limit; ilia)). done.
Qed.

(** * Witnesses *)

(** "1h 30m 15": 5415 seconds. *)
Lemma ngx_parse_time_value_witness :
  ngx_parse_time (bytes "1h 30m 15") true = Ok 5415.
Proof.
  apply (ngx_parse_time_value true
    [TimeItem (bytes "1") st_hour 1; TimeItem (bytes "30") st_min 1] (bytes "15")).
  - repeat constructor; discriminate.
  - cbn. repeat split; lia.
  - reflexivity.
  - left. discriminate.
Defined.
