(* ===== verification/Base64.v ===== *)
(** Component "base64": the encoders and decoders of src/core/ngx_string.c,
    both alphabets, and the length macros of ngx_string.h. *)

From stdpp Require Import base numbers list option strings.
From Stdlib Require Import ZArith Lia.
From S2P Require Import Prelude.
Local Open Scope Z_scope.

(** * Definitions *)

Definition basis64 : list Z :=
  bytes "ABCDEFGHIJKLMNOPQRSTUVWXYZabcdefghijklmnopqrstuvwxyz0123456789+/".
Definition basis64url : list Z :=
  bytes "ABCDEFGHIJKLMNOPQRSTUVWXYZabcdefghijklmnopqrstuvwxyz0123456789-_".

(** ngx_encode_base64_internal on the data of [src]: the bytes of [dst]. *)
Fixpoint ngx_encode_base64_internal (s basis : list Z) (padding : bool)
  : outcome (list Z) :=
  match s with
  | s0 :: s1 :: s2 :: s' =>
      d0 ← at_ basis (Z.land (Z.shiftr s0 2) 0x3f);
      d1 ← at_ basis (Z.lor (Z.shiftl (Z.land s0 3) 4) (Z.shiftr s1 4));
      d2 ← at_ basis (Z.lor (Z.shiftl (Z.land s1 0x0f) 2) (Z.shiftr s2 6));
      d3 ← at_ basis (Z.land s2 0x3f);
      rest ← ngx_encode_base64_internal s' basis padding;
      Ok (d0 :: d1 :: d2 :: d3 :: rest)
  | [] => Ok []
  | [s0] =>
      d0 ← at_ basis (Z.land (Z.shiftr s0 2) 0x3f);
      d1 ← at_ basis (Z.shiftl (Z.land s0 3) 4);
      Ok (d0 :: d1 :: (if padding then ["="%ch; "="%ch] else []))
  | [s0; s1] =>
      d0 ← at_ basis (Z.land (Z.shiftr s0 2) 0x3f);
      d1 ← at_ basis (Z.lor (Z.shiftl (Z.land s0 3) 4) (Z.shiftr s1 4));
      d2 ← at_ basis (Z.shiftl (Z.land s1 0x0f) 2);
      Ok (d0 :: d1 :: d2 :: (if padding then ["="%ch] else []))
  end.

Definition ngx_encode_base64 (src : list Z) : outcome (list Z) :=
  ngx_encode_base64_internal src basis64 true.

Definition ngx_encode_base64url (src : list Z) : outcome (list Z) :=
  ngx_encode_base64_internal src basis64url false.

Definition decode_basis64 : list Z :=
  [77; 77; 77; 77; 77; 77; 77; 77; 77; 77; 77; 77; 77; 77; 77; 77;
   77; 77; 77; 77; 77; 77; 77; 77; 77; 77; 77; 77; 77; 77; 77; 77;
   77; 77; 77; 77; 77; 77; 77; 77; 77; 77; 77; 62; 77; 77; 77; 63;
   52; 53; 54; 55; 56; 57; 58; 59; 60; 61; 77; 77; 77; 77; 77; 77;
   77; 0; 1; 2; 3; 4; 5; 6; 7; 8; 9; 10; 11; 12; 13; 14;
   15; 16; 17; 18; 19; 20; 21; 22; 23; 24; 25; 77; 77; 77; 77; 77;
   77; 26; 27; 28; 29; 30; 31; 32; 33; 34; 35; 36; 37; 38; 39; 40;
   41; 42; 43; 44; 45; 46; 47; 48; 49; 50; 51; 77; 77; 77; 77; 77;
   77; 77; 77; 77; 77; 77; 77; 77; 77; 77; 77; 77; 77; 77; 77; 77;
   77; 77; 77; 77; 77; 77; 77; 77; 77; 77; 77; 77; 77; 77; 77; 77;
   77; 77; 77; 77; 77; 77; 77; 77; 77; 77; 77; 77; 77; 77; 77; 77;
   77; 77; 77; 77; 77; 77; 77; 77; 77; 77; 77; 77; 77; 77; 77; 77;
   77; 77; 77; 77; 77; 77; 77; 77; 77; 77; 77; 77; 77; 77; 77; 77;
   77; 77; 77; 77; 77; 77; 77; 77; 77; 77; 77; 77; 77; 77; 77; 77;
   77; 77; 77; 77; 77; 77; 77; 77; 77; 77; 77; 77; 77; 77; 77; 77;
   77; 77; 77; 77; 77; 77; 77; 77; 77; 77; 77; 77; 77; 77; 77; 77].

Definition decode_basis64url : list Z :=
  [77; 77; 77; 77; 77; 77; 77; 77; 77; 77; 77; 77; 77; 77; 77; 77;
   77; 77; 77; 77; 77; 77; 77; 77; 77; 77; 77; 77; 77; 77; 77; 77;
   77; 77; 77; 77; 77; 77; 77; 77; 77; 77; 77; 77; 77; 62; 77; 77;
   52; 53; 54; 55; 56; 57; 58; 59; 60; 61; 77; 77; 77; 77; 77; 77;
   77; 0; 1; 2; 3; 4; 5; 6; 7; 8; 9; 10; 11; 12; 13; 14;
   15; 16; 17; 18; 19; 20; 21; 22; 23; 24; 25; 77; 77; 77; 77; 63;
   77; 26; 27; 28; 29; 30; 31; 32; 33; 34; 35; 36; 37; 38; 39; 40;
   41; 42; 43; 44; 45; 46; 47; 48; 49; 50; 51; 77; 77; 77; 77; 77;
   77; 77; 77; 77; 77; 77; 77; 77; 77; 77; 77; 77; 77; 77; 77; 77;
   77; 77; 77; 77; 77; 77; 77; 77; 77; 77; 77; 77; 77; 77; 77; 77;
   77; 77; 77; 77; 77; 77; 77; 77; 77; 77; 77; 77; 77; 77; 77; 77;
   77; 77; 77; 77; 77; 77; 77; 77; 77; 77; 77; 77; 77; 77; 77; 77;
   77; 77; 77; 77; 77; 77; 77; 77; 77; 77; 77; 77; 77; 77; 77; 77;
   77; 77; 77; 77; 77; 77; 77; 77; 77; 77; 77; 77; 77; 77; 77; 77;
   77; 77; 77; 77; 77; 77; 77; 77; 77; 77; 77; 77; 77; 77; 77; 77;
   77; 77; 77; 77; 77; 77; 77; 77; 77; 77; 77; 77; 77; 77; 77; 77].

(** The first loop: the length up to '=' or the end, [None] for a byte outside the
    alphabet.  [todo] is [src->len - len]. *)
Fixpoint base64_scan (src basis : list Z) (len todo : nat) : outcome (option nat) :=
  match todo with
  | O => Ok (Some len)
  | S todo =>
      c ← deref src len;
      if c =? "="%ch then Ok (Some len)
      else
        v ← at_ basis c;
        if v =? 77 then Ok None else base64_scan src basis (S len) todo
  end.

(** [basis[s[i]]] *)
Definition basis_at (basis src : list Z) (i : nat) : outcome Z :=
  c ← deref src i; at_ basis c.

(** [*d++ = (u_char) c] *)
Definition put_char (dst : list Z) (d : nat) (c : Z) : outcome (list Z * nat) :=
  dst ← store dst d (to_u8 c); Ok (dst, S d).

(** [basis[s[0]] << 2 | basis[s[1]] >> 4] and the two other bytes of a group. *)
Definition char0 (basis src : list Z) (s : nat) : outcome Z :=
  b0 ← basis_at basis src s; b1 ← basis_at basis src (s + 1);
  Ok (Z.lor (Z.shiftl b0 2) (Z.shiftr b1 4)).
Definition char1 (basis src : list Z) (s : nat) : outcome Z :=
  b1 ← basis_at basis src (s + 1); b2 ← basis_at basis src (s + 2);
  Ok (Z.lor (Z.shiftl b1 4) (Z.shiftr b2 2)).
Definition char2 (basis src : list Z) (s : nat) : outcome Z :=
  b2 ← basis_at basis src (s + 2); b3 ← basis_at basis src (s + 3);
  Ok (Z.lor (Z.shiftl b2 6) b3).

(** [while (len > 3)]: [s], [len], the data of [dst] and [d] after the loop. *)
Fixpoint base64_decode_loop (fuel : nat) (src basis : list Z) (s len : nat) (dst : list Z) (d : nat)
  : outcome (nat * nat * list Z * nat) :=
  if (3 <? len)%nat then
    match fuel with
    | O => NoFuel
    | S fuel =>
        c ← char0 basis src s; '(dst, d) ← put_char dst d c;
        c ← char1 basis src s; '(dst, d) ← put_char dst d c;
        c ← char2 basis src s; '(dst, d) ← put_char dst d c;
        base64_decode_loop fuel src basis (s + 4) (len - 4) dst d
    end
  else Ok (s, len, dst, d).

(** The data of [src] and [dst], and [src->len].  [None] is NGX_ERROR; [Some (n, dst)] is
    NGX_OK with [dst->len] and the data of [dst]. *)
Definition ngx_decode_base64_internal (dst src : list Z) (src_len : nat) (basis : list Z)
  : outcome (option (nat * list Z)) :=
  scan ← base64_scan src basis 0 src_len;
  match scan with
  | None => Ok None
  | Some len =>
      if (len mod 4 =? 1)%nat then Ok None
      else
        '(s, len, dst, d) ← base64_decode_loop len src basis 0 len dst 0;
        '(dst, d) ← (if (1 <? len)%nat then c ← char0 basis src s; put_char dst d c
                     else Ok (dst, d));
        '(dst, d) ← (if (2 <? len)%nat then c ← char1 basis src s; put_char dst d c
                     else Ok (dst, d));
        Ok (Some (d, dst))
  end.

Definition ngx_decode_base64 (dst src : list Z) (src_len : nat) :=
  ngx_decode_base64_internal dst src src_len decode_basis64.

Definition ngx_decode_base64url (dst src : list Z) (src_len : nat) :=
  ngx_decode_base64_internal dst src src_len decode_basis64url.

Definition ngx_base64_encoded_length (len : nat) : nat := ((len + 2) / 3 * 4)%nat.
Definition ngx_base64_decoded_length (len : nat) : nat := ((len + 3) / 4 * 3)%nat.

Example encode_man : ngx_encode_base64 (bytes "light w") = Ok (bytes "bGlnaHQgdw==").
Proof. reflexivity. Qed.
Example decode_man :
  ngx_decode_base64url (replicate 9 0) (bytes "bGlnaHQgdw") 10 = Ok (Some (7%nat, bytes "light w" ++ [0; 0])).
Proof. reflexivity. Qed.

(** * The two alphabets *)

(** An encoding alphabet and its decoding table: inverse on the 64 values, with
    '=' and the bytes marked 77 outside. *)
Class Alphabet (basis dbasis : list Z) : Prop := {
  alphabet_length : length basis = 64%nat;
  alphabet_get : forall i, 0 <= i < 64 ->
    exists c, at_ basis i = Ok c /\ byte_ok c /\ c <> "="%ch /\ at_ dbasis c = Ok i;
  alphabet_table : forall c, byte_ok c ->
    exists v, at_ dbasis c = Ok v /\ (v = 77 \/ 0 <= v < 64 /\ at_ basis v = Ok c)
}.

Definition alphabet_check (basis dbasis : list Z) : bool :=
  (length basis =? 64)%nat &&
  forallb (fun i => match at_ basis i with
                    | Ok c => (0 <=? c) && (c <? 256) && negb (c =? "="%ch) &&
                        match at_ dbasis c with Ok v => v =? i | _ => false end
                    | _ => false
                    end) (seqZ 0 64) &&
  forallb (fun c => match at_ dbasis c with
                    | Ok v => (v =? 77) || ((0 <=? v) && (v <? 64) &&
                        match at_ basis v with Ok c' => c' =? c | _ => false end)
                    | _ => false
                    end) (seqZ 0 256).

Lemma alphabet_check_sound basis dbasis :
  alphabet_check basis dbasis = true -> Alphabet basis dbasis.
Proof.
  unfold alphabet_check. rewrite !andb_true_iff, !forallb_forall, Nat.eqb_eq.
  intros [[H0 H1] H2]. split; [done|..].
  - intros i Hi. assert (Hin : In i (seqZ 0 64)) by (apply list_elem_of_In, elem_of_seqZ; lia).
    specialize (H1 i Hin). destruct (at_ basis i) as [c| |]; [|done..].
    destruct (at_ dbasis c) as [v| |] eqn:E; [|by rewrite andb_false_r in H1..].
    exists c. unfold byte_ok. tests. by subst v.
  - intros c Hc. assert (Hin : In c (seqZ 0 256))
      by (apply list_elem_of_In, elem_of_seqZ; unfold byte_ok in Hc; lia).
    specialize (H2 c Hin). destruct (at_ dbasis c) as [v| |]; [|done..].
    exists v. split; [done|]. destruct (Z.eqb_spec v 77); [by left|right].
    destruct (at_ basis v) as [c'| |]; [|by rewrite andb_false_r in H2..]. tests. by subst c'.
Qed.

#[export] Instance base64_alphabet : Alphabet basis64 decode_basis64.
Proof. by apply alphabet_check_sound. Qed.

#[export] Instance base64url_alphabet : Alphabet basis64url decode_basis64url.
Proof. by apply alphabet_check_sound. Qed.

(** * The meaning of a text *)

(** The character of the alphabet with number [v]. *)
Definition stands_for (basis : list Z) (c v : Z) : Prop := 0 <= v /\ at_ basis v = Ok c.

(** Each character of a text stands for six bits, and the text for the bytes that their
    sequence is cut into; less than six bits are left. *)
Definition spells (vs out : list Z) : Prop :=
  exists rest, concat (bits_of 6 <$> vs) = concat (bits_of 8 <$> out) ++ rest /\ (length rest < 6)%nat.
Definition decodes (basis text out : list Z) : Prop :=
  exists vs, Forall2 (stands_for basis) text vs /\ spells vs out.

(** The text up to the first '='. *)
Fixpoint before_equals (data : list Z) : list Z :=
  match data with
  | [] => []
  | c :: data => if c =? "="%ch then [] else c :: before_equals data
  end.

Lemma bytes_bits_inj l1 l2 rest1 rest2 :
  bytes_ok l1 -> bytes_ok l2 -> (length rest1 < 8)%nat -> (length rest2 < 8)%nat ->
  concat (bits_of 8 <$> l1) ++ rest1 = concat (bits_of 8 <$> l2) ++ rest2 -> l1 = l2.
Proof.
  intros B1. revert l2. induction B1 as [|a l1 Ha B1 IH]; intros [|b l2] B2 H1 H2 E; [done|..].
  - apply (f_equal length) in E. cbn [fmap list_fmap concat app] in E.
    rewrite !length_app, bits_of_length in E. lia.
  - apply (f_equal length) in E. cbn [fmap list_fmap concat app] in E.
    rewrite !length_app, bits_of_length in E. lia.
  - apply bytes_ok_cons in B2 as [Hb B2]. cbn [fmap list_fmap concat] in E. rewrite <- !app_assoc in E.
    apply app_inj_1 in E as [Eb E]; [|by rewrite !bits_of_length].
    apply bits_of_inj in Eb as ->; [|done..]. f_equal. by eapply IH.
Qed.

(** * Groups of six and of eight bits *)

(** The four 6-bit groups of three bytes, and the three bytes of four groups. *)
Definition sextet0 (s0 : Z) : Z := Z.land (Z.shiftr s0 2) 0x3f.
Definition sextet1 (s0 s1 : Z) : Z := Z.lor (Z.shiftl (Z.land s0 3) 4) (Z.shiftr s1 4).
Definition sextet2 (s1 s2 : Z) : Z := Z.lor (Z.shiftl (Z.land s1 0x0f) 2) (Z.shiftr s2 6).
Definition sextet3 (s2 : Z) : Z := Z.land s2 0x3f.
Definition octet0 (b0 b1 : Z) : Z := to_u8 (Z.lor (Z.shiftl b0 2) (Z.shiftr b1 4)).
Definition octet1 (b1 b2 : Z) : Z := to_u8 (Z.lor (Z.shiftl b1 4) (Z.shiftr b2 2)).
Definition octet2 (b2 b3 : Z) : Z := to_u8 (Z.lor (Z.shiftl b2 6) b3).

Definition six (v : Z) : Prop := 0 <= v < 64.

Fixpoint same_bits (l1 l2 : list bool) : bool :=
  match l1, l2 with
  | [], [] => true
  | x :: l1, y :: l2 => eqb x y && same_bits l1 l2
  | _, _ => false
  end.

Lemma same_bits_true l1 l2 : same_bits l1 l2 = true <-> l1 = l2.
Proof.
  split.
  - revert l2. induction l1 as [|x l1 IH]; intros [|y l2] H; try done.
    cbn in H. apply andb_true_iff in H as [->%eqb_prop H]. f_equal. by apply IH.
  - intros <-. induction l1 as [|x l1 IH]; [done|]. cbn. by rewrite eqb_reflx.
Qed.

Lemma sextets_ok a b :
  byte_ok a -> byte_ok b ->
  six (sextet0 a) /\ six (sextet1 a b) /\ six (sextet2 a b) /\ six (sextet3 a).
Proof.
  intros Ha Hb.
  pose proof (byte_forall2 (fun a b =>
    (0 <=? sextet0 a) && (sextet0 a <? 64) && (0 <=? sextet1 a b) && (sextet1 a b <? 64) &&
    (0 <=? sextet2 a b) && (sextet2 a b <? 64) && (0 <=? sextet3 a) && (sextet3 a <? 64))
    ltac:(vm_compute; reflexivity) a b Ha Hb) as B.
  cbn beta in B. unfold six. tests. all: discriminate.
Qed.

Lemma sextet_bits a b :
  byte_ok a -> byte_ok b ->
  bits_of 6 (sextet0 a) = take 6 (bits_of 8 a) /\
  bits_of 6 (sextet1 a b) = drop 6 (bits_of 8 a) ++ take 4 (bits_of 8 b) /\
  bits_of 6 (sextet2 a b) = drop 4 (bits_of 8 a) ++ take 2 (bits_of 8 b) /\
  bits_of 6 (sextet3 a) = drop 2 (bits_of 8 a).
Proof.
  intros Ha Hb.
  pose proof (byte_forall2 (fun a b =>
    same_bits (bits_of 6 (sextet0 a)) (take 6 (bits_of 8 a)) &&
    same_bits (bits_of 6 (sextet1 a b)) (drop 6 (bits_of 8 a) ++ take 4 (bits_of 8 b)) &&
    same_bits (bits_of 6 (sextet2 a b)) (drop 4 (bits_of 8 a) ++ take 2 (bits_of 8 b)) &&
    same_bits (bits_of 6 (sextet3 a)) (drop 2 (bits_of 8 a)))
    ltac:(vm_compute; reflexivity) a b Ha Hb) as B.
  cbn beta in B. rewrite !andb_true_iff, !same_bits_true in B. tauto.
Qed.

Lemma octet_bits a b :
  six a -> six b ->
  bits_of 8 (octet0 a b) = bits_of 6 a ++ take 2 (bits_of 6 b) /\
  bits_of 8 (octet1 a b) = drop 2 (bits_of 6 a) ++ take 4 (bits_of 6 b) /\
  bits_of 8 (octet2 a b) = drop 4 (bits_of 6 a) ++ bits_of 6 b.
Proof.
  intros Ha Hb.
  pose proof (byte_forall2 (fun a b => (64 <=? a) || (64 <=? b) ||
    same_bits (bits_of 8 (octet0 a b)) (bits_of 6 a ++ take 2 (bits_of 6 b)) &&
    same_bits (bits_of 8 (octet1 a b)) (drop 2 (bits_of 6 a) ++ take 4 (bits_of 6 b)) &&
    same_bits (bits_of 8 (octet2 a b)) (drop 4 (bits_of 6 a) ++ bits_of 6 b))
    ltac:(vm_compute; reflexivity) a b) as B.
  unfold six, byte_ok in *. specialize (B ltac:(lia) ltac:(lia)). cbn beta in B.
  destruct (Z.leb_spec 64 a); [lia|]. destruct (Z.leb_spec 64 b); [lia|].
  cbn [orb] in B. rewrite !andb_true_iff, !same_bits_true in B. tauto.
Qed.

(** Three bytes and their four groups. *)
Lemma group_bits b0 b1 b2 b3 :
  six b0 -> six b1 -> six b2 -> six b3 ->
  concat (bits_of 8 <$> [octet0 b0 b1; octet1 b1 b2; octet2 b2 b3]) =
  concat (bits_of 6 <$> [b0; b1; b2; b3]).
Proof.
  intros H0 H1 H2 H3. cbn [fmap list_fmap concat].
  destruct (octet_bits b0 b1) as (-> & _); [done..|]. destruct (octet_bits b1 b2) as (_ & -> & _); [done..|].
  destruct (octet_bits b2 b3) as (_ & _ & ->); done.
Qed.

Lemma sextets_bits s0 s1 s2 :
  byte_ok s0 -> byte_ok s1 -> byte_ok s2 ->
  concat (bits_of 6 <$> [sextet0 s0; sextet1 s0 s1; sextet2 s1 s2; sextet3 s2]) =
  concat (bits_of 8 <$> [s0; s1; s2]).
Proof.
  intros H0 H1 H2. cbn [fmap list_fmap concat].
  destruct (sextet_bits s0 s1) as (-> & -> & _); [done..|].
  destruct (sextet_bits s1 s2) as (_ & _ & -> & _); [done..|].
  by destruct (sextet_bits s2 s2) as (_ & _ & _ & ->).
Qed.

Lemma spells_cons vs1 out1 vs2 out2 :
  concat (bits_of 6 <$> vs1) = concat (bits_of 8 <$> out1) -> spells vs2 out2 ->
  spells (vs1 ++ vs2) (out1 ++ out2).
Proof.
  intros E (rest & E2 & Hr). exists rest. split; [|done].
  by rewrite !fmap_app, !concat_app, E, E2, app_assoc.
Qed.

Lemma spells_two b0 b1 : six b0 -> six b1 -> spells [b0; b1] [octet0 b0 b1].
Proof.
  intros H0 H1. exists (drop 2 (bits_of 6 b1)). split; [|cbn; lia]. cbn [fmap list_fmap concat].
  by destruct (octet_bits b0 b1) as (-> & _).
Qed.

Lemma spells_three b0 b1 b2 : six b0 -> six b1 -> six b2 -> spells [b0; b1; b2] [octet0 b0 b1; octet1 b1 b2].
Proof.
  intros H0 H1 H2. exists (drop 4 (bits_of 6 b2)). split; [|cbn; lia]. cbn [fmap list_fmap concat].
  destruct (octet_bits b0 b1) as (-> & _); [done..|]. by destruct (octet_bits b1 b2) as (_ & -> & _).
Qed.

(** * The decoder *)

Lemma put_char_ok pre x room c :
  put_char (pre ++ x :: room) (length pre) c = Ok (pre ++ to_u8 c :: room, S (length pre)).
Proof.
  unfold put_char. rewrite store_ok by (rewrite length_app; cbn; lia).
  cbn [mbind outcome_bind]. by rewrite insert_app_r_alt, Nat.sub_diag.
Qed.

(** The text at [s] consists of characters with the numbers [vs]. *)
Definition reads (basis src : list Z) (s : nat) (vs : list Z) : Prop :=
  forall i v, vs !! i = Some v -> basis_at basis src (s + i) = Ok v.

Lemma reads_drop basis src s vs n : reads basis src s vs -> reads basis src (s + n) (drop n vs).
Proof. intros R i v E. rewrite lookup_drop in E. rewrite <- Nat.add_assoc. by apply R. Qed.

Lemma char0_ok basis src s b0 b1 vs :
  reads basis src s (b0 :: b1 :: vs) -> char0 basis src s = Ok (Z.lor (Z.shiftl b0 2) (Z.shiftr b1 4)).
Proof.
  intros R. unfold char0. pose proof (R 0%nat _ eq_refl) as E. rewrite Nat.add_0_r in E.
  by rewrite E, (R 1%nat b1).
Qed.
Lemma char1_ok basis src s b0 b1 b2 vs :
  reads basis src s (b0 :: b1 :: b2 :: vs) -> char1 basis src s = Ok (Z.lor (Z.shiftl b1 4) (Z.shiftr b2 2)).
Proof. intros R. unfold char1. by rewrite (R 1%nat b1), (R 2%nat b2). Qed.
Lemma char2_ok basis src s b0 b1 b2 b3 vs :
  reads basis src s (b0 :: b1 :: b2 :: b3 :: vs) -> char2 basis src s = Ok (Z.lor (Z.shiftl b2 6) b3).
Proof. intros R. unfold char2. by rewrite (R 2%nat b2), (R 3%nat b3). Qed.

(** The number of bytes [n] characters are decoded to. *)
Definition decoded_size (n : nat) : nat := (n / 4 * 3 + (n mod 4 - 1))%nat.

Lemma decoded_size_step n : decoded_size (4 + n) = (3 + decoded_size n)%nat.
Proof.
  unfold decoded_size. replace (4 + n)%nat with (n + 1 * 4)%nat by lia.
  rewrite Nat.Div0.mod_add, Nat.div_add by lia. lia.
Qed.

(** The loop decodes the groups of four characters. *)
Lemma decode_loop_ok basis src : forall fuel vs s pre room,
  reads basis src s vs -> Forall six vs -> (length vs <= fuel)%nat -> (decoded_size (length vs) <= length room)%nat ->
  exists groups out,
    base64_decode_loop fuel src basis s (length vs) (pre ++ room) (length pre) =
      Ok ((s + length groups)%nat, (length vs - length groups)%nat, pre ++ out ++ drop (length out) room,
          (length pre + length out)%nat) /\
    (length groups <= length vs)%nat /\ (length vs - length groups = length vs mod 4)%nat /\
    take (length groups) vs = groups /\ bytes_ok out /\
    concat (bits_of 6 <$> groups) = concat (bits_of 8 <$> out) /\
    decoded_size (length vs) = (length out + (length vs mod 4 - 1))%nat.
Proof.
  induction fuel as [|fuel IH]; intros vs s pre room R F Hf Hr.
  - destruct vs; [|cbn in Hf; lia]. exists [], []. cbn. rewrite !Nat.add_0_r. split_and!; (done || lia || constructor).
  - destruct vs as [|b0 [|b1 [|b2 [|b3 vs]]]];
      [exists [], []; cbn; rewrite !Nat.add_0_r; split_and!; (done || lia || constructor)..|].
    cbn [length] in Hr |- *. pose proof (decoded_size_step (length vs)) as Hz. cbn [Nat.add] in Hz. rewrite Hz in Hr.
    destruct room as [|x0 [|x1 [|x2 room]]]; cbn [length] in Hr; [lia..|].
    cbn [base64_decode_loop]. change ((3 <? S (S (S (S (length vs)))))%nat) with true. cbn match.
    rewrite (char0_ok _ _ _ _ _ _ R), (char1_ok _ _ _ _ _ _ _ R), (char2_ok _ _ _ _ _ _ _ _ R).
    cbn [mbind outcome_bind]. rewrite put_char_ok. cbn [mbind outcome_bind].
    fold (octet0 b0 b1). replace (pre ++ octet0 b0 b1 :: x1 :: x2 :: room) with ((pre ++ [octet0 b0 b1]) ++ x1 :: x2 :: room)
      by by rewrite <- app_assoc.
    replace (S (length pre)) with (length (pre ++ [octet0 b0 b1])) by (rewrite length_app; cbn; lia).
    rewrite put_char_ok. cbn [mbind outcome_bind]. fold (octet1 b1 b2).
    replace ((pre ++ [octet0 b0 b1]) ++ octet1 b1 b2 :: x2 :: room)
      with ((pre ++ [octet0 b0 b1; octet1 b1 b2]) ++ x2 :: room) by by rewrite <- !app_assoc.
    replace (S (length (pre ++ [octet0 b0 b1]))) with (length (pre ++ [octet0 b0 b1; octet1 b1 b2]))
      by (rewrite !length_app; cbn; lia).
    rewrite put_char_ok. cbn [mbind outcome_bind]. fold (octet2 b2 b3).
    replace ((pre ++ [octet0 b0 b1; octet1 b1 b2]) ++ octet2 b2 b3 :: room)
      with ((pre ++ [octet0 b0 b1; octet1 b1 b2; octet2 b2 b3]) ++ room) by by rewrite <- !app_assoc.
    replace (S (length (pre ++ [octet0 b0 b1; octet1 b1 b2]))) with (length (pre ++ [octet0 b0 b1; octet1 b1 b2; octet2 b2 b3]))
      by (rewrite !length_app; cbn; lia).
    replace (S (S (S (S (length vs)))) - 4)%nat with (length vs) by lia.
    rewrite !Forall_cons in F. destruct F as (F0 & F1 & F2 & F3 & F). cbn in Hf.
    destruct (IH vs (s + 4)%nat (pre ++ [octet0 b0 b1; octet1 b1 b2; octet2 b2 b3]) room)
      as (groups & out & E & Hl & Hm & Ht & Ho & Hc & Hs); [by apply (reads_drop _ _ _ _ 4 R)|done|lia|lia|].
    exists (b0 :: b1 :: b2 :: b3 :: groups), (octet0 b0 b1 :: octet1 b1 b2 :: octet2 b2 b3 :: out).
    assert (Em : (S (S (S (S (length vs)))) mod 4 = length vs mod 4)%nat)
      by (replace (S (S (S (S (length vs))))) with (length vs + 1 * 4)%nat by lia; apply Nat.Div0.mod_add).
    rewrite E, Em. cbn [length]. split_and!; [|lia|lia|cbn; by rewrite Ht| | |].
    + rewrite <- !app_assoc, length_app. cbn [app length drop]. f_equal. f_equal; [|lia]. f_equal. f_equal; lia.
    + repeat (constructor; [apply to_u8_ok|]). done.
    + change (b0 :: b1 :: b2 :: b3 :: groups) with ([b0; b1; b2; b3] ++ groups).
      change (octet0 b0 b1 :: octet1 b1 b2 :: octet2 b2 b3 :: out) with ([octet0 b0 b1; octet1 b1 b2; octet2 b2 b3] ++ out).
      by rewrite !fmap_app, !concat_app, group_bits, Hc.
    + lia.
Qed.

(** The loop and the bytes of the last two or three characters. *)
Lemma decode_chars_ok basis src vs room :
  reads basis src 0 vs -> Forall six vs -> (length vs mod 4 <> 1)%nat ->
  (decoded_size (length vs) <= length room)%nat ->
  exists out,
    ('(s, len, dst, d) ← base64_decode_loop (length vs) src basis 0 (length vs) room 0;
     '(dst, d) ← (if (1 <? len)%nat then c ← char0 basis src s; put_char dst d c else Ok (dst, d));
     '(dst, d) ← (if (2 <? len)%nat then c ← char1 basis src s; put_char dst d c else Ok (dst, d));
     Ok (Some (d, dst))) = Ok (Some (length out, out ++ drop (length out) room)) /\
    bytes_ok out /\ spells vs out /\ length out = decoded_size (length vs).
Proof.
  intros R F Hm Hr.
  destruct (decode_loop_ok basis src (length vs) vs 0 [] room R F ltac:(lia) Hr)
    as (groups & out & E & Hl & Hn & Ht & Ho & Hc & Hs).
  cbn [app length] in E. rewrite Nat.add_0_l in E. rewrite E. cbn [mbind outcome_bind].
  pose proof (reads_drop _ _ _ _ (length groups) R) as R'. rewrite Nat.add_0_l in R'.
  assert (Ev : vs = groups ++ drop (length groups) vs) by (rewrite <- (take_drop (length groups) vs) at 1; by rewrite Ht).
  assert (F' : Forall six (drop (length groups) vs)) by by apply Forall_drop.
  pose proof (Nat.mod_upper_bound (length vs) 4 ltac:(lia)) as Hb.
  assert (Ld : length (drop (length groups) vs) = (length vs mod 4)%nat) by (rewrite length_drop; lia).
  rewrite Hn, Hs. set (tail := drop (length groups) vs) in *.
  destruct tail as [|b0 [|b1 [|b2 [|b3 tail]]]]; cbn [length] in Ld; [|lia|..|lia]; rewrite <- Ld; cbn match.
  - exists out. cbn [mbind outcome_bind]. split_and!; [done|done| |lia].
    rewrite Ev, <- (app_nil_r out). apply spells_cons; [done|]. exists []. split; [done|cbn; lia].
  - rewrite Hs, <- Ld in Hr. pose proof (length_drop room (length out)) as Lr.
    destruct (drop (length out) room) as [|x room'] eqn:Er; cbn [length] in Lr; [lia|].
    assert (Er' : drop (length (out ++ [octet0 b0 b1])) room = room')
      by (rewrite length_app, <- drop_drop, Er; done).
    change (1 <? 2)%nat with true. change (2 <? 2)%nat with false. cbn match.
    rewrite (char0_ok _ _ _ _ _ _ R'). cbn [mbind outcome_bind]. rewrite put_char_ok. cbn [mbind outcome_bind].
    fold (octet0 b0 b1). exists (out ++ [octet0 b0 b1]).
    rewrite !Forall_cons in F'. destruct F' as (F0 & F1 & _). split_and!.
    + rewrite Er', <- app_assoc, length_app. cbn. by rewrite Nat.add_1_r.
    + apply Forall_app. split; [done|]. constructor; [apply to_u8_ok|constructor].
    + rewrite Ev. apply spells_cons; [done|]. by apply spells_two.
    + rewrite length_app. cbn. lia.
  - rewrite Hs, <- Ld in Hr. pose proof (length_drop room (length out)) as Lr.
    destruct (drop (length out) room) as [|x [|x' room']] eqn:Er; cbn [length] in Lr; [lia..|].
    assert (Er' : drop (length (out ++ [octet0 b0 b1; octet1 b1 b2])) room = room')
      by (rewrite length_app, <- drop_drop, Er; done).
    change (1 <? 3)%nat with true. change (2 <? 3)%nat with true. cbn match.
    rewrite (char0_ok _ _ _ _ _ _ R'), (char1_ok _ _ _ _ _ _ _ R'). cbn [mbind outcome_bind].
    rewrite put_char_ok. cbn [mbind outcome_bind]. fold (octet0 b0 b1).
    replace (out ++ octet0 b0 b1 :: x' :: room') with ((out ++ [octet0 b0 b1]) ++ x' :: room')
      by by rewrite <- app_assoc.
    replace (S (length out)) with (length (out ++ [octet0 b0 b1])) by (rewrite length_app; cbn; lia).
    rewrite put_char_ok. cbn [mbind outcome_bind]. fold (octet1 b1 b2).
    exists (out ++ [octet0 b0 b1; octet1 b1 b2]).
    rewrite !Forall_cons in F'. destruct F' as (F0 & F1 & F2 & _). split_and!.
    + rewrite Er', <- !app_assoc, !length_app. cbn. do 3 f_equal. lia.
    + apply Forall_app. split; [done|]. repeat (constructor; [apply to_u8_ok|]). constructor.
    + rewrite Ev. apply spells_cons; [done|]. by apply spells_three.
    + rewrite length_app. cbn. lia.
Qed.

Section Decode.
Context (basis dbasis : list Z) `{!Alphabet basis dbasis}.

(** The value of a character in the decoding table. *)
Lemma table_value c v : byte_ok c -> at_ dbasis c = Ok v -> v <> 77 -> six v /\ stands_for basis c v.
Proof.
  intros Hc E N. destruct (alphabet_table c Hc) as (v' & E' & H). rewrite E in E'. injection E' as <-.
  destruct H as [->|[Hv Hb]]; [done|]. split; [done|]. split; [lia|done].
Qed.

Lemma table_77 c v : at_ dbasis c = Ok 77 -> ~ stands_for basis c v.
Proof.
  intros E [Hv Hb]. assert (v < 64).
  { unfold at_, deref in Hb. destruct (Z.ltb_spec v 0); [lia|].
    destruct (basis !! Z.to_nat v) eqn:E'; [|done]. apply lookup_lt_Some in E'.
    rewrite alphabet_length in E'. lia. }
  destruct (alphabet_get v) as (c' & Ec & _ & _ & Ed); [lia|]. rewrite Hb in Ec. injection Ec as <-.
  rewrite E in Ed. injection Ed as <-. lia.
Qed.

(** The first loop. *)
Lemma base64_scan_spec src : forall todo len,
  bytes_ok src -> (len + todo <= length src)%nat ->
  let text := before_equals (take todo (drop len src)) in
  (base64_scan src dbasis len todo = Ok (Some (len + length text)%nat) /\
     exists vs, reads dbasis src len vs /\ Forall six vs /\ Forall2 (stands_for basis) text vs) \/
  (base64_scan src dbasis len todo = Ok None /\ Exists (fun c => forall v, ~ stands_for basis c v) text).
Proof.
  induction todo as [|todo IH]; intros len B Hl; cbn [base64_scan].
  - left. cbn. split; [by rewrite Nat.add_0_r|]. exists []. split_and!; [by intros i v|done..].
  - destruct (lookup_lt_is_Some_2 src len ltac:(lia)) as [c Ec].
    assert (Hc : byte_ok c) by by eapply Forall_lookup_1.
    rewrite (deref_lookup _ _ _ Ec). cbn [mbind outcome_bind].
    rewrite (drop_S _ _ _ Ec). cbn [take before_equals].
    destruct (Z.eqb_spec c "="%ch) as [->|N].
    { left. cbn. split; [by rewrite Nat.add_0_r|]. exists []. split_and!; [by intros i v|done..]. }
    destruct (alphabet_table c Hc) as (v & Ev & _). rewrite Ev. cbn [mbind outcome_bind].
    destruct (Z.eqb_spec v 77) as [->|N'].
    { right. split; [done|]. left. intros v. by apply table_77. }
    destruct (table_value c v Hc Ev N') as [H6 Hs].
    destruct (IH (S len) B ltac:(lia)) as [(E & vs & R & F & T)|[E X]]; rewrite E.
    + left. split; [f_equal; f_equal; cbn; lia|]. exists (v :: vs). split_and!; [|by constructor..].
      intros [|i] w Ew; cbn in Ew.
      * injection Ew as <-. unfold basis_at. by rewrite Nat.add_0_r, (deref_lookup _ _ _ Ec).
      * replace (len + S i)%nat with (S len + i)%nat by lia. by apply R.
    + right. split; [done|]. by right.
Qed.

Lemma before_equals_length data : (length (before_equals data) <= length data)%nat.
Proof. induction data as [|c data IH]; cbn; [lia|]. destruct_test; cbn; lia. Qed.

Lemma decoded_size_le m n : (m <= n)%nat -> (decoded_size m <= ngx_base64_decoded_length n)%nat.
Proof.
  intros H. unfold decoded_size, ngx_base64_decoded_length.
  pose proof (Nat.Div0.div_le_mono (m + 3) (n + 3) 4 ltac:(lia)).
  pose proof (Nat.div_mod_eq m 4). pose proof (Nat.mod_upper_bound m 4 ltac:(lia)).
  pose proof (Nat.div_mod_eq (m + 3) 4). pose proof (Nat.mod_upper_bound (m + 3) 4 ltac:(lia)). lia.
Qed.

Lemma decode_internal_ok dst src src_len :
  bytes_ok src -> (src_len <= length src)%nat ->
  (ngx_base64_decoded_length src_len <= length dst)%nat ->
  let text := before_equals (take src_len src) in
  match ngx_decode_base64_internal dst src src_len dbasis with
  | Ok (Some (n, dst')) => exists out, decodes basis text out /\ bytes_ok out /\
      n = length out /\ dst' = out ++ drop n dst /\ (length text mod 4 <> 1)%nat
  | Ok None => Exists (fun c => forall v, ~ stands_for basis c v) text \/ (length text mod 4 = 1)%nat
  | _ => False
  end.
Proof.
  intros B Hl Hd. cbn zeta. unfold ngx_decode_base64_internal.
  destruct (base64_scan_spec src src_len 0 B ltac:(lia)) as [(E & vs & R & F & T)|[E X]];
    rewrite drop_0 in *; rewrite E; cbn [mbind outcome_bind]; [|by left].
  rewrite Nat.add_0_l. pose proof (before_equals_length (take src_len src)) as Lt.
  rewrite length_take in Lt. pose proof (Forall2_length _ _ _ T) as Lv.
  destruct (Nat.eqb_spec (length (before_equals (take src_len src)) mod 4) 1) as [E1|E1]; [by right|].
  rewrite Lv in *.
  destruct (decode_chars_ok dbasis src vs dst R F E1) as (out & Eo & Ho & Hs & _).
  { pose proof (decoded_size_le (length vs) src_len ltac:(lia)). lia. }
  rewrite Eo. exists out. split_and!; [by exists vs|done..].
Qed.
End Decode.

(** * The encoder *)

Section Encode.
Context (basis dbasis : list Z) `{!Alphabet basis dbasis}.

(** A character with its number. *)
Lemma encode_char v : six v -> exists c, at_ basis v = Ok c /\ stands_for basis c v /\ byte_ok c /\ c <> "="%ch.
Proof. intros Hv. destruct (alphabet_get v Hv) as (c & E & Hc & N & _). exists c. by split_and!; [|split; [apply Hv|]|..]. Qed.

Lemma stands_for_inj text vs vs' :
  Forall six vs -> Forall2 (stands_for basis) text vs -> Forall2 (stands_for basis) text vs' ->
  vs' = vs.
Proof.
  intros F T. revert vs'. induction T as [|c v text vs [Hv Ev] T IH]; intros vs' T'; [by inversion T'|].
  inversion T' as [|? v' ? vs'' [Hv' Ev'] T'' E1 E2]; subst. rewrite Forall_cons in F. destruct F as [F0 F].
  f_equal; [|by apply IH]. destruct (alphabet_get v F0) as (c1 & E1 & _ & _ & D1). rewrite Ev in E1. injection E1 as <-.
  assert (v' < 64).
  { unfold at_, deref in Ev'. destruct (Z.ltb_spec v' 0); [lia|].
    destruct (basis !! Z.to_nat v') eqn:E'; [|done]. apply lookup_lt_Some in E'. rewrite alphabet_length in E'. lia. }
  destruct (alphabet_get v') as (c2 & E2 & _ & _ & D2); [lia|]. rewrite Ev' in E2. injection E2 as <-.
  rewrite D1 in D2. by injection D2.
Qed.

(** The number of characters and of padding signs [n] bytes encode to. *)
Definition body_length (n : nat) : nat :=
  (n / 3 * 4 + match n mod 3 with 0 => 0 | 1 => 2 | _ => 3 end)%nat.
Definition padding_length (n : nat) : nat :=
  match (n mod 3)%nat with 0 => 0 | 1 => 2 | _ => 1 end%nat.

Lemma thirds_step n :
  body_length (S (S (S n))) = (4 + body_length n)%nat /\
  padding_length (S (S (S n))) = padding_length n.
Proof.
  unfold body_length, padding_length. replace (S (S (S n))) with (n + 1 * 3)%nat by lia.
  rewrite Nat.Div0.mod_add, Nat.div_add by lia. lia.
Qed.

Lemma sextet1_short a : sextet1 a 0 = Z.shiftl (Z.land a 3) 4.
Proof. unfold sextet1. by rewrite Z.shiftr_0_l, Z.lor_0_r. Qed.

Lemma sextet2_short b : sextet2 b 0 = Z.shiftl (Z.land b 0x0f) 2.
Proof. unfold sextet2. by rewrite Z.shiftr_0_l, Z.lor_0_r. Qed.

(** The encoder's output: the characters of the groups of six bits, and the padding. *)
Lemma encode_ok src (padding : bool) :
  bytes_ok src ->
  exists body vs,
    ngx_encode_base64_internal src basis padding =
      Ok (body ++ if padding then replicate (padding_length (length src)) "="%ch else []) /\
    Forall2 (stands_for basis) body vs /\ Forall six vs /\ spells vs src /\
    Forall (fun c => byte_ok c /\ c <> "="%ch) body /\ length body = body_length (length src).
Proof.
  assert (H0 : byte_ok 0) by (unfold byte_ok; lia).
  induction src as [|a|a b|a b c src IH] using list_ind3; intros B.
  - exists [], []. destruct padding; split_and!; try done; exists []; (split; [done|cbn; lia]).
  - apply bytes_ok_cons in B as [Ha _].
    destruct (sextets_ok a 0 Ha H0) as (R0 & R1 & _).
    destruct (encode_char _ R0) as (d0 & G0 & S0 & N0). destruct (encode_char _ R1) as (d1 & G1 & S1 & N1).
    exists [d0; d1], [sextet0 a; sextet1 a 0]. split_and!; [|repeat (constructor; try done)..| |repeat (constructor; try done)|done].
    + rewrite sextet1_short in G1. unfold sextet0 in G0. cbn. rewrite G0, G1. cbn. by destruct padding.
    + exists (replicate 4 false). split; [|cbn; lia]. cbn [fmap list_fmap concat].
      by destruct (sextet_bits a 0 Ha H0) as (-> & -> & _).
  - apply bytes_ok_cons in B as [Ha B]. apply bytes_ok_cons in B as [Hb _].
    destruct (sextets_ok a b Ha Hb) as (R0 & R1 & _). destruct (sextets_ok b 0 Hb H0) as (_ & _ & R2 & _).
    destruct (encode_char _ R0) as (d0 & G0 & S0 & N0). destruct (encode_char _ R1) as (d1 & G1 & S1 & N1).
    destruct (encode_char _ R2) as (d2 & G2 & S2 & N2).
    exists [d0; d1; d2], [sextet0 a; sextet1 a b; sextet2 b 0].
    split_and!; [|repeat (constructor; try done)..| |repeat (constructor; try done)|done].
    + rewrite sextet2_short in G2. unfold sextet0, sextet1 in *. cbn. rewrite G0, G1, G2. cbn. by destruct padding.
    + exists (replicate 2 false). split; [|cbn; lia]. cbn [fmap list_fmap concat].
      destruct (sextet_bits a b Ha Hb) as (-> & -> & _). by destruct (sextet_bits b 0 Hb H0) as (_ & _ & -> & _).
  - apply bytes_ok_cons in B as [Ha B]. apply bytes_ok_cons in B as [Hb B].
    apply bytes_ok_cons in B as [Hc B]. destruct (IH B) as (body & vs & G & T & F & Sp & N & L).
    destruct (sextets_ok a b Ha Hb) as (R0 & R1 & _). destruct (sextets_ok b c Hb Hc) as (_ & _ & R2 & _).
    destruct (sextets_ok c c Hc Hc) as (_ & _ & _ & R3).
    destruct (encode_char _ R0) as (d0 & G0 & S0 & N0). destruct (encode_char _ R1) as (d1 & G1 & S1 & N1).
    destruct (encode_char _ R2) as (d2 & G2 & S2 & N2). destruct (encode_char _ R3) as (d3 & G3 & S3 & N3).
    exists (d0 :: d1 :: d2 :: d3 :: body), (sextet0 a :: sextet1 a b :: sextet2 b c :: sextet3 c :: vs).
    destruct (thirds_step (length src)) as [T1 T2].
    split_and!; [|repeat (constructor; try done)..| |repeat (constructor; try done)|cbn [length]; lia].
    + unfold sextet0, sextet1, sextet2, sextet3 in *. cbn [length ngx_encode_base64_internal].
      rewrite T2, G0, G1, G2, G3. cbn [mbind outcome_bind]. by rewrite G.
    + by apply (spells_cons [sextet0 a; sextet1 a b; sextet2 b c; sextet3 c] [a; b; c]); [apply sextets_bits|].
Qed.

Lemma before_equals_body body pad :
  Forall (fun c => byte_ok c /\ c <> "="%ch) body -> (pad = [] \/ head pad = Some "="%ch) ->
  before_equals (body ++ pad) = body.
Proof.
  intros F Hp. induction F as [|c body [_ N] F IH]; cbn.
  - destruct Hp as [->|Hp]; [done|]. destruct pad as [|p pad]; [done|]. by injection Hp as ->.
  - destruct (Z.eqb_spec c "="%ch); [done|]. by rewrite IH.
Qed.

Lemma body_length_mod n : (body_length n mod 4)%nat <> 1%nat.
Proof.
  unfold body_length. rewrite Nat.add_comm, Nat.Div0.mod_add. by destruct (n mod 3)%nat as [|[|]].
Qed.

Lemma encoded_length_padded n :
  (body_length n + padding_length n)%nat = ngx_base64_encoded_length n.
Proof.
  unfold body_length, padding_length, ngx_base64_encoded_length.
  pose proof (Nat.div_mod_eq n 3). pose proof (Nat.mod_upper_bound n 3 ltac:(lia)).
  pose proof (Nat.div_mod_eq (n + 2) 3). pose proof (Nat.mod_upper_bound (n + 2) 3 ltac:(lia)).
  destruct (n mod 3)%nat as [|[|[|]]]; lia.
Qed.

(** What is encoded is decoded again, into any large enough memory. *)
Lemma encode_decode (padding : bool) src :
  bytes_ok src ->
  exists text, ngx_encode_base64_internal src basis padding = Ok text /\
    (length text <= ngx_base64_encoded_length (length src))%nat /\
    (padding = true -> length text = ngx_base64_encoded_length (length src)) /\
    forall dst, (ngx_base64_decoded_length (length text) <= length dst)%nat ->
      ngx_decode_base64_internal dst text (length text) dbasis =
        Ok (Some (length src, src ++ drop (length src) dst)).
Proof.
  intros B. destruct (encode_ok src padding B) as (body & vs & E & T & F & Sp & N & L).
  set (pad := if padding then _ else _) in *. eexists. split; [exact E|].
  rewrite <- encoded_length_padded, length_app, L.
  assert (Hp : (length pad <= padding_length (length src))%nat)
    by (subst pad; destruct padding; rewrite ?length_replicate; cbn; lia).
  split_and!; [lia|by intros ->; subst pad; rewrite length_replicate|].
  intros dst Hd. rewrite <- L, <- length_app in Hd |- *.
  assert (Bt : bytes_ok (body ++ pad)).
  { apply Forall_app. split; [eapply Forall_impl; [exact N|by intros ? [? _]]|].
    subst pad. destruct padding; [|constructor]. by apply Forall_replicate. }
  assert (Eb : before_equals (take (length (body ++ pad)) (body ++ pad)) = body).
  { rewrite take_ge by done. apply before_equals_body; [done|]. subst pad. destruct padding; [|by left].
    destruct (padding_length _); [by left|by right]. }
  pose proof (decode_internal_ok basis dbasis dst (body ++ pad) (length (body ++ pad)) Bt ltac:(done) Hd) as D.
  cbn zeta in D. rewrite Eb in D.
  destruct (ngx_decode_base64_internal _ _ _ _) as [[[n dst']|]| |]; [| |done..].
  - destruct D as (out & (vs' & T' & Sp') & Bo & -> & -> & _).
    rewrite (stands_for_inj body vs vs' F T T') in Sp'.
    destruct Sp as (r1 & E1 & H1). destruct Sp' as (r2 & E2 & H2).
    replace out with src; [done|]. eapply (bytes_bits_inj src out r1 r2); [done|done|lia|lia|]. by rewrite <- E1, <- E2.
  - exfalso. destruct D as [X|X]; [|rewrite L in X; by eapply body_length_mod].
    apply Exists_exists in X as (c & Hin & X). apply list_elem_of_lookup in Hin as [i Ei].
    destruct (Forall2_lookup_l _ _ _ _ _ T Ei) as (v & _ & Sv). by apply (X v).
Qed.
End Encode.

(** The encoders fill the memory that ngx_base64_encoded_length computes, and the decoders
    bring the bytes back. *)
Theorem base64_roundtrip src :
  bytes_ok src ->
  (exists text, ngx_encode_base64 src = Ok text /\ length text = ngx_base64_encoded_length (length src) /\
     forall dst, (ngx_base64_decoded_length (length text) <= length dst)%nat ->
       ngx_decode_base64 dst text (length text) = Ok (Some (length src, src ++ drop (length src) dst))) /\
  (exists text, ngx_encode_base64url src = Ok text /\ (length text <= ngx_base64_encoded_length (length src))%nat /\
     forall dst, (ngx_base64_decoded_length (length text) <= length dst)%nat ->
       ngx_decode_base64url dst text (length text) = Ok (Some (length src, src ++ drop (length src) dst))).
Proof.
  intros B. split.
  - destruct (encode_decode basis64 decode_basis64 true src B) as (t & E & _ & L & D). exists t. split_and!; auto.
  - destruct (encode_decode basis64url decode_basis64url false src B) as (t & E & L & _ & D). by exists t.
Qed.

(** * Decoding untrusted data *)

(** C39. The base64 decoders, on any bytes and with a destination of at least
    ngx_base64_decoded_length bytes: NGX_ERROR is returned exactly for a text (what
    comes before the first '=') with a character outside the alphabet or with a length
    of 1 modulo 4; every other text is decoded to the bytes that the sequence of its
    groups of six bits is cut into. Reads and stores stay inside the two buffers and the
    table. *)
Theorem base64_decode_exact dst src src_len :
  bytes_ok src -> (src_len <= length src)%nat -> (ngx_base64_decoded_length src_len <= length dst)%nat ->
  let text := before_equals (take src_len src) in
  let exact basis result :=
    match result with
    | Ok (Some (n, dst')) => exists out, decodes basis text out /\ bytes_ok out /\
        n = length out /\ dst' = out ++ drop n dst /\ (length text mod 4 <> 1)%nat
    | Ok None => Exists (fun c => forall v, ~ stands_for basis c v) text \/ (length text mod 4 = 1)%nat
    | _ => False
    end in
  exact basis64 (ngx_decode_base64 dst src src_len) /\
  exact basis64url (ngx_decode_base64url dst src src_len).
Proof. intros B Hl Hd. split; by apply (decode_internal_ok _ _). Qed.

(** * Witnesses *)

Lemma base64_roundtrip_witness :
  exists text, ngx_encode_base64 (bytes "user:pw") = Ok text /\ length text = 12%nat.
Proof.
  destruct (base64_roundtrip (bytes "user:pw")) as [(t & E & L & _) _].
  - repeat constructor; discriminate.
  - exists t. by split.
Defined.

(** "dXNlcg==" is decoded, "a#b" is refused. *)
Lemma base64_decode_exact_witness :
  (exists n dst, ngx_decode_base64 (replicate 6 0) (bytes "dXNlcg==") 8 = Ok (Some (n, dst)) /\
     exists out, decodes basis64 (bytes "dXNlcg") out /\ n = length out) /\
  ngx_decode_base64 (replicate 3 0) (bytes "a#b") 3 = Ok None.
Proof.
  split; [|reflexivity].
  destruct (base64_decode_exact (replicate 6 0) (bytes "dXNlcg==") 8) as [H _].
  - repeat constructor; discriminate.
  - vm_compute. lia.
  - vm_compute. lia.
  - revert H. destruct (ngx_decode_base64 _ _ _) as [[[n dst]|]| |] eqn:E; [|vm_compute in E; discriminate..].
    intros (out & D & _ & L & _). exists n, dst. split; [reflexivity|]. by exists out.
Defined.
