(* ===== verification/Utf8.v ===== *)
(** Component "UTF-8": ngx_utf8_decode, ngx_utf8_length and ngx_utf8_cpystrn of
    src/core/ngx_string.c. *)

From stdpp Require Import base numbers list option strings.
From Stdlib Require Import ZArith Lia.
From S2P Require Import Prelude.
Local Open Scope Z_scope.

(** * Definitions *)

(** The loop over the continuation bytes and the final test.  [p] is the
    pointer, [off] the number of bytes it has been advanced by; the result is
    the return value and the final [off]. *)
Fixpoint utf8_tail (p : list Z) (len : nat) (u valid : Z) (off : nat) {struct len}
  : outcome (Z * nat) :=
  match len with
  | O => Ok (if valid <? u then u else 0xffffffff, off)
  | S len' =>
      match p with
      | [] => UB
      | i :: p' =>
          if i <? 0x80 then Ok (0xffffffff, S off)
          else utf8_tail p' len' (to_u32 (Z.lor (Z.shiftl u 6) (Z.land i 0x3f)))
                 valid (S off)
      end
  end.

(** ngx_utf8_decode(p, n): the return value and how far [*p] moves.  [n - 1] is
    computed in [size_t]. *)
Definition ngx_utf8_decode (p : list Z) (n : Z) : outcome (Z * nat) :=
  match p with
  | [] => UB
  | u :: p' =>
      let go u valid len :=
        if to_u64 (n - 1) <? Z.of_nat len then Ok (0xfffffffe, 0%nat)
        else utf8_tail p' len u valid 1 in
      if 0xf0 <=? u then go (Z.land u 0x07) 0xffff 3%nat
      else if 0xe0 <=? u then go (Z.land u 0x0f) 0x7ff 2%nat
      else if 0xc2 <=? u then go (Z.land u 0x1f) 0x7f 1%nat
      else Ok (0xffffffff, 1%nat)
  end.

(** The loop of ngx_utf8_length; [p] is the pointer, [room] is [last - p] and
    [n] the argument, which the code passes to ngx_utf8_decode unchanged. *)
Fixpoint utf8_length_loop (fuel : nat) (p : list Z) (room n : Z) (len : nat)
  : outcome nat :=
  if room <=? 0 then Ok len
  else
    match fuel with
    | O => NoFuel
    | S fuel' =>
        c ← deref p 0;
        if c <? 0x80 then utf8_length_loop fuel' (tl p) (room - 1) n (S len)
        else
          '(v, k) ← ngx_utf8_decode p n;
          if 0x10ffff <? v then Ok (Z.to_nat n)
          else utf8_length_loop fuel' (drop k p) (room - Z.of_nat k) n (S len)
    end.

Definition ngx_utf8_length (p : list Z) (n : nat) : outcome nat :=
  utf8_length_loop (S n) p (Z.of_nat n) (Z.of_nat n) 0.

(** ngx_utf8_cpystrn(dst, src, n, len): the bytes from the initial [dst] to the
    returned one, both included; [n] counts the rounds of [while (--n)]. *)
Fixpoint utf8_cpystrn_loop (src : list Z) (n : nat) (len : Z) {struct n}
  : outcome (list Z) :=
  match n with
  | O => Ok [0]
  | S n' =>
      c ← deref src 0;
      if c <? 0x80 then
        if negb (c =? 0) then
          rest ← utf8_cpystrn_loop (tl src) n' (to_u64 (len - 1)); Ok (c :: rest)
        else Ok [c]
      else
        '(v, k) ← ngx_utf8_decode src len;
        if 0x10ffff <? v then Ok [0]
        else
          rest ← utf8_cpystrn_loop (drop k src) n' (to_u64 (len - Z.of_nat k));
          Ok (take k src ++ rest)
  end.

Definition ngx_utf8_cpystrn (src : list Z) (n : nat) (len : Z) : outcome (list Z) :=
  match n with O => Ok [] | S n' => utf8_cpystrn_loop src n' len end.

(** * The reference encoding *)

Definition utf8_encode (cp : Z) : list Z :=
  if cp <? 0x80 then [cp]
  else if cp <? 0x800 then [0xc0 + cp / 64; 0x80 + cp mod 64]
  else if cp <? 0x10000 then
    [0xe0 + cp / 64 / 64; 0x80 + cp / 64 mod 64; 0x80 + cp mod 64]
  else [0xf0 + cp / 64 / 64 / 64; 0x80 + cp / 64 / 64 mod 64;
        0x80 + cp / 64 mod 64; 0x80 + cp mod 64].

Definition code_point (cp : Z) : Prop := 0 <= cp <= 0x10ffff.

(** * Lemmas *)

Lemma tail_step p len u valid off r :
  0 <= r < 64 -> 0 <= u < 2 ^ 26 ->
  utf8_tail (0x80 + r :: p) (S len) u valid off =
  utf8_tail p len (u * 64 + r) valid (S off).
Proof.
  intros Hr Hu. cbn [utf8_tail]. destruct (Z.ltb_spec (0x80 + r) 0x80); [lia|].
  assert (Hm : Z.land (0x80 + r) 0x3f = r).
  { pose proof (byte_forall (fun b => (b <? 0x80) || (0xc0 <=? b) || (Z.land b 0x3f =? b - 0x80))
      eq_refl (0x80 + r)) as B. cbn beta in B. unfold byte_ok in B.
    specialize (B ltac:(lia)). tests. }
  rewrite Hm, lor_shiftl_add by (change (2 ^ 6) with 64; lia).
  change (2 ^ 6) with 64. rewrite to_u32_id; [done|].
  change (2 ^ 26) with 67108864 in Hu. unfold_casts. lia.
Qed.

(** The payload of a lead byte. *)
Lemma lead_payload b :
  byte_ok b ->
  (0xc0 <= b < 0xe0 -> Z.land b 0x1f = b - 0xc0) /\
  (0xe0 <= b < 0xf0 -> Z.land b 0x0f = b - 0xe0) /\
  (0xf0 <= b < 0xf8 -> Z.land b 0x07 = b - 0xf0).
Proof.
  intros Hb. pose proof (byte_forall (fun b =>
    (negb ((0xc0 <=? b) && (b <? 0xe0)) || (Z.land b 0x1f =? b - 0xc0)) &&
    (negb ((0xe0 <=? b) && (b <? 0xf0)) || (Z.land b 0x0f =? b - 0xe0)) &&
    (negb ((0xf0 <=? b) && (b <? 0xf8)) || (Z.land b 0x07 =? b - 0xf0))) eq_refl b Hb) as B.
  cbn beta in B. rewrite !andb_true_iff in B. destruct B as [[B1 B2] B3].
  split_and!; intros H; tests.
Qed.

(** Enough bytes: the test on [n] lets the sequence through. *)
Lemma size_test n len : Z.of_nat len < n < 2 ^ 64 -> (to_u64 (n - 1) <? Z.of_nat len) = false.
Proof. intros H. rewrite to_u64_id by lia. tests. Qed.

Lemma size_test_short n len :
  1 <= n < 2 ^ 64 -> n <= Z.of_nat len -> (to_u64 (n - 1) <? Z.of_nat len) = true.
Proof. intros H L. rewrite to_u64_id by lia. tests. Qed.

Lemma decode_encode cp rest n :
  0x80 <= cp <= 0x10ffff -> Z.of_nat (length (utf8_encode cp)) <= n < 2 ^ 64 ->
  ngx_utf8_decode (utf8_encode cp ++ rest) n = Ok (cp, length (utf8_encode cp)).
Proof.
  intros Hcp Hn. unfold utf8_encode in *.
  pose proof (Z.mod_pos_bound cp 64 ltac:(lia)). pose proof (Z.div_mod cp 64 ltac:(lia)).
  set (c1 := cp / 64) in *. set (r0 := cp mod 64) in *.
  pose proof (Z.mod_pos_bound c1 64 ltac:(lia)). pose proof (Z.div_mod c1 64 ltac:(lia)).
  set (c2 := c1 / 64) in *. set (r1 := c1 mod 64) in *.
  pose proof (Z.mod_pos_bound c2 64 ltac:(lia)). pose proof (Z.div_mod c2 64 ltac:(lia)).
  set (c3 := c2 / 64) in *. set (r2 := c2 mod 64) in *.
  assert (P26 : 2 ^ 26 = 67108864) by reflexivity.
  assert (LP : forall b, 0xc0 <= b < 0x100 -> byte_ok b) by (unfold byte_ok; lia).
  destruct (Z.ltb_spec cp 0x80); [lia|].
  destruct (Z.ltb_spec cp 0x800) as [K2|K2]; [|destruct (Z.ltb_spec cp 0x10000) as [K3|K3]];
    cbn [app length] in *; cbn [ngx_utf8_decode].
  - destruct (lead_payload (0xc0 + c1)) as (L & _ & _); [apply LP; lia|].
    destruct (Z.leb_spec 0xf0 (0xc0 + c1)); [lia|].
    destruct (Z.leb_spec 0xe0 (0xc0 + c1)); [lia|].
    destruct (Z.leb_spec 0xc2 (0xc0 + c1)); [|lia].
    rewrite size_test, L by lia. rewrite tail_step by lia. cbn [utf8_tail].
    destruct (Z.ltb_spec 0x7f ((0xc0 + c1 - 0xc0) * 64 + r0)); [|lia].
    do 2 f_equal. lia.
  - destruct (lead_payload (0xe0 + c2)) as (_ & L & _); [apply LP; lia|].
    destruct (Z.leb_spec 0xf0 (0xe0 + c2)); [lia|].
    destruct (Z.leb_spec 0xe0 (0xe0 + c2)); [|lia].
    rewrite size_test, L by lia. do 2 (rewrite tail_step by lia). cbn [utf8_tail].
    destruct (Z.ltb_spec 0x7ff (((0xe0 + c2 - 0xe0) * 64 + r1) * 64 + r0)); [|lia].
    do 2 f_equal. lia.
  - destruct (lead_payload (0xf0 + c3)) as (_ & _ & L); [apply LP; lia|].
    destruct (Z.leb_spec 0xf0 (0xf0 + c3)); [|lia].
    rewrite size_test, L by lia. do 3 (rewrite tail_step by lia). cbn [utf8_tail].
    destruct (Z.ltb_spec 0xffff ((((0xf0 + c3 - 0xf0) * 64 + r2) * 64 + r1) * 64 + r0)); [|lia].
    do 2 f_equal. lia.
Qed.

(** A sequence cut short is reported without moving the pointer. *)
Lemma decode_incomplete cp rest n :
  0x80 <= cp <= 0x10ffff -> 1 <= n < Z.of_nat (length (utf8_encode cp)) ->
  ngx_utf8_decode (utf8_encode cp ++ rest) n = Ok (0xfffffffe, 0%nat).
Proof.
  intros Hcp Hn. unfold utf8_encode in *.
  assert (P64 : 2 ^ 64 = 18446744073709551616) by reflexivity.
  destruct (Z.ltb_spec cp 0x80); [lia|].
  destruct (Z.ltb_spec cp 0x800) as [K2|K2]; [|destruct (Z.ltb_spec cp 0x10000) as [K3|K3]];
    cbn [app length] in *; cbn [ngx_utf8_decode].
  - destruct (Z.leb_spec 0xf0 (0xc0 + cp / 64)); [Z.div_mod_to_equations; lia|].
    destruct (Z.leb_spec 0xe0 (0xc0 + cp / 64)); [Z.div_mod_to_equations; lia|].
    destruct (Z.leb_spec 0xc2 (0xc0 + cp / 64)); [|Z.div_mod_to_equations; lia].
    by rewrite size_test_short by lia.
  - destruct (Z.leb_spec 0xf0 (0xe0 + cp / 64 / 64)); [Z.div_mod_to_equations; lia|].
    destruct (Z.leb_spec 0xe0 (0xe0 + cp / 64 / 64)); [|Z.div_mod_to_equations; lia].
    by rewrite size_test_short by lia.
  - destruct (Z.leb_spec 0xf0 (0xf0 + cp / 64 / 64 / 64)); [|Z.div_mod_to_equations; lia].
    by rewrite size_test_short by lia.
Qed.

(** On any bytes: no access beyond [n], progress unless incomplete, and a
    value that is a code point of the right range when it is no error. *)
Lemma utf8_tail_total p len u valid off :
  bytes_ok p -> (len <= length p)%nat ->
  exists v k, utf8_tail p len u valid off = Ok (v, k) /\ (off <= k <= off + len)%nat.
Proof.
  intros B. revert p B u off. induction len as [|len IH]; intros p B u off L.
  { do 2 eexists. split; [done|lia]. }
  destruct p as [|i p]; [cbn in L; lia|]. cbn in L. cbn [utf8_tail].
  apply bytes_ok_cons in B as [_ B].
  destruct (Z.ltb_spec i 0x80); [do 2 eexists; split; [done|lia]|].
  destruct (IH p B (to_u32 (Z.lor (Z.shiftl u 6) (Z.land i 0x3f))) (S off)) as (v & k & E & ?);
    [lia|].
  exists v, k. split; [done|lia].
Qed.

Lemma utf8_decode_total p n :
  bytes_ok p -> (1 <= n <= length p)%nat -> Z.of_nat n < 2 ^ 64 ->
  exists v k, ngx_utf8_decode p (Z.of_nat n) = Ok (v, k) /\ (k <= n)%nat /\
    ((1 <= k)%nat \/ v = 0xfffffffe).
Proof.
  intros B Hn Hlt. destruct p as [|u p]; [cbn in Hn; lia|]. cbn in Hn.
  apply bytes_ok_cons in B as [Hu B]. cbn [ngx_utf8_decode].
  assert (Go : forall u valid len, exists v k,
    (if to_u64 (Z.of_nat n - 1) <? Z.of_nat len then Ok (0xfffffffe, 0%nat)
     else utf8_tail p len u valid 1) = Ok (v, k) /\ (k <= n)%nat /\
    ((1 <= k)%nat \/ v = 0xfffffffe)).
  { intros u' valid len. rewrite to_u64_id by lia.
    destruct (Z.ltb_spec (Z.of_nat n - 1) (Z.of_nat len)).
    - do 2 eexists. split; [done|]. split; [lia|by right].
    - destruct (utf8_tail_total p len u' valid 1 B) as (v & k & E & ?); [lia|].
      exists v, k. split; [done|]. split; [lia|left; lia]. }
  destruct (0xf0 <=? u); [apply Go|]. destruct (0xe0 <=? u); [apply Go|].
  destruct (0xc2 <=? u); [apply Go|]. exists 0xffffffff, 1%nat. split; [done|]. lia.
Qed.

(** * Theorems *)

Theorem ngx_utf8_decode_encode cp rest n :
  0x80 <= cp <= 0x10ffff -> 1 <= n < 2 ^ 64 ->
  ngx_utf8_decode (utf8_encode cp ++ rest) n =
    Ok (if n <? Z.of_nat (length (utf8_encode cp)) then (0xfffffffe, 0%nat)
        else (cp, length (utf8_encode cp))).
Proof.
  intros Hcp Hn. destruct (Z.ltb_spec n (Z.of_nat (length (utf8_encode cp)))).
  - apply decode_incomplete; lia.
  - apply decode_encode; lia.
Qed.

(** * Texts *)

Definition utf8_text (cps : list Z) : list Z := concat (utf8_encode <$> cps).

Lemma encode_ascii cp : cp < 0x80 -> utf8_encode cp = [cp].
Proof. intros H. unfold utf8_encode. tests. Qed.

(** The first byte of a longer sequence is not ASCII. *)
Lemma encode_lead cp :
  0x80 <= cp <= 0x10ffff ->
  exists c t, utf8_encode cp = c :: t /\ 0x80 <= c.
Proof.
  intros H. unfold utf8_encode. destruct (Z.ltb_spec cp 0x80); [lia|].
  destruct (Z.ltb_spec cp 0x800); [|destruct (Z.ltb_spec cp 0x10000)].
  all: do 2 eexists; split; [reflexivity|]; Z.div_mod_to_equations; lia.
Qed.

Lemma encode_length cp : (1 <= length (utf8_encode cp) <= 4)%nat.
Proof. unfold utf8_encode. repeat case_match; cbn; lia. Qed.

Lemma utf8_length_loop_spec fuel cps rest n len :
  Forall code_point cps -> (length cps <= fuel)%nat ->
  Z.of_nat (length (utf8_text cps)) <= n < 2 ^ 64 ->
  utf8_length_loop fuel (utf8_text cps ++ rest) (Z.of_nat (length (utf8_text cps))) n len
  = Ok (len + length cps)%nat.
Proof.
  intros Hc. revert fuel len.
  induction Hc as [|cp cps Hcp Hc IH]; intros fuel len Hf Hn.
  { destruct fuel; cbn; by rewrite Nat.add_0_r. }
  destruct fuel as [|fuel]; [cbn in Hf; lia|]. cbn in Hf.
  assert (Htext : utf8_text (cp :: cps) = utf8_encode cp ++ utf8_text cps) by done.
  rewrite Htext in *. rewrite length_app in *. pose proof (encode_length cp) as Hlen.
  cbn [utf8_length_loop length]. unfold code_point in Hcp.
  destruct (Z.leb_spec (Z.of_nat (length (utf8_encode cp) + length (utf8_text cps))) 0); [lia|].
  rewrite <- app_assoc. destruct (Z.ltb_spec cp 0x80) as [A|A].
  - rewrite (encode_ascii cp A). cbn [app deref]. unfold deref. cbn [lookup list_lookup].
    cbn [mbind outcome_bind tl length]. destruct (Z.ltb_spec cp 0x80); [|lia].
    replace (Z.of_nat (1 + length (utf8_text cps)) - 1)
      with (Z.of_nat (length (utf8_text cps))) by lia.
    rewrite IH by lia. f_equal. lia.
  - destruct (encode_lead cp) as (c & t & Ec & Hc8); [lia|].
    assert (D : deref (utf8_encode cp ++ utf8_text cps ++ rest) 0 = Ok c) by (by rewrite Ec).
    rewrite D. cbn [mbind outcome_bind]. destruct (Z.ltb_spec c 0x80); [lia|].
    rewrite decode_encode by lia. cbn [mbind outcome_bind].
    destruct (Z.ltb_spec 0x10ffff cp); [lia|]. rewrite drop_app_length.
    replace (Z.of_nat (length (utf8_encode cp) + length (utf8_text cps)) - _)
      with (Z.of_nat (length (utf8_text cps))) by lia.
    rewrite IH by lia. f_equal. lia.
Qed.

Lemma utf8_text_length cps : (length cps <= length (utf8_text cps))%nat.
Proof.
  induction cps as [|cp cps IH]; [done|]. unfold utf8_text in *. cbn.
  rewrite length_app. pose proof (encode_length cp). lia.
Qed.

Theorem ngx_utf8_length_correct cps rest :
  Forall code_point cps -> Z.of_nat (length (utf8_text cps)) < 2 ^ 64 ->
  ngx_utf8_length (utf8_text cps ++ rest) (length (utf8_text cps)) = Ok (length cps).
Proof.
  intros Hc Hn. pose proof (utf8_text_length cps). unfold ngx_utf8_length.
  by rewrite utf8_length_loop_spec by (done || lia).
Qed.

(** The argument [n] of ngx_utf8_decode is the length of the whole text and not
    what is left of it, so a sequence cut short at the end is read past it. *)
Example utf8_length_overread : ngx_utf8_length [0x61; 0xc3] 2 = UB.
Proof. reflexivity. Qed.

(** Continuation bytes above 0xbf and lead bytes above 0xf7 are accepted. *)
Example utf8_decode_bad_continuation : ngx_utf8_decode [0xc2; 0xff] 2 = Ok (0xbf, 2%nat).
Proof. reflexivity. Qed.
Example utf8_decode_bad_lead :
  ngx_utf8_decode [0xf9; 0x80; 0x80; 0x80] 4 = ngx_utf8_decode [0xf1; 0x80; 0x80; 0x80] 4.
Proof. reflexivity. Qed.

(** * A byte below 0x80 after the text stops the overread *)

Lemma utf8_tail_stops s t len u valid off :
  t < 0x80 ->
  exists v k, utf8_tail (s ++ [t]) len u valid off = Ok (v, k) /\ (off <= k)%nat /\
    ((k <= off + length s)%nat \/ v = 0xffffffff).
Proof.
  intros Ht. revert s u off. induction len as [|len IH]; intros s u off.
  { do 2 eexists. split; [done|]. split; [lia|]. left; lia. }
  destruct s as [|i s]; cbn [app utf8_tail].
  - destruct (Z.ltb_spec t 0x80); [|lia]. do 2 eexists. split; [done|]. split; [lia|by right].
  - destruct (Z.ltb_spec i 0x80); [do 2 eexists; split; [done|]; split; [lia|by right]|].
    destruct (IH s (to_u32 (Z.lor (Z.shiftl u 6) (Z.land i 0x3f))) (S off)) as (v & k & E & ? & ?).
    exists v, k. split; [done|]. cbn. split; [lia|]. destruct H1; [left; lia|by right].
Qed.

Lemma decode_stops c s t n :
  t < 0x80 ->
  exists v k, ngx_utf8_decode (c :: s ++ [t]) n = Ok (v, k) /\
    (0x10ffff < v \/ (1 <= k <= S (length s))%nat).
Proof.
  intros Ht. cbn [ngx_utf8_decode].
  assert (Go : forall u valid len, exists v k,
    (if to_u64 (n - 1) <? Z.of_nat len then Ok (0xfffffffe, 0%nat)
     else utf8_tail (s ++ [t]) len u valid 1) = Ok (v, k) /\
    (0x10ffff < v \/ (1 <= k <= S (length s))%nat)).
  { intros u valid len. destruct (_ <? _); [do 2 eexists; split; [done|left; lia]|].
    destruct (utf8_tail_stops s t len u valid 1 Ht) as (v & k & E & ? & Hk).
    exists v, k. split; [done|]. destruct Hk; [right; lia|left; lia]. }
  destruct (0xf0 <=? c); [apply Go|]. destruct (0xe0 <=? c); [apply Go|].
  destruct (0xc2 <=? c); [apply Go|]. do 2 eexists. split; [done|left; lia].
Qed.

Lemma utf8_length_loop_stops fuel s t n len :
  t < 0x80 -> (length s < fuel)%nat ->
  exists r, utf8_length_loop fuel (s ++ [t]) (Z.of_nat (length s)) n len = Ok r.
Proof.
  intros Ht. revert s len. induction fuel as [|fuel IH]; intros s len Hf; [lia|].
  cbn [utf8_length_loop]. destruct s as [|c s]; [by eexists|].
  destruct (Z.leb_spec (Z.of_nat (length (c :: s))) 0); [cbn in *; lia|].
  cbn [app]. change (deref (c :: s ++ [t]) 0) with (Ok c). cbn [mbind outcome_bind tl].
  cbn [length] in *. destruct (Z.ltb_spec c 0x80).
  - replace (Z.of_nat (S (length s)) - 1) with (Z.of_nat (length s)) by lia. apply IH. lia.
  - destruct (decode_stops c s t n Ht) as (v & k & -> & Hk). cbn [mbind outcome_bind].
    destruct (Z.ltb_spec 0x10ffff v); [by eexists|]. destruct Hk as [|Hk]; [lia|].
    destruct k as [|k]; [lia|]. cbn [drop]. rewrite drop_app_le by lia.
    replace (Z.of_nat (S (length s)) - Z.of_nat (S k))
      with (Z.of_nat (length (drop k s))) by (rewrite length_drop; lia).
    apply IH. rewrite length_drop. lia.
Qed.

Theorem ngx_utf8_length_terminated s t :
  t < 0x80 -> exists r, ngx_utf8_length (s ++ [t]) (length s) = Ok r.
Proof. intros Ht. apply utf8_length_loop_stops; [done|lia]. Qed.

(** * Copying *)

Lemma utf8_cpystrn_loop_spec n cps rest len :
  Forall code_point cps -> no_nul cps ->
  Z.of_nat (length (utf8_text cps)) < len < 2 ^ 64 ->
  utf8_cpystrn_loop (utf8_text cps ++ 0 :: rest) n len =
    Ok (utf8_text (take n cps) ++ [0]).
Proof.
  intros Hc Hz. revert n len.
  induction Hc as [|cp cps Hcp Hc IH]; intros [|n] len Hlen; try done.
  apply no_nul_cons in Hz as [Hnz Hz].
  assert (Htext : forall l, utf8_text (cp :: l) = utf8_encode cp ++ utf8_text l) by done.
  cbn [take]. rewrite !Htext in *. rewrite length_app in Hlen.
  pose proof (encode_length cp). unfold code_point in Hcp. cbn [utf8_cpystrn_loop].
  rewrite <- !app_assoc. destruct (Z.ltb_spec cp 0x80) as [A|A].
  - rewrite (encode_ascii cp A) in *. cbn [app length] in *.
    change (deref (cp :: ?l) 0) with (Ok cp). cbn [mbind outcome_bind tl].
    destruct (Z.ltb_spec cp 0x80); [|lia]. destruct (Z.eqb_spec cp 0); [done|].
    rewrite to_u64_id by lia. rewrite IH by (done || lia). done.
  - destruct (encode_lead cp) as (c & t & Ec & Hc8); [lia|].
    assert (D : deref (utf8_encode cp ++ utf8_text cps ++ 0 :: rest) 0 = Ok c)
      by (by rewrite Ec).
    rewrite D. cbn [mbind outcome_bind]. destruct (Z.ltb_spec c 0x80); [lia|].
    rewrite decode_encode by lia. cbn [mbind outcome_bind].
    destruct (Z.ltb_spec 0x10ffff cp); [lia|].
    rewrite drop_app_length, take_app_length, to_u64_id by lia.
    by rewrite IH by (done || lia).
Qed.

(** At most [n - 1] whole characters are copied and a NUL follows them: [n]
    counts characters, so up to [4 * (n - 1) + 1] bytes are stored. *)
Theorem ngx_utf8_cpystrn_correct cps rest n len :
  Forall code_point cps -> no_nul cps -> (0 < n)%nat ->
  Z.of_nat (length (utf8_text cps)) < len < 2 ^ 64 ->
  exists dst, ngx_utf8_cpystrn (utf8_text cps ++ 0 :: rest) n len = Ok dst /\
    dst = utf8_text (take (n - 1) cps) ++ [0] /\
    (length dst <= 4 * (n - 1) + 1)%nat.
Proof.
  intros Hc Hz Hn Hlen. destruct n as [|n]; [lia|]. cbn [ngx_utf8_cpystrn].
  rewrite utf8_cpystrn_loop_spec by done. replace (S n - 1)%nat with n by lia.
  eexists. split; [done|]. split; [done|]. rewrite length_app. cbn.
  assert (B : forall l, (length (utf8_text l) <= 4 * length l)%nat).
  { clear. induction l as [|cp l IH]; [done|]. unfold utf8_text in *. cbn.
    rewrite length_app. pose proof (encode_length cp). lia. }
  specialize (B (take n cps)). rewrite length_take in B. lia.
Qed.

(** * Witnesses *)

Lemma ngx_utf8_decode_encode_witness :
  ngx_utf8_decode (utf8_encode 0x20ac ++ [0x41]) 4 = Ok (0x20ac, 3%nat).
Proof. apply (ngx_utf8_decode_encode 0x20ac [0x41] 4); lia. Defined.

Lemma ngx_utf8_length_correct_witness :
  ngx_utf8_length (utf8_text [0x61; 0x20ac; 0x1f600] ++ [])
    (length (utf8_text [0x61; 0x20ac; 0x1f600])) = Ok 3%nat.
Proof.
  apply (ngx_utf8_length_correct [0x61; 0x20ac; 0x1f600] []).
  - repeat constructor; discriminate.
  - reflexivity.
Defined.

Lemma ngx_utf8_length_terminated_witness :
  exists r, ngx_utf8_length ([0x61; 0xc3] ++ [0]) 2 = Ok r.
Proof. apply (ngx_utf8_length_terminated [0x61; 0xc3] 0). lia. Defined.

Lemma ngx_utf8_cpystrn_correct_witness :
  exists dst, ngx_utf8_cpystrn (utf8_text [0x61; 0x20ac; 0x62] ++ [0]) 3 6 = Ok dst /\
    dst = utf8_text [0x61; 0x20ac] ++ [0] /\ (length dst <= 9)%nat.
Proof.
  apply (ngx_utf8_cpystrn_correct [0x61; 0x20ac; 0x62] [] 3 6).
  - repeat constructor; discriminate.
  - repeat constructor; discriminate.
  - lia.
  - split; reflexivity.
Defined.
