(* ===== verification/Sprintf.v ===== *)
(** Component "formatting": ngx_vslprintf, its callers and ngx_sprintf_num of
    src/core/ngx_string.c.

    The result of a call is the bytes stored from [buf] on.  [room] is
    [last - buf], [None] for the [last] of ngx_sprintf, which is no limit.  The
    arguments are tagged with the type they were passed with, and fetching one
    with another type is undefined, as with [va_arg]. *)

From stdpp Require Import base numbers list option strings.
From Stdlib Require Import ZArith Lia SpecFloat.
From S2P Require Import Prelude Atoi.
Local Open Scope Z_scope.

(** * Definitions *)

(** ** Doubles: binary64 of the Standard Library's specification *)

Definition double : Type := spec_float.
Definition double_of (m e : Z) : double := binary_normalize 53 1024 m e false.
Definition double_sub : double -> double -> double := SFsub 53 1024.
Definition double_mul : double -> double -> double := SFmul 53 1024.
Definition double_add : double -> double -> double := SFadd 53 1024.

(** Truncation to an integer; [None] for infinities and NaN. *)
Definition double_trunc (f : double) : option Z :=
  match f with
  | S754_zero _ => Some 0
  | S754_finite s m e =>
      let v := Z.shiftl (Z.pos m) e in Some (if s then - v else v)
  | _ => None
  end.

(** The conversions [(int64_t) f] and [(uint64_t) f]. *)
Definition double_to_int64 (f : double) : outcome Z :=
  match double_trunc f with Some v => int64 v | None => UB end.
Definition double_to_uint64 (f : double) : outcome Z :=
  match double_trunc f with
  | Some v => if (0 <=? v) && (v <? 2 ^ 64) then Ok v else UB
  | None => UB
  end.

(** ** Arguments *)

Inductive va : Type :=
| V32 (z : Z)            (* int, u_int, int32_t, uint32_t, ngx_pid_t *)
| V64 (z : Z)            (* the 64-bit integers and pointers as numbers *)
| VStr (s : list Z)      (* pointers to ngx_str_t and ngx_variable_value_t *)
| VPtr (p : list Z)      (* pointer to characters *)
| VDouble (f : double).

Definition to_i32 (z : Z) : Z := (z + 2 ^ 31) mod 2 ^ 32 - 2 ^ 31.

Definition va_int32 (args : list va) : outcome (Z * list va) :=
  match args with V32 z :: args' => Ok (to_i32 z, args') | _ => UB end.
Definition va_uint32 (args : list va) : outcome (Z * list va) :=
  match args with V32 z :: args' => Ok (to_u32 z, args') | _ => UB end.
Definition va_int64 (args : list va) : outcome (Z * list va) :=
  match args with V64 z :: args' => Ok (to_i64 z, args') | _ => UB end.
Definition va_uint64 (args : list va) : outcome (Z * list va) :=
  match args with V64 z :: args' => Ok (to_u64 z, args') | _ => UB end.
Definition va_str (args : list va) : outcome (list Z * list va) :=
  match args with VStr s :: args' => Ok (s, args') | _ => UB end.
Definition va_ptr (args : list va) : outcome (list Z * list va) :=
  match args with VPtr p :: args' => Ok (p, args') | _ => UB end.
Definition va_double (args : list va) : outcome (double * list va) :=
  match args with VDouble f :: args' => Ok (f, args') | _ => UB end.

(** ** Room *)

(** [buf < last] *)
Definition has_room (room : option nat) : bool :=
  match room with Some O => false | _ => true end.
(** The room after [k] bytes. *)
Definition less (room : option nat) (k : nat) : option nat :=
  match room with Some r => Some (r - k)%nat | None => None end.
(** [ngx_min(last - buf, n)] *)
Definition clip (room : option nat) (n : nat) : nat :=
  match room with Some r => Nat.min r n | None => n end.

(** ** ngx_sprintf_num *)

(** The do loops: [p] is the position in [temp] below which digits are stored. *)
Fixpoint dec_digits (p : nat) (ui : Z) (acc : list Z) : outcome (list Z) :=
  match p with
  | O => UB
  | S p' =>
      let acc := to_u8 (ui mod 10 + "0"%ch) :: acc in
      let ui := ui / 10 in
      if negb (ui =? 0) then dec_digits p' ui acc else Ok acc
  end.

Fixpoint hexadecimal_digits (hex : list Z) (p : nat) (ui64 : Z) (acc : list Z) : outcome (list Z) :=
  match p with
  | O => UB
  | S p' =>
      c ← at_ hex (to_u32 (Z.land ui64 0xf));
      let ui64 := Z.shiftr ui64 4 in
      if negb (ui64 =? 0) then hexadecimal_digits hex p' ui64 (c :: acc) else Ok (c :: acc)
  end.

Definition NGX_MAX_UINT32_VALUE : Z := 0xffffffff.
Definition NGX_INT_T_LEN : Z := Z.of_nat NGX_INT64_LEN.
Definition NGX_ATOMIC_T_LEN : Z := Z.of_nat NGX_INT64_LEN.

Definition sprintf_digits (ui64 hexadecimal : Z) : outcome (list Z) :=
  if hexadecimal =? 0 then
    if ui64 <=? NGX_MAX_UINT32_VALUE then dec_digits NGX_INT64_LEN (to_u32 ui64) []
    else dec_digits NGX_INT64_LEN ui64 []
  else if hexadecimal =? 1 then hexadecimal_digits hex_digits NGX_INT64_LEN ui64 []
  else hexadecimal_digits HEX_digits NGX_INT64_LEN ui64 [].

Definition ngx_sprintf_num (room : option nat) (ui64 zero hexadecimal width : Z)
  : outcome (list Z) :=
  digits ← sprintf_digits ui64 hexadecimal;
  let len := length digits in
  let pad := clip room (Z.to_nat (width - Z.of_nat len)) in
  Ok (replicate pad zero ++ take (clip (less room pad) len) digits).

(** ** Directives *)

Record directive : Type := mk_directive {
  d_zero : Z;
  d_width : Z;
  d_sign : bool;
  d_hex : Z;
  d_max_width : bool;
  d_frac_width : Z;
  d_slen : Z
}.

(** The loops that read the digits of a width. *)
Fixpoint scan_width (fmt : list Z) (w : Z) : outcome (Z * list Z) :=
  match fmt with
  | [] => UB
  | c :: fmt' =>
      if ("0"%ch <=? c) && (c <=? "9"%ch) then scan_width fmt' (to_u64 (w * 10 + c - "0"%ch))
      else Ok (w, fmt)
  end.

(** The loop over the flags, up to the conversion character. *)
Fixpoint scan_flags (fmt : list Z) (d : directive) (args : list va)
  : outcome (directive * list Z * list va) :=
  match fmt with
  | [] => UB
  | c :: fmt' =>
      let '(mk_directive z w sg hx mw fw sl) := d in
      if c =? "u"%ch then scan_flags fmt' (mk_directive z w false hx mw fw sl) args
      else if c =? "m"%ch then scan_flags fmt' (mk_directive z w sg hx true fw sl) args
      else if c =? "X"%ch then scan_flags fmt' (mk_directive z w false 2 mw fw sl) args
      else if c =? "x"%ch then scan_flags fmt' (mk_directive z w false 1 mw fw sl) args
      else if c =? "."%ch then
        '(fw, fmt'') ← scan_width fmt' fw; Ok (mk_directive z w sg hx mw fw sl, fmt'', args)
      else if c =? "*"%ch then
        '(sl, args) ← va_uint64 args; scan_flags fmt' (mk_directive z w sg hx mw fw sl) args
      else Ok (d, fmt, args)
  end.

(** From the character after '%'. *)
Definition scan_directive (fmt : list Z) (args : list va)
  : outcome (directive * list Z * list va) :=
  c ← deref fmt 0;
  '(width, fmt) ← scan_width fmt 0;
  scan_flags fmt
    (mk_directive (if c =? "0"%ch then "0"%ch else " "%ch) width true 0 false 0 (to_u64 (-1))) args.

(** The copying loop of [case 's']. *)
Fixpoint copy_cstring (room : option nat) (p : list Z) : outcome (list Z) :=
  match p with
  | [] => UB
  | c :: p' =>
      if c =? 0 then Ok []
      else if has_room room then rest ← copy_cstring (less room 1) p'; Ok (c :: rest)
      else Ok []
  end.

(** [ngx_cpymem(buf, data, n)] *)
Definition cpymem (data : list Z) (n : nat) : outcome (list Z) :=
  if (n <=? length data)%nat then Ok (take n data) else UB.

(** The code after the switch. *)
Definition put_number (room : option nat) (sign : bool) (i64 ui64 zero hex width : Z)
  : outcome (list Z) :=
  if sign then
    if i64 <? 0 then
      n ← int64 (- i64);
      ds ← ngx_sprintf_num (less room 1) (to_u64 n) zero hex width; Ok ("-"%ch :: ds)
    else ngx_sprintf_num room (to_u64 i64) zero hex width
  else ngx_sprintf_num room ui64 zero hex width.

(** [scale = 1; for (n = frac_width; n; n--) scale *= 10]; all the powers from
    the 64th on are 0 modulo 2^64. *)
Definition frac_scale (frac_width : Z) : Z :=
  if frac_width <? 64 then to_u64 (10 ^ frac_width) else 0.

(** [case 'f']: [f] without its sign, as [ui64] and [frac] after the rounding. *)
Definition double_parts (d : directive) (f : double) : outcome (Z * Z) :=
  ui64 ← double_to_int64 f;
  let ui64 := to_u64 ui64 in
  if negb (d_frac_width d =? 0) then
    let scale := frac_scale (d_frac_width d) in
    frac ← double_to_uint64 (double_add
      (double_mul (double_sub f (double_of ui64 0)) (double_of scale 0)) (double_of 1 (-1)));
    if frac =? scale then Ok (to_u64 (ui64 + 1), 0) else Ok (ui64, frac)
  else Ok (ui64, 0).

(** [f < 0] and [-f] *)
Definition double_negative (f : double) : bool := SFltb f (S754_zero false).
Definition double_abs (f : double) : double := if double_negative f then SFopp f else f.

Definition put_double (room : option nat) (d : directive) (f : double) : outcome (list Z) :=
  let negative := double_negative f in
  let f := double_abs f in
  let room := if negative then less room 1 else room in
  '(ui64, frac) ← double_parts d f;
  int ← ngx_sprintf_num room ui64 (d_zero d) 0 (d_width d);
  let room := less room (length int) in
  rest ← (if negb (d_frac_width d =? 0) then
      let dot := if has_room room then ["."%ch] else [] in
      ds ← ngx_sprintf_num (less room (length dot)) frac "0"%ch 0 (d_frac_width d); Ok (dot ++ ds)
    else Ok []);
  Ok ((if negative then ["-"%ch] else []) ++ int ++ rest).

(** Fetch a signed or an unsigned argument and print it. *)
Definition put_arg (room : option nat) (d : directive) (sign : bool)
    (geti getu : list va -> outcome (Z * list va)) (width : Z) (args : list va)
  : outcome (list Z * list va) :=
  if sign then
    '(i64, args) ← geti args;
    out ← put_number room true i64 0 (d_zero d) (d_hex d) width; Ok (out, args)
  else
    '(ui64, args) ← getu args;
    out ← put_number room false 0 ui64 (d_zero d) (d_hex d) width; Ok (out, args).

(** The switch on the conversion character [c]: the bytes stored and the
    remaining arguments. *)
Definition convert (room : option nat) (d : directive) (c : Z) (args : list va)
  : outcome (list Z * list va) :=
  if (c =? "V"%ch) || (c =? "v"%ch) then
    '(s, args) ← va_str args; out ← cpymem s (clip room (length s)); Ok (out, args)
  else if c =? "s"%ch then
    '(p, args) ← va_ptr args;
    out ← (if d_slen d =? to_u64 (-1) then copy_cstring room p
           else cpymem p (clip room (Z.to_nat (d_slen d))));
    Ok (out, args)
  else if c =? "O"%ch then put_arg room d true va_int64 va_uint64 (d_width d) args
  else if c =? "P"%ch then put_arg room d true va_int32 va_uint32 (d_width d) args
  else if c =? "T"%ch then put_arg room d true va_int64 va_uint64 (d_width d) args
  else if c =? "M"%ch then
    '(ms, args) ← va_uint64 args;
    out ← (if to_i64 ms =? -1 then put_number room true (-1) 0 (d_zero d) (d_hex d) (d_width d)
           else put_number room false 0 ms (d_zero d) (d_hex d) (d_width d));
    Ok (out, args)
  else if c =? "z"%ch then put_arg room d (d_sign d) va_int64 va_uint64 (d_width d) args
  else if c =? "i"%ch then
    put_arg room d (d_sign d) va_int64 va_uint64
      (if d_max_width d then NGX_INT_T_LEN else d_width d) args
  else if c =? "d"%ch then put_arg room d (d_sign d) va_int32 va_uint32 (d_width d) args
  else if c =? "l"%ch then put_arg room d (d_sign d) va_int64 va_uint64 (d_width d) args
  else if c =? "D"%ch then put_arg room d (d_sign d) va_int32 va_uint32 (d_width d) args
  else if c =? "L"%ch then put_arg room d (d_sign d) va_int64 va_uint64 (d_width d) args
  else if c =? "A"%ch then
    put_arg room d (d_sign d) va_int64 va_uint64
      (if d_max_width d then NGX_ATOMIC_T_LEN else d_width d) args
  else if c =? "f"%ch then
    '(f, args) ← va_double args; out ← put_double room d f; Ok (out, args)
  else if c =? "r"%ch then put_arg room d true va_int64 va_uint64 (d_width d) args
  else if c =? "p"%ch then
    '(ui64, args) ← va_uint64 args;
    out ← put_number room false 0 ui64 "0"%ch 2 16; Ok (out, args)
  else if c =? "c"%ch then
    '(n, args) ← va_int32 args; Ok ([to_u8 (Z.land n 0xff)], args)
  else if c =? "Z"%ch then Ok ([0], args)
  else if c =? "N"%ch then Ok ([10], args)
  else if c =? "%"%ch then Ok (["%"%ch], args)
  else Ok ([c], args).

(** ** ngx_vslprintf

    Every iteration moves past at least one character of the format, whose
    length plus one is fuel enough. *)
Fixpoint vslprintf_loop (fuel : nat) (room : option nat) (fmt : list Z) (args : list va)
  : outcome (list Z) :=
  match fuel with
  | O => NoFuel
  | S fuel' =>
      match fmt with
      | [] => UB
      | c :: fmt' =>
          if (c =? 0) || negb (has_room room) then Ok []
          else if c =? "%"%ch then
            '(d, fmt, args) ← scan_directive fmt' args;
            match fmt with
            | [] => UB
            | c :: fmt' =>
                '(out, args) ← convert room d c args;
                rest ← vslprintf_loop fuel' (less room (length out)) fmt' args;
                Ok (out ++ rest)
            end
          else
            rest ← vslprintf_loop fuel' (less room 1) fmt' args; Ok (c :: rest)
      end
  end.

Definition ngx_vslprintf (room : option nat) (fmt : list Z) (args : list va) : outcome (list Z) :=
  vslprintf_loop (S (length fmt)) room fmt args.

(** A format literal. *)
Definition format (s : string) : list Z := bytes s ++ [0].

Definition ngx_sprintf (fmt : string) (args : list va) : outcome (list Z) :=
  ngx_vslprintf None (format fmt) args.
Definition ngx_snprintf (max : nat) (fmt : string) (args : list va) : outcome (list Z) :=
  ngx_vslprintf (Some max) (format fmt) args.
Definition ngx_slprintf (room : nat) (fmt : string) (args : list va) : outcome (list Z) :=
  ngx_vslprintf (Some room) (format fmt) args.

Example sprintf_1 : ngx_sprintf "%ud.%xd:%5i|%05d|%V%Z" [V32 192; V32 255; V64 (-7); V32 42; VStr (bytes "ab")]
  = Ok (bytes "192.ff:-    7|00042|ab" ++ [0]).
Proof. reflexivity. Qed.
Example sprintf_2 : ngx_snprintf 6 "a%s%*sz" [VPtr (format "bcd"); V64 2; VPtr (bytes "efg")]
  = Ok (bytes "abcdef").
Proof. reflexivity. Qed.
Example sprintf_f : ngx_sprintf "%.3f %3.1f" [VDouble (double_of 5 (-3)); VDouble (double_of (-31) (-2))]
  = Ok (bytes "0.625 -  7.8").
Proof. vm_compute. reflexivity. Qed.
(** A format that ends in the middle of a directive is read past its end. *)
Example sprintf_overread : ngx_sprintf "%" [] = UB.
Proof. reflexivity. Qed.
(** The smallest 64-bit number cannot be negated. *)
Example sprintf_min : ngx_sprintf "%L" [V64 (- 2 ^ 63)] = UB.
Proof. reflexivity. Qed.

(** * Numbers *)

(** A canonical numeral: its length is bounded, and it has no leading zero. *)
Definition canonical (ds : list Z) : Prop :=
  ds <> [] /\ (hd 0 ds = "0"%ch -> ds = ["0"%ch]).

Lemma dec_digits_spec p ui acc :
  0 <= ui < 10 ^ Z.of_nat p -> (0 < p)%nat ->
  exists ds, dec_digits p ui acc = Ok (ds ++ acc) /\ forallb is_digit ds = true /\
    dec_value ds = ui /\ canonical ds /\ (length ds <= p)%nat.
Proof.
  revert ui acc. induction p as [|p IH]; intros ui acc Hui Hp; [lia|]. cbn [dec_digits].
  assert (Hd : to_u8 (ui mod 10 + "0"%ch) = ui mod 10 + "0"%ch) by casts. rewrite Hd.
  set (c := ui mod 10 + "0"%ch).
  assert (Hc : is_digit c = true) by (unfold is_digit, c; pose proof (Z.mod_pos_bound ui 10); tests).
  destruct (Z.eqb_spec (ui / 10) 0) as [E|E]; cbn [negb].
  - exists [c]. assert (ui mod 10 = ui) by (Z.div_mod_to_equations; lia).
    split_and!; [done|cbn; by rewrite Hc|cbn; lia| |cbn; lia].
    split; [done|]. cbn. by intros ->.
  - assert (Hlt : 0 <= ui / 10 < 10 ^ Z.of_nat p).
    { split; [apply Z.div_pos; lia|]. apply Z.div_lt_upper_bound; [lia|].
      replace (Z.of_nat (S p)) with (1 + Z.of_nat p) in Hui by lia.
      rewrite Z.pow_add_r in Hui by lia. lia. }
    destruct p as [|p]; [cbn in Hlt; lia|].
    destruct (IH (ui / 10) (c :: acc)) as (ds & -> & Hdig & Hv & [Hne Hcan] & Hlen); [done|lia|].
    exists (ds ++ [c]). rewrite <- app_assoc. split_and!; [done|..].
    + rewrite forallb_app, Hdig. cbn. by rewrite Hc.
    + unfold dec_value in *. rewrite dec_from_app, Hv. cbn. unfold c. Z.div_mod_to_equations; lia.
    + split; [by destruct ds|]. destruct ds as [|d ds]; [done|]. cbn in *. intros Hz.
      specialize (Hcan Hz). injection Hcan as -> ->. cbn in Hv. lia.
    + rewrite length_app. cbn. lia.
Qed.

(** The hexadecimal numerals of both cases. *)
Definition hex_table (hex : list Z) : Prop :=
  forall v, 0 <= v < 16 -> exists c, at_ hex v = Ok c /\ hex_digit c = Some v /\
    byte_ok c /\ (c = "0"%ch -> v = 0).

Lemma hex_tables : hex_table hex_digits /\ hex_table HEX_digits.
Proof.
  assert (G : forall hex, forallb (fun v => match at_ hex v with
      | Ok c => bool_decide (hex_digit c = Some v) && bool_decide (byte_ok c)
      | _ => false end) (seqZ 0 16) = true -> hex_table hex).
  { intros hex H v Hv. apply (range_forall 16 _ H) in Hv. destruct (at_ hex v) as [c| |]; [|done..].
    apply andb_prop in Hv as [H1 H2]. apply bool_decide_eq_true in H1, H2.
    exists c. split_and!; try done. intros ->. by injection H1. }
  split; apply G; reflexivity.
Qed.

Lemma hex_from_app v ds d c w :
  hex_from v ds = Some w -> hex_digit c = Some d -> hex_from v (ds ++ [c]) = Some (w * 16 + d).
Proof.
  intros H Hc. revert v H. induction ds as [|x ds IH]; intros v H; cbn in *.
  - injection H as ->. by rewrite Hc.
  - destruct (hex_digit x); [|done]. by apply IH.
Qed.

Lemma hexadecimal_digits_spec hex p ui acc :
  hex_table hex -> 0 <= ui < 16 ^ Z.of_nat p -> (0 < p)%nat ->
  exists ds, hexadecimal_digits hex p ui acc = Ok (ds ++ acc) /\ hex_from 0 ds = Some ui /\
    bytes_ok ds /\ canonical ds /\ (length ds <= p)%nat.
Proof.
  intros Ht. revert ui acc. induction p as [|p IH]; intros ui acc Hui Hp; [lia|].
  cbn [hexadecimal_digits].
  assert (El : Z.land ui 0xf = ui mod 16) by (change 0xf with (Z.ones 4); by rewrite Z.land_ones).
  assert (Es : Z.shiftr ui 4 = ui / 16) by by rewrite Z.shiftr_div_pow2.
  rewrite El, Es. pose proof (Z.mod_pos_bound ui 16 ltac:(lia)) as Hm.
  rewrite to_u32_id by lia. destruct (Ht _ Hm) as (c & -> & Hc & Hcb & Hc0). cbn [mbind outcome_bind].
  destruct (Z.eqb_spec (ui / 16) 0) as [E|E]; cbn [negb].
  - exists [c]. assert (ui mod 16 = ui) as Eu by (Z.div_mod_to_equations; lia). rewrite Eu in Hc.
    split_and!; [done|cbn; by rewrite Hc|apply bytes_ok_cons; split; [done|constructor]| |cbn; lia].
    split; [done|]. cbn. by intros ->.
  - assert (Hlt : 0 <= ui / 16 < 16 ^ Z.of_nat p).
    { split; [apply Z.div_pos; lia|]. apply Z.div_lt_upper_bound; [lia|].
      replace (Z.of_nat (S p)) with (1 + Z.of_nat p) in Hui by lia.
      rewrite Z.pow_add_r in Hui by lia. lia. }
    destruct p as [|p]; [cbn in Hlt; lia|].
    destruct (IH (ui / 16) (c :: acc)) as (ds & -> & Hv & Hb & [Hne Hcan] & Hlen); [done|lia|].
    exists (ds ++ [c]). rewrite <- app_assoc. split_and!; [done|..].
    + rewrite (hex_from_app _ _ _ _ _ Hv Hc). f_equal. Z.div_mod_to_equations; lia.
    + apply bytes_ok_app. split; [done|]. apply bytes_ok_cons. split; [done|constructor].
    + split; [by destruct ds|]. destruct ds as [|d ds]; [done|]. cbn in Hcan |- *. intros Hz.
      specialize (Hcan Hz). injection Hcan as -> ->. cbn in Hv. injection Hv as Hv. lia.
    + rewrite length_app. cbn. lia.
Qed.

(** What the digits of a 64-bit number are. *)
Definition numeral (hexadecimal v : Z) (ds : list Z) : Prop :=
  canonical ds /\ (length ds <= NGX_INT64_LEN)%nat /\
  (if hexadecimal =? 0 then forallb is_digit ds = true /\ dec_value ds = v
   else bytes_ok ds /\ hex_from 0 ds = Some v).

Lemma sprintf_digits_spec v hexadecimal :
  0 <= v < 2 ^ 64 -> exists ds, sprintf_digits v hexadecimal = Ok ds /\ numeral hexadecimal v ds.
Proof.
  intros Hv. unfold sprintf_digits, numeral, NGX_INT64_LEN, NGX_MAX_UINT32_VALUE.
  destruct hex_tables as [Hlo Hup].
  destruct (hexadecimal =? 0).
  - assert (Hd : exists ds, dec_digits 20 v [] = Ok (ds ++ []) /\ forallb is_digit ds = true /\
      dec_value ds = v /\ canonical ds /\ (length ds <= 20)%nat)
      by (apply dec_digits_spec; [change (10 ^ Z.of_nat 20) with 100000000000000000000; lia|lia]).
    destruct Hd as (ds & E & Hdig & Hval & Hcan & Hlen). rewrite app_nil_r in E.
    exists ds. split; [|by split_and!].
    destruct (Z.leb_spec v 0xffffffff); [|done]. by rewrite to_u32_id by lia.
  - assert (Hh : forall hex, hex_table hex -> exists ds, hexadecimal_digits hex 20 v [] = Ok ds /\
      canonical ds /\ (length ds <= 20)%nat /\ bytes_ok ds /\ hex_from 0 ds = Some v).
    { intros hex Ht. destruct (hexadecimal_digits_spec hex 20 v []) as (ds & E & H1 & H2 & H3 & H4); [done| |lia|].
      - change (16 ^ Z.of_nat 20) with (2 ^ 80). lia.
      - rewrite app_nil_r in E. by exists ds. }
    destruct (hexadecimal =? 1); by apply Hh.
Qed.

(** The whole field, padded to the width, as far as there is room. *)
Definition field (room : option nat) (zero width : Z) (ds : list Z) : list Z :=
  let text := replicate (Z.to_nat (width - Z.of_nat (length ds))) zero ++ ds in
  take (clip room (length text)) text.

Lemma ngx_sprintf_num_field room v zero hexadecimal width ds :
  sprintf_digits v hexadecimal = Ok ds ->
  ngx_sprintf_num room v zero hexadecimal width = Ok (field room zero width ds).
Proof.
  intros E. unfold ngx_sprintf_num, field. rewrite E. cbn [mbind outcome_bind]. f_equal.
  set (w := Z.to_nat (width - Z.of_nat (length ds))). rewrite length_app, length_replicate.
  destruct room as [r|]; cbn [clip less].
  - rewrite take_app, take_replicate, length_replicate. f_equal; f_equal; lia.
  - rewrite firstn_all. rewrite take_ge; [done|]. rewrite length_app, length_replicate. lia.
Qed.

Theorem ngx_sprintf_num_correct room v zero hexadecimal width :
  0 <= v < 2 ^ 64 ->
  exists ds, numeral hexadecimal v ds /\
    ngx_sprintf_num room v zero hexadecimal width = Ok (field room zero width ds).
Proof.
  intros Hv. destruct (sprintf_digits_spec v hexadecimal Hv) as (ds & E & Hn).
  exists ds. split; [done|]. by apply ngx_sprintf_num_field.
Qed.

(** * Every well-typed call is defined, and its limit only cuts the text *)

(** What a conversion does with the arguments: the ones left, or [None] when it
    is undefined: an argument of another type, a string that is not terminated or too short,
    the smallest signed 64-bit number, a double whose parts are not 64-bit numbers. *)
Definition take_signed (args : list va) : option (list va) :=
  match args with
  | V64 z :: args' => if to_i64 z =? - 2 ^ 63 then None else Some args'
  | _ => None
  end.
Definition take64 (sign : bool) (args : list va) : option (list va) :=
  if sign then take_signed args
  else match args with V64 _ :: args' => Some args' | _ => None end.
Definition take32 (args : list va) : option (list va) :=
  match args with V32 _ :: args' => Some args' | _ => None end.

Definition typed_arg (d : directive) (c : Z) (args : list va) : option (list va) :=
  if (c =? "V"%ch) || (c =? "v"%ch) then match args with VStr _ :: args' => Some args' | _ => None end
  else if c =? "s"%ch then
    match args with
    | VPtr p :: args' =>
        if d_slen d =? to_u64 (-1) then if existsb (Z.eqb 0) p then Some args' else None
        else if d_slen d <=? Z.of_nat (length p) then Some args' else None
    | _ => None
    end
  else if (c =? "O"%ch) || (c =? "T"%ch) || (c =? "r"%ch) then take64 true args
  else if (c =? "P"%ch) || (c =? "d"%ch) || (c =? "D"%ch) || (c =? "c"%ch) then take32 args
  else if (c =? "M"%ch) || (c =? "p"%ch) then take64 false args
  else if (c =? "z"%ch) || (c =? "i"%ch) || (c =? "l"%ch) || (c =? "L"%ch) || (c =? "A"%ch) then
    take64 (d_sign d) args
  else if c =? "f"%ch then
    match args with
    | VDouble f :: args' => match double_parts d (double_abs f) with Ok _ => Some args' | _ => None end
    | _ => None
    end
  else if c =? 0 then None
  else Some args.

(** The format is terminated, its directives are complete and the arguments fit. *)
Fixpoint well_typed (fuel : nat) (fmt : list Z) (args : list va) : bool :=
  match fuel with
  | O => false
  | S fuel' =>
      match fmt with
      | [] => false
      | c :: fmt' =>
          if c =? 0 then true
          else if c =? "%"%ch then
            match scan_directive fmt' args with
            | Ok (d, c :: fmt, args) =>
                match typed_arg d c args with
                | Some args => well_typed fuel' fmt args
                | None => false
                end
            | _ => false
            end
          else well_typed fuel' fmt' args
      end
  end.

(** The part of a text there is room for. *)
Definition cut (room : option nat) (out : list Z) : list Z :=
  match room with Some r => take r out | None => out end.

Definition room_ok (room : option nat) : Prop := has_room room = true.

Lemma cut_nil room : cut room [] = [].
Proof. destruct room; [apply take_nil|done]. Qed.

Lemma cut_no_room room out : has_room room = false -> cut room out = [].
Proof. by destruct room as [[|r]|]. Qed.

Lemma cut_cons room c out : room_ok room -> cut room (c :: out) = c :: cut (less room 1) out.
Proof. unfold room_ok. destruct room as [[|r]|]; cbn; [done| |done]. by rewrite Nat.sub_0_r. Qed.

Lemma cut_app room o1 o2 : cut room (o1 ++ o2) = cut room o1 ++ cut (less room (length (cut room o1))) o2.
Proof.
  destruct room as [r|]; cbn; [|done]. rewrite take_app, length_take. do 2 f_equal. lia.
Qed.

Lemma cut_field room zero width ds : field room zero width ds = cut room (field None zero width ds).
Proof.
  unfold field. cbn zeta. set (text := _ ++ _). cbn [clip]. rewrite (firstn_all text).
  destruct room as [r|]; cbn; [|by rewrite take_ge]. destruct (Nat.le_gt_cases r (length text)).
  - by rewrite Nat.min_l.
  - rewrite Nat.min_r by lia. by rewrite !take_ge by lia.
Qed.

(** The result [m] of a conversion, a function of the room: a text, of which what there is
    room for is stored. *)
Definition stores (m : option nat -> outcome (list Z)) (out : list Z) : Prop :=
  forall room, room_ok room -> m room = Ok (cut room out).
Definition converts (m : option nat -> outcome (list Z * list va)) (args' : list va) (out : list Z) : Prop :=
  forall room, room_ok room -> m room = Ok (cut room out, args').

Lemma sprintf_num_stores v zero hexadecimal width :
  0 <= v < 2 ^ 64 -> exists out, forall room, ngx_sprintf_num room v zero hexadecimal width = Ok (cut room out).
Proof.
  intros Hv. destruct (sprintf_digits_spec v hexadecimal Hv) as (ds & E & _).
  exists (field None zero width ds). intros room. rewrite <- cut_field. by apply ngx_sprintf_num_field.
Qed.

Lemma put_number_stores sign i64 ui64 zero hex width :
  (if sign : bool then - 2 ^ 63 < i64 < 2 ^ 63 else 0 <= ui64 < 2 ^ 64) ->
  exists out, stores (fun room => put_number room sign i64 ui64 zero hex width) out.
Proof.
  intros Hv. unfold put_number. destruct sign.
  - destruct (Z.ltb_spec i64 0).
    + rewrite int64_ok by lia. cbn [mbind outcome_bind].
      destruct (sprintf_num_stores (to_u64 (- i64)) zero hex width) as (out & E); [rewrite to_u64_id; lia|].
      exists ("-"%ch :: out). intros room Hr. rewrite E. cbn [mbind outcome_bind]. by rewrite cut_cons.
    + destruct (sprintf_num_stores (to_u64 i64) zero hex width) as (out & E); [rewrite to_u64_id; lia|].
      exists out. intros room _. apply E.
  - destruct (sprintf_num_stores ui64 zero hex width Hv) as (out & E). exists out. intros room _. apply E.
Qed.

Lemma stores_converts m args' :
  (exists out, stores m out) -> exists out, converts (fun room => out ← m room; Ok (out, args')) args' out.
Proof. intros (out & E). exists out. intros room Hr. by rewrite E. Qed.

Lemma to_i32_range z : - 2 ^ 31 <= to_i32 z < 2 ^ 31.
Proof. unfold to_i32. Z.div_mod_to_equations; lia. Qed.

Lemma put_arg32_converts d sign width args args' :
  take32 args = Some args' ->
  exists out, converts (fun room => put_arg room d sign va_int32 va_uint32 width args) args' out.
Proof.
  intros Ht. destruct args as [|[z|z|s|p|f] args]; try done. injection Ht as <-.
  unfold put_arg. destruct sign; cbn [va_int32 va_uint32 mbind outcome_bind];
    apply stores_converts, put_number_stores.
  - pose proof (to_i32_range z). lia.
  - casts.
Qed.

Lemma put_arg64_converts d sign width args args' :
  take64 sign args = Some args' ->
  exists out, converts (fun room => put_arg room d sign va_int64 va_uint64 width args) args' out.
Proof.
  intros Ht. destruct args as [|[z|z|s|p|f] args]; try by destruct sign.
  unfold put_arg. destruct sign; cbn [va_int64 va_uint64 mbind outcome_bind take64 take_signed] in *.
  - destruct (Z.eqb_spec (to_i64 z) (- 2 ^ 63)); [done|]. injection Ht as <-.
    apply stores_converts, put_number_stores. casts.
  - injection Ht as <-. apply stores_converts, put_number_stores. casts.
Qed.

Lemma copy_cstring_stores p :
  existsb (Z.eqb 0) p = true -> exists out, forall room, copy_cstring room p = Ok (cut room out).
Proof.
  induction p as [|c p IH]; intros Hp; [done|]. cbn [copy_cstring existsb] in *.
  rewrite Z.eqb_sym in Hp. destruct (c =? 0).
  { exists []. intros room. by rewrite cut_nil. }
  destruct (IH Hp) as (out & E). exists (c :: out). intros room. destruct (has_room room) eqn:Hr.
  - rewrite E. cbn [mbind outcome_bind]. by rewrite cut_cons.
  - by rewrite cut_no_room.
Qed.

Lemma cpymem_stores data n :
  (n <= length data)%nat -> forall room, cpymem data (clip room n) = Ok (cut room (take n data)).
Proof.
  intros Hn room. unfold cpymem.
  assert (Hc : (clip room n <= length data)%nat) by (destruct room; cbn; lia).
  rewrite (proj2 (Nat.leb_le _ _) Hc). f_equal. destruct room; cbn; [|done]. by rewrite take_take.
Qed.

Lemma double_parts_range d f ui64 frac :
  double_parts d f = Ok (ui64, frac) -> 0 <= ui64 < 2 ^ 64 /\ 0 <= frac < 2 ^ 64.
Proof.
  unfold double_parts. destruct (double_to_int64 f) as [v| |]; [|done..]. cbn [mbind outcome_bind].
  assert (Hu : forall v, 0 <= to_u64 v < 2 ^ 64) by (intros; casts).
  destruct (negb _); [|intros [= <- <-]; split; [apply Hu|lia]].
  unfold double_to_uint64. destruct (double_trunc _) as [w|]; [|done].
  destruct (Z.leb_spec 0 w); [|done]. destruct (Z.ltb_spec w (2 ^ 64)); [|done]. cbn [andb].
  cbn [mbind outcome_bind]. destruct (w =? _); intros [= <- <-]; (split; [apply Hu|lia]).
Qed.

Lemma put_double_stores d f r :
  double_parts d (double_abs f) = Ok r -> exists out, stores (fun room => put_double room d f) out.
Proof.
  intros E. destruct r as [ui64 frac]. destruct (double_parts_range _ _ _ _ E) as [Hu Hf].
  destruct (sprintf_num_stores ui64 (d_zero d) 0 (d_width d) Hu) as (int & Ei).
  destruct (sprintf_num_stores frac "0"%ch 0 (d_frac_width d) Hf) as (ds & Ed).
  set (fraction := if negb (d_frac_width d =? 0) then "."%ch :: ds else []).
  assert (G : forall room, (int ← ngx_sprintf_num room ui64 (d_zero d) 0 (d_width d);
      let room := less room (length int) in
      rest ← (if negb (d_frac_width d =? 0) then
          let dot := if has_room room then ["."%ch] else [] in
          ds ← ngx_sprintf_num (less room (length dot)) frac "0"%ch 0 (d_frac_width d); Ok (dot ++ ds)
        else Ok []);
      Ok (int ++ rest)) = Ok (cut room (int ++ fraction))).
  { intros room. rewrite Ei. cbn [mbind outcome_bind]. cbn zeta. rewrite cut_app.
    set (room' := less room _). subst fraction. destruct (negb _); [|by rewrite cut_nil].
    rewrite Ed. cbn [mbind outcome_bind]. destruct (has_room room') eqn:Hr.
    - by rewrite (cut_cons room') by done.
    - rewrite (cut_no_room room') by done. cbn [length app]. f_equal. f_equal.
      destruct room' as [[|k]|]; done. }
  exists ((if double_negative f then ["-"%ch] else []) ++ int ++ fraction).
  intros room Hr. unfold put_double. cbn zeta. rewrite E. cbn [mbind outcome_bind].
  assert (H : forall (m : outcome (list Z)) pre out, m = Ok out ->
    (x ← m; Ok (pre ++ x)) = Ok (pre ++ out)) by (intros ? ? ? ->; done).
  destruct (double_negative f); cbn [app].
  - rewrite cut_cons by done. pose proof (G (less room 1)) as Gr.
    destruct (ngx_sprintf_num (less room 1) ui64 _ _ _) as [int'| |]; [|done..]. cbn [mbind outcome_bind] in Gr |- *.
    cbn zeta in Gr. match type of Gr with (?m ≫= _) = _ => destruct m as [rest| |]; [|done..] end. cbn [mbind outcome_bind] in Gr |- *.
    by injection Gr as ->.
  - apply G.
Qed.

(** Tests between literals. *)
Ltac literal_tests :=
  unfold typed_arg in *;
  repeat match goal with
  | Ht : context [Z.eqb (Zpos ?a) ?b] |- _ =>
      let v := eval vm_compute in (Z.eqb (Zpos a) b) in
      change (Z.eqb (Zpos a) b) with v in Ht; cbn [orb] in Ht
  end.

(** Case analysis on the conversion character [c]: each literal in turn, closing
    the conversions of integers. *)
Ltac conversion_cases c :=
  repeat match goal with
  | |- context [Z.eqb c ?k] =>
      destruct (Z.eqb_spec c k) as [->|?]; cbn [orb];
      [literal_tests; try (by apply put_arg64_converts); try (by apply put_arg32_converts); try done|]
  end.

(** The characters of the conversions that take an argument. *)
Definition conversions : list Z := Eval vm_compute in bytes "VvsOPTMzidlDLAfrpc".

Lemma typed_default d c args args' :
  typed_arg d c args = Some args' ->
  existsb (Z.eqb c) conversions = false -> args' = args.
Proof.
  intros Ht Hc. cbn in Hc. repeat (apply orb_false_iff in Hc as [? Hc]).
  unfold typed_arg in Ht.
  repeat match goal with H : (c =? _) = false |- _ => rewrite H in Ht; clear H end.
  cbn [orb] in Ht. destruct (c =? 0); [done|]. by injection Ht.
Qed.

Lemma convert_typed d c args args' :
  typed_arg d c args = Some args' -> exists out, converts (fun room => convert room d c args) args' out.
Proof.
  intros Ht.
  assert (Hone : forall x l, exists out, converts (fun _ => Ok ([x], l)) l out).
  { intros x l. exists [x]. intros room Hr. rewrite cut_cons, cut_nil; done. }
  destruct (existsb (Z.eqb c) conversions) eqn:Hc.
  - cbn in Hc. unfold convert. conversion_cases c.
    1,2,3,4,5,6,7: destruct args as [|[z|z|s|p|f] args]; try done;
      cbn [va_str va_ptr va_uint64 va_int32 va_double mbind outcome_bind].
    + injection Ht as <-. apply stores_converts. eexists. intros room _. by apply cpymem_stores.
    + injection Ht as <-. apply stores_converts. eexists. intros room _. by apply cpymem_stores.
    + destruct (d_slen d =? to_u64 (-1)).
      * destruct (existsb (Z.eqb 0) p) eqn:Ep; [|done]. injection Ht as <-.
        destruct (copy_cstring_stores p Ep) as (out & E). apply stores_converts. exists out. intros room _. apply E.
      * destruct (Z.leb_spec (d_slen d) (Z.of_nat (length p))); [|done]. injection Ht as <-.
        apply stores_converts. eexists. intros room _. apply cpymem_stores. lia.
    + injection Ht as <-. destruct (_ =? -1); apply stores_converts, put_number_stores; casts.
    + destruct (double_parts d (double_abs f)) as [r| |] eqn:E; [|done..]. injection Ht as <-.
      apply stores_converts. by eapply put_double_stores.
    + injection Ht as <-. apply stores_converts, put_number_stores. casts.
    + injection Ht as <-. apply Hone.
    + done.
  - rewrite (typed_default d c args args' Ht Hc). cbn in Hc.
    repeat (apply orb_false_iff in Hc as [? Hc]). unfold convert.
    repeat match goal with H : (c =? _) = false |- _ => rewrite H; clear H end.
    cbn [orb]. destruct (c =? "Z"%ch); [apply Hone|]. destruct (c =? "N"%ch); [apply Hone|].
    destruct (c =? "%"%ch); apply Hone.
Qed.

(** Scanning a directive consumes the format from the left. *)
Lemma scan_width_length fmt w r :
  scan_width fmt w = Ok r -> (length r.2 <= length fmt)%nat.
Proof.
  revert w. induction fmt as [|c fmt IH]; intros w; cbn [scan_width]; [done|].
  destruct (_ && _).
  - intros H. apply IH in H. cbn. lia.
  - intros [= <-]. cbn. lia.
Qed.

Lemma scan_flags_length fmt d args r :
  scan_flags fmt d args = Ok r -> (length r.1.2 <= length fmt)%nat.
Proof.
  revert d args. induction fmt as [|c fmt IH]; intros [z w sg hx mw fw sl] args; cbn [scan_flags]; [done|].
  cbn [length]. destruct (c =? "u"%ch); [intros H; apply IH in H; lia|].
  destruct (c =? "m"%ch); [intros H; apply IH in H; lia|].
  destruct (c =? "X"%ch); [intros H; apply IH in H; lia|].
  destruct (c =? "x"%ch); [intros H; apply IH in H; lia|].
  destruct (c =? "."%ch).
  { destruct (scan_width fmt fw) as [[w' f']| |] eqn:E; [|done..].
    intros [= <-]. apply scan_width_length in E. cbn in *. lia. }
  destruct (c =? "*"%ch).
  { destruct (va_uint64 args) as [[s a]| |]; [|done..]. cbn. intros H; apply IH in H; lia. }
  intros [= <-]. cbn. lia.
Qed.

Lemma scan_directive_length fmt args r :
  scan_directive fmt args = Ok r -> (length r.1.2 <= length fmt)%nat.
Proof.
  unfold scan_directive. destruct (deref fmt 0) as [c| |]; [|done..]. cbn [mbind outcome_bind].
  destruct (scan_width fmt 0) as [[w f]| |] eqn:E; [|done..]. apply scan_width_length in E.
  cbn [mbind outcome_bind]. intros H. apply scan_flags_length in H. cbn in *. lia.
Qed.

Lemma vslprintf_loop_typed fuel fmt args :
  (length fmt < fuel)%nat -> well_typed fuel fmt args = true ->
  exists out, forall room, vslprintf_loop fuel room fmt args = Ok (cut room out).
Proof.
  revert fmt args. induction fuel as [|fuel IH]; intros fmt args Hlen Ht; [done|].
  cbn [vslprintf_loop well_typed] in *. destruct fmt as [|c fmt]; [done|]. cbn [length] in Hlen.
  destruct (c =? 0); cbn [orb]. { exists []. intros room. by rewrite cut_nil. }
  destruct (c =? "%"%ch).
  - destruct (scan_directive fmt args) as [[[d f] a]| |] eqn:Es; [|done..].
    apply scan_directive_length in Es. cbn in Es. cbn [mbind outcome_bind].
    destruct f as [|c2 f]; [done|]. cbn in Es.
    destruct (typed_arg d c2 a) as [a'|] eqn:Ea; [|done].
    destruct (convert_typed d c2 a a' Ea) as (out & E). destruct (IH f a') as (rest & E'); [lia|done|].
    exists (out ++ rest). intros room. destruct (has_room room) eqn:Hr; cbn [negb]; [|by rewrite cut_no_room].
    rewrite E by done. cbn [mbind outcome_bind]. rewrite E'. cbn [mbind outcome_bind]. by rewrite <- cut_app.
  - destruct (IH fmt args) as (rest & E'); [lia|done|]. exists (c :: rest). intros room.
    destruct (has_room room) eqn:Hr; cbn [negb]; [|by rewrite cut_no_room].
    rewrite E'. cbn [mbind outcome_bind]. by rewrite cut_cons.
Qed.

(** C40. For a format that is terminated and whose directives match the arguments
    (each of the type its directive fetches, strings terminated or as long as their
    length says, no signed argument the smallest of 64 bits, doubles whose integer part
    and scaled fraction are 64-bit numbers), ngx_vslprintf terminates without undefined
    behaviour, and what it stores with room for max bytes is the first max bytes of what
    it stores without a limit; so ngx_snprintf and ngx_slprintf never write past their
    buffer. *)
Theorem ngx_vslprintf_cut fmt args :
  well_typed (S (length fmt)) fmt args = true ->
  exists out, ngx_vslprintf None fmt args = Ok out /\
    forall max, ngx_vslprintf (Some max) fmt args = Ok (take max out).
Proof.
  intros Ht. destruct (vslprintf_loop_typed (S (length fmt)) fmt args) as (out & E); [lia|done|].
  exists out. split; [apply (E None)|]. intros max. apply (E (Some max)).
Qed.

Lemma ngx_vslprintf_cut_witness :
  exists out,
    ngx_vslprintf None (format "%V: %03d %.2f(%*s)") [VStr (bytes "ab"); V32 7; VDouble (double_of (-5) (-1)); V64 1; VPtr (bytes "xyz")]
      = Ok out /\ out = bytes "ab: 007 -2.50(x)" /\
    forall max, ngx_vslprintf (Some max) (format "%V: %03d %.2f(%*s)")
      [VStr (bytes "ab"); V32 7; VDouble (double_of (-5) (-1)); V64 1; VPtr (bytes "xyz")] = Ok (take max out).
Proof.
  destruct (ngx_vslprintf_cut (format "%V: %03d %.2f(%*s)")
    [VStr (bytes "ab"); V32 7; VDouble (double_of (-5) (-1)); V64 1; VPtr (bytes "xyz")]) as (out & E & C).
  - vm_compute. reflexivity.
  - exists out. split; [exact E|]. split; [|exact C]. vm_compute in E. injection E as <-. reflexivity.
Defined.

Lemma ngx_sprintf_num_correct_witness :
  exists ds, numeral 0 18446744073709551615 ds /\
    ngx_sprintf_num (Some 30%nat) 18446744073709551615 " "%ch 0 25
      = Ok (field (Some 30%nat) " "%ch 25 ds).
Proof. apply ngx_sprintf_num_correct. split; [discriminate|reflexivity]. Defined.

(** * Printing and parsing *)

(** The numerals of a number. *)
Definition dec (v : Z) : list Z :=
  match sprintf_digits v 0 with Ok ds => ds | _ => [] end.
Definition hexl (v : Z) : list Z :=
  match sprintf_digits v 1 with Ok ds => ds | _ => [] end.

Lemma dec_spec v : 0 <= v < 2 ^ 64 -> sprintf_digits v 0 = Ok (dec v) /\ numeral 0 v (dec v).
Proof.
  intros Hv. unfold dec. destruct (sprintf_digits_spec v 0 Hv) as (ds & -> & Hn). done.
Qed.

Lemma hexl_spec v : 0 <= v < 2 ^ 64 -> sprintf_digits v 1 = Ok (hexl v) /\ numeral 1 v (hexl v).
Proof.
  intros Hv. unfold hexl. destruct (sprintf_digits_spec v 1 Hv) as (ds & -> & Hn). done.
Qed.

Lemma field_0 zero ds : field None zero 0 ds = ds.
Proof.
  unfold field. replace (Z.to_nat (0 - Z.of_nat (length ds))) with 0%nat by lia.
  cbn [replicate app clip]. apply firstn_all.
Qed.

Lemma field_some r zero ds : (length ds <= r)%nat -> field (Some r) zero 0 ds = ds.
Proof.
  intros H. unfold field. replace (Z.to_nat (0 - Z.of_nat (length ds))) with 0%nat by lia.
  cbn [replicate app clip]. apply take_ge. lia.
Qed.

Lemma put_uint_field room zero v :
  0 <= v < 2 ^ 64 ->
  put_number room false 0 v zero 0 0 = Ok (field room zero 0 (dec v)).
Proof. intros Hv. by apply ngx_sprintf_num_field, dec_spec. Qed.

(** One directive: what it scans to and what it stores. *)
Lemma loop_directive fuel room fmt args d c fmt' args' out args'' :
  room_ok room -> scan_directive fmt args = Ok (d, c :: fmt', args') ->
  convert room d c args' = Ok (out, args'') ->
  vslprintf_loop (S fuel) room ("%"%ch :: fmt) args
    = (rest ← vslprintf_loop fuel (less room (length out)) fmt' args''; Ok (out ++ rest)).
Proof.
  intros Hr Hs Hc. cbn [vslprintf_loop].
  change (("%"%ch =? 0)) with false. change ("%"%ch =? "%"%ch) with true.
  rewrite Hr, Hs. cbn [orb negb mbind outcome_bind]. by rewrite Hc.
Qed.

Lemma loop_end fuel room fmt args : vslprintf_loop (S fuel) room (0 :: fmt) args = Ok [].
Proof. done. Qed.

(** ngx_atoi reads a numeral back. *)
Lemma atoi_dec v rest :
  0 <= v <= NGX_MAX_INT_T_VALUE -> ngx_atoi (dec v ++ rest) (length (dec v)) = Ok v.
Proof.
  intros Hv. destruct (dec_spec v) as (_ & [Hne _] & _ & Hdig & Hval); [ilia|].
  destruct (atoi_family (dec v ++ rest) (length (dec v))) as [-> _]; [rewrite length_app; lia|].
  rewrite take_app_length. unfold atoi_spec. destruct (dec v) as [|c ds] eqn:E; [done|]. rewrite <- E in *.
  rewrite Hdig, Hval. by rewrite (proj2 (Z.leb_le _ _) (proj2 Hv)).
Qed.

Theorem sprintf_atoi_roundtrip v max :
  0 <= v <= NGX_MAX_INT_T_VALUE -> (NGX_INT64_LEN <= max)%nat ->
  exists text, ngx_snprintf max "%ui" [V64 v] = Ok text /\ ngx_atoi text (length text) = Ok v.
Proof.
  intros Hv Hm. assert (Hv' : 0 <= v < 2 ^ 64) by ilia.
  destruct (dec_spec v Hv') as (_ & [Hne _] & Hlen & Hdig & Hval).
  exists (dec v). split.
  - unfold ngx_snprintf, ngx_vslprintf. change (format "%ui") with ["%"%ch; "u"%ch; "i"%ch; 0].
    cbn [length].
    rewrite (loop_directive _ (Some max) _ _ (mk_directive " "%ch 0 false 0 false 0 (to_u64 (-1)))
      "i"%ch [0] [V64 v] (dec v) []).
    + rewrite loop_end. cbn [mbind outcome_bind]. by rewrite app_nil_r.
    + destruct max; [unfold NGX_INT64_LEN in Hm; lia|done].
    + reflexivity.
    + transitivity (out ← put_number (Some max) false 0 (to_u64 v) " "%ch 0 0; Ok (out, @nil va));
        [reflexivity|].
      rewrite to_u64_id, put_uint_field by lia. rewrite field_some; [done|].
      unfold NGX_INT64_LEN in *. lia.
  - rewrite <- (app_nil_r (dec v)) at 1. by apply atoi_dec.
Qed.

Lemma sprintf_atoi_roundtrip_witness :
  exists text, ngx_snprintf 20 "%ui" [V64 9223372036854775807] = Ok text /\
    ngx_atoi text (length text) = Ok 9223372036854775807.
Proof.
  apply (sprintf_atoi_roundtrip 9223372036854775807 20).
  - split; discriminate.
  - apply le_n.
Defined.

(** ** The directives of address formats, where there is room for them *)

Definition enough (room : option nat) (n : nat) : Prop :=
  match room with Some r => (n <= r)%nat | None => True end.

Lemma enough_room_ok room n : enough room (S n) -> room_ok room.
Proof. by destruct room as [[|r]|]; cbn; [lia|..]. Qed.

Lemma enough_less room n k : enough room (n + k) -> enough (less room n) k.
Proof. destruct room; cbn; [lia|done]. Qed.

Lemma field_enough room zero ds : enough room (length ds) -> field room zero 0 ds = ds.
Proof. destruct room as [r|]; cbn; [apply field_some|intros _; apply field_0]. Qed.

Lemma numeral_room hexadecimal v ds room :
  numeral hexadecimal v ds -> enough room (length ds) -> room_ok room.
Proof. intros [[Hne _] _]. destruct ds; [done|]. apply enough_room_ok. Qed.

Lemma put_dec room v :
  0 <= v < 2 ^ 64 -> enough room (length (dec v)) ->
  put_number room false 0 v " "%ch 0 0 = Ok (dec v).
Proof. intros Hv He. rewrite put_uint_field by done. by rewrite field_enough. Qed.

Lemma loop_ud fuel room fmt v args :
  0 <= v < 2 ^ 32 -> enough room (length (dec v)) ->
  vslprintf_loop (S fuel) room ("%"%ch :: "u"%ch :: "d"%ch :: fmt) (V32 v :: args)
    = (rest ← vslprintf_loop fuel (less room (length (dec v))) fmt args; Ok (dec v ++ rest)).
Proof.
  intros Hv He.
  apply (loop_directive fuel room ("u"%ch :: "d"%ch :: fmt) (V32 v :: args)
    (mk_directive " "%ch 0 false 0 false 0 (to_u64 (-1))) "d"%ch fmt (V32 v :: args)).
  - eapply numeral_room; [apply (dec_spec v); lia|done].
  - done.
  - transitivity (out ← put_number room false 0 (to_u32 v) " "%ch 0 0; Ok (out, args)); [reflexivity|].
    rewrite to_u32_id by lia. rewrite put_dec; [done|lia|done].
Qed.

Lemma loop_xd fuel room fmt v args :
  0 <= v < 2 ^ 32 -> enough room (length (hexl v)) ->
  vslprintf_loop (S fuel) room ("%"%ch :: "x"%ch :: "d"%ch :: fmt) (V32 v :: args)
    = (rest ← vslprintf_loop fuel (less room (length (hexl v))) fmt args; Ok (hexl v ++ rest)).
Proof.
  intros Hv He. destruct (hexl_spec v ltac:(lia)) as [Hd Hn].
  apply (loop_directive fuel room ("x"%ch :: "d"%ch :: fmt) (V32 v :: args)
    (mk_directive " "%ch 0 false 1 false 0 (to_u64 (-1))) "d"%ch fmt (V32 v :: args)).
  - by eapply numeral_room.
  - done.
  - transitivity (out ← ngx_sprintf_num room (to_u32 v) " "%ch 1 0; Ok (out, args)); [reflexivity|].
    rewrite to_u32_id, (ngx_sprintf_num_field room v _ 1 0 (hexl v)) by (done || lia).
    by rewrite field_enough.
Qed.

Lemma loop_d fuel room fmt v args :
  0 <= v < 2 ^ 31 -> enough room (length (dec v)) ->
  vslprintf_loop (S fuel) room ("%"%ch :: "d"%ch :: fmt) (V32 v :: args)
    = (rest ← vslprintf_loop fuel (less room (length (dec v))) fmt args; Ok (dec v ++ rest)).
Proof.
  intros Hv He. destruct (dec_spec v ltac:(lia)) as [Hd Hn].
  apply (loop_directive fuel room ("d"%ch :: fmt) (V32 v :: args)
    (mk_directive " "%ch 0 true 0 false 0 (to_u64 (-1))) "d"%ch fmt (V32 v :: args)).
  - by eapply numeral_room.
  - done.
  - transitivity (out ← put_number room true (to_i32 v) 0 " "%ch 0 0; Ok (out, args)); [reflexivity|].
    replace (to_i32 v) with v by (unfold to_i32; rewrite Z.mod_small; lia).
    unfold put_number. rewrite (proj2 (Z.ltb_ge v 0)), to_u64_id by lia.
    rewrite (ngx_sprintf_num_field room v _ 0 0 (dec v)) by done. by rewrite field_enough.
Qed.

Lemma loop_char fuel room fmt c args :
  c <> 0 -> c <> "%"%ch -> enough room 1 ->
  vslprintf_loop (S fuel) room (c :: fmt) args
    = (rest ← vslprintf_loop fuel (less room 1) fmt args; Ok (c :: rest)).
Proof.
  intros H0 Hp He%enough_room_ok. cbn [vslprintf_loop]. unfold room_ok in He. rewrite He.
  by rewrite (proj2 (Z.eqb_neq c 0)), (proj2 (Z.eqb_neq c _)) by done.
Qed.
