(* ===== verification/SprintfFormat.v ===== *)
(** Component "formatting", continued: a whole call of ngx_sprintf, as the
    concatenation of what the pieces of its format store.

    The calls that print dates and other records have a format of literal text,
    strings, characters and numbers with a width; [ngx_sprintf_pieces] gives the
    result of any such call at once. *)

From stdpp Require Import base numbers list option strings.
From Stdlib Require Import ZArith Lia.
From S2P Require Import Prelude Atoi Sprintf.
Local Open Scope Z_scope.

(** * Pieces of a format *)

Inductive piece : Type :=
| Lit (c : Z)                        (* an ordinary character *)
| Str (s rest : list Z)              (* "%s", the NUL of the string, then [rest] *)
| Chr (c : Z)                        (* "%c" *)
| Num (zero : bool) (width : nat) (long : bool) (v : Z).  (* "%d" or "%i" *)

Definition piece_fmt (p : piece) : list Z :=
  match p with
  | Lit c => [c]
  | Str _ _ => bytes "%s"
  | Chr _ => bytes "%c"
  | Num zero width long _ =>
      "%"%ch :: (if zero then ["0"%ch] else []) ++
      (match width with O => [] | _ => ["0"%ch + Z.of_nat width] end) ++
      [if long then "i"%ch else "d"%ch]
  end.

Definition piece_args (p : piece) : list va :=
  match p with
  | Lit _ => []
  | Str s rest => [VPtr (s ++ 0 :: rest)]
  | Chr c => [V32 c]
  | Num _ _ long v => [if long then V64 v else V32 v]
  end.

Definition zero_char (zero : bool) : Z := if zero then "0"%ch else " "%ch.

Definition piece_out (p : piece) : list Z :=
  match p with
  | Lit c => [c]
  | Str s _ => s
  | Chr c => [c]
  | Num zero width _ v => field None (zero_char zero) (Z.of_nat width) (dec v)
  end.

Definition piece_ok (p : piece) : Prop :=
  match p with
  | Lit c => c <> 0 /\ c <> "%"%ch
  | Str s _ => no_nul s
  | Chr c => byte_ok c
  | Num _ width _ v => (width <= 9)%nat /\ 0 <= v < 2 ^ 31
  end.

(** * Every piece stores its text *)

Lemma copy_cstring_whole s rest : no_nul s -> copy_cstring None (s ++ 0 :: rest) = Ok s.
Proof.
  intros H. induction H as [|c s Hc Hs IH]; [done|]. cbn [app copy_cstring].
  rewrite (proj2 (Z.eqb_neq _ _) Hc). cbn [has_room less]. by rewrite IH.
Qed.

Lemma put_number_dec (long : bool) zero width v :
  0 <= v < 2 ^ 31 ->
  put_number None true v 0 zero 0 width = Ok (field None zero width (dec v)).
Proof.
  intros Hv. destruct (dec_spec v) as [Hd _]; [lia|]. unfold put_number.
  rewrite (proj2 (Z.ltb_ge v 0)), to_u64_id by lia. by apply ngx_sprintf_num_field.
Qed.

(** The directive of a number. *)
Definition num_directive (zero : bool) (width : nat) : directive :=
  mk_directive (zero_char zero) (Z.of_nat width) true 0 false 0 (to_u64 (-1)).

Lemma scan_num zero width long v fmt args :
  (width <= 9)%nat ->
  scan_directive (tail (piece_fmt (Num zero width long v)) ++ fmt) args
    = Ok (num_directive zero width, (if long then "i"%ch else "d"%ch) :: fmt, args).
Proof.
  intros Hw. do 10 (destruct width as [|width]; [by destruct zero, long|]). lia.
Qed.

Lemma convert_num zero width (long : bool) v args :
  0 <= v < 2 ^ 31 ->
  convert None (num_directive zero width) (if long then "i"%ch else "d"%ch)
      ((if long then V64 v else V32 v) :: args)
    = Ok (field None (zero_char zero) (Z.of_nat width) (dec v), args).
Proof.
  intros Hv. destruct long.
  - transitivity (out ← put_number None true (to_i64 v) 0 (zero_char zero) 0 (Z.of_nat width); Ok (out, args)).
    { done. }
    by rewrite to_i64_id, put_number_dec by (done || lia).
  - transitivity (out ← put_number None true (to_i32 v) 0 (zero_char zero) 0 (Z.of_nat width); Ok (out, args)).
    { done. }
    replace (to_i32 v) with v by (unfold to_i32; rewrite Z.mod_small; lia). by rewrite put_number_dec.
Qed.

Lemma loop_piece fuel p fmt args :
  piece_ok p ->
  vslprintf_loop (S fuel) None (piece_fmt p ++ fmt) (piece_args p ++ args)
    = (rest ← vslprintf_loop fuel None fmt args; Ok (piece_out p ++ rest)).
Proof.
  destruct p as [c|s rest|c|zero width long v]; cbn [piece_ok].
  - intros [H0 Hp]. by apply loop_char.
  - intros Hs. change (piece_fmt (Str s rest) ++ fmt) with ("%"%ch :: "s"%ch :: fmt).
    apply (loop_directive fuel None ("s"%ch :: fmt) _ (num_directive false 0) "s"%ch fmt
      (piece_args (Str s rest) ++ args)); [done..|].
    transitivity (out ← copy_cstring None (s ++ 0 :: rest); Ok (out, args)); [done|].
    by rewrite copy_cstring_whole.
  - intros Hc. change (piece_fmt (Chr c) ++ fmt) with ("%"%ch :: "c"%ch :: fmt).
    apply (loop_directive fuel None ("c"%ch :: fmt) _ (num_directive false 0) "c"%ch fmt
      (piece_args (Chr c) ++ args)); [done..|].
    transitivity (Ok ([to_u8 (Z.land (to_i32 c) 0xff)], args)); [done|]. unfold byte_ok in Hc.
    replace (to_i32 c) with c by (unfold to_i32; rewrite Z.mod_small; lia).
    change 0xff with (Z.ones 8). rewrite Z.land_ones, Z.mod_small by lia. by rewrite to_u8_id.
  - intros [Hw Hv]. change (piece_fmt (Num zero width long v) ++ fmt)
      with ("%"%ch :: tail (piece_fmt (Num zero width long v)) ++ fmt).
    eapply loop_directive; [done|by apply scan_num|by apply convert_num].
Qed.

(** * A whole call *)

Definition pieces_fmt (ps : list piece) : list Z := ps ≫= piece_fmt.
Definition pieces_args (ps : list piece) : list va := ps ≫= piece_args.
Definition pieces_out (ps : list piece) : list Z := ps ≫= piece_out.

Lemma loop_pieces fuel ps :
  Forall piece_ok ps -> (length ps < fuel)%nat ->
  vslprintf_loop fuel None (pieces_fmt ps ++ [0]) (pieces_args ps) = Ok (pieces_out ps).
Proof.
  intros H. revert fuel. induction H as [|p ps Hp Hps IH]; intros fuel Hf;
    (destruct fuel as [|fuel]; [cbn in Hf; lia|]); [done|].
  cbn [length] in Hf. unfold pieces_fmt, pieces_args, pieces_out. cbn [mbind list_bind].
  rewrite <- app_assoc, loop_piece by done.
  fold (pieces_fmt ps) (pieces_args ps) (pieces_out ps). by rewrite IH by lia.
Qed.

Lemma pieces_fmt_length ps : (length ps <= length (pieces_fmt ps))%nat.
Proof.
  induction ps as [|p ps IH]; [done|]. unfold pieces_fmt. cbn [mbind list_bind length].
  rewrite length_app. fold (pieces_fmt ps). enough (1 <= length (piece_fmt p))%nat by lia.
  destruct p as [c|s rest|c|zero width long v]; cbn; lia.
Qed.

(** A call whose format and arguments are those of a list of pieces. *)
Lemma ngx_sprintf_pieces ps fmt args :
  format fmt = pieces_fmt ps ++ [0] -> args = pieces_args ps -> Forall piece_ok ps ->
  ngx_sprintf fmt args = Ok (pieces_out ps).
Proof.
  intros E -> Hps. unfold ngx_sprintf, ngx_vslprintf. rewrite E. apply loop_pieces; [done|].
  rewrite length_app. pose proof (pieces_fmt_length ps). cbn. lia.
Qed.

(** * Numbers of a fixed width *)

Definition digit (d : Z) : Z := "0"%ch + d.

Definition two_digits (v : Z) : list Z := [digit (v / 10); digit (v mod 10)].

Definition four_digits (v : Z) : list Z :=
  [digit (v / 1000); digit (v / 100 mod 10); digit (v / 10 mod 10); digit (v mod 10)].

Lemma field_two v : 0 <= v < 100 -> field None "0"%ch 2 (dec v) = two_digits v.
Proof.
  apply (range_decide 100 (fun v => field None "0"%ch 2 (dec v) = two_digits v)).
  vm_compute. reflexivity.
Qed.

(** The digits of a number of up to four digits. *)
Lemma dec_digits_small p v acc :
  1000 <= v < 10000 -> dec_digits (S (S (S (S p)))) v acc = Ok (four_digits v ++ acc).
Proof.
  intros Hv. assert (H : forall d, 0 <= d < 10 -> to_u8 (d + "0"%ch) = digit d) by (unfold digit; intros; casts).
  do 3 (cbn [dec_digits]; rewrite (proj2 (Z.eqb_neq _ _)) by (Z.div_mod_to_equations; lia); cbn [negb]).
  cbn [dec_digits]. rewrite (proj2 (Z.eqb_eq _ _)) by (Z.div_mod_to_equations; lia). cbn [negb].
  assert (D1 : v / 10 / 10 = v / 100) by (by rewrite Z.div_div by lia).
  assert (D2 : v / 100 / 10 = v / 1000) by (by rewrite Z.div_div by lia).
  assert (D3 : v / 1000 mod 10 = v / 1000) by (apply Z.mod_small; Z.div_mod_to_equations; lia).
  rewrite D1, D2, D3, !H by (Z.div_mod_to_equations; lia). done.
Qed.

Lemma dec_four v : 1000 <= v < 10000 -> dec v = four_digits v.
Proof.
  intros Hv. unfold dec, sprintf_digits, NGX_MAX_UINT32_VALUE.
  rewrite Z.eqb_refl, (proj2 (Z.leb_le _ _)), to_u32_id by lia.
  unfold NGX_INT64_LEN. by rewrite dec_digits_small by done.
Qed.

Lemma field_four zero v : 1000 <= v < 10000 -> field None zero 4 (dec v) = four_digits v.
Proof. intros Hv. rewrite dec_four by done. reflexivity. Qed.

Lemma four_two v : 0 <= v -> four_digits v = two_digits (v / 100) ++ two_digits (v mod 100).
Proof.
  intros Hv. unfold four_digits, two_digits. cbn [app]. rewrite Z.div_div by lia.
  assert (E1 : v mod 100 / 10 = v / 10 mod 10) by (Z.div_mod_to_equations; lia).
  assert (E2 : (v mod 100) mod 10 = v mod 10) by (Z.div_mod_to_equations; lia). by rewrite E1, E2.
Qed.
