(* ===== verification/Sort.v ===== *)
(** Component "sorting": ngx_sort of src/core/ngx_string.c, a stable insertion
    sort in place.

    The elements of [size] bytes are values of a type [A]; [p] is the buffer for
    one element, whose allocation may fail. *)

From stdpp Require Import base numbers list option sorting.
From Stdlib Require Import ZArith Lia Permutation.
From S2P Require Import Prelude.
Local Open Scope Z_scope.

(** * Definitions *)

Section Sort.
Context {A : Type} (cmp : A -> A -> Z).

Definition store_at (a : list A) (i : nat) (x : A) : outcome (list A) :=
  if (i <? length a)%nat then Ok (<[i := x]> a) else UB.

(** The inner loop and the store after it: [p2] is the position of the gap. *)
Fixpoint sort_shift (a : list A) (p2 : nat) (p : A) : outcome (list A) :=
  match p2 with
  | O => store_at a O p
  | S q =>
      match a !! q with
      | None => UB
      | Some x =>
          if 0 <? cmp x p then a' ← store_at a p2 x; sort_shift a' q p
          else store_at a p2 p
      end
  end.

(** The outer loop: [n] elements from position [p1] on. *)
Fixpoint sort_loop (a : list A) (p1 n : nat) : outcome (list A) :=
  match n with
  | O => Ok a
  | S n' =>
      match a !! p1 with
      | None => UB
      | Some p => a' ← sort_shift a p1 p; sort_loop a' (S p1) n'
      end
  end.

Definition ngx_sort (alloc : bool) (base : list A) (n : nat) : outcome (list A) :=
  if negb alloc then Ok base else sort_loop base 1 (n - 1).

(** * Correctness

    [cmp] compares as the callers' functions do: [cmp x y > 0] when [x] belongs
    after [y], a total preorder. *)

Definition le (x y : A) : Prop := cmp x y <= 0.
Definition equiv (x y : A) : bool := (cmp x y <=? 0) && (cmp y x <=? 0).

Context (cmp_trans : forall x y z, le x y -> le y z -> le x z)
        (cmp_total : forall x y, le x y \/ le y x).

(** Where [p] goes in a sorted sequence: after everything not greater. *)
Fixpoint insert_last (l : list A) (p : A) : list A :=
  match l with
  | [] => [p]
  | x :: l' => if forallb (fun y => 0 <? cmp y p) l then p :: l else x :: insert_last l' p
  end.

Lemma insert_last_snoc_gt l x p :
  0 < cmp x p -> insert_last (l ++ [x]) p = insert_last l p ++ [x].
Proof.
  intros Hx. assert (Hx' : (0 <? cmp x p) = true) by by apply Z.ltb_lt.
  induction l as [|y l IH]; cbn; [by rewrite Hx'|].
  rewrite forallb_app. cbn. rewrite Hx', andb_true_r.
  destruct (_ && _); [done|]. by rewrite IH.
Qed.

Lemma insert_last_snoc_le l x p :
  cmp x p <= 0 -> insert_last (l ++ [x]) p = l ++ [x; p].
Proof.
  intros Hx. assert (Hx' : (0 <? cmp x p) = false) by by apply Z.ltb_ge.
  induction l as [|y l IH]; cbn; [by rewrite Hx'|].
  rewrite forallb_app. cbn. by rewrite Hx', !andb_false_r, IH.
Qed.

Lemma sort_shift_spec l g rest p :
  sort_shift (l ++ g :: rest) (length l) p = Ok (insert_last l p ++ rest).
Proof.
  revert g rest. induction l as [|x l IH] using rev_ind; intros g rest; [done|].
  rewrite length_app, Nat.add_1_r. cbn [sort_shift].
  rewrite <- app_assoc. cbn [app]. rewrite list_lookup_middle by done.
  assert (Hstore : forall y, store_at (l ++ x :: g :: rest) (S (length l)) y
    = Ok (l ++ x :: y :: rest)).
  { intros y. unfold store_at. rewrite (proj2 (Nat.ltb_lt _ _)).
    - by rewrite insert_app_r_alt, Nat.sub_succ_l, Nat.sub_diag by lia.
    - rewrite length_app. cbn. lia. }
  destruct (Z.ltb_spec 0 (cmp x p)).
  - rewrite Hstore. cbn [mbind outcome_bind]. rewrite (IH x (x :: rest)).
    rewrite insert_last_snoc_gt by done. by rewrite <- app_assoc.
  - rewrite Hstore, insert_last_snoc_le by done. by rewrite <- app_assoc.
Qed.

Lemma insert_last_perm l p : insert_last l p ≡ₚ p :: l.
Proof.
  induction l as [|x l IH]; cbn; [done|]. destruct (_ && _); [done|].
  rewrite IH. constructor.
Qed.

Lemma insert_last_sorted l p : StronglySorted le l -> StronglySorted le (insert_last l p).
Proof.
  induction 1 as [|x l Hs IH Hx]; cbn; [by repeat constructor|].
  destruct ((0 <? cmp x p) && forallb _ l) eqn:E.
  - apply andb_prop in E as [Exp El]. apply Z.ltb_lt in Exp.
    assert (Hpx : le p x) by (destruct (cmp_total p x) as [|Hxp]; [done|unfold le in Hxp; lia]).
    constructor; [by constructor|]. constructor; [done|].
    eapply List.Forall_impl; [|exact Hx]. intros y Hy. by apply (cmp_trans _ x).
  - constructor; [done|]. rewrite insert_last_perm. constructor; [|done].
    apply andb_false_iff in E as [E|E]; [by apply Z.ltb_ge in E|].
    (* some later element is not greater than [p] *)
    assert (Hex : Exists (fun y => cmp y p <= 0) l).
    { clear -E. induction l as [|y l IH]; [done|]. cbn in E. apply andb_false_iff in E as [E|E].
      - left. by apply Z.ltb_ge in E.
      - right. by apply IH. }
    apply Exists_exists in Hex as (y & Hy & Hyp). rewrite List.Forall_forall in Hx.
    apply (cmp_trans _ y); [|done]. apply Hx. by apply list_elem_of_In.
Qed.

Lemma insert_last_split l p :
  exists l1 l2, l = l1 ++ l2 /\ insert_last l p = l1 ++ p :: l2 /\ Forall (fun x => 0 < cmp x p) l2.
Proof.
  induction l as [|x l (l1 & l2 & -> & E & H)]; [by exists [], []|]. cbn.
  destruct ((0 <? cmp x p) && forallb _ _) eqn:Ef.
  - exists [], (x :: l1 ++ l2). split_and!; [done..|]. apply andb_prop in Ef as [Ex El].
    constructor; [by apply Z.ltb_lt|]. rewrite List.Forall_forall. rewrite forallb_forall in El.
    intros y Hy. by apply Z.ltb_lt, El.
  - exists (x :: l1), l2. by rewrite E.
Qed.

Lemma equiv_trans x y z : equiv x z = true -> equiv y z = true -> cmp x y <= 0.
Proof.
  unfold equiv. intros [H1 H2]%andb_prop [H3 H4]%andb_prop. apply (cmp_trans _ z); unfold le; lia.
Qed.

(** Elements equivalent to [y] keep their order. *)
Lemma insert_last_filter l p y :
  List.filter (fun x => equiv x y) (insert_last l p) = List.filter (fun x => equiv x y) (l ++ [p]).
Proof.
  destruct (insert_last_split l p) as (l1 & l2 & -> & -> & H).
  rewrite !List.filter_app. cbn. rewrite <- app_assoc. f_equal. destruct (equiv p y) eqn:Ep; [|by rewrite app_nil_r].
  assert (E2 : List.filter (fun x => equiv x y) l2 = []); [|by rewrite E2].
  induction H as [|x l2 Hx _ IH]; [done|]. cbn. destruct (equiv x y) eqn:Ex; [|done].
  pose proof (equiv_trans x p y Ex Ep). lia.
Qed.

(** Insertion of the elements of [rest] one by one: the reference for ngx_sort
    and for ngx_queue_sort. *)
Lemma insertions_sorted l rest :
  StronglySorted le l ->
  let l' := foldl insert_last l rest in
  StronglySorted le l' /\ l' ≡ₚ l ++ rest /\
  forall y, List.filter (fun x => equiv x y) l' = List.filter (fun x => equiv x y) (l ++ rest).
Proof.
  revert l. induction rest as [|p rest IH]; intros l Hl; cbn [foldl].
  - rewrite app_nil_r. by split_and!.
  - destruct (IH (insert_last l p) (insert_last_sorted l p Hl)) as (Hs & Hp & Hf).
    pose proof (insert_last_perm l p) as Hins. split_and!; [done| |].
    + rewrite Hp, Hins. cbn. by rewrite Permutation_middle.
    + intros y. rewrite Hf, List.filter_app, insert_last_filter, <- List.filter_app. by rewrite <- app_assoc.
Qed.

Lemma sort_loop_spec l rest :
  sort_loop (l ++ rest) (length l) (length rest) = Ok (foldl insert_last l rest).
Proof.
  revert l. induction rest as [|p rest IH]; intros l; [by rewrite app_nil_r|].
  cbn [length sort_loop foldl]. rewrite list_lookup_middle by done. rewrite sort_shift_spec.
  cbn [mbind outcome_bind]. replace (S (length l)) with (length (insert_last l p)) by (by rewrite insert_last_perm).
  apply IH.
Qed.

End Sort.

(** A comparison function of the kind ngx_sort is called with. *)
Record comparison {A} (cmp : A -> A -> Z) : Prop := {
  cmp_refl : forall x, cmp x x <= 0;
  cmp_total : forall x y, cmp x y <= 0 \/ cmp y x <= 0;
  cmp_trans : forall x y z, cmp x y <= 0 -> cmp y z <= 0 -> cmp x z <= 0
}.

Theorem ngx_sort_correct {A} (cmp : A -> A -> Z) base :
  comparison cmp ->
  exists l, ngx_sort cmp true base (length base) = Ok l /\
    StronglySorted (le cmp) l /\ l ≡ₚ base /\
    forall y, List.filter (fun x => equiv cmp x y) l = List.filter (fun x => equiv cmp x y) base.
Proof.
  intros [_ Ht Htr]. destruct base as [|x rest]; [exists []; split_and!; [done|constructor|done..]|].
  unfold ngx_sort. cbn [negb length]. rewrite Nat.sub_succ, Nat.sub_0_r.
  exists (foldl (insert_last cmp) [x] rest). split; [apply (sort_loop_spec cmp [x] rest)|].
  apply (insertions_sorted cmp Htr Ht [x] rest). repeat constructor.
Qed.

Lemma ngx_sort_correct_witness :
  exists l, ngx_sort (fun x y => x.1 - y.1) true [(2, 1); (1, 2); (2, 3); (1, 4)] 4 = Ok l /\
    StronglySorted (le (fun x y => x.1 - y.1)) l /\ l ≡ₚ [(2, 1); (1, 2); (2, 3); (1, 4)] /\
    forall y, List.filter (fun x => equiv (fun x y : Z * Z => x.1 - y.1) x y) l
      = List.filter (fun x => equiv (fun x y => x.1 - y.1) x y) [(2, 1); (1, 2); (2, 3); (1, 4)].
Proof.
  apply (ngx_sort_correct (fun x y : Z * Z => x.1 - y.1) [(2, 1); (1, 2); (2, 3); (1, 4)]).
  split; intros; lia.
Defined.

(** Without memory for the buffer the array is left as it is. *)
Example sort_no_memory : ngx_sort (fun x y => x - y) false [3; 1; 2] 3 = Ok [3; 1; 2].
Proof. reflexivity. Qed.
