(* ===== verification/Inet.v ===== *)
(** Component "addresses": the text and binary forms of socket addresses and
    CIDR blocks, from src/core/ngx_inet.c and ngx_inet.h.

    An [in_addr_t] is the 32-bit integer whose memory, least significant byte
    first, holds the address in network order.  An IPv6 address is a buffer of
    16 bytes, written through bounds-checked stores.  The text functions return
    the bytes they store together with the size they return. *)

From stdpp Require Import base numbers list option strings.
From Stdlib Require Import ZArith Lia.
From S2P Require Import Prelude StringCompare Atoi Sprintf.
Local Open Scope Z_scope.

(** * Definitions *)

(** ** Byte order: macros of the C library on a little endian machine *)

Definition htonl (x : Z) : Z :=
  Z.lor (Z.lor (Z.shiftl (Z.land x 0xff) 24) (Z.shiftl (Z.land (Z.shiftr x 8) 0xff) 16))
        (Z.lor (Z.shiftl (Z.land (Z.shiftr x 16) 0xff) 8) (Z.land (Z.shiftr x 24) 0xff)).
Definition ntohl (x : Z) : Z := htonl x.
Definition htons (x : Z) : Z :=
  Z.lor (Z.shiftl (Z.land x 0xff) 8) (Z.land (Z.shiftr x 8) 0xff).
Definition ntohs (x : Z) : Z := htons x.

(** The memory of a 32-bit integer. *)
Definition u32_bytes (x : Z) : list Z :=
  [Z.land x 0xff; Z.land (Z.shiftr x 8) 0xff; Z.land (Z.shiftr x 16) 0xff; Z.land (Z.shiftr x 24) 0xff].

Definition INADDR_NONE : Z := 0xffffffff.

(** ** ngx_inet_addr *)

Fixpoint inet_addr_loop (p : list Z) (len : nat) (addr octet n : Z) {struct len} : outcome Z :=
  match len with
  | O =>
      if n =? 3 then Ok (htonl (to_u32 (to_u32 (Z.shiftl addr 8) + octet)))
      else Ok INADDR_NONE
  | S len' =>
      match p with
      | [] => UB
      | c :: p' =>
          if ("0"%ch <=? c) && (c <=? "9"%ch) then
            let octet := to_u64 (octet * 10 + (c - "0"%ch)) in
            if 255 <? octet then Ok INADDR_NONE
            else inet_addr_loop p' len' addr octet n
          else if c =? "."%ch then
            inet_addr_loop p' len' (to_u32 (to_u32 (Z.shiftl addr 8) + octet)) 0 (to_u64 (n + 1))
          else Ok INADDR_NONE
      end
  end.

Definition ngx_inet_addr (text : list Z) (len : nat) : outcome Z :=
  inet_addr_loop text len 0 0 0.

(** ** ngx_inet6_addr *)

(** The buffer, the store position in it and the other locals. *)
Record inet6 : Type := mk_inet6 {
  i6_mem : list Z;
  i6_addr : nat;
  i6_zero : option nat;
  i6_digit : option (list Z);
  i6_len4 : nat;
  i6_nibbles : Z;
  i6_word : Z;
  i6_n : Z
}.

(** The two stores of a word, most significant byte first. *)
Definition put_word (mem : list Z) (addr : nat) (hi lo : Z) : outcome (list Z) :=
  mem ← store mem addr (to_u8 hi); store mem (S addr) (to_u8 lo).

(** [while (s >= zero) *d-- = *s--]: [k] bytes from [zero] on are left, to be
    moved up by [n]. *)
Fixpoint move_up (mem : list Z) (zero k n : nat) : outcome (list Z) :=
  match k with
  | O => Ok mem
  | S k' =>
      c ← deref mem (zero + k');
      mem ← store mem (zero + k' + n) c;
      move_up mem zero k' n
  end.

Definition memzero (mem : list Z) (a n : nat) : outcome (list Z) :=
  if (a + n <=? length mem)%nat then Ok (take a mem ++ replicate n 0 ++ drop (a + n) mem) else UB.

(** The code after the loop: the return code and the buffer. *)
Definition inet6_finish (s : inet6) : outcome (Z * list Z) :=
  let '(mk_inet6 mem addr zero _ _ nibbles word n) := s in
  if (nibbles =? 0) && negb (bool_decide (is_Some zero)) then Ok (NGX_ERROR, mem)
  else
    mem ← put_word mem addr (Z.shiftr word 8) (Z.land word 0xff);
    let addr := (addr + 2)%nat in
    let n := to_u64 (n - 1) in
    if negb (n =? 0) then
      match zero with
      | Some z =>
          let n := Z.to_nat (n * 2) in
          mem ← move_up mem z (addr - z) n;
          mem ← memzero mem z n;
          Ok (NGX_OK, mem)
      | None => Ok (NGX_ERROR, mem)
      end
    else
      match zero with
      | None => Ok (NGX_OK, mem)
      | Some _ => Ok (NGX_ERROR, mem)
      end.

(** A colon. *)
Definition inet6_colon (s : inet6) (p' : list Z) (len : nat) : outcome (inet6 + list Z) :=
  let '(mk_inet6 mem addr zero digit len4 nibbles word n) := s in
  if negb (nibbles =? 0) then
    mem ← put_word mem addr (Z.shiftr word 8) (Z.land word 0xff);
    let n := to_u64 (n - 1) in
    if negb (n =? 0) then Ok (inl (mk_inet6 mem (addr + 2) zero (Some p') len 0 0 n))
    else Ok (inr mem)
  else
    match zero with
    | None => Ok (inl (mk_inet6 mem addr (Some addr) (Some p') len nibbles word n))
    | Some _ => Ok (inr mem)
    end.

(** A dot: the last four bytes are in the IPv4 notation. *)
Definition inet6_dot (s : inet6) : outcome (inet6 + list Z) :=
  let '(mk_inet6 mem addr zero digit len4 nibbles word n) := s in
  match digit with
  | None => Ok (inr mem)
  | Some digit =>
      if n <? 2 then Ok (inr mem)
      else
        word ← ngx_inet_addr digit (len4 - 1);
        if word =? INADDR_NONE then Ok (inr mem)
        else
          let word := ntohl word in
          mem ← put_word mem addr (Z.land (Z.shiftr word 24) 0xff) (Z.land (Z.shiftr word 16) 0xff);
          Ok (inl (mk_inet6 mem (addr + 2) zero (Some digit) len4 nibbles word (n - 1)))
  end.

(** Any other character. *)
Definition inet6_hex (s : inet6) (c : Z) : inet6 + list Z :=
  let '(mk_inet6 mem addr zero digit len4 nibbles word n) := s in
  let nibbles := nibbles + 1 in
  if 4 <? nibbles then inr mem
  else if ("0"%ch <=? c) && (c <=? "9"%ch) then
    inl (mk_inet6 mem addr zero digit len4 nibbles (to_u64 (word * 16 + (c - "0"%ch))) n)
  else
    let c := Z.lor c 0x20 in
    if ("a"%ch <=? c) && (c <=? "f"%ch) then
      inl (mk_inet6 mem addr zero digit len4 nibbles (to_u64 (word * 16 + (c - "a"%ch) + 10)) n)
    else inr mem.

(** The loop; [inr] is a [return NGX_ERROR]. *)
Fixpoint inet6_loop (p : list Z) (len : nat) (s : inet6) {struct len} : outcome (Z * list Z) :=
  match len with
  | O => inet6_finish s
  | S len' =>
      match p with
      | [] => UB
      | c :: p' =>
          if c =? ":"%ch then
            r ← inet6_colon s p' len;
            match r with inl s => inet6_loop p' len' s | inr mem => Ok (NGX_ERROR, mem) end
          else if (c =? "."%ch) && negb (i6_nibbles s =? 0) then
            r ← inet6_dot s;
            match r with inl s => inet6_finish s | inr mem => Ok (NGX_ERROR, mem) end
          else
            match inet6_hex s c with inl s => inet6_loop p' len' s | inr mem => Ok (NGX_ERROR, mem) end
      end
  end.

Definition inet6_init (addr : list Z) : inet6 := mk_inet6 addr 0 None None 0 0 0 8.

Definition ngx_inet6_addr (p : list Z) (len : nat) (addr : list Z) : outcome (Z * list Z) :=
  match len with
  | O => Ok (NGX_ERROR, addr)
  | S len' =>
      c ← deref p 0;
      if c =? ":"%ch then inet6_loop (tail p) len' (inet6_init addr)
      else inet6_loop p len (inet6_init addr)
  end.

(** ** ngx_inet6_ntop *)

Definition NGX_INET_ADDRSTRLEN : nat := 15.
Definition NGX_INET6_ADDRSTRLEN : nat := 45.

(** [(ngx_uint_t) -1] *)
Definition no_index : Z := 2 ^ 64 - 1.

(** The search for the longest run of zero groups: [k] groups from byte [i] on
    are left. *)
Fixpoint ntop_scan (k : nat) (p : list Z) (i zero last max n : Z) : outcome (Z * Z) :=
  match k with
  | O => if max <? n then Ok (last, n) else Ok (zero, max)
  | S k' =>
      a ← at_ p i;
      nonzero ← (if negb (a =? 0) then Ok true else b ← at_ p (i + 1); Ok (negb (b =? 0)));
      if (nonzero : bool) then
        if max <? n then ntop_scan k' p (i + 2) last last n 0
        else ntop_scan k' p (i + 2) zero last max 0
      else
        ntop_scan k' p (i + 2) zero (if n =? 0 then i else last) max (n + 1)
  end.

(** The test for the mixed notation. *)
Definition ntop_mixed (p : list Z) (max : Z) : outcome bool :=
  a ← (if max =? 5 then
         b10 ← at_ p 10;
         if b10 =? 0xff then b11 ← at_ p 11; Ok (b11 =? 0xff) else Ok false
       else Ok false);
  if (a : bool) then Ok true
  else if max =? 6 then Ok true
  else if max =? 7 then
    b14 ← at_ p 14;
    if negb (b14 =? 0) then b15 ← at_ p 15; Ok (negb (b15 =? 1)) else Ok false
  else Ok false.

(** The loop over the groups printed in hexadecimal; each iteration moves on,
    so nine rounds are enough. *)
Fixpoint ntop_print (fuel : nat) (p : list Z) (i n zero max : Z) : outcome (list Z) :=
  match fuel with
  | O => NoFuel
  | S fuel' =>
      if i <? n then
        if i =? zero then
          rest ← ntop_print fuel' p (i + (max - 1) * 2 + 2) n zero max; Ok (":"%ch :: rest)
        else
          a ← at_ p i;
          b ← at_ p (i + 1);
          group ← ngx_sprintf "%xd" [V32 (a * 256 + b)];
          rest ← ntop_print fuel' p (i + 2) n zero max;
          Ok (group ++ (if i <? 14 then [":"%ch] else []) ++ rest)
      else Ok []
  end.

Definition ngx_inet6_ntop (p : list Z) (len : nat) : outcome (list Z) :=
  if (len <? NGX_INET6_ADDRSTRLEN)%nat then Ok []
  else
    '(zero, max) ← ntop_scan 8 p 0 no_index no_index 1 0;
    mixed ← (if zero =? 0 then ntop_mixed p max else Ok false);
    let n := if (mixed : bool) then 12 else 16 in
    groups ← ntop_print 9 p 0 n zero max;
    tl ← (if n =? 12 then
            b12 ← at_ p 12; b13 ← at_ p 13; b14 ← at_ p 14; b15 ← at_ p 15;
            ngx_sprintf "%ud.%ud.%ud.%ud" [V32 b12; V32 b13; V32 b14; V32 b15]
          else Ok []);
    Ok ((if zero =? 0 then [":"%ch] else []) ++ groups ++ tl).

(** ** Socket addresses *)

Definition AF_UNIX : Z := 1.
Definition AF_INET : Z := 2.
Definition AF_INET6 : Z := 10.

(** [struct sockaddr] by its family; ports and IPv4 addresses are in network
    order.  Another family is read as [struct sockaddr_in] by the default
    branches, so it carries the fields at the same place. *)
Inductive sockaddr : Type :=
| Sin (sin_port sin_addr : Z)
| Sin6 (sin6_port : Z) (sin6_addr : list Z)
| Sun (sun_path : list Z)
| Sother (sa_family sin_port sin_addr : Z).

Definition sa_family (sa : sockaddr) : Z :=
  match sa with
  | Sin _ _ => AF_INET | Sin6 _ _ => AF_INET6 | Sun _ => AF_UNIX | Sother f _ _ => f
  end.

Definition sizeof_sockaddr_in : nat := 16.
Definition sizeof_sockaddr_in6 : nat := 28.
Definition sizeof_sun_path : nat := 108.
(** [offsetof(struct sockaddr_un, sun_path)] *)
Definition offsetof_sun_path : Z := 2.

(** The four bytes of an IPv4 address printed with dots, and with a port. *)
Definition ngx_sock_ntop (sa : sockaddr) (socklen : Z) (len : nat) (port : bool)
  : outcome (list Z * Z) :=
  match sa with
  | Sin sin_port sin_addr =>
      let p := u32_bytes sin_addr in
      p0 ← at_ p 0; p1 ← at_ p 1; p2 ← at_ p 2; p3 ← at_ p 3;
      text ← (if port then
                ngx_snprintf len "%ud.%ud.%ud.%ud:%d"
                  [V32 p0; V32 p1; V32 p2; V32 p3; V32 (ntohs sin_port)]
              else ngx_snprintf len "%ud.%ud.%ud.%ud" [V32 p0; V32 p1; V32 p2; V32 p3]);
      Ok (text, Z.of_nat (length text))
  | Sin6 sin6_port sin6_addr =>
      let head := if port then ["["%ch] else [] in
      ip ← ngx_inet6_ntop sin6_addr len;
      tl ← (if port then ngx_sprintf "]:%d" [V32 (ntohs sin6_port)] else Ok []);
      let text := head ++ ip ++ tl in
      Ok (text, Z.of_nat (length text))
  | Sun sun_path =>
      text ← (if socklen <=? offsetof_sun_path then ngx_snprintf len "unix:%Z" []
              else ngx_snprintf len "unix:%s%Z" [VPtr sun_path]);
      Ok (text, to_u64 (Z.of_nat (length text) - 1))
  | Sother _ _ _ => Ok ([], 0)
  end.

Definition ngx_inet_ntop (family : Z) (addr : list Z) (len : nat) : outcome (list Z) :=
  if family =? AF_INET then
    p0 ← at_ addr 0; p1 ← at_ addr 1; p2 ← at_ addr 2; p3 ← at_ addr 3;
    ngx_snprintf len "%ud.%ud.%ud.%ud" [V32 p0; V32 p1; V32 p2; V32 p3]
  else if family =? AF_INET6 then ngx_inet6_ntop addr len
  else Ok [].

(** ** ngx_parse_addr and ngx_parse_addr_port *)

(** [ngx_addr_t] without the name, which these functions leave alone. *)
Record addr_t : Type := mk_addr { a_sockaddr : sockaddr; a_socklen : nat }.

(** [alloc] tells whether the pool has memory for the address. *)
Definition ngx_parse_addr (alloc : bool) (text : list Z) (len : nat)
  : outcome (Z * option addr_t) :=
  inaddr ← ngx_inet_addr text len;
  if negb (inaddr =? INADDR_NONE) then
    if alloc then Ok (NGX_OK, Some (mk_addr (Sin 0 inaddr) sizeof_sockaddr_in))
    else Ok (NGX_ERROR, None)
  else
    '(rc, inaddr6) ← ngx_inet6_addr text len (replicate 16 0);
    if rc =? NGX_OK then
      if alloc then Ok (NGX_OK, Some (mk_addr (Sin6 0 inaddr6) sizeof_sockaddr_in6))
      else Ok (NGX_ERROR, None)
    else Ok (NGX_DECLINED, None).

Definition ngx_inet_set_port (sa : sockaddr) (port : Z) : sockaddr :=
  match sa with
  | Sin6 _ a => Sin6 (htons port) a
  | Sun path => Sun path
  | Sin _ a => Sin (htons port) a
  | Sother f _ a => Sother f (htons port) a
  end.

Definition ngx_inet_get_port (sa : sockaddr) : Z :=
  match sa with
  | Sin6 port _ => ntohs port
  | Sun _ => 0
  | Sin port _ => ntohs port
  | Sother _ port _ => ntohs port
  end.

(** From the position [p] after the colon that precedes the port: [text] and
    [len] as they are there, [last] the end. *)
Definition parse_port_then_addr (alloc : bool) (whole : list Z) (last p : nat)
    (text : list Z) (len : nat) : outcome (Z * option addr_t) :=
  let plen := (last - p)%nat in
  port ← ngx_atoi (drop p whole) plen;
  if (port <? 1) || (65535 <? port) then Ok (NGX_DECLINED, None)
  else
    '(rc, addr) ← ngx_parse_addr alloc text (len - (plen + 1));
    match addr with
    | Some a =>
        if negb (rc =? NGX_OK) then Ok (rc, addr)
        else Ok (NGX_OK, Some (mk_addr (ngx_inet_set_port (a_sockaddr a) port) (a_socklen a)))
    | None => Ok (rc, None)
    end.

Definition ngx_parse_addr_port (alloc : bool) (text : list Z) (len : nat)
  : outcome (Z * option addr_t) :=
  '(rc, addr) ← ngx_parse_addr alloc text len;
  if negb (rc =? NGX_DECLINED) then Ok (rc, addr)
  else
    bracket ← (match len with O => Ok false | _ => c ← deref text 0; Ok (c =? "["%ch) end);
    if (bracket : bool) then
      r ← ngx_strlchr text len "]"%ch;
      match r with
      | None => Ok (NGX_DECLINED, None)
      | Some p =>
          if (p =? len - 1)%nat then Ok (NGX_DECLINED, None)
          else
            let p := S p in
            c ← deref text p;
            if negb (c =? ":"%ch) then Ok (NGX_DECLINED, None)
            else parse_port_then_addr alloc text len (S p) (tail text) (len - 2)
      end
    else
      r ← ngx_strlchr text len ":"%ch;
      match r with
      | None => Ok (NGX_DECLINED, None)
      | Some p => parse_port_then_addr alloc text len (S p) text len
      end.

(** ** ngx_cmp_sockaddr *)

Definition cmp_sockaddr_in (port1 addr1 port2 addr2 : Z) (cmp_port : bool) : Z :=
  if cmp_port && negb (port1 =? port2) then NGX_DECLINED
  else if negb (addr1 =? addr2) then NGX_DECLINED
  else NGX_OK.

Definition ngx_cmp_sockaddr (sa1 : sockaddr) (slen1 : Z) (sa2 : sockaddr) (slen2 : Z)
    (cmp_port : bool) : outcome Z :=
  if negb (sa_family sa1 =? sa_family sa2) then Ok NGX_DECLINED
  else
    match sa1, sa2 with
    | Sin6 port1 addr1, Sin6 port2 addr2 =>
        if cmp_port && negb (port1 =? port2) then Ok NGX_DECLINED
        else
          d ← memcmp addr1 addr2 16;
          if negb (d =? 0) then Ok NGX_DECLINED else Ok NGX_OK
    | Sun path1, Sun path2 =>
        let len := to_u64 ((if slen1 <? slen2 then slen1 else slen2) - offsetof_sun_path) in
        let len := if Z.of_nat sizeof_sun_path <? len then sizeof_sun_path else Z.to_nat len in
        d ← memcmp path1 path2 len;
        if negb (d =? 0) then Ok NGX_DECLINED else Ok NGX_OK
    | Sin port1 addr1, Sin port2 addr2 => Ok (cmp_sockaddr_in port1 addr1 port2 addr2 cmp_port)
    | Sother _ port1 addr1, Sother _ port2 addr2 =>
        Ok (cmp_sockaddr_in port1 addr1 port2 addr2 cmp_port)
    | _, _ => UB
    end.

(** ** CIDR blocks *)

(** [ngx_cidr_t]: the union by its family. *)
Inductive cidr_t : Type :=
| CidrIn (addr mask : Z)
| CidrIn6 (addr mask : list Z)
| CidrUnix.

Definition cidr_family (c : cidr_t) : Z :=
  match c with CidrIn _ _ => AF_INET | CidrIn6 _ _ => AF_INET6 | CidrUnix => AF_UNIX end.

(** The loop over the bytes of an IPv6 address: the masked address, the mask,
    and whether a bit was cleared. *)
Fixpoint cidr_mask6 (addr : list Z) (shift : Z) : list Z * list Z * bool :=
  match addr with
  | [] => ([], [], false)
  | a :: addr' =>
      let s := if 8 <? shift then 8 else shift in
      let m := to_u8 (to_u32 (Z.shiftl 0xff (8 - s))) in
      let '(addr', mask', done) := cidr_mask6 addr' (shift - s) in
      (Z.land a m :: addr', m :: mask', negb (a =? Z.land a m) || done)
  end.

(** [(uint32_t) (0xffffffffu << (32 - shift))] in network order, 0 for 0. *)
Definition cidr_mask (shift : Z) : Z :=
  if negb (shift =? 0) then htonl (to_u32 (Z.shiftl 0xffffffff (32 - shift))) else 0.

(** [u] holds the 16 bytes of the union that the address occupies; the store to
    [u.in.addr] precedes the call of ngx_inet6_addr. *)
Definition ngx_ptocidr (text : list Z) (u : list Z) : outcome (Z * option cidr_t) :=
  let last := length text in
  slash ← ngx_strlchr text last "/"%ch;
  let len := default last slash in
  addr ← ngx_inet_addr text len;
  let u := u32_bytes addr ++ drop 4 u in
  if negb (addr =? INADDR_NONE) then
    match slash with
    | None => Ok (NGX_OK, Some (CidrIn addr 0xffffffff))
    | Some p =>
        shift ← ngx_atoi (drop (S p) text) (last - S p);
        if shift =? NGX_ERROR then Ok (NGX_ERROR, None)
        else if 32 <? shift then Ok (NGX_ERROR, None)
        else
          let mask := cidr_mask shift in
          if addr =? Z.land addr mask then Ok (NGX_OK, Some (CidrIn addr mask))
          else Ok (NGX_DONE, Some (CidrIn (Z.land addr mask) mask))
    end
  else
    '(rc, addr) ← ngx_inet6_addr text len u;
    if negb (rc =? NGX_OK) then Ok (NGX_ERROR, None)
    else
      match slash with
      | None => Ok (NGX_OK, Some (CidrIn6 addr (replicate 16 0xff)))
      | Some p =>
          shift ← ngx_atoi (drop (S p) text) (last - S p);
          if shift =? NGX_ERROR then Ok (NGX_ERROR, None)
          else if 128 <? shift then Ok (NGX_ERROR, None)
          else
            let '(addr, mask, done) := cidr_mask6 addr shift in
            Ok (if (done : bool) then NGX_DONE else NGX_OK, Some (CidrIn6 addr mask))
      end.

(** [IN6_IS_ADDR_V4MAPPED] of the C library. *)
Definition v4mapped (a : list Z) : bool :=
  bool_decide (take 12 a = replicate 10 0 ++ [0xff; 0xff]).

(** The loop over the 16 bytes of an IPv6 block. *)
Fixpoint match6 (a mask addr : list Z) (n : nat) {struct n} : outcome bool :=
  match n with
  | O => Ok true
  | S n' =>
      match a, mask, addr with
      | x :: a', m :: mask', y :: addr' =>
          if negb (Z.land x m =? y) then Ok false else match6 a' mask' addr' n'
      | _, _, _ => UB
      end
  end.

(** The address the blocks are compared with: the family, and the IPv4 address
    of an address mapped into IPv6.  The shift of the promoted [int] by 24 is
    taken as the compilers the code is built with define it. *)
Definition match_key (sa : sockaddr) : outcome (Z * Z) :=
  match sa with
  | Sin _ a => Ok (AF_INET, a)
  | Sin6 _ a =>
      if v4mapped a then
        p12 ← at_ a 12; p13 ← at_ a 13; p14 ← at_ a 14; p15 ← at_ a 15;
        Ok (AF_INET, htonl (to_u32 (to_u32 (Z.shiftl p12 24) + Z.shiftl p13 16 + Z.shiftl p14 8 + p15)))
      else Ok (AF_INET6, 0)
  | _ => Ok (sa_family sa, 0)
  end.

Definition cidr_matches (sa : sockaddr) (family inaddr : Z) (c : cidr_t) : outcome bool :=
  if negb (cidr_family c =? family) then Ok false
  else
    match c with
    | CidrIn6 addr mask =>
        match sa with Sin6 _ a => match6 a mask addr 16 | _ => UB end
    | CidrUnix => Ok true
    | CidrIn addr mask => Ok (Z.land inaddr mask =? addr)
    end.

Fixpoint cidr_match_loop (sa : sockaddr) (family inaddr : Z) (cidrs : list cidr_t) : outcome Z :=
  match cidrs with
  | [] => Ok NGX_DECLINED
  | c :: cidrs' =>
      b ← cidr_matches sa family inaddr c;
      if (b : bool) then Ok NGX_OK else cidr_match_loop sa family inaddr cidrs'
  end.

Definition ngx_cidr_match (sa : sockaddr) (cidrs : list cidr_t) : outcome Z :=
  '(family, inaddr) ← match_key sa; cidr_match_loop sa family inaddr cidrs.

Example inet6_1 : ngx_inet6_addr (bytes "fe80::1:22") 10 (replicate 16 7)
  = Ok (NGX_OK, [0xfe; 0x80; 0; 0; 0; 0; 0; 0; 0; 0; 0; 0; 0; 1; 0; 0x22]).
Proof. reflexivity. Qed.
Example ntop_1 : ngx_inet6_ntop [0x20; 1; 0; 0; 0; 0; 0; 1; 0; 0; 0; 0; 0; 0; 0; 10] 45
  = Ok (bytes "2001:0:0:1::a").
Proof. reflexivity. Qed.
Example ntop_2 : ngx_inet6_ntop [0; 0; 0; 0; 0; 0; 0; 0; 0; 0; 0; 0; 192; 0; 2; 33] 45
  = Ok (bytes "::192.0.2.33").
Proof. reflexivity. Qed.
Example parse_addr_port_1 : ngx_parse_addr_port true (bytes "[::1]:80") 8
  = Ok (NGX_OK, Some (mk_addr (Sin6 (htons 80) (replicate 15 0 ++ [1])) 28)).
Proof. reflexivity. Qed.
Example ptocidr_1 : ngx_ptocidr (bytes "10.1.2.3/8") (replicate 16 0)
  = Ok (NGX_DONE, Some (CidrIn 10 255)).
Proof. reflexivity. Qed.

(** Texts that the parsers take although they are not well formed, or do not
    take although they are. *)
Example inet_empty_octets : ngx_inet_addr (bytes "1...") 4 = Ok 1.
Proof. reflexivity. Qed.
Example inet_broadcast : ngx_inet_addr (bytes "255.255.255.255") 15 = Ok INADDR_NONE.
Proof. reflexivity. Qed.
Example ptocidr_broadcast : ngx_ptocidr (bytes "255.255.255.255/32") (replicate 16 0) = Ok (NGX_ERROR, None).
Proof. reflexivity. Qed.
Example inet6_trailing_zero : forall mem, length mem = 16%nat ->
  fst <$> ngx_inet6_addr (bytes "1:2:3:4:5:6:7::") 15 mem = Ok NGX_ERROR.
Proof. intros mem H. do 17 (destruct mem as [|? mem]; try discriminate). reflexivity. Qed.
Example inet6_leading_colon : fst <$> ngx_inet6_addr (bytes ":1:2:3:4:5:6:7:8") 16 (replicate 16 0) = Ok NGX_OK.
Proof. reflexivity. Qed.
Example inet6_trailing_colon : fst <$> ngx_inet6_addr (bytes "1::2:") 5 (replicate 16 0) = Ok NGX_OK.
Proof. reflexivity. Qed.

(** * ngx_inet_addr *)

(** The fields between the dots; [cur] is the beginning of the first. *)
Fixpoint split_dots (cur text : list Z) : list (list Z) :=
  match text with
  | [] => [cur]
  | c :: text' =>
      if c =? "."%ch then cur :: split_dots [] text' else split_dots (cur ++ [c]) text'
  end.

Definition octet_of (f : list Z) : option Z :=
  if forallb is_digit f && (dec_value f <=? 255) then Some (dec_value f) else None.

(** The integer whose memory holds four bytes. *)
Definition of_octets (a b c d : Z) : Z := a + 2 ^ 8 * b + 2 ^ 16 * c + 2 ^ 24 * d.

Definition quad (os : list Z) : Z :=
  match os with [a; b; c; d] => of_octets a b c d | _ => INADDR_NONE end.

(** The address of four decimal numbers of at most 255 with dots between them. *)
Definition inet_addr_spec (text : list Z) : Z :=
  match mapM octet_of (split_dots [] text) with Some os => quad os | None => INADDR_NONE end.

Lemma land_ff x : Z.land x 0xff = x mod 256.
Proof. change 0xff with (Z.ones 8). by rewrite Z.land_ones. Qed.

Lemma htonl_sum x :
  htonl x = (x mod 256) * 2 ^ 24 + (x / 2 ^ 8 mod 256) * 2 ^ 16 + (x / 2 ^ 16 mod 256) * 2 ^ 8
            + x / 2 ^ 24 mod 256.
Proof.
  unfold htonl. rewrite !land_ff, !Z.shiftr_div_pow2 by lia.
  set (a := x mod 256). set (b := x / 2 ^ 8 mod 256). set (c := x / 2 ^ 16 mod 256).
  set (d := x / 2 ^ 24 mod 256).
  assert (0 <= a < 256 /\ 0 <= b < 256 /\ 0 <= c < 256 /\ 0 <= d < 256)
    by (subst a b c d; repeat split; apply Z.mod_pos_bound; lia).
  clearbody a b c d.
  rewrite (lor_shiftl_add a (Z.shiftl b 16) 24), (lor_shiftl_add c d 8)
    by (rewrite ?Z.shiftl_mul_pow2; lia).
  rewrite Z.shiftl_mul_pow2 by lia.
  replace (a * 2 ^ 24 + b * 2 ^ 16) with (Z.shiftl (a * 256 + b) 16)
    by (rewrite Z.shiftl_mul_pow2; lia).
  rewrite lor_shiftl_add, ?Z.shiftl_mul_pow2; lia.
Qed.

(** The memory of an address, and the address in a memory. *)
Lemma u32_bytes_of_octets a b c d :
  byte_ok a -> byte_ok b -> byte_ok c -> byte_ok d -> u32_bytes (of_octets a b c d) = [a; b; c; d].
Proof.
  unfold byte_ok. intros Ha Hb Hc Hd. unfold u32_bytes, of_octets.
  rewrite !land_ff, !Z.shiftr_div_pow2 by lia.
  repeat f_equal; Z.div_mod_to_equations; lia.
Qed.

Lemma of_octets_htonl a b c d :
  byte_ok a -> byte_ok b -> byte_ok c -> byte_ok d ->
  htonl (((a * 256 + b) * 256 + c) * 256 + d) = of_octets a b c d.
Proof.
  unfold byte_ok. intros Ha Hb Hc Hd. rewrite htonl_sum. unfold of_octets.
  Z.div_mod_to_equations; lia.
Qed.

Lemma of_octets_bound a b c d :
  byte_ok a -> byte_ok b -> byte_ok c -> byte_ok d -> 0 <= of_octets a b c d < 2 ^ 32.
Proof. unfold byte_ok, of_octets. lia. Qed.

Lemma of_octets_inj a b c d a' b' c' d' :
  byte_ok a -> byte_ok b -> byte_ok c -> byte_ok d ->
  byte_ok a' -> byte_ok b' -> byte_ok c' -> byte_ok d' ->
  of_octets a b c d = of_octets a' b' c' d' -> [a; b; c; d] = [a'; b'; c'; d'].
Proof. intros. rewrite <- !u32_bytes_of_octets by done. congruence. Qed.

Lemma octet_of_digit cur c :
  is_digit c = true -> forallb is_digit cur = true ->
  octet_of (cur ++ [c])
    = if 255 <? dec_value cur * 10 + (c - "0"%ch) then None else Some (dec_value cur * 10 + (c - "0"%ch)).
Proof.
  intros Hc Hcur. unfold octet_of, dec_value. rewrite dec_from_app, dec_from_cons, forallb_app, Hcur.
  cbn. rewrite Hc. cbn. unfold dec_from at 1 3. cbn. tests.
Qed.

Lemma octet_of_some f v : octet_of f = Some v -> forallb is_digit f = true /\ dec_value f = v /\ byte_ok v.
Proof.
  unfold octet_of. destruct (forallb is_digit f) eqn:Hf; [|done]. cbn [andb].
  pose proof (dec_from_le 0 f ltac:(lia) Hf). unfold dec_value, byte_ok in *.
  destruct (Z.leb_spec (dec_from 0 f) 255); [|done]. intros [= <-]. lia.
Qed.

(** A field that is no octet stays so however it goes on. *)
Lemma octet_of_none f g :
  forallb is_digit f = true -> 255 < dec_value f -> octet_of (f ++ g) = None.
Proof.
  intros Hf Hv. unfold octet_of, dec_value in *. rewrite forallb_app, dec_from_app, Hf. cbn.
  destruct (forallb is_digit g) eqn:Hg; [|done]. cbn.
  pose proof (dec_from_le (dec_from 0 f) g ltac:(lia) Hg). tests.
Qed.

Lemma octet_of_nondigit f c g : is_digit c = false -> octet_of (f ++ c :: g) = None.
Proof. intros Hc. unfold octet_of. rewrite forallb_app. cbn. rewrite Hc. by rewrite andb_false_r. Qed.

Lemma split_dots_head cur text : exists g rest, split_dots cur text = (cur ++ g) :: rest.
Proof.
  revert cur. induction text as [|c text IH]; intros cur; cbn.
  - exists [], []. by rewrite app_nil_r.
  - destruct (c =? "."%ch); [exists [], (split_dots [] text); by rewrite app_nil_r|].
    destruct (IH (cur ++ [c])) as (g & rest & ->). exists (c :: g), rest. by rewrite <- app_assoc.
Qed.

Definition octets_value (os : list Z) : Z := to_u32 (foldl (fun a o => a * 256 + o) 0 os).

Lemma octets_value_snoc os o :
  byte_ok o -> to_u32 (to_u32 (Z.shiftl (octets_value os) 8) + o) = octets_value (os ++ [o]).
Proof.
  unfold octets_value, byte_ok. intros Ho. rewrite foldl_app. cbn [foldl].
  rewrite Z.shiftl_mul_pow2 by lia. unfold to_u32.
  rewrite Z.add_mod_idemp_l, <- Z.add_mod_idemp_l, Z.mul_mod_idemp_l, Z.add_mod_idemp_l by lia. done.
Qed.

Lemma quad_length os : length os <> 4%nat -> quad os = INADDR_NONE.
Proof. by destruct os as [|? [|? [|? [|? [|]]]]]. Qed.

Lemma quad_octets os o :
  Forall byte_ok os -> byte_ok o ->
  (if Z.of_nat (length os) =? 3 then htonl (octets_value (os ++ [o])) else INADDR_NONE) = quad (os ++ [o]).
Proof.
  intros Hos Ho. destruct (Z.eqb_spec (Z.of_nat (length os)) 3) as [E|E].
  - destruct os as [|a [|b [|c [|]]]]; cbn in E; try lia.
    apply Forall_cons_1 in Hos as [Ha Hos]. apply Forall_cons_1 in Hos as [Hb Hos].
    apply Forall_cons_1 in Hos as [Hc _]. cbn [app quad]. rewrite <- of_octets_htonl by done.
    unfold octets_value. cbn [app foldl]. rewrite to_u32_id; [done|]. unfold byte_ok in *. lia.
  - rewrite quad_length; [done|]. rewrite length_app. cbn. lia.
Qed.

Lemma inet_addr_loop_spec p os cur octet :
  Forall byte_ok os -> octet_of cur = Some octet ->
  Z.of_nat (length os + length p) < 2 ^ 64 ->
  inet_addr_loop p (length p) (octets_value os) octet (Z.of_nat (length os))
    = Ok (match mapM octet_of (split_dots cur p) with Some l => quad (os ++ l) | None => INADDR_NONE end).
Proof.
  revert os cur octet. induction p as [|c p IH]; intros os cur octet Hos Hcur Hlen;
    cbn [inet_addr_loop length split_dots mapM] in *; destruct (octet_of_some _ _ Hcur) as (Hd & Hv & Hb).
  - rewrite Hcur. cbn [mbind option_bind mret option_ret].
    rewrite octets_value_snoc, <- quad_octets by done. by destruct (_ =? 3).
  - fold (is_digit c). destruct (is_digit c) eqn:Hc.
    + assert (Ec : (c =? "."%ch) = false) by (unfold is_digit in Hc; tests). rewrite Ec.
      assert (Hr : 0 <= c - "0"%ch <= 9) by (unfold is_digit in Hc; tests).
      rewrite to_u64_id by (unfold byte_ok in Hb; lia).
      pose proof (octet_of_digit cur c Hc Hd) as Ho. rewrite Hv in Ho.
      destruct (Z.ltb_spec 255 (octet * 10 + (c - "0"%ch))) as [Hlt|Hge].
      * destruct (split_dots_head (cur ++ [c]) p) as (g & rest & ->). cbn [mapM].
        rewrite octet_of_none; [done|by rewrite forallb_app, Hd; cbn; rewrite Hc|].
        unfold dec_value in *. rewrite dec_from_app, dec_from_cons, Hv. unfold dec_from. cbn. lia.
      * apply IH; [done|done|lia].
    + destruct (Z.eqb_spec c "."%ch) as [->|Hdot].
      * rewrite octets_value_snoc by done. cbn [mapM]. rewrite Hcur. cbn [mbind option_bind].
        replace (to_u64 (Z.of_nat (length os) + 1)) with (Z.of_nat (length (os ++ [octet])))
          by (rewrite length_app; cbn; casts).
        rewrite (IH _ []); [|by apply Forall_app_2; [|constructor]|done|rewrite length_app; cbn; lia].
        destruct (mapM octet_of (split_dots [] p)); [|done]. cbn. by rewrite <- app_assoc.
      * destruct (split_dots_head (cur ++ [c]) p) as (g & rest & ->). cbn [mapM].
        rewrite <- app_assoc. cbn [app]. by rewrite octet_of_nondigit.
Qed.

Theorem ngx_inet_addr_correct text :
  Z.of_nat (length text) < 2 ^ 64 ->
  ngx_inet_addr text (length text) = Ok (inet_addr_spec text).
Proof. intros H. apply (inet_addr_loop_spec text [] []); [constructor|done|done]. Qed.

Lemma ngx_inet_addr_correct_witness :
  ngx_inet_addr (bytes "192.168.1.20") 12 = Ok (inet_addr_spec (bytes "192.168.1.20")).
Proof. apply (ngx_inet_addr_correct (bytes "192.168.1.20")). reflexivity. Defined.

Lemma inet_addr_loop_ok p len addr octet n :
  (len <= length p)%nat -> is_ok (inet_addr_loop p len addr octet n).
Proof.
  revert p addr octet n. induction len as [|len IH]; intros [|c p] addr octet n H;
    cbn [inet_addr_loop length] in *; [destruct (_ =? 3); by eexists..|lia|].
  destruct (_ && _); [destruct (255 <? _); [by eexists|apply IH; lia]|].
  destruct (c =? "."%ch); [apply IH; lia|by eexists].
Qed.

Lemma ngx_inet_addr_ok text len : (len <= length text)%nat -> is_ok (ngx_inet_addr text len).
Proof. apply inet_addr_loop_ok. Qed.

(** * Memory safety of ngx_inet6_addr *)

(** With [n] groups missing the store position is [2 * n] bytes before the end
    of the buffer; what is read again as an IPv4 address is in the text. *)
Record inet6_ok (s : inet6) : Prop := {
  ok_mem : length (i6_mem s) = 16%nat;
  ok_n : 1 <= i6_n s <= 8;
  ok_addr : Z.of_nat (i6_addr s) = 16 - 2 * i6_n s;
  ok_zero : match i6_zero s with Some z => (z <= i6_addr s)%nat | None => True end;
  ok_digit : match i6_digit s with Some d => (i6_len4 s - 1 <= length d)%nat | None => True end
}.

Definition returns (r : Z) : Prop := r = NGX_OK \/ r = NGX_ERROR.

Definition safe (m : outcome (Z * list Z)) : Prop :=
  exists rc mem, m = Ok (rc, mem) /\ returns rc /\ length mem = 16%nat.

Lemma safe_error mem : length mem = 16%nat -> safe (Ok (NGX_ERROR, mem)).
Proof. intros H. exists NGX_ERROR, mem. split_and!; [done|by right|done]. Qed.

Lemma put_word_ok mem a hi lo :
  (a + 2 <= length mem)%nat -> put_word mem a hi lo = Ok (<[S a := to_u8 lo]> (<[a := to_u8 hi]> mem)).
Proof.
  intros H. unfold put_word. rewrite store_ok by lia. cbn [mbind outcome_bind].
  rewrite store_ok; [done|]. rewrite length_insert. lia.
Qed.

Lemma move_up_ok mem z k n :
  (z + k + n <= length mem)%nat -> exists mem', move_up mem z k n = Ok mem' /\ length mem' = length mem.
Proof.
  revert mem. induction k as [|k IH]; intros mem H; [by eexists|]. cbn [move_up].
  destruct (lookup_lt_is_Some_2 mem (z + k)) as [c Hc]; [lia|].
  rewrite (deref_lookup _ _ _ Hc). cbn [mbind outcome_bind].
  rewrite store_ok by lia. cbn [mbind outcome_bind].
  destruct (IH (<[z + k + n := c]> mem)%nat) as (mem' & -> & Hl); [rewrite length_insert; lia|].
  exists mem'. split; [done|]. by rewrite Hl, length_insert.
Qed.

Lemma memzero_ok mem a n :
  (a + n <= length mem)%nat ->
  memzero mem a n = Ok (take a mem ++ replicate n 0 ++ drop (a + n) mem) /\
  length (take a mem ++ replicate n 0 ++ drop (a + n) mem) = length mem.
Proof.
  intros H. unfold memzero. rewrite (proj2 (Nat.leb_le _ _)) by done. split; [done|].
  rewrite !length_app, length_take, length_replicate, length_drop. lia.
Qed.

Lemma inet6_finish_safe s : inet6_ok s -> safe (inet6_finish s).
Proof.
  destruct s as [mem a zero digit len4 nibbles word n]. intros [Hm Hn Ha Hz _]. cbn in *.
  unfold inet6_finish. destruct (_ && _); [by apply safe_error|].
  rewrite put_word_ok by lia. cbn [mbind outcome_bind].
  set (mem' := <[S a := _]> _). assert (Hm' : length mem' = 16%nat) by (subst mem'; by rewrite !length_insert).
  rewrite to_u64_id by lia. destruct (Z.eqb_spec (n - 1) 0); cbn [negb].
  - destruct zero; [by apply safe_error|]. exists NGX_OK, mem'. split_and!; [done|by left|done].
  - destruct zero as [z|]; [|by apply safe_error].
    destruct (move_up_ok mem' z (a + 2 - z) (Z.to_nat ((n - 1) * 2))) as (mem2 & -> & Hm2); [lia|].
    cbn [mbind outcome_bind].
    destruct (memzero_ok mem2 z (Z.to_nat ((n - 1) * 2))) as [-> Hl]; [lia|]. cbn [mbind outcome_bind].
    exists NGX_OK. eexists. split_and!; [done|by left|lia].
Qed.

(** A step of the loop keeps the invariant or is an error. *)
Definition step_safe (m : outcome (inet6 + list Z)) : Prop :=
  exists r, m = Ok r /\ match r with inl s => inet6_ok s | inr mem => length mem = 16%nat end.

Lemma inet6_colon_safe s p' len :
  inet6_ok s -> (len - 1 <= length p')%nat -> step_safe (inet6_colon s p' len).
Proof.
  destruct s as [mem a zero digit len4 nibbles word n]. intros [Hm Hn Ha Hz Hd] Hp. cbn in *.
  unfold inet6_colon, step_safe. destruct (nibbles =? 0); cbn [negb].
  - destruct zero; [by eexists|]. eexists. split; [done|]. constructor; cbn; try done; lia.
  - rewrite put_word_ok by lia. cbn [mbind outcome_bind]. rewrite to_u64_id by lia.
    destruct (Z.eqb_spec (n - 1) 0); cbn [negb]; eexists; (split; [done|]);
      [cbn; by rewrite !length_insert|].
    constructor; cbn; rewrite ?length_insert; try done; try lia. destruct zero; [lia|done].
Qed.

Lemma inet6_dot_safe s : inet6_ok s -> step_safe (inet6_dot s).
Proof.
  destruct s as [mem a zero digit len4 nibbles word n]. intros [Hm Hn Ha Hz Hd]. cbn in *.
  unfold inet6_dot, step_safe. destruct digit as [d|]; [|by eexists].
  destruct (Z.ltb_spec n 2); [by eexists|].
  destruct (ngx_inet_addr_ok d (len4 - 1) Hd) as [w ->]. cbn [mbind outcome_bind].
  destruct (w =? INADDR_NONE); [by eexists|]. rewrite put_word_ok by lia. cbn [mbind outcome_bind].
  eexists. split; [done|].
  constructor; cbn; rewrite ?length_insert; try done; try lia. destruct zero; [lia|done].
Qed.

Lemma inet6_hex_safe s c : inet6_ok s -> step_safe (Ok (inet6_hex s c)).
Proof.
  destruct s as [mem a zero digit len4 nibbles word n]. intros [Hm Hn Ha Hz Hd]. cbn in *.
  unfold inet6_hex, step_safe. eexists. split; [done|].
  destruct (4 <? _); [done|]. destruct (_ && _); [by constructor|].
  cbv zeta. by destruct (_ && _).
Qed.

Lemma inet6_loop_safe p len s :
  inet6_ok s -> (len <= length p)%nat -> safe (inet6_loop p len s).
Proof.
  revert p s. induction len as [|len IH]; intros [|c p] s Hs Hlen; cbn [inet6_loop length] in *;
    [by apply inet6_finish_safe..|lia|].
  destruct (c =? ":"%ch).
  - destruct (inet6_colon_safe s p (S len) Hs) as (r & -> & Hr); [lia|]. cbn [mbind outcome_bind].
    destruct r; [apply IH; [done|lia]|by apply safe_error].
  - destruct ((c =? "."%ch) && _).
    + destruct (inet6_dot_safe s Hs) as (r & -> & Hr). cbn [mbind outcome_bind].
      destruct r; [by apply inet6_finish_safe|by apply safe_error].
    + destruct (inet6_hex_safe s c Hs) as (r & [= ->] & Hr).
      destruct r; [apply IH; [done|lia]|by apply safe_error].
Qed.

Lemma inet6_init_ok addr : length addr = 16%nat -> inet6_ok (inet6_init addr).
Proof. intros H. by constructor. Qed.

Lemma inet6_addr_safe p len addr :
  (len <= length p)%nat -> length addr = 16%nat -> safe (ngx_inet6_addr p len addr).
Proof.
  intros Hlen Ha. pose proof (inet6_init_ok addr Ha) as Hi. unfold ngx_inet6_addr.
  destruct len as [|len]; [by apply safe_error|].
  destruct p as [|c p]; cbn [length] in Hlen; [lia|]. cbn [deref lookup list_lookup mbind outcome_bind].
  destruct (c =? ":"%ch); apply inet6_loop_safe; cbn [tail length]; try done; lia.
Qed.
