(* ===== verification/InetText.v ===== *)
(** Component "addresses", continued: the texts that ngx_inet6_ntop and
    ngx_sock_ntop of src/core/ngx_inet.c print, and what the parsers of the same
    file make of them. *)

From stdpp Require Import base numbers list option strings.
From Stdlib Require Import ZArith Lia.
From S2P Require Import Prelude StringCompare Atoi Sprintf Inet.
Local Open Scope Z_scope.

(** * IPv4 *)

Definition dotted (a b c d : Z) : list Z :=
  dec a ++ "."%ch :: dec b ++ "."%ch :: dec c ++ "."%ch :: dec d.

Lemma dec_octet v : byte_ok v ->
  octet_of (dec v) = Some v /\ (length (dec v) <= 3)%nat /\ forallb is_digit (dec v) = true.
Proof.
  apply (range_decide 256 (fun v => octet_of (dec v) = Some v /\ (length (dec v) <= 3)%nat /\
    forallb is_digit (dec v) = true)). vm_compute. reflexivity.
Qed.

Lemma dec_octet_length v : byte_ok v -> (length (dec v) <= 3)%nat.
Proof. intros H. by apply dec_octet. Qed.

Lemma dotted_length a b c d :
  byte_ok a -> byte_ok b -> byte_ok c -> byte_ok d -> (length (dotted a b c d) <= NGX_INET_ADDRSTRLEN)%nat.
Proof.
  intros Ha%dec_octet_length Hb%dec_octet_length Hc%dec_octet_length Hd%dec_octet_length.
  unfold dotted, NGX_INET_ADDRSTRLEN. rewrite !length_app. cbn [length]. rewrite !length_app. cbn [length].
  rewrite !length_app. cbn [length]. lia.
Qed.

Lemma split_dots_digits cur ds rest :
  forallb is_digit ds = true -> split_dots cur (ds ++ rest) = split_dots (cur ++ ds) rest.
Proof.
  revert cur. induction ds as [|c ds IH]; intros cur H; cbn [app]; [by rewrite app_nil_r|].
  cbn in H. apply andb_prop in H as [Hc H]. cbn [split_dots].
  destruct (Z.eqb_spec c "."%ch) as [->|]; [done|].
  rewrite IH by done. by rewrite <- app_assoc.
Qed.

Lemma split_dotted a b c d :
  byte_ok a -> byte_ok b -> byte_ok c -> byte_ok d ->
  split_dots [] (dotted a b c d) = [dec a; dec b; dec c; dec d].
Proof.
  intros Ha%dec_octet Hb%dec_octet Hc%dec_octet Hd%dec_octet. unfold dotted.
  rewrite split_dots_digits by apply Ha. cbn [split_dots app].
  change ("."%ch =? "."%ch) with true. cbn iota.
  rewrite split_dots_digits by apply Hb. cbn [split_dots app].
  change ("."%ch =? "."%ch) with true. cbn iota.
  rewrite split_dots_digits by apply Hc. cbn [split_dots app].
  change ("."%ch =? "."%ch) with true. cbn iota.
  rewrite <- (app_nil_r (dec d)) at 1. rewrite split_dots_digits by apply Hd. done.
Qed.

(** What follows the text is not looked at. *)
Lemma inet_addr_loop_app t rest addr octet n :
  inet_addr_loop (t ++ rest) (length t) addr octet n = inet_addr_loop t (length t) addr octet n.
Proof.
  revert addr octet n. induction t as [|c t IH]; intros addr octet n; [done|]. cbn [inet_addr_loop length app].
  by rewrite !IH.
Qed.

Lemma inet_addr_app t rest : ngx_inet_addr (t ++ rest) (length t) = ngx_inet_addr t (length t).
Proof. apply inet_addr_loop_app. Qed.

Lemma inet_addr_dotted a b c d rest :
  byte_ok a -> byte_ok b -> byte_ok c -> byte_ok d ->
  ngx_inet_addr (dotted a b c d ++ rest) (length (dotted a b c d)) = Ok (of_octets a b c d).
Proof.
  intros Ha Hb Hc Hd. pose proof (dotted_length a b c d Ha Hb Hc Hd) as Hl. unfold NGX_INET_ADDRSTRLEN in Hl.
  rewrite inet_addr_app. unfold ngx_inet_addr.
  rewrite (inet_addr_loop_spec _ [] []) by (done || constructor || cbn [length]; lia).
  rewrite split_dotted by done. cbn [mapM].
  rewrite (proj1 (dec_octet a Ha)), (proj1 (dec_octet b Hb)), (proj1 (dec_octet c Hc)), (proj1 (dec_octet d Hd)).
  done.
Qed.

(** A text with another character is no address. *)
Lemma inet_addr_loop_other t rest c addr octet n :
  c ∈ t -> is_digit c = false -> c <> "."%ch ->
  inet_addr_loop (t ++ rest) (length t) addr octet n = Ok INADDR_NONE.
Proof.
  intros Hin Hc Hd. revert addr octet n. induction t as [|x t IH]; intros addr octet n;
    [by apply not_elem_of_nil in Hin|]. cbn [inet_addr_loop length app]. fold (is_digit x).
  apply elem_of_cons in Hin as [<-|Hin].
  - by rewrite Hc, (proj2 (Z.eqb_neq _ _) Hd).
  - destruct (is_digit x); [destruct (255 <? _); [done|by apply IH]|].
    destruct (x =? "."%ch); [by apply IH|done].
Qed.

(** The directives of the dotted notation. *)
Lemma vslprintf_dotted fuel room a b c d fmt args :
  byte_ok a -> byte_ok b -> byte_ok c -> byte_ok d -> enough room (length (dotted a b c d)) ->
  vslprintf_loop (7 + fuel) room (bytes "%ud.%ud.%ud.%ud" ++ fmt) (V32 a :: V32 b :: V32 c :: V32 d :: args)
    = (rest ← vslprintf_loop fuel (less room (length (dotted a b c d))) fmt args;
       Ok (dotted a b c d ++ rest)).
Proof.
  unfold byte_ok. intros Ha Hb Hc Hd He. unfold dotted in *.
  assert (Eb : bytes "%ud.%ud.%ud.%ud" = ["%"%ch; "u"%ch; "d"%ch; "."%ch; "%"%ch; "u"%ch; "d"%ch; "."%ch;
    "%"%ch; "u"%ch; "d"%ch; "."%ch; "%"%ch; "u"%ch; "d"%ch]) by reflexivity.
  rewrite Eb. clear Eb. cbn [app Nat.add].
  assert (Hless : forall r k l, less (less r k) l = less r (k + l)).
  { intros [r|] k l; cbn; [f_equal; lia|done]. }
  repeat (rewrite length_app in * || cbn [length] in * ).
  rewrite loop_ud by (lia || (destruct room; cbn in *; lia)).
  rewrite loop_char by (done || (destruct room; cbn in *; lia)).
  rewrite loop_ud by (lia || (destruct room; cbn in *; lia)).
  rewrite loop_char by (done || (destruct room; cbn in *; lia)).
  rewrite loop_ud by (lia || (destruct room; cbn in *; lia)).
  rewrite loop_char by (done || (destruct room; cbn in *; lia)).
  rewrite loop_ud by (lia || (destruct room; cbn in *; lia)).
  rewrite !Hless.
  replace (length (dec a) + 1 + length (dec b) + 1 + length (dec c) + 1 + length (dec d))%nat
    with (length (dec a) + S (length (dec b) + S (length (dec c) + S (length (dec d)))))%nat by lia.
  destruct (vslprintf_loop fuel _ fmt args); cbn [mbind outcome_bind]; [|done..].
  by rewrite !app_comm_cons, <- !app_assoc.
Qed.

(** * Reading IPv6 *)

Definition group_ok (w : Z) : Prop := 0 <= w < 65536.
Definition word_bytes (w : Z) : list Z := [w / 256; w mod 256].
Definition words_bytes (ws : list Z) : list Z := concat (map word_bytes ws).
(** Groups with a colon after each, and with colons between them. *)
Definition groups (ws : list Z) : list Z := concat (map (fun w => hexl w ++ [":"%ch]) ws).
Fixpoint join (ws : list Z) : list Z :=
  match ws with
  | [] => []
  | [w] => hexl w
  | w :: ws' => (hexl w ++ [":"%ch]) ++ join ws'
  end.

Lemma words_bytes_length ws : length (words_bytes ws) = (2 * length ws)%nat.
Proof.
  induction ws as [|w ws IH]; [done|]. change (words_bytes (w :: ws)) with (word_bytes w ++ words_bytes ws).
  rewrite length_app, IH. cbn. lia.
Qed.

Lemma words_bytes_app ws ws' : words_bytes (ws ++ ws') = words_bytes ws ++ words_bytes ws'.
Proof. unfold words_bytes. by rewrite map_app, concat_app. Qed.

Lemma hex_from_ge v ds r : 0 <= v -> hex_from v ds = Some r -> v * 16 ^ Z.of_nat (length ds) <= r.
Proof.
  revert v. induction ds as [|c ds IH]; intros v Hv H; cbn [hex_from length] in *.
  - injection H as ->. cbn. lia.
  - destruct (hex_digit c) as [d|] eqn:Hd; [|done].
    assert (Hd0 : 0 <= d) by (unfold hex_digit, is_digit in Hd; revert Hd; tests; intros [= <-]; lia).
    apply IH in H; [|lia]. replace (Z.of_nat (S (length ds))) with (1 + Z.of_nat (length ds)) by lia.
    rewrite Z.pow_add_r by lia. assert (0 <= 16 ^ Z.of_nat (length ds)) by lia. nia.
Qed.

Lemma hexl_group w : group_ok w -> (1 <= length (hexl w) <= 4)%nat /\ numeral 1 w (hexl w).
Proof.
  intros H. assert (Hn : numeral 1 w (hexl w)) by (apply hexl_spec; unfold group_ok in H; lia).
  split; [|done]. destruct Hn as [[Hne Hz] (_ & _ & Hv)]. unfold group_ok in H.
  destruct (hexl w) as [|c ds]; [done|]. cbn [hd] in Hz. split; [cbn; lia|].
  destruct (Z.eq_dec c "0"%ch) as [E|E]; [rewrite (Hz E); cbn; lia|].
  cbn [hex_from length] in *. destruct (hex_digit c) as [d|] eqn:Hd; [|done].
  assert (1 <= d) by (unfold hex_digit, is_digit in Hd; revert Hd; tests; intros [= <-]; lia).
  apply hex_from_ge in Hv; [|lia]. destruct (Nat.le_gt_cases (S (length ds)) 4) as [|Hgt]; [done|exfalso].
  assert (16 ^ 4 <= 16 ^ Z.of_nat (length ds)) by (apply Z.pow_le_mono_r; lia). nia.
Qed.

(** A hexadecimal digit as the loop of ngx_inet6_addr sees it. *)
Definition hex_seen (c : Z) : bool :=
  match hex_digit c with
  | None => true
  | Some d =>
      negb (c =? ":"%ch) && negb (c =? "."%ch) && negb (c =? "]"%ch) && (0 <=? d) && (d <? 16) &&
      (if ("0"%ch <=? c) && (c <=? "9"%ch) then d =? c - "0"%ch
       else ("a"%ch <=? Z.lor c 0x20) && (Z.lor c 0x20 <=? "f"%ch) && (d =? Z.lor c 0x20 - "a"%ch + 10))
  end.

Lemma hex_digit_seen c d : byte_ok c -> hex_digit c = Some d ->
  c <> ":"%ch /\ c <> "."%ch /\ c <> "]"%ch /\ 0 <= d < 16 /\
  forall mem a z dg l nib w n, nib < 4 -> 0 <= w < 2 ^ 32 ->
    inet6_hex (mk_inet6 mem a z dg l nib w n) c = inl (mk_inet6 mem a z dg l (nib + 1) (w * 16 + d) n).
Proof.
  intros Hb Hd. assert (G : hex_seen c = true) by (revert c Hb Hd; intros c Hb _; by apply byte_forall).
  unfold hex_seen in G. rewrite Hd in G.
  repeat (apply andb_prop in G as [G ?]). rewrite ?negb_true_iff, ?Z.eqb_neq, ?Z.leb_le, ?Z.ltb_lt in *.
  split_and!; try done. intros mem a z dg l nib w n Hn Hw. unfold inet6_hex.
  rewrite (proj2 (Z.ltb_ge 4 (nib + 1))) by lia.
  destruct (_ && _).
  - rewrite to_u64_id by lia. do 2 f_equal. lia.
  - cbv zeta. apply andb_prop in H as [-> H]. rewrite to_u64_id by lia. do 2 f_equal. lia.
Qed.

(** The digits of a group. *)
Lemma inet6_digits ds v p len mem a z dg l nib w n :
  bytes_ok ds -> hex_from w ds = Some v -> 0 <= w < 16 ^ nib -> 0 <= nib -> nib + Z.of_nat (length ds) <= 4 ->
  inet6_loop (ds ++ p) (length ds + len) (mk_inet6 mem a z dg l nib w n)
    = inet6_loop p len (mk_inet6 mem a z dg l (nib + Z.of_nat (length ds)) v n).
Proof.
  revert nib w. induction ds as [|c ds IH]; intros nib w Hb Hv Hw H0 Hn.
  - cbn in *. injection Hv as ->. by rewrite Z.add_0_r.
  - apply bytes_ok_cons in Hb as [Hc Hb]. cbn [hex_from length] in *.
    destruct (hex_digit c) as [d|] eqn:Hd; [|done].
    destruct (hex_digit_seen c d Hc Hd) as (Ec & Ed & _ & Hr & Hhex).
    assert (16 ^ nib <= 16 ^ 3) by (apply Z.pow_le_mono_r; lia).
    cbn [inet6_loop app Nat.add].
    rewrite (proj2 (Z.eqb_neq _ _) Ec), (proj2 (Z.eqb_neq _ _) Ed). cbn [andb].
    rewrite Hhex by lia.
    rewrite IH by (try done; try lia; rewrite Z.pow_add_r by lia; lia).
    do 2 f_equal. lia.
Qed.

Lemma inet6_group w p len mem a z dg l n :
  group_ok w ->
  exists nib, 0 < nib /\
    inet6_loop (hexl w ++ p) (length (hexl w) + len) (mk_inet6 mem a z dg l 0 0 n)
      = inet6_loop p len (mk_inet6 mem a z dg l nib w n).
Proof.
  intros H. destruct (hexl_group w H) as [Hl (_ & _ & Hb & Hv)].
  exists (Z.of_nat (length (hexl w))). split; [lia|].
  by rewrite (inet6_digits _ w) by (done || lia).
Qed.

(** The two bytes that are stored of a word. *)
Definition stored_bytes (w : Z) : list Z := [to_u8 (Z.shiftr w 8); to_u8 (Z.land w 0xff)].

Lemma stored_group w : group_ok w -> stored_bytes w = word_bytes w.
Proof.
  unfold group_ok, stored_bytes, word_bytes. intros Hw. rewrite land_ff, Z.shiftr_div_pow2 by lia.
  by rewrite !to_u8_id by (unfold byte_ok; Z.div_mod_to_equations; lia).
Qed.

(** Stores at the end of what is written. *)
Lemma put_word_app mem x y junk hi lo a :
  a = length mem -> put_word (mem ++ x :: y :: junk) a hi lo = Ok (mem ++ [to_u8 hi; to_u8 lo] ++ junk).
Proof.
  intros ->. rewrite put_word_ok by (rewrite length_app; cbn; lia).
  rewrite insert_app_r_alt by lia. rewrite Nat.sub_diag. cbn [insert list_insert].
  rewrite insert_app_r_alt by lia. by replace (S (length mem) - length mem)%nat with 1%nat by lia.
Qed.

Lemma junk_split (junk : list Z) n : length junk = (2 + n)%nat ->
  exists x y junk', junk = x :: y :: junk' /\ length junk' = n.
Proof. destruct junk as [|x [|y junk']]; cbn; intros; try lia. exists x, y, junk'. split; [done|lia]. Qed.

(** A sequence of groups, each with its colon. *)
Lemma inet6_groups ws p len mem junk z dg l n :
  Forall group_ok ws -> Z.of_nat (length ws) < n -> n <= 8 -> Z.of_nat (length junk) = 2 * n ->
  exists junk', length junk' = (length junk - 2 * length ws)%nat /\
    inet6_loop (groups ws ++ p) (length (groups ws) + len) (mk_inet6 (mem ++ junk) (length mem) z dg l 0 0 n)
    = inet6_loop p len (mk_inet6 (mem ++ words_bytes ws ++ junk') (length (mem ++ words_bytes ws)) z
        (match ws with [] => dg | _ => Some p end) (match ws with [] => l | _ => S len end)
        0 0 (n - Z.of_nat (length ws))).
Proof.
  intros Hws. revert mem junk dg l n. induction Hws as [|w ws Hw Hws IH]; intros mem junk dg l n Hn H8 Hj.
  - exists junk. cbn. rewrite app_nil_r, Z.sub_0_r. split; [lia|done].
  - cbn [length] in *. destruct (junk_split junk (length junk - 2)) as (x & y & junk1 & -> & Hj1); [lia|].
    cbn [length] in *.
    change (groups (w :: ws)) with ((hexl w ++ [":"%ch]) ++ groups ws).
    rewrite <- !app_assoc. rewrite !length_app. cbn [length app].
    destruct (inet6_group w (":"%ch :: groups ws ++ p) (S (length (groups ws) + len))
      (mem ++ x :: y :: junk1) (length mem) z dg l n Hw) as (nib & Hnib & E).
    replace (length (hexl w) + (1 + length (groups ws)) + len)%nat
      with (length (hexl w) + S (length (groups ws) + len))%nat by lia.
    rewrite E. clear E. cbn [inet6_loop]. change (":"%ch =? ":"%ch) with true. cbn iota.
    unfold inet6_colon. rewrite (proj2 (Z.eqb_neq nib 0)) by lia. cbn [negb].
    rewrite put_word_app by done. fold (stored_bytes w). rewrite stored_group by done.
    cbn [mbind outcome_bind].
    rewrite to_u64_id by lia. rewrite (proj2 (Z.eqb_neq (n - 1) 0)) by lia. cbn [negb].
    destruct (IH (mem ++ word_bytes w) junk1 (Some (groups ws ++ p)) (S (length (groups ws) + len)) (n - 1))
      as (junk' & Hj' & E); [lia..|].
    exists junk'. split; [lia|].
    rewrite <- (app_assoc _ _ junk1), (length_app mem (word_bytes w)) in E.
    cbn [mbind outcome_bind]. etransitivity; [exact E|].
    change (words_bytes (w :: ws)) with (word_bytes w ++ words_bytes ws).
    replace (n - 1 - Z.of_nat (length ws)) with (n - Z.of_nat (S (length ws))) by lia.
    rewrite <- !app_assoc, !length_app. by destruct ws.
Qed.

(** Moving the groups after the zeros to the end. *)
Lemma move_up_app pre post junk moved n :
  length junk = n ->
  exists junk', length junk' = n /\
    move_up (pre ++ post ++ junk ++ moved) (length pre) (length post) n = Ok (pre ++ junk' ++ post ++ moved).
Proof.
  intros Hj. revert junk moved Hj. induction post as [|v post IH] using rev_ind; intros junk moved Hj.
  - exists junk. by cbn.
  - rewrite length_app. cbn [length]. rewrite Nat.add_1_r. cbn [move_up].
    assert (El : (pre ++ (post ++ [v]) ++ junk ++ moved) !! (length pre + length post)%nat = Some v).
    { rewrite lookup_app_r by lia. replace (_ - _)%nat with (length post) by lia.
      rewrite <- app_assoc. by apply list_lookup_middle. }
    rewrite (deref_lookup _ _ _ El). cbn [mbind outcome_bind].
    destruct (exists_last (l := v :: junk)) as (j0 & x & E); [done|].
    assert (Hj0 : length j0 = n).
    { apply (f_equal (@length Z)) in E. rewrite length_app in E. cbn in E. lia. }
    assert (Em : pre ++ (post ++ [v]) ++ junk ++ moved = (pre ++ post ++ j0) ++ x :: moved).
    { rewrite <- !app_assoc. change ([v] ++ junk ++ moved) with ((v :: junk) ++ moved). rewrite E.
      by rewrite <- app_assoc. }
    rewrite Em. rewrite store_ok by (rewrite !length_app; cbn; lia). cbn [mbind outcome_bind].
    rewrite insert_app_r_alt by (rewrite !length_app; lia).
    replace (_ - _)%nat with 0%nat by (rewrite !length_app; lia). cbn [insert list_insert].
    destruct (IH j0 (v :: moved) Hj0) as (junk' & Hj' & E'). exists junk'. split; [done|].
    rewrite <- !app_assoc. by rewrite E'.
Qed.

Lemma finish_run pre post junk w a dg l nib n :
  Z.of_nat (length junk) = 2 * n -> 2 <= n <= 8 -> a = length (pre ++ post) ->
  inet6_finish (mk_inet6 (pre ++ post ++ junk) a (Some (length pre)) dg l nib w n)
    = Ok (NGX_OK, pre ++ replicate (Z.to_nat (2 * (n - 1))) 0 ++ post ++ stored_bytes w).
Proof.
  intros Hj Hn ->. unfold inet6_finish. rewrite andb_comm. cbn [bool_decide decide is_Some_dec negb andb].
  destruct (junk_split junk (length junk - 2)) as (x & y & junk1 & -> & Hj1); [lia|]. cbn [length] in *.
  rewrite app_assoc, put_word_app by done. cbn [mbind outcome_bind].
  rewrite to_u64_id by lia. rewrite (proj2 (Z.eqb_neq (n - 1) 0)) by lia. cbn [negb].
  fold (stored_bytes w).
  destruct (move_up_app pre (post ++ stored_bytes w) junk1 [] (Z.to_nat ((n - 1) * 2))) as (junk' & Hj' & E); [lia|].
  rewrite app_nil_r, length_app in E. cbn [length stored_bytes] in E.
  replace (length (pre ++ post) + 2 - length pre)%nat with (length post + 2)%nat by (rewrite length_app; lia).
  rewrite <- !app_assoc in *. rewrite E. cbn [mbind outcome_bind].
  rewrite app_nil_r. unfold memzero.
  rewrite (proj2 (Nat.leb_le _ _)) by (rewrite !length_app; lia). cbn [mbind outcome_bind].
  replace (2 * (n - 1)) with ((n - 1) * 2) by lia.
  rewrite take_app_length, <- Hj', <- drop_drop, drop_app_length, drop_app_length. done.
Qed.

Lemma join_snoc ws w : join (ws ++ [w]) = groups ws ++ hexl w.
Proof.
  induction ws as [|x ws IH]; [done|]. change (groups (x :: ws)) with ((hexl x ++ [":"%ch]) ++ groups ws).
  rewrite <- app_assoc, <- IH. cbn [app]. by destruct ws.
Qed.

(** The groups after the zeros, up to the end of the text. *)
Lemma inet6_join_run pre junk ws rest dg l n :
  Forall group_ok ws -> Z.of_nat (length junk) = 2 * n -> 2 <= n <= 8 -> Z.of_nat (length ws) < n ->
  inet6_loop (join ws ++ rest) (length (join ws))
      (mk_inet6 (pre ++ junk) (length pre) (Some (length pre)) dg l 0 0 n)
    = Ok (NGX_OK, pre ++ replicate (Z.to_nat (2 * (n - Z.of_nat (length ws)))) 0 ++ words_bytes ws).
Proof.
  intros Hws Hj Hn Hl. destruct ws as [|w ws _] using rev_ind.
  - cbn [join length inet6_loop]. pose proof (finish_run pre [] junk 0 (length pre) dg l 0 n Hj Hn) as E.
    cbn [app] in E. rewrite app_nil_r in E. rewrite E by done. cbn [words_bytes map concat].
    change (stored_bytes 0) with (replicate 2 0). rewrite app_nil_r, <- replicate_add.
    by replace (Z.to_nat (2 * (n - 1)) + 2)%nat with (Z.to_nat (2 * (n - Z.of_nat 0%nat))) by lia.
  - apply Forall_app in Hws as [Hws Hw]. apply Forall_cons_1 in Hw as [Hw _].
    rewrite length_app in *. cbn [length] in *. rewrite join_snoc, <- app_assoc, length_app.
    destruct (inet6_groups ws (hexl w ++ rest) (length (hexl w)) pre junk (Some (length pre)) dg l n)
      as (junk' & Hj' & ->); [done|lia..|].
    rewrite <- (Nat.add_0_r (length (hexl w))).
    edestruct (inet6_group w rest 0) as (nib & _ & ->); [done|]. cbn [inet6_loop].
    rewrite finish_run by (lia || by rewrite ?length_app).
    rewrite stored_group, words_bytes_app by done.
    cbn [words_bytes map concat]. rewrite app_nil_r.
    by replace (n - Z.of_nat (length ws) - 1) with (n - Z.of_nat (length ws + 1)) by lia.
Qed.

(** The dotted notation at the end. *)
Lemma hexes_of_dec a : byte_ok a -> exists v, hex_from 0 (dec a) = Some v.
Proof.
  intros Ha. assert (H : is_Some (hex_from 0 (dec a))); [|by destruct H as [v ->]; exists v].
  apply (range_decide 256 (fun a => is_Some (hex_from 0 (dec a)))); [vm_compute; reflexivity|done].
Qed.

Lemma dec_bytes_ok a : byte_ok a -> bytes_ok (dec a) /\ (1 <= length (dec a))%nat.
Proof.
  intros Ha. destruct (dec_spec a) as (_ & [Hne _] & _ & Hd & _); [unfold byte_ok in Ha; lia|].
  split; [|destruct (dec a); [done|cbn; lia]].
  apply Forall_forall. intros c Hc%list_elem_of_In. rewrite forallb_forall in Hd. apply Hd in Hc.
  unfold is_digit, byte_ok in *. tests.
Qed.

Lemma host_order a b c d :
  byte_ok a -> byte_ok b -> byte_ok c -> byte_ok d ->
  let h := ntohl (of_octets a b c d) in
  [to_u8 (Z.land (Z.shiftr h 24) 0xff); to_u8 (Z.land (Z.shiftr h 16) 0xff)] ++ stored_bytes h = [a; b; c; d].
Proof.
  intros Ha Hb Hc Hd h. unfold byte_ok in *.
  assert (Eh : h = ((a * 256 + b) * 256 + c) * 256 + d).
  { subst h. unfold ntohl. rewrite htonl_sum. unfold of_octets. Z.div_mod_to_equations; lia. }
  clearbody h. unfold stored_bytes. rewrite !land_ff, !Z.shiftr_div_pow2 by lia. subst h. cbn [app].
  unfold to_u8. repeat f_equal; Z.div_mod_to_equations; lia.
Qed.

Lemma inet6_dotted pre post junk a b c d rest n :
  byte_ok a -> byte_ok b -> byte_ok c -> byte_ok d ->
  Z.of_nat (length junk) = 2 * n -> 3 <= n <= 8 ->
  inet6_loop (dotted a b c d ++ rest) (length (dotted a b c d))
      (mk_inet6 (pre ++ post ++ junk) (length (pre ++ post)) (Some (length pre))
         (Some (dotted a b c d ++ rest)) (S (length (dotted a b c d))) 0 0 n)
    = if of_octets a b c d =? INADDR_NONE then Ok (NGX_ERROR, pre ++ post ++ junk)
      else Ok (NGX_OK, pre ++ replicate (Z.to_nat (2 * (n - 2))) 0 ++ post ++ [a; b; c; d]).
Proof.
  intros Ha Hb Hc Hd Hj Hn.
  destruct (hexes_of_dec a Ha) as [v Hv]. destruct (dec_bytes_ok a Ha) as [Hba H1].
  pose proof (dec_octet_length a Ha) as H3.
  set (tl := "."%ch :: dec b ++ "."%ch :: dec c ++ "."%ch :: dec d).
  assert (Et : dotted a b c d = dec a ++ tl) by done.
  rewrite Et at 1 2. rewrite <- app_assoc, length_app.
  rewrite (inet6_digits _ v) by (done || lia). subst tl. cbn [app length inet6_loop].
  change ("."%ch =? ":"%ch) with false. change ("."%ch =? "."%ch) with true. cbn iota.
  cbn [i6_nibbles]. rewrite (proj2 (Z.eqb_neq _ _)) by lia. cbn [andb negb].
  unfold inet6_dot. rewrite (proj2 (Z.ltb_ge n 2)) by lia.
  rewrite Nat.sub_succ, Nat.sub_0_r, inet_addr_dotted by done. cbn [mbind outcome_bind].
  destruct (of_octets a b c d =? INADDR_NONE); [done|].
  destruct (junk_split junk (length junk - 2)) as (x & y & junk1 & -> & Hj1); [lia|]. cbn [length] in *.
  rewrite (app_assoc pre post), put_word_app by done. cbn [mbind outcome_bind].
  rewrite <- (app_assoc pre post), (app_assoc post).
  rewrite finish_run by (rewrite ?length_app in *; cbn [length] in *; lia).
  rewrite <- app_assoc, host_order by done.
  by replace (n - 1 - 1) with (n - 2) by lia.
Qed.

(** * Printing IPv6 *)

(** ** The run of zeros: a function of the pattern of zero groups *)

Fixpoint scan_bits (zs : list bool) (i zero last max n : Z) : Z * Z :=
  match zs with
  | [] => if max <? n then (last, n) else (zero, max)
  | true :: zs' => scan_bits zs' (i + 2) zero (if n =? 0 then i else last) max (n + 1)
  | false :: zs' =>
      if max <? n then scan_bits zs' (i + 2) last last n 0 else scan_bits zs' (i + 2) zero last max 0
  end.

Lemma at_words_hi ws j w : ws !! j = Some w -> at_ (words_bytes ws) (2 * Z.of_nat j) = Ok (w / 256).
Proof.
  intros Hw. apply at_lookup; [lia|]. replace (Z.to_nat (2 * Z.of_nat j)) with (2 * j)%nat by lia.
  rewrite <- (take_drop_middle _ _ _ Hw), words_bytes_app.
  rewrite lookup_app_r; rewrite words_bytes_length, length_take_le by (apply lookup_lt_Some in Hw; lia); [|lia].
  by rewrite Nat.sub_diag.
Qed.

Lemma at_words_lo ws j w : ws !! j = Some w -> at_ (words_bytes ws) (2 * Z.of_nat j + 1) = Ok (w mod 256).
Proof.
  intros Hw. apply at_lookup; [lia|]. replace (Z.to_nat (2 * Z.of_nat j + 1)) with (S (2 * j)) by lia.
  rewrite <- (take_drop_middle _ _ _ Hw), words_bytes_app.
  rewrite lookup_app_r; rewrite words_bytes_length, length_take_le by (apply lookup_lt_Some in Hw; lia); [|lia].
  by replace (S (2 * j) - 2 * j)%nat with 1%nat by lia.
Qed.

Lemma ntop_scan_bits k ws j zero last max n :
  Forall group_ok ws -> (j + k = length ws)%nat ->
  ntop_scan k (words_bytes ws) (2 * Z.of_nat j) zero last max n
    = Ok (scan_bits (map (fun w => w =? 0) (drop j ws)) (2 * Z.of_nat j) zero last max n).
Proof.
  intros Hws. revert j zero last max n. induction k as [|k IH]; intros j zero last max n Hk.
  - rewrite drop_ge by lia. cbn. by destruct (max <? n).
  - destruct (lookup_lt_is_Some_2 ws j) as [w Hw]; [lia|]. rewrite (drop_S ws w j Hw).
    pose proof (Forall_lookup_1 _ _ _ _ Hws Hw) as Hg. unfold group_ok in Hg.
    cbn [ntop_scan map scan_bits]. rewrite (at_words_hi _ _ _ Hw). cbn [mbind outcome_bind].
    replace (2 * Z.of_nat j + 2) with (2 * Z.of_nat (S j)) by lia.
    destruct (Z.eqb_spec (w / 256) 0) as [Eh|Eh]; cbn [negb].
    + rewrite (at_words_lo _ _ _ Hw). cbn [mbind outcome_bind].
      destruct (Z.eqb_spec (w mod 256) 0) as [El|El]; cbn [negb].
      * rewrite IH by lia. rewrite (proj2 (Z.eqb_eq w 0)); [done|]. Z.div_mod_to_equations; lia.
      * rewrite (proj2 (Z.eqb_neq w 0)) by (Z.div_mod_to_equations; lia).
        rewrite !IH by lia. by destruct (max <? n).
    + cbn [mbind outcome_bind]. rewrite (proj2 (Z.eqb_neq w 0)) by (Z.div_mod_to_equations; lia).
      rewrite !IH by lia. by destruct (max <? n).
Qed.

(** The longest run of at least two zero groups, the first of the longest. *)
Record longest_run (zs : list bool) (z m : nat) : Prop := {
  run_long : (2 <= m)%nat;
  run_inside : (z + m <= length zs)%nat;
  run_zeros : take m (drop z zs) = replicate m true;
  run_longest : forall z' m', (z' + m' <= length zs)%nat ->
    take m' (drop z' zs) = replicate m' true -> (m' < m \/ m' = m /\ z <= z')%nat
}.

Definition no_run (zs : list bool) : Prop :=
  forall z m, (z + m <= length zs)%nat -> take m (drop z zs) = replicate m true -> (m < 2)%nat.

(** The same, by computation over all the positions. *)
Definition run_b (zs : list bool) (z m : nat) : bool :=
  bool_decide (take m (drop z zs) = replicate m true).
Definition scan_right (zs : list bool) : bool :=
  let '(zero, max) := scan_bits zs 0 no_index no_index 1 0 in
  let runs := list_prod (seq 0 9) (seq 0 9) in
  if zero =? no_index then
    forallb (fun '(z', m') => implb ((z' + m' <=? 8)%nat && run_b zs z' m') (m' <? 2)%nat) runs
  else
    let z := Z.to_nat (zero / 2) in
    let m := Z.to_nat max in
    (zero =? 2 * Z.of_nat z) && (max =? Z.of_nat m) && (2 <=? m)%nat && (z + m <=? 8)%nat && run_b zs z m &&
    forallb (fun '(z', m') => implb ((z' + m' <=? 8)%nat && run_b zs z' m')
      ((m' <? m)%nat || (m' =? m)%nat && (z <=? z')%nat)) runs.

Fixpoint patterns (n : nat) : list (list bool) :=
  match n with
  | O => [[]]
  | S n' => map (cons true) (patterns n') ++ map (cons false) (patterns n')
  end.

Lemma patterns_all n zs : length zs = n -> In zs (patterns n).
Proof.
  revert zs. induction n as [|n IH]; intros [|b zs] H; try discriminate; [by left|].
  cbn. apply in_or_app. injection H as H. destruct b; [left|right]; by apply in_map, IH.
Qed.

Lemma scan_right_all zs : length zs = 8%nat -> scan_right zs = true.
Proof.
  intros H%patterns_all. revert zs H. apply forallb_forall. vm_compute. reflexivity.
Qed.

Lemma scan_bits_run zs : length zs = 8%nat ->
  (exists z m, scan_bits zs 0 no_index no_index 1 0 = (2 * Z.of_nat z, Z.of_nat m) /\ longest_run zs z m) \/
  (exists m, scan_bits zs 0 no_index no_index 1 0 = (no_index, m) /\ no_run zs).
Proof.
  intros Hl. pose proof (scan_right_all zs Hl) as H. unfold scan_right in H.
  assert (Hall : forall (Q : nat * nat -> bool), forallb Q (list_prod (seq 0 9) (seq 0 9)) = true ->
    forall z m, (z + m <= 8)%nat -> Q (z, m) = true).
  { intros Q HQ z m Hzm. rewrite forallb_forall in HQ. apply HQ, in_prod; apply in_seq; lia. }
  assert (Hrun : forall z m, run_b zs z m = true <-> take m (drop z zs) = replicate m true)
    by (intros; apply bool_decide_eq_true).
  destruct (scan_bits zs 0 no_index no_index 1 0) as [zero max].
  destruct (Z.eqb_spec zero no_index) as [->|Hz].
  - right. exists max. split; [done|]. intros z m Hzm Hr%Hrun.
    specialize (Hall _ H z m ltac:(lia)). cbn in Hall.
    rewrite (proj2 (Nat.leb_le (z + m) 8)), Hr in Hall by lia.
    apply Nat.leb_le in Hall. lia.
  - left. set (z := Z.to_nat (zero / 2)) in *. set (m := Z.to_nat max) in *.
    repeat (apply andb_prop in H as [H ?]). rewrite ?Z.eqb_eq, ?Nat.leb_le, ?Hrun in *.
    exists z, m. split; [congruence|]. constructor; [done|lia|done|].
    intros z' m' Hzm Hr%Hrun. specialize (Hall _ ltac:(eassumption) z' m' ltac:(lia)). cbn in Hall.
    rewrite (proj2 (Nat.leb_le (z' + m') 8)), Hr in Hall by lia. cbn [andb implb] in Hall.
    apply orb_prop in Hall as [Hlt|[He%Nat.eqb_eq Hle%Nat.leb_le]%andb_prop]; [|lia].
    destruct m; [done|]. apply Nat.leb_le in Hlt. lia.
Qed.

(** ** The text *)

Lemma sprintf_xd w : group_ok w -> ngx_sprintf "%xd" [V32 w] = Ok (hexl w).
Proof.
  unfold group_ok. intros H. unfold ngx_sprintf, ngx_vslprintf. change (format "%xd") with ["%"%ch; "x"%ch; "d"%ch; 0].
  cbn [length]. rewrite loop_xd by (done || lia). rewrite loop_end. cbn [mbind outcome_bind].
  by rewrite app_nil_r.
Qed.

Lemma word_value w : group_ok w -> w / 256 * 256 + w mod 256 = w.
Proof. unfold group_ok. intros H. Z.div_mod_to_equations; lia. Qed.

(** One group printed. *)
Lemma ntop_print_group fuel ws j w n zero max :
  Forall group_ok ws -> ws !! j = Some w -> 2 * Z.of_nat j < n -> 2 * Z.of_nat j <> zero ->
  ntop_print (S fuel) (words_bytes ws) (2 * Z.of_nat j) n zero max
    = (rest ← ntop_print fuel (words_bytes ws) (2 * Z.of_nat (S j)) n zero max;
       Ok (hexl w ++ (if (j <? 7)%nat then [":"%ch] else []) ++ rest)).
Proof.
  intros Hws Hw Hn Hz. pose proof (Forall_lookup_1 _ _ _ _ Hws Hw) as Hg. cbn [ntop_print].
  rewrite (proj2 (Z.ltb_lt _ _)), (proj2 (Z.eqb_neq _ _)) by lia.
  rewrite (at_words_hi _ _ _ Hw). cbn [mbind outcome_bind].
  rewrite (at_words_lo _ _ _ Hw). cbn [mbind outcome_bind].
  rewrite word_value, sprintf_xd by done. cbn [mbind outcome_bind].
  replace (2 * Z.of_nat j + 2) with (2 * Z.of_nat (S j)) by lia.
  replace (2 * Z.of_nat j <? 14) with (j <? 7)%nat; [done|].
  destruct (Nat.ltb_spec j 7), (Z.ltb_spec (2 * Z.of_nat j) 14); lia || done.
Qed.

Lemma ntop_print_rest fuel ws j zero max :
  Forall group_ok ws -> length ws = 8%nat -> (9 <= j + fuel)%nat -> (j <= 8)%nat ->
  (forall i, (j <= i <= 8)%nat -> 2 * Z.of_nat i <> zero) ->
  ntop_print fuel (words_bytes ws) (2 * Z.of_nat j) 16 zero max = Ok (join (drop j ws)).
Proof.
  intros Hws Hl. revert j. induction fuel as [|fuel IH]; intros j Hf Hj Hz; [lia|].
  destruct (Nat.eq_dec j 8) as [->|Hne].
  - by rewrite drop_ge by lia.
  - destruct (lookup_lt_is_Some_2 ws j) as [w Hw]; [lia|].
    rewrite (ntop_print_group _ _ _ w) by (try done; try lia; apply Hz; lia).
    rewrite IH; [|lia|lia|intros i Hi; apply Hz; lia]. cbn [mbind outcome_bind].
    rewrite (drop_S ws w j Hw). f_equal. destruct (drop (S j) ws) as [|w' rest] eqn:E.
    + apply (f_equal length) in E. rewrite length_drop in E. cbn in E.
      destruct (Nat.ltb_spec j 7); [lia|]. cbn. by rewrite app_nil_r.
    + apply (f_equal length) in E. rewrite length_drop in E. cbn in E.
      destruct (Nat.ltb_spec j 7); [|lia]. change (join (w :: w' :: rest)) with ((hexl w ++ [":"%ch]) ++ join (w' :: rest)).
      by rewrite <- app_assoc.
Qed.

(** Up to and with the colon of the run. *)
Lemma ntop_print_head k fuel ws j n max :
  Forall group_ok ws -> length ws = 8%nat -> (j + k < 8)%nat -> 2 * Z.of_nat (j + k) < n ->
  ntop_print (k + S fuel) (words_bytes ws) (2 * Z.of_nat j) n (2 * Z.of_nat (j + k)) max
    = (rest ← ntop_print fuel (words_bytes ws) (2 * Z.of_nat (j + k) + (max - 1) * 2 + 2) n (2 * Z.of_nat (j + k)) max;
       Ok (groups (take k (drop j ws)) ++ ":"%ch :: rest)).
Proof.
  intros Hws Hl. revert j. induction k as [|k IH]; intros j Hj Hn.
  - rewrite Nat.add_0_r in *. cbn [Nat.add ntop_print]. rewrite (proj2 (Z.ltb_lt _ _)), Z.eqb_refl by lia. done.
  - destruct (lookup_lt_is_Some_2 ws j) as [w Hw]; [lia|].
    cbn [Nat.add]. rewrite (ntop_print_group _ _ _ w) by (done || lia).
    replace (j + S k)%nat with (S j + k)%nat by lia. rewrite IH by lia.
    rewrite (drop_S ws w j Hw). cbn [take firstn].
    destruct (Nat.ltb_spec j 7); [|lia].
    destruct (ntop_print fuel _ _ _ _ _); cbn [mbind outcome_bind]; [|done..].
    change (groups (w :: take k (drop (S j) ws))) with ((hexl w ++ [":"%ch]) ++ groups (take k (drop (S j) ws))).
    by rewrite <- !app_assoc.
Qed.

(** The two addresses whose text the parser does not take: the dotted part is
    255.255.255.255, which ngx_inet_addr cannot tell from an error. *)
Definition unreadable (ws : list Z) : bool :=
  bool_decide (ws = replicate 6 0 ++ [65535; 65535]) || bool_decide (ws = replicate 5 0 ++ [65535; 65535; 65535]).

(** The three shapes of the text of an address. *)
Inductive text_form (ws : list Z) : list Z -> Prop :=
| form_plain : no_run (map (fun w => w =? 0) ws) -> text_form ws (join ws)
| form_run z m :
    longest_run (map (fun w => w =? 0) ws) z m -> unreadable ws = false ->
    text_form ws ((if (z =? 0)%nat then [":"%ch] else groups (take z ws)) ++ ":"%ch :: join (drop (z + m) ws))
| form_mixed pre w6 w7 :
    pre = [] \/ pre = [65535] ->
    ws = replicate (6 - length pre) 0 ++ pre ++ [w6; w7] ->
    text_form ws (":"%ch :: ":"%ch :: groups pre ++ dotted (w6 / 256) (w6 mod 256) (w7 / 256) (w7 mod 256)).

Lemma run_words ws z m :
  take m (drop z (map (fun w => w =? 0) ws)) = replicate m true -> (z + m <= length ws)%nat ->
  ws = take z ws ++ replicate m 0 ++ drop (z + m) ws.
Proof.
  intros Hr Hl. rewrite <- (take_drop z ws) at 1. f_equal.
  rewrite <- (take_drop m (drop z ws)) at 1. rewrite drop_drop. f_equal.
  change (map (fun w => w =? 0)) with (fmap (M := list) (fun w => w =? 0)) in Hr.
  rewrite <- fmap_drop, <- fmap_take in Hr.
  assert (H : forall l m, (fun w => w =? 0) <$> l = replicate m true -> l = replicate m 0).
  { clear. intros l. induction l as [|w l IH]; intros [|m]; cbn; try done.
    intros [= Hw%Z.eqb_eq H]. rewrite Hw. f_equal. by apply IH. }
  by apply H.
Qed.

(** The test for the mixed notation. *)
Lemma ntop_mixed_ok ws m :
  Forall group_ok ws -> length ws = 8%nat ->
  exists b, ntop_mixed (words_bytes ws) m = Ok b /\
    (b = true -> m = 5 /\ ws !! 5%nat = Some 65535 \/ m = 6 \/ m = 7).
Proof.
  intros Hws Hl. unfold ntop_mixed.
  destruct (lookup_lt_is_Some_2 ws 5) as [w5 H5]; [lia|].
  destruct (lookup_lt_is_Some_2 ws 7) as [w7 H7]; [lia|].
  pose proof (Forall_lookup_1 _ _ _ _ Hws H5) as Hg. unfold group_ok in Hg.
  change 10 with (2 * Z.of_nat 5). change 11 with (2 * Z.of_nat 5 + 1).
  change 14 with (2 * Z.of_nat 7). change 15 with (2 * Z.of_nat 7 + 1).
  rewrite (at_words_hi _ _ _ H5), (at_words_lo _ _ _ H5), (at_words_hi _ _ _ H7), (at_words_lo _ _ _ H7).
  cbn [mbind outcome_bind].
  destruct (Z.eqb_spec m 5) as [->|].
  - destruct (Z.eqb_spec (w5 / 256) 0xff); [destruct (Z.eqb_spec (w5 mod 256) 0xff)|]; cbn [mbind outcome_bind];
      eexists; (split; [reflexivity|]); try discriminate.
    intros _. left. split; [done|]. rewrite H5. f_equal. Z.div_mod_to_equations; lia.
  - cbn [mbind outcome_bind]. destruct (Z.eqb_spec m 6); [eexists; split; [reflexivity|]; auto|].
    destruct (Z.eqb_spec m 7); [|eexists; split; [reflexivity|]; done].
    destruct (negb _); eexists; (split; [reflexivity|]); auto.
Qed.

Lemma sprintf_dotted a b c d :
  byte_ok a -> byte_ok b -> byte_ok c -> byte_ok d ->
  ngx_sprintf "%ud.%ud.%ud.%ud" [V32 a; V32 b; V32 c; V32 d] = Ok (dotted a b c d).
Proof.
  intros Ha Hb Hc Hd. unfold ngx_sprintf, ngx_vslprintf, format.
  change (S (length _)) with (7 + 10)%nat. rewrite vslprintf_dotted by done.
  rewrite loop_end. cbn [mbind outcome_bind]. by rewrite app_nil_r.
Qed.

Lemma group_bytes w : group_ok w -> byte_ok (w / 256) /\ byte_ok (w mod 256).
Proof. unfold group_ok, byte_ok. intros H. Z.div_mod_to_equations; lia. Qed.

Lemma mixed_words ws m :
  length ws = 8%nat -> longest_run (map (fun w => w =? 0) ws) 0 m ->
  (m = 5%nat /\ ws !! 5%nat = Some 65535 \/ m = 6%nat \/ m = 7%nat) ->
  exists pre w6 w7, (pre = [] /\ (m = 6%nat \/ m = 7%nat) \/ pre = [65535] /\ m = 5%nat) /\
    ws = replicate (6 - length pre) 0 ++ pre ++ [w6; w7].
Proof.
  intros Hl [_ Hin Hr _] Hm. rewrite length_map in Hin. pose proof (run_words ws 0 m Hr Hin) as E.
  destruct ws as [|a [|b [|c [|d [|e [|f [|g [|h [|]]]]]]]]]; try discriminate Hl.
  destruct Hm as [[-> H5]|[->| ->]]; cbn in E; injection E as; subst.
  - injection H5 as ->. exists [65535], g, h. split; [by right|done].
  - exists [], g, h. split; [by left; auto|done].
  - exists [], 0, h. split; [by left; auto|done].
Qed.

(** The mixed notation, once it is chosen. *)
Lemma ntop_mixed_text pre w6 w7 ws m :
  Forall group_ok ws -> ws = replicate (6 - length pre) 0 ++ pre ++ [w6; w7] ->
  (pre = [] /\ (m = 6%nat \/ m = 7%nat) \/ pre = [65535] /\ m = 5%nat) ->
  (groups1 ← ntop_print 9 (words_bytes ws) 0 12 0 (Z.of_nat m);
   tl ← (b12 ← at_ (words_bytes ws) 12; b13 ← at_ (words_bytes ws) 13;
         b14 ← at_ (words_bytes ws) 14; b15 ← at_ (words_bytes ws) 15;
         ngx_sprintf "%ud.%ud.%ud.%ud" [V32 b12; V32 b13; V32 b14; V32 b15]);
   Ok ([":"%ch] ++ groups1 ++ tl))
  = Ok (":"%ch :: ":"%ch :: groups pre ++ dotted (w6 / 256) (w6 mod 256) (w7 / 256) (w7 mod 256)).
Proof.
  intros Hws Ews Hpre.
  assert (H6 : ws !! 6%nat = Some w6) by (subst ws; by destruct Hpre as [[-> _]|[-> _]]).
  assert (H7 : ws !! 7%nat = Some w7) by (subst ws; by destruct Hpre as [[-> _]|[-> _]]).
  assert (Hl : length ws = 8%nat) by (subst ws; by destruct Hpre as [[-> _]|[-> _]]).
  assert (Hh : ntop_print 9 (words_bytes ws) 0 12 0 (Z.of_nat m) = Ok (":"%ch :: groups pre)).
  { pose proof (ntop_print_head 0 8 ws 0 12 (Z.of_nat m) Hws Hl) as E. cbn [Nat.add] in E.
    change (2 * Z.of_nat 0) with 0 in E. rewrite E by lia. clear E. destruct Hpre as [[-> Hm]|[-> ->]].
    - cbn [ntop_print]. by destruct Hm as [->| ->].
    - assert (H5 : ws !! 5%nat = Some 65535) by (subst ws; done).
      change (0 + (Z.of_nat 5 - 1) * 2 + 2) with (2 * Z.of_nat 5).
      rewrite (ntop_print_group _ _ _ _ _ _ _ Hws H5) by done. reflexivity. }
  rewrite Hh. cbn [mbind outcome_bind].
  change 12 with (2 * Z.of_nat 6). change 13 with (2 * Z.of_nat 6 + 1).
  change 14 with (2 * Z.of_nat 7). change 15 with (2 * Z.of_nat 7 + 1).
  rewrite (at_words_hi _ _ _ H6), (at_words_lo _ _ _ H6), (at_words_hi _ _ _ H7), (at_words_lo _ _ _ H7).
  cbn [mbind outcome_bind].
  destruct (group_bytes w6 (Forall_lookup_1 _ _ _ _ Hws H6)).
  destruct (group_bytes w7 (Forall_lookup_1 _ _ _ _ Hws H7)).
  by rewrite sprintf_dotted.
Qed.

Lemma ntop_print_run ws z m :
  Forall group_ok ws -> length ws = 8%nat -> (2 <= m)%nat -> (z + m <= 8)%nat ->
  ntop_print 9 (words_bytes ws) 0 16 (2 * Z.of_nat z) (Z.of_nat m)
    = Ok (groups (take z ws) ++ ":"%ch :: join (drop (z + m) ws)).
Proof.
  intros Hws Hl H2 Hin. pose proof (ntop_print_head z (8 - z) ws 0 16 (Z.of_nat m) Hws Hl) as E.
  cbn [Nat.add] in E. change (2 * Z.of_nat 0) with 0 in E. rewrite drop_0 in E.
  replace 9%nat with (z + S (8 - z))%nat by lia. rewrite E by lia. clear E.
  replace (2 * Z.of_nat z + (Z.of_nat m - 1) * 2 + 2) with (2 * Z.of_nat (z + m)) by lia.
  rewrite ntop_print_rest by (done || lia). done.
Qed.

Lemma unreadable_mixed ws :
  unreadable ws = true -> exists pre, (pre = [] \/ pre = [65535]) /\
    ws = replicate (6 - length pre) 0 ++ pre ++ [65535; 65535].
Proof.
  intros [H%bool_decide_eq_true|H%bool_decide_eq_true]%orb_prop; [exists []|exists [65535]]; auto.
Qed.

Lemma ntop_text ws len :
  Forall group_ok ws -> length ws = 8%nat -> (NGX_INET6_ADDRSTRLEN <= len)%nat ->
  exists text, ngx_inet6_ntop (words_bytes ws) len = Ok text /\ text_form ws text.
Proof.
  intros Hws Hl Hlen. unfold ngx_inet6_ntop. rewrite (proj2 (Nat.ltb_ge _ _)) by done.
  destruct (unreadable ws) eqn:Hu.
  { apply unreadable_mixed in Hu as (pre & Hpre & ->).
    exists (":"%ch :: ":"%ch :: groups pre ++ dotted 255 255 255 255). split.
    - destruct Hpre as [-> | ->]; vm_compute; reflexivity.
    - by apply (form_mixed _ pre 65535 65535). }
  rewrite (ntop_scan_bits 8 ws 0) by done. cbn [mbind outcome_bind]. rewrite drop_0.
  change (2 * Z.of_nat 0) with 0.
  destruct (scan_bits_run (map (fun w => w =? 0) ws)) as [(z & m & -> & Hrun)|(m & -> & Hno)];
    [by rewrite length_map|..]; cbn [mbind outcome_bind].
  - pose proof (run_inside _ _ _ Hrun) as Hin. pose proof (run_long _ _ _ Hrun) as H2. rewrite length_map, Hl in Hin.
    destruct (ntop_mixed_ok ws (Z.of_nat m) Hws Hl) as (b & Eb & Hb).
    pose proof (ntop_print_run ws z m Hws Hl H2 Hin) as Er.
    pose proof (form_run ws z m Hrun Hu) as Hf.
    destruct (Z.eqb_spec (2 * Z.of_nat z) 0) as [Ez|Ez].
    + assert (z = 0%nat) by lia. subst z. rewrite Eb. cbn [mbind outcome_bind].
      change (2 * Z.of_nat 0) with 0 in *. destruct b.
      * change (12 =? 12) with true. cbn iota.
        destruct (mixed_words ws m Hl Hrun) as (pre & w6 & w7 & Hpre & Ews).
        { destruct (Hb eq_refl) as [[? ?]|[?|?]]; [left; split; [lia|done]|right..]; lia. }
        eexists. split; [by apply ntop_mixed_text|]. constructor; [|done]. by destruct Hpre as [[-> _]|[-> _]]; auto.
      * change (16 =? 12) with false. cbn iota. rewrite Er. cbn [mbind outcome_bind].
        eexists. split; [done|]. by rewrite app_nil_r.
    + cbn [mbind outcome_bind]. change (16 =? 12) with false. cbn iota. rewrite Er. cbn [mbind outcome_bind].
      eexists. split; [done|]. rewrite app_nil_r.
      rewrite (proj2 (Nat.eqb_neq z 0)) in Hf by lia. exact Hf.
  - change (no_index =? 0) with false. cbn [mbind outcome_bind]. change (16 =? 12) with false. cbn iota.
    pose proof (ntop_print_rest 9 ws 0 no_index m Hws Hl) as E. change (2 * Z.of_nat 0) with 0 in E.
    rewrite drop_0 in E. rewrite E by (unfold no_index; lia). cbn [mbind outcome_bind].
    eexists. split; [done|]. rewrite app_nil_r. by apply form_plain.
Qed.

(** ** What is read back *)

Lemma inet6_double_colon p len mem a dg l n :
  inet6_loop (":"%ch :: p) (S len) (mk_inet6 mem a None dg l 0 0 n)
    = inet6_loop p len (mk_inet6 mem a (Some a) (Some p) (S len) 0 0 n).
Proof. reflexivity. Qed.

Lemma inet6_skip_colon p len mem :
  ngx_inet6_addr (":"%ch :: p) (S len) mem = inet6_loop p len (inet6_init mem).
Proof. reflexivity. Qed.

(** A text that starts with a group is read from its first character on. *)
Lemma inet6_no_skip w p len mem :
  group_ok w -> ngx_inet6_addr (hexl w ++ p) (length (hexl w) + len) mem
    = inet6_loop (hexl w ++ p) (length (hexl w) + len) (inet6_init mem).
Proof.
  intros H. destruct (hexl_group w H) as [Hl (_ & _ & Hb & Hv)].
  destruct (hexl w) as [|c ds]; [cbn in Hl; lia|]. apply bytes_ok_cons in Hb as [Hc _].
  cbn [hex_from] in Hv. destruct (hex_digit c) as [d|] eqn:Hd; [|done].
  destruct (hex_digit_seen c d Hc Hd) as (Ec & _). unfold ngx_inet6_addr. cbn [length app Nat.add].
  cbn [deref lookup list_lookup mbind outcome_bind]. by rewrite (proj2 (Z.eqb_neq _ _) Ec).
Qed.

Lemma inet6_groups_start ws p len mem :
  Forall group_ok ws -> (1 <= length ws <= 7)%nat -> length mem = 16%nat ->
  exists junk', Z.of_nat (length junk') = 2 * (8 - Z.of_nat (length ws)) /\
    ngx_inet6_addr (groups ws ++ p) (length (groups ws) + len) mem
    = inet6_loop p len (mk_inet6 (words_bytes ws ++ junk') (length (words_bytes ws)) None
        (Some p) (S len) 0 0 (8 - Z.of_nat (length ws))).
Proof.
  intros Hws Hl Hm. destruct ws as [|w ws]; [cbn in Hl; lia|].
  destruct (inet6_groups (w :: ws) p len [] mem None None 0 8 Hws) as (junk' & Hj' & E); [lia..|].
  exists junk'. split; [lia|]. change (inet6_init mem) with (mk_inet6 ([] ++ mem) (length (@nil Z)) None None 0 0 0 8) in *.
  cbn [app] in E. rewrite <- E. clear E.
  apply Forall_cons_1 in Hws as [Hw _].
  change (groups (w :: ws)) with ((hexl w ++ [":"%ch]) ++ groups ws).
  rewrite <- !app_assoc, !length_app, <- !Nat.add_assoc. by apply inet6_no_skip.
Qed.

Lemma no_run_readable ws :
  length ws = 8%nat -> no_run (map (fun w => w =? 0) ws) -> unreadable ws = false.
Proof.
  intros Hl Hno. destruct (unreadable ws) eqn:Hu; [|done]. exfalso.
  apply unreadable_mixed in Hu as (pre & Hpre & ->).
  assert ((5 < 2)%nat); [|lia]. by apply (Hno 0%nat 5%nat); destruct Hpre as [-> | ->]; cbn; try lia.
Qed.

Lemma read_plain ws rest mem :
  Forall group_ok ws -> length ws = 8%nat -> length mem = 16%nat ->
  ngx_inet6_addr (join ws ++ rest) (length (join ws)) mem = Ok (NGX_OK, words_bytes ws).
Proof.
  intros Hws Hl Hm. destruct ws as [|w ws _] using rev_ind; [discriminate|].
  apply Forall_app in Hws as [Hws Hw]. apply Forall_cons_1 in Hw as [Hw _].
  rewrite length_app in Hl. cbn [length] in Hl. rewrite join_snoc, <- app_assoc, length_app.
  destruct (inet6_groups_start ws (hexl w ++ rest) (length (hexl w)) mem Hws) as (junk & Hj & ->); [lia|done|].
  rewrite <- (Nat.add_0_r (length (hexl w))).
  edestruct (inet6_group w rest 0) as (nib & Hnib & ->); [done|]. cbn [inet6_loop inet6_finish].
  rewrite (proj2 (Z.eqb_neq nib 0)) by lia. cbn [andb].
  destruct (junk_split junk 0) as (x & y & junk' & -> & Hj'); [lia|].
  destruct junk'; [|discriminate]. rewrite put_word_app by done. cbn [mbind outcome_bind].
  replace (8 - Z.of_nat (length ws)) with 1 by lia. change (to_u64 (1 - 1) =? 0) with true. cbn [negb].
  fold (stored_bytes w). by rewrite stored_group, app_nil_r, words_bytes_app by done.
Qed.

Lemma words_zeros m : words_bytes (replicate m 0) = replicate (2 * m) 0.
Proof.
  induction m as [|m IH]; [done|]. replace (2 * S m)%nat with (S (S (2 * m))) by lia. cbn [replicate].
  by rewrite <- IH.
Qed.

Lemma read_run ws z m rest mem :
  Forall group_ok ws -> length ws = 8%nat -> length mem = 16%nat ->
  longest_run (map (fun w => w =? 0) ws) z m ->
  let text := (if (z =? 0)%nat then [":"%ch] else groups (take z ws)) ++ ":"%ch :: join (drop (z + m) ws) in
  ngx_inet6_addr (text ++ rest) (length text) mem = Ok (NGX_OK, words_bytes ws).
Proof.
  intros Hws Hl Hm [H2 Hin Hr _] text. rewrite length_map, Hl in Hin.
  assert (Ews : words_bytes ws = words_bytes (take z ws) ++ replicate (2 * m) 0 ++ words_bytes (drop (z + m) ws)).
  { rewrite (run_words ws z m Hr) at 1 by lia. by rewrite !words_bytes_app, words_zeros. }
  assert (Hd : Forall group_ok (drop (z + m) ws)) by by apply Forall_drop.
  assert (Hld : length (drop (z + m) ws) = (8 - (z + m))%nat) by (rewrite length_drop; lia).
  rewrite Ews. subst text. destruct (Nat.eqb_spec z 0) as [->|Hz].
  - cbn [app length]. rewrite inet6_skip_colon. unfold inet6_init. rewrite inet6_double_colon.
    change (mk_inet6 mem 0 (Some 0%nat) ?d ?l 0 0 8)
      with (mk_inet6 ([] ++ mem) (length (@nil Z)) (Some (length (@nil Z))) d l 0 0 8).
    rewrite inet6_join_run by (done || lia). cbn [app].
    by replace (Z.to_nat (2 * (8 - Z.of_nat (length (drop (0 + m) ws))))) with (2 * m)%nat by (rewrite Hld; lia).
  - assert (Hlt : length (take z ws) = z) by (rewrite length_take; lia).
    rewrite <- app_assoc, length_app. cbn [length app].
    destruct (inet6_groups_start (take z ws) (":"%ch :: join (drop (z + m) ws) ++ rest)
      (S (length (join (drop (z + m) ws)))) mem) as (junk & Hj & ->); [by apply Forall_take|lia|done|].
    rewrite Hlt in *. rewrite inet6_double_colon. rewrite inet6_join_run by (done || lia).
    by replace (Z.to_nat (2 * (8 - Z.of_nat z - Z.of_nat (length (drop (z + m) ws))))) with (2 * m)%nat
      by (rewrite Hld; lia).
Qed.

Lemma read_mixed pre w6 w7 rest mem :
  group_ok w6 -> group_ok w7 -> pre = [] \/ pre = [65535] -> length mem = 16%nat ->
  let text := ":"%ch :: ":"%ch :: groups pre ++ dotted (w6 / 256) (w6 mod 256) (w7 / 256) (w7 mod 256) in
  exists mem', ngx_inet6_addr (text ++ rest) (length text) mem
      = Ok (if (w6 =? 65535) && (w7 =? 65535) then NGX_ERROR else NGX_OK, mem') /\
    ((w6 =? 65535) && (w7 =? 65535) = false ->
     mem' = words_bytes (replicate (6 - length pre) 0 ++ pre ++ [w6; w7])).
Proof.
  intros H6 H7 Hpre Hm text. subst text. cbn [app length].
  destruct (group_bytes w6 H6) as [Ha Hb]. destruct (group_bytes w7 H7) as [Hc Hd].
  assert (Enone : (of_octets (w6 / 256) (w6 mod 256) (w7 / 256) (w7 mod 256) =? INADDR_NONE)
    = (w6 =? 65535) && (w7 =? 65535)).
  { unfold of_octets, INADDR_NONE, group_ok in *.
    destruct (Z.eqb_spec w6 65535), (Z.eqb_spec w7 65535); cbn [andb];
      [apply Z.eqb_eq|apply Z.eqb_neq..]; Z.div_mod_to_equations; lia. }
  set (d := dotted _ _ _ _) in *.
  assert (Hws : Forall group_ok pre) by (destruct Hpre as [-> | ->]; repeat constructor; unfold group_ok; lia).
  assert (Hlp : (length pre <= 1)%nat) by (destruct Hpre as [-> | ->]; cbn; lia).
  rewrite inet6_skip_colon. unfold inet6_init. rewrite inet6_double_colon.
  rewrite length_app, <- app_assoc.
  destruct (inet6_groups pre (d ++ rest) (length d) [] mem (Some 0%nat)
    (Some (groups pre ++ d ++ rest)) (S (length (groups pre) + length d)) 8 Hws) as (junk & Hj & E); [lia..|].
  cbn [app length] in E. rewrite E. clear E.
  assert (Est : mk_inet6 (words_bytes pre ++ junk) (length (words_bytes pre)) (Some 0%nat)
      match pre with [] => Some (groups pre ++ d ++ rest) | _ => Some (d ++ rest) end
      match pre with [] => S (length (groups pre) + length d) | _ => S (length d) end
      0 0 (8 - Z.of_nat (length pre))
    = mk_inet6 ([] ++ words_bytes pre ++ junk) (length ([] ++ words_bytes pre)) (Some (length (@nil Z)))
        (Some (d ++ rest)) (S (length d)) 0 0 (8 - Z.of_nat (length pre)))
    by (destruct Hpre as [-> | ->]; reflexivity).
  rewrite Est. clear Est. subst d. rewrite inet6_dotted by (done || lia). rewrite Enone.
  destruct (_ && _); eexists; (split; [reflexivity|]); [discriminate|intros _].
  rewrite !words_bytes_app, words_zeros. cbn [app].
  by replace (Z.to_nat (2 * (8 - Z.of_nat (length pre) - 2))) with (2 * (6 - length pre))%nat by lia.
Qed.

Lemma read_form ws text rest mem :
  Forall group_ok ws -> length ws = 8%nat -> text_form ws text -> length mem = 16%nat ->
  exists mem', ngx_inet6_addr (text ++ rest) (length text) mem
      = Ok (if unreadable ws then NGX_ERROR else NGX_OK, mem') /\
    (unreadable ws = false -> mem' = words_bytes ws).
Proof.
  intros Hws Hl Hf Hm. destruct Hf as [Hno|z m Hrun Hu|pre w6 w7 Hpre Ews].
  - rewrite (no_run_readable ws Hl Hno). eexists. split; [by apply read_plain|done].
  - rewrite Hu. eexists. split; [by apply read_run|done].
  - assert (H67 : group_ok w6 /\ group_ok w7).
    { subst ws. rewrite !Forall_app, !Forall_cons in Hws. tauto. }
    destruct H67 as [H6 H7]. assert (Eu : unreadable ws = (w6 =? 65535) && (w7 =? 65535)).
    { subst ws. destruct Hpre as [-> | ->]; unfold unreadable; cbn [length Nat.sub replicate app];
        destruct (Z.eqb_spec w6 65535) as [->|], (Z.eqb_spec w7 65535) as [->|]; cbn [andb];
        try reflexivity; apply orb_false_iff; split; apply bool_decide_eq_false; congruence. }
    rewrite Eu, Ews. by apply read_mixed.
Qed.

(** An address of 16 bytes is eight groups. *)
Lemma bytes_words a :
  bytes_ok a -> length a = 16%nat -> exists ws, a = words_bytes ws /\ Forall group_ok ws /\ length ws = 8%nat.
Proof.
  assert (G : forall k a, bytes_ok a -> length a = (2 * k)%nat ->
    exists ws, a = words_bytes ws /\ Forall group_ok ws /\ length ws = k).
  { clear a. induction k as [|k IH]; intros a Ha Hl.
    - exists []. split_and!; [|constructor|done]. destruct a; [done|discriminate].
    - destruct a as [|x [|y a]]; [discriminate..| |]; [cbn in Hl; lia|].
      apply bytes_ok_cons in Ha as [Hx Ha]. apply bytes_ok_cons in Ha as [Hy Ha].
      destruct (IH a Ha) as (ws & -> & Hws & Hk); [cbn in Hl; lia|].
      exists ((x * 256 + y) :: ws). unfold byte_ok in *.
      split_and!; [|constructor; [unfold group_ok; lia|done]|cbn; lia].
      change (words_bytes (?w :: ws)) with (word_bytes w ++ words_bytes ws). unfold word_bytes. cbn [app].
      f_equal; [|f_equal]; Z.div_mod_to_equations; lia. }
  intros Ha Hl. by apply (G 8%nat).
Qed.

Lemma groups_length ws : Forall group_ok ws -> (length (groups ws) <= 5 * length ws)%nat.
Proof.
  intros H. induction H as [|w ws Hw Hws IH]; [done|].
  change (groups (w :: ws)) with ((hexl w ++ [":"%ch]) ++ groups ws).
  rewrite !length_app. destruct (hexl_group w Hw) as [Hl _]. cbn [length]. lia.
Qed.

Lemma join_length ws : Forall group_ok ws -> (length (join ws) <= 5 * length ws)%nat.
Proof.
  intros H. destruct ws as [|w ws _] using rev_ind; [done|].
  apply Forall_app in H as [Hws Hw]. apply Forall_cons_1 in Hw as [Hw _].
  rewrite join_snoc, !length_app. destruct (hexl_group w Hw) as [Hl _].
  pose proof (groups_length ws Hws). cbn [length]. lia.
Qed.

Lemma form_length ws text :
  Forall group_ok ws -> length ws = 8%nat -> text_form ws text -> (length text <= NGX_INET6_ADDRSTRLEN)%nat.
Proof.
  unfold NGX_INET6_ADDRSTRLEN. intros Hws Hl Hf. destruct Hf as [Hno|z m Hrun Hu|pre w6 w7 Hpre Ews].
  - pose proof (join_length ws Hws). lia.
  - pose proof (run_inside _ _ _ Hrun) as Hin. pose proof (run_long _ _ _ Hrun). rewrite length_map, Hl in Hin.
    pose proof (join_length (drop (z + m) ws)) as Hj. rewrite length_drop in Hj.
    pose proof (groups_length (take z ws)) as Hg. rewrite length_take in Hg.
    rewrite length_app. cbn [length]. specialize (Hj ltac:(by apply Forall_drop)).
    specialize (Hg ltac:(by apply Forall_take)). destruct (z =? 0)%nat; cbn [length]; lia.
  - assert (H67 : group_ok w6 /\ group_ok w7).
    { subst ws. rewrite !Forall_app, !Forall_cons in Hws. tauto. }
    destruct (group_bytes w6 (proj1 H67)), (group_bytes w7 (proj2 H67)).
    cbn [length]. rewrite length_app.
    pose proof (dotted_length (w6 / 256) (w6 mod 256) (w7 / 256) (w7 mod 256)) as Hd. unfold NGX_INET_ADDRSTRLEN in Hd.
    assert (length (groups pre) <= 5)%nat by (destruct Hpre as [-> | ->]; vm_compute; lia).
    specialize (Hd ltac:(done) ltac:(done) ltac:(done) ltac:(done)). lia.
Qed.

(** The addresses ::255.255.255.255 and ::ffff:255.255.255.255. *)
Definition unreadable_addr (a : list Z) : Prop :=
  a = replicate 12 0 ++ replicate 4 255 \/ a = replicate 10 0 ++ replicate 6 255.

Lemma words_bytes_inj ws ws' :
  Forall group_ok ws -> Forall group_ok ws' -> words_bytes ws = words_bytes ws' -> ws = ws'.
Proof.
  intros H. revert ws'. induction H as [|w ws Hw Hws IH]; intros ws' H' E;
    destruct H' as [|w' ws' Hw' Hws']; try discriminate E; [done|].
  injection E as E1 E2 E3. f_equal; [|by apply IH].
  rewrite <- (word_value w Hw), <- (word_value w' Hw'). congruence.
Qed.

Lemma unreadable_words ws :
  Forall group_ok ws -> unreadable ws = true <-> unreadable_addr (words_bytes ws).
Proof.
  intros Hws. unfold unreadable, unreadable_addr. rewrite orb_true_iff, !bool_decide_eq_true.
  change (replicate 12 0 ++ replicate 4 255) with (words_bytes (replicate 6 0 ++ [65535; 65535])).
  change (replicate 10 0 ++ replicate 6 255) with (words_bytes (replicate 5 0 ++ [65535; 65535; 65535])).
  split; [intros [-> | ->]; auto|].
  intros [E|E]; [left|right]; (apply words_bytes_inj; [done| |done]);
    repeat constructor; unfold group_ok; lia.
Qed.

#[export] Instance unreadable_addr_dec a : Decision (unreadable_addr a).
Proof. unfold unreadable_addr. apply _. Defined.

(** C38. ngx_inet6_ntop prints any IPv6 address in at most 45 characters, and
    ngx_inet6_addr reads exactly that address back, or rejects it, the latter for
    exactly two addresses. *)
Theorem inet6_text_roundtrip a mem len :
  bytes_ok a -> length a = 16%nat -> length mem = 16%nat -> (NGX_INET6_ADDRSTRLEN <= len)%nat ->
  exists text mem', ngx_inet6_ntop a len = Ok text /\ (length text <= NGX_INET6_ADDRSTRLEN)%nat /\
    ngx_inet6_addr text (length text) mem
      = Ok (if decide (unreadable_addr a) then NGX_ERROR else NGX_OK, mem') /\
    (~ unreadable_addr a -> mem' = a).
Proof.
  intros Ha Hl Hm Hlen. destruct (bytes_words a Ha Hl) as (ws & -> & Hws & Hw).
  destruct (ntop_text ws len Hws Hw Hlen) as (text & Et & Hf).
  destruct (read_form ws text [] mem Hws Hw Hf Hm) as (mem' & Er & Em). rewrite app_nil_r in Er.
  exists text, mem'. split_and!; [done|by apply (form_length ws)| |].
  - rewrite Er. repeat f_equal. pose proof (unreadable_words ws Hws) as Hu.
    destruct (unreadable ws), (decide (unreadable_addr (words_bytes ws))) as [H|H]; try done;
      [by destruct H; apply Hu|by apply Hu in H].
  - intros Hn. apply Em. destruct (unreadable ws) eqn:Hu; [|done]. by apply unreadable_words in Hu.
Qed.

Lemma inet6_text_roundtrip_witness :
  exists text mem', ngx_inet6_ntop (replicate 2 32 ++ replicate 10 0 ++ [1; 2; 3; 4]) 45 = Ok text /\
    (length text <= NGX_INET6_ADDRSTRLEN)%nat /\
    ngx_inet6_addr text (length text) (replicate 16 0)
      = Ok (if decide (unreadable_addr (replicate 2 32 ++ replicate 10 0 ++ [1; 2; 3; 4]))
            then NGX_ERROR else NGX_OK, mem') /\
    (~ unreadable_addr (replicate 2 32 ++ replicate 10 0 ++ [1; 2; 3; 4])
     -> mem' = replicate 2 32 ++ replicate 10 0 ++ [1; 2; 3; 4]).
Proof.
  apply inet6_text_roundtrip; [apply bytes_okb_true; reflexivity|reflexivity|reflexivity|apply le_n].
Defined.
