(* ===== verification/InetPort.v ===== *)
(** Component "addresses", continued: ngx_parse_addr_port reads back what
    ngx_sock_ntop prints, and the lemmas on ngx_strlchr that the splitting of a
    text needs. *)

From stdpp Require Import base numbers list option strings sets.
From Stdlib Require Import ZArith Lia.
From S2P Require Import Prelude StringCompare Atoi Sprintf Inet InetText.
Local Open Scope Z_scope.

(** * Splitting at a character *)

Lemma strlchr_found t rest c :
  c ∉ t -> forall last, (length t < last)%nat -> ngx_strlchr (t ++ c :: rest) last c = Ok (Some (length t)).
Proof.
  induction t as [|x t IH]; intros Hc last Hl; (destruct last as [|last]; [cbn in Hl; lia|]); cbn [ngx_strlchr app].
  - by rewrite Z.eqb_refl.
  - apply not_elem_of_cons in Hc as [Hx Hc]. rewrite (proj2 (Z.eqb_neq x c)) by congruence.
    rewrite IH by (done || cbn in Hl; lia). done.
Qed.

Lemma strlchr_none t c : c ∉ t -> ngx_strlchr t (length t) c = Ok None.
Proof.
  induction t as [|x t IH]; intros Hc; cbn [ngx_strlchr length]; [done|].
  apply not_elem_of_cons in Hc as [Hx Hc]. rewrite (proj2 (Z.eqb_neq x c)) by congruence.
  by rewrite IH.
Qed.

(** * The characters of the texts *)

Lemma digits_not_in c ds : forallb is_digit ds = true -> is_digit c = false -> c ∉ ds.
Proof.
  intros Hd Hc Hin. rewrite forallb_forall in Hd. apply list_elem_of_In, Hd in Hin. congruence.
Qed.

Lemma dotted_not_in c a b d e :
  byte_ok a -> byte_ok b -> byte_ok d -> byte_ok e ->
  is_digit c = false -> c <> "."%ch -> c ∉ dotted a b d e.
Proof.
  intros Ha%dec_octet Hb%dec_octet Hd%dec_octet He%dec_octet Hc Hn. unfold dotted.
  assert (G : forall v, forallb is_digit (dec v) = true -> c ∉ dec v) by (intros; by apply digits_not_in).
  rewrite !not_elem_of_app, !not_elem_of_cons, !not_elem_of_app, !not_elem_of_cons, !not_elem_of_app, !not_elem_of_cons.
  specialize (G a (proj2 (proj2 Ha))) as Ga. specialize (G b (proj2 (proj2 Hb))) as Gb.
  specialize (G d (proj2 (proj2 Hd))) as Gd. specialize (G e (proj2 (proj2 He))) as Ge. tauto.
Qed.

Lemma hexl_not_bracket w : group_ok w -> "]"%ch ∉ hexl w.
Proof.
  intros H. destruct (hexl_group w H) as [_ (_ & _ & Hb & Hv)]. revert Hb Hv. generalize 0 as v.
  induction (hexl w) as [|c ds IH]; intros v Hb Hv; [by apply not_elem_of_nil|].
  apply bytes_ok_cons in Hb as [Hc Hb]. cbn [hex_from] in Hv. destruct (hex_digit c) as [d|] eqn:Hd; [|done].
  apply not_elem_of_cons. split; [|by apply (IH _ Hb Hv)].
  destruct (hex_digit_seen c d Hc Hd) as (_ & _ & Hn & _). congruence.
Qed.

Lemma groups_not_bracket ws : Forall group_ok ws -> "]"%ch ∉ groups ws.
Proof.
  intros H. induction H as [|w ws Hw Hws IH]; [by apply not_elem_of_nil|].
  change (groups (w :: ws)) with ((hexl w ++ [":"%ch]) ++ groups ws).
  rewrite !not_elem_of_app. split_and!; [by apply hexl_not_bracket| |done].
  apply not_elem_of_cons. split; [discriminate|by apply not_elem_of_nil].
Qed.

Lemma join_not_bracket ws : Forall group_ok ws -> "]"%ch ∉ join ws.
Proof.
  intros H. destruct ws as [|w ws _] using rev_ind; [by apply not_elem_of_nil|].
  apply Forall_app in H as [Hws Hw]. apply Forall_cons_1 in Hw as [Hw _].
  rewrite join_snoc, not_elem_of_app. split; [by apply groups_not_bracket|by apply hexl_not_bracket].
Qed.

Lemma form_chars ws text :
  Forall group_ok ws -> length ws = 8%nat -> text_form ws text ->
  ("]"%ch ∉ text) /\ (":"%ch ∈ text).
Proof.
  intros Hws Hl Hf. destruct Hf as [Hno|z m Hrun Hu|pre w6 w7 Hpre Ews].
  - split; [by apply join_not_bracket|].
    destruct ws as [|w [|w' ws]]; try discriminate Hl.
    change (join (w :: w' :: ws)) with ((hexl w ++ [":"%ch]) ++ join (w' :: ws)). set_solver.
  - split; [|set_solver]. pose proof (join_not_bracket (drop (z + m) ws) ltac:(by apply Forall_drop)).
    pose proof (groups_not_bracket (take z ws) ltac:(by apply Forall_take)).
    rewrite not_elem_of_app, not_elem_of_cons. split_and!; [|discriminate|done].
    destruct (z =? 0)%nat; [|done]. apply not_elem_of_cons. split; [discriminate|by apply not_elem_of_nil].
  - split; [|by apply elem_of_cons; left]. assert (H67 : group_ok w6 /\ group_ok w7).
    { subst ws. rewrite !Forall_app, !Forall_cons in Hws. tauto. }
    destruct (group_bytes w6 (proj1 H67)), (group_bytes w7 (proj2 H67)).
    assert (Forall group_ok pre) by (subst ws; rewrite !Forall_app in Hws; tauto).
    rewrite !not_elem_of_cons, not_elem_of_app. split_and!; [discriminate..| |].
    + by apply groups_not_bracket.
    + by apply dotted_not_in.
Qed.

(** * Ports *)

Lemma htons_sum x : htons x = (x mod 256) * 256 + x / 256 mod 256.
Proof.
  unfold htons. rewrite !land_ff, Z.shiftr_div_pow2 by lia. change (2 ^ 8) with 256.
  rewrite lor_shiftl_add; [done|lia|]. apply Z.mod_pos_bound. lia.
Qed.

Lemma htons_ntohs x : 0 <= x < 65536 -> htons (ntohs x) = x.
Proof. intros H. unfold ntohs. rewrite !htons_sum. Z.div_mod_to_equations; lia. Qed.

Lemma ntohs_bound x : 0 <= ntohs x < 65536.
Proof. unfold ntohs. rewrite htons_sum. Z.div_mod_to_equations; lia. Qed.

(** The octets of an address. *)
Lemma u32_octets x : 0 <= x < 2 ^ 32 ->
  exists a b c d, byte_ok a /\ byte_ok b /\ byte_ok c /\ byte_ok d /\ x = of_octets a b c d.
Proof.
  intros H. exists (x mod 256), (x / 256 mod 256), (x / 65536 mod 256), (x / 16777216).
  unfold byte_ok, of_octets. split_and!; Z.div_mod_to_equations; lia.
Qed.

(** The text of an address and a port. *)
Definition port_text (p : Z) : list Z := ":"%ch :: dec (ntohs p).

Lemma port_text_length p : (length (port_text p) <= 6)%nat.
Proof.
  unfold port_text. cbn [length]. pose proof (ntohs_bound p) as Hb.
  destruct (dec_spec (ntohs p)) as (_ & [Hne Hz] & _ & Hdig & Hval); [lia|].
  assert (G : forall v ds, 0 <= v -> forallb is_digit ds = true -> v * 10 ^ Z.of_nat (length ds) <= dec_from v ds).
  { clear. intros v ds. revert v. induction ds as [|c ds IH]; intros v Hv Hd; [unfold dec_from; cbn; lia|].
    cbn in Hd. apply andb_prop in Hd as [Hc Hd]. rewrite dec_from_cons. cbn [length].
    assert (0 <= c - "0"%ch) by (unfold is_digit in Hc; tests).
    specialize (IH (v * 10 + (c - "0"%ch)) ltac:(lia) Hd).
    replace (Z.of_nat (S (length ds))) with (1 + Z.of_nat (length ds)) by lia.
    rewrite Z.pow_add_r by lia. assert (0 <= 10 ^ Z.of_nat (length ds)) by lia. nia. }
  destruct (dec (ntohs p)) as [|c ds]; [done|]. cbn [hd forallb] in *.
  destruct (Z.eq_dec c "0"%ch) as [E|E]; [rewrite (Hz E); cbn; lia|].
  apply andb_prop in Hdig as [Hc Hdig]. assert (1 <= c - "0"%ch) by (unfold is_digit in Hc; tests).
  unfold dec_value in Hval. rewrite dec_from_cons in Hval.
  specialize (G (0 * 10 + (c - "0"%ch)) ds ltac:(lia) Hdig). rewrite Hval in G.
  destruct (Nat.le_gt_cases (length ds) 4) as [|Hgt]; [cbn; lia|exfalso].
  assert (10 ^ 5 <= 10 ^ Z.of_nat (length ds)) by (apply Z.pow_le_mono_r; lia). nia.
Qed.

(** * Reading back an address with its port *)

(** The addresses that a client or a server has: a port that is not zero, and
    a text the parser can read. *)
Definition sockaddr_ok (sa : sockaddr) : Prop :=
  match sa with
  | Sin port addr => 1 <= port < 65536 /\ 0 <= addr < 2 ^ 32 /\ addr <> INADDR_NONE
  | Sin6 port addr => 1 <= port < 65536 /\ bytes_ok addr /\ length addr = 16%nat /\ ~ unreadable_addr addr
  | _ => False
  end.

Definition sizeof_sockaddr (sa : sockaddr) : nat :=
  match sa with Sin _ _ => sizeof_sockaddr_in | _ => sizeof_sockaddr_in6 end.

Lemma ntohs_port p : 1 <= p < 65536 -> 1 <= ntohs p <= 65535.
Proof.
  intros Hp. pose proof (ntohs_bound p) as Hb. destruct (Z.eq_dec (ntohs p) 0) as [E|E]; [|lia].
  pose proof (htons_ntohs p ltac:(lia)) as H. rewrite E in H. vm_compute in H. lia.
Qed.

(** The part of ngx_parse_addr_port after the colon. *)
Lemma parse_port_ok pre p text len addr a :
  1 <= p < 65536 -> (length (port_text p) <= len)%nat ->
  ngx_parse_addr true text (len - length (port_text p)) = Ok (NGX_OK, Some addr) ->
  a_sockaddr addr = a ->
  parse_port_then_addr true (pre ++ port_text p) (length (pre ++ port_text p)) (S (length pre)) text len
    = Ok (NGX_OK, Some (mk_addr (ngx_inet_set_port a (ntohs p)) (a_socklen addr))).
Proof.
  intros Hp Hl Ha <-. pose proof (ntohs_port p Hp) as Hn. unfold parse_port_then_addr.
  assert (El : (length (pre ++ port_text p) - S (length pre))%nat = length (dec (ntohs p)))
    by (unfold port_text; rewrite length_app; cbn; lia).
  assert (Ed : drop (S (length pre)) (pre ++ port_text p) = dec (ntohs p) ++ []).
  { rewrite <- Nat.add_1_r, <- drop_drop, drop_app_length. unfold port_text. cbn. by rewrite app_nil_r. }
  rewrite El, Ed, atoi_dec by ilia. cbn [mbind outcome_bind].
  rewrite (proj2 (Z.ltb_ge _ _)), (proj2 (Z.ltb_ge 65535 _)) by lia. cbn [orb].
  replace (length (dec (ntohs p)) + 1)%nat with (length (port_text p)) by (unfold port_text; cbn; lia).
  rewrite Ha. done.
Qed.

(** The first attempts fail: the text with its port is no address. *)
Lemma inet6_addr_dotted_fails a b c d rest mem :
  byte_ok a -> byte_ok b -> byte_ok c -> byte_ok d ->
  ngx_inet6_addr (dotted a b c d ++ rest) (length (dotted a b c d ++ rest)) mem = Ok (NGX_ERROR, mem).
Proof.
  intros Ha Hb Hc Hd. destruct (hexes_of_dec a Ha) as [v Hv]. destruct (dec_bytes_ok a Ha) as [Hba H1].
  pose proof (dec_octet_length a Ha) as H3. pose proof (proj2 (proj2 (dec_octet a Ha))) as Hdig.
  set (tl := dec b ++ "."%ch :: dec c ++ "."%ch :: dec d ++ rest).
  assert (E : dotted a b c d ++ rest = dec a ++ "."%ch :: tl).
  { unfold dotted, tl. repeat (rewrite <- app_assoc || rewrite <- app_comm_cons). done. }
  rewrite E, length_app. cbn [length].
  assert (Es : ngx_inet6_addr (dec a ++ "."%ch :: tl) (length (dec a) + S (length tl)) mem
    = inet6_loop (dec a ++ "."%ch :: tl) (length (dec a) + S (length tl)) (inet6_init mem)).
  { destruct (dec a) as [|x ds]; [cbn in H1; lia|]. unfold ngx_inet6_addr. cbn [length app Nat.add].
    cbn [deref lookup list_lookup mbind outcome_bind].
    destruct (Z.eqb_spec x ":"%ch) as [->|]; [discriminate Hdig|done]. }
  rewrite Es. unfold inet6_init. rewrite (inet6_digits _ v) by (done || lia). cbn [inet6_loop].
  change ("."%ch =? ":"%ch) with false. change ("."%ch =? "."%ch) with true. cbn iota. cbn [i6_nibbles].
  rewrite (proj2 (Z.eqb_neq _ _)) by lia. done.
Qed.

Lemma snprintf_dotted_port len a b c d p :
  byte_ok a -> byte_ok b -> byte_ok c -> byte_ok d ->
  (length (dotted a b c d ++ port_text p) <= len)%nat ->
  ngx_snprintf len "%ud.%ud.%ud.%ud:%d" [V32 a; V32 b; V32 c; V32 d; V32 (ntohs p)]
    = Ok (dotted a b c d ++ port_text p).
Proof.
  intros Ha Hb Hc Hd Hl. unfold port_text in *. rewrite length_app in Hl. cbn [length] in Hl.
  unfold ngx_snprintf, ngx_vslprintf.
  assert (Ef : format "%ud.%ud.%ud.%ud:%d" = bytes "%ud.%ud.%ud.%ud" ++ [":"%ch; "%"%ch; "d"%ch; 0]) by reflexivity.
  rewrite Ef. clear Ef. change (S (length _)) with (7 + 13)%nat.
  rewrite vslprintf_dotted by (done || cbn; lia).
  rewrite loop_char by (done || cbn; lia). rewrite loop_d by (pose proof (ntohs_bound p); cbn in *; lia).
  rewrite loop_end. cbn [mbind outcome_bind]. by rewrite app_nil_r.
Qed.

Lemma parse_sin_port a b c d p :
  byte_ok a -> byte_ok b -> byte_ok c -> byte_ok d -> 1 <= p < 65536 -> of_octets a b c d <> INADDR_NONE ->
  ngx_parse_addr_port true (dotted a b c d ++ port_text p) (length (dotted a b c d ++ port_text p))
    = Ok (NGX_OK, Some (mk_addr (Sin p (of_octets a b c d)) sizeof_sockaddr_in)).
Proof.
  intros Ha Hb Hc Hd Hp Hn. unfold ngx_parse_addr_port, ngx_parse_addr at 1.
  assert (E1 : ngx_inet_addr (dotted a b c d ++ port_text p) (length (dotted a b c d ++ port_text p)) = Ok INADDR_NONE).
  { pose proof (inet_addr_loop_other (dotted a b c d ++ port_text p) [] ":"%ch 0 0 0) as E.
    rewrite app_nil_r in E. apply E; [|done|done]. apply elem_of_app. right. by apply elem_of_cons; left. }
  rewrite E1. cbn [mbind outcome_bind]. rewrite Z.eqb_refl. cbn [negb].
  rewrite inet6_addr_dotted_fails by done. cbn [mbind outcome_bind].
  change (NGX_ERROR =? NGX_OK) with false. cbn iota. change (NGX_DECLINED =? NGX_DECLINED) with true. cbn [negb].
  assert (Eb : match length (dotted a b c d ++ port_text p) with
      | O => Ok false | _ => c ← deref (dotted a b c d ++ port_text p) 0; Ok (c =? "["%ch) end = Ok false).
  { pose proof (proj2 (proj2 (dec_octet a Ha))) as Hdig. destruct (dec_bytes_ok a Ha) as [_ H1].
    unfold dotted. destruct (dec a) as [|x ds]; [cbn in H1; lia|]. cbn.
    destruct (Z.eqb_spec x "["%ch) as [->|]; [discriminate Hdig|done]. }
  rewrite Eb. cbn [mbind outcome_bind].
  assert (Es : ngx_strlchr (dotted a b c d ++ port_text p) (length (dotted a b c d ++ port_text p)) ":"%ch
    = Ok (Some (length (dotted a b c d)))).
  { apply strlchr_found; [by apply dotted_not_in|]. unfold port_text. rewrite length_app. cbn. lia. }
  rewrite Es.
  cbn [mbind outcome_bind].
  assert (Ea : ngx_parse_addr true (dotted a b c d ++ port_text p) (length (dotted a b c d))
    = Ok (NGX_OK, Some (mk_addr (Sin 0 (of_octets a b c d)) sizeof_sockaddr_in))).
  { unfold ngx_parse_addr. rewrite inet_addr_dotted by done. cbn [mbind outcome_bind].
    by rewrite (proj2 (Z.eqb_neq _ _) Hn). }
  rewrite (parse_port_ok (dotted a b c d) p _ _ (mk_addr (Sin 0 (of_octets a b c d)) sizeof_sockaddr_in)
    (Sin 0 (of_octets a b c d))); [|done| | |done].
  - cbn [ngx_inet_set_port a_socklen]. by rewrite htons_ntohs by lia.
  - rewrite length_app. lia.
  - rewrite length_app. by replace (_ + _ - _)%nat with (length (dotted a b c d)) by lia.
Qed.

Lemma sprintf_bracket_port p : ngx_sprintf "]:%d" [V32 (ntohs p)] = Ok ("]"%ch :: port_text p).
Proof.
  pose proof (ntohs_bound p). unfold ngx_sprintf, ngx_vslprintf.
  change (format "]:%d") with ["]"%ch; ":"%ch; "%"%ch; "d"%ch; 0]. cbn [length].
  rewrite !loop_char by done. rewrite loop_d by (done || lia).
  rewrite loop_end. cbn [mbind outcome_bind]. by rewrite app_nil_r.
Qed.

(** A bracket is no part of an address. *)
Lemma inet6_addr_bracket_fails t mem :
  ngx_inet6_addr ("["%ch :: t) (length ("["%ch :: t)) mem = Ok (NGX_ERROR, mem).
Proof. reflexivity. Qed.

Lemma parse_sin6_port ws ip p :
  Forall group_ok ws -> length ws = 8%nat -> text_form ws ip -> unreadable ws = false -> 1 <= p < 65536 ->
  let text := "["%ch :: ip ++ "]"%ch :: port_text p in
  ngx_parse_addr_port true text (length text)
    = Ok (NGX_OK, Some (mk_addr (Sin6 p (words_bytes ws)) sizeof_sockaddr_in6)).
Proof.
  intros Hws Hl Hf Hu Hp text. destruct (form_chars ws ip Hws Hl Hf) as [Hbr Hcol].
  assert (Et : text = ("["%ch :: ip ++ ["]"%ch]) ++ port_text p)
    by (subst text; cbn; by rewrite <- app_assoc).
  assert (Elen : length text = (3 + length ip + length (dec (ntohs p)))%nat)
    by (subst text; unfold port_text; cbn; rewrite length_app; cbn; lia).
  unfold ngx_parse_addr_port, ngx_parse_addr at 1.
  assert (E1 : ngx_inet_addr text (length text) = Ok INADDR_NONE) by reflexivity.
  rewrite E1. cbn [mbind outcome_bind]. rewrite Z.eqb_refl. cbn [negb].
  assert (E2 : ngx_inet6_addr text (length text) (replicate 16 0) = Ok (NGX_ERROR, replicate 16 0))
    by apply inet6_addr_bracket_fails.
  rewrite E2. cbn [mbind outcome_bind].
  change (NGX_ERROR =? NGX_OK) with false. cbn iota. change (NGX_DECLINED =? NGX_DECLINED) with true. cbn [negb].
  assert (Eb : match length text with O => Ok false | _ => c ← deref text 0; Ok (c =? "["%ch) end = Ok true)
    by reflexivity.
  rewrite Eb. cbn [mbind outcome_bind].
  assert (Es : ngx_strlchr text (length text) "]"%ch = Ok (Some (S (length ip)))).
  { subst text. apply (strlchr_found ("["%ch :: ip)); [by apply not_elem_of_cons|].
    cbn [length]. rewrite length_app. cbn. lia. }
  rewrite Es. cbn [mbind outcome_bind]. rewrite (proj2 (Nat.eqb_neq _ _)) by lia.
  assert (Ed : deref text (S (S (length ip))) = Ok ":"%ch).
  { apply deref_lookup. rewrite Et. rewrite lookup_app_r; cbn [length]; rewrite length_app; cbn [length]; [|lia].
    by replace (_ - _)%nat with 0%nat by lia. }
  rewrite Ed. cbn [mbind outcome_bind]. change (":"%ch =? ":"%ch) with true. cbn [negb].
  assert (Ea : ngx_parse_addr true (tail text) (length ip)
    = Ok (NGX_OK, Some (mk_addr (Sin6 0 (words_bytes ws)) sizeof_sockaddr_in6))).
  { subst text. cbn [tail]. unfold ngx_parse_addr, ngx_inet_addr.
    rewrite (inet_addr_loop_other ip _ ":"%ch) by done. cbn [mbind outcome_bind]. rewrite Z.eqb_refl. cbn [negb].
    destruct (read_form ws ip ("]"%ch :: port_text p) (replicate 16 0) Hws Hl Hf) as (mem' & -> & Em); [done|].
    rewrite Hu, (Em Hu). done. }
  rewrite Et. replace (S (S (S (length ip)))) with (S (length ("["%ch :: ip ++ ["]"%ch])))
    by (cbn [length]; rewrite length_app; cbn; lia).
  rewrite (parse_port_ok _ p _ _ (mk_addr (Sin6 0 (words_bytes ws)) sizeof_sockaddr_in6)
    (Sin6 0 (words_bytes ws))); [|done| | |done].
  - cbn [ngx_inet_set_port a_socklen]. by rewrite htons_ntohs by lia.
  - rewrite <- Et, Elen. unfold port_text. cbn. lia.
  - rewrite <- Et, Elen. unfold port_text. cbn [length].
    by replace (_ - _ - _)%nat with (length ip) by lia.
Qed.

(** C37. ngx_parse_addr_port reads back the address and the port from the text that
    ngx_sock_ntop prints for any IPv4 or IPv6 socket address with a port, but for the
    three addresses whose dotted part is 255.255.255.255. *)
Theorem sock_ntop_parse_roundtrip sa socklen len :
  sockaddr_ok sa -> (NGX_INET6_ADDRSTRLEN <= len)%nat ->
  exists text, ngx_sock_ntop sa socklen len true = Ok (text, Z.of_nat (length text)) /\
    ngx_parse_addr_port true text (length text) = Ok (NGX_OK, Some (mk_addr sa (sizeof_sockaddr sa))).
Proof.
  intros Hsa Hlen. destruct sa as [port addr|port addr| |]; cbn [sockaddr_ok] in Hsa; try done.
  - destruct Hsa as (Hp & Ha & Hn). destruct (u32_octets addr Ha) as (a & b & c & d & ? & ? & ? & ? & ->).
    exists (dotted a b c d ++ port_text port). split; [|by apply parse_sin_port].
    unfold ngx_sock_ntop. rewrite u32_bytes_of_octets by done.
    change (at_ [a; b; c; d] 0) with (Ok a). change (at_ [a; b; c; d] 1) with (Ok b).
    change (at_ [a; b; c; d] 2) with (Ok c). change (at_ [a; b; c; d] 3) with (Ok d).
    cbn [mbind outcome_bind]. rewrite snprintf_dotted_port; [done..|].
    pose proof (dotted_length a b c d) as Hd. pose proof (port_text_length port) as Hpt.
    unfold NGX_INET_ADDRSTRLEN, NGX_INET6_ADDRSTRLEN in *. rewrite length_app.
    specialize (Hd ltac:(done) ltac:(done) ltac:(done) ltac:(done)). lia.
  - destruct Hsa as (Hp & Hb & Hl & Hu). destruct (bytes_words addr Hb Hl) as (ws & -> & Hws & Hw).
    destruct (ntop_text ws len Hws Hw Hlen) as (ip & Ei & Hf).
    assert (Hun : unreadable ws = false)
      by (destruct (unreadable ws) eqn:E; [by apply unreadable_words in E|done]).
    exists ("["%ch :: ip ++ "]"%ch :: port_text port). split; [|by apply parse_sin6_port].
    unfold ngx_sock_ntop. rewrite Ei. cbn [mbind outcome_bind]. by rewrite sprintf_bracket_port.
Qed.

Lemma sock_ntop_parse_roundtrip_witness :
  exists text, ngx_sock_ntop (Sin6 (htons 443) (replicate 15 0 ++ [1])) 28 100 true = Ok (text, Z.of_nat (length text)) /\
    ngx_parse_addr_port true text (length text)
      = Ok (NGX_OK, Some (mk_addr (Sin6 (htons 443) (replicate 15 0 ++ [1]))
                           (sizeof_sockaddr (Sin6 (htons 443) (replicate 15 0 ++ [1]))))).
Proof.
  apply sock_ntop_parse_roundtrip; [|unfold NGX_INET6_ADDRSTRLEN; lia].
  cbn. split_and!; [discriminate|reflexivity|apply bytes_okb_true; reflexivity|reflexivity|].
  intros [H|H]; discriminate H.
Defined.
