(* ===== verification/InetCidr.v ===== *)
(** Component "addresses", continued: CIDR blocks.  What ngx_ptocidr makes of an
    address with a prefix length, ngx_cidr_match compares bit by bit. *)

From stdpp Require Import base numbers list option strings sets.
From Stdlib Require Import ZArith Lia.
From S2P Require Import Prelude StringCompare Atoi Sprintf Inet InetText InetPort.
Local Open Scope Z_scope.

(** * ngx_inet6_addr depends on its text only *)

Lemma inet_addr_prefix d rest k :
  (k <= length d)%nat -> ngx_inet_addr (d ++ rest) k = ngx_inet_addr d k.
Proof.
  intros Hk. pose proof (inet_addr_app (take k d) (drop k d ++ rest)) as E1.
  pose proof (inet_addr_app (take k d) (drop k d)) as E2.
  rewrite app_assoc, take_drop in E1. rewrite take_drop in E2. rewrite length_take_le in E1, E2 by done. congruence.
Qed.

(** Two runs: the buffers agree on what is written, [w]; one text goes on. *)
Definition same_run (m m' : outcome (Z * list Z)) : Prop :=
  exists rc mem mem', m = Ok (rc, mem) /\ m' = Ok (rc, mem') /\ (rc = NGX_OK -> mem = mem').

Lemma same_error mem mem' : same_run (Ok (NGX_ERROR, mem)) (Ok (NGX_ERROR, mem')).
Proof. exists NGX_ERROR, mem, mem'. split_and!; [done..|discriminate]. Qed.

Lemma same_ok mem : same_run (Ok (NGX_OK, mem)) (Ok (NGX_OK, mem)).
Proof. exists NGX_OK, mem, mem. by split_and!. Qed.

(** What the locals of the two runs are. *)
Definition locals_ok (w junk junk' : list Z) (z : option nat) (n : Z) : Prop :=
  Z.of_nat (length junk) = 2 * n /\ Z.of_nat (length junk') = 2 * n /\ 1 <= n <= 8 /\
  match z with Some z => (z <= length w)%nat | None => True end.

Lemma finish_same w junk junk' z dg dg' l nib word n :
  locals_ok w junk junk' z n ->
  same_run (inet6_finish (mk_inet6 (w ++ junk) (length w) z dg l nib word n))
           (inet6_finish (mk_inet6 (w ++ junk') (length w) z dg' l nib word n)).
Proof.
  intros (Hj & Hj' & Hn & Hz).
  destruct (junk_split junk (length junk - 2)) as (x & y & j & -> & Hl); [lia|].
  destruct (junk_split junk' (length junk' - 2)) as (x' & y' & j' & -> & Hl'); [lia|].
  destruct z as [z|].
  - assert (Hw : exists pre post, w = pre ++ post /\ z = length pre).
    { exists (take z w), (drop z w). rewrite take_drop, length_take. split; [done|lia]. }
    destruct Hw as (pre & post & -> & ->). destruct (Z.eq_dec n 1) as [->|Hn1].
    + unfold inet6_finish. rewrite andb_comm. cbn [bool_decide decide is_Some_dec negb andb].
      rewrite !put_word_app by done. cbn [mbind outcome_bind]. apply same_error.
    + rewrite <- !app_assoc, !finish_run by (done || lia). apply same_ok.
  - unfold inet6_finish. destruct (_ && _); [apply same_error|].
    rewrite !put_word_app by done. cbn [mbind outcome_bind]. rewrite to_u64_id by lia.
    destruct (Z.eqb_spec (n - 1) 0); cbn [negb]; [|apply same_error]. cbn [length] in *.
    destruct j; [|cbn in *; lia]. destruct j'; [|cbn in *; lia]. apply same_ok.
Qed.

Lemma loop_same t rest w junk junk' z dg l nib word n :
  locals_ok w junk junk' z n -> match dg with Some d => (l - 1 <= length d)%nat | None => True end ->
  same_run
    (inet6_loop t (length t) (mk_inet6 (w ++ junk) (length w) z dg l nib word n))
    (inet6_loop (t ++ rest) (length t)
       (mk_inet6 (w ++ junk') (length w) z (option_map (fun d => d ++ rest) dg) l nib word n)).
Proof.
  revert w junk junk' z dg l nib word n.
  induction t as [|c t IH]; intros w junk junk' z dg l nib word n Hok Hd; [by apply finish_same|].
  cbn [inet6_loop length app]. pose proof Hok as (Hj & Hj' & Hn & Hz).
  destruct (junk_split junk (length junk - 2)) as (x & y & j & -> & Hl); [lia|].
  destruct (junk_split junk' (length junk' - 2)) as (x' & y' & j' & -> & Hl'); [lia|]. cbn [length] in *.
  destruct (c =? ":"%ch).
  - unfold inet6_colon. destruct (nib =? 0); cbn [negb].
    + destruct z as [z|]; cbn [mbind outcome_bind]; [apply same_error|].
      apply (IH w (x :: y :: j) (x' :: y' :: j') (Some (length w)) (Some t)); [|cbn; lia].
      split_and!; cbn [length]; lia.
    + rewrite !put_word_app by done. cbn [mbind outcome_bind]. rewrite to_u64_id by lia.
      destruct (Z.eqb_spec (n - 1) 0); cbn [negb]; [apply same_error|].
      rewrite !(app_assoc w). replace (length w + 2)%nat with (length (w ++ stored_bytes word))
        by (rewrite length_app; cbn; lia).
      apply (IH (w ++ stored_bytes word) j j' z (Some t)); [|cbn; lia].
      split_and!; [lia..|destruct z; [rewrite length_app; lia|done]].
  - destruct (_ && _).
    + unfold inet6_dot. destruct dg as [d|]; cbn [option_map]; [|apply same_error].
      destruct (n <? 2) eqn:Hn2; [apply same_error|]. rewrite inet_addr_prefix by done.
      destruct (ngx_inet_addr_ok d (l - 1) Hd) as [v ->]. cbn [mbind outcome_bind].
      destruct (v =? INADDR_NONE); [apply same_error|].
      rewrite !put_word_app by done. cbn [mbind outcome_bind]. rewrite !(app_assoc w).
      set (two := [to_u8 _; to_u8 _]). replace (length w + 2)%nat with (length (w ++ two))
        by (rewrite length_app; cbn; lia).
      apply finish_same. apply Z.ltb_ge in Hn2.
      split_and!; [lia..|destruct z; [rewrite length_app; lia|done]].
    + unfold inet6_hex. destruct (4 <? nib + 1); [apply same_error|].
      destruct (_ && _); [by apply IH|]. cbv zeta. destruct (_ && _); [by apply IH|apply same_error].
Qed.

(** The buffer of 16 bytes is written whole, and nothing after the text counts. *)
Lemma inet6_addr_same t rest mem mem' :
  length mem = 16%nat -> length mem' = 16%nat ->
  same_run (ngx_inet6_addr t (length t) mem) (ngx_inet6_addr (t ++ rest) (length t) mem').
Proof.
  intros Hm Hm'. destruct t as [|c t]; [apply same_error|]. unfold ngx_inet6_addr. cbn [length app].
  cbn [deref lookup list_lookup mbind outcome_bind tail].
  assert (Hok : locals_ok [] mem mem' None 8) by (split_and!; [lia..|done]).
  destruct (c =? ":"%ch).
  - by apply (loop_same t rest [] mem mem' None None).
  - by apply (loop_same (c :: t) rest [] mem mem' None None).
Qed.

Theorem ngx_inet6_addr_safe p len addr addr2 :
  (len <= length p)%nat -> length addr = 16%nat -> length addr2 = 16%nat ->
  exists rc r r2, ngx_inet6_addr p len addr = Ok (rc, r) /\ ngx_inet6_addr p len addr2 = Ok (rc, r2) /\
    (rc = NGX_OK \/ rc = NGX_ERROR) /\ length r = 16%nat /\ (rc = NGX_OK -> r = r2).
Proof.
  intros Hl Ha Ha2. destruct (inet6_addr_safe p len addr Hl Ha) as (rc & r & E & Hrc & Hr).
  assert (Et : len = length (take len p)) by (rewrite length_take; lia).
  destruct (inet6_addr_same (take len p) (drop len p) addr addr Ha Ha) as (rc1 & m1 & m2 & F1 & F2 & F3).
  destruct (inet6_addr_same (take len p) (drop len p) addr addr2 Ha Ha2) as (rc3 & m3 & m4 & G1 & G2 & G3).
  rewrite take_drop, <- Et in *. rewrite F1 in G1. injection G1 as <- <-. rewrite E in F2. injection F2 as <- <-.
  exists rc, r, m4. split_and!; [done..|]. intros Hok. by rewrite <- (F3 Hok), <- (G3 Hok).
Qed.

Lemma ngx_inet6_addr_safe_witness :
  exists rc r r2, ngx_inet6_addr (bytes "::1:256.1.1.1") 13 (replicate 16 0) = Ok (rc, r) /\
    ngx_inet6_addr (bytes "::1:256.1.1.1") 13 (replicate 16 7) = Ok (rc, r2) /\
    (rc = NGX_OK \/ rc = NGX_ERROR) /\ length r = 16%nat /\ (rc = NGX_OK -> r = r2).
Proof. apply ngx_inet6_addr_safe; reflexivity || apply le_n. Defined.

(** * Bits *)

(** The bits of an address, the first first. *)
Definition byte_bits (b : Z) : list bool := map (Z.testbit b) [7; 6; 5; 4; 3; 2; 1; 0].
Definition addr_bits (a : list Z) : list bool := concat (map byte_bits a).

Definition bits_value (bs : list bool) : Z := fold_left (fun v b => 2 * v + Z.b2z b) bs 0.

Lemma bits_value_byte b : byte_ok b -> bits_value (byte_bits b) = b.
Proof. apply (range_decide 256 (fun b => bits_value (byte_bits b) = b)). vm_compute. reflexivity. Qed.

Lemma byte_bits_inj x y : byte_ok x -> byte_ok y -> byte_bits x = byte_bits y -> x = y.
Proof. intros Hx Hy E. rewrite <- (bits_value_byte x), <- (bits_value_byte y) by done. congruence. Qed.

(** The mask of the byte in which the prefix has [s] bits. *)
Definition byte_mask (s : Z) : Z := to_u8 (to_u32 (Z.shiftl 0xff (8 - s))).

Lemma masked_bits x s : byte_ok x -> 0 <= s <= 8 ->
  byte_bits (Z.land x (byte_mask s))
    = take (Z.to_nat s) (byte_bits x) ++ replicate (8 - Z.to_nat s) false.
Proof.
  intros Hx Hs. revert x Hx.
  assert (H : s = 0 \/ s = 1 \/ s = 2 \/ s = 3 \/ s = 4 \/ s = 5 \/ s = 6 \/ s = 7 \/ s = 8) by lia.
  repeat destruct H as [->|H]; [..|subst s];
    match goal with |- forall x, byte_ok x -> @?P x => apply (range_decide 256 P) end;
    vm_compute; reflexivity.
Qed.

Lemma byte_bits_length b : length (byte_bits b) = 8%nat.
Proof. done. Qed.

Lemma byte_mask_ok s : byte_ok (byte_mask s).
Proof. apply to_u8_ok. Qed.

Lemma land_byte x m : byte_ok x -> byte_ok (Z.land x m).
Proof.
  unfold byte_ok. intros Hx. assert (E : x = Z.land x 0xff) by (rewrite land_ff, Z.mod_small; lia).
  rewrite E, <- Z.land_assoc, (Z.land_comm 0xff m), Z.land_assoc, land_ff. apply Z.mod_pos_bound. lia.
Qed.

(** Two bytes are equal under a mask when their first bits are. *)
Lemma masked_equal x y s : byte_ok x -> byte_ok y -> 0 <= s <= 8 ->
  Z.land x (byte_mask s) = Z.land y (byte_mask s)
  <-> take (Z.to_nat s) (byte_bits x) = take (Z.to_nat s) (byte_bits y).
Proof.
  intros Hx Hy Hs. split; intros E.
  - apply (f_equal byte_bits) in E. rewrite !masked_bits in E by done. by apply app_inv_tail in E.
  - apply byte_bits_inj; [by apply land_byte..|]. rewrite !masked_bits by done. by rewrite E.
Qed.

(** * Masks *)

(** The mask bytes of a prefix. *)
Fixpoint mask_bytes (n : nat) (shift : Z) : list Z :=
  match n with
  | O => []
  | S n' => let s := if 8 <? shift then 8 else shift in byte_mask s :: mask_bytes n' (shift - s)
  end.

Lemma mask_bytes_length n shift : length (mask_bytes n shift) = n.
Proof. revert shift. induction n as [|n IH]; intros shift; [done|]. cbn. by rewrite IH. Qed.

Definition masked (a mask : list Z) : list Z := zip_with Z.land a mask.

Lemma cidr_mask6_spec a shift :
  cidr_mask6 a shift
    = (masked a (mask_bytes (length a) shift), mask_bytes (length a) shift,
       negb (bool_decide (masked a (mask_bytes (length a) shift) = a))).
Proof.
  revert shift. induction a as [|x a IH]; intros shift; [done|]. cbn [cidr_mask6 length mask_bytes].
  rewrite IH. fold (byte_mask (if 8 <? shift then 8 else shift)).
  set (s := if 8 <? shift then 8 else shift). set (ms := mask_bytes (length a) (shift - s)).
  cbn [masked zip_with]. fold (masked a ms). f_equal.
  destruct (Z.eqb_spec x (Z.land x (byte_mask s))) as [E|E]; cbn [negb orb].
  - f_equal. apply bool_decide_ext. rewrite <- E. split; congruence.
  - rewrite (bool_decide_false (_ :: _ = _)); [done|congruence].
Qed.

(** Comparing under a mask compares a prefix of the bits. *)
Lemma match6_spec a b shift :
  bytes_ok a -> bytes_ok b -> length b = length a -> 0 <= shift ->
  match6 b (mask_bytes (length a) shift) (masked a (mask_bytes (length a) shift)) (length a)
    = Ok (bool_decide (take (Z.to_nat shift) (addr_bits b) = take (Z.to_nat shift) (addr_bits a))).
Proof.
  revert b shift. induction a as [|x a IH]; intros [|y b] shift Ha Hb Hl Hs; try discriminate Hl.
  - cbn. rewrite !take_nil. by rewrite bool_decide_true.
  - apply bytes_ok_cons in Ha as [Hx Ha]. apply bytes_ok_cons in Hb as [Hy Hb].
    cbn [length mask_bytes masked zip_with match6]. set (s := if 8 <? shift then 8 else shift).
    assert (Hs8 : 0 <= s <= 8 /\ 0 <= shift - s /\ (shift - s = 0 \/ s = 8))
      by (unfold s; destruct (Z.ltb_spec 8 shift); lia).
    clearbody s. destruct Hs8 as (Hs8 & Hr & Hor). fold (masked a (mask_bytes (length a) (shift - s))).
    assert (Et : forall z l, take (Z.to_nat shift) (addr_bits (z :: l))
      = take (Z.to_nat s) (byte_bits z) ++ take (Z.to_nat (shift - s)) (addr_bits l)).
    { intros z l. change (addr_bits (z :: l)) with (byte_bits z ++ addr_bits l). rewrite take_app, byte_bits_length.
      destruct Hor as [E| ->].
      - replace shift with s by lia. replace (Z.to_nat s - 8)%nat with 0%nat by lia.
        replace (Z.to_nat (s - s)) with 0%nat by lia. done.
      - replace (Z.to_nat shift - 8)%nat with (Z.to_nat (shift - 8)) by lia. f_equal.
        rewrite !take_ge; rewrite ?byte_bits_length; [done|lia..]. }
    rewrite !Et. destruct (Z.eqb_spec (Z.land y (byte_mask s)) (Z.land x (byte_mask s))) as [E|E]; cbn [negb].
    + apply masked_equal in E; [|done..]. rewrite IH by (done || cbn in Hl; lia). f_equal.
      apply bool_decide_ext. rewrite E. split; [by intros ->|apply app_inv_head].
    + f_equal. symmetry. apply bool_decide_false. intros H.
      apply app_inj_1 in H as [H _]; [|by rewrite !length_take, !byte_bits_length].
      apply E. by apply masked_equal.
Qed.

Lemma match6_masked b mask addr :
  length mask = length b -> length addr = length b ->
  match6 b mask addr (length b) = Ok (bool_decide (masked b mask = addr)).
Proof.
  revert mask addr. induction b as [|y b IH]; intros [|m mask] [|x addr] Hm Ha; try discriminate; [done|].
  cbn [match6 length masked zip_with]. fold (masked b mask). destruct (Z.eqb_spec (Z.land y m) x) as [->|E]; cbn [negb].
  - rewrite IH by (cbn in *; lia). f_equal. apply bool_decide_ext. split; congruence.
  - rewrite bool_decide_false; [done|congruence].
Qed.

Lemma masked_length a mask : length mask = length a -> length (masked a mask) = length a.
Proof. intros H. unfold masked. rewrite length_zip_with. lia. Qed.

Lemma masked_prefix a b shift :
  bytes_ok a -> bytes_ok b -> length b = length a -> 0 <= shift ->
  masked b (mask_bytes (length a) shift) = masked a (mask_bytes (length a) shift)
  <-> take (Z.to_nat shift) (addr_bits b) = take (Z.to_nat shift) (addr_bits a).
Proof.
  intros Ha Hb Hl Hs. pose proof (match6_spec a b shift Ha Hb Hl Hs) as E. rewrite <- Hl in E at 3.
  rewrite match6_masked in E by (rewrite ?masked_length; rewrite ?mask_bytes_length; done).
  injection E as E. rewrite <- (bool_decide_eq_true (masked _ _ = _)), E. apply bool_decide_eq_true.
Qed.

Lemma addr_bits_length a : length (addr_bits a) = (8 * length a)%nat.
Proof.
  induction a as [|x a IH]; [done|]. change (addr_bits (x :: a)) with (byte_bits x ++ addr_bits a).
  rewrite length_app, IH, byte_bits_length. cbn. lia.
Qed.

Lemma addr_bits_inj a b :
  bytes_ok a -> bytes_ok b -> addr_bits a = addr_bits b -> a = b.
Proof.
  revert b. induction a as [|x a IH]; intros [|y b] Ha Hb E; try discriminate E; [done|].
  apply bytes_ok_cons in Ha as [Hx Ha]. apply bytes_ok_cons in Hb as [Hy Hb].
  change (byte_bits x ++ addr_bits a = byte_bits y ++ addr_bits b) in E.
  apply app_inj_1 in E as [E1 E2]; [|done]. f_equal; [by apply byte_bits_inj|by apply IH].
Qed.

Lemma masked_bytes_ok a mask : bytes_ok a -> bytes_ok (masked a mask).
Proof.
  intros Ha. revert mask. induction a as [|x a IH]; intros [|m mask]; try by constructor.
  apply bytes_ok_cons in Ha as [Hx Ha]. apply bytes_ok_cons. split; [by apply land_byte|by apply IH].
Qed.

(** The bits after the prefix are cleared. *)
Lemma masked_addr_bits a shift :
  bytes_ok a -> 0 <= shift ->
  addr_bits (masked a (mask_bytes (length a) shift))
    = take (Z.to_nat shift) (addr_bits a) ++ replicate (8 * length a - Z.to_nat shift) false.
Proof.
  revert shift. induction a as [|x a IH]; intros shift Ha Hs; [by destruct (Z.to_nat shift)|].
  apply bytes_ok_cons in Ha as [Hx Ha]. cbn [length mask_bytes masked zip_with].
  set (s := if 8 <? shift then 8 else shift).
  assert (Hs8 : 0 <= s <= 8 /\ 0 <= shift - s /\ (s < 8 -> shift = s) /\ (s <= shift))
    by (unfold s; destruct (Z.ltb_spec 8 shift); lia).
  clearbody s. fold (masked a (mask_bytes (length a) (shift - s))).
  change (addr_bits (?z :: ?l)) with (byte_bits z ++ addr_bits l).
  rewrite masked_bits, IH by (done || lia). rewrite take_app, byte_bits_length.
  destruct (Z.eq_dec s 8) as [->|Hne].
  - rewrite (take_ge (byte_bits x)), (take_ge (byte_bits x)) by (rewrite byte_bits_length; lia).
    change (8 - Z.to_nat 8)%nat with 0%nat. cbn [replicate]. rewrite app_nil_r, <- app_assoc.
    replace (Z.to_nat shift - 8)%nat with (Z.to_nat (shift - 8)) by lia.
    by replace (8 * length a - Z.to_nat (shift - 8))%nat with (8 * S (length a) - Z.to_nat shift)%nat by lia.
  - replace shift with s by lia. replace (Z.to_nat (s - s)) with 0%nat by lia.
    replace (Z.to_nat s - 8)%nat with 0%nat by lia. rewrite !take_0. cbn [app]. rewrite app_nil_r, <- app_assoc.
    rewrite <- replicate_add. by replace (8 - Z.to_nat s + (8 * length a - 0))%nat
      with (8 * S (length a) - Z.to_nat s)%nat by lia.
Qed.

(** Whether the address has bits after the prefix. *)
Definition host_part_zero (a : list Z) (k : nat) : Prop :=
  drop k (addr_bits a) = replicate (8 * length a - k) false.

Lemma masked_same a shift :
  bytes_ok a -> 0 <= shift ->
  masked a (mask_bytes (length a) shift) = a <-> host_part_zero a (Z.to_nat shift).
Proof.
  intros Ha Hs. pose proof (masked_addr_bits a shift Ha Hs) as E. unfold host_part_zero. split.
  - intros Em. rewrite Em in E. rewrite <- (take_drop (Z.to_nat shift) (addr_bits a)) in E at 1.
    by apply app_inv_head in E.
  - intros Eh. apply addr_bits_inj; [by apply masked_bytes_ok|done|]. rewrite E, <- Eh. apply take_drop.
Qed.

(** ** IPv4 masks, byte by byte *)

Lemma u32_bytes_land x y : u32_bytes (Z.land x y) = masked (u32_bytes x) (u32_bytes y).
Proof.
  unfold u32_bytes. cbn [masked zip_with]. rewrite !Z.shiftr_land.
  assert (E : forall a b, Z.land (Z.land a b) 0xff = Z.land (Z.land a 0xff) (Z.land b 0xff)).
  { intros a b. apply Z.bits_inj'. intros i _. rewrite !Z.land_spec.
    destruct (Z.testbit a i), (Z.testbit b i), (Z.testbit 0xff i); done. }
  by rewrite <- !E.
Qed.

Lemma u32_bytes_mask k : 0 <= k <= 32 -> u32_bytes (cidr_mask k) = mask_bytes 4 k.
Proof.
  intros Hk. assert (H : 0 <= k < 33) by lia. revert k H Hk.
  intros k H _. revert k H. apply (range_decide 33 (fun k => u32_bytes (cidr_mask k) = mask_bytes 4 k)).
  vm_compute. reflexivity.
Qed.

Lemma u32_bytes_inj x y : 0 <= x < 2 ^ 32 -> 0 <= y < 2 ^ 32 -> u32_bytes x = u32_bytes y -> x = y.
Proof.
  intros Hx Hy. destruct (u32_octets x Hx) as (a & b & c & d & ? & ? & ? & ? & ->).
  destruct (u32_octets y Hy) as (a' & b' & c' & d' & ? & ? & ? & ? & ->).
  rewrite !u32_bytes_of_octets by done. by intros [= -> -> -> ->].
Qed.

Lemma u32_bytes_ok x : bytes_ok (u32_bytes x).
Proof.
  unfold u32_bytes, bytes_ok, byte_ok. repeat (constructor; [rewrite land_ff; apply Z.mod_pos_bound; lia|]).
  constructor.
Qed.

Lemma land_u32 x y : 0 <= x < 2 ^ 32 -> 0 <= Z.land x y < 2 ^ 32.
Proof.
  intros Hx. assert (E : x = Z.land x (Z.ones 32)) by (rewrite Z.land_ones, Z.mod_small; lia).
  rewrite E, <- Z.land_assoc, (Z.land_comm (Z.ones 32) y), Z.land_assoc, Z.land_ones by lia.
  apply Z.mod_pos_bound. lia.
Qed.

(** * Parsing a block and matching an address *)

Definition ip_ok (sa : sockaddr) : Prop :=
  match sa with
  | Sin _ a => 0 <= a < 2 ^ 32
  | Sin6 _ a => bytes_ok a /\ length a = 16%nat
  | _ => False
  end.

(** The bytes of an address in network order. *)
Definition sa_bytes (sa : sockaddr) : list Z :=
  match sa with Sin _ a => u32_bytes a | Sin6 _ a => a | _ => [] end.

(** A client's address as it is compared: an IPv4 address mapped into IPv6 is
    the IPv4 address. *)
Definition client_key (sa : sockaddr) : Z * list Z :=
  match sa with
  | Sin6 _ a => if v4mapped a then (AF_INET, drop 12 a) else (AF_INET6, a)
  | _ => (sa_family sa, sa_bytes sa)
  end.

Definition same_prefix (k : Z) (sa client : sockaddr) : Prop :=
  (client_key client).1 = sa_family sa /\
  take (Z.to_nat k) (addr_bits (client_key client).2) = take (Z.to_nat k) (addr_bits (sa_bytes sa)).

#[export] Instance same_prefix_dec k sa client : Decision (same_prefix k sa client).
Proof. unfold same_prefix. apply _. Defined.
#[export] Instance host_part_zero_dec a k : Decision (host_part_zero a k).
Proof. unfold host_part_zero. apply _. Defined.

Lemma match_in k a b :
  0 <= a < 2 ^ 32 -> 0 <= b < 2 ^ 32 -> 0 <= k <= 32 ->
  (Z.land b (cidr_mask k) =? Z.land a (cidr_mask k))
  = bool_decide (take (Z.to_nat k) (addr_bits (u32_bytes b)) = take (Z.to_nat k) (addr_bits (u32_bytes a))).
Proof.
  intros Ha Hb Hk. pose proof (masked_prefix (u32_bytes a) (u32_bytes b) k (u32_bytes_ok a) (u32_bytes_ok b)) as E.
  cbn [length u32_bytes] in E. fold (u32_bytes a) (u32_bytes b) in E.
  rewrite <- u32_bytes_mask, <- !u32_bytes_land in E by lia. specialize (E eq_refl ltac:(lia)).
  apply Bool.eq_iff_eq_true. rewrite Z.eqb_eq, bool_decide_eq_true, <- E.
  split; [by intros ->|]. apply u32_bytes_inj; by apply land_u32.
Qed.

(** What a client's address is compared as. *)
Lemma match_key_in client b :
  ip_ok client -> client_key client = (AF_INET, b) ->
  exists x, match_key client = Ok (AF_INET, x) /\ 0 <= x < 2 ^ 32 /\ u32_bytes x = b.
Proof.
  intros Hok. destruct client as [p x|p a| |]; cbn [ip_ok client_key match_key] in *; try done.
  - intros [= <-]. by exists x.
  - destruct (v4mapped a) eqn:Hm; [|done]. intros [= <-]. destruct Hok as [Hb Hl].
    do 17 (destruct a as [|? a]; try discriminate Hl). clear Hl.
    match goal with |- context [at_ [_; _; _; _; _; _; _; _; _; _; _; _; ?x; ?y; ?z; ?w] 12] =>
      exists (of_octets x y z w); rename x into p12, y into p13, z into p14, w into p15 end.
    repeat (apply bytes_ok_cons in Hb as [? Hb]). cbn [drop skipn].
    rewrite u32_bytes_of_octets by done. split; [|by split; [apply of_octets_bound|]].
    rewrite <- of_octets_htonl by done.
    change (at_ _ 12) with (Ok p12). change (at_ _ 13) with (Ok p13).
    change (at_ _ 14) with (Ok p14). change (at_ _ 15) with (Ok p15). cbn [mbind outcome_bind].
    do 3 f_equal. rewrite !Z.shiftl_mul_pow2 by lia. unfold byte_ok in *.
    rewrite (to_u32_id (p12 * 2 ^ 24)) by lia. rewrite to_u32_id by lia. lia.
Qed.

Lemma match_key_in6 client b :
  ip_ok client -> client_key client = (AF_INET6, b) ->
  exists p, client = Sin6 p b /\ match_key client = Ok (AF_INET6, 0) /\ bytes_ok b /\ length b = 16%nat.
Proof.
  intros Hok. destruct client as [p x|p a| |]; cbn [ip_ok client_key match_key] in *; try done.
  destruct (v4mapped a); [done|]. intros [= <-]. exists p. tauto.
Qed.

Lemma client_key_family client :
  ip_ok client -> (client_key client).1 = AF_INET \/ (client_key client).1 = AF_INET6.
Proof.
  intros Hok. destruct client as [p x|p a| |]; cbn in *; try done; [by left|].
  destruct (v4mapped a); [by left|by right].
Qed.

(** One block. *)
Definition block (k : Z) (sa : sockaddr) : cidr_t :=
  match sa with
  | Sin _ a => CidrIn (Z.land a (cidr_mask k)) (cidr_mask k)
  | _ => CidrIn6 (masked (sa_bytes sa) (mask_bytes 16 k)) (mask_bytes 16 k)
  end.

Lemma cidr_match_key k sa client fam b :
  ip_ok sa -> ip_ok client -> 0 <= k <= 8 * Z.of_nat (length (sa_bytes sa)) ->
  client_key client = (fam, b) ->
  ngx_cidr_match client [block k sa]
    = Ok (if decide (fam = sa_family sa /\
                     take (Z.to_nat k) (addr_bits b) = take (Z.to_nat k) (addr_bits (sa_bytes sa)))
          then NGX_OK else NGX_DECLINED).
Proof.
  intros Hsa Hc Hk Ek. unfold ngx_cidr_match. pose proof (client_key_family client Hc) as Hfam.
  rewrite Ek in Hfam. cbn [fst snd] in *. destruct Hfam as [-> | ->].
  - destruct (match_key_in client b Hc Ek) as (x & -> & Hx & <-). cbn [mbind outcome_bind].
    destruct sa as [p a|p a| |]; try (exfalso; exact Hsa); cbn [block sa_family sa_bytes ip_ok cidr_match_loop] in *.
    + unfold cidr_matches. cbn [cidr_family]. rewrite Z.eqb_refl. cbn [negb mbind outcome_bind].
      rewrite match_in by (done || cbn in Hk; lia).
      case_decide as D; case_bool_decide as D'; try done; [by destruct D|]. by destruct D.
    + unfold cidr_matches. cbn [cidr_family]. change (AF_INET6 =? AF_INET) with false. cbn [negb mbind outcome_bind].
      case_decide as D; [|done]. by destruct D.
  - destruct (match_key_in6 client b Hc Ek) as (p' & -> & -> & Hb & Hl). cbn [mbind outcome_bind].
    destruct sa as [p a|p a| |]; try (exfalso; exact Hsa); cbn [block sa_family sa_bytes ip_ok cidr_match_loop] in *.
    + unfold cidr_matches. cbn [cidr_family]. change (AF_INET =? AF_INET6) with false. cbn [negb mbind outcome_bind].
      case_decide as D; [|done]. by destruct D.
    + destruct Hsa as [Ha Hla]. unfold cidr_matches. cbn [cidr_family]. rewrite Z.eqb_refl. cbn [negb].
      rewrite <- Hla at 1 2 3. rewrite match6_spec by (done || lia). cbn [mbind outcome_bind].
      case_decide as D; case_bool_decide as D'; try done; [by destruct D|]. by destruct D.
Qed.

Lemma cidr_match_block k sa client :
  ip_ok sa -> ip_ok client -> 0 <= k <= 8 * Z.of_nat (length (sa_bytes sa)) ->
  ngx_cidr_match client [block k sa]
    = Ok (if decide (same_prefix k sa client) then NGX_OK else NGX_DECLINED).
Proof.
  intros Hsa Hc Hk. destruct (client_key client) as [fam b] eqn:Ek.
  rewrite (cidr_match_key k sa client fam b Hsa Hc Hk Ek). unfold same_prefix at 1.
  do 2 case_decide; unfold same_prefix in *; rewrite Ek in *; tauto.
Qed.

(** The text of a block. *)
Lemma ptocidr_block t ks k sa n u :
  ngx_parse_addr true t (length t) = Ok (NGX_OK, Some (mk_addr sa n)) -> "/"%ch ∉ t -> ip_ok sa ->
  ngx_atoi ks (length ks) = Ok k -> 0 <= k <= 8 * Z.of_nat (length (sa_bytes sa)) -> length u = 16%nat ->
  ngx_ptocidr (t ++ "/"%ch :: ks) u
    = Ok (if decide (host_part_zero (sa_bytes sa) (Z.to_nat k)) then NGX_OK else NGX_DONE, Some (block k sa)).
Proof.
  intros Hp Hsl Hsa Hks Hk Hu. unfold ngx_ptocidr.
  rewrite strlchr_found by (try done; rewrite length_app; cbn; lia). cbn [mbind outcome_bind default id].
  rewrite inet_addr_app. unfold ngx_parse_addr in Hp.
  destruct (ngx_inet_addr t (length t)) as [v| |]; try discriminate Hp. cbn [mbind outcome_bind] in *.
  assert (Ek : ngx_atoi (drop (S (length t)) (t ++ "/"%ch :: ks)) (length (t ++ "/"%ch :: ks) - S (length t)) = Ok k).
  { rewrite <- Nat.add_1_r, <- drop_drop, drop_app_length. cbn [drop skipn].
    rewrite length_app. cbn [length]. by replace (_ - _)%nat with (length ks) by lia. }
  destruct (Z.eqb_spec v INADDR_NONE) as [Ev|Hv]; [rewrite Ev in *; clear Ev|]; cbn [negb] in *.
  - assert (Hu' : length (u32_bytes INADDR_NONE ++ drop 4 u) = 16%nat) by (rewrite length_app, length_drop; cbn; lia).
    destruct (inet6_addr_same t ("/"%ch :: ks) (replicate 16 0) _ eq_refl Hu') as (rc & m & m' & E1 & E2 & E3).
    rewrite E2. rewrite E1 in Hp. cbn [mbind outcome_bind] in *.
    destruct (Z.eqb_spec rc NGX_OK) as [->|]; cbn [negb] in *; [|discriminate Hp].
    injection Hp as <- <-. rewrite <- (E3 eq_refl). cbn [sa_bytes ip_ok block] in *. destruct Hsa as [Hb Hl].
    rewrite Ek. cbn [mbind outcome_bind]. rewrite (proj2 (Z.eqb_neq k NGX_ERROR)) by ilia.
    rewrite (proj2 (Z.ltb_ge 128 k)) by lia. rewrite cidr_mask6_spec, Hl. do 2 f_equal.
    pose proof (masked_same m k Hb ltac:(lia)) as E. rewrite Hl in E.
    case_decide as D; case_bool_decide as D'; try done; exfalso; tauto.
  - injection Hp as <- <-. cbn [sa_bytes ip_ok block] in *. change (length (u32_bytes v)) with 4%nat in Hk.
    rewrite Ek. cbn [mbind outcome_bind]. rewrite (proj2 (Z.eqb_neq k NGX_ERROR)) by ilia.
    rewrite (proj2 (Z.ltb_ge 32 k)) by lia.
    pose proof (masked_same (u32_bytes v) k (u32_bytes_ok v) ltac:(lia)) as E.
    change (length (u32_bytes v)) with 4%nat in E. rewrite <- u32_bytes_mask, <- u32_bytes_land in E by lia.
    destruct (Z.eqb_spec v (Z.land v (cidr_mask k))) as [Em|Em].
    + rewrite decide_True; [by rewrite <- Em|]. apply E. by rewrite <- Em.
    + rewrite decide_False; [done|]. intros H. apply E in H. apply Em. symmetry.
      apply u32_bytes_inj; [by apply land_u32|done|done].
Qed.

Theorem cidr_match_prefix t ks k sa n u client :
  ngx_parse_addr true t (length t) = Ok (NGX_OK, Some (mk_addr sa n)) -> "/"%ch ∉ t -> ip_ok sa ->
  ngx_atoi ks (length ks) = Ok k -> 0 <= k <= 8 * Z.of_nat (length (sa_bytes sa)) -> length u = 16%nat ->
  ip_ok client ->
  exists c, ngx_ptocidr (t ++ "/"%ch :: ks) u
      = Ok (if decide (host_part_zero (sa_bytes sa) (Z.to_nat k)) then NGX_OK else NGX_DONE, Some c) /\
    ngx_cidr_match client [c] = Ok (if decide (same_prefix k sa client) then NGX_OK else NGX_DECLINED).
Proof.
  intros. exists (block k sa). split; [by eapply ptocidr_block|by apply cidr_match_block].
Qed.

Lemma cidr_match_prefix_witness :
  exists c, ngx_ptocidr (bytes "10.1.2.3" ++ "/"%ch :: bytes "20") (replicate 16 9)
      = Ok (if decide (host_part_zero (sa_bytes (Sin 0 (of_octets 10 1 2 3))) (Z.to_nat 20)) then NGX_OK else NGX_DONE,
            Some c) /\
    ngx_cidr_match (Sin 80 (of_octets 10 1 15 255)) [c]
      = Ok (if decide (same_prefix 20 (Sin 0 (of_octets 10 1 2 3)) (Sin 80 (of_octets 10 1 15 255)))
            then NGX_OK else NGX_DECLINED).
Proof.
  apply (cidr_match_prefix (bytes "10.1.2.3") (bytes "20") 20 (Sin 0 (of_octets 10 1 2 3)) sizeof_sockaddr_in);
    [reflexivity| |split; [discriminate|reflexivity]|reflexivity|split; discriminate|reflexivity
    |split; [discriminate|reflexivity]].
  apply (bool_decide_eq_true_1 ("/"%ch ∉ bytes "10.1.2.3")). reflexivity.
Defined.

Example mapped_client_matches : ngx_cidr_match (Sin6 0 (replicate 10 0 ++ [255; 255; 10; 1; 2; 3]))
  [CidrIn6 (replicate 16 0) (replicate 16 0); CidrIn (of_octets 10 0 0 0) 255] = Ok NGX_OK.
Proof. reflexivity. Qed.
