(* ===== verification/Escape.v ===== *)
(** Component "escaping": ngx_escape_uri, ngx_unescape_uri, ngx_escape_html and
    ngx_escape_json of src/core/ngx_string.c. *)

From stdpp Require Import base numbers list option strings.
From Stdlib Require Import ZArith Lia.
From S2P Require Import Prelude Atoi.
Local Open Scope Z_scope.

(** * Definitions *)

Definition NGX_ESCAPE_URI : Z := 0.
Definition NGX_ESCAPE_ARGS : Z := 1.
Definition NGX_ESCAPE_URI_COMPONENT : Z := 2.
Definition NGX_ESCAPE_HTML : Z := 3.
Definition NGX_ESCAPE_REFRESH : Z := 4.
Definition NGX_ESCAPE_MEMCACHED : Z := 5.
Definition NGX_ESCAPE_MAIL_AUTH : Z := 6.
Definition NGX_UNESCAPE_URI : Z := 1.
Definition NGX_UNESCAPE_REDIRECT : Z := 2.

(** The result of the two-pass escaping functions: a number of characters when
    [dst == NULL], and otherwise the bytes written from [dst] to the pointer
    returned. *)
Inductive escaped : Type :=
| Count (n : Z)
| Written (out : list Z).

(** ** ngx_escape_uri: bit [c & 0x1f] of word [c >> 5] says that [c] is escaped *)

Definition uri : list Z :=
  [0xffffffff; 0x80000029; 0x00000000; 0x80000000;
   0xffffffff; 0xffffffff; 0xffffffff; 0xffffffff].
Definition args : list Z :=
  [0xffffffff; 0x88000869; 0x00000000; 0x80000000;
   0xffffffff; 0xffffffff; 0xffffffff; 0xffffffff].
Definition uri_component : list Z :=
  [0xffffffff; 0xfc009fff; 0x78000001; 0xb8000001;
   0xffffffff; 0xffffffff; 0xffffffff; 0xffffffff].
Definition html : list Z :=
  [0xffffffff; 0x000000ad; 0x00000000; 0x80000000;
   0xffffffff; 0xffffffff; 0xffffffff; 0xffffffff].
Definition refresh : list Z :=
  [0xffffffff; 0x00000085; 0x00000000; 0x80000000;
   0xffffffff; 0xffffffff; 0xffffffff; 0xffffffff].
Definition memcached : list Z :=
  [0xffffffff; 0x00000021; 0x00000000; 0x00000000;
   0x00000000; 0x00000000; 0x00000000; 0x00000000].

(** [map] *)
Definition escape_map : list (list Z) :=
  [uri; args; uri_component; html; refresh; memcached; memcached].

(** [escape[c >> 5] & (1U << (c & 0x1f))] *)
Definition escape_test (escape : list Z) (c : Z) : outcome bool :=
  w ← at_ escape (Z.shiftr c 5);
  Ok (negb (Z.land w (to_u32 (Z.shiftl 1 (Z.land c 0x1f))) =? 0)).

(** The first pass: the number of characters to be escaped. *)
Fixpoint escape_uri_count (escape src : list Z) (size : nat) (n : Z) : outcome Z :=
  match size with
  | O => Ok n
  | S size' =>
      match src with
      | [] => UB
      | c :: src' =>
          b ← escape_test escape c;
          escape_uri_count escape src' size' (if b : bool then to_u64 (n + 1) else n)
      end
  end.

(** The second pass: the bytes stored through [dst]. *)
Fixpoint escape_uri_write (escape src : list Z) (size : nat) : outcome (list Z) :=
  match size with
  | O => Ok []
  | S size' =>
      match src with
      | [] => UB
      | c :: src' =>
          b ← escape_test escape c;
          if b : bool then
            h ← at_ HEX_digits (Z.shiftr c 4);
            l ← at_ HEX_digits (Z.land c 0xf);
            rest ← escape_uri_write escape src' size';
            Ok ("%"%ch :: h :: l :: rest)
          else
            rest ← escape_uri_write escape src' size';
            Ok (c :: rest)
      end
  end.

Definition ngx_escape_uri (dst_is_null : bool) (src : list Z) (size : nat) (type : Z)
  : outcome escaped :=
  match escape_map !! Z.to_nat type with
  | None => UB
  | Some escape =>
      if dst_is_null then
        n ← escape_uri_count escape src size 0; Ok (Count n)
      else
        out ← escape_uri_write escape src size; Ok (Written out)
  end.

(** ** ngx_unescape_uri

    Source and destination are positions in one memory, so that the model also
    covers the callers that unescape in place. *)

Inductive unescape_state : Type := sw_usual | sw_quoted | sw_quoted_second.

Record unescape : Type := mk_unescape {
  u_mem : list Z;
  u_d : nat;
  u_state : unescape_state;
  u_decoded : Z
}.

(** What an iteration ends with: the next iteration or [goto done]. *)
Inductive unescape_step : Type :=
| Next (u : unescape)
| Done (mem : list Z) (d : nat).

(** [*d++ = c] *)
Definition put (mem : list Z) (d : nat) (c : Z) : outcome (list Z * nat) :=
  mem' ← store mem d c; Ok (mem', S d).

(** [*d++ = '%'; *d++ = *(s - 2); *d++ = *(s - 1);] *)
Definition put_quoted (mem : list Z) (d s : nat) : outcome (list Z * nat) :=
  '(mem, d) ← put mem d "%"%ch;
  c2 ← deref mem (s - 2); '(mem, d) ← put mem d c2;
  c1 ← deref mem (s - 1); put mem d c1.

(** The body of the [while] loop; [s] is the position after the character
    read. *)
Definition unescape_body (type : Z) (u : unescape) (s : nat) : outcome unescape_step :=
  let '(mk_unescape mem d state decoded) := u in
  let flag f := negb (Z.land type f =? 0) in
  let next st dec '(m, d') := Next (mk_unescape m d' st dec) in
  let finish '(m, d') := Done m d' in
  ch ← deref mem (s - 1);
  match state with
  | sw_usual =>
      if (ch =? "?"%ch) && flag (Z.lor NGX_UNESCAPE_URI NGX_UNESCAPE_REDIRECT) then
        finish <$> put mem d ch
      else if ch =? "%"%ch then Ok (next sw_quoted decoded (mem, d))
      else next sw_usual decoded <$> put mem d ch
  | sw_quoted =>
      if ("0"%ch <=? ch) && (ch <=? "9"%ch) then
        Ok (next sw_quoted_second (to_u8 (ch - "0"%ch)) (mem, d))
      else
        let c := to_u8 (Z.lor ch 0x20) in
        if ("a"%ch <=? c) && (c <=? "f"%ch) then
          Ok (next sw_quoted_second (to_u8 (c - "a"%ch + 10)) (mem, d))
        else next sw_usual decoded <$> put mem d ch
  | sw_quoted_second =>
      if ("0"%ch <=? ch) && (ch <=? "9"%ch) then
        let ch := to_u8 (Z.shiftl decoded 4 + ch - "0"%ch) in
        if flag NGX_UNESCAPE_REDIRECT then
          if ("%"%ch <? ch) && (ch <? 0x7f) then next sw_usual decoded <$> put mem d ch
          else next sw_usual decoded <$> put_quoted mem d s
        else next sw_usual decoded <$> put mem d ch
      else
        let c := to_u8 (Z.lor ch 0x20) in
        if ("a"%ch <=? c) && (c <=? "f"%ch) then
          let ch := to_u8 (Z.shiftl decoded 4 + c - "a"%ch + 10) in
          if flag NGX_UNESCAPE_URI then
            if ch =? "?"%ch then finish <$> put mem d ch
            else next sw_usual decoded <$> put mem d ch
          else if flag NGX_UNESCAPE_REDIRECT then
            if ch =? "?"%ch then finish <$> put mem d ch
            else if ("%"%ch <? ch) && (ch <? 0x7f) then next sw_usual decoded <$> put mem d ch
            else next sw_usual decoded <$> put_quoted mem d s
          else next sw_usual decoded <$> put mem d ch
        else Ok (next sw_usual decoded (mem, d))
  end.

(** The loop: the memory, [*dst] and [*src] on return. *)
Fixpoint unescape_loop (type : Z) (u : unescape) (s size : nat)
  : outcome (list Z * nat * nat) :=
  match size with
  | O => Ok (u_mem u, u_d u, s)
  | S size' =>
      r ← unescape_body type u (S s);
      match r with
      | Next u' => unescape_loop type u' (S s) size'
      | Done mem d => Ok (mem, d, S s)
      end
  end.

Definition ngx_unescape_uri (mem : list Z) (dst src size : nat) (type : Z)
  : outcome (list Z * nat * nat) :=
  unescape_loop type (mk_unescape mem dst sw_usual 0) src size.

(** ** ngx_escape_html *)

(** The double quote, which has no literal in the notation for characters. *)
Definition dquote : Z := 0x22.

(** [sizeof(literal) - 2] in the first pass; [sizeof] counts the NUL. *)
Definition html_extra (c : Z) : Z :=
  if c =? "<"%ch then 5 - 2
  else if c =? ">"%ch then 5 - 2
  else if c =? "&"%ch then 6 - 2
  else if c =? dquote then 7 - 2
  else 0.

(** The bytes stored for a character in the second pass. *)
Definition html_entity (c : Z) : list Z :=
  if c =? "<"%ch then ["&"%ch; "l"%ch; "t"%ch; ";"%ch]
  else if c =? ">"%ch then ["&"%ch; "g"%ch; "t"%ch; ";"%ch]
  else if c =? "&"%ch then ["&"%ch; "a"%ch; "m"%ch; "p"%ch; ";"%ch]
  else if c =? dquote then ["&"%ch; "q"%ch; "u"%ch; "o"%ch; "t"%ch; ";"%ch]
  else [c].

(** The two loops, shared by the HTML and the JSON function: a count that adds
    [extra c] for each character and an output that appends [f c]. *)
Fixpoint count_loop (extra : Z -> Z) (src : list Z) (size : nat) (len : Z) : outcome Z :=
  match size with
  | O => Ok len
  | S size' =>
      match src with
      | [] => UB
      | c :: src' => count_loop extra src' size' (to_u64 (len + extra c))
      end
  end.

Fixpoint write_loop (f : Z -> list Z) (src : list Z) (size : nat) : outcome (list Z) :=
  match size with
  | O => Ok []
  | S size' =>
      match src with
      | [] => UB
      | c :: src' => rest ← write_loop f src' size'; Ok (f c ++ rest)
      end
  end.

Definition ngx_escape_html (dst_is_null : bool) (src : list Z) (size : nat) : outcome escaped :=
  if dst_is_null then n ← count_loop html_extra src size 0; Ok (Count n)
  else out ← write_loop html_entity src size; Ok (Written out).

(** ** ngx_escape_json *)

Definition json_extra (c : Z) : Z :=
  if (c =? 0x5c) || (c =? dquote) then 1
  else if c <=? 0x1f then 7 - 2
  else 0.

Definition json_chars (c : Z) : list Z :=
  if 0x1f <? c then
    (if (c =? 0x5c) || (c =? dquote) then [0x5c] else []) ++ [c]
  else
    let lo := Z.land c 0xf in
    [0x5c; "u"%ch; "0"%ch; "0"%ch;
     to_u8 ("0"%ch + Z.shiftr c 4);
     to_u8 (if lo <? 10 then "0"%ch + lo else "A"%ch + lo - 10)].

Definition ngx_escape_json (dst_is_null : bool) (src : list Z) (size : nat) : outcome escaped :=
  if dst_is_null then n ← count_loop json_extra src size 0; Ok (Count n)
  else out ← write_loop json_chars src size; Ok (Written out).

(** * Reference definitions *)

(** The characters the comments over the tables list, with ';' added to those
    of [args] and '%' left out of those of [refresh], as the tables have it. *)
Definition ctl (c : Z) : bool := (c <=? 0x1f) || (0x7f <=? c).
Definition escaped_char (type c : Z) : bool :=
  if type =? NGX_ESCAPE_URI then ctl c || existsb (Z.eqb c) (bytes " #%?")
  else if type =? NGX_ESCAPE_ARGS then ctl c || existsb (Z.eqb c) (bytes " #%&+;?")
  else if type =? NGX_ESCAPE_URI_COMPONENT then
    negb ((("a"%ch <=? c) && (c <=? "z"%ch)) || (("A"%ch <=? c) && (c <=? "Z"%ch))
          || (("0"%ch <=? c) && (c <=? "9"%ch)) || existsb (Z.eqb c) (bytes "-._~"))
  else if type =? NGX_ESCAPE_HTML then
    ctl c || (c =? dquote) || existsb (Z.eqb c) (bytes " #%'")
  else if type =? NGX_ESCAPE_REFRESH then
    ctl c || (c =? dquote) || existsb (Z.eqb c) (bytes " '")
  else (c <=? 0x1f) || existsb (Z.eqb c) (bytes " %").

Definition HEX (v : Z) : Z := if v <? 10 then "0"%ch + v else "A"%ch + v - 10.

Definition percent_encode (type c : Z) : list Z :=
  if escaped_char type c then ["%"%ch; HEX (c / 16); HEX (c mod 16)] else [c].

(** What a quoted character of value [v], spelled [x] and [y], becomes, and
    whether unescaping stops after it. *)
Definition emit (type x y v : Z) : list Z * bool :=
  if (v =? "?"%ch) && negb (type =? 0) then ([v], true)
  else if (type =? NGX_UNESCAPE_REDIRECT) && negb (("%"%ch <? v) && (v <? 0x7f))
  then (["%"%ch; x; y], false)
  else ([v], false).

Definition then_ (o : list Z) (k : nat) (r : list Z * nat) : list Z * nat :=
  (o ++ r.1, k + r.2)%nat.

(** Unescaping of a sequence: the output and the number of bytes consumed. *)
Fixpoint unescape_ref (type : Z) (l : list Z) : list Z * nat :=
  match l with
  | [] => ([], 0%nat)
  | c :: l1 =>
      if (c =? "?"%ch) && negb (type =? 0) then ([c], 1%nat)
      else if c =? "%"%ch then
        match l1 with
        | [] => ([], 1%nat)
        | x :: l2 =>
            match hex_digit x with
            | None => then_ [x] 2 (unescape_ref type l2)
            | Some hi =>
                match l2 with
                | [] => ([], 2%nat)
                | y :: l3 =>
                    match hex_digit y with
                    | None => then_ [] 3 (unescape_ref type l3)
                    | Some lo =>
                        let '(o, stop) := emit type x y (16 * hi + lo) in
                        if stop then (o, 3%nat) else then_ o 3 (unescape_ref type l3)
                    end
                end
            end
        end
      else then_ [c] 1 (unescape_ref type l1)
  end.

(** [l] is stored from position [s] of the memory. *)
Definition src_at (mem : list Z) (s : nat) (l : list Z) : Prop :=
  forall i c, l !! i = Some c -> mem !! (s + i)%nat = Some c.

(** The destination does not run ahead of the source (unescaping in place), or
    lies behind the source with room for as many bytes. *)
Definition room (d s n m : nat) : Prop :=
  (s + n <= m /\ (d <= s \/ (s + n <= d /\ d + n <= m)))%nat.

(** A decoder for the strings [ngx_escape_json] produces: the characters of a
    JSON string, as far as it uses the syntax. *)
Fixpoint json_unescape (l : list Z) : option (list Z) :=
  match l with
  | [] => Some []
  | c :: l1 =>
      if c =? 0x5c then
        match l1 with
        | e :: l2 =>
            if (e =? 0x5c) || (e =? dquote) then cons e <$> json_unescape l2
            else if e =? "u"%ch then
              match l2 with
              | h3 :: h2 :: h1 :: h0 :: l3 =>
                  v3 ← hex_digit h3; v2 ← hex_digit h2; v1 ← hex_digit h1; v0 ← hex_digit h0;
                  if (v3 =? 0) && (v2 =? 0) then cons (16 * v1 + v0) <$> json_unescape l3
                  else None
              | _ => None
              end
            else None
        | [] => None
        end
      else if (c =? dquote) || (c <=? 0x1f) then None
      else cons c <$> json_unescape l1
  end.

(** A decoder for the four entities. *)
Fixpoint html_unescape (l : list Z) : option (list Z) :=
  match l with
  | [] => Some []
  | c :: l1 =>
      if c =? "&"%ch then
        match l1 with
        | a :: b :: e :: l2 =>
            if bool_decide ([a; b; e] = bytes "lt;") then cons "<"%ch <$> html_unescape l2
            else if bool_decide ([a; b; e] = bytes "gt;") then cons ">"%ch <$> html_unescape l2
            else
              match l2 with
              | g :: l3 =>
                  if bool_decide ([a; b; e; g] = bytes "amp;") then cons "&"%ch <$> html_unescape l3
                  else
                    match l3 with
                    | h :: l4 =>
                        if bool_decide ([a; b; e; g; h] = bytes "quot;")
                        then cons dquote <$> html_unescape l4 else None
                    | [] => None
                    end
              | [] => None
              end
        | _ => None
        end
      else if (c =? "<"%ch) || (c =? ">"%ch) || (c =? dquote) then None
      else cons c <$> html_unescape l1
  end.

(** * ngx_escape_uri *)

Definition escape_test_agrees (type c : Z) : bool :=
  match escape_map !! Z.to_nat type with
  | Some escape =>
      match escape_test escape c with
      | Ok b => Bool.eqb b (escaped_char type c)
      | _ => false
      end
  | None => false
  end.

Lemma escape_map_test type c :
  0 <= type < 7 -> byte_ok c ->
  exists escape, escape_map !! Z.to_nat type = Some escape
    /\ escape_test escape c = Ok (escaped_char type c).
Proof.
  intros Ht Hc.
  assert (H : escape_test_agrees type c = true).
  { apply (byte_forall (escape_test_agrees type)); [|done].
    apply (range_forall 7 (fun type => forallb (escape_test_agrees type) (seqZ 0 256)));
      [vm_compute; reflexivity|lia]. }
  unfold escape_test_agrees in H. destruct (escape_map !! _) as [e|]; [|done].
  exists e. split; [done|]. destruct (escape_test e c); [|done..].
  by apply Bool.eqb_prop in H as ->.
Qed.

Lemma hex_at v : 0 <= v < 16 -> at_ HEX_digits v = Ok (HEX v).
Proof.
  intros Hv. apply at_lookup; [lia|]. revert v Hv.
  apply (range_decide 16 (fun v => HEX_digits !! Z.to_nat v = Some (HEX v))).
  vm_compute. reflexivity.
Qed.

Lemma nibbles c : byte_ok c ->
  Z.shiftr c 4 = c / 16 /\ Z.land c 0xf = c mod 16 /\ 0 <= c / 16 < 16.
Proof.
  intros Hc. change 0xf with (Z.ones 4). rewrite Z.land_ones by lia.
  rewrite Z.shiftr_div_pow2 by lia. change (2 ^ 4) with 16. unfold byte_ok in Hc.
  repeat split; try (Z.div_mod_to_equations; lia).
Qed.

Lemma escape_uri_write_spec type escape src size :
  0 <= type < 7 -> bytes_ok src -> escape_map !! Z.to_nat type = Some escape ->
  (size <= length src)%nat ->
  escape_uri_write escape src size = Ok (flat_map (percent_encode type) (take size src)).
Proof.
  intros Ht Hsrc He. revert size. induction Hsrc as [|c src Hc Hsrc IH]; intros [|size] Hsz;
    cbn in Hsz |- *; try done; [lia|].
  destruct (escape_map_test type c Ht Hc) as (e & He' & Etest).
  rewrite He in He'. injection He' as <-. rewrite Etest. cbn.
  destruct (nibbles c Hc) as (-> & -> & H16).
  unfold percent_encode at 1. destruct (escaped_char type c).
  - rewrite !hex_at by (try apply Z.mod_pos_bound; lia). cbn. rewrite IH by lia. done.
  - cbn. rewrite IH by lia. done.
Qed.

Lemma escape_uri_count_spec type escape src size n :
  0 <= type < 7 -> bytes_ok src -> escape_map !! Z.to_nat type = Some escape ->
  (size <= length src)%nat -> 0 <= n -> n + Z.of_nat size < 2 ^ 64 ->
  exists k, escape_uri_count escape src size n = Ok (n + Z.of_nat k)
    /\ length (flat_map (percent_encode type) (take size src)) = (size + 2 * k)%nat.
Proof.
  intros Ht Hsrc He. revert size n. induction Hsrc as [|c src Hc Hsrc IH]; intros [|size] n Hsz Hn Hmax;
    cbn in Hsz |- *; try lia.
  1,2: exists 0%nat; split; [f_equal|]; lia.
  destruct (escape_map_test type c Ht Hc) as (e & He' & Etest).
  rewrite He in He'. injection He' as <-. rewrite Etest. cbn.
  unfold percent_encode at 1. destruct (escaped_char type c); cbn.
  - rewrite to_u64_id by lia.
    destruct (IH size (n + 1)) as (k & -> & Hl); [lia..|]. exists (S k). rewrite Hl. split; [f_equal|]; lia.
  - destruct (IH size n) as (k & -> & Hl); [lia..|]. exists k. rewrite Hl. split; [f_equal|]; lia.
Qed.

Theorem ngx_escape_uri_correct type src size :
  0 <= type < 7 -> bytes_ok src -> (size <= length src)%nat -> Z.of_nat size < 2 ^ 64 ->
  let out := flat_map (percent_encode type) (take size src) in
  exists n, ngx_escape_uri true src size type = Ok (Count n)
    /\ ngx_escape_uri false src size type = Ok (Written out)
    /\ Z.of_nat (length out) = Z.of_nat size + 2 * n.
Proof.
  intros Ht Hsrc Hsz Hmax out.
  destruct (escape_map_test type 0 Ht ltac:(done)) as (escape & He & _).
  destruct (escape_uri_count_spec type escape src size 0) as (k & Hk & Hl); [done..|lia|].
  exists (Z.of_nat k). unfold ngx_escape_uri. rewrite He, Hk. cbn.
  erewrite escape_uri_write_spec by done. repeat split. unfold out. rewrite Hl. lia.
Qed.

(** * ngx_unescape_uri *)

Lemma put_ok mem d c : (d < length mem)%nat -> put mem d c = Ok (list_inserts d [c] mem, S d).
Proof. intros H. unfold put. by rewrite store_ok. Qed.

Lemma hex_digit_code c : byte_ok c ->
  hex_digit c =
    if ("0"%ch <=? c) && (c <=? "9"%ch) then Some (to_u8 (c - "0"%ch))
    else
      let c' := to_u8 (Z.lor c 0x20) in
      if ("a"%ch <=? c') && (c' <=? "f"%ch) then Some (to_u8 (c' - "a"%ch + 10)) else None.
Proof. revert c. refine (range_decide 256 _ _). vm_compute. reflexivity. Qed.

Lemma body_quoted type mem d dec s ch :
  byte_ok ch -> mem !! s = Some ch -> (d < length mem)%nat ->
  unescape_body type (mk_unescape mem d sw_quoted dec) (S s) =
    Ok (Next (match hex_digit ch with
              | Some hi => mk_unescape mem d sw_quoted_second hi
              | None => mk_unescape (list_inserts d [ch] mem) (S d) sw_usual dec
              end)).
Proof.
  intros Hc Hs Hd. unfold unescape_body. rewrite Nat.sub_succ, Nat.sub_0_r.
  rewrite (deref_lookup _ _ _ Hs), (hex_digit_code ch Hc). cbn [mbind outcome_bind].
  destruct (_ && _); [done|]. cbn zeta. destruct (_ && _); [done|]. by rewrite put_ok.
Qed.

Lemma put_quoted_ok mem d s x y :
  mem !! S s = Some x -> mem !! S (S s) = Some y -> room d s 3 (length mem) ->
  put_quoted mem d (S (S (S s))) = Ok (list_inserts d ["%"%ch; x; y] mem, (d + 3)%nat).
Proof.
  intros Hx Hy [Hm Hd]. unfold put_quoted.
  replace (S (S (S s)) - 2)%nat with (S s) by lia.
  replace (S (S (S s)) - 1)%nat with (S (S s)) by lia.
  rewrite put_ok by lia. cbn [mbind outcome_bind list_inserts].
  rewrite (deref_lookup _ _ x) by (rewrite list_lookup_insert_ne by lia; done).
  cbn [mbind outcome_bind]. rewrite put_ok by (rewrite length_insert; lia).
  cbn [mbind outcome_bind list_inserts].
  rewrite (deref_lookup _ _ y) by (rewrite !list_lookup_insert_ne by lia; done).
  cbn [mbind outcome_bind]. rewrite put_ok by (rewrite !length_insert; lia).
  cbn [list_inserts]. f_equal. f_equal; [|lia].
  rewrite (list_insert_insert_ne mem (S d)) by lia.
  rewrite (list_insert_insert_ne _ (S (S d)) d) by lia.
  f_equal. by rewrite list_insert_insert_ne by lia.
Qed.

(** Flags of the three types in use. *)
Definition unescape_type (type : Z) : Prop :=
  type = 0 \/ type = NGX_UNESCAPE_URI \/ type = NGX_UNESCAPE_REDIRECT.

Ltac flags :=
  repeat match goal with
  | |- context [negb (Z.land ?a ?b =? 0)] =>
      let v := eval vm_compute in (negb (Z.land a b =? 0)) in
      change (negb (Z.land a b =? 0)) with v
  | |- context [?a =? NGX_UNESCAPE_REDIRECT] =>
      let v := eval vm_compute in (a =? NGX_UNESCAPE_REDIRECT) in
      change (a =? NGX_UNESCAPE_REDIRECT) with v
  | |- context [negb (?a =? 0)] =>
      let v := eval vm_compute in (negb (a =? 0)) in
      change (negb (a =? 0)) with v
  end.

Ltac same_step := cbn; rewrite ?Nat.add_1_r; done.

Definition step_of (d : nat) (mem : list Z) (dec : Z) (o : list Z * bool) : unescape_step :=
  if o.2 then Done (list_inserts d o.1 mem) (d + length o.1)
  else Next (mk_unescape (list_inserts d o.1 mem) (d + length o.1) sw_usual dec).

Lemma body_second type mem d hi s x y :
  unescape_type type -> byte_ok y -> mem !! S s = Some x -> mem !! S (S s) = Some y ->
  room d s 3 (length mem) -> 0 <= hi < 16 ->
  unescape_body type (mk_unescape mem d sw_quoted_second hi) (S (S (S s))) =
    Ok (step_of d mem hi
          (match hex_digit y with
           | Some lo => emit type x y (16 * hi + lo)
           | None => ([], false)
           end)).
Proof.
  intros Ht Hc Hx Hy Hroom Hhi. pose proof (put_quoted_ok mem d s x y Hx Hy Hroom) as Hq.
  destruct Hroom as [Hm Hd]. unfold unescape_body.
  replace (S (S (S s)) - 1)%nat with (S (S s)) by lia.
  rewrite (deref_lookup _ _ _ Hy). cbn [mbind outcome_bind]. rewrite Hq, !put_ok by lia.
  pose proof (hex_digit_code y Hc) as Ey. pose proof (hex_digit_bound y) as Hr.
  rewrite Ey. rewrite Ey in Hr. cbn zeta in *.
  rewrite Z.shiftl_mul_pow2 by lia. change (2 ^ 4) with 16.
  destruct (("0"%ch <=? y) && (y <=? "9"%ch)) eqn:Edig.
  - specialize (Hr _ eq_refl). apply andb_true_iff in Edig as [E1 E2].
    rewrite (to_u8_id (y - _)) in * by casts.
    replace (to_u8 (hi * 16 + y - "0"%ch)) with (16 * hi + (y - "0"%ch)) by casts.
    unfold emit, step_of. destruct (Z.eqb_spec (16 * hi + (y - "0"%ch)) "?"%ch); [casts|].
    destruct Ht as [->|[->| ->]]; flags; cbn [andb]; try same_step.
    destruct (_ && _); same_step.
  - set (c := to_u8 (Z.lor y 32)) in *. pose proof (to_u8_ok (Z.lor y 32)) as Hcc. fold c in Hcc.
    destruct (("a"%ch <=? c) && (c <=? "f"%ch)) eqn:Ehex; [|unfold step_of; cbn; by rewrite Nat.add_0_r].
    specialize (Hr _ eq_refl). apply andb_true_iff in Ehex as [E1 E2].
    rewrite (to_u8_id (c - _ + 10)) in * by casts.
    replace (to_u8 (hi * 16 + c - "a"%ch + 10)) with (16 * hi + (c - "a"%ch + 10)) by casts.
    unfold emit, step_of. set (v := 16 * hi + (c - "a"%ch + 10)).
    destruct Ht as [->|[->| ->]]; flags; destruct (v =? "?"%ch); cbn [andb]; try same_step.
    all: destruct (("%"%ch <? v) && (v <? 127)); same_step.
Qed.

Lemma src_at_cons mem s c l :
  src_at mem s (c :: l) <-> mem !! s = Some c /\ src_at mem (S s) l.
Proof.
  split.
  - intros H. split; [by specialize (H 0%nat c eq_refl); rewrite Nat.add_0_r in H|].
    intros i c' Hi. specialize (H (S i) c' Hi). by rewrite Nat.add_succ_r in H.
  - intros [H0 H] [|i] c' Hi; [by injection Hi as <-; rewrite Nat.add_0_r|].
    rewrite Nat.add_succ_r. by apply (H i).
Qed.

Lemma src_at_inserts mem d s o l :
  src_at mem s l -> (d + length o <= s \/ s + length l <= d)%nat ->
  src_at (list_inserts d o mem) s l.
Proof.
  intros H Hd i c Hi. pose proof (lookup_lt_Some _ _ _ Hi).
  destruct Hd.
  - rewrite list_lookup_inserts_ge by lia. by apply H.
  - rewrite list_lookup_inserts_lt by lia. by apply H.
Qed.

(** The outcome the reference predicts. *)
Definition unescaped (mem : list Z) (d s : nat) (r : list Z * nat) : outcome (list Z * nat * nat) :=
  Ok (list_inserts d r.1 mem, (d + length r.1)%nat, (s + r.2)%nat).

Lemma unescaped_then mem d s o k r :
  unescaped (list_inserts d o mem) (d + length o) (s + k) r = unescaped mem d s (then_ o k r).
Proof.
  unfold unescaped, then_. cbn. rewrite list_inserts_app_l, length_app, (Nat.add_comm (length o) d).
  by rewrite !Nat.add_assoc.
Qed.

Definition loop_correct (type : Z) (l : list Z) : Prop :=
  forall mem d s dec, src_at mem s l -> room d s (length l) (length mem) ->
  unescape_loop type (mk_unescape mem d sw_usual dec) s (length l)
    = unescaped mem d s (unescape_ref type l).

(** Continuing after a token of [k] bytes whose output is [o]. *)
Lemma unescape_next type o l mem d s k dec :
  loop_correct type l -> (length o <= k)%nat -> src_at mem (s + k) l ->
  room d s (k + length l) (length mem) ->
  unescape_loop type (mk_unescape (list_inserts d o mem) (d + length o) sw_usual dec) (s + k) (length l)
    = unescaped mem d s (then_ o k (unescape_ref type l)).
Proof.
  intros IH Ho Hsrc [Hm Hd]. rewrite IH; [apply unescaped_then|..].
  - apply src_at_inserts; [done|]. lia.
  - split; rewrite length_inserts; lia.
Qed.

Lemma unescape_loop_correct type l :
  unescape_type type -> bytes_ok l -> loop_correct type l.
Proof.
  intros Ht. induction l as [l IH] using (induction_ltof1 _ (@length Z)); unfold ltof in IH.
  intros Hl mem d s dec Hsrc Hroom.
  destruct l as [|c l1]; [by unfold unescaped; cbn; rewrite !Nat.add_0_r|].
  apply src_at_cons in Hsrc as [Hc Hsrc1]. apply bytes_ok_cons in Hl as [Hcb Hl1].
  cbn [length unescape_loop unescape_ref]. unfold unescape_body at 1.
  rewrite Nat.sub_succ, Nat.sub_0_r, (deref_lookup _ _ _ Hc). cbn [mbind outcome_bind].
  assert (Hflag : negb (Z.land type (Z.lor NGX_UNESCAPE_URI NGX_UNESCAPE_REDIRECT) =? 0)
    = negb (type =? 0)) by (destruct Ht as [->|[->| ->]]; reflexivity).
  rewrite Hflag. clear Hflag. pose proof Hroom as [Hm Hd]. cbn in Hm, Hd.
  rewrite put_ok by lia.
  pose proof (unescape_next type) as Hnext. unfold unescaped in *.
  destruct ((c =? "?"%ch) && negb (type =? 0)).
  { cbn. by rewrite !Nat.add_1_r. }
  destruct (Z.eqb_spec c "%"%ch) as [->|_].
  2:{ cbn [fmap outcome_fmap mbind outcome_bind].
      rewrite <- (Nat.add_1_r d), <- (Nat.add_1_r s).
      apply (Hnext [c] l1 mem d s 1%nat dec).
      - apply IH; [cbn; lia|done].
      - cbn; lia.
      - by rewrite Nat.add_1_r.
      - done. }
  cbn [mbind outcome_bind].
  destruct l1 as [|x l2]; [by cbn; rewrite Nat.add_0_r, Nat.add_1_r|].
  apply src_at_cons in Hsrc1 as [Hx Hsrc2]. apply bytes_ok_cons in Hl1 as [Hxb Hl2].
  cbn [length unescape_loop]. cbn in Hm, Hd.
  rewrite body_quoted with (ch := x) by (done || lia). cbn [mbind outcome_bind].
  destruct (hex_digit x) as [hi|] eqn:Ehx.
  2:{ rewrite <- (Nat.add_1_r d). replace (S (S s)) with (s + 2)%nat by lia. apply (Hnext [x] l2 mem d s 2%nat dec).
      - apply IH; [cbn; lia|done].
      - cbn; lia.
      - by replace (s + 2)%nat with (S (S s)) by lia.
      - done. }
  destruct l2 as [|y l3]; [cbn; rewrite Nat.add_0_r; do 2 f_equal; lia|].
  apply src_at_cons in Hsrc2 as [Hy Hsrc3]. apply bytes_ok_cons in Hl2 as [Hyb Hl3].
  cbn [length unescape_loop]. cbn in Hm, Hd.
  rewrite body_second with (x := x) (y := y)
    by (done || (split; lia) || by apply hex_digit_bound in Ehx).
  cbn [mbind outcome_bind].
  assert (Hnext3 : forall o dec', (length o <= 3)%nat ->
    unescape_loop type (mk_unescape (list_inserts d o mem) (d + length o) sw_usual dec')
      (S (S (S s))) (length l3) = unescaped mem d s (then_ o 3 (unescape_ref type l3))).
  { intros o dec' Ho. replace (S (S (S s))) with (s + 3)%nat by lia. apply Hnext.
    - apply IH; [cbn; lia|done].
    - done.
    - by replace (s + 3)%nat with (S (S (S s))) by lia.
    - done. }
  unfold step_of. destruct (hex_digit y) as [lo|] eqn:Ehy; [|apply (Hnext3 []); cbn; lia].
  destruct (emit type x y (16 * hi + lo)) as [o stop] eqn:Eo.
  assert (Ho : (length o <= 3)%nat).
  { unfold emit in Eo. repeat (destruct (_ && _); [by simplify_eq; cbn; lia|]). simplify_eq. cbn; lia. }
  cbn [fst snd]. destruct stop; [|by apply Hnext3].
  do 2 f_equal; cbn; lia.
Qed.

Lemma unescape_ref_bounds type l :
  (length (unescape_ref type l).1 <= (unescape_ref type l).2 <= length l)%nat.
Proof.
  induction l as [l IH] using (induction_ltof1 _ (@length Z)); unfold ltof in IH.
  destruct l as [|c l1]; [cbn; lia|]. cbn [unescape_ref].
  destruct (_ && _); [cbn; lia|]. destruct (_ =? _).
  2:{ pose proof (IH l1 ltac:(cbn; lia)). cbn. lia. }
  destruct l1 as [|x l2]; [cbn; lia|]. destruct (hex_digit x).
  2:{ pose proof (IH l2 ltac:(cbn; lia)). cbn. lia. }
  destruct l2 as [|y l3]; [cbn; lia|]. pose proof (IH l3 ltac:(cbn; lia)).
  destruct (hex_digit y); [|cbn; lia]. unfold emit.
  repeat (destruct (_ && _); [cbn; lia|]). cbn; lia.
Qed.

(** C35. ngx_unescape_uri, run on a memory in which the destination does not run
    ahead of the source or lies behind it, stores exactly the bytes the reference
    unescaping gives, reads no byte the stores have overwritten, consumes no more than
    the source and writes no more than it consumes; so the callers that unescape in
    place are safe. *)
Theorem ngx_unescape_uri_correct type mem d s l :
  unescape_type type -> bytes_ok l -> src_at mem s l -> room d s (length l) (length mem) ->
  let '(out, n) := unescape_ref type l in
  ngx_unescape_uri mem d s (length l) type
    = Ok (list_inserts d out mem, (d + length out)%nat, (s + n)%nat)
  /\ (length out <= n <= length l)%nat.
Proof.
  intros Ht Hl Hs Hr. pose proof (unescape_ref_bounds type l) as Hb.
  pose proof (unescape_loop_correct type l Ht Hl mem d s 0 Hs Hr) as H.
  unfold unescaped in H. destruct (unescape_ref type l) as [out n]. split; [exact H|exact Hb].
Qed.

Lemma ngx_unescape_uri_correct_witness :
  ngx_unescape_uri (bytes "/a%2fb%3F?x%41") 0 0 14 NGX_UNESCAPE_URI
    = Ok (bytes "/a/b?b%3F?x%41", 5%nat, 9%nat).
Proof.
  pose proof (ngx_unescape_uri_correct NGX_UNESCAPE_URI (bytes "/a%2fb%3F?x%41") 0 0
    (bytes "/a%2fb%3F?x%41")) as H.
  refine (match H _ _ _ _ with conj E _ => E end).
  - right; left; reflexivity.
  - apply bytes_okb_true. reflexivity.
  - intros i c Hi; exact Hi.
  - split; [cbn; lia|left; lia].
Defined.

(** ** Round trip *)

Lemma hex_digit_HEX v : 0 <= v < 16 -> hex_digit (HEX v) = Some v.
Proof. revert v. refine (range_decide 16 _ _). vm_compute. reflexivity. Qed.

Lemma HEX_byte v : 0 <= v < 16 -> byte_ok (HEX v).
Proof. intros Hv. unfold HEX. unfold_casts. tests. Qed.

Lemma percent_escaped type : 0 <= type < 7 -> type <> NGX_ESCAPE_REFRESH ->
  escaped_char type "%"%ch = true.
Proof.
  intros Ht Hn. assert (H : bool_decide (type = NGX_ESCAPE_REFRESH) || escaped_char type "%"%ch = true).
  { revert type Ht Hn. intros type Ht _. revert type Ht. apply (range_forall 7). vm_compute. reflexivity. }
  by rewrite bool_decide_eq_false_2 in H.
Qed.

Lemma unescape_percent_encode type src :
  0 <= type < 7 -> type <> NGX_ESCAPE_REFRESH -> bytes_ok src ->
  unescape_ref 0 (flat_map (percent_encode type) src)
    = (src, length (flat_map (percent_encode type) src)).
Proof.
  intros Ht Hn Hsrc. induction Hsrc as [|c src Hc Hsrc IH]; [done|].
  cbn [flat_map]. unfold percent_encode at 1 3.
  destruct (nibbles c Hc) as (_ & _ & H16). pose proof (Z.mod_pos_bound c 16 ltac:(lia)) as Hm.
  destruct (escaped_char type c) eqn:Ee.
  - cbn [app unescape_ref]. rewrite andb_false_r, Z.eqb_refl, !hex_digit_HEX by done.
    unfold emit. rewrite andb_false_r. cbn [andb]. change (0 =? NGX_UNESCAPE_REDIRECT) with false.
    cbn [andb]. rewrite IH. unfold then_. cbn.
    f_equal. f_equal. symmetry. apply Z.div_mod. lia.
  - cbn [app unescape_ref]. rewrite andb_false_r.
    destruct (Z.eqb_spec c "%"%ch) as [->|_]; [by rewrite percent_escaped in Ee|].
    rewrite IH. done.
Qed.

Lemma percent_encode_bytes type src : bytes_ok src -> bytes_ok (flat_map (percent_encode type) src).
Proof.
  intros Hsrc. induction Hsrc as [|c src Hc _ IH]; [constructor|].
  cbn [flat_map]. apply bytes_ok_app. split; [|done]. unfold percent_encode.
  destruct (nibbles c Hc) as (_ & _ & H16). pose proof (Z.mod_pos_bound c 16 ltac:(lia)).
  destruct (escaped_char _ _).
  - autorewrite with ngx_rw.
    split; [done|]. split; [by apply HEX_byte|]. split; [by apply HEX_byte|constructor].
  - apply bytes_ok_cons. split; [done|constructor].
Qed.

Lemma src_at_0 l : src_at l 0 l.
Proof. intros i c H. exact H. Qed.

(** C36. Unescaping the output of ngx_escape_uri in place gives back the escaped
    text, for every escape type but NGX_ESCAPE_REFRESH, whose table leaves the percent
    sign alone. *)
Theorem escape_unescape_roundtrip type src :
  0 <= type < 7 -> type <> NGX_ESCAPE_REFRESH -> bytes_ok src ->
  exists out mem, ngx_escape_uri false src (length src) type = Ok (Written out)
    /\ ngx_unescape_uri out 0 0 (length out) 0 = Ok (mem, length src, length out)
    /\ take (length src) mem = src.
Proof.
  intros Ht Hn Hsrc. set (out := flat_map (percent_encode type) src).
  exists out, (list_inserts 0 src out).
  destruct (escape_map_test type 0 Ht ltac:(done)) as (escape & He & _).
  assert (Hout : bytes_ok out) by by apply percent_encode_bytes.
  pose proof (unescape_percent_encode type src Ht Hn Hsrc) as Hr. fold out in Hr.
  pose proof (unescape_loop_correct 0 out (or_introl eq_refl) Hout out 0%nat 0%nat 0 (src_at_0 out)
    ltac:(split; [|left]; lia)) as Hu.
  pose proof (unescape_ref_bounds 0 out) as Hb. unfold unescaped in Hu. rewrite Hr in Hu, Hb.
  cbn [fst snd] in *. repeat split.
  - unfold ngx_escape_uri. rewrite He, (escape_uri_write_spec type) by (done || lia).
    by rewrite firstn_all.
  - exact Hu.
  - apply list_eq. intros i. destruct (decide (i < length src)%nat).
    + rewrite lookup_take_lt by lia. rewrite list_lookup_inserts by lia. f_equal. lia.
    + rewrite lookup_take_ge, lookup_ge_None_2 by lia. done.
Qed.

Lemma escape_unescape_roundtrip_witness :
  exists out mem, ngx_escape_uri false (bytes "a b%/?") 6 NGX_ESCAPE_URI = Ok (Written out)
    /\ ngx_unescape_uri out 0 0 (length out) 0 = Ok (mem, 6%nat, length out)
    /\ take 6 mem = bytes "a b%/?".
Proof.
  apply (escape_unescape_roundtrip NGX_ESCAPE_URI (bytes "a b%/?")).
  - split; [discriminate|reflexivity].
  - discriminate.
  - apply bytes_okb_true. reflexivity.
Defined.

(** The table of NGX_ESCAPE_REFRESH leaves '%' alone, so the round trip fails. *)
Example refresh_keeps_percent :
  ngx_escape_uri false (bytes "%41") 3 NGX_ESCAPE_REFRESH = Ok (Written (bytes "%41"))
  /\ unescape_ref 0 (bytes "%41") = (bytes "A", 3%nat).
Proof. split; reflexivity. Qed.

(** * ngx_escape_html and ngx_escape_json *)

Lemma write_loop_spec f src size :
  (size <= length src)%nat -> write_loop f src size = Ok (flat_map f (take size src)).
Proof.
  revert size. induction src as [|c src IH]; intros [|size] H; cbn in *; try done; [lia|].
  rewrite IH by lia. done.
Qed.

(** The count of the first pass, given that it adds what the second pass writes
    beyond one byte for each character. *)
Lemma count_loop_spec extra (f : Z -> list Z) src size len :
  bytes_ok src -> (forall c, byte_ok c -> Z.of_nat (length (f c)) = 1 + extra c) ->
  (forall c, byte_ok c -> 0 <= extra c <= 5) -> (size <= length src)%nat ->
  0 <= len -> len + 5 * Z.of_nat size < 2 ^ 64 ->
  count_loop extra src size len
    = Ok (len + Z.of_nat (length (flat_map f (take size src))) - Z.of_nat size).
Proof.
  intros Hsrc Hf He. revert size len.
  induction Hsrc as [|c src Hc Hsrc IH]; intros [|size] len H Hlen Hmax;
    [cbn; f_equal; lia|cbn in H; lia|cbn; f_equal; lia|]; cbn in *.
  specialize (Hf c Hc). specialize (He c Hc). rewrite to_u64_id by lia.
  rewrite IH by lia. f_equal. rewrite length_app. lia.
Qed.

(** The two loops together, for functions that agree on the lengths. *)
Lemma escape_passes extra (f : Z -> list Z) src size :
  bytes_ok src -> (forall c, byte_ok c -> Z.of_nat (length (f c)) = 1 + extra c) ->
  (forall c, byte_ok c -> 0 <= extra c <= 5) -> (size <= length src)%nat ->
  5 * Z.of_nat size < 2 ^ 64 ->
  exists n, count_loop extra src size 0 = Ok n
    /\ write_loop f src size = Ok (flat_map f (take size src))
    /\ Z.of_nat (length (flat_map f (take size src))) = Z.of_nat size + n.
Proof.
  intros Hsrc Hf He H Hmax. eexists. split; [by apply (count_loop_spec extra f)|].
  split; [by apply write_loop_spec|]. lia.
Qed.

Lemma html_extra_range c : 0 <= html_extra c <= 5.
Proof. unfold html_extra. repeat (destruct (_ =? _); [lia|]). lia. Qed.

Lemma html_entity_length c : Z.of_nat (length (html_entity c)) = 1 + html_extra c.
Proof. unfold html_entity, html_extra. repeat (destruct (_ =? _); [done|]). done. Qed.

Lemma json_extra_range c : 0 <= json_extra c <= 5.
Proof. unfold json_extra. destruct (_ || _); [lia|]. destruct (_ <=? _); lia. Qed.

Lemma json_chars_length c : byte_ok c -> Z.of_nat (length (json_chars c)) = 1 + json_extra c.
Proof. revert c. refine (range_decide 256 _ _). vm_compute. reflexivity. Qed.

Lemma html_unescape_entities src : html_unescape (flat_map html_entity src) = Some src.
Proof.
  induction src as [|c src IH]; [done|]. cbn [flat_map]. unfold html_entity at 1.
  destruct (Z.eqb_spec c "<"%ch) as [->|N1]; [cbn; by rewrite IH|].
  destruct (Z.eqb_spec c ">"%ch) as [->|N2]; [cbn; by rewrite IH|].
  destruct (Z.eqb_spec c "&"%ch) as [->|N3]; [cbn; by rewrite IH|].
  destruct (Z.eqb_spec c dquote) as [->|N4]; [cbn; by rewrite IH|].
  cbn [app html_unescape]. rewrite (proj2 (Z.eqb_neq _ _) N1), (proj2 (Z.eqb_neq _ _) N2),
    (proj2 (Z.eqb_neq _ _) N3), (proj2 (Z.eqb_neq _ _) N4), IH. done.
Qed.

(** What a control character becomes, read back. *)
Lemma json_control c : 0 <= c < 32 ->
  exists h1 h0, json_chars c = [0x5c; "u"%ch; "0"%ch; "0"%ch; h1; h0]
    /\ hex_digit h1 = Some (c / 16) /\ hex_digit h0 = Some (c mod 16).
Proof.
  intros Hc. unfold json_chars. destruct (Z.ltb_spec 31 c); [lia|].
  eexists _, _. split; [done|]. revert c Hc H. 
  assert (Hall : forall c, 0 <= c < 32 ->
    hex_digit (to_u8 ("0"%ch + Z.shiftr c 4)) = Some (c / 16)
    /\ hex_digit (to_u8 (if Z.land c 15 <? 10 then "0"%ch + Z.land c 15 else "A"%ch + Z.land c 15 - 10))
       = Some (c mod 16)).
  { refine (range_decide 32 _ _). vm_compute. reflexivity. }
  intros c Hc _. by apply Hall.
Qed.

Lemma json_unescape_chars src :
  bytes_ok src -> json_unescape (flat_map json_chars src) = Some src.
Proof.
  intros Hsrc. induction Hsrc as [|c src Hc Hsrc IH]; [done|]. cbn [flat_map].
  unfold byte_ok in Hc. destruct (Z.ltb_spec 31 c) as [Hhi|Hlo].
  - unfold json_chars at 1. rewrite (proj2 (Z.ltb_lt _ _) Hhi).
    destruct (Z.eqb_spec c 0x5c) as [->|N1].
    { transitivity (cons 0x5c <$> json_unescape (flat_map json_chars src)); [done|by rewrite IH]. }
    destruct (Z.eqb_spec c dquote) as [->|N2].
    { transitivity (cons dquote <$> json_unescape (flat_map json_chars src)); [done|by rewrite IH]. }
    cbn [orb app json_unescape]. rewrite (proj2 (Z.eqb_neq _ _) N1), (proj2 (Z.eqb_neq _ _) N2).
    cbn [orb]. rewrite (proj2 (Z.leb_gt _ _) Hhi), IH. done.
  - destruct (json_control c) as (h1 & h0 & -> & E1 & E0); [lia|].
    cbn [app json_unescape]. change (0x5c =? 0x5c) with true. cbn [orb].
    change (("u"%ch =? 0x5c) || ("u"%ch =? dquote)) with false.
    change ("u"%ch =? "u"%ch) with true. cbn iota.
    change (hex_digit "0"%ch) with (Some 0). rewrite E1, E0. cbn. rewrite IH. cbn.
    f_equal. f_equal. symmetry. apply Z.div_mod. lia.
Qed.

Theorem escape_html_json_correct src size :
  bytes_ok src -> (size <= length src)%nat -> 5 * Z.of_nat size < 2 ^ 64 ->
  (exists n out, ngx_escape_html true src size = Ok (Count n)
     /\ ngx_escape_html false src size = Ok (Written out)
     /\ Z.of_nat (length out) = Z.of_nat size + n
     /\ html_unescape out = Some (take size src))
  /\ (exists n out, ngx_escape_json true src size = Ok (Count n)
     /\ ngx_escape_json false src size = Ok (Written out)
     /\ Z.of_nat (length out) = Z.of_nat size + n
     /\ json_unescape out = Some (take size src)).
Proof.
  intros Hsrc Hsz Hmax. split.
  - destruct (escape_passes html_extra html_entity src size) as (n & Hn & Ho & Hl);
      auto using html_extra_range, html_entity_length.
    unfold ngx_escape_html. rewrite Hn, Ho. eexists n, _.
    repeat split; [done|]. apply html_unescape_entities.
  - destruct (escape_passes json_extra json_chars src size) as (n & Hn & Ho & Hl);
      auto using json_extra_range, json_chars_length.
    unfold ngx_escape_json. rewrite Hn, Ho. eexists n, _.
    repeat split; [done|]. apply json_unescape_chars. by apply Forall_take.
Qed.

Lemma escape_html_json_correct_witness :
  exists n out, ngx_escape_json true [10; 0x22; 0x41] 3 = Ok (Count n)
     /\ ngx_escape_json false [10; 0x22; 0x41] 3 = Ok (Written out)
     /\ Z.of_nat (length out) = 3 + n
     /\ json_unescape out = Some [10; 0x22; 0x41].
Proof.
  apply (escape_html_json_correct [10; 0x22; 0x41] 3).
  - apply bytes_okb_true. reflexivity.
  - cbn. lia.
  - reflexivity.
Defined.

Lemma ngx_escape_uri_correct_witness :
  exists n, ngx_escape_uri true (bytes "a b?") 4 NGX_ESCAPE_ARGS = Ok (Count n)
    /\ ngx_escape_uri false (bytes "a b?") 4 NGX_ESCAPE_ARGS = Ok (Written (bytes "a%20b%3F"))
    /\ 8 = 4 + 2 * n.
Proof.
  apply (ngx_escape_uri_correct NGX_ESCAPE_ARGS (bytes "a b?") 4).
  - split; [discriminate|reflexivity].
  - apply bytes_okb_true. reflexivity.
  - cbn. lia.
  - reflexivity.
Defined.
