(* ===== verification/Rwlock.v ===== *)
(** Component "read-write lock": src/core/ngx_rwlock.c, the spin lock of the
    shared upstream zones.

    Every access to the lock word is one atomic step of one process; the steps
    of the processes interleave arbitrarily.  The local variables [n], [i] and
    [readers] are arguments of the program points. *)

From stdpp Require Import base numbers list option relations.
From Stdlib Require Import ZArith Lia.
From S2P Require Import Prelude.
Local Open Scope Z_scope.

(** * Definitions *)

Definition NGX_RWLOCK_SPIN : Z := 2048.
Definition NGX_RWLOCK_WLOCK : Z := to_u64 (-1).

Inductive mode : Type := Rd | Wr.
#[export] Instance mode_eq_dec : EqDecision mode.
Proof. solve_decision. Defined.

(** Program points.  [spin] tells the attempt at the head of the outer loop
    ([None]) from the one after [n] pauses ([Some n]). *)
Inductive pc : Type :=
| Idle                                   (* outside the functions, no lock *)
| Holding                                (* outside the functions, lock held *)
| W_test (spin : option Z)               (* *lock == 0 *)
| W_cas (spin : option Z)                (* cmp_set(lock, 0, WLOCK) *)
| R_load (spin : option Z)               (* readers = *lock; readers != WLOCK *)
| R_cas (spin : option Z) (readers : Z)  (* cmp_set(lock, readers, readers + 1) *)
| Pause (m : mode) (n i : Z)             (* for (i = 0; i < n; i++) ngx_cpu_pause() *)
| Yield (m : mode)                       (* ngx_sched_yield() *)
| U_load                                 (* readers = *lock; readers == WLOCK *)
| U_store                                (* *lock = 0 *)
| U_cas (readers : Z)                    (* cmp_set(lock, readers, readers - 1) *)
| U_reload.                              (* readers = *lock *)

(** A process: its program point, and the lock it holds, which the code does
    not store anywhere. *)
Record process : Type := mk_process { p_pc : pc; p_held : option mode }.

(** ngx_atomic_cmp_set: the new word and whether the store took place. *)
Definition ngx_atomic_cmp_set (lock old set : Z) : Z * bool :=
  if lock =? old then (set, true) else (lock, false).

(** The attempt a loop makes. *)
Definition attempt (m : mode) (spin : option Z) : pc :=
  match m with Wr => W_test spin | Rd => R_load spin end.

(** [n < NGX_RWLOCK_SPIN] of the inner loop. *)
Definition spin_next (m : mode) (n : Z) : pc :=
  if n <? NGX_RWLOCK_SPIN then Pause m n 0 else Yield m.

(** After a failed attempt. *)
Definition retry (ngx_ncpu : Z) (m : mode) (spin : option Z) : pc :=
  match spin with
  | None => if 1 <? ngx_ncpu then spin_next m 1 else Yield m
  | Some n => spin_next m (to_u64 (Z.shiftl n 1))
  end.

(** ngx_rwlock_wlock *)
Definition wlock_step (ngx_ncpu lock : Z) (p : pc) : Z * process :=
  match p with
  | W_test spin =>
      (lock, mk_process (if lock =? 0 then W_cas spin else retry ngx_ncpu Wr spin) None)
  | W_cas spin =>
      let '(lock', ok) := ngx_atomic_cmp_set lock 0 NGX_RWLOCK_WLOCK in
      (lock', if ok : bool then mk_process Holding (Some Wr)
              else mk_process (retry ngx_ncpu Wr spin) None)
  | _ => (lock, mk_process p None)
  end.

(** ngx_rwlock_rlock *)
Definition rlock_step (ngx_ncpu lock : Z) (p : pc) : Z * process :=
  match p with
  | R_load spin =>
      (lock, mk_process (if negb (lock =? NGX_RWLOCK_WLOCK) then R_cas spin lock
                         else retry ngx_ncpu Rd spin) None)
  | R_cas spin readers =>
      let '(lock', ok) := ngx_atomic_cmp_set lock readers (to_u64 (readers + 1)) in
      (lock', if ok : bool then mk_process Holding (Some Rd)
              else mk_process (retry ngx_ncpu Rd spin) None)
  | _ => (lock, mk_process p None)
  end.

(** The pauses and the yield, the same in both functions. *)
Definition spin_step (lock : Z) (p : pc) : Z * process :=
  match p with
  | Pause m n i =>
      (lock, mk_process (if i <? n then Pause m n (i + 1) else attempt m (Some n)) None)
  | Yield m => (lock, mk_process (attempt m None) None)
  | _ => (lock, mk_process p None)
  end.

(** ngx_rwlock_unlock *)
Definition unlock_step (lock : Z) (p : pc) (held : option mode) : Z * process :=
  match p with
  | U_load =>
      (lock, mk_process (if lock =? NGX_RWLOCK_WLOCK then U_store else U_cas lock) held)
  | U_store => (0, mk_process Idle None)
  | U_cas readers =>
      let '(lock', ok) := ngx_atomic_cmp_set lock readers (to_u64 (readers - 1)) in
      (lock', if ok : bool then mk_process Idle None else mk_process U_reload held)
  | U_reload => (lock, mk_process (U_cas lock) held)
  | _ => (lock, mk_process p held)
  end.

(** One step of a process inside one of the functions. *)
Definition process_step (ngx_ncpu lock : Z) (t : process) : Z * process :=
  match p_pc t with
  | Idle | Holding => (lock, t)
  | W_test _ | W_cas _ => wlock_step ngx_ncpu lock (p_pc t)
  | R_load _ | R_cas _ _ => rlock_step ngx_ncpu lock (p_pc t)
  | Pause _ _ _ | Yield _ => spin_step lock (p_pc t)
  | U_load | U_store | U_cas _ | U_reload => unlock_step lock (p_pc t) (p_held t)
  end.

Record system : Type := mk_system { s_lock : Z; s_procs : list process }.

(** The interleaving semantics: a process calls a locking function while it
    holds nothing, the unlocking function while it holds the lock, or takes
    one step of the function it is in. *)
Inductive step (ngx_ncpu : Z) : system -> system -> Prop :=
| step_wlock lock ps k :
    ps !! k = Some (mk_process Idle None) ->
    step ngx_ncpu (mk_system lock ps)
      (mk_system lock (<[k := mk_process (W_test None) None]> ps))
| step_rlock lock ps k :
    ps !! k = Some (mk_process Idle None) ->
    step ngx_ncpu (mk_system lock ps)
      (mk_system lock (<[k := mk_process (R_load None) None]> ps))
| step_unlock lock ps k h :
    ps !! k = Some (mk_process Holding h) ->
    step ngx_ncpu (mk_system lock ps)
      (mk_system lock (<[k := mk_process U_load h]> ps))
| step_run lock ps k t lock' t' :
    ps !! k = Some t -> process_step ngx_ncpu lock t = (lock', t') ->
    step ngx_ncpu (mk_system lock ps) (mk_system lock' (<[k := t']> ps)).

(** The word is 0 and no process is active; the count of readers cannot reach
    the value that marks a writer. *)
Definition initial (s : system) : Prop :=
  s_lock s = 0 /\ Forall (eq (mk_process Idle None)) (s_procs s) /\
  Z.of_nat (length (s_procs s)) < NGX_RWLOCK_WLOCK.

Definition reachable (ngx_ncpu : Z) (s : system) : Prop :=
  exists s0, initial s0 /\ rtc (step ngx_ncpu) s0 s.

(** A process running alone. *)
Fixpoint solo (ngx_ncpu : Z) (k : nat) (lock : Z) (t : process) : Z * process :=
  match k with
  | O => (lock, t)
  | S k' => let '(lock', t') := process_step ngx_ncpu lock t in solo ngx_ncpu k' lock' t'
  end.

(** * The invariant *)

Definition holds (m : mode) (t : process) : nat :=
  match m, p_held t with Rd, Some Rd | Wr, Some Wr => 1 | _, _ => 0 end.

Fixpoint holders (m : mode) (ps : list process) : nat :=
  match ps with [] => 0%nat | t :: ps' => (holds m t + holders m ps')%nat end.

(** What the program point says of the process itself. *)
Definition process_ok (t : process) : Prop :=
  match p_pc t with
  | Idle | W_test None | W_cas None | R_load None | Yield _ => p_held t = None
  | W_test (Some n) | W_cas (Some n) | R_load (Some n) =>
      p_held t = None /\ 1 <= n < NGX_RWLOCK_SPIN
  | R_cas spin readers =>
      p_held t = None /\ 0 <= readers < NGX_RWLOCK_WLOCK /\
      (forall n, spin = Some n -> 1 <= n < NGX_RWLOCK_SPIN)
  | Pause _ n i => p_held t = None /\ 0 <= i <= n /\ 1 <= n < NGX_RWLOCK_SPIN
  | Holding | U_load => p_held t <> None
  | U_store => p_held t = Some Wr
  | U_cas readers => p_held t = Some Rd /\ 0 <= readers < NGX_RWLOCK_WLOCK
  | U_reload => p_held t = Some Rd
  end.

(** The word is WLOCK while there is a writer, and counts the readers
    otherwise. *)
Definition word_ok (lock : Z) (ps : list process) : Prop :=
  (holders Wr ps = 1%nat /\ holders Rd ps = 0%nat /\ lock = NGX_RWLOCK_WLOCK) \/
  (holders Wr ps = 0%nat /\ lock = Z.of_nat (holders Rd ps)).

Definition inv (s : system) : Prop :=
  Forall process_ok (s_procs s) /\ word_ok (s_lock s) (s_procs s) /\
  Z.of_nat (length (s_procs s)) < NGX_RWLOCK_WLOCK.

Lemma holders_insert m ps k t t' :
  ps !! k = Some t -> (holders m (<[k := t']> ps) + holds m t = holders m ps + holds m t')%nat.
Proof.
  revert k. induction ps as [|u ps IH]; intros [|k] H; try done.
  - injection H as ->. cbn [holders insert list_insert]. lia.
  - specialize (IH k H).
    change (<[S k := t']> (u :: ps)) with (u :: <[k := t']> ps). cbn [holders]. lia.
Qed.

Lemma holders_le m ps : (holders m ps <= length ps)%nat.
Proof. induction ps as [|t ps IH]; cbn; [lia|]. unfold holds. destruct m, (p_held t) as [[]|]; lia. Qed.

Lemma holders_pos m ps k t : ps !! k = Some t -> (holds m t <= holders m ps)%nat.
Proof. intros H. pose proof (holders_insert m ps k t (mk_process Idle None) H). destruct m; cbn in *; lia. Qed.

Lemma holders_two m ps j k t u :
  j <> k -> ps !! j = Some t -> ps !! k = Some u -> (holds m t + holds m u <= holders m ps)%nat.
Proof.
  intros Hne Hj Hk. pose proof (holders_insert m ps j t (mk_process Idle None) Hj).
  assert (Hk' : <[j := mk_process Idle None]> ps !! k = Some u)
    by by rewrite list_lookup_insert_ne.
  apply (holders_pos m) in Hk'. destruct m; cbn in *; lia.
Qed.

Lemma holders_idle m ps : Forall (eq (mk_process Idle None)) ps -> holders m ps = 0%nat.
Proof. induction 1 as [|t ps <- _ IH]; [done|]. cbn. rewrite IH. by destruct m. Qed.

Lemma inv_initial s : initial s -> inv s.
Proof.
  destruct s as [lock ps]. intros (Hl & Hi & Hn). cbn in *. subst. split_and!; [|right|done].
  - eapply Forall_impl; [exact Hi|]. by intros t <-.
  - by rewrite !holders_idle.
Qed.

(** ** Preservation

    A step changes the entry of one process.  [entry_ok] is what it must satisfy
    for the invariant to survive. *)

Definition transfer (lock lock' : Z) (t t' : process) : Prop :=
  process_ok t' /\
  match p_held t, p_held t' with
  | None, None | Some Rd, Some Rd | Some Wr, Some Wr => lock' = lock
  | None, Some Wr => lock = 0 /\ lock' = NGX_RWLOCK_WLOCK
  | None, Some Rd => lock <> NGX_RWLOCK_WLOCK /\ lock' = to_u64 (lock + 1)
  | Some Wr, None => lock' = 0
  | Some Rd, None => lock' = to_u64 (lock - 1)
  | _, _ => False
  end.

Lemma transfer_inv lock ps lock' k t t' :
  inv (mk_system lock ps) -> ps !! k = Some t -> transfer lock lock' t t' ->
  inv (mk_system lock' (<[k := t']> ps)).
Proof.
  intros (Hp & Hw & Hn) Hk [Ht' Htr]. cbn in *.
  pose proof (holders_insert Wr ps k t t' Hk) as HW. pose proof (holders_insert Rd ps k t t' Hk) as HR.
  pose proof (holders_pos Wr ps k t Hk) as PW. pose proof (holders_pos Rd ps k t Hk) as PR.
  pose proof (holders_le Rd (<[k := t']> ps)) as HRn. rewrite length_insert in HRn.
  unfold inv, s_lock, s_procs. rewrite length_insert.
  split_and!; [by apply Forall_insert| |done].
  unfold holds in *. unfold word_ok in *. unfold NGX_RWLOCK_WLOCK in *.
  destruct (p_held t) as [[]|], (p_held t') as [[]|]; try done; unfold_casts;
    Z.div_mod_to_equations; lia.
Qed.

(** What the invariant says of the word when a process looks at it. *)
Definition view (lock : Z) (t : process) : Prop :=
  0 <= lock <= NGX_RWLOCK_WLOCK /\
  (p_held t = Some Wr -> lock = NGX_RWLOCK_WLOCK) /\
  (p_held t = Some Rd -> 0 < lock < NGX_RWLOCK_WLOCK).

Lemma inv_view lock ps k t : inv (mk_system lock ps) -> ps !! k = Some t -> view lock t.
Proof.
  intros (_ & Hw & Hn) Hk. cbn in *.
  pose proof (holders_pos Wr ps k t Hk) as PW. pose proof (holders_pos Rd ps k t Hk) as PR.
  pose proof (holders_le Rd ps) as HR. unfold view, word_ok, holds in *.
  split_and!; [lia|lia| |]; intros E; rewrite E in *; lia.
Qed.

Lemma retry_ok ngx_ncpu m spin :
  (forall n, spin = Some n -> 1 <= n < NGX_RWLOCK_SPIN) ->
  process_ok (mk_process (retry ngx_ncpu m spin) None).
Proof.
  intros H. unfold retry, spin_next, NGX_RWLOCK_SPIN in *. destruct spin as [n|].
  - specialize (H n eq_refl). rewrite Z.shiftl_mul_pow2 by lia.
    rewrite to_u64_id by lia. change (2 ^ 1) with 2. tests; cbn; unfold NGX_RWLOCK_SPIN; split_and!; lia || done.
  - tests; cbn; unfold NGX_RWLOCK_SPIN; split_and!; lia || done.
Qed.

#[local] Arguments retry : simpl never.
#[local] Arguments attempt : simpl never.

Lemma attempt_ok m n : 1 <= n < NGX_RWLOCK_SPIN -> process_ok (mk_process (attempt m (Some n)) None).
Proof. by destruct m. Qed.

Lemma process_step_transfer ngx_ncpu lock t lock' t' :
  process_ok t -> view lock t -> process_step ngx_ncpu lock t = (lock', t') ->
  transfer lock lock' t t'.
Proof.
  intros Hok (Hl & HvW & HvR) E. destruct t as [p h]. unfold transfer.
  assert (Hretry : forall m spin, (forall n, spin = Some n -> 1 <= n < NGX_RWLOCK_SPIN) ->
    process_ok (mk_process (retry ngx_ncpu m spin) None)) by (intros; by apply retry_ok).
  destruct p as [| |[s|]|[s|]|[s|]|spin r|m n i|m| | |r|]; cbn in *; destruct_and?; subst;
    unfold ngx_atomic_cmp_set in E.
  - by simplify_eq/=.
  - simplify_eq/=. destruct h as [[]|]; done.
  - injection E as <- <-. split; [|done]. destruct (_ =? _); [done|]. apply Hretry. by intros ? [= <-].
  - injection E as <- <-. split; [|done]. destruct (_ =? _); [done|]. by apply Hretry.
  - destruct (Z.eqb_spec lock 0); injection E as <- <-; [by subst|].
    split; [|done]. apply Hretry. by intros ? [= <-].
  - destruct (Z.eqb_spec lock 0); injection E as <- <-; [by subst|].
    split; [|done]. by apply Hretry.
  - injection E as <- <-. split; [|done]. destruct (Z.eqb_spec lock NGX_RWLOCK_WLOCK); cbn [negb].
    + apply Hretry. by intros ? [= <-].
    + cbn. split_and!; [done|lia|lia|]. by intros ? [= <-].
  - injection E as <- <-. split; [|done]. destruct (Z.eqb_spec lock NGX_RWLOCK_WLOCK); cbn [negb].
    + by apply Hretry.
    + cbn. split_and!; [done|lia|lia|done].
  - destruct (Z.eqb_spec lock r); injection E as <- <-; [subst; split; [done|split; [lia|done]]|].
    split; [|done]. by apply Hretry.
  - injection E as <- <-. split; [|done]. destruct (Z.ltb_spec i n); [cbn; split_and!; done || lia|]. by apply attempt_ok.
  - injection E as <- <-. split; [|done]. by destruct m.
  - injection E as <- <-. destruct h as [[]|]; [..|done]; cbn in *; split; try done.
    + specialize (HvR eq_refl). destruct (Z.eqb_spec lock NGX_RWLOCK_WLOCK); [lia|]. cbn. split; [done|lia].
    + by rewrite HvW, Z.eqb_refl.
  - by injection E as <- <-.
  - destruct (Z.eqb_spec lock r); injection E as <- <-; by subst.
  - injection E as <- <-. split; [|done]. specialize (HvR eq_refl). split; [done|lia].
Qed.

Lemma step_inv ngx_ncpu s s' : inv s -> step ngx_ncpu s s' -> inv s'.
Proof.
  intros Hinv Hs. destruct Hs as [lock ps k Hk|lock ps k Hk|lock ps k h Hk|lock ps k t lock' t' Hk E].
  - by eapply transfer_inv.
  - by eapply transfer_inv.
  - pose proof (proj1 Hinv) as Hp. cbn in Hp.
    eapply Forall_lookup_1 in Hp; [|exact Hk]. eapply transfer_inv; [done..|].
    cbn in Hp. split; [done|]. by destruct h as [[]|].
  - eapply transfer_inv; [done..|]. eapply process_step_transfer; [|by eapply inv_view|exact E].
    pose proof (proj1 Hinv) as Hp. by eapply Forall_lookup_1 in Hp.
Qed.

Lemma reachable_inv ngx_ncpu s : reachable ngx_ncpu s -> inv s.
Proof.
  intros (s0 & Hi & Hr). apply inv_initial in Hi.
  induction Hr as [s|s0 s1 s2 H01 _ IH]; [done|]. apply IH. by eapply step_inv.
Qed.

(** * Theorems *)

(** The processes in their critical section: between the return of a locking
    function and the release of the word. *)
Definition critical (m : mode) (t : process) : Prop := p_held t = Some m.

Lemma critical_holds m t : critical m t -> holds m t = 1%nat.
Proof. unfold critical, holds. intros ->. by destruct m. Qed.

(** C31. While a process holds the lock for writing, between the return of
    ngx_rwlock_wlock and the store of ngx_rwlock_unlock, no other process holds it, for
    writing or for reading, in any interleaving of the atomic steps. *)
Theorem rwlock_mutual_exclusion ngx_ncpu s j k t u m :
  reachable ngx_ncpu s -> j <> k -> s_procs s !! j = Some t -> s_procs s !! k = Some u ->
  critical Wr t -> ~ critical m u.
Proof.
  intros Hr Hne Hj Hk Ht Hu. apply reachable_inv in Hr as (_ & Hw & _).
  apply critical_holds in Ht, Hu.
  pose proof (holders_pos m _ _ _ Hk) as PR. pose proof (holders_pos Wr _ _ _ Hj) as PW.
  destruct Hw as [(HW & HR & _)|(HW & _)]; [|lia]. destruct m; [lia|].
  pose proof (holders_two Wr _ _ _ _ _ Hne Hj Hk). lia.
Qed.

(** Nobody holds the lock, or only readers do. *)
Theorem rwlock_word_counts ngx_ncpu s :
  reachable ngx_ncpu s ->
  (s_lock s = NGX_RWLOCK_WLOCK <-> holders Wr (s_procs s) = 1%nat) /\
  (s_lock s <> NGX_RWLOCK_WLOCK ->
     holders Wr (s_procs s) = 0%nat /\ s_lock s = Z.of_nat (holders Rd (s_procs s))).
Proof.
  intros Hr. apply reachable_inv in Hr as (_ & Hw & Hn).
  pose proof (holders_le Rd (s_procs s)). unfold word_ok in Hw. lia.
Qed.

(** ** Solo runs: no process is stuck once the others pause *)

Definition acquiring (m : mode) (p : pc) : Prop :=
  match p, m with
  | W_test _, Wr | W_cas _, Wr | R_load _, Rd | R_cas _ _, Rd => True
  | Pause m' _ _, _ | Yield m', _ => m' = m
  | _, _ => False
  end.

(** The most steps of a process running alone until it has the lock: an exchange
    that fails on an old count of readers, fewer than 2048 pauses with the test
    that ends them, and an attempt of two steps. *)
Definition acquire_bound : nat := 2051.

Lemma solo_add ngx_ncpu a b lock t :
  solo ngx_ncpu (a + b) lock t =
    let '(lock', t') := solo ngx_ncpu a lock t in solo ngx_ncpu b lock' t'.
Proof.
  revert lock t. induction a as [|a IH]; intros lock t; [done|].
  cbn. destruct (process_step ngx_ncpu lock t) as [l' t']. apply IH.
Qed.

Lemma solo_pause ngx_ncpu lock m n i :
  i <= n ->
  solo ngx_ncpu (Z.to_nat (n - i) + 1) lock (mk_process (Pause m n i) None)
    = (lock, mk_process (attempt m (Some n)) None).
Proof.
  intros Hi. remember (Z.to_nat (n - i)) as k eqn:Ek. revert i Hi Ek.
  induction k as [|k IH]; intros i Hi Ek; cbn.
  - by rewrite (proj2 (Z.ltb_ge _ _)) by lia.
  - rewrite (proj2 (Z.ltb_lt _ _)) by lia. apply IH; lia.
Qed.

Definition acquired (m : mode) (lock : Z) : Z * process :=
  (match m with Wr => NGX_RWLOCK_WLOCK | Rd => to_u64 (lock + 1) end, mk_process Holding (Some m)).

Definition available (m : mode) (lock : Z) : Prop :=
  match m with Wr => lock = 0 | Rd => lock <> NGX_RWLOCK_WLOCK end.

Lemma solo_attempt ngx_ncpu lock m spin :
  available m lock ->
  solo ngx_ncpu 2 lock (mk_process (attempt m spin) None) = acquired m lock.
Proof.
  intros H. destruct m; unfold attempt; cbn in *.
  - rewrite (proj2 (Z.eqb_neq _ _) H). cbn. unfold ngx_atomic_cmp_set. by rewrite Z.eqb_refl.
  - subst. reflexivity.
Qed.

(** Composition of solo runs. *)
Definition reaches (ngx_ncpu : Z) (k : nat) (lock : Z) (t : process) (r : Z * process) : Prop :=
  exists n, (n <= k)%nat /\ solo ngx_ncpu n lock t = r.

Lemma reaches_trans ngx_ncpu a b lock t lock' t' r :
  solo ngx_ncpu a lock t = (lock', t') -> reaches ngx_ncpu b lock' t' r ->
  reaches ngx_ncpu (a + b) lock t r.
Proof.
  intros Ha (n & Hn & Hb). exists (a + n)%nat. split; [lia|]. by rewrite solo_add, Ha.
Qed.

Lemma reaches_le ngx_ncpu a b lock t r :
  reaches ngx_ncpu a lock t r -> (a <= b)%nat -> reaches ngx_ncpu b lock t r.
Proof. intros (n & Hn & H) Hab. exists n. split; [lia|done]. Qed.

Lemma reaches_attempt ngx_ncpu lock m spin :
  available m lock ->
  reaches ngx_ncpu 2 lock (mk_process (attempt m spin) None) (acquired m lock).
Proof. intros H. exists 2%nat. split; [lia|by apply solo_attempt]. Qed.

Lemma reaches_spin ngx_ncpu lock m n i :
  available m lock -> 0 <= i <= n -> n < NGX_RWLOCK_SPIN ->
  reaches ngx_ncpu 2050 lock (mk_process (Pause m n i) None) (acquired m lock).
Proof.
  unfold NGX_RWLOCK_SPIN. intros H Hi Hn. eapply reaches_le.
  - eapply reaches_trans; [apply solo_pause; lia|by apply reaches_attempt].
  - lia.
Qed.

Lemma reaches_yield ngx_ncpu lock m :
  available m lock ->
  reaches ngx_ncpu 3 lock (mk_process (Yield m) None) (acquired m lock).
Proof. intros H. by apply (reaches_trans _ 1 2 _ _ lock (mk_process (attempt m None) None)), reaches_attempt. Qed.

Lemma reaches_retry ngx_ncpu lock m spin :
  available m lock -> (forall n, spin = Some n -> 1 <= n < NGX_RWLOCK_SPIN) ->
  reaches ngx_ncpu 2050 lock (mk_process (retry ngx_ncpu m spin) None) (acquired m lock).
Proof.
  intros H Hs. apply (retry_ok ngx_ncpu m) in Hs.
  assert (Hcases : retry ngx_ncpu m spin = Yield m \/ exists n, retry ngx_ncpu m spin = Pause m n 0).
  { unfold retry, spin_next. destruct spin; repeat case_match; eauto. }
  destruct Hcases as [E|[n E]]; rewrite E in *.
  - eapply reaches_le; [by apply reaches_yield|lia].
  - cbn in Hs. apply reaches_spin; [done|lia..].
Qed.

(** C32. A process that waits for a lock that is available, and runs without
    interruption, has it after a bounded number of steps, wherever in the spinning loops
    it is. *)
Theorem rwlock_obstruction_free ngx_ncpu s k t m :
  reachable ngx_ncpu s -> s_procs s !! k = Some t ->
  acquiring m (p_pc t) -> available m (s_lock s) ->
  exists n, (n <= acquire_bound)%nat /\ solo ngx_ncpu n (s_lock s) t = acquired m (s_lock s).
Proof.
  intros Hr Hk Ha Hv. apply reachable_inv in Hr as (Hp & _).
  eapply Forall_lookup_1 in Hp; [|exact Hk].
  change (reaches ngx_ncpu acquire_bound (s_lock s) t (acquired m (s_lock s))).
  assert (Hone : forall p lock' t', process_step ngx_ncpu (s_lock s) (mk_process p None) = (lock', t') ->
    reaches ngx_ncpu 2050 lock' t' (acquired m (s_lock s)) ->
    reaches ngx_ncpu acquire_bound (s_lock s) (mk_process p None) (acquired m (s_lock s))).
  { intros p lock' t' E Hrest. apply (reaches_trans _ 1 2050 _ _ lock' t'); [|done].
    cbn [solo]. by rewrite E. }
  assert (Hdone : reaches ngx_ncpu 2050 (acquired m (s_lock s)).1 (acquired m (s_lock s)).2
    (acquired m (s_lock s))) by (exists 0%nat; split; [lia|by destruct m]).
  destruct t as [p h]. destruct p as [| |spin|spin|spin|spin r|m' n i|m'| | |r|]; try done;
    cbn in Hp, Ha.
  - destruct m; [done|]. assert (h = None) as -> by (destruct spin; [by destruct Hp|done]).
    eapply reaches_le; [by apply (reaches_attempt _ _ Wr)|unfold acquire_bound; lia].
  - destruct m; [done|]. assert (h = None) as -> by (destruct spin; [by destruct Hp|done]).
    apply (Hone _ NGX_RWLOCK_WLOCK (mk_process Holding (Some Wr))); [|done].
    cbn. cbn in Hv. by rewrite Hv.
  - destruct m; [|done]. assert (h = None) as -> by (destruct spin; [by destruct Hp|done]).
    eapply reaches_le; [by apply (reaches_attempt _ _ Rd)|unfold acquire_bound; lia].
  - destruct m; [|done]. destruct Hp as (-> & Hrd & Hs).
    destruct (Z.eqb_spec (s_lock s) r) as [Er|Er].
    + eapply Hone; [|exact Hdone]. cbn. unfold ngx_atomic_cmp_set.
      rewrite (proj2 (Z.eqb_eq _ _) Er). by subst r.
    + eapply Hone; [|by apply (reaches_retry ngx_ncpu (s_lock s) Rd spin)]. cbn.
      unfold ngx_atomic_cmp_set. by rewrite (proj2 (Z.eqb_neq _ _) Er).
  - subst m'. destruct Hp as (-> & Hi & Hn).
    eapply reaches_le; [apply reaches_spin; [done|lia..]|unfold acquire_bound; lia].
  - subst. eapply reaches_le; [by apply reaches_yield|unfold acquire_bound; lia].
Qed.

(** ** The functions as one call of a single process

    What a call returns when no other process moves; [NoFuel] when the process
    spins for ever.  The clients of the lock are verified against this interface
    ([RWLock]), which is related to the interleaved steps. *)

Definition seq_wlock (lock : Z) : outcome Z :=
  if lock =? 0 then Ok NGX_RWLOCK_WLOCK else NoFuel.
Definition seq_rlock (lock : Z) : outcome Z :=
  if lock =? NGX_RWLOCK_WLOCK then NoFuel else Ok (to_u64 (lock + 1)).
Definition seq_unlock (lock : Z) : outcome Z :=
  Ok (if lock =? NGX_RWLOCK_WLOCK then 0 else to_u64 (lock - 1)).

Class RWLock := {
  lk_wlock : Z -> outcome Z;
  lk_rlock : Z -> outcome Z;
  lk_unlock : Z -> outcome Z;
  lk_written : Z;
  lk_read : Z;
  lk_wlock_free : lk_wlock 0 = Ok lk_written;
  lk_rlock_free : lk_rlock 0 = Ok lk_read;
  lk_unlock_written : lk_unlock lk_written = Ok 0;
  lk_unlock_read : lk_unlock lk_read = Ok 0
}.

#[export, refine] Instance ngx_rwlock : RWLock := {
  lk_wlock := seq_wlock; lk_rlock := seq_rlock; lk_unlock := seq_unlock;
  lk_written := NGX_RWLOCK_WLOCK; lk_read := 1
}.
Proof. all: reflexivity. Defined.

(** A call started at [p] ends with the word [lock'] and [t'], or never ends. *)
Definition call_ends (ngx_ncpu lock : Z) (t : process) (r : outcome Z) (t' : process) : Prop :=
  match r with
  | Ok lock' => exists n, solo ngx_ncpu n lock t = (lock', t')
  | _ => forall n, (solo ngx_ncpu n lock t).2 <> t'
  end.

Lemma solo_spins ngx_ncpu lock m n t :
  ~ available m lock ->
  (exists spin, t = mk_process (attempt m spin) None) \/
  (exists n i, t = mk_process (Pause m n i) None) \/ t = mk_process (Yield m) None ->
  (solo ngx_ncpu n lock t).2 <> mk_process Holding (Some m).
Proof.
  intros Hv. revert t. induction n as [|n IH]; intros t Ht.
  - destruct Ht as [[spin ->]|[(a & b & ->)| ->]]; by destruct m.
  - destruct Ht as [[spin ->]|[(a & b & ->)| ->]].
    + assert (E : process_step ngx_ncpu lock (mk_process (attempt m spin) None)
        = (lock, mk_process (retry ngx_ncpu m spin) None)).
      { destruct m; unfold attempt; cbn in *; unfold process_step; cbn.
        - apply dec_stable in Hv. by rewrite (proj2 (Z.eqb_eq _ _) Hv).
        - by rewrite (proj2 (Z.eqb_neq _ _) Hv). }
      cbn [solo]. rewrite E. apply IH.
      unfold retry, spin_next. destruct spin; repeat case_match; eauto 10.
    + cbn. destruct (b <? a); apply IH; eauto 10.
    + cbn. apply IH. eauto.
Qed.

(** Each call, run alone, does what the interface says. *)
Theorem seq_refines ngx_ncpu lock h :
  0 <= lock <= NGX_RWLOCK_WLOCK ->
  call_ends ngx_ncpu lock (mk_process (W_test None) None) (seq_wlock lock)
    (mk_process Holding (Some Wr)) /\
  call_ends ngx_ncpu lock (mk_process (R_load None) None) (seq_rlock lock)
    (mk_process Holding (Some Rd)) /\
  call_ends ngx_ncpu lock (mk_process U_load h) (seq_unlock lock) (mk_process Idle None).
Proof.
  intros Hl. unfold seq_wlock, seq_rlock, seq_unlock. split_and!.
  - destruct (Z.eqb_spec lock 0) as [->|Hn]; cbn [call_ends].
    + exists 2%nat. by apply (solo_attempt ngx_ncpu 0 Wr None).
    + intros n. apply solo_spins; [done|]. left. by exists None.
  - destruct (Z.eqb_spec lock NGX_RWLOCK_WLOCK) as [->|Hn]; cbn [call_ends].
    + intros n. apply solo_spins; [by cbn; intros []|]. left. by exists None.
    + exists 2%nat. by apply (solo_attempt ngx_ncpu lock Rd None).
  - cbn [call_ends]. exists 2%nat. cbn. destruct (Z.eqb_spec lock NGX_RWLOCK_WLOCK); [done|].
    cbn. unfold ngx_atomic_cmp_set. by rewrite Z.eqb_refl.
Qed.

(** * Witnesses *)

Definition two_idle : list process := [mk_process Idle None; mk_process Idle None].

(** One process has taken the write lock while the other spins. *)
Lemma two_processes_reachable :
  reachable 1 (mk_system NGX_RWLOCK_WLOCK
    [mk_process Holding (Some Wr); mk_process (Yield Rd) None]).
Proof.
  exists (mk_system 0 two_idle). split; [by repeat constructor|].
  apply (rtc_l _ _ (mk_system 0 [mk_process (W_test None) None; mk_process Idle None])).
  { by apply (step_wlock _ 0 two_idle 0). }
  apply (rtc_l _ _ (mk_system 0 [mk_process (W_cas None) None; mk_process Idle None])).
  { by apply (step_run _ 0 [mk_process (W_test None) None; mk_process Idle None] 0 (mk_process (W_test None) None) 0 (mk_process (W_cas None) None)). }
  apply (rtc_l _ _ (mk_system NGX_RWLOCK_WLOCK
    [mk_process Holding (Some Wr); mk_process Idle None])).
  { by apply (step_run _ 0 [mk_process (W_cas None) None; mk_process Idle None] 0 (mk_process (W_cas None) None) NGX_RWLOCK_WLOCK (mk_process Holding (Some Wr))). }
  apply (rtc_l _ _ (mk_system NGX_RWLOCK_WLOCK
    [mk_process Holding (Some Wr); mk_process (R_load None) None])).
  { by apply (step_rlock _ _ [mk_process Holding (Some Wr); mk_process Idle None] 1). }
  apply rtc_once. by apply (step_run _ _ [mk_process Holding (Some Wr); mk_process (R_load None) None] 1
    (mk_process (R_load None) None) _ (mk_process (Yield Rd) None)).
Qed.

Lemma rwlock_mutual_exclusion_witness :
  ~ critical Rd (mk_process (Yield Rd) None).
Proof.
  apply (rwlock_mutual_exclusion 1 _ 0 1 (mk_process Holding (Some Wr)) _ Rd
    two_processes_reachable); [discriminate|reflexivity..].
Defined.

Lemma rwlock_word_counts_witness :
  NGX_RWLOCK_WLOCK = NGX_RWLOCK_WLOCK <->
  holders Wr [mk_process Holding (Some Wr); mk_process (Yield Rd) None] = 1%nat.
Proof. exact (proj1 (rwlock_word_counts 1 _ two_processes_reachable)). Defined.

Lemma rwlock_obstruction_free_witness :
  exists n, (n <= acquire_bound)%nat /\
    solo 4 n 0 (mk_process (W_test None) None) = acquired Wr 0.
Proof.
  apply (rwlock_obstruction_free 4
    (mk_system 0 [mk_process (W_test None) None; mk_process Idle None]) 0).
  - exists (mk_system 0 two_idle). split; [split; [reflexivity|split; [repeat constructor|reflexivity]]|].
    apply rtc_once. apply (step_wlock _ 0 two_idle 0). reflexivity.
  - reflexivity.
  - exact I.
  - reflexivity.
Defined.

Lemma seq_refines_witness :
  call_ends 1 3 (mk_process U_load (Some Rd)) (Ok 2) (mk_process Idle None).
Proof. apply (seq_refines 1 3 (Some Rd)). split; discriminate. Defined.
