(* ===== verification/WeightBalance.v ===== *)
(** Weighted choice over a list of counters: the arithmetic behind the
    round-robin balancer.

    In a round the counters of the participants grow by their weights, and the
    largest one is reduced by the sum of these weights.  The sum of the counters
    stays 0, and the counters stay bounded whichever participants take part in
    each round: no set of [k] out of [n] counters exceeds [W * k * (n - k)]. *)

From stdpp Require Import base numbers list option.
From Stdlib Require Import ZArith Lia.
From S2P Require Import Prelude.
Local Open Scope Z_scope.

(** * Sums *)

Definition sum (xs : list Z) : Z := foldr Z.add 0 xs.

(** The sum of the members of [xs] selected by [A]. *)
Definition msum (A : list bool) (xs : list Z) : Z :=
  sum (zip_with (fun (b : bool) x => if b then x else 0) A xs).

Definition count (A : list bool) : Z :=
  sum (map (fun b : bool => if b then 1 else 0) A).

Lemma msum_cons b A x xs : msum (b :: A) (x :: xs) = (if b : bool then x else 0) + msum A xs.
Proof. done. Qed.

Lemma sum_cons x xs : sum (x :: xs) = x + sum xs.
Proof. done. Qed.

Lemma msum_nonneg A xs : Forall (Z.le 0) xs -> 0 <= msum A xs.
Proof.
  intros H. revert A. induction H as [|x xs Hx _ IH]; intros [|b A]; try done.
  rewrite msum_cons. specialize (IH A). destruct b; lia.
Qed.

Lemma msum_le A xs : Forall (Z.le 0) xs -> msum A xs <= sum xs.
Proof.
  intros H. revert A. induction H as [|x xs Hx Hxs IH]; intros [|b A]; try done.
  - specialize (IH []). rewrite sum_cons. change (msum [] (x :: xs)) with 0.
    change (msum [] xs) with 0 in IH. lia.
  - rewrite msum_cons, sum_cons. specialize (IH A). destruct b; lia.
Qed.

(** Changing one member of the selection. *)
Lemma msum_insert A xs j x b b' :
  A !! j = Some b -> xs !! j = Some x ->
  msum (<[j := b']> A) xs = msum A xs - (if b : bool then x else 0) + (if b' : bool then x else 0).
Proof.
  revert A xs. induction j as [|j IH]; intros [|c A] [|y xs] HS Hx; try done.
  - injection HS as ->. injection Hx as ->. cbn [insert list_insert].
    rewrite !msum_cons. lia.
  - change (<[S j := b']> (c :: A)) with (c :: <[j := b']> A). rewrite !msum_cons. rewrite (IH A xs) by done. lia.
Qed.

Lemma count_insert A j b b' :
  A !! j = Some b ->
  count (<[j := b']> A) = count A - (if b : bool then 1 else 0) + (if b' : bool then 1 else 0).
Proof.
  revert A. induction j as [|j IH]; intros [|c A] HS; try done.
  - injection HS as ->. cbn. lia.
  - specialize (IH A HS). change (<[S j := b']> (c :: A)) with (c :: <[j := b']> A).
    unfold count in *. cbn [map]. rewrite !sum_cons. lia.
Qed.

(** Adding to one counter. *)
Lemma msum_alter A xs j x d b :
  A !! j = Some b -> xs !! j = Some x ->
  msum A (<[j := x + d]> xs) = msum A xs + (if b : bool then d else 0).
Proof.
  revert A xs. induction j as [|j IH]; intros [|c A] [|y xs] HS Hx; try done.
  - injection HS as ->. injection Hx as ->. cbn [insert list_insert].
    rewrite !msum_cons. destruct b; lia.
  - change (<[S j := x + d]> (y :: xs)) with (y :: <[j := x + d]> xs). rewrite !msum_cons. rewrite (IH A xs) by done. lia.
Qed.

Lemma sum_alter xs j x d :
  xs !! j = Some x -> sum (<[j := x + d]> xs) = sum xs + d.
Proof.
  revert xs. induction j as [|j IH]; intros [|y xs] Hx; try done.
  - injection Hx as ->. cbn. lia.
  - specialize (IH xs Hx). change (<[S j := x + d]> (y :: xs)) with (y :: <[j := x + d]> xs).
    rewrite !sum_cons. lia.
Qed.

Lemma sum_zip_add xs es : length xs = length es ->
  sum (zip_with Z.add xs es) = sum xs + sum es.
Proof.
  revert es. induction xs as [|x xs IH]; intros [|e es] H; try done.
  injection H as H. specialize (IH es H). cbn [zip_with]. rewrite !sum_cons. lia.
Qed.

Lemma msum_zip_add A xs es : length xs = length es ->
  msum A (zip_with Z.add xs es) = msum A xs + msum A es.
Proof.
  revert A es. induction xs as [|x xs IH]; intros [|b A] [|e es] H; try done.
  cbn [zip_with]. rewrite !msum_cons. injection H as H. rewrite (IH A es H). destruct b; lia.
Qed.

Lemma msum_none n xs : msum (replicate n false) xs = 0.
Proof.
  revert xs. induction n as [|n IH]; intros [|x xs]; try done.
  cbn [replicate]. rewrite msum_cons. apply IH.
Qed.

Lemma msum_all xs : msum (replicate (length xs) true) xs = sum xs.
Proof. induction xs as [|x xs IH]; [done|]. cbn [replicate length]. by rewrite msum_cons, IH. Qed.

Lemma count_replicate n b : count (replicate n b) = if b : bool then Z.of_nat n else 0.
Proof.
  unfold count. destruct b; (induction n as [|n IH]; [done|]);
    cbn [replicate map]; rewrite sum_cons; lia.
Qed.

(** * The invariant *)

Definition balanced (W : Z) (xs : list Z) : Prop :=
  sum xs = 0 /\
  forall A, length A = length xs ->
  msum A xs <= W * (count A * (Z.of_nat (length xs) - count A)).

Lemma balanced_zero W n : 0 <= W -> balanced W (replicate n 0).
Proof.
  intros HW. split; [induction n as [|n IH]; [done|]; cbn [replicate]; rewrite sum_cons; lia|].
  intros A HS. rewrite length_replicate in *.
  assert (E : msum A (replicate n 0) = 0).
  { clear. revert A. induction n as [|n IH]; intros [|b A]; try done.
    cbn [replicate]. rewrite msum_cons, IH. by destruct b. }
  assert (Hc : 0 <= count A <= Z.of_nat n).
  { clear -HS. subst n. unfold count. induction A as [|[] A IH]; cbn [map length];
      [done|rewrite sum_cons; lia..]. }
  rewrite E. apply Z.mul_nonneg_nonneg; [done|apply Z.mul_nonneg_nonneg; lia].
Qed.

(** Every counter is within [W * (n - 1)] of 0. *)
Lemma balanced_bound W xs j x :
  balanced W xs -> xs !! j = Some x ->
  - (W * (Z.of_nat (length xs) - 1)) <= x <= W * (Z.of_nat (length xs) - 1).
Proof.
  intros [H0 Hb] Hx. set (n := length xs) in *.
  assert (Hj : (j < n)%nat) by by apply lookup_lt_Some in Hx.
  assert (Hf : forall b : bool, replicate n b !! j = Some b) by (intros; by apply lookup_replicate_2).
  split.
  - specialize (Hb (<[j := false]> (replicate n true))).
    rewrite length_insert, length_replicate, (count_insert _ _ _ _ (Hf true)), count_replicate,
      (msum_insert _ _ _ _ _ _ (Hf true) Hx) in Hb.
    unfold n in Hb. rewrite (msum_all xs) in Hb. specialize (Hb eq_refl). unfold n in *. cbn in Hb. lia.
  - specialize (Hb (<[j := true]> (replicate n false))).
    rewrite length_insert, length_replicate, (count_insert _ _ _ _ (Hf false)), count_replicate,
      (msum_insert _ _ _ _ _ _ (Hf false) Hx), msum_none in Hb.
    specialize (Hb eq_refl). unfold n in *. cbn in Hb. lia.
Qed.

(** ** One round

    [es] are the weights of the participants and 0 for the others, [m] says who
    takes part, and [p] is a participant whose grown counter is the largest. *)

Record round (W : Z) (xs es : list Z) (m : list bool) (p : nat) : Prop := {
  r_len_es : length es = length xs;
  r_len_m : length m = length xs;
  r_nonneg : Forall (Z.le 0) es;
  r_total : sum es <= W;
  r_idle : forall j, m !! j = Some false -> es !! j = Some 0;
  r_p : m !! p = Some true;
  r_max : forall j xj ej xp ep,
    m !! j = Some true -> xs !! j = Some xj -> es !! j = Some ej ->
    xs !! p = Some xp -> es !! p = Some ep -> xj + ej <= xp + ep
}.

Definition play (xs es : list Z) (p : nat) : list Z :=
  let vs := zip_with Z.add xs es in
  match vs !! p with Some v => <[p := v + - sum es]> vs | None => vs end.

(** The members of [A] that take part, if any. *)
Lemma participant_or_none A (m : list bool) es :
  length A = length m -> length es = length m ->
  (forall j, m !! j = Some false -> es !! j = Some 0) ->
  msum A es = 0 \/ exists j, A !! j = Some true /\ m !! j = Some true.
Proof.
  revert m es. induction A as [|b A IH]; intros [|c m] [|e es] HS He Hidle; try done; [by left|].
  destruct (IH m es) as [E|(j & Hj)]; [cbn in *; lia..|intros j; apply (Hidle (S j))| |].
  - rewrite msum_cons, E. destruct b; [|by left]. destruct c; [right; by exists 0%nat|].
    specialize (Hidle 0%nat eq_refl). injection Hidle as ->. by left.
  - right. by exists (S j).
Qed.

Lemma msum_lower_two A es j p ej ep :
  length A = length es -> Forall (Z.le 0) es ->
  A !! j = Some true -> A !! p = Some false -> es !! j = Some ej -> es !! p = Some ep ->
  0 <= ej <= msum A es /\ 0 <= ep /\ msum A es + ep <= sum es.
Proof.
  intros HS He Hj Hp Ej Ep.
  pose proof (msum_insert A es j ej true false Hj Ej) as E1.
  pose proof (msum_nonneg (<[j := false]> A) es He) as N1.
  pose proof (msum_insert A es p ep false true Hp Ep) as E2.
  pose proof (msum_le (<[p := true]> A) es He) as N2.
  pose proof (Forall_lookup_1 _ _ _ _ He Ej). pose proof (Forall_lookup_1 _ _ _ _ He Ep).
  cbn in *. lia.
Qed.

Lemma play_lookup W xs es m p : round W xs es m p ->
  exists xp ep, xs !! p = Some xp /\ es !! p = Some ep /\
    play xs es p = <[p := xp + ep + - sum es]> (zip_with Z.add xs es).
Proof.
  intros R. assert (Hp : (p < length xs)%nat).
  { rewrite <- (r_len_m _ _ _ _ _ R). eapply lookup_lt_Some, (r_p _ _ _ _ _ R). }
  destruct (lookup_lt_is_Some_2 xs p) as [xp Hx]; [done|].
  destruct (lookup_lt_is_Some_2 es p) as [ep He]; [by rewrite (r_len_es _ _ _ _ _ R)|].
  exists xp, ep. split_and!; [done..|]. unfold play.
  by rewrite lookup_zip_with, Hx, He.
Qed.

Lemma play_length W xs es m p : round W xs es m p -> length (play xs es p) = length xs.
Proof.
  intros R. destruct (play_lookup _ _ _ _ _ R) as (xp & ep & _ & _ & ->).
  rewrite length_insert, length_zip_with, (r_len_es _ _ _ _ _ R). lia.
Qed.

Theorem play_balanced W xs es m p :
  round W xs es m p -> balanced W xs -> balanced W (play xs es p).
Proof.
  intros R [H0 Hb]. pose proof (play_length _ _ _ _ _ R) as Hlen.
  destruct (play_lookup _ _ _ _ _ R) as (xp & ep & Hxp & Hep & E).
  destruct R as [Le Lm He Ht Hidle Hp Hmax].
  assert (Hv : zip_with Z.add xs es !! p = Some (xp + ep)) by by rewrite lookup_zip_with, Hxp, Hep.
  split; [rewrite E, (sum_alter _ _ _ _ Hv), sum_zip_add by done; lia|].
  intros A HS. rewrite Hlen in *.
  destruct (lookup_lt_is_Some_2 A p) as [b HSp].
  { rewrite HS, <- Lm. by eapply lookup_lt_Some. }
  rewrite E, (msum_alter _ _ _ _ _ _ HSp Hv), msum_zip_add by done.
  pose proof (Hb A HS) as HbS. destruct b.
  { pose proof (msum_le A es He). lia. }
  destruct (participant_or_none A m es) as [Ez|(j & HSj & Hmj)]; [lia..|done|lia|].
  destruct (lookup_lt_is_Some_2 xs j) as [xj Hxj]; [rewrite <- Lm; by eapply lookup_lt_Some|].
  destruct (lookup_lt_is_Some_2 es j) as [ej Hej]; [rewrite Le, <- Lm; by eapply lookup_lt_Some|].
  pose proof (Hmax j xj ej xp ep Hmj Hxj Hej Hxp Hep) as Hmx.
  destruct (msum_lower_two A es j p ej ep) as (B1 & B2 & B3); [lia|done..|].
  pose proof (Hb (<[p := true]> A)) as Hbp. rewrite length_insert in Hbp. specialize (Hbp HS).
  rewrite (msum_insert _ _ _ _ _ _ HSp Hxp), (count_insert _ _ _ _ HSp) in Hbp.
  pose proof (Hb (<[j := false]> A)) as Hbj. rewrite length_insert in Hbj. specialize (Hbj HS).
  rewrite (msum_insert _ _ _ _ _ _ HSj Hxj), (count_insert _ _ _ _ HSj) in Hbj.
  set (c := count A) in *. set (n := Z.of_nat (length xs)) in *. cbn in Hbp, Hbj.
  replace (W * ((c - 0 + 1) * (n - (c - 0 + 1))))
    with (W * (c * (n - c)) + W * (n - 2 * c - 1)) in Hbp by ring.
  replace (W * ((c - 1 + 0) * (n - (c - 1 + 0))))
    with (W * (c * (n - c)) - W * (n - 2 * c + 1)) in Hbj by ring.
  replace (W * (n - 2 * c + 1)) with (W * (n - 2 * c - 1) + 2 * W) in Hbj by ring.
  lia.
Qed.

(** * A cycle with every participant

    When everyone takes part in every round with constant weights, each is
    chosen as many times as its weight in a cycle of [sum ws] rounds. *)

(** [p] has the largest grown counter. *)
Definition largest (xs ws : list Z) (p : nat) : Prop :=
  exists xp wp, xs !! p = Some xp /\ ws !! p = Some wp /\
    forall j xj wj, xs !! j = Some xj -> ws !! j = Some wj -> xj + wj <= xp + wp.

Inductive plays (ws : list Z) : list Z -> list nat -> list Z -> Prop :=
| plays_nil xs : plays ws xs [] xs
| plays_cons xs p ps ys :
    largest xs ws p -> plays ws (play xs ws p) ps ys -> plays ws xs (p :: ps) ys.

Definition times (i : nat) (ps : list nat) : Z := Z.of_nat (count_occ Nat.eq_dec ps i).

Lemma play_at xs ws p i x w :
  largest xs ws p -> xs !! i = Some x -> ws !! i = Some w ->
  play xs ws p !! i = Some (x + w - (if decide (i = p) then sum ws else 0)).
Proof.
  intros (xp & wp & Hxp & Hwp & _) Hx Hw. unfold play.
  assert (Hv : zip_with Z.add xs ws !! p = Some (xp + wp)) by by rewrite lookup_zip_with, Hxp, Hwp.
  rewrite Hv. case_decide as Hi.
  - subst i. rewrite list_lookup_insert_eq by by eapply lookup_lt_Some.
    f_equal. simplify_eq. lia.
  - rewrite list_lookup_insert_ne by done. rewrite lookup_zip_with, Hx, Hw. cbn. f_equal. lia.
Qed.

Lemma sum_nonpos xs : (forall i x, xs !! i = Some x -> x <= 0) -> sum xs <= 0.
Proof.
  induction xs as [|x xs IH]; intros H; [done|]. rewrite sum_cons.
  specialize (IH (fun i => H (S i))). specialize (H 0%nat x eq_refl). lia.
Qed.

(** The counters stay above [- sum ws]. *)
Lemma play_lower xs ws p :
  length ws = length xs -> sum xs = 0 -> 0 < sum ws -> Forall (Z.le 0) ws -> largest xs ws p ->
  Forall (Z.lt (- sum ws)) xs -> Forall (Z.lt (- sum ws)) (play xs ws p).
Proof.
  intros Hl H0 Hw Hws Hp Hlow. apply Forall_lookup. intros i y Hy.
  assert (Hi : (i < length xs)%nat).
  { apply lookup_lt_Some in Hy. unfold play in Hy.
    destruct (_ !! p); rewrite ?length_insert, length_zip_with in Hy; lia. }
  destruct (lookup_lt_is_Some_2 xs i Hi) as [x Hx].
  destruct (lookup_lt_is_Some_2 ws i) as [w Hw']; [lia|].
  rewrite (play_at _ _ _ _ _ _ Hp Hx Hw') in Hy. injection Hy as <-.
  pose proof (Forall_lookup_1 _ _ _ _ Hws Hw'). pose proof (Forall_lookup_1 _ _ _ _ Hlow Hx).
  cbn in *. case_decide as Hip; [|lia]. subst i.
  destruct Hp as (xp & wp & Hxp & Hwp & Hmax).
  rewrite Hx in Hxp. injection Hxp as <-. rewrite Hw' in Hwp. injection Hwp as <-.
  assert (Hpos : ~ x + w <= 0); [|lia]. intros Hle.
  pose proof (sum_zip_add xs ws (eq_sym Hl)) as Hsum.
  assert (sum (zip_with Z.add xs ws) <= 0); [|lia].
  apply sum_nonpos. intros j v Hv. rewrite lookup_zip_with in Hv.
  destruct (xs !! j) as [xj|] eqn:Exj; [|done]. destruct (ws !! j) as [wj|] eqn:Ewj; [|done].
  injection Hv as <-. specialize (Hmax j xj wj Exj Ewj). lia.
Qed.

Lemma play_sum xs ws p :
  length ws = length xs -> largest xs ws p -> sum (play xs ws p) = sum xs.
Proof.
  intros Hl (xp & wp & Hxp & Hwp & _). unfold play.
  assert (Hv : zip_with Z.add xs ws !! p = Some (xp + wp)) by by rewrite lookup_zip_with, Hxp, Hwp.
  rewrite Hv, (sum_alter _ _ _ _ Hv), sum_zip_add by done. lia.
Qed.

Lemma play_len xs ws p : length ws = length xs -> length (play xs ws p) = length xs.
Proof.
  intros Hl. unfold play. destruct (_ !! p); rewrite ?length_insert, length_zip_with; lia.
Qed.

Lemma plays_len ws xs ps ys :
  plays ws xs ps ys -> length ws = length xs -> length ys = length ws.
Proof.
  induction 1 as [xs|xs p ps ys Hp _ IH]; intros Hl; [done|]. apply IH. by rewrite play_len.
Qed.

Lemma plays_count ws xs ps ys :
  plays ws xs ps ys -> length ws = length xs ->
  forall i x w, xs !! i = Some x -> ws !! i = Some w ->
  ys !! i = Some (x + Z.of_nat (length ps) * w - times i ps * sum ws).
Proof.
  induction 1 as [xs|xs p ps ys Hp _ IH]; intros Hl i x w Hx Hw.
  - unfold times. cbn. rewrite Hx. f_equal. lia.
  - assert (Hl' : length ws = length (play xs ws p)) by by rewrite play_len.
    pose proof (IH Hl' _ _ _ (play_at _ _ _ _ _ _ Hp Hx Hw) Hw) as E. rewrite E. f_equal.
    unfold times. cbn [count_occ length].
    destruct (Nat.eq_dec p i); case_decide; subst; try done; lia.
Qed.

Lemma plays_lower ws xs ps ys :
  plays ws xs ps ys -> length ws = length xs -> sum xs = 0 -> 0 < sum ws -> Forall (Z.le 0) ws ->
  Forall (Z.lt (- sum ws)) xs -> Forall (Z.lt (- sum ws)) ys.
Proof.
  induction 1 as [xs|xs p ps ys Hp _ IH]; intros Hl H0 Hw Hws Hlow; [done|].
  apply IH; [by rewrite play_len|by rewrite play_sum|done..|by apply play_lower].
Qed.

Lemma plays_times ws xs ps ys :
  plays ws xs ps ys -> length ws = length xs ->
  sum (map (fun i => times i ps) (seq 0 (length ws))) = Z.of_nat (length ps).
Proof.
  induction 1 as [xs|xs p ps ys Hp _ IH]; intros Hl.
  - unfold times. cbn. generalize (seq 0 (length ws)). intros l.
    induction l as [|i l IHl]; [done|]. cbn [map]. by rewrite sum_cons, IHl.
  - assert (Hpl : (p < length ws)%nat).
    { destruct Hp as (xp & wp & _ & Hwp & _). by eapply lookup_lt_Some. }
    rewrite <- (play_len xs ws p Hl) in Hl. specialize (IH Hl). cbn [length].
    rewrite Nat2Z.inj_succ, <- IH. clear -Hpl. revert Hpl.
    enough (G : forall n k, sum (map (fun i => times i (p :: ps)) (seq k n))
      = sum (map (fun i => times i ps) (seq k n)) + (if decide (k <= p < k + n)%nat then 1 else 0)).
    { intros Hpl. rewrite G, decide_True by lia. lia. }
    intros n. induction n as [|n IH]; intros k; cbn [seq map].
    { rewrite decide_False by lia. cbn. lia. }
    rewrite !sum_cons, IH. unfold times at 1 3. cbn [count_occ].
    destruct (Nat.eq_dec p k); repeat case_decide; lia.
Qed.

(** Members below a bound that add up to the sum of the bounds are equal to it. *)
Lemma sum_le_eq xs ys :
  Forall2 Z.le xs ys -> sum xs = sum ys -> xs = ys.
Proof.
  intros H2. assert (Hle : forall l k, Forall2 Z.le l k -> sum l <= sum k).
  { induction 1 as [|x y l k Hxy _ IH]; [done|]. rewrite !sum_cons. lia. }
  induction H2 as [|x y xs ys Hxy H2 IH]; [done|]. rewrite !sum_cons. intros E.
  specialize (Hle _ _ H2). assert (x = y) as -> by lia. f_equal. apply IH. lia.
Qed.

Lemma plays_fair ws ps ys :
  plays ws (replicate (length ws) 0) ps ys -> Forall (Z.le 0) ws -> 0 < sum ws ->
  Z.of_nat (length ps) = sum ws ->
  (forall i w, ws !! i = Some w -> times i ps = w) /\ ys = replicate (length ws) 0.
Proof.
  intros Hp Hws Hpos Hlen. set (zs := replicate (length ws) 0) in *.
  assert (Hlz : length ws = length zs) by (unfold zs; by rewrite length_replicate).
  assert (Hz : forall i w, ws !! i = Some w -> zs !! i = Some 0).
  { intros i w Hi. apply lookup_replicate_2. by eapply lookup_lt_Some. }
  pose proof (plays_lower _ _ _ _ Hp Hlz (proj1 (balanced_zero 0 _ ltac:(lia))) Hpos Hws) as Hlow.
  pose proof (plays_count _ _ _ _ Hp Hlz) as Hc.
  assert (Htimes : map (fun i => times i ps) (seq 0 (length ws)) = ws).
  { apply sum_le_eq; [|by rewrite (plays_times _ _ _ _ Hp Hlz)].
    apply Forall2_same_length_lookup_2; [by rewrite length_map, length_seq|].
    intros i t w Ht Hw. pose proof (lookup_lt_Some _ _ _ Hw).
    rewrite list_lookup_fmap, lookup_seq_lt in Ht by done. cbn in Ht. injection Ht as <-.
    pose proof (Hc i 0 w (Hz i w Hw) Hw) as Ey. rewrite Hlen in Ey.
    assert (Hlow' : Forall (Z.lt (- sum ws)) ys).
    { apply Hlow. apply Forall_replicate. lia. }
    pose proof (Forall_lookup_1 _ _ _ _ Hlow' Ey). cbn in *. nia. }
  assert (Hti : forall i w, ws !! i = Some w -> times i ps = w).
  { intros i w Hw. rewrite <- Htimes in Hw. rewrite list_lookup_fmap in Hw.
    destruct (seq 0 (length ws) !! i) as [i'|] eqn:Es; [|done].
    apply lookup_seq in Es as [-> _]. by injection Hw. }
  split; [done|]. apply list_eq_same_length with (n := length ws); [..|].
  - unfold zs. by rewrite length_replicate.
  - by rewrite (plays_len _ _ _ _ Hp Hlz).
  - intros i y z Hi Hy Hzi. destruct (lookup_lt_is_Some_2 ws i Hi) as [w Hw].
    rewrite (Hc i 0 w (Hz i w Hw) Hw), (Hti i w Hw), Hlen in Hy. injection Hy as <-.
    rewrite (Hz i w Hw) in Hzi. injection Hzi as <-. lia.
Qed.
