(* ===== verification/RoundRobin.v ===== *)
(** Component "round robin": the upstream load balancer of
    src/http/ngx_http_upstream_round_robin.c.

    The peers of a group, which the code links through [next], are a list, and
    so are the groups themselves: the primary one and, through [peers->next],
    the backup one.  Pointers to groups and peers are positions.  The locks of a
    shared zone are reached through the interface of the read-write lock. *)

From stdpp Require Import base numbers list option.
From Stdlib Require Import ZArith Lia.
From S2P Require Import Prelude Rwlock.
Local Open Scope Z_scope.

(** * Definitions *)

Definition NGX_PEER_FAILED : Z := 4.

(** ngx_http_upstream_rr_peer_t.  The socket address and its length are the
    bytes of [p_sockaddr]; [slow_start], [start_time] and the TLS session are
    not used by the functions modelled. *)
Record rr_peer : Type := mk_peer {
  p_sockaddr : list Z;
  p_name : list Z;
  p_server : list Z;
  p_current_weight : Z;
  p_effective_weight : Z;
  p_weight : Z;
  p_conns : Z;
  p_max_conns : Z;
  p_fails : Z;
  p_accessed : Z;
  p_checked : Z;
  p_max_fails : Z;
  p_fail_timeout : Z;
  p_down : Z;
  p_lock : Z
}.

Definition set_weights (p : rr_peer) (cw ew : Z) : rr_peer :=
  mk_peer (p_sockaddr p) (p_name p) (p_server p) cw ew (p_weight p)
    (p_conns p) (p_max_conns p) (p_fails p) (p_accessed p) (p_checked p)
    (p_max_fails p) (p_fail_timeout p) (p_down p) (p_lock p).

Definition set_conns (p : rr_peer) (conns : Z) : rr_peer :=
  mk_peer (p_sockaddr p) (p_name p) (p_server p) (p_current_weight p)
    (p_effective_weight p) (p_weight p) conns (p_max_conns p) (p_fails p)
    (p_accessed p) (p_checked p) (p_max_fails p) (p_fail_timeout p) (p_down p) (p_lock p).

Definition set_health (p : rr_peer) (fails accessed checked : Z) : rr_peer :=
  mk_peer (p_sockaddr p) (p_name p) (p_server p) (p_current_weight p)
    (p_effective_weight p) (p_weight p) (p_conns p) (p_max_conns p) fails
    accessed checked (p_max_fails p) (p_fail_timeout p) (p_down p) (p_lock p).

Definition set_peer_lock (p : rr_peer) (lock : Z) : rr_peer :=
  mk_peer (p_sockaddr p) (p_name p) (p_server p) (p_current_weight p)
    (p_effective_weight p) (p_weight p) (p_conns p) (p_max_conns p) (p_fails p)
    (p_accessed p) (p_checked p) (p_max_fails p) (p_fail_timeout p) (p_down p) lock.

(** ngx_http_upstream_rr_peers_t without [next]; [g_shpool] says that [shpool]
    is not NULL. *)
Record rr_peers : Type := mk_peers {
  g_number : Z;
  g_shpool : bool;
  g_rwlock : Z;
  g_total_weight : Z;
  g_single : bool;
  g_weighted : bool;
  g_name : list Z;
  g_peer : list rr_peer
}.

Definition set_peers (g : rr_peers) (ps : list rr_peer) : rr_peers :=
  mk_peers (g_number g) (g_shpool g) (g_rwlock g) (g_total_weight g) (g_single g)
    (g_weighted g) (g_name g) ps.

Definition set_rwlock (g : rr_peers) (lock : Z) : rr_peers :=
  mk_peers (g_number g) (g_shpool g) lock (g_total_weight g) (g_single g)
    (g_weighted g) (g_name g) (g_peer g).

(** ngx_http_upstream_rr_peer_data_t: [rrp_peers] is the position of the group,
    [rrp_current] of a group and a peer, [rrp_tried] the words of the bit map. *)
Record rr_peer_data : Type := mk_rrp {
  rrp_config : Z;
  rrp_peers : nat;
  rrp_current : option (nat * nat);
  rrp_tried : list Z
}.

(** The fields of ngx_peer_connection_t the functions use. *)
Record peer_connection : Type := mk_pc {
  pc_cached : Z;
  pc_connection : option nat;
  pc_sockaddr : option (list Z);
  pc_name : option (list Z);
  pc_tries : Z
}.

Section RoundRobin.
Context `{RWLock}.

(** ** Locks of a shared zone *)

Definition peers_lock (op : Z -> outcome Z) (g : rr_peers) : outcome rr_peers :=
  if g_shpool g then l ← op (g_rwlock g); Ok (set_rwlock g l) else Ok g.

Definition ngx_http_upstream_rr_peers_rlock := peers_lock lk_rlock.
Definition ngx_http_upstream_rr_peers_wlock := peers_lock lk_wlock.
Definition ngx_http_upstream_rr_peers_unlock := peers_lock lk_unlock.

Definition peer_lock (op : Z -> outcome Z) (g : rr_peers) (p : rr_peer) : outcome rr_peer :=
  if g_shpool g then l ← op (p_lock p); Ok (set_peer_lock p l) else Ok p.

Definition ngx_http_upstream_rr_peer_lock := peer_lock lk_wlock.
Definition ngx_http_upstream_rr_peer_unlock := peer_lock lk_unlock.

(** ** The bit map of the peers tried *)

(** [n = i / (8 * sizeof(uintptr_t)); m = (uintptr_t) 1 << i % (8 * sizeof(uintptr_t))] *)
Definition tried_word (i : nat) : nat := (i / 64)%nat.
Definition tried_mask (i : nat) : Z := to_u64 (Z.shiftl 1 (Z.of_nat (i mod 64))).

(** [tried[n] & m] *)
Definition tried_test (tried : list Z) (i : nat) : outcome bool :=
  w ← deref tried (tried_word i); Ok (negb (Z.land w (tried_mask i) =? 0)).

(** [tried[n] |= m] *)
Definition tried_set (tried : list Z) (i : nat) : outcome (list Z) :=
  w ← deref tried (tried_word i); store tried (tried_word i) (Z.lor w (tried_mask i)).

(** [for (i = 0; i < n; i++) tried[i] = 0] *)
Fixpoint tried_clear (tried : list Z) (i n : nat) : outcome (list Z) :=
  match n with
  | O => Ok tried
  | S n' => tried' ← store tried i 0; tried_clear tried' (S i) n'
  end.

(** [(number + (8 * sizeof(uintptr_t) - 1)) / (8 * sizeof(uintptr_t))] *)
Definition tried_words (number : Z) : Z := to_u64 (number + 63) / 64.

(** ** ngx_http_upstream_get_peer *)

Definition conns_full (p : rr_peer) : bool :=
  negb (p_max_conns p =? 0) && (p_max_conns p <=? p_conns p).

(** The tests of the loop, from [peer->down] on: whether the peer is used. *)
Definition peer_usable (now : Z) (p : rr_peer) : outcome bool :=
  if negb (p_down p =? 0) then Ok false
  else
    failed ← (if negb (p_max_fails p =? 0) && (p_max_fails p <=? p_fails p)
              then d ← int64 (now - p_checked p); Ok (d <=? p_fail_timeout p)
              else Ok false);
    Ok (negb failed && negb (conns_full p)).

(** The weights of a peer that is used. *)
Definition weigh (p : rr_peer) : outcome rr_peer :=
  cw ← int64 (p_current_weight p + p_effective_weight p);
  let ew := p_effective_weight p in
  Ok (set_weights p cw (if ew <? p_weight p then ew + 1 else ew)).

(** The loop: the peers, [total], and [best] with its position [p]. *)
Fixpoint get_peer_loop (now : Z) (tried : list Z) (ps : list rr_peer) (i : nat)
    (total : Z) (best : option (nat * rr_peer))
  : outcome (list rr_peer * Z * option (nat * rr_peer)) :=
  match ps with
  | [] => Ok ([], total, best)
  | p :: ps' =>
      t ← tried_test tried i;
      u ← (if t : bool then Ok false else peer_usable now p);
      if u : bool then
        p' ← weigh p;
        total' ← int64 (total + p_effective_weight p);
        let best' := match best with
          | None => Some (i, p')
          | Some (_, b) =>
              if p_current_weight b <? p_current_weight p' then Some (i, p') else best
          end in
        '(rest, total'', best'') ← get_peer_loop now tried ps' (S i) total' best';
        Ok (p' :: rest, total'', best'')
      else
        '(rest, total'', best'') ← get_peer_loop now tried ps' (S i) total best;
        Ok (p :: rest, total'', best'')
  end.

(** The peers, the bit map and the position of the peer returned. *)
Definition ngx_http_upstream_get_peer (now : Z) (tried : list Z) (ps : list rr_peer)
  : outcome (list rr_peer * list Z * option nat) :=
  '(ps, total, best) ← get_peer_loop now tried ps 0 0 None;
  match best with
  | None => Ok (ps, tried, None)
  | Some (p, b) =>
      tried ← tried_set tried p;
      cw ← int64 (p_current_weight b - total);
      d ← int64 (now - p_checked b);
      let b := set_weights b cw (p_effective_weight b) in
      let b := if p_fail_timeout b <? d then set_health b (p_fails b) (p_accessed b) now else b in
      Ok (<[p := b]> ps, tried, Some p)
  end.

(** ** ngx_http_upstream_get_round_robin_peer

    On the groups from position [k] on. *)

Definition select (now : Z) (g : rr_peers) (tried : list Z)
  : outcome (rr_peers * list Z * option nat) :=
  if g_single g then
    match g_peer g with
    | [] => UB
    | p :: _ =>
        if negb (p_down p =? 0) then Ok (g, tried, None)
        else if conns_full p then Ok (g, tried, None)
        else Ok (g, tried, Some 0%nat)
    end
  else
    '(ps, tried, best) ← ngx_http_upstream_get_peer now tried (g_peer g);
    Ok (set_peers g ps, tried, best).

Fixpoint get_round_robin_peer (now : Z) (k : nat) (groups : list rr_peers)
    (rrp : rr_peer_data) (pc : peer_connection)
  : outcome (Z * list rr_peers * rr_peer_data * peer_connection) :=
  match groups with
  | [] => UB
  | g :: next =>
      let pc := mk_pc 0 None (pc_sockaddr pc) (pc_name pc) (pc_tries pc) in
      g ← ngx_http_upstream_rr_peers_wlock g;
      '(g, tried, best) ← select now g (rrp_tried rrp);
      match best with
      | Some i =>
          match g_peer g !! i with
          | None => UB
          | Some peer =>
              let rrp := mk_rrp (rrp_config rrp) (rrp_peers rrp) (Some (k, i)) tried in
              let pc := mk_pc (pc_cached pc) (pc_connection pc) (Some (p_sockaddr peer))
                          (Some (p_name peer)) (pc_tries pc) in
              let peer := set_conns peer (to_u64 (p_conns peer + 1)) in
              let g := set_peers g (<[i := peer]> (g_peer g)) in
              g ← ngx_http_upstream_rr_peers_unlock g;
              Ok (NGX_OK, g :: next, rrp, pc)
          end
      | None =>
          let rrp := mk_rrp (rrp_config rrp) (rrp_peers rrp) (rrp_current rrp) tried in
          let finish g next rrp pc :=
            g ← ngx_http_upstream_rr_peers_unlock g;
            Ok (NGX_BUSY, g :: next, rrp,
                mk_pc (pc_cached pc) (pc_connection pc) (pc_sockaddr pc) (Some (g_name g)) (pc_tries pc)) in
          match next with
          | [] => finish g next rrp pc
          | b :: _ =>
              tried ← tried_clear tried 0 (Z.to_nat (tried_words (g_number b)));
              let rrp := mk_rrp (rrp_config rrp) (S k) (rrp_current rrp) tried in
              g ← ngx_http_upstream_rr_peers_unlock g;
              '(rc, next, rrp, pc) ← get_round_robin_peer now (S k) next rrp pc;
              if negb (rc =? NGX_BUSY) then Ok (rc, g :: next, rrp, pc)
              else
                g ← ngx_http_upstream_rr_peers_wlock g;
                finish g next rrp pc
          end
      end
  end.

Definition ngx_http_upstream_get_round_robin_peer (now : Z) (groups : list rr_peers)
    (rrp : rr_peer_data) (pc : peer_connection)
  : outcome (Z * list rr_peers * rr_peer_data * peer_connection) :=
  let k := rrp_peers rrp in
  '(rc, groups', rrp, pc) ← get_round_robin_peer now k (drop k groups) rrp pc;
  Ok (rc, take k groups ++ groups', rrp, pc).

(** ** ngx_http_upstream_free_round_robin_peer *)

(** The part of the code under [state & NGX_PEER_FAILED]: the unsigned
    subtraction is converted back to [ngx_int_t]. *)
Definition peer_failed (now : Z) (p : rr_peer) : rr_peer :=
  let p := set_health p (to_u64 (p_fails p + 1)) now now in
  let ew := if negb (p_max_fails p =? 0)
            then to_i64 (to_u64 (p_effective_weight p) - to_u64 (p_weight p) / p_max_fails p)
            else p_effective_weight p in
  set_weights p (p_current_weight p) (if ew <? 0 then 0 else ew).

(** "mark peer live if check passed" *)
Definition peer_live (p : rr_peer) : rr_peer :=
  if p_accessed p <? p_checked p then set_health p 0 (p_accessed p) (p_checked p) else p.

Definition conns_dec (p : rr_peer) : rr_peer := set_conns p (to_u64 (p_conns p - 1)).

Definition ngx_http_upstream_free_round_robin_peer (now : Z) (groups : list rr_peers)
    (rrp : rr_peer_data) (pc : peer_connection) (state : Z)
  : outcome (list rr_peers * peer_connection) :=
  match rrp_current rrp with
  | None => UB
  | Some (k, i) =>
      match groups !! rrp_peers rrp, groups !! k with
      | Some g, Some gk =>
          match g_peer gk !! i with
          | None => UB
          | Some peer =>
              g ← ngx_http_upstream_rr_peers_rlock g;
              peer ← ngx_http_upstream_rr_peer_lock g peer;
              let failed := negb (Z.land state NGX_PEER_FAILED =? 0) in
              let peer :=
                if g_single g then conns_dec peer
                else conns_dec (if failed then peer_failed now peer else peer_live peer) in
              peer ← ngx_http_upstream_rr_peer_unlock g peer;
              g ← ngx_http_upstream_rr_peers_unlock g;
              let tries :=
                if g_single g then 0
                else if negb (pc_tries pc =? 0) then pc_tries pc - 1 else pc_tries pc in
              let groups := <[rrp_peers rrp := g]> groups in
              Ok (alter (fun g => set_peers g (<[i := peer]> (g_peer g))) k groups,
                  mk_pc (pc_cached pc) (pc_connection pc) (pc_sockaddr pc) (pc_name pc) tries)
          end
      | _, _ => UB
      end
  end.

End RoundRobin.

(** ** Configuration: ngx_http_upstream_init_round_robin

    [alloc k] says whether the [k]-th allocation of the function succeeds, and
    [resolve] is ngx_inet_resolve_host: the addresses of a host, with their
    names, or an error. *)

Definition address : Type := (list Z * list Z)%type.

(** ngx_http_upstream_server_t; [naddrs] is the length of [sv_addrs]. *)
Record upstream_server : Type := mk_server {
  sv_name : list Z;
  sv_addrs : list address;
  sv_weight : Z;
  sv_max_conns : Z;
  sv_max_fails : Z;
  sv_fail_timeout : Z;
  sv_down : Z;
  sv_backup : bool
}.

(** The fields of ngx_http_upstream_srv_conf_t the function uses. *)
Record upstream_srv_conf : Type := mk_us {
  us_servers : option (list upstream_server);
  us_host : list Z;
  us_port : Z
}.

(** The loops that count the addresses, [n], and add up the weights, [w]. *)
Fixpoint count_servers (backup : bool) (servers : list upstream_server) (n w : Z) : Z * Z :=
  match servers with
  | [] => (n, w)
  | s :: servers' =>
      if Bool.eqb (sv_backup s) backup then
        let naddrs := Z.of_nat (length (sv_addrs s)) in
        count_servers backup servers' (to_u64 (n + naddrs)) (to_u64 (w + naddrs * sv_weight s))
      else count_servers backup servers' n w
  end.

(** The peer made from an address. *)
Definition new_peer (server : list Z) (weight max_conns max_fails fail_timeout down : Z)
    (a : address) : rr_peer :=
  mk_peer a.1 a.2 server 0 weight weight 0 max_conns 0 0 0 max_fails fail_timeout down 0.

(** The loops that fill the array of peers and link it. *)
Fixpoint fill_peers (backup : bool) (servers : list upstream_server) : list rr_peer :=
  match servers with
  | [] => []
  | s :: servers' =>
      if Bool.eqb (sv_backup s) backup then
        map (new_peer (sv_name s) (sv_weight s) (sv_max_conns s) (sv_max_fails s)
               (sv_fail_timeout s) (sv_down s)) (sv_addrs s)
          ++ fill_peers backup servers'
      else fill_peers backup servers'
  end.

Definition new_group (single : bool) (n w : Z) (name : list Z) (ps : list rr_peer) : rr_peers :=
  mk_peers n false 0 w single (negb (w =? n)) name ps.

(** The return code and [us->peer.data], if it was set. *)
Definition ngx_http_upstream_init_round_robin (alloc : nat -> bool)
    (resolve : list Z -> Z -> option (list address)) (us : upstream_srv_conf)
  : Z * option (list rr_peers) :=
  match us_servers us with
  | Some servers =>
      let '(n, w) := count_servers false servers 0 0 in
      if n =? 0 then (NGX_ERROR, None)
      else if negb (alloc 0%nat) then (NGX_ERROR, None)
      else if negb (alloc 1%nat) then (NGX_ERROR, None)
      else
        let ps := fill_peers false servers in
        let '(bn, bw) := count_servers true servers 0 0 in
        let peers := new_group (n =? 1) n w (us_host us) ps in
        if bn =? 0 then (NGX_OK, Some [peers])
        else if negb (alloc 2%nat) then (NGX_ERROR, Some [peers])
        else if negb (alloc 3%nat) then (NGX_ERROR, Some [peers])
        else
          let peers := new_group false n w (us_host us) ps in
          let backup := new_group false bn bw (us_host us) (fill_peers true servers) in
          (NGX_OK, Some [peers; backup])
  | None =>
      if us_port us =? 0 then (NGX_ERROR, None)
      else
        match resolve (us_host us) (us_port us) with
        | None => (NGX_ERROR, None)
        | Some addrs =>
            let n := Z.of_nat (length addrs) in
            if negb (alloc 0%nat) then (NGX_ERROR, None)
            else if negb (alloc 1%nat) then (NGX_ERROR, None)
            else
              (NGX_OK, Some [new_group (n =? 1) n n (us_host us) (map (new_peer [] 1 0 1 10 0) addrs)])
        end
  end.

(** [ngx_http_upstream_tries(p)] *)
Definition ngx_http_upstream_tries (groups : list rr_peers) : Z :=
  match groups with
  | [] => 0
  | [g] => to_u64 (g_number g)
  | g :: b :: _ => to_u64 (g_number g + g_number b)
  end.

(** The number of bits [rrp->tried] must have: the larger of the two groups. *)
Definition tried_bits (groups : list rr_peers) : Z :=
  match groups with
  | [] => 0
  | [g] => g_number g
  | g :: b :: _ => if g_number g <? g_number b then g_number b else g_number g
  end.

(** ngx_http_upstream_init_round_robin_peer; [have_rrp] says that
    [r->upstream->peer.data] is not NULL.  [None] is NGX_ERROR. *)
Definition ngx_http_upstream_init_round_robin_peer (alloc : nat -> bool) (have_rrp : bool)
    (groups : list rr_peers) (pc : peer_connection)
  : option (rr_peer_data * peer_connection) :=
  if negb have_rrp && negb (alloc 0%nat) then None
  else
    let n := tried_bits groups in
    let pc := mk_pc (pc_cached pc) (pc_connection pc) (pc_sockaddr pc) (pc_name pc)
                (ngx_http_upstream_tries groups) in
    if n <=? 64 then Some (mk_rrp 0 0 None [0], pc)
    else if negb (alloc 1%nat) then None
    else Some (mk_rrp 0 0 None (repeat 0 (Z.to_nat (tried_words n))), pc).
