(* ===== verification/RoundRobinTheory.v ===== *)
(** Theorems on the round-robin balancer of RoundRobin.v: the loop against a
    specification, the invariant of the counters, the choice of the peer, the
    locks, and the fairness of a cycle. *)

From stdpp Require Import base numbers list option relations.
From Stdlib Require Import ZArith Lia.
From S2P Require Import Prelude Rwlock WeightBalance RoundRobin.
Local Open Scope Z_scope.

(** * The bit map *)

Definition word_ok (w : Z) : Prop := 0 <= w < 2 ^ 64.
Definition is_tried (tried : list Z) (i : nat) : bool :=
  Z.testbit (default 0 (tried !! tried_word i)) (Z.of_nat (i mod 64)).
Definition tried_fits (tried : list Z) (n : nat) : Prop := (n <= 64 * length tried)%nat.

Lemma tried_word_lt tried n i :
  tried_fits tried n -> (i < n)%nat -> (tried_word i < length tried)%nat.
Proof. unfold tried_fits, tried_word. intros. apply Nat.Div0.div_lt_upper_bound. lia. Qed.

Lemma tried_mask_pow i : tried_mask i = 2 ^ Z.of_nat (i mod 64).
Proof.
  unfold tried_mask. rewrite Z.shiftl_1_l. apply to_u64_id.
  pose proof (Nat.mod_upper_bound i 64 ltac:(lia)). split; [lia|].
  apply Z.pow_lt_mono_r; lia.
Qed.

Lemma land_pow2 w k : 0 <= k -> Z.land w (2 ^ k) = if Z.testbit w k then 2 ^ k else 0.
Proof.
  intros Hk. apply Z.bits_inj'. intros j Hj.
  rewrite Z.land_spec, Z.pow2_bits_eqb by done.
  destruct (Z.eqb_spec k j) as [->|Hne].
  - destruct (Z.testbit w j) eqn:E; [by rewrite Z.pow2_bits_true|by rewrite Z.bits_0].
  - rewrite andb_false_r. destruct (Z.testbit w k); [by rewrite Z.pow2_bits_false|by rewrite Z.bits_0].
Qed.

Lemma tried_test_spec tried n i :
  tried_fits tried n -> (i < n)%nat -> tried_test tried i = Ok (is_tried tried i).
Proof.
  intros Hf Hi. pose proof (tried_word_lt _ _ _ Hf Hi) as Hw.
  destruct (lookup_lt_is_Some_2 _ _ Hw) as [w E]. unfold tried_test, is_tried.
  rewrite (deref_lookup _ _ _ E), E. cbn. rewrite tried_mask_pow, land_pow2 by lia.
  destruct (Z.testbit w _); [|done].
  rewrite (proj2 (Z.eqb_neq _ _)); [done|]. apply Z.pow_nonzero; lia.
Qed.

Lemma word_mod_inj i j : tried_word i = tried_word j -> (i mod 64 = j mod 64)%nat -> i = j.
Proof. unfold tried_word. intros E1 E2. rewrite (Nat.div_mod_eq i 64), (Nat.div_mod_eq j 64). lia. Qed.

Lemma tried_set_spec tried n i :
  tried_fits tried n -> (i < n)%nat ->
  exists tried', tried_set tried i = Ok tried' /\ length tried' = length tried /\
    forall j, is_tried tried' j = is_tried tried j || bool_decide (j = i).
Proof.
  intros Hf Hi. pose proof (tried_word_lt _ _ _ Hf Hi) as Hw.
  destruct (lookup_lt_is_Some_2 _ _ Hw) as [w E]. unfold tried_set.
  rewrite (deref_lookup _ _ _ E). cbn [mbind outcome_bind]. rewrite store_ok by done.
  eexists. split; [done|]. split; [apply length_insert|]. intros j. unfold is_tried.
  destruct (decide (tried_word j = tried_word i)) as [Ej|Ej].
  - rewrite Ej, list_lookup_insert_eq, E by done. cbn.
    rewrite tried_mask_pow, Z.lor_spec, Z.pow2_bits_eqb by lia. f_equal.
    destruct (Z.eqb_spec (Z.of_nat (i mod 64)) (Z.of_nat (j mod 64))).
    + symmetry. apply bool_decide_eq_true. apply word_mod_inj; lia.
    + symmetry. apply bool_decide_eq_false. by intros ->.
  - rewrite list_lookup_insert_ne by done. rewrite bool_decide_eq_false_2; [by rewrite orb_false_r|].
    by intros ->.
Qed.

Lemma tried_clear_spec tried i n :
  (i + n <= length tried)%nat ->
  exists tried', tried_clear tried i n = Ok tried' /\ length tried' = length tried /\
    (forall k, (i <= k < i + n)%nat -> tried' !! k = Some 0) /\
    (forall k, (k < i)%nat -> tried' !! k = tried !! k).
Proof.
  revert tried i. induction n as [|n IH]; intros tried i Hn; cbn.
  - exists tried. split_and!; [done..|lia|done].
  - rewrite store_ok by lia. cbn [mbind outcome_bind].
    destruct (IH (<[i := 0]> tried) (S i)) as (t' & -> & Hl & Hz & Hk); [rewrite length_insert; lia|].
    rewrite length_insert in Hl. exists t'. split_and!; [done..| |].
    + intros k Hki. destruct (decide (k = i)) as [->|]; [|apply Hz; lia].
      rewrite Hk by lia. apply list_lookup_insert_eq. lia.
    + intros k Hki. rewrite Hk by lia. apply list_lookup_insert_ne. lia.
Qed.

(** * Choosing a peer *)

Definition usable (now : Z) (p : rr_peer) : bool :=
  (p_down p =? 0)
  && negb (negb (p_max_fails p =? 0) && (p_max_fails p <=? p_fails p)
           && (now - p_checked p <=? p_fail_timeout p))
  && negb (conns_full p).

(** The largest time, 2^62 seconds, leaves room for the differences. *)
Definition time_ok (t : Z) : Prop := 0 <= t < 2 ^ 62.

Lemma peer_usable_spec now p :
  time_ok now -> time_ok (p_checked p) -> peer_usable now p = Ok (usable now p).
Proof.
  unfold time_ok, peer_usable, usable. intros Hn Hc.
  destruct (p_down p =? 0); [|done]. cbn [negb andb].
  destruct (negb (p_max_fails p =? 0) && _); [|done].
  rewrite int64_ok by lia. done.
Qed.

(** Who takes part in a round: the peers neither tried nor unusable. *)
Fixpoint eligible (now : Z) (tried : list Z) (i : nat) (ps : list rr_peer) : list bool :=
  match ps with
  | [] => []
  | p :: ps' => (negb (is_tried tried i) && usable now p) :: eligible now tried (S i) ps'
  end.

Definition weighed (p : rr_peer) : rr_peer :=
  set_weights p (p_current_weight p + p_effective_weight p)
    (if p_effective_weight p <? p_weight p then p_effective_weight p + 1 else p_effective_weight p).

Definition weigh_all (m : list bool) (ps : list rr_peer) : list rr_peer :=
  zip_with (fun (b : bool) p => if b then weighed p else p) m ps.

(** The effective weights of the participants, 0 for the others. *)
Definition stakes (m : list bool) (ps : list rr_peer) : list Z :=
  zip_with (fun (b : bool) p => if b then p_effective_weight p else 0) m ps.

Definition better (i : nat) (p : rr_peer) (best : option (nat * rr_peer)) : option (nat * rr_peer) :=
  match best with
  | None => Some (i, p)
  | Some (_, b) => if p_current_weight b <? p_current_weight p then Some (i, p) else best
  end.

Fixpoint best_of (m : list bool) (ps : list rr_peer) (i : nat) (best : option (nat * rr_peer))
  : option (nat * rr_peer) :=
  match m, ps with
  | b :: m', p :: ps' => best_of m' ps' (S i) (if b : bool then better i (weighed p) best else best)
  | _, _ => best
  end.

Lemma eligible_length now tried i ps : length (eligible now tried i ps) = length ps.
Proof. revert i. induction ps as [|p ps IH]; intros i; cbn; [done|]. by rewrite IH. Qed.

Lemma eligible_lookup now tried i ps j p :
  ps !! j = Some p ->
  eligible now tried i ps !! j = Some (negb (is_tried tried (i + j)) && usable now p).
Proof.
  revert i j. induction ps as [|q ps IH]; intros i [|j] Hj; try done.
  - injection Hj as ->. by rewrite Nat.add_0_r.
  - rewrite Nat.add_succ_r. by apply (IH (S i)).
Qed.

(** The peers a round starts from: the counters leave room for the weights. *)
Record weights_ok (p : rr_peer) : Prop := {
  wo_ew : 0 <= p_effective_weight p <= p_weight p;
  wo_w : p_weight p < 2 ^ 62;
  wo_cw : - 2 ^ 62 <= p_current_weight p <= 2 ^ 62;
  wo_checked : time_ok (p_checked p)
}.

Lemma weigh_spec p : weights_ok p -> weigh p = Ok (weighed p).
Proof. intros [He Hw Hc _]. unfold weigh. rewrite int64_ok by lia. done. Qed.

Lemma get_peer_loop_spec now tried ps i total best :
  time_ok now -> Forall weights_ok ps -> tried_fits tried (i + length ps) ->
  0 <= total -> total + sum (map p_weight ps) < 2 ^ 63 ->
  let m := eligible now tried i ps in
  get_peer_loop now tried ps i total best
    = Ok (weigh_all m ps, total + sum (stakes m ps), best_of m ps i best).
Proof.
  intros Hn Hps. revert i total best.
  induction Hps as [|p ps Hp Hps IH]; intros i total best Hf Ht Hsum.
  - cbn. by rewrite Z.add_0_r.
  - cbn [map length] in Hsum, Hf. rewrite sum_cons in Hsum.
    assert (Hrest : 0 <= sum (map p_weight ps)).
    { rewrite <- (msum_all (map p_weight ps)). apply msum_nonneg, Forall_map.
      eapply List.Forall_impl; [|exact Hps]. intros q Hq. destruct (wo_ew q Hq). lia. }
    destruct (wo_ew p Hp) as [He1 He2].
    cbn [get_peer_loop eligible]. rewrite (tried_test_spec _ (i + S (length ps)) _ Hf) by lia.
    cbn [mbind outcome_bind].
    assert (IHf : tried_fits tried (S i + length ps)) by (unfold tried_fits in *; lia).
    destruct (is_tried tried i); cbn [negb andb].
    + rewrite IH by (done || lia). done.
    + rewrite peer_usable_spec by (done || apply Hp). destruct (usable now p).
      * rewrite weigh_spec by done. cbn [mbind outcome_bind]. rewrite int64_ok by lia.
        cbn [mbind outcome_bind]. rewrite IH by (done || lia). cbn [mbind outcome_bind].
        unfold stakes, weigh_all. cbn [zip_with best_of]. rewrite sum_cons, Z.add_assoc. done.
      * rewrite IH by (done || lia). done.
Qed.

(** [best] is a participant with the largest grown counter among the first [i]
    peers. *)
Definition best_inv (m : list bool) (ps : list rr_peer) (i : nat)
    (best : option (nat * rr_peer)) : Prop :=
  match best with
  | None => forall j, (j < i)%nat -> m !! j <> Some true
  | Some (p, b) =>
      (p < i)%nat /\ m !! p = Some true /\ (exists q, ps !! p = Some q /\ b = weighed q) /\
      forall j q, (j < i)%nat -> m !! j = Some true -> ps !! j = Some q ->
        p_current_weight (weighed q) <= p_current_weight b
  end.

Lemma best_inv_skip m ps i best :
  m !! i <> Some true -> best_inv m ps i best -> best_inv m ps (S i) best.
Proof.
  intros Hi. destruct best as [[p b]|]; cbn.
  - intros (Hp & Hm & Hq & Hmax). split_and!; [lia|done..|]. intros j q Hj Hmj.
    apply Hmax; [|done]. assert (j <> i) by (intros ->; done). lia.
  - intros Hn j Hj. destruct (decide (j = i)) as [->|]; [done|]. apply Hn. lia.
Qed.

Lemma best_inv_better m ps i p best :
  m !! i = Some true -> ps !! i = Some p -> best_inv m ps i best ->
  best_inv m ps (S i) (better i (weighed p) best).
Proof.
  intros Hi Hp Hb.
  assert (Hnew : (forall j q, (j < i)%nat -> m !! j = Some true -> ps !! j = Some q ->
      p_current_weight (weighed q) <= p_current_weight (weighed p)) ->
    best_inv m ps (S i) (Some (i, weighed p))).
  { intros Hle. split_and!; [lia|done|by exists p|]. intros j q Hj Hmj Hq.
    destruct (decide (j = i)) as [->|]; [|apply (Hle j q); [lia|done..]].
    rewrite Hp in Hq. by injection Hq as ->. }
  destruct best as [[pb b]|]; cbn [better] in *.
  - destruct Hb as (Hpb & Hm & Hq & Hmax).
    destruct (Z.ltb_spec (p_current_weight b) (p_current_weight (weighed p))).
    + apply Hnew. intros j q Hj Hmj Hqj. specialize (Hmax j q Hj Hmj Hqj). lia.
    + split_and!; [lia|done..|]. intros j q Hj Hmj Hqj.
      destruct (decide (j = i)) as [->|]; [|apply (Hmax j q); [lia|done..]].
      rewrite Hp in Hqj. by injection Hqj as ->.
  - apply Hnew. intros j q Hj Hmj. by destruct (Hb j Hj).
Qed.

Lemma best_of_inv m ps m2 ps2 best :
  length m = length ps -> length m2 = length ps2 ->
  best_inv (m2 ++ m) (ps2 ++ ps) (length ps2) best ->
  best_inv (m2 ++ m) (ps2 ++ ps) (length (ps2 ++ ps)) (best_of m ps (length ps2) best).
Proof.
  revert ps m2 ps2 best. induction m as [|b m IH]; intros [|p ps] m2 ps2 best Hl Hl2 Hb;
    try done; [by rewrite !app_nil_r in *|].
  cbn [best_of]. rewrite (cons_middle b), (cons_middle p), !app_assoc.
  replace (S (length ps2)) with (length (ps2 ++ [p])) by (rewrite length_app; cbn; lia).
  apply IH; [by injection Hl|rewrite !length_app; cbn; lia|].
  rewrite <- !app_assoc. cbn [app]. rewrite length_app, Nat.add_1_r.
  assert (Hm : (m2 ++ b :: m) !! length ps2 = Some b) by (rewrite <- Hl2; apply list_lookup_middle; done).
  destruct b.
  - apply best_inv_better; [done|by apply list_lookup_middle|done].
  - apply best_inv_skip; [by rewrite Hm|done].
Qed.

Lemma best_of_spec m ps :
  length m = length ps -> best_inv m ps (length ps) (best_of m ps 0 None).
Proof. intros Hl. apply (best_of_inv m ps [] [] None Hl eq_refl). cbn. lia. Qed.

Lemma weigh_all_lookup m ps j p b :
  m !! j = Some b -> ps !! j = Some p ->
  weigh_all m ps !! j = Some (if b : bool then weighed p else p).
Proof. intros Hm Hp. unfold weigh_all. by rewrite lookup_zip_with, Hm, Hp. Qed.

Lemma stakes_lookup m ps j p b :
  m !! j = Some b -> ps !! j = Some p ->
  stakes m ps !! j = Some (if b : bool then p_effective_weight p else 0).
Proof. intros Hm Hp. unfold stakes. by rewrite lookup_zip_with, Hm, Hp. Qed.

(** What ngx_http_upstream_get_peer does to the peers when it picks [p]. *)
Definition picked (now : Z) (total : Z) (q : rr_peer) : rr_peer :=
  let b := set_weights (weighed q) (p_current_weight (weighed q) - total)
             (p_effective_weight (weighed q)) in
  if p_fail_timeout b <? now - p_checked b then set_health b (p_fails b) (p_accessed b) now else b.

Definition after_pick (now : Z) (m : list bool) (ps : list rr_peer) (p : nat) : list rr_peer :=
  match ps !! p with
  | Some q => <[p := picked now (sum (stakes m ps)) q]> (weigh_all m ps)
  | None => weigh_all m ps
  end.

Lemma weigh_all_none m ps :
  length m = length ps -> (forall j, (j < length ps)%nat -> m !! j <> Some true) -> weigh_all m ps = ps.
Proof.
  revert ps. induction m as [|b m IH]; intros [|p ps] Hl Hn; try done.
  unfold weigh_all in *. cbn [zip_with]. rewrite IH.
  - specialize (Hn 0%nat ltac:(cbn; lia)). by destruct b.
  - by injection Hl.
  - intros j Hj. apply (Hn (S j)). cbn. lia.
Qed.

(** The peer at [p] takes part with the largest grown counter. *)
Definition best_at (m : list bool) (ps : list rr_peer) (p : nat) : Prop :=
  m !! p = Some true /\
  exists q, ps !! p = Some q /\
    forall j qj, m !! j = Some true -> ps !! j = Some qj ->
      p_current_weight qj + p_effective_weight qj <= p_current_weight q + p_effective_weight q.

Lemma stakes_bounds m ps :
  Forall weights_ok ps -> length m = length ps ->
  Forall (Z.le 0) (stakes m ps) /\ sum (stakes m ps) <= sum (map p_weight ps).
Proof.
  intros Hps. revert m. induction Hps as [|p ps Hp Hps IH]; intros [|b m] Hl; try done.
  unfold stakes in *. cbn [zip_with map]. rewrite !sum_cons.
  destruct (IH m) as [H1 H2]; [by injection Hl|]. destruct (wo_ew p Hp).
  split; [constructor; [destruct b; lia|done]|destruct b; lia].
Qed.

Lemma get_peer_spec now tried ps :
  time_ok now -> Forall weights_ok ps -> tried_fits tried (length ps) ->
  sum (map p_weight ps) < 2 ^ 62 ->
  let m := eligible now tried 0 ps in
  (Forall (eq false) m /\ ngx_http_upstream_get_peer now tried ps = Ok (ps, tried, None)) \/
  exists p tried', best_at m ps p /\ tried_set tried p = Ok tried' /\
    ngx_http_upstream_get_peer now tried ps = Ok (after_pick now m ps p, tried', Some p).
Proof.
  intros Hn Hps Hf Hw m. pose proof (eligible_length now tried 0 ps) as Hl. fold m in Hl.
  destruct (stakes_bounds m ps Hps Hl) as [Hs1 Hs2].
  assert (Hs0 : 0 <= sum (stakes m ps)).
  { rewrite <- msum_all. by apply msum_nonneg. }
  unfold ngx_http_upstream_get_peer.
  rewrite get_peer_loop_spec by (done || lia). cbn [mbind outcome_bind]. fold m.
  pose proof (best_of_spec m ps Hl) as Hb.
  destruct (best_of m ps 0 None) as [[p b]|]; cbn [best_inv] in Hb.
  - right. destruct Hb as (Hp & Hm & (q & Hq & ->) & Hmax).
    destruct (tried_set_spec tried (length ps) p Hf Hp) as (tried' & Et & _).
    exists p, tried'. assert (Hqo : weights_ok q) by by eapply Forall_lookup_1 in Hps.
    destruct Hqo as [He Hwq Hc Ht]. unfold time_ok in *.
    split; [split; [done|exists q; split; [done|]]|split; [done|]].
    + intros j qj Hj Hqj. apply (Hmax j qj); [|done..]. by eapply lookup_lt_Some.
    + rewrite Et. cbn [mbind outcome_bind]. rewrite Z.add_0_l.
      rewrite int64_ok by (cbn; lia). cbn [mbind outcome_bind].
      rewrite int64_ok by (cbn; lia). cbn [mbind outcome_bind].
      unfold after_pick. rewrite Hq. done.
  - left. split.
    + apply Forall_lookup. intros j b Hj. destruct b; [|done].
      destruct (Hb j); [|done]. rewrite <- Hl. by eapply lookup_lt_Some.
    + by rewrite weigh_all_none.
Qed.

(** * The invariant of a group *)

Definition counters (ps : list rr_peer) : list Z := p_current_weight <$> ps.
Definition total_weight (ps : list rr_peer) : Z := sum (map p_weight ps).

Definition peer_ok (p : rr_peer) : Prop :=
  0 <= p_effective_weight p <= p_weight p /\ time_ok (p_checked p) /\ time_ok (p_accessed p) /\
  0 <= p_max_fails p.

(** Effective weights lie between 0 and the configured ones, the counters are
    balanced, and the weights are small enough for 64 bits. *)
Record peers_ok (ps : list rr_peer) : Prop := {
  po_peers : Forall peer_ok ps;
  po_balanced : balanced (total_weight ps) (counters ps);
  po_size : total_weight ps * Z.of_nat (length ps) < 2 ^ 62
}.

Lemma total_weight_nonneg ps : Forall peer_ok ps -> 0 <= total_weight ps.
Proof.
  induction 1 as [|q ps [Hq _] _ IH]; [done|].
  unfold total_weight in *. cbn [map]. rewrite sum_cons. lia.
Qed.

Lemma weight_le_total ps j p :
  Forall peer_ok ps -> ps !! j = Some p -> p_weight p <= total_weight ps.
Proof.
  intros H. revert j. induction H as [|q ps [Hq _] Hps IH]; intros [|j] Hj; try done;
    pose proof (total_weight_nonneg ps Hps); unfold total_weight in *; cbn [map]; rewrite sum_cons.
  - injection Hj as ->. lia.
  - specialize (IH j Hj). lia.
Qed.

Lemma peers_ok_weights ps : peers_ok ps -> Forall weights_ok ps.
Proof.
  intros [Hp Hb Hs]. apply Forall_lookup. intros j p Hj.
  pose proof (weight_le_total ps j p Hp Hj) as Hw. pose proof (total_weight_nonneg ps Hp) as Ht.
  pose proof (lookup_lt_Some _ _ _ Hj) as Hlt.
  assert (Hc : counters ps !! j = Some (p_current_weight p)).
  { unfold counters. rewrite list_lookup_fmap, Hj. done. }
  apply (balanced_bound _ _ _ _ Hb) in Hc. unfold counters in Hc. rewrite length_fmap in Hc.
  pose proof (Forall_lookup_1 _ _ _ _ Hp Hj) as (He & Hck & _).
  assert (total_weight ps <= total_weight ps * Z.of_nat (length ps)) by nia.
  split; [done|lia|lia|done].
Qed.

Lemma peers_ok_total ps : peers_ok ps -> total_weight ps < 2 ^ 62.
Proof.
  intros [Hp _ Hs]. destruct ps as [|p ps]; [done|].
  pose proof (total_weight_nonneg _ Hp). cbn [length] in Hs. nia.
Qed.

Lemma counters_weigh_all m ps :
  length m = length ps -> counters (weigh_all m ps) = zip_with Z.add (counters ps) (stakes m ps).
Proof.
  revert ps. induction m as [|b m IH]; intros [|p ps] Hl; try done.
  unfold counters, weigh_all, stakes in *. cbn [zip_with fmap list_fmap]. rewrite IH by by injection Hl.
  f_equal. destruct b; cbn; lia.
Qed.

Lemma counters_after_pick now m ps p :
  length m = length ps -> best_at m ps p ->
  counters (after_pick now m ps p) = play (counters ps) (stakes m ps) p.
Proof.
  intros Hl (Hm & q & Hq & _). unfold after_pick, play. rewrite Hq.
  rewrite <- counters_weigh_all by done. unfold counters.
  rewrite list_lookup_fmap, (weigh_all_lookup _ _ _ _ _ Hm Hq).
  cbn. rewrite list_fmap_insert. f_equal. unfold picked. by destruct (_ <? _).
Qed.

Lemma pick_round m ps p :
  Forall weights_ok ps -> length m = length ps -> best_at m ps p ->
  round (total_weight ps) (counters ps) (stakes m ps) m p.
Proof.
  intros Hps Hl (Hm & q & Hq & Hmax). destruct (stakes_bounds m ps Hps Hl) as [Hs1 Hs2].
  split; [..|done|].
  - unfold stakes, counters. rewrite length_zip_with, length_fmap. lia.
  - unfold counters. by rewrite length_fmap.
  - done.
  - done.
  - intros j Hj. destruct (lookup_lt_is_Some_2 ps j) as [pj Hpj].
    { rewrite <- Hl. by eapply lookup_lt_Some. }
    by rewrite (stakes_lookup _ _ _ _ _ Hj Hpj).
  - intros j xj ej xp ep Hj Hxj Hej Hxp Hep.
    unfold counters in *. rewrite list_lookup_fmap in Hxj, Hxp.
    destruct (ps !! j) as [pj|] eqn:Epj; [|done]. rewrite Hq in Hxp.
    rewrite (stakes_lookup _ _ _ _ _ Hj Epj) in Hej. rewrite (stakes_lookup _ _ _ _ _ Hm Hq) in Hep.
    cbn in *. simplify_eq. by apply (Hmax j).
Qed.

(** Peers that differ in their counters, effective weights and health only. *)
Definition same_config (p q : rr_peer) : Prop :=
  p_sockaddr p = p_sockaddr q /\ p_name p = p_name q /\ p_server p = p_server q /\
  p_weight p = p_weight q /\ p_max_conns p = p_max_conns q /\ p_max_fails p = p_max_fails q /\
  p_fail_timeout p = p_fail_timeout q /\ p_down p = p_down q /\ p_lock p = p_lock q.

Lemma same_config_refl p : same_config p p.
Proof. done. Qed.

Lemma picked_ok now total q :
  time_ok now -> peer_ok q ->
  peer_ok (picked now total q) /\ same_config (picked now total q) q /\
  p_conns (picked now total q) = p_conns q.
Proof.
  unfold peer_ok, picked. intros Hn (He & Hc & Ha & Hm). cbn.
  destruct (Z.ltb_spec (p_effective_weight q) (p_weight q));
    destruct (Z.ltb_spec (p_fail_timeout q) (now - p_checked q)); cbn; split_and!; lia || done.
Qed.

Lemma weighed_ok q : peer_ok q -> peer_ok (weighed q) /\ same_config (weighed q) q /\
  p_conns (weighed q) = p_conns q.
Proof.
  unfold peer_ok. intros (He & Hc & Ha & Hm). cbn.
  destruct (Z.ltb_spec (p_effective_weight q) (p_weight q)); cbn; split_and!; lia || done.
Qed.

(** Every peer after a pick is a peer of before with other weights. *)
Lemma after_pick_forall2 now m ps p :
  time_ok now -> length m = length ps -> Forall peer_ok ps ->
  Forall2 (fun p' q => peer_ok p' /\ same_config p' q /\ p_conns p' = p_conns q)
    (after_pick now m ps p) ps.
Proof.
  intros Hn Hl Hps.
  assert (Hw : Forall2 (fun p' q => peer_ok p' /\ same_config p' q /\ p_conns p' = p_conns q)
    (weigh_all m ps) ps).
  { clear p. revert m Hl. induction Hps as [|q ps Hq Hps IH]; intros [|b m] Hl; try done.
    unfold weigh_all in *. cbn [zip_with]. constructor; [|apply IH; by injection Hl].
    destruct b; [by apply weighed_ok|done]. }
  unfold after_pick. destruct (ps !! p) as [q|] eqn:Hq; [|done].
  rewrite <- (list_insert_id ps p q Hq) at 3. apply Forall2_insert; [done|].
  apply picked_ok; [done|]. by eapply Forall_lookup_1 in Hps.
Qed.

Lemma same_config_weights l ps (R : rr_peer -> rr_peer -> Prop) :
  (forall p q, R p q -> same_config p q) -> Forall2 R l ps -> map p_weight l = map p_weight ps.
Proof.
  intros HR. induction 1 as [|p q l ps Hpq _ IH]; [done|]. cbn. rewrite IH.
  apply HR in Hpq as (_ & _ & _ & -> & _). done.
Qed.

Lemma after_pick_ok now m ps p :
  time_ok now -> length m = length ps -> peers_ok ps -> best_at m ps p ->
  peers_ok (after_pick now m ps p).
Proof.
  intros Hn Hl Hok Hb. pose proof (peers_ok_weights ps Hok) as Hw. destruct Hok as [Hp Hbal Hs].
  pose proof (after_pick_forall2 now m ps p Hn Hl Hp) as H2.
  assert (Et : total_weight (after_pick now m ps p) = total_weight ps).
  { unfold total_weight. f_equal. eapply same_config_weights; [|exact H2]. by intros ? ? (_ & ? & _). }
  split.
  - eapply Forall2_Forall_l; [exact H2|]. apply Forall_forall. by intros ? _ ? (? & _).
  - rewrite Et, counters_after_pick by done.
    eapply play_balanced; [by apply pick_round|done].
  - rewrite Et, (List.Forall2_length H2). done.
Qed.

(** * The balancer *)

(** Whether the code would take the peer at position [i]: a single peer is
    tested neither for failures nor against the bit map. *)
Definition selectable (now : Z) (g : rr_peers) (tried : list Z) (i : nat) (p : rr_peer) : bool :=
  if g_single g then (p_down p =? 0) && negb (conns_full p)
  else negb (is_tried tried i) && usable now p.

Definition none_selectable (now : Z) (g : rr_peers) (tried : list Z) : Prop :=
  forall i p, g_peer g !! i = Some p -> (g_single g = true -> i = 0%nat) ->
  selectable now g tried i p = false.

(** The group after the peer at [i] was taken. *)
Definition taken (now : Z) (g : rr_peers) (tried : list Z) (i : nat) : rr_peers :=
  let ps := if g_single g then g_peer g
            else after_pick now (eligible now tried 0 (g_peer g)) (g_peer g) i in
  set_peers g (alter (fun p => set_conns p (to_u64 (p_conns p + 1))) i ps).

(** The specification of a choice: a selectable peer, and among several the one
    whose counter is the largest once the weights are added. *)
Definition pick (now : Z) (g : rr_peers) (tried : list Z) (i : nat) : Prop :=
  exists p, g_peer g !! i = Some p /\ selectable now g tried i p = true /\
    (g_single g = true -> i = 0%nat) /\
    (g_single g = false -> forall j q, g_peer g !! j = Some q ->
       selectable now g tried j q = true ->
       p_current_weight q + p_effective_weight q <= p_current_weight p + p_effective_weight p).

Definition untried (tried : list Z) (g : rr_peers) : Prop :=
  forall i, (i < length (g_peer g))%nat -> is_tried tried i = false.

(** The abstract balancer: the groups are asked in order, the bit map being
    cleared between them, until one has a peer. *)
Inductive balance (now : Z) : nat -> list rr_peers -> list Z ->
    Z -> list rr_peers -> option (nat * nat) -> Prop :=
| balance_ok k g next tried i :
    pick now g tried i ->
    balance now k (g :: next) tried NGX_OK (taken now g tried i :: next) (Some (k, i))
| balance_busy k g tried :
    none_selectable now g tried ->
    balance now k [g] tried NGX_BUSY [g] None
| balance_next k g b next tried tried' rc next' cur :
    none_selectable now g tried -> untried tried' b ->
    balance now (S k) (b :: next) tried' rc next' cur ->
    balance now k (g :: b :: next) tried rc (g :: next') cur.

Record group_ok (g : rr_peers) : Prop := {
  go_number : g_number g = Z.of_nat (length (g_peer g));
  go_fits : g_number g < 2 ^ 63;
  go_single : g_single g = true -> g_peer g <> [];
  go_unlocked : g_rwlock g = 0;
  go_peers_unlocked : Forall (fun p => p_lock p = 0) (g_peer g);
  go_peers : peers_ok (g_peer g)
}.

Section Locks.
Context `{RWLock}.

Definition write_locked (g : rr_peers) : rr_peers :=
  set_rwlock g (if g_shpool g then lk_written else g_rwlock g).

Lemma wlock_spec g : g_rwlock g = 0 -> ngx_http_upstream_rr_peers_wlock g = Ok (write_locked g).
Proof.
  intros E. unfold ngx_http_upstream_rr_peers_wlock, peers_lock, write_locked.
  rewrite E. destruct g as [n sh l w s wt nm ps]. cbn in *. subst l.
  destruct sh; cbn; [|done]. by rewrite lk_wlock_free.
Qed.

Lemma unlock_spec g ps :
  g_rwlock g = 0 ->
  ngx_http_upstream_rr_peers_unlock (set_peers (write_locked g) ps) = Ok (set_peers g ps).
Proof.
  intros E. unfold ngx_http_upstream_rr_peers_unlock, peers_lock, write_locked.
  destruct g as [n sh l w s wt nm ps']. cbn in *. subst l.
  destruct sh; cbn; [|done]. by rewrite lk_unlock_written.
Qed.

Lemma set_peers_id g : set_peers g (g_peer g) = g.
Proof. by destruct g. Qed.

Lemma write_locked_id g : set_peers (write_locked g) (g_peer g) = write_locked g.
Proof. by destruct g. Qed.

Lemma select_spec now g tried :
  time_ok now -> group_ok g -> tried_fits tried (length (g_peer g)) ->
  (select now (write_locked g) tried = Ok (write_locked g, tried, None) /\
   none_selectable now g tried) \/
  exists i tried', pick now g tried i /\
    select now (write_locked g) tried = Ok (set_peers (write_locked g)
      (if g_single g then g_peer g
       else after_pick now (eligible now tried 0 (g_peer g)) (g_peer g) i), tried', Some i) /\
    (g_single g = false -> tried_set tried i = Ok tried').
Proof.
  intros Hn Hg Hf. unfold select. cbn [g_single write_locked set_rwlock g_peer].
  pose proof (go_peers g Hg) as Hps. pose proof (go_single g Hg) as Hne.
  pose proof (eligible_length now tried 0 (g_peer g)) as Hl.
  unfold none_selectable, pick, selectable. destruct (g_single g).
  - destruct (g_peer g) as [|p ps] eqn:Ep; [by destruct (Hne eq_refl)|].
    destruct (p_down p =? 0) eqn:Ed; cbn [negb].
    + destruct (conns_full p) eqn:Ec.
      * left. split; [done|]. intros i q Hi H0. rewrite (H0 eq_refl) in Hi. injection Hi as <-.
        by rewrite Ed, Ec.
      * right. exists 0%nat, tried. rewrite <- Ep, write_locked_id, Ep. split; [|done].
        exists p. split; [done|]. rewrite Ed, Ec. split; [done|]. split; [done|]. done.
    + left. split; [done|]. intros i q Hi H0. rewrite (H0 eq_refl) in Hi. injection Hi as <-.
      by rewrite Ed.
  - destruct (get_peer_spec now tried (g_peer g)) as [[Hnone ->]|(i & tried' & Hb & Ht & ->)].
    + done.
    + by apply peers_ok_weights.
    + done.
    + by apply peers_ok_total.
    + left. cbn [mbind outcome_bind]. rewrite write_locked_id. split; [done|].
      intros i p Hi _. pose proof (eligible_lookup now tried 0 _ _ _ Hi) as He. rewrite Nat.add_0_l in He.
      by pose proof (Forall_lookup_1 _ _ _ _ Hnone He) as <-.
    + right. exists i, tried'. split; [|done]. destruct Hb as (Hm & q & Hq & Hmax).
      exists q. split; [done|]. rewrite (eligible_lookup now tried 0 _ _ _ Hq) in Hm.
      injection Hm as Hm. split; [done|]. split; [done|]. intros _ j qj Hj Hs.
      apply (Hmax j); [|done]. by rewrite (eligible_lookup now tried 0 _ _ _ Hj), Nat.add_0_l, Hs.
Qed.

Lemma insert_alter_at {A} (f : A -> A) i (l : list A) x :
  l !! i = Some x -> <[i := f x]> l = alter f i l.
Proof.
  revert i. induction l as [|y l IH]; intros [|i] Hi; try done.
  - by injection Hi as ->.
  - change (y :: <[i := f x]> l = y :: alter f i l). by rewrite IH.
Qed.

Lemma g_peer_set_peers g ps : g_peer (set_peers g ps) = ps.
Proof. done. Qed.

Lemma set_peers_twice g ps ps' : set_peers (set_peers g ps) ps' = set_peers g ps'.
Proof. done. Qed.

(** The peer the code reads after a choice: the one chosen, with new weights. *)
Lemma picked_peer now g tried i :
  time_ok now -> group_ok g -> pick now g tried i ->
  exists p p', g_peer g !! i = Some p /\
    (if g_single g then g_peer g
     else after_pick now (eligible now tried 0 (g_peer g)) (g_peer g) i) !! i = Some p' /\
    same_config p' p /\ p_conns p' = p_conns p.
Proof.
  intros Hn Hg (p & Hp & _). exists p. destruct (g_single g); [by exists p|].
  pose proof (after_pick_forall2 now (eligible now tried 0 (g_peer g)) (g_peer g) i Hn
    (eligible_length now tried 0 (g_peer g)) (po_peers _ (go_peers g Hg))) as H2.
  destruct (Forall2_lookup_r _ _ _ _ _ H2 Hp) as (p' & Hp' & _ & Hc & Hconns).
  by exists p'.
Qed.

Lemma tried_words_spec n len : 0 <= n < 2 ^ 63 -> n <= 64 * Z.of_nat len ->
  (Z.to_nat (tried_words n) <= len)%nat /\ n <= 64 * tried_words n.
Proof.
  intros Hn Hl. unfold tried_words. rewrite to_u64_id by lia.
  split; Z.div_mod_to_equations; lia.
Qed.

Lemma tried_clear_group tried b :
  group_ok b -> tried_fits tried (length (g_peer b)) ->
  exists tried', tried_clear tried 0 (Z.to_nat (tried_words (g_number b))) = Ok tried' /\
    length tried' = length tried /\ untried tried' b.
Proof.
  intros Hb Hf. pose proof (go_number b Hb) as En. pose proof (go_fits b Hb) as Hmax.
  unfold tried_fits in Hf.
  destruct (tried_words_spec (g_number b) (length tried)) as [Hw1 Hw2]; [lia|lia|].
  destruct (tried_clear_spec tried 0 (Z.to_nat (tried_words (g_number b)))) as (t' & Et & Hl & Hz & _);
    [lia|].
  exists t'. split_and!; [done..|]. intros i Hi. unfold is_tried.
  rewrite Hz; [apply Z.bits_0|]. split; [lia|]. cbn. unfold tried_word.
  apply Nat.Div0.div_lt_upper_bound. lia.
Qed.

(** What the balancer leaves in the peer data and the connection. *)
Definition reports (k : nat) (groups : list rr_peers) (rrp rrp' : rr_peer_data)
    (pc' : peer_connection) (rc : Z) (cur : option (nat * nat)) : Prop :=
  length (rrp_tried rrp') = length (rrp_tried rrp) /\ pc_cached pc' = 0 /\ pc_connection pc' = None /\
  match cur with
  | Some (k', i) =>
      rc = NGX_OK /\ rrp_current rrp' = Some (k', i) /\ rrp_peers rrp' = k' /\ (k <= k')%nat /\
      exists g p, groups !! (k' - k)%nat = Some g /\ g_peer g !! i = Some p /\
        pc_sockaddr pc' = Some (p_sockaddr p) /\ pc_name pc' = Some (p_name p)
  | None =>
      rc = NGX_BUSY /\ rrp_current rrp' = rrp_current rrp /\
      exists g, head groups = Some g /\ pc_name pc' = Some (g_name g)
  end.

Lemma get_rr_step_ok now k g next rrp pc i tried' :
  time_ok now -> group_ok g -> rrp_peers rrp = k -> pick now g (rrp_tried rrp) i ->
  (g_single g = false -> tried_set (rrp_tried rrp) i = Ok tried') ->
  length tried' = length (rrp_tried rrp) ->
  select now (write_locked g) (rrp_tried rrp) = Ok (set_peers (write_locked g)
    (if g_single g then g_peer g
     else after_pick now (eligible now (rrp_tried rrp) 0 (g_peer g)) (g_peer g) i), tried', Some i) ->
  exists rrp' pc',
    get_round_robin_peer now k (g :: next) rrp pc
      = Ok (NGX_OK, taken now g (rrp_tried rrp) i :: next, rrp', pc') /\
    reports k (g :: next) rrp rrp' pc' NGX_OK (Some (k, i)) /\
    rrp_tried rrp' = tried' /\ pc_tries pc' = pc_tries pc.
Proof.
  intros Hn Hg Hk Hp Ht Hl Hsel. cbn [get_round_robin_peer].
  destruct (picked_peer now g _ i Hn Hg Hp) as (p & p' & Ep & Ep' & Hcfg & Hconns).
  rewrite wlock_spec by apply Hg. cbn [mbind outcome_bind]. rewrite Hsel. cbn [mbind outcome_bind].
  rewrite g_peer_set_peers, Ep', set_peers_twice.
  rewrite unlock_spec by apply Hg. cbn [mbind outcome_bind].
  rewrite (insert_alter_at (fun p => set_conns p (to_u64 (p_conns p + 1))) i _ p' Ep').
  eexists _, _. split; [done|]. cbn. split; [|done].
  split; [done|]. split; [done|]. split; [done|]. split_and!; [done..|].
  exists g, p. rewrite Nat.sub_diag. split_and!; [done..| |]; destruct Hcfg as (-> & -> & _); done.
Qed.

Lemma get_rr_correct now groups k rrp pc :
  time_ok now -> Forall group_ok groups -> groups <> [] -> rrp_peers rrp = k ->
  Forall (fun g => tried_fits (rrp_tried rrp) (length (g_peer g))) groups ->
  exists rc groups' rrp' pc' cur,
    get_round_robin_peer now k groups rrp pc = Ok (rc, groups', rrp', pc') /\
    balance now k groups (rrp_tried rrp) rc groups' cur /\
    reports k groups rrp rrp' pc' rc cur /\ pc_tries pc' = pc_tries pc.
Proof.
  intros Hn Hgs. revert k rrp pc.
  induction Hgs as [|g next Hg Hnext IH]; intros k rrp pc Hne Hk Hf; [done|].
  apply Forall_cons_1 in Hf as [Hfg Hf].
  destruct (select_spec now g (rrp_tried rrp) Hn Hg Hfg) as [[Hsel Hnone]|(i & tried' & Hp & Hsel & Ht)].
  - cbn [get_round_robin_peer]. rewrite wlock_spec by apply Hg.
    cbn [mbind outcome_bind]. rewrite Hsel. cbn [mbind outcome_bind].
    pose proof (unlock_spec g (g_peer g) (go_unlocked g Hg)) as Hul.
    rewrite write_locked_id, set_peers_id in Hul.
    destruct next as [|b next].
    + rewrite Hul. cbn [mbind outcome_bind].
      eexists _, _, _, _, None. split; [done|]. split; [by constructor|].
      split; [|done]. split_and!; [done..|]. by exists g.
    + apply Forall_cons_1 in Hf as [Hfb Hf]. pose proof (Forall_inv Hnext) as Hb.
      destruct (tried_clear_group (rrp_tried rrp) b Hb Hfb) as (tried' & Et & El & Hu).
      cbn [rrp_tried] in *. rewrite Et. cbn [mbind outcome_bind]. rewrite Hul.
      cbn [mbind outcome_bind].
      destruct (IH (S k) (mk_rrp (rrp_config rrp) (S k) (rrp_current rrp) tried')
        (mk_pc 0 None (pc_sockaddr pc) (pc_name pc) (pc_tries pc)))
        as (rc & groups' & rrp' & pc' & cur & E & Hbal & Hrep & Htr); [done|done| |].
      { unfold tried_fits in *. cbn [rrp_tried]. rewrite El. by constructor. }
      cbn [rrp_config rrp_current]. rewrite E. cbn [mbind outcome_bind].
      destruct Hrep as (Hlen & Hcached & Hconn & Hrep). cbn [rrp_tried rrp_current] in *.
      destruct cur as [[k' i]|].
      * destruct Hrep as (-> & Hcur & Hk' & Hle & g' & p & Hg' & Hrest).
        eexists _, _, _, _, (Some (k', i)). split; [done|]. split; [by econstructor|].
        split; [|by rewrite Htr]. split; [lia|]. split_and!; [done..|lia|].
        exists g', p. split; [|done]. replace (k' - k)%nat with (S (k' - S k)) by lia. done.
      * destruct Hrep as (-> & Hcur & _).
        change (negb (NGX_BUSY =? NGX_BUSY)) with false. cbn iota.
        rewrite wlock_spec by apply Hg. cbn [mbind outcome_bind]. rewrite Hul.
        eexists _, _, _, _, None. split; [done|]. split; [by econstructor|].
        split; [|by cbn; rewrite Htr]. split; [cbn; lia|]. split_and!; [done..|]. by exists g.
  - assert (Hlen : exists tried2, (g_single g = false -> tried_set (rrp_tried rrp) i = Ok tried2) /\
        length tried2 = length (rrp_tried rrp) /\ tried2 = tried').
    { exists tried'. split; [done|]. split; [|done]. destruct (g_single g) eqn:Es.
      - unfold select in Hsel. cbn [g_single write_locked set_rwlock] in Hsel. rewrite Es in Hsel.
        cbn [g_peer] in Hsel. repeat case_match; simplify_eq; done.
      - destruct Hp as (p & Hp & _).
        destruct (tried_set_spec (rrp_tried rrp) (length (g_peer g)) i Hfg) as (t2 & E2 & Hl2 & _).
        { by eapply lookup_lt_Some. }
        rewrite Ht in E2 by done. by simplify_eq. }
    destruct Hlen as (t2 & _ & Hl2 & ->).
    destruct (get_rr_step_ok now k g next rrp pc i tried' Hn Hg Hk Hp Ht Hl2 Hsel)
      as (rrp' & pc' & E & Hrep & _ & Htr).
    eexists _, _, rrp', pc', _. split; [exact E|]. split; [by constructor|]. by split.
Qed.

End Locks.

(** * Preservation of the invariant *)

Definition same_weights (p' p : rr_peer) : Prop :=
  peer_ok p' /\ p_weight p' = p_weight p /\ p_current_weight p' = p_current_weight p.

Lemma peers_ok_same l ps : Forall2 same_weights l ps -> peers_ok ps -> peers_ok l.
Proof.
  intros H2 [Hp Hb Hs].
  assert (Ew : total_weight l = total_weight ps /\ counters l = counters ps).
  { clear Hp Hb Hs. unfold total_weight, counters.
    induction H2 as [|p' p l ps (_ & E1 & E2) _ [IH1 IH2]]; [done|].
    cbn [map fmap list_fmap]. rewrite !sum_cons, E1, IH1. split; [done|]. f_equal; done. }
  destruct Ew as [Ew Ec]. split.
  - clear -H2. induction H2 as [|p' p l ps (Hp & _) _ IH]; by constructor.
  - by rewrite Ew, Ec.
  - by rewrite Ew, (List.Forall2_length H2).
Qed.

Lemma alter_same (R : rr_peer -> rr_peer -> Prop) f i ps :
  Forall (fun p => R p p /\ R (f p) p) ps -> Forall2 R (alter f i ps) ps.
Proof.
  intros H. revert i. induction H as [|p ps [H1 H2] Hps IH]; intros i; [by constructor|].
  destruct i as [|i].
  - change (Forall2 R (f p :: ps) (p :: ps)). constructor; [done|].
    clear -Hps. induction Hps as [|q ps [Hq _] _ IH]; by constructor.
  - change (Forall2 R (p :: alter f i ps) (p :: ps)). by constructor.
Qed.

Lemma group_ok_peers g ps' :
  group_ok g -> peers_ok ps' -> Forall2 (fun p' p => p_lock p' = p_lock p) ps' (g_peer g) ->
  group_ok (set_peers g ps').
Proof.
  intros [Hn Hf Hs Hl Hpl Hp] Hok H2. pose proof (List.Forall2_length H2) as Hlen.
  split; cbn; [congruence|done| |done| |done].
  - intros Es. specialize (Hs Es). destruct (g_peer g); [done|]. by destruct ps'.
  - clear -H2 Hpl. induction H2 as [|p' p l ps E _ IH]; [done|].
    apply Forall_cons_1 in Hpl as [Hp Hpl]. constructor; [congruence|by apply IH].
Qed.

(** A change of one peer that leaves its weights and lock alone. *)
Lemma group_ok_alter g f i :
  group_ok g ->
  (forall p, peer_ok p -> same_weights (f p) p /\ p_lock (f p) = p_lock p) ->
  group_ok (set_peers g (alter f i (g_peer g))).
Proof.
  intros Hg Hf. pose proof (po_peers _ (go_peers g Hg)) as Hp. apply group_ok_peers; [done| |].
  - eapply peers_ok_same; [|apply Hg]. apply alter_same.
    eapply List.Forall_impl; [|exact Hp]. intros p Hpp. split; [by split|by apply Hf].
  - apply alter_same. eapply List.Forall_impl; [|exact Hp]. intros p Hpp. split; [done|by apply Hf].
Qed.

Lemma pick_best now g tried i :
  g_single g = false -> pick now g tried i ->
  best_at (eligible now tried 0 (g_peer g)) (g_peer g) i.
Proof.
  intros Es (p & Hp & Hs & _ & Hmax). unfold selectable in *. rewrite Es in *. split.
  - by rewrite (eligible_lookup now tried 0 _ _ _ Hp), Nat.add_0_l, Hs.
  - exists p. split; [done|]. intros j qj Hm Hj.
    rewrite (eligible_lookup now tried 0 _ _ _ Hj), Nat.add_0_l in Hm. injection Hm as Hm.
    by apply (Hmax eq_refl j).
Qed.

Lemma set_conns_same conns p : peer_ok p ->
  same_weights (set_conns p (conns p)) p /\ p_lock (set_conns p (conns p)) = p_lock p.
Proof. done. Qed.

Lemma taken_ok now g tried i :
  time_ok now -> group_ok g -> pick now g tried i -> group_ok (taken now g tried i).
Proof.
  intros Hn Hg Hp. unfold taken.
  set (f := fun p => set_conns p (to_u64 (p_conns p + 1))).
  destruct (g_single g) eqn:Es.
  - by apply (group_ok_alter g f).
  - set (m := eligible now tried 0 (g_peer g)).
    assert (Hl : length m = length (g_peer g)) by apply eligible_length.
    pose proof (po_peers _ (go_peers g Hg)) as Hpo.
    pose proof (after_pick_forall2 now m (g_peer g) i Hn Hl Hpo) as H2.
    assert (Hg' : group_ok (set_peers g (after_pick now m (g_peer g) i))).
    { apply group_ok_peers; [done| |].
      - apply after_pick_ok; [done..|apply Hg|by apply pick_best].
      - eapply List.Forall2_impl; [|exact H2]. intros p' p (_ & Hc & _). apply Hc. }
    by apply (group_ok_alter (set_peers g (after_pick now m (g_peer g) i)) f i Hg').
Qed.

Lemma balance_ok_groups now k groups tried rc groups' cur :
  time_ok now -> Forall group_ok groups -> balance now k groups tried rc groups' cur ->
  Forall group_ok groups'.
Proof.
  intros Hn Hg Hb. induction Hb as [k g next tried i Hp|k g tried Hnone|
    k g b next tried tried' rc next' cur Hnone Hu _ IH].
  - apply Forall_cons_1 in Hg as [Hg Hnext]. constructor; [by apply taken_ok|done].
  - done.
  - apply Forall_cons_1 in Hg as [Hg Hnext]. constructor; [done|by apply IH].
Qed.

(** * Theorems *)

(** A balancer state: every group satisfies the invariant and is unlocked, and
    the bit map is large enough for the groups still to be asked. *)
Definition state_ok (groups : list rr_peers) (rrp : rr_peer_data) : Prop :=
  Forall group_ok groups /\ (rrp_peers rrp < length groups)%nat /\
  Forall (fun g => tried_fits (rrp_tried rrp) (length (g_peer g))) groups.

(** C7. ngx_http_upstream_get_round_robin_peer implements the abstract balancer: the
    groups are asked in order, a group with a selectable peer gives one whose counter is
    largest after adding the weights, NGX_BUSY is returned only when no peer of any
    group is selectable; all locks are released, no arithmetic overflows, every access
    is in bounds, and the invariant of the groups is preserved. *)
Theorem get_round_robin_peer_refines `{RWLock} now groups rrp pc :
  time_ok now -> state_ok groups rrp ->
  exists rc groups' rrp' pc' cur,
    let k := rrp_peers rrp in
    ngx_http_upstream_get_round_robin_peer now groups rrp pc
      = Ok (rc, take k groups ++ groups', rrp', pc') /\
    balance now k (drop k groups) (rrp_tried rrp) rc groups' cur /\
    reports k (drop k groups) rrp rrp' pc' rc cur /\
    Forall group_ok (take k groups ++ groups') /\ pc_tries pc' = pc_tries pc.
Proof.
  intros Hn (Hg & Hk & Hf). unfold ngx_http_upstream_get_round_robin_peer.
  set (k := rrp_peers rrp) in *.
  destruct (get_rr_correct now (drop k groups) k rrp pc)
    as (rc & groups' & rrp' & pc' & cur & E & Hb & Hr & Ht); [done|by apply Forall_drop| |done| |].
  - intros E. apply (f_equal length) in E. rewrite length_drop in E. cbn in E. lia.
  - by apply Forall_drop.
  - exists rc, groups', rrp', pc', cur. rewrite E. split_and!; try done.
    apply Forall_app. split; [by apply Forall_take|].
    eapply balance_ok_groups; [done|by apply Forall_drop|exact Hb].
Qed.

(** ** Release of a peer *)

(** The peer after ngx_http_upstream_free_round_robin_peer. *)
Definition freed (now : Z) (single : bool) (state : Z) (p : rr_peer) : rr_peer :=
  if single then conns_dec p
  else conns_dec (if negb (Z.land state NGX_PEER_FAILED =? 0) then peer_failed now p else peer_live p).

Lemma set_lock_conns_dec l p : set_peer_lock (conns_dec p) l = conns_dec (set_peer_lock p l).
Proof. done. Qed.

Lemma freed_lock now single state l p :
  freed now single state (set_peer_lock p l) = set_peer_lock (freed now single state p) l.
Proof.
  unfold freed, peer_live. destruct single; [done|]. destruct (negb _); [done|].
  cbn. by destruct (_ <? _).
Qed.

Lemma peer_failed_ew now p :
  peer_ok p -> p_weight p < 2 ^ 62 ->
  p_effective_weight (peer_failed now p) =
    if p_max_fails p =? 0 then p_effective_weight p
    else Z.max 0 (p_effective_weight p - p_weight p / p_max_fails p).
Proof.
  intros (He & _ & _ & Hm) Hw. unfold peer_failed. cbn.
  destruct (Z.eqb_spec (p_max_fails p) 0) as [E|E]; cbn [negb].
  - destruct (Z.ltb_spec (p_effective_weight p) 0); lia.
  - assert (0 <= p_weight p / p_max_fails p <= p_weight p).
    { split; [apply Z.div_pos; lia|]. apply Z.div_le_upper_bound; nia. }
    rewrite !to_u64_id, to_i64_id by lia.
    destruct (Z.ltb_spec (p_effective_weight p - p_weight p / p_max_fails p) 0); lia.
Qed.

Lemma freed_ok now single state p :
  time_ok now -> peer_ok p -> p_weight p < 2 ^ 62 ->
  same_weights (freed now single state p) p /\ p_lock (freed now single state p) = p_lock p.
Proof.
  intros Hn Hp Hw. unfold freed. destruct single; [done|].
  destruct (negb _).
  - pose proof (peer_failed_ew now p Hp Hw) as Hew. destruct Hp as (He & Hc & Ha & Hm).
    split; [|done]. split; [|done].
    split; [|done]. cbn [conns_dec set_conns p_effective_weight p_weight]. rewrite Hew. cbn.
    destruct (Z.eqb_spec (p_max_fails p) 0); [lia|].
    assert (0 <= p_weight p / p_max_fails p) by (apply Z.div_pos; lia). lia.
  - unfold peer_live. by destruct (_ <? _).
Qed.

Section Free.
Context `{RWLock}.

Definition read_locked (g : rr_peers) : rr_peers :=
  set_rwlock g (if g_shpool g then lk_read else g_rwlock g).

Lemma rlock_spec g : g_rwlock g = 0 -> ngx_http_upstream_rr_peers_rlock g = Ok (read_locked g).
Proof.
  intros E. unfold ngx_http_upstream_rr_peers_rlock, peers_lock, read_locked.
  destruct g as [n sh l w s wt nm ps]. cbn in *. subst l.
  destruct sh; cbn; [|done]. by rewrite lk_rlock_free.
Qed.

Lemma runlock_spec g : g_rwlock g = 0 -> ngx_http_upstream_rr_peers_unlock (read_locked g) = Ok g.
Proof.
  intros E. unfold ngx_http_upstream_rr_peers_unlock, peers_lock, read_locked.
  destruct g as [n sh l w s wt nm ps]. cbn in *. subst l.
  destruct sh; cbn; [|done]. by rewrite lk_unlock_read.
Qed.

Definition peer_locked (g : rr_peers) (p : rr_peer) : rr_peer :=
  set_peer_lock p (if g_shpool g then lk_written else p_lock p).

Lemma peer_lock_spec g p :
  p_lock p = 0 -> ngx_http_upstream_rr_peer_lock (read_locked g) p = Ok (peer_locked g p).
Proof.
  intros E. unfold ngx_http_upstream_rr_peer_lock, peer_lock, peer_locked.
  cbn [read_locked set_rwlock g_shpool]. rewrite E.
  destruct (g_shpool g); [by rewrite lk_wlock_free|]. destruct p. cbn in *. by subst.
Qed.

Lemma peer_unlock_spec g p l :
  p_lock p = 0 -> l = (if g_shpool g then lk_written else p_lock p) ->
  ngx_http_upstream_rr_peer_unlock (read_locked g) (set_peer_lock p l) = Ok p.
Proof.
  intros E ->. unfold ngx_http_upstream_rr_peer_unlock, peer_lock.
  cbn [read_locked set_rwlock g_shpool]. rewrite E.
  destruct (g_shpool g); [cbn; rewrite lk_unlock_written; cbn|]; destruct p; cbn in *; by subst.
Qed.

End Free.

(** The number of tries left. *)
Definition tries_left (g : rr_peers) (tries : Z) : Z :=
  if g_single g then 0 else Z.max 0 (tries - 1).

Lemma alter_at_id {A} (f : A -> A) i (l : list A) x :
  l !! i = Some x -> f x = x -> alter f i l = l.
Proof. intros Hi Hf. rewrite <- (insert_alter_at f i l x Hi), Hf. by apply list_insert_id. Qed.

(** What the release leaves of the groups. *)
Definition release (now : Z) (groups : list rr_peers) (state : Z) (k i : nat) (g : rr_peers) (p : rr_peer)
  : list rr_peers :=
  <[k := set_peers g (<[i := freed now (g_single g) state p]> (g_peer g))]> groups.

Lemma free_run `{RWLock} now groups rrp pc state k i g p :
  Forall group_ok groups -> rrp_peers rrp = k -> rrp_current rrp = Some (k, i) ->
  groups !! k = Some g -> g_peer g !! i = Some p -> 0 <= pc_tries pc ->
  ngx_http_upstream_free_round_robin_peer now groups rrp pc state
    = Ok (release now groups state k i g p,
          mk_pc (pc_cached pc) (pc_connection pc) (pc_sockaddr pc) (pc_name pc)
            (tries_left g (pc_tries pc))).
Proof.
  intros Hg Ek Ecur Eg Ep Htr. pose proof (Forall_lookup_1 _ _ _ _ Hg Eg) as Hgg.
  pose proof (Forall_lookup_1 _ _ _ _ (go_peers_unlocked g Hgg) Ep) as Hpl. cbn in Hpl.
  unfold ngx_http_upstream_free_round_robin_peer, release. rewrite Ecur, Ek, Eg, Ep.
  rewrite rlock_spec by apply Hgg. cbn [mbind outcome_bind].
  rewrite peer_lock_spec by done. cbn [mbind outcome_bind].
  match goal with |- context [ngx_http_upstream_rr_peer_unlock _ ?q] =>
    change q with (freed now (g_single g) state (peer_locked g p)) end.
  unfold peer_locked. rewrite freed_lock.
  assert (Hlock : p_lock (freed now (g_single g) state p) = 0).
  { unfold freed, peer_live. destruct (g_single g); [done|]. destruct (negb _); [done|].
    by destruct (_ <? _). }
  rewrite peer_unlock_spec by (by rewrite ?Hlock, ?Hpl). cbn [mbind outcome_bind].
  rewrite runlock_spec by apply Hgg. cbn [mbind outcome_bind].
  cbn [read_locked set_rwlock g_single]. f_equal. f_equal.
  - rewrite list_insert_id by done. symmetry. set (q := freed now (g_single g) state p).
    by apply (insert_alter_at (fun g => set_peers g (<[i := q]> (g_peer g)))).
  - unfold tries_left. f_equal. destruct (g_single g); [done|].
    destruct (Z.eqb_spec (pc_tries pc) 0); cbn [negb]; lia.
Qed.

Lemma release_ok now groups state k i g p :
  time_ok now -> Forall group_ok groups -> groups !! k = Some g -> g_peer g !! i = Some p ->
  Forall group_ok (release now groups state k i g p).
Proof.
  intros Hn Hg Eg Ep. pose proof (Forall_lookup_1 _ _ _ _ Hg Eg) as Hgg.
  pose proof (po_peers _ (go_peers g Hgg)) as Hpo.
  pose proof (Forall_lookup_1 _ _ _ _ Hpo Ep) as Hp.
  pose proof (Forall_lookup_1 _ _ _ _ (peers_ok_weights _ (go_peers g Hgg)) Ep) as [_ Hw _ _].
  pose proof (freed_ok now (g_single g) state p Hn Hp Hw) as [Hsame Hlock].
  apply Forall_insert; [done|]. apply group_ok_peers; [done| |].
  - eapply peers_ok_same; [|apply Hgg]. rewrite <- (list_insert_id (g_peer g) i p Ep) at 2.
    apply Forall2_insert; [|done]. clear -Hpo. induction Hpo as [|q ps Hq _ IH]; by constructor.
  - rewrite <- (list_insert_id (g_peer g) i p Ep) at 2.
    apply Forall2_insert; [|done]. clear. induction (g_peer g); by constructor.
Qed.

Theorem free_round_robin_peer_correct `{RWLock} now groups rrp pc state k i g p :
  time_ok now -> state_ok groups rrp -> rrp_peers rrp = k -> rrp_current rrp = Some (k, i) ->
  groups !! k = Some g -> g_peer g !! i = Some p -> 0 <= pc_tries pc ->
  let p' := freed now (g_single g) state p in
  let groups' := <[k := set_peers g (<[i := p']> (g_peer g))]> groups in
  ngx_http_upstream_free_round_robin_peer now groups rrp pc state
    = Ok (groups', mk_pc (pc_cached pc) (pc_connection pc) (pc_sockaddr pc) (pc_name pc)
            (tries_left g (pc_tries pc))) /\
  Forall group_ok groups' /\
  p_conns p' = to_u64 (p_conns p - 1) /\
  (g_single g = false -> Z.land state NGX_PEER_FAILED <> 0 ->
     p_fails p' = to_u64 (p_fails p + 1) /\
     p_effective_weight p' =
       if p_max_fails p =? 0 then p_effective_weight p
       else Z.max 0 (p_effective_weight p - p_weight p / p_max_fails p)).
Proof.
  intros Hn (Hg & Hk & _) Ek Ecur Eg Ep Htr p' groups'.
  pose proof (Forall_lookup_1 _ _ _ _ Hg Eg) as Hgg.
  pose proof (Forall_lookup_1 _ _ _ _ (po_peers _ (go_peers g Hgg)) Ep) as Hp.
  pose proof (Forall_lookup_1 _ _ _ _ (peers_ok_weights _ (go_peers g Hgg)) Ep) as [_ Hw _ _].
  split_and!.
  - by apply free_run.
  - by apply release_ok.
  - unfold p', freed. destruct (g_single g); [done|]. destruct (negb _); [done|].
    unfold peer_live. by destruct (_ <? _).
  - intros Es Hst. unfold p', freed. rewrite Es, (proj2 (Z.eqb_neq _ _) Hst). cbn [negb].
    split; [done|]. by apply (peer_failed_ew now p).
Qed.

(** ** Any sequence of requests *)

(** A request asks for a peer or releases the one it was given; requests
    interleave, so the peer data is any that fits the groups. *)
Inductive rr_step `{RWLock} : list rr_peers -> list rr_peers -> Prop :=
| rr_get now groups rrp pc rc groups' rrp' pc' :
    time_ok now -> (rrp_peers rrp < length groups)%nat ->
    Forall (fun g => tried_fits (rrp_tried rrp) (length (g_peer g))) groups ->
    ngx_http_upstream_get_round_robin_peer now groups rrp pc = Ok (rc, groups', rrp', pc') ->
    rr_step groups groups'
| rr_free now groups rrp pc state k i g p groups' pc' :
    time_ok now -> rrp_peers rrp = k -> rrp_current rrp = Some (k, i) ->
    groups !! k = Some g -> g_peer g !! i = Some p -> 0 <= pc_tries pc ->
    ngx_http_upstream_free_round_robin_peer now groups rrp pc state = Ok (groups', pc') ->
    rr_step groups groups'.

Lemma rr_step_ok `{RWLock} groups groups' :
  Forall group_ok groups -> rr_step groups groups' -> Forall group_ok groups'.
Proof.
  intros Hg Hs. destruct Hs as [now groups rrp pc rc groups' rrp' pc' Hn Hk Hf E|
    now groups rrp pc state k i g p groups' pc' Hn Hk Hcur Eg Ep Htr E].
  - unfold ngx_http_upstream_get_round_robin_peer in E. set (k := rrp_peers rrp) in *.
    destruct (get_rr_correct now (drop k groups) k rrp pc)
      as (rc2 & groups2 & rrp2 & pc2 & cur & E2 & Hb & _); [done|by apply Forall_drop| |done| |].
    + intros Ed. apply (f_equal length) in Ed. rewrite length_drop in Ed. cbn in Ed. lia.
    + by apply Forall_drop.
    + rewrite E2 in E. injection E as <- <- <- <-. apply Forall_app. split; [by apply Forall_take|].
      eapply balance_ok_groups; [done|by apply Forall_drop|exact Hb].
  - rewrite (free_run now groups rrp pc state k i g p) in E by done.
    injection E as <- <-. by apply release_ok.
Qed.

(** C9. After any interleaving of requests and releases the counters of a group add
    up to zero, each stays within the total weight times the number of other peers,
    effective weights stay between zero and the configured ones, and every lock is free.
    *)
Theorem round_robin_counters_bounded `{RWLock} groups groups' g p i :
  Forall group_ok groups -> rtc rr_step groups groups' ->
  g ∈ groups' -> g_peer g !! i = Some p ->
  let W := total_weight (g_peer g) in
  sum (counters (g_peer g)) = 0 /\
  - (W * (g_number g - 1)) <= p_current_weight p <= W * (g_number g - 1) /\
  0 <= p_effective_weight p <= p_weight p /\
  g_rwlock g = 0 /\ p_lock p = 0.
Proof.
  intros Hg Hr Hin Hp W.
  assert (Hg' : Forall group_ok groups').
  { clear Hin. induction Hr as [|gs1 gs2 gs3 H12 _ IH]; [done|]. by apply IH, (rr_step_ok gs1). }
  rewrite List.Forall_forall in Hg'. apply list_elem_of_In, Hg' in Hin as [Hn _ _ Hl Hpl [Hpo Hb _]].
  assert (Hc : counters (g_peer g) !! i = Some (p_current_weight p)).
  { unfold counters. by rewrite list_lookup_fmap, Hp. }
  split; [apply Hb|]. split.
  - pose proof (balanced_bound _ _ _ _ Hb Hc) as Hbound. unfold counters in Hbound at 1 2.
    rewrite length_fmap in Hbound. rewrite Hn. exact Hbound.
  - pose proof (Forall_lookup_1 _ _ _ _ Hpo Hp) as (He & _).
    pose proof (Forall_lookup_1 _ _ _ _ Hpl Hp). done.
Qed.
