(* ===== verification/RoundRobinCycle.v ===== *)
(** Round robin: the configured balancer satisfies the invariant, and a cycle of
    requests is distributed according to the weights. *)

From stdpp Require Import base numbers list option strings relations.
From Stdlib Require Import ZArith Lia.
From S2P Require Import Prelude Rwlock WeightBalance RoundRobin RoundRobinTheory.
Local Open Scope Z_scope.

(** * Initialization *)

Definition server_ok (s : upstream_server) : Prop :=
  0 <= sv_weight s <= 2 ^ 20 /\ 0 <= sv_max_fails s.

(** At most 2^20 addresses, each of weight at most 2^20. *)
Definition config_ok (resolve : list Z -> Z -> option (list address)) (us : upstream_srv_conf) : Prop :=
  match us_servers us with
  | Some servers =>
      Forall server_ok servers /\ Z.of_nat (length (concat (map sv_addrs servers))) <= 2 ^ 20
  | None =>
      forall addrs, resolve (us_host us) (us_port us) = Some addrs -> Z.of_nat (length addrs) <= 2 ^ 20
  end.

(** A peer that was just configured. *)
Definition new_ok (p : rr_peer) : Prop :=
  0 <= p_weight p <= 2 ^ 20 /\ p_effective_weight p = p_weight p /\ p_current_weight p = 0 /\
  p_checked p = 0 /\ p_accessed p = 0 /\ 0 <= p_max_fails p /\ p_lock p = 0.

Lemma new_peers_total ps :
  Forall new_ok ps -> 0 <= total_weight ps <= 2 ^ 20 * Z.of_nat (length ps).
Proof.
  induction 1 as [|p ps (Hw & _) _ IH]; [done|]. unfold total_weight in *. cbn [map length].
  rewrite sum_cons. lia.
Qed.

Lemma new_peers_ok ps :
  Forall new_ok ps -> Z.of_nat (length ps) <= 2 ^ 20 -> peers_ok ps.
Proof.
  intros Hn Hl. pose proof (new_peers_total ps Hn) as Ht. split.
  - eapply List.Forall_impl; [|exact Hn]. intros p (Hw & He & _ & Hc & Ha & Hm & _).
    unfold peer_ok, time_ok. rewrite He, Hc, Ha. lia.
  - assert (E : counters ps = replicate (length ps) 0).
    { clear -Hn. unfold counters. induction Hn as [|p ps (_ & _ & E & _) _ IH]; [done|].
      cbn [length replicate fmap list_fmap]. by f_equal. }
    rewrite E. apply balanced_zero. lia.
  - nia.
Qed.

Lemma new_group_ok single n w name ps :
  Forall new_ok ps -> n = Z.of_nat (length ps) -> n <= 2 ^ 20 -> (single = true -> n = 1) ->
  group_ok (new_group single n w name ps).
Proof.
  intros Hn -> Hl Hs. split; cbn; [done|lia| |done| |by apply new_peers_ok].
  - intros Es Hps. specialize (Hs Es). by rewrite Hps in Hs.
  - eapply List.Forall_impl; [|exact Hn]. by intros p (_ & _ & _ & _ & _ & _ & Hlk).
Qed.

Lemma fill_peers_ok b servers :
  Forall server_ok servers -> Forall new_ok (fill_peers b servers).
Proof.
  induction 1 as [|s servers [Hw Hm] _ IH]; [constructor|]. cbn [fill_peers].
  destruct (Bool.eqb _ _); [|done]. apply Forall_app. split; [|done].
  induction (sv_addrs s); cbn [map]; constructor; [|done]. by cbn.
Qed.

Lemma fill_peers_length b servers :
  (length (fill_peers b servers) <= length (concat (map sv_addrs servers)))%nat.
Proof.
  induction servers as [|s servers IH]; [done|]. cbn [fill_peers map concat].
  rewrite length_app. destruct (Bool.eqb _ _); rewrite ?length_app, ?length_map; lia.
Qed.

Lemma count_servers_spec b servers n w :
  Forall server_ok servers -> 0 <= n -> 0 <= w ->
  n + Z.of_nat (length (concat (map sv_addrs servers))) < 2 ^ 40 ->
  w + 2 ^ 20 * Z.of_nat (length (concat (map sv_addrs servers))) < 2 ^ 62 ->
  count_servers b servers n w =
    (n + Z.of_nat (length (fill_peers b servers)), w + total_weight (fill_peers b servers)).
Proof.
  intros Hs. revert n w. induction Hs as [|s servers [Hw Hm] Hss IH]; intros n w Hn Hw0 Hln Hlw;
    cbn [count_servers fill_peers map concat] in *; [unfold total_weight; cbn; f_equal; lia|].
  rewrite length_app in *. rewrite Nat2Z.inj_add in *.
  destruct (Bool.eqb _ _); [|apply IH; lia].
  set (a := Z.of_nat (length (sv_addrs s))) in *.
  assert (0 <= a * sv_weight s <= 2 ^ 20 * a) by nia.
  rewrite !to_u64_id by lia. rewrite IH by lia.
  rewrite length_app, length_map.
  assert (E : total_weight (map (new_peer (sv_name s) (sv_weight s) (sv_max_conns s) (sv_max_fails s)
    (sv_fail_timeout s) (sv_down s)) (sv_addrs s) ++ fill_peers b servers)
    = a * sv_weight s + total_weight (fill_peers b servers)).
  { unfold total_weight, a. clear. induction (sv_addrs s) as [|x l IH]; [done|].
    cbn [map app length]. rewrite sum_cons, IH. cbn [new_peer p_weight]. lia. }
  rewrite E. f_equal; lia.
Qed.

(** The groups of a balancer: the primary one and at most one backup. *)
Definition groups_ok (groups : list rr_peers) : Prop :=
  Forall (fun g => group_ok g /\ g_number g <= 2 ^ 20) groups /\
  (length groups = 1 \/ length groups = 2)%nat.

(** ** What is built *)

(** The addresses of the servers, backup or not, in order, each with its server. *)
Definition entries (backup : bool) (servers : list upstream_server) : list (upstream_server * address) :=
  s ← filter (fun s => sv_backup s = backup) servers; pair s <$> sv_addrs s.

(** The peer of an address of a server. *)
Record peer_of (e : upstream_server * address) (p : rr_peer) : Prop := {
  po_sockaddr : p_sockaddr p = e.2.1;
  po_name : p_name p = e.2.2;
  po_server : p_server p = sv_name e.1;
  po_weight : p_weight p = sv_weight e.1;
  po_effective : p_effective_weight p = sv_weight e.1;
  po_current : p_current_weight p = 0;
  po_max_conns : p_max_conns p = sv_max_conns e.1;
  po_max_fails : p_max_fails p = sv_max_fails e.1;
  po_fail_timeout : p_fail_timeout p = sv_fail_timeout e.1;
  po_down : p_down p = sv_down e.1;
  po_zero : p_conns p = 0 /\ p_fails p = 0 /\ p_accessed p = 0 /\ p_checked p = 0 /\ p_lock p = 0
}.

Definition weights (es : list (upstream_server * address)) : Z := sum (map (fun e => sv_weight e.1) es).

Record group_of (name : list Z) (single : bool) (es : list (upstream_server * address)) (g : rr_peers) : Prop := {
  gf_name : g_name g = name;
  gf_single : g_single g = single;
  gf_number : g_number g = Z.of_nat (length es);
  gf_total : g_total_weight g = weights es;
  gf_weighted : g_weighted g = true <-> weights es <> Z.of_nat (length es);
  gf_free : g_shpool g = false /\ g_rwlock g = 0;
  gf_peers : Forall2 peer_of es (g_peer g)
}.

(** A server that stands for an upstream without servers. *)
Definition implicit_server : upstream_server := mk_server [] [] 1 0 1 10 0 false.

(** The groups that a configuration asks for, if it can be used. *)
Definition wanted (resolve : list Z -> Z -> option (list address)) (us : upstream_srv_conf)
  : option (list (list (upstream_server * address))) :=
  match us_servers us with
  | Some servers =>
      if decide (entries false servers = []) then None
      else Some (entries false servers :: if decide (entries true servers = []) then [] else [entries true servers])
  | None =>
      if decide (us_port us = 0) then None
      else option_map (fun addrs : list address => [pair implicit_server <$> addrs]) (resolve (us_host us) (us_port us))
  end.

Definition peer_made (e : upstream_server * address) : rr_peer :=
  let s := e.1 in new_peer (sv_name s) (sv_weight s) (sv_max_conns s) (sv_max_fails s) (sv_fail_timeout s) (sv_down s) e.2.

Lemma entries_cons backup s servers :
  entries backup (s :: servers) = (if Bool.eqb (sv_backup s) backup then pair s <$> sv_addrs s else []) ++ entries backup servers.
Proof.
  unfold entries. cbn [filter list_filter]. destruct (Bool.eqb (sv_backup s) backup) eqn:E.
  - apply eqb_prop in E. by rewrite decide_True.
  - apply eqb_false_iff in E. by rewrite decide_False.
Qed.

Lemma fill_peers_entries backup servers : fill_peers backup servers = peer_made <$> entries backup servers.
Proof.
  induction servers as [|s servers IH]; [done|]. rewrite entries_cons. cbn [fill_peers]. destruct (Bool.eqb _ _); [|done].
  rewrite fmap_app, <- IH. f_equal. by rewrite <- list_fmap_compose.
Qed.

Lemma peers_made es : Forall2 peer_of es (peer_made <$> es).
Proof. induction es as [|e es IH]; constructor; [by split|done]. Qed.

Lemma total_made es : total_weight (peer_made <$> es) = weights es.
Proof.
  unfold total_weight, weights. induction es as [|e es IH]; [done|]. cbn [fmap list_fmap map] in *. rewrite !sum_cons. by f_equal.
Qed.

Lemma new_group_of single n w name es :
  n = Z.of_nat (length es) -> w = weights es ->
  group_of name single es (new_group single n w name (peer_made <$> es)).
Proof.
  intros -> ->. split; try done; [|apply peers_made]. cbn. rewrite negb_true_iff, Z.eqb_neq. done.
Qed.

Lemma some_not_allocated (alloc : nat -> bool) k l : alloc k = false -> k ∈ l -> ~ Forall (fun k => alloc k = true) l.
Proof. intros Hk Hin Ha. rewrite Forall_forall in Ha. specialize (Ha k Hin). congruence. Qed.

(** C10. ngx_http_upstream_init_round_robin fails exactly when no primary server has
    an address, an upstream without servers has no port or does not resolve, or memory
    is short. It builds the group of the primary servers and, if there are any, of the
    backup ones: one peer for each address, in order, with every field of its server,
    the number and the total weight of the peers and the flags; the groups satisfy the
    invariant of the balancer. *)
Theorem init_round_robin_correct alloc resolve us :
  config_ok resolve us ->
  let '(rc, data) := ngx_http_upstream_init_round_robin alloc resolve us in
  match wanted resolve us with
  | None => rc = NGX_ERROR
  | Some ess =>
      if decide (Forall (fun k => alloc k = true) (seq 0 (2 * length ess))) then
        rc = NGX_OK /\ exists groups, data = Some groups /\ groups_ok groups /\
          Forall2 (group_of (us_host us) (bool_decide (length <$> ess = [1%nat]))) ess groups
      else rc = NGX_ERROR
  end.
Proof.
  unfold config_ok, ngx_http_upstream_init_round_robin, wanted. intros Hc. destruct (us_servers us) as [servers|].
  - destruct Hc as [Hs Hl]. rewrite !count_servers_spec by (done || lia).
    pose proof (fill_peers_ok false servers Hs) as Hf. pose proof (fill_peers_ok true servers Hs) as Ht.
    pose proof (fill_peers_length false servers) as Lf. pose proof (fill_peers_length true servers) as Lt.
    rewrite !fill_peers_entries in *. rewrite !total_made, !length_fmap in *. rewrite !Z.add_0_l.
    set (ps := entries false servers) in *. set (bs := entries true servers) in *. cbn zeta.
    assert (Hn : forall es : list (upstream_server * address), (Z.of_nat (length es) =? 0) = bool_decide (es = [])).
    { intros es. destruct es; [done|]. by rewrite bool_decide_eq_false_2. }
    rewrite !Hn. destruct (decide (ps = [])) as [Ep|Ep]; [by rewrite bool_decide_eq_true_2|]. rewrite bool_decide_eq_false_2 by done.
    assert (Hok : forall single es, Forall new_ok (peer_made <$> es) -> (length es <= length (concat (map sv_addrs servers)))%nat ->
      (single = true -> Z.of_nat (length es) = 1) ->
      let g := new_group single (Z.of_nat (length es)) (weights es) (us_host us) (peer_made <$> es) in group_ok g /\ g_number g <= 2 ^ 20).
    { intros single es H1 H2 H3. split; [|cbn; lia]. apply new_group_ok; [done|by rewrite length_fmap|lia|done]. }
    destruct (decide (bs = [])) as [Eb|Eb]; [rewrite bool_decide_eq_true_2 by done|rewrite bool_decide_eq_false_2 by done];
      cbn [length seq Nat.mul Nat.add].
    + destruct (alloc 0%nat) eqn:A0, (alloc 1%nat) eqn:A1; cbn [negb]; [|by rewrite decide_False by (eapply some_not_allocated; [eassumption|rewrite !elem_of_cons; auto])..].
      rewrite decide_True by by repeat constructor. split; [done|]. eexists. split; [done|].
      assert (Hsg : (Z.of_nat (length ps) =? 1) = bool_decide (length <$> [ps] = [1%nat])).
      { cbn. destruct (Z.eqb_spec (Z.of_nat (length ps)) 1); [rewrite bool_decide_eq_true_2; [done|]; f_equal; lia|].
        rewrite bool_decide_eq_false_2; [done|]. intros [= ?]. lia. }
      split; [split; [|by left]|].
      * apply Forall_singleton, Hok; [done|done|]. by intros ?%Z.eqb_eq.
      * rewrite <- Hsg. constructor; [by apply new_group_of|constructor].
    + destruct (alloc 0%nat) eqn:A0, (alloc 1%nat) eqn:A1; cbn [negb]; [|by rewrite decide_False by (eapply some_not_allocated; [eassumption|rewrite !elem_of_cons; auto])..].
      destruct (alloc 2%nat) eqn:A2, (alloc 3%nat) eqn:A3; cbn [negb]; [|by rewrite decide_False by (eapply some_not_allocated; [eassumption|rewrite !elem_of_cons; auto])..].
      rewrite decide_True by by repeat constructor. split; [done|]. eexists. split; [done|]. split; [split; [|by right]|].
      * rewrite !Forall_cons, Forall_nil. split_and!; [by apply Hok..|done].
      * rewrite bool_decide_eq_false_2 by done. constructor; [by apply new_group_of|constructor; [by apply new_group_of|constructor]].
  - destruct (Z.eqb_spec (us_port us) 0) as [E0|E0]; [by rewrite decide_True|]. rewrite decide_False by done.
    destruct (resolve (us_host us) (us_port us)) as [addrs|] eqn:Er; [|done]. specialize (Hc _ eq_refl).
    cbn [option_map length seq Nat.mul Nat.add].
    destruct (alloc 0%nat) eqn:A0, (alloc 1%nat) eqn:A1; cbn [negb]; [|by rewrite decide_False by (eapply some_not_allocated; [eassumption|rewrite !elem_of_cons; auto])..].
    rewrite decide_True by by repeat constructor. split; [done|]. eexists. split; [done|].
    set (es := pair implicit_server <$> addrs).
    assert (El : length addrs = length es) by (unfold es; by rewrite length_fmap).
    assert (Em : map (new_peer [] 1 0 1 10 0) addrs = peer_made <$> es) by (unfold es; by rewrite <- list_fmap_compose).
    assert (Ew : Z.of_nat (length es) = weights es).
    { unfold es, weights. clear. induction addrs as [|a l IH]; [done|]. cbn [fmap list_fmap map length] in *. rewrite sum_cons, <- IH. cbn. lia. }
    rewrite El, Em. split; [split; [|by left]|].
    + apply Forall_singleton. split; [|cbn; lia]. apply new_group_ok; [|by rewrite length_fmap|lia|by intros ?%Z.eqb_eq].
      rewrite <- Em. clear. induction addrs; cbn [map]; constructor; [|done]. by cbn.
    + assert (Hsg : (Z.of_nat (length es) =? 1) = bool_decide (length <$> [es] = [1%nat])).
      { cbn. destruct (Z.eqb_spec (Z.of_nat (length es)) 1); [rewrite bool_decide_eq_true_2; [done|]; f_equal; lia|].
        rewrite bool_decide_eq_false_2; [done|]. intros [= ?]. lia. }
      rewrite <- Hsg. constructor; [by apply new_group_of|constructor].
Qed.

(** The bit map a request starts with: all bits clear, enough of them. *)
Lemma tried_zero_fits n tried :
  tried = [0] /\ n <= 64 \/ tried = repeat 0 (Z.to_nat (tried_words n)) ->
  0 <= n <= 2 ^ 20 ->
  tried_fits tried (Z.to_nat n) /\ forall i, is_tried tried i = false.
Proof.
  intros Ht Hn. split.
  - unfold tried_fits. destruct Ht as [[-> H64]| ->]; [cbn; lia|].
    rewrite repeat_length. unfold tried_words. rewrite to_u64_id by lia.
    Z.div_mod_to_equations; lia.
  - intros i. unfold is_tried. assert (Hz : default 0 (tried !! tried_word i) = 0); [|by rewrite Hz, Z.bits_0].
    destruct (tried !! tried_word i) as [w|] eqn:E; [|done]. cbn.
    destruct Ht as [[-> _]| ->].
    + destruct (tried_word i); cbn in E; [by simplify_eq|done].
    + apply list_elem_of_lookup_2, list_elem_of_In, repeat_spec in E. done.
Qed.

Definition number_of_peers (groups : list rr_peers) : Z :=
  sum (map (fun g => Z.of_nat (length (g_peer g))) groups).

Lemma init_peer_spec alloc have_rrp groups pc rrp pc' :
  groups_ok groups ->
  ngx_http_upstream_init_round_robin_peer alloc have_rrp groups pc = Some (rrp, pc') ->
  state_ok groups rrp /\ rrp_peers rrp = 0%nat /\ rrp_current rrp = None /\
  (forall i, is_tried (rrp_tried rrp) i = false) /\ pc_tries pc' = number_of_peers groups.
Proof.
  intros [Hg Hl] E. unfold ngx_http_upstream_init_round_robin_peer in E.
  set (n := tried_bits groups) in *.
  assert (Hn : 0 <= n <= 2 ^ 20 /\ Forall (fun g => (length (g_peer g) <= Z.to_nat n)%nat) groups
    /\ ngx_http_upstream_tries groups = number_of_peers groups).
  { subst n. unfold number_of_peers.
    destruct groups as [|g [|b [|]]]; cbn in Hl; try lia.
    - apply Forall_singleton in Hg as [Hg Hb]. pose proof (go_number g Hg). cbn.
      split; [lia|]. split; [constructor; [lia|constructor]|]. rewrite to_u64_id; lia.
    - apply Forall_cons_1 in Hg as [[Hg Hb] Hbb]. apply Forall_singleton in Hbb as [Hgb Hbb].
      pose proof (go_number g Hg). pose proof (go_number b Hgb). cbn.
      split; [destruct (_ <? _); lia|]. split; [|rewrite to_u64_id; lia].
      destruct (Z.ltb_spec (g_number g) (g_number b)); repeat constructor; lia. }
  destruct Hn as (Hn & Hlen & Htr).
  assert (Hrrp : exists tried, rrp = mk_rrp 0 0 None tried /\
    (tried = [0] /\ n <= 64 \/ tried = repeat 0 (Z.to_nat (tried_words n))) /\
    pc_tries pc' = ngx_http_upstream_tries groups).
  { destruct (negb have_rrp && negb (alloc 0%nat)); [done|].
    destruct (Z.leb_spec n 64); [|destruct (alloc 1%nat); [|done]]; cbn [negb] in E; injection E as <- <-.
    - eexists. split; [done|]. split; [by left|done].
    - eexists. split; [done|]. split; [by right|done]. }
  destruct Hrrp as (tried & -> & Ht & ->). cbn [rrp_tried rrp_peers rrp_current].
  destruct (tried_zero_fits n tried Ht Hn) as [Hf Hz].
  split; [|done].
  split; [|split; [cbn; lia|]].
  - eapply List.Forall_impl; [|exact Hg]. by intros g [].
  - eapply List.Forall_impl; [|exact Hlen]. unfold tried_fits in *. cbn [rrp_tried]. intros g Hlg. cbn beta in Hlg. lia.
Qed.

Theorem init_round_robin_peer_correct alloc have_rrp groups pc rrp pc' :
  groups_ok groups ->
  ngx_http_upstream_init_round_robin_peer alloc have_rrp groups pc = Some (rrp, pc') ->
  state_ok groups rrp /\ rrp_peers rrp = 0%nat /\ rrp_current rrp = None /\
  Forall (untried (rrp_tried rrp)) groups /\ pc_tries pc' = number_of_peers groups.
Proof.
  intros Hg E. destruct (init_peer_spec _ _ _ _ _ _ Hg E) as (Hs & Hp & Hc & Hz & Ht).
  split_and!; try done. apply List.Forall_forall. intros g _ i _. apply Hz.
Qed.

(** * Fairness *)

(** A peer that every request may use, at its full weight. *)
Definition healthy (p : rr_peer) : Prop :=
  p_down p = 0 /\ p_max_conns p = 0 /\ (p_max_fails p = 0 \/ p_fails p < p_max_fails p) /\
  p_effective_weight p = p_weight p.

Lemma healthy_usable now p : healthy p -> usable now p = true.
Proof.
  intros (Hd & Hc & Hf & _). unfold usable, conns_full. rewrite Hd, Hc. cbn.
  destruct Hf as [-> | Hf]; [done|].
  rewrite (proj2 (Z.leb_gt _ _) Hf). by rewrite andb_false_r.
Qed.

Lemma healthy_eligible now tried ps i :
  Forall healthy ps -> (forall j, is_tried tried j = false) ->
  eligible now tried i ps = replicate (length ps) true.
Proof.
  intros Hh Ht. revert i. induction Hh as [|p ps Hp _ IH]; intros i; [done|]. cbn.
  by rewrite Ht, healthy_usable, IH.
Qed.

Lemma healthy_stakes ps :
  Forall healthy ps -> stakes (replicate (length ps) true) ps = map p_weight ps.
Proof.
  induction 1 as [|p ps (_ & _ & _ & Hw) _ IH]; [done|].
  unfold stakes in *. cbn [length replicate zip_with map]. by rewrite IH, Hw.
Qed.

Lemma healthy_weighed p : healthy p -> healthy (weighed p).
Proof.
  intros (Hd & Hc & Hf & Hw). unfold weighed. rewrite Hw, Z.ltb_irrefl. by split_and!.
Qed.

Lemma healthy_picked now total p : healthy p -> healthy (picked now total p).
Proof.
  intros Hp. apply healthy_weighed in Hp. unfold picked.
  destruct Hp as (Hd & Hc & Hf & Hw). by destruct (_ <? _).
Qed.

Lemma healthy_after_pick now m ps i :
  length m = length ps -> Forall healthy ps -> Forall healthy (after_pick now m ps i).
Proof.
  intros Hl Hh. assert (Hw : Forall healthy (weigh_all m ps)).
  { revert m Hl. induction Hh as [|p ps Hp _ IH]; intros [|b m] Hl; try done.
    unfold weigh_all in *. cbn [zip_with]. constructor; [|apply IH; by injection Hl].
    destruct b; [by apply healthy_weighed|done]. }
  unfold after_pick. destruct (ps !! i) as [q|] eqn:Hq; [|done].
  apply Forall_insert; [done|]. apply healthy_picked. by eapply Forall_lookup_1 in Hh.
Qed.

Section Cycle.
Context `{RWLock}.

(** One request after the other, each with the peer data of
    ngx_http_upstream_init_round_robin_peer: the peers it was given. *)
Fixpoint serve (nows : list Z) (groups : list rr_peers) (pc : peer_connection)
  : outcome (list (option (nat * nat)) * list rr_peers) :=
  match nows with
  | [] => Ok ([], groups)
  | now :: nows' =>
      match ngx_http_upstream_init_round_robin_peer (fun _ => true) true groups pc with
      | None => UB
      | Some (rrp, pc) =>
          '(rc, groups, rrp, pc) ← ngx_http_upstream_get_round_robin_peer now groups rrp pc;
          '(curs, groups) ← serve nows' groups pc;
          Ok (rrp_current rrp :: curs, groups)
      end
  end.

(** A group of several healthy peers. *)
Definition full_group (g : rr_peers) : Prop :=
  group_ok g /\ g_number g <= 2 ^ 20 /\ g_single g = false /\ g_peer g <> [] /\
  Forall healthy (g_peer g).

Definition one_more (p : rr_peer) : rr_peer := set_conns p (to_u64 (p_conns p + 1)).

Lemma alter_fmap_same {A} (f : rr_peer -> rr_peer) (v : rr_peer -> A) (i : nat) (ps : list rr_peer) :
  (forall p, v (f p) = v p) -> v <$> alter f i ps = v <$> ps.
Proof.
  intros Hv. revert i. induction ps as [|p ps IH]; intros [|i]; [done..| |].
  - change (v (f p) :: (v <$> ps) = v p :: (v <$> ps)). by rewrite Hv.
  - change (v p :: (v <$> alter f i ps) = v p :: (v <$> ps)). by rewrite IH.
Qed.

Lemma weights_of_taken now g tried i :
  time_ok now -> group_ok g ->
  map p_weight (g_peer (taken now g tried i)) = map p_weight (g_peer g).
Proof.
  intros Hn Hg. unfold taken. rewrite g_peer_set_peers.
  change (map p_weight) with (fmap (M := list) p_weight).
  rewrite alter_fmap_same by done. destruct (g_single g); [done|].
  apply (same_config_weights _ _ (fun p' q => peer_ok p' /\ same_config p' q /\ p_conns p' = p_conns q)).
  - by intros p q (_ & Hc & _).
  - apply after_pick_forall2; [done|apply eligible_length|apply Hg].
Qed.

Lemma full_group_taken now g tried i :
  time_ok now -> full_group g -> (forall j, is_tried tried j = false) -> pick now g tried i ->
  full_group (taken now g tried i) /\
  map p_weight (g_peer (taken now g tried i)) = map p_weight (g_peer g) /\
  largest (counters (g_peer g)) (map p_weight (g_peer g)) i /\
  counters (g_peer (taken now g tried i)) = play (counters (g_peer g)) (map p_weight (g_peer g)) i.
Proof.
  intros Hn (Hg & Hnum & Hs & Hne & Hh) Ht Hp.
  pose proof (pick_best now g tried i Hs Hp) as Hb.
  pose proof (taken_ok now g tried i Hn Hg Hp) as Hg'.
  pose proof (weights_of_taken now g tried i Hn Hg) as Hw.
  rewrite (healthy_eligible now tried (g_peer g) 0 Hh Ht) in Hb.
  split; [|split; [done|split]].
  - split; [done|]. split; [done|]. split; [done|]. split.
    + intros E. rewrite E in Hw. by destruct (g_peer g).
    + unfold taken. rewrite g_peer_set_peers, Hs. 
      assert (Ha : forall f (ps : list rr_peer) (j : nat), (forall p, healthy p -> healthy (f p)) ->
        Forall healthy ps -> Forall healthy (alter f j ps)).
      { intros f ps j Hf Hps. revert j. induction Hps as [|p ps Hpp Hps IH]; intros [|j]; [done..| |].
        - change (Forall healthy (f p :: ps)). constructor; auto.
        - change (Forall healthy (p :: alter f j ps)). by constructor. }
      apply Ha; [done|]. apply healthy_after_pick; [apply eligible_length|done].
  - destruct Hb as (_ & q & Hq & Hmax).
    assert (Hwt : forall j p, g_peer g !! j = Some p -> p_effective_weight p = p_weight p).
    { intros j p Hj. pose proof (Forall_lookup_1 _ _ _ _ Hh Hj) as (_ & _ & _ & E). done. }
    exists (p_current_weight q), (p_weight q). unfold counters.
    change (map p_weight) with (fmap (M := list) p_weight).
    rewrite !list_lookup_fmap, Hq. split_and!; [done..|]. intros j x w.
    rewrite !list_lookup_fmap. destruct (g_peer g !! j) as [p|] eqn:Ej; [|done].
    intros [= <-] [= <-]. specialize (Hmax j p).
    rewrite (Hwt j p Ej), (Hwt i q Hq) in Hmax. apply Hmax; [|done].
    apply lookup_replicate_2. by eapply lookup_lt_Some.
  - unfold taken. rewrite g_peer_set_peers, Hs. unfold counters. rewrite alter_fmap_same by done.
    fold (counters (g_peer g)).
    rewrite (healthy_eligible now tried (g_peer g) 0 Hh Ht).
    change (counters (after_pick now (replicate (length (g_peer g)) true) (g_peer g) i)
      = play (counters (g_peer g)) (map p_weight (g_peer g)) i).
    rewrite counters_after_pick, healthy_stakes by (done || by rewrite length_replicate). done.
Qed.

Lemma init_peer_succeeds groups pc :
  exists r, ngx_http_upstream_init_round_robin_peer (fun _ => true) true groups pc = Some r.
Proof.
  unfold ngx_http_upstream_init_round_robin_peer. cbn [negb andb].
  destruct (_ <=? _); by eexists.
Qed.

Lemma serve_step now g rest pc :
  time_ok now -> full_group g -> groups_ok (g :: rest) ->
  exists rrp pc1 i rrp' pc2,
    ngx_http_upstream_init_round_robin_peer (fun _ => true) true (g :: rest) pc = Some (rrp, pc1) /\
    (forall j, is_tried (rrp_tried rrp) j = false) /\ pick now g (rrp_tried rrp) i /\
    ngx_http_upstream_get_round_robin_peer now (g :: rest) rrp pc1
      = Ok (NGX_OK, taken now g (rrp_tried rrp) i :: rest, rrp', pc2) /\
    rrp_current rrp' = Some (0%nat, i).
Proof.
  intros Hn Hfull Hgs. destruct (init_peer_succeeds (g :: rest) pc) as [[rrp pc1] E].
  destruct (init_peer_spec _ _ _ _ _ _ Hgs E) as ((Hok & Hlt & Hfit) & Hp0 & _ & Hz & _).
  destruct (get_rr_correct now (g :: rest) 0 rrp pc1) as (rc & groups' & rrp' & pc2 & cur & Eg & Hb & Hr & _);
    try done.
  destruct Hfull as (_ & _ & Hs & Hne & Hh).
  assert (Hsel : ~ none_selectable now g (rrp_tried rrp)).
  { intros Hnone. destruct (g_peer g) as [|p ps] eqn:Ep; [done|].
    specialize (Hnone 0%nat p). rewrite Ep in Hnone. specialize (Hnone eq_refl ltac:(done)).
    unfold selectable in Hnone. rewrite Hs, Hz, healthy_usable in Hnone; [done|].
    by apply Forall_cons_1 in Hh as [? _]. }
  inversion Hb; subst; try done.
  destruct Hr as (_ & _ & _ & _ & Hcur & _).
  exists rrp, pc1, i, rrp', pc2. split_and!; try done.
  unfold ngx_http_upstream_get_round_robin_peer. rewrite Hp0. cbn [drop take app].
  by rewrite Eg.
Qed.

Lemma serve_plays nows g rest pc :
  Forall time_ok nows -> full_group g -> groups_ok (g :: rest) ->
  exists ps g',
    serve nows (g :: rest) pc = Ok (map (fun i => Some (0%nat, i)) ps, g' :: rest) /\
    length ps = length nows /\
    plays (map p_weight (g_peer g)) (counters (g_peer g)) ps (counters (g_peer g')).
Proof.
  intros Hns. revert g pc. induction Hns as [|now nows Hn _ IH]; intros g pc Hg Hgs.
  - exists [], g. split; [done|]. split; [done|constructor].
  - destruct (serve_step now g rest pc Hn Hg Hgs) as (rrp & pc1 & i & rrp' & pc2 & E1 & Hz & Hp & E2 & E3).
    destruct (full_group_taken now g _ i Hn Hg Hz Hp) as (Hg' & Hw & Hl & Hc).
    assert (Hgs' : groups_ok (taken now g (rrp_tried rrp) i :: rest)).
    { destruct Hgs as [Hall Hlen]. split; [|done]. apply Forall_cons_1 in Hall as [_ Hall].
      constructor; [|done]. split; apply Hg'. }
    destruct (IH _ pc2 Hg' Hgs') as (ps & g' & E & Hlen & Hplays).
    exists (i :: ps), g'. split; [|split].
    + cbn [serve]. rewrite E1. rewrite E2. cbn [mbind outcome_bind]. rewrite E.
      cbn [mbind outcome_bind map]. by rewrite E3.
    + cbn. by rewrite Hlen.
    + rewrite Hw, Hc in Hplays. by constructor.
Qed.

End Cycle.

Definition zero_counters (g : rr_peers) : Prop :=
  Forall (fun p => p_current_weight p = 0) (g_peer g).

Lemma zero_counters_spec g :
  zero_counters g -> counters (g_peer g) = replicate (length (map p_weight (g_peer g))) 0.
Proof.
  unfold zero_counters, counters. rewrite length_map.
  induction 1 as [|p ps E _ IH]; [done|]. cbn [length replicate fmap list_fmap]. by f_equal.
Qed.

(** C8. A cycle of as many requests as the total weight gives every peer of a group
    of healthy peers exactly its weight in requests, and brings the counters back to
    zero. *)
Theorem round_robin_fair `{RWLock} nows g rest pc :
  Forall time_ok nows -> full_group g -> groups_ok (g :: rest) -> zero_counters g ->
  0 < total_weight (g_peer g) -> Z.of_nat (length nows) = total_weight (g_peer g) ->
  exists ps g',
    serve nows (g :: rest) pc = Ok (map (fun i => Some (0%nat, i)) ps, g' :: rest) /\
    (forall i p, g_peer g !! i = Some p -> times i ps = p_weight p) /\
    zero_counters g'.
Proof.
  intros Hns Hg Hgs H0 Hpos Hlen.
  destruct (serve_plays nows g rest pc Hns Hg Hgs) as (ps & g' & E & Hl & Hp).
  rewrite (zero_counters_spec g H0) in Hp.
  destruct (plays_fair _ _ _ Hp) as [Ht Hz].
  - apply Forall_map. eapply List.Forall_impl; [|exact (po_peers _ (go_peers g (proj1 Hg)))].
    intros p (Hw & _). lia.
  - done.
  - by rewrite Hl.
  - exists ps, g'. split; [done|]. split.
    + intros i p Hi. apply Ht. change (map p_weight) with (fmap (M := list) p_weight).
      by rewrite list_lookup_fmap, Hi.
    + unfold zero_counters, counters in *. apply Forall_lookup. intros i p Hi.
      assert (Hc : (p_current_weight <$> g_peer g') !! i = Some (p_current_weight p))
        by by rewrite list_lookup_fmap, Hi.
      rewrite Hz in Hc. by apply lookup_replicate in Hc as [-> _].
Qed.

(** * Witnesses *)

(** Two servers of weights 2 and 1 in a shared zone. *)
Definition demo_peer (w : Z) : rr_peer := new_peer (bytes "srv") w 0 1 10 0 ([], bytes "a").
Definition demo_group : rr_peers :=
  mk_peers 2 true 0 3 false true (bytes "up") [demo_peer 2; demo_peer 1].
Definition demo_rrp : rr_peer_data := mk_rrp 0 0 None [0].
Definition demo_pc : peer_connection := mk_pc 0 None None None 2.

Lemma demo_new_ok : Forall new_ok [demo_peer 2; demo_peer 1].
Proof. repeat apply List.Forall_cons; try apply List.Forall_nil; unfold new_ok; cbn; lia. Qed.

Lemma demo_group_ok : group_ok demo_group.
Proof.
  split; cbn; try done.
  - repeat constructor.
  - apply new_peers_ok; [apply demo_new_ok|cbn; lia].
Qed.

Lemma demo_state_ok : state_ok [demo_group] demo_rrp.
Proof.
  split; [|split].
  - apply Forall_singleton, demo_group_ok.
  - cbn. lia.
  - apply Forall_singleton. unfold tried_fits. cbn. lia.
Qed.

Lemma demo_full_group : full_group demo_group.
Proof.
  split; [apply demo_group_ok|]. split; [cbn; lia|]. split; [done|]. split; [done|].
  repeat apply List.Forall_cons; try apply List.Forall_nil; unfold healthy; cbn; lia.
Qed.

Lemma get_round_robin_peer_refines_witness :
  exists rc groups' rrp' pc' cur,
    ngx_http_upstream_get_round_robin_peer 5 [demo_group] demo_rrp demo_pc
      = Ok (rc, take 0 [demo_group] ++ groups', rrp', pc') /\
    balance 5 0 (drop 0 [demo_group]) [0] rc groups' cur /\
    reports 0 (drop 0 [demo_group]) demo_rrp rrp' pc' rc cur /\
    Forall group_ok (take 0 [demo_group] ++ groups') /\ pc_tries pc' = 2.
Proof.
  apply (get_round_robin_peer_refines 5 [demo_group] demo_rrp demo_pc).
  - split; [discriminate|reflexivity].
  - exact demo_state_ok.
Defined.

Lemma free_round_robin_peer_correct_witness :
  ngx_http_upstream_free_round_robin_peer 5 [demo_group] (mk_rrp 0 0 (Some (0, 1)%nat) [2]) demo_pc
      NGX_PEER_FAILED
    = Ok ([set_peers demo_group [demo_peer 2; freed 5 false NGX_PEER_FAILED (demo_peer 1)]],
          mk_pc 0 None None None 1).
Proof.
  refine (proj1 (free_round_robin_peer_correct 5 [demo_group] (mk_rrp 0 0 (Some (0, 1)%nat) [2]) demo_pc
    NGX_PEER_FAILED 0 1 demo_group (demo_peer 1) _ _ _ _ _ _ _)); try reflexivity.
  - split; [discriminate|reflexivity].
  - exact demo_state_ok.
  - discriminate.
Defined.

Definition demo_us : upstream_srv_conf :=
  mk_us (Some [mk_server (bytes "a") [([], bytes "a1"); ([], bytes "a2")] 5 0 1 10 0 false;
               mk_server (bytes "b") [([], bytes "b1")] 1 0 1 10 0 true]) (bytes "up") 80.

Lemma init_round_robin_correct_witness :
  exists groups,
    (ngx_http_upstream_init_round_robin (fun _ => true) (fun _ _ => None) demo_us).2 = Some groups /\
    groups_ok groups /\ Forall2 (group_of (bytes "up") false) [entries false (default [] (us_servers demo_us)); entries true (default [] (us_servers demo_us))] groups.
Proof.
  assert (Hc : config_ok (fun _ _ => None) demo_us).
  { split; [|vm_compute; discriminate].
    repeat apply List.Forall_cons; try apply List.Forall_nil; (split; [split|]); vm_compute; discriminate. }
  destruct (init_round_robin_correct (fun _ => true) (fun _ _ => None) demo_us Hc) as [_ (groups & E & Hg & Hf)].
  exists groups. split; [exact E|]. split; [exact Hg|exact Hf].
Defined.

Lemma init_round_robin_peer_correct_witness :
  state_ok [demo_group] demo_rrp /\ rrp_peers demo_rrp = 0%nat /\ rrp_current demo_rrp = None /\
  Forall (untried (rrp_tried demo_rrp)) [demo_group] /\
  pc_tries (mk_pc 0 None None None 2) = number_of_peers [demo_group].
Proof.
  apply (init_round_robin_peer_correct (fun _ => true) true [demo_group] (mk_pc 0 None None None 7)).
  - split; [|left; reflexivity]. apply List.Forall_cons; [|apply List.Forall_nil].
    split; [exact demo_group_ok|vm_compute; discriminate].
  - reflexivity.
Defined.

(** Three requests: the first server is chosen twice, the second one once. *)
Lemma round_robin_fair_witness :
  exists ps g',
    serve [1; 2; 3] [demo_group] demo_pc = Ok (map (fun i => Some (0%nat, i)) ps, [g']) /\
    (forall i p, g_peer demo_group !! i = Some p -> times i ps = p_weight p) /\
    zero_counters g'.
Proof.
  apply (round_robin_fair [1; 2; 3] demo_group [] demo_pc).
  - repeat apply List.Forall_cons; try apply List.Forall_nil; (split; [discriminate|reflexivity]).
  - exact demo_full_group.
  - split; [|left; reflexivity]. apply List.Forall_cons; [|apply List.Forall_nil].
    split; [exact demo_group_ok|vm_compute; discriminate].
  - repeat apply List.Forall_cons; try apply List.Forall_nil; reflexivity.
  - reflexivity.
  - reflexivity.
Defined.

(** The state after one request, which took the first peer. *)
Definition demo_taken : rr_peer := set_conns (set_weights (demo_peer 2) (-1) 2) 1.
Definition demo_other : rr_peer := set_weights (demo_peer 1) 1 1.
Definition demo_after : rr_peers := set_peers demo_group [demo_taken; demo_other].

Lemma round_robin_counters_bounded_witness :
  sum (counters [demo_taken; demo_other]) = 0 /\
  - (3 * (2 - 1)) <= p_current_weight demo_taken <= 3 * (2 - 1) /\
  0 <= p_effective_weight demo_taken <= 2 /\
  g_rwlock demo_after = 0 /\ p_lock demo_taken = 0.
Proof.
  apply (round_robin_counters_bounded [demo_group] [demo_after] demo_after demo_taken 0).
  - apply List.Forall_cons; [exact demo_group_ok|apply List.Forall_nil].
  - apply rtc_once.
    apply (rr_get 5 [demo_group] demo_rrp demo_pc NGX_OK [demo_after]
      (mk_rrp 0 0 (Some (0, 0)%nat) [1]) (mk_pc 0 None (Some []) (Some (bytes "a")) 2)).
    + split; [discriminate|reflexivity].
    + exact (proj1 (proj2 demo_state_ok)).
    + exact (proj2 (proj2 demo_state_ok)).
    + reflexivity.
  - left.
  - reflexivity.
Defined.
