(* ===== verification/Buffer.v ===== *)
(** Parts of the buffer a parser works on: the list [m] of its bytes, and offsets
    in it. *)

From stdpp Require Import base numbers list option.
From Stdlib Require Import ZArith Lia.
From S2P Require Import Prelude.
Local Open Scope Z_scope.

(** The bytes of [m] from [i] up to [j], excluded. *)
Definition slice (m : list Z) (i j : nat) : list Z := take (j - i) (drop i m).

Lemma slice_cons m i e c : (i < e)%nat -> m !! i = Some c -> slice m i e = c :: slice m (S i) e.
Proof.
  intros Hi Hc. unfold slice. rewrite (drop_S m c i Hc). replace (e - i)%nat with (S (e - S i)) by lia. done.
Qed.

Lemma slice_nil m i : slice m i i = [].
Proof. unfold slice. by rewrite Nat.sub_diag. Qed.

Lemma slice_length m i e : (i <= e)%nat -> (e <= length m)%nat -> length (slice m i e) = (e - i)%nat.
Proof. intros H1 H2. unfold slice. rewrite length_take, length_drop. lia. Qed.

Lemma slice_slice m s e i j : (s + j <= e)%nat -> slice m (s + i) (s + j) = slice (slice m s e) i j.
Proof.
  intros H. unfold slice. rewrite skipn_firstn_comm, drop_drop, take_take. f_equal. lia.
Qed.

Lemma slice_all (l : list Z) : slice l 0 (length l) = l.
Proof. unfold slice. by rewrite drop_0, Nat.sub_0_r, take_ge. Qed.

Lemma slice_app_l (l k : list Z) i j : (j <= length l)%nat -> slice (l ++ k) i j = slice l i j.
Proof.
  intros H. unfold slice. destruct (decide (i <= length l)%nat) as [Hi|Hi].
  - rewrite drop_app_le by done. rewrite take_app_le; [done|]. rewrite length_drop. lia.
  - replace (j - i)%nat with 0%nat by lia. done.
Qed.

Lemma slice_drop (l : list Z) i : slice l i (length l) = drop i l.
Proof. unfold slice. apply take_ge. by rewrite length_drop. Qed.

Lemma slice_start_lt m s e c u : slice m s e = c :: u -> (s < e)%nat.
Proof. unfold slice. intros H. destruct (decide (s < e)%nat); [done|]. by replace (e - s)%nat with O in H by lia. Qed.

Lemma slice_snoc m s p c : (s <= p)%nat -> m !! p = Some c -> slice m s (S p) = slice m s p ++ [c].
Proof.
  intros Hs Hc. unfold slice. rewrite Nat.sub_succ_l by lia. apply take_S_r. rewrite lookup_drop.
  by replace (s + (p - s))%nat with p by lia.
Qed.

Lemma slice_agree m1 m2 i p last :
  take last m1 = take last m2 -> (p <= last)%nat -> slice m1 i p = slice m2 i p.
Proof.
  intros E Hp. unfold slice. rewrite !take_drop_commute. destruct (decide (i <= p)%nat).
  - replace (i + (p - i))%nat with (p `min` last)%nat by lia. by rewrite <- !take_take, E.
  - replace (p - i)%nat with 0%nat by lia. rewrite Nat.add_0_r, !drop_ge; [done|..]; rewrite length_take; lia.
Qed.

Lemma lookup_agree (m1 m2 : list Z) last p : take last m1 = take last m2 -> (p < last)%nat -> m1 !! p = m2 !! p.
Proof. intros E Hp. by rewrite <- (lookup_take_lt m1 last), E, lookup_take_lt. Qed.

Lemma take_insert_agree (m1 m2 : list Z) n i c :
  take n m1 = take n m2 -> take n (<[i:=c]> m1) = take n (<[i:=c]> m2).
Proof.
  intros E. destruct (decide (i < n)%nat); [by rewrite !take_insert_lt, E|by rewrite !take_insert_ge by lia].
Qed.

Lemma slice_split (m : list Z) i j k : (i <= j <= k)%nat -> slice m i k = slice m i j ++ slice m j k.
Proof.
  intros H. unfold slice. rewrite <- (take_drop (j - i) (take (k - i) (drop i m))), take_take, skipn_firstn_comm, drop_drop.
  f_equal; f_equal; [lia|lia|]. f_equal. lia.
Qed.

(** The bytes [l] are in the buffer at [p]. *)
Definition holds (m : list Z) (p : nat) (l : list Z) : Prop := forall i c, l !! i = Some c -> m !! (p + i)%nat = Some c.

Lemma holds_cons m p c l : holds m p (c :: l) <-> m !! p = Some c /\ holds m (S p) l.
Proof.
  split.
  - intros H. split; [rewrite <- (Nat.add_0_r p); by apply H|]. intros i x Hi. rewrite Nat.add_succ_comm. by apply H.
  - intros [H1 H2] [|i] x Hi; [injection Hi as <-; by rewrite Nat.add_0_r|]. rewrite <- Nat.add_succ_comm. by apply H2.
Qed.

Lemma holds_app m p l1 l2 : holds m p (l1 ++ l2) <-> holds m p l1 /\ holds m (p + length l1) l2.
Proof.
  revert p. induction l1 as [|c l1 IH]; intros p; cbn [app length].
  - rewrite Nat.add_0_r. split; [|tauto]. intros H. split; [|done]. intros i c Hi. done.
  - rewrite !holds_cons, IH, Nat.add_succ_comm. tauto.
Qed.

Lemma holds_of_prefix m p l : take (length l) (drop p m) = l -> holds m p l.
Proof.
  intros H i c Hi. rewrite <- H in Hi. apply lookup_take_Some in Hi as [Hi _]. by rewrite lookup_drop in Hi.
Qed.

Lemma holds_slice m l : forall p, holds m p l -> slice m p (p + length l) = l.
Proof.
  induction l as [|c l IH]; intros p H; cbn [length]; [by rewrite Nat.add_0_r, slice_nil|].
  apply holds_cons in H as [Hc H]. rewrite (slice_cons m p _ c) by (done || lia). f_equal.
  rewrite <- Nat.add_succ_comm. by apply IH.
Qed.
