(* ===== verification/HttpRequest.v ===== *)
(** The data that the parsers of src/http/ngx_http_parse.c share: the fields of
    ngx_http_request_t they fill in (src/http/ngx_http_request.h), the constants,
    and the table of the bytes with no meaning in a URI.

    The pointers [request_start] to [port_end] point into the header buffer; they
    are offsets in it, [None] being NULL. *)

From stdpp Require Import base numbers list option strings.
From Stdlib Require Import ZArith Lia.
From S2P Require Import Prelude.
Local Open Scope Z_scope.

(** * Definitions *)

Definition CR : Z := 13.
Definition LF : Z := 10.

Definition NGX_HTTP_UNKNOWN : Z := 0x0001.
Definition NGX_HTTP_GET : Z := 0x0002.
Definition NGX_HTTP_HEAD : Z := 0x0004.
Definition NGX_HTTP_POST : Z := 0x0008.
Definition NGX_HTTP_PUT : Z := 0x0010.
Definition NGX_HTTP_DELETE : Z := 0x0020.
Definition NGX_HTTP_MKCOL : Z := 0x0040.
Definition NGX_HTTP_COPY : Z := 0x0080.
Definition NGX_HTTP_MOVE : Z := 0x0100.
Definition NGX_HTTP_OPTIONS : Z := 0x0200.
Definition NGX_HTTP_PROPFIND : Z := 0x0400.
Definition NGX_HTTP_PROPPATCH : Z := 0x0800.
Definition NGX_HTTP_LOCK : Z := 0x1000.
Definition NGX_HTTP_UNLOCK : Z := 0x2000.
Definition NGX_HTTP_PATCH : Z := 0x4000.
Definition NGX_HTTP_TRACE : Z := 0x8000.

Definition NGX_HTTP_VERSION_9 : Z := 9.
Definition NGX_HTTP_VERSION_10 : Z := 1000.

Definition NGX_HTTP_BAD_REQUEST : Z := 400.
Definition NGX_HTTP_REQUEST_ENTITY_TOO_LARGE : Z := 413.
Definition NGX_HTTP_INTERNAL_SERVER_ERROR : Z := 500.

Definition NGX_HTTP_PARSE_HEADER_DONE : Z := 1.
Definition NGX_HTTP_PARSE_INVALID_METHOD : Z := 10.
Definition NGX_HTTP_PARSE_INVALID_REQUEST : Z := 11.
Definition NGX_HTTP_PARSE_INVALID_09_METHOD : Z := 12.
Definition NGX_HTTP_PARSE_INVALID_HEADER : Z := 13.

(** ** The table of usual characters *)

Definition usual : list Z :=
  [0xffffdbfe; 0x7fff37d6; 0xffffffff; 0xffffffff;
   0xffffffff; 0xffffffff; 0xffffffff; 0xffffffff].

(** [usual[ch >> 5] & (1U << (ch & 0x1f))] *)
Definition usual_bit (ch : Z) : outcome bool :=
  w ← at_ usual (Z.shiftr ch 5);
  Ok (negb (Z.land w (Z.shiftl 1 (Z.land ch 0x1f)) =? 0)).

(** ** The request *)

(** [uri], [args], [exten] and [unparsed_uri] are the bytes the [ngx_str_t] of
    that name refers to.  The field [state], which belongs to the parser that is
    at work, is an argument and a result of each of them. *)
Record request_t : Type := mk_request {
  method : Z;
  http_version : Z;
  http_major : Z;
  http_minor : Z;
  complex_uri : bool;
  quoted_uri : bool;
  plus_in_uri : bool;
  space_in_uri : bool;
  request_start : option nat;
  request_end : option nat;
  method_end : option nat;
  schema_start : option nat;
  schema_end : option nat;
  host_start : option nat;
  host_end : option nat;
  port_end : option nat;
  uri_start : option nat;
  uri_end : option nat;
  uri_ext : option nat;
  args_start : option nat;
  http_protocol : option nat;
  uri : list Z;
  args : list Z;
  exten : list Z;
  unparsed_uri : list Z;
  valid_unparsed_uri : bool
}.

#[export] Instance request_eta : Eta request_t := fun r =>
  mk_request (method r) (http_version r) (http_major r) (http_minor r)
    (complex_uri r) (quoted_uri r) (plus_in_uri r) (space_in_uri r)
    (request_start r) (request_end r) (method_end r) (schema_start r) (schema_end r)
    (host_start r) (host_end r) (port_end r)
    (uri_start r) (uri_end r) (uri_ext r) (args_start r) (http_protocol r)
    (uri r) (args r) (exten r) (unparsed_uri r) (valid_unparsed_uri r).

(** The fields as ngx_http_create_request leaves them. *)
Definition new_request : request_t :=
  mk_request NGX_HTTP_UNKNOWN NGX_HTTP_VERSION_10 0 0 false false false false
    None None None None None None None None None None None None None [] [] [] [] false.

(** The 16-bit fields [http_major] and [http_minor]. *)
Definition to_u16 (z : Z) : Z := z mod 2 ^ 16.

(** [p + i] for a pointer that must not be NULL. *)
Definition ptr_add (p : option nat) (i : nat) : outcome (option nat) :=
  match p with Some p => Ok (Some (p + i)%nat) | None => UB end.

(** * Usual characters *)

(** The bytes the parsers look at. *)
Definition special (ch : Z) : bool :=
  existsb (Z.eqb ch) [0; LF; CR; " "%ch; "#"%ch; "%"%ch; "+"%ch; "."%ch; "/"%ch; "?"%ch].

Lemma usual_bit_special ch : byte_ok ch -> usual_bit ch = Ok (negb (special ch)).
Proof.
  intros H. pose (P := fun ch => match usual_bit ch with Ok b => eqb b (negb (special ch)) | _ => false end).
  assert (Hc : P ch = true) by (apply (byte_forall P); [vm_compute; reflexivity|done]).
  unfold P in Hc. destruct (usual_bit ch) as [b| |]; try done. by apply eqb_prop in Hc as ->.
Qed.
