(* ===== verification/HttpUri.v ===== *)
(** Component "request URI": ngx_http_parse_uri and ngx_http_parse_complex_uri of
    src/http/ngx_http_parse.c, and ngx_http_process_request_uri of
    src/http/ngx_http_request.c, which decides whether the second is needed.

    The header buffer is a list of bytes, the memory [r->uri.data] that receives
    the normalized URI another one; [u] is an offset in the latter. *)

From stdpp Require Import base numbers list option strings.
From Stdlib Require Import ZArith Lia.
From S2P Require Import Prelude Buffer HttpRequest.
Local Open Scope Z_scope.

(** * Definitions *)

(** ** ngx_http_parse_uri *)

Inductive uri_state : Type :=
| uri_sw_start
| uri_sw_after_slash_in_uri
| uri_sw_check_uri
| uri_sw_uri.

#[export] Instance uri_state_dec : EqDecision uri_state.
Proof. solve_decision. Defined.

(** The switch: the new state and the request, [None] for [return NGX_ERROR]. *)
Definition uri_step (p : nat) (ch : Z) (state : uri_state) (r : request_t)
  : outcome (option (uri_state * request_t)) :=
  u ← usual_bit ch;
  Ok match state with
  | uri_sw_start => if negb (ch =? "/"%ch) then None else Some (uri_sw_after_slash_in_uri, r)
  | uri_sw_after_slash_in_uri =>
      if (u : bool) then Some (uri_sw_check_uri, r)
      else if ch =? " "%ch then Some (uri_sw_check_uri, r <| space_in_uri := true |>)
      else if ch =? "."%ch then Some (uri_sw_uri, r <| complex_uri := true |>)
      else if ch =? "%"%ch then Some (uri_sw_uri, r <| quoted_uri := true |>)
      else if ch =? "/"%ch then Some (uri_sw_uri, r <| complex_uri := true |>)
      else if ch =? "?"%ch then Some (uri_sw_uri, r <| args_start := Some (p + 1)%nat |>)
      else if ch =? "#"%ch then Some (uri_sw_uri, r <| complex_uri := true |>)
      else if ch =? "+"%ch then Some (uri_sw_after_slash_in_uri, r <| plus_in_uri := true |>)
      else Some (uri_sw_check_uri, r)
  | uri_sw_check_uri =>
      if u then Some (uri_sw_check_uri, r)
      else if ch =? "/"%ch then Some (uri_sw_after_slash_in_uri, r <| uri_ext := None |>)
      else if ch =? "."%ch then Some (uri_sw_check_uri, r <| uri_ext := Some (p + 1)%nat |>)
      else if ch =? " "%ch then Some (uri_sw_check_uri, r <| space_in_uri := true |>)
      else if ch =? "%"%ch then Some (uri_sw_uri, r <| quoted_uri := true |>)
      else if ch =? "?"%ch then Some (uri_sw_uri, r <| args_start := Some (p + 1)%nat |>)
      else if ch =? "#"%ch then Some (uri_sw_uri, r <| complex_uri := true |>)
      else if ch =? "+"%ch then Some (uri_sw_check_uri, r <| plus_in_uri := true |>)
      else Some (uri_sw_check_uri, r)
  | uri_sw_uri =>
      if u then Some (uri_sw_uri, r)
      else if ch =? " "%ch then Some (uri_sw_uri, r <| space_in_uri := true |>)
      else if ch =? "#"%ch then Some (uri_sw_uri, r <| complex_uri := true |>)
      else Some (uri_sw_uri, r)
  end.

(** The loop over the [n] bytes from [p] up to [r->uri_end]. *)
Fixpoint parse_uri_loop (m : list Z) (n p : nat) (state : uri_state) (r : request_t)
  : outcome (Z * request_t) :=
  match n with
  | O => Ok (NGX_OK, r)
  | S n' =>
      ch ← deref m p;
      s ← uri_step p ch state r;
      match s with
      | None => Ok (NGX_ERROR, r)
      | Some (state, r) => parse_uri_loop m n' (S p) state r
      end
  end.

Definition ngx_http_parse_uri (m : list Z) (r : request_t) : outcome (Z * request_t) :=
  match uri_start r, uri_end r with
  | Some s, Some e => if (s <=? e)%nat then parse_uri_loop m (e - s) s uri_sw_start r else UB
  | _, _ => UB
  end.

(** ** ngx_http_parse_complex_uri *)

Inductive complex_state : Type :=
| sw_usual
| sw_slash
| sw_dot
| sw_dot_dot
| sw_quoted
| sw_quoted_second.

#[export] Instance complex_state_dec : EqDecision complex_state.
Proof. solve_decision. Defined.

(** The local variables, and the memory at [r->uri.data]; [cx_ext] is
    [r->uri_ext], which points into this memory here. *)
Record complex_t : Type := mk_complex {
  cx_p : nat;
  cx_ch : Z;
  cx_state : complex_state;
  cx_quoted_state : complex_state;
  cx_decoded : Z;
  cx_u : nat;
  cx_data : list Z;
  cx_ext : option nat;
  cx_r : request_t
}.

#[export] Instance complex_eta : Eta complex_t := fun x =>
  mk_complex (cx_p x) (cx_ch x) (cx_state x) (cx_quoted_state x) (cx_decoded x) (cx_u x)
    (cx_data x) (cx_ext x) (cx_r x).

Inductive complex_action : Type :=
| Again (x : complex_t)
| Goto_args (x : complex_t)
| Goto_done (x : complex_t)
| Invalid_request (x : complex_t).

(** [for ( ;; )] of the state [sw_dot_dot], from an offset that is not before
    the memory: the offset after the slash. *)
Fixpoint climb (data : list Z) (u : nat) : outcome (option nat) :=
  c ← deref data u;
  if c =? "/"%ch then Ok (Some (S u))
  else match u with O => Ok None | S u' => climb data u' end.

Section Complex.
(** The header buffer, and [merge_slashes] of the server. *)
Context (m : list Z) (merge_slashes : bool).

(** [*u++ = c] *)
Definition put (c : Z) (x : complex_t) : outcome complex_t :=
  data ← store (cx_data x) (cx_u x) c;
  Ok (x <| cx_data := data |> <| cx_u := S (cx_u x) |>).

(** [ch = *p++; break] *)
Definition read_next (x : complex_t) : outcome complex_action :=
  c ← deref m (cx_p x); Ok (Again (x <| cx_ch := c |> <| cx_p := S (cx_p x) |>)).

(** [state = state; *u++ = ch; ch = *p++; break] *)
Definition copy (state : complex_state) (x : complex_t) : outcome complex_action :=
  x ← put (cx_ch x) (x <| cx_state := state |>); read_next x.

(** The cases of the switches of the first four states that do not depend on the
    state: [%], [?], [#], [+] and the default. *)
Definition complex_common (x : complex_t) : outcome complex_action :=
  let ch := cx_ch x in
  if ch =? "%"%ch then read_next (x <| cx_quoted_state := cx_state x |> <| cx_state := sw_quoted |>)
  else if ch =? "?"%ch then Ok (Goto_args (x <| cx_r := (cx_r x) <| args_start := Some (cx_p x) |> |>))
  else if ch =? "#"%ch then Ok (Goto_done x)
  else if ch =? "+"%ch then copy sw_usual (x <| cx_r := (cx_r x) <| plus_in_uri := true |> |>)
  else copy sw_usual x.

(** The value of a hexadecimal digit. *)
Definition hex_value (ch : Z) : option Z :=
  if ("0"%ch <=? ch) && (ch <=? "9"%ch) then Some (ch - "0"%ch)
  else
    let c := to_u8 (Z.lor ch 0x20) in
    if ("a"%ch <=? c) && (c <=? "f"%ch) then Some (c - "a"%ch + 10) else None.

(** The state [sw_quoted_second]: what the decoded character means depends on
    whether the second digit is a decimal one. *)
Definition quoted_second (x : complex_t) : outcome complex_action :=
  let ch := cx_ch x in
  if ("0"%ch <=? ch) && (ch <=? "9"%ch) then
    let ch := to_u8 (Z.shiftl (cx_decoded x) 4 + ch - "0"%ch) in
    let x := x <| cx_ch := ch |> in
    if (ch =? "%"%ch) || (ch =? "#"%ch) then copy sw_usual x
    else if ch =? 0 then Ok (Invalid_request x)
    else Ok (Again (x <| cx_state := cx_quoted_state x |>))
  else
    let c := to_u8 (Z.lor ch 0x20) in
    if ("a"%ch <=? c) && (c <=? "f"%ch) then
      let ch := to_u8 (Z.shiftl (cx_decoded x) 4 + c - "a"%ch + 10) in
      let x := x <| cx_ch := ch |> in
      if ch =? "?"%ch then copy sw_usual x
      else
        let x := if ch =? "+"%ch then x <| cx_r := (cx_r x) <| plus_in_uri := true |> |> else x in
        Ok (Again (x <| cx_state := cx_quoted_state x |>))
    else Ok (Invalid_request x).

Definition complex_step (x : complex_t) : outcome complex_action :=
  let ch := cx_ch x in
  match cx_state x with
  | sw_usual =>
      u ← usual_bit ch;
      if (u : bool) then copy sw_usual x
      else if ch =? "/"%ch then copy sw_slash (x <| cx_ext := None |>)
      else if ch =? "."%ch then copy sw_usual (x <| cx_ext := Some (cx_u x + 1)%nat |>)
      else complex_common x
  | sw_slash =>
      u ← usual_bit ch;
      if (u : bool) then copy sw_usual x
      else if ch =? "/"%ch then
        if negb merge_slashes then copy sw_slash x else read_next x
      else if ch =? "."%ch then copy sw_dot x
      else complex_common x
  | sw_dot =>
      u ← usual_bit ch;
      if (u : bool) then copy sw_usual x
      else if ch =? "/"%ch then
        match cx_u x with
        | O => UB
        | S u => read_next (x <| cx_state := sw_slash |> <| cx_u := u |>)
        end
      else if ch =? "."%ch then copy sw_dot_dot x
      else complex_common x
  | sw_dot_dot =>
      u ← usual_bit ch;
      if (u : bool) then copy sw_usual x
      else if ch =? "/"%ch then
        let x := x <| cx_state := sw_slash |> in
        if (cx_u x <? 5)%nat then Ok (Invalid_request x)
        else
          u ← climb (cx_data x) (cx_u x - 5);
          match u with
          | None => Ok (Invalid_request x)
          | Some u => read_next (x <| cx_u := u |>)
          end
      else complex_common x
  | sw_quoted =>
      let x := x <| cx_r := (cx_r x) <| quoted_uri := true |> |> in
      match hex_value ch with
      | Some d => read_next (x <| cx_decoded := to_u8 d |> <| cx_state := sw_quoted_second |>)
      | None => Ok (Invalid_request x)
      end
  | sw_quoted_second => quoted_second x
  end.

(** [r->uri.len = u - r->uri.data] and the extension. *)
Definition complex_finish (x : complex_t) : outcome (Z * request_t) :=
  let r := (cx_r x) <| uri := take (cx_u x) (cx_data x) |> in
  match cx_ext x with
  | None => Ok (NGX_OK, r <| uri_ext := None |>)
  | Some e =>
      if (e <=? cx_u x)%nat
      then Ok (NGX_OK, r <| exten := slice (cx_data x) e (cx_u x) |> <| uri_ext := None |>)
      else UB
  end.

(** [while (p < r->uri_end)] after the label [args], on [n] bytes: the offset of
    the first [#]. *)
Fixpoint find_fragment (n p : nat) : outcome (option nat) :=
  match n with
  | O => Ok None
  | S n' => c ← deref m p; if negb (c =? "#"%ch) then find_fragment n' (S p) else Ok (Some p)
  end.

Definition complex_args (uri_end : nat) (x : complex_t) : outcome (Z * request_t) :=
  h ← find_fragment (uri_end - cx_p x) (cx_p x);
  match h, args_start (cx_r x) with
  | Some h, Some a => complex_finish (x <| cx_r := (cx_r x) <| args := slice m a h |> <| args_start := None |> |>)
  | _, _ => complex_finish x
  end.

(** The loop.  A round moves [p], or replaces an escape sequence by the character
    it stands for, which the next round moves past. *)
Fixpoint complex_loop (fuel : nat) (uri_end : nat) (x : complex_t) : outcome (Z * request_t) :=
  match fuel with
  | O => NoFuel
  | S fuel' =>
      if (cx_p x <=? uri_end)%nat then
        a ← complex_step x;
        match a with
        | Again x => complex_loop fuel' uri_end x
        | Goto_args x => complex_args uri_end x
        | Goto_done x => complex_finish x
        | Invalid_request x => Ok (NGX_HTTP_PARSE_INVALID_REQUEST, cx_r x)
        end
      else complex_finish x
  end.

(** [data] is the memory at [r->uri.data]. *)
Definition ngx_http_parse_complex_uri (data : list Z) (r : request_t) : outcome (Z * request_t) :=
  match uri_start r, uri_end r with
  | Some s, Some e =>
      ch ← deref m s;
      let r := r <| uri_ext := None |> <| args_start := None |> in
      complex_loop (S (2 * (S e - s))) e (mk_complex (S s) ch sw_usual sw_usual 0 0 data None r)
  | _, _ => UB
  end.

(** ** ngx_http_process_request_uri *)

(** [e - s] for pointers into the header buffer. *)
Definition ptr_sub (e s : option nat) : outcome nat :=
  match e, s with
  | Some e, Some s => if (s <=? e)%nat then Ok (e - s)%nat else UB
  | _, _ => UB
  end.

(** The fields that the function sets whichever way the URI was obtained, [s]
    and [e] being [r->uri_start] and [r->uri_end]. *)
Definition uri_fields (s e : nat) (r : request_t) : request_t :=
  let r := r <| unparsed_uri := slice m s e |> in
  let r := r <| valid_unparsed_uri := negb (space_in_uri r) |> in
  let stop := match args_start r with Some a => (a - 1)%nat | None => e end in
  let r := match uri_ext r with Some x => r <| exten := slice m x stop |> | None => r end in
  match args_start r with
  | Some a => if (a <? e)%nat then r <| args := slice m a e |> else r
  | None => r
  end.

(** The result is NGX_OK, or the status the request is finalized with.  [alloc n]
    is what ngx_pnalloc gives, [n] bytes of any contents, or NULL. *)
Definition ngx_http_process_request_uri (alloc : nat -> option (list Z)) (r : request_t)
  : outcome (Z * request_t) :=
  full ← ptr_sub (uri_end r) (uri_start r);
  len ← match args_start r with
        | Some a => if (a =? 0)%nat then UB else ptr_sub (Some (a - 1)%nat) (uri_start r)
        | None => Ok full
        end;
  let s := default O (uri_start r) in
  let e := default O (uri_end r) in
  if complex_uri r || quoted_uri r then
    match alloc (len + 1)%nat with
    | None => Ok (NGX_HTTP_INTERNAL_SERVER_ERROR, r)
    | Some data =>
        '(rc, r) ← ngx_http_parse_complex_uri data r;
        if negb (rc =? NGX_OK) then Ok (NGX_HTTP_BAD_REQUEST, r <| uri := [] |>)
        else Ok (NGX_OK, uri_fields s e r)
    end
  else Ok (NGX_OK, uri_fields s e (r <| uri := slice m s (s + len) |>)).

End Complex.

(** The memory ngx_pnalloc gives, in the examples. *)
Definition zeros (n : nat) : option (list Z) := Some (replicate n 0).

Definition uri_request (m : list Z) : outcome (Z * request_t) :=
  ngx_http_parse_uri m (new_request <| uri_start := Some 0%nat |> <| uri_end := Some (length m - 1)%nat |>).

Definition demo_process (m : list Z) (merge : bool) : outcome (Z * list Z * list Z * list Z) :=
  '(rc, r) ← uri_request m;
  '(rc, r) ← ngx_http_process_request_uri m merge zeros r;
  Ok (rc, uri r, exten r, args r).

Example process_1 :
  demo_process (bytes "/a/.//b/%2e./c%25.tx%74?x=#y ") true = Ok (NGX_OK, bytes "/a/c%.txt", bytes "txt", bytes "x=").
Proof. vm_compute. reflexivity. Qed.

Example process_2 : demo_process (bytes "/a/b.c?d#e ") true = Ok (NGX_OK, bytes "/a/b.c", bytes "c", bytes "d").
Proof. vm_compute. reflexivity. Qed.

(** Without merging of slashes, the parent of an empty segment is removed with
    the segment. *)
Example climb_empty_segment :
  demo_process (bytes "/a//../b ") false = Ok (NGX_OK, bytes "/b", [], []) /\
  demo_process (bytes "/a/x/../b ") false = Ok (NGX_OK, bytes "/a/b", [], []) /\
  demo_process (bytes "//../b ") false = Ok (NGX_HTTP_BAD_REQUEST, [], [], []).
Proof. vm_compute. repeat split. Qed.

(** A dot segment at the end of the URI, and an escape sequence cut short by it,
    are not errors: the segment stays, the sequence disappears. *)
Example trailing_segment :
  demo_process (bytes "/a/.. ") true = Ok (NGX_OK, bytes "/a/..", [], []) /\
  demo_process (bytes "/.. ") true = Ok (NGX_OK, bytes "/..", [], []) /\
  demo_process (bytes "/a%4 ") true = Ok (NGX_OK, bytes "/a", [], []).
Proof. vm_compute. repeat split. Qed.
