(* ===== verification/HttpUriTheory.v ===== *)
(** Request URI: the normalization against a reference that first decodes the
    escape sequences and then resolves the segments of the path, and the direct
    use of the raw URI against the normalization. *)

From stdpp Require Import base numbers list option strings.
From Stdlib Require Import ZArith Lia.
From S2P Require Import Prelude Buffer HttpRequest HttpUri.
Local Open Scope Z_scope.

(** * The reference *)

(** What ends the path: the end of the URI or a fragment, or the arguments. *)
Inductive path_end : Type :=
| No_args
| Args (rest : list Z).

(** The path with its escape sequences decoded.  A sequence that the end of the
    URI cuts short is dropped. *)
Fixpoint decode (l : list Z) : option (list Z * path_end) :=
  let cons c r := match r with Some (d, t) => Some (c :: d, t) | None => None end in
  match l with
  | [] => Some ([], No_args)
  | c :: l' =>
      if c =? "?"%ch then Some ([], Args l')
      else if c =? "#"%ch then Some ([], No_args)
      else if c =? "%"%ch then
        match l' with
        | [] => Some ([], No_args)
        | [h] => match hex_value h with Some _ => Some ([], No_args) | None => None end
        | h1 :: h2 :: l'' =>
            match hex_value h1, hex_value h2 with
            | Some a, Some b => if a * 16 + b =? 0 then None else cons (a * 16 + b) (decode l'')
            | _, _ => None
            end
        end
      else cons c (decode l')
  end.

(** The directories of a path, each followed by a slash. *)
Definition flat (ds : list (list Z)) : list Z := "/"%ch :: concat (map (fun s => s ++ ["/"%ch]) ds).

Definition dot : list Z := ["."%ch].
Definition dot_dot : list Z := ["."%ch; "."%ch].

(** The directories without the last one; after an empty segment, which is there only
    when slashes are not merged, two are removed. *)
Definition up_from (ds : list (list Z)) : option (list (list Z)) :=
  match rev ds with
  | [] => None
  | s :: ds' => if decide (s = []) then match ds' with [] => None | _ :: ds' => Some (rev ds') end else Some (rev ds')
  end.

(** A segment that a slash follows, after the directories [ds]. *)
Definition close_segment (merge : bool) (ds : list (list Z)) (s : list Z) : option (list (list Z)) :=
  if decide (s = []) then Some (if merge then ds else ds ++ [[]])
  else if decide (s = dot) then Some ds
  else if decide (s = dot_dot) then up_from ds
  else Some (ds ++ [s]).

(** The directories and the last segment of the bytes [d] that follow the
    directories [ds] and the part [cur] of a segment. *)
Fixpoint resolve_from (merge : bool) (ds : list (list Z)) (cur : list Z) (d : list Z)
  : option (list (list Z) * list Z) :=
  match d with
  | [] => Some (ds, cur)
  | c :: d' =>
      if c =? "/"%ch then
        match close_segment merge ds cur with
        | Some ds => resolve_from merge ds [] d'
        | None => None
        end
      else resolve_from merge ds (cur ++ [c]) d'
  end.

(** A path that starts with a slash. *)
Definition resolve (merge : bool) (d : list Z) : option (list (list Z) * list Z) :=
  resolve_from merge [] [] (tail d).

(** The states between two characters. *)
Definition segment_state (s : list Z) : complex_state :=
  if decide (s = []) then sw_slash
  else if decide (s = dot) then sw_dot
  else if decide (s = dot_dot) then sw_dot_dot
  else sw_usual.

(** The offset, in a segment, of its extension: what follows the last dot, the
    dots at the start of the segment aside. *)
Fixpoint extension_from (pre s : list Z) (ext : option nat) : option nat :=
  match s with
  | [] => ext
  | c :: s' =>
      extension_from (pre ++ [c]) s'
        (if (c =? "."%ch) && bool_decide (segment_state pre = sw_usual) then Some (S (length pre)) else ext)
  end.

Definition extension (s : list Z) : list Z :=
  match extension_from [] s None with Some e => drop e s | None => [] end.

(** The arguments, up to the fragment. *)
Fixpoint before_fragment (l : list Z) : list Z :=
  match l with
  | [] => []
  | c :: l' => if c =? "#"%ch then [] else c :: before_fragment l'
  end.

Fixpoint before_args (l : list Z) : list Z :=
  match l with
  | [] => []
  | c :: l' => if c =? "?"%ch then [] else c :: before_args l'
  end.

(** * The machine on decoded characters *)

Record nstate : Type := mk_nstate {
  ns_state : complex_state;
  ns_out : list Z;
  ns_ext : option nat
}.

Fixpoint climb_list (out : list Z) (k : nat) : option nat :=
  if default 0 (out !! k) =? "/"%ch then Some (S k)
  else match k with O => None | S k' => climb_list out k' end.

(** The machine on a decoded character. *)
Definition norm_step (merge : bool) (n : nstate) (c : Z) : option nstate :=
  let out := ns_out n in
  let put st ext := Some (mk_nstate st (out ++ [c]) ext) in
  let ext := ns_ext n in
  match ns_state n with
  | sw_usual =>
      if c =? "/"%ch then put sw_slash None
      else if c =? "."%ch then put sw_usual (Some (S (length out)))
      else put sw_usual ext
  | sw_slash =>
      if c =? "/"%ch then if merge then Some n else put sw_slash ext
      else if c =? "."%ch then put sw_dot ext
      else put sw_usual ext
  | sw_dot =>
      if c =? "/"%ch then Some (mk_nstate sw_slash (take (length out - 1) out) ext)
      else if c =? "."%ch then put sw_dot_dot ext
      else put sw_usual ext
  | sw_dot_dot =>
      if c =? "/"%ch then
        if (length out <? 5)%nat then None
        else match climb_list out (length out - 5) with
             | Some k => Some (mk_nstate sw_slash (take k out) ext)
             | None => None
             end
      else put sw_usual ext
  | _ => None
  end.

Fixpoint norm_run (merge : bool) (n : nstate) (d : list Z) : option nstate :=
  match d with
  | [] => Some n
  | c :: d' => match norm_step merge n c with Some n => norm_run merge n d' | None => None end
  end.

(** The machine keeps to its first four states; there is an extension in the
    first only, and something to remove in the last two. *)
Definition nstate_ok (n : nstate) : Prop :=
  match ns_state n with
  | sw_usual => match ns_ext n with Some k => (k <= length (ns_out n))%nat | None => True end
  | sw_slash => ns_ext n = None
  | sw_dot | sw_dot_dot => ns_ext n = None /\ ns_out n <> []
  | _ => False
  end.

Lemma norm_step_ok merge n c n' : nstate_ok n -> norm_step merge n c = Some n' -> nstate_ok n'.
Proof.
  assert (Ha : ns_out n ++ [c] <> []) by (by destruct (ns_out n)).
  unfold norm_step, nstate_ok. destruct n as [st out ext]; cbn [ns_state ns_out ns_ext] in *.
  destruct st; try done; destruct (c =? "/"%ch), (c =? "."%ch); intros Hn.
  all: try (intros [= <-]; cbn; rewrite ?length_app; cbn; destruct ext; try lia; tauto || (destruct Hn; done) || done).
  all: try (destruct merge; intros [= <-]; cbn; done).
  all: destruct (_ <? _)%nat; [done|]; destruct (climb_list _ _); [|done]; intros [= <-]; cbn; tauto.
Qed.

(** * The code follows the machine *)

Section Refinement.
Context (m : list Z) (merge : bool) (size : nat).

(** The local variables when the character [c], at offset [i], is next. *)
Record cx_rel (i : nat) (c : Z) (n : nstate) (r : request_t) (x : complex_t) : Prop := {
  rel_p : cx_p x = S i;
  rel_ch : cx_ch x = c;
  rel_state : cx_state x = ns_state n;
  rel_u : cx_u x = length (ns_out n);
  rel_out : take (length (ns_out n)) (cx_data x) = ns_out n;
  rel_size : length (cx_data x) = size;
  rel_ext : cx_ext x = ns_ext n;
  rel_r : cx_r x = r
}.

Lemma take_insert_snoc (l out : list Z) c :
  take (length out) l = out -> (length out < length l)%nat -> take (length out + 1) (<[length out := c]> l) = out ++ [c].
Proof.
  intros H Hl. rewrite Nat.add_1_r. erewrite take_S_r; [|by apply list_lookup_insert_eq].
  by rewrite take_insert_ge, H by lia.
Qed.

Lemma read_next_ok x c : m !! cx_p x = Some c ->
  read_next m x = Ok (Again (x <| cx_ch := c |> <| cx_p := S (cx_p x) |>)).
Proof. intros H. unfold read_next. by rewrite (deref_lookup _ _ _ H). Qed.

Lemma copy_rel st i c c' n r x :
  cx_rel i c n r x -> (length (ns_out n) < size)%nat -> m !! S i = Some c' ->
  exists x', copy m st x = Ok (Again x') /\ cx_rel (S i) c' (mk_nstate st (ns_out n ++ [c]) (ns_ext n)) r x'.
Proof.
  intros [Hp Hc Hs Hu Ho Hz He Hr] Hl Hm. unfold copy, put.
  change (cx_data (x <| cx_state := st |>)) with (cx_data x).
  change (cx_u (x <| cx_state := st |>)) with (cx_u x). rewrite store_ok by lia. cbn [mbind outcome_bind].
  rewrite (read_next_ok _ c'); [|change (m !! cx_p x = Some c'); by rewrite Hp].
  eexists. split; [reflexivity|]. split; cbn; rewrite ?Hp, ?Hc, ?Hu; try done.
  - rewrite length_app. cbn. lia.
  - rewrite length_app. cbn [length]. apply take_insert_snoc; [done|lia].
  - by rewrite length_insert.
Qed.

(** A change of the extension or of the request on the way. *)
Lemma cx_rel_ext e i c n r x :
  cx_rel i c n r x -> cx_rel i c (mk_nstate (ns_state n) (ns_out n) e) r (x <| cx_ext := e |>).
Proof. by intros []. Qed.

Lemma cx_rel_r r' i c n r x : cx_rel i c n r x -> cx_rel i c n r' (x <| cx_r := r' |>).
Proof. by intros []. Qed.

Lemma climb_prefix data out k :
  take (length out) data = out -> (k < length out)%nat -> climb data k = Ok (climb_list out k).
Proof.
  intros H. assert (Hx : forall k, (k < length out)%nat -> exists c, deref data k = Ok c /\ out !! k = Some c).
  { intros j Hj. apply lookup_lt_is_Some_2 in Hj as [c Hc]. exists c. split; [|done].
    rewrite <- H in Hc. apply lookup_take_Some in Hc as [Hc _]. by apply deref_lookup. }
  induction k as [|k IH]; intros Hk; destruct (Hx _ Hk) as (c & Hd & Ho); cbn [climb climb_list];
    rewrite Hd, Ho; cbn [mbind outcome_bind default from_option id]; destruct (c =? _); try done.
  apply IH. lia.
Qed.

Lemma climb_list_le out k j : climb_list out k = Some j -> (j <= S k)%nat.
Proof.
  revert j. induction k as [|k IH]; intros j; cbn [climb_list]; destruct (_ =? _); intros [= <-] || intros H; try lia.
  apply IH in H. lia.
Qed.

Lemma take_rel k i c c' n r x :
  cx_rel i c n r x -> (k <= length (ns_out n))%nat -> m !! S i = Some c' ->
  exists x', read_next m (x <| cx_state := sw_slash |> <| cx_u := k |>) = Ok (Again x') /\
    cx_rel (S i) c' (mk_nstate sw_slash (take k (ns_out n)) (ns_ext n)) r x'.
Proof.
  intros [Hp Hc Hs Hu Ho Hz He Hr] Hk Hm.
  rewrite (read_next_ok _ c'); [|change (m !! cx_p x = Some c'); by rewrite Hp].
  eexists. split; [reflexivity|]. split; cbn; rewrite ?Hp; try done.
  - rewrite length_take. lia.
  - rewrite length_take, Nat.min_l, <- Ho, take_take, Nat.min_l by lia. done.
Qed.

(** The request after a character. *)
Definition with_plus (c : Z) (r : request_t) : request_t :=
  if c =? "+"%ch then r <| plus_in_uri := true |> else r.

Definition ordinary (c : Z) : Prop := c <> "%"%ch /\ c <> "?"%ch /\ c <> "#"%ch.

#[local] Instance ordinary_dec c : Decision (ordinary c).
Proof. unfold ordinary. apply _. Defined.

Lemma special_other c :
  special c = false -> ordinary c /\ c <> "/"%ch /\ c <> "."%ch /\ c <> "+"%ch /\ c <> 0.
Proof.
  unfold special, ordinary. cbn [existsb]. rewrite !orb_false_iff, !Z.eqb_neq. tauto.
Qed.

(** The default of the switches. *)
Lemma complex_common_rel i c c' n r x :
  cx_rel i c n r x -> ordinary c -> (length (ns_out n) < size)%nat -> m !! S i = Some c' ->
  exists x', complex_common m x = Ok (Again x') /\
    cx_rel (S i) c' (mk_nstate sw_usual (ns_out n ++ [c]) (ns_ext n)) (with_plus c r) x'.
Proof.
  intros H [H1 [H2 H3]] Hl Hm. unfold complex_common. rewrite (rel_ch _ _ _ _ _ H).
  rewrite !(proj2 (Z.eqb_neq _ _)) by done. unfold with_plus. destruct (Z.eqb_spec c "+"%ch).
  - rewrite (rel_r _ _ _ _ _ H).
    exact (copy_rel sw_usual i c c' _ _ _ (cx_rel_r _ _ _ _ _ _ H) Hl Hm).
  - by apply copy_rel.
Qed.

Lemma char_rel i c c' n r x :
  cx_rel i c n r x -> nstate_ok n -> byte_ok c -> ordinary c -> (length (ns_out n) < size)%nat ->
  m !! S i = Some c' ->
  match norm_step merge n c with
  | Some n' => exists x', complex_step m merge x = Ok (Again x') /\ cx_rel (S i) c' n' (with_plus c r) x'
  | None => exists x', complex_step m merge x = Ok (Invalid_request x')
  end.
Proof.
  intros H Hn Hb Ho Hl Hm. pose proof (complex_common_rel i c c' n r x H Ho Hl Hm) as Hdef.
  assert (Hcopy : forall st, exists x', copy m st x = Ok (Again x') /\
    cx_rel (S i) c' (mk_nstate st (ns_out n ++ [c]) (ns_ext n)) r x') by (intros st; by apply copy_rel).
  unfold complex_step, norm_step, nstate_ok in *. rewrite (rel_ch _ _ _ _ _ H), (rel_state _ _ _ _ _ H).
  rewrite usual_bit_special by done. cbn [mbind outcome_bind].
  assert (Hw : special c = false \/ c <> "+"%ch -> with_plus c r = r).
  { intros Hs. unfold with_plus. rewrite (proj2 (Z.eqb_neq _ _)); [done|].
    destruct Hs as [Hs|Hs]; [by apply special_other in Hs as (_ & _ & _ & ? & _)|done]. }
  destruct (special c) eqn:Es; cbn [negb].
  2:{ rewrite Hw by tauto. apply special_other in Es as (_ & H1 & H2 & _).
      rewrite !(proj2 (Z.eqb_neq _ _)) by done. by destruct (ns_state n). }
  destruct (Z.eqb_spec c "/"%ch) as [->|H1]; [rewrite Hw by (by right)|].
  - destruct (ns_state n) eqn:En; try done.
    + exact (copy_rel sw_slash i _ c' _ _ _ (cx_rel_ext None _ _ _ _ _ H) Hl Hm).
    + destruct merge; cbn [negb]; [|apply Hcopy].
      rewrite (read_next_ok _ c') by (by rewrite (rel_p _ _ _ _ _ H)). eexists. split; [reflexivity|].
      destruct H. split; cbn; try done. by rewrite rel_p0.
    + rewrite (rel_u _ _ _ _ _ H). destruct (length (ns_out n)) as [|k] eqn:E; [by destruct Hn; apply nil_length_inv in E|].
      replace (S k - 1)%nat with k by lia. apply (take_rel k i _ c' n r x H); [lia|done].
    + change (cx_u (x <| cx_state := sw_slash |>)) with (cx_u x).
      change (cx_data (x <| cx_state := sw_slash |>)) with (cx_data x). rewrite (rel_u _ _ _ _ _ H).
      destruct (Nat.ltb_spec (length (ns_out n)) 5); [by eexists|].
      rewrite (climb_prefix _ (ns_out n)) by (exact (rel_out _ _ _ _ _ H) || lia). cbn [mbind outcome_bind].
      destruct (climb_list _ _) as [k|] eqn:Ek; [|by eexists].
      apply climb_list_le in Ek. apply (take_rel k i _ c' n r x H); [lia|done].
  - destruct (Z.eqb_spec c "."%ch) as [->|H2]; [rewrite Hw by (by right)|by destruct (ns_state n)].
    destruct (ns_state n) eqn:En; try done.
    rewrite (rel_u _ _ _ _ _ H), Nat.add_1_r.
    exact (copy_rel sw_usual i _ c' _ _ _ (cx_rel_ext (Some (S (length (ns_out n)))) _ _ _ _ _ H) Hl Hm).
Qed.

(** ** Escape sequences *)

Lemma hex_value_bound ch d : hex_value ch = Some d -> 0 <= d < 16.
Proof.
  unfold hex_value. cbv zeta. destruct (_ && _) eqn:E1.
  - apply andb_prop in E1 as [H1%Z.leb_le H2%Z.leb_le]. intros [= <-]. lia.
  - destruct (("a"%ch <=? _) && _) eqn:E2; [|done].
    apply andb_prop in E2 as [H1%Z.leb_le H2%Z.leb_le]. intros [= <-]. lia.
Qed.

Definition with_quoted (r : request_t) : request_t := r <| quoted_uri := true |>.

(** A percent sign, and the digits that follow it as far as there are any. *)
Lemma percent_step i n r x h1 :
  cx_rel i "%"%ch n r x -> nstate_ok n -> m !! S i = Some h1 ->
  exists x', complex_step m merge x = Ok (Again x') /\ cx_state x' = sw_quoted /\
    cx_rel (S i) h1 n r (x' <| cx_state := ns_state n |>) /\ cx_quoted_state x' = ns_state n.
Proof.
  intros H Hn Hm. assert (Hr : read_next m (x <| cx_quoted_state := ns_state n |> <| cx_state := sw_quoted |>) =
    Ok (Again (x <| cx_quoted_state := ns_state n |> <| cx_state := sw_quoted |> <| cx_ch := h1 |> <| cx_p := S (S i) |>))).
  { rewrite (read_next_ok _ h1) by (cbn; by rewrite (rel_p _ _ _ _ _ H)). cbn. by rewrite (rel_p _ _ _ _ _ H). }
  assert (Hc : complex_common m x = read_next m (x <| cx_quoted_state := ns_state n |> <| cx_state := sw_quoted |>)).
  { unfold complex_common. by rewrite (rel_ch _ _ _ _ _ H), (rel_state _ _ _ _ _ H). }
  unfold complex_step. rewrite (rel_ch _ _ _ _ _ H), (rel_state _ _ _ _ _ H).
  change (usual_bit "%"%ch) with (Ok false). cbn [mbind outcome_bind].
  eexists. split; [rewrite <- Hr, <- Hc; unfold nstate_ok in Hn; by destruct (ns_state n)|].
  destruct H. by repeat split.
Qed.

Lemma quoted_step i n r x h1 c' :
  cx_state x = sw_quoted -> cx_rel i h1 n r (x <| cx_state := ns_state n |>) -> cx_quoted_state x = ns_state n ->
  m !! S i = Some c' ->
  match hex_value h1 with
  | None => exists x', complex_step m merge x = Ok (Invalid_request x')
  | Some a =>
      exists x', complex_step m merge x = Ok (Again x') /\ cx_state x' = sw_quoted_second /\ cx_decoded x' = a /\
        cx_rel (S i) c' n (with_quoted r) (x' <| cx_state := ns_state n |>) /\ cx_quoted_state x' = ns_state n
  end.
Proof.
  intros Hs [Hp Hc _ Hu Ho Hz He Hr] Hq Hm. cbn in *. unfold complex_step. rewrite Hs, Hc.
  destruct (hex_value h1) as [a|] eqn:Ha; [|by eexists].
  rewrite (read_next_ok _ c') by (cbn; by rewrite Hp).
  eexists. split; [reflexivity|]. cbn. apply hex_value_bound in Ha. rewrite to_u8_id by (unfold byte_ok; lia).
  rewrite Hr, Hp. by repeat split.
Qed.

(** The second digit: the sequence stands for a character that no state treats
    specially, or is replaced by it. *)
Lemma second_step i n r x a h2 c' :
  cx_state x = sw_quoted_second -> cx_decoded x = a -> 0 <= a < 16 -> byte_ok h2 ->
  cx_rel i h2 n r (x <| cx_state := ns_state n |>) -> cx_quoted_state x = ns_state n ->
  (length (ns_out n) < size)%nat -> m !! S i = Some c' ->
  match hex_value h2 with
  | None => exists x', complex_step m merge x = Ok (Invalid_request x')
  | Some b =>
      let v := a * 16 + b in
      if v =? 0 then exists x', complex_step m merge x = Ok (Invalid_request x')
      else exists x', complex_step m merge x = Ok (Again x') /\
        if decide (ordinary v) then cx_rel i v n (with_plus v r) x'
        else cx_rel (S i) c' (mk_nstate sw_usual (ns_out n ++ [v]) (ns_ext n)) r x'
  end.
Proof.
  intros Hs Hd Ha Hb H Hq Hl Hm. pose proof H as [Hp Hc _ Hu Ho Hz He Hr]. cbn in Hp, Hc, Hu, Ho, Hz, He, Hr.
  unfold complex_step. rewrite Hs. unfold quoted_second, hex_value. cbv zeta. rewrite Hc, Hd.
  rewrite Z.shiftl_mul_pow2 by lia. change (2 ^ 4) with 16.
  assert (Hcopy : forall v, exists x', copy m sw_usual (x <| cx_ch := v |>) = Ok (Again x') /\
    cx_rel (S i) c' (mk_nstate sw_usual (ns_out n ++ [v]) (ns_ext n)) r x').
  { intros v. apply (copy_rel sw_usual i v c' (mk_nstate sw_quoted_second (ns_out n) (ns_ext n))); try done. }
  destruct (_ && _) eqn:E1.
  - apply andb_prop in E1 as [H1%Z.leb_le H2%Z.leb_le].
    replace (to_u8 (a * 16 + h2 - 48)) with (a * 16 + (h2 - 48)) by (unfold_casts; rewrite Z.mod_small; lia).
    cbv zeta. cbn [cx_ch]. set (v := a * 16 + (h2 - 48)). destruct (Z.eqb_spec v 37) as [E|N37]; cbn [orb].
    { rewrite E. cbn. exact (Hcopy 37). }
    destruct (Z.eqb_spec v 35) as [E|N35]; cbn [orb]; [rewrite E; cbn; exact (Hcopy 35)|].
    destruct (Z.eqb_spec v 0); [by eexists|]. eexists. split; [reflexivity|].
    rewrite decide_True by (unfold ordinary; lia).
    unfold with_plus. rewrite (proj2 (Z.eqb_neq _ _)) by lia. by split.
  - destruct (("a"%ch <=? _) && _) eqn:E2; [|by eexists].
    apply andb_prop in E2 as [H1%Z.leb_le H2%Z.leb_le]. set (c := to_u8 (Z.lor h2 32)) in *.
    replace (to_u8 (a * 16 + c - 97 + 10)) with (a * 16 + (c - 97 + 10)) by (unfold_casts; rewrite Z.mod_small; lia).
    set (v := a * 16 + (c - 97 + 10)). rewrite (proj2 (Z.eqb_neq v 0)) by lia.
    destruct (Z.eqb_spec v 63) as [E|N63]; [rewrite E; cbn; exact (Hcopy 63)|].
    eexists. split; [reflexivity|]. rewrite decide_True by (unfold ordinary; lia).
    unfold with_plus. rewrite <- Hr. destruct (v =? 43); by split.
Qed.

Lemma norm_step_length n c n' :
  norm_step merge n c = Some n' -> (length (ns_out n') <= S (length (ns_out n)))%nat.
Proof.
  unfold norm_step. destruct n as [st out ext]; cbn [ns_state ns_out ns_ext].
  destruct st; try done; destruct (c =? "/"%ch), (c =? "."%ch); try destruct merge;
    try (intros [= <-]; cbn; rewrite ?length_app, ?length_take; cbn; lia).
  all: destruct (_ <? _)%nat; [done|]; destruct (climb_list _ _); [|done]; intros [= <-]; cbn;
    rewrite length_take; lia.
Qed.

(** ** The whole function *)

Definition plus_after (d : list Z) (r : request_t) : request_t :=
  if existsb (Z.eqb "+"%ch) d then r <| plus_in_uri := true |> else r.

(** The arguments, [e] being [r->uri_end]. *)
Definition args_request (e : nat) (t : path_end) (r : request_t) : request_t :=
  match t with
  | No_args => r
  | Args rest =>
      if existsb (Z.eqb "#"%ch) rest then r <| args := before_fragment rest |> <| args_start := None |>
      else r <| args_start := Some (e - length rest)%nat |>
  end.

Definition finish_request (e : nat) (t : path_end) (n : nstate) (r : request_t) : request_t :=
  let r := (args_request e t r) <| uri := ns_out n |> in
  match ns_ext n with
  | Some k => r <| exten := drop k (ns_out n) |> <| uri_ext := None |>
  | None => r <| uri_ext := None |>
  end.

Lemma finish_ok i c n r x :
  cx_rel i c n r x -> nstate_ok n -> complex_finish x = Ok (NGX_OK, finish_request 0 No_args n r).
Proof.
  intros [Hp Hc Hs Hu Ho Hz He Hr] Hn. unfold complex_finish, finish_request, args_request.
  rewrite Hu, Ho, Hr, He.
  assert (Hle : forall k, ns_ext n = Some k -> (k <= length (ns_out n))%nat).
  { intros k Hk. unfold nstate_ok in Hn. rewrite Hk in Hn. destruct (ns_state n); try done; by destruct Hn. }
  destruct (ns_ext n) as [k|]; [|done]. specialize (Hle k eq_refl).
  destruct (Nat.leb_spec k (length (ns_out n))); [|lia].
  unfold slice. rewrite take_drop_commute. replace (k + (length (ns_out n) - k))%nat with (length (ns_out n)) by lia.
  by rewrite Ho.
Qed.

Lemma find_fragment_ok n p :
  (p + n <= length m)%nat ->
  find_fragment m n p = Ok (let l := slice m p (p + n) in
    if existsb (Z.eqb "#"%ch) l then Some (p + length (before_fragment l))%nat else None).
Proof.
  revert p. induction n as [|n IH]; intros p Hp; [by rewrite Nat.add_0_r, slice_nil|].
  destruct (lookup_lt_is_Some_2 m p) as [c Hc]; [lia|]. cbn [find_fragment].
  rewrite (deref_lookup _ _ _ Hc), (slice_cons m _ _ c) by (done || lia). cbn [mbind outcome_bind].
  cbn [existsb before_fragment length]. rewrite (Z.eqb_sym _ c).
  destruct (c =? "#"%ch); cbn [negb orb length]; [by rewrite Nat.add_0_r|].
  rewrite IH by lia. rewrite <- Nat.add_succ_comm. cbv zeta.
  destruct (existsb _ _); [|done]. by rewrite <- Nat.add_succ_comm.
Qed.

Lemma before_fragment_prefix l : take (length (before_fragment l)) l = before_fragment l.
Proof. induction l as [|c l IH]; [done|]. cbn. destruct (c =? _); cbn; [done|]. by rewrite IH. Qed.

Lemma args_ok i e n r x :
  (i < e)%nat -> (e <= length m)%nat -> cx_rel i "?"%ch n r x -> nstate_ok n ->
  complex_args m e (x <| cx_r := (cx_r x) <| args_start := Some (cx_p x) |> |>)
  = Ok (NGX_OK, finish_request e (Args (slice m (S i) e)) n r).
Proof.
  intros Hi He H Hn. unfold complex_args. cbn [cx_p cx_r]. pose proof (rel_p _ _ _ _ _ H) as Hp.
  change (cx_p (x <| cx_r := (cx_r x) <| args_start := Some (cx_p x) |> |>)) with (cx_p x).
  rewrite Hp, find_fragment_ok by lia. cbn [mbind outcome_bind]. cbv zeta.
  replace (S i + (e - S i))%nat with e by lia. set (l := slice m (S i) e).
  assert (Hl : length l = (e - S i)%nat) by (apply slice_length; lia).
  assert (Hf : forall r', complex_finish (x <| cx_r := r' |>) = Ok (NGX_OK, finish_request 0 No_args n r')).
  { intros r'. apply (finish_ok i "?"%ch); [|done]. by apply (cx_rel_r r') in H. }
  rewrite (rel_r _ _ _ _ _ H). cbn. unfold finish_request at 1, args_request.
  destruct (existsb _ l).
  - assert (Hs : slice m (S i) (S (i + length (before_fragment l))) = before_fragment l).
    { pose proof (before_fragment_prefix l) as Hb. set (k := length (before_fragment l)) in *.
      assert (k <= length l)%nat by (unfold k; rewrite <- Hb, length_take; lia).
      rewrite <- Hb. unfold l, slice. rewrite take_take. f_equal. lia. }
    rewrite Hs. exact (Hf _).
  - rewrite Hl. replace (e - (e - S i))%nat with (S i) by lia. exact (Hf _).
Qed.

(** What the function gives for the rest [l] of the URI. *)
Definition complex_spec (e : nat) (l : list Z) (n : nstate) (r : request_t) (res : outcome (Z * request_t)) : Prop :=
  match decode l with
  | Some (d, t) =>
      match norm_run merge n d with
      | Some n' => exists qu, res = Ok (NGX_OK, finish_request e t n' ((plus_after d r) <| quoted_uri := qu |>))
      | None => exists r', res = Ok (NGX_HTTP_PARSE_INVALID_REQUEST, r')
      end
  | None => exists r', res = Ok (NGX_HTTP_PARSE_INVALID_REQUEST, r')
  end.

Lemma request_quoted_id r : r = r <| quoted_uri := quoted_uri r |>.
Proof. by destruct r. Qed.

Lemma plus_after_cons c d r : plus_after (c :: d) r = plus_after d (with_plus c r).
Proof.
  unfold plus_after, with_plus. cbn [existsb]. rewrite (Z.eqb_sym _ c).
  destruct (c =? "+"%ch), (existsb _ d); done.
Qed.

Lemma plus_after_quoted d r qu : (plus_after d (with_quoted r)) <| quoted_uri := qu |> = (plus_after d r) <| quoted_uri := qu |>.
Proof. unfold plus_after. by destruct (existsb _ d). Qed.

Lemma norm_step_plain n v :
  nstate_ok n -> v <> "/"%ch -> v <> "."%ch -> norm_step merge n v = Some (mk_nstate sw_usual (ns_out n ++ [v]) (ns_ext n)).
Proof.
  intros Hn H1 H2. unfold norm_step, nstate_ok in *. rewrite !(proj2 (Z.eqb_neq _ _)) by done. by destruct (ns_state n).
Qed.

(** A decoded character [c] in front of what [l] decodes to. *)
Lemma complex_spec_cons e l l' c n r res :
  decode l = match decode l' with Some (d, t) => Some (c :: d, t) | None => None end ->
  match norm_step merge n c with
  | Some n' => complex_spec e l' n' (with_plus c r) res
  | None => exists r', res = Ok (NGX_HTTP_PARSE_INVALID_REQUEST, r')
  end -> complex_spec e l n r res.
Proof.
  intros Hd H. unfold complex_spec in *. rewrite Hd. destruct (decode l') as [[d t]|].
  - cbn [norm_run]. destruct (norm_step merge n c) as [n'|]; [|done]. by rewrite plus_after_cons.
  - by destruct (norm_step merge n c).
Qed.

Lemma complex_spec_quoted e l n r res : complex_spec e l n (with_quoted r) res -> complex_spec e l n r res.
Proof.
  unfold complex_spec. destruct (decode l) as [[d t]|]; [|done]. destruct (norm_run merge n d); [|done].
  intros [qu ->]. exists qu. by rewrite plus_after_quoted.
Qed.

(** One round of the loop. *)
Lemma loop_round fuel e x :
  (cx_p x <= e)%nat ->
  complex_loop m merge (S fuel) e x =
    (a ← complex_step m merge x;
     match a with
     | Again x => complex_loop m merge fuel e x
     | Goto_args x => complex_args m e x
     | Goto_done x => complex_finish x
     | Invalid_request x => Ok (NGX_HTTP_PARSE_INVALID_REQUEST, cx_r x)
     end).
Proof. intros H. cbn [complex_loop]. by rewrite (proj2 (Nat.leb_le _ _) H). Qed.

Lemma loop_exit fuel e x : (e < cx_p x)%nat -> complex_loop m merge (S fuel) e x = complex_finish x.
Proof. intros H. cbn [complex_loop]. by rewrite (proj2 (Nat.leb_gt _ _) H). Qed.

Lemma step_stop x i c n r :
  cx_rel i c n r x -> nstate_ok n -> c = "?"%ch \/ c = "#"%ch ->
  complex_step m merge x = Ok (if c =? "?"%ch then Goto_args (x <| cx_r := (cx_r x) <| args_start := Some (cx_p x) |> |>)
                               else Goto_done x).
Proof.
  intros H Hn Hc. unfold complex_step, complex_common. rewrite (rel_ch _ _ _ _ _ H), (rel_state _ _ _ _ _ H).
  unfold nstate_ok in Hn. destruct Hc as [-> | ->]; cbn; by destruct (ns_state n).
Qed.

Lemma slice_next i e : (i < e)%nat -> (e < length m)%nat ->
  exists c c', m !! i = Some c /\ m !! S i = Some c' /\ slice m i e = c :: slice m (S i) e.
Proof.
  intros Hi He. destruct (lookup_lt_is_Some_2 m i) as [c Hc]; [lia|].
  destruct (lookup_lt_is_Some_2 m (S i)) as [c' Hc']; [lia|]. exists c, c'. by rewrite <- slice_cons.
Qed.

Lemma before_args_length l : (length (before_args l) <= length l)%nat.
Proof. induction l as [|c l IH]; cbn; [lia|]. destruct (c =? _); cbn; lia. Qed.

Lemma spec_end e n r res :
  res = Ok (NGX_OK, finish_request e No_args n r) -> complex_spec e [] n r res.
Proof. intros ->. exists (quoted_uri r). cbn. by rewrite <- request_quoted_id. Qed.

(** The claim about the loop, on at most [k] bytes. *)
Definition loop_claim (e k : nat) : Prop :=
  forall i c n r x fuel,
    (e - i <= k)%nat -> (i <= e)%nat -> m !! i = Some c -> cx_rel i c n r x -> nstate_ok n ->
    (length (ns_out n) + length (before_args (slice m i e)) <= size)%nat -> (2 * (e - i) < fuel)%nat ->
    complex_spec e (slice m i e) n r (complex_loop m merge fuel e x).

(** A character that the machine takes, and then the rest. *)
Lemma char_ok e k i c n r r' x fuel :
  loop_claim e k -> (e <= i + S k)%nat -> (i < e)%nat -> (e < length m)%nat -> byte_ok c -> ordinary c ->
  cx_rel i c n r' x -> with_plus c r' = with_plus c r -> nstate_ok n ->
  (length (ns_out n) + S (length (before_args (slice m (S i) e))) <= size)%nat -> (2 * (e - i) <= S fuel)%nat ->
  forall l, decode l = match decode (slice m (S i) e) with Some (d, t) => Some (c :: d, t) | None => None end ->
  complex_spec e l n r (complex_loop m merge (S fuel) e x).
Proof.
  intros IH Hk Hi He Hb Ho H Hr Hn Hl Hf l Hd. destruct (lookup_lt_is_Some_2 m (S i)) as [c' Hc']; [lia|].
  rewrite loop_round by (rewrite (rel_p _ _ _ _ _ H); lia).
  pose proof (char_rel i c c' n r' x H Hn Hb Ho ltac:(lia) Hc') as Hstep.
  rewrite Hr in Hstep. apply (complex_spec_cons e l _ c n r _ Hd). destruct (norm_step merge n c) as [n'|] eqn:En.
  - destruct Hstep as (x' & -> & H'). cbn [mbind outcome_bind]. apply (IH _ c'); try done; try lia.
    + by eapply norm_step_ok.
    + apply norm_step_length in En. lia.
  - destruct Hstep as [x' ->]. by eexists.
Qed.

Lemma decode_percent h1 h2 l a b :
  hex_value h1 = Some a -> hex_value h2 = Some b -> a * 16 + b <> 0 ->
  decode ("%"%ch :: h1 :: h2 :: l) = match decode l with Some (d, t) => Some (a * 16 + b :: d, t) | None => None end.
Proof. intros H1 H2 Hv. cbn. by rewrite H1, H2, (proj2 (Z.eqb_neq _ _) Hv). Qed.

Lemma hex_not_args h d : hex_value h = Some d -> (h =? "?"%ch) = false.
Proof. intros H. destruct (Z.eqb_spec h "?"%ch); [by subst|done]. Qed.

(** The second digit of an escape sequence, and then the rest. *)
Lemma second_ok e k j n r x a h1 h2 fuel :
  hex_value h1 = Some a -> loop_claim e k -> (e <= j + S k)%nat -> (j < e)%nat -> (e < length m)%nat -> byte_ok h2 ->
  cx_state x = sw_quoted_second -> cx_decoded x = a ->
  cx_rel j h2 n r (x <| cx_state := ns_state n |>) -> cx_quoted_state x = ns_state n -> nstate_ok n ->
  (length (ns_out n) + length (before_args ("%"%ch :: h1 :: h2 :: slice m (S j) e)) <= size)%nat ->
  (2 * (e - j) <= fuel)%nat ->
  complex_spec e ("%"%ch :: h1 :: h2 :: slice m (S j) e) n r (complex_loop m merge (S fuel) e x).
Proof.
  intros Ha IH Hk Hj He Hb Hs Hd H Hq Hn Hl Hf. destruct (lookup_lt_is_Some_2 m (S j)) as [c' Hc']; [lia|].
  pose proof (rel_p _ _ _ _ _ H) as Hp. cbn in Hp. rewrite loop_round by lia.
  cbn [before_args] in Hl. change ("%"%ch =? "?"%ch) with false in Hl. rewrite (hex_not_args h1 a Ha) in Hl.
  cbn [length] in Hl.
  pose proof (second_step j n r x a h2 c' Hs Hd (hex_value_bound _ _ Ha) Hb H Hq ltac:(lia) Hc') as Hstep.
  destruct (hex_value h2) as [b|] eqn:Hb2.
  2:{ destruct Hstep as [x' ->]. unfold complex_spec. cbn. rewrite Ha, Hb2. by eexists. }
  cbv zeta in Hstep. destruct (Z.eqb_spec (a * 16 + b) 0) as [Ev|Nv].
  { destruct Hstep as [x' ->]. unfold complex_spec. cbn. rewrite Ha, Hb2, Ev. by eexists. }
  destruct Hstep as (x' & -> & Hx). cbn [mbind outcome_bind]. rewrite (hex_not_args h2 b Hb2) in Hl. cbn [length] in Hl.
  destruct fuel as [|fuel]; [lia|]. pose proof (decode_percent h1 h2 (slice m (S j) e) a b Ha Hb2 Nv) as Hdec.
  apply hex_value_bound in Ha, Hb2. destruct (decide (ordinary (a * 16 + b))) as [Ho|No].
  - assert (Hplus : with_plus (a * 16 + b) (with_plus (a * 16 + b) r) = with_plus (a * 16 + b) r)
      by (unfold with_plus; by destruct (_ =? _)).
    apply (char_ok e k j (a * 16 + b) n r (with_plus (a * 16 + b) r) x' fuel); try done; unfold byte_ok; lia.
  - apply (complex_spec_cons e _ _ _ n r _ Hdec). unfold ordinary in No. rewrite norm_step_plain by (done || lia).
    unfold with_plus. rewrite (proj2 (Z.eqb_neq _ _)) by lia.
    apply (IH _ c'); try done; try lia.
    + eapply norm_step_ok, norm_step_plain; try done; lia.
    + cbn [ns_out]. rewrite length_app. cbn [length]. lia.
Qed.

(** A percent sign. *)
Lemma percent_ok e k i n r x fuel :
  bytes_ok m -> (e < length m)%nat -> loop_claim e k -> (e - i <= S k)%nat -> (i < e)%nat -> m !! i = Some "%"%ch ->
  cx_rel i "%"%ch n r x -> nstate_ok n ->
  (length (ns_out n) + length (before_args (slice m i e)) <= size)%nat -> (2 * (e - i) < fuel)%nat ->
  complex_spec e (slice m i e) n r (complex_loop m merge fuel e x).
Proof.
  intros Hb He IH Hk Hi Hc H Hn Hl Hf. rewrite (slice_cons m i e "%"%ch) in * by done.
  destruct (lookup_lt_is_Some_2 m (S i)) as [h1 Hh1]; [lia|].
  destruct fuel as [|fuel]; [lia|]. rewrite loop_round by (rewrite (rel_p _ _ _ _ _ H); lia).
  destruct (percent_step i n r x h1 H Hn Hh1) as (x1 & -> & Hs1 & H1 & Hq1). cbn [mbind outcome_bind].
  destruct fuel as [|fuel]; [lia|]. pose proof (rel_p _ _ _ _ _ H1) as Hp1. cbn in Hp1.
  destruct (decide (S i = e)) as [Ee|Ne].
  { subst e. rewrite slice_nil, loop_exit by lia. exists (quoted_uri r). cbn. rewrite <- request_quoted_id.
    exact (finish_ok _ _ _ _ _ H1 Hn). }
  destruct (lookup_lt_is_Some_2 m (S (S i))) as [h2 Hh2]; [lia|].
  rewrite (slice_cons m (S i) e h1) in * by (done || lia). rewrite loop_round by lia.
  pose proof (quoted_step (S i) n r x1 h1 h2 Hs1 H1 Hq1 Hh2) as Hstep.
  destruct (hex_value h1) as [a|] eqn:Ha.
  2:{ destruct Hstep as [x2 ->]. unfold complex_spec. cbn [decode]. change ("%"%ch =? "?"%ch) with false.
      change ("%"%ch =? "#"%ch) with false. change ("%"%ch =? "%"%ch) with true. cbv iota. rewrite Ha.
      destruct (slice m (S (S i)) e); by eexists. }
  destruct Hstep as (x2 & -> & Hs2 & Hd2 & H2 & Hq2). cbn [mbind outcome_bind].
  destruct fuel as [|fuel]; [lia|]. pose proof (rel_p _ _ _ _ _ H2) as Hp2. cbn in Hp2.
  destruct (decide (S (S i) = e)) as [Ee|Ne2].
  { subst e. rewrite slice_nil, loop_exit by lia. unfold complex_spec. cbn. rewrite Ha. exists true.
    exact (finish_ok _ _ _ _ _ H2 Hn). }
  destruct (lookup_lt_is_Some_2 m (S (S (S i)))) as [c' Hc']; [lia|].
  rewrite (slice_cons m (S (S i)) e h2) in * by (done || lia). apply complex_spec_quoted.
  apply (second_ok e k (S (S i)) n _ x2 a); try done; try lia.
  exact (Forall_lookup_1 _ _ _ _ Hb Hh2).
Qed.

Lemma loop_ok e k : bytes_ok m -> (e < length m)%nat -> loop_claim e k.
Proof.
  intros Hb He. induction k as [|k IH]; intros i c n r x fuel Hk Hi Hc H Hn Hl Hf.
  { replace e with i in * by lia. rewrite slice_nil. destruct fuel as [|fuel]; [lia|]. apply spec_end.
    rewrite loop_exit by (rewrite (rel_p _ _ _ _ _ H); lia). exact (finish_ok _ _ _ _ _ H Hn). }
  destruct (decide (i = e)) as [->|Ne].
  { rewrite slice_nil. destruct fuel as [|fuel]; [lia|]. apply spec_end.
    rewrite loop_exit by (rewrite (rel_p _ _ _ _ _ H); lia). exact (finish_ok _ _ _ _ _ H Hn). }
  assert (Hbc : byte_ok c) by by apply (Forall_lookup_1 _ _ _ _ Hb Hc).
  destruct (decide (c = "%"%ch)) as [->|N1]; [apply (percent_ok e k); try done; lia|].
  rewrite (slice_cons m i e c) in * by (done || lia). destruct fuel as [|fuel]; [lia|].
  destruct (decide (c = "?"%ch \/ c = "#"%ch)) as [Hs|N2].
  - rewrite loop_round by (rewrite (rel_p _ _ _ _ _ H); lia). rewrite (step_stop _ _ _ _ _ H Hn Hs).
    cbn [mbind outcome_bind]. unfold complex_spec. destruct Hs as [-> | ->].
    + change (decode ("?"%ch :: slice m (S i) e)) with (Some (@nil Z, Args (slice m (S i) e))). cbn [norm_run]. exists (quoted_uri r).
      rewrite <- request_quoted_id. apply args_ok; try done; lia.
    + change (decode ("#"%ch :: slice m (S i) e)) with (Some (@nil Z, No_args)). cbn [norm_run]. exists (quoted_uri r).
      rewrite <- request_quoted_id. exact (finish_ok _ _ _ _ _ H Hn).
  - assert (Ho : ordinary c) by (unfold ordinary; tauto). cbn [before_args] in Hl.
    destruct Ho as (H1 & H2 & H3). rewrite (proj2 (Z.eqb_neq _ _) H2) in Hl. cbn [length] in Hl.
    apply (char_ok e k i c n r r); try done; try lia.
    cbn [decode]. by rewrite !(proj2 (Z.eqb_neq _ _)).
Qed.

(** The function refines the reference: it decodes the URI and runs the machine
    on the result, storing no more bytes than there are before the arguments. *)
Lemma complex_uri_refines s e r data :
  bytes_ok m -> uri_start r = Some s -> uri_end r = Some e -> (s <= e)%nat -> (e < length m)%nat ->
  length data = size -> (length (before_args (slice m s e)) <= size)%nat ->
  complex_spec e (slice m s e) (mk_nstate sw_usual [] None) (r <| uri_ext := None |> <| args_start := None |>)
    (ngx_http_parse_complex_uri m merge data r).
Proof.
  intros Hb Hs He Hse Hem Hd Hl. unfold ngx_http_parse_complex_uri. rewrite Hs, He.
  destruct (lookup_lt_is_Some_2 m s) as [c Hc]; [lia|]. rewrite (deref_lookup _ _ _ Hc). cbn [mbind outcome_bind].
  apply (loop_ok e (e - s) Hb Hem s c); try done; try lia.
Qed.

End Refinement.

(** * The machine resolves the segments *)

Definition directory_ok (merge : bool) (s : list Z) : Prop :=
  (merge = true -> s <> []) /\ s <> dot /\ s <> dot_dot /\ "/"%ch ∉ s.

(** The state of the machine after the directories [ds] and [cur]. *)
Definition state_of (ds : list (list Z)) (cur : list Z) : nstate :=
  mk_nstate (segment_state cur) (flat ds ++ cur)
    (match extension_from [] cur None with Some k => Some (length (flat ds) + k)%nat | None => None end).

Lemma flat_snoc ds s : flat (ds ++ [s]) = flat ds ++ s ++ ["/"%ch].
Proof. unfold flat. rewrite map_app, concat_app. cbn. by rewrite app_nil_r. Qed.

Lemma extension_snoc pre s c ext :
  extension_from pre (s ++ [c]) ext =
    if (c =? "."%ch) && bool_decide (segment_state (pre ++ s) = sw_usual) then Some (S (length (pre ++ s)))
    else extension_from pre s ext.
Proof.
  revert pre ext. induction s as [|x s IH]; intros pre ext; cbn [app extension_from]; [by rewrite app_nil_r|].
  rewrite IH. by rewrite <- app_assoc.
Qed.

Lemma flat_length ds : length (flat ds) = S (length (flat ds) - 1).
Proof. cbn. lia. Qed.

(** The slash that ends the directories before [s] is found. *)
Lemma climb_flat ds s rest j :
  "/"%ch ∉ s -> (j <= length s)%nat ->
  climb_list (flat ds ++ s ++ rest) (length (flat ds) - 1 + j) = Some (length (flat ds)).
Proof.
  intros Hs. pose proof (flat_length ds) as Hlen.
  assert (Hlast : flat ds !! (length (flat ds) - 1)%nat = Some "/"%ch).
  { destruct ds as [|d ds _] using rev_ind; [done|]. rewrite flat_snoc, app_assoc, length_app. cbn [length].
    rewrite Nat.add_sub. by rewrite lookup_app_r, Nat.sub_diag by lia. }
  induction j as [|j IH]; intros Hj.
  - rewrite Nat.add_0_r.
    assert (E : (flat ds ++ s ++ rest) !! (length (flat ds) - 1)%nat = Some "/"%ch) by (rewrite lookup_app_l; [done|lia]).
    destruct (length (flat ds) - 1)%nat as [|k] eqn:Ek; cbn [climb_list]; rewrite E;
      cbn [default from_option id]; rewrite Z.eqb_refl; f_equal; lia.
  - rewrite Nat.add_succ_r. cbn [climb_list].
    destruct (lookup_lt_is_Some_2 s j) as [c Hc]; [lia|].
    assert (E : (flat ds ++ s ++ rest) !! S (length (flat ds) - 1 + j) = Some c).
    { rewrite lookup_app_r by lia. replace (S (length (flat ds) - 1 + j) - length (flat ds))%nat with j by lia.
      by rewrite lookup_app_l by lia. }
    rewrite E. cbn [default from_option id]. rewrite (proj2 (Z.eqb_neq _ _)); [apply IH; lia|].
    intros ->. by apply Hs, (list_elem_of_lookup_2 _ j).
Qed.

(** Two dots after directories: five bytes back is the last byte of the directory before
    the slash, or, when that is empty, the last of the one before. *)
Lemma climb_dots merge ds :
  Forall (directory_ok merge) ds ->
  match up_from ds with
  | Some ds' => (5 <= length (flat ds ++ dot_dot))%nat /\
      climb_list (flat ds ++ dot_dot) (length (flat ds ++ dot_dot) - 5) = Some (length (flat ds')) /\
      take (length (flat ds')) (flat ds ++ dot_dot) = flat ds' /\ Forall (directory_ok merge) ds'
  | None => (length (flat ds ++ dot_dot) < 5)%nat
  end.
Proof.
  intros Hds. unfold up_from. destruct ds as [|s ds _] using rev_ind; [cbn; lia|]. rewrite rev_unit.
  apply Forall_app in Hds as [Hds Hs]. apply Forall_cons_1 in Hs as [(_ & _ & _ & Hs) _].
  case_decide as Hempty.
  - subst s. destruct ds as [|s ds _] using rev_ind; [cbn; lia|]. rewrite rev_unit, rev_involutive.
    apply Forall_app in Hds as [Hds Hs']. apply Forall_cons_1 in Hs' as [(_ & _ & _ & Hs') _].
    rewrite flat_snoc, flat_snoc, <- !app_assoc. pose proof (flat_length ds) as Hf.
    rewrite !length_app. change (length dot_dot) with 2%nat. cbn [length]. split; [lia|].
    replace (length (flat ds) + (length s + (1 + (0 + (1 + 2)))) - 5)%nat with (length (flat ds) - 1 + length s)%nat by lia.
    rewrite climb_flat by (done || lia). by rewrite take_app_length.
  - rewrite rev_involutive, flat_snoc, <- !app_assoc. pose proof (flat_length ds) as Hf.
    assert (Hl : (0 < length s)%nat) by (destruct s; cbn; [done|lia]).
    rewrite !length_app. change (length dot_dot) with 2%nat. cbn [length]. split; [lia|].
    replace (length (flat ds) + (length s + (1 + 2)) - 5)%nat with (length (flat ds) - 1 + (length s - 1))%nat by lia.
    rewrite climb_flat by (done || lia). by rewrite take_app_length.
Qed.

Lemma segment_state_cases s :
  s = [] \/ s = dot \/ s = dot_dot \/ (s <> [] /\ s <> dot /\ s <> dot_dot /\ segment_state s = sw_usual).
Proof.
  unfold segment_state. destruct (decide (s = [])), (decide (s = dot)), (decide (s = dot_dot)); tauto.
Qed.

Lemma segment_state_usual s : s <> [] -> s <> dot -> s <> dot_dot -> segment_state s = sw_usual.
Proof. intros. unfold segment_state. by rewrite !decide_False. Qed.

(** A byte of a segment. *)
Lemma norm_step_char merge ds cur c :
  c <> "/"%ch -> norm_step merge (state_of ds cur) c = Some (state_of ds (cur ++ [c])).
Proof.
  intros Hc. unfold state_of. rewrite extension_snoc. cbn [app].
  assert (Hne : cur ++ [c] <> []) by by destruct cur.
  destruct (segment_state_cases cur) as [->|[->|[->|(H1 & H2 & H3 & Hs)]]]; unfold norm_step; cbn [ns_state ns_out ns_ext].
  - change (segment_state []) with sw_slash. cbn iota. rewrite (proj2 (Z.eqb_neq _ _) Hc).
    rewrite bool_decide_eq_false_2, andb_false_r by done. cbn [app].
    destruct (Z.eqb_spec c "."%ch) as [->|Hd]; [by rewrite app_nil_r|].
    rewrite segment_state_usual by (unfold dot, dot_dot; congruence). by rewrite app_nil_r.
  - change (segment_state dot) with sw_dot. cbn iota. rewrite (proj2 (Z.eqb_neq _ _) Hc).
    rewrite bool_decide_eq_false_2, andb_false_r by done. cbn [app].
    destruct (Z.eqb_spec c "."%ch) as [->|Hd]; [by rewrite <- app_assoc|].
    rewrite segment_state_usual by (unfold dot, dot_dot; cbn; congruence). by rewrite <- app_assoc.
  - change (segment_state dot_dot) with sw_dot_dot. cbn iota. rewrite (proj2 (Z.eqb_neq _ _) Hc).
    rewrite bool_decide_eq_false_2, andb_false_r by done. rewrite segment_state_usual by done. by rewrite <- app_assoc.
  - rewrite Hs. cbn iota. rewrite (proj2 (Z.eqb_neq _ _) Hc), bool_decide_eq_true_2, andb_true_r by done.
    rewrite segment_state_usual; [|done|..].
    + rewrite <- app_assoc. destruct (c =? "."%ch); [|done]. rewrite length_app. by rewrite Nat.add_succ_r.
    + intros E. destruct cur as [|x [|y cur]]; try done. 
    + intros E. destruct cur as [|x [|y [|z cur]]]; try done. cbn in E. injection E as -> ->. done.
Qed.

(** The slash that ends a segment. *)
Lemma norm_step_slash merge ds cur :
  Forall (directory_ok merge) ds -> "/"%ch ∉ cur ->
  match close_segment merge ds cur with
  | Some ds' => norm_step merge (state_of ds cur) "/"%ch = Some (state_of ds' []) /\ Forall (directory_ok merge) ds'
  | None => norm_step merge (state_of ds cur) "/"%ch = None
  end.
Proof.
  intros Hds Hcur. unfold close_segment, state_of, norm_step. cbn [ns_state ns_out ns_ext extension_from].
  change (segment_state []) with sw_slash.
  destruct (segment_state_cases cur) as [->|[->|[->|(H1 & H2 & H3 & Hs)]]].
  - rewrite decide_True by done. change (segment_state []) with sw_slash. cbn iota. rewrite Z.eqb_refl. destruct merge; [done|].
    split; [by rewrite flat_snoc, !app_nil_r|].
    apply Forall_app. split; [done|]. apply Forall_singleton. split_and!; [done..|apply not_elem_of_nil].
  - rewrite decide_False, decide_True by done. split; [|done]. cbn iota. rewrite Z.eqb_refl, length_app.
    rewrite Nat.add_sub, take_app_length, app_nil_r. done.
  - rewrite !decide_False, decide_True by done. change (segment_state dot_dot) with sw_dot_dot. cbn iota.
    rewrite Z.eqb_refl. pose proof (climb_dots merge ds Hds) as Hc. destruct (up_from ds) as [ds'|].
    + destruct Hc as (H5 & E & Et & Hds'). rewrite (proj2 (Nat.ltb_ge _ _)), E, Et, app_nil_r by done. done.
    + by rewrite (proj2 (Nat.ltb_lt _ _)).
  - rewrite !decide_False by done. rewrite Hs. cbn iota. rewrite Z.eqb_refl. split.
    + by rewrite flat_snoc, !app_assoc, app_nil_r.
    + apply Forall_app. split; [done|]. by constructor.
Qed.

Lemma norm_run_resolve merge d : forall ds cur,
  Forall (directory_ok merge) ds -> "/"%ch ∉ cur ->
  match resolve_from merge ds cur d with
  | Some (ds', last) =>
      norm_run merge (state_of ds cur) d = Some (state_of ds' last) /\ Forall (directory_ok merge) ds' /\ "/"%ch ∉ last
  | None => norm_run merge (state_of ds cur) d = None
  end.
Proof.
  induction d as [|c d IH]; intros ds cur Hds Hcur; [done|]. cbn [resolve_from norm_run].
  destruct (Z.eqb_spec c "/"%ch) as [->|Hc].
  - pose proof (norm_step_slash merge ds cur Hds Hcur) as Hstep.
    destruct (close_segment merge ds cur) as [ds'|]; [|by rewrite Hstep]. destruct Hstep as [-> Hds'].
    apply IH; [done|apply not_elem_of_nil].
  - rewrite norm_step_char by done. apply IH; [done|].
    rewrite elem_of_app, list_elem_of_singleton. intros [?|?]; [done|congruence].
Qed.

(** A path that starts with a slash. *)
Lemma norm_run_slash merge d :
  match resolve merge ("/"%ch :: d) with
  | Some (ds, last) =>
      norm_run merge (mk_nstate sw_usual [] None) ("/"%ch :: d) = Some (state_of ds last) /\
      Forall (directory_ok merge) ds /\ "/"%ch ∉ last
  | None => norm_run merge (mk_nstate sw_usual [] None) ("/"%ch :: d) = None
  end.
Proof.
  change (norm_run merge (mk_nstate sw_usual [] None) ("/"%ch :: d)) with (norm_run merge (state_of [] []) d).
  apply norm_run_resolve; [done|apply not_elem_of_nil].
Qed.

(** * What ngx_http_parse_uri finds out *)

(** An induction principle for the loop: [pre] is what has been read from the
    offset [s] on. *)
Lemma parse_uri_ind m s (I : list Z -> uri_state -> request_t -> Prop) :
  bytes_ok m ->
  (forall pre c st r st' r', byte_ok c -> I pre st r -> uri_step (s + length pre) c st r = Ok (Some (st', r')) ->
     I (pre ++ [c]) st' r') ->
  forall n pre st r r',
    I pre st r -> (s + length pre + n <= length m)%nat ->
    parse_uri_loop m n (s + length pre) st r = Ok (NGX_OK, r') ->
    exists st', I (pre ++ slice m (s + length pre) (s + length pre + n)) st' r'.
Proof.
  intros Hb Hstep. induction n as [|n IH]; intros pre st r r' HI Hl H.
  - injection H as <-. exists st. by rewrite Nat.add_0_r, slice_nil, app_nil_r.
  - cbn [parse_uri_loop] in H. destruct (lookup_lt_is_Some_2 m (s + length pre)) as [c Hc]; [lia|].
    rewrite (deref_lookup _ _ _ Hc) in H. cbn [mbind outcome_bind] in H.
    destruct (uri_step _ c st r) as [[[st1 r1]|]| |] eqn:E; try discriminate H.
    assert (Hlen : (s + length (pre ++ [c]) = S (s + length pre))%nat) by (rewrite length_app; cbn; lia).
    destruct (IH (pre ++ [c]) st1 r1 r') as [st' H'].
    + apply (Hstep _ _ _ _ _ _ (Forall_lookup_1 _ _ _ _ Hb Hc) HI E).
    + lia.
    + by rewrite Hlen.
    + exists st'. rewrite (slice_cons m _ _ c) by (done || lia).
      rewrite Hlen in H'. rewrite <- app_assoc in H'. cbn [app] in H'.
      by replace (S (s + length pre) + n)%nat with (s + length pre + S n)%nat in H' by lia.
Qed.

(** The loop gives an error for the first byte only. *)
Lemma uri_step_total p c st r :
  byte_ok c -> (st = uri_sw_start -> c = "/"%ch) -> exists st' r', uri_step p c st r = Ok (Some (st', r')) /\ st' <> uri_sw_start.
Proof.
  intros Hb Hst. unfold uri_step. rewrite usual_bit_special by done. cbn [mbind outcome_bind].
  destruct st; [rewrite Hst by done; by do 2 eexists|..]; destruct (negb (special c));
    repeat match goal with |- context [if ?b then _ else _] => destruct b end; by do 2 eexists.
Qed.

Lemma parse_uri_loop_total m n p st r :
  bytes_ok m -> (p + n <= length m)%nat -> st <> uri_sw_start -> exists r', parse_uri_loop m n p st r = Ok (NGX_OK, r').
Proof.
  intros Hb. revert p st r. induction n as [|n IH]; intros p st r Hp Hst; [by eexists|]. cbn [parse_uri_loop].
  destruct (lookup_lt_is_Some_2 m p) as [c Hc]; [lia|]. rewrite (deref_lookup _ _ _ Hc). cbn [mbind outcome_bind].
  destruct (uri_step_total p c st r) as (st' & r' & -> & Hst'); [exact (Forall_lookup_1 _ _ _ _ Hb Hc)|done|].
  apply IH; [lia|done].
Qed.

(** The fields that the loop does not change. *)
Record same_frame (r r' : request_t) : Prop := {
  same_start : uri_start r' = uri_start r;
  same_end : uri_end r' = uri_end r;
  same_exten : exten r' = exten r;
  same_args : args r' = args r
}.

(** The first question mark, when the loop has noted one. *)
Definition args_inv (s : nat) (r0 : request_t) (pre : list Z) (st : uri_state) (r : request_t) : Prop :=
  same_frame r0 r /\
  match st with
  | uri_sw_uri => args_start r = None \/
      (args_start r = Some (s + length (before_args pre) + 1)%nat /\ before_args pre <> pre)
  | _ => args_start r = None /\ before_args pre = pre
  end.

Lemma before_args_snoc pre c :
  before_args (pre ++ [c]) = if decide (before_args pre = pre) then (if c =? "?"%ch then pre else pre ++ [c]) else before_args pre.
Proof.
  induction pre as [|x pre IH]; cbn [before_args app].
  - rewrite decide_True by done. by destruct (c =? "?"%ch).
  - destruct (x =? "?"%ch); [by rewrite decide_False by done|]. rewrite IH.
    destruct (decide (before_args pre = pre)) as [E|E].
    + rewrite decide_True by (by rewrite E). by destruct (c =? "?"%ch).
    + rewrite decide_False; [done|]. by intros [=].
Qed.

Lemma before_args_id_snoc pre c : before_args pre <> pre -> before_args (pre ++ [c]) <> pre ++ [c].
Proof.
  intros H. rewrite before_args_snoc, decide_False by done. intros E. apply (f_equal length) in E.
  rewrite length_app in E. cbn in E. pose proof (before_args_length pre). lia.
Qed.

(** The branches of a step. *)
Ltac split_uri H :=
  repeat match type of H with context [?b =? ?c] => destruct (Z.eqb_spec b c) end;
  cbn [negb] in H; first [discriminate H | injection H as <- <-].

Lemma args_step s r0 pre c st r st' r' :
  byte_ok c -> args_inv s r0 pre st r -> uri_step (s + length pre) c st r = Ok (Some (st', r')) ->
  args_inv s r0 (pre ++ [c]) st' r'.
Proof.
  intros Hb [[F1 F2 F3 F4] HI] H. unfold uri_step in H. rewrite usual_bit_special in H by done.
  cbn [mbind outcome_bind] in H. injection H as H. unfold args_inv.
  assert (Hnq : forall pre, before_args pre = pre -> c <> "?"%ch -> before_args (pre ++ [c]) = pre ++ [c]).
  { intros pre' E Hc. by rewrite before_args_snoc, decide_True, (proj2 (Z.eqb_neq _ _) Hc). }
  assert (Hsp : special c = false -> c <> "?"%ch) by (intros Hs; apply special_other in Hs as [[_ [? _]] _]; done).
  destruct st; [destruct HI as [Ha HI]..|].
  1-3: destruct (special c) eqn:Es; cbn [negb] in H; split_uri H; try (split; [by split|]; first
    [ by left | split; [done|]; apply Hnq; [done|by auto || congruence] | right ]).
  1-2: subst c; rewrite before_args_snoc, decide_True by done; rewrite Z.eqb_refl; split; [done|]; intros E;
    apply (f_equal length) in E; rewrite length_app in E; cbn in E; lia.
  assert (Hkeep : args_start r' = args_start r /\ st' = uri_sw_uri /\ same_frame r0 r').
  { destruct (special c); cbn [negb] in H; split_uri H; by repeat split. }
  destruct Hkeep as (-> & -> & Hf). split; [done|]. destruct HI as [HI|[HI Hne]]; [by left|right].
  split; [|by apply before_args_id_snoc]. by rewrite before_args_snoc, decide_False.
Qed.

(** ** A URI that needs no normalization *)

Lemma norm_run_snoc merge n d c :
  norm_run merge n (d ++ [c]) = match norm_run merge n d with Some n => norm_step merge n c | None => None end.
Proof.
  revert n. induction d as [|x d IH]; intros n; cbn; [by destruct (norm_step merge n c)|].
  destruct (norm_step merge n x); [apply IH|done].
Qed.

Lemma norm_run_ok merge n d n' : nstate_ok n -> norm_run merge n d = Some n' -> nstate_ok n'.
Proof.
  revert n. induction d as [|x d IH]; intros n Hn; cbn; [by intros [= <-]|].
  destruct (norm_step merge n x) eqn:E; [|done]. apply IH. by eapply norm_step_ok.
Qed.

Definition start_state : nstate := mk_nstate sw_usual [] None.

(** The machine copies the path, and finds the extension the loop has noted;
    [after] tells whether it may have read a slash last. *)
Definition plain_path (merge : bool) (s : nat) (after : bool) (path : list Z) (r : request_t) : Prop :=
  Forall ordinary path /\ path <> [] /\
  exists n, norm_run merge start_state path = Some n /\ ns_out n = path /\
    uri_ext r = match ns_ext n with Some k => Some (s + k)%nat | None => None end /\
    (ns_state n = sw_usual \/ (after = true /\ ns_state n = sw_slash)).

Lemma plain_path_snoc merge s after after' path r r' c :
  plain_path merge s after path r -> ordinary c -> c <> "/"%ch -> c <> "."%ch -> uri_ext r' = uri_ext r ->
  plain_path merge s after' (path ++ [c]) r'.
Proof.
  intros (Ho & Hne & n & Hn & Hout & Hext & _) Hc H1 H2 Hr. split; [apply Forall_app; split; [done|by constructor]|].
  split; [by destruct path|]. eexists. rewrite norm_run_snoc, Hn, norm_step_plain; [|by eapply (norm_run_ok merge start_state); [|exact Hn]|done|done].
  split; [reflexivity|]. cbn. rewrite Hout, Hr. split; [done|]. split; [done|]. by left.
Qed.

Lemma plain_path_after merge s after path r r' :
  plain_path merge s after path r -> uri_ext r' = uri_ext r -> plain_path merge s true path r'.
Proof.
  intros (Ho & Hne & n & Hn & Hout & Hext & Hst) Hr. split; [done|]. split; [done|]. exists n. rewrite Hr.
  split; [done|]. split; [done|]. split; [done|]. tauto.
Qed.

Lemma plain_path_usual merge s path r :
  plain_path merge s false path r -> exists n, norm_run merge start_state path = Some n /\ ns_out n = path /\
    ns_state n = sw_usual.
Proof. intros (_ & _ & n & Hn & Hout & _ & [Hst|[? _]]); [by exists n|done]. Qed.

Lemma plain_path_slash merge s path r :
  plain_path merge s false path r -> plain_path merge s true (path ++ ["/"%ch]) (r <| uri_ext := None |>).
Proof.
  intros HP. destruct (plain_path_usual _ _ _ _ HP) as (n & Hn & Hout & Hst). destruct HP as (Ho & Hne & _).
  split; [apply Forall_app; split; [done|by constructor]|]. split; [by destruct path|]. eexists.
  rewrite norm_run_snoc, Hn. unfold norm_step. rewrite Hst, Hout. split; [reflexivity|].
  split; [done|]. split; [done|]. by right.
Qed.

Lemma plain_path_dot merge s path r :
  plain_path merge s false path r ->
  plain_path merge s false (path ++ ["."%ch]) (r <| uri_ext := Some (s + length path + 1)%nat |>).
Proof.
  intros HP. destruct (plain_path_usual _ _ _ _ HP) as (n & Hn & Hout & Hst). destruct HP as (Ho & Hne & _).
  split; [apply Forall_app; split; [done|by constructor]|]. split; [by destruct path|]. eexists.
  rewrite norm_run_snoc, Hn. unfold norm_step. rewrite Hst, Hout. split; [reflexivity|].
  split; [done|]. split; [cbn; f_equal; lia|]. by left.
Qed.

Definition fast_inv (merge : bool) (s : nat) (pre : list Z) (st : uri_state) (r : request_t) : Prop :=
  complex_uri r = false -> quoted_uri r = false ->
  match st with
  | uri_sw_start => pre = [] /\ uri_ext r = None /\ args_start r = None
  | uri_sw_after_slash_in_uri => plain_path merge s true pre r /\ args_start r = None
  | uri_sw_check_uri => plain_path merge s false pre r /\ args_start r = None
  | uri_sw_uri => exists path rest, pre = path ++ "?"%ch :: rest /\ plain_path merge s true path r /\
      args_start r = Some (s + length path + 1)%nat /\ "#"%ch ∉ rest
  end.

(** Bytes that are not usual and have no case in the switches. *)
Lemma ordinary_of c : c <> "%"%ch -> c <> "?"%ch -> c <> "#"%ch -> ordinary c.
Proof. done. Qed.

Lemma fast_step_path merge s pre c st r st' r' :
  byte_ok c -> st <> uri_sw_uri -> fast_inv merge s pre st r ->
  uri_step (s + length pre) c st r = Ok (Some (st', r')) -> fast_inv merge s (pre ++ [c]) st' r'.
Proof.
  intros Hb Hst HI H. unfold uri_step in H. rewrite usual_bit_special in H by done.
  cbn [mbind outcome_bind] in H. injection H as H. unfold fast_inv in *.
  assert (Hsp : special c = false -> ordinary c /\ c <> "/"%ch /\ c <> "."%ch) by (intros Hs; apply special_other in Hs; tauto).
  destruct st; [| | |done]; destruct (special c) eqn:Es; cbn [negb] in H; split_uri H;
    cbn [complex_uri quoted_uri]; intros Hc Hq; try discriminate Hc; try discriminate Hq.
  all: destruct (HI Hc Hq) as [HP HA].
  all: try (subst c; split; [by eapply plain_path_snoc; [exact HP|..]|done]).
  all: try (split; [eapply plain_path_snoc; [exact HP|..]; try done; try apply ordinary_of; try done; by apply Hsp|done]).
  all: try (exists pre, []; split; [by subst c|]; split; [by apply (plain_path_after _ _ _ _ _ _ HP)|];
            split; [done|apply not_elem_of_nil]).
  1-2: destruct HA as [HA HB]; subst pre c; split; [|done]; split; [by constructor|]; split; [done|];
    eexists; split; [reflexivity|]; cbn; rewrite HA; split; [done|]; split; [done|]; by right.
  - subst c. split; [|done]. by apply plain_path_slash with (r := r).
  - subst c. split; [|done]. by apply plain_path_dot with (r := r).
Qed.

Lemma fast_step merge s pre c st r st' r' :
  byte_ok c -> fast_inv merge s pre st r ->
  uri_step (s + length pre) c st r = Ok (Some (st', r')) -> fast_inv merge s (pre ++ [c]) st' r'.
Proof.
  intros Hb HI H. destruct (decide (st = uri_sw_uri)) as [->|Hst]; [|by eapply fast_step_path].
  unfold uri_step in H. rewrite usual_bit_special in H by done. cbn [mbind outcome_bind] in H. injection H as H.
  unfold fast_inv in *. destruct (special c) eqn:Es; cbn [negb] in H; split_uri H;
    intros Hc Hq; try discriminate Hc; destruct (HI Hc Hq) as (path & rest & -> & HP & HA & HR).
  all: exists path, (rest ++ [c]); rewrite <- app_assoc; split; [done|]; split; [exact HP|]; split; [exact HA|].
  all: rewrite elem_of_app, list_elem_of_singleton; intros [?|?]; [done|]; subst c; discriminate || congruence.
Qed.


(** * The URI of a request *)

(** A request whose URI, from [s] to [e], has been found but not looked at. *)
Record fresh_uri (m : list Z) (s e : nat) (u : list Z) (r : request_t) : Prop := {
  fresh_start : uri_start r = Some s;
  fresh_end : uri_end r = Some e;
  fresh_slice : slice m s e = "/"%ch :: u;
  fresh_room : (e < length m)%nat;
  fresh_bytes : bytes_ok m;
  fresh_complex : complex_uri r = false;
  fresh_quoted : quoted_uri r = false;
  fresh_ext : uri_ext r = None;
  fresh_args_start : args_start r = None;
  fresh_exten : exten r = [];
  fresh_args : args r = []
}.

Lemma parse_uri_facts m s e u r0 merge :
  fresh_uri m s e u r0 ->
  exists r1 st, ngx_http_parse_uri m r0 = Ok (NGX_OK, r1) /\
    args_inv s r0 (slice m s e) st r1 /\ fast_inv merge s (slice m s e) st r1.
Proof.
  intros F. pose proof (slice_start_lt _ _ _ _ _ (fresh_slice _ _ _ _ _ F)) as Hse.
  pose proof (fresh_room _ _ _ _ _ F) as He. pose proof (fresh_bytes _ _ _ _ _ F) as Hb.
  unfold ngx_http_parse_uri. rewrite (fresh_start _ _ _ _ _ F), (fresh_end _ _ _ _ _ F).
  rewrite (proj2 (Nat.leb_le s e)) by lia.
  assert (Htotal : exists r1, parse_uri_loop m (e - s) s uri_sw_start r0 = Ok (NGX_OK, r1)).
  { destruct (lookup_lt_is_Some_2 m s) as [c Hc]; [lia|]. pose proof (fresh_slice _ _ _ _ _ F) as Hs.
    rewrite (slice_cons m s e c) in Hs by done. injection Hs as -> _.
    replace (e - s)%nat with (S (e - S s)) by lia. cbn [parse_uri_loop]. rewrite (deref_lookup _ _ _ Hc).
    cbn [mbind outcome_bind]. change (uri_step s "/"%ch uri_sw_start r0) with (Ok (Some (uri_sw_after_slash_in_uri, r0))).
    cbn [mbind outcome_bind]. apply parse_uri_loop_total; [done|lia|done]. }
  destruct Htotal as [r1 H1]. exists r1.
  destruct (parse_uri_ind m s (fun pre st r => args_inv s r0 pre st r /\ fast_inv merge s pre st r) Hb) with
    (n := (e - s)%nat) (pre := @nil Z) (st := uri_sw_start) (r := r0) (r' := r1) as [st [HA HF]].
  - intros pre c st r st' r' Hc [HA HF] Hstep. split; [by eapply args_step|by eapply fast_step].
  - destruct F. split; [by repeat split|]. intros _ _. done.
  - cbn. lia.
  - cbn. by rewrite Nat.add_0_r.
  - exists st. cbn [app length] in HA, HF. rewrite Nat.add_0_r in HA, HF.
    replace (s + (e - s))%nat with e in HA, HF by lia. done.
Qed.

Lemma decode_plain path l :
  Forall ordinary path ->
  decode (path ++ l) = match decode l with Some (d, t) => Some (path ++ d, t) | None => None end.
Proof.
  intros H. induction H as [|c path (H1 & H2 & H3) _ IH]; cbn [app].
  - by destruct (decode l) as [[d t]|].
  - cbn [decode]. rewrite !(proj2 (Z.eqb_neq _ _)) by done. rewrite IH. by destruct (decode l) as [[d t]|].
Qed.

Lemma before_args_plain path l : Forall ordinary path -> before_args (path ++ l) = path ++ before_args l.
Proof.
  intros H. induction H as [|c path (H1 & H2 & H3) _ IH]; [done|]. cbn [app before_args].
  by rewrite (proj2 (Z.eqb_neq _ _) H2), IH.
Qed.

Lemma before_fragment_id l : "#"%ch ∉ l -> before_fragment l = l.
Proof.
  induction l as [|c l IH]; intros H; [done|]. cbn. apply not_elem_of_cons in H as [H1 H2].
  rewrite (proj2 (Z.eqb_neq c _)) by congruence. by rewrite IH.
Qed.

Lemma existsb_elem (c : Z) l : existsb (Z.eqb c) l = false <-> c ∉ l.
Proof.
  induction l as [|x l IH]; cbn; [split; [intros _; apply not_elem_of_nil|done]|].
  rewrite orb_false_iff, not_elem_of_cons, IH, Z.eqb_neq. done.
Qed.

(** The result of the machine, as the request has it. *)
Record uri_result (m : list Z) (s e : nat) (n : nstate) (t : path_end) (space : bool) (r : request_t) : Prop := {
  result_uri : uri r = ns_out n;
  result_exten : exten r = match ns_ext n with Some k => drop k (ns_out n) | None => [] end;
  result_args : args r = match t with No_args => [] | Args rest => before_fragment rest end;
  result_unparsed : unparsed_uri r = slice m s e;
  result_valid : valid_unparsed_uri r = negb space
}.

(** A suffix of the URI. *)
Lemma slice_rest m s e pre rest :
  (s <= e)%nat -> (e <= length m)%nat -> slice m s e = pre ++ rest -> slice m (e - length rest) e = rest.
Proof.
  intros Hse He H. pose proof (f_equal length H) as Hl. rewrite slice_length, length_app in Hl by done.
  replace (e - length rest)%nat with (s + length pre)%nat by lia. replace e with (s + (e - s))%nat at 1 by lia.
  rewrite (slice_slice m s e), H by lia. replace (e - s)%nat with (length (pre ++ rest)) by (rewrite length_app; lia).
  by rewrite slice_drop, drop_app_length.
Qed.

Lemma uri_fields_spec m s e r :
  uri (uri_fields m s e r) = uri r /\
  exten (uri_fields m s e r) =
    match uri_ext r with
    | Some x => slice m x match args_start r with Some a => (a - 1)%nat | None => e end
    | None => exten r
    end /\
  args (uri_fields m s e r) =
    match args_start r with Some a => if (a <? e)%nat then slice m a e else args r | None => args r end /\
  unparsed_uri (uri_fields m s e r) = slice m s e /\
  valid_unparsed_uri (uri_fields m s e r) = negb (space_in_uri r).
Proof.
  destruct r as [? ? ? ? ? ? ? ? ? ? ? ? ? ? ? ? ? ? ext start ? ? ? ? ? ?].
  unfold uri_fields. cbn -[Nat.ltb slice].
  destruct ext, start as [a|]; cbn -[Nat.ltb slice]; try destruct (a <? e)%nat; by repeat split.
Qed.

(** The path as it is in the buffer. *)
Lemma process_raw m merge alloc s e u r0 st r1 :
  fresh_uri m s e u r0 -> args_inv s r0 (slice m s e) st r1 -> fast_inv merge s (slice m s e) st r1 ->
  complex_uri r1 = false -> quoted_uri r1 = false ->
  exists r2 n t, ngx_http_process_request_uri m merge alloc r1 = Ok (NGX_OK, r2) /\
    uri_result m s e n t (space_in_uri r1) r2 /\
    decode (slice m s e) = Some (ns_out n, t) /\ norm_run merge start_state (ns_out n) = Some n.
Proof.
  intros F [[F1 F2 F3 F4] _] HF Hc Hq. specialize (HF Hc Hq).
  pose proof (slice_start_lt _ _ _ _ _ (fresh_slice _ _ _ _ _ F)) as Hse.
  rewrite (fresh_start _ _ _ _ _ F) in F1. rewrite (fresh_end _ _ _ _ _ F) in F2.
  rewrite (fresh_exten _ _ _ _ _ F) in F3. rewrite (fresh_args _ _ _ _ _ F) in F4.
  pose proof (fresh_room _ _ _ _ _ F) as Hroom. assert (Hlen : length (slice m s e) = (e - s)%nat) by (apply slice_length; lia).
  unfold ngx_http_process_request_uri. rewrite F1, F2, Hc, Hq. cbn [ptr_sub orb default from_option id].
  rewrite (proj2 (Nat.leb_le s e)) by lia. cbn [mbind outcome_bind].
  assert (Hpath : forall after, plain_path merge s after (slice m s e) r1 -> args_start r1 = None ->
    exists r2 n t, (len ← match args_start r1 with
        | Some a => if (a =? 0)%nat then UB else if (s <=? a - 1)%nat then Ok (a - 1 - s)%nat else UB
        | None => Ok (e - s)%nat
        end; Ok (NGX_OK, uri_fields m s e (r1 <| uri := slice m s (s + len) |>))) = Ok (NGX_OK, r2) /\
      uri_result m s e n t (space_in_uri r1) r2 /\
      decode (slice m s e) = Some (ns_out n, t) /\ norm_run merge start_state (ns_out n) = Some n).
  { intros after (Ho & _ & n & Hn & Hout & Hext & _) HA. rewrite HA. cbn [mbind outcome_bind].
    destruct (uri_fields_spec m s e (r1 <| uri := slice m s (s + (e - s)) |>)) as (U1 & U2 & U3 & U4 & U5).
    cbn [uri uri_ext exten args_start args space_in_uri] in U1, U2, U3, U4, U5.
    eexists _, n, No_args. split; [reflexivity|]. split; [|split].
    - split; [| | |exact U4|exact U5].
      + rewrite U1, Hout. cbn. f_equal. lia.
      + rewrite U2. cbn. rewrite Hext, HA. destruct (ns_ext n) as [k|]; [|done]. rewrite Hout, <- (slice_drop (slice m s e) k), Hlen.
        rewrite <- slice_slice by lia. unfold slice. f_equal. lia.
      + rewrite U3. cbn. by rewrite HA.
    - rewrite Hout. rewrite <- (app_nil_r (slice m s e)) at 1. rewrite decode_plain by done. cbn. by rewrite app_nil_r.
    - by rewrite Hout. }
  destruct st.
  - destruct HF as [HF _]. rewrite (fresh_slice _ _ _ _ _ F) in HF. done.
  - destruct HF as [HP HA]. exact (Hpath _ HP HA).
  - destruct HF as [HP HA]. exact (Hpath _ HP HA).
  - destruct HF as (path & rest & Hraw & (Ho & _ & n & Hn & Hout & Hext & _) & HA & HR). rewrite HA, Hraw in *.
    rewrite length_app in Hlen. cbn [length] in Hlen.
    rewrite (proj2 (Nat.eqb_neq _ _)), (proj2 (Nat.leb_le _ _)) by lia. cbn [mbind outcome_bind].
    replace (s + length path + 1 - 1 - s)%nat with (length path) by lia.
    destruct (uri_fields_spec m s e (r1 <| uri := slice m s (s + length path) |>)) as (U1 & U2 & U3 & U4 & U5).
    cbn -[slice Nat.ltb Nat.sub] in U1, U2, U3, U4, U5. rewrite HA in U2, U3. rewrite Hext in U2.
    assert (Hsub : forall i j, (j <= length path)%nat -> slice m (s + i) (s + j) = slice path i j).
    { intros i j Hj. rewrite (slice_slice m s e) by lia. by rewrite Hraw, slice_app_l by done. }
    eexists _, n, (Args rest). split; [reflexivity|]. split; [|split].
    + split; [| | |exact U4|exact U5].
      * rewrite U1, Hout. rewrite <- (slice_all path) at 2. by rewrite <- (Hsub 0%nat), Nat.add_0_r by lia.
      * rewrite U2. destruct (ns_ext n) as [k|]; [|done]. rewrite Hout, <- (slice_drop path k), <- Hsub by lia. f_equal. lia.
      * rewrite U3, before_fragment_id by done. destruct (Nat.ltb_spec (s + length path + 1) e).
        -- replace (s + length path + 1)%nat with (e - length rest)%nat by lia.
           apply (slice_rest m s e (path ++ ["?"%ch])); [lia|lia|]. by rewrite <- app_assoc.
        -- rewrite F4. destruct rest; [done|]. cbn in Hlen. lia.
    + rewrite Hout, decode_plain by done. change (decode ("?"%ch :: rest)) with (Some (@nil Z, Args rest)).
      cbv iota beta. by rewrite app_nil_r.
    + by rewrite Hout.
Qed.

Lemma finish_spec e t n r :
  let r' := finish_request e t n r in
  uri r' = ns_out n /\ uri_ext r' = None /\
  exten r' = match ns_ext n with Some k => drop k (ns_out n) | None => exten r end /\
  args_start r' = match t with
                  | No_args => args_start r
                  | Args rest => if existsb (Z.eqb "#"%ch) rest then None else Some (e - length rest)%nat
                  end /\
  args r' = match t with
            | Args rest => if existsb (Z.eqb "#"%ch) rest then before_fragment rest else args r
            | No_args => args r
            end /\
  space_in_uri r' = space_in_uri r.
Proof.
  cbv zeta. unfold finish_request, args_request. destruct (ns_ext n), t as [|rest]; cbn -[Nat.sub existsb];
    try destruct (existsb _ rest); by repeat split.
Qed.

Lemma slice_suffix m s e pre rest :
  (s <= e)%nat -> (e <= length m)%nat -> slice m s e = pre ++ rest ->
  (if (e - length rest <? e)%nat then slice m (e - length rest) e else []) = rest.
Proof.
  intros Hse He H. destruct (Nat.ltb_spec (e - length rest) e); [exact (slice_rest m s e pre rest Hse He H)|].
  apply (f_equal length) in H. rewrite slice_length, length_app in H by done. destruct rest; [done|cbn in *; lia].
Qed.

Lemma decode_suffix l d rest : decode l = Some (d, Args rest) -> exists pre, l = pre ++ "?"%ch :: rest.
Proof.
  revert d. induction l as [l IH] using (induction_ltof1 _ (@length Z)); unfold ltof in IH. intros d H.
  destruct l as [|c l]; [done|]. cbn [decode] in H. destruct (Z.eqb_spec c "?"%ch) as [->|_].
  { injection H as _ <-. by exists []. }
  destruct (c =? "#"%ch); [done|].
  assert (Hrec : forall c' l' l'', (length l' < length (c :: l))%nat -> c :: l = l'' ++ l' ->
    match decode l' with Some (d, t) => Some (c' :: d, t) | None => None end = Some (d, Args rest) ->
    exists pre, c :: l = pre ++ "?"%ch :: rest).
  { intros c' l' l'' Hl E Hd. destruct (decode l') as [[d' t']|] eqn:Ed; [|done]. injection Hd as <- ->.
    destruct (IH l' Hl d' Ed) as [pre ->]. exists (l'' ++ pre). by rewrite E, app_assoc. }
  destruct (c =? "%"%ch); [|by apply (Hrec c l [c]); [cbn; lia|..]].
  destruct l as [|h1 [|h2 l]]; [done|by destruct (hex_value h1)|].
  destruct (hex_value h1) as [a|]; [|done]. destruct (hex_value h2) as [b|]; [|done].
  destruct (_ =? 0); [done|]. by apply (Hrec (a * 16 + b) l [c; h1; h2]); [cbn; lia|..].
Qed.

Definition alloc_ok (alloc : nat -> option (list Z)) : Prop :=
  forall n, exists data, alloc n = Some data /\ length data = n.

(** The path in memory of its own. *)
Lemma process_complex m merge alloc s e u r0 st r1 :
  fresh_uri m s e u r0 -> args_inv s r0 (slice m s e) st r1 -> alloc_ok alloc ->
  complex_uri r1 || quoted_uri r1 = true ->
  match decode (slice m s e) with
  | Some (d, t) =>
      match norm_run merge start_state d with
      | Some n => exists r2, ngx_http_process_request_uri m merge alloc r1 = Ok (NGX_OK, r2) /\
                    uri_result m s e n t (space_in_uri r1) r2
      | None => exists r2, ngx_http_process_request_uri m merge alloc r1 = Ok (NGX_HTTP_BAD_REQUEST, r2)
      end
  | None => exists r2, ngx_http_process_request_uri m merge alloc r1 = Ok (NGX_HTTP_BAD_REQUEST, r2)
  end.
Proof.
  intros F [[F1 F2 F3 F4] HA] Halloc Hc.
  pose proof (slice_start_lt _ _ _ _ _ (fresh_slice _ _ _ _ _ F)) as Hse. pose proof (fresh_room _ _ _ _ _ F) as He.
  rewrite (fresh_start _ _ _ _ _ F) in F1. rewrite (fresh_end _ _ _ _ _ F) in F2.
  rewrite (fresh_exten _ _ _ _ _ F) in F3. rewrite (fresh_args _ _ _ _ _ F) in F4.
  unfold ngx_http_process_request_uri. rewrite F1, F2, Hc. cbn [ptr_sub default from_option id].
  rewrite (proj2 (Nat.leb_le s e)) by lia. cbn [mbind outcome_bind].
  assert (Hlen : exists len, match args_start r1 with
        | Some a => if (a =? 0)%nat then UB else if (s <=? a - 1)%nat then Ok (a - 1 - s)%nat else UB
        | None => Ok (e - s)%nat
        end = Ok len /\ (length (before_args (slice m s e)) <= len)%nat).
  { pose proof (before_args_length (slice m s e)) as Hb. rewrite slice_length in Hb by lia.
    assert (Hcase : args_start r1 = None \/ args_start r1 = Some (s + length (before_args (slice m s e)) + 1)%nat)
      by (destruct st; tauto).
    destruct Hcase as [-> | ->]; [by eexists|].
    rewrite (proj2 (Nat.eqb_neq _ _)), (proj2 (Nat.leb_le _ _)) by lia. eexists. split; [done|lia]. }
  destruct Hlen as (len & -> & Hlen). cbn [mbind outcome_bind].
  destruct (Halloc (len + 1)%nat) as (data & -> & Hdata).
  pose proof (complex_uri_refines m merge (len + 1)%nat s e r1 data (fresh_bytes _ _ _ _ _ F) F1 F2 ltac:(lia) He Hdata
    ltac:(lia)) as Hspec. unfold complex_spec in Hspec. fold start_state in Hspec.
  destruct (decode (slice m s e)) as [[d t]|] eqn:Ed.
  2:{ destruct Hspec as [r' ->]. by eexists. }
  destruct (norm_run merge start_state d) as [n|].
  2:{ destruct Hspec as [r' ->]. by eexists. }
  destruct Hspec as [qu ->]. cbn [mbind outcome_bind]. eexists. split; [reflexivity|].
  match goal with |- context [finish_request _ _ _ ?x] => set (r' := x) end.
  assert (Hr' : exten r' = [] /\ args r' = [] /\ args_start r' = None /\ space_in_uri r' = space_in_uri r1).
  { unfold r', plus_after. destruct (existsb _ d); cbn; by repeat split. }
  destruct Hr' as (R1 & R2 & R3 & R4).
  destruct (finish_spec e t n r') as (G1 & G2 & G3 & G4 & G5 & G6).
  destruct (uri_fields_spec m s e (finish_request e t n r')) as (U1 & U2 & U3 & U4 & U5).
  rewrite G2 in U2. rewrite G6, R4 in U5. rewrite R1 in G3.
  split; [by rewrite U1|by rewrite U2|rewrite U3, G4, G5, R2, R3|exact U4|exact U5].
  destruct t as [|rest]; [done|]. destruct (existsb _ rest) eqn:Eh; [done|].
  apply existsb_elem in Eh. rewrite before_fragment_id by done. destruct (decode_suffix _ _ _ Ed) as [pre Hraw].
  apply (slice_suffix m s e (pre ++ ["?"%ch])); [lia|lia|by rewrite <- app_assoc].
Qed.

(** * The theorems *)

Lemma process_run m merge alloc s e u r0 :
  fresh_uri m s e u r0 -> alloc_ok alloc ->
  exists r1, ngx_http_parse_uri m r0 = Ok (NGX_OK, r1) /\
  match decode (slice m s e) with
  | Some (d, t) =>
      match norm_run merge start_state d with
      | Some n => exists r2, ngx_http_process_request_uri m merge alloc r1 = Ok (NGX_OK, r2) /\
                    uri_result m s e n t (space_in_uri r1) r2
      | None => exists r2, ngx_http_process_request_uri m merge alloc r1 = Ok (NGX_HTTP_BAD_REQUEST, r2)
      end
  | None => exists r2, ngx_http_process_request_uri m merge alloc r1 = Ok (NGX_HTTP_BAD_REQUEST, r2)
  end.
Proof.
  intros F Halloc. destruct (parse_uri_facts m s e u r0 merge F) as (r1 & st & H1 & HA & HF). exists r1. split; [done|].
  destruct (complex_uri r1 || quoted_uri r1) eqn:Hc.
  - by apply (process_complex m merge alloc s e u r0 st r1).
  - apply orb_false_iff in Hc as [Hc Hq].
    destruct (process_raw m merge alloc s e u r0 st r1 F HA HF Hc Hq) as (r2 & n & t & H2 & Hr & -> & ->).
    by exists r2.
Qed.

Lemma state_of_extension ds last :
  match ns_ext (state_of ds last) with Some k => drop k (flat ds ++ last) | None => [] end = extension last.
Proof.
  unfold state_of, extension. cbn [ns_ext]. destruct (extension_from [] last None) as [k|]; [|done].
  rewrite drop_app_ge by lia. f_equal. lia.
Qed.

Lemma decode_slash u d t : decode ("/"%ch :: u) = Some (d, t) -> exists d', d = "/"%ch :: d'.
Proof.
  change (decode ("/"%ch :: u)) with (match decode u with Some (d, t) => Some ("/"%ch :: d, t) | None => None end).
  destruct (decode u) as [[d' t']|]; [|done]. intros [= <- <-]. by exists d'.
Qed.

(** What the arguments are, whatever ended the path. *)
Definition arguments (t : path_end) : list Z :=
  match t with No_args => [] | Args rest => before_fragment rest end.

(** What the functions make of the URI from [s] to [e] when the request is [r1]
    after the first one. *)
Definition target_ok (m : list Z) (merge : bool) (alloc : nat -> option (list Z)) (s e : nat) (r1 : request_t) : Prop :=
  match decode (slice m s e) with
  | Some (d, t) =>
      match resolve merge d with
      | Some (ds, last) =>
          exists r2, ngx_http_process_request_uri m merge alloc r1 = Ok (NGX_OK, r2) /\
            uri r2 = flat ds ++ last /\ exten r2 = extension last /\ args r2 = arguments t /\
            unparsed_uri r2 = slice m s e /\ Forall (directory_ok merge) ds /\ "/"%ch ∉ last
      | None => exists r2, ngx_http_process_request_uri m merge alloc r1 = Ok (NGX_HTTP_BAD_REQUEST, r2)
      end
  | None => exists r2, ngx_http_process_request_uri m merge alloc r1 = Ok (NGX_HTTP_BAD_REQUEST, r2)
  end.

Lemma target_correct m merge alloc s e u r0 :
  fresh_uri m s e u r0 -> alloc_ok alloc ->
  exists r1, ngx_http_parse_uri m r0 = Ok (NGX_OK, r1) /\ target_ok m merge alloc s e r1.
Proof.
  intros F Halloc. destruct (process_run m merge alloc s e u r0 F Halloc) as (r1 & H1 & H). exists r1. split; [done|].
  unfold target_ok.  destruct (decode (slice m s e)) as [[d t]|] eqn:Ed; [|done].
  pose proof Ed as Ed'. rewrite (fresh_slice _ _ _ _ _ F) in Ed'. apply decode_slash in Ed' as [d' ->].
  pose proof (norm_run_slash merge d') as Hn. fold start_state in Hn.
  destruct (resolve merge ("/"%ch :: d')) as [[ds last]|]; [|by rewrite Hn in H].
  destruct Hn as (Hn & Hds & Hlast). rewrite Hn in H. destruct H as (r2 & H2 & [G1 G2 G3 G4 G5]).
  exists r2. rewrite <- (state_of_extension ds last). by split_and!.
Qed.

(** C1. ngx_http_parse_uri and ngx_http_process_request_uri together compute the
    normal form of every request URI, with slashes merged or kept: escapes decoded, dot
    segments resolved, extension and arguments split off. They reject exactly the URIs
    with a bad escape, an escaped NUL or a climb above the root. An escape cut short by
    the end of the URI is dropped and a dot segment at its end stays as it is; when
    slashes are kept, two dots after an empty segment remove that segment and the one
    before it, and are refused when there is none before it. No access is out of bounds
    in the header buffer or in the memory allocated for the result. *)
Theorem request_uri_correct m merge alloc s e u r0 :
  fresh_uri m s e u r0 -> alloc_ok alloc ->
  exists r1, ngx_http_parse_uri m r0 = Ok (NGX_OK, r1) /\ target_ok m merge alloc s e r1.
Proof. apply target_correct. Qed.

Lemma alloc_zeros : alloc_ok zeros.
Proof. intros n. exists (replicate n 0). split; [done|apply length_replicate]. Qed.

Definition demo_uri : list Z := bytes "/a/.//b/%2e./c%25.txt?x#y ".
Definition demo_request : request_t := new_request <| uri_start := Some 0%nat |> <| uri_end := Some 25%nat |>.

Lemma demo_fresh : fresh_uri demo_uri 0 25 (tail (take 25 demo_uri)) demo_request.
Proof. split; try reflexivity; [vm_compute; lia|]. apply bytes_okb_true. reflexivity. Qed.

Lemma request_uri_correct_witness :
  exists r1, ngx_http_parse_uri demo_uri demo_request = Ok (NGX_OK, r1) /\
  exists r2, ngx_http_process_request_uri demo_uri true zeros r1 = Ok (NGX_OK, r2) /\
    uri r2 = bytes "/a/c%.txt" /\ exten r2 = bytes "txt" /\ args r2 = bytes "x".
Proof.
  destruct (request_uri_correct demo_uri true zeros 0 25 _ demo_request demo_fresh alloc_zeros)
    as (r1 & H1 & r2 & H2 & Hu & He & Ha & _).
  exists r1. split; [exact H1|]. exists r2. split; [exact H2|]. split; [exact Hu|]. split; [exact He|exact Ha].
Defined.

Theorem raw_uri_equivalent m merge alloc s e u r0 r1 :
  fresh_uri m s e u r0 -> alloc_ok alloc -> ngx_http_parse_uri m r0 = Ok (NGX_OK, r1) ->
  complex_uri r1 = false -> quoted_uri r1 = false ->
  exists r2 r3,
    ngx_http_process_request_uri m merge alloc r1 = Ok (NGX_OK, r2) /\
    ngx_http_process_request_uri m merge alloc (r1 <| complex_uri := true |>) = Ok (NGX_OK, r3) /\
    uri r2 = uri r3 /\ exten r2 = exten r3 /\ args r2 = args r3 /\ unparsed_uri r2 = unparsed_uri r3 /\
    valid_unparsed_uri r2 = valid_unparsed_uri r3.
Proof.
  intros F Halloc H1 Hc Hq. destruct (parse_uri_facts m s e u r0 merge F) as (r1' & st & H1' & HA & HF).
  rewrite H1 in H1'. injection H1' as <-.
  destruct (process_raw m merge alloc s e u r0 st r1 F HA HF Hc Hq) as (r2 & n & t & H2 & [A1 A2 A3 A4 A5] & Ed & En).
  assert (HA' : args_inv s r0 (slice m s e) st (r1 <| complex_uri := true |>)).
  { destruct HA as [[F1 F2 F3 F4] HA]. by split; [split|]. }
  pose proof (process_complex m merge alloc s e u r0 st _ F HA' Halloc eq_refl) as H3. rewrite Ed, En in H3.
  destruct H3 as (r3 & H3 & [B1 B2 B3 B4 B5]). exists r2, r3. split; [done|]. split; [done|].
  rewrite A1, A2, A3, A4, A5, B1, B2, B3, B4, B5. done.
Qed.

Lemma raw_uri_equivalent_witness :
  exists r1 r2 r3,
    ngx_http_parse_uri (bytes "/a/b.c?d ") (new_request <| uri_start := Some 0%nat |> <| uri_end := Some 8%nat |>)
      = Ok (NGX_OK, r1) /\
    ngx_http_process_request_uri (bytes "/a/b.c?d ") true zeros r1 = Ok (NGX_OK, r2) /\
    ngx_http_process_request_uri (bytes "/a/b.c?d ") true zeros (r1 <| complex_uri := true |>) = Ok (NGX_OK, r3) /\
    uri r2 = uri r3 /\ exten r2 = exten r3 /\ args r2 = args r3 /\ unparsed_uri r2 = unparsed_uri r3 /\
    valid_unparsed_uri r2 = valid_unparsed_uri r3.
Proof.
  eexists. edestruct (raw_uri_equivalent (bytes "/a/b.c?d ") true zeros 0 8 (bytes "a/b.c?d")
    (new_request <| uri_start := Some 0%nat |> <| uri_end := Some 8%nat |>)) as (r2 & r3 & H).
  - split; try reflexivity; [vm_compute; lia|]. apply bytes_okb_true. reflexivity.
  - apply alloc_zeros.
  - reflexivity.
  - reflexivity.
  - reflexivity.
  - exists r2, r3. split; [reflexivity|]. exact H.
Defined.
