(* ===== verification/HttpRequestLine.v ===== *)
(** Component "request line": ngx_http_parse_request_line of
    src/http/ngx_http_parse.c.

    The header buffer is the list [m] of its bytes up to [b->end]; [pos] and
    [last] are offsets in it.  The parser is called again with the same request
    and a larger [last] when it has returned NGX_AGAIN. *)

From stdpp Require Import base numbers list option strings.
From Stdlib Require Import ZArith Lia.
From S2P Require Import Prelude HttpRequest.
Local Open Scope Z_scope.

(** * Definitions *)

(** ** Comparing words *)

(** [*(uint32_t * ) (m + i)] on a little-endian machine. *)
Definition word32 (m : list Z) (i : nat) : outcome Z :=
  b0 ← deref m i; b1 ← deref m (i + 1); b2 ← deref m (i + 2); b3 ← deref m (i + 3);
  Ok (b0 + b1 * 2 ^ 8 + b2 * 2 ^ 16 + b3 * 2 ^ 24).

(** [(c3 << 24) | (c2 << 16) | (c1 << 8) | c0] *)
Definition chars32 (c0 c1 c2 c3 : Z) : Z :=
  Z.lor (Z.lor (Z.lor (Z.shiftl c3 24) (Z.shiftl c2 16)) (Z.shiftl c1 8)) c0.

(** [a && b] *)
Definition and_then (a b : outcome bool) : outcome bool :=
  a ← a; if (a : bool) then b else Ok false.

Definition ngx_str4cmp (m : list Z) (i : nat) (c0 c1 c2 c3 : Z) : outcome bool :=
  w ← word32 m i; Ok (w =? chars32 c0 c1 c2 c3).

Definition ngx_str3_cmp := ngx_str4cmp.
Definition ngx_str3Ocmp := ngx_str4cmp.

Definition ngx_str5cmp (m : list Z) (i : nat) (c0 c1 c2 c3 c4 : Z) : outcome bool :=
  and_then (ngx_str4cmp m i c0 c1 c2 c3) (c ← deref m (i + 4); Ok (c =? c4)).

Definition ngx_str6cmp (m : list Z) (i : nat) (c0 c1 c2 c3 c4 c5 : Z) : outcome bool :=
  and_then (ngx_str4cmp m i c0 c1 c2 c3)
    (w ← word32 m (i + 4); Ok (Z.land w 0xffff =? Z.lor (Z.shiftl c5 8) c4)).

Definition ngx_str8cmp (m : list Z) (i : nat) (c0 c1 c2 c3 c4 c5 c6 c7 : Z) : outcome bool :=
  and_then (ngx_str4cmp m i c0 c1 c2 c3) (ngx_str4cmp m (i + 4) c4 c5 c6 c7).

Definition ngx_str7_cmp := ngx_str8cmp.

Definition ngx_str9cmp (m : list Z) (i : nat) (c0 c1 c2 c3 c4 c5 c6 c7 c8 : Z) : outcome bool :=
  and_then (ngx_str8cmp m i c0 c1 c2 c3 c4 c5 c6 c7) (c ← deref m (i + 8); Ok (c =? c8)).

(** The first of the tests that holds gives the method, [old] if none does. *)
Fixpoint first_method (tests : list (outcome bool * Z)) (old : Z) : outcome Z :=
  match tests with
  | [] => Ok old
  | (t, code) :: tests' => b ← t; if (b : bool) then Ok code else first_method tests' old
  end.

(** [switch (p - m)], with [m] the offset [i] and [n] the length. *)
Definition find_method (m : list Z) (i n : nat) (old : Z) : outcome Z :=
  match n with
  | 3%nat =>
      first_method
        [(ngx_str3_cmp m i "G"%ch "E"%ch "T"%ch " "%ch, NGX_HTTP_GET);
         (ngx_str3_cmp m i "P"%ch "U"%ch "T"%ch " "%ch, NGX_HTTP_PUT)] old
  | 4%nat =>
      c ← deref m (i + 1);
      if c =? "O"%ch then
        first_method
          [(ngx_str3Ocmp m i "P"%ch "O"%ch "S"%ch "T"%ch, NGX_HTTP_POST);
           (ngx_str3Ocmp m i "C"%ch "O"%ch "P"%ch "Y"%ch, NGX_HTTP_COPY);
           (ngx_str3Ocmp m i "M"%ch "O"%ch "V"%ch "E"%ch, NGX_HTTP_MOVE);
           (ngx_str3Ocmp m i "L"%ch "O"%ch "C"%ch "K"%ch, NGX_HTTP_LOCK)] old
      else first_method [(ngx_str4cmp m i "H"%ch "E"%ch "A"%ch "D"%ch, NGX_HTTP_HEAD)] old
  | 5%nat =>
      first_method
        [(ngx_str5cmp m i "M"%ch "K"%ch "C"%ch "O"%ch "L"%ch, NGX_HTTP_MKCOL);
         (ngx_str5cmp m i "P"%ch "A"%ch "T"%ch "C"%ch "H"%ch, NGX_HTTP_PATCH);
         (ngx_str5cmp m i "T"%ch "R"%ch "A"%ch "C"%ch "E"%ch, NGX_HTTP_TRACE)] old
  | 6%nat =>
      first_method
        [(ngx_str6cmp m i "D"%ch "E"%ch "L"%ch "E"%ch "T"%ch "E"%ch, NGX_HTTP_DELETE);
         (ngx_str6cmp m i "U"%ch "N"%ch "L"%ch "O"%ch "C"%ch "K"%ch, NGX_HTTP_UNLOCK)] old
  | 7%nat =>
      first_method
        [(ngx_str7_cmp m i "O"%ch "P"%ch "T"%ch "I"%ch "O"%ch "N"%ch "S"%ch " "%ch, NGX_HTTP_OPTIONS)] old
  | 8%nat =>
      first_method
        [(ngx_str8cmp m i "P"%ch "R"%ch "O"%ch "P"%ch "F"%ch "I"%ch "N"%ch "D"%ch, NGX_HTTP_PROPFIND)] old
  | 9%nat =>
      first_method
        [(ngx_str9cmp m i "P"%ch "R"%ch "O"%ch "P"%ch "P"%ch "A"%ch "T"%ch "C"%ch "H"%ch, NGX_HTTP_PROPPATCH)] old
  | _ => Ok old
  end.

(** ** The state machine *)

Inductive line_state : Type :=
| sw_start
| sw_method
| sw_spaces_before_uri
| sw_schema
| sw_schema_slash
| sw_schema_slash_slash
| sw_host_start
| sw_host
| sw_host_end
| sw_host_ip_literal
| sw_port
| sw_host_http_09
| sw_after_slash_in_uri
| sw_check_uri
| sw_check_uri_http_09
| sw_uri
| sw_http_09
| sw_http_H
| sw_http_HT
| sw_http_HTT
| sw_http_HTTP
| sw_first_major_digit
| sw_major_digit
| sw_first_minor_digit
| sw_minor_digit
| sw_spaces_after_digit
| sw_almost_done.

#[export] Instance line_state_dec : EqDecision line_state.
Proof. solve_decision. Defined.

(** What the body of the loop does: [break], [p--; break], [goto done], or
    [return rc]. *)
Inductive line_action : Type :=
| Break (state : line_state) (r : request_t)
| Back (state : line_state) (r : request_t)
| Goto_done (r : request_t)
| Return (rc : Z) (r : request_t).

Definition is_digit (ch : Z) : bool := ("0"%ch <=? ch) && (ch <=? "9"%ch).

(** [c = (u_char) (ch | 0x20); c >= 'a' && c <= 'z'] *)
Definition is_letter (ch : Z) : bool :=
  let c := to_u8 (Z.lor ch 0x20) in ("a"%ch <=? c) && (c <=? "z"%ch).

(** [(ch < 'A' || ch > 'Z') && ch != '_' && ch != '-'] *)
Definition not_method_char (ch : Z) : bool :=
  ((ch <? "A"%ch) || ("Z"%ch <? ch)) && negb (ch =? "_"%ch) && negb (ch =? "-"%ch).

Definition is_ip_literal_char (ch : Z) : bool :=
  existsb (Z.eqb ch)
    ["-"%ch; "."%ch; "_"%ch; "~"%ch; "!"%ch; "$"%ch; "&"%ch; "'"%ch; "("%ch; ")"%ch; "*"%ch; "+"%ch;
     ","%ch; ";"%ch; "="%ch].

Section Step.
(** The header buffer, the position of the byte, and the byte. *)
Context (m : list Z) (p : nat) (ch : Z).

Definition invalid_request (r : request_t) : outcome line_action :=
  Ok (Return NGX_HTTP_PARSE_INVALID_REQUEST r).

(** [state] after the character [c], an error after any other. *)
Definition expect (c : Z) (state : line_state) (r : request_t) : outcome line_action :=
  if ch =? c then Ok (Break state r) else invalid_request r.

(** The end of the host or of the port followed by a space: the URI is the
    second slash after the schema. *)
Definition no_uri (r : request_t) : outcome line_action :=
  s ← ptr_add (schema_end r) 1; e ← ptr_add (schema_end r) 2;
  Ok (Break sw_host_http_09 (r <| uri_start := s |> <| uri_end := e |>)).

Definition step_method (r : request_t) : outcome line_action :=
  if ch =? " "%ch then
    match request_start r with
    | None => UB
    | Some i =>
        let r := r <| method_end := Some (p - 1)%nat |> in
        code ← find_method m i (p - i) (method r);
        Ok (Break sw_spaces_before_uri (r <| method := code |>))
    end
  else if not_method_char ch then Ok (Return NGX_HTTP_PARSE_INVALID_METHOD r)
  else Ok (Break sw_method r).

Definition step_host_end (r : request_t) : outcome line_action :=
  let r := r <| host_end := Some p |> in
  if ch =? ":"%ch then Ok (Break sw_port r)
  else if ch =? "/"%ch then Ok (Break sw_after_slash_in_uri (r <| uri_start := Some p |>))
  else if ch =? " "%ch then no_uri r
  else invalid_request r.

Definition step_host (r : request_t) : outcome line_action :=
  if is_letter ch then Ok (Break sw_host r)
  else if is_digit ch || (ch =? "."%ch) || (ch =? "-"%ch) then Ok (Break sw_host r)
  else step_host_end r.

(** The spaces after the URI; [other] is the default of the switch. *)
Definition step_http_09 (state : line_state) (other : outcome line_action) (r : request_t)
  : outcome line_action :=
  if ch =? " "%ch then Ok (Break state r)
  else if ch =? CR then Ok (Break sw_almost_done (r <| http_minor := 9 |>))
  else if ch =? LF then Ok (Goto_done (r <| http_minor := 9 |>))
  else if ch =? "H"%ch then Ok (Break sw_http_H (r <| http_protocol := Some p |>))
  else other.

(** The bytes that end the URI, [next] following a space. *)
Definition step_uri_end (next : line_state) (other : outcome line_action) (r : request_t)
  : outcome line_action :=
  if ch =? " "%ch then Ok (Break next (r <| uri_end := Some p |>))
  else if ch =? CR then Ok (Break sw_almost_done (r <| uri_end := Some p |> <| http_minor := 9 |>))
  else if ch =? LF then Ok (Goto_done (r <| uri_end := Some p |> <| http_minor := 9 |>))
  else other.

Definition step_after_slash_in_uri (r : request_t) : outcome line_action :=
  u ← usual_bit ch;
  if (u : bool) then Ok (Break sw_check_uri r)
  else
    step_uri_end sw_check_uri_http_09
      (if ch =? "."%ch then Ok (Break sw_uri (r <| complex_uri := true |>))
       else if ch =? "%"%ch then Ok (Break sw_uri (r <| quoted_uri := true |>))
       else if ch =? "/"%ch then Ok (Break sw_uri (r <| complex_uri := true |>))
       else if ch =? "?"%ch then Ok (Break sw_uri (r <| args_start := Some (p + 1)%nat |>))
       else if ch =? "#"%ch then Ok (Break sw_uri (r <| complex_uri := true |>))
       else if ch =? "+"%ch then Ok (Break sw_after_slash_in_uri (r <| plus_in_uri := true |>))
       else if ch =? 0 then invalid_request r
       else Ok (Break sw_check_uri r)) r.

Definition step_check_uri (r : request_t) : outcome line_action :=
  u ← usual_bit ch;
  if (u : bool) then Ok (Break sw_check_uri r)
  else if ch =? "/"%ch then Ok (Break sw_after_slash_in_uri (r <| uri_ext := None |>))
  else if ch =? "."%ch then Ok (Break sw_check_uri (r <| uri_ext := Some (p + 1)%nat |>))
  else
    step_uri_end sw_check_uri_http_09
      (if ch =? "%"%ch then Ok (Break sw_uri (r <| quoted_uri := true |>))
       else if ch =? "?"%ch then Ok (Break sw_uri (r <| args_start := Some (p + 1)%nat |>))
       else if ch =? "#"%ch then Ok (Break sw_uri (r <| complex_uri := true |>))
       else if ch =? "+"%ch then Ok (Break sw_check_uri (r <| plus_in_uri := true |>))
       else if ch =? 0 then invalid_request r
       else Ok (Break sw_check_uri r)) r.

Definition step_uri (r : request_t) : outcome line_action :=
  u ← usual_bit ch;
  if (u : bool) then Ok (Break sw_uri r)
  else
    step_uri_end sw_http_09
      (if ch =? "#"%ch then Ok (Break sw_uri (r <| complex_uri := true |>))
       else if ch =? 0 then invalid_request r
       else Ok (Break sw_uri r)) r.

Definition step_start (r : request_t) : outcome line_action :=
  let r := r <| request_start := Some p |> in
  if (ch =? CR) || (ch =? LF) then Ok (Break sw_start r)
  else if not_method_char ch then Ok (Return NGX_HTTP_PARSE_INVALID_METHOD r)
  else Ok (Break sw_method r).

Definition step_before_uri (r : request_t) : outcome line_action :=
  if ch =? "/"%ch then Ok (Break sw_after_slash_in_uri (r <| uri_start := Some p |>))
  else if is_letter ch then Ok (Break sw_schema (r <| schema_start := Some p |>))
  else expect " "%ch sw_spaces_before_uri r.

Definition step_schema (r : request_t) : outcome line_action :=
  if is_letter ch then Ok (Break sw_schema r)
  else if ch =? ":"%ch then Ok (Break sw_schema_slash (r <| schema_end := Some p |>))
  else invalid_request r.

Definition step_host_start (r : request_t) : outcome line_action :=
  let r := r <| host_start := Some p |> in
  if ch =? "["%ch then Ok (Break sw_host_ip_literal r) else step_host r.

Definition step_ip_literal (r : request_t) : outcome line_action :=
  if is_digit ch then Ok (Break sw_host_ip_literal r)
  else if is_letter ch then Ok (Break sw_host_ip_literal r)
  else if ch =? ":"%ch then Ok (Break sw_host_ip_literal r)
  else if ch =? "]"%ch then Ok (Break sw_host_end r)
  else if is_ip_literal_char ch then Ok (Break sw_host_ip_literal r)
  else invalid_request r.

Definition step_port (r : request_t) : outcome line_action :=
  if is_digit ch then Ok (Break sw_port r)
  else if ch =? "/"%ch then
    Ok (Break sw_after_slash_in_uri (r <| port_end := Some p |> <| uri_start := Some p |>))
  else if ch =? " "%ch then no_uri (r <| port_end := Some p |>)
  else invalid_request r.

Definition step_first_major_digit (r : request_t) : outcome line_action :=
  if (ch <? "1"%ch) || ("9"%ch <? ch) then invalid_request r
  else Ok (Break sw_major_digit (r <| http_major := to_u16 (ch - "0"%ch) |>)).

Definition step_major_digit (r : request_t) : outcome line_action :=
  if ch =? "."%ch then Ok (Break sw_first_minor_digit r)
  else if (ch <? "0"%ch) || ("9"%ch <? ch) then invalid_request r
  else if 99 <? http_major r then invalid_request r
  else Ok (Break sw_major_digit (r <| http_major := to_u16 (http_major r * 10 + ch - "0"%ch) |>)).

Definition step_first_minor_digit (r : request_t) : outcome line_action :=
  if (ch <? "0"%ch) || ("9"%ch <? ch) then invalid_request r
  else Ok (Break sw_minor_digit (r <| http_minor := to_u16 (ch - "0"%ch) |>)).

Definition step_minor_digit (r : request_t) : outcome line_action :=
  if ch =? CR then Ok (Break sw_almost_done r)
  else if ch =? LF then Ok (Goto_done r)
  else if ch =? " "%ch then Ok (Break sw_spaces_after_digit r)
  else if (ch <? "0"%ch) || ("9"%ch <? ch) then invalid_request r
  else if 99 <? http_minor r then invalid_request r
  else Ok (Break sw_minor_digit (r <| http_minor := to_u16 (http_minor r * 10 + ch - "0"%ch) |>)).

Definition step_spaces_after_digit (r : request_t) : outcome line_action :=
  if ch =? " "%ch then Ok (Break sw_spaces_after_digit r)
  else if ch =? CR then Ok (Break sw_almost_done r)
  else if ch =? LF then Ok (Goto_done r)
  else invalid_request r.

Definition step_almost_done (r : request_t) : outcome line_action :=
  let r := r <| request_end := Some (p - 1)%nat |> in
  if ch =? LF then Ok (Goto_done r) else invalid_request r.

(** The states after the authority without a path, and after the URI. *)
Definition step_after_uri (state : line_state) (r : request_t) : outcome line_action :=
  match state with
  | sw_check_uri_http_09 => step_http_09 state (Ok (Back sw_check_uri (r <| space_in_uri := true |>))) r
  | sw_http_09 => step_http_09 state (Ok (Back sw_uri (r <| space_in_uri := true |>))) r
  | _ => step_http_09 state (invalid_request r) r
  end.

Definition line_step (state : line_state) (r : request_t) : outcome line_action :=
  match state with
  | sw_start => step_start r
  | sw_method => step_method r
  | sw_spaces_before_uri => step_before_uri r
  | sw_schema => step_schema r
  | sw_schema_slash => expect "/"%ch sw_schema_slash_slash r
  | sw_schema_slash_slash => expect "/"%ch sw_host_start r
  | sw_host_start => step_host_start r
  | sw_host => step_host r
  | sw_host_end => step_host_end r
  | sw_host_ip_literal => step_ip_literal r
  | sw_port => step_port r
  | sw_host_http_09 => step_after_uri sw_host_http_09 r
  | sw_after_slash_in_uri => step_after_slash_in_uri r
  | sw_check_uri => step_check_uri r
  | sw_check_uri_http_09 => step_after_uri sw_check_uri_http_09 r
  | sw_uri => step_uri r
  | sw_http_09 => step_after_uri sw_http_09 r
  | sw_http_H => expect "T"%ch sw_http_HT r
  | sw_http_HT => expect "T"%ch sw_http_HTT r
  | sw_http_HTT => expect "P"%ch sw_http_HTTP r
  | sw_http_HTTP => expect "/"%ch sw_first_major_digit r
  | sw_first_major_digit => step_first_major_digit r
  | sw_major_digit => step_major_digit r
  | sw_first_minor_digit => step_first_minor_digit r
  | sw_minor_digit => step_minor_digit r
  | sw_spaces_after_digit => step_spaces_after_digit r
  | sw_almost_done => step_almost_done r
  end.

End Step.

(** What the function returns, [r->state], the request, and [b->pos]. *)
Definition line_result : Type := Z * line_state * request_t * nat.

(** The code after the label [done]. *)
Definition line_done (p : nat) (r : request_t) : line_result :=
  let r := if decide (request_end r = None) then r <| request_end := Some p |> else r in
  let r := r <| http_version := http_major r * 1000 + http_minor r |> in
  if (http_version r =? 9) && negb (method r =? NGX_HTTP_GET)
  then (NGX_HTTP_PARSE_INVALID_09_METHOD, sw_start, r, S p)
  else (NGX_OK, sw_start, r, S p).

(** The loop.  A round consumes a byte or moves to a state in which the next one
    does, so twice the number of the bytes plus one is fuel enough. *)
Fixpoint line_loop (fuel : nat) (m : list Z) (old : line_state) (pos last p : nat)
    (state : line_state) (r : request_t) : outcome line_result :=
  match fuel with
  | O => NoFuel
  | S fuel' =>
      if (p <? last)%nat then
        ch ← deref m p;
        a ← line_step m p ch state r;
        match a with
        | Break state r => line_loop fuel' m old pos last (S p) state r
        | Back state r => line_loop fuel' m old pos last p state r
        | Goto_done r => Ok (line_done p r)
        | Return rc r => Ok (rc, old, r, pos)
        end
      else Ok (NGX_AGAIN, state, r, p)
  end.

(** [state] is [r->state], [old] in the loop. *)
Definition ngx_http_parse_request_line (m : list Z) (pos last : nat) (state : line_state) (r : request_t)
  : outcome line_result :=
  line_loop (S (2 * (last - pos))) m state pos last pos state r.

Example request_line_1 :
  let m := bytes "GET http://h:8/a.b?x HTTP/1.1" ++ [CR; LF] in
  exists r, ngx_http_parse_request_line m 0 31 sw_start new_request = Ok (NGX_OK, sw_start, r, 31%nat) /\
    method r = NGX_HTTP_GET /\ http_version r = 1001 /\ request_end r = Some 29%nat /\
    (schema_start r, schema_end r) = (Some 4%nat, Some 8%nat) /\
    (host_start r, host_end r, port_end r) = (Some 11%nat, Some 12%nat, Some 14%nat) /\
    (uri_start r, uri_end r) = (Some 14%nat, Some 20%nat) /\
    (uri_ext r, args_start r) = (Some 17%nat, Some 19%nat).
Proof. eexists. vm_compute. repeat split. Qed.

(** The comparison with a method of six letters reads the byte after the space,
    which is not in the buffer when the space is its last byte. *)
Example method_overread :
  ngx_http_parse_request_line (bytes "DELETE ") 0 7 sw_start new_request = UB.
Proof. reflexivity. Qed.
