(* ===== verification/HttpRequestLineTheory.v ===== *)
(** Request line: the comparison of methods by words, the loop against a run over
    the list of the bytes, and independence of the fragmentation. *)

From stdpp Require Import base numbers list option strings.
From Stdlib Require Import ZArith Lia.
From S2P Require Import Prelude Buffer HttpRequest HttpUri HttpUriTheory HttpRequestLine.
Local Open Scope Z_scope.

(** * Methods *)

(** The methods the parser knows. *)
Definition methods : list (list Z * Z) :=
  [(bytes "GET", NGX_HTTP_GET); (bytes "PUT", NGX_HTTP_PUT); (bytes "POST", NGX_HTTP_POST);
   (bytes "COPY", NGX_HTTP_COPY); (bytes "MOVE", NGX_HTTP_MOVE); (bytes "LOCK", NGX_HTTP_LOCK);
   (bytes "HEAD", NGX_HTTP_HEAD); (bytes "MKCOL", NGX_HTTP_MKCOL); (bytes "PATCH", NGX_HTTP_PATCH);
   (bytes "TRACE", NGX_HTTP_TRACE); (bytes "DELETE", NGX_HTTP_DELETE); (bytes "UNLOCK", NGX_HTTP_UNLOCK);
   (bytes "OPTIONS", NGX_HTTP_OPTIONS); (bytes "PROPFIND", NGX_HTTP_PROPFIND);
   (bytes "PROPPATCH", NGX_HTTP_PROPPATCH)].

Fixpoint lookup_method (table : list (list Z * Z)) (w : list Z) (old : Z) : Z :=
  match table with
  | [] => old
  | (name, code) :: table' => if decide (w = name) then code else lookup_method table' w old
  end.

Definition method_code (w : list Z) (old : Z) : Z := lookup_method methods w old.

(** ** Words *)

Lemma chars32_value c0 c1 c2 c3 :
  byte_ok c0 -> byte_ok c1 -> byte_ok c2 -> byte_ok c3 ->
  chars32 c0 c1 c2 c3 = c0 + c1 * 2 ^ 8 + c2 * 2 ^ 16 + c3 * 2 ^ 24.
Proof.
  unfold byte_ok, chars32. intros H0 H1 H2 H3.
  replace (Z.lor (Z.lor (Z.lor (Z.shiftl c3 24) (Z.shiftl c2 16)) (Z.shiftl c1 8)) c0)
    with (Z.lor (Z.shiftl (Z.lor (Z.shiftl (Z.lor (Z.shiftl c3 8) c2) 8) c1) 8) c0).
  - rewrite !lor_shiftl_add by lia. lia.
  - rewrite !Z.shiftl_lor, !Z.shiftl_shiftl by lia. done.
Qed.

(** [take n (drop i m)] compared with a list of [n] bytes. *)
Definition has_prefix (m : list Z) (i : nat) (w : list Z) : bool :=
  bool_decide (take (length w) (drop i m) = w).

Lemma deref_all m i n : (i + n <= length m)%nat ->
  exists l, take n (drop i m) = l /\ length l = n /\ forall k c, l !! k = Some c -> deref m (i + k) = Ok c.
Proof.
  intros H. eexists. split; [reflexivity|]. split; [rewrite length_take, length_drop; lia|].
  intros k c Hk. apply lookup_take_Some in Hk as [Hk _]. rewrite lookup_drop in Hk. by apply deref_lookup.
Qed.

Lemma word32_ok m i :
  bytes_ok m -> (i + 4 <= length m)%nat ->
  exists b0 b1 b2 b3, take 4 (drop i m) = [b0; b1; b2; b3] /\ byte_ok b0 /\ byte_ok b1 /\ byte_ok b2 /\ byte_ok b3 /\
    word32 m i = Ok (b0 + b1 * 2 ^ 8 + b2 * 2 ^ 16 + b3 * 2 ^ 24).
Proof.
  intros Hb Hi. destruct (deref_all m i 4 Hi) as (l & Hl & Hlen & Hd).
  destruct l as [|b0 [|b1 [|b2 [|b3 [|]]]]]; try discriminate Hlen. exists b0, b1, b2, b3.
  assert (Hbs : bytes_ok [b0; b1; b2; b3]) by (rewrite <- Hl; by apply Forall_take, Forall_drop).
  rewrite !bytes_ok_cons in Hbs. split; [done|]. do 4 (split; [tauto|]). unfold word32.
  rewrite <- (Nat.add_0_r i) at 1.
  rewrite (Hd 0%nat b0 eq_refl), (Hd 1%nat b1 eq_refl), (Hd 2%nat b2 eq_refl), (Hd 3%nat b3 eq_refl). done.
Qed.

Lemma str4cmp_ok m i c0 c1 c2 c3 :
  bytes_ok m -> bytes_ok [c0; c1; c2; c3] -> (i + 4 <= length m)%nat ->
  ngx_str4cmp m i c0 c1 c2 c3 = Ok (has_prefix m i [c0; c1; c2; c3]).
Proof.
  intros Hb Hc Hi. destruct (word32_ok m i Hb Hi) as (b0 & b1 & b2 & b3 & Ht & B0 & B1 & B2 & B3 & Hw).
  unfold ngx_str4cmp, has_prefix. rewrite Hw. cbn [mbind outcome_bind length]. rewrite Ht.
  rewrite !bytes_ok_cons in Hc. rewrite chars32_value by tauto. f_equal. unfold byte_ok in *.
  change (2 ^ 8) with 256. change (2 ^ 16) with 65536. change (2 ^ 24) with 16777216.
  apply eq_true_iff_eq. rewrite Z.eqb_eq, bool_decide_eq_true. split; [|by intros [= -> -> -> ->]].
  intros E. repeat f_equal; lia.
Qed.

(** A comparison of a prefix and of what follows it. *)
Lemma has_prefix_app m i w1 w2 :
  has_prefix m i (w1 ++ w2) = has_prefix m i w1 && has_prefix m (i + length w1) w2.
Proof.
  unfold has_prefix. rewrite length_app, <- drop_drop. apply eq_true_iff_eq.
  rewrite andb_true_iff, !bool_decide_eq_true. rewrite <- take_take_drop. split.
  - intros E. apply app_inj_1 in E; [done|].
    apply (f_equal length) in E. rewrite !length_app, !length_take, !length_drop in E. rewrite length_take, length_drop. lia.
  - by intros [-> ->].
Qed.

(** Split the prefix of the goal in two. *)
Ltac split_prefix m i w1 w2 :=
  let E := fresh in pose proof (has_prefix_app m i w1 w2) as E; cbn [app] in E; rewrite E; clear E.

Lemma and_then_ok a b x y : a = Ok x -> (x = true -> b = Ok y) -> and_then a b = Ok (x && y).
Proof. intros -> H. unfold and_then. cbn. destruct x; [by apply H|done]. Qed.

Lemma char_test_ok m i c : (i < length m)%nat -> (x ← deref m i; Ok (x =? c)) = Ok (has_prefix m i [c]).
Proof.
  intros Hi. destruct (lookup_lt_is_Some_2 m i Hi) as [x Hx]. rewrite (deref_lookup _ _ _ Hx). cbn [mbind outcome_bind].
  f_equal. unfold has_prefix. cbn [length]. rewrite (drop_S m x i Hx). cbn [take].
  apply eq_true_iff_eq. rewrite Z.eqb_eq, bool_decide_eq_true. split; [by intros ->|by intros [= ->]].
Qed.

Lemma str5cmp_ok m i c0 c1 c2 c3 c4 :
  bytes_ok m -> bytes_ok [c0; c1; c2; c3] -> (i + 5 <= length m)%nat ->
  ngx_str5cmp m i c0 c1 c2 c3 c4 = Ok (has_prefix m i [c0; c1; c2; c3; c4]).
Proof.
  intros Hb Hc Hi. split_prefix m i [c0; c1; c2; c3] [c4].
  apply and_then_ok; [apply str4cmp_ok; try done; lia|intros _; apply char_test_ok; cbn; lia].
Qed.

Lemma land_low16 b0 b1 b2 b3 :
  byte_ok b0 -> byte_ok b1 -> Z.land (b0 + b1 * 2 ^ 8 + b2 * 2 ^ 16 + b3 * 2 ^ 24) 0xffff = b0 + b1 * 2 ^ 8.
Proof.
  unfold byte_ok. intros H0 H1. change 0xffff with (Z.ones 16). rewrite Z.land_ones by lia.
  replace (b0 + b1 * 2 ^ 8 + b2 * 2 ^ 16 + b3 * 2 ^ 24) with (b0 + b1 * 2 ^ 8 + (b2 + b3 * 2 ^ 8) * 2 ^ 16) by lia.
  rewrite Z_mod_plus_full. apply Z.mod_small. lia.
Qed.

(** The two bytes that follow the six of the method do not count, but are read. *)
Lemma str6cmp_ok m i c0 c1 c2 c3 c4 c5 :
  bytes_ok m -> bytes_ok [c0; c1; c2; c3] -> bytes_ok [c4; c5] -> (i + 8 <= length m)%nat ->
  ngx_str6cmp m i c0 c1 c2 c3 c4 c5 = Ok (has_prefix m i [c0; c1; c2; c3; c4; c5]).
Proof.
  intros Hb Hc Hc2 Hi. split_prefix m i [c0; c1; c2; c3] [c4; c5].
  apply and_then_ok; [apply str4cmp_ok; try done; lia|intros _]. cbn [length].
  destruct (word32_ok m (i + 4) Hb ltac:(lia)) as (b0 & b1 & b2 & b3 & Ht & B0 & B1 & B2 & B3 & ->).
  cbn [mbind outcome_bind]. rewrite land_low16 by done. rewrite !bytes_ok_cons in Hc2. destruct Hc2 as (H4 & H5 & _).
  f_equal. unfold has_prefix. cbn [length].
  assert (Ht2 : take 2 (drop (i + 4) m) = [b0; b1])
    by (transitivity (take 2 (take 4 (drop (i + 4) m))); [by rewrite take_take|by rewrite Ht]). rewrite Ht2.
  rewrite lor_shiftl_add by (unfold byte_ok in *; lia). unfold byte_ok in *. change (2 ^ 8) with 256.
  apply eq_true_iff_eq. rewrite Z.eqb_eq, bool_decide_eq_true. split; [|intros [= -> ->]; lia].
  intros E. repeat f_equal; lia.
Qed.

Lemma str8cmp_ok m i c0 c1 c2 c3 c4 c5 c6 c7 :
  bytes_ok m -> bytes_ok [c0; c1; c2; c3] -> bytes_ok [c4; c5; c6; c7] -> (i + 8 <= length m)%nat ->
  ngx_str8cmp m i c0 c1 c2 c3 c4 c5 c6 c7 = Ok (has_prefix m i [c0; c1; c2; c3; c4; c5; c6; c7]).
Proof.
  intros Hb Hc Hc2 Hi. split_prefix m i [c0; c1; c2; c3] [c4; c5; c6; c7].
  apply and_then_ok; [apply str4cmp_ok; try done; lia|intros _; apply str4cmp_ok; try done; cbn; lia].
Qed.

Lemma str9cmp_ok m i c0 c1 c2 c3 c4 c5 c6 c7 c8 :
  bytes_ok m -> bytes_ok [c0; c1; c2; c3] -> bytes_ok [c4; c5; c6; c7] -> (i + 9 <= length m)%nat ->
  ngx_str9cmp m i c0 c1 c2 c3 c4 c5 c6 c7 c8 = Ok (has_prefix m i [c0; c1; c2; c3; c4; c5; c6; c7; c8]).
Proof.
  intros Hb Hc Hc2 Hi. split_prefix m i [c0; c1; c2; c3; c4; c5; c6; c7] [c8].
  apply and_then_ok; [apply str8cmp_ok; try done; lia|intros _; apply char_test_ok; cbn; lia].
Qed.

Lemma lookup_method_length table w old :
  lookup_method table w old = lookup_method (List.filter (fun e => length e.1 =? length w)%nat table) w old.
Proof.
  induction table as [|[name code] table IH]; [done|]. cbn [lookup_method List.filter fst].
  destruct (Nat.eqb_spec (length name) (length w)) as [E|E]; cbn [lookup_method]; [by rewrite IH|].
  rewrite decide_False by (by intros ->). done.
Qed.

Lemma first_method_ok w table tests old :
  Forall2 (fun t e => t.1 = Ok (bool_decide (w = e.1)) /\ t.2 = e.2) tests table ->
  first_method tests old = Ok (lookup_method table w old).
Proof.
  induction 1 as [|[t c] [name code] tests table [Ht Hc] _ IH]; [done|]. cbn in *. subst c. rewrite Ht.
  cbn [mbind outcome_bind]. destruct (decide (w = name)); [by rewrite bool_decide_eq_true_2|].
  by rewrite bool_decide_eq_false_2.
Qed.

Section Find.
Context (m : list Z) (i p : nat) (w : list Z).
Hypothesis (Hw : slice m i p = w) (Hb : bytes_ok m) (Hi : (i <= p)%nat) (Hp : m !! p = Some " "%ch)
  (Hl : (S p < length m)%nat).

Lemma word_length : length w = (p - i)%nat.
Proof. rewrite <- Hw. apply slice_length; lia. Qed.

Lemma prefix_word name : length name = length w -> has_prefix m i name = bool_decide (w = name).
Proof. intros Hn. unfold has_prefix. rewrite Hn, word_length. unfold slice in Hw. by rewrite Hw. Qed.

Lemma prefix_word_space name : length name = length w -> has_prefix m i (name ++ [" "%ch]) = bool_decide (w = name).
Proof.
  intros Hn. rewrite has_prefix_app, prefix_word by done.
  replace (has_prefix m (i + length name) [" "%ch]) with true; [apply andb_true_r|].
  rewrite Hn, word_length. replace (i + (p - i))%nat with p by lia.
  symmetry. unfold has_prefix. apply bool_decide_eq_true_2. by rewrite (drop_S m _ _ Hp).
Qed.

(** A comparison that has become one of lists. *)
Ltac word_test Hn :=
  match goal with |- _ = Ok (bool_decide (_ = ?name)) => exact (f_equal Ok (prefix_word name (eq_sym Hn))) end.

(** The method is looked up in the table.  The byte after the space must be in
    the buffer. *)
Lemma find_method_ok old : find_method m i (p - i) old = Ok (method_code w old).
Proof.
  unfold method_code. rewrite lookup_method_length, word_length.
  pose proof word_length as Hn. revert Hn. unfold find_method.
  destruct (p - i)%nat as [|[|[|[|[|[|[|[|[|[|n]]]]]]]]]] eqn:En; intros Hn; try reflexivity.
  - apply first_method_ok. repeat constructor; cbn [fst snd]; unfold ngx_str3_cmp;
      rewrite str4cmp_ok by (done || (by apply bytes_okb_true) || lia); f_equal.
    + exact (prefix_word_space (bytes "GET") (eq_sym Hn)).
    + exact (prefix_word_space (bytes "PUT") (eq_sym Hn)).
  - assert (Hw1 : exists a b c d, w = [a; b; c; d] /\ deref m (i + 1) = Ok b).
    { destruct (deref_all m i 4) as (l & Hl4 & _ & Hd); [lia|]. unfold slice in Hw. rewrite En, Hl4 in Hw. subst l.
      destruct w as [|a [|b [|c [|d [|]]]]]; try discriminate Hn. exists a, b, c, d. split; [done|]. by apply Hd. }
    destruct Hw1 as (a & b & c & d & Ew & ->). cbn [mbind outcome_bind].
    change (List.filter _ methods) with
      ([(bytes "POST", NGX_HTTP_POST); (bytes "COPY", NGX_HTTP_COPY); (bytes "MOVE", NGX_HTTP_MOVE);
        (bytes "LOCK", NGX_HTTP_LOCK); (bytes "HEAD", NGX_HTTP_HEAD)]).
    unfold ngx_str3Ocmp.
    destruct (Z.eqb_spec b "O"%ch) as [->|Hne].
    + transitivity (Ok (lookup_method [(bytes "POST", NGX_HTTP_POST); (bytes "COPY", NGX_HTTP_COPY);
        (bytes "MOVE", NGX_HTTP_MOVE); (bytes "LOCK", NGX_HTTP_LOCK)] w old)).
      * apply first_method_ok. repeat constructor; cbn [fst snd];
          rewrite str4cmp_ok by (done || (by apply bytes_okb_true) || lia); word_test Hn.
      * f_equal. cbn [lookup_method]. rewrite (decide_False (P := w = bytes "HEAD")); [done|]. by rewrite Ew.
    + transitivity (Ok (lookup_method [(bytes "HEAD", NGX_HTTP_HEAD)] w old)).
      * apply first_method_ok. repeat constructor; cbn [fst snd];
          rewrite str4cmp_ok by (done || (by apply bytes_okb_true) || lia); word_test Hn.
      * f_equal. cbn [lookup_method]. rewrite Ew.
        assert (Hno : forall a' c' d', [a; b; c; d] <> [a'; "O"%ch; c'; d']).
        { intros a' c' d' E. injection E as _ E _ _. contradiction. }
        rewrite (decide_False (P := _ = bytes "POST")) by apply Hno.
        rewrite (decide_False (P := _ = bytes "COPY")) by apply Hno.
        rewrite (decide_False (P := _ = bytes "MOVE")) by apply Hno.
        by rewrite (decide_False (P := _ = bytes "LOCK")) by apply Hno.
  - apply first_method_ok. repeat constructor; cbn [fst snd];
      rewrite str5cmp_ok by (done || (by apply bytes_okb_true) || lia); word_test Hn.
  - apply first_method_ok. repeat constructor; cbn [fst snd];
      rewrite str6cmp_ok by (done || (by apply bytes_okb_true) || lia); word_test Hn.
  - apply first_method_ok. repeat constructor; cbn [fst snd]. unfold ngx_str7_cmp.
    rewrite str8cmp_ok by (done || (by apply bytes_okb_true) || lia). f_equal.
    exact (prefix_word_space (bytes "OPTIONS") (eq_sym Hn)).
  - apply first_method_ok. repeat constructor; cbn [fst snd];
      rewrite str8cmp_ok by (done || (by apply bytes_okb_true) || lia); word_test Hn.
  - apply first_method_ok. repeat constructor; cbn [fst snd];
      rewrite str9cmp_ok by (done || (by apply bytes_okb_true) || lia); word_test Hn.
Qed.
End Find.

(** The case of the switch. *)
Ltac line_cbn := cbn [line_step step_start step_before_uri step_schema step_host_start step_ip_literal step_port step_first_major_digit step_major_digit step_first_minor_digit step_minor_digit step_spaces_after_digit step_almost_done step_after_uri].

(** * The invariant of the parser *)

(** ** The URI read so far *)

(** The fields that ngx_http_parse_uri sets, the extension and the arguments, the
    others as in a new request. *)
Definition view (r : request_t) : request_t :=
  mk_request NGX_HTTP_UNKNOWN NGX_HTTP_VERSION_10 0 0
    (complex_uri r) (quoted_uri r) (plus_in_uri r) (space_in_uri r)
    None None None None None None None None None None (uri_ext r) (args_start r) None
    [] (args r) (exten r) [] false.

(** ngx_http_parse_uri on the bytes [l], at [p], with the state it ends in. *)
Fixpoint uri_scan (p : nat) (state : uri_state) (r : request_t) (l : list Z) : option (uri_state * request_t) :=
  match l with
  | [] => Some (state, r)
  | c :: l' =>
      match uri_step p c state r with
      | Ok (Some (state, r)) => uri_scan (S p) state r l'
      | _ => None
      end
  end.

(** The bytes a request line may have in its URI. *)
Definition uri_char (c : Z) : Prop := c <> CR /\ c <> LF /\ c <> 0.

Record scanned (m : list Z) (s p : nat) (ust : uri_state) (r : request_t) : Prop := {
  scanned_run : uri_scan s uri_sw_start new_request (slice m s p) = Some (ust, view r);
  scanned_lt : (s < p)%nat;
  scanned_state : ust <> uri_sw_start;
  scanned_chars : Forall uri_char (slice m s p)
}.

Lemma uri_scan_app p st r l1 l2 :
  uri_scan p st r (l1 ++ l2) =
    match uri_scan p st r l1 with Some (st, r) => uri_scan (p + length l1) st r l2 | None => None end.
Proof.
  revert p st r. induction l1 as [|c l1 IH]; intros p st r; [by rewrite Nat.add_0_r|]. cbn [app uri_scan length].
  destruct (uri_step p c st r) as [[[st' r']|]| |]; try done. by rewrite IH, Nat.add_succ_comm.
Qed.

Ltac split_tests :=
  repeat match goal with |- context [?b =? ?c] => destruct (Z.eqb_spec b c) end.

Lemma uri_step_view p c ust r ust' r' :
  byte_ok c -> uri_step p c ust r = Ok (Some (ust', r')) -> uri_step p c ust (view r) = Ok (Some (ust', view r')).
Proof.
  intros Hb. unfold uri_step. rewrite usual_bit_special by done. cbn [mbind outcome_bind].
  destruct ust, (special c); cbn [negb]; split_tests; intros [= <- <-]; done.
Qed.

(** The fields a step on the URI leaves alone. *)
Definition frame (r : request_t) :=
  (request_start r, method_end r, method r, http_major r, http_minor r, uri_start r, uri_end r, request_end r).

Lemma uri_step_frame p c ust r ust' r' :
  byte_ok c -> uri_step p c ust r = Ok (Some (ust', r')) -> frame r' = frame r.
Proof.
  intros Hb. unfold uri_step. rewrite usual_bit_special by done. cbn [mbind outcome_bind].
  destruct ust, (special c); cbn [negb]; split_tests; intros [= <- <-]; done.
Qed.

Lemma scanned_step m s p ust r c ust' r' :
  scanned m s p ust r -> m !! p = Some c -> byte_ok c -> uri_char c ->
  uri_step p c ust r = Ok (Some (ust', r')) -> ust' <> uri_sw_start -> scanned m s (S p) ust' r'.
Proof.
  intros [H1 H2 H3 H4] Hc Hb Hu Hs Hne. pose proof (slice_snoc m s p c ltac:(lia) Hc) as E.
  assert (Hl : (s + length (slice m s p) = p)%nat).
  { apply lookup_lt_Some in Hc. rewrite slice_length; lia. }
  split; [|lia|done|].
  - rewrite E, uri_scan_app, H1, Hl. cbn [uri_scan]. by rewrite (uri_step_view _ _ _ _ _ _ Hb Hs).
  - rewrite E. apply Forall_app. split; [done|by constructor].
Qed.

Lemma scanned_slash m s r :
  m !! s = Some "/"%ch -> view r = new_request -> scanned m s (S s) uri_sw_after_slash_in_uri r.
Proof.
  intros Hm Hv. assert (E : slice m s (S s) = ["/"%ch]) by (rewrite (slice_snoc m s s "/"%ch), slice_nil by done; done).
  split; rewrite ?E; [|lia|done|by constructor]. by rewrite Hv.
Qed.

Lemma scanned_frame m s p ust r r' : scanned m s p ust r -> view r' = view r -> scanned m s p ust r'.
Proof. intros [H1 H2 H3 H4] Hv. split; try done. by rewrite Hv. Qed.

(** ** The states *)

Definition line_of (ust : uri_state) : line_state :=
  match ust with
  | uri_sw_start => sw_spaces_before_uri
  | uri_sw_after_slash_in_uri => sw_after_slash_in_uri
  | uri_sw_check_uri => sw_check_uri
  | uri_sw_uri => sw_uri
  end.

(** The state after the space that ends the URI. *)
Definition space_state (ust : uri_state) : line_state :=
  match ust with uri_sw_uri => sw_http_09 | _ => sw_check_uri_http_09 end.

(** The method has been read, from [i] to [j]. *)
Definition method_known (m : list Z) (p : nat) (r : request_t) : Prop :=
  exists i j, request_start r = Some i /\ method_end r = Some (j - 1)%nat /\ (i < j)%nat /\ (j < p)%nat /\
    m !! j = Some " "%ch /\ method r = method_code (slice m i j) NGX_HTTP_UNKNOWN.

Definition uri_known (m : list Z) (p : nat) (r : request_t) : Prop :=
  exists s e ust, uri_start r = Some s /\ uri_end r = Some e /\ (e <= p)%nat /\ scanned m s e ust r.

(** Spaces from [e] to [p]. *)
Definition spaces (m : list Z) (e p : nat) : Prop := forall k, (e <= k < p)%nat -> m !! k = Some " "%ch.

Definition schema_known (m : list Z) (p : nat) (r : request_t) : Prop :=
  view r = new_request /\ exists k, schema_end r = Some k /\ (k + 2 < p)%nat /\ m !! (k + 1)%nat = Some "/"%ch.

Definition method_inv (m : list Z) (p : nat) (st : line_state) (r : request_t) : Prop :=
  match st with
  | sw_start => method r = NGX_HTTP_UNKNOWN
  | sw_method => method r = NGX_HTTP_UNKNOWN /\ exists i, request_start r = Some i /\ (i < p)%nat
  | _ => method_known m p r
  end.

Definition uri_inv (m : list Z) (p : nat) (st : line_state) (r : request_t) : Prop :=
  match st with
  | sw_start | sw_method | sw_spaces_before_uri | sw_schema => view r = new_request
  | sw_schema_slash => view r = new_request /\ exists k, schema_end r = Some k /\ p = (k + 1)%nat
  | sw_schema_slash_slash =>
      view r = new_request /\ exists k, schema_end r = Some k /\ p = (k + 2)%nat /\ m !! (k + 1)%nat = Some "/"%ch
  | sw_host_start | sw_host | sw_host_end | sw_host_ip_literal | sw_port => schema_known m p r
  | sw_after_slash_in_uri => exists s, uri_start r = Some s /\ scanned m s p uri_sw_after_slash_in_uri r
  | sw_check_uri => exists s, uri_start r = Some s /\ scanned m s p uri_sw_check_uri r
  | sw_uri => exists s, uri_start r = Some s /\ scanned m s p uri_sw_uri r
  | sw_check_uri_http_09 =>
      exists s e ust, uri_start r = Some s /\ uri_end r = Some e /\ (e < p)%nat /\ scanned m s e ust r /\
        ust <> uri_sw_uri /\ spaces m e p
  | sw_http_09 =>
      exists s e, uri_start r = Some s /\ uri_end r = Some e /\ (e < p)%nat /\ scanned m s e uri_sw_uri r /\
        spaces m e p
  | _ => uri_known m p r
  end.

Definition version_inv (r : request_t) : Prop := 0 <= http_major r <= 999 /\ 0 <= http_minor r <= 999.

Definition line_inv (m : list Z) (p : nat) (st : line_state) (r : request_t) : Prop :=
  method_inv m p st r /\ uri_inv m p st r /\ version_inv r.

(** What holds when the parser is done with the byte at [p]. *)
Definition done_inv (m : list Z) (p : nat) (r : request_t) : Prop :=
  method_known m p r /\ uri_known m p r /\ version_inv r.

(** ** Every step keeps the invariant *)

Lemma uri_step_space p ust r :
  ust <> uri_sw_start ->
  uri_step p " "%ch ust r =
    Ok (Some (match ust with uri_sw_uri => uri_sw_uri | _ => uri_sw_check_uri end, r <| space_in_uri := true |>)).
Proof. by destruct ust. Qed.

(** The spaces turn out to be part of the URI. *)
Lemma scan_spaces m s e p ust r :
  scanned m s e ust r -> (e < p)%nat -> spaces m e p ->
  scanned m s p (match ust with uri_sw_uri => uri_sw_uri | _ => uri_sw_check_uri end) (r <| space_in_uri := true |>).
Proof.
  intros H Hep Hs. set (ust' := match ust with uri_sw_uri => uri_sw_uri | _ => uri_sw_check_uri end).
  assert (Hne : ust' <> uri_sw_start) by (subst ust'; by destruct ust). assert (Hb : byte_ok " "%ch) by done.
  assert (Hu : uri_char " "%ch) by done. induction p as [|p IH]; [lia|].
  destruct (decide (e = p)) as [->|Hn].
  - eapply (scanned_step m s p ust r " "%ch); [done|apply Hs; lia|done|done|apply uri_step_space, H|done].
  - assert (Hsp : spaces m e p) by (intros k Hk; apply Hs; lia).
    eapply (scanned_frame _ _ _ _ ((r <| space_in_uri := true |>) <| space_in_uri := true |>)); [|done].
    eapply (scanned_step m s p ust' _ " "%ch); [apply IH; [lia|done]|apply Hs; lia|done|done| |done].
    rewrite uri_step_space by done. subst ust'. by destruct ust.
Qed.

Section Steps.
Context (m : list Z) (p : nat) (ch : Z).
Hypothesis (Hb : bytes_ok m) (Hc : m !! p = Some ch) (Hroom : (S p < length m)%nat).

Definition step_ok (o : outcome line_action) : Prop :=
  exists a, o = Ok a /\
    match a with
    | Break st r => line_inv m (S p) st r
    | Back st r => line_inv m p st r /\ (st = sw_check_uri \/ st = sw_uri)
    | Goto_done r => done_inv m p r
    | Return rc r => rc = NGX_HTTP_PARSE_INVALID_METHOD \/ rc = NGX_HTTP_PARSE_INVALID_REQUEST
    end.

Lemma step_if (b : bool) x y :
  (b = true -> step_ok x) -> (b = false -> step_ok y) -> step_ok (if b then x else y).
Proof. destruct b; auto. Qed.

Lemma step_break st r : method_inv m (S p) st r -> uri_inv m (S p) st r -> version_inv r -> step_ok (Ok (Break st r)).
Proof. intros H1 H2 H3. by eexists. Qed.

Lemma step_done r : method_known m p r -> uri_known m p r -> version_inv r -> step_ok (Ok (Goto_done r)).
Proof. intros H1 H2 H3. by eexists. Qed.

Lemma step_invalid r : step_ok (invalid_request r).
Proof. eexists. split; [reflexivity|]. by right. Qed.

Lemma step_expect c st r :
  (ch = c -> method_inv m (S p) st r /\ uri_inv m (S p) st r /\ version_inv r) -> step_ok (expect ch c st r).
Proof.
  intros H. unfold expect. apply step_if; intros E; [|apply step_invalid].
  apply Z.eqb_eq in E. destruct (H E) as (H1 & H2 & H3). by apply step_break.
Qed.

(** The parts of the invariant, one byte later and with other fields changed. *)
Lemma method_later r r' p' :
  method_known m p r -> (request_start r', method_end r', method r') = (request_start r, method_end r, method r) ->
  (p <= p')%nat -> method_known m p' r'.
Proof.
  clear Hb Hc Hroom.
  intros (i & j & H1 & H2 & H3 & H4 & H5 & H6) [= E1 E2 E3] Hp. exists i, j. rewrite E1, E2, E3.
  repeat split; try done. lia.
Qed.

Lemma uri_later r r' p' :
  uri_known m p r -> uri_start r' = uri_start r -> uri_end r' = uri_end r -> view r' = view r -> (p <= p')%nat ->
  uri_known m p' r'.
Proof.
  clear Hb Hc Hroom.
  intros (s & e & ust & H1 & H2 & H3 & H4) E1 E2 E3 Hp. exists s, e, ust. rewrite E1, E2.
  repeat split; try done; [lia|..]; destruct H4; try done. by rewrite E3.
Qed.

Lemma schema_later r r' p' :
  schema_known m p r -> schema_end r' = schema_end r -> view r' = view r -> (p <= p')%nat -> schema_known m p' r'.
Proof.
  clear Hb Hc Hroom.
  intros (Hv & k & H1 & H2 & H3) E1 E2 Hp. split; [by rewrite E2|]. exists k. rewrite E1. repeat split; try done. lia.
Qed.

(** The URI begins with the byte at hand. *)
Lemma uri_begins r r' :
  ch = "/"%ch -> view r = new_request -> uri_start r' = Some p -> view r' = view r ->
  uri_inv m (S p) sw_after_slash_in_uri r'.
Proof.
  intros -> Hv Hs Hv'. exists p. split; [done|]. apply scanned_slash; [done|]. by rewrite Hv'.
Qed.

(** The URI is the slash after the schema. *)
Lemma no_uri_ok r r' :
  schema_known m p r -> method_known m p r' -> version_inv r' -> schema_end r' = schema_end r -> view r' = view r ->
  step_ok (no_uri r').
Proof.
  intros (Hv & k & H1 & H2 & H3) Hm Hver E1 E2. unfold no_uri. rewrite E1, H1. cbn [ptr_add mbind outcome_bind].
  apply step_break; [| |done].
  - by eapply method_later; [exact Hm| |lia].
  - exists (k + 1)%nat, (k + 2)%nat, uri_sw_after_slash_in_uri. split; [done|]. split; [done|]. split; [lia|].
    replace (k + 2)%nat with (S (k + 1)) by lia. apply scanned_slash; [done|]. rewrite <- Hv, <- E2. done.
Qed.
(** Case analysis on the comparisons of the byte with a character. *)
Ltac char_cases :=
  repeat (apply step_if;
          [let E := fresh "E" in intros E; apply Z.eqb_eq in E
          |let E := fresh "E" in intros E; apply Z.eqb_neq in E]).

(** The spaces after the URI. *)
Lemma http_09_ok st other r :
  method_known m p r -> uri_known m p r -> version_inv r -> st <> sw_start -> st <> sw_method ->
  (ch = " "%ch -> uri_inv m (S p) st r) -> (ch <> " "%ch -> step_ok other) ->
  step_ok (step_http_09 p ch st other r).
Proof.
  intros Hm Hu Hv Hs1 Hs2 Hsp Ho. unfold step_http_09.
  assert (Hv9 : version_inv (r <| http_minor := 9 |>)) by (destruct Hv; split; cbn; [done|lia]).
  char_cases.
  - apply step_break; [|by apply Hsp|done].
    assert (method_known m (S p) r) by (eapply method_later; [exact Hm|done|lia]). by destruct st.
  - apply step_break; [|by eapply uri_later; [exact Hu|..]; try done; lia|done].
    by eapply method_later; [exact Hm|..]; [done|lia].
  - apply step_done; [by eapply method_later; [exact Hm|..]; [done|lia]|by eapply uri_later; [exact Hu|..]; try done; lia|done].
  - apply step_break; [|by eapply uri_later; [exact Hu|..]; try done; lia|done].
    by eapply method_later; [exact Hm|..]; [done|lia].
  - by apply Ho.
Qed.

(** The byte may end the URI. *)
Lemma uri_end_ok s ust other r :
  method_known m p r -> uri_start r = Some s -> scanned m s p ust r -> version_inv r ->
  (ch <> " "%ch -> ch <> CR -> ch <> LF -> step_ok other) ->
  step_ok (step_uri_end p ch (space_state ust) other r).
Proof.
  intros Hm Hs Hu Hv Ho. unfold step_uri_end.
  assert (Hv9 : forall r', http_major r' = http_major r -> http_minor r' = 9 -> version_inv r').
  { intros r' E1 E2. destruct Hv. split; [by rewrite E1|lia]. }
  assert (Hm' : forall r' p', (request_start r', method_end r', method r') = (request_start r, method_end r, method r) ->
    (p <= p')%nat -> method_known m p' r') by (intros; by eapply method_later).
  assert (Hk : forall r' p', uri_start r' = uri_start r -> uri_end r' = Some p -> view r' = view r -> (p <= p')%nat ->
    uri_known m p' r').
  { intros r' p' E1 E2 E3 Hp. exists s, p, ust. rewrite E1. repeat split; try done; destruct Hu; try done. by rewrite E3. }
  char_cases.
  - assert (Hsp : spaces m p (S p)) by (intros k Hk'; replace k with p by lia; by rewrite Hc, E).
    apply step_break; [|destruct ust; cbn [space_state uri_inv]|done].
    + assert (method_known m (S p) (r <| uri_end := Some p |>)) by (apply Hm'; [done|lia]). by destruct ust.
    + by destruct (scanned_state _ _ _ _ _ Hu).
    + exists s, p, uri_sw_after_slash_in_uri. split_and!; try done; [lia|by eapply scanned_frame].
    + exists s, p, uri_sw_check_uri. split_and!; try done; [lia|by eapply scanned_frame].
    + exists s, p. split_and!; try done; [lia|by eapply scanned_frame].
  - apply step_break; [apply Hm'; [done|lia]|apply Hk; try done; lia|by apply Hv9].
  - apply step_done; [apply Hm'; [done|lia]|apply Hk; try done; lia|by apply Hv9].
  - by apply Ho.
Qed.

(** Any other byte is handled as by ngx_http_parse_uri. *)
Lemma line_step_uri ust r :
  ust <> uri_sw_start -> uri_char ch -> ch <> " "%ch ->
  line_step m p ch (line_of ust) r =
    match uri_step p ch ust r with
    | Ok (Some (ust', r')) => Ok (Break (line_of ust') r')
    | _ => UB
    end.
Proof.
  intros Hne (N1 & N2 & N3) N4. assert (Hbc : byte_ok ch) by exact (Forall_lookup_1 _ _ _ _ Hb Hc).
  destruct ust; [done|..]; cbn [line_of]; line_cbn;
    unfold step_after_slash_in_uri, step_check_uri, step_uri, step_uri_end, uri_step;
    rewrite usual_bit_special by done; cbn [mbind outcome_bind]; destruct (special ch); cbn [negb];
    rewrite ?(proj2 (Z.eqb_neq ch " "%ch)), ?(proj2 (Z.eqb_neq ch CR)), ?(proj2 (Z.eqb_neq ch LF)),
      ?(proj2 (Z.eqb_neq ch 0)) by done; try done.
  all: split_tests; done.
Qed.

Lemma scan_ok s ust r :
  method_known m p r -> uri_start r = Some s -> scanned m s p ust r -> version_inv r -> uri_char ch -> ch <> " "%ch ->
  step_ok (line_step m p ch (line_of ust) r).
Proof.
  intros Hm Hs Hu Hv Hch Hsp. assert (Hbc : byte_ok ch) by exact (Forall_lookup_1 _ _ _ _ Hb Hc).
  pose proof (scanned_state _ _ _ _ _ Hu) as Hne. rewrite line_step_uri by done.
  destruct (uri_step_total p ch ust r Hbc) as (ust' & r' & Hstep & Hne'); [done|]. rewrite Hstep.
  pose proof (uri_step_frame _ _ _ _ _ _ Hbc Hstep) as Hf. injection Hf as F1 F2 F3 F4 F5 F6 F7 _.
  pose proof (scanned_step _ _ _ _ _ _ _ _ Hu Hc Hbc Hch Hstep Hne') as Hu'.
  assert (Hm' : method_known m (S p) r') by (eapply method_later; [exact Hm|by rewrite F1, F2, F3|lia]).
  apply step_break; [by destruct ust'| |unfold version_inv; by rewrite F4, F5].
  destruct ust'; [done|..]; exists s; by rewrite F6.
Qed.

Lemma uri_states_ok s ust r :
  method_known m p r -> uri_start r = Some s -> scanned m s p ust r -> version_inv r ->
  step_ok (line_step m p ch (line_of ust) r).
Proof.
  intros Hm Hs Hu Hv.
  destruct (decide (ch = " "%ch \/ ch = CR \/ ch = LF \/ ch = 0)) as [Hst|Hst].
  - pose proof (fun other => uri_end_ok s ust other r Hm Hs Hu Hv) as Hend. unfold step_uri_end in Hend.
    pose proof (scanned_state _ _ _ _ _ Hu) as Hne.
    destruct Hst as [->|[->|[->| ->]]]; destruct ust; try done; cbn;
      try (by apply (Hend UB)); apply step_invalid.
  - apply (scan_ok s); try done; [|tauto]. unfold uri_char. tauto.
Qed.
Lemma step_method_state r : line_inv m p sw_method r -> step_ok (step_method m p ch r).
Proof.
  intros ((Hm & i & Hi & Hip) & Hu & Hv). unfold step_method. apply step_if; intros E.
  - rewrite Hi. apply Z.eqb_eq in E. change (method (r <| method_end := Some (p - 1)%nat |>)) with (method r).
    rewrite (find_method_ok m i p (slice m i p) eq_refl Hb) by (done || lia || by rewrite Hc, E). cbn [mbind outcome_bind].
    apply step_break; [|exact Hu|exact Hv]. exists i, p. rewrite Hm. repeat split; try done; [lia|]. by rewrite Hc, E.
  - apply step_if; intros _; [eexists; split; [reflexivity|by left]|].
    apply step_break; [|exact Hu|exact Hv]. split; [done|]. exists i. split; [done|lia].
Qed.

Lemma step_host_end_ok r r' :
  schema_known m p r -> method_known m p r' -> version_inv r' -> schema_end r' = schema_end r -> view r' = view r ->
  step_ok (step_host_end p ch r').
Proof.
  intros Hs Hm Hv E1 E2. unfold step_host_end. char_cases; [| | |apply step_invalid].
  - apply step_break; [eapply method_later; [exact Hm|done|lia]|eapply schema_later; [exact Hs|done|done|lia]|done].
  - apply step_break; [eapply method_later; [exact Hm|done|lia]| |done]. eapply (uri_begins r'); try done.
    rewrite E2. apply Hs.
  - by apply (no_uri_ok r).
Qed.

Lemma step_host_ok r r' :
  schema_known m p r -> method_known m p r' -> version_inv r' -> schema_end r' = schema_end r -> view r' = view r ->
  step_ok (step_host p ch r').
Proof.
  intros Hs Hm Hv E1 E2. unfold step_host.
  assert (Hstay : step_ok (Ok (Break sw_host r'))).
  { apply step_break; [eapply method_later; [exact Hm|done|lia]|eapply schema_later; [exact Hs|done|done|lia]|done]. }
  do 2 (apply step_if; intros _; [done|]). by apply (step_host_end_ok r).
Qed.

(** The digits of the version. *)
Lemma step_digit_ok st r r' :
  method_known m p r -> uri_known m p r -> (request_start r', method_end r', method r') = (request_start r, method_end r, method r) ->
  uri_start r' = uri_start r -> uri_end r' = uri_end r -> view r' = view r -> version_inv r' ->
  st = sw_major_digit \/ st = sw_minor_digit -> step_ok (Ok (Break st r')).
Proof.
  intros Hm Hu E1 E2 E3 E4 Hv Hst.
  assert (Hm' : method_known m (S p) r') by (eapply method_later; [exact Hm|done|lia]).
  assert (Hu' : uri_known m (S p) r') by (eapply uri_later; [exact Hu|done|done|done|lia]).
  destruct Hst as [-> | ->]; by apply step_break.
Qed.

Lemma step_start_ok r : line_inv m p sw_start r -> step_ok (line_step m p ch sw_start r).
Proof.
  intros (Hm & Hu & Hv). line_cbn. repeat (apply step_if; intros _).
  - by apply step_break.
  - eexists. split; [reflexivity|by left].
  - apply step_break; try done. split; [done|]. exists p. split; [done|lia].
Qed.

Lemma step_before_uri_ok st r :
  st = sw_spaces_before_uri \/ st = sw_schema \/ st = sw_schema_slash \/ st = sw_schema_slash_slash ->
  line_inv m p st r -> step_ok (line_step m p ch st r).
Proof.
  intros Hst (Hm & Hu & Hv).
  assert (Hm' : forall r', (request_start r', method_end r', method r') = (request_start r, method_end r, method r) ->
    method_known m p r -> method_known m (S p) r') by (intros r' E HM; eapply method_later; [exact HM|done|lia]).
  destruct Hst as [->|[->|[->| ->]]]; cbn [line_step step_start step_before_uri step_schema step_host_start step_after_uri method_inv uri_inv] in *.
  - char_cases; [|apply step_if; intros _].
    + apply step_break; [by apply Hm'| |done]. by eapply (uri_begins r).
    + apply step_break; [by apply Hm'|done|done].
    + apply step_expect. intros _. split; [by apply Hm'|done].
  - apply step_if; intros _; [|apply step_if; intros _; [|apply step_invalid]].
    + apply step_break; [by apply Hm'|done|done].
    + apply step_break; [by apply Hm'| |done]. split; [done|]. exists p. split; [done|lia].
  - apply step_expect. intros E. destruct Hu as (Hu & k & Hk & Hp). split; [by apply Hm'|]. split; [|done].
    split; [done|]. exists k. split; [done|]. split; [lia|]. by rewrite <- Hp, Hc, E.
  - apply step_expect. intros E. destruct Hu as (Hu & k & Hk & Hp & Hs). split; [by apply Hm'|]. split; [|done].
    split; [done|]. exists k. split; [done|]. split; [lia|done].
Qed.
Lemma step_host_states_ok st r :
  st = sw_host_start \/ st = sw_host \/ st = sw_host_end \/ st = sw_host_ip_literal \/ st = sw_port ->
  line_inv m p st r -> step_ok (line_step m p ch st r).
Proof.
  intros Hst (Hm & Hu & Hv).
  assert (Hk : schema_known m p r /\ method_known m p r) by (by destruct Hst as [->|[->|[->|[->| ->]]]]).
  destruct Hk as [Hs HM]. clear Hm Hu.
  assert (Hm : forall r', (request_start r', method_end r', method r') = (request_start r, method_end r, method r) ->
    method_known m (S p) r') by (intros r' E; eapply method_later; [exact HM|done|lia]).
  assert (Hsl : forall r', schema_end r' = schema_end r -> view r' = view r -> schema_known m (S p) r')
    by (intros r' E1 E2; eapply schema_later; [exact Hs|done|done|lia]).
  destruct Hst as [->|[->|[->|[->| ->]]]]; line_cbn.
  - apply step_if; intros _; [apply step_break; [by apply Hm|by apply Hsl|done]|].
    apply (step_host_ok r); try done.
  - by apply (step_host_ok r).
  - by apply (step_host_end_ok r).
  - do 5 (apply step_if; intros _; [apply step_break; [by apply Hm|by apply Hsl|done]|]). apply step_invalid.
  - apply step_if; intros _; [apply step_break; [by apply Hm|by apply Hsl|done]|]. char_cases; [| |apply step_invalid].
    + apply step_break; [by apply Hm| |done]. eapply (uri_begins (r <| port_end := Some p |>)); try done. apply Hs.
    + by apply (no_uri_ok r).
Qed.

(** The states after the URI. *)
Lemma step_http_states_ok st r :
  line_inv m p st r ->
  st = sw_host_http_09 \/ st = sw_check_uri_http_09 \/ st = sw_http_09 -> step_ok (line_step m p ch st r).
Proof.
  intros (Hm & Hu & Hv) Hst. destruct Hst as [->|[->| ->]]; cbn [line_step step_start step_before_uri step_schema step_host_start step_after_uri method_inv uri_inv] in *.
  - apply http_09_ok; try done; intros _; [|apply step_invalid]. eapply uri_later; [exact Hu|..]; try done. lia.
  - destruct Hu as (s & e & ust & H1 & H2 & H3 & H4 & H5 & H6).
    apply http_09_ok; try done.
    + exists s, e, ust. split_and!; try done. lia.
    + intros Ec. exists s, e, ust. split_and!; try done; [lia|]. intros k Hk.
      destruct (decide (k = p)) as [->|]; [by rewrite Hc, Ec|apply H6; lia].
    + intros _. eexists. split; [reflexivity|]. split; [|by left]. split; [|split; [|done]].
      * by eapply method_later; [exact Hm|done|lia].
      * exists s. split; [done|]. pose proof (scan_spaces m s e p ust r H4 H3 H6) as Hs. by destruct ust.
  - destruct Hu as (s & e & H1 & H2 & H3 & H4 & H6).
    apply http_09_ok; try done.
    + exists s, e, uri_sw_uri. split_and!; try done. lia.
    + intros Ec. exists s, e. split_and!; try done; [lia|]. intros k Hk.
      destruct (decide (k = p)) as [->|]; [by rewrite Hc, Ec|apply H6; lia].
    + intros _. eexists. split; [reflexivity|]. split; [|by right]. split; [|split; [|done]].
      * by eapply method_later; [exact Hm|done|lia].
      * exists s. split; [done|]. by pose proof (scan_spaces m s e p uri_sw_uri r H4 H3 H6).
Qed.

Lemma step_version_ok st r :
  line_inv m p st r ->
  st = sw_http_H \/ st = sw_http_HT \/ st = sw_http_HTT \/ st = sw_http_HTTP \/ st = sw_first_major_digit \/
  st = sw_major_digit \/ st = sw_first_minor_digit \/ st = sw_minor_digit \/ st = sw_spaces_after_digit \/
  st = sw_almost_done -> step_ok (line_step m p ch st r).
Proof.
  intros (Hm0 & Hu0 & Hv) Hst. assert (Hb' : byte_ok ch) by exact (Forall_lookup_1 _ _ _ _ Hb Hc).
  assert (HM : method_known m p r /\ uri_known m p r)
    by (by destruct Hst as [->|[->|[->|[->|[->|[->|[->|[->|[->| ->]]]]]]]]]).
  destruct HM as [HM HU]. clear Hm0 Hu0.
  assert (Hm : method_known m (S p) r) by (eapply method_later; [exact HM|done|lia]).
  assert (Hu : uri_known m (S p) r) by (eapply uri_later; [exact HU|done|done|done|lia]).
  assert (Hdig : forall f st', version_inv f ->
    (request_start f, method_end f, method f) = (request_start r, method_end r, method r) ->
    uri_start f = uri_start r -> uri_end f = uri_end r -> view f = view r ->
    st' = sw_major_digit \/ st' = sw_minor_digit -> step_ok (Ok (Break st' f))).
  { intros f st' Hvf E1 E2 E3 E4 Hs. by apply (step_digit_ok st' r). }
  destruct Hv as [Hv1 Hv2]. unfold byte_ok in Hb'.
  destruct Hst as [->|[->|[->|[->|[->|[->|[->|[->|[->| ->]]]]]]]]]; line_cbn.
  1-4: apply step_expect; intros _; split; [exact Hm|split; [exact Hu|by split]].
  - apply step_if; intros E; [apply step_invalid|]. apply orb_false_iff in E as [E1%Z.ltb_ge E2%Z.ltb_ge].
    apply Hdig; try done; [|by left]. split; cbn; [|done]. unfold to_u16. rewrite Z.mod_small; lia.
  - apply step_if; intros _; [by apply step_break|]. apply step_if; intros E; [apply step_invalid|].
    apply step_if; intros E'; [apply step_invalid|]. apply orb_false_iff in E as [E1%Z.ltb_ge E2%Z.ltb_ge].
    apply Z.ltb_ge in E'. apply Hdig; try done; [|by left]. split; cbn; [|done].
    unfold to_u16. rewrite Z.mod_small; lia.
  - apply step_if; intros E; [apply step_invalid|]. apply orb_false_iff in E as [E1%Z.ltb_ge E2%Z.ltb_ge].
    apply Hdig; try done; [|by right]. split; cbn; [done|]. unfold to_u16. rewrite Z.mod_small; lia.
  - char_cases; [apply step_break; [exact Hm|exact Hu|by split]|apply step_done; [exact HM|exact HU|by split]|apply step_break; [exact Hm|exact Hu|by split]|]. apply step_if; intros F; [apply step_invalid|].
    apply step_if; intros E'; [apply step_invalid|]. apply orb_false_iff in F as [E3%Z.ltb_ge E2%Z.ltb_ge].
    apply Z.ltb_ge in E'. apply Hdig; try done; [|by right]. split; cbn; [done|].
    unfold to_u16. rewrite Z.mod_small; lia.
  - char_cases; [by apply step_break|by apply step_break|by apply step_done|apply step_invalid].
  - apply step_if; intros _; [|apply step_invalid]. apply step_done; [exact HM|eapply uri_later; [exact HU|done|done|done|lia]|by split].
Qed.

(** No byte makes the parser access memory outside the buffer or a NULL pointer,
    and the invariant holds again. *)
Lemma line_step_ok st r : line_inv m p st r -> step_ok (line_step m p ch st r).
Proof.
  intros H. destruct st; try (apply step_version_ok; [done|tauto]); try (apply step_http_states_ok; [done|tauto]);
    try (apply step_host_states_ok; [tauto|done]); try (apply step_before_uri_ok; [tauto|done]).
  - by apply step_start_ok.
  - by apply step_method_state.
  - destruct H as (Hm & (s & Hs & Hu) & Hv). by apply (uri_states_ok s uri_sw_after_slash_in_uri).
  - destruct H as (Hm & (s & Hs & Hu) & Hv). by apply (uri_states_ok s uri_sw_check_uri).
  - destruct H as (Hm & (s & Hs & Hu) & Hv). by apply (uri_states_ok s uri_sw_uri).
Qed.
End Steps.

(** * The loop *)

(** The states that may put a byte back. *)
Definition puts_back (st : line_state) : bool :=
  match st with sw_check_uri_http_09 | sw_http_09 => true | _ => false end.

Definition no_back (o : outcome line_action) : Prop := forall st r, o <> Ok (Back st r).

Lemma no_back_if (b : bool) x y : no_back x -> no_back y -> no_back (if b then x else y).
Proof. by destruct b. Qed.

Lemma no_back_bind {A} (o : outcome A) f : (forall a, no_back (f a)) -> no_back (a ← o; f a).
Proof. intros H. by destruct o; [apply H|..]. Qed.

Lemma line_step_back m p ch st r st' r' :
  line_step m p ch st r = Ok (Back st' r') -> puts_back st = true /\ puts_back st' = false.
Proof.
  assert (Hno : puts_back st = false -> no_back (line_step m p ch st r)).
  { intros Hp. destruct st; try discriminate Hp; line_cbn;
      unfold step_method, step_host, step_host_end, no_uri, step_http_09, step_after_slash_in_uri, step_check_uri,
        step_uri, step_uri_end, expect, invalid_request;
      repeat first [apply no_back_if|apply no_back_bind; intros ?|by intros ??]; try (by intros ??).
    destruct (request_start r); [apply no_back_bind; intros ?|]; by intros ??. }
  destruct (puts_back st) eqn:E; [|by intros H; destruct (Hno eq_refl st' r')].
  intros H. split; [done|]. destruct st; try discriminate E; cbn in H; unfold step_http_09, invalid_request in H;
    repeat match type of H with context [if ?b then _ else _] => destruct b end; by inversion H.
Qed.

(** The rounds that the loop may need. *)
Definition rounds (last p : nat) (st : line_state) : nat :=
  S (2 * (last - p)) - (if puts_back st then 0 else if (p <? last)%nat then 1 else 0).

Lemma rounds_break last p st st' : (p < last)%nat -> (rounds last (S p) st' < rounds last p st)%nat.
Proof.
  intros H. unfold rounds. destruct (Nat.ltb_spec p last); [|lia].
  destruct (puts_back st), (puts_back st'), (Nat.ltb_spec (S p) last); lia.
Qed.

Lemma rounds_back last p st st' :
  (p < last)%nat -> puts_back st = true -> puts_back st' = false -> (rounds last p st' < rounds last p st)%nat.
Proof. intros H H1 H2. unfold rounds. rewrite H1, H2. destruct (Nat.ltb_spec p last); lia. Qed.

(** One round, with the fuel for the rest left open. *)
Definition line_round (rest : nat -> line_state -> request_t -> outcome line_result)
    (m : list Z) (old : line_state) (pos last p : nat) (st : line_state) (r : request_t) : outcome line_result :=
  if (p <? last)%nat then
    ch ← deref m p;
    a ← line_step m p ch st r;
    match a with
    | Break st r => rest (S p) st r
    | Back st r => rest p st r
    | Goto_done r => Ok (line_done p r)
    | Return rc r => Ok (rc, old, r, pos)
    end
  else Ok (NGX_AGAIN, st, r, p).

Lemma line_loop_S fuel m old pos last p st r :
  line_loop (S fuel) m old pos last p st r = line_round (line_loop fuel m old pos last) m old pos last p st r.
Proof. reflexivity. Qed.

(** Fuel for the rounds that may be needed is fuel enough. *)
Lemma line_loop_fuel m old pos last f1 : forall f2 p st r,
  (rounds last p st <= f1)%nat -> (rounds last p st <= f2)%nat ->
  line_loop f1 m old pos last p st r = line_loop f2 m old pos last p st r.
Proof.
  induction f1 as [|f1 IH]; intros f2 p st r H1 H2.
  { unfold rounds in H1. destruct (puts_back st), (Nat.ltb_spec p last); lia. }
  destruct f2 as [|f2].
  { unfold rounds in H2. destruct (puts_back st), (Nat.ltb_spec p last); lia. }
  rewrite !line_loop_S. unfold line_round. destruct (Nat.ltb_spec p last) as [Hp|]; [|done].
  destruct (deref m p) as [ch| |]; try done. cbn [mbind outcome_bind].
  destruct (line_step m p ch st r) as [[st' r'|st' r'| |]| |] eqn:E; try done; cbn [mbind outcome_bind].
  - pose proof (rounds_break last p st st' Hp). apply IH; lia.
  - apply line_step_back in E as [E1 E2]. pose proof (rounds_back last p st st' Hp E1 E2). apply IH; lia.
Qed.

Lemma rounds_enough last pos st : (pos <= last)%nat -> (rounds last pos st <= S (2 * (last - pos)))%nat.
Proof. unfold rounds. lia. Qed.

(** ** The result *)

(** What the parser returns, and what holds then. *)
Definition result_ok (m : list Z) (last : nat) (x : line_result) : Prop :=
  let '(rc, st, r, q) := x in
  (rc = NGX_AGAIN /\ q = last /\ line_inv m last st r) \/
  ((rc = NGX_OK \/ rc = NGX_HTTP_PARSE_INVALID_09_METHOD) /\ st = sw_start /\
     exists p r', (p < last)%nat /\ x = line_done p r' /\ done_inv m p r') \/
  rc = NGX_HTTP_PARSE_INVALID_METHOD \/ rc = NGX_HTTP_PARSE_INVALID_REQUEST.

(** The request when the parser is done. *)
Definition done_request (p : nat) (r : request_t) : request_t :=
  let r := if decide (request_end r = None) then r <| request_end := Some p |> else r in
  r <| http_version := http_major r * 1000 + http_minor r |>.

Lemma line_done_spec p r :
  exists rc, line_done p r = (rc, sw_start, done_request p r, S p) /\
    (rc = NGX_OK \/ rc = NGX_HTTP_PARSE_INVALID_09_METHOD).
Proof. unfold line_done, done_request. cbv zeta. destruct (_ && _); eexists; split; try reflexivity; tauto. Qed.

Lemma line_loop_ok m old pos last fuel : forall p st r,
  bytes_ok m -> (last < length m)%nat -> (p <= last)%nat -> line_inv m p st r -> (rounds last p st <= fuel)%nat ->
  exists x, line_loop fuel m old pos last p st r = Ok x /\ result_ok m last x.
Proof.
  induction fuel as [|fuel IH]; intros p st r Hb Hl Hp Hi Hf.
  { unfold rounds in Hf. destruct (puts_back st), (Nat.ltb_spec p last); lia. }
  rewrite line_loop_S. unfold line_round. destruct (Nat.ltb_spec p last) as [Hlt|].
  2:{ replace p with last in * by lia. eexists. split; [reflexivity|]. by left. }
  destruct (lookup_lt_is_Some_2 m p) as [ch Hc]; [lia|]. rewrite (deref_lookup _ _ _ Hc). cbn [mbind outcome_bind].
  destruct (line_step_ok m p ch Hb Hc ltac:(lia) st r Hi) as (a & Ha & Hstep). rewrite Ha. cbn [mbind outcome_bind].
  destruct a as [st' r'|st' r'|r'|rc r'].
  - pose proof (rounds_break last p st st' Hlt). apply IH; try done; lia.
  - apply line_step_back in Ha as [E1 E2]. pose proof (rounds_back last p st st' Hlt E1 E2).
    destruct Hstep as [Hi' _]. apply IH; try done; lia.
  - exists (line_done p r'). split; [done|]. destruct (line_done_spec p r') as (rc & E & Hrc).
    unfold result_ok. rewrite E. right; left. split; [done|]. split; [done|]. by exists p, r'.
  - eexists. split; [reflexivity|]. right; right. done.
Qed.

(** * Fragments *)

(** A step looks at the bytes up to its own only, although it reads one more. *)
Lemma line_step_agree m1 m2 last p ch st r :
  bytes_ok m1 -> bytes_ok m2 -> take last m1 = take last m2 -> (p < last)%nat -> (last < length m1)%nat ->
  (last < length m2)%nat -> m1 !! p = Some ch -> line_inv m1 p st r -> line_step m1 p ch st r = line_step m2 p ch st r.
Proof.
  intros Hb1 Hb2 E Hp Hl1 Hl2 Hc (Hm & _). destruct st; try reflexivity. destruct Hm as (_ & i & Hi & Hip).
  line_cbn. unfold step_method. destruct (Z.eqb_spec ch " "%ch) as [->|]; [|done]. rewrite Hi.
  rewrite (find_method_ok m1 i p _ eq_refl) by (done || lia).
  rewrite (find_method_ok m2 i p _ eq_refl) by (done || lia || by rewrite <- (lookup_agree m1 m2 last)).
  by rewrite (slice_agree m1 m2 i p last) by (done || lia).
Qed.

(** More bytes: a result that is final stays, and the parser goes on from where
    it stopped otherwise. *)
Lemma line_loop_extend m1 m2 old pos last1 last2 f1 : forall f2 p st r rc st1 r1 p1,
  bytes_ok m1 -> bytes_ok m2 -> take last1 m1 = take last1 m2 -> (last1 < length m1)%nat -> (last2 < length m2)%nat ->
  (p <= last1)%nat -> (last1 <= last2)%nat -> line_inv m1 p st r -> (rounds last2 p st <= f2)%nat ->
  line_loop f1 m1 old pos last1 p st r = Ok (rc, st1, r1, p1) ->
  line_loop f2 m2 old pos last2 p st r =
    if rc =? NGX_AGAIN then line_loop (S (2 * (last2 - p1))) m2 old pos last2 p1 st1 r1 else Ok (rc, st1, r1, p1).
Proof.
  induction f1 as [|f1 IH]; intros f2 p st r rc st1 r1 p1 Hb1 Hb2 E Hl1 Hl2 Hp Hll Hi Hf H; [done|].
  destruct f2 as [|f2].
  { unfold rounds in Hf. destruct (puts_back st), (Nat.ltb_spec p last2); lia. }
  rewrite line_loop_S in H. unfold line_round in H. destruct (Nat.ltb_spec p last1) as [Hlt|].
  2:{ injection H as <- <- <- <-. change (NGX_AGAIN =? NGX_AGAIN) with true. cbn iota.
      apply line_loop_fuel; [done|]. apply rounds_enough. lia. }
  destruct (lookup_lt_is_Some_2 m1 p) as [ch Hc]; [lia|]. rewrite (deref_lookup _ _ _ Hc) in H. cbn [mbind outcome_bind] in H.
  rewrite line_loop_S. unfold line_round. rewrite (proj2 (Nat.ltb_lt p last2)) by lia.
  rewrite (deref_lookup m2 p ch) by (by rewrite <- (lookup_agree m1 m2 last1)). cbn [mbind outcome_bind].
  rewrite <- (line_step_agree m1 m2 last1) by (done || lia).
  destruct (line_step_ok m1 p ch Hb1 Hc ltac:(lia) st r Hi) as (a & Ha & Hstep). rewrite Ha in *. cbn [mbind outcome_bind] in *.
  destruct a as [st' r'|st' r'|r'|rc' r'].
  - pose proof (rounds_break last2 p st st' ltac:(lia)). by apply (IH f2 (S p) st' r'); try done; lia.
  - apply line_step_back in Ha as [E1 E2]. pose proof (rounds_back last2 p st st' ltac:(lia) E1 E2).
    destruct Hstep as [Hi' _]. by apply (IH f2 p st' r'); try done; lia.
  - destruct (line_done_spec p r') as (rc' & E' & Hrc). rewrite E' in *. injection H as <- <- <- <-.
    by destruct Hrc as [-> | ->].
  - injection H as <- <- <- <-. by destruct Hstep as [-> | ->].
Qed.

(** What the caller sees: the state and the position do not matter once the
    request is rejected. *)
Definition line_view (x : line_result) : Z * request_t * option (line_state * nat) :=
  let '(rc, st, r, q) := x in
  (rc, r, if decide (rc = NGX_HTTP_PARSE_INVALID_METHOD \/ rc = NGX_HTTP_PARSE_INVALID_REQUEST)
          then None else Some (st, q)).

(** The field [state] and [b->pos] on entry matter for a rejected request only. *)
Lemma line_loop_entry m last old pos old' pos' fuel : forall p st r,
  bytes_ok m -> (last < length m)%nat -> line_inv m p st r ->
  line_view <$> line_loop fuel m old pos last p st r = line_view <$> line_loop fuel m old' pos' last p st r.
Proof.
  induction fuel as [|fuel IH]; intros p st r Hb Hl Hi; [done|]. rewrite !line_loop_S. unfold line_round.
  destruct (Nat.ltb_spec p last); [|done].
  destruct (lookup_lt_is_Some_2 m p) as [ch Hc]; [lia|]. rewrite (deref_lookup _ _ _ Hc). cbn [mbind outcome_bind].
  destruct (line_step_ok m p ch Hb Hc ltac:(lia) st r Hi) as (a & -> & Hstep). cbn [mbind outcome_bind].
  destruct a as [st' r'|st' r'|r'|rc r']; [by apply IH|by apply IH; [..|apply Hstep]|done|].
  cbn. unfold line_view. by rewrite !decide_True by done.
Qed.

(** The successive calls, each with the buffer and [b->last] of its time, up to
    the first one that does not return NGX_AGAIN. *)
Fixpoint parse_fragments (calls : list (list Z * nat)) (pos : nat) (st : line_state) (r : request_t)
  : outcome line_result :=
  match calls with
  | [] => Ok (NGX_AGAIN, st, r, pos)
  | (m, last) :: calls' =>
      '(rc, st, r, q) ← ngx_http_parse_request_line m pos last st r;
      if rc =? NGX_AGAIN then parse_fragments calls' q st r else Ok (rc, st, r, q)
  end.

(** The bytes arrive in the same buffer, which has a byte to spare. *)
Fixpoint arriving (m : list Z) (last pos : nat) (calls : list (list Z * nat)) : Prop :=
  match calls with
  | [] => (pos <= last)%nat
  | (m1, last1) :: calls' =>
      (pos <= last1)%nat /\ bytes_ok m1 /\ take last1 m1 = take last1 m /\ (last1 < length m1)%nat /\
      arriving m last last1 calls'
  end.

Lemma arriving_le m last pos calls : arriving m last pos calls -> (pos <= last)%nat.
Proof.
  revert pos. induction calls as [|[m1 last1] calls IH]; intros pos H; [done|]. destruct H as (H & _ & _ & _ & Ha).
  apply IH in Ha. lia.
Qed.

(** The request as the parser expects it. *)
Definition fresh_request (r : request_t) : Prop :=
  method r = NGX_HTTP_UNKNOWN /\ view r = new_request /\ version_inv r.

(** The invariant depends on the bytes read only. *)
Lemma scanned_agree m m' s e p ust r :
  take p m = take p m' -> (e <= p)%nat -> scanned m s e ust r -> scanned m' s e ust r.
Proof.
  intros E He [H1 H2 H3 H4]. pose proof (slice_agree m m' s e p E He) as Es. by split; rewrite <- ?Es.
Qed.

Lemma method_agree m m' p r : take p m = take p m' -> method_known m p r -> method_known m' p r.
Proof.
  intros E (i & j & H1 & H2 & H3 & H4 & H5 & H6). exists i, j.
  rewrite <- (lookup_agree m m' p), <- (slice_agree m m' i j p) by (done || lia). done.
Qed.

Lemma uri_agree m m' p r : take p m = take p m' -> uri_known m p r -> uri_known m' p r.
Proof.
  intros E (s & e & ust & H1 & H2 & H3 & H4). exists s, e, ust. split_and!; try done. by eapply scanned_agree.
Qed.

Lemma line_inv_agree m m' p st r : take p m = take p m' -> line_inv m p st r -> line_inv m' p st r.
Proof.
  intros E (Hm & Hu & Hv). split; [|split; [|done]].
  - destruct st; try done; by eapply method_agree.
  - assert (Hsch : schema_known m p r -> schema_known m' p r).
    { intros (H1 & k & H2 & H3 & H4). split; [done|]. exists k. by rewrite <- (lookup_agree m m' p) by (done || lia). }
    assert (Hscan : forall ust, (exists s, uri_start r = Some s /\ scanned m s p ust r) ->
      exists s, uri_start r = Some s /\ scanned m' s p ust r).
    { intros ust (s & H1 & H2). exists s. split; [done|]. by eapply scanned_agree. }
    assert (Hsp : forall e, spaces m e p -> spaces m' e p).
    { intros e H k Hk. rewrite <- (lookup_agree m m' p) by (done || lia). by apply H. }
    destruct st; cbn [uri_inv] in *; try done; try (by apply Hsch); try (by apply Hscan); try (by eapply uri_agree).
    + destruct Hu as (H1 & k & H2 & H3 & H4). split; [done|]. exists k.
      by rewrite <- (lookup_agree m m' p) by (done || lia).
    + destruct Hu as (s & e & ust & H1 & H2 & H3 & H4 & H5 & H6). exists s, e, ust. split_and!; try done; [|by apply Hsp].
      eapply scanned_agree; [exact E|lia|done].
    + destruct Hu as (s & e & H1 & H2 & H3 & H4 & H6). exists s, e. split_and!; try done; [|by apply Hsp].
      eapply scanned_agree; [exact E|lia|done].
Qed.

Lemma fragments_from m last calls : forall pos st r,
  bytes_ok m -> (last < length m)%nat -> arriving m last pos calls -> line_inv m pos st r ->
  line_view <$> parse_fragments (calls ++ [(m, last)]) pos st r =
  line_view <$> ngx_http_parse_request_line m pos last st r.
Proof.
  induction calls as [|[m1 last1] calls IH]; intros pos st r Hb Hl Ha Hi; cbn [app parse_fragments].
  { destruct (ngx_http_parse_request_line m pos last st r) as [[[[rc st'] r'] q]| |]; try done.
    cbn [mbind outcome_bind]. by destruct (Z.eqb_spec rc NGX_AGAIN) as [->|]. }
  destruct Ha as (Hpos & Hb1 & E & Hl1 & Ha). pose proof (arriving_le _ _ _ _ Ha) as Hle.
  assert (Ep : take pos m = take pos m1).
  { replace pos with (pos `min` last1)%nat by lia. by rewrite <- !take_take, E. }
  pose proof (line_inv_agree _ _ _ _ _ Ep Hi) as Hi1.
  destruct (line_loop_ok m1 st pos last1 (S (2 * (last1 - pos))) pos st r Hb1 Hl1 Hpos Hi1
    (rounds_enough _ _ _ Hpos)) as ([[[rc st1] r1] p1] & H1 & Hok).
  pose proof (line_loop_extend m1 m st pos last1 last _ (S (2 * (last - pos))) pos st r rc st1 r1 p1 Hb1 Hb E Hl1 Hl Hpos Hle
    Hi1 ltac:(apply rounds_enough; lia) H1) as H2.
  unfold ngx_http_parse_request_line at 1. rewrite H1. cbn [mbind outcome_bind].
  unfold ngx_http_parse_request_line at 1. rewrite H2. destruct (Z.eqb_spec rc NGX_AGAIN) as [->|Hrc]; [|done].
  destruct Hok as [(_ & -> & Hok)|[([Hrc|Hrc] & _)|[Hrc|Hrc]]]; try discriminate Hrc.
  pose proof (line_inv_agree m1 m last1 _ _ E Hok) as Hi2. rewrite IH by done.
  apply line_loop_entry; done.
Qed.

(** C3. ngx_http_parse_request_line, resumed with NGX_AGAIN as the line arrives in
    any fragments, gives the same request and return code as on the whole line at once.
    *)
Theorem request_line_fragments m last pos calls r :
  bytes_ok m -> (last < length m)%nat -> arriving m last pos calls -> fresh_request r ->
  line_view <$> parse_fragments (calls ++ [(m, last)]) pos sw_start r =
  line_view <$> ngx_http_parse_request_line m pos last sw_start r.
Proof. intros Hb Hl Ha (H1 & H2 & H3). by apply fragments_from. Qed.

Definition demo_line : list Z := bytes "DELETE /a b.c HTTP/1.1" ++ [CR; LF; 0].

Lemma fresh_new : fresh_request new_request.
Proof. repeat split; vm_compute; done. Qed.

Lemma request_line_fragments_witness :
  line_view <$> parse_fragments ([(bytes "DELETE XXXXXXXXXXXXXXXXXX", 7%nat); (bytes "DELETE /a XXXXXXXXXXXXXXX", 10%nat)]
    ++ [(demo_line, 24%nat)]) 0 sw_start new_request =
  line_view <$> ngx_http_parse_request_line demo_line 0 24 sw_start new_request.
Proof.
  apply request_line_fragments; [apply bytes_okb_true; reflexivity|vm_compute; lia| |apply fresh_new].
  cbn [arriving]. repeat split; try lia; try (apply bytes_okb_true; reflexivity); cbn; lia.
Defined.

(** * The URI of an accepted line *)

(** The request without what ngx_http_parse_uri sets. *)
Definition unview (r : request_t) : request_t :=
  mk_request (method r) (http_version r) (http_major r) (http_minor r) false false false false
    (request_start r) (request_end r) (method_end r) (schema_start r) (schema_end r) (host_start r) (host_end r)
    (port_end r) (uri_start r) (uri_end r) None None (http_protocol r)
    (uri r) (args r) (exten r) (unparsed_uri r) (valid_unparsed_uri r).

Lemma view_unview r r' : view r = view r' -> unview r = unview r' -> r = r'.
Proof. destruct r, r'. unfold view, unview. cbn. intros [= -> -> -> -> -> -> -> ->] [=]. by subst. Qed.

Lemma unview_unview r : unview (unview r) = unview r.
Proof. by destruct r. Qed.

Lemma view_of_unview r : exten r = [] -> args r = [] -> view (unview r) = new_request.
Proof. destruct r. cbn. by intros -> ->. Qed.

Lemma uri_step_unview p c ust r ust' v :
  byte_ok c -> uri_step p c ust (view r) = Ok (Some (ust', v)) ->
  exists r', uri_step p c ust r = Ok (Some (ust', r')) /\ view r' = v /\ unview r' = unview r.
Proof.
  intros Hb. unfold uri_step. rewrite usual_bit_special by done. cbn [mbind outcome_bind].
  destruct ust, (special c); cbn [negb]; split_tests; intros [= <- <-]; by eexists.
Qed.

(** ngx_http_parse_uri finds the same. *)
Lemma uri_scan_parse m n : forall p ust r ust' v,
  bytes_ok m -> (p + n <= length m)%nat ->
  uri_scan p ust (view r) (slice m p (p + n)) = Some (ust', v) ->
  exists r', parse_uri_loop m n p ust r = Ok (NGX_OK, r') /\ view r' = v /\ unview r' = unview r.
Proof.
  induction n as [|n IH]; intros p ust r ust' v Hb Hl H.
  - rewrite Nat.add_0_r, slice_nil in H. injection H as _ <-. by exists r.
  - destruct (lookup_lt_is_Some_2 m p) as [c Hc]; [lia|]. rewrite (slice_cons m p _ c) in H by (done || lia).
    cbn [uri_scan parse_uri_loop] in *. rewrite (deref_lookup _ _ _ Hc). cbn [mbind outcome_bind].
    destruct (uri_step p c ust (view r)) as [[[ust1 v1]|]| |] eqn:E; try done.
    apply uri_step_unview in E as (r1 & -> & Hv & Hu); [|exact (Forall_lookup_1 _ _ _ _ Hb Hc)]. cbn [mbind outcome_bind].
    rewrite <- Hv, <- Nat.add_succ_comm in H. destruct (IH (S p) ust1 r1 ust' v Hb ltac:(lia) H) as (r' & H1 & H2 & H3).
    exists r'. by rewrite H3.
Qed.

(** The first byte of the URI is a slash. *)
Lemma scanned_slash_first m s e ust r :
  (e <= length m)%nat -> scanned m s e ust r -> exists u, slice m s e = "/"%ch :: u.
Proof.
  intros He [H1 H2 _ _]. destruct (lookup_lt_is_Some_2 m s) as [c Hc]; [lia|].
  rewrite (slice_cons m s e c) in * by done. exists (slice m (S s) e). f_equal. cbn [uri_scan] in H1.
  unfold uri_step in H1. destruct (usual_bit c) as [b| |]; try done. cbn [mbind outcome_bind] in H1.
  by destruct (Z.eqb_spec c "/"%ch).
Qed.

(** The request, were its URI not looked at yet. *)
Lemma known_fresh m p r :
  uri_known m p r -> bytes_ok m -> (p < length m)%nat -> exten r = [] -> args r = [] ->
  exists s e u, uri_start r = Some s /\ uri_end r = Some e /\ (s < e)%nat /\ (e <= p)%nat /\
    Forall uri_char (slice m s e) /\ fresh_uri m s e u (unview r) /\ ngx_http_parse_uri m (unview r) = Ok (NGX_OK, r).
Proof.
  intros (s & e & ust & Hs & He & Hep & Hsc) Hb Hp Hx Ha.
  destruct (scanned_slash_first m s e ust r ltac:(lia) Hsc) as [u Hu]. pose proof (scanned_lt _ _ _ _ _ Hsc) as Hlt.
  exists s, e, u. split_and!; try done; [exact (scanned_chars _ _ _ _ _ Hsc)|split; try done; lia|].
  unfold ngx_http_parse_uri. change (uri_start (unview r)) with (uri_start r). change (uri_end (unview r)) with (uri_end r).
  rewrite Hs, He, (proj2 (Nat.leb_le s e)) by lia. destruct Hsc as [H1 _ _ _].
  replace e with (s + (e - s))%nat in H1 by lia.
  pose proof (view_of_unview r Hx Ha) as Hv.
  rewrite <- Hv in H1. destruct (uri_scan_parse m (e - s) s _ (unview r) ust (view r) Hb ltac:(lia) H1) as (r' & -> & H2 & H3).
  rewrite unview_unview in H3. by rewrite (view_unview r' r H2 H3).
Qed.

Lemma done_request_fields p r :
  uri_start (done_request p r) = uri_start r /\ uri_end (done_request p r) = uri_end r /\
  view (done_request p r) = view r /\ method (done_request p r) = method r /\
  request_start (done_request p r) = request_start r /\ method_end (done_request p r) = method_end r /\
  http_version (done_request p r) = http_major r * 1000 + http_minor r /\
  http_major (done_request p r) = http_major r /\ http_minor (done_request p r) = http_minor r /\
  request_end (done_request p r) <> None.
Proof.
  unfold done_request. destruct (decide (request_end r = None)); cbn; repeat split; done.
Qed.

(** What an accepted line has given, [q] being the position after it. *)
Record line_accepted (m : list Z) (q : nat) (rc : Z) (r : request_t) : Prop := {
  accepted_code : rc = if (http_version r =? 9) && negb (method r =? NGX_HTTP_GET)
                       then NGX_HTTP_PARSE_INVALID_09_METHOD else NGX_OK;
  accepted_version : http_version r = http_major r * 1000 + http_minor r /\ 0 <= http_version r <= 999999;
  accepted_method : exists i j, request_start r = Some i /\ method_end r = Some (j - 1)%nat /\ (i < j < q)%nat /\
    m !! j = Some " "%ch /\ method r = method_code (slice m i j) NGX_HTTP_UNKNOWN;
  accepted_uri : exists s e u, uri_start r = Some s /\ uri_end r = Some e /\ (s < e < q)%nat /\
    slice m s e = "/"%ch :: u /\ Forall uri_char (slice m s e) /\
    ngx_http_parse_uri m (unview r) = Ok (NGX_OK, r)
}.

Lemma line_done_code p r :
  let r' := done_request p r in
  line_done p r = (if (http_version r' =? 9) && negb (method r' =? NGX_HTTP_GET)
                   then NGX_HTTP_PARSE_INVALID_09_METHOD else NGX_OK, sw_start, r', S p).
Proof. unfold line_done, done_request. cbv zeta. by destruct (_ && _). Qed.

Lemma uri_scan_rest l : forall p st r st' r',
  uri_scan p st r l = Some (st', r') -> bytes_ok l -> exten r' = exten r /\ args r' = args r.
Proof.
  induction l as [|c l IH]; intros p st r st' r' H Hb; [by injection H as _ <-|].
  apply bytes_ok_cons in Hb as [Hc Hb]. cbn [uri_scan] in H.
  destruct (uri_step p c st r) as [[[st1 r1]|]| |] eqn:E; try done. destruct (IH _ _ _ _ _ H Hb) as [-> ->].
  revert E. unfold uri_step. rewrite usual_bit_special by done. cbn [mbind outcome_bind].
  destruct st, (special c); cbn [negb]; split_tests; intros [= <- <-]; done.
Qed.

Lemma line_accepted_of m p r :
  done_inv m p r -> bytes_ok m -> (p < length m)%nat ->
  exists rc, line_done p r = (rc, sw_start, done_request p r, S p) /\ line_accepted m (S p) rc (done_request p r).
Proof.
  intros (Hm & Hu & Hv1 & Hv2) Hb Hp. destruct (done_request_fields p r) as (F1 & F2 & F3 & F4 & F5 & F6 & F7 & F8 & F9 & _).
  assert (Hvw : exten (done_request p r) = [] /\ args (done_request p r) = []).
  { destruct Hu as (s & e & ust & _ & _ & _ & [H1 _ _ _]). apply uri_scan_rest in H1; [|by apply Forall_take, Forall_drop].
    rewrite <- F3 in H1. exact H1. }
  destruct Hvw as [Hx Ha]. assert (Hu' : uri_known m p (done_request p r)) by (eapply uri_later; [exact Hu|done|done|done|lia]).
  destruct (known_fresh m p _ Hu' Hb Hp Hx Ha) as (s & e & u & G1 & G2 & G3 & G4 & G5 & G6 & G7).
  eexists. split; [apply line_done_code|]. split; [done| | |].
  - rewrite F7, F8, F9. split; [done|lia].
  - destruct Hm as (i & j & M1 & M2 & M3 & M4 & M5 & M6). exists i, j. rewrite F4, F5, F6. split_and!; try done; lia.
  - exists s, e, u. split_and!; try done; [lia|]. exact (fresh_slice _ _ _ _ _ G6).
Qed.

(** The request line: whatever the bytes, the parser stays in the buffer and
    gives one of five codes; an accepted line has a method, a version and a URI
    in it, and the URI has been looked at as ngx_http_parse_uri does. *)
Theorem request_line_sound m pos last r :
  bytes_ok m -> (pos <= last)%nat -> (last < length m)%nat -> fresh_request r ->
  exists rc st r' q, ngx_http_parse_request_line m pos last sw_start r = Ok (rc, st, r', q) /\
    (rc = NGX_AGAIN /\ q = last \/
     rc = NGX_HTTP_PARSE_INVALID_METHOD \/ rc = NGX_HTTP_PARSE_INVALID_REQUEST \/
     (rc = NGX_OK \/ rc = NGX_HTTP_PARSE_INVALID_09_METHOD) /\ st = sw_start /\ (q <= last)%nat /\
     line_accepted m q rc r').
Proof.
  intros Hb Hp Hl (H1 & H2 & H3).
  destruct (line_loop_ok m sw_start pos last (S (2 * (last - pos))) pos sw_start r Hb Hl Hp ltac:(done)
    (rounds_enough _ _ _ Hp)) as ([[[rc st] r'] q] & E & Hok).
  exists rc, st, r', q. split; [exact E|]. destruct Hok as [(-> & -> & _)|[(Hrc & -> & p & r1 & Hlt & Ex & Hd)|[->| ->]]]; [tauto| |tauto|tauto].
  right; right; right. split; [done|]. split; [done|].
  destruct (line_accepted_of m p r1 Hd Hb ltac:(lia)) as (rc' & E' & Ha). rewrite E' in Ex. injection Ex as -> -> ->.
  split; [lia|done].
Qed.

Lemma request_line_sound_witness :
  exists rc st r' q, ngx_http_parse_request_line demo_line 0 24 sw_start new_request = Ok (rc, st, r', q) /\
    (rc = NGX_AGAIN /\ q = 24%nat \/
     rc = NGX_HTTP_PARSE_INVALID_METHOD \/ rc = NGX_HTTP_PARSE_INVALID_REQUEST \/
     (rc = NGX_OK \/ rc = NGX_HTTP_PARSE_INVALID_09_METHOD) /\ st = sw_start /\ (q <= 24)%nat /\
     line_accepted demo_line q rc r').
Proof.
  apply request_line_sound; [apply bytes_okb_true; reflexivity|lia|vm_compute; lia|apply fresh_new].
Defined.

(** From the line to the URI: the composition of the two parsers. *)
Theorem request_line_target m pos last r st r' q merge alloc :
  bytes_ok m -> (pos <= last)%nat -> (last < length m)%nat -> fresh_request r ->
  ngx_http_parse_request_line m pos last sw_start r = Ok (NGX_OK, st, r', q) -> alloc_ok alloc ->
  exists s e, uri_start r' = Some s /\ uri_end r' = Some e /\ (s < e < q)%nat /\
    target_ok m merge alloc s e r'.
Proof.
  intros Hb Hp Hl (H1 & H2 & H3) H Halloc.
  destruct (line_loop_ok m sw_start pos last (S (2 * (last - pos))) pos sw_start r Hb Hl Hp ltac:(done)
    (rounds_enough _ _ _ Hp)) as ([[[rc st'] r1'] q'] & E & Hok).
  unfold ngx_http_parse_request_line in H. rewrite E in H. injection H as -> -> -> ->.
  destruct Hok as [(Hrc & _)|[(_ & _ & p & r1 & Hlt & Ex & Hd)|[Hrc|Hrc]]]; try discriminate Hrc.
  destruct (line_done_spec p r1) as (rc' & E' & _). rewrite E' in Ex. injection Ex as _ _ -> ->.
  destruct Hd as (_ & Hu & _). destruct (done_request_fields p r1) as (F1 & F2 & F3 & _).
  assert (Hvw : exten (done_request p r1) = [] /\ args (done_request p r1) = []).
  { destruct Hu as (s & e & ust & _ & _ & _ & [G1 _ _ _]). apply uri_scan_rest in G1; [|by apply Forall_take, Forall_drop].
    rewrite <- F3 in G1. exact G1. }
  destruct Hvw as [Hx Ha].
  assert (Hu' : uri_known m p (done_request p r1)) by (eapply uri_later; [exact Hu|done|done|done|lia]).
  destruct (known_fresh m p _ Hu' Hb ltac:(lia) Hx Ha) as (s & e & u & G1 & G2 & G3 & G4 & G5 & G6 & G7).
  exists s, e. split; [done|]. split; [done|]. split; [lia|].
  destruct (target_correct m merge alloc s e u _ G6 Halloc) as (r2 & E2 & Ht). rewrite G7 in E2. by injection E2 as <-.
Qed.

Lemma request_line_target_witness :
  exists st r' q, ngx_http_parse_request_line demo_line 0 24 sw_start new_request = Ok (NGX_OK, st, r', q) /\
    exists s e, uri_start r' = Some s /\ uri_end r' = Some e /\ (s < e < q)%nat /\
      target_ok demo_line true zeros s e r'.
Proof.
  do 3 eexists. split; [vm_compute; reflexivity|].
  edestruct (request_line_target demo_line 0 24 new_request) as (s & e & Hs & He & Hl & Ht);
    [apply bytes_okb_true; reflexivity|lia|vm_compute; lia|apply fresh_new|vm_compute; reflexivity|apply alloc_zeros|].
  exists s, e. split; [exact Hs|]. split; [exact He|]. split; [exact Hl|]. exact Ht.
Defined.
