(* ===== verification/HttpRequestAccept.v ===== *)
(** Request line: every well-formed line with an absolute path is accepted, and
    the fields of the request are the parts of the line. *)

From stdpp Require Import base numbers list option strings.
From Stdlib Require Import ZArith Lia.
From S2P Require Import Prelude Buffer HttpRequest HttpUri HttpUriTheory HttpRequestLine HttpRequestLineTheory.
Local Open Scope Z_scope.

(** * Well-formed lines *)

(** ** Numbers *)

(** The value of the digits of a version, [v] being that of those before. *)
Fixpoint version_value (v : Z) (ds : list Z) : option Z :=
  match ds with
  | [] => Some v
  | d :: ds' => if is_digit d && (v <=? 99) then version_value (v * 10 + (d - "0"%ch)) ds' else None
  end.

(** ** Lines *)

Record http_line : Type := mk_line {
  hl_method : list Z;
  hl_spaces : nat;
  hl_uri : list Z;
  hl_spaces2 : nat;
  hl_major : list Z;
  hl_minor : list Z;
  hl_eol : list Z
}.

Definition line_bytes (l : http_line) : list Z :=
  hl_method l ++ " "%ch :: replicate (hl_spaces l) " "%ch ++ "/"%ch :: hl_uri l ++
  " "%ch :: replicate (hl_spaces2 l) " "%ch ++ bytes "HTTP/" ++ hl_major l ++ "."%ch :: hl_minor l ++ hl_eol l.

Record line_wf (l : http_line) (major minor : Z) : Prop := {
  wf_method : hl_method l <> [] /\ Forall (fun c => not_method_char c = false) (hl_method l);
  wf_uri : Forall (fun c => uri_char c /\ c <> " "%ch) (hl_uri l);
  wf_major : exists d ds, hl_major l = d :: ds /\ "1"%ch <= d <= "9"%ch /\ version_value (d - "0"%ch) ds = Some major;
  wf_minor : exists d ds, hl_minor l = d :: ds /\ "0"%ch <= d <= "9"%ch /\ version_value (d - "0"%ch) ds = Some minor;
  wf_eol : hl_eol l = [LF] \/ hl_eol l = [CR; LF]
}.

(** * Runs of the loop *)

Lemma to_u16_small v : 0 <= v < 2 ^ 16 -> to_u16 v = v.
Proof. apply Z.mod_small. Qed.

Lemma version_value_range ds : forall v v', version_value v ds = Some v' -> 0 <= v <= 999 -> v <= v' <= 999.
Proof.
  induction ds as [|d ds IH]; intros v v' H Hv; [injection H as <-; lia|]. cbn in H. unfold is_digit in H.
  destruct (Z.leb_spec "0"%ch d); [|done]. destruct (Z.leb_spec d "9"%ch); [|done]. destruct (Z.leb_spec v 99); [|done].
  apply IH in H; lia.
Qed.

Lemma line_done_1 p r : 1 <= http_major r -> 0 <= http_minor r -> line_done p r = (NGX_OK, sw_start, done_request p r, S p).
Proof.
  intros H1 H2. rewrite line_done_code. destruct (done_request_fields p r) as (_ & _ & _ & _ & _ & _ & -> & _).
  by destruct (Z.eqb_spec (http_major r * 1000 + http_minor r) 9); [lia|].
Qed.

Lemma done_request_end p r : request_end r = None -> request_end (done_request p r) = Some p.
Proof. intros H. unfold done_request. by rewrite decide_True. Qed.

Section Run.
Context (m : list Z) (old : line_state) (pos last : nat).
Hypothesis (Hb : bytes_ok m) (Hlast : (last < length m)%nat).

Definition run (p : nat) (st : line_state) (r : request_t) : outcome line_result :=
  line_loop (S (2 * (last - p))) m old pos last p st r.

Lemma run_break p c st r st' r' :
  (p < last)%nat -> m !! p = Some c -> line_step m p c st r = Ok (Break st' r') -> run p st r = run (S p) st' r'.
Proof.
  intros Hp Hc Hs. unfold run at 1. rewrite line_loop_S. unfold line_round. rewrite (proj2 (Nat.ltb_lt _ _) Hp).
  rewrite (deref_lookup _ _ _ Hc). cbn [mbind outcome_bind]. rewrite Hs. cbn [mbind outcome_bind].
  apply line_loop_fuel; unfold rounds; destruct (puts_back st'), (Nat.ltb_spec (S p) last); lia.
Qed.

Lemma run_done p c st r r' :
  (p < last)%nat -> m !! p = Some c -> line_step m p c st r = Ok (Goto_done r') -> run p st r = Ok (line_done p r').
Proof.
  intros Hp Hc Hs. unfold run at 1. rewrite line_loop_S. unfold line_round. rewrite (proj2 (Nat.ltb_lt _ _) Hp).
  rewrite (deref_lookup _ _ _ Hc). cbn [mbind outcome_bind]. rewrite Hs. done.
Qed.

(** Bytes that leave everything as it is. *)
Lemma run_same l st r : forall p,
  holds m p l -> (p + length l <= last)%nat -> Forall (fun c => forall p, line_step m p c st r = Ok (Break st r)) l ->
  run p st r = run (p + length l) st r.
Proof.
  induction l as [|c l IH]; intros p H Hp Hl; [by rewrite Nat.add_0_r|]. cbn [length] in *.
  apply holds_cons in H as [Hc H]. apply Forall_cons in Hl as [Hs Hl].
  rewrite (run_break p c st r st r) by (done || lia). rewrite <- Nat.add_succ_comm. apply IH; [done|lia|done].
Qed.

(** A literal, character by character. *)
Lemma run_expect p c st st' r :
  (p < last)%nat -> m !! p = Some c -> line_step m p c st r = expect c c st' r -> run p st r = run (S p) st' r.
Proof. intros Hp Hc Hs. apply (run_break p c); try done. rewrite Hs. unfold expect. by rewrite Z.eqb_refl. Qed.

(** The bytes of a URI that are not spaces. *)
Lemma run_uri l : forall p ust r ust' r',
  holds m p l -> (p + length l <= last)%nat -> ust <> uri_sw_start -> Forall (fun c => uri_char c /\ c <> " "%ch) l ->
  uri_scan p ust r l = Some (ust', r') -> run p (line_of ust) r = run (p + length l) (line_of ust') r' /\ ust' <> uri_sw_start.
Proof.
  induction l as [|c l IH]; intros p ust r ust' r' H Hp Hne Hl Hs; [injection Hs as <- <-; by rewrite Nat.add_0_r|].
  cbn [length] in *. apply holds_cons in H as [Hc H]. apply Forall_cons in Hl as [[Hu Hsp] Hl].
  assert (Hbc : byte_ok c) by exact (Forall_lookup_1 _ _ _ _ Hb Hc).
  destruct (uri_step_total p c ust r Hbc) as (ust1 & r1 & E & Hne1); [done|]. cbn [uri_scan] in Hs. rewrite E in Hs.
  assert (Hstep : line_step m p c (line_of ust) r = Ok (Break (line_of ust1) r1)).
  { rewrite line_step_uri by done. by rewrite E. }
  rewrite (run_break p c _ _ _ _ ltac:(lia) Hc Hstep), <- Nat.add_succ_comm. apply IH; try done. lia.
Qed.

Lemma uri_scan_total l : forall p ust r, bytes_ok l -> ust <> uri_sw_start -> exists ust' r', uri_scan p ust r l = Some (ust', r').
Proof.
  induction l as [|c l IH]; intros p ust r Hl Hne; [by do 2 eexists|]. apply bytes_ok_cons in Hl as [Hc Hl]. cbn [uri_scan].
  destruct (uri_step_total p c ust r Hc) as (ust1 & r1 & -> & Hne1); [done|]. by apply IH.
Qed.

Lemma uri_scan_frame l : forall p ust r ust' r', uri_scan p ust r l = Some (ust', r') -> bytes_ok l -> frame r' = frame r.
Proof.
  induction l as [|c l IH]; intros p ust r ust' r' H Hl; [by injection H as _ <-|]. apply bytes_ok_cons in Hl as [Hc Hl].
  cbn [uri_scan] in H. destruct (uri_step p c ust r) as [[[ust1 r1]|]| |] eqn:E; try done.
  rewrite (IH _ _ _ _ _ H Hl). exact (uri_step_frame _ _ _ _ _ _ Hc E).
Qed.

(** ** The parts of a line *)

(** The line but for its last two parts: where the run is after each of them. *)
Lemma run_method p w r :
  holds m p (w ++ [" "%ch]) -> w <> [] -> Forall (fun c => not_method_char c = false) w ->
  (p + length w < last)%nat ->
  run p sw_start r = run (p + length w + 1) sw_spaces_before_uri
    (r <| request_start := Some p |> <| method_end := Some (p + length w - 1)%nat |>
       <| method := method_code w (method r) |>).
Proof.
  intros H Hne Hw Hp. destruct w as [|c w]; [done|clear Hne]. pose proof H as Hall.
  cbn [app length] in *. apply holds_cons in H as [Hc H]. apply Forall_cons in Hw as [Hcm Hw].
  apply holds_app in H as [H Hsp]. apply holds_cons in Hsp as [Hsp _].
  set (r1 := r <| request_start := Some p |>).
  rewrite (run_break p c sw_start r sw_method r1) by (done || lia || (line_cbn; unfold step_start; revert Hcm; unfold not_method_char; 
     destruct (Z.eqb_spec c CR) as [->|]; [done|]; destruct (Z.eqb_spec c LF) as [->|]; [done|]; intros ->; done)).
  rewrite (run_same w sw_method r1) by (done || lia || (eapply Forall_impl; [exact Hw|]; intros x Hx q; line_cbn;
     unfold step_method; destruct (Z.eqb_spec x " "%ch) as [->|]; [done|]; by rewrite Hx)).
  assert (Hslice : slice m p (S p + length w) = c :: w).
  { rewrite Nat.add_succ_comm. apply (holds_slice m (c :: w)). by apply (holds_app m p (c :: w)) in Hall as [Hall _]. }
  replace (p + S (length w) + 1)%nat with (S (S p + length w)) by lia.
  replace (p + S (length w) - 1)%nat with (S p + length w - 1)%nat by lia.
  apply (run_break _ " "%ch); [lia|done|]. line_cbn. unfold step_method. cbn [Z.eqb].
  change (request_start r1) with (Some p). change (method r) with (method r1). cbn iota.
  rewrite (find_method_ok m p _ (c :: w)) by (done || lia). done.
Qed.

Lemma run_spaces n st r p :
  holds m p (replicate n " "%ch) -> (p + n <= last)%nat ->
  (forall p, line_step m p " "%ch st r = Ok (Break st r)) -> run p st r = run (p + n) st r.
Proof.
  intros H Hp Hs. rewrite <- (length_replicate n " "%ch) at 1. apply run_same; [done|by rewrite length_replicate|].
  by apply Forall_replicate.
Qed.

Lemma run_before_uri n p r :
  holds m p (replicate n " "%ch ++ ["/"%ch]) -> (p + n < last)%nat ->
  run p sw_spaces_before_uri r = run (p + n + 1) sw_after_slash_in_uri (r <| uri_start := Some (p + n)%nat |>).
Proof.
  intros H Hp. apply holds_app in H as [H Hc]. rewrite length_replicate in Hc. apply holds_cons in Hc as [Hc _].
  rewrite (run_spaces n) by (done || lia). rewrite Nat.add_1_r. by apply (run_break _ "/"%ch).
Qed.

Lemma run_uri_end p ust r l :
  holds m p (l ++ [" "%ch]) -> (p + length l < last)%nat -> ust <> uri_sw_start ->
  Forall (fun c => uri_char c /\ c <> " "%ch) l ->
  exists ust' r', ust' <> uri_sw_start /\ frame r' = frame r /\
    run p (line_of ust) r = run (p + length l + 1) (space_state ust') (r' <| uri_end := Some (p + length l)%nat |>).
Proof.
  intros H Hp Hne Hl. apply holds_app in H as [H Hc]. apply holds_cons in Hc as [Hc _].
  assert (Hbl : bytes_ok l) by (rewrite <- (holds_slice m l p H); by apply Forall_take, Forall_drop).
  destruct (uri_scan_total l p ust r Hbl Hne) as (ust' & r' & Hs).
  destruct (run_uri l p ust r ust' r' H ltac:(lia) Hne Hl Hs) as [-> Hne']. exists ust', r'. split; [done|].
  split; [exact (uri_scan_frame l p ust r ust' r' Hs Hbl)|].
  rewrite Nat.add_1_r. apply (run_break _ " "%ch); [lia|done|]. by destruct ust'.
Qed.

Lemma run_http ust n p r :
  holds m p (replicate n " "%ch ++ bytes "HTTP/") -> (p + n + 5 <= last)%nat -> ust <> uri_sw_start ->
  run p (space_state ust) r = run (p + n + 5) sw_first_major_digit (r <| http_protocol := Some (p + n)%nat |>).
Proof.
  intros H Hp Hne. apply holds_app in H as [H Hh]. rewrite length_replicate in Hh.
  assert (Hst : forall p, line_step m p " "%ch (space_state ust) r = Ok (Break (space_state ust) r)) by (by destruct ust).
  rewrite (run_spaces n) by (done || lia). cbn in Hh. rewrite !holds_cons in Hh. destruct Hh as (H1 & H2 & H3 & H4 & H5 & _).
  rewrite (run_break _ "H"%ch _ r sw_http_H (r <| http_protocol := Some (p + n)%nat |>)) by (lia || done || by destruct ust).
  rewrite (run_expect _ "T"%ch _ sw_http_HT) by (lia || done). rewrite (run_expect _ "T"%ch _ sw_http_HTT) by (lia || done).
  rewrite (run_expect _ "P"%ch _ sw_http_HTTP) by (lia || done).
  rewrite (run_expect _ "/"%ch _ sw_first_major_digit) by (lia || done). f_equal. lia.
Qed.

(** The digits of a number, in a state [st] that keeps it in the field [upd] sets. *)
Lemma run_number st (upd : Z -> request_t) ds :
  (forall p d v, is_digit d = true -> 0 <= v <= 99 ->
     line_step m p d st (upd v) = Ok (Break st (upd (v * 10 + (d - "0"%ch))))) ->
  forall p v v', holds m p ds -> (p + length ds <= last)%nat -> 0 <= v -> version_value v ds = Some v' ->
  run p st (upd v) = run (p + length ds) st (upd v').
Proof.
  intros Hs. induction ds as [|d ds IH]; intros p v v' H Hp Hv Hval.
  - injection Hval as <-. by rewrite Nat.add_0_r.
  - cbn [length version_value] in *. apply holds_cons in H as [Hc H].
    destruct (is_digit d) eqn:Ed; [|done]. destruct (Z.leb_spec v 99); [|done]. cbn [andb] in Hval.
    rewrite (run_break p d _ _ _ _ ltac:(lia) Hc (Hs p d v Ed ltac:(lia))), <- Nat.add_succ_comm.
    unfold is_digit in Ed. apply IH; try done; lia.
Qed.

(** A digit passes the tests of the switch. *)
Ltac digit_step x :=
  unfold is_digit; line_cbn;
  unfold step_first_major_digit, step_major_digit, step_first_minor_digit, step_minor_digit; intros; rewrite ?to_u16_small by lia;
  repeat match goal with
    | |- context [x =? ?c] => destruct (Z.eqb_spec x c) as [->|]; [done|]
    | |- context [?a <? ?b] => destruct (Z.ltb_spec a b); [lia|]
    end; cbn [orb];
  repeat match goal with |- context [?a <? ?b] => destruct (Z.ltb_spec a b); [cbn in *; lia|] end;
  rewrite ?to_u16_small by (cbn; lia); rewrite <- ?Z.add_sub_assoc; try reflexivity.

Lemma run_major p d ds major r :
  holds m p (d :: ds ++ ["."%ch]) -> (p + S (length ds) < last)%nat -> "1"%ch <= d <= "9"%ch ->
  version_value (d - "0"%ch) ds = Some major ->
  run p sw_first_major_digit r = run (p + S (length ds) + 1) sw_first_minor_digit (r <| http_major := major |>).
Proof.
  intros H Hp Hd Hv. apply holds_cons in H as [Hc H]. apply holds_app in H as [H Hdot]. apply holds_cons in Hdot as [Hdot _].
  set (upd := fun v => r <| http_major := v |>).
  rewrite (run_break p d _ r sw_major_digit (upd (d - "0"%ch))); [|lia|done|by digit_step d].
  rewrite (run_number sw_major_digit upd ds) with (v' := major); try done; try lia.
  - rewrite Nat.add_1_r, <- Nat.add_succ_comm. apply (run_break _ "."%ch); [lia|done|done].
  - intros q x v. digit_step x.
Qed.

(** The end of the line is where the request ends. *)
Lemma run_minor p d ds minor eol r :
  holds m p (d :: ds ++ eol) -> (p + S (length ds) + length eol <= last)%nat -> "0"%ch <= d <= "9"%ch ->
  version_value (d - "0"%ch) ds = Some minor -> eol = [LF] \/ eol = [CR; LF] -> request_end r = None ->
  1 <= http_major r ->
  run p sw_first_minor_digit r =
    Ok (NGX_OK, sw_start, done_request (p + S (length ds)) (r <| http_minor := minor |>), (p + S (length ds) + length eol)%nat).
Proof.
  intros H Hp Hd Hv He Hr Hmj. pose proof (version_value_range _ _ _ Hv ltac:(lia)) as Hmn. apply holds_cons in H as [Hc H]. apply holds_app in H as [H Heol].
  set (upd := fun v => r <| http_minor := v |>).
  rewrite (run_break p d _ r sw_minor_digit (upd (d - "0"%ch))); [|destruct He as [-> | ->]; cbn in Hp; lia|done|by digit_step d].
  rewrite (run_number sw_minor_digit upd ds) with (v' := minor); try done; try lia.
  2: { intros q x v. digit_step x. }
  rewrite <- Nat.add_succ_comm. destruct He as [-> | ->]; cbn [length] in *; rewrite !holds_cons in Heol.
  - rewrite (run_done _ LF _ _ (upd minor)) by (lia || tauto || done). rewrite line_done_1, Nat.add_1_r by (subst upd; cbn; lia). done.
  - rewrite (run_break _ CR _ _ sw_almost_done (upd minor)) by (lia || tauto || done).
    rewrite (run_done _ LF _ _ ((upd minor) <| request_end := Some (S p + length ds)%nat |>)) by (lia || tauto || done).
    rewrite line_done_1 by (subst upd; cbn; lia). 
    replace (S (S (S p + length ds))) with (S p + length ds + 2)%nat by lia. unfold done_request. cbn. by rewrite Hr.
Qed.
End Run.

(** * The whole line *)

(** A request for a well-formed line: where its method, its URI and its version are. *)
Record line_fields (m : list Z) (p : nat) (l : http_line) (major minor : Z) (r : request_t) : Prop := {
  fields_method : method r = method_code (hl_method l) NGX_HTTP_UNKNOWN;
  fields_method_at : request_start r = Some p /\ method_end r = Some (p + length (hl_method l) - 1)%nat;
  fields_uri : exists s e, uri_start r = Some s /\ uri_end r = Some e /\ slice m s e = "/"%ch :: hl_uri l;
  fields_version : http_major r = major /\ http_minor r = minor /\ http_version r = major * 1000 + minor;
  fields_end : request_end r = Some (p + length (line_bytes l) - length (hl_eol l))%nat
}.

Lemma line_bytes_parts l :
  line_bytes l = (hl_method l ++ [" "%ch]) ++ (replicate (hl_spaces l) " "%ch ++ ["/"%ch]) ++ (hl_uri l ++ [" "%ch]) ++
    (replicate (hl_spaces2 l) " "%ch ++ bytes "HTTP/") ++ (hl_major l ++ ["."%ch]) ++ hl_minor l ++ hl_eol l.
Proof. unfold line_bytes. rewrite <- !app_assoc. done. Qed.

(** Every well-formed line is accepted, at once, with the parts of the line in
    the fields; the parser stops after its end, whatever follows. *)
(** C2. Every well-formed request line with an absolute path, with any number of
    spaces between its parts and either line ending, is accepted by
    ngx_http_parse_request_line, and the fields of the request are the parts the line
    was put together from, whatever bytes follow it. *)
Theorem request_line_correct m pos last l major minor :
  bytes_ok m -> (last < length m)%nat -> holds m pos (line_bytes l) -> (pos + length (line_bytes l) <= last)%nat ->
  line_wf l major minor ->
  exists r, ngx_http_parse_request_line m pos last sw_start new_request =
      Ok (NGX_OK, sw_start, r, (pos + length (line_bytes l))%nat) /\
    line_fields m pos l major minor r.
Proof.
  intros Hb Hlast H Hp [[Hne Hm] Hu (d & ds & Emaj & Hd & Hmaj) (d' & ds' & Emin & Hd' & Hmin) Heol].
  set (w := hl_method l) in *. set (n1 := hl_spaces l). set (n2 := hl_spaces2 l). set (u := hl_uri l) in *.
  assert (Hlen : length (line_bytes l) =
    (length w + 1 + (n1 + 1) + (length u + 1) + (n2 + 5) + (S (length ds) + 1) + (S (length ds') + length (hl_eol l)))%nat).
  { rewrite line_bytes_parts, Emaj, Emin, !length_app, !length_replicate. cbn [length]. subst w u n1 n2.
    change (length (bytes "HTTP/")) with 5%nat. lia. }
  rewrite line_bytes_parts, Emaj, Emin, !(holds_app m _ (_ ++ _)), !length_app, !length_replicate in H. fold w u n1 n2 in H.
  cbn [length] in H. change (length (bytes "HTTP/")) with 5%nat in H. destruct H as (H1 & H2 & H3 & H4 & H5 & H6).
  change (ngx_http_parse_request_line m pos last sw_start new_request)
    with (run m sw_start pos last pos sw_start new_request).
  rewrite (run_method m sw_start pos last Hb Hlast pos w) by (done || lia).
  set (p1 := (pos + (length w + 1))%nat) in *. replace (pos + length w + 1)%nat with p1 by lia.
  rewrite (run_before_uri m sw_start pos last Hlast n1 p1) by (done || lia).
  set (p2 := (p1 + (n1 + 1))%nat) in *. replace (p1 + n1 + 1)%nat with p2 by lia.
  change sw_after_slash_in_uri with (line_of uri_sw_after_slash_in_uri).
  set (r1 := _ <| uri_start := _ |>).
  destruct (run_uri_end m sw_start pos last Hb Hlast p2 uri_sw_after_slash_in_uri r1 u H3 ltac:(lia) ltac:(done) Hu)
    as (ust & r2 & Hust & Hfr & ->).
  set (p3 := (p2 + (length u + 1))%nat) in *. replace (p2 + length u + 1)%nat with p3 by lia.
  rewrite (run_http m sw_start pos last Hlast ust n2 p3) by (done || lia).
  set (p4 := (p3 + (n2 + 5))%nat) in *. replace (p3 + n2 + 5)%nat with p4 by lia.
  rewrite (run_major m sw_start pos last Hlast p4 d ds major) by (done || lia).
  set (p5 := (p4 + (S (length ds) + 1))%nat) in *. replace (p4 + S (length ds) + 1)%nat with p5 by lia.
  pose proof (version_value_range _ _ _ Hmaj ltac:(lia)) as Hmaj1.
  injection Hfr as G1 G2 G3 G4 G5 G6 G7 G8.
  rewrite (run_minor m sw_start pos last Hlast p5 d' ds' minor (hl_eol l)); try done; try (cbn; lia).
  replace (p5 + S (length ds') + length (hl_eol l))%nat with (pos + length (line_bytes l))%nat by lia.
  eexists. split; [reflexivity|].
  match goal with |- line_fields _ _ _ _ _ (done_request ?e ?x) => set (r3 := x); set (q := e) end.
  destruct (done_request_fields q r3) as (F1 & F2 & _ & F4 & F5 & F6 & F7 & F8 & F9 & _).
  split; rewrite ?F1, ?F2, ?F4, ?F5, ?F6, ?F7, ?F8, ?F9, ?(done_request_end q r3 G8); cbn.
  - exact G3.
  - split; [exact G1|exact G2].
  - exists (p1 + n1)%nat, (p2 + length u)%nat. split; [exact G6|]. split; [done|].
    replace (p2 + length u)%nat with ((p1 + n1) + length (("/"%ch : Z) :: u))%nat by (cbn; lia). apply holds_slice.
    apply holds_app in H2 as [_ H2]. apply holds_app in H3 as [H3 _]. rewrite length_replicate in H2.
    apply holds_cons in H2 as [H2 _]. apply holds_cons. split; [done|]. by replace (S (p1 + n1)) with p2 by lia.
  - done.
  - f_equal. lia.
Qed.

Definition demo_http_line : http_line := mk_line (bytes "PROPFIND") 1 (bytes "a/b?c") 0 (bytes "1") (bytes "10") [CR; LF].

Lemma request_line_correct_witness :
  exists r, ngx_http_parse_request_line (bytes "..PROPFIND  /a/b?c HTTP/1.10" ++ [CR; LF] ++ bytes "Host:") 2 32 sw_start new_request =
      Ok (NGX_OK, sw_start, r, 30%nat) /\
    line_fields (bytes "..PROPFIND  /a/b?c HTTP/1.10" ++ [CR; LF] ++ bytes "Host:") 2 demo_http_line 1 10 r.
Proof.
  apply (request_line_correct _ 2 32 demo_http_line 1 10).
  - apply bytes_okb_true. reflexivity.
  - vm_compute. lia.
  - apply (holds_of_prefix _ 2). reflexivity.
  - vm_compute. lia.
  - split; cbn [demo_http_line hl_method hl_uri hl_major hl_minor hl_eol].
    + split; [done|]. by repeat (apply Forall_cons; split).
    + by repeat (apply Forall_cons; split).
    + exists "1"%ch, []. split; [reflexivity|]. split; [lia|reflexivity].
    + exists "1"%ch, ["0"%ch : Z]. split; [reflexivity|]. split; [lia|reflexivity].
    + right. reflexivity.
Defined.
