(* ===== verification/HttpHeader.v ===== *)
(** Component "header lines": ngx_http_parse_header_line of
    src/http/ngx_http_parse.c, the loop of ngx_http_process_request_headers
    (src/http/ngx_http_request.c) that calls it, and the hash functions of
    src/core/ngx_hash.c.

    The header buffer is the list [m] of its bytes up to [b->end]; [pos] and
    [last] are offsets in it, and so are the pointers to parts of a header. *)

From stdpp Require Import base numbers list option strings.
From Stdlib Require Import ZArith Lia.
From S2P Require Import Prelude Buffer StringCompare HttpRequest.
Local Open Scope Z_scope.

(** * Definitions *)

(** ** Hashes of names *)

Definition ngx_hash (key c : Z) : Z := to_u64 (to_u64 (key * 31) + c).

(** [for (i = 0; i < len; i++) key = ngx_hash(key, f(data[i]))] *)
Fixpoint hash_loop (f : Z -> Z) (data : list Z) (len : nat) (key : Z) {struct len} : outcome Z :=
  match len with
  | O => Ok key
  | S len' =>
      match data with
      | [] => UB
      | c :: data' => hash_loop f data' len' (ngx_hash key (f c))
      end
  end.

Definition ngx_hash_key (data : list Z) (len : nat) : outcome Z := hash_loop (fun c => c) data len 0.

Definition ngx_hash_key_lc (data : list Z) (len : nat) : outcome Z := hash_loop ngx_tolower data len 0.

(** [ngx_hash_strlow(dst, src, n)]: the bytes stored in [dst], and the hash. *)
Fixpoint strlow_loop (src : list Z) (n : nat) (key : Z) {struct n} : outcome (list Z * Z) :=
  match n with
  | O => Ok ([], key)
  | S n' =>
      match src with
      | [] => UB
      | c :: src' =>
          '(dst, key) ← strlow_loop src' n' (ngx_hash key (ngx_tolower c)); Ok (ngx_tolower c :: dst, key)
      end
  end.

Definition ngx_hash_strlow (src : list Z) (n : nat) : outcome (list Z * Z) := strlow_loop src n 0.

(** ** The parser *)

Definition NGX_HTTP_LC_HEADER_LEN : nat := 32.

(** The letters in lower case, the digits and the hyphen; 0 for other bytes. *)
Definition lowcase : list Z :=
  replicate 32 0 ++
  (replicate 13 0 ++ bytes "-" ++ replicate 2 0 ++ bytes "0123456789" ++ replicate 6 0) ++
  (replicate 1 0 ++ bytes "abcdefghijklmnopqrstuvwxyz" ++ replicate 5 0) ++
  (replicate 1 0 ++ bytes "abcdefghijklmnopqrstuvwxyz" ++ replicate 5 0) ++
  replicate 128 0.

Inductive header_state : Type :=
| sw_start
| sw_name
| sw_space_before_value
| sw_value
| sw_space_after_value
| sw_ignore_line
| sw_almost_done
| sw_header_almost_done.

#[export] Instance header_state_dec : EqDecision header_state.
Proof. solve_decision. Defined.

(** The fields of the request this parser uses. *)
Record header_t : Type := mk_header {
  header_hash : Z;
  lowcase_index : nat;
  lowcase_header : list Z;
  invalid_header : bool;
  header_name_start : option nat;
  header_name_end : option nat;
  header_start : option nat;
  header_end : option nat
}.

#[export] Instance header_eta : Eta header_t := fun r =>
  mk_header (header_hash r) (lowcase_index r) (lowcase_header r) (invalid_header r)
    (header_name_start r) (header_name_end r) (header_start r) (header_end r).

(** The fields as ngx_http_create_request leaves them. *)
Definition new_header : header_t := mk_header 0 0 (replicate 32 0) false None None None None.

(** The local variables. *)
Record header_scan : Type := mk_scan {
  hs_state : header_state;
  hs_hash : Z;
  hs_i : nat;
  hs_r : header_t
}.

#[export] Instance scan_eta : Eta header_scan := fun x => mk_scan (hs_state x) (hs_hash x) (hs_i x) (hs_r x).

(** What the body of the loop does: [break], [goto done], [goto header_done], or
    [return NGX_HTTP_PARSE_INVALID_HEADER]. *)
Inductive header_action : Type :=
| Break (x : header_scan)
| Goto_done (x : header_scan)
| Goto_header_done (x : header_scan)
| Invalid_header (x : header_scan).

(** [r->f = v], the state left alone, or set. *)
Definition with_r (f : header_t -> header_t) (x : header_scan) : header_scan := x <| hs_r := f (hs_r x) |>.
Definition to_state (st : header_state) (x : header_scan) : header_scan := x <| hs_state := st |>.

Section Parser.
Context (m : list Z) (allow_underscores upstream : bool).

(** [hash = ngx_hash(0, c); r->lowcase_header[0] = c; i = 1] *)
Definition first_char (c : Z) (x : header_scan) : outcome header_action :=
  lc ← store (lowcase_header (hs_r x)) 0 c;
  Ok (Break (with_r (fun r => r <| lowcase_header := lc |>) x <| hs_hash := ngx_hash 0 c |> <| hs_i := 1%nat |>)).

(** [hash = ngx_hash(hash, c); r->lowcase_header[i++] = c; i &= 31] *)
Definition next_char (c : Z) (x : header_scan) : outcome header_action :=
  lc ← store (lowcase_header (hs_r x)) (hs_i x) c;
  Ok (Break (with_r (fun r => r <| lowcase_header := lc |>) x
        <| hs_hash := ngx_hash (hs_hash x) c |>
        <| hs_i := Nat.land (S (hs_i x)) (NGX_HTTP_LC_HEADER_LEN - 1) |>)).

Definition set_invalid : header_scan -> header_scan := with_r (fun r => r <| invalid_header := true |>).
Definition set_header_start (p : nat) : header_scan -> header_scan := with_r (fun r => r <| header_start := Some p |>).
Definition set_header_end (p : nat) : header_scan -> header_scan := with_r (fun r => r <| header_end := Some p |>).
Definition set_name_end (p : nat) : header_scan -> header_scan := with_r (fun r => r <| header_name_end := Some p |>).

(** The duplicate of a status line: the name so far is "HTTP". *)
Definition duplicate_status (p : nat) (x : header_scan) : outcome bool :=
  if upstream then
    match header_name_start (hs_r x) with
    | Some s =>
        if (p - s =? 4)%nat then d ← strncmp (drop s m) (bytes "HTTP" ++ [0]) 4; Ok (d =? 0) else Ok false
    | None => UB
    end
  else Ok false.

Definition step_first (p : nat) (ch : Z) (x : header_scan) : outcome header_action :=
  let x := with_r (fun r => r <| header_name_start := Some p |> <| invalid_header := false |>) x in
  if ch =? CR then Ok (Break (to_state sw_header_almost_done (set_header_end p x)))
  else if ch =? LF then Ok (Goto_header_done (set_header_end p x))
  else
    let x := to_state sw_name x in
    c ← at_ lowcase ch;
    if negb (c =? 0) then first_char c x
    else if ch =? "_"%ch then if allow_underscores then first_char ch x else Ok (Break (set_invalid x))
    else if ch =? 0 then Ok (Invalid_header x)
    else Ok (Break (set_invalid x)).

Definition step_name (p : nat) (ch : Z) (x : header_scan) : outcome header_action :=
  c ← at_ lowcase ch;
  if negb (c =? 0) then next_char c x
  else if ch =? "_"%ch then if allow_underscores then next_char ch x else Ok (Break (set_invalid x))
  else if ch =? ":"%ch then Ok (Break (to_state sw_space_before_value (set_name_end p x)))
  else if ch =? CR then
    Ok (Break (to_state sw_almost_done (set_header_end p (set_header_start p (set_name_end p x)))))
  else if ch =? LF then Ok (Goto_done (set_header_end p (set_header_start p (set_name_end p x))))
  else
    dup ← (if ch =? "/"%ch then duplicate_status p x else Ok false);
    if (dup : bool) then Ok (Break (to_state sw_ignore_line x))
    else if ch =? 0 then Ok (Invalid_header x)
    else Ok (Break (set_invalid x)).

Definition step_space_before_value (p : nat) (ch : Z) (x : header_scan) : outcome header_action :=
  if ch =? " "%ch then Ok (Break x)
  else if ch =? CR then Ok (Break (to_state sw_almost_done (set_header_end p (set_header_start p x))))
  else if ch =? LF then Ok (Goto_done (set_header_end p (set_header_start p x)))
  else if ch =? 0 then Ok (Invalid_header x)
  else Ok (Break (to_state sw_value (set_header_start p x))).

Definition step_value (p : nat) (ch : Z) (x : header_scan) : outcome header_action :=
  if ch =? " "%ch then Ok (Break (to_state sw_space_after_value (set_header_end p x)))
  else if ch =? CR then Ok (Break (to_state sw_almost_done (set_header_end p x)))
  else if ch =? LF then Ok (Goto_done (set_header_end p x))
  else if ch =? 0 then Ok (Invalid_header x)
  else Ok (Break x).

Definition step_space_after_value (ch : Z) (x : header_scan) : outcome header_action :=
  if ch =? " "%ch then Ok (Break x)
  else if ch =? CR then Ok (Break (to_state sw_almost_done x))
  else if ch =? LF then Ok (Goto_done x)
  else if ch =? 0 then Ok (Invalid_header x)
  else Ok (Break (to_state sw_value x)).

Definition header_step (p : nat) (ch : Z) (x : header_scan) : outcome header_action :=
  match hs_state x with
  | sw_start => step_first p ch x
  | sw_name => step_name p ch x
  | sw_space_before_value => step_space_before_value p ch x
  | sw_value => step_value p ch x
  | sw_space_after_value => step_space_after_value ch x
  | sw_ignore_line => if ch =? LF then Ok (Break (to_state sw_start x)) else Ok (Break x)
  | sw_almost_done =>
      if ch =? LF then Ok (Goto_done x) else if ch =? CR then Ok (Break x) else Ok (Invalid_header x)
  | sw_header_almost_done => if ch =? LF then Ok (Goto_header_done x) else Ok (Invalid_header x)
  end.

(** What the function returns, [r->state], the request, and [b->pos]. *)
Definition header_result : Type := Z * header_state * header_t * nat.

(** [r->header_hash = hash; r->lowcase_index = i] *)
Definition save (x : header_scan) : header_t :=
  (hs_r x) <| header_hash := hs_hash x |> <| lowcase_index := hs_i x |>.

(** The loop on the [n] bytes from [p]; [old] and [pos] are [r->state] and
    [b->pos], which an error leaves alone. *)
Fixpoint header_loop (old : header_state) (pos n p : nat) (x : header_scan) : outcome header_result :=
  match n with
  | O => Ok (NGX_AGAIN, hs_state x, save x, p)
  | S n' =>
      ch ← deref m p;
      a ← header_step p ch x;
      match a with
      | Break x => header_loop old pos n' (S p) x
      | Goto_done x => Ok (NGX_OK, sw_start, save x, S p)
      | Goto_header_done x => Ok (NGX_HTTP_PARSE_HEADER_DONE, sw_start, hs_r x, S p)
      | Invalid_header x => Ok (NGX_HTTP_PARSE_INVALID_HEADER, old, hs_r x, pos)
      end
  end.

Definition ngx_http_parse_header_line (pos last : nat) (state : header_state) (r : header_t)
  : outcome header_result :=
  header_loop state pos (last - pos) pos (mk_scan state (header_hash r) (lowcase_index r) r).

End Parser.

(** ** The loop over the lines of a header *)

(** [ngx_table_elt_t]; the strings [key] and [value] are an offset in the header
    buffer and a length, [lowcase_key] the bytes of the memory allocated for it. *)
Record ngx_table_elt_t : Type := mk_elt {
  h_hash : Z;
  h_key : nat * nat;
  h_value : nat * nat;
  h_lowcase_key : list Z
}.

(** [e - s] for pointers into the header buffer. *)
Definition part (s e : option nat) : outcome (nat * nat) :=
  match s, e with
  | Some s, Some e => if (s <=? e)%nat then Ok (s, (e - s)%nat) else UB
  | _, _ => UB
  end.

(** [data[len] = '\0'] *)
Definition terminate (m : list Z) (s : nat * nat) : outcome (list Z) := store m (s.1 + s.2) 0.

(** [ngx_memcpy(dst, src, n)]: the bytes stored in [dst]. *)
Definition memcpy (src : list Z) (n : nat) : outcome (list Z) :=
  if (n <=? length src)%nat then Ok (take n src) else UB.

(** The element of the list for the line that has been parsed, in the buffer
    where its two strings are terminated. *)
Definition header_elt (m : list Z) (r : header_t) : outcome (list Z * ngx_table_elt_t) :=
  key ← part (header_name_start r) (header_name_end r);
  m ← terminate m key;
  value ← part (header_start r) (header_end r);
  m ← terminate m value;
  lowcase_key ← (if (key.2 =? lowcase_index r)%nat then memcpy (lowcase_header r) key.2
                 else ngx_strlow (drop key.1 m) key.2);
  Ok (m, mk_elt (header_hash r) key value lowcase_key).

(** What the strings of an element are in the buffer [m]. *)
Definition str_bytes (m : list Z) (s : nat * nat) : list Z := slice m s.1 (s.1 + s.2).

(** How the loop ends: it must wait for more of the header, the header is
    complete, the request is finalized with a status, or the handler of a header
    has finalized it. *)
Inductive headers_end : Type :=
| Wait
| Header_done
| Finalize (status : Z)
| Handled (rc : Z).

#[export] Instance headers_end_dec : EqDecision headers_end.
Proof. solve_decision. Defined.

Record headers_result : Type := mk_headers {
  hr_end : headers_end;
  hr_elts : list ngx_table_elt_t;
  hr_length : nat;
  hr_state : header_state;
  hr_r : header_t;
  hr_pos : nat;
  hr_m : list Z
}.

Section Headers.
(** [underscores_in_headers] and [ignore_invalid_headers] of the server; whether
    the allocations for the next element succeed, given the number of the
    elements; and what the handler of a header gives for the hash, the key, the
    value and the key in lower case, NGX_OK if the hash of headers has none. *)
Context (allow_underscores ignore_invalid : bool) (alloc : nat -> bool).
Context (handler : Z -> list Z -> list Z -> list Z -> Z).

Definition call_handler (m : list Z) (h : ngx_table_elt_t) : Z :=
  handler (h_hash h) (str_bytes m (h_key h)) (str_bytes m (h_value h)) (h_lowcase_key h).

Fixpoint process_headers (fuel : nat) (m : list Z) (pos last : nat) (state : header_state) (r : header_t)
    (elts : list ngx_table_elt_t) (request_length : nat) : outcome headers_result :=
  match fuel with
  | O => NoFuel
  | S fuel' =>
      '(rc, state, r, pos) ← ngx_http_parse_header_line m allow_underscores false pos last state r;
      let finish fin elts request_length m := Ok (mk_headers fin elts request_length state r pos m) in
      if rc =? NGX_OK then
        line ← part (header_name_start r) (Some pos);
        let request_length := (request_length + line.2)%nat in
        if invalid_header r && ignore_invalid
        then process_headers fuel' m pos last state r elts request_length
        else if negb (alloc (length elts)) then finish (Finalize NGX_HTTP_INTERNAL_SERVER_ERROR) elts request_length m
        else
          '(m, h) ← header_elt m r;
          let elts := elts ++ [h] in
          let rc := call_handler m h in
          if negb (rc =? NGX_OK) then finish (Handled rc) elts request_length m
          else process_headers fuel' m pos last state r elts request_length
      else if rc =? NGX_HTTP_PARSE_HEADER_DONE then
        line ← part (header_name_start r) (Some pos);
        finish Header_done elts (request_length + line.2)%nat m
      else if rc =? NGX_AGAIN then finish Wait elts request_length m
      else finish (Finalize NGX_HTTP_BAD_REQUEST) elts request_length m
  end.

(** The loop of ngx_http_process_request_headers on the bytes that are there.
    Every round but the last consumes a line. *)
Definition ngx_http_process_request_headers (m : list Z) (pos last : nat) (state : header_state) (r : header_t)
    (elts : list ngx_table_elt_t) (request_length : nat) : outcome headers_result :=
  process_headers (S (last - pos)) m pos last state r elts request_length.

End Headers.

Definition elt_view (m : list Z) (h : ngx_table_elt_t) : list Z * list Z * list Z :=
  (str_bytes m (h_key h), str_bytes m (h_value h), h_lowcase_key h).

Definition demo_headers (ignore : bool) (m : list Z) : outcome (headers_end * list (list Z * list Z * list Z)) :=
  x ← ngx_http_process_request_headers false ignore (fun _ => true) (fun _ _ _ _ => NGX_OK)
        m 0 (length m) sw_start new_header [] 0;
  Ok (hr_end x, elt_view (hr_m x) <$> hr_elts x).

Definition CRLF : list Z := [CR; LF].

Example headers_1 :
  demo_headers true (bytes "Host:  a b " ++ CRLF ++ bytes "x_y: 1" ++ CRLF ++ bytes "Q:" ++ CRLF ++ CRLF) =
  Ok (Header_done, [(bytes "Host", bytes "a b", bytes "host"); (bytes "Q", [], bytes "q")]).
Proof. vm_compute. reflexivity. Qed.

(** A name that starts with an invalid character goes on where the hash and the
    copy in lower case of the line before stopped: with [ignore_invalid_headers]
    off this line is taken for a header called "host". *)
Example stale_name :
  demo_headers false (bytes "H: 1" ++ CRLF ++ bytes "!ost: 2" ++ CRLF ++ CRLF) =
  Ok (Header_done, [(bytes "H", bytes "1", bytes "h"); (bytes "!ost", bytes "2", bytes "host")]).
Proof. vm_compute. reflexivity. Qed.
