(* ===== verification/HttpHeaderTheory.v ===== *)
(** Header lines: the invariant of the parser, what every element of the list of
    headers is, independence of the fragmentation, and the headers accepted. *)

From stdpp Require Import base numbers list option strings.
From Stdlib Require Import ZArith Lia.
From S2P Require Import Prelude Buffer StringCompare HttpRequest HttpHeader.
Local Open Scope Z_scope.

(** * Names and hashes *)

(** A character of a name that nginx regards as valid. *)
Definition token_char (allow_underscores : bool) (c : Z) : bool :=
  ("a"%ch <=? c) && (c <=? "z"%ch) || ("A"%ch <=? c) && (c <=? "Z"%ch) ||
  ("0"%ch <=? c) && (c <=? "9"%ch) || (c =? "-"%ch) || allow_underscores && (c =? "_"%ch).

Definition lower (w : list Z) : list Z := map ngx_tolower w.

(** The hash of a name in any case. *)
Definition name_hash (w : list Z) : Z := foldl ngx_hash 0 (lower w).

Lemma hash_loop_foldl f data : forall n key,
  (n <= length data)%nat -> hash_loop f data n key = Ok (foldl (fun k c => ngx_hash k (f c)) key (take n data)).
Proof.
  induction data as [|c data IH]; intros [|n] key H; try done; [cbn in H; lia|]. cbn. apply IH. cbn in H. lia.
Qed.

Lemma foldl_lower l : forall key, foldl ngx_hash key (lower l) = foldl (fun k c => ngx_hash k (ngx_tolower c)) key l.
Proof. induction l as [|c l IH]; intros key; [done|apply IH]. Qed.

Lemma hash_key_lc_ok data n : (n <= length data)%nat -> ngx_hash_key_lc data n = Ok (name_hash (take n data)).
Proof. intros H. unfold ngx_hash_key_lc, name_hash. by rewrite hash_loop_foldl, foldl_lower. Qed.

(** ngx_hash_strlow computes the same hash as ngx_hash_key_lc, and the text it is of. *)
Lemma hash_strlow_ok data : forall n key, (n <= length data)%nat ->
  strlow_loop data n key = Ok (lower (take n data), foldl ngx_hash key (lower (take n data))).
Proof.
  induction data as [|c data IH]; intros [|n] key H; try done; [cbn in H; lia|]. cbn in *. rewrite IH by lia. done.
Qed.

Lemma strlow_ok data : forall n, (n <= length data)%nat -> ngx_strlow data n = Ok (lower (take n data)).
Proof. induction data as [|c data IH]; intros [|n] H; try done; [cbn in H; lia|]. cbn in *. by rewrite IH by lia. Qed.

Lemma name_hash_snoc w c : name_hash (w ++ [c]) = ngx_hash (name_hash w) (ngx_tolower c).
Proof. unfold name_hash, lower. by rewrite map_app, foldl_app. Qed.

(** The table gives the letter in lower case for exactly the valid characters but
    the underscore. *)
Lemma lowcase_ok c : byte_ok c -> at_ lowcase c = Ok (if token_char false c then ngx_tolower c else 0).
Proof.
  intros H. pose (P := fun c => match at_ lowcase c with Ok x => x =? (if token_char false c then ngx_tolower c else 0) | _ => false end).
  assert (Hc : P c = true) by (apply (byte_forall P); [vm_compute; reflexivity|done]). unfold P in Hc.
  destruct (at_ lowcase c) as [x| |]; try done. by apply Z.eqb_eq in Hc as ->.
Qed.

Lemma token_lower_nonzero c : byte_ok c -> token_char false c = true -> ngx_tolower c <> 0.
Proof.
  intros H Ht. pose (P := fun c => negb (token_char false c) || negb (ngx_tolower c =? 0)).
  assert (Hc : P c = true) by (apply (byte_forall P); [vm_compute; reflexivity|done]). unfold P in Hc. rewrite Ht in Hc.
  by apply negb_true_iff, Z.eqb_neq in Hc.
Qed.

(** * The invariant *)

Definition value_char (c : Z) : Prop := c <> CR /\ c <> LF /\ c <> 0.

(** A value has no space at either end. *)
Definition value_ok (l : list Z) : Prop :=
  Forall value_char l /\ head l <> Some " "%ch /\ last l <> Some " "%ch.

(** Spaces from [e] to [p]. *)
Definition blanks (m : list Z) (e p : nat) : Prop := Forall (eq " "%ch) (slice m e p).

Section Invariant.
(** The line starts at [base] or later. *)
Context (allow : bool) (m : list Z) (base : nat).

(** The bytes from [s] to [p], of a name, are hashed and copied, unless one of
    them is invalid. *)
Definition name_read (s p : nat) (hash : Z) (i : nat) (r : header_t) : Prop :=
  invalid_header r = false ->
  let w := slice m s p in
  Forall (fun c => token_char allow c = true) w /\ hash = name_hash w /\ i = (length w mod 32)%nat /\
  ((length w < 32)%nat -> take (length w) (lowcase_header r) = lower w).

(** The name of the line is known, from [s] to [e]. *)
Definition key_known (p s e : nat) (hash : Z) (i : nat) (r : header_t) : Prop :=
  header_name_start r = Some s /\ header_name_end r = Some e /\ (base <= s < e)%nat /\ (e < p)%nat /\ name_read s e hash i r.

(** The value too, from [v] to [w]; without a colon it is empty, and at the end
    of the name. *)
Definition line_known (p : nat) (hash : Z) (i : nat) (r : header_t) : Prop :=
  exists s e v w, key_known p s e hash i r /\ header_start r = Some v /\ header_end r = Some w /\
    (e < v \/ e = v /\ v = w)%nat /\ (v <= w < p)%nat /\ value_ok (slice m v w).

Definition state_inv (p : nat) (st : header_state) (hash : Z) (i : nat) (r : header_t) : Prop :=
  match st with
  | sw_start | sw_ignore_line => True
  | sw_name => exists s, header_name_start r = Some s /\ (base <= s < p)%nat /\ name_read s p hash i r
  | sw_space_before_value => exists s e, key_known p s e hash i r
  | sw_value =>
      exists s e v, key_known p s e hash i r /\ header_start r = Some v /\ (e < v < p)%nat /\ value_ok (slice m v p)
  | sw_space_after_value =>
      exists s e v w, key_known p s e hash i r /\ header_start r = Some v /\ header_end r = Some w /\
        (e < v < w)%nat /\ (w < p)%nat /\ value_ok (slice m v w) /\ blanks m w p
  | sw_almost_done => line_known p hash i r
  | sw_header_almost_done => exists s, header_name_start r = Some s /\ (s < p)%nat
  end.

Definition scan_inv (p : nat) (x : header_scan) : Prop :=
  length (lowcase_header (hs_r x)) = 32%nat /\ (hs_i x < 32)%nat /\ (base <= p)%nat /\
  state_inv p (hs_state x) (hs_hash x) (hs_i x) (hs_r x).

Definition scan_of (st : header_state) (r : header_t) : header_scan := mk_scan st (header_hash r) (lowcase_index r) r.

(** What holds of the state and the request between two calls. *)
Definition header_inv (p : nat) (st : header_state) (r : header_t) : Prop := scan_inv p (scan_of st r).

End Invariant.

(** ** Every step keeps the invariant *)

Definition room (x : header_scan) : Prop := length (lowcase_header (hs_r x)) = 32%nat /\ (hs_i x < 32)%nat.

Lemma value_ok_nil : value_ok [].
Proof. by split. Qed.

Lemma value_ok_start c : value_char c -> c <> " "%ch -> value_ok [c].
Proof. intros H1 H2. split; [by constructor|]. cbn. split; by intros [= ->]. Qed.

(** Spaces in a value count once another character follows them. *)
Lemma value_ok_more l k c :
  value_ok l -> l <> [] -> Forall (eq " "%ch) k -> value_char c -> c <> " "%ch -> value_ok (l ++ k ++ [c]).
Proof.
  intros (H1 & H2 & H3) Hne Hk Hc Hsp. split; [|split].
  - apply Forall_app. split; [done|]. apply Forall_app. split; [|by constructor].
    eapply Forall_impl; [exact Hk|]. by intros x <-.
  - by destruct l.
  - rewrite app_assoc, last_snoc. by intros [= ->].
Qed.

Section Steps.
Context (allow upstream : bool) (m : list Z) (base p : nat) (ch : Z).
Hypothesis (Hb : bytes_ok m) (Hc : m !! p = Some ch) (Hbase : (base <= p)%nat).

Definition action_ok (a : header_action) : Prop :=
  match a with
  | Break x => scan_inv allow m base (S p) x
  | Goto_done x => room x /\ line_known allow m base (S p) (hs_hash x) (hs_i x) (hs_r x)
  | Goto_header_done x => room x /\ exists s, header_name_start (hs_r x) = Some s /\ (s < S p)%nat
  | Invalid_header x => True
  end.

Definition step_ok (o : outcome header_action) : Prop := exists a, o = Ok a /\ action_ok a.

Lemma header_step_if (b : bool) o1 o2 : (b = true -> step_ok o1) -> (b = false -> step_ok o2) -> step_ok (if b then o1 else o2).
Proof. destruct b; auto. Qed.

Lemma step_intro a : action_ok a -> step_ok (Ok a).
Proof. by exists a. Qed.

Lemma ch_byte : byte_ok ch.
Proof. exact (Forall_lookup_1 _ _ _ _ Hb Hc). Qed.

Lemma slice_one : slice m p (S p) = [ch].
Proof. by rewrite (slice_snoc m p p ch), slice_nil by done. Qed.

Lemma token_split c : token_char allow c = token_char false c || allow && (c =? "_"%ch).
Proof. unfold token_char. destruct allow; cbn [andb]; by rewrite ?orb_false_r. Qed.

Lemma name_read_invalid s e hash i r : invalid_header r = true -> name_read allow m s e hash i r.
Proof. intros H H'. by rewrite H in H'. Qed.

Lemma first_char_ok x :
  room x -> hs_state x = sw_name -> header_name_start (hs_r x) = Some p -> token_char allow ch = true ->
  step_ok (first_char (ngx_tolower ch) x).
Proof.
  destruct x as [st hash i r]. cbn. intros [Hl Hi] -> Hs Ht. unfold first_char. cbn in Hl. cbn [hs_r].
  rewrite store_ok by lia. apply step_intro.
  split; [cbn; by rewrite length_insert|]. split; [cbn; lia|]. split; [lia|]. exists p. split; [exact Hs|]. split; [lia|]. intros _. cbv zeta.
  rewrite slice_one. cbn. split; [by constructor|]. split; [done|]. split; [done|]. intros _.
  by destruct (lowcase_header r).
Qed.

Lemma next_index i : (i < 32)%nat -> Nat.land (S i) (NGX_HTTP_LC_HEADER_LEN - 1) = (S i mod 32)%nat.
Proof. intros _. exact (Nat.land_ones (S i) 5). Qed.

Lemma next_char_ok x s :
  room x -> hs_state x = sw_name -> header_name_start (hs_r x) = Some s -> (base <= s < p)%nat ->
  name_read allow m s p (hs_hash x) (hs_i x) (hs_r x) -> token_char allow ch = true ->
  step_ok (next_char (ngx_tolower ch) x).
Proof.
  destruct x as [st hash i r]. cbn. intros [Hl Hi] -> Hs Hsp Hn Ht. unfold next_char. cbn in Hl, Hi. cbn [hs_r hs_i].
  rewrite store_ok by lia. apply step_intro. rewrite next_index by done.
  split; [cbn; by rewrite length_insert|]. split; [cbn; pose proof (Nat.mod_upper_bound (S i) 32); lia|]. split; [lia|].
  exists s. split; [exact Hs|]. split; [lia|]. intros Hinv. cbn in Hinv. destruct (Hn Hinv) as (H1 & H2 & H3 & H4).
  cbv zeta. rewrite (slice_snoc m s p ch) by (done || lia). set (w := slice m s p) in *. cbn.
  rewrite length_app, Nat.add_1_r, name_hash_snoc. split; [apply Forall_app; by split; [|constructor]|].
  split; [by rewrite H2|]. split; [rewrite H3; exact (Nat.Div0.add_mod_idemp_r 1 (length w) 32)|].
  intros Hw. assert (Ei : i = length w) by (rewrite H3; apply Nat.mod_small; lia). rewrite Ei.
  unfold lower. rewrite map_app, (take_S_r _ _ (ngx_tolower ch)) by (rewrite list_lookup_insert_eq; [done|lia]).
  rewrite take_insert_ge by done. by rewrite H4 by lia.
Qed.

(** The character of a name: one that counts, or not. *)
Lemma token_cases (P : outcome header_action -> Prop) (f : Z -> outcome header_action) o o' :
  (token_char allow ch = true -> P (f (ngx_tolower ch))) -> (token_char allow ch = false -> ch = "_"%ch -> P o) ->
  (token_char allow ch = false -> ch <> "_"%ch -> P o') ->
  P (c ← at_ lowcase ch;
     if negb (c =? 0) then f c
     else if ch =? "_"%ch then if allow then f ch else o else o').
Proof.
  intros H1 H2 H3. pose proof ch_byte as Hb'. rewrite (lowcase_ok ch Hb'). cbn [mbind outcome_bind].
  rewrite token_split in H1, H2, H3. destruct (token_char false ch) eqn:E; cbn [orb] in *.
  - destruct (Z.eqb_spec (ngx_tolower ch) 0) as [Hz|_]; [by apply token_lower_nonzero in Hz|]. by apply H1.
  - cbn [negb Z.eqb]. change (negb (0 =? 0)) with false. cbn iota.
    destruct (Z.eqb_spec ch "_"%ch) as [->|Hne]; [|by apply H3; [rewrite andb_false_r|]].
    destruct allow; cbn in *; [by apply H1|by apply H2].
Qed.

Lemma step_first_ok x : room x -> hs_state x = sw_start -> step_ok (step_first allow p ch x).
Proof.
  intros [Hl Hi] Hst. unfold step_first. set (x' := with_r _ x).
  assert (Hr : room x') by (by split).
  apply header_step_if; intros _; [apply step_intro|apply header_step_if; intros _; [apply step_intro|]].
  - split; [exact Hl|split; [exact Hi|split; [lia|]]]. exists p. split; [done|lia].
  - split; [exact Hr|]. exists p. split; [done|lia].
  - assert (Hn : step_ok (Ok (Break (set_invalid (to_state sw_name x'))))).
    { apply step_intro. split; [exact Hl|split; [exact Hi|split; [lia|]]]. exists p. split; [done|]. split; [lia|].
      by apply name_read_invalid. }
    apply (token_cases step_ok (fun c => first_char c (to_state sw_name x'))).
    + intros Ht. by apply first_char_ok.
    + intros _ _. exact Hn.
    + intros _ _. apply header_step_if; intros _; [by apply step_intro|exact Hn].
Qed.

Lemma key_later q s e hash i r r' :
  key_known allow m base q s e hash i r -> header_name_start r' = header_name_start r ->
  header_name_end r' = header_name_end r -> invalid_header r' = invalid_header r ->
  lowcase_header r' = lowcase_header r -> key_known allow m base (S q) s e hash i r'.
Proof.
  intros (H1 & H2 & H3 & H3' & H4) E1 E2 E3 E4. split; [by rewrite E1|]. split; [by rewrite E2|]. split; [lia|]. split; [lia|].
  unfold name_read in *. by rewrite E3, E4.
Qed.

(** The end of a name that is followed by no value. *)
Lemma no_value_ok s hash i r :
  header_name_start r = Some s -> (base <= s < p)%nat -> name_read allow m s p hash i r ->
  line_known allow m base (S p) hash i
    (r <| header_name_end := Some p |> <| header_start := Some p |> <| header_end := Some p |>).
Proof.
  intros Hs Hsp Hn. exists s, p, p, p. split; [|split; [done|split; [done|split; [lia|split; [lia|]]]]].
  - split; [done|]. split; [done|]. split; [lia|]. split; [lia|exact Hn].
  - rewrite slice_nil. by split.
Qed.

Lemma duplicate_total x s :
  header_name_start (hs_r x) = Some s -> (s < p)%nat -> exists b, duplicate_status m upstream p x = Ok b.
Proof.
  intros Hs Hsp. unfold duplicate_status. rewrite Hs. destruct upstream; [|by eexists].
  destruct (Nat.eqb_spec (p - s) 4) as [E|]; [|by eexists].
  assert (Hl : (s + 4 < length m)%nat) by (apply lookup_lt_Some in Hc; lia).
  assert (Hd : (4 <= length (drop s m))%nat) by (rewrite length_drop; lia).
  destruct (drop s m) as [|c1 [|c2 [|c3 [|c4 l]]]]; cbn in Hd; try lia. cbn [strncmp bytes app].
  repeat match goal with |- context [if ?b then _ else _] => destruct b end; by eexists.
Qed.

Lemma step_name_ok x s :
  room x -> hs_state x = sw_name -> header_name_start (hs_r x) = Some s -> (base <= s < p)%nat ->
  name_read allow m s p (hs_hash x) (hs_i x) (hs_r x) -> step_ok (step_name m allow upstream p ch x).
Proof.
  intros [Hl Hi] Hst Hs Hsp Hn. unfold step_name.
  assert (Hbad : step_ok (Ok (Break (set_invalid x)))).
  { apply step_intro. split; [exact Hl|split; [exact Hi|split; [lia|]]]. cbn [hs_state set_invalid with_r]. 
    change (state_inv allow m base (S p) (hs_state x) (hs_hash x) (hs_i x) ((hs_r x) <| invalid_header := true |>)).
    rewrite Hst. exists s. split; [exact Hs|]. split; [lia|]. by apply name_read_invalid. }
  apply (token_cases step_ok (fun c => next_char c x)).
  - intros Ht. by apply (next_char_ok x s).
  - intros _ _. exact Hbad.
  - intros _ _. apply header_step_if; intros _; [|apply header_step_if; intros _; [|apply header_step_if; intros _]].
    + apply step_intro. split; [exact Hl|split; [exact Hi|split; [lia|]]]. exists s, p. split; [exact Hs|]. split; [done|]. split; [lia|]. split; [lia|exact Hn].
    + apply step_intro. split; [exact Hl|split; [exact Hi|split; [lia|]]]. by apply (no_value_ok s).
    + apply step_intro. split; [by split|]. by apply (no_value_ok s).
    + assert (Hdup : exists b, (if ch =? "/"%ch then duplicate_status m upstream p x else Ok false) = Ok b).
      { destruct (ch =? "/"%ch); [by apply (duplicate_total x s Hs ltac:(lia))|by eexists]. }
      destruct Hdup as [b ->]. cbn [mbind outcome_bind]. apply header_step_if; intros _; [by apply step_intro; split; [exact Hl|split; [exact Hi|split; [lia|done]]]|].
      apply header_step_if; intros _; [by apply step_intro|exact Hbad].
Qed.
Lemma step_space_before_value_ok x :
  room x -> hs_state x = sw_space_before_value ->
  (exists s e, key_known allow m base p s e (hs_hash x) (hs_i x) (hs_r x)) -> step_ok (step_space_before_value p ch x).
Proof.
  intros [Hl Hi] Hst (s & e & Hk). unfold step_space_before_value.
  assert (Hk' : forall r', header_name_start r' = header_name_start (hs_r x) -> header_name_end r' = header_name_end (hs_r x) ->
    invalid_header r' = invalid_header (hs_r x) -> lowcase_header r' = lowcase_header (hs_r x) ->
    key_known allow m base (S p) s e (hs_hash x) (hs_i x) r') by (intros r' E1 E2 E3 E4; by eapply key_later).
  assert (He : (e < p)%nat) by (destruct Hk as (_ & _ & _ & Hk & _); lia).
  assert (Hnv : line_known allow m base (S p) (hs_hash x) (hs_i x) (hs_r (set_header_end p (set_header_start p x)))).
  { exists s, e, p, p. split; [by apply Hk'|]. split; [done|]. split; [done|]. split; [lia|]. split; [lia|].
    rewrite slice_nil. apply value_ok_nil. }
  apply header_step_if; intros E1; [|apply header_step_if; intros E2; [|apply header_step_if; intros E3; [|apply header_step_if; intros E4]]].
  - apply step_intro. split; [exact Hl|split; [exact Hi|split; [lia|]]]. rewrite Hst. exists s, e. by apply Hk'.
  - apply step_intro. split; [exact Hl|split; [exact Hi|split; [lia|]]]. exact Hnv.
  - apply step_intro. split; [by split|]. exact Hnv.
  - by apply step_intro.
  - apply Z.eqb_neq in E1, E2, E3, E4. apply step_intro. split; [exact Hl|split; [exact Hi|split; [lia|]]]. exists s, e, p.
    split; [by apply Hk'|]. split; [done|]. split; [lia|]. rewrite slice_one. by apply value_ok_start.
Qed.

Lemma step_value_ok x :
  room x -> hs_state x = sw_value ->
  (exists s e v, key_known allow m base p s e (hs_hash x) (hs_i x) (hs_r x) /\ header_start (hs_r x) = Some v /\
     (e < v < p)%nat /\ value_ok (slice m v p)) -> step_ok (step_value p ch x).
Proof.
  intros [Hl Hi] Hst (s & e & v & Hk & Hv & Hvp & Hval). unfold step_value.
  assert (Hk' : forall r', header_name_start r' = header_name_start (hs_r x) -> header_name_end r' = header_name_end (hs_r x) ->
    invalid_header r' = invalid_header (hs_r x) -> lowcase_header r' = lowcase_header (hs_r x) ->
    key_known allow m base (S p) s e (hs_hash x) (hs_i x) r') by (intros r' E1 E2 E3 E4; by eapply key_later).
  assert (Hnv : line_known allow m base (S p) (hs_hash x) (hs_i x) (hs_r (set_header_end p x))).
  { exists s, e, v, p. split; [by apply Hk'|]. split; [done|]. split; [done|]. split; [lia|]. split; [lia|done]. }
  apply header_step_if; intros E1; [|apply header_step_if; intros E2; [|apply header_step_if; intros E3; [|apply header_step_if; intros E4]]].
  - apply Z.eqb_eq in E1. apply step_intro. split; [exact Hl|split; [exact Hi|split; [lia|]]]. exists s, e, v, p.
    split; [by apply Hk'|]. split; [done|]. split; [done|]. split; [lia|]. split; [lia|]. split; [done|].
    unfold blanks. rewrite slice_one, E1. by constructor.
  - apply step_intro. split; [exact Hl|split; [exact Hi|split; [lia|]]]. exact Hnv.
  - apply step_intro. split; [by split|]. exact Hnv.
  - by apply step_intro.
  - apply Z.eqb_neq in E1, E2, E3, E4. apply step_intro. split; [exact Hl|split; [exact Hi|split; [lia|]]]. rewrite Hst. exists s, e, v.
    split; [by apply Hk'|]. split; [done|]. split; [lia|]. rewrite (slice_snoc m v p ch) by (done || lia).
    apply (value_ok_more _ [] ch); try done. intros En. apply lookup_lt_Some in Hc.
    apply (f_equal length) in En. rewrite slice_length in En by lia. cbn in En. lia.
Qed.

Lemma step_space_after_value_ok x :
  room x -> hs_state x = sw_space_after_value ->
  (exists s e v w, key_known allow m base p s e (hs_hash x) (hs_i x) (hs_r x) /\ header_start (hs_r x) = Some v /\
     header_end (hs_r x) = Some w /\ (e < v < w)%nat /\ (w < p)%nat /\ value_ok (slice m v w) /\ blanks m w p) ->
  step_ok (step_space_after_value ch x).
Proof.
  intros [Hl Hi] Hst (s & e & v & w & Hk & Hv & Hw & Hvw & Hwp & Hval & Hbl). unfold step_space_after_value.
  assert (Hk' : key_known allow m base (S p) s e (hs_hash x) (hs_i x) (hs_r x)) by by eapply key_later.
  assert (Hnv : line_known allow m base (S p) (hs_hash x) (hs_i x) (hs_r x)).
  { exists s, e, v, w. split; [done|]. split; [done|]. split; [done|]. split; [lia|]. split; [lia|done]. }
  apply header_step_if; intros E1; [|apply header_step_if; intros E2; [|apply header_step_if; intros E3; [|apply header_step_if; intros E4]]].
  - apply Z.eqb_eq in E1. apply step_intro. split; [exact Hl|split; [exact Hi|split; [lia|]]]. rewrite Hst. exists s, e, v, w.
    split; [done|]. split; [done|]. split; [done|]. split; [lia|]. split; [lia|]. split; [done|].
    unfold blanks. rewrite (slice_snoc m w p ch) by (done || lia). apply Forall_app. split; [done|]. rewrite E1. by constructor.
  - apply step_intro. split; [exact Hl|split; [exact Hi|split; [lia|]]]. exact Hnv.
  - apply step_intro. split; [by split|]. exact Hnv.
  - by apply step_intro.
  - apply Z.eqb_neq in E1, E2, E3, E4. apply step_intro. split; [exact Hl|split; [exact Hi|split; [lia|]]]. exists s, e, v.
    split; [done|]. split; [done|]. split; [lia|]. apply lookup_lt_Some in Hc as Hlt.
    replace (slice m v (S p)) with (slice m v w ++ slice m w p ++ [ch]).
    + apply value_ok_more; try done. intros En. apply (f_equal length) in En. rewrite slice_length in En by lia. cbn in En. lia.
    + rewrite <- (slice_snoc m w p ch) by (done || lia). symmetry. apply slice_split. lia.
Qed.

(** No byte makes the parser access memory outside the buffer, the table or the
    copy of the name, and the invariant holds again. *)
Lemma header_step_ok x : scan_inv allow m base p x -> step_ok (header_step m allow upstream p ch x).
Proof.
  intros (Hl & Hi & _ & H). assert (Hr : room x) by by split. unfold header_step.
  destruct (hs_state x) eqn:Hst; cbn [state_inv] in H.
  - by apply step_first_ok.
  - destruct H as (s & H1 & H2 & H3). by apply (step_name_ok x s).
  - by apply step_space_before_value_ok.
  - by apply step_value_ok.
  - by apply step_space_after_value_ok.
  - apply header_step_if; intros _; apply step_intro; (split; [exact Hl|split; [exact Hi|split; [lia|]]]); [done|by rewrite Hst].
  - assert (H' : line_known allow m base (S p) (hs_hash x) (hs_i x) (hs_r x)).
    { destruct H as (s & e & v & w & Hk & Hv & Hw & H1 & H2 & H3). exists s, e, v, w.
      split; [by eapply key_later|]. split; [done|]. split; [done|]. split; [done|]. split; [lia|done]. }
    apply header_step_if; intros _; [by apply step_intro|]. apply header_step_if; intros _; [|by apply step_intro].
    apply step_intro. split; [exact Hl|split; [exact Hi|split; [lia|]]]. rewrite Hst. exact H'.
  - destruct H as (s & H1 & H2). apply header_step_if; intros _; [|by apply step_intro].
    apply step_intro. split; [done|]. exists s. split; [done|lia].
Qed.
End Steps.

(** * The loop *)

(** What the parser gives on the bytes from [pos] to [last]. *)
Definition result_ok (allow : bool) (m : list Z) (base : nat) (old : header_state) (pos p last : nat) (x : header_result) : Prop :=
  let '(rc, st, r, q) := x in
  (rc = NGX_AGAIN /\ q = last /\ header_inv allow m base q st r) \/
  (rc = NGX_OK /\ st = sw_start /\ (p < q <= last)%nat /\ room (scan_of st r) /\
     line_known allow m base q (header_hash r) (lowcase_index r) r) \/
  (rc = NGX_HTTP_PARSE_HEADER_DONE /\ st = sw_start /\ (p < q <= last)%nat /\
     exists s, header_name_start r = Some s /\ (s < q)%nat) \/
  (rc = NGX_HTTP_PARSE_INVALID_HEADER /\ st = old /\ q = pos).

Lemma header_loop_ok allow upstream m base old pos n : forall p x,
  bytes_ok m -> (p + n <= length m)%nat -> scan_inv allow m base p x ->
  exists y, header_loop m allow upstream old pos n p x = Ok y /\ result_ok allow m base old pos p (p + n) y.
Proof.
  induction n as [|n IH]; intros p x Hb Hl Hx; cbn [header_loop].
  - eexists. split; [reflexivity|]. left. split; [done|]. split; [lia|exact Hx].
  - destruct (lookup_lt_is_Some_2 m p) as [ch Hc]; [lia|]. rewrite (deref_lookup _ _ _ Hc). cbn [mbind outcome_bind].
    destruct (header_step_ok allow upstream m base p ch Hb Hc (proj1 (proj2 (proj2 Hx))) x Hx) as (a & -> & Ha). cbn [mbind outcome_bind].
    destruct a as [x'|x'|x'|x']; cbn in Ha.
    + destruct (IH (S p) x' Hb ltac:(lia) Ha) as ([[[rc st] r] q] & -> & Hy). eexists. split; [reflexivity|].
      rewrite <- Nat.add_succ_comm. destruct Hy as [Hy|[(H1 & H2 & H3 & Hy)|[(H1 & H2 & H3 & Hy)|Hy]]];
        [by left|right; left|right; right; left|by right; right; right]; (split; [done|split; [done|split; [lia|done]]]).
    + eexists. split; [reflexivity|]. right; left. destruct Ha as [Hr Hk]. split; [done|]. split; [done|]. split; [lia|].
      split; [exact Hr|exact Hk].
    + eexists. split; [reflexivity|]. right; right; left. destruct Ha as [Hr Hk]. split; [done|]. split; [done|].
      split; [lia|exact Hk].
    + eexists. split; [reflexivity|]. by right; right; right.
Qed.

Lemma parse_header_ok allow upstream m base pos last st r :
  bytes_ok m -> (pos <= last)%nat -> (last <= length m)%nat -> header_inv allow m base pos st r ->
  exists y, ngx_http_parse_header_line m allow upstream pos last st r = Ok y /\ result_ok allow m base st pos pos last y.
Proof.
  intros Hb Hp Hl Hx. destruct (header_loop_ok allow upstream m base st pos (last - pos) pos (scan_of st r) Hb ltac:(lia) Hx) as (y & Hy & H).
  exists y. split; [exact Hy|]. by replace (pos + (last - pos))%nat with last in H by lia.
Qed.

(** * The elements of the list *)

(** The strings of an element lie before [bound], each with a NUL after it.  If
    lines with invalid names are skipped, the name is a valid one, and the hash
    and the copy in lower case are its hash and its copy. *)
Record elt_ok (allow ignore : bool) (m : list Z) (bound : nat) (h : ngx_table_elt_t) : Prop := {
  elt_key_nul : ((h_key h).1 + (h_key h).2 < bound)%nat /\ m !! ((h_key h).1 + (h_key h).2)%nat = Some 0;
  elt_value_nul : ((h_value h).1 + (h_value h).2 < bound)%nat /\ m !! ((h_value h).1 + (h_value h).2)%nat = Some 0;
  elt_key_nonempty : (0 < (h_key h).2)%nat /\ length (h_lowcase_key h) = (h_key h).2;
  elt_value_ok : value_ok (str_bytes m (h_value h));
  elt_name : ignore = true ->
    Forall (fun c => token_char allow c = true) (str_bytes m (h_key h)) /\
    h_lowcase_key h = lower (str_bytes m (h_key h)) /\ h_hash h = name_hash (str_bytes m (h_key h))
}.

Lemma elt_ok_agree allow ignore m m' b b' h :
  take b m = take b m' -> (b <= b')%nat -> elt_ok allow ignore m b h -> elt_ok allow ignore m' b' h.
Proof.
  intros E Hbb [[H1 H2] [H3 H4] H5 H6 H7]. unfold str_bytes in *.
  rewrite (slice_agree m m' _ _ b) in H6 by (done || lia). rewrite (slice_agree m m' _ _ b) in H7 by (done || lia).
  split; try done; (split; [lia|]); rewrite <- (lookup_agree m m' b) by (done || lia); done.
Qed.

(** The copy of the name: what has been collected, if that is all of it. *)
Definition lowcase_of (m : list Z) (s e : nat) (r : header_t) : list Z :=
  if (e - s =? lowcase_index r)%nat then take (e - s) (lowcase_header r) else lower (slice m s e).

Lemma slice_insert m i e p c : (e <= p)%nat -> slice (<[p:=c]> m) i e = slice m i e.
Proof. intros H. apply (slice_agree _ _ _ _ p); [by rewrite take_insert_ge|done]. Qed.

Lemma terminate_ok m a n e : (a + n = e)%nat -> (e < length m)%nat -> terminate m (a, n) = Ok (<[e:=0]> m).
Proof. intros <- H. unfold terminate. by rewrite store_ok. Qed.

Section Element.
Context (allow ignore : bool) (m : list Z) (base q s e v w : nat) (r : header_t).
Hypothesis (Hk : key_known allow m base q s e (header_hash r) (lowcase_index r) r).
Hypothesis (Hv : header_start r = Some v) (Hw : header_end r = Some w) (Hev : (e < v \/ e = v /\ v = w)%nat) (Hvw : (v <= w < q)%nat).
Hypothesis (Hval : value_ok (slice m v w)) (Hq : (q <= length m)%nat) (Hr : room (scan_of sw_start r)).

Let m' := <[w:=0]> (<[e:=0]> m).

Lemma header_elt_eq :
  header_elt m r = Ok (m', mk_elt (header_hash r) (s, (e - s)%nat) (v, (w - v)%nat) (lowcase_of m s e r)).
Proof using All.
  destruct Hk as (H1 & H2 & H3 & H3' & _). destruct Hr as [Hl Hi]. cbn in Hl, Hi. unfold header_elt. rewrite H1, H2, Hv, Hw. unfold part.
  rewrite (proj2 (Nat.leb_le s e)) by lia. cbn [mbind outcome_bind]. rewrite (terminate_ok m s (e - s) e) by lia.
  cbn [mbind outcome_bind]. rewrite (proj2 (Nat.leb_le v w)) by lia. cbn [mbind outcome_bind].
  rewrite (terminate_ok _ v (w - v) w) by (rewrite ?length_insert; lia). cbn [mbind outcome_bind fst snd].
  unfold lowcase_of. destruct (Nat.eqb_spec (e - s) (lowcase_index r)) as [E|E].
  - unfold memcpy. rewrite (proj2 (Nat.leb_le _ _)) by lia. done.
  - rewrite strlow_ok by (rewrite length_drop, !length_insert; lia).
    change (take (e - s) (drop s (<[w:=0]> (<[e:=0]> m)))) with (slice (<[w:=0]> (<[e:=0]> m)) s e).
    rewrite !slice_insert by lia. done.
Qed.

Lemma element_value : slice m' v w = slice m v w.
Proof using All.
  unfold m'. rewrite slice_insert by lia. destruct Hev as [H|[-> ->]]; [|by rewrite !slice_nil].
  unfold slice. by rewrite drop_insert_lt by lia.
Qed.

Lemma lowcase_of_ok : invalid_header r = false -> lowcase_of m s e r = lower (slice m s e).
Proof using All.
  intros Hi. destruct Hk as (_ & _ & Hse & Heq & Hn). destruct (Hn Hi) as (_ & _ & H3 & H4). unfold lowcase_of.
  rewrite slice_length in H3, H4 by lia. destruct (Nat.eqb_spec (e - s) (lowcase_index r)) as [E|]; [|done].
  apply H4. rewrite E. destruct Hr as [_ H]. exact H.
Qed.

Lemma element_ok : invalid_header r && ignore = false ->
  elt_ok allow ignore m' q (mk_elt (header_hash r) (s, (e - s)%nat) (v, (w - v)%nat) (lowcase_of m s e r)).
Proof using All.
  intros Hign. destruct Hk as (_ & _ & Hse & Heq & Hn).
  assert (Hlm : length m' = length m) by (unfold m'; by rewrite !length_insert).
  split; cbn [h_key h_value h_hash h_lowcase_key fst snd];
    rewrite ?(ltac:(lia) : (s + (e - s) = e)%nat), ?(ltac:(lia) : (v + (w - v) = w)%nat).
  - split; [lia|]. unfold m'. destruct (decide (w = e)) as [->|]; [by rewrite list_lookup_insert_eq by (rewrite length_insert; lia)|].
    rewrite list_lookup_insert_ne by done. by rewrite list_lookup_insert_eq by lia.
  - split; [lia|]. unfold m'. by rewrite list_lookup_insert_eq by (rewrite length_insert; lia).
  - split; [lia|]. unfold lowcase_of. destruct Hr as [Hl Hi]. cbn in Hl, Hi.
    destruct (Nat.eqb_spec (e - s) (lowcase_index r)); [rewrite length_take; lia|].
    unfold lower. by rewrite length_map, slice_length by lia.
  - unfold str_bytes. cbn [fst snd]. replace (v + (w - v))%nat with w by lia. by rewrite element_value.
  - intros Hig. rewrite Hig, andb_true_r in Hign. unfold str_bytes. cbn [fst snd]. replace (s + (e - s))%nat with e by lia.
    unfold m'. rewrite !slice_insert by lia. destruct (Hn Hign) as (H1 & H2 & _).
    split; [done|]. split; [by apply lowcase_of_ok|done].
Qed.

Lemma element_frame : take s m' = take s m /\ drop q m' = drop q m /\ length m' = length m.
Proof using All.
  destruct Hk as (_ & _ & Hse & Heq & _). unfold m'. rewrite !take_insert_ge, !drop_insert_lt, !length_insert by lia. done.
Qed.
End Element.

(** * The loop over the lines *)

Lemma bytes_ok_insert m i c : bytes_ok m -> byte_ok c -> bytes_ok (<[i:=c]> m).
Proof. intros Hm Hc. by apply Forall_insert. Qed.

Lemma part_ok s e : (s <= e)%nat -> part (Some s) (Some e) = Ok (s, (e - s)%nat).
Proof. intros H. unfold part. by rewrite (proj2 (Nat.leb_le s e)). Qed.

Section Process.
Context (allow ignore : bool) (alloc : nat -> bool) (handler : Z -> list Z -> list Z -> list Z -> Z).

(** The loop can go on from here, in a line that starts after the elements. *)
Definition resumable (m : list Z) (pos : nat) (st : header_state) (r : header_t) (elts : list ngx_table_elt_t) : Prop :=
  exists base, header_inv allow m base pos st r /\ Forall (elt_ok allow ignore m base) elts.

(** How the loop ends, when it starts at [pos]. *)
Record headers_ok (m : list Z) (pos last : nat) (x : headers_result) : Prop := {
  headers_pos : (pos <= hr_pos x <= last)%nat;
  headers_memory : length (hr_m x) = length m /\ drop (hr_pos x) (hr_m x) = drop (hr_pos x) m /\ bytes_ok (hr_m x);
  headers_elts : Forall (elt_ok allow ignore (hr_m x) last) (hr_elts x);
  headers_wait : hr_end x = Wait -> hr_pos x = last /\ resumable (hr_m x) last (hr_state x) (hr_r x) (hr_elts x);
  headers_fin :
    match hr_end x with
    | Wait | Header_done => True
    | Finalize status => status = NGX_HTTP_BAD_REQUEST \/ status = NGX_HTTP_INTERNAL_SERVER_ERROR /\ exists n, alloc n = false
    | Handled rc => rc <> NGX_OK /\ exists h, rc = call_handler handler (hr_m x) h
    end
}.

Lemma headers_ok_intro m pos last fin elts len st r q :
  (pos <= q <= last)%nat -> bytes_ok m -> Forall (elt_ok allow ignore m last) elts ->
  (fin = Wait -> q = last /\ resumable m last st r elts) ->
  match fin with
  | Wait | Header_done => True
  | Finalize status => status = NGX_HTTP_BAD_REQUEST \/ status = NGX_HTTP_INTERNAL_SERVER_ERROR /\ exists n, alloc n = false
  | Handled rc => rc <> NGX_OK /\ exists h, rc = call_handler handler m h
  end -> headers_ok m pos last (mk_headers fin elts len st r q m).
Proof. intros H1 H2 H3 H4 H5. by split. Qed.

Lemma elts_later m m' b b' elts :
  take b m = take b m' -> (b <= b')%nat -> Forall (elt_ok allow ignore m b) elts -> Forall (elt_ok allow ignore m' b') elts.
Proof. intros E Hb He. eapply Forall_impl; [exact He|]. intros h Hh. by eapply elt_ok_agree; [..|exact Hh]. Qed.

(** The results of the rounds that follow a line. *)
Lemma headers_ok_next m m' pos q last x :
  (pos <= q)%nat -> length m' = length m -> drop q m' = drop q m -> headers_ok m' q last x -> headers_ok m pos last x.
Proof.
  intros Hq Hl Hd [G1 (G2 & G3 & G4) G5 G6 G7]. split; try done; [lia|]. split; [lia|]. split; [|done].
  rewrite G3. replace (hr_pos x) with (q + (hr_pos x - q))%nat by lia. by rewrite <- !drop_drop, Hd.
Qed.

(** The end of the name and of the value, the element of a line, and the buffer
    with its strings terminated. *)
Definition name_end_of (r : header_t) : nat := default O (header_name_end r).
Definition value_end_of (r : header_t) : nat := default O (header_end r).

Definition elt_of (m : list Z) (r : header_t) : ngx_table_elt_t :=
  let s := default O (header_name_start r) in
  let v := default O (header_start r) in
  mk_elt (header_hash r) (s, (name_end_of r - s)%nat) (v, (value_end_of r - v)%nat) (lowcase_of m s (name_end_of r) r).

Definition terminated (m : list Z) (r : header_t) : list Z := <[value_end_of r:=0]> (<[name_end_of r:=0]> m).

Lemma elt_of_agree m m' q r : take q m = take q m' -> (name_end_of r <= q)%nat -> elt_of m r = elt_of m' r.
Proof. intros E Hq. unfold elt_of, lowcase_of. by rewrite (slice_agree m m' _ _ q). Qed.

(** A line that has been parsed: whether it is skipped or not, the loop can go on. *)
Lemma line_next m base q r elts :
  room (scan_of sw_start r) -> line_known allow m base q (header_hash r) (lowcase_index r) r ->
  bytes_ok m -> (base <= q)%nat -> (q <= length m)%nat -> Forall (elt_ok allow ignore m base) elts ->
  (exists s, header_name_start r = Some s /\ (s <= q)%nat) /\
  if invalid_header r && ignore then resumable m q sw_start r elts
  else (name_end_of r < q)%nat /\ (value_end_of r < q)%nat /\
    header_elt m r = Ok (terminated m r, elt_of m r) /\ bytes_ok (terminated m r) /\
    Forall (elt_ok allow ignore (terminated m r) q) (elts ++ [elt_of m r]) /\
    resumable (terminated m r) q sw_start r (elts ++ [elt_of m r]).
Proof.
  intros Hr (s & e & v & w & Hk & Hv & Hw & Hev & Hvw & Hval) Hb Hbase Hq He. pose proof Hk as (Hs & _ & Hse & Heq & _).
  assert (Hi' : forall m', header_inv allow m' q q sw_start r) by (intros m'; split; [apply Hr|split; [apply Hr|done]]).
  split; [exists s; split; [done|lia]|]. destruct (invalid_header r && ignore) eqn:Hign.
  { exists q. split; [done|]. by eapply elts_later; [..|exact He]. }
  unfold terminated, elt_of, name_end_of, value_end_of. rewrite (proj1 (proj2 Hk)), Hv, Hw, Hs. cbn [from_option id].
  split; [lia|]. split; [lia|]. set (m' := <[w:=0]> (<[e:=0]> m)). set (h := mk_elt _ _ _ _).
  split; [exact (header_elt_eq allow ignore m base q s e v w r Hk Hv Hw Hev Hvw Hval Hq Hr)|].
  split; [by repeat apply bytes_ok_insert|].
  pose proof (element_ok allow ignore m base q s e v w r Hk Hv Hw Hev Hvw Hval Hq Hr Hign) as Hh. fold h m' in Hh.
  pose proof (element_frame allow ignore m base q s e v w r Hk Hv Hw Hev Hvw Hval Hq Hr) as (F1 & _). fold m' in F1.
  assert (He' : Forall (elt_ok allow ignore m' q) (elts ++ [h])).
  { apply Forall_app. split; [|by constructor]. apply (elts_later m m' base q); [|lia|exact He].
    replace base with (base `min` s)%nat by lia. by rewrite <- !take_take, F1. }
  split; [done|]. by exists q.
Qed.

Lemma process_headers_ok fuel : forall m pos last st r elts len,
  bytes_ok m -> (pos <= last)%nat -> (last <= length m)%nat -> (last - pos < fuel)%nat -> resumable m pos st r elts ->
  exists x, process_headers allow ignore alloc handler fuel m pos last st r elts len = Ok x /\ headers_ok m pos last x.
Proof.
  induction fuel as [|fuel IH]; intros m pos last st r elts len Hb Hp Hl Hf (base & Hi & He); [lia|]. cbn [process_headers].
  destruct (parse_header_ok allow false m base pos last st r Hb Hp Hl Hi) as ([[[rc st'] r'] q] & -> & Hok).
  pose proof (proj1 (proj2 (proj2 Hi))) as Hbase. cbn [mbind outcome_bind].
  assert (Hel : Forall (elt_ok allow ignore m last) elts) by (eapply elts_later; [done| |exact He]; lia).
  destruct Hok as [(-> & -> & Hok)|[(-> & -> & Hq & Hr & Hk)|[(-> & -> & Hq & s & Hs & Hsq)|(-> & -> & ->)]]].
  - eexists. split; [reflexivity|]. apply headers_ok_intro; try done; try lia. intros _. split; [done|]. by exists base.
  - change (NGX_OK =? NGX_OK) with true. cbn iota.
    destruct (line_next m base q r' elts Hr Hk Hb ltac:(lia) ltac:(lia) He) as ((s & Hs & Hsq) & Hn).
    rewrite Hs, part_ok by lia. cbn [mbind outcome_bind snd].
    destruct (invalid_header r' && ignore) eqn:Hign.
    { destruct (IH m q last sw_start r' elts (len + (q - s))%nat Hb ltac:(lia) Hl ltac:(lia) Hn) as (x & -> & Hx).
      eexists. split; [reflexivity|]. apply (headers_ok_next m m pos q); try done; lia. }
    destruct (alloc (length elts)) eqn:Hal; cbn [negb].
    2: { eexists. split; [reflexivity|]. apply headers_ok_intro; try done; try lia. right. split; [done|by eexists]. }
    destruct Hn as (Heq & Hwq & -> & Hb' & He' & Hn). cbn [mbind outcome_bind]. set (h := elt_of m r') in *.
    set (m' := terminated m r') in *.
    assert (Hm' : length m' = length m /\ drop q m' = drop q m)
      by (subst m'; unfold terminated; by rewrite !length_insert, !drop_insert_lt by lia).
    destruct (Z.eqb_spec (call_handler handler m' h) NGX_OK) as [Hok|Hok]; cbn [negb].
    + destruct (IH m' q last sw_start r' (elts ++ [h]) (len + (q - s))%nat Hb' ltac:(lia) ltac:(lia) ltac:(lia) Hn) as (x & -> & Hx).
      eexists. split; [reflexivity|]. apply (headers_ok_next m m' pos q); try apply Hm'; try done; lia.
    + eexists. split; [reflexivity|]. apply (headers_ok_next m m' pos q); try apply Hm'; try lia.
      apply headers_ok_intro; try done; try lia; [apply (elts_later m' m' q); [done|lia|exact He']|].
      split; [done|]. by exists h.
  - change (NGX_HTTP_PARSE_HEADER_DONE =? NGX_OK) with false.
    change (NGX_HTTP_PARSE_HEADER_DONE =? NGX_HTTP_PARSE_HEADER_DONE) with true.
    cbn iota. rewrite Hs, part_ok by lia. eexists. split; [reflexivity|]. apply headers_ok_intro; try done; lia.
  - eexists. split; [reflexivity|]. by apply headers_ok_intro; try lia; try left.
Qed.
End Process.

Lemma resumable_new allow ignore m pos : resumable allow ignore m pos sw_start new_header [].
Proof. exists pos. split; [|done]. split; [done|]. split; [vm_compute; lia|]. split; [lia|done]. Qed.

(** C5. On any bytes, and wherever it was interrupted before, the loop over the
    header lines ends and stays in the buffer; every element has a name and a value that
    are terminated by a NUL, a value without spaces at its ends, and, when lines with
    invalid names are skipped, a name of valid characters whose hash and copy in lower
    case are right. *)
Theorem request_headers_sound allow ignore alloc handler m pos last st r elts len :
  bytes_ok m -> (pos <= last)%nat -> (last <= length m)%nat -> resumable allow ignore m pos st r elts ->
  exists x, ngx_http_process_request_headers allow ignore alloc handler m pos last st r elts len = Ok x /\
    headers_ok allow ignore alloc handler m pos last x.
Proof. intros Hb Hp Hl Hr. apply process_headers_ok; try done. lia. Qed.

Definition demo_block : list Z := bytes "Host:  a b " ++ CRLF ++ bytes "x_y: 1" ++ CRLF ++ bytes "Q:" ++ CRLF ++ CRLF.

Lemma request_headers_sound_witness :
  exists x, ngx_http_process_request_headers false true (fun _ => true) (fun _ _ _ _ => NGX_OK)
      demo_block 0 27 sw_start new_header [] 0 = Ok x /\
    headers_ok false true (fun _ => true) (fun _ _ _ _ => NGX_OK) demo_block 0 27 x.
Proof.
  apply request_headers_sound; [apply bytes_okb_true; reflexivity|lia|vm_compute; lia|apply resumable_new].
Defined.

(** * Fragments *)

(** The request but for the fields that the parser has not saved. *)
Definition forget (h : Z) (i : nat) (r : header_t) : header_t := r <| header_hash := h |> <| lowcase_index := i |>.

Definition map_action (f : header_scan -> header_scan) (a : header_action) : header_action :=
  match a with
  | Break x => Break (f x)
  | Goto_done x => Goto_done (f x)
  | Goto_header_done x => Goto_header_done (f x)
  | Invalid_header x => Invalid_header (f x)
  end.

Lemma header_step_forget allow m p ch h i x :
  header_step m allow false p ch (with_r (forget h i) x) =
  map_action (with_r (forget h i)) <$> header_step m allow false p ch x.
Proof.
  destruct x as [st hash j [hh li lc inv ns ne s e]]. unfold header_step, step_first, step_name, step_space_before_value,
    step_value, step_space_after_value, first_char, next_char, duplicate_status. cbn -[lowcase].
  destruct (at_ lowcase ch); cbn [mbind outcome_bind]; destruct st;
    repeat match goal with
      | |- context [store ?l ?i ?c] => destruct (store l i c); cbn [mbind outcome_bind]
      | |- context [if ?b then _ else _] => destruct b
      end; reflexivity.
Qed.

(** What can be seen of a result. *)
Definition result_view (x : header_result) : Z * header_t * option (header_state * nat) :=
  let '(rc, st, r, q) := x in
  if (rc =? NGX_OK) || (rc =? NGX_AGAIN) then (rc, r, Some (st, q))
  else if rc =? NGX_HTTP_PARSE_HEADER_DONE then (rc, forget 0 0 r, Some (st, q))
  else (rc, forget 0 0 r, None).

Lemma header_loop_forget allow m h i n : forall old pos old' pos' p x,
  result_view <$> header_loop m allow false old pos n p (with_r (forget h i) x) =
  result_view <$> header_loop m allow false old' pos' n p x.
Proof.
  induction n as [|n IH]; intros old pos old' pos' p x; cbn [header_loop]; [done|].
  destruct (deref m p) as [ch| |]; [|done..]. cbn [mbind outcome_bind]. rewrite header_step_forget.
  destruct (header_step m allow false p ch x) as [a| |]; [|done..]. cbn [fmap outcome_fmap mbind outcome_bind].
  destruct a as [x'|x'|x'|x']; [apply IH|done..].
Qed.

(** The loop on bytes that end early goes on where it stopped. *)
Lemma header_loop_app allow m old pos old' pos' n1 n2 : forall p x,
  result_view <$> header_loop m allow false old pos (n1 + n2) p x =
  result_view <$> (y ← header_loop m allow false old pos n1 p x;
    let '(rc, st, r, q) := y in
    if rc =? NGX_AGAIN then header_loop m allow false old' pos' n2 q (scan_of st r) else Ok y).
Proof.
  induction n1 as [|n1 IH]; intros p x; cbn [header_loop Nat.add].
  - symmetry. exact (header_loop_forget allow m (hs_hash x) (hs_i x) n2 old' pos' old pos p x).
  - destruct (deref m p) as [ch| |]; [|done..]. cbn [mbind outcome_bind].
    destruct (header_step m allow false p ch x) as [a| |]; [|done..]. cbn [mbind outcome_bind].
    destruct a as [x'|x'|x'|x']; [apply IH|done..].
Qed.

Lemma header_loop_agree allow m m' old pos n : forall p x,
  take (p + n) m = take (p + n) m' ->
  header_loop m allow false old pos n p x = header_loop m' allow false old pos n p x.
Proof.
  induction n as [|n IH]; intros p x E; cbn [header_loop]; [done|].
  unfold deref. rewrite (lookup_agree m m' (p + S n)) by (done || lia). destruct (m' !! p) as [ch|]; [|done].
  cbn [mbind outcome_bind]. change (header_step m' allow false p ch x) with (header_step m allow false p ch x).
  destruct (header_step m allow false p ch x) as [a| |]; [|done..]. cbn [mbind outcome_bind].
  destruct a as [x'|x'|x'|x']; [|done..]. apply IH. by rewrite Nat.add_succ_comm.
Qed.

(** The invariant depends on the bytes read only. *)
Lemma name_read_agree allow m m' s e p hash i r :
  take p m = take p m' -> (e <= p)%nat -> name_read allow m s e hash i r -> name_read allow m' s e hash i r.
Proof. intros E He. unfold name_read. by rewrite (slice_agree m m' s e p). Qed.

Lemma key_agree allow m m' base p s e hash i r :
  take p m = take p m' -> key_known allow m base p s e hash i r -> key_known allow m' base p s e hash i r.
Proof.
  intros E (H1 & H2 & H3 & H4 & H5). split; [done|]. split; [done|]. split; [done|]. split; [done|].
  apply (name_read_agree allow m m' s e p); [done|lia|done].
Qed.

Lemma header_inv_agree allow m m' base p st r :
  take p m = take p m' -> header_inv allow m base p st r -> header_inv allow m' base p st r.
Proof.
  intros E (H1 & H2 & H3 & H). split; [done|]. split; [done|]. split; [done|]. revert H.
  assert (Es : forall i j, (j <= p)%nat -> slice m i j = slice m' i j) by (intros i j Hj; by apply (slice_agree m m' i j p)).
  assert (Ek : forall s e hash i r, key_known allow m base p s e hash i r -> key_known allow m' base p s e hash i r)
    by (intros; by apply (key_agree allow m m')).
  cbn [hs_state scan_of hs_hash hs_i hs_r]. destruct st; cbn [state_inv]; try done.
  - intros (s & G1 & G2 & G3). exists s. split; [done|]. split; [done|]. apply (name_read_agree allow m m' s p p); done.
  - intros (s & e & Hk). exists s, e. by apply Ek.
  - intros (s & e & v & Hk & G1 & G2 & G3). exists s, e, v. rewrite <- Es by lia. split; [by apply Ek|done].
  - intros (s & e & v & w & Hk & G1 & G2 & G3 & G4 & G5 & G6). exists s, e, v, w. unfold blanks in *.
    rewrite <- !Es by lia. split; [by apply Ek|done].
  - intros (s & e & v & w & Hk & G1 & G2 & G3 & G4 & G5). exists s, e, v, w. rewrite <- Es by lia. split; [by apply Ek|done].
Qed.

(** What can be seen of the end of the loop. *)
Definition headers_view (x : headers_result) :
    headers_end * list ngx_table_elt_t * nat * list Z * option (header_state * header_t * nat) :=
  (hr_end x, hr_elts x, hr_length x, hr_m x,
   match hr_end x with Wait => Some (hr_state x, hr_r x, hr_pos x) | _ => None end).

Section Resume.
Context (allow ignore : bool) (alloc : nat -> bool) (handler : Z -> list Z -> list Z -> list Z -> Z).

(** A round of the loop, once the line has been parsed. *)
Definition round (rest : list Z -> nat -> header_state -> header_t -> list ngx_table_elt_t -> nat -> outcome headers_result)
    (m : list Z) (elts : list ngx_table_elt_t) (len : nat) (y : header_result) : outcome headers_result :=
  let '(rc, state, r, pos) := y in
  let finish fin elts request_length m := Ok (mk_headers fin elts request_length state r pos m) in
  if rc =? NGX_OK then
    line ← part (header_name_start r) (Some pos);
    let len := (len + line.2)%nat in
    if invalid_header r && ignore then rest m pos state r elts len
    else if negb (alloc (length elts)) then finish (Finalize NGX_HTTP_INTERNAL_SERVER_ERROR) elts len m
    else
      '(m, h) ← header_elt m r;
      let rc := call_handler handler m h in
      if negb (rc =? NGX_OK) then finish (Handled rc) (elts ++ [h]) len m
      else rest m pos state r (elts ++ [h]) len
  else if rc =? NGX_HTTP_PARSE_HEADER_DONE then
    line ← part (header_name_start r) (Some pos); finish Header_done elts (len + line.2)%nat m
  else if rc =? NGX_AGAIN then finish Wait elts len m
  else finish (Finalize NGX_HTTP_BAD_REQUEST) elts len m.

Lemma process_S fuel m pos last st r elts len :
  process_headers allow ignore alloc handler (S fuel) m pos last st r elts len =
  y ← ngx_http_parse_header_line m allow false pos last st r;
  round (fun m pos st r elts len => process_headers allow ignore alloc handler fuel m pos last st r elts len) m elts len y.
Proof. reflexivity. Qed.

Lemma round_view rest m elts len y y' :
  result_view y = result_view y' -> headers_view <$> round rest m elts len y = headers_view <$> round rest m elts len y'.
Proof.
  destruct y as [[[rc st] r] q], y' as [[[rc' st'] r'] q']. unfold result_view, round. intros E.
  assert (rc' = rc) as -> by (repeat case_match; by injection E).
  destruct (Z.eqb_spec rc NGX_OK) as [->|H1]; cbn [orb] in E; [by injection E as -> -> ->|].
  destruct (Z.eqb_spec rc NGX_AGAIN) as [->|H2]; [by injection E as -> -> ->|].
  destruct (Z.eqb_spec rc NGX_HTTP_PARSE_HEADER_DONE) as [->|H3]; [|done].
  apply (f_equal (fun x => (header_name_start x.1.2, x.2))) in E. cbn in E. injection E as E1 -> ->.
  rewrite E1. by destruct (part _ _).
Qed.

Abbreviation process := (process_headers allow ignore alloc handler).

(** Rounds to spare do not matter. *)
Lemma process_fuel f1 : forall f2 m pos last st r elts len,
  bytes_ok m -> (pos <= last)%nat -> (last <= length m)%nat -> (last - pos < f1)%nat -> (last - pos < f2)%nat ->
  resumable allow ignore m pos st r elts -> process f1 m pos last st r elts len = process f2 m pos last st r elts len.
Proof.
  induction f1 as [|f1 IH]; intros f2 m pos last st r elts len Hb Hp Hl Hf1 Hf2 (base & Hi & He); [lia|].
  destruct f2 as [|f2]; [lia|]. rewrite !process_S.
  destruct (parse_header_ok allow false m base pos last st r Hb Hp Hl Hi) as ([[[rc st'] r'] q] & -> & Hok).
  pose proof (proj1 (proj2 (proj2 Hi))) as Hbase. cbn [mbind outcome_bind]. unfold round.
  destruct Hok as [(-> & _)|[(-> & -> & Hq & Hr & Hk)|[(-> & _)|(-> & _)]]]; try reflexivity.
  change (NGX_OK =? NGX_OK) with true. cbn iota.
  destruct (line_next allow ignore m base q r' elts Hr Hk Hb ltac:(lia) ltac:(lia) He) as ((s & Hs & Hsq) & Hn).
  rewrite Hs, part_ok by lia. cbn [mbind outcome_bind snd].
  destruct (invalid_header r' && ignore); [apply IH; try done; lia|]. destruct (negb (alloc (length elts))); [done|].
  destruct Hn as (Heq & Hwq & -> & Hb' & He' & Hn). cbn [mbind outcome_bind]. destruct (negb _); [done|].
  apply IH; try done; unfold terminated; rewrite ?length_insert; lia.
Qed.

Lemma resumable_agree m m' pos st r elts :
  take pos m = take pos m' -> resumable allow ignore m pos st r elts -> resumable allow ignore m' pos st r elts.
Proof.
  intros E (base & Hi & He). pose proof (proj1 (proj2 (proj2 Hi))) as Hbase. exists base.
  split; [by apply (header_inv_agree allow m m')|]. apply (elts_later allow ignore m m' base base); [|lia|done].
  replace base with (base `min` pos)%nat by lia. by rewrite <- !take_take, E.
Qed.

Lemma terminated_agree n m m' r : take n m = take n m' -> take n (terminated m r) = take n (terminated m' r).
Proof. intros E. unfold terminated. by do 2 (apply take_insert_agree). Qed.

(** [x1] is the end of the loop on the bytes up to [last1], [o] the end on those
    up to [last2] in [m]: either the first must wait, and going on with the rest
    of the bytes gives the second, or the two are the same. *)
Definition resumed (last1 last2 : nat) (m : list Z) (x1 : headers_result) (o : outcome headers_result) : Prop :=
  match hr_end x1 with
  | Wait => forall m2 fuel,
      take last1 m2 = take last1 (hr_m x1) -> drop last1 m2 = drop last1 m -> (last2 - last1 < fuel)%nat ->
      headers_view <$> process fuel m2 (hr_pos x1) last2 (hr_state x1) (hr_r x1) (hr_elts x1) (hr_length x1) =
      headers_view <$> o
  | _ => exists x, o = Ok x /\ hr_end x = hr_end x1 /\ hr_elts x = hr_elts x1 /\ hr_length x = hr_length x1 /\
      take last1 (hr_m x) = take last1 (hr_m x1)
  end.

Lemma resumed_view last1 last2 m x1 o o' :
  headers_view <$> o = headers_view <$> o' -> resumed last1 last2 m x1 o -> resumed last1 last2 m x1 o'.
Proof.
  intros E. unfold resumed. destruct (hr_end x1); [by rewrite E|..]; intros (x & -> & H1 & H2 & H3 & H4);
    (destruct o' as [x'| |]; [|done..]); injection E as E1 E2 E3 E4 _; exists x'; by rewrite <- E1, <- E2, <- E3, <- E4.
Qed.

Lemma resumed_end last1 last2 m0 m m1 fin elts len st r q st' r' q' :
  fin <> Wait -> take last1 m = take last1 m1 ->
  resumed last1 last2 m0 (mk_headers fin elts len st r q m1) (Ok (mk_headers fin elts len st' r' q' m)).
Proof. intros Hf E. unfold resumed. destruct fin; try done; eexists; by repeat split. Qed.

(** The line on [m1] up to [last1] and on [m] up to [last2]. *)
Lemma parse_resumed m1 m pos last1 last2 st r y :
  take last1 m1 = take last1 m -> (pos <= last1)%nat -> (last1 <= last2)%nat ->
  ngx_http_parse_header_line m1 allow false pos last1 st r = Ok y ->
  result_view <$> ngx_http_parse_header_line m allow false pos last2 st r =
  result_view <$> (let '(rc, st, r, q) := y in
    if rc =? NGX_AGAIN then ngx_http_parse_header_line m allow false q (q + (last2 - last1)) st r else Ok y).
Proof.
  intros E Hp Hl H. unfold ngx_http_parse_header_line at 1. replace (last2 - pos)%nat with ((last1 - pos) + (last2 - last1))%nat by lia.
  destruct y as [[[rc st'] r'] q]. rewrite (header_loop_app allow m st pos st' q).
  rewrite <- (header_loop_agree allow m1 m) by (by replace (pos + (last1 - pos))%nat with last1 by lia).
  unfold ngx_http_parse_header_line in H at 1. rewrite H. cbn [mbind outcome_bind].
  destruct (rc =? NGX_AGAIN); [|done]. unfold ngx_http_parse_header_line. by replace (q + (last2 - last1) - q)%nat with (last2 - last1)%nat by lia.
Qed.

Lemma resumed_drop last1 last2 m m' x1 o :
  drop last1 m = drop last1 m' -> resumed last1 last2 m x1 o -> resumed last1 last2 m' x1 o.
Proof. intros E. unfold resumed. by rewrite E. Qed.

(** The invariant of a complete line, for other bytes behind it. *)
Lemma line_known_agree m m' base q r :
  take q m = take q m' -> (base <= q)%nat -> room (scan_of sw_start r) ->
  line_known allow m base q (header_hash r) (lowcase_index r) r ->
  line_known allow m' base q (header_hash r) (lowcase_index r) r.
Proof.
  intros E Hq [Hr1 Hr2] Hk.
  assert (Hi : header_inv allow m base q sw_almost_done r) by (split; [exact Hr1|split; [exact Hr2|by split]]).
  apply (header_inv_agree allow m m') in Hi; [|done]. by destruct Hi as (_ & _ & _ & Hi).
Qed.

(** A complete line before [last1], and the rounds that follow it. *)
Lemma round_resumed last1 last2 f1 f2 m1 m base q r elts len x1 :
  bytes_ok m1 -> bytes_ok m -> take last1 m1 = take last1 m -> (base <= q <= last1)%nat -> (last1 <= length m1)%nat ->
  (last1 <= length m)%nat -> room (scan_of sw_start r) ->
  line_known allow m1 base q (header_hash r) (lowcase_index r) r -> Forall (elt_ok allow ignore m1 base) elts ->
  (forall m1' m' elts' len' x1, bytes_ok m1' -> bytes_ok m' -> take last1 m1' = take last1 m' ->
     length m1' = length m1 -> length m' = length m -> resumable allow ignore m1' q sw_start r elts' ->
     process f1 m1' q last1 sw_start r elts' len' = Ok x1 ->
     resumed last1 last2 m' x1 (process f2 m' q last2 sw_start r elts' len')) ->
  round (fun m pos st r elts len => process f1 m pos last1 st r elts len) m1 elts len (NGX_OK, sw_start, r, q) = Ok x1 ->
  resumed last1 last2 m x1
    (round (fun m pos st r elts len => process f2 m pos last2 st r elts len) m elts len (NGX_OK, sw_start, r, q)).
Proof.
  intros Hb1 Hb E Hq Hl1 Hl Hr Hk He Hrest H.
  assert (Eq : take q m1 = take q m) by (replace q with (q `min` last1)%nat by lia; by rewrite <- !take_take, E).
  assert (Ebase : take base m1 = take base m) by (replace base with (base `min` q)%nat by lia; by rewrite <- !take_take, Eq).
  destruct (line_next allow ignore m1 base q r elts Hr Hk Hb1 ltac:(lia) ltac:(lia) He) as ((s & Hs & Hsq) & Hn1).
  apply (line_known_agree m1 m) in Hk as Hk2; [|done|lia|done].
  assert (He2 : Forall (elt_ok allow ignore m base) elts) by (apply (elts_later allow ignore m1 m base base); done || lia).
  destruct (line_next allow ignore m base q r elts Hr Hk2 Hb ltac:(lia) ltac:(lia) He2) as (_ & Hn).
  unfold round in *. change (NGX_OK =? NGX_OK) with true in *. cbn iota in *. rewrite Hs, part_ok in * by lia.
  cbn [mbind outcome_bind snd] in *. destruct (invalid_header r && ignore); [by apply (Hrest m1)|].
  destruct (negb (alloc (length elts))); [injection H as <-; by apply resumed_end|].
  destruct Hn1 as (He1 & Hw1 & Eh1 & Hb1' & Hel1 & Hres1), Hn as (_ & _ & Eh & Hb' & Hel & Hres).
  rewrite Eh1 in H. rewrite Eh. cbn [mbind outcome_bind] in *. rewrite <- (elt_of_agree m1 m q) in * by (done || lia).
  set (h := elt_of m1 r) in *. pose proof (terminated_agree last1 _ _ r E) as Et.
  assert (Ec : call_handler handler (terminated m1 r) h = call_handler handler (terminated m r) h).
  { apply Forall_app in Hel1 as [_ Hh]. apply Forall_cons in Hh as [Hh _]. destruct Hh as [[Hh1 _] [Hh2 _] _ _ _]. unfold call_handler, str_bytes.
    by rewrite !(slice_agree (terminated m1 r) (terminated m r) _ _ last1) by (done || lia). }
  rewrite <- Ec. destruct (negb (call_handler handler (terminated m1 r) h =? NGX_OK)).
  - injection H as <-. by apply resumed_end.
  - apply (resumed_drop _ _ (terminated m r)); [unfold terminated; by rewrite !drop_insert_lt by lia|].
    apply (Hrest (terminated m1 r)); try done; unfold terminated; by rewrite !length_insert.
Qed.

Lemma process_resumed last1 last2 f1 : forall f2 m1 m pos st r elts len x1,
  bytes_ok m1 -> bytes_ok m -> take last1 m1 = take last1 m -> (pos <= last1)%nat -> (last1 <= last2)%nat ->
  (last1 <= length m1)%nat -> (last2 <= length m)%nat -> (last1 - pos < f1)%nat -> (last2 - pos < f2)%nat ->
  resumable allow ignore m1 pos st r elts -> process f1 m1 pos last1 st r elts len = Ok x1 ->
  resumed last1 last2 m x1 (process f2 m pos last2 st r elts len).
Proof.
  induction f1 as [|f1 IH]; intros f2 m1 m pos st r elts len x1 Hb1 Hb E Hp Hl Hl1 Hl2 Hf1 Hf2 Hres H; [lia|].
  destruct f2 as [|f2]; [lia|]. rewrite process_S in H. rewrite process_S.
  pose proof Hres as (base & Hi & He). pose proof (proj1 (proj2 (proj2 Hi))) as Hbase.
  destruct (parse_header_ok allow false m1 base pos last1 st r Hb1 Hp Hl1 Hi) as ([[[rc st'] r'] q] & Hy & Hok).
  pose proof (parse_resumed m1 m pos last1 last2 st r _ E Hp Hl Hy) as Hv. rewrite Hy in H. cbn [mbind outcome_bind] in H.
  cbn iota beta in Hv. destruct (Z.eqb_spec rc NGX_AGAIN) as [->|Hrc].
  - destruct Hok as [(_ & -> & Hok)|[(Hd & _)|[(Hd & _)|(Hd & _)]]]; try discriminate Hd. injection H as <-. cbn [resumed hr_end].
    intros m2 fuel E2 D2 Hf. cbn in E2. assert (m2 = m) as ->.
    { rewrite <- (take_drop last1 m2), <- (take_drop last1 m), E2, D2, E. done. }
    cbn [hr_pos hr_state hr_r hr_elts hr_length].
    assert (Hres' : resumable allow ignore m last1 st' r' elts).
    { apply (resumable_agree m1); [done|]. by exists base. }
    rewrite (process_fuel fuel (S f2)) by (done || lia). rewrite process_S.
    replace (last1 + (last2 - last1))%nat with last2 in Hv by lia.
    destruct (ngx_http_parse_header_line m allow false last1 last2 st' r') as [y| |],
      (ngx_http_parse_header_line m allow false pos last2 st r) as [y'| |]; try done.
    cbn [mbind outcome_bind]. apply round_view. by injection Hv as ->.
  - destruct (ngx_http_parse_header_line m allow false pos last2 st r) as [y| |]; [|done..].
    assert (Hv' : result_view y = result_view (rc, st', r', q)) by (by injection Hv). clear Hv.
    cbn [mbind outcome_bind]. eapply resumed_view; [symmetry; exact (round_view _ _ _ _ _ _ Hv')|]. clear Hv' y.
    destruct Hok as [(-> & _)|[(-> & -> & Hq & Hr & Hk)|[(-> & -> & Hq & s & Hs & Hsq)|(-> & -> & ->)]]]; [done|..].
    + apply (round_resumed last1 last2 f1 f2 m1 m base q r' elts len x1); try done; try lia.
      intros m1' m' elts' len' x1' B1 B E' L1 L R H'. apply (IH f2 m1' m' q sw_start r' elts' len' x1'); try done; lia.
    + revert H. cbn. rewrite Hs, part_ok by lia. intros [= <-]. by apply resumed_end.
    + injection H as <-. by apply resumed_end.
Qed.
End Resume.

(** The header block in two parts: going on with the rest of the bytes after a wait. *)
(** C6. When the header arrives in two fragments, cut anywhere, the two runs of the
    loop end as one run on the whole header does, with the same list of headers. *)
Theorem request_headers_resumed allow ignore alloc handler m1 m pos last1 last2 st r elts len x1 :
  bytes_ok m1 -> bytes_ok m -> take last1 m1 = take last1 m -> (pos <= last1 <= last2)%nat ->
  (last1 <= length m1)%nat -> (last2 <= length m)%nat -> resumable allow ignore m1 pos st r elts ->
  ngx_http_process_request_headers allow ignore alloc handler m1 pos last1 st r elts len = Ok x1 ->
  match hr_end x1 with
  | Wait => forall m2, take last1 m2 = take last1 (hr_m x1) -> drop last1 m2 = drop last1 m ->
      headers_view <$> ngx_http_process_request_headers allow ignore alloc handler m2 (hr_pos x1) last2
        (hr_state x1) (hr_r x1) (hr_elts x1) (hr_length x1) =
      headers_view <$> ngx_http_process_request_headers allow ignore alloc handler m pos last2 st r elts len
  | _ => exists x, ngx_http_process_request_headers allow ignore alloc handler m pos last2 st r elts len = Ok x /\
      hr_end x = hr_end x1 /\ hr_elts x = hr_elts x1 /\ hr_length x = hr_length x1 /\
      take last1 (hr_m x) = take last1 (hr_m x1)
  end.
Proof.
  intros Hb1 Hb E Hp Hl1 Hl2 Hr H.
  pose proof (process_resumed allow ignore alloc handler last1 last2 (S (last1 - pos)) (S (last2 - pos)) m1 m pos st r elts len x1
    Hb1 Hb E ltac:(lia) ltac:(lia) Hl1 Hl2 ltac:(lia) ltac:(lia) Hr H) as Hx.
  destruct (process_headers_ok allow ignore alloc handler (S (last1 - pos)) m1 pos last1 st r elts len Hb1 ltac:(lia) Hl1 ltac:(lia) Hr)
    as (x & Ex & [_ _ _ Hw _]).
  unfold ngx_http_process_request_headers in H. rewrite Ex in H. injection H as ->.
  unfold resumed in Hx. destruct (hr_end x1) eqn:Eend; try exact Hx.
  intros m2 E2 D2. apply Hx; try done. rewrite (proj1 (Hw eq_refl)). lia.
Qed.

Lemma request_headers_resumed_witness :
  exists x1, ngx_http_process_request_headers false true (fun _ => true) (fun _ _ _ _ => NGX_OK)
      (bytes "Host:  a bXXXXXXXXXXXXXXXXX") 0 10 sw_start new_header [] 0 = Ok x1 /\ hr_end x1 = Wait /\
    headers_view <$> ngx_http_process_request_headers false true (fun _ => true) (fun _ _ _ _ => NGX_OK)
      (take 10 (hr_m x1) ++ drop 10 demo_block) (hr_pos x1) 27 (hr_state x1) (hr_r x1) (hr_elts x1) (hr_length x1) =
    headers_view <$> ngx_http_process_request_headers false true (fun _ => true) (fun _ _ _ _ => NGX_OK)
      demo_block 0 27 sw_start new_header [] 0.
Proof.
  eexists. split; [vm_compute; reflexivity|]. split; [reflexivity|].
  eapply (request_headers_resumed false true (fun _ => true) (fun _ _ _ _ => NGX_OK) (bytes "Host:  a bXXXXXXXXXXXXXXXXX") demo_block
    0 10 27 sw_start new_header [] 0 (mk_headers Wait _ _ _ _ _ _)); try (apply bytes_okb_true; reflexivity);
    try reflexivity; try (vm_compute; lia). 1: apply resumable_new. all: vm_compute; reflexivity.
Defined.
