(* ===== verification/HttpHeaderAccept.v ===== *)
(** Header lines: every well-formed header is accepted, and the elements of the
    list are its names and values. *)

From stdpp Require Import base numbers list option strings.
From Stdlib Require Import ZArith Lia.
From S2P Require Import Prelude Buffer StringCompare HttpRequest HttpHeader HttpHeaderTheory.
Local Open Scope Z_scope.

(** * Well-formed headers *)

Record field_line : Type := mk_line {
  fl_name : list Z;
  fl_spaces : nat;
  fl_value : list Z;
  fl_spaces2 : nat;
  fl_eol : list Z
}.

Definition blank (n : nat) : list Z := replicate n " "%ch.

Definition field_bytes (l : field_line) : list Z :=
  fl_name l ++ ":"%ch :: blank (fl_spaces l) ++ fl_value l ++ blank (fl_spaces2 l) ++ fl_eol l.

Definition eol_ok (eol : list Z) : Prop := eol = [LF] \/ eol = [CR; LF].

Record field_ok (allow : bool) (l : field_line) : Prop := {
  field_name : fl_name l <> [] /\ Forall (fun c => token_char allow c = true) (fl_name l);
  field_value : value_ok (fl_value l);
  field_eol : eol_ok (fl_eol l)
}.

Definition block_bytes (lines : list field_line) (eol : list Z) : list Z := concat (map field_bytes lines) ++ eol.

(** The element of a line. *)
Record field_elt (m : list Z) (l : field_line) (h : ngx_table_elt_t) : Prop := {
  elt_is_key : str_bytes m (h_key h) = fl_name l;
  elt_is_value : str_bytes m (h_value h) = fl_value l;
  elt_is_lowcase : h_lowcase_key h = lower (fl_name l);
  elt_is_hash : h_hash h = name_hash (fl_name l)
}.

(** * Runs of the loop *)

Lemma blank_length n : length (blank n) = n.
Proof. apply length_replicate. Qed.

(** The parts of the request that do not change while a value is read. *)
Definition parts (x : header_scan) : option nat * option nat * option nat * bool :=
  (header_name_start (hs_r x), header_name_end (hs_r x), header_start (hs_r x), invalid_header (hs_r x)).

Section Run.
Context (allow : bool) (m : list Z) (old : header_state) (pos last : nat).
Hypothesis (Hb : bytes_ok m).

Definition run (p : nat) (x : header_scan) : outcome header_result := header_loop m allow false old pos (last - p) p x.

Lemma run_step p c x :
  (p < last)%nat -> m !! p = Some c ->
  run p x = a ← header_step m allow false p c x;
    match a with
    | Break x => run (S p) x
    | Goto_done x => Ok (NGX_OK, sw_start, save x, S p)
    | Goto_header_done x => Ok (NGX_HTTP_PARSE_HEADER_DONE, sw_start, hs_r x, S p)
    | Invalid_header x => Ok (NGX_HTTP_PARSE_INVALID_HEADER, old, hs_r x, pos)
    end.
Proof.
  intros Hp Hc. unfold run at 1. replace (last - p)%nat with (S (last - S p)) by lia. cbn [header_loop].
  by rewrite (deref_lookup _ _ _ Hc).
Qed.

Lemma header_break p c x x' :
  (p < last)%nat -> m !! p = Some c -> header_step m allow false p c x = Ok (Break x') -> run p x = run (S p) x'.
Proof. intros Hp Hc Hs. by rewrite (run_step p c) , Hs by done. Qed.

Lemma step_name_token p c x :
  m !! p = Some c -> token_char allow c = true -> step_name m allow false p c x = next_char (ngx_tolower c) x.
Proof.
  intros Hc Ht. apply (token_cases allow m p c Hb Hc (fun o => o = next_char (ngx_tolower c) x) (fun c => next_char c x));
    [done|congruence|congruence].
Qed.

Lemma token_not c : token_char allow c = true -> c <> CR /\ c <> LF /\ c <> ":"%ch.
Proof. intros H. split_and!; intros ->; by destruct allow. Qed.

Lemma step_first_token p c x :
  m !! p = Some c -> token_char allow c = true ->
  step_first allow p c x =
    first_char (ngx_tolower c)
      (to_state sw_name (with_r (fun r => r <| header_name_start := Some p |> <| invalid_header := false |>) x)).
Proof.
  intros Hc Ht. destruct (token_not c Ht) as (H1 & H2 & _). unfold step_first.
  rewrite (proj2 (Z.eqb_neq c CR) H1), (proj2 (Z.eqb_neq c LF) H2). set (x' := to_state sw_name _).
  apply (token_cases allow m p c Hb Hc (fun o => o = first_char (ngx_tolower c) x') (fun c => first_char c x'));
    [done|congruence|congruence].
Qed.

Lemma ok_at (r : header_t) (q1 q2 : nat) : q1 = q2 -> Ok (NGX_OK, sw_start, r, q1) = Ok (NGX_OK, sw_start, r, q2).
Proof. by intros ->. Qed.

(** The characters of the name, after the first one. *)
Lemma run_token s l : forall p x,
  holds m p l -> (p + length l <= last)%nat -> Forall (fun c => token_char allow c = true) l ->
  room x -> hs_state x = sw_name -> header_name_start (hs_r x) = Some s -> invalid_header (hs_r x) = false ->
  exists x', run p x = run (p + length l) x' /\ room x' /\ hs_state x' = sw_name /\
    header_name_start (hs_r x') = Some s /\ invalid_header (hs_r x') = false.
Proof.
  induction l as [|c l IH]; intros p x H Hp Hl Hr Hst Hns Hi; [exists x; by rewrite Nat.add_0_r|].
  cbn [length] in *. apply holds_cons in H as [Hc H]. apply Forall_cons in Hl as [Ht Hl].
  destruct Hr as [Hr1 Hr2]. evar (x' : header_scan).
  rewrite (header_break p c x x'); [|lia|done|]; [|unfold header_step; rewrite Hst, step_name_token by done; unfold next_char;
    rewrite store_ok by lia; subst x'; reflexivity].
  rewrite <- Nat.add_succ_comm. apply IH; try done; [lia|]. subst x'. split; [cbn; by rewrite length_insert|].
  change (Nat.land (S (hs_i x)) (NGX_HTTP_LC_HEADER_LEN - 1) < 32)%nat. rewrite next_index by done. apply Nat.mod_upper_bound. lia.
Qed.

(** The name and the colon. *)
Lemma run_name p w x :
  holds m p (w ++ [":"%ch]) -> (p + length w < last)%nat -> w <> [] -> Forall (fun c => token_char allow c = true) w ->
  room x -> hs_state x = sw_start ->
  exists x', run p x = run (p + length w + 1) x' /\ hs_state x' = sw_space_before_value /\
    header_name_start (hs_r x') = Some p /\ header_name_end (hs_r x') = Some (p + length w)%nat /\
    invalid_header (hs_r x') = false.
Proof.
  intros H Hp Hne Hw [Hr1 Hr2] Hst. destruct w as [|c w]; [done|]. cbn [app length] in *.
  apply holds_cons in H as [Hc H]. apply holds_app in H as [H Hcol]. apply holds_cons in Hcol as [Hcol _].
  apply Forall_cons in Hw as [Ht Hw]. evar (x1 : header_scan).
  rewrite (header_break p c x x1); [|lia|done|]; [|unfold header_step; rewrite Hst, step_first_token by done; unfold first_char;
    rewrite store_ok by (cbn; lia); subst x1; reflexivity].
  destruct (run_token p w (S p) x1) as (x2 & -> & Hr & Hst2 & Hns & Hi); try done; [lia|subst x1; split; cbn; [by rewrite length_insert|lia]|].
  exists (to_state sw_space_before_value (set_name_end (S p + length w) x2)).
  split; [|split; [done|split; [exact Hns|split; [cbn; f_equal; lia|exact Hi]]]].
  replace (p + S (length w) + 1)%nat with (S (S p + length w)) by lia. apply (header_break _ ":"%ch); [lia|done|].
  unfold header_step. rewrite Hst2. unfold step_name. rewrite (lowcase_ok _ (ltac:(by split) : byte_ok ":"%ch)). done.
Qed.
Lemma run_blank n p x :
  holds m p (blank n) -> (p + n <= last)%nat ->
  hs_state x = sw_space_before_value \/ hs_state x = sw_space_after_value -> run p x = run (p + n) x.
Proof.
  intros H Hp Hst. revert p H Hp. induction n as [|n IH]; intros p H Hp; [by rewrite Nat.add_0_r|].
  apply holds_cons in H as [Hc H]. rewrite (header_break p " "%ch x x); [|lia|done|].
  - rewrite <- Nat.add_succ_comm. apply IH; [done|lia].
  - unfold header_step. destruct Hst as [-> | ->]; done.
Qed.

(** A value, after its first character. *)
Lemma run_value l : forall p x,
  holds m p l -> (p + length l <= last)%nat -> Forall value_char l ->
  hs_state x = sw_value \/ hs_state x = sw_space_after_value ->
  exists x', run p x = run (p + length l) x' /\ parts x' = parts x /\
    (hs_state x' = sw_value \/ hs_state x' = sw_space_after_value) /\
    (hs_state x = sw_value -> list.last l <> Some " "%ch -> hs_state x' = sw_value).
Proof.
  induction l as [|c l IH] using rev_ind; intros p x H Hp Hl Hst; [exists x; by rewrite Nat.add_0_r|].
  rewrite length_app in Hp. cbn [length] in Hp. apply holds_app in H as [H Hc]. apply holds_cons in Hc as [Hc _].
  apply Forall_app in Hl as [Hl Hv]. apply Forall_cons in Hv as [(Hv1 & Hv2 & Hv3) _].
  destruct (IH p x H ltac:(lia) Hl Hst) as (x1 & -> & Hpt & Hst1 & _). rewrite length_app, last_snoc. cbn [length].
  assert (Hs : exists x', header_step m allow false (p + length l) c x1 = Ok (Break x') /\ parts x' = parts x1 /\
    (hs_state x' = sw_value \/ hs_state x' = sw_space_after_value) /\ (c <> " "%ch -> hs_state x' = sw_value)).
  { unfold header_step. destruct Hst1 as [E|E]; rewrite E; unfold step_value, step_space_after_value;
      (destruct (Z.eqb_spec c " "%ch) as [->|Hne]; [|rewrite (proj2 (Z.eqb_neq _ _) Hv1), (proj2 (Z.eqb_neq _ _) Hv2),
        (proj2 (Z.eqb_neq _ _) Hv3)]); eexists; (split; [reflexivity|]); (split; [done|]); split; auto; try done; by rewrite ?E; auto. }
  destruct Hs as (x' & Hs & Hpt' & Hst' & Hne). exists x'. rewrite (header_break _ c x1 x') by (done || lia).
  split; [f_equal; lia|]. split; [by rewrite Hpt'|]. split; [done|]. intros _ Hsp. apply Hne. congruence.
Qed.

(** The end of the line, once the end of the value is known. *)
Lemma header_eol p eol x :
  holds m p eol -> (p + length eol <= last)%nat -> eol_ok eol -> hs_state x = sw_space_after_value ->
  exists r', run p x = Ok (NGX_OK, sw_start, r', (p + length eol)%nat) /\ r' = save x.
Proof.
  intros H Hp He Hst. destruct He as [-> | ->]; cbn [length] in *; rewrite !holds_cons in H.
  - exists (save x). split; [|done]. rewrite (run_step p LF) by (lia || tauto). unfold header_step. rewrite Hst, Nat.add_1_r. done.
  - exists (save x). split; [|done]. rewrite (header_break p CR x (to_state sw_almost_done x)); [|lia|tauto|unfold header_step; by rewrite Hst].
    rewrite (run_step (S p) LF) by (lia || tauto). cbn. apply ok_at. lia.
Qed.

Lemma run_value_end p k eol x :
  holds m p (blank k ++ eol) -> (p + k + length eol <= last)%nat -> eol_ok eol -> hs_state x = sw_value ->
  exists r', run p x = Ok (NGX_OK, sw_start, r', (p + k + length eol)%nat) /\ r' = save (set_header_end p x).
Proof.
  intros H Hp He Hst. exists (save (set_header_end p x)). split; [|done]. destruct k as [|k]; cbn [blank replicate app] in H.
  - rewrite Nat.add_0_r in *. destruct He as [-> | ->]; cbn [length] in *; rewrite !holds_cons in H.
    + rewrite (run_step p LF) by (lia || tauto). unfold header_step. rewrite Hst, Nat.add_1_r. done.
    + rewrite (header_break p CR x (to_state sw_almost_done (set_header_end p x))); [|lia|tauto|unfold header_step; by rewrite Hst].
      rewrite (run_step (S p) LF) by (lia || tauto). cbn. apply ok_at. lia.
  - apply holds_cons in H as [Hc H]. fold (blank k) in H. apply holds_app in H as [H Heol].
    rewrite blank_length in Heol.
    rewrite (header_break p " "%ch x (to_state sw_space_after_value (set_header_end p x))); [|lia|done|unfold header_step; by rewrite Hst].
    rewrite (run_blank k) by (done || lia || by right).
    destruct (header_eol (S p + k) eol (to_state sw_space_after_value (set_header_end p x))) as (r' & -> & ->); try done; [lia|].
    apply ok_at. lia.
Qed.

(** The value, empty or not, and the end of the line. *)
Lemma run_rest p l x :
  holds m p (blank (fl_spaces l) ++ fl_value l ++ blank (fl_spaces2 l) ++ fl_eol l) -> value_ok (fl_value l) -> eol_ok (fl_eol l) ->
  (p + fl_spaces l + length (fl_value l) + fl_spaces2 l + length (fl_eol l) <= last)%nat ->
  hs_state x = sw_space_before_value ->
  exists r' v w, run p x = Ok (NGX_OK, sw_start, r',
      (p + fl_spaces l + length (fl_value l) + fl_spaces2 l + length (fl_eol l))%nat) /\
    (header_name_start r', header_name_end r', invalid_header r') =
      (header_name_start (hs_r x), header_name_end (hs_r x), invalid_header (hs_r x)) /\
    header_start r' = Some v /\ header_end r' = Some w /\ slice m v w = fl_value l.
Proof.
  destruct l as [nm n value k eol]. cbn [fl_spaces fl_value fl_spaces2 fl_eol]. intros H (Hv1 & Hv2 & Hv3) He Hp Hst.
  apply holds_app in H as [H Hrest]. rewrite blank_length in Hrest.
  rewrite (run_blank n) by (done || lia || by left). destruct value as [|c value].
  - cbn [app length] in *. apply holds_app in Hrest as [Hk Heol]. rewrite blank_length in Heol.
    rewrite (run_blank k) by (done || lia || by left). set (e := (p + n + k)%nat) in *.
    exists (save (set_header_end e (set_header_start e x))), e, e. rewrite slice_nil. split; [|done].
    destruct He as [-> | ->]; cbn [length] in *; rewrite !holds_cons in Heol.
    + rewrite (run_step e LF) by (lia || tauto). unfold header_step. rewrite Hst. cbn. apply ok_at. lia.
    + rewrite (header_break e CR x (to_state sw_almost_done (set_header_end e (set_header_start e x))));
        [|lia|tauto|unfold header_step; by rewrite Hst].
      rewrite (run_step (S e) LF) by (lia || tauto). cbn. apply ok_at. lia.
  - cbn [app length] in *. set (v := (p + n)%nat) in *. pose proof Hrest as Hval. apply holds_cons in Hrest as [Hc Hrest].
    apply holds_app in Hrest as [Hl Hrest]. apply Forall_cons in Hv1 as [(Hc1 & Hc2 & Hc3) Hv1].
    assert (Hsp : c <> " "%ch) by (intros ->; done). set (x1 := to_state sw_value (set_header_start v x)).
    rewrite (header_break v c x x1); [|lia|done|].
    2: { unfold header_step. rewrite Hst. unfold step_space_before_value.
         by rewrite (proj2 (Z.eqb_neq _ _) Hc1), (proj2 (Z.eqb_neq _ _) Hc2), (proj2 (Z.eqb_neq _ _) Hc3), (proj2 (Z.eqb_neq _ _) Hsp). }
    destruct (run_value value (S v) x1 Hl ltac:(lia) Hv1 ltac:(by left)) as (x2 & -> & Hpt & Hst2 & Hlast).
    assert (Hst2' : hs_state x2 = sw_value) by (apply Hlast; [done|]; destruct value; done).
    destruct (run_value_end (S v + length value) k eol x2 Hrest ltac:(lia) He Hst2') as (r' & -> & ->).
    injection Hpt as P1 P2 P3 P4. exists (save (set_header_end (S v + length value) x2)), v, (S v + length value)%nat.
    split; [apply ok_at; lia|]. split; [cbn; by rewrite P1, P2, P4|]. split; [exact P3|]. split; [done|].
    apply (holds_app m v (c :: value)) in Hval as [Hval _]. rewrite Nat.add_succ_comm. exact (holds_slice m (c :: value) v Hval).
Qed.
End Run.

(** * Lines and blocks *)

Lemma parse_field allow m pos last l r :
  bytes_ok m -> room (scan_of sw_start r) -> holds m pos (field_bytes l) -> (pos + length (field_bytes l) <= last)%nat ->
  field_ok allow l ->
  exists r' v w, ngx_http_parse_header_line m allow false pos last sw_start r =
      Ok (NGX_OK, sw_start, r', (pos + length (field_bytes l))%nat) /\
    (header_name_start r', header_name_end r', invalid_header r') =
      (Some pos, Some (pos + length (fl_name l))%nat, false) /\
    header_start r' = Some v /\ header_end r' = Some w /\ slice m v w = fl_value l.
Proof.
  intros Hb Hr H Hp [[Hne Hn] Hv He].
  assert (Hlen : length (field_bytes l) = (length (fl_name l) + 1 + (fl_spaces l + length (fl_value l) + fl_spaces2 l + length (fl_eol l)))%nat).
  { unfold field_bytes. rewrite length_app. cbn [length]. rewrite !length_app, !blank_length. lia. }
  unfold field_bytes in H. rewrite cons_middle, app_assoc, holds_app, length_app in H. destruct H as [Hname Hrest]. cbn [length] in Hrest.
  change (ngx_http_parse_header_line m allow false pos last sw_start r)
    with (run allow m sw_start pos last pos (scan_of sw_start r)).
  destruct (run_name allow m sw_start pos last Hb pos (fl_name l) (scan_of sw_start r)) as (x1 & -> & Hst & N1 & N2 & N3);
    try done; [lia|].
  destruct (run_rest allow m sw_start pos last (pos + length (fl_name l) + 1) l x1) as (r' & v & w & -> & E & Hv1 & Hw1 & Hs);
    try done; [by rewrite <- Nat.add_assoc|lia|].
  exists r', v, w. split; [apply ok_at; lia|]. split; [by rewrite E, N1, N2, N3|done].
Qed.

Lemma parse_end allow m pos last eol r :
  holds m pos eol -> (pos + length eol <= last)%nat -> eol_ok eol ->
  exists r', ngx_http_parse_header_line m allow false pos last sw_start r =
      Ok (NGX_HTTP_PARSE_HEADER_DONE, sw_start, r', (pos + length eol)%nat) /\ header_name_start r' = Some pos.
Proof.
  intros H Hp He.
  change (ngx_http_parse_header_line m allow false pos last sw_start r)
    with (run allow m sw_start pos last pos (scan_of sw_start r)).
  destruct He as [-> | ->]; cbn [length] in *; rewrite !holds_cons in H.
  - rewrite (run_step allow m sw_start pos last pos LF) by (lia || tauto). rewrite Nat.add_1_r. by eexists.
  - evar (x1 : header_scan). rewrite (header_break allow m sw_start pos last pos CR _ x1);
      [|lia|tauto|unfold header_step; cbn [scan_of hs_state]; unfold step_first; rewrite Z.eqb_refl; subst x1; reflexivity].
    rewrite (run_step allow m sw_start pos last (S pos) LF) by (lia || tauto). unfold header_step.
    change (hs_state x1) with sw_header_almost_done. rewrite Z.eqb_refl.
    replace (pos + 2)%nat with (S (S pos)) by lia. by eexists.
Qed.

Lemma field_elt_agree allow m m' b l h :
  take b m = take b m' -> elt_ok allow true m b h -> field_elt m l h -> field_elt m' l h.
Proof.
  intros E [[H1 _] [H2 _] _ _ _] [G1 G2 G3 G4]. unfold str_bytes in *.
  rewrite (slice_agree m m' _ _ b) in G1 by (done || lia). rewrite (slice_agree m m' _ _ b) in G2 by (done || lia). by split.
Qed.

(** A line that is accepted, the element it gives and the memory after it. *)
Lemma field_step allow m pos last l r :
  bytes_ok m -> room (scan_of sw_start r) -> holds m pos (field_bytes l) ->
  (pos + length (field_bytes l) <= last)%nat -> (last <= length m)%nat -> field_ok allow l ->
  exists r' m' h, let q := (pos + length (field_bytes l))%nat in
    ngx_http_parse_header_line m allow false pos last sw_start r = Ok (NGX_OK, sw_start, r', q) /\
    header_name_start r' = Some pos /\ invalid_header r' = false /\ room (scan_of sw_start r') /\ (pos < q)%nat /\
    header_elt m r' = Ok (m', h) /\ bytes_ok m' /\ length m' = length m /\ take pos m' = take pos m /\ drop q m' = drop q m /\
    elt_ok allow true m' q h /\ field_elt m' l h.
Proof.
  intros Hb Hr H Hp Hl Hok. pose proof Hok as [[Hne _] _ _].
  destruct (parse_field allow m pos last l r) as (r' & v & w & Hrun & [= N1 N2 N3] & V & W & Hs); try done.
  set (q := (pos + length (field_bytes l))%nat) in *. exists r'.
  destruct (parse_header_ok allow false m pos pos last sw_start r) as (y & Hy & Hres); try done; try lia.
  { destruct Hr as [R1 R2]. split; [exact R1|split; [exact R2|done]]. }
  rewrite Hrun in Hy. injection Hy as <-.
  destruct Hres as [(E & _)|[(_ & _ & Hq & Hr' & Hk)|[(E & _)|(E & _)]]]; [done| |done|done].
  destruct (line_next allow true m pos q r' [] Hr' Hk Hb) as (_ & Hn); [lia|lia|done|].
  rewrite N3 in Hn. cbn [andb] in Hn. destruct Hn as (Heq & Hwq & Helt & Hb' & He & _). apply Forall_cons in He as [He _].
  assert (Hend : name_end_of r' = (pos + length (fl_name l))%nat) by (unfold name_end_of; by rewrite N2).
  assert (Hval : value_end_of r' = w) by (unfold value_end_of; by rewrite W).
  destruct Hk as (s & e & v' & w' & (K1 & K2 & K3 & K4 & _) & K6 & K7 & K8 & K9 & _).
  exists (terminated m r'), (elt_of m r'). cbn zeta. do 8 (split; [first [done | lia | unfold terminated; by rewrite !length_insert]|]).
  assert (v = v' /\ w = w' /\ pos = s /\ e = name_end_of r') as (<- & <- & <- & ->)
    by (unfold name_end_of; rewrite K2; repeat split; congruence).
  split; [unfold terminated; rewrite Hval; by rewrite !take_insert_ge by lia|].
  split; [unfold terminated; rewrite Hval; by rewrite !drop_insert_lt by lia|]. split; [exact He|].
  assert (Hname : str_bytes (terminated m r') (h_key (elt_of m r')) = fl_name l).
  { unfold str_bytes, elt_of, terminated. cbn [h_key fst snd]. rewrite N1, Hend, Hval. cbn [from_option id].
    replace (pos + (pos + length (fl_name l) - pos))%nat with (pos + length (fl_name l))%nat by lia.
    rewrite !slice_insert by lia. apply holds_slice. unfold field_bytes in H. by apply holds_app in H as [H _]. }
  pose proof (elt_name _ _ _ _ _ He eq_refl) as (_ & L1 & L2). rewrite Hname in L1, L2. split; try done.
  unfold str_bytes, elt_of, terminated. cbn [h_value fst snd]. rewrite V, Hval. cbn [from_option id].
  replace (v + (w - v))%nat with w by lia. rewrite slice_insert by lia.
  rewrite <- Hs. destruct K8 as [K8|[_ ->]]; [|by rewrite !slice_nil]. unfold slice. by rewrite drop_insert_lt by lia.
Qed.

(** * The block *)

Lemma process_field allow alloc handler fuel m pos last l r elts len :
  bytes_ok m -> room (scan_of sw_start r) -> holds m pos (field_bytes l) ->
  (pos + length (field_bytes l) <= last)%nat -> (last <= length m)%nat -> field_ok allow l ->
  alloc (length elts) = true -> handler (name_hash (fl_name l)) (fl_name l) (fl_value l) (lower (fl_name l)) = NGX_OK ->
  exists r' m' h, let q := (pos + length (field_bytes l))%nat in
    process_headers allow true alloc handler (S fuel) m pos last sw_start r elts len =
      process_headers allow true alloc handler fuel m' q last sw_start r' (elts ++ [h]) (len + length (field_bytes l)) /\
    room (scan_of sw_start r') /\ bytes_ok m' /\ length m' = length m /\ take pos m' = take pos m /\ drop q m' = drop q m /\
    elt_ok allow true m' q h /\ field_elt m' l h.
Proof.
  intros Hb Hr H Hp Hl Hok Ha Hh.
  destruct (field_step allow m pos last l r) as (r' & m' & h & Hrun & N1 & N3 & Hr' & Hq & Helt & Hb' & F1 & F2 & F3 & He & Hf); try done.
  exists r', m', h. cbn zeta. split; [|done]. cbn [process_headers]. rewrite Hrun. cbn [mbind outcome_bind].
  change (NGX_OK =? NGX_OK) with true. rewrite N1, part_ok by lia. cbn [mbind outcome_bind snd]. rewrite N3, Ha. cbn [andb negb].
  rewrite Helt. cbn [mbind outcome_bind]. replace (call_handler handler m' h) with NGX_OK.
  2: { unfold call_handler. destruct Hf as [-> -> -> ->]. by rewrite Hh. }
  change (NGX_OK =? NGX_OK) with true. cbn [negb]. do 2 f_equal. lia.
Qed.

Lemma holds_agree m m' p l : drop p m' = drop p m -> holds m p l -> holds m' p l.
Proof. intros E H i c Hi. by rewrite <- lookup_drop, E, lookup_drop, (H i c Hi). Qed.

Lemma block_ok allow alloc handler last eol lines : forall fuel m pos r elts len,
  bytes_ok m -> room (scan_of sw_start r) -> holds m pos (block_bytes lines eol) ->
  (pos + length (block_bytes lines eol) <= last)%nat -> (last <= length m)%nat -> (length lines < fuel)%nat ->
  Forall (field_ok allow) lines -> eol_ok eol -> (forall n, alloc n = true) ->
  Forall (fun l => handler (name_hash (fl_name l)) (fl_name l) (fl_value l) (lower (fl_name l)) = NGX_OK) lines ->
  exists x new, process_headers allow true alloc handler fuel m pos last sw_start r elts len = Ok x /\
    hr_end x = Header_done /\ hr_pos x = (pos + length (block_bytes lines eol))%nat /\
    hr_length x = (len + length (block_bytes lines eol))%nat /\ take pos (hr_m x) = take pos m /\
    hr_elts x = elts ++ new /\ Forall2 (field_elt (hr_m x)) lines new.
Proof.
  induction lines as [|l lines IH]; intros [|fuel] m pos r elts len Hb Hr H Hp Hl Hf Hok He Ha Hh; try (cbn in Hf; lia).
  - destruct (parse_end allow m pos last eol r H Hp He) as (r' & Hrun & Hns). exists (mk_headers Header_done elts (len + length eol) sw_start r' (pos + length eol) m), [].
    split; [|by rewrite app_nil_r]. cbn [process_headers]. rewrite Hrun. cbn [mbind outcome_bind].
    change (NGX_HTTP_PARSE_HEADER_DONE =? NGX_OK) with false.
    change (NGX_HTTP_PARSE_HEADER_DONE =? NGX_HTTP_PARSE_HEADER_DONE) with true. cbn iota. rewrite Hns, part_ok by lia.
    cbn [mbind outcome_bind snd]. by replace (pos + length eol - pos)%nat with (length eol) by lia.
  - assert (Hbl : block_bytes (l :: lines) eol = field_bytes l ++ block_bytes lines eol)
      by (unfold block_bytes; cbn; by rewrite app_assoc).
    rewrite Hbl, length_app in *. apply holds_app in H as [H1 H2]. apply Forall_cons in Hok as [Hok1 Hok2].
    apply Forall_cons in Hh as [Hh1 Hh2]. cbn [length] in Hf.
    destruct (process_field allow alloc handler fuel m pos last l r elts len)
      as (r' & m' & h & -> & Hr' & Hb' & F1 & F2 & F3 & Hel & Hfe); try done; [lia|].
    set (q := (pos + length (field_bytes l))%nat) in *.
    destruct (IH fuel m' q r' (elts ++ [h]) (len + length (field_bytes l))%nat) as (x & new & -> & X1 & X2 & X3 & X4 & X5 & X6);
      try done; try lia; [by apply (holds_agree m)|].
    exists x, (h :: new). split; [done|]. split; [done|]. split; [lia|]. split; [lia|].
    split; [|split; [by rewrite X5, <- app_assoc|]].
    + rewrite <- F2. replace pos with (pos `min` q)%nat by lia. by rewrite <- !take_take, X4.
    + constructor; [|done]. by apply (field_elt_agree allow m' _ q).
Qed.

(** The number of bytes of a block is more than the number of its lines. *)
Lemma block_lines lines eol : eol_ok eol -> (length lines < length (block_bytes lines eol))%nat.
Proof.
  intros He. unfold block_bytes. rewrite length_app. assert (0 < length eol)%nat by (destruct He as [-> | ->]; cbn; lia).
  assert (length lines <= length (concat (map field_bytes lines)))%nat; [|lia].
  induction lines as [|l lines IH]; cbn [length map concat]; [lia|]. rewrite length_app.
  assert (0 < length (field_bytes l))%nat; [|lia]. unfold field_bytes. rewrite length_app. cbn [length]. lia.
Qed.

(** C4. A block of well-formed header lines, with any spaces around the values and
    either line ending, is read by ngx_http_process_request_headers to the list of
    exactly its names and values, each name with its copy in lower case and its hash;
    the loop stops after the empty line, whatever follows. *)
Theorem request_headers_correct allow alloc handler m pos last lines eol :
  bytes_ok m -> holds m pos (block_bytes lines eol) -> (pos + length (block_bytes lines eol) <= last)%nat ->
  (last <= length m)%nat -> Forall (field_ok allow) lines -> eol_ok eol -> (forall n, alloc n = true) ->
  Forall (fun l => handler (name_hash (fl_name l)) (fl_name l) (fl_value l) (lower (fl_name l)) = NGX_OK) lines ->
  exists x, ngx_http_process_request_headers allow true alloc handler m pos last sw_start new_header [] 0 = Ok x /\
    hr_end x = Header_done /\ hr_pos x = (pos + length (block_bytes lines eol))%nat /\
    hr_length x = length (block_bytes lines eol) /\ Forall2 (field_elt (hr_m x)) lines (hr_elts x).
Proof.
  intros Hb H Hp Hl Hok He Ha Hh. pose proof (block_lines lines eol He).
  destruct (block_ok allow alloc handler last eol lines (S (last - pos)) m pos new_header [] O)
    as (x & new & Hx & X1 & X2 & X3 & _ & X5 & X6); try done; [split; [done|vm_compute; lia]|lia|].
  exists x. cbn [app] in X5. rewrite X5. by repeat split.
Qed.

Definition demo_lines : list field_line :=
  [mk_line (bytes "Host") 2 (bytes "a b") 1 [CR; LF]; mk_line (bytes "Accept-X") 0 [] 0 [LF]].

Lemma request_headers_correct_witness :
  exists x, ngx_http_process_request_headers false true (fun _ => true) (fun _ _ _ _ => NGX_OK)
      (block_bytes demo_lines [CR; LF] ++ bytes "body") 0 28 sw_start new_header [] 0 = Ok x /\
    hr_end x = Header_done /\ hr_pos x = 25%nat /\ hr_length x = 25%nat /\
    Forall2 (field_elt (hr_m x)) demo_lines (hr_elts x).
Proof.
  apply (request_headers_correct false (fun _ => true) (fun _ _ _ _ => NGX_OK) _ 0 28 demo_lines [CR; LF]).
  - apply bytes_okb_true. reflexivity.
  - by apply holds_of_prefix.
  - vm_compute. lia.
  - vm_compute. lia.
  - repeat constructor; cbn; try done; by right || by left.
  - by right.
  - done.
  - by repeat constructor.
Defined.
