(* ===== verification/HttpStatus.v ===== *)
(** Component "status lines": ngx_http_parse_status_line of
    src/http/ngx_http_parse.c, which reads the first line of the response of an
    upstream server, as its bytes arrive. *)

From stdpp Require Import base numbers list option strings.
From Stdlib Require Import ZArith Lia.
From S2P Require Import Prelude Buffer HttpRequest.
Local Open Scope Z_scope.

(** * Definitions *)

(** ngx_http_status_t of src/http/ngx_http.h. *)
Record status_t : Type := mk_status {
  st_http_version : Z;
  st_code : Z;
  st_count : Z;
  st_start : option nat;
  st_end : option nat
}.

Inductive status_state : Type :=
  | st_sw_start | st_sw_H | st_sw_HT | st_sw_HTT | st_sw_HTTP
  | st_sw_first_major_digit | st_sw_major_digit | st_sw_first_minor_digit | st_sw_minor_digit
  | st_sw_status | st_sw_space_after_status | st_sw_status_text | st_sw_almost_done.

(** What the loop changes: the state, [r->http_major], [r->http_minor] and the
    status. *)
Record status_scan : Type := mk_status_scan {
  ss_state : status_state;
  ss_major : Z;
  ss_minor : Z;
  ss_status : status_t
}.

#[export] Instance eta_status : Eta status_t :=
  fun s => mk_status (st_http_version s) (st_code s) (st_count s) (st_start s) (st_end s).
#[export] Instance eta_status_scan : Eta status_scan :=
  fun x => mk_status_scan (ss_state x) (ss_major x) (ss_minor x) (ss_status x).

(** How a round of the loop ends. *)
Inductive status_action : Type :=
  | St_next (x : status_scan)
  | St_done (x : status_scan)
  | St_error (x : status_scan).

Definition goto (s : status_state) (x : status_scan) : status_scan := x <| ss_state := s |>.

(** The states that compare the character with one of "HTTP/". *)
Definition st_expect (ch c : Z) (s : status_state) (x : status_scan) : status_action :=
  if ch =? c then St_next (goto s x) else St_error x.

(** [ch < '0' || ch > '9'] *)
Definition not_digit_char (ch : Z) : bool := (ch <? "0"%ch) || ("9"%ch <? ch).

Definition st_first_major_digit (ch : Z) (x : status_scan) : status_action :=
  if (ch <? "1"%ch) || ("9"%ch <? ch) then St_error x
  else St_next (goto st_sw_major_digit (x <| ss_major := to_u16 (ch - "0"%ch) |>)).

Definition st_major_digit (ch : Z) (x : status_scan) : status_action :=
  if ch =? "."%ch then St_next (goto st_sw_first_minor_digit x)
  else if not_digit_char ch then St_error x
  else if 99 <? ss_major x then St_error x
  else St_next (x <| ss_major := to_u16 (ss_major x * 10 + ch - "0"%ch) |>).

Definition st_first_minor_digit (ch : Z) (x : status_scan) : status_action :=
  if not_digit_char ch then St_error x
  else St_next (goto st_sw_minor_digit (x <| ss_minor := to_u16 (ch - "0"%ch) |>)).

Definition st_minor_digit (ch : Z) (x : status_scan) : status_action :=
  if ch =? " "%ch then St_next (goto st_sw_status x)
  else if not_digit_char ch then St_error x
  else if 99 <? ss_minor x then St_error x
  else St_next (x <| ss_minor := to_u16 (ss_minor x * 10 + ch - "0"%ch) |>).

Definition st_digit (p : nat) (ch : Z) (x : status_scan) : status_action :=
  if ch =? " "%ch then St_next x
  else if not_digit_char ch then St_error x
  else
    let s := ss_status x in
    let s := s <| st_code := to_u64 (st_code s * 10 + ch - "0"%ch) |> in
    let s := s <| st_count := to_u64 (st_count s + 1) |> in
    if st_count s =? 3
    then St_next (goto st_sw_space_after_status (x <| ss_status := s <| st_start := Some (p - 2)%nat |> |>))
    else St_next (x <| ss_status := s |>).

Definition st_space_after_status (ch : Z) (x : status_scan) : status_action :=
  if ch =? " "%ch then St_next (goto st_sw_status_text x)
  else if ch =? "."%ch then St_next (goto st_sw_status_text x)
  else if ch =? CR then St_next (goto st_sw_almost_done x)
  else if ch =? LF then St_done x
  else St_error x.

Definition st_status_text (ch : Z) (x : status_scan) : status_action :=
  if ch =? CR then St_next (goto st_sw_almost_done x)
  else if ch =? LF then St_done x
  else St_next x.

Definition st_almost_done (p : nat) (ch : Z) (x : status_scan) : status_action :=
  let x := x <| ss_status := (ss_status x) <| st_end := Some (p - 1)%nat |> |> in
  if ch =? LF then St_done x else St_error x.

Definition status_step (p : nat) (ch : Z) (x : status_scan) : status_action :=
  match ss_state x with
  | st_sw_start => st_expect ch "H"%ch st_sw_H x
  | st_sw_H => st_expect ch "T"%ch st_sw_HT x
  | st_sw_HT => st_expect ch "T"%ch st_sw_HTT x
  | st_sw_HTT => st_expect ch "P"%ch st_sw_HTTP x
  | st_sw_HTTP => st_expect ch "/"%ch st_sw_first_major_digit x
  | st_sw_first_major_digit => st_first_major_digit ch x
  | st_sw_major_digit => st_major_digit ch x
  | st_sw_first_minor_digit => st_first_minor_digit ch x
  | st_sw_minor_digit => st_minor_digit ch x
  | st_sw_status => st_digit p ch x
  | st_sw_space_after_status => st_space_after_status ch x
  | st_sw_status_text => st_status_text ch x
  | st_sw_almost_done => st_almost_done p ch x
  end.

(** The end of the function, after [done]. *)
Definition status_done (p : nat) (x : status_scan) : status_scan :=
  let s := ss_status x in
  let s := match st_end s with None => s <| st_end := Some p |> | Some _ => s end in
  goto st_sw_start (x <| ss_status := s <| st_http_version := to_u64 (ss_major x * 1000 + ss_minor x) |> |>).

(** The return code, what the request and the status are then, and [b->pos].
    An error leaves [r->state] and [b->pos] as they were. *)
Definition status_result : Type := Z * status_scan * nat.

Fixpoint status_loop (m : list Z) (old : status_state) (pos n p : nat) (x : status_scan) : outcome status_result :=
  match n with
  | O => Ok (NGX_AGAIN, x, p)
  | S n' =>
      ch ← deref m p;
      match status_step p ch x with
      | St_next x => status_loop m old pos n' (S p) x
      | St_done x => Ok (NGX_OK, status_done p x, S p)
      | St_error x => Ok (NGX_ERROR, goto old x, pos)
      end
  end.

(** [m] is the memory of the buffer, [pos] and [last] are [b->pos] and
    [b->last]. *)
Definition ngx_http_parse_status_line (m : list Z) (pos last : nat) (x : status_scan) : outcome status_result :=
  status_loop m (ss_state x) pos (last - pos) pos x.

Definition new_status : status_t := mk_status 0 0 0 None None.
Definition new_status_scan : status_scan := mk_status_scan st_sw_start 0 0 new_status.

(** ** Examples *)

Definition demo_status (l : list Z) : outcome (Z * Z * Z * option (list Z)) :=
  '(rc, x, pos) ← ngx_http_parse_status_line l 0 (length l) new_status_scan;
  let s := ss_status x in
  Ok (rc, st_http_version s, st_code s, (fun p => slice l p.1 p.2) <$> (a ← st_start s; b ← st_end s; Some (a, b))).

Example status_1 : demo_status (bytes "HTTP/1.1 403.2 Forbidden" ++ [CR; LF]) = Ok (NGX_OK, 1001, 403, Some (bytes "403.2 Forbidden")).
Proof. vm_compute. reflexivity. Qed.

(** Spaces are skipped between the digits of the code too, but the start of the
    status is taken to be two characters before the last digit. *)
Example status_spaces : demo_status (bytes "HTTP/1.1 2 0 0 OK" ++ [LF]) = Ok (NGX_OK, 1001, 200, Some (bytes "0 0 OK")).
Proof. vm_compute. reflexivity. Qed.
