(* ===== verification/HttpStatusTheory.v ===== *)
(** Status lines: which lines ngx_http_parse_status_line accepts, what it reads
    from them, and that it does not matter how their bytes arrive. *)

From stdpp Require Import base numbers list option strings.
From Stdlib Require Import ZArith Lia.
From S2P Require Import Prelude Buffer Atoi HttpRequest HttpStatus.
Local Open Scope Z_scope.

(** * Status lines *)

(** The digits of the code, among which there may be spaces. *)
Definition digits_of (s : list Z) : list Z := List.filter (fun c => negb (c =? " "%ch)) s.

Record status_line : Type := mk_status_line {
  sl_major : list Z;
  sl_minor : list Z;
  sl_code : list Z;
  sl_text : list Z;
  sl_eol : list Z
}.

Definition number_ok (l : list Z) : Prop := l <> [] /\ forallb is_digit l = true /\ dec_value l <= 999.

Definition code_chars (s : list Z) : Prop := forallb is_digit (digits_of s) = true.

Definition text_char (c : Z) : Prop := c <> CR /\ c <> LF.

Definition text_ok (t : list Z) : Prop :=
  match t with
  | [] => True
  | c :: t' => (c = " "%ch \/ c = "."%ch) /\ Forall text_char t'
  end.

Record status_line_ok (l : status_line) : Prop := {
  sl_major_ok : number_ok (sl_major l) /\ head (sl_major l) <> Some "0"%ch;
  sl_minor_ok : number_ok (sl_minor l);
  sl_code_ok : code_chars (sl_code l) /\ length (digits_of (sl_code l)) = 3%nat /\ last (sl_code l) <> Some " "%ch;
  sl_text_ok : text_ok (sl_text l);
  sl_eol_ok : sl_eol l = [LF] \/ sl_eol l = [CR; LF]
}.

Definition status_prefix (major minor code : list Z) : list Z :=
  bytes "HTTP/" ++ major ++ "."%ch :: minor ++ " "%ch :: code.

Definition status_bytes (l : status_line) : list Z :=
  status_prefix (sl_major l) (sl_minor l) (sl_code l) ++ sl_text l ++ sl_eol l.

(** What is read from the line at [pos], which ends at [q]. *)
Definition status_of (pos q : nat) (l : status_line) : status_t :=
  mk_status (dec_value (sl_major l) * 1000 + dec_value (sl_minor l)) (dec_value (digits_of (sl_code l))) 3
    (Some (pos + length (status_prefix (sl_major l) (sl_minor l) (sl_code l)) - 3)%nat)
    (Some (q - length (sl_eol l))%nat).

(** ** Numbers *)

Lemma not_digit_char_is c : not_digit_char c = negb (is_digit c).
Proof. apply not_digit. Qed.

Lemma dec_value_snoc l c : dec_value (l ++ [c]) = dec_value l * 10 + (c - "0"%ch).
Proof. unfold dec_value. by rewrite dec_from_app, dec_from_cons. Qed.

Lemma is_digit_bound c : is_digit c = true -> 0 <= c - "0"%ch <= 9.
Proof. unfold is_digit. intros [H1%Z.leb_le H2%Z.leb_le]%andb_prop. lia. Qed.

Lemma dec_value_bound l : forallb is_digit l = true -> 0 <= dec_value l < 10 ^ Z.of_nat (length l).
Proof.
  induction l as [|c l IH] using rev_ind; [done|]. rewrite forallb_app. intros [Hl Hc]%andb_prop. cbn in Hc.
  rewrite andb_true_r in Hc. apply is_digit_bound in Hc. specialize (IH Hl).
  rewrite dec_value_snoc, length_app, Nat2Z.inj_add, Z.pow_add_r by lia. change (10 ^ Z.of_nat (length [c])) with 10. lia.
Qed.

Lemma number_snoc l c : number_ok l -> dec_value l <= 99 -> is_digit c = true -> number_ok (l ++ [c]).
Proof.
  intros (H1 & H2 & H3) Hl Hc. split; [by destruct l|]. rewrite forallb_app, H2. cbn. rewrite Hc. split; [done|].
  rewrite dec_value_snoc. apply is_digit_bound in Hc. lia.
Qed.

Lemma number_prefix l c k : number_ok (l ++ c :: k) -> dec_value l <= 99 /\ is_digit c = true.
Proof.
  intros (_ & H2 & H3). rewrite forallb_app in H2. apply andb_prop in H2 as [Hl H2]. cbn [forallb] in H2.
  apply andb_prop in H2 as [Hc Hk]. split; [|done]. pose proof (dec_value_bound l Hl) as Hb.
  unfold dec_value in H3. rewrite dec_from_app, dec_from_cons in H3. fold (dec_value l) in H3. pose proof (is_digit_bound c Hc).
  pose proof (dec_from_le (dec_value l * 10 + (c - "0"%ch)) k ltac:(lia) Hk). lia.
Qed.

Lemma digits_of_snoc s c : digits_of (s ++ [c]) = digits_of s ++ (if c =? " "%ch then [] else [c]).
Proof. unfold digits_of. rewrite List.filter_app. cbn. by destruct (c =? " "%ch). Qed.

(** * The lines that are accepted *)

Section Status.
Context (m : list Z) (pos : nat) (v0 : Z).

(** The status while the code is not complete. *)
Definition open_status (code count : Z) (start : option nat) : status_t := mk_status v0 code count start None.

Definition prefix_read (major minor : list Z) (x : status_scan) : Prop :=
  number_ok major /\ head major <> Some "0"%ch /\ number_ok minor /\ ss_major x = dec_value major /\ ss_minor x = dec_value minor.

(** The code has been read, from [pos] on, and after it [t]. *)
Definition code_read (c t : list Z) (x : status_scan) : Prop :=
  exists major minor s, c = status_prefix major minor s ++ t /\ prefix_read major minor x /\ code_chars s /\
    length (digits_of s) = 3%nat /\ last s <> Some " "%ch /\
    ss_status x = open_status (dec_value (digits_of s)) 3 (Some (pos + length (status_prefix major minor s) - 3)%nat).

(** What the state says of the bytes [c] that have been read. *)
Definition status_inv (c : list Z) (x : status_scan) : Prop :=
  match ss_state x with
  | st_sw_start => c = [] /\ ss_status x = open_status 0 0 None
  | st_sw_H => c = bytes "H" /\ ss_status x = open_status 0 0 None
  | st_sw_HT => c = bytes "HT" /\ ss_status x = open_status 0 0 None
  | st_sw_HTT => c = bytes "HTT" /\ ss_status x = open_status 0 0 None
  | st_sw_HTTP => c = bytes "HTTP" /\ ss_status x = open_status 0 0 None
  | st_sw_first_major_digit => c = bytes "HTTP/" /\ ss_status x = open_status 0 0 None
  | st_sw_major_digit => exists major, c = bytes "HTTP/" ++ major /\ number_ok major /\ head major <> Some "0"%ch /\
      ss_major x = dec_value major /\ ss_status x = open_status 0 0 None
  | st_sw_first_minor_digit => exists major, c = bytes "HTTP/" ++ major ++ ["."%ch] /\ number_ok major /\
      head major <> Some "0"%ch /\ ss_major x = dec_value major /\ ss_status x = open_status 0 0 None
  | st_sw_minor_digit => exists major minor, c = bytes "HTTP/" ++ major ++ "."%ch :: minor /\ prefix_read major minor x /\
      ss_status x = open_status 0 0 None
  | st_sw_status => exists major minor s, c = status_prefix major minor s /\ prefix_read major minor x /\ code_chars s /\
      (length (digits_of s) < 3)%nat /\
      ss_status x = open_status (dec_value (digits_of s)) (Z.of_nat (length (digits_of s))) None
  | st_sw_space_after_status => code_read c [] x
  | st_sw_status_text => exists t, t <> [] /\ text_ok t /\ code_read c t x
  | st_sw_almost_done => exists t, text_ok t /\ code_read c (t ++ [CR]) x
  end.

(** A line that is complete, and what is read from it. *)
Definition accepted (q : nat) (x : status_scan) : Prop :=
  ss_state x = st_sw_start /\
  exists l, status_line_ok l /\ slice m pos q = status_bytes l /\ q = (pos + length (status_bytes l))%nat /\
    ss_status x = status_of pos q l /\ ss_major x = dec_value (sl_major l) /\ ss_minor x = dec_value (sl_minor l).

Lemma code_read_app c t k x : code_read c t x -> code_read (c ++ k) (t ++ k) x.
Proof.
  intros (major & minor & s & -> & H). exists major, minor, s. split; [by rewrite <- app_assoc|exact H].
Qed.

Lemma text_ok_snoc t c : text_ok t -> t <> [] -> text_char c -> text_ok (t ++ [c]).
Proof.
  destruct t as [|d t]; [done|]. intros [H1 H2] _ Hc. split; [done|]. apply Forall_app. split; [done|by constructor].
Qed.

Lemma code_read_goto c t x s : code_read c t x -> code_read c t (goto s x).
Proof. done. Qed.

(** The end of a line. *)
Lemma status_done_ok c t eol q x :
  slice m pos (S q) = c ++ [LF] -> (pos <= q)%nat -> length c = (q - pos)%nat -> text_ok t ->
  code_read c (t ++ eol) x -> eol ++ [LF] = [LF] \/ eol ++ [LF] = [CR; LF] ->
  accepted (S q) (status_done q (x <| ss_status := (ss_status x) <| st_end := Some (q - length eol)%nat |> |>)).
Proof.
  intros Hs Hp Hlen Ht (major & minor & s & -> & (M1 & M2 & M3 & M4 & M5) & C1 & C2 & C3 & Hst) He. split; [done|].
  set (l := mk_status_line major minor s t (eol ++ [LF])).
  assert (Hl : (status_prefix major minor s ++ t ++ eol) ++ [LF] = status_bytes l) by (unfold status_bytes; cbn; by rewrite <- !app_assoc).
  assert (Hq : S q = (pos + length (status_bytes l))%nat) by (rewrite <- Hl, length_app; cbn [length]; lia).
  exists l. rewrite Hs, Hl. split; [by split|]. split; [done|]. split; [done|]. split; [|split; [exact M4|exact M5]].
  cbn -[dec_value status_prefix to_u64 Nat.sub digits_of]. rewrite Hst. unfold status_of. subst l.
  cbn -[dec_value status_prefix to_u64 Nat.sub digits_of]. rewrite length_app. cbn [length].
  unfold open_status. rewrite M4, M5. replace (S q - (length eol + 1))%nat with (q - length eol)%nat by lia.
  replace (to_u64 _) with (dec_value major * 1000 + dec_value minor); [done|].
  destruct M1 as (_ & D1 & B1), M3 as (_ & D2 & B2). pose proof (dec_value_bound _ D1). pose proof (dec_value_bound _ D2). casts.
Qed.

Lemma status_done_open q x : st_end (ss_status x) = None ->
  status_done q x = status_done q (x <| ss_status := (ss_status x) <| st_end := Some (q - length ([] : list Z))%nat |> |>).
Proof.
  destruct x as [st a b [v c n s e]]. cbn [ss_status st_end]. intros ->. cbn [length]. by rewrite Nat.sub_0_r.
Qed.

Lemma code_read_open c t x : code_read c t x -> st_end (ss_status x) = None.
Proof. by intros (? & ? & ? & _ & _ & _ & _ & _ & ->). Qed.

Lemma number_one c : is_digit c = true -> number_ok [c] /\ dec_value [c] = c - "0"%ch /\ 0 <= c - "0"%ch <= 9.
Proof.
  intros H. pose proof (is_digit_bound c H). change (dec_value [c]) with (0 * 10 + (c - "0"%ch)). split; [|split; [lia|done]].
  split; [done|]. cbn [forallb]. rewrite H. split; [done|]. change (dec_value [c]) with (0 * 10 + (c - "0"%ch)). lia.
Qed.

Lemma to_u16_number v : 0 <= v <= 999 -> to_u16 v = v.
Proof. intros H. unfold to_u16. apply Z.mod_small. lia. Qed.

Lemma number_value l : number_ok l -> 0 <= dec_value l <= 999.
Proof. intros (_ & H & Hv). pose proof (dec_value_bound l H). lia. Qed.

Lemma head_snoc (l : list Z) c : l <> [] -> head (l ++ [c]) = head l.
Proof. by destruct l. Qed.

Section Step.
Context (c : list Z) (p : nat) (ch : Z) (x : status_scan).
Hypothesis (Hp : p = (pos + length c)%nat) (Hs : slice m pos (S p) = c ++ [ch]).

Definition status_step_post (a : status_action) : Prop :=
  match a with
  | St_next x' => status_inv (c ++ [ch]) x'
  | St_done x' => accepted (S p) (status_done p x')
  | St_error _ => True
  end.

Lemma post_if (b : bool) a1 a2 :
  (b = true -> status_step_post a1) -> (b = false -> status_step_post a2) -> status_step_post (if b then a1 else a2).
Proof. by destruct b; auto. Qed.

Lemma expect_post w d s :
  c = bytes w -> ss_status x = open_status 0 0 None ->
  (ch = d -> status_inv (bytes w ++ [d]) (goto s x)) -> status_step_post (st_expect ch d s x).
Proof.
  intros Hc Hst H. unfold st_expect. apply post_if; intros E; [|done]. apply Z.eqb_eq in E. cbn [status_step_post].
  rewrite Hc, E. by apply H.
Qed.

Lemma first_major_post :
  c = bytes "HTTP/" -> ss_status x = open_status 0 0 None -> status_step_post (st_first_major_digit ch x).
Proof.
  intros Hc Hst. unfold st_first_major_digit. apply post_if; intros E; [done|].
  apply orb_false_iff in E as [E1%Z.ltb_ge E2%Z.ltb_ge].
  assert (Hd : is_digit ch = true) by (unfold is_digit; rewrite andb_true_iff, !Z.leb_le; lia).
  destruct (number_one ch Hd) as (H1 & H2 & H3). exists [ch]. split; [by rewrite Hc|]. split; [done|].
  split; [cbn; intros [= E]; lia|]. split; [cbn -[dec_value to_u16]; rewrite to_u16_number; lia|done].
Qed.

Lemma major_post major :
  c = bytes "HTTP/" ++ major -> number_ok major -> head major <> Some "0"%ch -> ss_major x = dec_value major ->
  ss_status x = open_status 0 0 None -> ss_state x = st_sw_major_digit -> status_step_post (st_major_digit ch x).
Proof.
  intros Hc Hm Hh Hv Hst Hss. unfold st_major_digit. apply post_if; intros E1; [|apply post_if; intros E2; [done|apply post_if; intros E3; [done|]]].
  - apply Z.eqb_eq in E1. exists major. by rewrite Hc, E1, <- app_assoc.
  - rewrite not_digit_char_is in E2. apply negb_false_iff in E2. apply Z.ltb_ge in E3. rewrite Hv in E3. unfold status_step_post, status_inv.
    cbn [ss_state]. pose proof (number_snoc _ _ Hm E3 E2) as Hm'. pose proof (number_value _ Hm').
    change (ss_state (x <| ss_major := to_u16 (ss_major x * 10 + ch - "0"%ch) |>)) with (ss_state x). rewrite Hss.
    exists (major ++ [ch]). rewrite Hc, <- app_assoc. split; [done|]. split; [done|]. split; [rewrite head_snoc; [done|apply Hm]|].
    split; [|done]. cbn -[dec_value to_u16]. rewrite dec_value_snoc in *. rewrite Hv, to_u16_number; lia.
Qed.

Lemma first_minor_post major :
  c = bytes "HTTP/" ++ major ++ ["."%ch] -> number_ok major -> head major <> Some "0"%ch -> ss_major x = dec_value major ->
  ss_status x = open_status 0 0 None -> status_step_post (st_first_minor_digit ch x).
Proof.
  intros Hc Hm Hh Hv Hst. unfold st_first_minor_digit. apply post_if; intros E; [done|].
  rewrite not_digit_char_is in E. apply negb_false_iff in E. destruct (number_one ch E) as (H1 & H2 & H3).
  exists major, [ch]. rewrite Hc, <- !app_assoc. split; [done|]. split; [|done]. split; [done|]. split; [done|]. split; [done|].
  split; [done|]. cbn -[dec_value to_u16]. rewrite to_u16_number; lia.
Qed.

Lemma minor_post major minor :
  c = bytes "HTTP/" ++ major ++ "."%ch :: minor -> prefix_read major minor x -> ss_status x = open_status 0 0 None ->
  ss_state x = st_sw_minor_digit -> status_step_post (st_minor_digit ch x).
Proof.
  intros Hc (P1 & P2 & P3 & P4 & P5) Hst Hss. unfold st_minor_digit.
  apply post_if; intros E1; [|apply post_if; intros E2; [done|apply post_if; intros E3; [done|]]].
  - apply Z.eqb_eq in E1. exists major, minor, []. split; [unfold status_prefix; by rewrite Hc, E1, <- !app_assoc|].
    split; [done|]. split; [done|]. split; [cbn; lia|done].
  - rewrite not_digit_char_is in E2. apply negb_false_iff in E2. apply Z.ltb_ge in E3. rewrite P5 in E3.
    pose proof (number_snoc _ _ P3 E3 E2) as Hm'. pose proof (number_value _ Hm'). unfold status_step_post, status_inv.
    change (ss_state (x <| ss_minor := to_u16 (ss_minor x * 10 + ch - "0"%ch) |>)) with (ss_state x). rewrite Hss.
    exists major, (minor ++ [ch]). rewrite Hc, <- !app_assoc. split; [done|]. split; [|done]. split; [done|]. split; [done|].
    split; [done|]. split; [done|]. cbn -[dec_value to_u16]. rewrite dec_value_snoc in *. rewrite P5, to_u16_number; lia.
Qed.

Lemma digit_post major minor s :
  c = status_prefix major minor s -> prefix_read major minor x -> code_chars s -> (length (digits_of s) < 3)%nat ->
  ss_status x = open_status (dec_value (digits_of s)) (Z.of_nat (length (digits_of s))) None ->
  ss_state x = st_sw_status -> status_step_post (st_digit p ch x).
Proof.
  intros Hc Hpr Hcc Hlen Hst Hss. unfold st_digit.
  assert (Hpre : c ++ [ch] = status_prefix major minor (s ++ [ch])).
  { rewrite Hc. unfold status_prefix. by rewrite <- !app_assoc, <- !app_comm_cons, <- app_assoc. }
  apply post_if; intros E1; [|apply post_if; intros E2; [done|]].
  - unfold status_step_post, status_inv. rewrite Hss. exists major, minor, (s ++ [ch]). unfold code_chars.
    rewrite !digits_of_snoc, E1, app_nil_r. by split_and!.
  - rewrite not_digit_char_is in E2. apply negb_false_iff in E2. pose proof (is_digit_bound _ E2).
    assert (Hd : digits_of (s ++ [ch]) = digits_of s ++ [ch]) by by rewrite digits_of_snoc, E1.
    assert (Hcc' : code_chars (s ++ [ch])) by (unfold code_chars in *; rewrite Hd, forallb_app, Hcc; cbn; by rewrite E2).
    assert (Hv : to_u64 (dec_value (digits_of s) * 10 + ch - "0"%ch) = dec_value (digits_of (s ++ [ch]))).
    { rewrite Hd, dec_value_snoc. pose proof (dec_value_bound _ Hcc).
      assert (10 ^ Z.of_nat (length (digits_of s)) <= 10 ^ 3) by (apply Z.pow_le_mono_r; lia).
      change (10 ^ 3) with 1000 in *. casts. }
    assert (Hn : to_u64 (Z.of_nat (length (digits_of s)) + 1) = Z.of_nat (length (digits_of (s ++ [ch])))).
    { rewrite Hd, length_app. cbn [length]. casts. }
    rewrite Hst. unfold open_status. cbn -[dec_value to_u64 Z.of_nat Nat.sub]. rewrite Hv, Hn. apply post_if; intros E3.
    + apply Z.eqb_eq in E3. exists major, minor, (s ++ [ch]). rewrite app_nil_r. split; [exact Hpre|]. split; [exact Hpr|].
      split; [done|]. split; [lia|]. rewrite last_snoc. split; [intros [= ->]; by rewrite Z.eqb_refl in E1|]. rewrite E3.
      unfold goto, open_status. cbn -[dec_value Nat.sub status_prefix]. rewrite <- Hpre, length_app. cbn [length].
      change (mk_status v0 ?a ?b ?s None) with (mk_status v0 a b s None).
      replace (pos + (length c + 1) - 3)%nat with (p - 2)%nat by lia. done.
    + apply Z.eqb_neq in E3. unfold status_step_post, status_inv. cbn -[dec_value status_prefix Z.of_nat]. rewrite Hss.
      exists major, minor, (s ++ [ch]). split; [exact Hpre|]. split; [exact Hpr|]. split; [done|].
      split; [|done]. rewrite Hd, length_app in *. cbn [length] in *. lia.
Qed.

Lemma line_end_post t :
  text_ok t -> code_read c t x -> status_step_post (St_next (goto st_sw_almost_done x)) \/ ch <> CR.
Proof.
  intros Ht Hc. destruct (decide (ch = CR)) as [E|]; [left|by right]. exists t. split; [done|]. rewrite <- E. by apply code_read_app.
Qed.

Lemma done_post t : text_ok t -> code_read c t x -> ch = LF -> status_step_post (St_done x).
Proof.
  intros Ht Hc E. cbn [status_step_post]. rewrite status_done_open by (by eapply code_read_open).
  apply (status_done_ok c t [] p x); try done; [by rewrite Hs, E|lia|lia|by rewrite app_nil_r|by left].
Qed.

Lemma status_step_ok : status_inv c x -> status_step_post (status_step p ch x).
Proof.
  unfold status_inv, status_step. destruct (ss_state x) eqn:Hss; intros H.
  - destruct H as [Hc H]. by apply (expect_post "").
  - destruct H as [Hc H]. by apply (expect_post "H").
  - destruct H as [Hc H]. by apply (expect_post "HT").
  - destruct H as [Hc H]. by apply (expect_post "HTT").
  - destruct H as [Hc H]. by apply (expect_post "HTTP").
  - destruct H as [Hc H]. by apply first_major_post.
  - destruct H as (major & Hc & H1 & H2 & H3 & H4). by apply (major_post major).
  - destruct H as (major & Hc & H1 & H2 & H3 & H4). by apply (first_minor_post major).
  - destruct H as (major & minor & Hc & H1 & H2). by apply (minor_post major minor).
  - destruct H as (major & minor & s & H1 & H2 & H3 & H4 & H5). by apply (digit_post major minor s).
  - unfold st_space_after_status. apply post_if; intros E1; [|apply post_if; intros E2; [|apply post_if; intros E3; [|apply post_if; intros E4; [|done]]]].
    + exists [ch]. apply Z.eqb_eq in E1. split; [done|]. split; [split; [by left|constructor]|]. by apply (code_read_app c []).
    + exists [ch]. apply Z.eqb_eq in E2. split; [done|]. split; [split; [by right|constructor]|]. by apply (code_read_app c []).
    + apply Z.eqb_eq in E3. by destruct (line_end_post [] I H).
    + apply Z.eqb_eq in E4. by apply (done_post []).
  - destruct H as (t & Hne & Ht & H). unfold st_status_text. apply post_if; intros E1; [|apply post_if; intros E2].
    + apply Z.eqb_eq in E1. by destruct (line_end_post t Ht H).
    + apply Z.eqb_eq in E2. by apply (done_post t).
    + apply Z.eqb_neq in E1, E2. unfold status_step_post, status_inv. rewrite Hss. exists (t ++ [ch]).
      split; [by destruct t|]. split; [by apply text_ok_snoc|]. by apply code_read_app.
  - destruct H as (t & Ht & H). unfold st_almost_done. apply post_if; intros E; [|done]. apply Z.eqb_eq in E.
    apply (status_done_ok c t [CR] p x); try done; [by rewrite Hs, E|lia|lia|by right].
Qed.
End Step.

Lemma status_loop_ok old n : forall p x,
  (pos <= p)%nat -> (p + n <= length m)%nat -> status_inv (slice m pos p) x ->
  exists rc y q, status_loop m old pos n p x = Ok (rc, y, q) /\
    (rc = NGX_OK /\ (q <= p + n)%nat /\ accepted q y \/ rc = NGX_AGAIN /\ q = (p + n)%nat \/ rc = NGX_ERROR /\ q = pos).
Proof.
  induction n as [|n IH]; intros p x Hp Hl Hx; cbn [status_loop].
  - eexists _, _, _. split; [reflexivity|]. right; left. split; [done|lia].
  - destruct (lookup_lt_is_Some_2 m p) as [ch Hc]; [lia|]. rewrite (deref_lookup _ _ _ Hc). cbn [mbind outcome_bind].
    pose proof (slice_snoc m pos p ch Hp Hc) as Hs.
    pose proof (status_step_ok (slice m pos p) p ch x ltac:(rewrite slice_length; lia) Hs Hx) as Hpost.
    destruct (status_step p ch x) as [y|y|y]; cbn [status_step_post] in Hpost.
    + rewrite <- Hs in Hpost. destruct (IH (S p) y) as (rc & z & q & E & Hz); [lia|lia|done|].
      exists rc, z, q. split; [exact E|]. by rewrite <- Nat.add_succ_comm.
    + eexists _, _, _. split; [reflexivity|]. left. split; [done|]. split; [lia|done].
    + eexists _, _, _. split; [reflexivity|]. by right; right.
Qed.
End Status.

(** * Every well-formed line is accepted *)

Section Accept.
Context (m : list Z) (old : status_state) (pos last : nat).

Definition st_run (p : nat) (x : status_scan) : outcome status_result := status_loop m old pos (last - p) p x.

Definition runs_ok (p : nat) (x : status_scan) (q : nat) : Prop := exists y, st_run p x = Ok (NGX_OK, y, q).

Lemma st_run_step p c x :
  (p < last)%nat -> m !! p = Some c ->
  st_run p x = match status_step p c x with
    | St_next x => st_run (S p) x
    | St_done x => Ok (NGX_OK, status_done p x, S p)
    | St_error x => Ok (NGX_ERROR, goto old x, pos)
    end.
Proof.
  intros Hp Hc. unfold st_run at 1. replace (last - p)%nat with (S (last - S p)) by lia. cbn [status_loop].
  by rewrite (deref_lookup _ _ _ Hc).
Qed.

Lemma runs_next p c x x' q :
  (p < last)%nat -> m !! p = Some c -> status_step p c x = St_next x' -> runs_ok (S p) x' q -> runs_ok p x q.
Proof. intros Hp Hc Hs [y H]. exists y. by rewrite (st_run_step p c), Hs. Qed.

Lemma runs_done p c x x' q :
  (p < last)%nat -> m !! p = Some c -> status_step p c x = St_done x' -> q = S p -> runs_ok p x q.
Proof. intros Hp Hc Hs ->. eexists. by rewrite (st_run_step p c), Hs. Qed.

Lemma runs_eol eol p x q :
  holds m p eol -> (q <= last)%nat -> q = (p + length eol)%nat -> eol = [LF] \/ eol = [CR; LF] ->
  ss_state x = st_sw_space_after_status \/ ss_state x = st_sw_status_text -> runs_ok p x q.
Proof.
  intros H Hl -> He Hst. destruct He as [-> | ->]; cbn [length] in *; rewrite !holds_cons in H.
  - apply (runs_done p LF x x); [lia|tauto| |lia]. unfold status_step. by destruct Hst as [-> | ->].
  - apply (runs_next p CR x (goto st_sw_almost_done x)); [lia|tauto| |].
    + unfold status_step. by destruct Hst as [-> | ->].
    + eapply (runs_done (S p) LF); [lia|tauto|reflexivity|lia].
Qed.

Lemma runs_text t eol : forall p x q,
  holds m p (t ++ eol) -> (q <= last)%nat -> q = (p + length (t ++ eol))%nat -> eol = [LF] \/ eol = [CR; LF] ->
  Forall text_char t -> ss_state x = st_sw_status_text -> runs_ok p x q.
Proof.
  induction t as [|c t IH]; intros p x q H Hl -> He Ht Hst; [apply (runs_eol eol p x); try done; by right|].
  cbn [app length] in *. apply holds_cons in H as [Hc H]. apply Forall_cons in Ht as [[H1 H2] Ht].
  apply (runs_next p c x x); [lia|done| |].
  - unfold status_step. rewrite Hst. unfold st_status_text. by rewrite (proj2 (Z.eqb_neq _ _) H1), (proj2 (Z.eqb_neq _ _) H2).
  - apply IH; try done. lia.
Qed.

Lemma runs_tail t eol p x q :
  holds m p (t ++ eol) -> (q <= last)%nat -> q = (p + length (t ++ eol))%nat -> eol = [LF] \/ eol = [CR; LF] ->
  text_ok t -> ss_state x = st_sw_space_after_status -> runs_ok p x q.
Proof.
  destruct t as [|c t]; intros H Hl -> He Ht Hst; [apply (runs_eol eol p x); try done; by left|].
  cbn [app length] in *. apply holds_cons in H as [Hc H]. destruct Ht as [Hsp Ht].
  apply (runs_next p c x (goto st_sw_status_text x)); [lia|done| |].
  - unfold status_step. rewrite Hst. by destruct Hsp as [-> | ->].
  - apply (runs_text t eol); try done. lia.
Qed.

Lemma digit_not_space c : is_digit c = true -> (c =? " "%ch) = false /\ not_digit_char c = false /\ (c =? "."%ch) = false.
Proof.
  intros H. rewrite not_digit_char_is, H. unfold is_digit in H. apply andb_prop in H as [H1%Z.leb_le H2%Z.leb_le].
  split; [apply Z.eqb_neq; lia|]. split; [done|apply Z.eqb_neq; lia].
Qed.

(** The rest [s] of the code, when [k] digits have been read. *)
Lemma runs_code tail s : forall k p x q,
  holds m p (s ++ tail) -> (q <= last)%nat -> q = (p + length (s ++ tail))%nat ->
  code_chars s -> (k + length (digits_of s) = 3)%nat -> (k < 3)%nat -> list.last s <> Some " "%ch ->
  ss_state x = st_sw_status -> st_count (ss_status x) = Z.of_nat k ->
  (forall p' x', holds m p' tail -> q = (p' + length tail)%nat -> ss_state x' = st_sw_space_after_status -> runs_ok p' x' q) ->
  runs_ok p x q.
Proof.
  induction s as [|c s IH]; intros k p x q H Hl Hq Hcc Hk Hk3 Hsp Hst Hn Hnext; [cbn in Hk; lia|].
  cbn [app length] in *. apply holds_cons in H as [Hc H]. unfold code_chars in Hcc. cbn [digits_of List.filter] in Hcc, Hk.
  fold (digits_of s) in Hcc, Hk. assert (Hlen : (S p + length (s ++ tail) = p + S (length (s ++ tail)))%nat) by lia.
  rewrite last_cons in Hsp. destruct (c =? " "%ch) eqn:E; cbn [negb] in Hcc, Hk.
  - apply (runs_next p c x x); [lia|done|unfold status_step; rewrite Hst; unfold st_digit; by rewrite E|].
    apply (IH k); try done; [lia|]. destruct (list.last s) eqn:El; [done|].
    apply last_None in El as ->. cbn in Hk. lia.
  - cbn [forallb length] in Hcc, Hk. apply andb_prop in Hcc as [Hd Hcc]. destruct (digit_not_space c Hd) as (_ & E2 & _).
    evar (x' : status_scan). apply (runs_next p c x x'); [lia|done| |].
    + unfold status_step. rewrite Hst. unfold st_digit. rewrite E, E2. subst x'.
      instantiate (1 := let s0 := (ss_status x) <| st_code := to_u64 (st_code (ss_status x) * 10 + c - "0"%ch) |>
                          <| st_count := Z.of_nat (S k) |> in
        if (S k =? 3)%nat then goto st_sw_space_after_status (x <| ss_status := s0 <| st_start := Some (p - 2)%nat |> |>)
        else x <| ss_status := s0 |>).
      cbn -[to_u64 Nat.sub Z.of_nat Nat.eqb]. rewrite Hn. replace (to_u64 (Z.of_nat k + 1)) with (Z.of_nat (S k)) by casts.
      replace (Z.of_nat (S k) =? 3) with (S k =? 3)%nat by (destruct (Nat.eqb_spec (S k) 3); symmetry; [apply Z.eqb_eq|apply Z.eqb_neq]; lia).
      by destruct (S k =? 3)%nat.
    + subst x'. destruct (Nat.eqb_spec (S k) 3) as [E3|E3].
      * assert (s = []) as ->.
        { assert (Hz : digits_of s = []) by (apply nil_length_inv; lia). destruct s as [|c' s _] using rev_ind; [done|].
          rewrite digits_of_snoc in Hz. rewrite last_snoc in Hsp. destruct (Z.eqb_spec c' " "%ch) as [->|]; [done|]. by destruct (digits_of s). }
        apply Hnext; [exact H|cbn [app] in Hq; lia|done].
      * apply (IH (S k)); try done; [lia|lia|lia|]. destruct (list.last s) eqn:El; [done|]. apply last_None in El as ->. cbn in Hk. lia.
Qed.

(** The rest of a number: of the minor version, and of the major one. *)
Lemma runs_minor tail s : forall minor p x q,
  holds m p (s ++ tail) -> (q <= last)%nat -> q = (p + length (s ++ tail))%nat -> number_ok (minor ++ s) ->
  ss_state x = st_sw_minor_digit -> ss_minor x = dec_value minor -> st_count (ss_status x) = 0 ->
  (forall p' x', holds m p' tail -> q = (p' + length tail)%nat -> ss_state x' = st_sw_minor_digit ->
    st_count (ss_status x') = 0 -> runs_ok p' x' q) ->
  runs_ok p x q.
Proof.
  induction s as [|c s IH]; intros minor p x q H Hl Hq Hok Hst Hv Hn Hnext; [by apply Hnext|].
  cbn [app length] in *. apply holds_cons in H as [Hc H]. destruct (number_prefix _ _ _ Hok) as [H99 Hd].
  destruct (digit_not_space c Hd) as (E1 & E2 & _).
  apply (runs_next p c x (x <| ss_minor := to_u16 (ss_minor x * 10 + c - "0"%ch) |>)); [lia|done| |].
  - unfold status_step. rewrite Hst. unfold st_minor_digit. rewrite E1, E2, Hv.
    by rewrite (proj2 (Z.ltb_ge 99 (dec_value minor)) H99).
  - apply (IH (minor ++ [c])); try done; [lia|by rewrite <- app_assoc|]. cbn -[to_u16 dec_value]. rewrite Hv, dec_value_snoc.
    pose proof (is_digit_bound c Hd). assert (0 <= dec_value minor).
    { destruct Hok as (_ & Hf & _). rewrite forallb_app in Hf. apply andb_prop in Hf as [Hf _]. by apply dec_value_bound. }
    rewrite to_u16_number; lia.
Qed.

Lemma runs_major tail s : forall major p x q,
  holds m p (s ++ tail) -> (q <= last)%nat -> q = (p + length (s ++ tail))%nat -> number_ok (major ++ s) ->
  ss_state x = st_sw_major_digit -> ss_major x = dec_value major -> st_count (ss_status x) = 0 ->
  (forall p' x', holds m p' tail -> q = (p' + length tail)%nat -> ss_state x' = st_sw_major_digit ->
    st_count (ss_status x') = 0 -> runs_ok p' x' q) ->
  runs_ok p x q.
Proof.
  induction s as [|c s IH]; intros major p x q H Hl Hq Hok Hst Hv Hn Hnext; [by apply Hnext|].
  cbn [app length] in *. apply holds_cons in H as [Hc H]. destruct (number_prefix _ _ _ Hok) as [H99 Hd].
  destruct (digit_not_space c Hd) as (_ & E2 & E1).
  apply (runs_next p c x (x <| ss_major := to_u16 (ss_major x * 10 + c - "0"%ch) |>)); [lia|done| |].
  - unfold status_step. rewrite Hst. unfold st_major_digit. rewrite E1, E2, Hv.
    by rewrite (proj2 (Z.ltb_ge 99 (dec_value major)) H99).
  - apply (IH (major ++ [c])); try done; [lia|by rewrite <- app_assoc|]. cbn -[to_u16 dec_value]. rewrite Hv, dec_value_snoc.
    pose proof (is_digit_bound c Hd). assert (0 <= dec_value major).
    { destruct Hok as (_ & Hf & _). rewrite forallb_app in Hf. apply andb_prop in Hf as [Hf _]. by apply dec_value_bound. }
    rewrite to_u16_number; lia.
Qed.
End Accept.

Lemma status_bytes_eq major minor code text eol :
  status_bytes (mk_status_line major minor code text eol) =
    "H"%ch :: "T"%ch :: "T"%ch :: "P"%ch :: "/"%ch :: major ++ "."%ch :: minor ++ " "%ch :: code ++ text ++ eol.
Proof.
  unfold status_bytes, status_prefix. cbn [sl_major sl_minor sl_code sl_text sl_eol]. rewrite <- !app_assoc. cbn [app].
  by rewrite <- !app_assoc.
Qed.

Lemma status_line_runs m old pos last l x :
  ss_state x = st_sw_start -> ss_status x = new_status -> status_line_ok l -> holds m pos (status_bytes l) ->
  (pos + length (status_bytes l) <= last)%nat -> runs_ok m old pos last pos x (pos + length (status_bytes l)).
Proof.
  intros Hst Hss [(M1 & M2) M3 (C1 & C2 & C3) Ht He] H Hl. remember (pos + length (status_bytes l))%nat as q eqn:Hq.
  destruct l as [major minor code text eol]. rewrite status_bytes_eq in *. cbn [sl_major sl_minor sl_code sl_text sl_eol length] in *.
  rewrite !holds_cons in H. destruct H as (H1 & H2 & H3 & H4 & H5 & H).
  eapply runs_next; [lia|exact H1|unfold status_step; rewrite Hst; reflexivity|].
  do 4 (eapply runs_next; [lia|eassumption|reflexivity|]).
  destruct major as [|c major]; [by destruct M1|]. destruct minor as [|d minor]; [by destruct M3|].
  cbn [app length] in *. apply holds_cons in H as [Hc H].
  destruct (number_prefix [] c major M1) as [_ Dc]. destruct (number_prefix [] d minor M3) as [_ Dd].
  destruct (digit_not_space c Dc) as (_ & Ec & _). pose proof (is_digit_bound c Dc) as Bc. pose proof (is_digit_bound d Dd) as Bd.
  evar (x1 : status_scan). eapply (runs_next _ _ _ _ _ c _ x1); [lia|exact Hc| |].
  { unfold status_step. cbn [goto ss_state]. unfold st_first_major_digit.
    assert (c <> "0"%ch) by (intros ->; by apply M2). rewrite (proj2 (Z.ltb_ge c "1"%ch)) by lia.
    rewrite (proj2 (Z.ltb_ge "9"%ch c)) by lia. subst x1. reflexivity. }
  eapply (runs_major m old pos last _ major [c]); [exact H|lia|lia
    |exact M1|reflexivity|subst x1; cbn -[to_u16]; rewrite to_u16_number; cbn; lia|subst x1; cbn; by rewrite Hss|].
  clear x1. intros p' x' H' Hq' Hst' Hn'. apply holds_cons in H' as [Hdot H']. apply holds_cons in H' as [Hd H'].
  cbn [length] in Hq'.
  eapply runs_next; [lia|exact Hdot|unfold status_step; rewrite Hst'; reflexivity|].
  evar (x1 : status_scan). eapply (runs_next _ _ _ _ _ d _ x1); [lia|exact Hd| |].
  { unfold status_step. cbn [goto ss_state]. unfold st_first_minor_digit. destruct (digit_not_space d Dd) as (_ & -> & _). subst x1. reflexivity. }
  eapply (runs_minor m old pos last _ minor [d]); [exact H'|lia|lia|exact M3|reflexivity
    |subst x1; cbn -[to_u16]; rewrite to_u16_number; cbn; lia|exact Hn'|].
  clear x1. intros p2 x2 H2' Hq2 Hst2 Hn2. apply holds_cons in H2' as [Hsp H2']. cbn [length] in Hq2.
  eapply runs_next; [lia|exact Hsp|unfold status_step; rewrite Hst2; reflexivity|].
  eapply (runs_code m old pos last (text ++ eol) code 0); [exact H2'|lia|lia|exact C1|exact C2|lia|exact C3|reflexivity|exact Hn2|].
  intros p3 x3 H3' Hq3 Hst3. by apply (runs_tail m old pos last text eol).
Qed.

(** C12. ngx_http_parse_status_line accepts exactly the well-formed status lines,
    and gives the version, the code, and where the code and the text of the line are; it
    stays in the buffer and otherwise asks for more bytes or returns an error. *)
Theorem status_line_exact m pos last major minor :
  (pos <= last)%nat -> (last <= length m)%nat ->
  exists rc x q,
    ngx_http_parse_status_line m pos last (mk_status_scan st_sw_start major minor new_status) = Ok (rc, x, q) /\
    (rc = NGX_OK /\ (q <= last)%nat /\ accepted m pos q x \/ rc = NGX_AGAIN /\ q = last \/ rc = NGX_ERROR /\ q = pos) /\
    forall l, status_line_ok l -> holds m pos (status_bytes l) -> (pos + length (status_bytes l) <= last)%nat ->
      rc = NGX_OK /\ q = (pos + length (status_bytes l))%nat.
Proof.
  intros Hp Hl. unfold ngx_http_parse_status_line. cbn [ss_state]. set (x0 := mk_status_scan _ _ _ _).
  destruct (status_loop_ok m pos 0 st_sw_start (last - pos) pos x0) as (rc & x & q & E & H); [lia|lia|by rewrite slice_nil|].
  replace (pos + (last - pos))%nat with last in H by lia. exists rc, x, q. split; [exact E|]. split; [exact H|].
  intros l Hok Hh Hlen. destruct (status_line_runs m st_sw_start pos last l x0) as [y Hy]; try done.
  unfold st_run in Hy. rewrite E in Hy. by injection Hy as -> _ ->.
Qed.

Lemma status_line_exact_witness :
  exists rc x q,
    ngx_http_parse_status_line (bytes "HTTP/1.0 200 OK" ++ [CR; LF]) 0 17 (mk_status_scan st_sw_start 0 0 new_status) = Ok (rc, x, q) /\
    (rc = NGX_OK /\ (q <= 17)%nat /\ accepted (bytes "HTTP/1.0 200 OK" ++ [CR; LF]) 0 q x \/ rc = NGX_AGAIN /\ q = 17%nat \/
      rc = NGX_ERROR /\ q = 0%nat) /\
    forall l, status_line_ok l -> holds (bytes "HTTP/1.0 200 OK" ++ [CR; LF]) 0 (status_bytes l) ->
      (0 + length (status_bytes l) <= 17)%nat -> rc = NGX_OK /\ q = (0 + length (status_bytes l))%nat.
Proof. apply status_line_exact; [lia|vm_compute; lia]. Defined.

(** The hypotheses on a line can hold. *)
Example status_line_ok_demo :
  status_line_ok (mk_status_line (bytes "1") (bytes "0") (bytes "200") (bytes " OK") [CR; LF]).
Proof. split; cbn; try done; repeat split; try done; try (by left); try (by right); repeat constructor; done. Qed.

(** * Fragments *)

(** What a caller sees: after an error it does not use the rest. *)
Definition status_view (o : outcome status_result) : outcome (Z * option (status_scan * nat)) :=
  '(rc, x, q) ← o; Ok (rc, if rc =? NGX_ERROR then None else Some (x, q)).

Lemma status_loop_app m old pos old' pos' n1 n2 : forall p x y q,
  status_loop m old pos n1 p x = Ok (NGX_AGAIN, y, q) ->
  q = (p + n1)%nat /\
  status_view (status_loop m old pos (n1 + n2) p x) = status_view (status_loop m old' pos' n2 (p + n1) y).
Proof.
  assert (Hn2 : forall n p x, status_view (status_loop m old pos n p x) = status_view (status_loop m old' pos' n p x)).
  { induction n as [|n IH]; intros p x; [done|]. cbn [status_loop]. destruct (deref m p) as [c| |]; try done.
    cbn [mbind outcome_bind]. by destruct (status_step p c x). }
  induction n1 as [|n1 IH]; intros p x y q; cbn [status_loop Nat.add].
  - intros [= <- <-]. rewrite Nat.add_0_r. split; [done|apply Hn2].
  - destruct (deref m p) as [c| |]; try done. cbn [mbind outcome_bind]. destruct (status_step p c x) as [x'|x'|x']; try done.
    intros H. destruct (IH _ _ _ _ H) as [-> E]. rewrite <- Nat.add_succ_comm. by split.
Qed.

Lemma status_loop_agree m1 m old pos last n : forall p x,
  take last m1 = take last m -> (p + n <= last)%nat -> status_loop m1 old pos n p x = status_loop m old pos n p x.
Proof.
  induction n as [|n IH]; intros p x E Hl; [done|]. cbn [status_loop]. unfold deref.
  rewrite (lookup_agree m1 m last p) by (done || lia). destruct (m !! p) as [c|]; [|done]. cbn [mbind outcome_bind].
  destruct (status_step p c x); [|done|done]. apply IH; [done|lia].
Qed.

Theorem status_line_resumed m1 m pos last1 last2 x y q :
  (pos <= last1 <= last2)%nat -> take last1 m1 = take last1 m ->
  ngx_http_parse_status_line m1 pos last1 x = Ok (NGX_AGAIN, y, q) ->
  q = last1 /\ status_view (ngx_http_parse_status_line m q last2 y) = status_view (ngx_http_parse_status_line m pos last2 x).
Proof.
  intros Hl E H. unfold ngx_http_parse_status_line in *. rewrite (status_loop_agree m1 m _ _ last1) in H by (done || lia).
  destruct (status_loop_app m (ss_state x) pos (ss_state y) q (last1 - pos) (last2 - q) pos x y q H) as [Hq Hv].
  replace (pos + (last1 - pos))%nat with last1 in * by lia. subst q. split; [done|]. rewrite <- Hv.
  by replace (last1 - pos + (last2 - last1))%nat with (last2 - pos)%nat by lia.
Qed.

Lemma status_line_resumed_witness :
  exists y, 9%nat = 9%nat /\ status_view (ngx_http_parse_status_line (bytes "HTTP/1.0 200 OK" ++ [CR; LF]) 9 17 y) =
    status_view (ngx_http_parse_status_line (bytes "HTTP/1.0 200 OK" ++ [CR; LF]) 0 17 new_status_scan).
Proof.
  eexists. eapply (status_line_resumed (bytes "HTTP/1.0 ") (bytes "HTTP/1.0 200 OK" ++ [CR; LF]) 0 9 17 new_status_scan _ 9);
    [lia|reflexivity|vm_compute; reflexivity].
Defined.
