(* ===== verification/HttpSearch.v ===== *)
(** Component "URIs and searches": the rest of src/http/ngx_http_parse.c, that is
    ngx_http_parse_unsafe_uri, the searches in lists of headers and in the
    arguments of a request, and ngx_http_split_args.

    The text an [ngx_str_t] refers to is the list of the bytes from its data to
    the end of their object, with its length; a pointer into it is an offset. *)

From stdpp Require Import base numbers list option strings.
From Stdlib Require Import ZArith Lia.
From S2P Require Import Prelude Buffer StringCompare Escape HttpRequest.
Local Open Scope Z_scope.

(** * Definitions *)

(** ** Unsafe URIs *)

(** [ngx_path_separator(c)] of src/os/unix/ngx_files.h. *)
Definition ngx_path_separator (c : Z) : bool := c =? "/"%ch.

(** [p[0] == '.' && p[1] == '.' && (len == n || ngx_path_separator(p[2]))] *)
Definition two_dots (p : list Z) (at_end : bool) : outcome bool :=
  c0 ← deref p 0;
  if negb (c0 =? "."%ch) then Ok false
  else
    c1 ← deref p 1;
    if negb (c1 =? "."%ch) then Ok false
    else if at_end then Ok true
    else c2 ← deref p 2; Ok (ngx_path_separator c2).

(** [p[0] == '.' && len > 1 && p[1] == '.' && (len == 2 || ...)] *)
Definition dots_at_start (p : list Z) (len : nat) : outcome bool :=
  c0 ← deref p 0;
  if negb (c0 =? "."%ch) then Ok false
  else if negb (1 <? len)%nat then Ok false
  else two_dots p (len =? 2)%nat.

(** The result of the first loop: [goto unsafe], or the end of the text or of the
    path, with [quoted]; the path ends [len] bytes before the text does. *)
Inductive path_scan : Type :=
  | Unsafe
  | Path_end (quoted : bool) (len : nat).

Fixpoint scan_path (p : list Z) (len : nat) (quoted : bool) {struct len} : outcome path_scan :=
  match len with
  | O => Ok (Path_end quoted 0)
  | S len' =>
      match p with
      | [] => UB
      | ch :: p =>
          if ch =? "%"%ch then scan_path p len' true
          else
            u ← usual_bit ch;
            if u : bool then scan_path p len' quoted
            else if ch =? "?"%ch then Ok (Path_end quoted len)
            else if ch =? 0 then Ok Unsafe
            else
              d ← (if ngx_path_separator ch && (2 <? len)%nat then two_dots p (len =? 3)%nat else Ok false);
              if d : bool then Ok Unsafe else scan_path p len' quoted
      end
  end.

(** The second loop, over the unescaped path: whether it is safe. *)
Fixpoint scan_unescaped (p : list Z) (len : nat) {struct len} : outcome bool :=
  match len with
  | O => Ok true
  | S len' =>
      match p with
      | [] => UB
      | ch :: p =>
          if ch =? 0 then Ok false
          else
            d ← (if ngx_path_separator ch && (2 <? len)%nat then two_dots p (len =? 3)%nat else Ok false);
            if d : bool then Ok false else scan_unescaped p len'
      end
  end.

(** The result is [None] for NGX_ERROR, and otherwise the URI and the arguments,
    if there are any.  [alloc] is the memory that ngx_pnalloc gives, if it does. *)
Definition ngx_http_parse_unsafe_uri (uri : list Z) (len : nat) (alloc : option (list Z))
    : outcome (option (list Z * option (list Z))) :=
  starts ← (if (len =? 0)%nat then Ok true else c ← deref uri 0; Ok (c =? "?"%ch));
  if starts : bool then Ok None
  else
    dots ← dots_at_start uri len;
    if dots : bool then Ok None
    else
      r ← scan_path uri len false;
      match r with
      | Unsafe => Ok None
      | Path_end quoted rest =>
          let args := match rest with O => None | S n => Some (slice uri (len - n) len) end in
          let uri_len := (len - rest)%nat in
          if negb quoted then Ok (Some (take uri_len uri, args))
          else
            match alloc with
            | None => Ok None
            | Some dst =>
                (* the path and the new memory are two objects of one memory *)
                '(mem, d, _) ← ngx_unescape_uri (take uri_len uri ++ dst) uri_len 0 uri_len 0;
                let p := drop uri_len mem in
                let len := (d - uri_len)%nat in
                dots ← dots_at_start p len;
                if dots : bool then Ok None
                else
                  safe ← scan_unescaped p len;
                  if negb safe then Ok None else Ok (Some (take len p, args))
            end
      end.

(** ** Lists of headers *)

(** The [n] bytes from [start] are walked to the first that is no space. *)
Fixpoint skip_spaces (d : list Z) (n start : nat) : outcome nat :=
  match n with
  | O => Ok start
  | S n' => c ← deref d start; if c =? " "%ch then skip_spaces d n' (S start) else Ok start
  end.

(** [while (start < end) { ch = *start++; if (ch == ';' || ch == ',') { break; } }] *)
Fixpoint skip_item (d : list Z) (n start : nat) : outcome nat :=
  match n with
  | O => Ok start
  | S n' => c ← deref d start; if (c =? ";"%ch) || (c =? ","%ch) then Ok (S start) else skip_item d n' (S start)
  end.

(** [for (last = start; last < end && *last != ';'; last++)] *)
Fixpoint find_semicolon (d : list Z) (n last : nat) : outcome nat :=
  match n with
  | O => Ok last
  | S n' => c ← deref d last; if c =? ";"%ch then Ok last else find_semicolon d n' (S last)
  end.

(** What is found at [start]: the name alone, the name with a value (its offset
    and its length), or neither, and the search goes on after the item at
    [start]. *)
Inductive item : Type :=
  | Name
  | Value (data len : nat)
  | Skip (start : nat).

(** [want] is [value != NULL]. *)
Definition item_at (name : list Z) (want : bool) (d : list Z) (e start : nat) : outcome item :=
  c ← ngx_strncasecmp (drop start d) name (length name);
  if negb (c =? 0) then Ok (Skip start)
  else
    let start := (start + length name)%nat in
    start ← skip_spaces d (e - start) start;
    if negb want then
      found ← (if (start =? e)%nat then Ok true else c ← deref d start; Ok (c =? ","%ch));
      if found : bool then Ok Name else Ok (Skip start)
    else if (start =? e)%nat then Ok (Skip start)
    else
      c ← deref d start;
      let start := S start in
      if negb (c =? "="%ch) then Ok (Skip start)
      else
        start ← skip_spaces d (e - start) start;
        last ← find_semicolon d (e - start) start;
        Ok (Value start (last - start)).

(** The [while] loop over the items of one header. *)
Fixpoint items_loop (name : list Z) (want : bool) (d : list Z) (e : nat) (fuel start : nat) : outcome (option item) :=
  if negb (start <? e)%nat then Ok None
  else
    match fuel with
    | O => NoFuel
    | S fuel' =>
        i ← item_at name want d e start;
        match i with
        | Skip start =>
            start ← skip_item d (e - start) start;
            start ← skip_spaces d (e - start) start;
            items_loop name want d e fuel' start
        | _ => Ok (Some i)
        end
    end.

(** The value of a header. *)
Record str : Type := mk_str { s_data : list Z; s_len : nat }.

Fixpoint multi_lines (name : list Z) (want : bool) (headers : list str) (i : nat) : outcome (option (nat * item)) :=
  match headers with
  | [] => Ok None
  | h :: headers =>
      if (s_len h <? length name)%nat then multi_lines name want headers (S i)
      else
        r ← items_loop name want (s_data h) (s_len h) (s_len h) 0;
        match r with
        | Some x => Ok (Some (i, x))
        | None => multi_lines name want headers (S i)
        end
  end.

(** [None] is NGX_DECLINED; otherwise the index of the header, and what was found
    in it. *)
Definition ngx_http_parse_multi_header_lines (headers : list str) (name : list Z) (want : bool) : outcome (option (nat * item)) :=
  multi_lines name want headers 0.

Fixpoint set_cookie_lines (name : list Z) (headers : list str) (i : nat) : outcome (option (nat * item)) :=
  match headers with
  | [] => Ok None
  | h :: headers =>
      if (s_len h <=? length name)%nat then set_cookie_lines name headers (S i)
      else
        x ← item_at name true (s_data h) (s_len h) 0;
        match x with
        | Skip _ => set_cookie_lines name headers (S i)
        | _ => Ok (Some (i, x))
        end
  end.

Definition ngx_http_parse_set_cookie_lines (headers : list str) (name : list Z) : outcome (option (nat * item)) :=
  set_cookie_lines name headers 0.

(** ** Arguments *)

(** [last] is the length of the arguments, [len] that of the name; the offset of
    the value in the arguments, and its length. *)
Fixpoint http_arg_loop (args name : list Z) (last len fuel p : nat) : outcome (option (nat * Z)) :=
  if negb (p <? last)%nat then Ok None
  else
    match fuel with
    | O => NoFuel
    | S fuel' =>
        n ← (match len with O => UB | S n => Ok n end);
        r ← ngx_strlcasestrn (drop p args) (last - 1 - p) name n;
        match r with
        | None => Ok None
        | Some k =>
            let p := (p + k)%nat in
            start ← (if (p =? 0)%nat then Ok true else c ← deref args (p - 1); Ok (c =? "&"%ch));
            found ← (if start : bool then c ← deref args (p + len); Ok (c =? "="%ch) else Ok false);
            if found : bool then
              let data := (p + len + 1)%nat in
              r ← ngx_strlchr (drop p args) (last - p) "&"%ch;
              let e := match r with None => last | Some k => (p + k)%nat end in
              Ok (Some (data, to_u64 (Z.of_nat e - Z.of_nat data)))
            else http_arg_loop args name last len fuel' (S p)
        end
    end.

(** [name] may be the start of a longer object; [None] is NGX_DECLINED. *)
Definition ngx_http_arg (args : list Z) (args_len : nat) (name : list Z) (len : nat) : outcome (option (nat * Z)) :=
  if (args_len =? 0)%nat then Ok None else http_arg_loop args name args_len len args_len 0.

(** The URI and the arguments, as lengths and an offset in the text. *)
Definition ngx_http_split_args (uri : list Z) (len : nat) : outcome (nat * option (nat * nat)) :=
  r ← ngx_strlchr uri len "?"%ch;
  match r with
  | Some k => Ok (k, Some (S k, (len - S k)%nat))
  | None => Ok (len, None)
  end.

(** ** Examples *)

Definition demo_unsafe (s : string) : outcome (option (list Z * option (list Z))) :=
  let l := bytes s in ngx_http_parse_unsafe_uri l (length l) (Some (replicate (length l) 7)).

Example unsafe_1 : demo_unsafe "/a/%2e%2e/b?x=1" = Ok None.
Proof. vm_compute. reflexivity. Qed.

Example unsafe_2 : demo_unsafe "/a/b%20c?x=/../" = Ok (Some (bytes "/a/b c", Some (bytes "x=/../"))).
Proof. vm_compute. reflexivity. Qed.

(** Two dots before the question mark are not detected. *)
Example unsafe_dots_args : demo_unsafe "/a/..?x" = Ok (Some (bytes "/a/..", Some (bytes "x"))).
Proof. vm_compute. reflexivity. Qed.

Definition demo_header (s : string) : str := mk_str (bytes s ++ [0]) (length (bytes s)).

Definition demo_cookie (name : string) (headers : list string) : outcome (option (nat * list Z)) :=
  let hs := demo_header <$> headers in
  r ← ngx_http_parse_multi_header_lines hs (bytes name) true;
  match r with
  | Some (i, Value d n) =>
      match hs !! i with Some h => Ok (Some (i, slice (s_data h) d (d + n))) | None => UB end
  | _ => Ok None
  end.

Example cookie_1 : demo_cookie "uid" ["a=1; xuid=2"; "b=2; UID = 3; c=4"]%string = Ok (Some (1%nat, bytes "3")).
Proof. vm_compute. reflexivity. Qed.

(** After a name without a value the separator is taken for the equals sign, and
    the next item is skipped with it. *)
Example cookie_skipped : demo_cookie "a" ["a; a=1"]%string = Ok None.
Proof. vm_compute. reflexivity. Qed.

Definition demo_arg (args name : string) : outcome (option (list Z)) :=
  let a := bytes args in
  r ← ngx_http_arg a (length a) (bytes name) (length (bytes name));
  Ok (option_map (fun v => slice a v.1 (v.1 + Z.to_nat v.2)) r).

Example arg_1 : demo_arg "xid=1&ID=a=b&id=3" "id" = Ok (Some (bytes "a=b")).
Proof. vm_compute. reflexivity. Qed.

(** The variable [$arg_] has an empty name, and [len - 1] is the largest size. *)
Example arg_empty : demo_arg "a=1" "" = UB.
Proof. vm_compute. reflexivity. Qed.
