(* ===== verification/HttpSearchTheory.v ===== *)
(** Unsafe URIs, searches in headers and arguments: what the functions find. *)

From stdpp Require Import base numbers list option strings.
From Stdlib Require Import ZArith Lia.
From S2P Require Import Prelude Buffer StringCompare Escape HttpRequest HttpSearch.
Local Open Scope Z_scope.

(** * Unsafe URIs *)

(** The parts of a text between the characters [c]. *)
Fixpoint split_on (c : Z) (l : list Z) : list (list Z) :=
  match l with
  | [] => [[]]
  | x :: l' =>
      if x =? c then [] :: split_on c l'
      else match split_on c l' with [] => [[x]] | s :: ss => (x :: s) :: ss end
  end.

(** One of the segments of a path goes up. *)
Definition climbs (l : list Z) : bool := bool_decide (bytes ".." ∈ split_on "/"%ch l).

(** The text before the first question mark, and what follows it. *)
Fixpoint break_args (l : list Z) : list Z * option (list Z) :=
  match l with
  | [] => ([], None)
  | c :: l' => if c =? "?"%ch then ([], Some l') else let '(p, a) := break_args l' in (c :: p, a)
  end.

Definition has (c : Z) (l : list Z) : bool := bool_decide (c ∈ l).

(** What a path is accepted as: itself, or the text it is escaped from.  When
    arguments follow, the question mark counts as a character of its last
    segment. *)
Definition safe_path (path : list Z) (args : bool) : option (list Z) :=
  if bool_decide (path = []) || has 0 path || climbs (path ++ if args then ["?"%ch] else []) then None
  else if has "%"%ch path then
    let p := (unescape_ref 0 path).1 in
    if has 0 p || climbs p then None else Some p
  else Some path.

(** ** The look-ahead for two dots *)

Definition dots_ahead (l : list Z) : bool :=
  match l with
  | [a; b] => (a =? "."%ch) && (b =? "."%ch)
  | a :: b :: c :: _ => (a =? "."%ch) && (b =? "."%ch) && (c =? "/"%ch)
  | _ => false
  end.

Fixpoint after_slash (l : list Z) : bool :=
  match l with
  | [] => false
  | c :: l' => (c =? "/"%ch) && dots_ahead l' || after_slash l'
  end.

Lemma split_on_cons c l : exists s ss, split_on c l = s :: ss.
Proof. induction l as [|x l (s & ss & E)]; cbn; [by eexists _, _|]. rewrite E. destruct (x =? c); by eexists _, _. Qed.

(** The first segment. *)
Lemma split_head l s ss : split_on "/"%ch l = s :: ss -> (s = bytes ".." <-> dots_ahead l = true).
Proof.
  intros H. change (bytes "..") with ["."%ch; "."%ch].
  destruct l as [|a l]; [injection H as <- <-; by split|]. cbn [split_on] in H.
  destruct (Z.eqb_spec a "/"%ch) as [->|Ha]; [injection H as <- <-; split; [done|by destruct l as [|? [|? ?]]]|].
  destruct (split_on_cons "/"%ch l) as (s1 & ss1 & E1). rewrite E1 in H. injection H as <- <-.
  destruct l as [|b l]; [injection E1 as <- <-; by split|]. cbn [split_on] in E1.
  destruct (Z.eqb_spec b "/"%ch) as [->|Hb].
  { injection E1 as <- <-. cbn. destruct l; split; try done; by rewrite ?andb_false_r. }
  destruct (split_on_cons "/"%ch l) as (s2 & ss2 & E2). rewrite E2 in E1. injection E1 as <- <-.
  destruct l as [|c l]; cbn [dots_ahead].
  - injection E2 as <- <-. rewrite andb_true_iff, !Z.eqb_eq. split; [by intros [= -> ->]|by intros [-> ->]].
  - rewrite !andb_true_iff, !Z.eqb_eq. cbn [split_on] in E2. destruct (Z.eqb_spec c "/"%ch) as [->|Hc].
    + injection E2 as <- <-. split; [by intros [= -> ->]|by intros [[-> ->] _]].
    + destruct (split_on_cons "/"%ch l) as (s3 & ss3 & E3). rewrite E3 in E2. injection E2 as <- <-.
      split; [done|by intros [_ ?]].
Qed.

Lemma split_tail l s ss : split_on "/"%ch l = s :: ss -> (bytes ".." ∈ ss <-> after_slash l = true).
Proof.
  revert s ss. induction l as [|a l IH]; intros s ss; cbn [split_on after_slash].
  - intros [= <- <-]. split; [by intros ?%elem_of_nil|done].
  - destruct (split_on_cons "/"%ch l) as (s1 & ss1 & E). rewrite E. specialize (IH _ _ E). pose proof (split_head _ _ _ E) as Hh.
    destruct (Z.eqb_spec a "/"%ch); intros [= <- <-]; cbn [andb orb]; [|done].
    rewrite elem_of_cons, orb_true_iff, IH, <- Hh. split; intros [H|H]; auto.
Qed.

Lemma climbs_eq l : climbs l = dots_ahead l || after_slash l.
Proof.
  unfold climbs. destruct (split_on_cons "/"%ch l) as (s & ss & E). rewrite E.
  apply eq_true_iff_eq. rewrite bool_decide_eq_true, elem_of_cons, orb_true_iff, <- (split_head _ _ _ E), <- (split_tail _ _ _ E).
  split; intros [H|H]; auto.
Qed.

Lemma two_dots_ok t rest : (2 <= length t)%nat -> two_dots (t ++ rest) (length t =? 2)%nat = Ok (dots_ahead t).
Proof.
  destruct t as [|a [|b [|c t]]]; cbn [length]; try lia; intros _; unfold two_dots, deref; cbn;
    (destruct (a =? 46); cbn; [|done]); by destruct (b =? 46).
Qed.

Lemma dots_at_start_ok t rest : t ++ rest <> [] -> dots_at_start (t ++ rest) (length t) = Ok (dots_ahead t).
Proof.
  intros Hne. unfold dots_at_start. destruct (t ++ rest) as [|x l] eqn:E; [done|]. cbn [deref lookup].
  destruct t as [|a [|b t]].
  - unfold deref. cbn. by destruct (x =? 46).
  - unfold deref. cbn. by destruct (x =? 46).
  - rewrite <- E, two_dots_ok by (cbn; lia). unfold deref. cbn [lookup list_lookup mbind outcome_bind].
    injection E as <- _. cbn -[dots_ahead Z.eqb]. destruct (Z.eqb_spec a "."%ch) as [->|Ha]; [done|]. cbn [negb].
    f_equal. symmetry. destruct t; cbn [dots_ahead]; by rewrite (proj2 (Z.eqb_neq _ _) Ha).
Qed.

(** The look-ahead does not see past a question mark. *)
Definition scanned (l : list Z) : list Z :=
  let '(p, a) := break_args l in p ++ match a with Some _ => ["?"%ch] | None => [] end.

Lemma scanned_cons c l : scanned (c :: l) = if c =? "?"%ch then ["?"%ch] else c :: scanned l.
Proof. unfold scanned. cbn [break_args]. destruct (c =? "?"%ch); [done|]. by destruct (break_args l). Qed.

Lemma dots_ahead_scanned l : dots_ahead (scanned l) = dots_ahead l.
Proof.
  destruct l as [|a l]; [done|]. rewrite scanned_cons. destruct (Z.eqb_spec a "?"%ch) as [->|Ha].
  { destruct l as [|b [|c l]]; done. }
  destruct l as [|b l]; [done|]. rewrite scanned_cons. destruct (Z.eqb_spec b "?"%ch) as [->|Hb].
  { cbn [dots_ahead]. destruct l as [|c l]; by destruct (a =? "."%ch). }
  destruct l as [|c l]; [done|]. rewrite scanned_cons. destruct (Z.eqb_spec c "?"%ch) as [->|Hc].
  { cbn [dots_ahead]. by destruct (a =? "."%ch), (b =? "."%ch). }
  done.
Qed.

Lemma has_cons c x l : has c (x :: l) = (x =? c) || has c l.
Proof.
  unfold has. apply eq_true_iff_eq. rewrite bool_decide_eq_true, elem_of_cons, orb_true_iff, bool_decide_eq_true, Z.eqb_eq.
  split; intros [H|H]; auto.
Qed.

Lemma has_nil c : has c [] = false.
Proof. apply bool_decide_eq_false. by intros ?%elem_of_nil. Qed.

Lemma special_cases c : special c = false -> c <> 0 /\ c <> "%"%ch /\ c <> "/"%ch /\ c <> "?"%ch.
Proof. intros H. repeat split; intros ->; discriminate H. Qed.

Lemma look_ahead_ok c l rest :
  (if ngx_path_separator c && (2 <? S (length l))%nat then two_dots (l ++ rest) (S (length l) =? 3)%nat else Ok false) =
  Ok ((c =? "/"%ch) && dots_ahead l).
Proof.
  unfold ngx_path_separator. destruct (c =? "/"%ch); [|done]. cbn [andb].
  destruct (Nat.ltb_spec 2 (S (length l))) as [H|H].
  - apply (two_dots_ok l rest); lia.
  - by destruct l as [|? [|? l]]; cbn in H; try lia.
Qed.

Lemma scan_path_ok l : forall q rest, bytes_ok l ->
  scan_path (l ++ rest) (length l) q =
    let p := (break_args l).1 in
    Ok (if has 0 p || after_slash (scanned l) then Unsafe else Path_end (q || has "%"%ch p) (length l - length p)).
Proof.
  induction l as [|c l IH]; intros q rest Hb; [cbn; rewrite !has_nil; by destruct q|]. apply Forall_cons in Hb as [Hc Hb].
  rewrite scanned_cons. cbn [app length scan_path break_args].
  destruct (Z.eqb_spec c "?"%ch) as [->|Hq].
  { change ("?"%ch =? "%"%ch) with false. change (usual_bit "?"%ch) with (Ok false). cbn [mbind outcome_bind fst].
    rewrite !has_nil; by destruct q. }
  destruct (break_args l) as [p a] eqn:E. cbn [fst] in IH |- *. rewrite !has_cons. cbn [after_slash length Nat.sub].
  rewrite dots_ahead_scanned.
  destruct (Z.eqb_spec c "%"%ch) as [->|Hp].
  { rewrite (IH true rest Hb). cbn. by rewrite orb_true_r. }
  rewrite usual_bit_special by done. cbn [mbind outcome_bind]. destruct (special c) eqn:Hs; cbn [negb].
  - destruct (Z.eqb_spec c 0) as [->|H0]; [done|].
    rewrite look_ahead_ok. cbn [mbind outcome_bind]. destruct ((c =? "/"%ch) && dots_ahead l); [by rewrite orb_true_r|].
    by rewrite (IH q rest Hb).
  - destruct (special_cases c Hs) as (H0 & _ & H2 & _). rewrite (IH q rest Hb).
    by rewrite (proj2 (Z.eqb_neq c 0) H0), (proj2 (Z.eqb_neq c "/"%ch) H2).
Qed.

Lemma scan_unescaped_ok l : forall rest, scan_unescaped (l ++ rest) (length l) = Ok (negb (has 0 l || after_slash l)).
Proof.
  induction l as [|c l IH]; intros rest; [done|]. cbn [app length scan_unescaped after_slash]. rewrite has_cons.
  destruct (Z.eqb_spec c 0) as [->|H0]; [done|]. rewrite look_ahead_ok. cbn [mbind outcome_bind orb].
  destruct ((c =? "/"%ch) && dots_ahead l); [by rewrite orb_true_r|]. by rewrite IH.
Qed.

Lemma break_args_app l : l = (break_args l).1 ++ match (break_args l).2 with Some a => "?"%ch :: a | None => [] end.
Proof.
  induction l as [|c l IH]; [done|]. cbn [break_args]. destruct (Z.eqb_spec c "?"%ch) as [->|]; [done|].
  destruct (break_args l) as [p a]. cbn in *. by rewrite <- IH.
Qed.

Lemma unescape_path_ok path dst :
  bytes_ok path -> length dst = length path ->
  exists k, ngx_unescape_uri (path ++ dst) (length path) 0 (length path) 0 =
    Ok (path ++ (unescape_ref 0 path).1 ++ drop (length (unescape_ref 0 path).1) dst, (length path + length (unescape_ref 0 path).1)%nat, k).
Proof.
  intros Hb Hl. assert (Ht : unescape_type 0) by by left.
  assert (Hs : src_at (path ++ dst) 0 path) by (intros i c Hi; by apply lookup_app_l_Some).
  assert (Hr : room (length path) 0 (length path) (length (path ++ dst))) by (unfold room; rewrite length_app; lia).
  pose proof (unescape_ref_bounds 0 path) as Hbd. pose proof (unescape_loop_correct 0 path Ht Hb _ _ _ 0 Hs Hr) as H.
  unfold unescaped in H. unfold ngx_unescape_uri. destruct (unescape_ref 0 path) as [out n]. cbn [fst snd] in *.
  exists (0 + n)%nat. rewrite H. do 3 f_equal. rewrite <- (Nat.add_0_r (length path)), list_inserts_app_r.
  rewrite <- (take_drop (length out) dst) at 1. by rewrite list_inserts_0_r by (rewrite length_take; lia).
Qed.

Definition is_some {A} (o : option A) : bool := match o with Some _ => true | None => false end.

Definition unsafe_spec (l : list Z) (alloc : bool) : option (list Z * option (list Z)) :=
  let '(path, args) := break_args l in
  match safe_path path (is_some args) with
  | None => None
  | Some u => if has "%"%ch path && negb alloc then None else Some (u, args)
  end.

Lemma scanned_eq l : scanned l = (break_args l).1 ++ if is_some (break_args l).2 then ["?"%ch] else [].
Proof. unfold scanned. destruct (break_args l) as [p a]. by destruct a. Qed.

(** The path without escapes is safe when neither of the two tests fires. *)
Lemma climbs_path p : dots_ahead p = false -> climbs p = after_slash p.
Proof. intros H. by rewrite climbs_eq, H. Qed.

(** C11. ngx_http_parse_unsafe_uri accepts exactly the URIs whose path is not empty,
    has no NUL and no segment of two dots, before unescaping and after it, and gives the
    unescaped path and the arguments; the last segment before a question mark is the
    exception, which the tests do not see. *)
Theorem unsafe_uri_exact l rest alloc :
  bytes_ok l -> (forall dst, alloc = Some dst -> length dst = length (break_args l).1) ->
  ngx_http_parse_unsafe_uri (l ++ rest) (length l) alloc = Ok (unsafe_spec l (is_some alloc)).
Proof.
  intros Hb Ha. unfold ngx_http_parse_unsafe_uri, unsafe_spec, safe_path. pose proof (break_args_app l) as Hl.
  pose proof (scanned_eq l) as Hsc. destruct l as [|c l0]; [done|].
  change (length (c :: l0) =? 0)%nat with false. cbn [app]. unfold deref at 1. cbn [lookup list_lookup mbind outcome_bind].
  destruct (Z.eqb_spec c "?"%ch) as [->|Hc]; [done|].
  rewrite app_comm_cons, dots_at_start_ok by done. cbn [mbind outcome_bind].
  rewrite <- dots_ahead_scanned. rewrite scan_path_ok by done. cbn zeta.
  remember (c :: l0) as l eqn:El. destruct (break_args l) as [path args] eqn:E. cbn [fst snd] in *. rewrite <- Hsc.
  assert (Hne : path <> []).
  { intros ->. subst l. cbn [break_args] in E. rewrite (proj2 (Z.eqb_neq _ _) Hc) in E. by destruct (break_args l0). }
  rewrite bool_decide_false by done. cbn [orb]. rewrite climbs_eq.
  destruct (dots_ahead (scanned l)); [by rewrite orb_true_r|]. cbn [mbind outcome_bind orb].
  destruct (has 0 path || after_slash (scanned l)); [done|].
  assert (Hpath : take (length path) (l ++ rest) = path) by (rewrite Hl, <- app_assoc; apply take_app_length).
  assert (Hplen : (length path <= length l)%nat) by (rewrite Hl, length_app; lia).
  assert (Hargs : match (length l - length path)%nat with O => None | S n => Some (slice (l ++ rest) (length l - n) (length l)) end = args).
  { rewrite Hl, length_app. destruct args as [a|].
    - cbn [length]. replace (length path + S (length a) - length path)%nat with (S (length a)) by lia. cbn iota. f_equal.
      rewrite slice_app_l by (rewrite length_app; cbn; lia).
      replace (length path + S (length a) - length a)%nat with (length (path ++ ["?"%ch])) by (rewrite length_app; cbn; lia).
      rewrite cons_middle, app_assoc. unfold slice. rewrite drop_app_length, take_ge; [done|]. rewrite length_app. cbn. lia.
    - cbn [length]. by replace (length path + 0 - length path)%nat with O by lia. }
  rewrite Hargs. replace (length l - (length l - length path))%nat with (length path) by lia. rewrite Hpath.
  destruct (has "%"%ch path); cbn [negb andb]; [|done]. destruct alloc as [dst|]; cbn [is_some negb].
  2: { by destruct (_ || _). }
  assert (Hbp : bytes_ok path) by (rewrite Hl in Hb; by apply Forall_app in Hb as [Hb _]).
  destruct (unescape_path_ok path dst Hbp (Ha dst eq_refl)) as (k & ->). cbn [mbind outcome_bind].
  rewrite drop_app_length. set (out := (unescape_ref 0 path).1). replace (length path + length out - length path)%nat with (length out) by lia.
  rewrite dots_at_start_ok.
  2: { intros Hnil. apply app_eq_nil in Hnil as [Ho Hd]. rewrite Ho in Hd. cbn in Hd. rewrite drop_0 in Hd.
       specialize (Ha dst eq_refl). rewrite Hd in Ha. by destruct path. }
  cbn [mbind outcome_bind]. rewrite climbs_eq. destruct (dots_ahead out); [by rewrite orb_true_r|]. cbn [orb].
  rewrite scan_unescaped_ok. cbn [mbind outcome_bind]. rewrite negb_involutive. destruct (has 0 out || after_slash out); [done|].
  by rewrite take_app_length.
Qed.

(** The names of the two results of a path that is accepted. *)
Definition demo_path : list Z := bytes "/a%2e/b?/../".

Lemma unsafe_uri_exact_witness :
  ngx_http_parse_unsafe_uri (demo_path ++ bytes " x") 12 (Some (replicate 7 0)) = Ok (Some (bytes "/a./b", Some (bytes "/../"))).
Proof.
  refine (eq_trans (unsafe_uri_exact demo_path (bytes " x") (Some (replicate 7 0)) _ _) _).
  - apply bytes_okb_true. reflexivity.
  - intros dst [= <-]. reflexivity.
  - vm_compute. reflexivity.
Defined.

(** * Arguments *)

Lemma strlchr_first c l : forall last, (last <= length l)%nat ->
  exists r, ngx_strlchr l last c = Ok r /\
    match r with
    | Some k => (k < last)%nat /\ l !! k = Some c /\ forall i, (i < k)%nat -> l !! i <> Some c
    | None => forall i, (i < last)%nat -> l !! i <> Some c
    end.
Proof.
  induction l as [|x l IH]; intros [|last] Hl; cbn [ngx_strlchr]; try (cbn in Hl; lia).
  1-2: exists None; split; [done|lia].
  cbn [length] in Hl. destruct (Z.eqb_spec x c) as [->|Hx]; [exists (Some O); split; [done|]; split; [lia|split; [done|lia]]|].
  destruct (IH last) as (r & -> & Hr); [lia|]. exists (option_map S r). split; [done|].
  destruct r as [k|]; cbn.
  - destruct Hr as (H1 & H2 & H3). split; [lia|]. split; [done|]. intros [|i] Hi; cbn; [congruence|apply H3; lia].
  - intros [|i] Hi; cbn; [congruence|apply Hr; lia].
Qed.

Section Arg.
Context (args name : list Z) (last : nat).
Hypothesis (Ba : bytes_ok args) (Bn : bytes_ok name) (Nn : no_nul name) (Hne : name <> []) (Hamp : "&"%ch ∉ name).
Hypothesis (Hlast : (last <= length args)%nat).

(** The argument [name] starts at [j]: at the beginning or after an ampersand,
    letter case ignored, with the equals sign after it. *)
Definition arg_at (j : nat) : Prop :=
  (j = O \/ args !! (j - 1)%nat = Some "&"%ch) /\ occurs_nocase args name j /\ args !! (j + length name)%nat = Some "="%ch /\
  (j + length name < last)%nat.

Definition arg_found (r : option (nat * Z)) : Prop :=
  match r with
  | Some (d, n) => exists j e, arg_at j /\ (forall i, (i < j)%nat -> ~ arg_at i) /\ d = (j + length name + 1)%nat /\
      (d <= e <= last)%nat /\ n = Z.of_nat (e - d) /\ ("&"%ch ∉ slice args d e) /\ (e = last \/ args !! e = Some "&"%ch)
  | None => forall j, ~ arg_at j
  end.

Lemma occurs_drop p k : occurs_nocase (drop p args) name k <-> occurs_nocase args name (p + k).
Proof. unfold occurs_nocase. by rewrite drop_drop. Qed.

Lemma no_ampersand j i : occurs_nocase args name j -> (i < length name)%nat -> args !! (j + i)%nat <> Some "&"%ch.
Proof using Hamp Hlast.
  intros H Hi Hx. unfold occurs_nocase in H. apply (f_equal (fun l => l !! i)) in H. rewrite !list_lookup_fmap in H.
  rewrite lookup_take_lt, lookup_drop, Hx in H by done. destruct (name !! i) as [c|] eqn:Hc; [|by apply lookup_ge_None in Hc; lia].
  cbn in H. injection H as H. apply Hamp. apply list_elem_of_lookup. exists i. rewrite Hc. f_equal.
  unfold fold_case in H. destruct (("A"%ch <=? c) && (c <=? "Z"%ch)) eqn:E; [|done].
  apply andb_prop in E as [E1%Z.leb_le E2%Z.leb_le]. rewrite (lor_0x20_upper c) in H by lia. change (38 = c + 32) in H. lia.
Qed.

Lemma arg_value p :
  arg_at p -> (forall i, (i < p)%nat -> ~ arg_at i) ->
  exists r, ngx_strlchr (drop p args) (last - p) "&"%ch = Ok r /\
    let data := (p + length name + 1)%nat in
    let e := match r with None => last | Some k => (p + k)%nat end in
    arg_found (Some (data, to_u64 (Z.of_nat e - Z.of_nat data))) \/ Z.of_nat (length args) >= 2 ^ 64.
Proof using All.
  intros Hp Hmin. destruct (strlchr_first "&"%ch (drop p args) (last - p)) as (r & -> & Hr); [rewrite length_drop; lia|].
  exists r. split; [done|]. cbn zeta. set (data := (p + length name + 1)%nat).
  set (e := match r with None => last | Some k => (p + k)%nat end).
  pose proof Hp as (_ & Ho & Heq & Hlt).
  assert (He : (data <= e <= last)%nat /\ (forall i, (data <= i < e)%nat -> args !! i <> Some "&"%ch) /\
    (e = last \/ args !! e = Some "&"%ch)).
  { subst e. destruct r as [k|].
    - destruct Hr as (H1 & H2 & H3). rewrite lookup_drop in H2. split; [|split; [|by right]].
      + split; [|lia]. destruct (decide (k < length name)%nat); [by destruct (no_ampersand p k Ho)|].
        destruct (decide (k = length name)) as [->|]; [congruence|]. unfold data. lia.
      + intros i Hi. specialize (H3 (i - p)%nat ltac:(lia)). rewrite lookup_drop in H3. by replace (p + (i - p))%nat with i in H3 by lia.
    - split; [unfold data; lia|]. split; [|by left]. intros i Hi. specialize (Hr (i - p)%nat ltac:(lia)).
      rewrite lookup_drop in Hr. by replace (p + (i - p))%nat with i in Hr by lia. }
  destruct He as (He & Hno & Hend). destruct (Z.le_gt_cases (2 ^ 64) (Z.of_nat (length args))) as [|Hsmall]; [right; lia|left].
  exists p, e. split; [done|]. split; [done|]. split; [done|]. split; [done|]. split; [casts|]. split; [|done].
  intros Hin. apply list_elem_of_lookup in Hin as [i Hi]. unfold slice in Hi. apply lookup_take_Some in Hi as [Hi Hie].
  rewrite lookup_drop in Hi. apply (Hno (data + i)%nat); [lia|done].
Qed.
Lemma http_arg_loop_ok fuel : forall p,
  Z.of_nat (length args) < 2 ^ 64 -> (last <= p + fuel)%nat -> (forall j, (j < p)%nat -> ~ arg_at j) ->
  exists r, http_arg_loop args name last (length name) fuel p = Ok r /\ arg_found r.
Proof using All.
  induction fuel as [|fuel IH]; intros p Hsz Hf Hmin; cbn [http_arg_loop].
  { destruct (Nat.ltb_spec p last); [lia|]. exists None. split; [done|]. intros j Hj. pose proof Hj as (_ & _ & _ & H4).
    apply (Hmin j); [lia|done]. }
  destruct (Nat.ltb_spec p last) as [Hp|Hp]; cbn [negb].
  2: { exists None. split; [done|]. intros j Hj. apply (Hmin j); [|done]. destruct Hj as (_ & _ & _ & H). lia. }
  assert (Hlen : exists n, length name = S n) by (destruct name as [|? w]; [done|by eexists]). destruct Hlen as [n Hlen].
  rewrite Hlen. cbn [mbind outcome_bind]. rewrite <- Hlen.
  destruct (ngx_strlcasestrn_first (drop p args) (last - 1 - p) name) as (r & Er & Hr); try done;
    [by apply Forall_drop|rewrite length_drop; lia|].
  replace (length name - 1)%nat with n in * by lia. rewrite Er. cbn [mbind outcome_bind].
  destruct r as [k|]; cbn [is_first] in Hr.
  2: { exists None. split; [done|]. intros j Hj. destruct (decide (j < p)%nat) as [|Hjp]; [by apply (Hmin j)|].
       destruct Hj as (_ & Ho & _ & Hl). apply (Hr (j - p)%nat); [lia|]. apply occurs_drop. by replace (p + (j - p))%nat with j by lia. }
  destruct Hr as (H1 & H2 & H3). apply occurs_drop in H2.
  assert (Hmin' : forall j, (j < p + k)%nat -> ~ arg_at j).
  { intros j Hj Hat. destruct (decide (j < p)%nat) as [|Hjp]; [by apply (Hmin j)|]. destruct Hat as (_ & Ho & _).
    apply (H3 (j - p)%nat); [lia|]. apply occurs_drop. by replace (p + (j - p))%nat with j by lia. }
  assert (Hnext : ~ arg_at (p + k) -> exists r, http_arg_loop args name last (length name) fuel (S (p + k)) = Ok r /\ arg_found r).
  { intros Hno. apply IH; [done|lia|]. intros j Hj. destruct (decide (j = (p + k)%nat)) as [->|]; [done|]. apply Hmin'. lia. }
  assert (Hst : exists b : bool, (if (p + k =? 0)%nat then Ok true else c ← deref args (p + k - 1); Ok (c =? "&"%ch)) = Ok b /\
    (b = true <-> (p + k)%nat = O \/ args !! (p + k - 1)%nat = Some "&"%ch)).
  { destruct (Nat.eqb_spec (p + k) 0) as [E|E]; [exists true; split; [done|]; split; auto|].
    destruct (lookup_lt_is_Some_2 args (p + k - 1)) as [c Hc]; [lia|]. exists (c =? "&"%ch).
    rewrite (deref_lookup _ _ _ Hc). split; [done|]. rewrite Z.eqb_eq, Hc. split; [intros ->; by right|intros [?|[= ->]]; [lia|done]]. }
  destruct Hst as (b & -> & Hb). cbn [mbind outcome_bind].
  destruct b; cbn [mbind outcome_bind]; [|apply Hnext; intros (Hat & _); apply Hb in Hat; done].
  destruct (lookup_lt_is_Some_2 args (p + k + length name)) as [c Hc]; [lia|]. rewrite (deref_lookup _ _ _ Hc).
  cbn [mbind outcome_bind]. destruct (Z.eqb_spec c "="%ch) as [->|Hneq].
  - assert (Hat : arg_at (p + k)) by (split; [by apply Hb|split; [done|split; [done|lia]]]).
    destruct (arg_value (p + k) Hat Hmin') as (r & -> & [Hv|Hv]); [|lia]. cbn [mbind outcome_bind]. by eexists.
  - apply Hnext. intros (_ & _ & Heq & _). congruence.
Qed.
End Arg.

Theorem ngx_http_arg_correct args name last :
  bytes_ok args -> bytes_ok name -> no_nul name -> name <> [] -> "&"%ch ∉ name -> (last <= length args)%nat ->
  Z.of_nat (length args) < 2 ^ 64 ->
  exists r, ngx_http_arg args last name (length name) = Ok r /\ arg_found args name last r.
Proof.
  intros Ba Bn Nn Hne Hamp Hl Hsz. unfold ngx_http_arg. destruct (Nat.eqb_spec last 0) as [->|H0].
  - exists None. split; [done|]. intros j (_ & _ & _ & H). lia.
  - apply http_arg_loop_ok; try done. lia.
Qed.

Lemma ngx_http_arg_correct_witness :
  exists r, ngx_http_arg (bytes "xid=1&ID=a=b&id=3") 17 (bytes "id") 2 = Ok r /\ arg_found (bytes "xid=1&ID=a=b&id=3") (bytes "id") 17 r.
Proof.
  apply ngx_http_arg_correct; [apply bytes_okb_true; reflexivity|apply bytes_okb_true; reflexivity|repeat constructor; done|done| |vm_compute; lia|vm_compute; reflexivity].
  by apply (bool_decide_unpack _).
Defined.

(** * Cookies *)

Definition cookie : Type := list Z * list Z.

(** The characters a name cannot have, and a value cannot have. *)
Definition name_char (c : Z) : Prop := c <> 0 /\ c <> ";"%ch /\ c <> ","%ch /\ c <> "="%ch /\ c <> " "%ch.
Definition cookie_char (c : Z) : Prop := c <> 0 /\ c <> ";"%ch /\ c <> ","%ch.

Definition cookie_ok (c : cookie) : Prop :=
  bytes_ok c.1 /\ bytes_ok c.2 /\ Forall name_char c.1 /\ c.1 <> [] /\ Forall cookie_char c.2 /\ head c.2 <> Some " "%ch.

Definition cookie_bytes (c : cookie) : list Z := c.1 ++ "="%ch :: c.2.

Fixpoint cookies_bytes (cs : list cookie) : list Z :=
  match cs with
  | [] => []
  | [c] => cookie_bytes c
  | c :: cs' => cookie_bytes c ++ ";"%ch :: " "%ch :: cookies_bytes cs'
  end.

(** The value of a header is followed by a NUL, as ngx_http_process_request_headers
    leaves it. *)
Definition cookie_header (cs : list cookie) (rest : list Z) : str :=
  mk_str (cookies_bytes cs ++ 0 :: rest) (length (cookies_bytes cs)).

Definition same_name (name : list Z) (c : cookie) : Prop := fold_case <$> c.1 = fold_case <$> name.

(** ** Walking *)

Lemma skip_spaces_stop d n start : (n = O \/ exists c, d !! start = Some c /\ c <> " "%ch) -> skip_spaces d n start = Ok start.
Proof.
  intros [->|(c & Hc & Hne)]; [done|]. destruct n as [|n]; [done|]. cbn [skip_spaces]. rewrite (deref_lookup _ _ _ Hc).
  cbn [mbind outcome_bind]. by rewrite (proj2 (Z.eqb_neq _ _) Hne).
Qed.

Lemma skip_item_ok d l : forall n start,
  holds d start l -> Forall cookie_char l -> (length l <= n)%nat -> skip_item d n start = skip_item d (n - length l) (start + length l).
Proof.
  induction l as [|c l IH]; intros n start H Hl Hn; [by rewrite Nat.sub_0_r, Nat.add_0_r|]. cbn [length] in Hn.
  apply holds_cons in H as [Hc H]. apply Forall_cons in Hl as [(_ & H1 & H2) Hl]. destruct n as [|n]; [lia|].
  cbn [skip_item length]. rewrite (deref_lookup _ _ _ Hc). cbn [mbind outcome_bind].
  rewrite (proj2 (Z.eqb_neq _ _) H1), (proj2 (Z.eqb_neq _ _) H2). cbn [orb]. rewrite (IH n (S start)) by (done || lia).
  by rewrite Nat.add_succ_comm.
Qed.

Lemma find_semicolon_ok d l : forall n start,
  holds d start l -> Forall cookie_char l -> (length l = n \/ (length l < n)%nat /\ d !! (start + length l)%nat = Some ";"%ch) ->
  find_semicolon d n start = Ok (start + length l)%nat.
Proof.
  induction l as [|c l IH]; intros n start H Hl Hn; cbn [length] in *; rewrite ?Nat.add_0_r in *.
  - destruct Hn as [<-|[Hn Hc]]; [done|]. destruct n as [|n]; [lia|]. cbn [find_semicolon]. by rewrite (deref_lookup _ _ _ Hc).
  - apply holds_cons in H as [Hc H]. apply Forall_cons in Hl as [(_ & H1 & _) Hl]. destruct n as [|n]; [lia|].
    cbn [find_semicolon]. rewrite (deref_lookup _ _ _ Hc). cbn [mbind outcome_bind]. rewrite (proj2 (Z.eqb_neq _ _) H1).
    rewrite <- Nat.add_succ_comm in *. apply IH; [done|done|]. destruct Hn as [Hn|[Hn Hc']]; [left; lia|right; split; [lia|done]].
Qed.

(** The comparison of a name with the rest of a header. *)
Lemma cpre_text r t : forall n, no_nul t -> cpre n (t ++ 0 :: r) = take n t.
Proof.
  induction t as [|c t IH]; intros [|n] Ht; try done. apply no_nul_cons in Ht as [Hc Ht]. cbn [app cpre take].
  by rewrite (proj2 (Z.eqb_neq _ _) Hc), IH.
Qed.

Lemma compare_text t r name :
  bytes_ok (t ++ 0 :: r) -> bytes_ok name -> no_nul t -> no_nul name ->
  exists k, ngx_strncasecmp (t ++ 0 :: r) name (length name) = Ok k /\
    (k = 0 <-> fold_case <$> take (length name) t = fold_case <$> name).
Proof.
  intros Bt Bn Nt Nn. eexists. split; [apply strncasecmp_lexdiff; [done|done|apply readable_cstring|by apply readable_length]|].
  rewrite lexdiff_zero_iff by by apply fold_cpre_pos. rewrite (cpre_no_nul _ name), (take_ge name) by done.
  by rewrite cpre_text.
Qed.

Lemma fold_case_equals c : fold_case c = "="%ch -> c = "="%ch.
Proof.
  unfold fold_case. destruct (("A"%ch <=? c) && (c <=? "Z"%ch)) eqn:E; [|done].
  apply andb_prop in E as [E1%Z.leb_le E2%Z.leb_le]. rewrite lor_0x20_upper by done. lia.
Qed.

Lemma take_fold_eq n (a b : list Z) : fold_case <$> a = fold_case <$> b -> fold_case <$> take n a = fold_case <$> take n b.
Proof. intros H. by rewrite !fmap_take, H. Qed.

(** A name that agrees with the start of a cookie lies inside its name. *)
Lemma name_inside name (w v : list Z) :
  Forall name_char name -> Forall name_char w ->
  fold_case <$> take (length name) (w ++ "="%ch :: v) = fold_case <$> name ->
  (length name <= length w)%nat /\ fold_case <$> take (length name) w = fold_case <$> name.
Proof.
  intros Hn Hw H. assert (Hlen : (length name <= length w)%nat).
  { destruct (decide (length name <= length w)%nat) as [|Hgt]; [done|]. exfalso.
    apply (f_equal (fun l => l !! length w)) in H. rewrite !list_lookup_fmap, lookup_take_lt in H by lia.
    rewrite list_lookup_middle in H by done. destruct (name !! length w) as [c|] eqn:Hc; [|by apply lookup_ge_None in Hc; lia].
    cbn in H. injection H as H. symmetry in H. apply fold_case_equals in H as ->.
    apply (Forall_lookup_1 _ _ _ _ Hn) in Hc as (_ & _ & _ & Hc & _). done. }
  split; [done|]. by rewrite take_app_le in H by done.
Qed.

Section Cookie.
Context (name : list Z) (d : list Z) (e start : nat) (c : cookie) (tail rest : list Z).
Hypothesis (Hname : Forall name_char name) (Hne : name <> []) (Bn : bytes_ok name) (Hc : cookie_ok c).
Hypothesis (Hd : drop start d = (cookie_bytes c ++ tail) ++ 0 :: rest) (Bd : bytes_ok d) (Htail : no_nul tail).
Hypothesis (Hend : e = (start + length (cookie_bytes c ++ tail))%nat) (Hsep : tail = [] \/ head tail = Some ";"%ch).

Lemma item_lookup i x : (cookie_bytes c ++ tail) !! i = Some x -> d !! (start + i)%nat = Some x.
Proof using Hd.
  intros H. rewrite <- lookup_drop, Hd. by apply lookup_app_l_Some.
Qed.

Lemma cookie_no_nul : no_nul (cookie_bytes c ++ tail).
Proof using Hc Htail.
  destruct Hc as (_ & _ & H1 & _ & H2 & _). apply Forall_app. split; [|exact Htail]. apply Forall_app. split.
  - eapply Forall_impl; [exact H1|]. by intros x (? & _).
  - constructor; [done|]. eapply Forall_impl; [exact H2|]. by intros x (? & _).
Qed.

Lemma item_found : same_name name c ->
  item_at name true d e start = Ok (Value (start + length c.1 + 1) (length c.2)).
Proof using All.
  intros Hs. pose proof Hc as (B1 & B2 & H1 & H2 & H3 & H4).
  assert (Hlen : length name = length c.1) by (apply (f_equal length) in Hs; cbn in Hs; rewrite !length_fmap in Hs; done).
  unfold item_at. rewrite Hd.
  destruct (compare_text (cookie_bytes c ++ tail) rest name) as (k & -> & Hk);
    [rewrite <- Hd; by apply Forall_drop|done|apply cookie_no_nul|eapply Forall_impl; [exact Hname|by intros x (? & _)]|].
  cbn [mbind outcome_bind]. rewrite (proj2 Hk).
  2: { rewrite Hlen. unfold cookie_bytes. rewrite <- app_assoc, take_app_length. exact Hs. }
  change (negb (0 =? 0)) with false. cbn iota. rewrite Hlen.
  assert (Heq : d !! (start + length c.1)%nat = Some "="%ch).
  { apply item_lookup. unfold cookie_bytes. rewrite <- app_assoc. cbn [app]. by rewrite list_lookup_middle. }
  assert (Hlt : (start + length c.1 < e)%nat) by (rewrite Hend; unfold cookie_bytes; rewrite !length_app; cbn [length]; lia).
  rewrite skip_spaces_stop by (right; exists "="%ch; done). cbn [mbind outcome_bind negb].
  rewrite (proj2 (Nat.eqb_neq _ _)) by lia. rewrite (deref_lookup _ _ _ Heq). cbn [mbind outcome_bind].
  change (negb ("="%ch =? "="%ch)) with false. cbn iota.
  assert (Hv : holds d (S (start + length c.1)) c.2).
  { intros i x Hi. replace (S (start + length c.1) + i)%nat with (start + (length c.1 + S i))%nat by lia. apply item_lookup.
    unfold cookie_bytes. rewrite <- app_assoc, lookup_app_r by lia.
    replace (length c.1 + S i - length c.1)%nat with (S i) by lia. cbn [app lookup list_lookup]. by apply lookup_app_l_Some. }
  assert (Hafter : tail <> [] -> d !! (S (start + length c.1) + length c.2)%nat = Some ";"%ch).
  { intros Ht. destruct Hsep as [|Hs2]; [done|]. replace (S (start + length c.1) + length c.2)%nat with (start + length (cookie_bytes c))%nat
      by (unfold cookie_bytes; rewrite length_app; cbn [length]; lia).
    apply item_lookup. rewrite lookup_app_r by lia. rewrite Nat.sub_diag. by destruct tail; [done|]. }
  assert (He : e = (S (start + length c.1) + length c.2 + length tail)%nat)
    by (rewrite Hend; unfold cookie_bytes; rewrite !length_app; cbn [length]; lia).
  rewrite skip_spaces_stop.
  2: { destruct c.2 as [|x v].
       - destruct tail as [|y t]; [left; cbn [length] in He; lia|]. right. exists ";"%ch. cbn [length] in Hafter. rewrite Nat.add_0_r in Hafter.
         split; [by apply Hafter|done].
       - right. exists x. split; [|by intros ->]. specialize (Hv 0%nat x eq_refl). by rewrite Nat.add_0_r in Hv. }
  cbn [mbind outcome_bind]. rewrite (find_semicolon_ok d c.2).
  - cbn [mbind outcome_bind]. do 2 f_equal; lia.
  - done.
  - done.
  - destruct tail as [|y t]; [left; cbn [length] in He; lia|right]. cbn [length] in He. split; [lia|by apply Hafter].
Qed.

Lemma item_skipped : ~ same_name name c ->
  exists k, item_at name true d e start = Ok (Skip (start + k)) /\ (k <= length (cookie_bytes c))%nat.
Proof using All.
  intros Hs. pose proof Hc as (B1 & B2 & H1 & H2 & H3 & H4). unfold item_at. rewrite Hd.
  destruct (compare_text (cookie_bytes c ++ tail) rest name) as (k & -> & Hk);
    [rewrite <- Hd; by apply Forall_drop|done|apply cookie_no_nul|eapply Forall_impl; [exact Hname|by intros x (? & _)]|].
  cbn [mbind outcome_bind]. destruct (Z.eqb_spec k 0) as [->|Hk0]; cbn [negb].
  2: { exists O. split; [by rewrite Nat.add_0_r|lia]. }
  pose proof (proj1 Hk eq_refl) as Hm. unfold cookie_bytes in Hm. rewrite <- app_assoc in Hm. cbn [app] in Hm.
  destruct (name_inside _ _ _ Hname H1 Hm) as [Hlen Hpre].
  destruct (decide (length name = length c.1)) as [El|Nl]; [exfalso; apply Hs; unfold same_name; by rewrite <- Hpre, El, take_ge|].
  destruct (lookup_lt_is_Some_2 c.1 (length name)) as [x Hx]; [lia|].
  pose proof (Forall_lookup_1 _ _ _ _ H1 Hx) as (_ & _ & _ & Hx4 & Hx5).
  assert (Hdx : d !! (start + length name)%nat = Some x).
  { apply item_lookup. unfold cookie_bytes. rewrite <- app_assoc. by apply lookup_app_l_Some. }
  rewrite skip_spaces_stop by (right; by exists x). cbn [mbind outcome_bind negb].
  assert (Hlt : (start + length name < e)%nat) by (rewrite Hend; unfold cookie_bytes; rewrite !length_app; cbn [length]; lia).
  rewrite (proj2 (Nat.eqb_neq _ _)) by lia. rewrite (deref_lookup _ _ _ Hdx). cbn [mbind outcome_bind].
  rewrite (proj2 (Z.eqb_neq _ _) Hx4). cbn [negb]. exists (S (length name)). split; [do 2 f_equal; lia|].
  unfold cookie_bytes. rewrite length_app. lia.
Qed.
End Cookie.

(** ** The items of a header *)

Definition value_at (name : list Z) (cs : list cookie) (d : list Z) (i : item) : Prop :=
  match i with
  | Value s n => exists c1 c c2, cs = c1 ++ c :: c2 /\ Forall (fun c => ~ same_name name c) c1 /\ same_name name c /\
      slice d s (s + n) = c.2
  | _ => False
  end.

Lemma cookie_bytes_chars c : cookie_ok c -> Forall cookie_char (cookie_bytes c).
Proof.
  intros (_ & _ & H1 & _ & H2 & _). apply Forall_app. split; [|by constructor].
  eapply Forall_impl; [exact H1|]. by intros x (? & ? & ? & _).
Qed.

Lemma cookies_no_nul cs : Forall cookie_ok cs -> no_nul (cookies_bytes cs).
Proof.
  induction 1 as [|c cs Hc _ IH]; [constructor|].
  assert (H : no_nul (cookie_bytes c)) by (eapply Forall_impl; [by apply cookie_bytes_chars|]; by intros x (? & _)).
  destruct cs; [exact H|]. apply Forall_app. split; [exact H|]. by repeat constructor.
Qed.

Definition tail_of (cs : list cookie) : list Z := match cs with [] => [] | _ => ";"%ch :: " "%ch :: cookies_bytes cs end.

Lemma cookies_bytes_cons c cs : cookies_bytes (c :: cs) = cookie_bytes c ++ tail_of cs.
Proof. destruct cs; cbn; [by rewrite app_nil_r|done]. Qed.

Lemma cookies_first c cs : cookie_ok c -> exists x l, cookies_bytes (c :: cs) = x :: l /\ x <> " "%ch.
Proof.
  intros (_ & _ & H1 & H2 & _). rewrite cookies_bytes_cons. unfold cookie_bytes. destruct c.1 as [|x w]; [done|].
  apply Forall_cons in H1 as [(_ & _ & _ & _ & H1) _]. by eexists x, _.
Qed.

Lemma drop_holds d start l r : drop start d = l ++ r -> holds d start l.
Proof. intros H i x Hi. rewrite <- lookup_drop, H. by apply lookup_app_l_Some. Qed.

Section Items.
Context (name d rest : list Z) (e : nat).
Hypothesis (Hname : Forall name_char name) (Hne : name <> []) (Bn : bytes_ok name) (Bd : bytes_ok d).

(** From an item with another name to the next one. *)
Lemma next_item c cs start k :
  cookie_ok c -> Forall cookie_ok cs -> drop start d = cookies_bytes (c :: cs) ++ 0 :: rest ->
  e = (start + length (cookies_bytes (c :: cs)))%nat -> (k <= length (cookie_bytes c))%nat ->
  exists start1 start2, skip_item d (e - (start + k)) (start + k) = Ok start1 /\ skip_spaces d (e - start1) start1 = Ok start2 /\
    drop start2 d = cookies_bytes cs ++ 0 :: rest /\ e = (start2 + length (cookies_bytes cs))%nat /\ (start < start2)%nat.
Proof using All.
  intros Hc Hcs Hd He Hk. rewrite cookies_bytes_cons in Hd, He. rewrite <- app_assoc in Hd.
  assert (Hpos : (0 < length (cookie_bytes c))%nat) by (unfold cookie_bytes; rewrite length_app; cbn [length]; lia).
  rewrite (skip_item_ok d (drop k (cookie_bytes c))).
  2: { intros i x Hi. rewrite lookup_drop in Hi. rewrite <- Nat.add_assoc. by apply (drop_holds _ _ _ _ Hd). }
  2: { apply Forall_drop. by apply cookie_bytes_chars. }
  2: { rewrite length_drop. rewrite He, length_app. lia. }
  rewrite length_drop. set (p := (start + length (cookie_bytes c))%nat).
  replace (start + k + (length (cookie_bytes c) - k))%nat with p by (unfold p; lia).
  replace (e - (start + k) - (length (cookie_bytes c) - k))%nat with (length (tail_of cs)) by (rewrite He, length_app; lia).
  assert (Hp : drop p d = tail_of cs ++ 0 :: rest) by (unfold p; by rewrite <- drop_drop, Hd, drop_app_length).
  rewrite length_app in He. destruct cs as [|c' cs].
  - exists p, p. cbn [tail_of length skip_item app] in *. replace (e - p)%nat with O by (unfold p; lia).
    split; [done|]. split; [done|]. split; [done|]. cbn. unfold p. lia.
  - apply Forall_cons in Hcs as [Hc' _]. destruct (cookies_first c' cs Hc') as (x & l & El & Hx). cbn [tail_of] in Hp, He |- *.
    remember (cookies_bytes (c' :: cs)) as text eqn:Et. cbn [app length] in Hp, He |- *.
    pose proof (drop_holds d p [";"%ch; " "%ch; x] (l ++ 0 :: rest)) as Hh. rewrite Hp, El in Hh. specialize (Hh eq_refl).
    rewrite !holds_cons in Hh. destruct Hh as (P1 & P2 & P3 & _).
    exists (S p), (S (S p)). cbn [skip_item]. rewrite (deref_lookup _ _ _ P1). cbn [mbind outcome_bind]. split; [done|].
    replace (e - S p)%nat with (S (length text)) by (unfold p; lia). cbn [skip_spaces]. rewrite (deref_lookup _ _ _ P2).
    cbn [mbind outcome_bind]. change (" "%ch =? " "%ch) with true. cbn iota.
    split; [apply skip_spaces_stop; right; by exists x|]. split; [|unfold p; lia].
    replace (S (S p)) with (p + 2)%nat by lia. by rewrite <- drop_drop, Hp.
Qed.

Lemma items_loop_ok cs : forall fuel start,
  Forall cookie_ok cs -> drop start d = cookies_bytes cs ++ 0 :: rest -> e = (start + length (cookies_bytes cs))%nat ->
  (e - start <= fuel)%nat ->
  exists r, items_loop name true d e fuel start = Ok r /\
    match r with Some i => value_at name cs d i | None => Forall (fun c => ~ same_name name c) cs end.
Proof using All.
  induction cs as [|c cs IH]; intros fuel start Hok Hd He Hf.
  - cbn in He. exists None. split; [|constructor]. destruct fuel; cbn [items_loop]; by rewrite (proj2 (Nat.ltb_ge _ _)) by lia.
  - pose proof Hok as Hok'. apply Forall_cons in Hok as [Hc Hcs].
    assert (Hlt : (start < e)%nat) by (rewrite He, cookies_bytes_cons; unfold cookie_bytes; rewrite !length_app; cbn [length]; lia).
    destruct fuel as [|fuel]; [lia|]. cbn [items_loop]. rewrite (proj2 (Nat.ltb_lt _ _) Hlt). cbn [negb].
    pose proof Hd as Hd'. pose proof He as He'. rewrite cookies_bytes_cons in Hd', He'.
    assert (Htail : no_nul (tail_of cs)) by (destruct cs; [constructor|]; repeat constructor; try done; by apply cookies_no_nul).
    assert (Hsep : tail_of cs = [] \/ head (tail_of cs) = Some ";"%ch) by (destruct cs; [by left|by right]).
    destruct (decide (fold_case <$> c.1 = fold_case <$> name)) as [Hs|Hs].
    + rewrite (item_found name d e start c (tail_of cs) rest Hname Hne Bn Hc Hd' Bd Htail He' Hsep Hs). cbn [mbind outcome_bind].
      eexists. split; [reflexivity|]. exists [], c, cs. split; [done|]. split; [constructor|]. split; [done|].
      apply holds_slice. intros i x Hi. unfold cookie_bytes in Hd'. rewrite <- !app_assoc in Hd'. cbn [app] in Hd'.
      rewrite <- !Nat.add_assoc, <- lookup_drop, Hd'. rewrite lookup_app_r by lia.
      replace (length c.1 + (1 + i) - length c.1)%nat with (S i) by lia. cbn [lookup list_lookup]. by apply lookup_app_l_Some.
    + destruct (item_skipped name d e start c (tail_of cs) rest Hname Hne Bn Hc Hd' Bd Htail He' Hsep Hs) as (k & -> & Hk).
      cbn [mbind outcome_bind]. destruct (next_item c cs start k Hc Hcs Hd He Hk) as (s1 & s2 & -> & E2 & Hd2 & He2 & Hs2).
      cbn [mbind outcome_bind]. rewrite E2. cbn [mbind outcome_bind].
      destruct (IH fuel s2 Hcs Hd2 He2) as (r & -> & Hr); [lia|]. exists r. split; [done|]. destruct r as [[| |]|]; try done.
      * destruct Hr as (c1 & c' & c2 & -> & Hr1 & Hr2). exists (c :: c1), c', c2. split; [done|]. split; [by constructor|done].
      * by constructor.
Qed.
End Items.

(** The headers, and what is found in them. *)
Definition cookies_found (name : list Z) (headers : list (list cookie * list Z)) (r : option (nat * item)) : Prop :=
  match r with
  | Some (i, x) => exists cs rest, headers !! i = Some (cs, rest) /\ value_at name cs (cookies_bytes cs ++ 0 :: rest) x /\
      forall j cs' rest', (j < i)%nat -> headers !! j = Some (cs', rest') -> Forall (fun c => ~ same_name name c) cs'
  | None => Forall (fun h => Forall (fun c => ~ same_name name c) h.1) headers
  end.

Lemma short_header name cs : Forall cookie_ok cs -> (length (cookies_bytes cs) < length name)%nat -> Forall (fun c => ~ same_name name c) cs.
Proof.
  intros Hok Hl. apply Forall_forall. intros c Hc Hs. unfold same_name in Hs. apply (f_equal length) in Hs. rewrite !length_fmap in Hs.
  assert (length c.1 <= length (cookies_bytes cs))%nat; [|lia]. clear Hok Hl Hs. induction cs as [|c' cs IH]; [by apply elem_of_nil in Hc|].
  rewrite cookies_bytes_cons. unfold cookie_bytes. rewrite !length_app. apply elem_of_cons in Hc as [->|Hc]; [lia|].
  specialize (IH Hc). destruct cs; [by apply elem_of_nil in Hc|]. cbn [tail_of length]. lia.
Qed.

Lemma cookies_bytes_ok cs : Forall cookie_ok cs -> bytes_ok (cookies_bytes cs).
Proof.
  induction 1 as [|c cs (B1 & B2 & _) _ IH]; [by apply Forall_nil|]. rewrite cookies_bytes_cons. unfold cookie_bytes.
  apply Forall_app. split; [apply Forall_app; split; [done|by apply Forall_cons]|].
  destruct cs; [by apply Forall_nil|]. cbn [tail_of]. apply Forall_cons. split; [done|]. by apply Forall_cons.
Qed.

Theorem multi_header_lines_correct name headers :
  Forall name_char name -> name <> [] -> bytes_ok name ->
  Forall (fun h => Forall cookie_ok h.1 /\ bytes_ok h.2) headers ->
  exists r, ngx_http_parse_multi_header_lines ((fun h => cookie_header h.1 h.2) <$> headers) name true = Ok r /\
    cookies_found name headers r.
Proof.
  intros Hname Hne Bn Hh. unfold ngx_http_parse_multi_header_lines.
  cut (forall n, exists r, multi_lines name true ((fun h => cookie_header h.1 h.2) <$> headers) n =
    Ok (option_map (fun x => ((n + x.1)%nat, x.2)) r) /\ cookies_found name headers r).
  { intros H. destruct (H O) as (r & -> & Hr). exists r. split; [|done]. by destruct r as [[]|]. }
  induction Hh as [|[cs rest] headers [Hcs Br] _ IH]; intros n; [exists None; split; [done|constructor]|].
  change ((fun h => cookie_header h.1 h.2) <$> (cs, rest) :: headers)
    with (cookie_header cs rest :: ((fun h => cookie_header h.1 h.2) <$> headers)). cbn [multi_lines cookie_header s_len s_data].
  assert (Hskip : Forall (fun c => ~ same_name name c) cs ->
    exists r, multi_lines name true ((fun h => cookie_header h.1 h.2) <$> headers) (S n) =
      Ok (option_map (fun x => ((n + x.1)%nat, x.2)) r) /\ cookies_found name ((cs, rest) :: headers) r).
  { intros Hno. destruct (IH (S n)) as (r & -> & Hr). exists (option_map (fun x => (S x.1, x.2)) r).
    split; [destruct r as [[]|]; cbn; do 3 f_equal; lia|]. destruct r as [[i x]|]; cbn in *; [|by constructor].
    destruct Hr as (cs1 & rest1 & H1 & H2 & H3). exists cs1, rest1. split; [done|]. split; [done|].
    intros [|j] cs' rest' Hj Hl; [by injection Hl as <- <-|]. by apply (H3 j cs' rest'); [lia|]. }
  destruct (Nat.ltb_spec (length (cookies_bytes cs)) (length name)) as [Hl|Hl]; [apply Hskip; by apply short_header|].
  assert (Bd : bytes_ok (cookies_bytes cs ++ 0 :: rest)).
  { apply Forall_app. split; [by apply cookies_bytes_ok|]. by constructor. }
  destruct (items_loop_ok name (cookies_bytes cs ++ 0 :: rest) rest (length (cookies_bytes cs)) Hname Hne Bn Bd cs
    (length (cookies_bytes cs)) 0 Hcs) as (r & -> & Hr); [by rewrite drop_0|done|lia|].
  cbn [mbind outcome_bind]. destruct r as [x|]; [|by apply Hskip]. exists (Some (O, x)). split; [cbn; do 3 f_equal; lia|].
  exists cs, rest. split; [done|]. split; [done|]. intros j ? ? Hj. lia.
Qed.

Definition demo_cookies : list (list cookie * list Z) :=
  [([(bytes "a", bytes "1"); (bytes "xuid", bytes "")], []); ([(bytes "b", bytes "2"); (bytes "UID", bytes "3=4")], bytes "z")].

Lemma multi_header_lines_correct_witness :
  exists r, ngx_http_parse_multi_header_lines ((fun h => cookie_header h.1 h.2) <$> demo_cookies) (bytes "uid") true = Ok r /\
    cookies_found (bytes "uid") demo_cookies r.
Proof.
  apply multi_header_lines_correct; [repeat constructor; done|done|apply bytes_okb_true; reflexivity|].
  repeat constructor; cbn; done.
Defined.

(** The value is found where the second header says so. *)
Example demo_cookies_found :
  ngx_http_parse_multi_header_lines ((fun h => cookie_header h.1 h.2) <$> demo_cookies) (bytes "uid") true = Ok (Some (1%nat, Value 9 3)).
Proof. vm_compute. reflexivity. Qed.

(** ** Set-Cookie headers: a cookie, and attributes after a semicolon. *)

Record set_cookie : Type := mk_set_cookie { sc_cookie : cookie; sc_attributes : list Z; sc_rest : list Z }.

Record set_cookie_ok (h : set_cookie) : Prop := {
  sc_cookie_ok : cookie_ok (sc_cookie h);
  sc_attributes_ok : no_nul (sc_attributes h) /\ bytes_ok (sc_attributes h) /\
    (sc_attributes h = [] \/ head (sc_attributes h) = Some ";"%ch);
  sc_rest_ok : bytes_ok (sc_rest h)
}.

Definition set_cookie_bytes (h : set_cookie) : list Z := cookie_bytes (sc_cookie h) ++ sc_attributes h.

Definition set_cookie_header (h : set_cookie) : str :=
  mk_str (set_cookie_bytes h ++ 0 :: sc_rest h) (length (set_cookie_bytes h)).

Lemma set_cookie_bytes_ok h : set_cookie_ok h -> bytes_ok (set_cookie_bytes h ++ 0 :: sc_rest h).
Proof.
  intros [(B1 & B2 & _) (_ & B3 & _) B4]. apply Forall_app. split; [|by apply Forall_cons]. apply Forall_app. split; [|done].
  apply Forall_app. split; [done|by apply Forall_cons].
Qed.

(** The first header whose cookie has the name, and its value. *)
Theorem set_cookie_lines_correct name headers :
  Forall name_char name -> name <> [] -> bytes_ok name -> Forall set_cookie_ok headers ->
  exists r, ngx_http_parse_set_cookie_lines (set_cookie_header <$> headers) name = Ok r /\
    match r with
    | Some (i, x) => exists h s n, headers !! i = Some h /\ same_name name (sc_cookie h) /\ x = Value s n /\
        slice (set_cookie_bytes h) s (s + n) = (sc_cookie h).2 /\
        forall j h', (j < i)%nat -> headers !! j = Some h' -> ~ same_name name (sc_cookie h')
    | None => Forall (fun h => ~ same_name name (sc_cookie h)) headers
    end.
Proof.
  intros Hname Hne Bn Hh. unfold ngx_http_parse_set_cookie_lines.
  cut (forall k, exists r, set_cookie_lines name (set_cookie_header <$> headers) k = Ok (option_map (fun x => ((k + x.1)%nat, x.2)) r) /\
    match r with
    | Some (i, x) => exists h s n, headers !! i = Some h /\ same_name name (sc_cookie h) /\ x = Value s n /\
        slice (set_cookie_bytes h) s (s + n) = (sc_cookie h).2 /\
        forall j h', (j < i)%nat -> headers !! j = Some h' -> ~ same_name name (sc_cookie h')
    | None => Forall (fun h => ~ same_name name (sc_cookie h)) headers
    end).
  { intros H. destruct (H O) as (r & -> & Hr). exists r. split; [|done]. by destruct r as [[]|]. }
  induction Hh as [|h headers Hok _ IH]; intros k; [exists None; split; [done|by apply Forall_nil]|].
  change (set_cookie_header <$> h :: headers) with (set_cookie_header h :: (set_cookie_header <$> headers)).
  cbn [set_cookie_lines set_cookie_header s_len s_data].
  set (post := fun (hs : list set_cookie) r => match r with
    | Some (i, x) => exists h s n, hs !! i = Some h /\ same_name name (sc_cookie h) /\ x = Value s n /\
        slice (set_cookie_bytes h) s (s + n) = (sc_cookie h).2 /\
        forall j h', (j < i)%nat -> hs !! j = Some h' -> ~ same_name name (sc_cookie h')
    | None => Forall (fun h => ~ same_name name (sc_cookie h)) hs
    end).
  assert (Hskip : ~ same_name name (sc_cookie h) ->
    exists r, set_cookie_lines name (set_cookie_header <$> headers) (S k) = Ok (option_map (fun x => ((k + x.1)%nat, x.2)) r) /\
      post (h :: headers) r).
  { intros Hno. destruct (IH (S k)) as (r & -> & Hr). exists (option_map (fun x => (S x.1, x.2)) r).
    split; [destruct r as [[]|]; cbn; do 3 f_equal; lia|]. destruct r as [[i x]|]; cbn in *; [|by apply Forall_cons].
    destruct Hr as (h1 & s & n & H1 & H2 & H3 & H4 & H5). exists h1, s, n. do 4 (split; [done|]).
    intros [|j] h' Hj Hl; [by injection Hl as <-|]. by apply (H5 j h'); [lia|]. }
  pose proof Hok as [Hc (Hn & Ba & Hsep) Br].
  assert (Hlen : same_name name (sc_cookie h) -> (length name < length (set_cookie_bytes h))%nat).
  { intros Hs. apply (f_equal length) in Hs. rewrite !length_fmap in Hs. unfold set_cookie_bytes, cookie_bytes.
    rewrite !length_app. cbn [length]. lia. }
  destruct (Nat.leb_spec (length (set_cookie_bytes h)) (length name)) as [Hl|Hl]; [apply Hskip; intros Hs; apply Hlen in Hs; lia|].
  pose proof (set_cookie_bytes_ok h Hok) as Bd.
  assert (Hd : drop 0 (set_cookie_bytes h ++ 0 :: sc_rest h) = (cookie_bytes (sc_cookie h) ++ sc_attributes h) ++ 0 :: sc_rest h) by done.
  destruct (decide (fold_case <$> (sc_cookie h).1 = fold_case <$> name)) as [Hs|Hs].
  - rewrite (item_found name _ (length (set_cookie_bytes h)) 0 (sc_cookie h) (sc_attributes h) (sc_rest h) Hname Hne Bn Hc Hd Bd Hn eq_refl Hsep Hs).
    cbn [mbind outcome_bind]. eexists (Some (O, _)). split; [cbn; by rewrite Nat.add_0_r|].
    exists h, (0 + length (sc_cookie h).1 + 1)%nat, (length (sc_cookie h).2). split; [done|]. split; [done|]. split; [done|].
    split; [|intros; lia]. apply holds_slice. intros i x Hi. unfold set_cookie_bytes, cookie_bytes. rewrite <- app_assoc.
    rewrite lookup_app_r by lia. replace (0 + length (sc_cookie h).1 + 1 + i - length (sc_cookie h).1)%nat with (S i) by lia.
    cbn [lookup list_lookup app]. by apply lookup_app_l_Some.
  - destruct (item_skipped name _ (length (set_cookie_bytes h)) 0 (sc_cookie h) (sc_attributes h) (sc_rest h) Hname Hne Bn Hc Hd Bd Hn eq_refl Hsep Hs) as (n & -> & _).
    cbn [mbind outcome_bind]. by apply Hskip.
Qed.

(** * Splitting the arguments off *)

Lemma split_args_correct l rest :
  ngx_http_split_args (l ++ rest) (length l) =
    Ok match break_args l with
       | (p, Some a) => (length p, Some (S (length p), length a))
       | (p, None) => (length p, None)
       end.
Proof.
  unfold ngx_http_split_args. pose proof (break_args_app l) as Hl.
  assert (Hs : ngx_strlchr (l ++ rest) (length l) "?"%ch = Ok match (break_args l).2 with Some _ => Some (length (break_args l).1) | None => None end).
  { clear Hl. induction l as [|c l IH]; [done|]. cbn [app length ngx_strlchr break_args].
    destruct (Z.eqb_spec c "?"%ch) as [->|]; [done|]. rewrite IH. destruct (break_args l) as [p [a|]]; done. }
  rewrite Hs. destruct (break_args l) as [p [a|]]; cbn [fst snd] in *; cbn [mbind outcome_bind]; rewrite Hl, length_app; cbn [length];
    do 4 f_equal; lia.
Qed.
