(* ===== verification/HttpChunked.v ===== *)
(** Component "chunked bodies": ngx_http_parse_chunked of src/http/ngx_http_parse.c
    and its client ngx_http_request_body_chunked_filter of
    src/http/ngx_http_request_body.c.

    A buffer is the list of the bytes from [b->pos] to [b->last]; a position is
    an offset in it. *)

From stdpp Require Import base numbers list option strings.
From Stdlib Require Import ZArith Lia.
From S2P Require Import Prelude HttpRequest.
Local Open Scope Z_scope.

(** * Definitions *)

Definition TAB : Z := 9.

(** ** ngx_http_parse_chunked *)

Inductive chunk_state : Type :=
| sw_chunk_start
| sw_chunk_size
| sw_chunk_extension
| sw_chunk_extension_almost_done
| sw_chunk_data
| sw_after_data
| sw_after_data_almost_done
| sw_last_chunk_extension
| sw_last_chunk_extension_almost_done
| sw_trailer
| sw_trailer_almost_done
| sw_trailer_header
| sw_trailer_header_almost_done.

#[export] Instance chunk_state_dec : EqDecision chunk_state.
Proof. solve_decision. Defined.

(** ngx_http_chunked_t *)
Record chunked_t : Type := mk_chunked {
  ck_state : chunk_state;
  ck_size : Z;
  ck_length : Z
}.

(** What the body of the loop does with a byte. *)
Inductive chunk_step : Type :=
| Goon (state : chunk_state) (size : Z)
| Data
| Done
| Invalid.

(** A hexadecimal digit as the two states of the size test it. *)
Definition chunk_digit (ch : Z) : option Z :=
  if ("0"%ch <=? ch) && (ch <=? "9"%ch) then Some (ch - "0"%ch)
  else
    let c := to_u8 (Z.lor ch 0x20) in
    if ("a"%ch <=? c) && (c <=? "f"%ch) then Some (c - "a"%ch + 10) else None.

(** [case CR: state = cr; case LF: state = lf], any other byte going to [other]. *)
Definition line_end (cr lf other : chunk_step) (ch : Z) : chunk_step :=
  if ch =? CR then cr else if ch =? LF then lf else other.

Definition parse_chunked_step (state : chunk_state) (size : Z) (ch : Z) : outcome chunk_step :=
  match state with
  | sw_chunk_start =>
      match chunk_digit ch with
      | Some d => Ok (Goon sw_chunk_size d)
      | None => Ok Invalid
      end
  | sw_chunk_size =>
      if NGX_MAX_OFF_T_VALUE / 16 <? size then Ok Invalid
      else
        match chunk_digit ch with
        | Some d => m ← int64 (size * 16); size ← int64 (m + d); Ok (Goon sw_chunk_size size)
        | None =>
            let blank := (ch =? ";"%ch) || (ch =? " "%ch) || (ch =? TAB) in
            if size =? 0 then
              Ok (line_end (Goon sw_last_chunk_extension_almost_done size) (Goon sw_trailer size)
                    (if blank then Goon sw_last_chunk_extension size else Invalid) ch)
            else
              Ok (line_end (Goon sw_chunk_extension_almost_done size) (Goon sw_chunk_data size)
                    (if blank then Goon sw_chunk_extension size else Invalid) ch)
        end
  | sw_chunk_extension =>
      Ok (line_end (Goon sw_chunk_extension_almost_done size) (Goon sw_chunk_data size)
            (Goon sw_chunk_extension size) ch)
  | sw_chunk_extension_almost_done =>
      Ok (if ch =? LF then Goon sw_chunk_data size else Invalid)
  | sw_chunk_data => Ok Data
  | sw_after_data =>
      Ok (line_end (Goon sw_after_data_almost_done size) (Goon sw_chunk_start size)
            (Goon sw_after_data size) ch)
  | sw_after_data_almost_done =>
      Ok (if ch =? LF then Goon sw_chunk_start size else Invalid)
  | sw_last_chunk_extension =>
      Ok (line_end (Goon sw_last_chunk_extension_almost_done size) (Goon sw_trailer size)
            (Goon sw_last_chunk_extension size) ch)
  | sw_last_chunk_extension_almost_done =>
      Ok (if ch =? LF then Goon sw_trailer size else Invalid)
  | sw_trailer =>
      Ok (line_end (Goon sw_trailer_almost_done size) Done (Goon sw_trailer_header size) ch)
  | sw_trailer_almost_done => Ok (if ch =? LF then Done else Invalid)
  | sw_trailer_header =>
      Ok (line_end (Goon sw_trailer_header_almost_done size) (Goon sw_trailer size)
            (Goon sw_trailer_header size) ch)
  | sw_trailer_header_almost_done => Ok (if ch =? LF then Goon sw_trailer size else Invalid)
  end.

(** [ctx->length] after the label [data]. *)
Definition chunk_length (state : chunk_state) (size : Z) : Z :=
  match state with
  | sw_chunk_start => 3
  | sw_chunk_size => 1 + (if negb (size =? 0) then size + 4 else 1)
  | sw_chunk_extension | sw_chunk_extension_almost_done => 1 + size + 4
  | sw_chunk_data => size + 4
  | sw_after_data | sw_after_data_almost_done => 4
  | sw_last_chunk_extension | sw_last_chunk_extension_almost_done => 2
  | sw_trailer | sw_trailer_almost_done => 1
  | sw_trailer_header | sw_trailer_header_almost_done => 2
  end.

(** The code after the label [data]: the return code, the context and [b->pos]. *)
Definition parse_chunked_data (rc : Z) (state : chunk_state) (size length : Z) (pos : nat)
  : outcome (Z * chunked_t * nat) :=
  if NGX_MAX_OFF_T_VALUE - 5 <? size then Ok (NGX_ERROR, mk_chunked state size length, pos)
  else length ← int64 (chunk_length state size); Ok (rc, mk_chunked state size length, pos).

(** The loop; [ctx] keeps the old state for the exits that do not store it. *)
Fixpoint parse_chunked_loop (ctx : chunked_t) (b : list Z) (pos : nat) (state : chunk_state) (size : Z)
  : outcome (Z * chunked_t * nat) :=
  match b with
  | [] => parse_chunked_data NGX_AGAIN state size (ck_length ctx) pos
  | ch :: b' =>
      r ← parse_chunked_step state size ch;
      match r with
      | Goon state size => parse_chunked_loop ctx b' (S pos) state size
      | Data => parse_chunked_data NGX_OK state size (ck_length ctx) pos
      | Done => Ok (NGX_DONE, mk_chunked sw_chunk_start size (ck_length ctx), S pos)
      | Invalid => Ok (NGX_ERROR, mk_chunked (ck_state ctx) size (ck_length ctx), O)
      end
  end.

Definition ngx_http_parse_chunked (b : list Z) (ctx : chunked_t) : outcome (Z * chunked_t * nat) :=
  let state := if decide (ck_state ctx = sw_chunk_data) then
                 if ck_size ctx =? 0 then sw_after_data else sw_chunk_data
               else ck_state ctx in
  parse_chunked_loop ctx b 0 state (ck_size ctx).

(** ** ngx_http_request_body_chunked_filter *)


(** The fields of the request that the filter uses: [rb->rest], [rb->chunked]
    and [headers_in.content_length_n]. *)
Record body_t : Type := mk_body {
  rb_rest : Z;
  rb_chunked : chunked_t;
  rb_content_length_n : Z
}.

(** The buffers of the chain [out]: a part of an input buffer, or the buffer
    that marks the end of the body. *)
Inductive out_buf : Type :=
| Part (data : list Z)
| Last_buf.

(** A filter returns an HTTP status, or goes on with its output. *)
Inductive filter_result (A : Type) : Type :=
| Filtered (a : A)
| Status (rc : Z).
Arguments Filtered {A} a.
Arguments Status {A} rc.

Section Filter.
(** [alloc k] tells whether the [k]-th buffer can be had;
    [client_max_body_size] is the limit of the location, 0 for none. *)
Context (alloc : nat -> bool) (client_max_body_size : Z).

(** The inner loop on one buffer: what is left of the buffer, the request, and
    the output; [k] buffers have been allocated.  Every round but the last
    consumes a byte, so the length of the buffer plus one is fuel enough. *)
Fixpoint chunked_filter_buf (fuel : nat) (b : list Z) (rb : body_t) (k : nat)
  : outcome (filter_result (body_t * list Z * list out_buf * nat)) :=
  match fuel with
  | O => NoFuel
  | S fuel' =>
      '(rc, ck, pos) ← ngx_http_parse_chunked b (rb_chunked rb);
      let b := drop pos b in
      let n := rb_content_length_n rb in
      if rc =? NGX_OK then
        too_large ← (if negb (client_max_body_size =? 0)
                     then room ← int64 (client_max_body_size - n); Ok (room <? ck_size ck)
                     else Ok false);
        if (too_large : bool) then Ok (Status NGX_HTTP_REQUEST_ENTITY_TOO_LARGE)
        else if negb (alloc k) then Ok (Status NGX_HTTP_INTERNAL_SERVER_ERROR)
        else
          let size := Z.of_nat (length b) in
          let taken := if ck_size ck <? size then ck_size ck else size in
          left ← int64 (ck_size ck - taken);
          n ← int64 (n + taken);
          let rb := mk_body (rb_rest rb) (mk_chunked (ck_state ck) left (ck_length ck)) n in
          r ← chunked_filter_buf fuel' (drop (Z.to_nat taken) b) rb (S k);
          match r with
          | Filtered (rb, b', out, k) => Ok (Filtered (rb, b', Part (take (Z.to_nat taken) b) :: out, k))
          | Status rc => Ok (Status rc)
          end
      else if rc =? NGX_DONE then
        if negb (alloc k) then Ok (Status NGX_HTTP_INTERNAL_SERVER_ERROR)
        else Ok (Filtered (mk_body 0 ck n, b, [Last_buf], S k))
      else if rc =? NGX_AGAIN then Ok (Filtered (mk_body (ck_length ck) ck n, b, [], k))
      else Ok (Status NGX_HTTP_BAD_REQUEST)
  end.

(** The loop over the chain. *)
Fixpoint chunked_filter_chain (bufs : list (list Z)) (rb : body_t) (k : nat)
  : outcome (filter_result (body_t * list (list Z) * list out_buf)) :=
  match bufs with
  | [] => Ok (Filtered (rb, [], []))
  | b :: bufs' =>
      r ← chunked_filter_buf (S (length b)) b rb k;
      match r with
      | Status rc => Ok (Status rc)
      | Filtered (rb, b', out, k) =>
          r ← chunked_filter_chain bufs' rb k;
          match r with
          | Status rc => Ok (Status rc)
          | Filtered (rb, bufs'', out') => Ok (Filtered (rb, b' :: bufs'', out ++ out'))
          end
      end
  end.

(** [alloc_chunked] is the allocation of the parser's context, the first time. *)
Definition ngx_http_request_body_chunked_filter (alloc_chunked : bool) (bufs : list (list Z)) (rb : body_t)
  : outcome (filter_result (body_t * list (list Z) * list out_buf)) :=
  if rb_rest rb =? -1 then
    if negb alloc_chunked then Ok (Status NGX_HTTP_INTERNAL_SERVER_ERROR)
    else chunked_filter_chain bufs (mk_body 3 (mk_chunked sw_chunk_start 0 0) 0) 0
  else chunked_filter_chain bufs rb 0.

End Filter.

Example chunked_1 :
  ngx_http_request_body_chunked_filter (fun _ => true) 0 true
    [bytes "4;x=y" ++ [13; 10] ++ bytes "ab"; bytes "cd" ++ [13; 10] ++ bytes "0" ++ [13; 10]; [13; 10]]
    (mk_body (-1) (mk_chunked sw_chunk_start 0 0) (-1))
  = Ok (Filtered (mk_body 0 (mk_chunked sw_chunk_start 0 1) 4, [[]; []; []],
      [Part (bytes "ab"); Part (bytes "cd"); Last_buf])).
Proof. vm_compute. reflexivity. Qed.

(** * The protocol, byte by byte

    The automaton that the parser and its client implement together: it knows
    nothing of buffers, and takes the bytes of the data one at a time. *)

Definition size_limit : Z := NGX_MAX_OFF_T_VALUE - 5.

(** Where the body goes on after the last byte of a chunk. *)
Definition norm (state : chunk_state) (size : Z) : chunk_state :=
  match state with sw_chunk_data => if size =? 0 then sw_after_data else sw_chunk_data | _ => state end.

Inductive body_step : Type :=
| Move (state : chunk_state) (size : Z)
| Take (state : chunk_state) (size : Z)
| Finish
| Reject.

Definition body_next (state : chunk_state) (size : Z) (ch : Z) : body_step :=
  match parse_chunked_step state size ch with
  | Ok (Goon state size) => if size_limit <? size then Reject else Move state size
  | Ok Data => Take (norm sw_chunk_data (size - 1)) (size - 1)
  | Ok Done => Finish
  | _ => Reject
  end.

(** The data of a body so far, and how the input ends. *)
Inductive body_run : Type :=
| More (data : list Z) (state : chunk_state) (size : Z)
| Complete (data : list Z) (rest : list Z)
| Bad (data : list Z).

Definition add_data (d : list Z) (r : body_run) : body_run :=
  match r with
  | More data state size => More (d ++ data) state size
  | Complete data rest => Complete (d ++ data) rest
  | Bad data => Bad (d ++ data)
  end.

Fixpoint run_body (state : chunk_state) (size : Z) (input : list Z) : body_run :=
  match input with
  | [] => More [] state size
  | ch :: input' =>
      match body_next state size ch with
      | Move state size => run_body state size input'
      | Take state size => add_data [ch] (run_body state size input')
      | Finish => Complete [] input'
      | Reject => Bad []
      end
  end.

(** The sizes that go with the states. *)
Definition size_ok (state : chunk_state) (size : Z) : Prop :=
  match state with
  | sw_chunk_size => 0 <= size <= size_limit
  | sw_chunk_extension | sw_chunk_extension_almost_done | sw_chunk_data => 0 < size <= size_limit
  | _ => size = 0
  end.

Lemma size_ok_bound state size : size_ok state size -> 0 <= size <= size_limit.
Proof. unfold size_ok, size_limit, NGX_MAX_OFF_T_VALUE. destruct state; lia. Qed.

Lemma chunk_digit_bound ch d : chunk_digit ch = Some d -> 0 <= d < 16.
Proof.
  unfold chunk_digit. cbv zeta. destruct (_ && _) eqn:E1.
  - apply andb_prop in E1 as [H1%Z.leb_le H2%Z.leb_le]. intros [= <-]. lia.
  - destruct (("a"%ch <=? _) && _) eqn:E2; [|done].
    apply andb_prop in E2 as [H1%Z.leb_le H2%Z.leb_le]. intros [= <-]. lia.
Qed.

Ltac split_step :=
  unfold line_end;
  repeat match goal with |- context [if ?b then _ else _] => destruct b eqn:? end; cbn [mbind outcome_bind].

(** A step of the parser from a state with its size. *)
Lemma step_ok state size ch :
  size_ok state size ->
  exists r, parse_chunked_step state size ch = Ok r /\
    match r with
    | Goon state' size' => size_ok state' size' \/ (size_limit < size' <= NGX_MAX_OFF_T_VALUE /\ state' = sw_chunk_size)
    | Data => state = sw_chunk_data
    | Done => size = 0
    | Invalid => True
    end.
Proof.
  intros Hs. pose proof (size_ok_bound _ _ Hs) as Hb. unfold size_limit, NGX_MAX_OFF_T_VALUE in Hb.
  destruct state; cbn [parse_chunked_step size_ok] in *;
    try (eexists; split; [reflexivity|]; split_step; first [exact I | done | by left]; fail).
  - destruct (chunk_digit ch) as [d|] eqn:Hd; (eexists; split; [reflexivity|]); [left|done].
    apply chunk_digit_bound in Hd. cbn. unfold size_limit, NGX_MAX_OFF_T_VALUE. lia.
  - destruct (Z.ltb_spec (NGX_MAX_OFF_T_VALUE / 16) size) as [H|H]; [by eexists|].
    change (NGX_MAX_OFF_T_VALUE / 16) with 576460752303423487 in H.
    destruct (chunk_digit ch) as [d|] eqn:Hd.
    + apply chunk_digit_bound in Hd. rewrite int64_ok by lia. cbn [mbind outcome_bind].
      rewrite int64_ok by lia. cbn [mbind outcome_bind].
      eexists. split; [reflexivity|]. cbn. unfold size_limit, NGX_MAX_OFF_T_VALUE.
      destruct (Z.le_gt_cases (size * 16 + d) (9223372036854775807 - 5)); [left; lia|right; split; [lia|done]].
    + destruct (Z.eqb_spec size 0) as [->|Hne]; (eexists; split; [reflexivity|]);
        split_step; first [exact I | left; cbn; lia].
Qed.

(** A size past the limit ends in an error, at the end of the buffer at the
    latest. *)
Lemma big_size_error ctx b pos state size :
  size_limit < size <= NGX_MAX_OFF_T_VALUE ->
  match state with
  | sw_chunk_size | sw_chunk_extension | sw_chunk_extension_almost_done | sw_chunk_data => True
  | _ => False
  end ->
  exists ck pos', parse_chunked_loop ctx b pos state size = Ok (NGX_ERROR, ck, pos').
Proof.
  intros Hs. assert (Hd : forall rc st l p, exists ck pos', parse_chunked_data rc st size l p = Ok (NGX_ERROR, ck, pos')).
  { intros. unfold parse_chunked_data. fold size_limit. rewrite (proj2 (Z.ltb_lt _ _)) by lia. by do 2 eexists. }
  revert pos state. induction b as [|ch b IH]; intros pos state Hst; [apply Hd|].
  cbn [parse_chunked_loop]. unfold size_limit, NGX_MAX_OFF_T_VALUE in Hs.
  destruct state; try done; cbn [parse_chunked_step].
  - change (NGX_MAX_OFF_T_VALUE / 16) with 576460752303423487. rewrite (proj2 (Z.ltb_lt _ _)) by lia.
    cbn [mbind outcome_bind]. by do 2 eexists.
  - cbn [mbind outcome_bind]. split_step; by apply IH.
  - cbn [mbind outcome_bind]. split_step; [by apply IH|by do 2 eexists].
  - apply Hd.
Qed.

Lemma parse_data_ok rc state size l pos :
  size_ok state size ->
  parse_chunked_data rc state size l pos = Ok (rc, mk_chunked state size (chunk_length state size), pos).
Proof.
  intros Hs. pose proof (size_ok_bound _ _ Hs) as Hb. unfold parse_chunked_data. fold size_limit.
  rewrite (proj2 (Z.ltb_ge _ _)) by lia. unfold size_limit, NGX_MAX_OFF_T_VALUE in Hb.
  rewrite int64_ok; [done|]. unfold chunk_length. destruct state; try lia. destruct (size =? 0); cbn; lia.
Qed.

(** What a call of the parser does with a buffer: it reads the protocol up to
    the next byte of data, or to the end of the buffer. *)
Inductive parsed (ctx : chunked_t) (state : chunk_state) (size : Z) (b : list Z) (pos : nat)
  : outcome (Z * chunked_t * nat) -> Prop :=
| parsed_again state' size' :
    run_body state size b = More [] state' size' -> size_ok state' size' ->
    parsed ctx state size b pos
      (Ok (NGX_AGAIN, mk_chunked state' size' (chunk_length state' size'), (pos + length b)%nat))
| parsed_data pre post size' :
    b = pre ++ post -> post <> [] -> size_ok sw_chunk_data size' ->
    run_body state size b = run_body sw_chunk_data size' post ->
    parsed ctx state size b pos
      (Ok (NGX_OK, mk_chunked sw_chunk_data size' (chunk_length sw_chunk_data size'), (pos + length pre)%nat))
| parsed_done pre post :
    b = pre ++ post -> run_body state size b = Complete [] post ->
    parsed ctx state size b pos (Ok (NGX_DONE, mk_chunked sw_chunk_start 0 (ck_length ctx), (pos + length pre)%nat))
| parsed_error ck pos' :
    run_body state size b = Bad [] -> parsed ctx state size b pos (Ok (NGX_ERROR, ck, pos')).

Lemma parse_loop_parsed ctx b pos state size :
  size_ok state size -> parsed ctx state size b pos (parse_chunked_loop ctx b pos state size).
Proof.
  revert pos state size. induction b as [|ch b IH]; intros pos state size Hs; cbn [parse_chunked_loop].
  - rewrite parse_data_ok by done. replace pos with (pos + length (@nil Z))%nat at 2 by (cbn; lia).
    by apply parsed_again.
  - destruct (step_ok state size ch Hs) as (r & Er & Hr). rewrite Er. cbn [mbind outcome_bind].
    assert (Eb : run_body state size (ch :: b) = match r with
      | Goon st sz => if size_limit <? sz then Bad [] else run_body st sz b
      | Data => run_body sw_chunk_data size (ch :: b)
      | Done => Complete [] b
      | Invalid => Bad [] end).
    { cbn [run_body]. unfold body_next at 1. rewrite Er. destruct r as [st sz| | |]; [by destruct (size_limit <? sz)|by subst state|done..]. }
    destruct r as [st sz| | |].
    + destruct Hr as [Hok|[Hbig ->]].
      * pose proof (size_ok_bound _ _ Hok). rewrite (proj2 (Z.ltb_ge _ _)) in Eb by lia.
        destruct (IH (S pos) st sz Hok) as [st' sz' E1 E2|pre post sz' E1 E2 E3 E4|pre post E1 E2|ck pos' E1].
        -- replace (S pos + length b)%nat with (pos + length (ch :: b))%nat by (cbn; lia).
           apply parsed_again; [by rewrite Eb|done].
        -- replace (S pos + length pre)%nat with (pos + length (ch :: pre))%nat by (cbn; lia).
           apply (parsed_data _ _ _ _ _ (ch :: pre) post); [by rewrite E1|done|done|by rewrite Eb].
        -- replace (S pos + length pre)%nat with (pos + length (ch :: pre))%nat by (cbn; lia).
           apply (parsed_done _ _ _ _ _ (ch :: pre) post); [by rewrite E1|by rewrite Eb].
        -- apply parsed_error. by rewrite Eb.
      * destruct (big_size_error ctx b (S pos) sw_chunk_size sz Hbig I) as (ck & pos' & ->).
        apply parsed_error. by rewrite Eb, (proj2 (Z.ltb_lt _ _)) by lia.
    + subst state. rewrite parse_data_ok by done.
      replace pos with (pos + length (@nil Z))%nat at 2 by (cbn; lia).
      by apply (parsed_data _ _ _ _ _ [] (ch :: b)).
    + subst size. replace (S pos) with (pos + length [ch])%nat by (cbn; lia).
      by apply (parsed_done _ _ _ _ _ [ch] b).
    + by apply parsed_error.
Qed.

(** * The filter refines the protocol *)

Lemma add_data_nil r : add_data [] r = r.
Proof. by destruct r. Qed.

Lemma add_data_app d1 d2 r : add_data d1 (add_data d2 r) = add_data (d1 ++ d2) r.
Proof. destruct r; cbn; by rewrite app_assoc. Qed.

Lemma norm_ok state size : size_ok state size -> norm state size = state.
Proof.
  intros Hs. destruct state; try done. cbn in *. destruct (Z.eqb_spec size 0); [lia|done].
Qed.

Lemma norm_size_ok size : 0 <= size <= size_limit -> size_ok (norm sw_chunk_data size) size.
Proof. intros Hs. cbn. destruct (Z.eqb_spec size 0); cbn; [done|lia]. Qed.

(** The data of a chunk, taken at once. *)
Lemma run_data k size l :
  (k <= length l)%nat -> Z.of_nat k <= size -> 0 < size <= size_limit ->
  run_body sw_chunk_data size l
    = add_data (take k l) (run_body (norm sw_chunk_data (size - Z.of_nat k)) (size - Z.of_nat k) (drop k l)).
Proof.
  revert size l. induction k as [|k IH]; intros size l Hl Hk Hs.
  - rewrite Z.sub_0_r, take_0, drop_0, add_data_nil. by rewrite norm_ok by (cbn; lia).
  - destruct l as [|ch l]; [cbn in Hl; lia|]. cbn [length] in Hl. cbn [run_body body_next parse_chunked_step take firstn drop skipn].
    replace (size - Z.of_nat (S k)) with (size - 1 - Z.of_nat k) by lia.
    destruct k as [|k].
    + by rewrite Z.sub_0_r, drop_0.
    + rewrite norm_ok by (cbn; lia). rewrite (IH (size - 1)) by lia. by rewrite add_data_app.
Qed.

(** Every run stays in states with their sizes. *)
Lemma run_body_ok state size l :
  size_ok state size -> match run_body state size l with More _ st sz => size_ok st sz | _ => True end.
Proof.
  revert state size. induction l as [|ch l IH]; intros state size Hs; [done|].
  cbn [run_body]. unfold body_next. destruct (step_ok state size ch Hs) as (r & -> & Hr).
  destruct r as [st sz| | |]; try done.
  - destruct (Z.ltb_spec size_limit sz); [done|]. apply IH. destruct Hr; [done|lia].
  - subst state. cbn in Hs. pose proof (IH (norm sw_chunk_data (size - 1)) (size - 1)) as H.
    specialize (H ltac:(apply norm_size_ok; lia)). by destruct (run_body _ _ l).
Qed.

Lemma run_body_length state size l :
  match run_body state size l with
  | More d _ _ => (length d <= length l)%nat
  | Complete d rest => (length d + length rest <= length l)%nat
  | Bad _ => True
  end.
Proof.
  revert state size. induction l as [|ch l IH]; intros state size; cbn [run_body]; [done|].
  destruct (body_next state size ch) as [st sz|st sz| |]; cbn [length] in *; try (specialize (IH st sz));
    try (destruct (run_body st sz l)); cbn [add_data app length] in *; lia || done.
Qed.

(** The data and the end of a chain. *)
Definition out_data (out : list out_buf) : list Z :=
  concat (map (fun o => match o with Part d => d | Last_buf => [] end) out).
Definition has_last (out : list out_buf) : bool :=
  existsb (fun o => match o with Last_buf => true | Part _ => false end) out.

Definition all_alloc (k : nat) : bool := true.

(** One buffer. *)
Definition buf_refines (n : Z) (run : body_run)
    (m : outcome (filter_result (body_t * list Z * list out_buf * nat))) : Prop :=
  match run with
  | More data state size =>
      exists out k, m = Ok (Filtered
          (mk_body (chunk_length state size) (mk_chunked state size (chunk_length state size)) (n + Z.of_nat (length data)),
           [], out, k)) /\
        out_data out = data /\ has_last out = false
  | Complete data rest =>
      exists len out k, m = Ok (Filtered (mk_body 0 (mk_chunked sw_chunk_start 0 len) (n + Z.of_nat (length data)), rest, out, k)) /\
        out_data out = data /\ has_last out = true
  | Bad _ => m = Ok (Status NGX_HTTP_BAD_REQUEST)
  end.

Lemma filter_buf_refines fuel b rest state size len n k :
  (length b < fuel)%nat -> size_ok (norm state size) size -> 0 <= n -> n + Z.of_nat (length b) < 2 ^ 63 ->
  buf_refines n (run_body (norm state size) size b)
    (chunked_filter_buf all_alloc 0 fuel b (mk_body rest (mk_chunked state size len) n) k).
Proof.
  revert b rest state size len n k. induction fuel as [|fuel IH]; intros b rest state size len n k Hf Hs Hn Hov; [lia|].
  cbn [chunked_filter_buf rb_chunked rb_content_length_n rb_rest].
  assert (Ep : ngx_http_parse_chunked b (mk_chunked state size len)
    = parse_chunked_loop (mk_chunked state size len) b 0 (norm state size) size).
  { unfold ngx_http_parse_chunked. f_equal. by destruct state. }
  rewrite Ep. destruct (parse_loop_parsed (mk_chunked state size len) b 0 (norm state size) size Hs)
    as [st' sz' E1 E2|pre post sz' E1 E2 E3 E4|pre post E1 E2|ck pos' E1]; cbn [mbind outcome_bind Nat.add].
  - change (NGX_AGAIN =? NGX_OK) with false. change (NGX_AGAIN =? NGX_DONE) with false.
    change (NGX_AGAIN =? NGX_AGAIN) with true. cbn iota. rewrite E1, drop_all. cbn [buf_refines].
    exists [], k. rewrite Z.add_0_r. done.
  - change (NGX_OK =? NGX_OK) with true. change (0 =? 0) with true. cbn [negb mbind outcome_bind ck_size ck_state ck_length].
    rewrite E1, drop_app_length, <- E1, E4.
    assert (Hb : length b = (length pre + length post)%nat) by (by rewrite E1, length_app).
    assert (Hp : (0 < length post)%nat) by (destruct post; [done|cbn; lia]).
    cbn in E3. set (taken := if sz' <? Z.of_nat (length post) then sz' else Z.of_nat (length post)).
    assert (Ht : 0 < taken /\ taken <= sz' /\ taken <= Z.of_nat (length post))
      by (unfold taken; destruct (Z.ltb_spec sz' (Z.of_nat (length post))); lia).
    clearbody taken. pose proof E3 as Hlim. unfold size_limit, NGX_MAX_OFF_T_VALUE in Hlim.
    rewrite int64_ok by lia. cbn [mbind outcome_bind]. rewrite int64_ok by lia. cbn [mbind outcome_bind].
    rewrite (run_data (Z.to_nat taken)) by lia. rewrite Z2Nat.id by lia.
    pose proof (IH (drop (Z.to_nat taken) post) rest sw_chunk_data (sz' - taken) (chunk_length sw_chunk_data sz') (n + taken) (S k)) as H.
    rewrite length_drop in H.
    specialize (H ltac:(lia) ltac:(apply norm_size_ok; lia) ltac:(lia) ltac:(lia)).
    assert (Hlen : length (take (Z.to_nat taken) post) = Z.to_nat taken) by (rewrite length_take; lia).
    destruct (run_body _ _ (drop (Z.to_nat taken) post)) as [data st2 sz2|data rest2|data]; cbn [add_data buf_refines] in *.
    + destruct H as (out & k' & -> & <- & Hl). cbn [mbind outcome_bind].
      exists (Part (take (Z.to_nat taken) post) :: out), k'. split_and!; [|done|done].
      rewrite length_app, Hlen. by replace (n + taken + Z.of_nat (length (out_data out)))
        with (n + Z.of_nat (Z.to_nat taken + length (out_data out))) by lia.
    + destruct H as (len2 & out & k' & -> & <- & Hl). cbn [mbind outcome_bind].
      exists len2, (Part (take (Z.to_nat taken) post) :: out), k'. split_and!; [|done|done].
      rewrite length_app, Hlen. by replace (n + taken + Z.of_nat (length (out_data out)))
        with (n + Z.of_nat (Z.to_nat taken + length (out_data out))) by lia.
    + rewrite H. done.
  - change (NGX_DONE =? NGX_OK) with false. change (NGX_DONE =? NGX_DONE) with true. cbn [negb].
    rewrite E2, E1, drop_app_length. cbn [buf_refines]. do 3 eexists. rewrite Z.add_0_r. done.
  - change (NGX_ERROR =? NGX_OK) with false. change (NGX_ERROR =? NGX_DONE) with false.
    change (NGX_ERROR =? NGX_AGAIN) with false. cbn iota. by rewrite E1.
Qed.

(** ** A chain of buffers *)

Lemma run_body_app state size l1 l2 :
  run_body state size (l1 ++ l2)
    = match run_body state size l1 with
      | More d st sz => add_data d (run_body st sz l2)
      | Complete d rest => Complete d (rest ++ l2)
      | Bad d => Bad d
      end.
Proof.
  revert state size. induction l1 as [|ch l1 IH]; intros state size; cbn [run_body app]; [by rewrite add_data_nil|].
  destruct (body_next state size ch); try done. rewrite IH. destruct (run_body _ _ l1); cbn [add_data]; try done.
  by rewrite add_data_app.
Qed.

Definition chain_refines (n : Z) (bufs : list (list Z)) (b : list Z) (run : body_run)
    (m : outcome (filter_result (body_t * list (list Z) * list out_buf))) : Prop :=
  match run with
  | More data state size =>
      exists out, m = Ok (Filtered
          (mk_body (chunk_length state size) (mk_chunked state size (chunk_length state size)) (n + Z.of_nat (length data)),
           map (fun _ => []) bufs ++ [[]], out)) /\
        out_data out = data /\ has_last out = false
  | Complete data rest =>
      exists len out, m = Ok (Filtered (mk_body 0 (mk_chunked sw_chunk_start 0 len) (n + Z.of_nat (length data)),
           map (fun _ => []) bufs ++ [rest], out)) /\
        out_data out = data /\ has_last out = true
  | Bad _ => m = Ok (Status NGX_HTTP_BAD_REQUEST)
  end.

Lemma out_data_app o1 o2 : out_data (o1 ++ o2) = out_data o1 ++ out_data o2.
Proof. unfold out_data. by rewrite map_app, concat_app. Qed.

Lemma has_last_app o1 o2 : has_last (o1 ++ o2) = has_last o1 || has_last o2.
Proof. apply existsb_app. Qed.

(** The body does not end. *)
Definition unfinished (r : body_run) : Prop := match r with Complete _ _ => False | _ => True end.

Lemma filter_chain_refines bufs b rest state size len n k :
  size_ok (norm state size) size -> 0 <= n -> n + Z.of_nat (length (concat bufs ++ b)) < 2 ^ 63 ->
  unfinished (run_body (norm state size) size (concat bufs)) ->
  chain_refines n bufs b (run_body (norm state size) size (concat bufs ++ b))
    (chunked_filter_chain all_alloc 0 (bufs ++ [b]) (mk_body rest (mk_chunked state size len) n) k).
Proof.
  revert rest state size len n k. induction bufs as [|b0 bufs IH]; intros rest state size len n k Hs Hn Hov Hm.
  - cbn [concat app chunked_filter_chain]. pose proof (filter_buf_refines (S (length b)) b rest state size len n k) as H.
    specialize (H ltac:(lia) Hs Hn Hov). destruct (run_body _ _ b) as [d st sz|d r|d]; cbn [buf_refines chain_refines] in *.
    + destruct H as (out & k' & -> & Hd & Hl). cbn [mbind outcome_bind]. exists out. by rewrite app_nil_r.
    + destruct H as (l2 & out & k' & -> & Hd & Hl). cbn [mbind outcome_bind]. exists l2, out. by rewrite app_nil_r.
    + by rewrite H.
  - cbn [concat] in *. rewrite <- app_assoc in *. rewrite !length_app in Hov. cbn [app chunked_filter_chain].
    pose proof (filter_buf_refines (S (length b0)) b0 rest state size len n k) as H.
    specialize (H ltac:(lia) Hs Hn ltac:(lia)). rewrite run_body_app in Hm |- *.
    pose proof (run_body_ok (norm state size) size b0 Hs) as Hok.
    pose proof (run_body_length (norm state size) size b0) as Hlen0.
    destruct (run_body (norm state size) size b0) as [d st sz|d r|d]; cbn [buf_refines] in *; [|done|by rewrite H].
    destruct H as (out & k' & -> & Hd & Hl). cbn [mbind outcome_bind].
    pose proof (norm_ok st sz Hok) as En.
    pose proof (IH (chunk_length st sz) st sz (chunk_length st sz) (n + Z.of_nat (length d)) k') as H'.
    rewrite En in H'. specialize (H' Hok ltac:(lia)).
    assert (Hdl : (length d <= length b0)%nat) by apply Hlen0.
    rewrite length_app in H'. specialize (H' ltac:(lia)).
    assert (Hm' : unfinished (run_body st sz (concat bufs))) by (by destruct (run_body st sz (concat bufs))).
    specialize (H' Hm'). clear IH Hm Hm'.
    destruct (run_body st sz (concat bufs ++ b)) as [d2 st2 sz2|d2 r2|d2]; cbn [add_data chain_refines] in *.
    + destruct H' as (out2 & -> & Hd2 & Hl2). cbn [mbind outcome_bind]. exists (out ++ out2).
      rewrite out_data_app, has_last_app, Hd, Hd2, Hl, Hl2, length_app, Nat2Z.inj_add, Z.add_assoc. done.
    + destruct H' as (l2 & out2 & -> & Hd2 & Hl2). cbn [mbind outcome_bind]. exists l2, (out ++ out2).
      rewrite out_data_app, has_last_app, Hd, Hd2, Hl, Hl2, length_app, Nat2Z.inj_add, Z.add_assoc. done.
    + by rewrite H'.
Qed.

(** * Encoding and decoding *)

(** A chunk as a client may write it: the digits of the size, an extension, the end of the
    line, the data, what is skipped behind them, and the end of that line. *)
Record chunk : Type := mk_chunk {
  c_digits : list Z;
  c_extension : list Z;
  c_eol : list Z;
  c_data : list Z;
  c_skipped : list Z;
  c_eol2 : list Z
}.

(** The value of a hexadecimal digit. *)
Definition hex_digit (c : Z) : option Z :=
  if ("0"%ch <=? c) && (c <=? "9"%ch) then Some (c - "0"%ch)
  else if ("a"%ch <=? c) && (c <=? "f"%ch) then Some (c - "a"%ch + 10)
  else if ("A"%ch <=? c) && (c <=? "F"%ch) then Some (c - "A"%ch + 10)
  else None.

Lemma chunk_digit_hex c : 0 <= c < 256 -> chunk_digit c = hex_digit c.
Proof.
  intros Hc. assert (G : Forall (fun n => chunk_digit (Z.of_nat n) = hex_digit (Z.of_nat n)) (seq 0 256))
    by (repeat constructor).
  rewrite Forall_forall in G. rewrite <- (Z2Nat.id c) by lia. apply G, elem_of_seq. lia.
Qed.

Lemma hex_digit_chunk c x : hex_digit c = Some x -> chunk_digit c = Some x.
Proof.
  intros H. rewrite chunk_digit_hex; [done|]. unfold hex_digit in H.
  repeat (case_match; [lia|]). done.
Qed.

Fixpoint size_value (v : Z) (ds : list Z) : option Z :=
  match ds with
  | [] => Some v
  | d :: ds' => match hex_digit d with Some x => size_value (v * 16 + x) ds' | None => None end
  end.

Definition eol_ok (l : list Z) : Prop := l = [LF] \/ l = [CR; LF].
Definition no_eol (l : list Z) : Prop := Forall (fun c => c <> CR /\ c <> LF) l.
(** An extension is empty or starts with a semicolon or a blank. *)
Definition extension_ok (l : list Z) : Prop :=
  match l with
  | [] => True
  | c :: l' => (c = ";"%ch \/ c = " "%ch \/ c = TAB) /\ no_eol l'
  end.

Record chunk_ok (c : chunk) : Prop := {
  chunk_digits : c_digits c <> [];
  chunk_size : size_value 0 (c_digits c) = Some (Z.of_nat (length (c_data c)));
  chunk_data : c_data c <> [];
  chunk_limit : Z.of_nat (length (c_data c)) <= NGX_MAX_OFF_T_VALUE / 16;
  chunk_extension : extension_ok (c_extension c);
  chunk_eol : eol_ok (c_eol c);
  chunk_skipped : no_eol (c_skipped c);
  chunk_eol2 : eol_ok (c_eol2 c)
}.

Definition encode_chunk (c : chunk) : list Z :=
  c_digits c ++ c_extension c ++ c_eol c ++ c_data c ++ c_skipped c ++ c_eol2 c.

(** The last chunk and the trailer: zeros, an extension, header lines, and an
    empty line. *)
Record last_chunk : Type := mk_last {
  l_digits : list Z;
  l_extension : list Z;
  l_eol : list Z;
  l_headers : list (list Z * list Z);
  l_eol2 : list Z
}.

Record last_ok (l : last_chunk) : Prop := {
  last_digits : l_digits l <> [];
  last_size : size_value 0 (l_digits l) = Some 0;
  last_extension : extension_ok (l_extension l);
  last_eol : eol_ok (l_eol l);
  last_headers : Forall (fun h => h.1 <> [] /\ no_eol h.1 /\ eol_ok h.2) (l_headers l);
  last_eol2 : eol_ok (l_eol2 l)
}.

Definition encode_last (l : last_chunk) : list Z :=
  l_digits l ++ l_extension l ++ l_eol l ++ concat (map (fun h => h.1 ++ h.2) (l_headers l)) ++ l_eol2 l.

Definition encode_body (cs : list chunk) (l : last_chunk) : list Z :=
  concat (map encode_chunk cs) ++ encode_last l.

Lemma size_value_ge v ds r : 0 <= v -> size_value v ds = Some r -> v <= r.
Proof.
  revert v. induction ds as [|d ds IH]; intros v Hv H; cbn in H; [by injection H as ->|].
  destruct (hex_digit d) eqn:Hd; [|done]. apply hex_digit_chunk, chunk_digit_bound in Hd. apply IH in H; lia.
Qed.

(** The digits of a size. *)
Lemma run_digits ds v r l :
  0 <= v -> size_value v ds = Some r -> r <= size_limit ->
  run_body sw_chunk_size v (ds ++ l) = run_body sw_chunk_size r l.
Proof.
  revert v. induction ds as [|d ds IH]; intros v Hv H Hr; cbn [size_value] in H; [by injection H as ->|].
  destruct (hex_digit d) as [x|] eqn:Hd; [|done]. apply hex_digit_chunk in Hd. pose proof (chunk_digit_bound d x Hd) as Hx.
  pose proof (size_value_ge (v * 16 + x) ds r ltac:(lia) H) as Hge. unfold size_limit, NGX_MAX_OFF_T_VALUE in Hr.
  cbn [app run_body]. unfold body_next. cbn [parse_chunked_step].
  change (NGX_MAX_OFF_T_VALUE / 16) with 576460752303423487. rewrite (proj2 (Z.ltb_ge _ v)) by lia. rewrite Hd.
  rewrite int64_ok by lia. cbn [mbind outcome_bind]. rewrite int64_ok by lia. cbn [mbind outcome_bind].
  unfold size_limit, NGX_MAX_OFF_T_VALUE. rewrite (proj2 (Z.ltb_ge _ _)) by lia. by apply IH; [lia| |].
Qed.

Lemma run_first_digits ds r l :
  ds <> [] -> size_value 0 ds = Some r -> r <= size_limit ->
  run_body sw_chunk_start 0 (ds ++ l) = run_body sw_chunk_size r l.
Proof.
  intros Hne H Hr. destruct ds as [|d ds]; [done|]. cbn [size_value] in H.
  destruct (hex_digit d) as [x|] eqn:Hd; [|done]. apply hex_digit_chunk in Hd. pose proof (chunk_digit_bound d x Hd) as Hx.
  cbn [app run_body]. unfold body_next. cbn [parse_chunked_step]. rewrite Hd.
  unfold size_limit, NGX_MAX_OFF_T_VALUE. rewrite (proj2 (Z.ltb_ge _ _)) by lia. apply run_digits; [lia| |done]. by rewrite <- H.
Qed.

(** A byte that only moves the automaton. *)
Lemma run_move st size ch st' size' rest :
  parse_chunked_step st size ch = Ok (Goon st' size') -> size' <= size_limit ->
  run_body st size (ch :: rest) = run_body st' size' rest.
Proof.
  intros E Hs. cbn [run_body]. unfold body_next. rewrite E. by rewrite (proj2 (Z.ltb_ge _ _)).
Qed.

(** Bytes that keep the state are skipped up to the end of line. *)
Lemma run_skip st size l rest :
  (forall c, c <> CR -> c <> LF -> parse_chunked_step st size c = Ok (Goon st size)) ->
  size <= size_limit -> no_eol l -> run_body st size (l ++ rest) = run_body st size rest.
Proof.
  intros Hst Hs H. induction H as [|c l [Hc Hl] _ IH]; [done|]. cbn [app].
  by rewrite (run_move st size c st size _ (Hst c Hc Hl) Hs).
Qed.

Lemma line_end_other cr lf other c : c <> CR -> c <> LF -> line_end cr lf other c = other.
Proof. intros H1 H2. unfold line_end. by rewrite (proj2 (Z.eqb_neq c CR)), (proj2 (Z.eqb_neq c LF)). Qed.

(** The end of line from a state, [cr] being the state after CR. *)
Lemma run_eol st cr st' size eol rest :
  parse_chunked_step st size CR = Ok (Goon cr size) -> parse_chunked_step st size LF = Ok (Goon st' size) ->
  parse_chunked_step cr size LF = Ok (Goon st' size) -> size <= size_limit -> eol_ok eol ->
  run_body st size (eol ++ rest) = run_body st' size rest.
Proof.
  intros H1 H2 H3 Hs [-> | ->]; cbn [app].
  - by apply run_move.
  - rewrite (run_move st size CR cr size) by done. by apply run_move.
Qed.

(** The rest of the line of a size, extension and end of line. *)
Lemma run_line size ext eol rest :
  0 <= size <= NGX_MAX_OFF_T_VALUE / 16 -> extension_ok ext -> eol_ok eol ->
  run_body sw_chunk_size size (ext ++ eol ++ rest)
    = run_body (if size =? 0 then sw_trailer else sw_chunk_data) size rest.
Proof.
  intros Hs Hext Heol. assert (Hlim : size <= size_limit).
  { unfold size_limit. change (NGX_MAX_OFF_T_VALUE / 16) with 576460752303423487 in Hs. unfold NGX_MAX_OFF_T_VALUE. lia. }
  assert (Hstep : forall c, chunk_digit c = None -> parse_chunked_step sw_chunk_size size c =
    Ok (line_end
      (Goon (if size =? 0 then sw_last_chunk_extension_almost_done else sw_chunk_extension_almost_done) size)
      (Goon (if size =? 0 then sw_trailer else sw_chunk_data) size)
      (if (c =? ";"%ch) || (c =? " "%ch) || (c =? TAB)
       then Goon (if size =? 0 then sw_last_chunk_extension else sw_chunk_extension) size else Invalid) c)).
  { intros c Hc. cbn [parse_chunked_step]. rewrite (proj2 (Z.ltb_ge _ _)) by lia. rewrite Hc.
    by destruct (size =? 0). }
  destruct ext as [|c ext].
  - cbn [app]. apply (run_eol _ (if size =? 0 then sw_last_chunk_extension_almost_done else sw_chunk_extension_almost_done));
      [by rewrite Hstep|by rewrite Hstep| |done|done]. by destruct (size =? 0).
  - destruct Hext as [Hc Hext]. cbn [app].
    rewrite (run_move _ _ c (if size =? 0 then sw_last_chunk_extension else sw_chunk_extension) size); [..|done].
    2: { rewrite Hstep by (by destruct Hc as [->|[->| ->]]). by destruct Hc as [->|[->| ->]]. }
    rewrite run_skip; [..|done|done].
    2: { intros x H1 H2. by destruct (size =? 0); cbn [parse_chunked_step]; rewrite line_end_other. }
    destruct (size =? 0).
    + by apply (run_eol _ sw_last_chunk_extension_almost_done).
    + by apply (run_eol _ sw_chunk_extension_almost_done).
Qed.

Lemma run_chunk c rest :
  chunk_ok c ->
  run_body sw_chunk_start 0 (encode_chunk c ++ rest) = add_data (c_data c) (run_body sw_chunk_start 0 rest).
Proof.
  intros [H1 H2 H3 H4 H5 H6 H7 H8]. unfold encode_chunk. rewrite <- !app_assoc.
  set (n := Z.of_nat (length (c_data c))) in *.
  assert (Hn : 0 < n) by (unfold n; destruct (c_data c); [done|cbn; lia]).
  assert (Hlim : n <= size_limit).
  { change (NGX_MAX_OFF_T_VALUE / 16) with 576460752303423487 in H4. unfold size_limit, NGX_MAX_OFF_T_VALUE. lia. }
  rewrite (run_first_digits _ n), run_line by (done || lia). rewrite (proj2 (Z.eqb_neq n 0)) by lia.
  rewrite (run_data (length (c_data c))) by (rewrite ?length_app; fold n; lia). fold n.
  rewrite take_app_length, drop_app_length, Z.sub_diag. cbn [norm]. rewrite Z.eqb_refl.
  f_equal. rewrite run_skip; [by apply (run_eol _ sw_after_data_almost_done)|..|done|done].
  intros x Hc Hl. cbn [parse_chunked_step]. by rewrite line_end_other.
Qed.

Lemma run_headers hs rest :
  Forall (fun h => h.1 <> [] /\ no_eol h.1 /\ eol_ok h.2) hs ->
  run_body sw_trailer 0 (concat (map (fun h => h.1 ++ h.2) hs) ++ rest) = run_body sw_trailer 0 rest.
Proof.
  intros H. induction H as [|[h eol] hs (Hne & Hh & Heol) _ IH]; [done|]. cbn [map concat fst snd] in *.
  rewrite <- !app_assoc. destruct h as [|c h]; [done|]. apply Forall_cons_1 in Hh as [[Hc Hl] Hh]. cbn [app].
  rewrite (run_move _ _ c sw_trailer_header 0); [|cbn [parse_chunked_step]; by rewrite line_end_other|done].
  rewrite run_skip; [|intros; cbn [parse_chunked_step]; by rewrite line_end_other|done|done].
  rewrite (run_eol _ sw_trailer_header_almost_done sw_trailer) by done. exact IH.
Qed.

Lemma run_last l : last_ok l -> run_body sw_chunk_start 0 (encode_last l) = Complete [] [].
Proof.
  intros [H1 H2 H3 H4 H5 H6]. unfold encode_last.
  rewrite (run_first_digits _ 0), run_line by done. change (0 =? 0) with true. cbn iota.
  rewrite run_headers by done. by destruct H6 as [-> | ->].
Qed.

Lemma run_encoded cs l :
  Forall chunk_ok cs -> last_ok l ->
  run_body sw_chunk_start 0 (encode_body cs l) = Complete (concat (map c_data cs)) [].
Proof.
  intros Hcs Hl. unfold encode_body. induction Hcs as [|c cs Hc _ IH]; cbn [map concat app]; [by apply run_last|].
  rewrite <- app_assoc, run_chunk, IH by done. done.
Qed.

(** The body is decoded however it arrives: [bufs] and [b] are the buffers, in
    any fragmentation whose last buffer is not empty. *)
(** C33. A body in the chunked coding, with extensions, anything behind the data on
    their line, trailers and either line ending, is decoded by
    ngx_http_request_body_chunked_filter to the data of its chunks however it is cut
    into buffers: the output ends with the last buffer, nothing is left to read and the
    length is counted. *)
Theorem chunked_decode_encode cs l bufs b rb :
  Forall chunk_ok cs -> last_ok l -> concat bufs ++ b = encode_body cs l -> b <> [] ->
  Z.of_nat (length (encode_body cs l)) < 2 ^ 63 -> rb_rest rb = -1 ->
  exists rb' left out, ngx_http_request_body_chunked_filter all_alloc 0 true (bufs ++ [b]) rb
      = Ok (Filtered (rb', left, out)) /\
    out_data out = concat (map c_data cs) /\ has_last out = true /\ rb_rest rb' = 0 /\
    rb_content_length_n rb' = Z.of_nat (length (out_data out)) /\ Forall (fun b => b = []) left.
Proof.
  intros Hcs Hl Hb Hne Hlen Hr. pose proof (run_encoded cs l Hcs Hl) as Hrun. rewrite <- Hb in *.
  assert (Hm : unfinished (run_body sw_chunk_start 0 (concat bufs))).
  { rewrite run_body_app in Hrun. destruct (run_body sw_chunk_start 0 (concat bufs)) as [d st sz|d r|d]; try done.
    injection Hrun as _ E. by apply app_eq_nil in E as [_ ->]. }
  pose proof (filter_chain_refines bufs b 3 sw_chunk_start 0 0 0 0 eq_refl ltac:(lia) Hlen Hm) as H.
  cbn [norm] in H. rewrite Hrun in H. destruct H as (len & out & E & Hd & Hlast).
  unfold ngx_http_request_body_chunked_filter. rewrite Hr. change (-1 =? -1) with true. cbn [negb].
  rewrite E. do 3 eexists. split; [reflexivity|]. split_and!; [done|done|done|by rewrite Hd|].
  apply Forall_app. split; [|by constructor]. apply Forall_forall. intros x Hx.
  by apply in_map_iff in Hx as (? & <- & _) || (apply list_elem_of_In, in_map_iff in Hx as (? & <- & _)).
Qed.

Lemma chunked_decode_encode_witness :
  exists rb' left out, ngx_http_request_body_chunked_filter all_alloc 0 true
      ([bytes "02"; LF :: bytes "a"; bytes "b "] ++ [LF :: bytes "0;x" ++ [CR; LF] ++ bytes "T: 1" ++ [LF; LF]])
      (mk_body (-1) (mk_chunked sw_chunk_start 0 0) (-1))
      = Ok (Filtered (rb', left, out)) /\
    out_data out = concat (map c_data [mk_chunk (bytes "02") [] [LF] (bytes "ab") (bytes " ") [LF]]) /\ has_last out = true /\
    rb_rest rb' = 0 /\ rb_content_length_n rb' = Z.of_nat (length (out_data out)) /\ Forall (fun b => b = []) left.
Proof.
  apply (chunked_decode_encode [mk_chunk (bytes "02") [] [LF] (bytes "ab") (bytes " ") [LF]]
    (mk_last (bytes "0") (bytes ";x") [CR; LF] [(bytes "T: 1", [LF])] [LF])); try reflexivity.
  - constructor; [|constructor]. split; try reflexivity; try discriminate; try (by left).
    constructor; [split; discriminate|constructor].
  - split; try reflexivity; try discriminate; try (by left); try (by right).
    + split; [by left|]. constructor; [split; discriminate|constructor].
    + constructor; [|constructor]. split_and!; [discriminate| |by left]. repeat constructor; discriminate.
  - discriminate.
Defined.
