(* ===== verification/HttpChunkedAccept.v ===== *)
(** Component "chunked bodies", continued: what the request body filter accepts, what it
    rejects and what it waits for, for every input. *)

From stdpp Require Import base numbers list option strings.
From Stdlib Require Import ZArith Lia.
From S2P Require Import Prelude HttpRequest HttpChunked.
Local Open Scope Z_scope.

(** * The bodies that the automaton accepts *)

(** The runs that are looked at: a whole body, or an input that stops in the digits of a
    size. *)
Definition wanted (r : body_run) : Prop :=
  match r with Complete _ _ | More _ sw_chunk_size _ => True | _ => False end.

Lemma wanted_add d r : wanted (add_data d r) <-> wanted r.
Proof. by destruct r. Qed.

Lemma wanted_next st size ch l :
  wanted (run_body st size (ch :: l)) ->
  match body_next st size ch with
  | Move st' size' => run_body st size (ch :: l) = run_body st' size' l /\ size' <= size_limit
  | Take st' size' => run_body st size (ch :: l) = add_data [ch] (run_body st' size' l)
  | Finish => run_body st size (ch :: l) = Complete [] l
  | Reject => False
  end.
Proof.
  cbn [run_body]. unfold body_next. destruct (parse_chunked_step st size ch) as [[st' sz'| | |]| |]; try done.
  destruct (Z.ltb_spec size_limit sz'); done.
Qed.

(** The end of a line from a state that skips what is before it. *)
Lemma line_inv st cr st' size l :
  (forall c, parse_chunked_step st size c = Ok (line_end (Goon cr size) (Goon st' size) (Goon st size) c)) ->
  (forall c, parse_chunked_step cr size c = Ok (if c =? LF then Goon st' size else Invalid)) ->
  st <> sw_chunk_size -> cr <> sw_chunk_size -> size <= size_limit -> wanted (run_body st size l) ->
  exists skipped eol l', l = skipped ++ eol ++ l' /\ no_eol skipped /\ eol_ok eol /\
    run_body st size l = run_body st' size l'.
Proof.
  intros Hst Hcr N1 N2 Hs. induction l as [|c l IH]; intros H; [by destruct st|].
  destruct (decide (c = LF)) as [->|Nl].
  { exists [], [LF], l. split_and!; [done|constructor|by left|]. apply run_move; [by rewrite Hst|done]. }
  destruct (decide (c = CR)) as [->|Nc].
  - rewrite (run_move st size CR cr size) in H |- * by (done || by rewrite Hst).
    destruct l as [|c l]; [by destruct cr|]. destruct (decide (c = LF)) as [->|Nl'].
    + exists [], [CR; LF], l. split_and!; [done|constructor|by right|]. apply run_move; [by rewrite Hcr|done].
    + apply wanted_next in H. unfold body_next in H. by rewrite Hcr, (proj2 (Z.eqb_neq _ _) Nl') in H.
  - rewrite (run_move st size c st size) in H |- * by (done || by rewrite Hst, line_end_other).
    destruct (IH H) as (skipped & eol & l' & -> & H1 & H2 & H3). exists (c :: skipped), eol, l'.
    split_and!; [done|by constructor|done|done].
Qed.

(** The end of a line that may not be skipped to. *)
Lemma eol_inv st cr st' size c l :
  (forall c, parse_chunked_step cr size c = Ok (if c =? LF then Goon st' size else Invalid)) ->
  cr <> sw_chunk_size -> size <= size_limit -> c = CR \/ c = LF ->
  parse_chunked_step st size c = Ok (line_end (Goon cr size) (Goon st' size) Invalid c) -> wanted (run_body st size (c :: l)) ->
  exists eol l', c :: l = eol ++ l' /\ eol_ok eol /\ run_body st size (c :: l) = run_body st' size l'.
Proof.
  intros Hcr N Hs [-> | ->] Hst H.
  - rewrite (run_move st size CR cr size) in H |- * by done. destruct l as [|c l]; [by destruct cr|].
    destruct (decide (c = LF)) as [->|Nl].
    + exists [CR; LF], l. split_and!; [done|by right|]. apply run_move; [by rewrite Hcr|done].
    + apply wanted_next in H. unfold body_next in H. by rewrite Hcr, (proj2 (Z.eqb_neq _ _) Nl) in H.
  - exists [LF], l. split_and!; [done|by left|]. by apply run_move.
Qed.

(** The step of a byte behind the digits of a size. *)
Definition size_line (size ch : Z) : chunk_step :=
  line_end
    (Goon (if size =? 0 then sw_last_chunk_extension_almost_done else sw_chunk_extension_almost_done) size)
    (Goon (if size =? 0 then sw_trailer else sw_chunk_data) size)
    (if (ch =? ";"%ch) || (ch =? " "%ch) || (ch =? TAB)
     then Goon (if size =? 0 then sw_last_chunk_extension else sw_chunk_extension) size else Invalid) ch.

Lemma size_line_inv size c l :
  0 <= size <= size_limit -> parse_chunked_step sw_chunk_size size c = Ok (size_line size c) ->
  wanted (run_body sw_chunk_size size (c :: l)) ->
  exists ext eol l', c :: l = ext ++ eol ++ l' /\ extension_ok ext /\ eol_ok eol /\
    run_body sw_chunk_size size (c :: l) = run_body (if size =? 0 then sw_trailer else sw_chunk_data) size l'.
Proof.
  intros Hs Hst H.
  set (cr := if size =? 0 then sw_last_chunk_extension_almost_done else sw_chunk_extension_almost_done).
  set (st' := if size =? 0 then sw_trailer else sw_chunk_data).
  set (skip := if size =? 0 then sw_last_chunk_extension else sw_chunk_extension).
  assert (Hcr : forall c, parse_chunked_step cr size c = Ok (if c =? LF then Goon st' size else Invalid))
    by (intros x; unfold cr, st'; by destruct (size =? 0)).
  assert (N1 : cr <> sw_chunk_size) by (unfold cr; by destruct (size =? 0)).
  assert (N2 : skip <> sw_chunk_size) by (unfold skip; by destruct (size =? 0)).
  destruct (decide (c = CR \/ c = LF)) as [Hc|Hc].
  - destruct (eol_inv sw_chunk_size cr st' size c l Hcr N1 ltac:(lia) Hc) as (eol & l' & E & He & Er); [|done|].
    + rewrite Hst. unfold size_line. by destruct Hc as [-> | ->].
    + by exists [], eol, l'.
  - unfold size_line in Hst. rewrite line_end_other in Hst by tauto.
    destruct ((c =? ";"%ch) || (c =? " "%ch) || (c =? TAB)) eqn:Eb.
    + rewrite (run_move _ _ c skip size) in H |- * by (done || lia).
      destruct (line_inv skip cr st' size l) as (skipped & eol & l' & -> & H1 & H2 & H3); [|done..|lia|done|].
      * intros x. unfold skip, cr, st'. by destruct (size =? 0).
      * exists (c :: skipped), eol, l'. split_and!; [done| |done|done]. split; [|done].
        apply orb_prop in Eb as [[->%Z.eqb_eq| ->%Z.eqb_eq]%orb_prop| ->%Z.eqb_eq]; auto.
    + apply wanted_next in H. unfold body_next in H. by rewrite Hst in H.
Qed.

(** The digits of a size, and its line. *)
Lemma digits_inv v l :
  bytes_ok l -> 0 <= v <= size_limit -> wanted (run_body sw_chunk_size v l) ->
  exists ds size, size_value v ds = Some size /\ 0 <= size <= size_limit /\
    (l = ds /\ run_body sw_chunk_size v l = More [] sw_chunk_size size \/
     exists ext eol l', l = ds ++ ext ++ eol ++ l' /\ size <= NGX_MAX_OFF_T_VALUE / 16 /\
       extension_ok ext /\ eol_ok eol /\
       run_body sw_chunk_size v l = run_body (if size =? 0 then sw_trailer else sw_chunk_data) size l').
Proof.
  revert v. induction l as [|c l IH]; intros v Hb Hv H; [exists [], v; split_and!; (done || lia || by left)|].
  apply bytes_ok_cons in Hb as [Hc Hb]. pose proof (wanted_next _ _ _ _ H) as Hn. unfold body_next in Hn.
  destruct (parse_chunked_step sw_chunk_size v c) as [r| |] eqn:Er; try done. cbn [parse_chunked_step] in Er.
  destruct (Z.ltb_spec (NGX_MAX_OFF_T_VALUE / 16) v) as [Hbig|Hsmall]; [by injection Er as <-|].
  change (NGX_MAX_OFF_T_VALUE / 16) with 576460752303423487 in Hsmall.
  destruct (chunk_digit c) as [d|] eqn:Hd.
  - pose proof (chunk_digit_bound _ _ Hd) as Hd16. rewrite chunk_digit_hex in Hd by done.
    rewrite int64_ok in Er by lia. cbn [mbind outcome_bind] in Er. rewrite int64_ok in Er by lia. cbn [mbind outcome_bind] in Er.
    injection Er as <-. destruct (Z.ltb_spec size_limit (v * 16 + d)); [done|]. destruct Hn as [Hn _].
    rewrite Hn in H |- *. destruct (IH (v * 16 + d) Hb ltac:(lia) H) as (ds & size & Hs & Hb' & Ho). exists (c :: ds), size.
    split; [cbn [size_value]; by rewrite Hd|]. split; [done|].
    destruct Ho as [[-> Eo]|(ext & eol & l' & -> & Hx)]; [by left|right; by exists ext, eol, l'].
  - clear Hn. destruct (size_line_inv v c l Hv) as (ext & eol & l' & E & H1 & H2 & H3); [|done|].
    + cbn [parse_chunked_step]. change (NGX_MAX_OFF_T_VALUE / 16) with 576460752303423487.
      rewrite (proj2 (Z.ltb_ge _ _)), Hd by lia. unfold size_line. by destruct (v =? 0).
    + exists [], v. split; [done|]. split; [done|]. right. exists ext, eol, l'. split; [exact E|]. split; [exact Hsmall|done].
Qed.

Lemma first_digits_inv l :
  bytes_ok l -> wanted (run_body sw_chunk_start 0 l) ->
  exists ds size, ds <> [] /\ size_value 0 ds = Some size /\ 0 <= size <= size_limit /\
    (l = ds /\ run_body sw_chunk_start 0 l = More [] sw_chunk_size size \/
     exists ext eol l', l = ds ++ ext ++ eol ++ l' /\ size <= NGX_MAX_OFF_T_VALUE / 16 /\
       extension_ok ext /\ eol_ok eol /\
       run_body sw_chunk_start 0 l = run_body (if size =? 0 then sw_trailer else sw_chunk_data) size l').
Proof.
  intros Hb H. destruct l as [|c l]; [done|]. apply bytes_ok_cons in Hb as [Hc Hb].
  pose proof (wanted_next _ _ _ _ H) as Hn. unfold body_next in Hn. cbn [parse_chunked_step] in Hn.
  destruct (chunk_digit c) as [d|] eqn:Hd; [|done]. pose proof (chunk_digit_bound _ _ Hd) as Hd16.
  rewrite chunk_digit_hex in Hd by done.
  assert (Hlim : d <= size_limit) by (unfold size_limit, NGX_MAX_OFF_T_VALUE; lia).
  rewrite (proj2 (Z.ltb_ge _ _)) in Hn by done. destruct Hn as [Hn _]. rewrite Hn in H |- *.
  destruct (digits_inv d l Hb ltac:(lia) H) as (ds & size & Hs & Hb' & Ho). exists (c :: ds), size.
  split; [done|]. split; [cbn [size_value]; by rewrite Hd|]. split; [done|].
  destruct Ho as [[-> Eo]|(ext & eol & l' & -> & Hx)]; [by left|right; by exists ext, eol, l'].
Qed.

(** The data of a chunk are all there, and the line behind them. *)
Lemma data_inv size l :
  0 < size <= size_limit -> wanted (run_body sw_chunk_data size l) ->
  exists data skipped eol l', l = data ++ skipped ++ eol ++ l' /\ Z.of_nat (length data) = size /\
    no_eol skipped /\ eol_ok eol /\
    run_body sw_chunk_data size l = add_data data (run_body sw_chunk_start 0 l').
Proof.
  intros Hs H. destruct (Z.le_gt_cases size (Z.of_nat (length l))) as [Hl|Hl].
  - rewrite (run_data (Z.to_nat size)) in H |- * by lia. rewrite Z2Nat.id, Z.sub_diag in H |- * by lia. cbn [norm] in H |- *.
    rewrite Z.eqb_refl in H |- *. rewrite wanted_add in H.
    destruct (line_inv sw_after_data sw_after_data_almost_done sw_chunk_start 0 (drop (Z.to_nat size) l))
      as (skipped & eol & l' & E & H1 & H2 & H3); [done..|].
    exists (take (Z.to_nat size) l), skipped, eol, l'. rewrite <- E, take_drop, length_take, H3.
    split_and!; done || lia.
  - rewrite (run_data (length l)) in H by lia. rewrite drop_all in H. cbn [run_body] in H. rewrite wanted_add in H.
    cbn [norm] in H. rewrite (proj2 (Z.eqb_neq _ 0)) in H by lia. done.
Qed.

(** The header lines behind the last chunk, and the empty line. *)
Lemma trailer_inv l :
  wanted (run_body sw_trailer 0 l) ->
  exists hs eol rest, l = concat (map (fun h => h.1 ++ h.2) hs) ++ eol ++ rest /\
    Forall (fun h => h.1 <> [] /\ no_eol h.1 /\ eol_ok h.2) hs /\ eol_ok eol /\
    run_body sw_trailer 0 l = Complete [] rest.
Proof.
  induction l as [l IH] using (induction_ltof1 _ (@length Z)); intros H. unfold ltof in IH.
  destruct l as [|c l]; [done|]. destruct (decide (c = LF)) as [->|Nl].
  { exists [], [LF], l. split_and!; [done|constructor|by left|done]. }
  destruct (decide (c = CR)) as [->|Nc].
  { rewrite (run_move _ _ CR sw_trailer_almost_done 0) in H |- * by done. destruct l as [|c l]; [done|].
    destruct (decide (c = LF)) as [->|Nl'].
    - exists [], [CR; LF], l. split_and!; [done|constructor|by right|done].
    - apply wanted_next in H. unfold body_next in H. cbn [parse_chunked_step] in H. by rewrite (proj2 (Z.eqb_neq _ _) Nl') in H. }
  rewrite (run_move _ _ c sw_trailer_header 0) in H |- * by (done || cbn [parse_chunked_step]; by rewrite line_end_other).
  destruct (line_inv sw_trailer_header sw_trailer_header_almost_done sw_trailer 0 l)
    as (skipped & eol & l' & -> & H1 & H2 & H3); [done..|]. rewrite H3 in H |- *.
  destruct (IH l') as (hs & eol' & rest & -> & G1 & G2 & G3); [rewrite !length_cons, !length_app; lia|done|].
  exists ((c :: skipped, eol) :: hs), eol', rest. cbn [map concat fst snd]. rewrite <- !app_assoc.
  split_and!; [done| |done|done]. constructor; [|done]. split_and!; [done|by constructor|done].
Qed.

(** What the automaton has read is in the grammar. *)
Lemma run_inv l :
  bytes_ok l -> wanted (run_body sw_chunk_start 0 l) ->
  exists cs, Forall chunk_ok cs /\
    ((exists last rest, last_ok last /\ l = encode_body cs last ++ rest /\
        run_body sw_chunk_start 0 l = Complete (concat (map c_data cs)) rest) \/
     (exists ds size, ds <> [] /\ size_value 0 ds = Some size /\ l = concat (map encode_chunk cs) ++ ds /\
        run_body sw_chunk_start 0 l = More (concat (map c_data cs)) sw_chunk_size size)).
Proof.
  induction l as [l IH] using (induction_ltof1 _ (@length Z)); intros Hb H. unfold ltof in IH.
  destruct (first_digits_inv l Hb H) as (ds & size & Hne & Hsz & Hs & [[-> E]|(ext & eol & l' & -> & H16 & He & Hl & E)]).
  { exists []. split; [constructor|]. right. by exists ds, size. }
  rewrite E in H |- *. clear E. destruct (Z.eqb_spec size 0) as [Ez|Hpos].
  { subst size. destruct (trailer_inv l' H) as (hs & eol2 & rest & -> & G1 & G2 & G3). exists []. split; [constructor|].
    left. exists (mk_last ds ext eol hs eol2), rest. split; [by split|]. split; [|done].
    unfold encode_body, encode_last. cbn [map concat app l_digits l_extension l_eol l_headers l_eol2]. by rewrite <- !app_assoc. }
  destruct (data_inv size l' ltac:(lia) H) as (data & skipped & eol2 & l2 & -> & Hd & G1 & G2 & G3).
  rewrite G3 in H |- *. rewrite wanted_add in H.
  set (c := mk_chunk ds ext eol data skipped eol2).
  assert (Hc : chunk_ok c) by (split; cbn; rewrite ?Hd; try done; intros ->; cbn in Hd; lia).
  rewrite !bytes_ok_app in Hb.
  destruct (IH l2) as (cs & Hcs & Ho); [|tauto|done|].
  { destruct ds; [done|]. rewrite !length_app, length_cons. lia. }
  exists (c :: cs). split; [by constructor|]. unfold encode_body in *. cbn [map concat].
  replace (encode_chunk c) with (ds ++ ext ++ eol ++ data ++ skipped ++ eol2) by done.
  destruct Ho as [(last & rest & L1 & -> & ->)|(ds2 & size2 & L1 & L2 & -> & ->)]; cbn [add_data].
  - left. exists last, rest. rewrite <- !app_assoc. done.
  - right. exists ds2, size2. rewrite <- !app_assoc. done.
Qed.

(** * The length the client asks for *)

(** No byte brings the end nearer by more than one, and none ends the body
    before the last. *)
Lemma need_step st size ch :
  size_ok st size ->
  match body_next st size ch with
  | Move st' size' | Take st' size' => chunk_length st size - 1 <= chunk_length st' size' /\ size_ok st' size'
  | Finish => chunk_length st size = 1
  | Reject => True
  end.
Proof.
  intros Hs. pose proof (size_ok_bound _ _ Hs) as Hb. unfold size_limit, NGX_MAX_OFF_T_VALUE in Hb.
  destruct (step_ok st size ch Hs) as (r & Er & Hr). unfold body_next. rewrite Er.
  destruct r as [st' size'| | |]; [|subst st|..]; try done.
  - destruct (Z.ltb_spec size_limit size'); [done|]. destruct Hr as [Hok|]; [|lia]. split; [|done].
    destruct st; cbn [parse_chunked_step size_ok] in *; revert Er; split_step;
      try discriminate; try (intros [= <- <-]; cbn [chunk_length size_ok] in *; split_step; lia).
    all: destruct (chunk_digit ch) as [x|] eqn:Hd; [apply chunk_digit_bound in Hd|]; unfold int64;
      split_step; split_step; try discriminate; intros [= <- <-]; cbn [chunk_length size_ok] in *; split_step; lia.
  - cbn in Hs. split; [|apply norm_size_ok; unfold size_limit, NGX_MAX_OFF_T_VALUE; lia].
    cbn. destruct (Z.eqb_spec (size - 1) 0); cbn; lia.
  - subst size. destruct st; cbn [parse_chunked_step] in Er; revert Er; split_step; try discriminate; try done.
    all: destruct (chunk_digit ch) as [x|] eqn:Hd; unfold int64; split_step; split_step; discriminate.
Qed.

Lemma need_lower st size l d :
  size_ok st size -> run_body st size l = Complete d [] -> chunk_length st size <= Z.of_nat (length l).
Proof.
  revert st size d. induction l as [|ch l IH]; intros st size d Hs H; [discriminate H|].
  cbn [run_body length] in H |- *. pose proof (need_step st size ch Hs) as Hn.
  destruct (body_next st size ch) as [st' sz'|st' sz'| |]; try discriminate H.
  - destruct Hn as [Hn Hok]. specialize (IH st' sz' d Hok H). lia.
  - destruct Hn as [Hn Hok]. destruct (run_body st' sz' l) as [| d' r'|] eqn:E; try discriminate H.
    injection H as _ ->. specialize (IH st' sz' d' Hok E). lia.
  - injection H as _ ->. cbn. lia.
Qed.

(** A shortest end of the body. *)
Definition shortest_end (st : chunk_state) (size : Z) : list Z :=
  let stop := [LF; "0"%ch; LF; LF] in
  match st with
  | sw_chunk_start => ["0"%ch; LF; LF]
  | sw_chunk_size => if size =? 0 then [LF; LF] else LF :: replicate (Z.to_nat size) 0 ++ stop
  | sw_chunk_extension | sw_chunk_extension_almost_done => LF :: replicate (Z.to_nat size) 0 ++ stop
  | sw_chunk_data => replicate (Z.to_nat size) 0 ++ stop
  | sw_after_data | sw_after_data_almost_done => stop
  | sw_last_chunk_extension | sw_last_chunk_extension_almost_done
  | sw_trailer_header | sw_trailer_header_almost_done => [LF; LF]
  | sw_trailer | sw_trailer_almost_done => [LF]
  end.

Lemma shortest_end_run st size :
  size_ok st size -> (st = sw_chunk_size -> size <= NGX_MAX_OFF_T_VALUE / 16) ->
  Z.of_nat (length (shortest_end st size)) = chunk_length st size /\
  exists d, run_body st size (shortest_end st size) = Complete d [].
Proof.
  intros Hs H16. pose proof (size_ok_bound _ _ Hs) as Hb. set (stop := [LF; "0"%ch; LF; LF]).
  assert (Hdata : 0 < size -> exists d, run_body sw_chunk_data size (replicate (Z.to_nat size) 0 ++ stop) = Complete d []).
  { intros Hp. rewrite (run_data (Z.to_nat size)) by (rewrite ?length_app, ?length_replicate; lia).
    rewrite Z2Nat.id, Z.sub_diag by lia. cbn [norm]. rewrite Z.eqb_refl.
    rewrite drop_app_length' by (by rewrite length_replicate). eexists. reflexivity. }
  assert (Hlen : Z.of_nat (length (replicate (Z.to_nat size) 0 ++ stop)) = size + 4)
    by (rewrite length_app, length_replicate; cbn; lia).
  destruct st; cbn [size_ok shortest_end chunk_length] in *; try subst size; fold stop;
    try (split; [reflexivity|eexists; reflexivity]).
  - specialize (H16 eq_refl). destruct (Z.eqb_spec size 0) as [->|Hne]; cbn [negb]; [split; [done|by eexists]|].
    split; [cbn [length]; lia|]. destruct Hdata as [d Hd]; [lia|]. exists d. rewrite <- Hd.
    pose proof (run_line size [] [LF] (replicate (Z.to_nat size) 0 ++ stop)) as E. cbn [app] in E.
    rewrite E by (done || lia || by left). by rewrite (proj2 (Z.eqb_neq size 0)).
  - split; [cbn [length]; lia|]. destruct Hdata as [d Hd]; [lia|]. exists d. rewrite <- Hd.
    by apply run_move; [|lia].
  - split; [cbn [length]; lia|]. destruct Hdata as [d Hd]; [lia|]. exists d. rewrite <- Hd.
    by apply run_move; [|lia].
  - split; [lia|]. apply Hdata. lia.
Qed.

Lemma shortest_end_bytes st size : bytes_ok (shortest_end st size).
Proof.
  assert (H : forall n l, bytes_okb l = true -> bytes_ok (replicate n 0 ++ l)).
  { intros n l Hl. rewrite bytes_ok_app. split; [|by apply bytes_okb_true]. apply Forall_replicate. by split. }
  destruct st; cbn [shortest_end]; try (by apply bytes_okb_true); try (by apply H); try case_match;
    try (by apply bytes_okb_true); rewrite bytes_ok_cons; (split; [by split|by apply H]).
Qed.

(** * What the filter does with an input *)

(** A body in the chunked coding, and its data. *)
Definition body (data enc : list Z) : Prop :=
  exists cs l, Forall chunk_ok cs /\ last_ok l /\ data = concat (map c_data cs) /\ enc = encode_body cs l.

Lemma body_run_complete data enc rest :
  body data enc -> run_body sw_chunk_start 0 (enc ++ rest) = Complete data rest.
Proof. intros (cs & l & Hcs & Hl & -> & ->). by rewrite run_body_app, run_encoded. Qed.

Lemma complete_body l data rest :
  bytes_ok l -> run_body sw_chunk_start 0 l = Complete data rest -> exists enc, body data enc /\ l = enc ++ rest.
Proof.
  intros Hb E. destruct (run_inv l Hb) as (cs & Hcs & [(last & rest' & Hl & El & Er)|(ds & size & _ & _ & _ & Er)]);
    [by rewrite E|rewrite E in Er..]; [|done].
  injection Er as -> ->. exists (encode_body cs last). split; [|done]. by exists cs, last.
Qed.

(** The data are bytes of the input, in their order. *)
Lemma run_sublist st size l d rest : run_body st size l = Complete d rest -> d `sublist_of` l.
Proof.
  revert st size d. induction l as [|ch l IH]; intros st size d H; [done|]. cbn [run_body] in H.
  destruct (body_next st size ch) as [st' sz'|st' sz'| |]; [by apply sublist_cons, (IH st' sz')| | |done].
  - destruct (run_body st' sz' l) as [|d' r'|] eqn:E; try done. injection H as <- ->. by apply sublist_skip, (IH st' sz').
  - injection H as <- _. apply sublist_nil_l.
Qed.

(** What is known when the input has stopped before the end of the body. *)
Lemma run_more_waits l d st size :
  bytes_ok l -> run_body sw_chunk_start 0 l = More d st size ->
  (forall data enc rest, body data enc -> l <> enc ++ rest) /\
  (forall more data, body data (l ++ more) ->
     exists missing, data = d ++ missing /\ missing `sublist_of` more /\ chunk_length st size <= Z.of_nat (length more)) /\
  ((exists more data, body data (l ++ more) /\ chunk_length st size = Z.of_nat (length more)) \/
   (exists cs ds n, Forall chunk_ok cs /\ ds <> [] /\ size_value 0 ds = Some n /\ NGX_MAX_OFF_T_VALUE / 16 < n /\
      l = concat (map encode_chunk cs) ++ ds /\ d = concat (map c_data cs))).
Proof.
  intros Hb E. pose proof (run_body_ok sw_chunk_start 0 l eq_refl) as Hok. rewrite E in Hok. split_and!.
  - intros data enc rest Hbody ->. by rewrite (body_run_complete _ _ _ Hbody) in E.
  - intros more data Hbody. pose proof (body_run_complete _ _ [] Hbody) as Hc. rewrite app_nil_r, run_body_app, E in Hc.
    destruct (run_body st size more) as [|d2 r2|] eqn:E2; try done. injection Hc as <- ->.
    exists d2. split; [done|]. split; [by eapply run_sublist|by eapply need_lower].
  - destruct (decide (st = sw_chunk_size /\ NGX_MAX_OFF_T_VALUE / 16 < size)) as [[-> Hbig]|Hsmall].
    + right. destruct (run_inv l Hb) as (cs & Hcs & [(last & rest & _ & _ & Er)|(ds & n & Hne & Hn & El & Er)]);
        [by rewrite E|rewrite E in Er..]; [done|]. injection Er as -> ->. by exists cs, ds, n.
    + left. destruct (shortest_end_run st size Hok) as [Hl [d2 Hd2]].
      { intros ->. apply Z.nlt_ge. tauto. }
      exists (shortest_end st size), (d ++ d2). split; [|by rewrite Hl].
      destruct (complete_body (l ++ shortest_end st size) (d ++ d2) []) as (enc & Hbody & Ee).
      * rewrite bytes_ok_app. split; [done|apply shortest_end_bytes].
      * by rewrite run_body_app, E, Hd2.
      * rewrite app_nil_r in Ee. by rewrite Ee.
Qed.

(** The buffers are [bufs] and [b]; the filter takes what comes behind the body in a later
    buffer for another body, so that no body ends before [b]. *)
(** C34. For every sequence of bytes, in any buffers of which only the last may hold
    the end of a body, with every allocation and no limit of the size: the chunked
    filter outputs exactly the data of a body and the mark of its end, and leaves what
    is behind it, when the bytes start with a body of the grammar; it answers 400 only
    when no continuation makes them a body; otherwise all the data received are output,
    and rb->rest is the least number of bytes that can complete the body, unless the
    bytes end in the digits of a size above NGX_MAX_OFF_T_VALUE / 16, which is rejected
    with the next one. *)
Theorem chunked_filter_exact bufs b rb :
  let input := concat bufs ++ b in
  bytes_ok input -> Z.of_nat (length input) < 2 ^ 63 -> rb_rest rb = -1 ->
  (forall data enc rest, body data enc -> concat bufs <> enc ++ rest) ->
  exists r, ngx_http_request_body_chunked_filter all_alloc 0 true (bufs ++ [b]) rb = Ok r /\
    match r with
    | Status rc =>
        rc = NGX_HTTP_BAD_REQUEST /\ forall more data enc rest, body data enc -> input ++ more <> enc ++ rest
    | Filtered (rb', bufs', out) =>
        rb_content_length_n rb' = Z.of_nat (length (out_data out)) /\
        if has_last out then
          rb_rest rb' = 0 /\ exists enc rest, body (out_data out) enc /\ input = enc ++ rest /\
            bufs' = map (fun _ => []) bufs ++ [rest]
        else
          bufs' = map (fun _ => []) bufs ++ [[]] /\
          (forall data enc rest, body data enc -> input <> enc ++ rest) /\
          (forall more data, body data (input ++ more) ->
             exists missing, data = out_data out ++ missing /\ missing `sublist_of` more /\
               rb_rest rb' <= Z.of_nat (length more)) /\
          ((exists more data, body data (input ++ more) /\ rb_rest rb' = Z.of_nat (length more)) \/
           (exists cs ds n, Forall chunk_ok cs /\ ds <> [] /\ size_value 0 ds = Some n /\ NGX_MAX_OFF_T_VALUE / 16 < n /\
              input = concat (map encode_chunk cs) ++ ds /\ out_data out = concat (map c_data cs)))
    end.
Proof.
  intros input Hb Hlen Hr Hend.
  assert (Hm : unfinished (run_body sw_chunk_start 0 (concat bufs))).
  { destruct (run_body sw_chunk_start 0 (concat bufs)) as [|d rest|] eqn:E; try done.
    destruct (complete_body (concat bufs) d rest) as (enc & Hbody & Ee); [exact (proj1 (proj1 (bytes_ok_app (concat bufs) b) Hb))|done|].
    by destruct (Hend _ _ _ Hbody Ee). }
  pose proof (filter_chain_refines bufs b 3 sw_chunk_start 0 0 0 0 eq_refl ltac:(lia) Hlen Hm) as H. cbn [norm] in H.
  unfold ngx_http_request_body_chunked_filter. rewrite Hr. change (-1 =? -1) with true. cbn [negb]. fold input in H.
  destruct (run_body sw_chunk_start 0 input) as [d st size|d rest|d] eqn:E; cbn [chain_refines] in H.
  - destruct H as (out & -> & <- & Hlast). eexists. split; [done|]. cbn [rb_content_length_n rb_rest]. rewrite Hlast.
    split; [lia|]. split; [done|]. by apply run_more_waits.
  - destruct H as (len & out & -> & <- & Hlast). eexists. split; [done|]. cbn [rb_content_length_n rb_rest]. rewrite Hlast.
    split; [lia|]. split; [done|]. destruct (complete_body _ _ _ Hb E) as (enc & Hbody & Ee). by exists enc, rest.
  - rewrite H. eexists. split; [done|]. split; [done|]. intros more data enc rest Hbody Ee.
    apply (f_equal (run_body sw_chunk_start 0)) in Ee. by rewrite (body_run_complete _ _ _ Hbody), run_body_app, E in Ee.
Qed.

Lemma chunked_filter_exact_witness :
  exists r, ngx_http_request_body_chunked_filter all_alloc 0 true ([bytes "2"] ++ [LF :: bytes "ab" ++ [CR; LF]])
      (mk_body (-1) (mk_chunked sw_chunk_start 0 0) (-1)) = Ok r /\
    match r with
    | Status _ => False
    | Filtered (rb', _, out) =>
        out_data out = bytes "ab" /\ rb_rest rb' = 3 /\
        forall more data, body data ((bytes "2" ++ LF :: bytes "ab" ++ [CR; LF]) ++ more) ->
          exists missing, data = bytes "ab" ++ missing /\ missing `sublist_of` more /\ 3 <= Z.of_nat (length more)
    end.
Proof.
  destruct (chunked_filter_exact [bytes "2"] (LF :: bytes "ab" ++ [CR; LF]) (mk_body (-1) (mk_chunked sw_chunk_start 0 0) (-1)))
    as (r & E & H).
  - apply bytes_okb_true. by vm_compute.
  - by vm_compute.
  - done.
  - intros data enc rest Hbody Ee. apply (f_equal (run_body sw_chunk_start 0)) in Ee.
    rewrite (body_run_complete _ _ _ Hbody) in Ee. vm_compute in Ee. discriminate Ee.
  - exists r. split; [exact E|]. vm_compute in E. injection E as <-. split; [done|]. split; [done|].
    destruct H as (_ & _ & _ & H & _). exact H.
Defined.
