(* ===== verification/Times.v ===== *)
(** Component "times": the calendar functions of core/ngx_times.c (ngx_gmtime,
    ngx_http_time, ngx_http_cookie_time) and the parser of core/ngx_parse_time.c,
    with the calendar they are measured against.

    The theory of the calendar is here; TimesText has the texts. *)

From stdpp Require Import base numbers list option strings.
From Stdlib Require Import ZArith Lia.
From S2P Require Import Prelude Sprintf.
Local Open Scope Z_scope.

(** * Definitions *)

(** ** Broken-down time: the fields of [struct tm] the code uses *)

Record ngx_tm_t : Type := mk_tm {
  ngx_tm_sec : Z;
  ngx_tm_min : Z;
  ngx_tm_hour : Z;
  ngx_tm_mday : Z;
  ngx_tm_mon : Z;
  ngx_tm_year : Z;
  ngx_tm_wday : Z
}.

(** ** ngx_gmtime *)

(** The days since March 1, 1 BC of the first day of the March-based [year]. *)
Definition year_start (year : Z) : Z :=
  to_u64 (365 * year + year / 4 - year / 100 + year / 400).

Definition leap (year : Z) : Z :=
  if (year mod 4 =? 0) && (negb (year mod 100 =? 0) || (year mod 400 =? 0)) then 1 else 0.

(** From the days since March 1, 1 BC: the year and the day in it. *)
Definition gm_year (days : Z) : Z * Z :=
  let year := to_u64 ((days + 2) * 400) / (365 * 400 + 100 - 4 + 1) in
  let yday := to_i64 (to_u64 (days - year_start year)) in
  if yday <? 0 then (to_u64 (year - 1), to_i64 (to_u64 (365 + leap year + yday)))
  else (year, yday).

Definition ngx_gmtime (t : Z) : outcome ngx_tm_t :=
  let n := to_u64 t in
  let days := n / 86400 in
  let wday := (4 + days) mod 7 in
  let n := n mod 86400 in
  let hour := n / 3600 in
  let n := n mod 3600 in
  let min := n / 60 in
  let sec := n mod 60 in
  let days := to_u64 (days - (31 + 28) + 719527) in
  let '(year, yday) := gm_year days in
  shifted ← int64 (yday + 31);
  scaled ← int64 (shifted * 10);
  let mon := to_u64 (Z.quot scaled 306) in
  let mday := to_u64 (yday - (to_u64 (367 * mon) / 12 - 30) + 1) in
  let '(year, mon) :=
    if 306 <=? yday then (to_u64 (year + 1), to_u64 (mon - 10)) else (year, to_u64 (mon + 2)) in
  Ok (mk_tm (to_i32 sec) (to_i32 min) (to_i32 hour) (to_i32 mday) (to_i32 mon) (to_i32 year)
        (to_i32 wday)).

(** ** ngx_http_time and ngx_http_cookie_time *)

Definition week : list (list Z) :=
  map format ["Sun"; "Mon"; "Tue"; "Wed"; "Thu"; "Fri"; "Sat"]%string.
Definition months : list (list Z) :=
  map format ["Jan"; "Feb"; "Mar"; "Apr"; "May"; "Jun";
              "Jul"; "Aug"; "Sep"; "Oct"; "Nov"; "Dec"]%string.

(** [names[i]] for an array of strings. *)
Definition name_at (names : list (list Z)) (i : Z) : outcome (list Z) :=
  if i <? 0 then UB else match names !! Z.to_nat i with Some s => Ok s | None => UB end.

(** The format of ngx_http_time, which ngx_time_update has too. *)
Definition sprint_http_time (tm : ngx_tm_t) : outcome (list Z) :=
  wday ← name_at week (ngx_tm_wday tm);
  mon ← name_at months (ngx_tm_mon tm - 1);
  ngx_sprintf "%s, %02d %s %4d %02d:%02d:%02d GMT"
    [VPtr wday; V32 (ngx_tm_mday tm); VPtr mon; V32 (ngx_tm_year tm);
     V32 (ngx_tm_hour tm); V32 (ngx_tm_min tm); V32 (ngx_tm_sec tm)].

Definition ngx_http_time (t : Z) : outcome (list Z) :=
  tm ← ngx_gmtime t; sprint_http_time tm.

Definition ngx_http_cookie_time (t : Z) : outcome (list Z) :=
  tm ← ngx_gmtime t;
  wday ← name_at week (ngx_tm_wday tm);
  mon ← name_at months (ngx_tm_mon tm - 1);
  ngx_sprintf
    (if 2037 <? ngx_tm_year tm then "%s, %02d-%s-%d %02d:%02d:%02d GMT"
     else "%s, %02d-%s-%02d %02d:%02d:%02d GMT")
    [VPtr wday; V32 (ngx_tm_mday tm); VPtr mon;
     V32 (if 2037 <? ngx_tm_year tm then ngx_tm_year tm else Z.rem (ngx_tm_year tm) 100);
     V32 (ngx_tm_hour tm); V32 (ngx_tm_min tm); V32 (ngx_tm_sec tm)].

Example http_time_1 : ngx_http_time 1511800000 = Ok (bytes "Mon, 27 Nov 2017 16:26:40 GMT").
Proof. vm_compute. reflexivity. Qed.
Example cookie_time_1 : ngx_http_cookie_time 2145916799 = Ok (bytes "Thu, 31-Dec-37 23:59:59 GMT").
Proof. vm_compute. reflexivity. Qed.
Example cookie_time_2 : ngx_http_cookie_time 2145916800 = Ok (bytes "Fri, 01-Jan-2038 00:00:00 GMT").
Proof. vm_compute. reflexivity. Qed.
(** A time before the epoch is no time for ngx_gmtime. *)
Example gmtime_negative : option_map ngx_tm_year (match ngx_gmtime (-1) with Ok tm => Some tm | _ => None end)
  = Some 438498967.
Proof. vm_compute. reflexivity. Qed.

(** * The calendar *)

Record date : Type := mk_date { d_year : Z; d_month : Z; d_day : Z }.

Definition month_days (year month : Z) : Z :=
  if month =? 2 then 28 + leap year
  else if (month =? 4) || (month =? 6) || (month =? 9) || (month =? 11) then 30
  else 31.

Definition date_ok (d : date) : Prop :=
  1 <= d_month d <= 12 /\ 1 <= d_day d <= month_days (d_year d) (d_month d).

(** The day after [d]. *)
Definition next_day (d : date) : date :=
  let '(mk_date y m k) := d in
  if k <? month_days y m then mk_date y m (k + 1)
  else if m <? 12 then mk_date y (m + 1) 1
  else mk_date (y + 1) 1 1.

Definition epoch : date := mk_date 1970 1 1.

(** The date [days] days after the epoch. *)
Definition date_of (days : Z) : date := Nat.iter (Z.to_nat days) next_day epoch.

(** ** The number of a day *)

(** The year that begins in March, and the month in it. *)
Definition march_year (d : date) : Z := if d_month d <=? 2 then d_year d - 1 else d_year d.
Definition march_month (d : date) : Z := if d_month d <=? 2 then d_month d + 10 else d_month d - 2.

Definition leaps (year : Z) : Z := year / 4 - year / 100 + year / 400.

(** The days before a month, from March 1. *)
Definition month_start (m : Z) : Z := 367 * m / 12 - 30.

Definition day_number (d : date) : Z :=
  365 * march_year d + leaps (march_year d) + month_start (march_month d) + d_day d - 1 - 719468.

Lemma leaps_step y : leaps y - leaps (y - 1) = leap y.
Proof.
  unfold leaps, leap. tests; Z.div_mod_to_equations; lia.
Qed.

Lemma leap_range y : 0 <= leap y <= 1.
Proof. unfold leap. destruct (_ && _); lia. Qed.

(** One goal for each month. *)
Ltac each_month m H :=
  assert (m = 1 \/ m = 2 \/ m = 3 \/ m = 4 \/ m = 5 \/ m = 6 \/ m = 7 \/ m = 8 \/ m = 9 \/
    m = 10 \/ m = 11 \/ m = 12) as H by lia;
  repeat (destruct H as [H|H]); rewrite H in *.

(** Reduce the operations on literals, the tests and the tables of a known month. *)
Ltac literal t :=
  lazymatch t with
  | Z.pos _ + Z.pos _ => idtac | Z.pos _ - Z.pos _ => idtac | Z.pos _ =? Z.pos _ => idtac
  | Z.pos _ <=? Z.pos _ => idtac | Z.pos _ <? Z.pos _ => idtac
  end.
Ltac month_step :=
  match goal with
  | |- context [?t] => literal t; let v := eval vm_compute in t in change t with v
  | H : context [?t] |- _ => literal t; let v := eval vm_compute in t in change t with v in H
  end.
Ltac month_tables :=
  unfold day_number, march_year, march_month, month_days, month_start, next_day in *;
  cbn [d_year d_month d_day] in *;
  repeat (month_step; cbn [orb andb] in *; cbn iota in * ).

Ltac last_day k :=
  match goal with |- context [k <? ?b] => destruct (Z.ltb_spec k b) end.

Lemma next_day_ok d : date_ok d -> date_ok (next_day d).
Proof.
  destruct d as [y m k]. unfold date_ok. cbn [d_month d_day d_year]. intros [Hm Hk].
  pose proof (leap_range y) as Hl. pose proof (leap_range (y + 1)) as Hl'.
  each_month m H; month_tables; last_day k; cbn [d_month d_day d_year];
    month_tables; lia.
Qed.

(** The day numbers count the days. *)
Lemma day_number_next d : date_ok d -> day_number (next_day d) = day_number d + 1.
Proof.
  destruct d as [y m k]. unfold date_ok. cbn [d_month d_day d_year]. intros [Hm Hk].
  pose proof (leap_range y) as Hl. pose proof (leaps_step y) as Hs.
  each_month m H; month_tables; last_day k; month_tables;
    rewrite ?Z.add_simpl_r; Z.div_mod_to_equations; lia.
Qed.

Lemma date_of_succ n : 0 <= n -> date_of (n + 1) = next_day (date_of n).
Proof. intros Hn. unfold date_of. by replace (Z.to_nat (n + 1)) with (S (Z.to_nat n)) by lia. Qed.

Lemma date_of_ok n : 0 <= n -> date_ok (date_of n) /\ day_number (date_of n) = n.
Proof.
  revert n. apply natlike_ind; [by split; vm_compute|]. intros n Hn [Hok Hd].
  rewrite <- Z.add_1_r, date_of_succ by done. split; [by apply next_day_ok|].
  rewrite day_number_next by done. lia.
Qed.

(** * ngx_gmtime computes the calendar *)

Lemma leaps_400 a b : leaps (400 * a + b) = 97 * a + leaps b.
Proof. unfold leaps. Z.div_mod_to_equations; lia. Qed.

Lemma leap_400 a b : leap (400 * a + b) = leap b.
Proof.
  unfold leap. rewrite (Z.add_comm (400 * a)).
  replace (b + 400 * a) with (b + (100 * a) * 4) by lia. rewrite Z_mod_plus_full.
  replace (b + (100 * a) * 4) with (b + (4 * a) * 100) by lia. rewrite Z_mod_plus_full.
  replace (b + (4 * a) * 100) with (b + a * 400) by lia. by rewrite Z_mod_plus_full.
Qed.

(** In a cycle of 400 years the estimate of the year is at most one too large. *)
Lemma cycle_estimate b :
  0 <= b < 400 ->
  146097 * b <= (365 * b + leaps b + 2) * 400 /\
  (365 * b + leaps b + 365 + leap (b + 1) + 1) * 400 < 146097 * (b + 2).
Proof.
  apply (range_decide 400 (fun b => 146097 * b <= (365 * b + leaps b + 2) * 400 /\
    (365 * b + leaps b + 365 + leap (b + 1) + 1) * 400 < 146097 * (b + 2))).
  vm_compute. reflexivity.
Qed.

(** The days of a March-based year, as far as 64 bits hold them. *)
Definition in_year (year yday : Z) : Prop :=
  0 <= year < 2 ^ 40 /\ 0 <= yday < 365 + leap (year + 1).

Lemma year_estimate year yday :
  in_year year yday ->
  let q := (365 * year + leaps year + yday + 2) * 400 / 146097 in q = year \/ q = year + 1.
Proof.
  intros [Hy Hd] q. set (a := year / 400). set (b := year mod 400).
  assert (E : year = 400 * a + b) by (subst a b; Z.div_mod_to_equations; lia).
  assert (Hb : 0 <= b < 400) by (apply Z.mod_pos_bound; lia).
  destruct (cycle_estimate b Hb) as [H1 H2]. rewrite E in Hd. rewrite <- Z.add_assoc, leap_400 in Hd.
  assert (Hq : 400 * a + b <= q < 400 * a + b + 2); [|lia].
  subst q. rewrite E, leaps_400. split; [apply Z.div_le_lower_bound; lia|].
  apply Z.div_lt_upper_bound; lia.
Qed.

Lemma year_start_leaps year : 0 <= year < 2 ^ 41 -> year_start year = 365 * year + leaps year.
Proof.
  intros H. unfold year_start, leaps. rewrite to_u64_id; [lia|]. Z.div_mod_to_equations; lia.
Qed.

Lemma leaps_range y : 0 <= y -> 0 <= leaps y <= y.
Proof. intros H. unfold leaps. Z.div_mod_to_equations; lia. Qed.

Lemma gm_year_spec year yday :
  in_year year yday -> gm_year (365 * year + leaps year + yday) = (year, yday).
Proof.
  intros H. pose proof (year_estimate _ _ H) as Hq. destruct H as [Hy Hd].
  pose proof (leaps_range year ltac:(lia)) as Hl. pose proof (leap_range (year + 1)) as Hl1.
  pose proof (leaps_step (year + 1)) as Hs. rewrite Z.add_simpl_r in Hs.
  unfold gm_year. change (365 * 400 + 100 - 4 + 1) with 146097. cbn zeta in *.
  rewrite (to_u64_id (_ * 400)) by lia.
  destruct Hq as [-> | ->]; rewrite year_start_leaps by lia.
  - replace (365 * year + leaps year + yday - (365 * year + leaps year)) with yday by lia.
    rewrite to_i64_u64 by lia. by rewrite (proj2 (Z.ltb_ge _ _)) by lia.
  - replace (365 * year + leaps year + yday - _) with (yday - 365 - leap (year + 1)) by lia.
    rewrite to_i64_u64 by lia. rewrite (proj2 (Z.ltb_lt _ _)) by lia.
    replace (365 + leap (year + 1) + (yday - 365 - leap (year + 1))) with yday by lia.
    rewrite to_i64_u64, to_u64_id by lia. f_equal. lia.
Qed.

(** The month and the day of a day of the year. *)
Definition march_day (m k : Z) : Z := month_start m + k - 1.

Lemma month_day_spec m k :
  1 <= m <= 12 -> 1 <= k <= month_start (m + 1) - month_start m ->
  march_day m k <= 365 -> 0 <= march_day m k /\ Z.quot ((march_day m k + 31) * 10) 306 = m /\
  (306 <=? march_day m k) = (11 <=? m).
Proof.
  intros Hm Hk H365.
  assert (Hk' : 0 <= k < 32).
  { assert (forall m, 1 <= m <= 12 -> month_start (m + 1) - month_start m <= 31) as G.
    { intros x Hx. unfold month_start. Z.div_mod_to_equations; lia. }
    specialize (G m Hm). lia. }
  unfold march_day in *. assert (0 <= month_start m) by (unfold month_start; Z.div_mod_to_equations; lia).
  rewrite Z.quot_div_nonneg by lia.
  each_month m H'; unfold month_start in *; cbn in Hk.
  all: split; [lia|split; [Z.div_mod_to_equations; lia|]].
  all: repeat destruct_test; try done; exfalso; Z.div_mod_to_equations; lia.
Qed.

(** ** Dates as days of a March-based year *)

Lemma date_march d :
  date_ok d -> 1 <= d_year d < 2 ^ 40 ->
  let m := march_month d in let yday := march_day m (d_day d) in
  in_year (march_year d) yday /\ 1 <= m <= 12 /\ 1 <= d_day d <= month_start (m + 1) - month_start m /\
  day_number d + 719468 = 365 * march_year d + leaps (march_year d) + yday /\
  d_month d = (if 11 <=? m then m - 10 else m + 2) /\
  d_year d = (if 11 <=? m then march_year d + 1 else march_year d).
Proof.
  destruct d as [y m k]. unfold date_ok. cbn [d_month d_day d_year]. intros [Hm Hk] Hy.
  pose proof (leap_range y) as Hl. pose proof (leap_range (y + 1)) as Hl1. unfold in_year, march_day.
  cbv zeta. each_month m H; month_tables; rewrite ?Z.sub_add; Z.div_mod_to_equations; lia.
Qed.

(** ** The time of day, the date and the day of the week of a time *)

Definition tm_of (t : Z) : ngx_tm_t :=
  let d := date_of (t / 86400) in
  mk_tm (t mod 60) (t / 60 mod 60) (t / 3600 mod 24) (d_day d) (d_month d) (d_year d)
    ((4 + t / 86400) mod 7).

Lemma to_i32_id z : - 2 ^ 31 <= z < 2 ^ 31 -> to_i32 z = z.
Proof. intros H. unfold to_i32. rewrite Z.mod_small; lia. Qed.

Lemma date_year_bound d :
  date_ok d -> 0 <= day_number d -> 1970 <= d_year d <= 1971 + day_number d / 365.
Proof.
  destruct d as [y m k]. unfold date_ok. cbn [d_month d_day d_year]. intros [Hm Hk].
  pose proof (leap_range y) as Hl. unfold leaps, day_number, march_year, march_month, month_start in *.
  cbn [d_month d_day d_year]. each_month m H; month_tables; unfold leaps in *; Z.div_mod_to_equations; lia.
Qed.

(** The year of a date from its number. *)
Lemma leaps_mono a b : a <= b -> leaps a <= leaps b.
Proof.
  intros H. unfold leaps.
  assert (G : forall y, leaps (y - 1) <= leaps y).
  { intros y. pose proof (leaps_step y). pose proof (leap_range y). lia. }
  unfold leaps in G. replace b with (a + (b - a)) by lia.
  generalize (b - a) (Zle_minus_le_0 _ _ H). apply natlike_ind; [by rewrite Z.add_0_r|].
  intros k Hk IH. specialize (G (a + Z.succ k)). replace (a + Z.succ k - 1) with (a + k) in G by lia. lia.
Qed.

Lemma date_year_le d y : date_ok d -> day_number d < day_number (mk_date (y + 1) 1 1) -> d_year d <= y.
Proof.
  destruct d as [y' m k]. unfold date_ok. cbn [d_year d_month d_day]. intros [Hm Hk] H.
  destruct (Z.le_gt_cases y' y) as [|Hy]; [done|exfalso].
  pose proof (leap_range y') as Hl. pose proof (leaps_mono y (y' - 1) ltac:(lia)) as H1.
  pose proof (leaps_mono y y' ltac:(lia)) as H2. unfold day_number in H at 2.
  unfold march_year, march_month in H. cbn [d_year d_month d_day] in H. month_tables.
  replace (y + 1 - 1) with y in H by lia. each_month m E; month_tables; Z.div_mod_to_equations; lia.
Qed.

(** The times before the year 2^31, which is no [int]. *)
Definition gm_time_ok (t : Z) : Prop := 0 <= t < 67767976233532800.

Lemma gm_time_bound : day_number (mk_date (2 ^ 31) 1 1) * 86400 = 67767976233532800.
Proof. reflexivity. Qed.

Lemma time_date t :
  gm_time_ok t -> let d := date_of (t / 86400) in
  date_ok d /\ day_number d = t / 86400 /\ 1970 <= d_year d < 2 ^ 31.
Proof.
  intros Ht d. unfold gm_time_ok in Ht. assert (Hn : 0 <= t / 86400) by (apply Z.div_pos; lia).
  destruct (date_of_ok (t / 86400)) as [Hok Hd]; [done|]. fold d in Hok, Hd.
  pose proof (date_year_bound d Hok ltac:(lia)) as Hy. split_and!; [done..|lia|].
  enough (d_year d <= 2 ^ 31 - 1) by lia. apply date_year_le; [done|]. rewrite Z.sub_add.
  enough (t / 86400 * 86400 < day_number (mk_date (2 ^ 31) 1 1) * 86400) by lia. rewrite gm_time_bound.
  pose proof (Z.div_mod t 86400 ltac:(lia)). pose proof (Z.mod_pos_bound t 86400 ltac:(lia)). lia.
Qed.

Lemma time_fields t :
  ((t mod 86400) mod 3600) mod 60 = t mod 60 /\ (t mod 86400) mod 3600 / 60 = t / 60 mod 60 /\
  t mod 86400 / 3600 = t / 3600 mod 24.
Proof. Z.div_mod_to_equations; lia. Qed.

Lemma gmtime_spec t : gm_time_ok t -> ngx_gmtime t = Ok (tm_of t).
Proof.
  intros Ht. destruct (time_date t Ht) as (Hok & Hd & Hy). set (d := date_of (t / 86400)) in *.
  destruct (date_march d Hok ltac:(lia)) as (Hin & Hm & Hk & Hday & Hmon & Hyear).
  unfold gm_time_ok in Ht. unfold ngx_gmtime. rewrite (to_u64_id t) by lia. cbv zeta.
  assert (Hn : 0 <= t / 86400 <= t) by (Z.div_mod_to_equations; lia).
  replace (t / 86400 - (31 + 28) + 719527) with (t / 86400 + 719468) by lia.
  rewrite (to_u64_id (t / 86400 + _)), <- Hd, Hday, gm_year_spec by (done || lia). rewrite Hd.
  set (m := march_month d) in *. set (yday := march_day m (d_day d)) in *.
  destruct Hin as [Hmy Hyd]. pose proof (leap_range (march_year d + 1)).
  destruct (month_day_spec m (d_day d) Hm Hk ltac:(fold yday; lia)) as (H0 & Eq & El). fold yday in H0, Eq, El.
  rewrite (int64_ok (yday + 31)) by lia. cbn [mbind outcome_bind].
  rewrite int64_ok by lia. cbn [mbind outcome_bind]. rewrite Eq, El, (to_u64_id m), (to_u64_id (367 * m)) by lia.
  assert (1 <= d_day d <= 400) by (unfold month_start in *; Z.div_mod_to_equations; lia).
  replace (yday - (367 * m / 12 - 30) + 1) with (d_day d) by (unfold yday, march_day, month_start; lia).
  rewrite (to_u64_id (d_day d)) by lia.
  unfold tm_of. fold d. rewrite Hmon, Hyear in *. destruct (time_fields t) as (-> & -> & ->).
  pose proof (Z.mod_pos_bound t 60). pose proof (Z.mod_pos_bound (t / 60) 60).
  pose proof (Z.mod_pos_bound (t / 3600) 24). pose proof (Z.mod_pos_bound (4 + t / 86400) 7).
  destruct (Z.leb_spec 11 m); rewrite !to_u64_id by lia; rewrite !to_i32_id by lia; done.
Qed.

(** C27. The closed formulas of ngx_gmtime give, for every time from the epoch to
    the end of the year 2^31 - 1, the largest int, the date that counting the days of
    the Gregorian calendar from the epoch gives, with the day of the week and the time
    of day; no operation overflows. *)
Theorem ngx_gmtime_correct t :
  0 <= t < day_number (mk_date (2 ^ 31) 1 1) * 86400 -> ngx_gmtime t = Ok (tm_of t).
Proof. rewrite gm_time_bound. apply gmtime_spec. Qed.

Lemma ngx_gmtime_correct_witness : ngx_gmtime 1511800000 = Ok (mk_tm 40 26 16 27 11 2017 1).
Proof.
  transitivity (Ok (tm_of 1511800000)); [apply ngx_gmtime_correct; split; [discriminate|reflexivity]|].
  vm_compute. reflexivity.
Defined.

Lemma date_number_lt d y :
  date_ok d -> d_year d <= y -> day_number d < day_number (mk_date (y + 1) 1 1).
Proof.
  destruct d as [y' m k]. unfold date_ok. cbn [d_year d_month d_day]. intros [Hm Hk] Hy.
  pose proof (leap_range y') as Hl. pose proof (leaps_step y') as Hs.
  pose proof (leaps_mono y' y ltac:(lia)) as H1. unfold day_number at 2.
  unfold march_year, march_month. cbn [d_year d_month d_day]. month_tables.
  replace (y + 1 - 1) with y by lia. each_month m E; month_tables; Z.div_mod_to_equations; lia.
Qed.

Lemma time_year t y :
  gm_time_ok t -> t < day_number (mk_date (y + 1) 1 1) * 86400 -> d_year (date_of (t / 86400)) <= y.
Proof.
  intros Ht H. destruct (time_date t Ht) as (Hok & Hd & _). apply date_year_le; [done|].
  rewrite Hd. Z.div_mod_to_equations; lia.
Qed.
