(* ===== verification/TimesText.v ===== *)
(** Component "times", continued: ngx_parse_http_time of core/ngx_parse_time.c, and that
    the tests and the formula at its end are those of the calendar. *)

From stdpp Require Import base numbers list option strings.
From Stdlib Require Import ZArith Lia.
From S2P Require Import Prelude Atoi Sprintf SprintfFormat Times.
Local Open Scope Z_scope.

(** * Definitions *)

(** A step of the parser: [None] is [return NGX_ERROR]. *)
Abbreviation parse_step A := (outcome (option A)).

Definition step_bind {A B} (m : parse_step A) (k : A -> parse_step B) : parse_step B :=
  o ← m; match o with Some a => k a | None => Ok None end.

Notation "x ←? m ; k" := (step_bind m (fun x => k))
  (at level 20, m at level 100, k at level 200, right associativity).
Notation "' p ←? m ; k" := (step_bind m (fun x => match x with p => k end))
  (at level 20, p pattern, m at level 100, k at level 200, right associativity).

Inductive time_fmt : Type := no | rfc822 | rfc850 | isoc.

#[export] Instance time_fmt_eq_dec : EqDecision time_fmt.
Proof. solve_decision. Defined.

(** The pointer [p] is an offset in the object [m]; [end] is the offset [e]. *)

(** The loop that looks for a comma or a space; [k] is [e - p]. *)
Fixpoint find_separator (m : list Z) (p k : nat) : outcome (nat * time_fmt) :=
  match k with
  | O => Ok (p, no)
  | S k' =>
      c ← deref m p;
      if c =? ","%ch then Ok (p, no)
      else if c =? " "%ch then Ok (p, isoc)
      else find_separator m (S p) k'
  end.

Fixpoint skip_date_spaces (m : list Z) (p k : nat) : outcome nat :=
  match k with
  | O => Ok p
  | S k' => c ← deref m p; if negb (c =? " "%ch) then Ok p else skip_date_spaces m (S p) k'
  end.

(** [p[0] < '0' || p[0] > '9' || ... || p[n - 1] < '0' || p[n - 1] > '9'] *)
Fixpoint not_digits (m : list Z) (p n : nat) : outcome bool :=
  match n with
  | O => Ok false
  | S n' =>
      c ← deref m p;
      if (c <? "0"%ch) || ("9"%ch <? c) then Ok true else not_digits m (S p) n'
  end.

(** Numbers of two and of four digits. *)
Definition number2 (m : list Z) (p : nat) : parse_step Z :=
  b ← not_digits m p 2;
  if (b : bool) then Ok None
  else c0 ← deref m p; c1 ← deref m (p + 1);
       Ok (Some ((c0 - "0"%ch) * 10 + c1 - "0"%ch)).

Definition number4 (m : list Z) (p : nat) : parse_step Z :=
  b ← not_digits m p 4;
  if (b : bool) then Ok None
  else c0 ← deref m p; c1 ← deref m (p + 1); c2 ← deref m (p + 2); c3 ← deref m (p + 3);
       Ok (Some ((c0 - "0"%ch) * 1000 + (c1 - "0"%ch) * 100 + (c2 - "0"%ch) * 10 + c3 - "0"%ch)).

(** [if ( *p++ != c) return NGX_ERROR] *)
Definition expect_char (m : list Z) (p : nat) (c : Z) : parse_step nat :=
  c' ← deref m p; if negb (c' =? c) then Ok None else Ok (Some (S p)).

(** The day of the formats other than asctime: [if (fmt != isoc) { ... }] *)
Definition parse_day (m : list Z) (p e : nat) (fmt : time_fmt) (day : Z) : parse_step (Z * nat * time_fmt) :=
  match fmt with
  | isoc => Ok (Some (day, p, fmt))
  | _ =>
      day ←? number2 m p;
      c ← deref m (p + 2);
      if c =? " "%ch then
        if Z.of_nat e - Z.of_nat (p + 2) <? 18 then Ok None else Ok (Some (day, (p + 3)%nat, rfc822))
      else if c =? "-"%ch then Ok (Some (day, (p + 3)%nat, rfc850))
      else Ok None
  end.

(** The switch on the first letter of the month. *)
Definition parse_month (m : list Z) (p : nat) : parse_step Z :=
  c ← deref m p;
  if c =? "J"%ch then
    c1 ← deref m (p + 1);
    if c1 =? "a"%ch then Ok (Some 0)
    else c2 ← deref m (p + 2); Ok (Some (if c2 =? "n"%ch then 5 else 6))
  else if c =? "F"%ch then Ok (Some 1)
  else if c =? "M"%ch then c2 ← deref m (p + 2); Ok (Some (if c2 =? "r"%ch then 2 else 4))
  else if c =? "A"%ch then c1 ← deref m (p + 1); Ok (Some (if c1 =? "p"%ch then 3 else 7))
  else if c =? "S"%ch then Ok (Some 8)
  else if c =? "O"%ch then Ok (Some 9)
  else if c =? "N"%ch then Ok (Some 10)
  else if c =? "D"%ch then Ok (Some 11)
  else Ok None.

(** After the month: the separator, the year of two formats, the day of the third. *)
Definition parse_year (m : list Z) (p e : nat) (fmt : time_fmt) (day year : Z) : parse_step (Z * Z * nat) :=
  match fmt with
  | rfc822 =>
      p ←? expect_char m p " "%ch; year ←? number4 m p; Ok (Some (day, year, (p + 4)%nat))
  | rfc850 =>
      p ←? expect_char m p "-"%ch; year ←? number2 m p;
      Ok (Some (day, year + (if year <? 70 then 2000 else 1900), (p + 2)%nat))
  | no => Ok (Some (day, year, S p))
  | isoc =>
      let p := S p in
      c ← deref m p;
      let p := if c =? " "%ch then S p else p in
      b ← not_digits m p 1;
      if (b : bool) then Ok None
      else
        c ← deref m p;
        let day := c - "0"%ch in
        let p := S p in
        c ← deref m p;
        '(day, p) ←?
          (if negb (c =? " "%ch) then
             b ← not_digits m p 1;
             if (b : bool) then Ok None else Ok (Some (day * 10 + c - "0"%ch, S p))
           else Ok (Some (day, p)));
        if Z.of_nat e - Z.of_nat p <? 14 then Ok None else Ok (Some (day, year, p))
  end.

(** " HH:MM:SS" *)
Definition parse_clock (m : list Z) (p : nat) : parse_step (Z * Z * Z * nat) :=
  p ←? expect_char m p " "%ch;
  hour ←? number2 m p;
  p ←? expect_char m (p + 2) ":"%ch;
  min ←? number2 m p;
  p ←? expect_char m (p + 2) ":"%ch;
  sec ←? number2 m p;
  Ok (Some (hour, min, sec, p)).

(** The year of asctime comes last. *)
Definition parse_last_year (m : list Z) (p : nat) (fmt : time_fmt) (year : Z) : parse_step Z :=
  match fmt with
  | isoc => p ←? expect_char m (p + 2) " "%ch; number4 m p
  | _ => Ok (Some year)
  end.

Definition mday : list Z := [31; 28; 31; 30; 31; 30; 31; 31; 30; 31; 30; 31].

(** The tests of the ranges of the fields. *)
Definition bad_day (day month year : Z) : outcome bool :=
  if (day =? 29) && (month =? 1) then
    Ok (negb (Z.land year 3 =? 0) || ((year mod 100 =? 0) && negb (year mod 400 =? 0)))
  else days ← at_ mday month; Ok (days <? day).

(** Gauss' formula. *)
Definition gauss_time (day month year hour min sec : Z) : Z :=
  let month := month - 1 in
  let '(month, year) := if month <=? 0 then (month + 12, to_u64 (year - 1)) else (month, year) in
  to_u64 (to_u64 (365 * year + year / 4 - year / 100 + year / 400 + Z.quot (367 * month) 12 - 30
                  + day - 1 - 719527 + 31 + 28) * 86400 + hour * 3600 + min * 60 + sec).

Definition http_time_fields (m : list Z) (e : nat) : parse_step (Z * Z * Z * (Z * Z * Z)) :=
  let day := 32 in
  let year := 2038 in
  '(p, fmt) ← find_separator m 0 e;
  p ← skip_date_spaces m (S p) (e - S p);
  if Z.of_nat e - Z.of_nat p <? 18 then Ok None
  else
    '(day, p, fmt) ←? parse_day m p e fmt day;
    month ←? parse_month m p;
    '(day, year, p) ←? parse_year m (p + 3) e fmt day year;
    '(hour, min, sec, p) ←? parse_clock m p;
    year ←? parse_last_year m p fmt year;
    Ok (Some (day, month, year, (hour, min, sec))).

Definition ngx_parse_http_time (value : list Z) (len : nat) : outcome Z :=
  o ← http_time_fields value len;
  match o with
  | None => Ok NGX_ERROR
  | Some (day, month, year, (hour, min, sec)) =>
      if (23 <? hour) || (59 <? min) || (59 <? sec) then Ok NGX_ERROR
      else
        bad ← bad_day day month year;
        if (bad : bool) then Ok NGX_ERROR
        else Ok (to_i64 (gauss_time day month year hour min sec))
  end.

Definition parse_time (s : string) : outcome Z := ngx_parse_http_time (bytes s) (length (bytes s)).

Example parse_822 : parse_time "Mon, 27 Nov 2017 16:26:40 GMT" = Ok 1511800000.
Proof. reflexivity. Qed.
Example parse_850 : parse_time "Monday, 27-Nov-17 16:26:40 GMT" = Ok 1511800000.
Proof. reflexivity. Qed.
Example parse_isoc : parse_time "Mon Nov 27 16:26:40 2017" = Ok 1511800000 /\
  parse_time "Mon Nov  7 16:26:40 2017" = Ok 1510072000.
Proof. by split. Qed.
(** Day 0 of a month is the last day of the month before; the first three letters
    of a month are not all looked at. *)
Example parse_day_0 : parse_time "Mon, 00 Nov 2017 16:26:40 GMT" = parse_time "Tue, 31 Oct 2017 16:26:40 GMT".
Proof. reflexivity. Qed.
Example parse_any_month : parse_time "Mon, 27 Nxx 2017 16:26:40 GMT" = Ok 1511800000.
Proof. reflexivity. Qed.
(** January and February of the year 0 are in the year -1 of the formula, which is
    unsigned: the time is not the one of midnight, -62167219200. *)
Example parse_year_0 : parse_time "Sat, 01 Jan 0000 00:00:00 GMT" = Ok (-62167208832) /\
  day_number (mk_date 0 1 1) * 86400 = -62167219200.
Proof. split; reflexivity. Qed.
(** The last second before the epoch has the value of an error. *)
Example parse_minus_1 : parse_time "Wed, 31 Dec 1969 23:59:59 GMT" = Ok NGX_ERROR.
Proof. reflexivity. Qed.

(** * The value of the fields *)

Definition clock_ok (h mi s : Z) : Prop := 0 <= h <= 23 /\ 0 <= mi <= 59 /\ 0 <= s <= 59.

(** Seconds since the epoch. *)
Definition time_value (d : date) (h mi s : Z) : Z := day_number d * 86400 + h * 3600 + mi * 60 + s.

Lemma bad_day_spec day month year :
  0 <= month <= 11 ->
  bad_day day month year = Ok (month_days year (month + 1) <? day).
Proof.
  intros Hm. unfold bad_day. change 3 with (Z.ones 2). rewrite Z.land_ones by lia. change (2 ^ 2) with 4.
  assert (H : exists m, month = m - 1 /\ 1 <= m <= 12) by (exists (month + 1); lia).
  destruct H as (m & -> & Hm'). rewrite Z.sub_add. unfold month_days, leap.
  each_month m H; repeat month_step; cbn [orb]; rewrite ?andb_false_r, ?andb_true_r; try done.
  destruct (Z.eqb_spec day 29) as [->|Hd].
  - f_equal. destruct (year mod 4 =? 0), (year mod 100 =? 0), (year mod 400 =? 0); reflexivity.
  - change (at_ mday 1) with (Ok 28). cbn [mbind outcome_bind]. f_equal.
    pose proof (leap_range year) as Hl. unfold leap in Hl. repeat destruct_test; try done; lia.
Qed.

Lemma gauss_time_spec day month year h mi s :
  0 <= day <= 99 -> 0 <= month <= 11 -> 0 <= year <= 9999 -> clock_ok h mi s -> 1 <= year \/ 2 <= month ->
  to_i64 (gauss_time day month year h mi s) = time_value (mk_date year (month + 1) day) h mi s.
Proof.
  intros Hd Hm Hy (Hh & Hmi & Hs) Hym.
  assert (G : forall y m, 0 <= y <= 9999 -> 1 <= m <= 12 ->
    to_i64 (to_u64 (to_u64 (365 * y + y / 4 - y / 100 + y / 400 + Z.quot (367 * m) 12 - 30
      + day - 1 - 719527 + 31 + 28) * 86400 + h * 3600 + mi * 60 + s))
    = (365 * y + leaps y + month_start m + day - 1 - 719468) * 86400 + h * 3600 + mi * 60 + s).
  { intros y m H1 H2. rewrite Z.quot_div_nonneg by lia. pose proof (leaps_range y ltac:(lia)) as Hl.
    assert (0 <= month_start m <= 400) by (unfold month_start; Z.div_mod_to_equations; lia).
    transitivity (to_i64 (to_u64 ((365 * y + leaps y + month_start m + day - 1 - 719468) * 86400 + h * 3600 + mi * 60 + s))).
    - f_equal. unfold to_u64, leaps, month_start. rewrite <- !Z.add_assoc, Zplus_mod.
      rewrite Zmult_mod_idemp_l, <- Zplus_mod. f_equal. lia.
    - apply to_i64_u64. lia. }
  unfold gauss_time, time_value, day_number, march_year, march_month. cbn [d_month d_year d_day].
  destruct (Z.leb_spec (month - 1) 0), (Z.leb_spec (month + 1) 2); try lia.
  - rewrite (to_u64_id (year - 1)) by lia. rewrite G by lia.
    by replace (month + 1 + 10) with (month - 1 + 12) by lia.
  - rewrite G by lia. by replace (month + 1 - 2) with (month - 1) by lia.
Qed.
