(* ===== verification/TimesGrammar.v ===== *)
(** Component "times", continued: the texts that ngx_parse_http_time accepts, as a grammar,
    and that it accepts no others. *)

From stdpp Require Import base numbers list option strings.
From Stdlib Require Import ZArith Lia.
From S2P Require Import Prelude SprintfFormat Times TimesText.
Local Open Scope Z_scope.

(** * The grammar *)

(** The day, the month from 0 to 11, the year, and the hour, the minute and the second. *)
Definition fields : Type := Z * Z * Z * (Z * Z * Z).

(** Three letters for a month: only those that tell it from the others are looked at. *)
Inductive month_word : list Z -> Z -> Prop :=
| january c : month_word ["J"%ch; "a"%ch; c] 0
| february b c : month_word ["F"%ch; b; c] 1
| march b : month_word ["M"%ch; b; "r"%ch] 2
| april c : month_word ["A"%ch; "p"%ch; c] 3
| may b c : c <> "r"%ch -> month_word ["M"%ch; b; c] 4
| june b : b <> "a"%ch -> month_word ["J"%ch; b; "n"%ch] 5
| july b c : b <> "a"%ch -> c <> "n"%ch -> month_word ["J"%ch; b; c] 6
| august b c : b <> "p"%ch -> month_word ["A"%ch; b; c] 7
| september b c : month_word ["S"%ch; b; c] 8
| october b c : month_word ["O"%ch; b; c] 9
| november b c : month_word ["N"%ch; b; c] 10
| december b c : month_word ["D"%ch; b; c] 11.

Definition clock_word (t : Z * Z * Z) : list Z :=
  let '(h, mi, s) := t in
  " "%ch :: two_digits h ++ ":"%ch :: two_digits mi ++ ":"%ch :: two_digits s.
Definition clock_digits (t : Z * Z * Z) : Prop :=
  let '(h, mi, s) := t in 0 <= h <= 99 /\ 0 <= mi <= 99 /\ 0 <= s <= 99.

(** "27 Nov 2017 16:26:40" and "27-Nov-17 16:26:40" *)
Inductive dated : list Z -> fields -> Prop :=
| date_822 d w mo y t :
    0 <= d <= 99 -> month_word w mo -> 0 <= y <= 9999 -> clock_digits t ->
    dated (two_digits d ++ " "%ch :: w ++ " "%ch :: four_digits y ++ clock_word t) (d, mo, y, t)
| date_850 d w mo v t :
    0 <= d <= 99 -> month_word w mo -> 0 <= v <= 99 -> clock_digits t ->
    dated (two_digits d ++ "-"%ch :: w ++ "-"%ch :: two_digits v ++ clock_word t)
      (d, mo, v + (if v <? 70 then 2000 else 1900), t).

(** "Nov 27 16:26:40 2017", or with one digit for the day; there is any character after the
    month, and a space can follow it. *)
Inductive day_word : list Z -> Z -> Prop :=
| one_digit d : 0 <= d <= 9 -> day_word [digit d] d
| day_digits d : 0 <= d <= 99 -> day_word (two_digits d) d.

Inductive asctime : list Z -> fields -> Prop :=
| date_asctime w mo x spaces ds d t y :
    month_word w mo -> spaces = [] \/ spaces = [" "%ch] -> day_word ds d -> clock_digits t -> 0 <= y <= 9999 ->
    asctime (w ++ x :: spaces ++ ds ++ clock_word t ++ " "%ch :: four_digits y) (d, mo, y, t).

(** A text: anything up to the first comma or space, spaces, the date, and anything. *)
Definition http_date (text : list Z) (f : fields) : Prop :=
  exists before sep spaces date rest,
    text = before ++ sep :: replicate spaces " "%ch ++ date ++ rest /\
    Forall (fun c => c <> ","%ch /\ c <> " "%ch) before /\
    (sep = ","%ch /\ dated date f \/ sep = " "%ch /\ asctime date f).

(** The time: an error when a field is out of range.  The day 0 of a month is the day before its
    first one; in January and February of the year 0 the result is 10368 seconds too
    large. *)
Definition time_of_fields (f : fields) : Z :=
  let '(d, mo, y, (h, mi, s)) := f in
  if decide (h <= 23 /\ mi <= 59 /\ s <= 59 /\ d <= month_days y (mo + 1)) then
    time_value (mk_date y (mo + 1) d) h mi s + (if decide (y = 0 /\ mo <= 1) then 10368 else 0)
  else NGX_ERROR.

(** * Steps that give exactly the results of a relation *)

Definition exact {A} (R : A -> Prop) (m : parse_step A) : Prop :=
  exists o, m = Ok o /\ forall a, o = Some a <-> R a.

Lemma exact_some {A} (R : A -> Prop) a : R a -> (forall b, R b -> b = a) -> exact R (Ok (Some a)).
Proof. intros Ha Hu. exists (Some a). split; [done|]. intros b. split; [by intros [= <-]|]. intros Hb. by rewrite (Hu b Hb). Qed.

Lemma exact_none {A} (R : A -> Prop) : (forall a, ~ R a) -> exact R (Ok None).
Proof. intros H. exists None. split; [done|]. intros a. split; [done|]. intros Ha. by destruct (H a). Qed.

Lemma exact_iff {A} (R S : A -> Prop) m : (forall a, R a <-> S a) -> exact R m -> exact S m.
Proof. intros H (o & E & Ho). exists o. split; [done|]. intros a. by rewrite Ho. Qed.

Lemma exact_bind {A B} (R : A -> Prop) (S : A -> B -> Prop) m k :
  exact R m -> (forall a, R a -> exact (S a) (k a)) -> exact (fun b => exists a, R a /\ S a b) (step_bind m k).
Proof.
  intros (o & -> & Ho) Hk. destruct o as [a|]; cbn.
  - assert (Ha : R a) by by apply Ho. destruct (Hk a Ha) as (o & -> & Hb). exists o. split; [done|].
    intros b. rewrite Hb. split; [by exists a|]. intros (a' & Ha' & Hs). apply Ho in Ha'. by injection Ha' as <-.
  - apply exact_none. intros b (a & Ha & _). by apply Ho in Ha.
Qed.

(** A step whose result is determined by every result of the whole. *)
Lemma exact_step {A B} (R : A -> Prop) (T : B -> Prop) m k :
  exact R m -> (forall b, T b -> exists a, R a) ->
  (forall a, R a -> (forall a', R a' -> a' = a) -> exact T (k a)) -> exact T (step_bind m k).
Proof.
  intros (o & -> & Ho) Hr Hk. destruct o as [a|]; cbn.
  - apply Hk; [by apply Ho|]. intros a' Ha'. apply Ho in Ha'. by injection Ha'.
  - apply exact_none. intros b Hb. destruct (Hr b Hb) as [a Ha]. by apply Ho in Ha.
Qed.

(** * The steps on a text *)

Lemma digits_eq a b : digit a = digit b -> a = b.
Proof. unfold digit. lia. Qed.

Lemma date_digit_not_space d : 0 <= d <= 9 -> digit d <> " "%ch.
Proof. unfold digit. lia. Qed.

Section steps.
Context (m : list Z) (e : nat) (He : (e <= length m)%nat).

(** The word [w] stands at [p], before [e]. *)
Definition word (p : nat) (w : list Z) : Prop := w `prefix_of` drop p (take e m).

Lemma word_cons p c w : word p (c :: w) <-> (p < e)%nat /\ m !! p = Some c /\ word (S p) w.
Proof using He.
  unfold word. destruct (Nat.lt_ge_cases p e) as [Hp|Hp].
  - destruct (lookup_lt_is_Some_2 m p ltac:(lia)) as [x Ex].
    rewrite (drop_S (take e m) x p) by (by rewrite lookup_take_lt). split.
    + intros H. pose proof (prefix_cons_inv_1 _ _ _ _ H) as ->. apply prefix_cons_inv_2 in H. done.
    + intros (_ & E & H). rewrite Ex in E. injection E as ->. by apply prefix_cons.
  - rewrite drop_ge by (rewrite length_take; lia). split; [|lia]. intros H. by apply prefix_nil_inv in H.
Qed.

Lemma word_nil p : word p [].
Proof. apply prefix_nil. Qed.

Lemma word_app p w1 w2 : word p (w1 ++ w2) <-> word p w1 /\ word (p + length w1) w2.
Proof using He.
  revert p. induction w1 as [|c w1 IH]; intros p; cbn [app length].
  - rewrite Nat.add_0_r. split; [intros H; split; [apply word_nil|done]|by intros [_ ?]].
  - rewrite !word_cons, IH. replace (S p + length w1)%nat with (p + S (length w1))%nat by lia. tauto.
Qed.

Lemma date_word_length p w : word p w -> w <> [] -> (p + length w <= e)%nat.
Proof using He.
  intros H Hw. apply prefix_length in H. rewrite length_drop, length_take in H. destruct w; [done|]. cbn in *. lia.
Qed.

(** A character that is read at [p]. *)
Lemma deref_at p : (p < e)%nat -> exists c, deref m p = Ok c /\ m !! p = Some c.
Proof using He. intros H. destruct (lookup_lt_is_Some_2 m p ltac:(lia)) as [c E]. exists c. split; [by apply deref_lookup|done]. Qed.

Ltac char_at p c E :=
  let D := fresh "D" in destruct (deref_at p ltac:(lia)) as (c & D & E); rewrite D; cbn [mbind outcome_bind].

Lemma expect_exact p c : (p < e)%nat -> exact (fun p' => p' = S p /\ word p [c]) (expect_char m p c).
Proof using He.
  intros Hp. unfold expect_char. char_at p x E. destruct (Z.eqb_spec x c) as [->|N]; cbn [negb].
  - apply exact_some; [|by intros ? [-> _]]. split; [done|]. rewrite word_cons. split_and!; [done|done|apply word_nil].
  - apply exact_none. intros p' [_ H]. apply word_cons in H as (_ & H & _). rewrite E in H. by injection H.
Qed.

Lemma not_digits_exact p n :
  (p + n <= e)%nat ->
  exists b, not_digits m p n = Ok b /\
    (b = false <-> forall i, (i < n)%nat -> exists d, 0 <= d <= 9 /\ m !! (p + i)%nat = Some (digit d)).
Proof using He.
  revert p. induction n as [|n IH]; intros p H; cbn [not_digits]; [exists false; split; [done|split; [lia|done]]|].
  char_at p c E. destruct ((c <? "0"%ch) || ("9"%ch <? c)) eqn:Ec.
  - exists true. split; [done|]. split; [done|]. intros Hd. destruct (Hd 0%nat ltac:(lia)) as (d & Hr & Ed).
    rewrite Nat.add_0_r, E in Ed. injection Ed as ->. unfold digit in Ec. apply orb_true_iff in Ec as [?%Z.ltb_lt|?%Z.ltb_lt]; lia.
  - destruct (IH (S p) ltac:(lia)) as (b & -> & Hb). exists b. split; [done|]. rewrite Hb.
    apply orb_false_iff in Ec as [H1%Z.ltb_ge H2%Z.ltb_ge]. split.
    + intros Hd [|i] Hi; [exists (c - "0"%ch); rewrite Nat.add_0_r, E; split; [lia|f_equal; unfold digit; lia]|].
      replace (p + S i)%nat with (S p + i)%nat by lia. apply Hd. lia.
    + intros Hd i Hi. replace (S p + i)%nat with (p + S i)%nat by lia. apply Hd. lia.
Qed.

Lemma number2_exact p :
  (p + 2 <= e)%nat -> exact (fun v => 0 <= v <= 99 /\ word p (two_digits v)) (number2 m p).
Proof using He.
  intros Hp. unfold number2. destruct (not_digits_exact p 2 Hp) as ([|] & -> & Hb); cbn [mbind outcome_bind].
  - apply exact_none. intros v [Hv Hw]. unfold two_digits in Hw. rewrite !word_cons in Hw. destruct Hw as (_ & E0 & _ & E1 & _).
    assert (X : true = false); [|done]. apply Hb. intros [|[|i]] Hi; [| |lia].
    + exists (v / 10). rewrite Nat.add_0_r. split; [Z.div_mod_to_equations; lia|done].
    + exists (v mod 10). rewrite Nat.add_1_r. split; [Z.div_mod_to_equations; lia|done].
  - destruct (proj1 Hb eq_refl 0%nat ltac:(lia)) as (d0 & H0 & E0). destruct (proj1 Hb eq_refl 1%nat ltac:(lia)) as (d1 & H1 & E1).
    rewrite Nat.add_0_r in E0. rewrite (deref_lookup _ _ _ E0), (deref_lookup _ _ _ E1). cbn [mbind outcome_bind].
    rewrite Nat.add_1_r in E1. replace ((digit d0 - "0"%ch) * 10 + digit d1 - "0"%ch) with (d0 * 10 + d1) by (unfold digit; lia).
    apply exact_some.
    + split; [lia|]. unfold two_digits. replace ((d0 * 10 + d1) / 10) with d0 by (Z.div_mod_to_equations; lia).
      replace ((d0 * 10 + d1) mod 10) with d1 by (Z.div_mod_to_equations; lia). rewrite !word_cons.
      split_and!; [lia|done|lia|done|apply word_nil].
    + intros v [Hv Hw]. unfold two_digits in Hw. rewrite !word_cons in Hw. destruct Hw as (_ & F0 & _ & F1 & _).
      rewrite E0 in F0. rewrite E1 in F1. injection F0 as F0%digits_eq. injection F1 as F1%digits_eq. Z.div_mod_to_equations; lia.
Qed.

Lemma number4_exact p :
  (p + 4 <= e)%nat -> exact (fun v => 0 <= v <= 9999 /\ word p (four_digits v)) (number4 m p).
Proof using He.
  intros Hp. unfold number4. destruct (not_digits_exact p 4 Hp) as ([|] & -> & Hb); cbn [mbind outcome_bind].
  - apply exact_none. intros v [Hv Hw]. unfold four_digits in Hw. rewrite !word_cons in Hw.
    destruct Hw as (_ & E0 & _ & E1 & _ & E2 & _ & E3 & _).
    assert (X : true = false); [|done]. apply Hb. intros [|[|[|[|i]]]] Hi; [..|lia].
    + exists (v / 1000). rewrite Nat.add_0_r. split; [Z.div_mod_to_equations; lia|done].
    + exists (v / 100 mod 10). replace (p + 1)%nat with (S p) by lia. split; [Z.div_mod_to_equations; lia|done].
    + exists (v / 10 mod 10). replace (p + 2)%nat with (S (S p)) by lia. split; [Z.div_mod_to_equations; lia|done].
    + exists (v mod 10). replace (p + 3)%nat with (S (S (S p))) by lia. split; [Z.div_mod_to_equations; lia|done].
  - destruct (proj1 Hb eq_refl 0%nat ltac:(lia)) as (d0 & H0 & E0). destruct (proj1 Hb eq_refl 1%nat ltac:(lia)) as (d1 & H1 & E1).
    destruct (proj1 Hb eq_refl 2%nat ltac:(lia)) as (d2 & H2 & E2). destruct (proj1 Hb eq_refl 3%nat ltac:(lia)) as (d3 & H3 & E3).
    rewrite Nat.add_0_r in E0. rewrite (deref_lookup _ _ _ E0), (deref_lookup _ _ _ E1), (deref_lookup _ _ _ E2), (deref_lookup _ _ _ E3).
    cbn [mbind outcome_bind]. replace (p + 1)%nat with (S p) in E1 by lia.
    replace (p + 2)%nat with (S (S p)) in E2 by lia. replace (p + 3)%nat with (S (S (S p))) in E3 by lia.
    replace ((digit d0 - "0"%ch) * 1000 + (digit d1 - "0"%ch) * 100 + (digit d2 - "0"%ch) * 10 + digit d3 - "0"%ch)
      with (d0 * 1000 + d1 * 100 + d2 * 10 + d3) by (unfold digit; lia).
    apply exact_some.
    + split; [lia|]. unfold four_digits. set (v := d0 * 1000 + d1 * 100 + d2 * 10 + d3).
      assert (v / 1000 = d0 /\ v / 100 mod 10 = d1 /\ v / 10 mod 10 = d2 /\ v mod 10 = d3) as (-> & -> & -> & ->)
        by (subst v; Z.div_mod_to_equations; lia).
      rewrite !word_cons. split_and!; [lia|done|lia|done|lia|done|lia|done|apply word_nil].
    + intros v [Hv Hw]. unfold four_digits in Hw. rewrite !word_cons in Hw. destruct Hw as (_ & F0 & _ & F1 & _ & F2 & _ & F3 & _).
      rewrite E0 in F0. rewrite E1 in F1. rewrite E2 in F2. rewrite E3 in F3.
      injection F0 as F0%digits_eq. injection F1 as F1%digits_eq. injection F2 as F2%digits_eq. injection F3 as F3%digits_eq.
      Z.div_mod_to_equations; lia.
Qed.

Lemma parse_month_exact p :
  (p + 3 <= e)%nat -> exact (fun mo => exists w, month_word w mo /\ word p w) (parse_month m p).
Proof using He.
  intros Hp. unfold parse_month. char_at p c Ec. char_at (p + 1)%nat c1 E1. char_at (p + 2)%nat c2 E2.
  assert (Hw : word p [c; c1; c2]).
  { rewrite !word_cons. replace (S (S p)) with (p + 2)%nat by lia. replace (S p) with (p + 1)%nat by lia.
    split_and!; [lia|done|lia|done|lia|done|apply word_nil]. }
  assert (Hu : forall a b d, word p [a; b; d] -> a = c /\ b = c1 /\ d = c2).
  { intros a b d H. rewrite !word_cons in H. replace (S (S p)) with (p + 2)%nat in H by lia.
    replace (S p) with (p + 1)%nat in H by lia. destruct H as (_ & F & _ & F1 & _ & F2 & _). by simplify_eq. }
  assert (G : forall mo, month_word [c; c1; c2] mo ->
    exact (fun mo => exists w, month_word w mo /\ word p w) (Ok (Some mo))).
  { intros mo Hm. apply exact_some; [by eexists|]. intros mo' (w & Hm' & Hw').
    destruct Hm'; apply Hu in Hw' as (<- & <- & <-); inversion Hm; subst; done. }
  assert (N : (forall mo, ~ month_word [c; c1; c2] mo) ->
    exact (fun mo => exists w, month_word w mo /\ word p w) (Ok None)).
  { intros Hn. apply exact_none. intros mo (w & Hm & Hw'). apply (Hn mo).
    destruct Hm; apply Hu in Hw' as (<- & <- & <-); by constructor. }
  repeat match goal with |- context [if ?a =? ?b then _ else _] => destruct (Z.eqb_spec a b); subst end;
    try (apply G; by constructor).
  apply N. intros mo Hm. inversion Hm; subst; done.
Qed.

Definition day_result (p : nat) : Z * nat * time_fmt -> Prop :=
  fun '(d, p', f) => p' = (p + 3)%nat /\ 0 <= d <= 99 /\
    (f = rfc822 /\ (p + 20 <= e)%nat /\ word p (two_digits d ++ [" "%ch]) \/
     f = rfc850 /\ word p (two_digits d ++ ["-"%ch])).

Lemma parse_day_exact p day : (p + 18 <= e)%nat -> exact (day_result p) (parse_day m p e no day).
Proof using He.
  intros Hp. cbn [parse_day].
  eapply exact_iff; [|apply (exact_bind _ (fun d '(d', p', f) => d' = d /\ p' = (p + 3)%nat /\
    (f = rfc822 /\ (p + 20 <= e)%nat /\ word (p + 2) [" "%ch] \/ f = rfc850 /\ word (p + 2) ["-"%ch])) _ _ (number2_exact p ltac:(lia)))].
  - intros [[d p'] f]. unfold day_result. rewrite !word_app. cbn [length two_digits]. split.
    + intros (a & [Ha Hw] & -> & -> & H). tauto.
    + intros (-> & Hd & H). exists d. tauto.
  - intros d [Hd Hw]. char_at (p + 2)%nat c E.
    assert (W : forall x, word (p + 2) [x] <-> c = x).
    { intros x. rewrite word_cons, E. split; [by intros (_ & [= ->] & _)|]. intros ->. split_and!; [lia|done|apply word_nil]. }
    destruct (Z.eqb_spec c " "%ch) as [->|N1]; [|destruct (Z.eqb_spec c "-"%ch) as [->|N2]].
    + destruct (Z.ltb_spec (Z.of_nat e - Z.of_nat (p + 2)) 18).
      * apply exact_none. intros [[d' p'] f] (_ & _ & [(_ & H' & _)|(_ & H')]); [lia|]. by apply W in H'.
      * apply exact_some; [split_and!; [done|done|]; left; split_and!; [done|lia|by apply W]|].
        intros [[d' p'] f] (-> & -> & [(-> & _)|(_ & H')]); [done|]. by apply W in H'.
    + apply exact_some; [split_and!; [done|done|]; right; split; [done|by apply W]|].
      intros [[d' p'] f] (-> & -> & [(_ & _ & H')|(-> & _)]); [|done]. by apply W in H'.
    + apply exact_none. intros [[d' p'] f] (_ & _ & [(_ & _ & H')|(_ & H')]); apply W in H'; by subst c.
Qed.

Lemma year_822_exact p day year :
  (p + 5 <= e)%nat ->
  exact (fun '(d, y, p') => d = day /\ p' = (p + 5)%nat /\ 0 <= y <= 9999 /\ word p (" "%ch :: four_digits y))
    (parse_year m p e rfc822 day year).
Proof using He.
  intros Hp. cbn [parse_year].
  eapply exact_iff; [|apply (exact_bind _ (fun p1 '(d, y, p') => d = day /\ p' = (p1 + 4)%nat /\ 0 <= y <= 9999 /\ word p1 (four_digits y))
    _ _ (expect_exact p " "%ch ltac:(lia)))].
  - intros [[d y] p']. change (" "%ch :: four_digits y) with ([" "%ch] ++ four_digits y). rewrite word_app. cbn [length].
    rewrite Nat.add_1_r. split.
    + intros (p1 & [-> H] & -> & -> & Hy & Hw). split_and!; try done; lia.
    + intros (-> & -> & Hy & H & Hw). exists (S p). split_and!; try done; lia.
  - intros p1 [-> _]. eapply exact_iff; [|apply (exact_bind _ (fun y b => b = (day, y, (S p + 4)%nat)) _ _ (number4_exact (S p) ltac:(lia)))].
    + intros [[d y] p']. split; [intros (y' & [Hy Hw] & [= -> -> ->]); done|].
      intros (-> & -> & Hy & Hw). exists y. done.
    + intros y _. by apply exact_some; [|intros ? ->].
Qed.

Lemma year_850_exact p day year :
  (p + 3 <= e)%nat ->
  exact (fun '(d, y, p') => d = day /\ p' = (p + 3)%nat /\
      exists v, 0 <= v <= 99 /\ y = v + (if v <? 70 then 2000 else 1900) /\ word p ("-"%ch :: two_digits v))
    (parse_year m p e rfc850 day year).
Proof using He.
  intros Hp. cbn [parse_year].
  eapply exact_iff; [|apply (exact_bind _ (fun p1 '(d, y, p') => d = day /\ p' = (p1 + 2)%nat /\
      exists v, 0 <= v <= 99 /\ y = v + (if v <? 70 then 2000 else 1900) /\ word p1 (two_digits v))
    _ _ (expect_exact p "-"%ch ltac:(lia)))].
  - intros [[d y] p'].
    assert (W : forall v, word p ("-"%ch :: two_digits v) <-> word p ["-"%ch] /\ word (S p) (two_digits v)).
    { intros v. rewrite (word_app p ["-"%ch] (two_digits v)). cbn [length]. by rewrite Nat.add_1_r. }
    split.
    + intros (p1 & [-> H] & -> & -> & v & Hv & Ey & Hw). split_and!; [done|lia|]. exists v. by rewrite W.
    + intros (-> & -> & v & Hv & Ey & [H Hw]%W). exists (S p). split_and!; [done|done|done|lia|]. by exists v.
  - intros p1 [-> _]. eapply exact_iff; [|apply (exact_bind _ (fun v b => b = (day, v + (if v <? 70 then 2000 else 1900), (S p + 2)%nat)) _ _
      (number2_exact (S p) ltac:(lia)))].
    + intros [[d y] p']. split; [intros (v & [Hv Hw] & [= -> -> ->]); split_and!; try done; by exists v|].
      intros (-> & -> & v & Hv & -> & Hw). by exists v.
    + intros y _. by apply exact_some; [|intros ? ->].
Qed.

Lemma clock_split p h mi s :
  word p (clock_word (h, mi, s)) <->
  word p [" "%ch] /\ word (S p) (two_digits h) /\ word (S p + 2) [":"%ch] /\ word (S (S p + 2)) (two_digits mi) /\
  word (S (S p + 2) + 2) [":"%ch] /\ word (S (S (S p + 2) + 2)) (two_digits s).
Proof using He.
  unfold clock_word.
  change (" "%ch :: two_digits h ++ ":"%ch :: two_digits mi ++ ":"%ch :: two_digits s)
    with ([" "%ch] ++ two_digits h ++ [":"%ch] ++ two_digits mi ++ [":"%ch] ++ two_digits s).
  rewrite !word_app. cbn [length two_digits]. rewrite !Nat.add_1_r. done.
Qed.

Lemma clock_exact p :
  (p + 9 <= e)%nat ->
  exact (fun '(h, mi, s, p') => p' = (p + 7)%nat /\ clock_digits (h, mi, s) /\ word p (clock_word (h, mi, s)))
    (parse_clock m p).
Proof using He.
  intros Hp. unfold parse_clock.
  assert (G : forall b : Z * Z * Z * nat, (let '(h, mi, s, p') := b in
      p' = (p + 7)%nat /\ clock_digits (h, mi, s) /\ word p (clock_word (h, mi, s))) ->
    exists h mi s, b = (h, mi, s, (p + 7)%nat) /\ 0 <= h <= 99 /\ 0 <= mi <= 99 /\ 0 <= s <= 99 /\
      word p [" "%ch] /\ word (S p) (two_digits h) /\ word (S p + 2) [":"%ch] /\ word (S (S p + 2)) (two_digits mi) /\
      word (S (S p + 2) + 2) [":"%ch] /\ word (S (S (S p + 2) + 2)) (two_digits s)).
  { intros [[[h mi] s] p'] (-> & (Hh & Hmi & Hs) & Hw%clock_split). exists h, mi, s. tauto. }
  eapply exact_step; [apply (expect_exact p " "%ch); lia|intros b (h & mi & s & _ & _ & _ & _ & W1 & _)%G; by eexists|].
  intros _ [-> W1] _.
  eapply exact_step; [apply (number2_exact (S p)); lia|intros b (h & mi & s & _ & H1 & _ & _ & _ & W2 & _)%G; by eexists|].
  intros h [Hh W2] Uh.
  eapply exact_step; [apply (expect_exact (S p + 2) ":"%ch); lia|intros b (h' & mi & s & _ & _ & _ & _ & _ & _ & W3 & _)%G; by eexists|].
  intros _ [-> W3] _.
  eapply exact_step; [apply (number2_exact (S (S p + 2))); lia|intros b (h' & mi & s & _ & _ & H2 & _ & _ & _ & _ & W4 & _)%G; by eexists|].
  intros mi [Hmi W4] Umi.
  eapply exact_step; [apply (expect_exact (S (S p + 2) + 2) ":"%ch); lia|intros b (h' & mi' & s & _ & _ & _ & _ & _ & _ & _ & _ & W5 & _)%G; by eexists|].
  intros _ [-> W5] _.
  eapply exact_step; [apply (number2_exact (S (S (S p + 2) + 2))); lia|intros b (h' & mi' & s & _ & _ & _ & H3 & _ & _ & _ & _ & _ & W6)%G; by eexists|].
  intros s [Hs W6] Us. apply exact_some.
  - split_and!; [lia|done|]. by apply clock_split.
  - intros b (h' & mi' & s' & -> & H1 & H2 & H3 & _ & V1 & _ & V2 & _ & V3)%G.
    rewrite (Uh h'), (Umi mi'), (Us s') by done. do 2 f_equal. lia.
Qed.

(** After the month of asctime: any character, a space or none, and the day. *)
Definition day_part (p : nat) (day : Z) (p' : nat) : Prop :=
  exists x spaces ds, (spaces = [] \/ spaces = [" "%ch]) /\ day_word ds day /\
    word p (x :: spaces ++ ds) /\ p' = (p + 1 + length spaces + length ds)%nat /\ (p' + 14 <= e)%nat /\
    (length ds = 1%nat -> word p' [" "%ch]).

Lemma word_at p c w : word p (c :: w) -> m !! p = Some c.
Proof using He. intros H. by apply word_cons in H as (_ & H & _). Qed.

(** The two forms of the day. *)
Lemma day_forms q day p' :
  (exists ds, day_word ds day /\ word q ds /\ p' = (q + length ds)%nat /\ (p' + 14 <= e)%nat /\
     (length ds = 1%nat -> word p' [" "%ch])) <->
  (p' + 14 <= e)%nat /\ exists d, 0 <= d <= 9 /\ m !! q = Some (digit d) /\
    (m !! S q = Some " "%ch /\ day = d /\ p' = S q \/
     exists d', 0 <= d' <= 9 /\ m !! S q = Some (digit d') /\ day = d * 10 + d' /\ p' = S (S q)).
Proof using He.
  split.
  - intros (ds & Hd & Hw & -> & Hl & Hs). split; [done|]. destruct Hd as [d Hd|d Hd]; cbn [length two_digits] in *.
    + exists d. split; [done|]. split; [by apply word_at in Hw|]. left. rewrite Nat.add_1_r in *. split_and!; [|done|done].
      by apply (word_at _ _ []), Hs.
    + unfold two_digits in Hw. rewrite !word_cons in Hw. destruct Hw as (_ & E0 & _ & E1 & _).
      exists (d / 10). split; [Z.div_mod_to_equations; lia|]. split; [done|]. right. exists (d mod 10).
      split; [Z.div_mod_to_equations; lia|]. split; [done|]. split; [Z.div_mod_to_equations; lia|lia].
  - intros (Hl & d & Hd & E0 & [(E1 & -> & ->)|(d' & Hd' & E1 & -> & ->)]).
    + exists [digit d]. split; [by constructor|]. rewrite !word_cons. cbn [length].
      split_and!; [lia|done|apply word_nil|lia|lia|]. intros _. split_and!; [lia|done|apply word_nil].
    + exists (two_digits (d * 10 + d')). split; [constructor; lia|]. unfold two_digits.
      replace ((d * 10 + d') / 10) with d by (Z.div_mod_to_equations; lia).
      replace ((d * 10 + d') mod 10) with d' by (Z.div_mod_to_equations; lia).
      rewrite !word_cons. cbn [length]. split_and!; [lia|done|lia|done|apply word_nil|lia|lia|lia].
Qed.

Lemma day_part_forms p day p' :
  (p + 4 <= e)%nat ->
  let q := if decide (m !! S p = Some " "%ch) then S (S p) else S p in
  day_part p day p' <->
  (p' + 14 <= e)%nat /\ exists d, 0 <= d <= 9 /\ m !! q = Some (digit d) /\
    (m !! S q = Some " "%ch /\ day = d /\ p' = S q \/
     exists d', 0 <= d' <= 9 /\ m !! S q = Some (digit d') /\ day = d * 10 + d' /\ p' = S (S q)).
Proof using He.
  intros Hp q. rewrite <- day_forms. unfold day_part. split.
  - intros (x & spaces & ds & Hsp & Hd & Hw & -> & Hl & Hs). exists ds.
    apply word_cons in Hw as (_ & _ & Hw). apply word_app in Hw as [Hw1 Hw2].
    assert (Eq : q = (S p + length spaces)%nat).
    { unfold q. destruct Hsp as [-> | ->]; cbn [length] in *; rewrite ?Nat.add_0_r in *.
      - rewrite decide_False; [done|]. intros E.
        destruct Hd as [d Hd|d Hd]; unfold two_digits in Hw2; apply word_at in Hw2; rewrite E in Hw2; injection Hw2 as H;
          symmetry in H; revert H; apply date_digit_not_space; [done|Z.div_mod_to_equations; lia].
      - rewrite decide_True; [lia|]. by apply word_at in Hw1. }
    rewrite Eq. split_and!; [done|done|lia|lia|done].
  - intros (ds & Hd & Hw & -> & Hl & Hs). destruct (lookup_lt_is_Some_2 m p ltac:(lia)) as [x Ex].
    exists x. exists (if decide (m !! S p = Some " "%ch) then [" "%ch] else []), ds.
    unfold q in *. destruct (decide (m !! S p = Some " "%ch)) as [E|E]; cbn [app length];
      rewrite !word_cons; (split_and!; [by auto|done|lia|done|..]).
    all: try done; try lia.
    all: intros H1; by apply word_cons, Hs.
Qed.

Lemma year_isoc_exact p day year :
  (p + 15 <= e)%nat ->
  exact (fun '(d, y, p') => y = year /\ day_part p d p') (parse_year m p e isoc day year).
Proof using He.
  intros Hp. cbn [parse_year]. char_at (S p) c Ec.
  set (q := if c =? " "%ch then S (S p) else S p).
  assert (Hq : q = if decide (m !! S p = Some " "%ch) then S (S p) else S p).
  { unfold q. rewrite Ec. destruct (Z.eqb_spec c " "%ch) as [->|N]; [by rewrite decide_True|]. rewrite decide_False; [done|].
    by intros [= ->]. }
  assert (Hq2 : (q <= p + 2)%nat) by (unfold q; destruct (c =? _); lia).
  eapply (exact_iff (fun '(d, y, p') => y = year /\ (p' + 14 <= e)%nat /\ exists d0, 0 <= d0 <= 9 /\ m !! q = Some (digit d0) /\
    (m !! S q = Some " "%ch /\ d = d0 /\ p' = S q \/
     exists d', 0 <= d' <= 9 /\ m !! S q = Some (digit d') /\ d = d0 * 10 + d' /\ p' = S (S q)))).
  { intros [[d y] p']. rewrite (day_part_forms p d p') by lia. cbn zeta. by rewrite <- Hq. }
  destruct (not_digits_exact q 1 ltac:(lia)) as ([|] & -> & Hb); cbn [mbind outcome_bind].
  { apply exact_none. intros [[d y] p'] (_ & _ & d0 & H0 & E0 & _). assert (X : true = false); [|done]. apply Hb.
    intros i Hi. exists d0. replace (q + i)%nat with q by lia. done. }
  destruct (proj1 Hb eq_refl 0%nat ltac:(lia)) as (d0 & H0 & E0). rewrite Nat.add_0_r in E0.
  rewrite (deref_lookup _ _ _ E0). cbn [mbind outcome_bind]. char_at (S q) c1 E1.
  replace (digit d0 - "0"%ch) with d0 by (unfold digit; lia).
  assert (Hu : forall a, m !! q = Some (digit a) -> a = d0) by (intros a Ea; rewrite E0 in Ea; by injection Ea as ->%digits_eq).
  destruct (Z.eqb_spec c1 " "%ch) as [->|N]; cbn [negb].
  - cbn [step_bind mbind outcome_bind]. destruct (Z.ltb_spec (Z.of_nat e - Z.of_nat (S q)) 14).
    + apply exact_none. intros [[d y] p'] (_ & Hl & a & _ & _ & [(_ & _ & ->)|(d' & Hd' & E' & _)]); [lia|].
      rewrite E1 in E'. injection E' as E'. by apply (date_digit_not_space d').
    + apply exact_some; [split; [done|]; split; [lia|]; exists d0; split_and!; [lia|lia|done|by left]|].
      intros [[d y] p'] (-> & Hl & a & _ & ->%Hu & [(_ & -> & ->)|(d' & Hd' & E' & _)]); [done|].
      rewrite E1 in E'. injection E' as E'. by destruct (date_digit_not_space d').
  - destruct (not_digits_exact (S q) 1 ltac:(lia)) as ([|] & -> & Hb'); cbn [step_bind mbind outcome_bind].
    { apply exact_none. intros [[d y] p'] (_ & Hl & a & _ & _ & [(E' & _)|(d' & Hd' & E' & _)]).
      - rewrite E1 in E'. by injection E'.
      - assert (X : true = false); [|done]. apply Hb'. intros i Hi. exists d'. replace (S q + i)%nat with (S q) by lia. done. }
    destruct (proj1 Hb' eq_refl 0%nat ltac:(lia)) as (d1 & H1 & E1'). rewrite Nat.add_0_r, E1 in E1'. injection E1' as ->.
    replace (d0 * 10 + digit d1 - "0"%ch) with (d0 * 10 + d1) by (unfold digit; lia).
    destruct (Z.ltb_spec (Z.of_nat e - Z.of_nat (S (S q))) 14).
    + apply exact_none. intros [[d y] p'] (_ & Hl & a & _ & _ & [(E' & _)|(d' & Hd' & E' & _ & ->)]); [|lia].
      rewrite E1 in E'. by injection E'.
    + apply exact_some; [split; [done|]; split; [lia|]; exists d0; split_and!; [lia|lia|done|right; by exists d1]|].
      intros [[d y] p'] (-> & Hl & a & _ & ->%Hu & [(E' & _)|(d' & Hd' & E' & -> & ->)]).
      * rewrite E1 in E'. by injection E'.
      * rewrite E1 in E'. by injection E' as ->%digits_eq.
Qed.

Lemma last_year_exact p year :
  (p + 7 <= e)%nat ->
  exact (fun y => 0 <= y <= 9999 /\ word (p + 2) (" "%ch :: four_digits y)) (parse_last_year m p isoc year).
Proof using He.
  intros Hp. cbn [parse_last_year].
  assert (W : forall y, word (p + 2) (" "%ch :: four_digits y) <-> word (p + 2) [" "%ch] /\ word (S (p + 2)) (four_digits y)).
  { intros y. rewrite (word_app (p + 2) [" "%ch] (four_digits y)). cbn [length]. by rewrite Nat.add_1_r. }
  eapply exact_step; [apply (expect_exact (p + 2) " "%ch); lia|intros y [_ [H _]%W]; by eexists|].
  intros _ [-> W1] _. eapply exact_iff; [|apply number4_exact; lia]. intros y. rewrite W. tauto.
Qed.

(** * The date *)

Lemma month_word_length w mo : month_word w mo -> length w = 3%nat.
Proof. by destruct 1. Qed.

(** The rest of the two formats that start with the day. *)
Definition rest_822 (q : nat) (d : Z) : fields -> Prop :=
  fun '(d', mo, y, t) => d' = d /\ (exists w, month_word w mo /\ word (q + 3) w) /\
    0 <= y <= 9999 /\ word (q + 6) (" "%ch :: four_digits y) /\ clock_digits t /\ word (q + 11) (clock_word t).
Definition rest_850 (q : nat) (d : Z) : fields -> Prop :=
  fun '(d', mo, y, t) => d' = d /\ (exists w, month_word w mo /\ word (q + 3) w) /\
    (exists v, 0 <= v <= 99 /\ y = v + (if v <? 70 then 2000 else 1900) /\ word (q + 6) ("-"%ch :: two_digits v)) /\
    clock_digits t /\ word (q + 9) (clock_word t).

Lemma split_822 q d w y t :
  length w = 3%nat ->
  word q (two_digits d ++ " "%ch :: w ++ " "%ch :: four_digits y ++ clock_word t) <->
  word q (two_digits d ++ [" "%ch]) /\ word (q + 3) w /\ word (q + 6) (" "%ch :: four_digits y) /\ word (q + 11) (clock_word t).
Proof using He.
  intros Lw.
  replace (two_digits d ++ " "%ch :: w ++ " "%ch :: four_digits y ++ clock_word t)
    with ((two_digits d ++ [" "%ch]) ++ w ++ (" "%ch :: four_digits y) ++ clock_word t) by by rewrite <- app_assoc.
  rewrite (word_app q (two_digits d ++ [" "%ch])), (word_app _ w), (word_app _ (" "%ch :: four_digits y)), Lw.
  cbn [length app two_digits four_digits]. by rewrite <- !Nat.add_assoc.
Qed.

Lemma split_850 q d w v t :
  length w = 3%nat ->
  word q (two_digits d ++ "-"%ch :: w ++ "-"%ch :: two_digits v ++ clock_word t) <->
  word q (two_digits d ++ ["-"%ch]) /\ word (q + 3) w /\ word (q + 6) ("-"%ch :: two_digits v) /\ word (q + 9) (clock_word t).
Proof using He.
  intros Lw.
  replace (two_digits d ++ "-"%ch :: w ++ "-"%ch :: two_digits v ++ clock_word t)
    with ((two_digits d ++ ["-"%ch]) ++ w ++ ("-"%ch :: two_digits v) ++ clock_word t) by by rewrite <- app_assoc.
  rewrite (word_app q (two_digits d ++ ["-"%ch])), (word_app _ w), (word_app _ ("-"%ch :: two_digits v)), Lw.
  cbn [length app two_digits]. by rewrite <- !Nat.add_assoc.
Qed.

Lemma dated_split q f :
  (exists w, dated w f /\ word q w) <->
  exists d, 0 <= d <= 99 /\
    (word q (two_digits d ++ [" "%ch]) /\ rest_822 q d f \/ word q (two_digits d ++ ["-"%ch]) /\ rest_850 q d f).
Proof using He.
  split.
  - intros (w & Hd & Hw). destruct Hd as [d w mo y t Hd Hm Hy Ht|d w mo v t Hd Hm Hv Ht]; exists d; (split; [done|]).
    + apply split_822 in Hw as (W1 & W2 & W3 & W4); [|by eapply month_word_length].
      left. split; [done|]. split_and!; [done|by exists w|..]; done || lia.
    + apply split_850 in Hw as (W1 & W2 & W3 & W4); [|by eapply month_word_length].
      right. split; [done|]. split_and!; [done|by exists w|by exists v|..]; done || lia.
  - destruct f as [[[d' mo] y] t]. intros (d & Hd & [[W1 (-> & (w & Hm & W2) & Hy & W3 & Ht & W4)]|[W1 (-> & (w & Hm & W2) & (v & Hv & -> & W3) & Ht & W4)]]).
    + eexists. split; [by apply date_822|]. apply split_822; [by eapply month_word_length|done].
    + eexists. split; [by apply date_850|]. apply split_850; [by eapply month_word_length|done].
Qed.

(** The steps after the separator. *)
Definition date_steps (p : nat) (fmt : time_fmt) : parse_step fields :=
  '(day, p, fmt) ←? parse_day m p e fmt 32;
  month ←? parse_month m p;
  '(day, year, p) ←? parse_year m (p + 3) e fmt day 2038;
  '(hour, min, sec, p) ←? parse_clock m p;
  year ←? parse_last_year m p fmt year;
  Ok (Some (day, month, year, (hour, min, sec))).

Ltac use_word H := apply date_word_length in H; [|done]; cbn [length app two_digits four_digits clock_word] in H.

(** [T], as it speaks of the results of a step. *)
Lemma dated_exact q :
  (q + 18 <= e)%nat -> exact (fun f => exists w, dated w f /\ word q w) (date_steps q no).
Proof using He.
  intros Hq. eapply exact_iff; [intros f; symmetry; apply dated_split|]. unfold date_steps.
  eapply exact_step; [apply (parse_day_exact q); lia| |].
  { intros [[[d mo] y] t] (d' & Hd & [[W1 H]|[W1 H]]).
    - exists (d', (q + 3)%nat, rfc822). split_and!; [done|lia|lia|]. left. split_and!; [done| |done].
      destruct t as [[h mi] s]. destruct H as (_ & _ & _ & _ & _ & W4). use_word W4. lia.
    - exists (d', (q + 3)%nat, rfc850). split_and!; [done|lia|lia|by right]. }
  intros [[d p'] f] Hday Hu. pose proof Hday as (-> & Hd & [(-> & Hl & W)|[-> W]]).
  - eapply (exact_iff (rest_822 q d)).
    { intros f. split; [intros H; exists d; split; [done|by left]|].
      intros (d' & Hd' & [[W1 H]|[W1 H]]).
      - assert (E : (d', (q + 3)%nat, rfc822) = (d, (q + 3)%nat, rfc822)) by (apply Hu; split_and!; [done|lia|lia|by left]).
        by injection E as ->.
      - assert (E : (d', (q + 3)%nat, rfc850) = (d, (q + 3)%nat, rfc822)) by (apply Hu; split_and!; [done|lia|lia|by right]). done. }
    eapply exact_step; [apply (parse_month_exact (q + 3)); lia|intros [[[? mo] y] t] (_ & H & _); by eexists|].
    intros mo Hmo Umo. replace (q + 3 + 3)%nat with (q + 6)%nat by lia.
    eapply exact_step; [apply (year_822_exact (q + 6) d); lia| |].
    { intros [[[? ?] y] t] (_ & _ & Hy & W3 & _). exists (d, y, (q + 6 + 5)%nat). done. }
    intros [[d' y] p'] (-> & -> & Hy & W3) Uy. replace (q + 6 + 5)%nat with (q + 11)%nat in * by lia.
    eapply exact_step; [apply (clock_exact (q + 11)); lia| |].
    { intros [[[? ?] ?] [[h mi] s]] (_ & _ & _ & _ & Ht & W4). exists (h, mi, s, (q + 11 + 7)%nat). done. }
    intros [[[h mi] s] p'] (-> & Ht & W4) Ut. cbn [parse_last_year step_bind mbind outcome_bind].
    apply exact_some; [split_and!; done || lia|].
    intros [[[d' mo'] y'] [[h' mi'] s']] (-> & Hmo' & Hy' & W3' & Ht' & W4').
    rewrite (Umo mo' Hmo'). assert (E1 : (d, y', (q + 11)%nat) = (d, y, (q + 11)%nat)) by by apply Uy.
    assert (E2 : (h', mi', s', (q + 11 + 7)%nat) = (h, mi, s, (q + 11 + 7)%nat)) by by apply Ut. by simplify_eq.
  - eapply (exact_iff (rest_850 q d)).
    { intros f. split; [intros H; exists d; split; [done|by right]|].
      intros (d' & Hd' & [[W1 H]|[W1 H]]).
      - assert (E : (d', (q + 3)%nat, rfc822) = (d, (q + 3)%nat, rfc850)); [|done]. apply Hu. split_and!; [done|lia|lia|]. left.
        split_and!; [done| |done]. destruct f as [[[? ?] ?] [[h mi] s]]. destruct H as (_ & _ & _ & _ & _ & W4). use_word W4. lia.
      - assert (E : (d', (q + 3)%nat, rfc850) = (d, (q + 3)%nat, rfc850)) by (apply Hu; split_and!; [done|lia|lia|by right]).
        by injection E as ->. }
    eapply exact_step; [apply (parse_month_exact (q + 3)); lia|intros [[[? mo] y] t] (_ & H & _); by eexists|].
    intros mo Hmo Umo. replace (q + 3 + 3)%nat with (q + 6)%nat by lia.
    eapply exact_step; [apply (year_850_exact (q + 6) d); lia| |].
    { intros [[[? ?] y] t] (_ & _ & Hy & _). exists (d, y, (q + 6 + 3)%nat). done. }
    intros [[d' y] p'] (-> & -> & Hy) Uy. replace (q + 6 + 3)%nat with (q + 9)%nat in * by lia.
    eapply exact_step; [apply (clock_exact (q + 9)); lia| |].
    { intros [[[? ?] ?] [[h mi] s]] (_ & _ & _ & Ht & W4). exists (h, mi, s, (q + 9 + 7)%nat). done. }
    intros [[[h mi] s] p'] (-> & Ht & W4) Ut. cbn [parse_last_year step_bind mbind outcome_bind].
    apply exact_some; [split_and!; done || lia|].
    intros [[[d' mo'] y'] [[h' mi'] s']] (-> & Hmo' & Hy' & Ht' & W4').
    rewrite (Umo mo' Hmo'). assert (E1 : (d, y', (q + 9)%nat) = (d, y, (q + 9)%nat)) by by apply Uy.
    assert (E2 : (h', mi', s', (q + 9 + 7)%nat) = (h, mi, s, (q + 9 + 7)%nat)) by by apply Ut. by simplify_eq.
Qed.

(** asctime: the day and the clock are at [p]. *)
Definition asctime_rest (q : nat) : fields -> Prop :=
  fun '(d, mo, y, t) => (exists w, month_word w mo /\ word q w) /\
    exists p, day_part (q + 3) d p /\ clock_digits t /\ word p (clock_word t) /\
      0 <= y <= 9999 /\ word (p + 9) (" "%ch :: four_digits y).

Lemma asctime_split q f : (exists w, asctime w f /\ word q w) <-> asctime_rest q f.
Proof using He.
  split.
  - intros (w & [w' mo x sp ds d [[h mi] s] y Hm Hsp Hd Ht Hy] & Hw).
    pose proof (month_word_length _ _ Hm) as Lw. apply word_app in Hw as [W1 Hw]. rewrite Lw in Hw.
    replace (x :: sp ++ ds ++ clock_word (h, mi, s) ++ " "%ch :: four_digits y)
      with ((x :: sp ++ ds) ++ clock_word (h, mi, s) ++ " "%ch :: four_digits y) in Hw by (cbn [app]; by rewrite <- !app_assoc).
    apply word_app in Hw as [W2 Hw]. apply word_app in Hw as [W3 W4].
    cbn [length] in W3, W4. rewrite length_app in W3, W4. split; [by exists w'|].
    exists (q + 3 + S (length sp + length ds))%nat. split_and!; [|done|done|lia|lia|done].
    exists x, sp, ds. pose proof W4 as L. use_word L. split_and!; [done|done|done|lia|lia|].
    intros _. apply word_cons in W3 as (H1 & H2 & _). apply word_cons. split_and!; [done|done|apply word_nil].
  - destruct f as [[[d mo] y] [[h mi] s]].
    intros ((w & Hm & W1) & p & (x & sp & ds & Hsp & Hd & W2 & -> & Hl & _) & Ht & W3 & Hy & W4).
    eexists. split; [by apply (date_asctime w mo x sp ds d (h, mi, s) y)|].
    apply word_app. split; [done|]. rewrite (month_word_length _ _ Hm).
    replace (x :: sp ++ ds ++ clock_word (h, mi, s) ++ " "%ch :: four_digits y)
      with ((x :: sp ++ ds) ++ clock_word (h, mi, s) ++ " "%ch :: four_digits y) by (cbn [app]; by rewrite <- !app_assoc).
    apply word_app. split; [done|]. cbn [length]. rewrite length_app.
    replace (q + 3 + S (length sp + length ds))%nat with (q + 3 + 1 + length sp + length ds)%nat by lia.
    apply word_app. split; [done|]. exact W4.
Qed.

Lemma asctime_exact q :
  (q + 18 <= e)%nat -> exact (fun f => exists w, asctime w f /\ word q w) (date_steps q isoc).
Proof using He.
  intros Hq. eapply exact_iff; [intros f; symmetry; apply asctime_split|]. unfold date_steps.
  cbn [parse_day step_bind mbind outcome_bind].
  eapply exact_step; [apply (parse_month_exact q); lia|intros [[[? mo] y] t] (H & _); by eexists|].
  intros mo Hmo Umo.
  eapply exact_step; [apply (year_isoc_exact (q + 3)); lia| |].
  { intros [[[d ?] y] t] (_ & p & Hp & _). exists (d, 2038, p). done. }
  intros [[d y0] p] (-> & Hp) Ud. assert (Hpl : (p + 14 <= e)%nat) by by destruct Hp as (? & ? & ? & _ & _ & _ & _ & ? & _).
  assert (Up : forall d' p', day_part (q + 3) d' p' -> d' = d /\ p' = p).
  { intros d' p' H. assert (E : (d', 2038, p') = (d, 2038, p)) by by apply Ud. by injection E. }
  eapply exact_step; [apply (clock_exact p); lia| |].
  { intros [[[d' ?] ?] [[h mi] s]] (_ & p' & Hp' & Ht & W4 & _). apply Up in Hp' as [-> ->]. by exists (h, mi, s, (p + 7)%nat). }
  intros [[[h mi] s] p'] (-> & Ht & W4) Ut. cbn [step_bind mbind outcome_bind].
  eapply exact_step; [apply (last_year_exact (p + 7)); lia| |].
  { intros [[[d' ?] y] ?] (_ & p' & Hp' & _ & _ & Hy & W5). apply Up in Hp' as [-> ->]. exists y.
    replace (p + 7 + 2)%nat with (p + 9)%nat by lia. done. }
  replace (p + 7 + 2)%nat with (p + 9)%nat by lia. intros y [Hy W5] Uy.
  apply exact_some; [split; [done|]; by exists p|].
  intros [[[d' mo'] y'] [[h' mi'] s']] (Hmo' & p' & Hp' & Ht' & W4' & Hy' & W5'). apply Up in Hp' as [-> ->].
  rewrite (Umo mo' Hmo'), (Uy y') by done.
  assert (E2 : (h', mi', s', (p + 7)%nat) = (h, mi, s, (p + 7)%nat)) by by apply Ut. by simplify_eq.
Qed.

(** * Up to the date *)

Definition no_separator (c : Z) : Prop := c <> ","%ch /\ c <> " "%ch.
Definition rest_at (p : nat) : list Z := drop p (take e m).

Lemma rest_at_cons p c : (p < e)%nat -> m !! p = Some c -> rest_at p = c :: rest_at (S p).
Proof using He. intros Hp E. unfold rest_at. apply drop_S. by rewrite lookup_take_lt. Qed.

Lemma find_separator_exact k p :
  (p + k)%nat = e ->
  (exists before sep rest, rest_at p = before ++ sep :: rest /\ Forall no_separator before /\
     (sep = ","%ch \/ sep = " "%ch) /\
     find_separator m p k = Ok ((p + length before)%nat, if sep =? ","%ch then no else isoc)) \/
  find_separator m p k = Ok (e, no) /\ Forall no_separator (rest_at p).
Proof using He.
  revert p. induction k as [|k IH]; intros p Hk; cbn [find_separator].
  - right. split; [f_equal; f_equal; lia|]. unfold rest_at. rewrite drop_ge; [constructor|]. rewrite length_take. lia.
  - char_at p c E. rewrite (rest_at_cons p c) by (done || lia).
    destruct (Z.eqb_spec c ","%ch) as [->|N1].
    { left. exists [], ","%ch, (rest_at (S p)). rewrite Nat.add_0_r. split_and!; [done|constructor|by left|done]. }
    destruct (Z.eqb_spec c " "%ch) as [->|N2].
    { left. exists [], " "%ch, (rest_at (S p)). rewrite Nat.add_0_r. split_and!; [done|constructor|by right|done]. }
    destruct (IH (S p) ltac:(lia)) as [(before & sep & rest & Er & Hb & Hs & ->)|[-> Hn]].
    + left. exists (c :: before), sep, rest. rewrite Er. split_and!; [done|by constructor|done|].
      cbn [length]. do 2 f_equal. lia.
    + right. split; [done|]. by constructor.
Qed.

Lemma skip_spaces_exact k p :
  (p + k)%nat = e ->
  exists n, skip_date_spaces m p k = Ok (p + n)%nat /\ (p + n <= e)%nat /\
    rest_at p = replicate n " "%ch ++ rest_at (p + n) /\ head (rest_at (p + n)) <> Some " "%ch.
Proof using He.
  revert p. induction k as [|k IH]; intros p Hk; cbn [skip_date_spaces].
  - exists 0%nat. rewrite Nat.add_0_r. split_and!; [done|lia|done|]. unfold rest_at. rewrite drop_ge; [done|].
    rewrite length_take. lia.
  - char_at p c E. destruct (Z.eqb_spec c " "%ch) as [->|N]; cbn [negb].
    + destruct (IH (S p) ltac:(lia)) as (n & -> & Hn & Er & Hh). exists (S n). rewrite (rest_at_cons p _ ltac:(lia) E), Er.
      replace (p + S n)%nat with (S p + n)%nat by lia. split_and!; [done|lia|done|done].
    + exists 0%nat. rewrite Nat.add_0_r. split_and!; [done|lia|done|]. rewrite (rest_at_cons p _ ltac:(lia) E). cbn. by intros [= ->].
Qed.

End steps.

Lemma separator_unique b1 b2 s1 s2 r1 r2 :
  Forall no_separator b1 -> Forall no_separator b2 ->
  s1 = ","%ch \/ s1 = " "%ch -> s2 = ","%ch \/ s2 = " "%ch ->
  b1 ++ s1 :: r1 = b2 ++ s2 :: r2 -> b1 = b2 /\ s1 = s2 /\ r1 = r2.
Proof.
  intros F1. revert b2. induction F1 as [|c b1 [N1 N2] F1 IH]; intros b2 F2 H1 H2 E; destruct F2 as [|c2 b2 [M1 M2] F2];
    cbn [app] in E; injection E as Ec E.
  - done.
  - destruct H1; congruence.
  - destruct H2; congruence.
  - destruct (IH b2 F2 H1 H2 E) as (-> & -> & ->). by subst.
Qed.

Lemma spaces_unique n1 n2 r1 r2 :
  head r1 <> Some " "%ch -> head r2 <> Some " "%ch ->
  replicate n1 " "%ch ++ r1 = replicate n2 " "%ch ++ r2 -> n1 = n2 /\ r1 = r2.
Proof.
  revert n2. induction n1 as [|n1 IH]; intros [|n2] H1 H2 E; cbn [replicate app] in E.
  - done.
  - by subst r1.
  - by subst r2.
  - injection E as E. destruct (IH n2 H1 H2 E) as [-> ->]. done.
Qed.

Lemma head_app_some {A} (w r : list A) x : head w = Some x -> head (w ++ r) = Some x.
Proof. by destruct w. Qed.

Lemma dated_head w f : dated w f -> exists c, head w = Some c /\ c <> " "%ch.
Proof. destruct 1; (eexists; split; [reflexivity|]; apply date_digit_not_space; Z.div_mod_to_equations; lia). Qed.

Lemma asctime_head w f : asctime w f -> exists c, head w = Some c /\ c <> " "%ch.
Proof. destruct 1 as [? ? ? ? ? ? ? ? Hm]. destruct Hm; eexists; (split; [reflexivity|done]). Qed.

Lemma http_date_at text before sep n :
  forall tail, text = before ++ sep :: replicate n " "%ch ++ tail -> Forall no_separator before ->
  sep = ","%ch \/ sep = " "%ch -> head tail <> Some " "%ch ->
  forall f, http_date text f <->
    exists date, date `prefix_of` tail /\ (sep = ","%ch /\ dated date f \/ sep = " "%ch /\ asctime date f).
Proof.
  intros tail Et Hb Hs Hh f. split.
  - intros (b' & s' & n' & date & rest & Et' & Hb' & Hd). rewrite Et in Et'.
    assert (Hs' : s' = ","%ch \/ s' = " "%ch) by (destruct Hd as [[-> _]|[-> _]]; auto).
    destruct (separator_unique _ _ _ _ _ _ Hb Hb' Hs Hs' Et') as (_ & <- & Er).
    assert (Hh' : head (date ++ rest) <> Some " "%ch).
    { destruct Hd as [[_ Hd]|[_ Hd]]; [apply dated_head in Hd as (c & Hc & N)|apply asctime_head in Hd as (c & Hc & N)];
        rewrite (head_app_some _ _ _ Hc); by intros [= ->]. }
    destruct (spaces_unique _ _ _ _ Hh Hh' Er) as (_ & ->). exists date. split; [by exists rest|done].
  - intros (date & [rest ->] & Hd). exists before, sep, n, date, rest. done.
Qed.

Lemma http_date_separator text f : http_date text f -> ~ Forall no_separator text.
Proof.
  intros (b & s & n & date & rest & -> & _ & Hd) F. apply Forall_app in F as [_ F]. apply Forall_cons in F as [[N1 N2] _].
  by destruct Hd as [[-> _]|[-> _]].
Qed.

Lemma dated_length w f : dated w f -> (18 <= length w)%nat.
Proof.
  destruct 1 as [? ? ? ? [[? ?] ?] _ Hm|? ? ? ? [[? ?] ?] _ Hm]; apply month_word_length in Hm;
    repeat (rewrite length_app || cbn [length app two_digits four_digits clock_word]); lia.
Qed.

Lemma asctime_length w f : asctime w f -> (18 <= length w)%nat.
Proof.
  destruct 1 as [? ? ? ? ? ? [[? ?] ?] ? Hm _ Hd]; apply month_word_length in Hm.
  assert (1 <= length ds)%nat by (destruct Hd; cbn; lia).
  repeat (rewrite length_app || cbn [length app two_digits four_digits clock_word]); lia.
Qed.

Lemma http_time_fields_exact m e :
  (e <= length m)%nat -> exact (http_date (take e m)) (http_time_fields m e).
Proof.
  intros He. unfold http_time_fields.
  destruct (find_separator_exact m e He e 0 ltac:(lia)) as [(before & sep & rest & Er & Hb & Hs & ->)|[-> Hn]];
    cbn [mbind outcome_bind].
  - rewrite Nat.add_0_l. set (i := length before).
    assert (Et : take e m = before ++ sep :: rest) by exact Er.
    assert (Hi : (S i <= e)%nat).
    { apply (f_equal length) in Et. rewrite length_take, length_app in Et. cbn [length] in Et. unfold i. lia. }
    destruct (skip_spaces_exact m e He (e - S i) (S i) ltac:(lia)) as (n & -> & Hn & Es & Hh). cbn [mbind outcome_bind].
    assert (Ei : rest_at m e (S i) = rest).
    { unfold rest_at. rewrite Et. change (before ++ sep :: rest) with (before ++ [sep] ++ rest). rewrite app_assoc.
      apply drop_app_length'. rewrite length_app. cbn. unfold i. lia. }
    rewrite <- Ei, Es in Et. set (q := (S i + n)%nat) in *.
    pose proof (http_date_at _ _ _ _ _ Et Hb Hs Hh) as G.
    eapply exact_iff; [intros f; symmetry; apply G|]. change (rest_at m e q) with (drop q (take e m)).
    destruct (Z.ltb_spec (Z.of_nat e - Z.of_nat q) 18) as [Hq|Hq].
    + apply exact_none. intros f (date & Hp & Hd). apply prefix_length in Hp. rewrite length_drop, length_take in Hp.
      destruct Hd as [[_ Hd%dated_length]|[_ Hd%asctime_length]]; lia.
    + destruct Hs as [-> | ->].
      * eapply exact_iff; [|apply (dated_exact m e He q); lia]. intros f. split.
        -- intros (w & Hd & Hw). exists w. split; [done|by left].
        -- intros (w & Hw & [[_ Hd]|[E _]]); [by exists w|done].
      * eapply exact_iff; [|apply (asctime_exact m e He q); lia]. intros f. split.
        -- intros (w & Hd & Hw). exists w. split; [done|by right].
        -- intros (w & Hw & [[E _]|[_ Hd]]); [done|by exists w].
  - replace (e - S e)%nat with 0%nat by lia. cbn [skip_date_spaces mbind outcome_bind].
    destruct (Z.ltb_spec (Z.of_nat e - Z.of_nat (S e)) 18); [|lia].
    apply exact_none. intros f Hf. by apply http_date_separator in Hf.
Qed.

(** * The value *)

(** The formula is wrong in January and February of the year 0. *)
Lemma gauss_time_year_0 day month h mi s :
  0 <= day <= 99 -> 0 <= month <= 1 -> clock_ok h mi s ->
  to_i64 (gauss_time day month 0 h mi s) = time_value (mk_date 0 (month + 1) day) h mi s + 10368.
Proof.
  intros Hd Hm (Hh & Hmi & Hs).
  unfold gauss_time, time_value, day_number, leaps, month_start, march_year, march_month. cbn [d_month d_year d_day].
  destruct (Z.leb_spec (month - 1) 0); [|lia]. destruct (Z.leb_spec (month + 1) 2); [|lia].
  rewrite (Z.quot_div_nonneg (367 * _)) by lia. change (to_u64 (0 - 1)) with 18446744073709551615.
  unfold to_i64, to_u64. Z.to_euclidean_division_equations. lia.
Qed.

Lemma time_of_fields_correct d mo y h mi s :
  0 <= d <= 99 -> 0 <= mo <= 11 -> 0 <= y <= 9999 -> clock_digits (h, mi, s) ->
  (if (23 <? h) || (59 <? mi) || (59 <? s) then Ok NGX_ERROR
   else bad ← bad_day d mo y; if (bad : bool) then Ok NGX_ERROR else Ok (to_i64 (gauss_time d mo y h mi s)))
  = Ok (time_of_fields (d, mo, y, (h, mi, s))).
Proof.
  intros Hd Hmo Hy (Hh & Hmi & Hs). unfold time_of_fields. rewrite bad_day_spec by done. cbn [mbind outcome_bind].
  destruct (Z.ltb_spec 23 h), (Z.ltb_spec 59 mi), (Z.ltb_spec 59 s); cbn [orb];
    try (rewrite decide_False by lia; done).
  destruct (Z.ltb_spec (month_days y (mo + 1)) d).
  - by rewrite decide_False by lia.
  - rewrite decide_True by lia. f_equal. destruct (decide (y = 0 /\ mo <= 1)) as [[-> Hm]|N].
    + apply gauss_time_year_0; [done|lia|]. split_and!; lia.
    + rewrite Z.add_0_r. apply gauss_time_spec; try done; [split_and!; lia|lia].
Qed.

Lemma http_date_fields text d mo y h mi s :
  http_date text (d, mo, y, (h, mi, s)) -> 0 <= d <= 99 /\ 0 <= mo <= 11 /\ 0 <= y <= 9999 /\ clock_digits (h, mi, s).
Proof.
  assert (M : forall w mo, month_word w mo -> 0 <= mo <= 11) by (destruct 1; lia).
  intros (? & ? & ? & ? & ? & _ & _ & [[_ Hd]|[_ Hd]]); inversion Hd; subst;
    match goal with H : month_word _ _ |- _ => apply M in H end.
  - done.
  - split_and!; try done; try lia; destruct (v <? 70); lia.
  - match goal with H : day_word _ _ |- _ => destruct H end; split_and!; try done; lia.
Qed.

(** C28. ngx_parse_http_time stays inside its text and accepts exactly the texts of
    a grammar: anything up to the first comma or space, spaces, a date of RFC 822 or RFC
    850 after a comma, one of asctime after a space, and anything after it; of a month
    only the letters that tell it from the others count. The result is the time of the
    date in the calendar when its fields are in range (a day from 0, the day before the
    first, to the length of the month) and NGX_ERROR otherwise; in January and February
    of the year 0 it is 10368 seconds too large. Every other text gives NGX_ERROR. *)
Theorem ngx_parse_http_time_exact value len :
  (len <= length value)%nat ->
  (exists f, http_date (take len value) f /\ ngx_parse_http_time value len = Ok (time_of_fields f)) \/
  (~ exists f, http_date (take len value) f) /\ ngx_parse_http_time value len = Ok NGX_ERROR.
Proof.
  intros Hl. unfold ngx_parse_http_time. destruct (http_time_fields_exact value len Hl) as (o & -> & Ho).
  cbn [mbind outcome_bind]. destruct o as [[[[d mo] y] [[h mi] s]]|].
  - left. exists (d, mo, y, (h, mi, s)). assert (Hf : http_date (take len value) (d, mo, y, (h, mi, s))) by by apply Ho.
    split; [done|]. apply http_date_fields in Hf as (Hd & Hmo & Hy & Hc). by apply time_of_fields_correct.
  - right. split; [|done]. intros [f Hf]. by apply Ho in Hf.
Qed.

(** The fields of "Mon, 27 Nov 2017 16:26:40 GMT", and a text that is no date. *)
Lemma ngx_parse_http_time_exact_witness :
  (exists f, http_date (bytes "Mon, 27 Nov 2017 16:26:40 GMT") f /\ time_of_fields f = 1511800000) /\
  ~ exists f, http_date (bytes "Tue, 1") f.
Proof.
  split.
  - destruct (ngx_parse_http_time_exact (bytes "Mon, 27 Nov 2017 16:26:40 GMT") 29 ltac:(apply le_n)) as [(f & Hf & E)|[_ E]].
    + exists f. split; [exact Hf|]. assert (X : Ok 1511800000 = Ok (time_of_fields f)) by (rewrite <- E; reflexivity).
      by injection X.
    + vm_compute in E. discriminate E.
  - destruct (ngx_parse_http_time_exact (bytes "Tue, 1") 6 ltac:(apply le_n)) as [(f & Hf & _)|[N _]]; [|exact N].
    exfalso. destruct Hf as (b & sep & n & date & rest & E & _ & Hd). apply (f_equal length) in E.
    rewrite length_app in E. cbn [length] in E. rewrite !length_app in E.
    destruct Hd as [[_ Hd%dated_length]|[_ Hd%asctime_length]]; cbn in E; lia.
Defined.
