(* ===== verification/TimesRoundtrip.v ===== *)
(** Component "times", continued: the texts that ngx_parse_http_time accepts, what
    ngx_http_time and ngx_http_cookie_time print, and how they are read back. *)

From stdpp Require Import base numbers list option strings.
From Stdlib Require Import ZArith Lia.
From S2P Require Import Prelude Atoi Sprintf SprintfFormat Times TimesText.
Local Open Scope Z_scope.

(** * The texts of a date *)

(** The name of a month, without its NUL. *)
Definition month_name (month : Z) : list Z := take 3 (default [] (months !! Z.to_nat (month - 1))).

Definition clock_text (h mi s : Z) : list Z :=
  two_digits h ++ ":"%ch :: two_digits mi ++ ":"%ch :: two_digits s.

(** The day in asctime: a space takes the place of a zero. *)
Definition asctime_day (k : Z) : list Z := if k <? 10 then [" "%ch; digit k] else two_digits k.

(** What stands after the day of the week and its separator. *)
Definition date_text (fmt : time_fmt) (d : date) (h mi s : Z) : list Z :=
  match fmt with
  | isoc =>
      month_name (d_month d) ++ " "%ch :: asctime_day (d_day d) ++ " "%ch :: clock_text h mi s ++
      " "%ch :: four_digits (d_year d)
  | rfc850 =>
      two_digits (d_day d) ++ "-"%ch :: month_name (d_month d) ++ "-"%ch :: two_digits (d_year d mod 100) ++
      " "%ch :: clock_text h mi s
  | _ =>
      two_digits (d_day d) ++ " "%ch :: month_name (d_month d) ++ " "%ch :: four_digits (d_year d) ++
      " "%ch :: clock_text h mi s
  end.

Definition separator (fmt : time_fmt) : Z := match fmt with isoc => " "%ch | _ => ","%ch end.

(** The years a format can tell. *)
Definition year_ok (fmt : time_fmt) (y : Z) : Prop :=
  match fmt with rfc850 => 1970 <= y < 2070 | no => False | _ => 1 <= y <= 9999 end.

(** ** Reading at an offset *)

Lemma deref_drop m p i : deref m (p + i) = deref (drop p m) i.
Proof. unfold deref. by rewrite lookup_drop. Qed.

Lemma deref_here m p : deref m p = deref (drop p m) 0.
Proof. rewrite <- deref_drop. by rewrite Nat.add_0_r. Qed.

Lemma drop_next (m : list Z) p a b : drop p m = a ++ b -> drop (p + length a) m = b.
Proof. intros E. by rewrite <- drop_drop, E, drop_app_length. Qed.

Lemma not_digits_drop m p i n : not_digits m (p + i) n = not_digits (drop p m) i n.
Proof.
  revert i. induction n as [|n IH]; intros i; [done|]. cbn [not_digits].
  rewrite deref_drop, plus_n_Sm, IH. done.
Qed.

Lemma digit_test v : 0 <= v <= 9 -> (digit v <? "0"%ch) || ("9"%ch <? digit v) = false.
Proof. unfold digit. intros. tests. Qed.

Lemma number2_text m p v post :
  drop p m = two_digits v ++ post -> 0 <= v <= 99 -> number2 m p = Ok (Some v).
Proof.
  intros E Hv. unfold number2. rewrite (deref_here m p), deref_drop.
  rewrite <- (Nat.add_0_r p) at 1. rewrite not_digits_drop, E. unfold two_digits. cbn [app].
  assert (0 <= v / 10 <= 9) by (Z.div_mod_to_equations; lia). assert (0 <= v mod 10 <= 9) by (Z.div_mod_to_equations; lia).
  unfold not_digits, deref. cbn [lookup list_lookup mbind outcome_bind]. rewrite !digit_test by done.
  cbn [mbind outcome_bind]. do 2 f_equal. unfold digit. Z.div_mod_to_equations; lia.
Qed.

Lemma number4_text m p v post :
  drop p m = four_digits v ++ post -> 0 <= v <= 9999 -> number4 m p = Ok (Some v).
Proof.
  intros E Hv. unfold number4. rewrite (deref_here m p), !deref_drop.
  rewrite <- (Nat.add_0_r p) at 1. rewrite not_digits_drop, E. unfold four_digits. cbn [app].
  unfold not_digits, deref. cbn [lookup list_lookup mbind outcome_bind].
  rewrite !digit_test by (Z.div_mod_to_equations; lia).
  cbn [mbind outcome_bind]. do 2 f_equal. unfold digit. Z.div_mod_to_equations; lia.
Qed.

Lemma expect_text m p c post : drop p m = c :: post -> expect_char m p c = Ok (Some (S p)).
Proof. intros E. unfold expect_char. rewrite deref_here, E. cbn. by rewrite Z.eqb_refl. Qed.

Lemma drop_S (m : list Z) p c post : drop p m = c :: post -> drop (S p) m = post.
Proof. intros E. rewrite <- Nat.add_1_r. by apply (drop_next m p [c]). Qed.

Lemma deref_text m p c post : drop p m = c :: post -> deref m p = Ok c.
Proof. intros E. by rewrite deref_here, E. Qed.

Lemma digit_text m p v post : drop p m = digit v :: post -> 0 <= v <= 9 -> not_digits m p 1 = Ok false.
Proof. intros E Hv. cbn [not_digits]. rewrite (deref_text _ _ _ _ E). cbn. by rewrite digit_test. Qed.

Lemma parse_month_text m p month post :
  1 <= month <= 12 -> drop p m = month_name month ++ post -> parse_month m p = Ok (Some (month - 1)).
Proof.
  intros Hm E. unfold parse_month. rewrite (deref_here m p), !deref_drop, E.
  each_month month H; reflexivity.
Qed.

Lemma month_name_length month : 1 <= month <= 12 -> length (month_name month) = 3%nat.
Proof. intros Hm. each_month month H; reflexivity. Qed.

(** A text as the list of its parts. *)
Ltac flat_text E := repeat (rewrite <- app_assoc in E || rewrite <- app_comm_cons in E).

Section texts.
Context (m : list Z) (d : date) (h mi s : Z) (Hok : date_ok d) (Hc : clock_ok h mi s).

Lemma parse_clock_text p post :
  drop p m = " "%ch :: clock_text h mi s ++ post ->
  parse_clock m p = Ok (Some (h, mi, s, (p + 7)%nat)) /\ drop (p + 9) m = post.
Proof using Hc.
  destruct Hc as (Hh & Hmi & Hs). intros E. unfold parse_clock, clock_text in *.
  flat_text E. rewrite (expect_text _ _ _ _ E). cbn [step_bind mbind outcome_bind]. apply drop_S in E.
  rewrite (number2_text _ _ _ _ E) by lia. cbn [step_bind mbind outcome_bind].
  apply (drop_next _ _ (two_digits h)) in E. change (length (two_digits h)) with 2%nat in E.
  rewrite (expect_text _ _ _ _ E). cbn [step_bind mbind outcome_bind]. apply drop_S in E.
  rewrite (number2_text _ _ _ _ E) by lia. cbn [step_bind mbind outcome_bind].
  apply (drop_next _ _ (two_digits mi)) in E. change (length (two_digits mi)) with 2%nat in E.
  rewrite (expect_text _ _ _ _ E). cbn [step_bind mbind outcome_bind]. apply drop_S in E.
  rewrite (number2_text _ _ _ _ E) by lia. cbn [step_bind mbind outcome_bind].
  apply (drop_next _ _ (two_digits s)) in E. change (length (two_digits s)) with 2%nat in E.
  split; [|rewrite <- E; f_equal; lia]. repeat f_equal; lia.
Qed.

(** *** The three ways of writing the date *)

Definition rest_822 (post : list Z) : list Z :=
  month_name (d_month d) ++ " "%ch :: four_digits (d_year d) ++ " "%ch :: clock_text h mi s ++ post.
Definition rest_850 (post : list Z) : list Z :=
  month_name (d_month d) ++ "-"%ch :: two_digits (d_year d mod 100) ++ " "%ch :: clock_text h mi s ++ post.

Lemma month_day_range : 1 <= d_month d <= 12 /\ 1 <= d_day d <= 31.
Proof using Hok.
  destruct Hok as [Hm Hk]. split; [done|]. unfold month_days, leap in Hk.
  repeat match type of Hk with context [if ?b then _ else _] => destruct b end; lia.
Qed.

Lemma parse_day_822 p post :
  drop p m = two_digits (d_day d) ++ " "%ch :: rest_822 post ->
  parse_day m p (length m) no 32 = Ok (Some (d_day d, (p + 3)%nat, rfc822)) /\ drop (p + 3) m = rest_822 post.
Proof using Hok Hc.
  pose proof month_day_range as [Hm Hk]. intros E.
  pose proof (drop_next _ _ (two_digits (d_day d)) _ E) as E2. change (length (two_digits _)) with 2%nat in E2.
  assert (Hl : (18 <= length m - (p + 2))%nat).
  { rewrite <- length_drop, E2. unfold rest_822, clock_text. cbn [length].
    rewrite length_app, month_name_length by done. cbn [length]. repeat (rewrite length_app; cbn [length]).
    cbn. lia. }
  unfold parse_day. rewrite (number2_text _ _ _ _ E) by lia. cbn [step_bind mbind outcome_bind].
  rewrite (deref_here m (p + 2)), E2. cbn [deref lookup list_lookup mbind outcome_bind]. rewrite Z.eqb_refl.
  destruct (Z.ltb_spec (Z.of_nat (length m) - Z.of_nat (p + 2)) 18); [lia|]. split; [done|].
  replace (p + 3)%nat with (S (p + 2)) by lia. by apply drop_S in E2.
Qed.

Lemma parse_day_850 p post :
  drop p m = two_digits (d_day d) ++ "-"%ch :: rest_850 post ->
  parse_day m p (length m) no 32 = Ok (Some (d_day d, (p + 3)%nat, rfc850)) /\ drop (p + 3) m = rest_850 post.
Proof using Hok.
  pose proof month_day_range as [Hm Hk]. intros E.
  unfold parse_day. rewrite (number2_text _ _ _ _ E) by lia. cbn [step_bind mbind outcome_bind].
  apply (drop_next _ _ (two_digits (d_day d))) in E. change (length (two_digits _)) with 2%nat in E.
  rewrite (deref_here m (p + 2)), E. cbn [deref lookup list_lookup mbind outcome_bind].
  change ("-"%ch =? " "%ch) with false. rewrite Z.eqb_refl. split; [done|].
  replace (p + 3)%nat with (S (p + 2)) by lia. by apply drop_S in E.
Qed.

Lemma parse_month_at p post :
  drop p m = month_name (d_month d) ++ post ->
  parse_month m p = Ok (Some (d_month d - 1)) /\ drop (p + 3) m = post.
Proof using Hok.
  pose proof month_day_range as [Hm _]. intros E. split; [by apply (parse_month_text _ _ _ post)|].
  rewrite <- (month_name_length _ Hm). by apply drop_next.
Qed.

Lemma parse_year_822 p day post :
  year_ok rfc822 (d_year d) -> drop p m = " "%ch :: four_digits (d_year d) ++ post ->
  parse_year m p (length m) rfc822 day 2038 = Ok (Some (day, d_year d, (p + 5)%nat)) /\ drop (p + 5) m = post.
Proof using.
  intros Hy E. cbn [parse_year]. rewrite (expect_text _ _ _ _ E). cbn [step_bind mbind outcome_bind].
  apply drop_S in E. rewrite (number4_text _ _ _ _ E) by (cbn in Hy; lia). cbn [step_bind mbind outcome_bind].
  apply (drop_next _ _ (four_digits (d_year d))) in E. change (length (four_digits _)) with 4%nat in E.
  replace (S p + 4)%nat with (p + 5)%nat in * by lia. done.
Qed.

Lemma parse_year_850 p day post :
  year_ok rfc850 (d_year d) -> drop p m = "-"%ch :: two_digits (d_year d mod 100) ++ post ->
  parse_year m p (length m) rfc850 day 2038 = Ok (Some (day, d_year d, (p + 3)%nat)) /\ drop (p + 3) m = post.
Proof using.
  intros Hy E. cbn [year_ok] in Hy. cbn [parse_year]. rewrite (expect_text _ _ _ _ E). cbn [step_bind mbind outcome_bind].
  apply drop_S in E. pose proof (Z.mod_pos_bound (d_year d) 100 ltac:(lia)).
  rewrite (number2_text _ _ _ _ E) by lia. cbn [step_bind mbind outcome_bind].
  apply (drop_next _ _ (two_digits (d_year d mod 100))) in E. change (length (two_digits _)) with 2%nat in E.
  replace (S p + 2)%nat with (p + 3)%nat in * by lia. split; [|done].
  assert (Ey : d_year d mod 100 + (if d_year d mod 100 <? 70 then 2000 else 1900) = d_year d)
    by (destruct (Z.ltb_spec (d_year d mod 100) 70); Z.div_mod_to_equations; lia).
  by rewrite Ey.
Qed.

Lemma parse_year_isoc p post :
  (13 <= length post)%nat ->
  drop p m = " "%ch :: asctime_day (d_day d) ++ " "%ch :: post ->
  parse_year m p (length m) isoc 32 2038 = Ok (Some (d_day d, 2038, (p + 3)%nat)) /\ drop (p + 3) m = " "%ch :: post.
Proof using Hok.
  pose proof month_day_range as [_ Hk]. intros Hl E. assert (E3 : drop (p + 3) m = " "%ch :: post).
  { apply drop_S, (drop_next _ _ (asctime_day (d_day d))) in E.
    replace (length (asctime_day (d_day d))) with 2%nat in E by (unfold asctime_day; by destruct (_ <? _)).
    rewrite <- E. f_equal. lia. }
  split; [|done]. assert (H14 : (Z.of_nat (length m) - Z.of_nat (p + 3) <? 14) = false).
  { apply Z.ltb_ge. pose proof (length_drop m (p + 3)) as Hd. rewrite E3 in Hd. cbn [length] in Hd. lia. }
  apply drop_S in E. cbn [parse_year]. unfold asctime_day in *.
  assert (Hs : forall v, 0 <= v <= 9 -> (digit v =? " "%ch) = false) by (unfold digit; intros; tests).
  destruct (Z.ltb_spec (d_day d) 10).
  - rewrite (deref_text _ _ _ _ E). cbn [mbind outcome_bind]. rewrite Z.eqb_refl. apply drop_S in E.
    rewrite (digit_text _ _ _ _ E), (deref_text _ _ _ _ E) by lia. cbn [mbind outcome_bind].
    apply drop_S in E. rewrite (deref_text _ _ _ _ E). cbn [mbind outcome_bind]. rewrite Z.eqb_refl.
    cbn [negb step_bind mbind outcome_bind].
    replace (S (S (S p))) with (p + 3)%nat by lia. rewrite H14. unfold digit. do 4 f_equal. lia.
  - unfold two_digits in *. assert (0 <= d_day d / 10 <= 9) by (Z.div_mod_to_equations; lia).
    assert (0 <= d_day d mod 10 <= 9) by (Z.div_mod_to_equations; lia).
    rewrite (deref_text _ _ _ _ E). cbn [mbind outcome_bind]. rewrite Hs by done.
    rewrite (digit_text _ _ _ _ E), (deref_text _ _ _ _ E) by lia. cbn [mbind outcome_bind].
    apply drop_S in E. rewrite (deref_text _ _ _ _ E). cbn [mbind outcome_bind]. rewrite Hs by done.
    cbn [negb]. rewrite (digit_text _ _ _ _ E) by lia. cbn [step_bind mbind outcome_bind].
    replace (S (S (S p))) with (p + 3)%nat by lia. rewrite H14. unfold digit. do 4 f_equal.
    Z.div_mod_to_equations; lia.
Qed.

End texts.

(** ** Up to the date *)

Lemma find_separator_text w sep post :
  Forall (fun c => c <> ","%ch /\ c <> " "%ch) w -> sep = ","%ch \/ sep = " "%ch ->
  forall pre, find_separator (pre ++ w ++ sep :: post) (length pre) (length (w ++ sep :: post))
    = Ok ((length pre + length w)%nat, if sep =? " "%ch then isoc else no).
Proof.
  intros Hw Hsep. induction Hw as [|c w [H1 H2] Hw IH]; intros pre; cbn [app length find_separator].
  - rewrite (deref_text _ _ sep post) by apply drop_app_length. cbn [mbind outcome_bind].
    rewrite Nat.add_0_r. by destruct Hsep as [-> | ->].
  - rewrite (deref_text _ _ c (w ++ sep :: post)) by apply drop_app_length. cbn [mbind outcome_bind].
    rewrite (proj2 (Z.eqb_neq _ _) H1), (proj2 (Z.eqb_neq _ _) H2).
    specialize (IH (pre ++ [c])). rewrite <- app_assoc, length_app, Nat.add_1_r in IH. cbn [app] in IH.
    rewrite IH. by rewrite <- plus_n_Sm.
Qed.

Lemma skip_date_spaces_text m p n k c post :
  drop p m = replicate n " "%ch ++ c :: post -> c <> " "%ch -> (n < k)%nat ->
  skip_date_spaces m p k = Ok (p + n)%nat.
Proof.
  intros E Hc. revert p k E. induction n as [|n IH]; intros p k E Hk; (destruct k as [|k]; [lia|]);
    cbn [skip_date_spaces replicate app] in *; rewrite (deref_text _ _ _ _ E); cbn [mbind outcome_bind].
  - rewrite (proj2 (Z.eqb_neq _ _) Hc), Nat.add_0_r. done.
  - rewrite Z.eqb_refl. cbn [negb]. rewrite (IH (S p) k); [f_equal; lia|by apply drop_S in E|lia].
Qed.

(** A whole text: the day of the week [w], any spaces, the date, and anything. *)
Definition http_date_text (fmt : time_fmt) (w : list Z) (spaces : nat) (d : date) (h mi s : Z)
    (post : list Z) : list Z :=
  w ++ separator fmt :: replicate spaces " "%ch ++ date_text fmt d h mi s ++ post.

Lemma date_text_start fmt d h mi s :
  date_ok d -> fmt <> no -> exists c l, date_text fmt d h mi s = c :: l /\ c <> " "%ch /\
    (17 <= length l)%nat.
Proof.
  intros Hok Hf. pose proof (month_day_range d Hok) as [Hm Hk].
  assert (Hl : forall fmt, fmt <> no -> (18 <= length (date_text fmt d h mi s))%nat).
  { intros f Hf'. pose proof (month_name_length _ Hm) as Hn.
    assert (Ha : length (asctime_day (d_day d)) = 2%nat) by (unfold asctime_day; by destruct (_ <? _)).
    destruct f; [done|..]; unfold date_text, clock_text, two_digits, four_digits;
      repeat (rewrite length_app || cbn [length app]); rewrite ?Hn, ?Ha; lia. }
  specialize (Hl fmt Hf). destruct (date_text fmt d h mi s) as [|c l] eqn:E; [cbn in Hl; lia|].
  exists c, l. split; [done|]. split; [|cbn in Hl; lia]. destruct fmt; [done|..].
  - injection E as <- _. unfold digit. Z.div_mod_to_equations; lia.
  - injection E as <- _. unfold digit. Z.div_mod_to_equations; lia.
  - cbn [date_text] in E. each_month (d_month d) H; injection E as <- _; done.
Qed.

(** The fields of the date at an offset. *)
Definition date_fields (m : list Z) (p : nat) (f : time_fmt) : parse_step (Z * Z * Z * (Z * Z * Z)) :=
  '(day, p, fmt) ←? parse_day m p (length m) f 32;
  month ←? parse_month m p;
  '(day, year, p) ←? parse_year m (p + 3) (length m) fmt day 2038;
  '(hour, min, sec, p) ←? parse_clock m p;
  year ←? parse_last_year m p fmt year;
  Ok (Some (day, month, year, (hour, min, sec))).

Definition fields_of (d : date) (h mi s : Z) : Z * Z * Z * (Z * Z * Z) :=
  (d_day d, d_month d - 1, d_year d, (h, mi, s)).

Section read.
Context (m : list Z) (d : date) (h mi s : Z) (Hok : date_ok d) (Hc : clock_ok h mi s).

(** Go on with a part of the date that is read by the lemma [L]. *)
Ltac read L E := destruct L as [-> E]; cbn [step_bind mbind outcome_bind].

Lemma read_822 p post :
  year_ok rfc822 (d_year d) -> drop p m = date_text rfc822 d h mi s ++ post ->
  date_fields m p no = Ok (Some (fields_of d h mi s)).
Proof using Hok Hc.
  intros Hy E. unfold date_fields. cbn [date_text] in E. flat_text E.
  read (parse_day_822 m d h mi s Hok Hc p post E) E1.
  read (parse_month_at m d Hok _ _ E1) E2. read (parse_year_822 m d _ (d_day d) _ Hy E2) E3.
  read (parse_clock_text m h mi s Hc _ _ E3) E4. done.
Qed.

Lemma read_850 p post :
  year_ok rfc850 (d_year d) -> drop p m = date_text rfc850 d h mi s ++ post ->
  date_fields m p no = Ok (Some (fields_of d h mi s)).
Proof using Hok Hc.
  intros Hy E. unfold date_fields. cbn [date_text] in E. flat_text E.
  read (parse_day_850 m d h mi s Hok p post E) E1.
  read (parse_month_at m d Hok _ _ E1) E2. read (parse_year_850 m d _ (d_day d) _ Hy E2) E3.
  read (parse_clock_text m h mi s Hc _ _ E3) E4. done.
Qed.

Lemma read_isoc p post :
  year_ok isoc (d_year d) -> drop p m = date_text isoc d h mi s ++ post ->
  date_fields m p isoc = Ok (Some (fields_of d h mi s)).
Proof using Hok Hc.
  intros Hy E. unfold date_fields, parse_day. cbn [date_text] in E. flat_text E.
  cbn [step_bind mbind outcome_bind]. read (parse_month_at m d Hok _ _ E) E2.
  match type of E2 with _ = _ :: _ ++ _ :: ?x => assert (13 <= length x)%nat as Hl end.
  { unfold clock_text, two_digits, four_digits. rewrite length_app. cbn [length app]. lia. }
  read (parse_year_isoc m d Hok _ _ Hl E2) E3.
  read (parse_clock_text m h mi s Hc _ _ E3) E4.
  cbn [parse_last_year].
  replace (p + 3 + 3 + 7 + 2)%nat with (p + 3 + 3 + 9)%nat by lia.
  rewrite (expect_text _ _ _ _ E4). cbn [step_bind mbind outcome_bind]. apply drop_S in E4.
  rewrite (number4_text _ _ _ _ E4) by (cbn in Hy; lia). done.
Qed.

End read.

Lemma separator_cases fmt : separator fmt = ","%ch \/ separator fmt = " "%ch.
Proof. destruct fmt; auto. Qed.

Lemma date_fields_text m p fmt d h mi s post :
  date_ok d -> clock_ok h mi s -> year_ok fmt (d_year d) ->
  drop p m = date_text fmt d h mi s ++ post ->
  date_fields m p (if separator fmt =? " "%ch then isoc else no) = Ok (Some (fields_of d h mi s)).
Proof.
  intros Hok Hc Hy E. destruct fmt; [done|..].
  - by apply (read_822 m d h mi s Hok Hc p post).
  - by apply (read_850 m d h mi s Hok Hc p post).
  - by apply (read_isoc m d h mi s Hok Hc p post).
Qed.

(** The beginning of a text, up to the date. *)
Lemma fields_at_date w sep spaces c l :
  Forall (fun c => c <> ","%ch /\ c <> " "%ch) w -> sep = ","%ch \/ sep = " "%ch -> c <> " "%ch ->
  (17 <= length l)%nat ->
  let text := w ++ sep :: replicate spaces " "%ch ++ c :: l in
  let p := (S (length w) + spaces)%nat in
  drop p text = c :: l /\
  http_time_fields text (length text) = date_fields text p (if sep =? " "%ch then isoc else no).
Proof.
  intros Hw Hsep Hc Hl text p. unfold http_time_fields.
  pose proof (find_separator_text w _ (replicate spaces " "%ch ++ c :: l) Hw Hsep []) as Es.
  cbn [app length] in Es. change (_ ++ _ :: _) with text in Es. cbn [Nat.add] in Es. rewrite Es.
  cbn [mbind outcome_bind].
  assert (E1 : drop (S (length w)) text = replicate spaces " "%ch ++ c :: l)
    by (apply (drop_S _ _ sep); unfold text; by rewrite drop_app_length).
  assert (Hlen : (length text = p + S (length l))%nat).
  { unfold text, p. rewrite length_app. cbn [length]. rewrite length_app, length_replicate. cbn [length]. lia. }
  rewrite (skip_date_spaces_text _ _ _ _ _ _ E1 Hc) by (unfold p in *; lia). cbn [mbind outcome_bind]. fold p.
  destruct (Z.ltb_spec (Z.of_nat (length text) - Z.of_nat p) 18); [lia|]. split; [|done].
  unfold p. rewrite <- drop_drop, E1. by rewrite drop_app_length' by (by rewrite length_replicate).
Qed.

Lemma http_time_fields_text fmt w spaces d h mi s post :
  date_ok d -> clock_ok h mi s -> year_ok fmt (d_year d) ->
  Forall (fun c => c <> ","%ch /\ c <> " "%ch) w ->
  let text := http_date_text fmt w spaces d h mi s post in
  http_time_fields text (length text) = Ok (Some (fields_of d h mi s)).
Proof.
  intros Hok Hc Hy Hw text. assert (Hf : fmt <> no) by (by intros ->).
  destruct (date_text_start fmt d h mi s Hok Hf) as (c & l & El & Hsp & Hl).
  destruct (fields_at_date w (separator fmt) spaces c (l ++ post) Hw (separator_cases fmt) Hsp) as [Ed E];
    [rewrite length_app; lia|].
  unfold text, http_date_text. rewrite El. cbn [app]. rewrite E.
  apply (date_fields_text _ _ _ _ _ _ _ post Hok Hc Hy). by rewrite Ed, El.
Qed.

Lemma parse_date_text fmt w spaces d h mi s post :
  date_ok d -> clock_ok h mi s -> year_ok fmt (d_year d) ->
  Forall (fun c => c <> ","%ch /\ c <> " "%ch) w ->
  let text := http_date_text fmt w spaces d h mi s post in
  ngx_parse_http_time text (length text) = Ok (time_value d h mi s).
Proof.
  intros Hok Hc Hy Hw text. unfold ngx_parse_http_time, text.
  rewrite http_time_fields_text by done. cbn [mbind outcome_bind fields_of].
  destruct Hc as (Hh & Hmi & Hs). destruct (month_day_range d Hok) as [Hm Hk].
  rewrite (proj2 (Z.ltb_ge 23 h)), (proj2 (Z.ltb_ge 59 mi)), (proj2 (Z.ltb_ge 59 s)) by lia. cbn [orb].
  assert (Hyr : 1 <= d_year d <= 9999) by (destruct fmt; cbn in Hy; lia).
  rewrite bad_day_spec by lia. rewrite Z.sub_add, (proj2 (Z.ltb_ge _ _)) by apply Hok. cbn [mbind outcome_bind].
  rewrite gauss_time_spec by (first [split_and!; lia|lia]). rewrite Z.sub_add. by destruct d.
Qed.

Theorem ngx_parse_http_time_text fmt w spaces d h mi s post :
  date_ok d -> clock_ok h mi s -> year_ok fmt (d_year d) ->
  Forall (fun c => c <> ","%ch /\ c <> " "%ch) w ->
  let text := http_date_text fmt w spaces d h mi s post in
  ngx_parse_http_time text (length text) = Ok (time_value d h mi s).
Proof. apply parse_date_text. Qed.

Lemma ngx_parse_http_time_text_witness :
  ngx_parse_http_time (bytes "Sun Feb 29 23:59:59 2004 ") 25 = Ok 1078099199 /\
  ngx_parse_http_time (bytes "Sunday, 29-Feb-04 23:59:59") 26 = Ok 1078099199.
Proof.
  split.
  - apply (ngx_parse_http_time_text isoc (bytes "Sun") 0 (mk_date 2004 2 29) 23 59 59 (bytes " "));
      [repeat split; discriminate|repeat split; discriminate|split; discriminate|repeat constructor; discriminate].
  - apply (ngx_parse_http_time_text rfc850 (bytes "Sunday") 1 (mk_date 2004 2 29) 23 59 59 []);
      [repeat split; discriminate|repeat split; discriminate|by split|repeat constructor; discriminate].
Defined.

(** * Printing and parsing *)

(** The name of a day of the week, without its NUL. *)
Definition week_name (wday : Z) : list Z := take 3 (default [] (week !! Z.to_nat wday)).

Lemma name_at_week i : 0 <= i < 7 -> name_at week i = Ok (week_name i ++ [0]) /\ no_nul (week_name i) /\
  Forall (fun c => c <> ","%ch /\ c <> " "%ch) (week_name i) /\ length (week_name i) = 3%nat.
Proof.
  intros Hi. assert (H : i = 0 \/ i = 1 \/ i = 2 \/ i = 3 \/ i = 4 \/ i = 5 \/ i = 6) by lia.
  repeat (destruct H as [-> | H]); try rewrite H; (split_and!; [done|repeat constructor; done..|done]).
Qed.

Lemma name_at_months i : 1 <= i <= 12 -> name_at months (i - 1) = Ok (month_name i ++ [0]) /\ no_nul (month_name i).
Proof. intros Hi. each_month i H; (split; [done|repeat constructor; done]). Qed.

(** The pieces of the two formats. *)
Definition clock_pieces (h mi s : Z) : list piece :=
  [Num true 2 false h; Lit ":"%ch; Num true 2 false mi; Lit ":"%ch; Num true 2 false s;
   Lit " "%ch; Lit "G"%ch; Lit "M"%ch; Lit "T"%ch].

Definition date_pieces (sep : Z) (zero : bool) (width : nat) (tm : ngx_tm_t) (year : Z) : list piece :=
  [Str (week_name (ngx_tm_wday tm)) []; Lit ","%ch; Lit " "%ch; Num true 2 false (ngx_tm_mday tm); Lit sep;
   Str (month_name (ngx_tm_mon tm)) []; Lit sep; Num zero width false year; Lit " "%ch] ++
  clock_pieces (ngx_tm_hour tm) (ngx_tm_min tm) (ngx_tm_sec tm).

(** The fields of a broken-down time as the code computes them. *)
Definition tm_ok (tm : ngx_tm_t) : Prop :=
  clock_ok (ngx_tm_hour tm) (ngx_tm_min tm) (ngx_tm_sec tm) /\ 1 <= ngx_tm_mon tm <= 12 /\
  1 <= ngx_tm_mday tm <= 31 /\ 0 <= ngx_tm_wday tm < 7 /\ 1970 <= ngx_tm_year tm < 2 ^ 31.

Lemma tm_of_ok t : gm_time_ok t -> tm_ok (tm_of t).
Proof.
  intros Ht. destruct (time_date t Ht) as (Hok & Hd & Hy). destruct (month_day_range _ Hok) as [Hm Hk].
  unfold tm_ok, tm_of, clock_ok. cbn [ngx_tm_hour ngx_tm_min ngx_tm_sec ngx_tm_mon ngx_tm_mday ngx_tm_wday ngx_tm_year].
  pose proof (Z.mod_pos_bound t 60). pose proof (Z.mod_pos_bound (t / 60) 60).
  pose proof (Z.mod_pos_bound (t / 3600) 24). pose proof (Z.mod_pos_bound (4 + t / 86400) 7). lia.
Qed.

Lemma date_pieces_ok sep zero width tm year :
  tm_ok tm -> sep <> 0 -> sep <> "%"%ch -> (width <= 9)%nat -> 0 <= year < 2 ^ 31 ->
  Forall piece_ok (date_pieces sep zero width tm year).
Proof.
  intros ((Hh & Hmi & Hs) & Hm & Hk & Hw & Hy) H0 Hp Hwi Hyr.
  destruct (name_at_week _ Hw) as (_ & Hn1 & _). destruct (name_at_months _ Hm) as [_ Hn2].
  unfold date_pieces, clock_pieces. cbn [app]. rewrite !Forall_cons.
  split_and!; try done; cbn; lia.
Qed.

(** The text of a date, with the year as it is printed. *)
Definition printed (sep : Z) (zero : bool) (width : nat) (tm : ngx_tm_t) (year : Z) : list Z :=
  week_name (ngx_tm_wday tm) ++ ","%ch :: " "%ch :: two_digits (ngx_tm_mday tm) ++ sep ::
  month_name (ngx_tm_mon tm) ++ sep :: field None (zero_char zero) (Z.of_nat width) (dec year) ++
  " "%ch :: clock_text (ngx_tm_hour tm) (ngx_tm_min tm) (ngx_tm_sec tm) ++ bytes " GMT".

Lemma date_pieces_out sep zero width tm year :
  tm_ok tm -> pieces_out (date_pieces sep zero width tm year) = printed sep zero width tm year.
Proof.
  intros ((Hh & Hmi & Hs) & Hm & Hk & Hw & Hy). unfold pieces_out, date_pieces, clock_pieces, printed, clock_text.
  cbn [app mbind list_bind piece_out zero_char]. change (Z.of_nat 2) with 2.
  rewrite !field_two by lia. repeat (rewrite <- ?app_assoc; cbn [app]). done.
Qed.

Lemma sprint_http_time_text tm :
  tm_ok tm -> sprint_http_time tm = Ok (printed " "%ch false 4 tm (ngx_tm_year tm)).
Proof.
  intros Htm. pose proof Htm as (_ & Hm & _ & Hw & Hy). unfold sprint_http_time.
  destruct (name_at_week _ Hw) as (-> & _). cbn [mbind outcome_bind].
  destruct (name_at_months _ Hm) as (-> & _). cbn [mbind outcome_bind].
  rewrite (ngx_sprintf_pieces (date_pieces " "%ch false 4 tm (ngx_tm_year tm)));
    [by rewrite date_pieces_out|reflexivity|done|apply date_pieces_ok; by (done || lia)].
Qed.

Lemma cookie_time_text t :
  gm_time_ok t ->
  ngx_http_cookie_time t = Ok (if 2037 <? ngx_tm_year (tm_of t)
    then printed "-"%ch false 0 (tm_of t) (ngx_tm_year (tm_of t))
    else printed "-"%ch true 2 (tm_of t) (ngx_tm_year (tm_of t) mod 100)).
Proof.
  intros Ht. pose proof (tm_of_ok t Ht) as Htm. pose proof Htm as (_ & Hm & _ & Hw & Hy).
  assert (Hr : ngx_gmtime t = Ok (tm_of t)).
  { exact (gmtime_spec t Ht). }
  unfold ngx_http_cookie_time. rewrite Hr. cbn [mbind outcome_bind].
  destruct (name_at_week _ Hw) as (-> & _). cbn [mbind outcome_bind].
  destruct (name_at_months _ Hm) as (-> & _). cbn [mbind outcome_bind].
  rewrite Z.rem_mod_nonneg by lia. pose proof (Z.mod_pos_bound (ngx_tm_year (tm_of t)) 100 ltac:(lia)).
  destruct (2037 <? ngx_tm_year (tm_of t)).
  - rewrite (ngx_sprintf_pieces (date_pieces "-"%ch false 0 (tm_of t) (ngx_tm_year (tm_of t))));
      [by rewrite date_pieces_out|reflexivity|done|apply date_pieces_ok; by (done || lia)].
  - rewrite (ngx_sprintf_pieces (date_pieces "-"%ch true 2 (tm_of t) (ngx_tm_year (tm_of t) mod 100)));
      [by rewrite date_pieces_out|reflexivity|done|apply date_pieces_ok; by (done || lia)].
Qed.

Lemma time_value_of t :
  gm_time_ok t ->
  time_value (date_of (t / 86400)) (ngx_tm_hour (tm_of t)) (ngx_tm_min (tm_of t)) (ngx_tm_sec (tm_of t)) = t.
Proof.
  intros Ht. destruct (time_date t Ht) as (_ & Hd & _). unfold time_value, tm_of.
  cbn [ngx_tm_hour ngx_tm_min ngx_tm_sec]. rewrite Hd. Z.div_mod_to_equations; lia.
Qed.

(** The text of a time before the year 10000. *)
Lemma http_text_parses t :
  0 <= t < 253402300800 ->
  let text := printed " "%ch false 4 (tm_of t) (ngx_tm_year (tm_of t)) in
  ngx_tm_year (tm_of t) <= 9999 /\ length text = 29%nat /\ ngx_parse_http_time text (length text) = Ok t.
Proof.
  intros Ht text. assert (Htok : gm_time_ok t) by (unfold gm_time_ok; lia).
  pose proof (tm_of_ok t Htok) as Htm. destruct (time_date t Htok) as (Hok & _ & Hy).
  assert (E9 : day_number (mk_date (9999 + 1) 1 1) * 86400 = 253402300800) by reflexivity.
  pose proof (time_year t 9999 Htok ltac:(rewrite E9; lia)) as Hy9. split; [done|].
  pose proof Htm as (Hc & Hm & _ & Hw & _). destruct (name_at_week _ Hw) as (_ & _ & Hwd & Hl).
  assert (E : text = http_date_text rfc822 (week_name (ngx_tm_wday (tm_of t))) 1 (date_of (t / 86400))
        (ngx_tm_hour (tm_of t)) (ngx_tm_min (tm_of t)) (ngx_tm_sec (tm_of t)) (bytes " GMT")).
  { unfold text, printed, http_date_text. change (Z.of_nat 4) with 4.
    rewrite field_four by (cbn [ngx_tm_year tm_of]; lia).
    cbn [separator date_text replicate app]. repeat (rewrite <- ?app_assoc; cbn [app]). done. }
  rewrite E. split.
  - unfold http_date_text, date_text. pose proof (month_name_length _ Hm) as Hml.
    cbn [ngx_tm_mon tm_of] in Hml. repeat (rewrite length_app; cbn [length]). rewrite Hl, Hml. reflexivity.
  - rewrite (parse_date_text rfc822) by (first [done|cbn; lia]). by rewrite time_value_of.
Qed.

(** C26. ngx_http_time prints every time from the epoch to the end of the year 9999
    in 29 characters, and ngx_parse_http_time reads exactly that time back. *)
Theorem http_time_roundtrip t :
  0 <= t < 253402300800 ->
  exists text, ngx_http_time t = Ok text /\ length text = 29%nat /\
    ngx_parse_http_time text (length text) = Ok t.
Proof.
  intros Ht. assert (Htok : gm_time_ok t) by (unfold gm_time_ok; lia).
  destruct (http_text_parses t Ht) as (_ & Hl & Hp). eexists. split; [|done].
  unfold ngx_http_time. rewrite (gmtime_spec t Htok). by apply sprint_http_time_text, tm_of_ok.
Qed.

Lemma http_time_roundtrip_witness :
  exists text, ngx_http_time 951827696 = Ok text /\ length text = 29%nat /\
    ngx_parse_http_time text (length text) = Ok 951827696.
Proof. apply (http_time_roundtrip 951827696). split; [discriminate|reflexivity]. Defined.

(** A year of four digits is no year of two digits. *)
Lemma long_year_fails m p d year post :
  date_ok d -> 1000 <= year < 10000 ->
  drop p m = two_digits (d_day d) ++ "-"%ch :: month_name (d_month d) ++ "-"%ch :: four_digits year ++ post ->
  date_fields m p no = Ok None.
Proof.
  intros Hok Hy E. pose proof (month_day_range d Hok) as [Hm Hk]. rewrite four_two in E by lia. flat_text E.
  unfold date_fields, parse_day. rewrite (number2_text _ _ _ _ E) by lia. cbn [step_bind mbind outcome_bind].
  apply (drop_next _ _ (two_digits (d_day d))) in E. change (length (two_digits _)) with 2%nat in E.
  rewrite (deref_text _ _ _ _ E). cbn [step_bind mbind outcome_bind].
  change ("-"%ch =? " "%ch) with false. rewrite Z.eqb_refl. cbn [step_bind mbind outcome_bind]. apply drop_S in E.
  replace (S (p + 2)) with (p + 3)%nat in E by lia.
  destruct (parse_month_at m d Hok _ _ E) as [-> E2]. cbn [step_bind mbind outcome_bind parse_year].
  rewrite (expect_text _ _ _ _ E2). cbn [step_bind mbind outcome_bind]. apply drop_S in E2.
  assert (0 <= year / 100 <= 99) by (Z.div_mod_to_equations; lia).
  rewrite (number2_text _ _ _ _ E2) by lia. cbn [step_bind mbind outcome_bind].
  apply (drop_next _ _ (two_digits _)) in E2. change (length (two_digits _)) with 2%nat in E2.
  unfold parse_clock, expect_char. unfold two_digits in E2. cbn [app] in E2. rewrite (deref_text _ _ _ _ E2).
  cbn [mbind outcome_bind]. rewrite (proj2 (Z.eqb_neq _ _)); [done|].
  unfold digit. Z.div_mod_to_equations; lia.
Qed.

Lemma parse_long_year w d year post :
  date_ok d -> 1000 <= year < 10000 -> Forall (fun c => c <> ","%ch /\ c <> " "%ch) w -> (7 <= length post)%nat ->
  let text := w ++ ","%ch :: " "%ch :: two_digits (d_day d) ++ "-"%ch :: month_name (d_month d) ++
    "-"%ch :: four_digits year ++ post in
  http_time_fields text (length text) = Ok None.
Proof.
  intros Hok Hy Hw Hl text. pose proof (month_day_range d Hok) as [Hm Hk].
  destruct (fields_at_date w ","%ch 1 (digit (d_day d / 10)) (digit (d_day d mod 10) :: "-"%ch ::
    month_name (d_month d) ++ "-"%ch :: four_digits year ++ post) Hw) as [Ed E].
  - by left.
  - unfold digit. Z.div_mod_to_equations; lia.
  - cbn [length]. rewrite length_app, month_name_length by done. cbn [length app four_digits]. lia.
  - unfold text. cbn [two_digits app]. cbn [replicate app] in E, Ed. unfold two_digits. cbn [app]. rewrite E.
    apply (long_year_fails _ _ d year post Hok Hy). by rewrite Ed.
Qed.

Theorem cookie_time_roundtrip t :
  0 <= t < 253402300800 ->
  exists text, ngx_http_cookie_time t = Ok text /\
    ngx_parse_http_time text (length text) = Ok (if t <? 2145916800 then t else NGX_ERROR).
Proof.
  intros Ht. assert (Htok : gm_time_ok t) by (unfold gm_time_ok; lia). rewrite (cookie_time_text t Htok).
  pose proof (tm_of_ok t Htok) as Htm. destruct (time_date t Htok) as (Hok & Hd & Hy).
  assert (E9 : day_number (mk_date (9999 + 1) 1 1) * 86400 = 253402300800) by reflexivity.
  pose proof (time_year t 9999 Htok ltac:(rewrite E9; lia)) as Hy9.
  pose proof Htm as (Hc & Hm & _ & Hw & _). destruct (name_at_week _ Hw) as (_ & _ & Hwd & Hl).
  eexists. split; [done|].
  assert (E37 : day_number (mk_date (2037 + 1) 1 1) * 86400 = 2145916800) by reflexivity.
  destruct (Z.ltb_spec t 2145916800) as [Hlt|Hge].
  - pose proof (time_year t 2037 Htok ltac:(rewrite E37; lia)) as Hy37.
    rewrite (proj2 (Z.ltb_ge _ _)) by (cbn [ngx_tm_year tm_of]; lia).
    assert (E : printed "-"%ch true 2 (tm_of t) (ngx_tm_year (tm_of t) mod 100)
      = http_date_text rfc850 (week_name (ngx_tm_wday (tm_of t))) 1 (date_of (t / 86400))
          (ngx_tm_hour (tm_of t)) (ngx_tm_min (tm_of t)) (ngx_tm_sec (tm_of t)) (bytes " GMT")).
    { unfold printed, http_date_text. change (Z.of_nat 2) with 2. cbn [zero_char].
      rewrite field_two by (apply Z.mod_pos_bound; lia).
      cbn [separator date_text replicate app]. repeat (rewrite <- ?app_assoc; cbn [app]). done. }
    rewrite E, (parse_date_text rfc850) by (first [done|cbn; lia]). by rewrite time_value_of.
  - assert (Hy38 : 2038 <= ngx_tm_year (tm_of t)).
    { destruct (Z.le_gt_cases 2038 (d_year (date_of (t / 86400)))) as [|Hlt]; [done|exfalso].
      pose proof (date_number_lt _ 2037 Hok ltac:(lia)). Z.div_mod_to_equations; lia. }
    rewrite (proj2 (Z.ltb_lt _ _)) by lia. unfold printed, ngx_parse_http_time.
    change (Z.of_nat 0) with 0. rewrite field_0, dec_four by (cbn [ngx_tm_year tm_of] in *; lia).
    rewrite (parse_long_year _ (date_of (t / 86400))); [done..|cbn [ngx_tm_year tm_of] in *; lia|done|].
    unfold clock_text. cbn [length app]. repeat (rewrite length_app; cbn [length]). cbn. lia.
Qed.

Lemma cookie_time_roundtrip_witness :
  (exists text, ngx_http_cookie_time 2145916799 = Ok text /\
    ngx_parse_http_time text (length text) = Ok 2145916799) /\
  (exists text, ngx_http_cookie_time 2145916800 = Ok text /\
    ngx_parse_http_time text (length text) = Ok NGX_ERROR).
Proof.
  split; [apply (cookie_time_roundtrip 2145916799)|apply (cookie_time_roundtrip 2145916800)];
    (split; [discriminate|reflexivity]).
Defined.
