(* ===== verification/TimesCache.v ===== *)
(** Component "times", continued: the cache of times of core/ngx_times.c
    (ngx_time_init, ngx_time_update, ngx_time_sigsafe_update) and ngx_localtime of
    os/unix/ngx_time.c.

    The cache is a ring of slots.  An update fills the next slot, and readers use
    the slot that was published last, without a lock. *)

From stdpp Require Import base numbers list option strings.
From Stdlib Require Import ZArith Lia.
From S2P Require Import Prelude Atoi Sprintf SprintfFormat Times TimesText TimesRoundtrip.
Local Open Scope Z_scope.

(** * Definitions *)

Definition NGX_TIME_SLOTS : nat := 64.

Record ngx_time_t : Type := mk_time { t_sec : Z; t_msec : Z; t_gmtoff : Z }.

(** The static variables.  A row of an array of strings is the list of its bytes;
    a published pointer is the index of the slot it points to, [None] for the
    pointer of a string before the first update. *)
Record cache : Type := mk_cache {
  slot : nat;
  ngx_time_lock : Z;
  cached_gmtoff : Z;
  ngx_current_msec : Z;
  cached_time : list ngx_time_t;
  cached_err_log_time : list (list Z);
  cached_http_time : list (list Z);
  cached_http_log_time : list (list Z);
  cached_http_log_iso8601 : list (list Z);
  cached_syslog_time : list (list Z);
  ngx_cached_time : nat;
  ngx_cached_err_log_time : option nat;
  ngx_cached_http_time : option nat;
  ngx_cached_http_log_time : option nat;
  ngx_cached_http_log_iso8601 : option nat;
  ngx_cached_syslog_time : option nat
}.

#[export] Instance eta_time : Eta ngx_time_t := fun t => mk_time (t_sec t) (t_msec t) (t_gmtoff t).
#[export] Instance eta_cache : Eta cache := fun c =>
  mk_cache (slot c) (ngx_time_lock c) (cached_gmtoff c) (ngx_current_msec c) (cached_time c)
    (cached_err_log_time c) (cached_http_time c) (cached_http_log_time c) (cached_http_log_iso8601 c)
    (cached_syslog_time c) (ngx_cached_time c) (ngx_cached_err_log_time c) (ngx_cached_http_time c)
    (ngx_cached_http_log_time c) (ngx_cached_http_log_iso8601 c) (ngx_cached_syslog_time c).

(** The lengths of the published strings; a row has one byte more. *)
Definition err_log_len : nat := Eval vm_compute in length (bytes "1970/09/28 12:00:00").
Definition http_len : nat := Eval vm_compute in length (bytes "Mon, 28 Sep 1970 06:00:00 GMT").
Definition http_log_len : nat := Eval vm_compute in length (bytes "28/Sep/1970:12:00:00 +0600").
Definition iso8601_len : nat := Eval vm_compute in length (bytes "1970-09-28T12:00:00+06:00").
Definition syslog_len : nat := Eval vm_compute in length (bytes "Sep 28 12:00:00").

(** The static arrays, which are zero. *)
Definition zero_rows (len : nat) : list (list Z) := replicate NGX_TIME_SLOTS (replicate (S len) 0).
Definition zero_cache : cache :=
  mk_cache 0 0 0 0 (replicate NGX_TIME_SLOTS (mk_time 0 0 0)) (zero_rows err_log_len) (zero_rows http_len)
    (zero_rows http_log_len) (zero_rows iso8601_len) (zero_rows syslog_len) 0 None None None None None.

(** What ngx_sprintf stores into the row of a slot. *)
Definition write_row (rows : list (list Z)) (i : nat) (m : outcome (list Z)) : outcome (list (list Z)) :=
  out ← m;
  match rows !! i with
  | Some row =>
      if (length out <=? length row)%nat then Ok (<[i := out ++ drop (length out) row]> rows) else UB
  | None => UB
  end.

Definition get_time (l : list ngx_time_t) (i : nat) : outcome ngx_time_t :=
  match l !! i with Some t => Ok t | None => UB end.

(** [if (slot == NGX_TIME_SLOTS - 1) slot = 0; else slot++;] *)
Definition next_slot (s : nat) : nat := if (s =? NGX_TIME_SLOTS - 1)%nat then 0%nat else S s.

Definition ngx_abs (v : Z) : Z := if 0 <=? v then v else - v.

(** The formats, for both updates. *)
Definition sprint_err_log_time (tm : ngx_tm_t) : outcome (list Z) :=
  ngx_sprintf "%4d/%02d/%02d %02d:%02d:%02d"
    [V32 (ngx_tm_year tm); V32 (ngx_tm_mon tm); V32 (ngx_tm_mday tm);
     V32 (ngx_tm_hour tm); V32 (ngx_tm_min tm); V32 (ngx_tm_sec tm)].

Definition sprint_http_log_time (tm : ngx_tm_t) (gmtoff : Z) : outcome (list Z) :=
  mon ← name_at months (ngx_tm_mon tm - 1);
  ngx_sprintf "%02d/%s/%d:%02d:%02d:%02d %c%02i%02i"
    [V32 (ngx_tm_mday tm); VPtr mon; V32 (ngx_tm_year tm);
     V32 (ngx_tm_hour tm); V32 (ngx_tm_min tm); V32 (ngx_tm_sec tm);
     V32 (if gmtoff <? 0 then "-"%ch else "+"%ch);
     V64 (ngx_abs (Z.quot gmtoff 60)); V64 (ngx_abs (Z.rem gmtoff 60))].

Definition sprint_iso8601 (tm : ngx_tm_t) (gmtoff : Z) : outcome (list Z) :=
  ngx_sprintf "%4d-%02d-%02dT%02d:%02d:%02d%c%02i:%02i"
    [V32 (ngx_tm_year tm); V32 (ngx_tm_mon tm); V32 (ngx_tm_mday tm);
     V32 (ngx_tm_hour tm); V32 (ngx_tm_min tm); V32 (ngx_tm_sec tm);
     V32 (if gmtoff <? 0 then "-"%ch else "+"%ch);
     V64 (ngx_abs (Z.quot gmtoff 60)); V64 (ngx_abs (Z.rem gmtoff 60))].

Definition sprint_syslog_time (tm : ngx_tm_t) : outcome (list Z) :=
  mon ← name_at months (ngx_tm_mon tm - 1);
  ngx_sprintf "%s %2d %02d:%02d:%02d"
    [VPtr mon; V32 (ngx_tm_mday tm); V32 (ngx_tm_hour tm); V32 (ngx_tm_min tm); V32 (ngx_tm_sec tm)].

(** localtime_r of the C library: the fields as the library counts them, and
    [tm_gmtoff]. *)
Section update.
Context (localtime_r : Z -> ngx_tm_t * Z).

Definition ngx_localtime (s : Z) : ngx_tm_t * Z :=
  let '(mk_tm sec min hour mday mon year wday, gmtoff) := localtime_r s in
  (mk_tm sec min hour mday (to_i32 (mon + 1)) (to_i32 (year + 1900)) wday, gmtoff).

(** [tv] is what gettimeofday() says. *)
Definition ngx_time_update (tv : Z * Z) (c : cache) : outcome cache :=
  if negb (ngx_time_lock c =? 0) then Ok c
  else
    let c := c <| ngx_time_lock := 1 |> in
    let sec := tv.1 in
    let msec := to_u64 (Z.quot tv.2 1000) in
    let c := c <| ngx_current_msec := to_u64 (to_u64 sec * 1000 + msec) |> in
    tp ← get_time (cached_time c) (slot c);
    if t_sec tp =? sec then
      Ok (c <| cached_time := <[slot c := tp <| t_msec := msec |>]> (cached_time c) |>
            <| ngx_time_lock := 0 |>)
    else
      let i := next_slot (slot c) in
      let c := c <| slot := i |> in
      gmt ← ngx_gmtime sec;
      p0 ← write_row (cached_http_time c) i (sprint_http_time gmt);
      let '(tm, tm_gmtoff) := ngx_localtime sec in
      let gmtoff := Z.quot tm_gmtoff 60 in
      _ ← get_time (cached_time c) i;
      p1 ← write_row (cached_err_log_time c) i (sprint_err_log_time tm);
      p2 ← write_row (cached_http_log_time c) i (sprint_http_log_time tm gmtoff);
      p3 ← write_row (cached_http_log_iso8601 c) i (sprint_iso8601 tm gmtoff);
      p4 ← write_row (cached_syslog_time c) i (sprint_syslog_time tm);
      Ok (c <| cached_gmtoff := gmtoff |>
            <| cached_time := <[i := mk_time sec msec gmtoff]> (cached_time c) |>
            <| cached_http_time := p0 |>
            <| cached_err_log_time := p1 |>
            <| cached_http_log_time := p2 |>
            <| cached_http_log_iso8601 := p3 |>
            <| cached_syslog_time := p4 |>
            <| ngx_cached_time := i |>
            <| ngx_cached_http_time := Some i |>
            <| ngx_cached_err_log_time := Some i |>
            <| ngx_cached_http_log_time := Some i |>
            <| ngx_cached_http_log_iso8601 := Some i |>
            <| ngx_cached_syslog_time := Some i |>
            <| ngx_time_lock := 0 |>).

Definition ngx_time_init (tv : Z * Z) : outcome cache :=
  ngx_time_update tv (zero_cache <| ngx_cached_time := 0%nat |>).

End update.

(** The update in a signal handler. *)
Definition ngx_time_sigsafe_update (sec : Z) (c : cache) : outcome cache :=
  if negb (ngx_time_lock c =? 0) then Ok c
  else
    let c := c <| ngx_time_lock := 1 |> in
    tp ← get_time (cached_time c) (slot c);
    if t_sec tp =? sec then Ok (c <| ngx_time_lock := 0 |>)
    else
      let i := next_slot (slot c) in
      let c := c <| slot := i |> in
      tp ← get_time (cached_time c) i;
      off ← int64 (cached_gmtoff c * 60);
      t ← int64 (sec + off);
      tm ← ngx_gmtime t;
      p ← write_row (cached_err_log_time c) i (sprint_err_log_time tm);
      p2 ← write_row (cached_syslog_time c) i (sprint_syslog_time tm);
      Ok (c <| cached_time := <[i := tp <| t_sec := 0 |>]> (cached_time c) |>
            <| cached_err_log_time := p |>
            <| cached_syslog_time := p2 |>
            <| ngx_cached_err_log_time := Some i |>
            <| ngx_cached_syslog_time := Some i |>
            <| ngx_time_lock := 0 |>).

(** What a reader of a string sees. *)
Definition published (rows : list (list Z)) (len : nat) (p : option nat) : option (list Z) :=
  i ← p; row ← rows !! i; Some (take len row).

(** A time zone of the C library with a constant offset. *)
Definition fixed_zone (off t : Z) : ngx_tm_t * Z :=
  let '(mk_tm sec min hour mday mon year wday) := tm_of (t + off) in
  (mk_tm sec min hour mday (mon - 1) (year - 1900) wday, off).

Example update_1 :
  (c ← ngx_time_init (fixed_zone (-12600)) (951827696, 123456);
   Ok (published (cached_http_time c) http_len (ngx_cached_http_time c),
       published (cached_http_log_time c) http_log_len (ngx_cached_http_log_time c),
       published (cached_http_log_iso8601 c) iso8601_len (ngx_cached_http_log_iso8601 c),
       published (cached_syslog_time c) syslog_len (ngx_cached_syslog_time c), ngx_current_msec c))
  = Ok (Some (bytes "Tue, 29 Feb 2000 12:34:56 GMT"), Some (bytes "29/Feb/2000:09:04:56 -0330"),
        Some (bytes "2000-02-29T09:04:56-03:30"), Some (bytes "Feb 29 09:04:56"), 951827696123).
Proof. vm_compute. reflexivity. Qed.

(** * The texts *)

(** A time that prints with four digits for the year. *)
Definition tm_prints (tm : ngx_tm_t) : Prop := tm_ok tm /\ ngx_tm_year tm <= 9999.

Definition tm_clock (tm : ngx_tm_t) : list Z := clock_text (ngx_tm_hour tm) (ngx_tm_min tm) (ngx_tm_sec tm).

(** "+HHMM", with [sep] between the hours and the minutes. *)
Definition zone_text (gmtoff : Z) (sep : list Z) : list Z :=
  (if gmtoff <? 0 then "-"%ch else "+"%ch) ::
  two_digits (ngx_abs (Z.quot gmtoff 60)) ++ sep ++ two_digits (ngx_abs (Z.rem gmtoff 60)).

Definition http_text (tm : ngx_tm_t) : list Z := printed " "%ch false 4 tm (ngx_tm_year tm).
Definition err_log_text (tm : ngx_tm_t) : list Z :=
  four_digits (ngx_tm_year tm) ++ "/"%ch :: two_digits (ngx_tm_mon tm) ++
  "/"%ch :: two_digits (ngx_tm_mday tm) ++ " "%ch :: tm_clock tm.
Definition http_log_text (tm : ngx_tm_t) (gmtoff : Z) : list Z :=
  two_digits (ngx_tm_mday tm) ++ "/"%ch :: month_name (ngx_tm_mon tm) ++
  "/"%ch :: four_digits (ngx_tm_year tm) ++ ":"%ch :: tm_clock tm ++ " "%ch :: zone_text gmtoff [].
Definition iso8601_text (tm : ngx_tm_t) (gmtoff : Z) : list Z :=
  four_digits (ngx_tm_year tm) ++ "-"%ch :: two_digits (ngx_tm_mon tm) ++
  "-"%ch :: two_digits (ngx_tm_mday tm) ++ "T"%ch :: tm_clock tm ++ zone_text gmtoff [":"%ch].
Definition syslog_text (tm : ngx_tm_t) : list Z :=
  month_name (ngx_tm_mon tm) ++ " "%ch :: asctime_day (ngx_tm_mday tm) ++ " "%ch :: tm_clock tm.

(** Offsets of a time zone, in minutes. *)
Definition gmtoff_ok (gmtoff : Z) : Prop := - 1440 < gmtoff < 1440.

Lemma abs_range gmtoff : gmtoff_ok gmtoff ->
  0 <= ngx_abs (Z.quot gmtoff 60) < 100 /\ 0 <= ngx_abs (Z.rem gmtoff 60) < 100.
Proof.
  unfold gmtoff_ok, ngx_abs. intros H. destruct (Z.leb_spec 0 (Z.quot gmtoff 60)), (Z.leb_spec 0 (Z.rem gmtoff 60));
    Z.quot_rem_to_equations; lia.
Qed.

Lemma field_day k : 1 <= k <= 31 -> field None " "%ch 2 (dec k) = asctime_day k.
Proof.
  intros Hk. assert (H : k = 0 \/ field None " "%ch 2 (dec k) = asctime_day k); [|destruct H; [lia|done]].
  apply (range_decide 32 (fun k => k = 0 \/ field None " "%ch 2 (dec k) = asctime_day k)); [|lia].
  vm_compute. reflexivity.
Qed.

(** Solve that a call of ngx_sprintf gives the text of its pieces. *)
Ltac pieces_done :=
  unfold pieces_out; cbn [mbind list_bind piece_out zero_char app];
  change (Z.of_nat 0) with 0; change (Z.of_nat 2) with 2; change (Z.of_nat 4) with 4;
  rewrite ?field_0, ?(dec_four (ngx_tm_year _)), ?field_four, ?field_day by lia;
  rewrite ?field_two by lia;
  unfold zone_text, tm_clock, clock_text;
  repeat (rewrite <- ?app_assoc; cbn [app]); rewrite ?app_nil_r; reflexivity.

Ltac pieces_ok := rewrite !Forall_cons; split_and!; try done; cbn; lia.

Section texts.
Context (tm : ngx_tm_t) (gmtoff : Z) (Htm : tm_prints tm) (Hoff : gmtoff_ok gmtoff).

Let clock (rest : list piece) : list piece :=
  [Num true 2 false (ngx_tm_hour tm); Lit ":"%ch; Num true 2 false (ngx_tm_min tm); Lit ":"%ch;
   Num true 2 false (ngx_tm_sec tm)] ++ rest.
Let zone (sep : list piece) : list piece :=
  Chr (if gmtoff <? 0 then "-"%ch else "+"%ch) :: Num true 2 true (ngx_abs (Z.quot gmtoff 60)) ::
  sep ++ [Num true 2 true (ngx_abs (Z.rem gmtoff 60))].

Lemma tm_ranges : 0 <= ngx_tm_hour tm < 100 /\ 0 <= ngx_tm_min tm < 100 /\ 0 <= ngx_tm_sec tm < 100 /\
  1 <= ngx_tm_mon tm <= 12 /\ 1 <= ngx_tm_mday tm <= 31 /\ 1000 <= ngx_tm_year tm < 10000.
Proof using Htm. destruct Htm as [((Hh & Hmi & Hs) & Hm & Hk & Hw & Hy) Hy9]. lia. Qed.

Lemma sign_ok : byte_ok (if gmtoff <? 0 then "-"%ch else "+"%ch).
Proof using. by destruct (gmtoff <? 0). Qed.

Lemma sprint_err_log_text : sprint_err_log_time tm = Ok (err_log_text tm).
Proof using Htm.
  pose proof tm_ranges as (Hh & Hmi & Hs & Hm & Hk & Hy). unfold sprint_err_log_time, err_log_text.
  rewrite (ngx_sprintf_pieces ([Num false 4 false (ngx_tm_year tm); Lit "/"%ch; Num true 2 false (ngx_tm_mon tm);
    Lit "/"%ch; Num true 2 false (ngx_tm_mday tm); Lit " "%ch] ++ clock [])); unfold clock; cbn [app].
  - f_equal. pieces_done.
  - reflexivity.
  - reflexivity.
  - pieces_ok.
Qed.

Lemma sprint_http_log_text : sprint_http_log_time tm gmtoff = Ok (http_log_text tm gmtoff).
Proof using Htm Hoff.
  pose proof tm_ranges as (Hh & Hmi & Hs & Hm & Hk & Hy). pose proof (abs_range _ Hoff) as [Ho1 Ho2].
  pose proof sign_ok. unfold sprint_http_log_time, http_log_text.
  destruct (name_at_months _ Hm) as [-> Hn]. cbn [mbind outcome_bind].
  rewrite (ngx_sprintf_pieces ([Num true 2 false (ngx_tm_mday tm); Lit "/"%ch; Str (month_name (ngx_tm_mon tm)) [];
    Lit "/"%ch; Num false 0 false (ngx_tm_year tm); Lit ":"%ch] ++ clock (Lit " "%ch :: zone [])));
    unfold clock, zone; cbn [app].
  - f_equal. pieces_done.
  - reflexivity.
  - reflexivity.
  - pieces_ok.
Qed.

Lemma sprint_iso8601_text : sprint_iso8601 tm gmtoff = Ok (iso8601_text tm gmtoff).
Proof using Htm Hoff.
  pose proof tm_ranges as (Hh & Hmi & Hs & Hm & Hk & Hy). pose proof (abs_range _ Hoff) as [Ho1 Ho2].
  pose proof sign_ok. unfold sprint_iso8601, iso8601_text.
  rewrite (ngx_sprintf_pieces ([Num false 4 false (ngx_tm_year tm); Lit "-"%ch; Num true 2 false (ngx_tm_mon tm);
    Lit "-"%ch; Num true 2 false (ngx_tm_mday tm); Lit "T"%ch] ++ clock (zone [Lit ":"%ch])));
    unfold clock, zone; cbn [app].
  - f_equal. pieces_done.
  - reflexivity.
  - reflexivity.
  - pieces_ok.
Qed.

Lemma sprint_syslog_text : sprint_syslog_time tm = Ok (syslog_text tm).
Proof using Htm.
  pose proof tm_ranges as (Hh & Hmi & Hs & Hm & Hk & Hy). unfold sprint_syslog_time, syslog_text.
  destruct (name_at_months _ Hm) as [-> Hn]. cbn [mbind outcome_bind].
  rewrite (ngx_sprintf_pieces ([Str (month_name (ngx_tm_mon tm)) []; Lit " "%ch; Num false 2 false (ngx_tm_mday tm);
    Lit " "%ch] ++ clock [])); unfold clock; cbn [app].
  - f_equal. pieces_done.
  - reflexivity.
  - reflexivity.
  - pieces_ok.
Qed.

End texts.

(** * The invariant of the cache *)

Definition rows_ok (len : nat) (rows : list (list Z)) : Prop :=
  length rows = NGX_TIME_SLOTS /\ Forall (fun row => length row = S len) rows.

Record cache_ok (c : cache) : Prop := {
  ok_slot : (slot c < NGX_TIME_SLOTS)%nat;
  ok_lock : ngx_time_lock c = 0;
  ok_gmtoff : gmtoff_ok (cached_gmtoff c);
  ok_time : length (cached_time c) = NGX_TIME_SLOTS;
  ok_err_log : rows_ok err_log_len (cached_err_log_time c);
  ok_http : rows_ok http_len (cached_http_time c);
  ok_http_log : rows_ok http_log_len (cached_http_log_time c);
  ok_iso8601 : rows_ok iso8601_len (cached_http_log_iso8601 c);
  ok_syslog : rows_ok syslog_len (cached_syslog_time c)
}.

Lemma zero_cache_ok : cache_ok zero_cache.
Proof.
  assert (H : forall len, rows_ok len (zero_rows len)).
  { intros len. unfold zero_rows. split; [by rewrite length_replicate|]. apply Forall_replicate. cbv beta. by rewrite length_replicate. }
  split; try apply H; try done; vm_compute; lia.
Qed.

Lemma next_slot_lt s : (s < NGX_TIME_SLOTS)%nat -> (next_slot s < NGX_TIME_SLOTS)%nat.
Proof. unfold next_slot, NGX_TIME_SLOTS. intros H. destruct (Nat.eqb_spec s (64 - 1)); lia. Qed.

(** A text that fits is stored, and is what a reader of the slot sees. *)
Lemma write_row_ok len rows i out :
  rows_ok len rows -> (i < NGX_TIME_SLOTS)%nat -> length out = len ->
  exists rows', write_row rows i (Ok out) = Ok rows' /\ rows_ok len rows' /\
    published rows' len (Some i) = Some out.
Proof.
  intros [Hl Hr] Hi Ho. unfold write_row. cbn [mbind outcome_bind].
  destruct (lookup_lt_is_Some_2 rows i) as [row Erow]; [lia|]. rewrite Erow.
  pose proof (proj1 (Forall_lookup _ _) Hr i row Erow) as Hlen. cbn in Hlen.
  rewrite (proj2 (Nat.leb_le _ _)) by lia. eexists. split; [done|]. split.
  - split; [by rewrite length_insert|]. apply Forall_insert; [done|]. rewrite length_app, length_drop. lia.
  - unfold published. cbn [mbind option_bind]. rewrite list_lookup_insert_eq by lia. cbn [mbind option_bind].
    by rewrite <- Ho, take_app_length.
Qed.

Lemma get_time_ok c i : cache_ok c -> (i < NGX_TIME_SLOTS)%nat -> exists t, cached_time c !! i = Some t /\
  get_time (cached_time c) i = Ok t.
Proof.
  intros Hc Hi. pose proof (ok_time _ Hc) as Hl. unfold get_time.
  destruct (lookup_lt_is_Some_2 (cached_time c) i) as [t ->]; [lia|]. by exists t.
Qed.

(** ** The lengths of the texts *)

Lemma texts_length tm gmtoff :
  tm_prints tm ->
  length (err_log_text tm) = err_log_len /\ length (http_log_text tm gmtoff) = http_log_len /\
  length (iso8601_text tm gmtoff) = iso8601_len /\ length (syslog_text tm) = syslog_len.
Proof.
  intros Htm. destruct (tm_ranges tm Htm) as (_ & _ & _ & Hm & _). pose proof (month_name_length _ Hm) as Hn.
  assert (Ha : length (asctime_day (ngx_tm_mday tm)) = 2%nat) by (unfold asctime_day; by destruct (_ <? _)).
  unfold err_log_text, http_log_text, iso8601_text, syslog_text, tm_clock, clock_text, zone_text.
  repeat (rewrite length_app || cbn [length app]). rewrite Hn, Ha. by vm_compute.
Qed.

(** * The C library

    localtime_r() gives the time of a zone whose offset from UTC is less than a day,
    and the offset in [tm_gmtoff]. *)

Definition localtime_ok (localtime_r : Z -> ngx_tm_t * Z) : Prop :=
  forall s, exists off, - 86400 < off < 86400 /\ localtime_r s = fixed_zone off s.

(** The times whose local times have a year of four digits. *)
Definition second_ok (sec : Z) : Prop := 86400 <= sec < 253402214400.

Lemma tm_of_prints t : 0 <= t < 253402300800 -> tm_prints (tm_of t).
Proof.
  intros Ht. split; [apply tm_of_ok; unfold gm_time_ok; lia|]. by apply http_text_parses.
Qed.

Lemma ngx_localtime_ok localtime_r s :
  localtime_ok localtime_r -> second_ok s ->
  exists off, - 86400 < off < 86400 /\ ngx_localtime localtime_r s = (tm_of (s + off), off) /\
    tm_prints (tm_of (s + off)) /\ gmtoff_ok (Z.quot off 60).
Proof.
  intros H Hs. destruct (H s) as (off & Ho & E). unfold second_ok in Hs.
  pose proof (tm_of_prints (s + off) ltac:(lia)) as Hp. exists off. split; [done|]. split; [|split; [done|]].
  - unfold ngx_localtime. rewrite E. destruct Hp as [(_ & Hm & _ & _ & Hy) _]. unfold fixed_zone.
    destruct (tm_of (s + off)) as [a b d e f g i]. cbn [ngx_tm_mon ngx_tm_year] in *.
    rewrite !to_i32_id by lia. rewrite Z.sub_add. repeat f_equal. lia.
  - unfold gmtoff_ok. Z.quot_rem_to_equations; lia.
Qed.

(** * What an update leaves alone *)

(** The slot [j] has the same strings; the same strings and the same time; the same but for
    the milliseconds. *)
Record same_texts (j : nat) (c c' : cache) : Prop := {
  same_err_log : cached_err_log_time c' !! j = cached_err_log_time c !! j;
  same_http : cached_http_time c' !! j = cached_http_time c !! j;
  same_http_log : cached_http_log_time c' !! j = cached_http_log_time c !! j;
  same_iso8601 : cached_http_log_iso8601 c' !! j = cached_http_log_iso8601 c !! j;
  same_syslog : cached_syslog_time c' !! j = cached_syslog_time c !! j
}.

Definition same_slot (j : nat) (c c' : cache) : Prop :=
  same_texts j c c' /\ cached_time c' !! j = cached_time c !! j.
Definition without_msec (t : ngx_time_t) : Z * Z := (t_sec t, t_gmtoff t).
Definition same_but_msec (j : nat) (c c' : cache) : Prop :=
  same_texts j c c' /\ without_msec <$> cached_time c' !! j = without_msec <$> cached_time c !! j.

#[export] Instance same_texts_preorder j : PreOrder (same_texts j).
Proof. split; [by intros c|]. intros c1 c2 c3 [] []. split; by etransitivity. Qed.
#[export] Instance same_slot_preorder j : PreOrder (same_slot j).
Proof. split; [by intros c|]. intros c1 c2 c3 [] []. split; by etransitivity. Qed.
#[export] Instance same_but_msec_preorder j : PreOrder (same_but_msec j).
Proof. split; [by intros c|]. intros c1 c2 c3 [] []. split; by etransitivity. Qed.

Lemma same_slot_msec j c c' : same_slot j c c' -> same_but_msec j c c'.
Proof. intros [H E]. split; [done|by rewrite E]. Qed.

Lemma write_row_other rows i j m rows' : write_row rows i m = Ok rows' -> i <> j -> rows' !! j = rows !! j.
Proof.
  unfold write_row. destruct m as [out| |]; cbn [mbind outcome_bind]; try done. intros H Hij.
  destruct (rows !! i) as [row|]; [|done]. destruct (_ <=? _)%nat; [|done]. injection H as <-.
  by rewrite list_lookup_insert_ne.
Qed.

(** * An update publishes the time *)

(** Everything a reader sees is of the second [sec] and the millisecond [msec] in it, with the
    offset [off] of the local time in seconds. *)
Record shows (c : cache) (sec msec off : Z) : Prop := {
  shows_time : cached_time c !! ngx_cached_time c = Some (mk_time sec msec (Z.quot off 60));
  shows_http : published (cached_http_time c) http_len (ngx_cached_http_time c)
    = Some (http_text (tm_of sec));
  shows_err_log : published (cached_err_log_time c) err_log_len (ngx_cached_err_log_time c)
    = Some (err_log_text (tm_of (sec + off)));
  shows_http_log : published (cached_http_log_time c) http_log_len (ngx_cached_http_log_time c)
    = Some (http_log_text (tm_of (sec + off)) (Z.quot off 60));
  shows_iso8601 : published (cached_http_log_iso8601 c) iso8601_len (ngx_cached_http_log_iso8601 c)
    = Some (iso8601_text (tm_of (sec + off)) (Z.quot off 60));
  shows_syslog : published (cached_syslog_time c) syslog_len (ngx_cached_syslog_time c)
    = Some (syslog_text (tm_of (sec + off)))
}.

(** Every pointer that readers use is to the slot [i]. *)
Definition points_to (i : nat) (c : cache) : Prop :=
  ngx_cached_time c = i /\ ngx_cached_http_time c = Some i /\ ngx_cached_err_log_time c = Some i /\
  ngx_cached_http_log_time c = Some i /\ ngx_cached_http_log_iso8601 c = Some i /\ ngx_cached_syslog_time c = Some i.

(** The second of the current slot. *)
Definition slot_sec (c : cache) : option Z := option_map t_sec (cached_time c !! slot c).

(** Reduce the fields of an updated state. *)
Ltac cache_fields :=
  cbn [update_field slot ngx_time_lock cached_gmtoff ngx_current_msec cached_time cached_err_log_time cached_http_time
    cached_http_log_time cached_http_log_iso8601 cached_syslog_time ngx_cached_time ngx_cached_err_log_time
    ngx_cached_http_time ngx_cached_http_log_time ngx_cached_http_log_iso8601 ngx_cached_syslog_time
    t_sec t_msec t_gmtoff fst snd negb mbind outcome_bind].

Lemma time_update_new localtime_r c sec usec :
  localtime_ok localtime_r -> cache_ok c -> second_ok sec -> 0 <= usec < 1000000 -> slot_sec c <> Some sec ->
  exists off c', (localtime_r sec).2 = off /\ ngx_time_update localtime_r (sec, usec) c = Ok c' /\ cache_ok c' /\
    ngx_current_msec c' = sec * 1000 + usec / 1000 /\ shows c' sec (usec / 1000) off /\ slot c' = next_slot (slot c) /\
    points_to (slot c') c' /\ cached_gmtoff c' = Z.quot off 60 /\ forall j, j <> slot c' -> same_slot j c c'.
Proof.
  intros Hlt Hc Hsec Husec Hne. destruct (ngx_localtime_ok _ _ Hlt Hsec) as (off & Ho & Eloc & Hp & Hg).
  assert (Hoff : (localtime_r sec).2 = off).
  { unfold ngx_localtime in Eloc. destruct (localtime_r sec) as [[] ?]. by injection Eloc. }
  unfold second_ok in Hsec. pose proof (next_slot_lt _ (ok_slot _ Hc)) as Hi. set (i := next_slot (slot c)) in *.
  destruct (get_time_ok c _ Hc (ok_slot _ Hc)) as (t & Et & Eget).
  destruct (get_time_ok c _ Hc Hi) as (t' & Et' & Eget').
  pose proof (tm_of_prints sec ltac:(lia)) as Hgmt.
  destruct (texts_length _ (Z.quot off 60) Hp) as (L1 & L2 & L3 & L4).
  destruct (http_text_parses sec ltac:(lia)) as (_ & L0 & _).
  destruct (write_row_ok _ _ i _ (ok_http _ Hc) Hi L0) as (r0 & W0 & R0 & P0).
  destruct (write_row_ok _ _ i _ (ok_err_log _ Hc) Hi L1) as (r1 & W1 & R1 & P1).
  destruct (write_row_ok _ _ i _ (ok_http_log _ Hc) Hi L2) as (r2 & W2 & R2 & P2).
  destruct (write_row_ok _ _ i _ (ok_iso8601 _ Hc) Hi L3) as (r3 & W3 & R3 & P3).
  destruct (write_row_ok _ _ i _ (ok_syslog _ Hc) Hi L4) as (r4 & W4 & R4 & P4).
  exists off. eexists. split; [done|]. split.
  { unfold ngx_time_update. rewrite (ok_lock _ Hc), Z.eqb_refl. cache_fields. rewrite Eget. cache_fields.
    unfold slot_sec in Hne. rewrite Et in Hne. cbn [option_map] in Hne. rewrite (proj2 (Z.eqb_neq _ _)) by congruence.
    fold i. rewrite (gmtime_spec sec) by (unfold gm_time_ok; lia). cache_fields.
    rewrite sprint_http_time_text by apply Hgmt. rewrite W0. cache_fields.
    rewrite Eloc, Eget'. cache_fields.
    rewrite sprint_err_log_text, W1 by done. cache_fields.
    rewrite sprint_http_log_text, W2 by done. cache_fields.
    rewrite sprint_iso8601_text, W3 by done. cache_fields.
    rewrite sprint_syslog_text, W4 by done. cache_fields. reflexivity. }
  split; [|split; [|split; [|split; [done|split; [done|split; [done|]]]]]].
  - destruct Hc. split; cache_fields; try done. by rewrite length_insert.
  - cache_fields. rewrite Z.quot_div_nonneg by lia. assert (0 <= usec / 1000 < 1000) by (Z.div_mod_to_equations; lia).
    rewrite (to_u64_id (usec / 1000)), (to_u64_id sec), to_u64_id by lia. done.
  - split; cache_fields; try done. rewrite list_lookup_insert_eq by (rewrite (ok_time _ Hc); lia).
    rewrite Z.quot_div_nonneg by lia. assert (0 <= usec / 1000 < 1000) by (Z.div_mod_to_equations; lia).
    by rewrite (to_u64_id (usec / 1000)) by lia.
  - cache_fields. intros j Hj. split; [|cache_fields; by rewrite list_lookup_insert_ne].
    split; cache_fields; by eapply write_row_other.
Qed.

(** In the same second only the milliseconds change. *)
Definition with_msec (sec msec : Z) (c : cache) : cache :=
  c <| ngx_current_msec := sec * 1000 + msec |>
    <| cached_time := alter (fun t => t <| t_msec := msec |>) (slot c) (cached_time c) |>.

Lemma alter_insert {A} (f : A -> A) (l : list A) i x : l !! i = Some x -> alter f i l = <[i := f x]> l.
Proof.
  intros E. apply list_eq. intros j. destruct (decide (i = j)) as [<-|N].
  - rewrite list_lookup_alter_eq, E. by rewrite list_lookup_insert_eq by (by eapply lookup_lt_Some).
  - by rewrite list_lookup_alter_ne, list_lookup_insert_ne.
Qed.

Lemma time_update_same localtime_r c sec usec :
  cache_ok c -> slot_sec c = Some sec -> 0 <= sec < 2 ^ 53 -> 0 <= usec < 1000000 ->
  ngx_time_update localtime_r (sec, usec) c = Ok (with_msec sec (usec / 1000) c) /\
  cache_ok (with_msec sec (usec / 1000) c).
Proof.
  intros Hc Hs Hsec Hu. destruct (get_time_ok c _ Hc (ok_slot _ Hc)) as (t & Et & Eget).
  unfold slot_sec in Hs. rewrite Et in Hs. injection Hs as Hs. unfold with_msec. split.
  - unfold ngx_time_update. rewrite (ok_lock _ Hc), Z.eqb_refl. cache_fields. rewrite Eget. cache_fields.
    rewrite Hs, Z.eqb_refl. f_equal. rewrite Z.quot_div_nonneg by lia.
    assert (0 <= usec / 1000 < 1000) by (Z.div_mod_to_equations; lia). change (2 ^ 53) with 9007199254740992 in *.
    rewrite (to_u64_id (usec / 1000)), (to_u64_id sec), to_u64_id by lia.
    rewrite (alter_insert _ _ _ _ Et).
    pose proof (ok_lock _ Hc) as El. destruct c. cbn in El |- *. by rewrite El.
  - destruct Hc. split; cache_fields; try done. by rewrite length_alter.
Qed.

(** C29. ngx_time_update keeps the invariant of the cache. In a new second it fills
    the next slot with the time, its milliseconds and the five texts of that second, in
    UTC and in local time, each within its row, moves all the pointers of the readers to
    it and leaves the other slots as they were. In the same second the cache is as
    before but for the milliseconds of the current slot and ngx_current_msec. The text
    of the HTTP time parses to the second. *)
Theorem ngx_time_update_correct localtime_r c sec usec :
  localtime_ok localtime_r -> cache_ok c -> second_ok sec -> 0 <= usec < 1000000 ->
  exists c', ngx_time_update localtime_r (sec, usec) c = Ok c' /\ cache_ok c' /\
    (if decide (slot_sec c = Some sec) then c' = with_msec sec (usec / 1000) c
     else
       slot c' = next_slot (slot c) /\ points_to (slot c') c' /\ shows c' sec (usec / 1000) (localtime_r sec).2 /\
       ngx_current_msec c' = sec * 1000 + usec / 1000 /\ cached_gmtoff c' = Z.quot (localtime_r sec).2 60 /\
       forall j, j <> slot c' -> same_slot j c c') /\
    ngx_parse_http_time (http_text (tm_of sec)) http_len = Ok sec.
Proof.
  intros Hlt Hc Hsec Hu. unfold second_ok in Hsec.
  destruct (http_text_parses sec ltac:(lia)) as (_ & L0 & Hparse). rewrite L0 in Hparse.
  destruct (decide (slot_sec c = Some sec)) as [Hs|Hs].
  - destruct (time_update_same localtime_r c sec usec Hc Hs) as (E & Hc');
      [change (2 ^ 53) with 9007199254740992; lia|done|]. by eexists.
  - destruct (time_update_new localtime_r c sec usec Hlt Hc Hsec Hu Hs) as (off & c' & Ho & E & Hc' & Hms & Hsh & Hsl & Hp & Hg & Hj).
    exists c'. subst off. done.
Qed.

Lemma fixed_zone_ok off : - 86400 < off < 86400 -> localtime_ok (fixed_zone off).
Proof. intros H s. by exists off. Qed.

(** The first update, and one more within its second. *)
Lemma ngx_time_update_correct_witness :
  exists c, ngx_time_init (fixed_zone 3600) (951827696, 5000) = Ok c /\ slot c = 1%nat /\ shows c 951827696 5 3600 /\
    ngx_time_update (fixed_zone 3600) (951827696, 7000) c = Ok (with_msec 951827696 7 c).
Proof.
  destruct (ngx_time_update_correct (fixed_zone 3600) zero_cache 951827696 5000) as (c & E & Hc & H & _);
    [apply fixed_zone_ok; by split|exact zero_cache_ok|split; [discriminate|reflexivity]|split; [discriminate|reflexivity]|].
  exists c. split; [exact E|].
  destruct (decide (slot_sec zero_cache = Some 951827696)) as [Hd|_]; [discriminate Hd|].
  destruct H as (Hs & (Hp & _) & Hsh & _). split; [exact Hs|]. split; [exact Hsh|].
  destruct (ngx_time_update_correct (fixed_zone 3600) c 951827696 7000) as (c' & E' & _ & H' & _);
    [apply fixed_zone_ok; by split|exact Hc|split; [discriminate|reflexivity]|split; [discriminate|reflexivity]|].
  assert (Hsec : slot_sec c = Some 951827696)
    by (unfold slot_sec; rewrite <- Hp, (shows_time _ _ _ _ Hsh); reflexivity).
  rewrite E'. destruct (decide (slot_sec c = Some 951827696)) as [_|N]; [|by destruct N]. by rewrite H'.
Defined.

(** * The update of the signal handler *)

Theorem ngx_time_sigsafe_update_correct c sec :
  cache_ok c -> second_ok sec ->
  exists c', ngx_time_sigsafe_update sec c = Ok c' /\ cache_ok c' /\
    (if decide (slot_sec c = Some sec) then c' = c
     else
       let tm := tm_of (sec + cached_gmtoff c * 60) in
       slot c' = next_slot (slot c) /\ slot_sec c' = Some 0 /\
       ngx_cached_time c' = ngx_cached_time c /\
       published (cached_err_log_time c') err_log_len (ngx_cached_err_log_time c') = Some (err_log_text tm) /\
       published (cached_syslog_time c') syslog_len (ngx_cached_syslog_time c') = Some (syslog_text tm)).
Proof.
  intros Hc Hsec. unfold second_ok in Hsec. pose proof (ok_gmtoff _ Hc) as Hg. unfold gmtoff_ok in Hg.
  destruct (get_time_ok c _ Hc (ok_slot _ Hc)) as (t & Et & Eget).
  unfold ngx_time_sigsafe_update. rewrite (ok_lock _ Hc), Z.eqb_refl. cache_fields. rewrite Eget. cache_fields.
  assert (Hss : slot_sec c = Some (t_sec t)) by (unfold slot_sec; by rewrite Et).
  destruct (Z.eqb_spec (t_sec t) sec) as [Hs|Hs], (decide (slot_sec c = Some sec)) as [Hd|Hd]; try congruence.
  - eexists. split; [done|]. destruct c, Hc; cbn in *. subst.
    split; [|done]. by split.
  - set (i := next_slot (slot c)).
    pose proof (next_slot_lt _ (ok_slot _ Hc)) as Hi. fold i in Hi.
    destruct (get_time_ok c _ Hc Hi) as (t' & Et' & Eget'). rewrite Eget'. cache_fields.
    rewrite int64_ok by lia. cache_fields. rewrite int64_ok by lia. cache_fields.
    pose proof (tm_of_prints (sec + cached_gmtoff c * 60) ltac:(lia)) as Hp.
    destruct (texts_length _ 0 Hp) as (L1 & _ & _ & L4).
    destruct (write_row_ok _ _ i _ (ok_err_log _ Hc) Hi L1) as (r1 & W1 & R1 & P1).
    destruct (write_row_ok _ _ i _ (ok_syslog _ Hc) Hi L4) as (r4 & W4 & R4 & P4).
    rewrite gmtime_spec by (unfold gm_time_ok; lia). cache_fields.
    rewrite sprint_err_log_text, W1 by done. cache_fields. rewrite sprint_syslog_text, W4 by done. cache_fields.
    eexists. split; [reflexivity|]. split.
    + destruct Hc. split; cache_fields; try done. by rewrite length_insert.
    + cache_fields. split_and!; try done. unfold slot_sec. cache_fields.
      by rewrite list_lookup_insert_eq by (rewrite (ok_time _ Hc); lia).
Qed.

Lemma ngx_time_sigsafe_update_correct_witness :
  exists c', ngx_time_sigsafe_update 951827696 zero_cache = Ok c' /\ cache_ok c' /\
    (slot c' = 1%nat /\ slot_sec c' = Some 0 /\ ngx_cached_time c' = 0%nat /\
     published (cached_err_log_time c') err_log_len (ngx_cached_err_log_time c')
       = Some (bytes "2000/02/29 12:34:56") /\
     published (cached_syslog_time c') syslog_len (ngx_cached_syslog_time c') = Some (bytes "Feb 29 12:34:56")).
Proof.
  assert (E1 : bytes "2000/02/29 12:34:56" = err_log_text (tm_of (951827696 + cached_gmtoff zero_cache * 60)))
    by (vm_compute; reflexivity).
  assert (E2 : bytes "Feb 29 12:34:56" = syslog_text (tm_of (951827696 + cached_gmtoff zero_cache * 60)))
    by (vm_compute; reflexivity).
  rewrite E1, E2. apply (ngx_time_sigsafe_update_correct zero_cache 951827696).
  - exact zero_cache_ok.
  - split; [discriminate|reflexivity].
Defined.

(** * Readers

    A reader has taken the index of a slot and reads it while updates go on. *)

Inductive op : Type := Update (tv : Z * Z) | Sigsafe (sec : Z).

Definition step_op (localtime_r : Z -> ngx_tm_t * Z) (o : op) (c : cache) : outcome cache :=
  match o with
  | Update tv => ngx_time_update localtime_r tv c
  | Sigsafe sec => ngx_time_sigsafe_update sec c
  end.

Fixpoint run_ops (localtime_r : Z -> ngx_tm_t * Z) (ops : list op) (c : cache) : outcome cache :=
  match ops with
  | [] => Ok c
  | o :: ops => c ← step_op localtime_r o c; run_ops localtime_r ops c
  end.

(** The cases of a bind that gives a result. *)
Ltac split_bind H :=
  repeat match type of H with
  | (?m ≫= _) = Ok _ => let E := fresh "E" in destruct m eqn:E; cache_fields; [|discriminate H..];
      cbn [mbind outcome_bind] in H
  end.

(** An update leaves the slots other than the next one alone, but for the milliseconds of the
    current one. *)
Lemma step_op_other localtime_r o c c' :
  step_op localtime_r o c = Ok c' ->
  (slot c' = slot c /\ same_but_msec (slot c) c c' /\ forall j, j <> slot c -> same_slot j c c') \/
  (slot c' = next_slot (slot c) /\ forall j, j <> slot c' -> same_slot j c c').
Proof.
  assert (Hsame : forall c, slot c = slot c /\ same_but_msec (slot c) c c /\ forall j, j <> slot c -> same_slot j c c)
    by (intros c0; split_and!; [done|reflexivity|by intros]).
  destruct o as [tv|sec]; cbn [step_op]; [unfold ngx_time_update|unfold ngx_time_sigsafe_update];
    (destruct (negb (ngx_time_lock c =? 0)); [intros [= <-]; left; apply Hsame|]); cache_fields.
  - destruct (get_time (cached_time c) (slot c)) as [t| |] eqn:Et; cache_fields; try done.
    destruct (t_sec t =? tv.1).
    + intros [= <-]. left. split; [done|].
      unfold get_time in Et. destruct (cached_time c !! slot c) as [t'|] eqn:E'; [|done]. injection Et as ->. split.
      * split; [done|]. cache_fields. rewrite list_lookup_insert_eq by (by eapply lookup_lt_Some). by rewrite E'.
      * intros j Hj. split; [done|]. cache_fields. by rewrite list_lookup_insert_ne.
    + destruct (ngx_localtime localtime_r tv.1) as [tm goff]. intros H. split_bind H. injection H as <-.
      right. cache_fields. split; [done|]. intros j Hj.
      split; [split; cache_fields; by eapply write_row_other|cache_fields; by rewrite list_lookup_insert_ne].
  - destruct (get_time (cached_time c) (slot c)) as [t| |] eqn:Et; cache_fields; try done.
    destruct (t_sec t =? sec).
    + intros [= <-]. left. split; [done|]. split; [by split|]. intros j _. by split.
    + intros H. split_bind H. injection H as <-.
      right. cache_fields. split; [done|]. intros j Hj.
      split; [split; cache_fields; try done; by eapply write_row_other|cache_fields; by rewrite list_lookup_insert_ne].
Qed.

(** How many times the slot has to move until it is [j] again. *)
Definition moves_to (s j : nat) : nat := if (s <? j)%nat then (j - s)%nat else (NGX_TIME_SLOTS + j - s)%nat.

Lemma moves_next s j :
  (s < NGX_TIME_SLOTS)%nat -> (j < NGX_TIME_SLOTS)%nat -> (1 < moves_to s j)%nat ->
  next_slot s <> j /\ moves_to (next_slot s) j = (moves_to s j - 1)%nat.
Proof.
  unfold moves_to, next_slot, NGX_TIME_SLOTS. intros Hs Hj H.
  destruct (Nat.eqb_spec s (64 - 1)); repeat destruct_test; lia.
Qed.

(** C30. A slot of the cache of times that a reader uses without a lock is as it
    was, its time and its five texts, after fewer updates, of the process or of its
    signal handler, than it takes the slot number to come round to it. For the current
    slot these are 64, and its milliseconds are excepted, which updates in the same
    second store into it. *)
Theorem readers_safe localtime_r ops c c' j :
  run_ops localtime_r ops c = Ok c' ->
  (slot c < NGX_TIME_SLOTS)%nat -> (j < NGX_TIME_SLOTS)%nat -> (length ops < moves_to (slot c) j)%nat ->
  if decide (j = slot c) then same_but_msec j c c' else same_slot j c c'.
Proof.
  assert (Hweak : forall b : bool, forall c c', same_slot j c c' -> if b then same_but_msec j c c' else same_slot j c c')
    by (intros [|] ? ? H; [by apply same_slot_msec|done]).
  revert c. induction ops as [|o ops IH]; intros c; cbn [run_ops length].
  { intros [= ->] _ _ _. by destruct (decide _). }
  intros H Hs Hj Hl. destruct (step_op localtime_r o c) as [c1| |] eqn:E; cbn [mbind outcome_bind] in H; try done.
  destruct (step_op_other _ _ _ _ E) as [(Es & Hcur & Hsame)|[Es Hsame]].
  - specialize (IH c1 H). rewrite Es in IH. specialize (IH Hs Hj ltac:(lia)). destruct (decide (j = slot c)) as [->|N].
    + etransitivity; [apply Hcur|apply IH].
    + etransitivity; [by apply Hsame|apply IH].
  - destruct (moves_next (slot c) j) as [Hne Hm]; [done..|lia|].
    specialize (IH c1 H). rewrite Es in IH. specialize (IH (next_slot_lt _ Hs) Hj ltac:(lia)).
    rewrite decide_False in IH by done. assert (G : same_slot j c c') by (etransitivity; [apply Hsame; congruence|apply IH]).
    destruct (decide (j = slot c)); [by apply same_slot_msec|done].
Qed.

Lemma readers_safe_witness :
  exists c', run_ops (fixed_zone 0) [Sigsafe 90000; Update (90000, 0); Update (90001, 0)] zero_cache = Ok c' /\
    same_slot 4 zero_cache c'.
Proof.
  destruct (run_ops (fixed_zone 0) [Sigsafe 90000; Update (90000, 0); Update (90001, 0)] zero_cache) as [c'| |] eqn:E;
    [|vm_compute in E; discriminate E..].
  exists c'. split; [reflexivity|].
  pose proof (readers_safe (fixed_zone 0) [Sigsafe 90000; Update (90000, 0); Update (90001, 0)] zero_cache c' 4 E
    ltac:(vm_compute; lia) ltac:(vm_compute; lia) ltac:(vm_compute; lia)) as H.
  destruct (decide (4%nat = slot zero_cache)) as [D|_]; [discriminate D|exact H].
Defined.

(** The bound counts updates, not seconds: the signal handler forgets the second it
    was in, so 64 signals within one second come round to the slot that the others
    still use, whose time is then 0. *)
Example signal_burst :
  (c ← ngx_time_init (fixed_zone 0) (90000, 0);
   c ← run_ops (fixed_zone 0) (replicate 64 (Sigsafe 90001)) c;
   Ok (ngx_cached_time c, option_map t_sec (cached_time c !! ngx_cached_time c))) = Ok (1%nat, Some 0).
Proof. vm_compute. reflexivity. Qed.
