(* ===== verification/Queue.v ===== *)
(** Component "queues": the doubly linked queues of src/core/ngx_queue.c and
    src/core/ngx_queue.h.

    The memory maps the address of a node to its two fields; a queue is a ring of
    nodes that starts at its sentinel. *)

From stdpp Require Import base numbers list gmap option fin_maps fin_sets.
From Stdlib Require Import ZArith Lia.
From S2P Require Import Prelude.
Local Open Scope Z_scope.

(** * Definitions *)

Record ngx_queue_t : Type := mk_queue { q_prev : Z; q_next : Z }.

Abbreviation memory := (gmap Z ngx_queue_t).

Definition node (m : memory) (x : Z) : outcome ngx_queue_t :=
  match m !! x with Some q => Ok q | None => UB end.

Definition ngx_queue_next (m : memory) (q : Z) : outcome Z := n ← node m q; Ok (q_next n).
Definition ngx_queue_prev (m : memory) (q : Z) : outcome Z := n ← node m q; Ok (q_prev n).
Definition ngx_queue_head (m : memory) (h : Z) : outcome Z := n ← node m h; Ok (q_next n).
Definition ngx_queue_last (m : memory) (h : Z) : outcome Z := n ← node m h; Ok (q_prev n).
Definition ngx_queue_sentinel (h : Z) : Z := h.

(** [(x)->next = v] and [(x)->prev = v] *)
Definition set_next (m : memory) (x v : Z) : outcome memory :=
  n ← node m x; Ok (<[x := mk_queue (q_prev n) v]> m).
Definition set_prev (m : memory) (x v : Z) : outcome memory :=
  n ← node m x; Ok (<[x := mk_queue v (q_next n)]> m).

Definition ngx_queue_init (m : memory) (q : Z) : outcome memory :=
  m ← set_prev m q q; set_next m q q.

Definition ngx_queue_empty (m : memory) (h : Z) : outcome bool :=
  n ← node m h; Ok (h =? q_prev n).

Definition ngx_queue_insert_head (m : memory) (h x : Z) : outcome memory :=
  n ← ngx_queue_next m h; m ← set_next m x n;
  n ← ngx_queue_next m x; m ← set_prev m n x;
  m ← set_prev m x h;
  set_next m h x.

Definition ngx_queue_insert_after : memory -> Z -> Z -> outcome memory := ngx_queue_insert_head.

Definition ngx_queue_insert_tail (m : memory) (h x : Z) : outcome memory :=
  p ← ngx_queue_prev m h; m ← set_prev m x p;
  p ← ngx_queue_prev m x; m ← set_next m p x;
  m ← set_next m x h;
  set_prev m h x.

Definition ngx_queue_remove (m : memory) (x : Z) : outcome memory :=
  n ← ngx_queue_next m x; p ← ngx_queue_prev m x; m ← set_prev m n p;
  p ← ngx_queue_prev m x; n ← ngx_queue_next m x; set_next m p n.

Definition ngx_queue_split (m : memory) (h q n : Z) : outcome memory :=
  p ← ngx_queue_prev m h; m ← set_prev m n p;
  p ← ngx_queue_prev m n; m ← set_next m p n;
  m ← set_next m n q;
  p ← ngx_queue_prev m q; m ← set_prev m h p;
  p ← ngx_queue_prev m h; m ← set_next m p h;
  set_prev m q n.

Definition ngx_queue_add (m : memory) (h n : Z) : outcome memory :=
  p ← ngx_queue_prev m h; x ← ngx_queue_next m n; m ← set_next m p x;
  x ← ngx_queue_next m n; p ← ngx_queue_prev m h; m ← set_prev m x p;
  p ← ngx_queue_prev m n; m ← set_prev m h p;
  p ← ngx_queue_prev m h; set_next m p h.

(** The loop of ngx_queue_middle. *)
Fixpoint middle_loop (fuel : nat) (m : memory) (queue middle next : Z) : outcome Z :=
  match fuel with
  | O => NoFuel
  | S fuel' =>
      middle ← ngx_queue_next m middle;
      next ← ngx_queue_next m next;
      last ← ngx_queue_last m queue;
      if next =? last then Ok middle
      else
        next ← ngx_queue_next m next;
        last ← ngx_queue_last m queue;
        if next =? last then Ok middle else middle_loop fuel' m queue middle next
  end.

(** A queue has fewer elements than the memory has nodes. *)
Definition ngx_queue_middle (m : memory) (queue : Z) : outcome Z :=
  middle ← ngx_queue_head m queue;
  last ← ngx_queue_last m queue;
  if middle =? last then Ok middle
  else next ← ngx_queue_head m queue; middle_loop (size m) m queue middle next.

Section Sort.
Context (cmp : Z -> Z -> Z).

(** The inner loop of ngx_queue_sort. *)
Fixpoint sort_back (fuel : nat) (m : memory) (queue prev q : Z) : outcome Z :=
  match fuel with
  | O => NoFuel
  | S fuel' =>
      if cmp prev q <=? 0 then Ok prev
      else
        prev ← ngx_queue_prev m prev;
        if prev =? ngx_queue_sentinel queue then Ok prev else sort_back fuel' m queue prev q
  end.

Fixpoint queue_sort_loop (fuel : nat) (m : memory) (queue q : Z) : outcome memory :=
  if q =? ngx_queue_sentinel queue then Ok m
  else
    match fuel with
    | O => NoFuel
    | S fuel' =>
        prev ← ngx_queue_prev m q;
        next ← ngx_queue_next m q;
        m ← ngx_queue_remove m q;
        prev ← sort_back (size m) m queue prev q;
        m ← ngx_queue_insert_after m prev q;
        queue_sort_loop fuel' m queue next
    end.

Definition ngx_queue_sort (m : memory) (queue : Z) : outcome memory :=
  q ← ngx_queue_head m queue;
  last ← ngx_queue_last m queue;
  if q =? last then Ok m
  else q ← ngx_queue_next m q; queue_sort_loop (size m) m queue q.
End Sort.

(** Reading a queue: its elements in order. *)
Fixpoint walk (fuel : nat) (m : memory) (queue q : Z) : outcome (list Z) :=
  if q =? queue then Ok []
  else
    match fuel with
    | O => NoFuel
    | S fuel' => q' ← ngx_queue_next m q; l ← walk fuel' m queue q'; Ok (q :: l)
    end.

Definition elements_of (m : memory) (queue : Z) : outcome (list Z) :=
  q ← ngx_queue_head m queue; walk (size m) m queue q.

(** Three nodes in one queue, moved and sorted. *)
Definition demo_memory : memory := list_to_map ((fun x => (x, mk_queue 0 0)) <$> [1; 2; 10; 11; 12; 13]).

Example queue_demo :
  (m ← ngx_queue_init demo_memory 1;
   m ← ngx_queue_insert_tail m 1 11; m ← ngx_queue_insert_head m 1 13; m ← ngx_queue_insert_after m 13 12;
   m ← ngx_queue_insert_tail m 1 10;
   x ← ngx_queue_middle m 1;
   m ← ngx_queue_split m 1 x 2;
   l1 ← elements_of m 1; l2 ← elements_of m 2;
   m ← ngx_queue_add m 1 2; m ← ngx_queue_sort (fun x y => x / 2 - y / 2) m 1;
   l ← elements_of m 1; Ok (x, l1, l2, l)) = Ok (11, [13; 12], [11; 10], [11; 10; 13; 12]).
Proof. vm_compute. reflexivity. Qed.
