(* ===== verification/QueueTheory.v ===== *)
(** Queues: the rings of nodes behind them, and what every operation does to the
    lists of elements. *)

From stdpp Require Import base numbers list gmap option fin_maps fin_sets sorting.
From Stdlib Require Import ZArith Lia Permutation.
From S2P Require Import Prelude Sort Queue.
Local Open Scope Z_scope.

(** * Memory as two functions *)

Definition nx (m : memory) (x : Z) : option Z := q_next <$> m !! x.
Definition pv (m : memory) (x : Z) : option Z := q_prev <$> m !! x.

Definition put_next (m : memory) (x v : Z) : memory := alter (fun n => mk_queue (q_prev n) v) x m.
Definition put_prev (m : memory) (x v : Z) : memory := alter (fun n => mk_queue v (q_next n)) x m.

Definition allocated (m : memory) (x : Z) : Prop := x ∈ dom m.

Lemma dom_put_next m x v : dom (put_next m x v) = dom m.
Proof. apply dom_alter_L. Qed.

Lemma dom_put_prev m x v : dom (put_prev m x v) = dom m.
Proof. apply dom_alter_L. Qed.

Lemma allocated_put_next m x v y : allocated (put_next m x v) y <-> allocated m y.
Proof. unfold allocated. by rewrite dom_put_next. Qed.

Lemma allocated_put_prev m x v y : allocated (put_prev m x v) y <-> allocated m y.
Proof. unfold allocated. by rewrite dom_put_prev. Qed.

Lemma nx_put_next m x v y : allocated m x -> nx (put_next m x v) y = if decide (y = x) then Some v else nx m y.
Proof.
  unfold allocated, nx, put_next. intros [n Hn]%elem_of_dom. destruct (decide (y = x)) as [->|].
  - by rewrite lookup_alter_eq, Hn.
  - by rewrite lookup_alter_ne.
Qed.

Lemma pv_put_next m x v y : pv (put_next m x v) y = pv m y.
Proof.
  unfold pv, put_next. destruct (decide (y = x)) as [->|]; [|by rewrite lookup_alter_ne].
  rewrite lookup_alter_eq. by destruct (m !! x).
Qed.

Lemma pv_put_prev m x v y : allocated m x -> pv (put_prev m x v) y = if decide (y = x) then Some v else pv m y.
Proof.
  unfold allocated, pv, put_prev. intros [n Hn]%elem_of_dom. destruct (decide (y = x)) as [->|].
  - by rewrite lookup_alter_eq, Hn.
  - by rewrite lookup_alter_ne.
Qed.

Lemma nx_put_prev m x v y : nx (put_prev m x v) y = nx m y.
Proof.
  unfold nx, put_prev. destruct (decide (y = x)) as [->|]; [|by rewrite lookup_alter_ne].
  rewrite lookup_alter_eq. by destruct (m !! x).
Qed.

Lemma put_next_ne m x v y : y <> x -> put_next m x v !! y = m !! y.
Proof. intros H. by apply lookup_alter_ne. Qed.

Lemma put_prev_ne m x v y : y <> x -> put_prev m x v !! y = m !! y.
Proof. intros H. by apply lookup_alter_ne. Qed.

Lemma nx_ok m x v : nx m x = Some v -> ngx_queue_next m x = Ok v /\ ngx_queue_head m x = Ok v.
Proof.
  unfold nx, ngx_queue_next, ngx_queue_head, node. by intros (n & -> & ->)%fmap_Some.
Qed.

Lemma pv_ok m x v : pv m x = Some v -> ngx_queue_prev m x = Ok v /\ ngx_queue_last m x = Ok v.
Proof.
  unfold pv, ngx_queue_prev, ngx_queue_last, node. by intros (n & -> & ->)%fmap_Some.
Qed.

Lemma nx_allocated m x v : nx m x = Some v -> allocated m x.
Proof. intros (n & Hn & _)%fmap_Some. by apply elem_of_dom_2 in Hn. Qed.

Lemma pv_allocated m x v : pv m x = Some v -> allocated m x.
Proof. intros (n & Hn & _)%fmap_Some. by apply elem_of_dom_2 in Hn. Qed.

Lemma set_next_ok m x v : allocated m x -> set_next m x v = Ok (put_next m x v).
Proof.
  unfold allocated. intros [n Hn]%elem_of_dom. unfold set_next, node. rewrite Hn. cbn. f_equal.
  apply map_eq. intros y. unfold put_next. destruct (decide (y = x)) as [->|].
  - by rewrite lookup_insert_eq, lookup_alter_eq, Hn.
  - by rewrite lookup_insert_ne, lookup_alter_ne.
Qed.

Lemma set_prev_ok m x v : allocated m x -> set_prev m x v = Ok (put_prev m x v).
Proof.
  unfold allocated. intros [n Hn]%elem_of_dom. unfold set_prev, node. rewrite Hn. cbn. f_equal.
  apply map_eq. intros y. unfold put_prev. destruct (decide (y = x)) as [->|].
  - by rewrite lookup_insert_eq, lookup_alter_eq, Hn.
  - by rewrite lookup_insert_ne, lookup_alter_ne.
Qed.

(** * Rings *)

(** A link from [a] to [b], in both directions. *)
Definition linked (m : memory) (a b : Z) : Prop := nx m a = Some b /\ pv m b = Some a.

Fixpoint path (m : memory) (a : Z) (l : list Z) (b : Z) : Prop :=
  match l with
  | [] => linked m a b
  | x :: l' => linked m a x /\ path m x l' b
  end.

(** The nodes of [l], linked in this order, the last one to the first. *)
Definition ring (m : memory) (l : list Z) : Prop :=
  match l with
  | [] => True
  | a :: l' => NoDup l /\ path m a l' a
  end.

Lemma path_app m l1 : forall a x l2 b, path m a (l1 ++ x :: l2) b <-> path m a l1 x /\ path m x l2 b.
Proof. induction l1 as [|y l1 IH]; intros a x l2 b; cbn; [done|]. rewrite IH. tauto. Qed.

Lemma path_frame m m' l : forall a b,
  path m a l b -> (forall y, y ∈ a :: l -> nx m' y = nx m y) -> (forall y, y ∈ l ++ [b] -> pv m' y = pv m y) -> path m' a l b.
Proof.
  induction l as [|x l IH]; intros a b; cbn [path].
  - intros [H1 H2] Hn Hp. split; [rewrite Hn|rewrite Hp]; try done; set_solver.
  - intros [[H1 H2] H] Hn Hp. split; [split; [rewrite Hn|rewrite Hp]; try done; set_solver|].
    apply IH; [done|..]; intros y Hy; [apply Hn|apply Hp]; set_solver.
Qed.

Lemma ring_rotate m l1 l2 : ring m (l1 ++ l2) -> ring m (l2 ++ l1).
Proof.
  destruct l1 as [|a l1], l2 as [|b l2]; cbn [app ring]; rewrite ?app_nil_r; try done.
  intros [Hnd H]. apply path_app in H as [H1 H2]. split; [|by apply path_app].
  by rewrite (Permutation_app_comm (b :: l2) (a :: l1)).
Qed.

Lemma path_allocated m l : forall a b x, path m a l b -> x ∈ a :: l -> allocated m x.
Proof.
  induction l as [|y l IH]; intros a b x; cbn [path].
  - intros [H _] Hx. apply list_elem_of_singleton in Hx as ->. by eapply nx_allocated.
  - intros [[H _] Hp] Hx. apply elem_of_cons in Hx as [->|Hx]; [by eapply nx_allocated|by eapply IH].
Qed.

Lemma ring_allocated m l x : ring m l -> x ∈ l -> allocated m x.
Proof. destruct l as [|a l]; [by intros _ Hx%elem_of_nil|]. intros [_ H] Hx. by eapply path_allocated. Qed.

Lemma ring_nodup m l : ring m l -> NoDup l.
Proof. destruct l; [constructor|]. by intros [H _]. Qed.

(** A ring does not change when its nodes do not. *)
Lemma ring_frame m m' l : ring m l -> (forall y, y ∈ l -> m' !! y = m !! y) -> ring m' l.
Proof.
  destruct l as [|a l]; [done|]. intros [Hnd H] Hf. split; [done|]. apply (path_frame m); [done|..]; intros y Hy.
  - unfold nx. by rewrite Hf.
  - unfold pv. rewrite Hf; [done|]. set_solver.
Qed.

(** The links at the two ends. *)
Lemma path_first m a l b : path m a l b -> nx m a = Some (default b (head l)).
Proof. destruct l; cbn; [by intros [H _]|]. by intros [[H _] _]. Qed.

Lemma path_last m a l b : path m a l b -> pv m b = Some (default a (last l)).
Proof.
  destruct l as [|y l _] using rev_ind; cbn; [by intros [_ H]|]. intros H. apply path_app in H as [_ [_ H]].
  by rewrite last_snoc.
Qed.

(** Only the nodes of [c] have changed. *)
Definition only (c : list Z) (m m' : memory) : Prop :=
  dom m' = dom m /\ forall y, y ∉ c -> m' !! y = m !! y.

(** * The operations on rings *)

Lemma only_put_next c m m' x v : only c m m' -> x ∈ c -> only c m (put_next m' x v).
Proof.
  intros [Hd Ho] Hx. split; [by rewrite dom_put_next|]. intros y Hy. rewrite put_next_ne by set_solver. by apply Ho.
Qed.

Lemma only_put_prev c m m' x v : only c m m' -> x ∈ c -> only c m (put_prev m' x v).
Proof.
  intros [Hd Ho] Hx. split; [by rewrite dom_put_prev|]. intros y Hy. rewrite put_prev_ne by set_solver. by apply Ho.
Qed.

Lemma only_refl c m : only c m m.
Proof. by split. Qed.

(** The disequalities in the hypotheses. *)
Ltac distinct := repeat match goal with
  | H : NoDup (_ :: _) |- _ => apply NoDup_cons in H as [??]
  | H : NoDup (_ ++ _) |- _ => apply NoDup_app in H as (? & ? & ?)
  | H : _ ∉ _ :: _ |- _ => apply not_elem_of_cons in H as [??]
  | H : _ ∉ _ ++ _ |- _ => apply not_elem_of_app in H as [??]
  | H : _ ∉ [] |- _ => clear H
  end.

(** A run of an operation: each access is to an allocated node, and the fields
    are those of the memory so far. *)
Ltac allocation :=
  repeat first [rewrite allocated_put_next | rewrite allocated_put_prev];
  first [assumption | by eapply nx_allocated | by eapply pv_allocated].

Ltac fields := repeat first
  [ rewrite nx_put_prev | rewrite pv_put_next
  | rewrite nx_put_next by allocation | rewrite pv_put_prev by allocation ].

Ltac field := fields; repeat case_decide; first [exfalso; congruence | eassumption | reflexivity | congruence].

Ltac run := repeat first
  [ match goal with
    | |- context [ngx_queue_next ?m ?x] =>
        let H := fresh in eassert (nx m x = Some _) as H by field; rewrite (proj1 (nx_ok m x _ H)); clear H
    | |- context [ngx_queue_prev ?m ?x] =>
        let H := fresh in eassert (pv m x = Some _) as H by field; rewrite (proj1 (pv_ok m x _ H)); clear H
    | |- context [set_next ?m ?x ?v] => rewrite (set_next_ok m x v) by allocation
    | |- context [set_prev ?m ?x ?v] => rewrite (set_prev_ok m x v) by allocation
    end
  | progress cbn [mbind outcome_bind] ].

Ltac only_cells := repeat (apply only_put_next || apply only_put_prev); [apply only_refl|set_solver..].

Lemma init_ring m s : allocated m s -> exists m', ngx_queue_init m s = Ok m' /\ ring m' [s] /\ only [s] m m'.
Proof.
  intros Hs. unfold ngx_queue_init. run. eexists. split; [reflexivity|]. split; [|only_cells].
  split; [apply NoDup_singleton|]. split; field.
Qed.

(** The part of a ring that an operation leaves alone. *)
Ltac same_path :=
  eapply path_frame; [eassumption|..]; intros ? ?; fields; repeat case_decide; subst;
  first [reflexivity | exfalso; set_solver].

Lemma insert_head_ring m h l x :
  ring m (h :: l) -> allocated m x -> x ∉ h :: l ->
  exists m', ngx_queue_insert_head m h x = Ok m' /\ ring m' (h :: x :: l) /\ only (x :: h :: l) m m'.
Proof.
  intros [Hnd H] Hx Hni. unfold ngx_queue_insert_head.
  assert (Hnd' : NoDup (h :: x :: l)) by (rewrite (perm_swap x h l); by constructor). revert Hnd'.
  destruct l as [|n l]; cbn [path] in H.
  - destruct H as [Hn Hp]. distinct. run. intros Hnd'. eexists. split; [reflexivity|]. split; [|only_cells].
    split; [done|]. cbn [path]. repeat split; field.
  - destruct H as [[Hn Hp] H]. distinct. run. intros Hnd'. eexists. split; [reflexivity|]. split; [|only_cells].
    split; [done|]. cbn [path]. split; [split; field|]. split; [split; field|]. same_path.
Qed.

Lemma insert_tail_ring m h l x :
  ring m (h :: l) -> allocated m x -> x ∉ h :: l ->
  exists m', ngx_queue_insert_tail m h x = Ok m' /\ ring m' (h :: l ++ [x]) /\ only (x :: h :: l) m m'.
Proof.
  intros [Hnd H] Hx Hni. unfold ngx_queue_insert_tail.
  assert (Hnd' : NoDup (h :: l ++ [x])) by (rewrite app_comm_cons, <- Permutation_cons_append; by constructor). revert Hnd'.
  destruct l as [|p l _] using rev_ind; [cbn [path app] in *|apply path_app in H as [H [Hn Hp]]].
  - destruct H as [Hn Hp]. distinct. run. intros Hnd'. eexists. split; [reflexivity|]. split; [|only_cells].
    split; [done|]. cbn [path]. split; [split; field|split; field].
  - distinct. run. intros Hnd'. eexists. split; [reflexivity|]. split; [|only_cells].
    split; [done|]. rewrite <- app_assoc. apply path_app. cbn [path]. split; [same_path|]. split; [split; field|split; field].
Qed.

Lemma remove_ring m l x :
  ring m (x :: l) -> l <> [] -> exists m', ngx_queue_remove m x = Ok m' /\ ring m' l /\ only l m m'.
Proof.
  intros [Hnd H] Hne. unfold ngx_queue_remove. pose proof (NoDup_cons_1_2 _ _ Hnd) as Hnd'. revert Hnd'.
  destruct l as [|n l]; [done|]. destruct l as [|p l _] using rev_ind; cbn [path] in H.
  - destruct H as [[Hn Hp] [Hn' Hp']]. distinct. run. intros Hnd'. eexists. split; [reflexivity|]. split; [|only_cells].
    split; [done|]. split; field.
  - destruct H as [[Hn Hp] H]. apply path_app in H as [H [Hn' Hp']]. distinct. run. intros Hnd'.
    eexists. split; [reflexivity|]. split; [|only_cells]. split; [done|]. apply path_app. split; [same_path|]. split; field.
Qed.

(** A path without the link at its end. *)
Definition end_of (a : Z) (l : list Z) : Z := default a (last l).

Fixpoint opath (m : memory) (a : Z) (l : list Z) : Prop :=
  match l with
  | [] => allocated m a
  | x :: l' => linked m a x /\ opath m x l'
  end.

Lemma end_of_cons a x l : end_of a (x :: l) = end_of x l.
Proof. unfold end_of. rewrite last_cons. by destruct (last l). Qed.

Lemma end_of_in a l : end_of a l ∈ a :: l.
Proof.
  revert a. induction l as [|x l IH]; intros a; [apply list_elem_of_singleton; done|]. rewrite end_of_cons. right. apply IH.
Qed.

Lemma path_opath m l : forall a b, path m a l b <-> opath m a l /\ linked m (end_of a l) b.
Proof.
  induction l as [|x l IH]; intros a b; cbn [path opath]; [|rewrite IH, end_of_cons; tauto].
  split; [|tauto]. intros [H1 H2]. split; [by eapply nx_allocated|done].
Qed.

Lemma opath_frame m m' l : forall a,
  NoDup (a :: l) -> opath m a l -> dom m' = dom m -> (forall y, y ∈ a :: l -> y <> end_of a l -> nx m' y = nx m y) ->
  (forall y, y ∈ l -> pv m' y = pv m y) -> opath m' a l.
Proof.
  induction l as [|x l IH]; intros a Hnd; cbn [opath]; [unfold allocated; by intros H ->|].
  rewrite end_of_cons. intros [[H1 H2] H] Hd Hn Hp. apply NoDup_cons in Hnd as [Ha Hnd]. split.
  - split; [rewrite Hn; [done|set_solver|]|rewrite Hp; [done|set_solver]]. intros ->. apply Ha, end_of_in.
  - apply IH; [done..| |]; intros y Hy; [intros Hne; apply Hn|apply Hp]; try done; by right.
Qed.

(** A node that would be in two disjoint lists. *)
Ltac apart :=
  exfalso; repeat match goal with H : NoDup (_ :: _) |- _ => apply NoDup_cons in H as [? _] end;
  match goal with
  | H : _ ∉ _ |- _ => apply H; first [assumption | by right]
  | H : forall x, x ∈ _ -> x ∉ _, _ : ?y ∈ _ |- _ => apply (H y); first [assumption | by right | by left]
  end.

Ltac same_opath :=
  eapply opath_frame; [eassumption|eassumption|repeat (rewrite dom_put_next || rewrite dom_put_prev); reflexivity|..];
  intros ? ?; try intros ?; fields; repeat case_decide; subst; first [reflexivity | exfalso; congruence | apart].

Lemma split_ring m h l1 q l2 n :
  ring m (h :: l1 ++ q :: l2) -> allocated m n -> n ∉ h :: l1 ++ q :: l2 ->
  exists m', ngx_queue_split m h q n = Ok m' /\ ring m' (h :: l1) /\ ring m' (n :: q :: l2) /\
    only (n :: h :: l1 ++ q :: l2) m m'.
Proof.
  intros [Hnd H] Hx Hni. unfold ngx_queue_split. apply path_app in H as [H1 H2].
  rewrite path_opath in H1, H2. destruct H1 as [H1 [P1 P2]], H2 as [H2 [Q1 Q2]].
  rewrite app_comm_cons in Hnd, Hni. apply NoDup_app in Hnd as (Hnd1 & Hdis & Hnd2). apply not_elem_of_app in Hni as [N1 N2].
  pose proof (end_of_in h l1) as Hp. pose proof (end_of_in q l2) as Hz.
  remember (end_of h l1) as p eqn:Ep. remember (end_of q l2) as z eqn:Ez.
  assert (Hne : forall x y, x ∈ h :: l1 -> y ∈ q :: l2 -> x <> y) by (intros x y H3 H4 ->; by apply (Hdis y)).
  assert (Hh : h ∈ h :: l1) by by left. assert (Hq : q ∈ q :: l2) by by left.
  pose proof (Hne _ _ Hp Hq) as E1. pose proof (Hne _ _ Hp Hz) as E2. pose proof (Hne _ _ Hh Hq) as E3.
  pose proof (Hne _ _ Hh Hz) as E4.
  assert (n <> h /\ n <> p /\ n <> q /\ n <> z) as (F1 & F2 & F3 & F4) by (repeat split; intros ->; done).
  run. eexists. split; [reflexivity|]. split; [split; [done|]|split; [split; [by constructor|]|]].
  - apply path_opath. rewrite <- Ep. split; [same_opath|split; field].
  - cbn [path]. rewrite path_opath, <- Ez. split; [split; field|]. split; [same_opath|split; field].
  - only_cells.
Qed.

Lemma add_ring m h l1 n l2 :
  ring m (h :: l1) -> ring m (n :: l2) -> (forall x, x ∈ h :: l1 -> x ∉ n :: l2) ->
  exists m', ngx_queue_add m h n = Ok m' /\ ring m' (h :: l1 ++ l2) /\ only (n :: h :: l1 ++ l2) m m'.
Proof.
  intros [Hnd1 H1] [Hnd2 H2] Hdis. unfold ngx_queue_add. rewrite path_opath in H1. destruct H1 as [H1 [P1 P2]].
  pose proof (end_of_in h l1) as Hp. remember (end_of h l1) as p eqn:Ep.
  assert (Hne : forall x y, x ∈ h :: l1 -> y ∈ n :: l2 -> x <> y) by (intros x y H3 H4 ->; by apply (Hdis y)).
  assert (Hh : h ∈ h :: l1) by by left. assert (Hn : n ∈ n :: l2) by by left.
  pose proof (Hne _ _ Hp Hn) as E1. pose proof (Hne _ _ Hh Hn) as E2.
  destruct l2 as [|x l2].
  - cbn [path] in H2. destruct H2 as [Q1 Q2]. rewrite app_nil_r. run. eexists. split; [reflexivity|]. split; [|only_cells].
    split; [done|]. apply path_opath. rewrite <- Ep. split; [same_opath|split; field].
  - cbn [path] in H2. destruct H2 as [[Q1 Q2] H2]. rewrite path_opath in H2. destruct H2 as [H2 [R1 R2]].
    pose proof (end_of_in x l2) as Hz. remember (end_of x l2) as z eqn:Ez. apply NoDup_cons in Hnd2 as [Hnx Hnd2].
    assert (Hx : x ∈ n :: x :: l2) by set_solver. assert (Hz' : z ∈ n :: x :: l2) by by right.
    pose proof (Hne _ _ Hp Hx) as E3. pose proof (Hne _ _ Hp Hz') as E4. pose proof (Hne _ _ Hh Hx) as E5.
    pose proof (Hne _ _ Hh Hz') as E6. assert (n <> x /\ n <> z) as [E7 E8] by (split; intros ->; apply Hnx; done || by left).
    assert (Hdis' : forall y, y ∈ h :: l1 -> y ∉ x :: l2) by (intros y Hy Hy'; apply (Hdis y); [done|by right]).
    assert (Hp' : p ∉ x :: l2) by by apply Hdis'. assert (Hh' : h ∉ x :: l2) by by apply Hdis'. clear Hne Hdis Hx Hz' Hn.
    run. eexists. split; [reflexivity|]. split; [|only_cells]. split.
    + rewrite app_comm_cons. by apply NoDup_app.
    + apply path_app. rewrite !path_opath, <- Ep, <- Ez. split; (split; [same_opath|split; field]).
Qed.

(** The same at any node of a ring. *)
Lemma only_mono c c' m m' : only c m m' -> c ⊆ c' -> only c' m m'.
Proof. intros [Hd Ho] Hc. split; [done|]. intros y Hy. apply Ho. intros Hin. by apply Hy, Hc. Qed.

Lemma only_trans c m1 m2 m3 : only c m1 m2 -> only c m2 m3 -> only c m1 m3.
Proof. intros [D1 O1] [D2 O2]. split; [congruence|]. intros y Hy. by rewrite O2, O1. Qed.

Lemma insert_after_ring m l1 y l2 x :
  ring m (l1 ++ y :: l2) -> allocated m x -> x ∉ l1 ++ y :: l2 ->
  exists m', ngx_queue_insert_after m y x = Ok m' /\ ring m' (l1 ++ y :: x :: l2) /\ only (x :: l1 ++ y :: l2) m m'.
Proof.
  intros H Hx Hni. apply ring_rotate in H. cbn [app] in H.
  destruct (insert_head_ring m y (l2 ++ l1) x) as (m' & E & Hr & Ho); [done|done|set_solver|]. exists m'. split; [done|].
  split; [by apply (ring_rotate m' (y :: x :: l2) l1)|]. eapply only_mono; [exact Ho|set_solver].
Qed.

Lemma insert_before_ring m l1 y l2 x :
  ring m (l1 ++ y :: l2) -> allocated m x -> x ∉ l1 ++ y :: l2 ->
  exists m', ngx_queue_insert_tail m y x = Ok m' /\ ring m' (l1 ++ x :: y :: l2) /\ only (x :: l1 ++ y :: l2) m m'.
Proof.
  intros H Hx Hni. apply ring_rotate in H. cbn [app] in H.
  destruct (insert_tail_ring m y (l2 ++ l1) x) as (m' & E & Hr & Ho); [done|done|set_solver|]. exists m'. split; [done|].
  split; [|eapply only_mono; [exact Ho|set_solver]]. rewrite cons_middle, app_assoc. apply (ring_rotate m' (y :: l2) (l1 ++ [x])).
  cbn [app]. by rewrite app_assoc.
Qed.

Lemma remove_middle_ring m l1 x l2 :
  ring m (l1 ++ x :: l2) -> l1 <> [] ->
  exists m', ngx_queue_remove m x = Ok m' /\ ring m' (l1 ++ l2) /\ only (l1 ++ l2) m m'.
Proof.
  intros H Hne. apply ring_rotate in H. cbn [app] in H.
  destruct (remove_ring m (l2 ++ l1) x) as (m' & E & Hr & Ho); [done|by destruct l1, l2|]. exists m'. split; [done|].
  split; [by apply ring_rotate|]. eapply only_mono; [exact Ho|set_solver].
Qed.

(** * Queues *)

(** The queues of a memory: their sentinels, with the lists of their elements. *)
Abbreviation queues := (gmap Z (list Z)).

Record represents (m : memory) (Q : queues) : Prop := {
  each_ring : forall s l, Q !! s = Some l -> ring m (s :: l);
  disjoint_rings : forall s1 s2 l1 l2 x,
    Q !! s1 = Some l1 -> Q !! s2 = Some l2 -> x ∈ s1 :: l1 -> x ∈ s2 :: l2 -> s1 = s2
}.

(** A node that is in no queue. *)
Definition free (Q : queues) (x : Z) : Prop := forall s l, Q !! s = Some l -> x ∉ s :: l.

Inductive operation : Type :=
  | Init (q : Z)
  | Insert_head (h x : Z)
  | Insert_tail (h x : Z)
  | Remove (x : Z)
  | Split (h q n : Z)
  | Add (h n : Z).

Definition exec (m : memory) (o : operation) : outcome memory :=
  match o with
  | Init q => ngx_queue_init m q
  | Insert_head h x => ngx_queue_insert_head m h x
  | Insert_tail h x => ngx_queue_insert_tail m h x
  | Remove x => ngx_queue_remove m x
  | Split h q n => ngx_queue_split m h q n
  | Add h n => ngx_queue_add m h n
  end.

Fixpoint exec_all (m : memory) (os : list operation) : outcome memory :=
  match os with
  | [] => Ok m
  | o :: os' => m' ← exec m o; exec_all m' os'
  end.

(** What the operations do to lists.  A node is put into a queue at its ends, or
    next to one of its elements [y]; [nodes] are the nodes there are. *)
Inductive queue_step (nodes : gset Z) : queues -> operation -> queues -> Prop :=
  | step_init Q q : q ∈ nodes -> free Q q -> queue_step nodes Q (Init q) (<[q := []]> Q)
  | step_head Q h l x : x ∈ nodes -> free Q x -> Q !! h = Some l ->
      queue_step nodes Q (Insert_head h x) (<[h := x :: l]> Q)
  | step_after Q h l1 y l2 x : x ∈ nodes -> free Q x -> Q !! h = Some (l1 ++ y :: l2) ->
      queue_step nodes Q (Insert_head y x) (<[h := l1 ++ y :: x :: l2]> Q)
  | step_tail Q h l x : x ∈ nodes -> free Q x -> Q !! h = Some l ->
      queue_step nodes Q (Insert_tail h x) (<[h := l ++ [x]]> Q)
  | step_before Q h l1 y l2 x : x ∈ nodes -> free Q x -> Q !! h = Some (l1 ++ y :: l2) ->
      queue_step nodes Q (Insert_tail y x) (<[h := l1 ++ x :: y :: l2]> Q)
  | step_remove Q h l1 x l2 : Q !! h = Some (l1 ++ x :: l2) ->
      queue_step nodes Q (Remove x) (<[h := l1 ++ l2]> Q)
  | step_split Q h l1 q l2 n : n ∈ nodes -> free Q n -> Q !! h = Some (l1 ++ q :: l2) ->
      queue_step nodes Q (Split h q n) (<[n := q :: l2]> (<[h := l1]> Q))
  | step_add Q h l1 n l2 : Q !! h = Some l1 -> Q !! n = Some l2 -> h <> n ->
      queue_step nodes Q (Add h n) (<[h := l1 ++ l2]> (delete n Q)).

Inductive queue_steps (nodes : gset Z) : queues -> list operation -> queues -> Prop :=
  | steps_nil Q : queue_steps nodes Q [] Q
  | steps_cons Q o Q' os Q'' :
      queue_step nodes Q o Q' -> queue_steps nodes Q' os Q'' -> queue_steps nodes Q (o :: os) Q''.

(** A node that is in no queue but [h]. *)
Definition outside (Q : queues) (h y : Z) : Prop := forall s k, Q !! s = Some k -> s <> h -> y ∉ s :: k.

Lemma outside_free Q h y : free Q y -> outside Q h y.
Proof. intros H s k Hs _. by apply H. Qed.

Lemma outside_own m Q h l y : represents m Q -> Q !! h = Some l -> y ∈ h :: l -> outside Q h y.
Proof. intros [_ Hd] Hh Hy s k Hs Hne Hk. apply Hne. by apply (Hd s h k l y). Qed.

(** A queue gets new elements, and the nodes of the others are not touched. *)
Lemma represents_update m m' Q c h l :
  represents m Q -> only c m m' -> ring m' (h :: l) ->
  (forall y, y ∈ c -> outside Q h y) -> (forall y, y ∈ h :: l -> outside Q h y) -> represents m' (<[h := l]> Q).
Proof.
  intros [Hr Hd] [_ Ho] H Hc Hl. split.
  - intros s k. destruct (decide (s = h)) as [->|Hne].
    + rewrite lookup_insert_eq. by intros [= <-].
    + rewrite lookup_insert_ne by done. intros Hs. apply (ring_frame m); [by apply Hr|]. intros y Hy. apply Ho.
      intros Hyc. by apply (Hc y Hyc s k).
  - intros s1 s2 l1 l2 x. destruct (decide (s1 = h)) as [->|N1], (decide (s2 = h)) as [->|N2]; [done|..];
      rewrite ?lookup_insert_eq, ?lookup_insert_ne by done.
    + intros [= <-] H2 X1 X2. exfalso. by apply (Hl x X1 s2 l2).
    + intros H1 [= <-] X1 X2. exfalso. by apply (Hl x X2 s1 l1).
    + by apply Hd.
Qed.

Lemma represents_delete m Q n : represents m Q -> represents m (delete n Q).
Proof.
  intros [Hr Hd]. split.
  - intros s l Hs. apply Hr. by apply lookup_delete_Some in Hs as [_ Hs].
  - intros s1 s2 l1 l2 x H1 H2. apply lookup_delete_Some in H1 as [_ H1]. apply lookup_delete_Some in H2 as [_ H2]. by apply Hd.
Qed.

(** The same with the nodes of the queue and a free one. *)
Lemma represents_own m m' Q c h l l' x :
  represents m Q -> Q !! h = Some l -> free Q x \/ x ∈ h :: l -> only c m m' -> ring m' (h :: l') ->
  c ⊆ x :: h :: l -> h :: l' ⊆ x :: h :: l -> represents m' (<[h := l']> Q).
Proof.
  intros HQ Hh Hx Ho H Hc Hl.
  assert (Hy : forall y, y ∈ x :: h :: l -> outside Q h y).
  { intros y Hy. apply elem_of_cons in Hy as [->|Hy]; [|by eapply outside_own]. destruct Hx; [by apply outside_free|by eapply outside_own]. }
  eapply represents_update; [exact HQ|exact Ho|exact H|..]; intros y Hin; apply Hy; [by apply Hc|by apply Hl].
Qed.

(** One operation. *)
Lemma queue_step_refines m Q o Q' :
  represents m Q -> queue_step (dom m) Q o Q' ->
  exists m', exec m o = Ok m' /\ represents m' Q' /\ dom m' = dom m.
Proof.
  intros HQ Hs. destruct Hs as [Q q Hq Hf|Q h l x Hx Hf Hh|Q h l1 y l2 x Hx Hf Hh|Q h l x Hx Hf Hh|Q h l1 y l2 x Hx Hf Hh
    |Q h l1 x l2 Hh|Q h l1 q l2 n Hn Hf Hh|Q h l1 n l2 Hh Hn Hne]; cbn [exec].
  - destruct (init_ring m q Hq) as (m' & -> & Hr & Ho). exists m'. split; [done|]. split; [|apply Ho].
    eapply represents_update; [exact HQ|exact Ho|done|..]; intros y ->%list_elem_of_singleton; by apply outside_free.
  - destruct (insert_head_ring m h l x) as (m' & -> & Hr & Ho); [by apply HQ|done|by apply Hf|]. exists m'. split; [done|].
    split; [|apply Ho]. eapply (represents_own m m' Q _ h l _ x); try done; [by left|set_solver].
  - destruct (insert_after_ring m (h :: l1) y l2 x) as (m' & E & Hr & Ho); [by apply HQ|done|by apply Hf|].
    exists m'. split; [exact E|]. split; [|apply Ho].
    eapply (represents_own m m' Q _ h _ _ x); [done|done|by left|exact Ho|exact Hr|done|set_solver].
  - destruct (insert_tail_ring m h l x) as (m' & -> & Hr & Ho); [by apply HQ|done|by apply Hf|]. exists m'. split; [done|].
    split; [|apply Ho]. eapply (represents_own m m' Q _ h l _ x); try done; [by left|set_solver].
  - destruct (insert_before_ring m (h :: l1) y l2 x) as (m' & -> & Hr & Ho); [by apply HQ|done|by apply Hf|].
    exists m'. split; [done|]. split; [|apply Ho].
    eapply (represents_own m m' Q _ h _ _ x); [done|done|by left|exact Ho|exact Hr|done|set_solver].
  - destruct (remove_middle_ring m (h :: l1) x l2) as (m' & -> & Hr & Ho); [by apply HQ|done|].
    exists m'. split; [done|]. split; [|apply Ho].
    eapply (represents_own m m' Q _ h _ _ x); [done|done|right; set_solver|exact Ho|exact Hr|set_solver..].
  - destruct (split_ring m h l1 q l2 n) as (m' & -> & Hr1 & Hr2 & Ho); [by apply HQ|done|by apply Hf|].
    exists m'. split; [done|]. split; [|apply Ho].
    assert (HQ' : represents m' (<[h := l1]> Q)).
    { eapply (represents_own m m' Q _ h _ _ n); [done|done|by left|exact Ho|done|set_solver|set_solver]. }
    eapply represents_update; [exact HQ'|apply only_refl|done|by intros y ?%elem_of_nil|].
    intros y Hy s k Hs Hne Hk. pose proof (each_ring _ _ HQ _ _ Hh) as [Hnd _]. rewrite app_comm_cons in Hnd.
    apply NoDup_app in Hnd as (_ & Hdis & _). apply lookup_insert_Some in Hs as [[<- <-]|[Hsh Hs]].
    + apply elem_of_cons in Hy as [->|Hy]; [|by apply (Hdis y)]. apply (Hf _ _ Hh). set_solver.
    + apply elem_of_cons in Hy as [->|Hy]; [by apply (Hf _ _ Hs)|]. apply Hsh.
      eapply (disjoint_rings _ _ HQ h s _ k y); try done. set_solver.
  - destruct (add_ring m h l1 n l2) as (m' & -> & Hr & Ho); [by apply HQ|by apply HQ| |].
    { intros x X1 X2. apply Hne. by apply (disjoint_rings _ _ HQ h n l1 l2 x). }
    exists m'. split; [done|]. split; [|apply Ho].
    eapply represents_update; [by apply (represents_delete m Q n)|exact Ho|done|..]; intros y Hy s k Hs Hsh Hk;
      apply lookup_delete_Some in Hs as [Hsn Hs]; assert (Hy' : y ∈ h :: l1 \/ y ∈ n :: l2) by set_solver;
      (destruct Hy' as [Hy'|Hy']; [apply Hsh|apply Hsn; symmetry]); by eapply (disjoint_rings _ _ HQ).
Qed.

(** Any sequence of operations. *)
Lemma queue_steps_refine os : forall m Q Q',
  represents m Q -> queue_steps (dom m) Q os Q' ->
  exists m', exec_all m os = Ok m' /\ represents m' Q' /\ dom m' = dom m.
Proof.
  induction os as [|o os IH]; intros m Q Q'' HQ Hs; inversion Hs as [|? ? Q' ? ? H1 H2]; subst; [by exists m|].
  destruct (queue_step_refines m Q o Q' HQ H1) as (m1 & E1 & HQ1 & D1). rewrite <- D1 in H2.
  destruct (IH m1 Q' Q'' HQ1 H2) as (m2 & E2 & HQ2 & D2). exists m2. cbn [exec_all]. rewrite E1. split; [done|]. by rewrite D2.
Qed.

(** * Walking through a queue *)

Lemma ring_size m l : ring m l -> (length l <= size m)%nat.
Proof.
  intros H. pose proof (ring_nodup m l H) as Hnd. rewrite <- size_dom, <- (size_list_to_set (C := gset Z) l Hnd).
  apply subseteq_size. intros x Hx%elem_of_list_to_set. by eapply ring_allocated.
Qed.

(** The node after one of the elements. *)
Lemma path_next m b l : forall a i x, path m a l b -> l !! i = Some x -> nx m x = Some (default b (l !! S i)).
Proof.
  induction l as [|y l IH]; intros a i x; [done|]. intros [_ H] Hi. destruct i as [|i].
  - injection Hi as <-. rewrite (path_first _ _ _ _ H). by destruct l.
  - cbn in Hi. by apply (IH y i x).
Qed.

Lemma walk_ok m s l : forall fuel a, path m a l s -> NoDup (s :: l) -> (length l <= fuel)%nat ->
  forall q, nx m a = Some q -> walk fuel m s q = Ok l.
Proof.
  induction l as [|x l IH]; intros fuel a H Hnd Hf q Hq.
  - rewrite (path_first _ _ _ _ H) in Hq. injection Hq as <-. destruct fuel; cbn; by rewrite Z.eqb_refl.
  - cbn [path] in H. destruct H as [[H1 _] H]. rewrite H1 in Hq. injection Hq as <-. cbn [length] in Hf.
    destruct fuel as [|fuel]; [lia|]. cbn [walk]. apply NoDup_cons in Hnd as [Hs Hnd]. apply not_elem_of_cons in Hs as [Hsx Hs].
    rewrite (proj2 (Z.eqb_neq x s)) by done. pose proof (path_first _ _ _ _ H) as Hn. rewrite (proj1 (nx_ok _ _ _ Hn)).
    apply NoDup_cons in Hnd as [_ Hnd]. assert (Hnd' : NoDup (s :: l)) by by apply NoDup_cons.
    cbn [mbind outcome_bind]. by rewrite (IH fuel x H Hnd' ltac:(lia) _ Hn).
Qed.

Lemma elements_of_ok m s l : ring m (s :: l) -> elements_of m s = Ok l.
Proof.
  intros H. pose proof (ring_size m _ H) as Hs. destruct H as [Hnd H]. unfold elements_of.
  rewrite (proj2 (nx_ok _ _ _ (path_first _ _ _ _ H))). cbn [mbind outcome_bind].
  apply (walk_ok m s l _ s); [done|done|cbn in Hs; lia|by apply path_first].
Qed.

Lemma queue_ends m s l :
  ring m (s :: l) ->
  ngx_queue_head m s = Ok (default s (head l)) /\ ngx_queue_last m s = Ok (default s (last l)) /\
  ngx_queue_empty m s = Ok (bool_decide (l = [])).
Proof.
  intros [Hnd H]. pose proof (path_last _ _ _ _ H) as Hl. split; [by apply nx_ok, path_first|].
  split; [by apply pv_ok|]. destruct (pv_ok _ _ _ Hl) as [_ Hl']. unfold ngx_queue_last in Hl'. unfold ngx_queue_empty.
  destruct (node m s) as [n| |]; try done. cbn in Hl' |- *. injection Hl' as ->. f_equal.
  destruct l as [|x l _] using rev_ind; [by rewrite Z.eqb_refl|]. rewrite last_snoc. cbn. rewrite bool_decide_false by by destruct l.
  apply Z.eqb_neq. intros ->. apply NoDup_cons in Hnd as [Hs _]. apply Hs. set_solver.
Qed.

(** C13. Any sequence of the operations on queues (init, insert at either end or
    next to an element, remove, split, add), run on the memory of linked nodes, does to
    each queue what it does to a list; the queues stay disjoint rings, and walking from
    the sentinel reads exactly the list. *)
Theorem queue_operations_correct m Q os Q' :
  represents m Q -> queue_steps (dom m) Q os Q' ->
  exists m', exec_all m os = Ok m' /\ represents m' Q' /\ dom m' = dom m /\
    forall s l, Q' !! s = Some l ->
      elements_of m' s = Ok l /\ ngx_queue_head m' s = Ok (default s (head l)) /\
      ngx_queue_last m' s = Ok (default s (last l)) /\ ngx_queue_empty m' s = Ok (bool_decide (l = [])).
Proof.
  intros HQ Hs. destruct (queue_steps_refine os m Q Q' HQ Hs) as (m' & E & HQ' & Hd). exists m'. split_and!; try done.
  intros s l Hl. apply (each_ring _ _ HQ') in Hl. split; [by apply elements_of_ok|by apply queue_ends].
Qed.

Definition demo_operations : list operation :=
  [Init 1; Insert_tail 1 11; Insert_head 1 13; Insert_head 13 12; Insert_tail 1 10; Split 1 11 2; Remove 12; Add 2 1].

Lemma queue_operations_correct_witness :
  exists m', exec_all demo_memory demo_operations = Ok m' /\ represents m' {[2 := [11; 10; 13]]} /\ dom m' = dom demo_memory /\
    forall s l, ({[2 := [11; 10; 13]]} : queues) !! s = Some l ->
      elements_of m' s = Ok l /\ ngx_queue_head m' s = Ok (default s (head l)) /\
      ngx_queue_last m' s = Ok (default s (last l)) /\ ngx_queue_empty m' s = Ok (bool_decide (l = [])).
Proof.
  apply (queue_operations_correct _ ∅); [by split|]. unfold demo_operations.
  assert (Hfree : forall (Q : queues) x, forallb (fun p => negb (bool_decide (x ∈ p.1 :: p.2))) (map_to_list Q) = true -> free Q x).
  { intros Q x H s l Hs Hx. rewrite forallb_forall in H. specialize (H (s, l)). cbn [fst snd] in H.
    rewrite bool_decide_true in H by done. discriminate H. by apply list_elem_of_In, elem_of_map_to_list. }
  assert (Hnode : forall x, bool_decide (x ∈ dom demo_memory) = true -> x ∈ dom demo_memory) by (intros x; apply bool_decide_eq_true).
  eapply steps_cons; [apply step_init; [by apply Hnode|by apply Hfree]|].
  eapply steps_cons; [apply (step_tail _ _ 1 []); [by apply Hnode|by apply Hfree|done]|].
  eapply steps_cons; [apply (step_head _ _ 1 [11]); [by apply Hnode|by apply Hfree|done]|].
  eapply steps_cons; [apply (step_after _ _ 1 [] 13 [11]); [by apply Hnode|by apply Hfree|done]|].
  eapply steps_cons; [apply (step_tail _ _ 1 [13; 12; 11]); [by apply Hnode|by apply Hfree|done]|].
  eapply steps_cons; [apply (step_split _ _ 1 [13; 12] 11 [10]); [by apply Hnode|by apply Hfree|done]|].
  eapply steps_cons; [apply (step_remove _ _ 1 [13] 12 []); done|].
  eapply steps_cons; [apply (step_add _ _ 2 [11; 10] 1 [13]); done|].
  match goal with |- queue_steps _ ?Q _ ?Q' => replace Q with Q' by (vm_compute; reflexivity) end. apply steps_nil.
Defined.

(** * The middle *)

Section Middle.
Context (m : memory) (s : Z) (l : list Z).
Hypothesis (H : ring m (s :: l)).

Lemma next_element i x y : l !! i = Some x -> l !! S i = Some y -> ngx_queue_next m x = Ok y.
Proof using H. intros Hx Hy. apply nx_ok. destruct H as [_ Hp]. by rewrite (path_next _ _ _ _ _ _ Hp Hx), Hy. Qed.

Lemma last_element x : l !! (length l - 1)%nat = Some x -> ngx_queue_last m s = Ok x.
Proof using H.
  intros Hx. destruct (queue_ends _ _ _ H) as (_ & -> & _). rewrite last_lookup, Nat.sub_1_r in *. by rewrite Hx.
Qed.

Lemma same_element i j x y : l !! i = Some x -> l !! j = Some y -> (x =? y) = (i =? j)%nat.
Proof using H.
  intros Hx Hy. destruct (Nat.eqb_spec i j) as [->|Hne]; [rewrite Hx in Hy; injection Hy as ->; apply Z.eqb_refl|].
  apply Z.eqb_neq. intros ->. apply Hne. apply ring_nodup, NoDup_cons in H as [_ Hnd]. by eapply NoDup_lookup.
Qed.

(** After [k] rounds the two pointers are at the elements [k] and [2 * k]. *)
Lemma middle_loop_ok fuel : forall k x y,
  l !! k = Some x -> l !! (2 * k)%nat = Some y -> (2 * k + 1 < length l)%nat -> (length l < 2 * (k + fuel))%nat ->
  exists z, l !! (length l / 2)%nat = Some z /\ middle_loop fuel m s x y = Ok z.
Proof using H.
  induction fuel as [|fuel IH]; intros k x y Hx Hy Hk Hf; [lia|]. cbn [middle_loop].
  destruct (lookup_lt_is_Some_2 l (S k)) as [x' Hx']; [lia|]. destruct (lookup_lt_is_Some_2 l (S (2 * k))) as [y' Hy']; [lia|].
  destruct (lookup_lt_is_Some_2 l (length l - 1)) as [z Hz]; [lia|].
  rewrite (next_element k x x') by done. cbn [mbind outcome_bind]. rewrite (next_element (2 * k) y y') by done.
  cbn [mbind outcome_bind]. rewrite (last_element z Hz). cbn [mbind outcome_bind].
  rewrite (same_element _ _ _ _ Hy' Hz). destruct (Nat.eqb_spec (S (2 * k)) (length l - 1)) as [E|E].
  { exists x'. split; [|done]. replace (length l / 2)%nat with (S k); [done|]. replace (length l) with (S k * 2)%nat by lia. by rewrite Nat.div_mul. }
  destruct (lookup_lt_is_Some_2 l (S (S (2 * k)))) as [y2 Hy2]; [lia|]. rewrite (next_element (S (2 * k)) y' y2) by done.
  cbn [mbind outcome_bind]. rewrite (same_element _ _ _ _ Hy2 Hz). destruct (Nat.eqb_spec (S (S (2 * k))) (length l - 1)) as [E2|E2].
  { exists x'. split; [|done]. replace (length l / 2)%nat with (S k); [done|]. replace (length l) with (1 + S k * 2)%nat by lia.
    by rewrite Nat.div_add by done. }
  apply (IH (S k)); [done| |lia|lia]. by replace (2 * S k)%nat with (S (S (2 * k))) by lia.
Qed.

Lemma queue_middle_ok : ngx_queue_middle m s = Ok (default s (l !! (length l / 2)%nat)).
Proof using H.
  pose proof (ring_size _ _ H) as Hs. cbn [length] in Hs. unfold ngx_queue_middle. destruct (queue_ends _ _ _ H) as (-> & El & _).
  rewrite El. cbn [mbind outcome_bind]. destruct (decide (length l <= 1)%nat) as [Hl|Hl].
  - destruct l as [|x [|y l']]; cbn in Hl |- *; [by rewrite Z.eqb_refl|by rewrite Z.eqb_refl|lia].
  - destruct (lookup_lt_is_Some_2 l 0) as [x Hx]; [lia|]. destruct (lookup_lt_is_Some_2 l (length l - 1)) as [z Hz]; [lia|].
    rewrite head_lookup, Hx, last_lookup, <- Nat.sub_1_r, Hz. cbn [from_option id].
    rewrite (same_element _ _ _ _ Hx Hz). rewrite (proj2 (Nat.eqb_neq 0 _)) by lia.
    destruct (middle_loop_ok (size m) 0 x x) as (y & -> & ->); try done; lia.
Qed.
End Middle.

Theorem ngx_queue_middle_correct m Q s l :
  represents m Q -> Q !! s = Some l -> ngx_queue_middle m s = Ok (default s (l !! (length l / 2)%nat)).
Proof. intros HQ Hl. apply queue_middle_ok. by apply (each_ring _ _ HQ). Qed.

(** * The sort *)

Section Sorting.
Context (cmp : Z -> Z -> Z).

Lemma end_of_snoc a l x : end_of a (l ++ [x]) = x.
Proof. unfold end_of. by rewrite last_snoc. Qed.

(** The inner loop finds the last element of [l] that is not after [q]. *)
Lemma sort_back_ok m s q l : forall fuel rest,
  ring m (s :: l ++ rest) -> l <> [] -> (length l <= fuel)%nat ->
  exists l1 l2, l = l1 ++ l2 /\ insert_last cmp l q = l1 ++ q :: l2 /\
    sort_back cmp fuel m s (end_of s l) q = Ok (end_of s l1).
Proof.
  induction l as [|x l IH] using rev_ind; intros fuel rest H Hne Hf; [done|].
  rewrite length_app in Hf. cbn [length] in Hf. destruct fuel as [|fuel]; [lia|]. cbn [sort_back].
  rewrite end_of_snoc. destruct (Z.leb_spec (cmp x q) 0) as [Hc|Hc].
  { exists (l ++ [x]), []. rewrite app_nil_r, insert_last_snoc_le by done. split; [done|]. rewrite <- app_assoc. by rewrite end_of_snoc. }
  rewrite insert_last_snoc_gt by done. rewrite <- app_assoc in H. cbn [app] in H. pose proof H as [Hnd Hp].
  apply path_app in Hp as [Hp _]. rewrite (proj1 (pv_ok _ _ _ (path_last _ _ _ _ Hp))). cbn [mbind outcome_bind].
  fold (end_of s l). unfold ngx_queue_sentinel. destruct l as [|y l'] eqn:El.
  - rewrite Z.eqb_refl. by exists [], [x].
  - rewrite <- El in *. assert (Hs : end_of s l <> s).
    { intros E. apply NoDup_cons in Hnd as [Hs _]. apply Hs. rewrite El, end_of_cons in *. rewrite <- E at 1.
      apply elem_of_app. left. rewrite <- El in *. rewrite El. apply end_of_in. }
    rewrite (proj2 (Z.eqb_neq _ _) Hs). destruct (IH fuel (x :: rest) H) as (l1 & l2 & -> & E1 & E2); [by rewrite El|lia|].
    exists l1, (l2 ++ [x]). rewrite E1, E2. by rewrite <- !app_assoc.
Qed.

Lemma end_of_split s l : exists l', s :: l = l' ++ [end_of s l].
Proof.
  destruct l as [|x l _] using rev_ind; [by exists []|]. exists (s :: l). by rewrite end_of_snoc.
Qed.

Lemma queue_sort_loop_ok s rest : forall fuel m l,
  ring m (s :: l ++ rest) -> l <> [] -> (length rest <= fuel)%nat ->
  exists m', queue_sort_loop cmp fuel m s (default s (head rest)) = Ok m' /\
    ring m' (s :: foldl (insert_last cmp) l rest) /\ only (s :: l ++ rest) m m'.
Proof.
  induction rest as [|q rest IH]; intros fuel m l H Hne Hf.
  - exists m. rewrite app_nil_r in *. cbn [head from_option foldl].
    destruct fuel; cbn [queue_sort_loop]; unfold ngx_queue_sentinel; rewrite Z.eqb_refl; by split_and!.
  - cbn [length] in Hf. destruct fuel as [|fuel]; [lia|]. pose proof H as [Hnd Hp]. apply path_app in Hp as [Hp1 Hp2].
    assert (Hqs : q <> s) by (apply NoDup_cons in Hnd as [Hs _]; intros ->; apply Hs; set_solver).
    cbn [head from_option id queue_sort_loop]. unfold ngx_queue_sentinel. rewrite (proj2 (Z.eqb_neq q s) Hqs).
    rewrite (proj1 (pv_ok _ _ _ (path_last _ _ _ _ Hp1))). cbn [mbind outcome_bind].
    rewrite (proj1 (nx_ok _ _ _ (path_first _ _ _ _ Hp2))). cbn [mbind outcome_bind].
    destruct (remove_middle_ring m (s :: l) q rest H) as (m1 & -> & R1 & O1); [done|]. cbn [mbind outcome_bind].
    pose proof (ring_size _ _ R1) as Hsz. cbn [app length] in Hsz. rewrite length_app in Hsz.
    destruct (sort_back_ok m1 s q l (size m1) rest R1 Hne) as (l1 & l2 & -> & E1 & E2); [lia|].
    fold (end_of s (l1 ++ l2)). rewrite E2. cbn [mbind outcome_bind]. destruct (end_of_split s l1) as [l' El].
    assert (Hl : s :: (l1 ++ l2) ++ rest = l' ++ end_of s l1 :: l2 ++ rest)
      by (rewrite <- app_assoc, app_comm_cons, El, <- app_assoc; done).
    destruct (insert_after_ring m1 l' (end_of s l1) (l2 ++ rest) q) as (m2 & -> & R2 & O2); [by rewrite <- Hl| | |].
    { unfold allocated. rewrite (proj1 O1). eapply ring_allocated; [exact H|]. set_solver. }
    { rewrite <- Hl. rewrite app_comm_cons in Hnd. apply NoDup_app in Hnd as (_ & Hd & Hnd). apply NoDup_cons in Hnd as [Hq _].
      rewrite app_comm_cons. apply not_elem_of_app. split; [|done]. intros Hin. apply (Hd q Hin). by left. }
    cbn [mbind outcome_bind]. rewrite <- Hl in O2. clear Hl.
    destruct (IH fuel m2 (insert_last cmp (l1 ++ l2) q)) as (m' & E & R3 & O3); [|by rewrite E1; destruct l1|lia|].
    { rewrite E1, <- app_assoc. cbn [app]. rewrite app_comm_cons, El, <- app_assoc. exact R2. }
    exists m'. split; [exact E|]. split; [exact R3|]. eapply only_trans; [eapply only_trans|].
    + eapply only_mono; [exact O1|set_solver].
    + eapply only_mono; [exact O2|set_solver].
    + eapply only_mono; [exact O3|]. rewrite E1. set_solver.
Qed.

Lemma queue_sort_ok m s l :
  ring m (s :: l) ->
  exists m', ngx_queue_sort cmp m s = Ok m' /\ ring m' (s :: foldl (insert_last cmp) (take 1 l) (drop 1 l)) /\ only (s :: l) m m'.
Proof.
  intros H. pose proof (ring_size _ _ H) as Hsz. unfold ngx_queue_sort. destruct (queue_ends _ _ _ H) as (-> & -> & _).
  cbn [mbind outcome_bind]. destruct l as [|x rest]; [exists m; rewrite Z.eqb_refl; by split_and!|].
  cbn [head from_option id take drop]. rewrite take_0, drop_0. fold (end_of s (x :: rest)). rewrite end_of_cons.
  destruct rest as [|y rest]; [exists m; unfold end_of; cbn; rewrite Z.eqb_refl; split; [done|]; split; [exact H|apply only_refl]|].
  pose proof H as [Hnd Hp]. cbn [path] in Hp. destruct Hp as (_ & [Hn _] & _).
  rewrite (proj2 (Z.eqb_neq x _)).
  - rewrite (proj1 (nx_ok _ _ _ Hn)). cbn [mbind outcome_bind]. cbn [length] in Hsz.
    apply (queue_sort_loop_ok s (y :: rest) (size m) m [x]); [done|done|cbn; lia].
  - rewrite end_of_cons. intros E. apply NoDup_cons in Hnd as [_ Hnd]. apply NoDup_cons in Hnd as [Hx _]. apply Hx. rewrite E.
    apply end_of_in.
Qed.
End Sorting.

(** C14. ngx_queue_sort terminates and relinks a queue into a stable sorted
    permutation of its elements, without touching the other queues. *)
Theorem ngx_queue_sort_correct cmp m Q s l :
  comparison cmp -> represents m Q -> Q !! s = Some l ->
  exists m' l', ngx_queue_sort cmp m s = Ok m' /\ represents m' (<[s := l']> Q) /\ dom m' = dom m /\
    StronglySorted (le cmp) l' /\ l' ≡ₚ l /\
    forall y, List.filter (fun x => equiv cmp x y) l' = List.filter (fun x => equiv cmp x y) l.
Proof.
  intros [_ Ht Htr] HQ Hl. destruct (queue_sort_ok cmp m s l) as (m' & E & Hr & Ho); [by apply HQ|].
  assert (H1 : StronglySorted (le cmp) (take 1 l)) by (destruct l; cbn; repeat constructor).
  destruct (insertions_sorted cmp Htr Ht (take 1 l) (drop 1 l) H1) as (Hs & Hp & Hf). rewrite take_drop in Hp, Hf.
  exists m', (foldl (insert_last cmp) (take 1 l) (drop 1 l)). split; [exact E|]. split; [|split; [apply Ho|done]].
  eapply (represents_own m m' Q _ s l _ s); [done|done|right; by left|exact Ho|exact Hr|set_solver|]. rewrite Hp. set_solver.
Qed.

Definition demo_ring : memory :=
  <[1 := mk_queue 13 11]> (<[11 := mk_queue 1 12]> (<[12 := mk_queue 11 13]> {[13 := mk_queue 12 1]})).

Lemma demo_ring_represents : represents demo_ring {[1 := [11; 12; 13]]}.
Proof.
  split.
  - intros s l [<- <-]%lookup_singleton_Some. split; [by apply (bool_decide_unpack _)|]. by vm_compute.
  - intros s1 s2 l1 l2 x [<- <-]%lookup_singleton_Some [<- <-]%lookup_singleton_Some. done.
Qed.

Lemma ngx_queue_middle_correct_witness : ngx_queue_middle demo_ring 1 = Ok 12.
Proof. apply (ngx_queue_middle_correct _ _ 1 [11; 12; 13] demo_ring_represents). reflexivity. Defined.

Lemma ngx_queue_sort_correct_witness :
  exists m' l', ngx_queue_sort (fun x y => y / 2 - x / 2) demo_ring 1 = Ok m' /\ represents m' (<[1 := l']> {[1 := [11; 12; 13]]}) /\
    dom m' = dom demo_ring /\ StronglySorted (le (fun x y => y / 2 - x / 2)) l' /\ l' ≡ₚ [11; 12; 13] /\
    forall y, List.filter (fun x => equiv (fun x y => y / 2 - x / 2) x y) l' =
      List.filter (fun x => equiv (fun x y => y / 2 - x / 2) x y) [11; 12; 13].
Proof.
  apply (ngx_queue_sort_correct (fun x y => y / 2 - x / 2) demo_ring _ 1 [11; 12; 13]); [split; intros; lia|apply demo_ring_represents|].
  reflexivity.
Defined.
