(* ===== verification/RbTree.v ===== *)
(** Component "red-black tree": core/ngx_rbtree.c and core/ngx_rbtree.h.

    Nodes are structures that point to one another; the members of a structure are
    separate objects, so the memory has a map from addresses to values for each
    member.  One tree, with its sentinel, is in a memory; [*root] is a field of it.
    RbTreeShape relates the memory to trees, RbTreeInsert and RbTreeDelete have the
    theorems about the operations. *)

From stdpp Require Import base numbers list option gmap.
From Stdlib Require Import ZArith Lia.
From S2P Require Import Prelude.
Local Open Scope Z_scope.

(** * Definitions *)

Record heap : Type := mk_heap {
  h_key : gmap Z Z;
  h_left : gmap Z Z;
  h_right : gmap Z Z;
  h_parent : gmap Z Z;
  h_color : gmap Z Z;
  h_root : Z
}.

#[export] Instance eta_heap : Eta heap := fun h =>
  mk_heap (h_key h) (h_left h) (h_right h) (h_parent h) (h_color h) (h_root h).

(** [x->f] *)
Definition get (f : heap -> gmap Z Z) (h : heap) (x : Z) : outcome Z := load_at (f h) x.

(** [x->f = v] *)
Definition set_key (h : heap) (x v : Z) : outcome heap := m ← store_at (h_key h) x v; Ok (h <| h_key := m |>).
Definition set_left (h : heap) (x v : Z) : outcome heap := m ← store_at (h_left h) x v; Ok (h <| h_left := m |>).
Definition set_right (h : heap) (x v : Z) : outcome heap := m ← store_at (h_right h) x v; Ok (h <| h_right := m |>).
Definition set_parent (h : heap) (x v : Z) : outcome heap := m ← store_at (h_parent h) x v; Ok (h <| h_parent := m |>).
Definition set_color (h : heap) (x v : Z) : outcome heap := m ← store_at (h_color h) x v; Ok (h <| h_color := m |>).

Definition ngx_rbt_red (h : heap) (x : Z) : outcome heap := set_color h x 1.
Definition ngx_rbt_black (h : heap) (x : Z) : outcome heap := set_color h x 0.
Definition ngx_rbt_is_red (h : heap) (x : Z) : outcome bool := c ← get h_color h x; Ok (negb (c =? 0)).
Definition ngx_rbt_is_black (h : heap) (x : Z) : outcome bool := b ← ngx_rbt_is_red h x; Ok (negb b).
Definition ngx_rbt_copy_color (h : heap) (n1 n2 : Z) : outcome heap := c ← get h_color h n2; set_color h n1 c.

(** [x->parent->parent] *)
Definition grandparent (h : heap) (x : Z) : outcome Z := p ← get h_parent h x; get h_parent h p.

(** More steps than a loop can make: it goes up or down a tree of the nodes. *)
Definition steps (h : heap) : nat := S (size (h_key h)).

Section tree.
Context (sentinel : Z).

(** ngx_rbtree_init, but for [tree->insert], which is an argument below. *)
Definition ngx_rbtree_init (h : heap) : outcome heap :=
  h ← ngx_rbt_black h sentinel; Ok (h <| h_root := sentinel |>).

Fixpoint rbtree_min_loop (fuel : nat) (h : heap) (node : Z) : outcome Z :=
  match fuel with
  | O => NoFuel
  | S fuel' =>
      l ← get h_left h node;
      if negb (l =? sentinel) then rbtree_min_loop fuel' h l else Ok node
  end.
Definition ngx_rbtree_min (h : heap) (node : Z) : outcome Z := rbtree_min_loop (steps h) h node.

Definition ngx_rbtree_left_rotate (h : heap) (node : Z) : outcome heap :=
  temp ← get h_right h node;
  l ← get h_left h temp; h ← set_right h node l;
  l ← get h_left h temp;
  h ← (if negb (l =? sentinel) then set_parent h l node else Ok h);
  p ← get h_parent h node; h ← set_parent h temp p;
  h ← (if node =? h_root h then Ok (h <| h_root := temp |>)
       else
         p ← get h_parent h node; l ← get h_left h p;
         if node =? l then set_left h p temp else set_right h p temp);
  h ← set_left h temp node;
  set_parent h node temp.

Definition ngx_rbtree_right_rotate (h : heap) (node : Z) : outcome heap :=
  temp ← get h_left h node;
  r ← get h_right h temp; h ← set_left h node r;
  r ← get h_right h temp;
  h ← (if negb (r =? sentinel) then set_parent h r node else Ok h);
  p ← get h_parent h node; h ← set_parent h temp p;
  h ← (if node =? h_root h then Ok (h <| h_root := temp |>)
       else
         p ← get h_parent h node; r ← get h_right h p;
         if node =? r then set_right h p temp else set_left h p temp);
  h ← set_right h temp node;
  set_parent h node temp.

(** ** Insertion *)

(** The body of the loop of ngx_rbtree_insert: the memory and the new [node]. *)
Definition insert_fix_step (h : heap) (node : Z) : outcome (heap * Z) :=
  p ← get h_parent h node; g ← grandparent h node; l ← get h_left h g;
  if p =? l then
    g ← grandparent h node; temp ← get h_right h g;
    red ← ngx_rbt_is_red h temp;
    if (red : bool) then
      p ← get h_parent h node; h ← ngx_rbt_black h p;
      h ← ngx_rbt_black h temp;
      g ← grandparent h node; h ← ngx_rbt_red h g;
      g ← grandparent h node; Ok (h, g)
    else
      p ← get h_parent h node; r ← get h_right h p;
      '(h, node) ← (if node =? r then
        p ← get h_parent h node; h ← ngx_rbtree_left_rotate h p; Ok (h, p)
      else Ok (h, node));
      p ← get h_parent h node; h ← ngx_rbt_black h p;
      g ← grandparent h node; h ← ngx_rbt_red h g;
      g ← grandparent h node; h ← ngx_rbtree_right_rotate h g; Ok (h, node)
  else
    g ← grandparent h node; temp ← get h_left h g;
    red ← ngx_rbt_is_red h temp;
    if (red : bool) then
      p ← get h_parent h node; h ← ngx_rbt_black h p;
      h ← ngx_rbt_black h temp;
      g ← grandparent h node; h ← ngx_rbt_red h g;
      g ← grandparent h node; Ok (h, g)
    else
      p ← get h_parent h node; l ← get h_left h p;
      '(h, node) ← (if node =? l then
        p ← get h_parent h node; h ← ngx_rbtree_right_rotate h p; Ok (h, p)
      else Ok (h, node));
      p ← get h_parent h node; h ← ngx_rbt_black h p;
      g ← grandparent h node; h ← ngx_rbt_red h g;
      g ← grandparent h node; h ← ngx_rbtree_left_rotate h g; Ok (h, node).

Fixpoint insert_fix (fuel : nat) (h : heap) (node : Z) : outcome heap :=
  match fuel with
  | O => NoFuel
  | S fuel' =>
      continue ← (if negb (node =? h_root h) then p ← get h_parent h node; ngx_rbt_is_red h p
                  else Ok false);
      if (continue : bool) then '(h, node) ← insert_fix_step h node; insert_fix fuel' h node
      else Ok h
  end.

(** [insert] is [tree->insert]. *)
Definition ngx_rbtree_insert (insert : heap -> Z -> Z -> outcome heap) (h : heap) (node : Z) : outcome heap :=
  if h_root h =? sentinel then
    h ← set_parent h node NULL; h ← set_left h node sentinel; h ← set_right h node sentinel;
    h ← ngx_rbt_black h node;
    Ok (h <| h_root := node |>)
  else
    h ← insert h (h_root h) node;
    h ← insert_fix (steps h) h node;
    ngx_rbt_black h (h_root h).

(** The two functions for [tree->insert] have the same loop with their own test:
    [before h node temp] is the test that goes to the left. *)
Fixpoint insert_loop (before : heap -> Z -> Z -> outcome bool) (fuel : nat) (h : heap) (temp node : Z)
  : outcome heap :=
  match fuel with
  | O => NoFuel
  | S fuel' =>
      b ← before h node temp;
      p ← get (if (b : bool) then h_left else h_right) h temp;
      if p =? sentinel then
        h ← (if b : bool then set_left h temp node else set_right h temp node);
        h ← set_parent h node temp;
        h ← set_left h node sentinel;
        h ← set_right h node sentinel;
        ngx_rbt_red h node
      else insert_loop before fuel' h p node
  end.

Definition key_before (h : heap) (node temp : Z) : outcome bool :=
  k ← get h_key h node; t ← get h_key h temp; Ok (k <? t).
Definition timer_before (h : heap) (node temp : Z) : outcome bool :=
  k ← get h_key h node; t ← get h_key h temp; Ok (to_i64 (to_u64 (k - t)) <? 0).

Definition ngx_rbtree_insert_value (h : heap) (temp node : Z) : outcome heap :=
  insert_loop key_before (steps h) h temp node.
Definition ngx_rbtree_insert_timer_value (h : heap) (temp node : Z) : outcome heap :=
  insert_loop timer_before (steps h) h temp node.

(** ** Deletion *)

(** The body of the loop of the fixup: the memory and the new [temp]. *)
Definition delete_fix_step (h : heap) (temp : Z) : outcome (heap * Z) :=
  p ← get h_parent h temp; l ← get h_left h p;
  if temp =? l then
    p ← get h_parent h temp; w ← get h_right h p;
    red ← ngx_rbt_is_red h w;
    '(h, w) ← (if (red : bool) then
      h ← ngx_rbt_black h w;
      p ← get h_parent h temp; h ← ngx_rbt_red h p;
      p ← get h_parent h temp; h ← ngx_rbtree_left_rotate h p;
      p ← get h_parent h temp; w ← get h_right h p; Ok (h, w)
    else Ok (h, w));
    l ← get h_left h w; bl ← ngx_rbt_is_black h l;
    both ← (if (bl : bool) then r ← get h_right h w; ngx_rbt_is_black h r else Ok false);
    if (both : bool) then
      h ← ngx_rbt_red h w; p ← get h_parent h temp; Ok (h, p)
    else
      r ← get h_right h w; br ← ngx_rbt_is_black h r;
      '(h, w) ← (if (br : bool) then
        l ← get h_left h w; h ← ngx_rbt_black h l;
        h ← ngx_rbt_red h w;
        h ← ngx_rbtree_right_rotate h w;
        p ← get h_parent h temp; w ← get h_right h p; Ok (h, w)
      else Ok (h, w));
      p ← get h_parent h temp; h ← ngx_rbt_copy_color h w p;
      p ← get h_parent h temp; h ← ngx_rbt_black h p;
      r ← get h_right h w; h ← ngx_rbt_black h r;
      p ← get h_parent h temp; h ← ngx_rbtree_left_rotate h p;
      Ok (h, h_root h)
  else
    p ← get h_parent h temp; w ← get h_left h p;
    red ← ngx_rbt_is_red h w;
    '(h, w) ← (if (red : bool) then
      h ← ngx_rbt_black h w;
      p ← get h_parent h temp; h ← ngx_rbt_red h p;
      p ← get h_parent h temp; h ← ngx_rbtree_right_rotate h p;
      p ← get h_parent h temp; w ← get h_left h p; Ok (h, w)
    else Ok (h, w));
    l ← get h_left h w; bl ← ngx_rbt_is_black h l;
    both ← (if (bl : bool) then r ← get h_right h w; ngx_rbt_is_black h r else Ok false);
    if (both : bool) then
      h ← ngx_rbt_red h w; p ← get h_parent h temp; Ok (h, p)
    else
      l ← get h_left h w; bl ← ngx_rbt_is_black h l;
      '(h, w) ← (if (bl : bool) then
        r ← get h_right h w; h ← ngx_rbt_black h r;
        h ← ngx_rbt_red h w;
        h ← ngx_rbtree_left_rotate h w;
        p ← get h_parent h temp; w ← get h_left h p; Ok (h, w)
      else Ok (h, w));
      p ← get h_parent h temp; h ← ngx_rbt_copy_color h w p;
      p ← get h_parent h temp; h ← ngx_rbt_black h p;
      l ← get h_left h w; h ← ngx_rbt_black h l;
      p ← get h_parent h temp; h ← ngx_rbtree_right_rotate h p;
      Ok (h, h_root h).

Fixpoint delete_fix (fuel : nat) (h : heap) (temp : Z) : outcome heap :=
  match fuel with
  | O => NoFuel
  | S fuel' =>
      continue ← (if negb (temp =? h_root h) then ngx_rbt_is_black h temp else Ok false);
      if (continue : bool) then '(h, temp) ← delete_fix_step h temp; delete_fix fuel' h temp
      else ngx_rbt_black h temp
  end.

(** "DEBUG stuff" *)
Definition clear_node (h : heap) (node : Z) : outcome heap :=
  h ← set_left h node NULL; h ← set_right h node NULL; h ← set_parent h node NULL; set_key h node 0.

(** The node that is taken out of its place, and its child that moves up. *)
Definition delete_subst (h : heap) (node : Z) : outcome (Z * Z) :=
  l ← get h_left h node; r ← get h_right h node;
  if l =? sentinel then Ok (node, r)
  else if r =? sentinel then Ok (node, l)
  else
    subst ← ngx_rbtree_min h r;
    l ← get h_left h subst;
    temp ← (if negb (l =? sentinel) then get h_left h subst else get h_right h subst);
    Ok (subst, temp).

(** [subst] takes the place of [node]. *)
Definition delete_replace (h : heap) (node subst : Z) : outcome heap :=
  l ← get h_left h node; h ← set_left h subst l;
  r ← get h_right h node; h ← set_right h subst r;
  p ← get h_parent h node; h ← set_parent h subst p;
  h ← ngx_rbt_copy_color h subst node;
  h ← (if node =? h_root h then Ok (h <| h_root := subst |>)
       else
         p ← get h_parent h node; l ← get h_left h p;
         if node =? l then set_left h p subst else set_right h p subst);
  l ← get h_left h subst;
  h ← (if negb (l =? sentinel) then set_parent h l subst else Ok h);
  r ← get h_right h subst;
  if negb (r =? sentinel) then set_parent h r subst else Ok h.

Definition ngx_rbtree_delete (h : heap) (node : Z) : outcome heap :=
  '(subst, temp) ← delete_subst h node;
  if subst =? h_root h then
    h ← ngx_rbt_black (h <| h_root := temp |>) temp;
    clear_node h node
  else
    red ← ngx_rbt_is_red h subst;
    p ← get h_parent h subst; l ← get h_left h p;
    h ← (if subst =? l then set_left h p temp else set_right h p temp);
    h ← (if subst =? node then p ← get h_parent h subst; set_parent h temp p
         else
           p ← get h_parent h subst;
           h ← (if p =? node then set_parent h temp subst else set_parent h temp p);
           delete_replace h node subst);
    h ← clear_node h node;
    if (red : bool) then Ok h else delete_fix (steps h) h temp.

(** ** Traversal *)

Fixpoint next_loop (fuel : nat) (h : heap) (node : Z) : outcome Z :=
  match fuel with
  | O => NoFuel
  | S fuel' =>
      parent ← get h_parent h node;
      if node =? h_root h then Ok NULL
      else
        l ← get h_left h parent;
        if node =? l then Ok parent else next_loop fuel' h parent
  end.

Definition ngx_rbtree_next (h : heap) (node : Z) : outcome Z :=
  r ← get h_right h node;
  if negb (r =? sentinel) then ngx_rbtree_min h r else next_loop (steps h) h node.

End tree.

(** ** An example *)

(** A memory with nodes at the addresses [1 .. n] and the keys given, and the
    sentinel [s]. *)
Definition fresh_heap (s : Z) (keys : list Z) : heap :=
  let nodes := s :: seqZ 1 (Z.of_nat (length keys)) in
  let zero := list_to_map ((fun x => (x, 0)) <$> nodes) : gmap Z Z in
  mk_heap (list_to_map (zip (seqZ 1 (Z.of_nat (length keys))) keys) ∪ zero) zero zero zero zero s.

Fixpoint run_inserts (s : Z) (h : heap) (nodes : list Z) : outcome heap :=
  match nodes with
  | [] => Ok h
  | x :: nodes => h ← ngx_rbtree_insert s (ngx_rbtree_insert_value s) h x; run_inserts s h nodes
  end.

(** The nodes from [x] on. *)
Fixpoint walk (s : Z) (fuel : nat) (h : heap) (x : Z) : outcome (list Z) :=
  match fuel with
  | O => NoFuel
  | S fuel' => if x =? NULL then Ok [] else y ← ngx_rbtree_next s h x; l ← walk s fuel' h y; Ok (x :: l)
  end.

Example insert_walk :
  (h ← ngx_rbtree_init 99 (fresh_heap 99 [5; 2; 8; 2; 9; 1; 7; 3]);
   h ← run_inserts 99 h (seqZ 1 8);
   x ← ngx_rbtree_min 99 h (h_root h); l ← walk 99 9 h x;
   h ← ngx_rbtree_delete 99 h 1; h ← ngx_rbtree_delete 99 h 6;
   x ← ngx_rbtree_min 99 h (h_root h); l' ← walk 99 9 h x;
   Ok (h_root h, l, l')) = Ok (7, [6; 2; 4; 8; 1; 7; 3; 5], [2; 4; 8; 7; 3; 5]).
Proof. vm_compute. reflexivity. Qed.
