(* ===== verification/RbTreeShape.v ===== *)
(** Component "red-black tree", continued: the trees that a memory holds, trees
    with a focus, and what reading, colouring and rotating do to them. *)

From stdpp Require Import base numbers list option gmap.
From Stdlib Require Import ZArith Lia.
From S2P Require Import Prelude RbTree.
Local Open Scope Z_scope.

(** * Trees *)

Inductive color : Type := Red | Black.
Inductive tree : Type := E | T (c : color) (l : tree) (x : Z) (r : tree).

#[export] Instance color_eq_dec : EqDecision color.
Proof. solve_decision. Defined.

Definition color_z (c : color) : Z := match c with Red => 1 | Black => 0 end.
Definition root_color (t : tree) : color := match t with E => Black | T c _ _ _ => c end.
Definition paint (c : color) (t : tree) : tree := match t with E => E | T _ l x r => T c l x r end.

(** The nodes, from left to right. *)
Fixpoint inorder (t : tree) : list Z :=
  match t with E => [] | T _ l x r => inorder l ++ x :: inorder r end.

Lemma paint_inorder c t : inorder (paint c t) = inorder t.
Proof. by destruct t. Qed.

(** The two sides: the code has each case twice, as mirror images. *)
Inductive dir : Type := L | R.
#[export] Instance dir_eq_dec : EqDecision dir.
Proof. solve_decision. Defined.
Definition opp (d : dir) : dir := match d with L => R | R => L end.

(** A node with the subtree [a] at the side [d] and [b] at the other side. *)
Definition node (d : dir) (c : color) (a : tree) (x : Z) (b : tree) : tree :=
  match d with L => T c a x b | R => T c b x a end.

Lemma node_opp d c a x b : node (opp d) c a x b = node d c b x a.
Proof. by destruct d. Qed.

(** ** Trees with a focus *)

Record frame : Type := mk_frame { f_dir : dir; f_color : color; f_node : Z; f_sib : tree }.
Abbreviation ctx := (list frame).

Definition fill (f : frame) (t : tree) : tree := node (f_dir f) (f_color f) t (f_node f) (f_sib f).
Fixpoint plug (C : ctx) (t : tree) : tree :=
  match C with [] => t | f :: C => plug C (fill f t) end.

Definition ctx_parent (C : ctx) : option Z := match C with [] => None | f :: _ => Some (f_node f) end.

Lemma plug_app C1 C2 t : plug (C1 ++ C2) t = plug C2 (plug C1 t).
Proof. revert t. induction C1 as [|f C1 IH]; intros t; [done|]. apply IH. Qed.

(** What is to the left and to the right of the focus. *)
Fixpoint before (C : ctx) : list Z :=
  match C with
  | [] => []
  | mk_frame L _ _ _ :: C => before C
  | mk_frame R _ x b :: C => before C ++ inorder b ++ [x]
  end.
Fixpoint after (C : ctx) : list Z :=
  match C with
  | [] => []
  | mk_frame L _ x b :: C => x :: inorder b ++ after C
  | mk_frame R _ _ _ :: C => after C
  end.

Lemma inorder_plug C t : inorder (plug C t) = before C ++ inorder t ++ after C.
Proof.
  revert t. induction C as [|[d c x b] C IH]; intros t; cbn [plug before after]; [by rewrite app_nil_r|].
  rewrite IH. destruct d; cbn; [by rewrite <- !app_assoc|].
  rewrite <- !app_assoc. done.
Qed.

Definition around (C : ctx) : list Z := before C ++ after C.

Lemma nodes_plug C t : inorder (plug C t) ≡ₚ around C ++ inorder t.
Proof. rewrite inorder_plug. unfold around. rewrite (Permutation_app_comm (inorder t)). by rewrite app_assoc. Qed.

Lemma nodes_node d c a x b : inorder (node d c a x b) ≡ₚ x :: inorder a ++ inorder b.
Proof. destruct d; cbn; [by rewrite Permutation_middle|]. rewrite <- Permutation_middle. by rewrite (Permutation_app_comm (inorder a)). Qed.

Lemma around_frame f C : around (f :: C) ≡ₚ f_node f :: inorder (f_sib f) ++ around C.
Proof.
  unfold around. destruct f as [[] c x b]; cbn.
  - rewrite <- Permutation_middle. constructor. rewrite !app_assoc. by rewrite (Permutation_app_comm (before C)).
  - rewrite <- !app_assoc. cbn. rewrite (Permutation_app_comm (before C)). rewrite <- !app_assoc. cbn.
    rewrite <- Permutation_middle. constructor. f_equiv. by rewrite Permutation_app_comm.
Qed.

(** * The tree of a memory *)

(** The member of a side, and its assignment. *)
Definition child (d : dir) : heap -> gmap Z Z := match d with L => h_left | R => h_right end.
Definition set_child (d : dir) : heap -> Z -> Z -> outcome heap :=
  match d with L => set_left | R => set_right end.

Section shape.
Context (s : Z).

Definition ptr (t : tree) : Z := match t with E => s | T _ _ x _ => x end.

(** The parent of the root is not specified: ngx_rbtree_delete leaves it as it is. *)
Definition has_parent (h : heap) (par : option Z) (x : Z) : Prop :=
  match par with Some p => h_parent h !! x = Some p | None => is_Some (h_parent h !! x) end.

Record cell (h : heap) (par : option Z) (c : color) (l x r : Z) : Prop := {
  cell_left : h_left h !! x = Some l;
  cell_right : h_right h !! x = Some r;
  cell_parent : has_parent h par x;
  cell_color : h_color h !! x = Some (color_z c);
  cell_key : is_Some (h_key h !! x)
}.

Fixpoint rep (h : heap) (par : option Z) (t : tree) : Prop :=
  match t with
  | E => True
  | T c l x r => cell h par c (ptr l) x (ptr r) /\ rep h (Some x) l /\ rep h (Some x) r
  end.

(** A context whose focus is at the address [p]. *)
Fixpoint rep_ctx (h : heap) (C : ctx) (p : Z) : Prop :=
  match C with
  | [] => True
  | mk_frame d c x b :: C =>
      cell h (ctx_parent C) c (match d with L => p | R => ptr b end) x (match d with L => ptr b | R => p end) /\
      rep h (Some x) b /\ rep_ctx h C x
  end.

Lemma ptr_fill f t : ptr (fill f t) = f_node f.
Proof. by destruct f as [[] ? ? ?]. Qed.

Lemma rep_plug h C t :
  rep h None (plug C t) <-> rep h (ctx_parent C) t /\ rep_ctx h C (ptr t).
Proof.
  revert t. induction C as [|f C IH]; intros t; cbn [plug rep_ctx ctx_parent]; [tauto|].
  rewrite IH, ptr_fill. destruct f as [d c x b]. destruct d; cbn; tauto.
Qed.

Lemma ptr_plug_same C t t' : ptr t = ptr t' -> ptr (plug C t) = ptr (plug C t').
Proof. revert t t'. induction C as [|f C IH]; intros t t' E; [done|]. apply IH. by rewrite !ptr_fill. Qed.

(** The memory holds the tree [t]. *)
Record holds_tree (h : heap) (t : tree) : Prop := {
  ht_rep : rep h None t;
  ht_nodup : NoDup (inorder t);
  ht_sentinel : s ∉ inorder t;
  ht_root : h_root h = ptr t;
  ht_black : h_color h !! s = Some 0;
  ht_parent : is_Some (h_parent h !! s)
}.

(** ** Reading *)

Section read.
Context (h : heap) (C : ctx) (c : color) (l : tree) (x : Z) (r : tree).
Context (H : holds_tree h (plug C (T c l x r))).

Lemma focus_cell : cell h (ctx_parent C) c (ptr l) x (ptr r).
Proof using H. destruct H as [Hr _ _ _ _ _]. apply rep_plug in Hr as [[Hc _] _]. done. Qed.

Lemma read_left : get h_left h x = Ok (ptr l).
Proof using H. unfold get, load_at. by rewrite (cell_left _ _ _ _ _ _ focus_cell). Qed.
Lemma read_right : get h_right h x = Ok (ptr r).
Proof using H. unfold get, load_at. by rewrite (cell_right _ _ _ _ _ _ focus_cell). Qed.
Lemma read_color : get h_color h x = Ok (color_z c).
Proof using H. unfold get, load_at. by rewrite (cell_color _ _ _ _ _ _ focus_cell). Qed.
Lemma read_parent p : ctx_parent C = Some p -> get h_parent h x = Ok p.
Proof using H.
  intros E. pose proof (cell_parent _ _ _ _ _ _ focus_cell) as Hp. rewrite E in Hp. cbn in Hp.
  unfold get, load_at. by rewrite Hp.
Qed.
End read.

(** Reading in a node of a side. *)
Lemma read_child h C d c a x b :
  holds_tree h (plug C (node d c a x b)) ->
  get (child d) h x = Ok (ptr a) /\ get (child (opp d)) h x = Ok (ptr b).
Proof. destruct d; intros H; split; by eauto using read_left, read_right. Qed.

Lemma read_node_color h C d c a x b :
  holds_tree h (plug C (node d c a x b)) -> get h_color h x = Ok (color_z c).
Proof. destruct d; intros H; by eapply read_color. Qed.

Lemma read_node_parent h C d c a x b p :
  holds_tree h (plug C (node d c a x b)) -> ctx_parent C = Some p -> get h_parent h x = Ok p.
Proof. destruct d; intros H; by eapply read_parent. Qed.

Lemma is_red_focus h C t :
  holds_tree h (plug C t) -> ngx_rbt_is_red h (ptr t) = Ok (bool_decide (root_color t = Red)).
Proof.
  intros H. unfold ngx_rbt_is_red. destruct t as [|c l x r]; cbn [ptr root_color].
  - unfold get, load_at. rewrite (ht_black _ _ H). reflexivity.
  - rewrite (read_color _ _ _ _ _ _ H). by destruct c.
Qed.

Lemma is_black_focus h C t :
  holds_tree h (plug C t) -> ngx_rbt_is_black h (ptr t) = Ok (bool_decide (root_color t = Black)).
Proof.
  intros H. unfold ngx_rbt_is_black. rewrite (is_red_focus h C t H).
  cbn [mbind outcome_bind]. destruct (root_color t); reflexivity.
Qed.

(** ** Addresses *)

(** Everything around the focus is elsewhere. *)
Lemma focus_nodup h C t :
  holds_tree h (plug C t) ->
  NoDup (inorder t) /\ (forall z, z ∈ inorder t -> z ∉ around C) /\ NoDup (around C) /\
  (s ∉ inorder t) /\ (s ∉ around C).
Proof.
  intros H. pose proof (ht_nodup _ _ H) as Hn. pose proof (ht_sentinel _ _ H) as Hs.
  rewrite nodes_plug in Hn, Hs. apply NoDup_app in Hn as (H1 & H2 & H3). split_and!; try done; set_solver.
Qed.

Lemma ptr_in t : t <> E -> ptr t ∈ inorder t.
Proof. destruct t; [done|]. intros _. cbn. set_solver. Qed.

Lemma ptr_cases t : t = E /\ ptr t = s \/ ptr t ∈ inorder t.
Proof. destruct t; [by left|]. right. by apply ptr_in. Qed.

Lemma root_in_ctx C t : C <> [] -> ptr (plug C t) ∈ around C.
Proof.
  revert t. induction C as [|f C IH]; intros t Hne; [done|]. cbn [plug]. rewrite around_frame.
  destruct C as [|g C]; [cbn [plug]; rewrite ptr_fill; set_solver|].
  specialize (IH (fill f t) ltac:(done)). set_solver.
Qed.

(** ** Framing *)

(** The node [z] is the same in both memories. *)
Record same_at (h h' : heap) (z : Z) : Prop := {
  same_left : h_left h' !! z = h_left h !! z;
  same_right : h_right h' !! z = h_right h !! z;
  same_parent : h_parent h' !! z = h_parent h !! z;
  same_color : h_color h' !! z = h_color h !! z;
  same_key : h_key h' !! z = h_key h !! z
}.

Lemma same_refl h z : same_at h h z.
Proof. done. Qed.

Lemma same_trans h1 h2 h3 z : same_at h1 h2 z -> same_at h2 h3 z -> same_at h1 h3 z.
Proof. intros [] []. split; by etransitivity. Qed.

Lemma same_child h h' z d : same_at h h' z -> child d h' !! z = child d h !! z.
Proof. intros []. by destruct d. Qed.

Lemma cell_same h h' par c l x r : same_at h h' x -> cell h par c l x r -> cell h' par c l x r.
Proof.
  intros [Hl Hr Hp Hc Hk] []. split; try congruence. destruct par; cbn in *; congruence.
Qed.

Lemma rep_frame h h' par t : (forall z, z ∈ inorder t -> same_at h h' z) -> rep h par t -> rep h' par t.
Proof.
  revert par. induction t as [|c l IHl x r IHr]; intros par Hs; [done|]. cbn [rep inorder] in *.
  intros (Hc & Hl & Hr). split; [apply (cell_same h); [apply Hs; set_solver|done]|].
  split; [apply IHl|apply IHr]; try done; intros z Hz; apply Hs; set_solver.
Qed.

(** A tree that is the same but for the parent of its root. *)
Lemma rep_moved h h' par par' t :
  NoDup (inorder t) -> (forall z, z ∈ inorder t -> z <> ptr t -> same_at h h' z) ->
  (t <> E -> h_left h' !! ptr t = h_left h !! ptr t /\ h_right h' !! ptr t = h_right h !! ptr t /\
    h_color h' !! ptr t = h_color h !! ptr t /\ h_key h' !! ptr t = h_key h !! ptr t /\ has_parent h' par' (ptr t)) ->
  rep h par t -> rep h' par' t.
Proof.
  destruct t as [|c l x r]; [done|]. cbn [rep inorder ptr]. intros Hn Hs Hx ([] & Hl & Hr).
  destruct (Hx ltac:(done)) as (H1 & H2 & H3 & H4 & H5).
  apply NoDup_app in Hn as (N1 & N2 & N3). apply NoDup_cons in N3 as [N3 N4].
  split; [split; congruence|]. split; (eapply rep_frame; [|done]); intros z Hz; apply Hs; try set_solver.
Qed.

Lemma rep_ctx_frame h h' C p : (forall z, z ∈ around C -> same_at h h' z) -> rep_ctx h C p -> rep_ctx h' C p.
Proof.
  revert p. induction C as [|f C IH]; intros p Hs; [done|]. setoid_rewrite around_frame in Hs.
  destruct f as [d c x b]. cbn [rep_ctx f_node f_sib] in *. intros (Hc & Hb & HC).
  split; [apply (cell_same h); [apply Hs; set_solver|done]|].
  split; [eapply rep_frame; [|done]|apply IH; [|done]]; intros z Hz; apply Hs; set_solver.
Qed.

(** ** Writing *)

Definition upd_child (d : dir) (h : heap) (x v : Z) : heap :=
  match d with
  | L => h <| h_left := <[x := v]> (h_left h) |>
  | R => h <| h_right := <[x := v]> (h_right h) |>
  end.
Definition upd_parent (h : heap) (x v : Z) : heap := h <| h_parent := <[x := v]> (h_parent h) |>.
Definition upd_color (h : heap) (x v : Z) : heap := h <| h_color := <[x := v]> (h_color h) |>.

Lemma get_ok f h x v : f h !! x = Some v -> get f h x = Ok v.
Proof. intros E. unfold get, load_at. by rewrite E. Qed.

Lemma set_child_ok d h x u v : child d h !! x = Some u -> set_child d h x v = Ok (upd_child d h x v).
Proof. intros E. destruct d; cbn in *; unfold set_left, set_right; by rewrite (store_at_ok _ _ u). Qed.
Lemma set_parent_ok h x u v : h_parent h !! x = Some u -> set_parent h x v = Ok (upd_parent h x v).
Proof. intros E. unfold set_parent. by rewrite (store_at_ok _ _ u). Qed.
Lemma set_color_ok h x u v : h_color h !! x = Some u -> set_color h x v = Ok (upd_color h x v).
Proof. intros E. unfold set_color. by rewrite (store_at_ok _ _ u). Qed.

Lemma same_upd_child d h x v z : z <> x -> same_at h (upd_child d h x v) z.
Proof. intros Hz. destruct d; split; cbn; by rewrite ?lookup_insert_ne. Qed.
Lemma same_upd_parent h x v z : z <> x -> same_at h (upd_parent h x v) z.
Proof. intros Hz. split; cbn; by rewrite ?lookup_insert_ne. Qed.
Lemma same_upd_color h x v z : z <> x -> same_at h (upd_color h x v) z.
Proof. intros Hz. split; cbn; by rewrite ?lookup_insert_ne. Qed.

Lemma child_upd_eq d h x v : child d (upd_child d h x v) !! x = Some v.
Proof. destruct d; cbn; by rewrite lookup_insert_eq. Qed.
Lemma child_upd_ne d h x v z : z <> x -> child d (upd_child d h x v) !! z = child d h !! z.
Proof. intros Hz. destruct d; cbn; by rewrite lookup_insert_ne. Qed.
Lemma child_upd_opp d h x v : child (opp d) (upd_child d h x v) = child (opp d) h.
Proof. by destruct d. Qed.
Lemma child_opp_upd d h x v : child d (upd_child (opp d) h x v) = child d h.
Proof. by destruct d. Qed.
Lemma child_upd_parent d h x v : child d (upd_parent h x v) = child d h.
Proof. by destruct d. Qed.
Lemma parent_upd_child d h x v : h_parent (upd_child d h x v) = h_parent h.
Proof. by destruct d. Qed.
Lemma parent_upd_eq h x v : h_parent (upd_parent h x v) !! x = Some v.
Proof. cbn. by rewrite lookup_insert_eq. Qed.
Lemma parent_upd_ne h x v z : z <> x -> h_parent (upd_parent h x v) !! z = h_parent h !! z.
Proof. intros Hz. cbn. by rewrite lookup_insert_ne. Qed.
Lemma color_upd_child d h x v : h_color (upd_child d h x v) = h_color h.
Proof. by destruct d. Qed.
Lemma key_upd_child d h x v : h_key (upd_child d h x v) = h_key h.
Proof. by destruct d. Qed.
Lemma root_upd_child d h x v : h_root (upd_child d h x v) = h_root h.
Proof. by destruct d. Qed.

(** ** The link from above *)

(** What the rotations do to the parent of the node that goes down. *)
Definition relink (d : dir) (h : heap) (x y : Z) : outcome heap :=
  if x =? h_root h then Ok (h <| h_root := y |>)
  else
    p ← get h_parent h x; l ← get (child d) h p;
    if x =? l then set_child d h p y else set_child (opp d) h p y.

Record relinked (C : ctx) (h h' : heap) (y : Z) : Prop := {
  rl_ctx : rep_ctx h' C y;
  rl_same : forall z, z ∉ around C -> same_at h h' z;
  rl_parent : h_parent h' = h_parent h;
  rl_color : h_color h' = h_color h;
  rl_key : h_key h' = h_key h;
  rl_root : h_root h' = match C with [] => y | _ => h_root h end
}.

(** The cell of a frame, by the side of the focus. *)
Lemma cell_child d h par c l x r :
  cell h par c l x r -> child d h !! x = Some (match d with L => l | R => r end) /\
    child (opp d) h !! x = Some (match d with L => r | R => l end).
Proof. intros []. by destruct d. Qed.

(** Setting the link to the focus. *)
Lemma set_focus_link d c x b C h p y :
  rep_ctx h (mk_frame d c x b :: C) p -> NoDup (around (mk_frame d c x b :: C)) ->
  relinked (mk_frame d c x b :: C) h (upd_child d h x y) y.
Proof.
  cbn [rep_ctx]. intros ([] & Hb & HC) Hn. rewrite around_frame in Hn. cbn [f_node f_sib] in Hn.
  apply NoDup_cons in Hn as [Hx Hn]. split.
  - cbn [rep_ctx]. split; [|split].
    + destruct d; split; cbn; rewrite ?lookup_insert_eq; try done; destruct (ctx_parent C); done.
    + eapply rep_frame; [|done]. intros z Hz. apply same_upd_child. intros ->. set_solver.
    + eapply rep_ctx_frame; [|done]. intros z Hz. apply same_upd_child. intros ->. set_solver.
  - intros z Hz. rewrite around_frame in Hz. apply same_upd_child. cbn in Hz. set_solver.
  - apply parent_upd_child.
  - apply color_upd_child.
  - apply key_upd_child.
  - apply root_upd_child.
Qed.

Lemma relink_ok d h C x y :
  rep_ctx h C x -> NoDup (around C) -> x ∉ around C -> x <> s ->
  (if C is [] then h_root h = x else h_root h <> x) -> has_parent h (ctx_parent C) x ->
  exists h', relink d h x y = Ok h' /\ relinked C h h' y.
Proof.
  intros HC Hn Hx Hs Hroot Hp. unfold relink. destruct C as [|[df c p b] C]; cbn [ctx_parent has_parent f_node] in *.
  - rewrite Hroot, Z.eqb_refl. eexists. split; [done|]. split; try done.
  - rewrite (proj2 (Z.eqb_neq _ _)) by congruence. rewrite (get_ok _ _ _ _ Hp). cbn [mbind outcome_bind].
    assert (Hb : ptr b <> x).
    { rewrite around_frame in Hx. cbn in Hx. destruct (ptr_cases b) as [[_ ->]|Hin]; set_solver. }
    pose proof (proj1 HC) as Hcell. destruct (cell_child d _ _ _ _ _ _ Hcell) as [E1 E2].
    rewrite (get_ok _ _ _ _ E1). cbn [mbind outcome_bind].
    exists (upd_child df h p y). split; [|by apply (set_focus_link df c p b C h x)].
    destruct d, df; cbn [opp] in *; first
      [ rewrite Z.eqb_refl; by eapply set_child_ok
      | rewrite (proj2 (Z.eqb_neq _ _)) by congruence; by eapply set_child_ok ].
Qed.

(** ** Nodes by side *)

Definition ncell (d : dir) (h : heap) (par : option Z) (c : color) (p x q : Z) : Prop :=
  cell h par c (match d with L => p | R => q end) x (match d with L => q | R => p end).

Lemma ncell_intro d h par c p x q :
  child d h !! x = Some p -> child (opp d) h !! x = Some q -> has_parent h par x ->
  h_color h !! x = Some (color_z c) -> is_Some (h_key h !! x) -> ncell d h par c p x q.
Proof. intros. by destruct d; split. Qed.

Lemma ncell_elim d h par c p x q :
  ncell d h par c p x q -> child d h !! x = Some p /\ child (opp d) h !! x = Some q.
Proof. intros Hc. by apply (cell_child d) in Hc as [? ?]; destruct d. Qed.

Lemma rep_node d h par c a x b :
  rep h par (node d c a x b) <-> ncell d h par c (ptr a) x (ptr b) /\ rep h (Some x) a /\ rep h (Some x) b.
Proof. unfold ncell. destruct d; cbn; tauto. Qed.

Lemma ptr_node d c a x b : ptr (node d c a x b) = x.
Proof. by destruct d. Qed.

(** What an operation on a tree of the nodes [N] leaves alone. *)
Record keeps (N : list Z) (h h' : heap) : Prop := {
  kp_same : forall z, z ∉ N -> z <> s -> same_at h h' z;
  kp_key : h_key h' = h_key h;
  kp_sentinel : h_parent h' !! s = h_parent h !! s
}.

Lemma keeps_refl N h : keeps N h h.
Proof. done. Qed.

Lemma keeps_trans N N' h1 h2 h3 : N ≡ₚ N' -> keeps N h1 h2 -> keeps N' h2 h3 -> keeps N h1 h3.
Proof.
  intros HN [S1 K1 P1] [S2 K2 P2]. split; [|congruence..]. intros z Hz Hs.
  apply (same_trans _ h2); [by apply S1|]. apply S2; [by rewrite <- HN|done].
Qed.

Lemma keeps_perm N N' h h' : N ≡ₚ N' -> keeps N h h' -> keeps N' h h'.
Proof. intros HN [S1 K1 P1]. split; [|done..]. intros z Hz. apply S1. by rewrite HN. Qed.

(** ** Rotations *)

Definition rotate (d : dir) (h : heap) (x : Z) : outcome heap :=
  temp ← get (child (opp d)) h x;
  l ← get (child d) h temp; h ← set_child (opp d) h x l;
  l ← get (child d) h temp;
  h ← (if negb (l =? s) then set_parent h l x else Ok h);
  p ← get h_parent h x; h ← set_parent h temp p;
  h ← relink d h x temp;
  h ← set_child d h temp x;
  set_parent h x temp.

Lemma left_rotate_eq h x : ngx_rbtree_left_rotate s h x = rotate L h x.
Proof. reflexivity. Qed.
Lemma right_rotate_eq h x : ngx_rbtree_right_rotate s h x = rotate R h x.
Proof. reflexivity. Qed.

(** The parent of the subtree that changes sides. *)
Definition adopt (h : heap) (p x : Z) : heap := if negb (p =? s) then upd_parent h p x else h.

Lemma has_parent_some h par x : has_parent h par x -> is_Some (h_parent h !! x).
Proof. destruct par; [|done]. cbn. intros ->. by eexists. Qed.

Lemma adopt_ok h t x par :
  rep h par t -> (if negb (ptr t =? s) then set_parent h (ptr t) x else Ok h) = Ok (adopt h (ptr t) x).
Proof.
  intros Hr. unfold adopt. destruct (Z.eqb_spec (ptr t) s); [done|]. cbn [negb].
  destruct t as [|c l y r]; [done|]. cbn in *. destruct Hr as [[_ _ Hp _ _] _].
  apply has_parent_some in Hp as [u Hp]. by eapply set_parent_ok.
Qed.

Lemma same_adopt h p x z : z <> p -> same_at h (adopt h p x) z.
Proof. intros Hz. unfold adopt. destruct (negb _); [by apply same_upd_parent|done]. Qed.

Lemma adopt_fields h p x :
  h_left (adopt h p x) = h_left h /\ h_right (adopt h p x) = h_right h /\ h_color (adopt h p x) = h_color h /\
  h_key (adopt h p x) = h_key h /\ h_root (adopt h p x) = h_root h.
Proof. unfold adopt. by destruct (negb _). Qed.

Lemma adopt_sentinel h p x : h_parent (adopt h p x) !! s = h_parent h !! s.
Proof.
  unfold adopt. destruct (Z.eqb_spec p s) as [->|Hp]; [done|]. cbn [negb]. by rewrite parent_upd_ne by done.
Qed.

(** The subtree that changes sides gets its new parent. *)
Lemma rep_adopted h h' t x par :
  s ∉ inorder t -> NoDup (inorder t) -> rep h par t -> 
  (forall z, z ∈ inorder t -> same_at (adopt h (ptr t) x) h' z) -> rep h' (Some x) t.
Proof.
  intros Hs Hn Hr Hsame. eapply (rep_frame (adopt h (ptr t) x)); [done|].
  eapply rep_moved; [done| | |done].
  - intros z Hz Hne. by apply same_adopt.
  - intros Hne. destruct (adopt_fields h (ptr t) x) as (-> & -> & -> & -> & _). split_and!; try done.
    cbn. unfold adopt. rewrite (proj2 (Z.eqb_neq _ _)).
    + apply parent_upd_eq.
    + intros E. apply Hs. rewrite <- E. by apply ptr_in.
Qed.

(** Which addresses of a rotation differ. *)
Record rotate_apart (C : ctx) (a : tree) (x : Z) (b : tree) (y : Z) (e : tree) : Prop := {
  ra_xy : x <> y;
  ra_a : forall z, z ∈ inorder a -> z <> x /\ z <> y /\ z <> ptr b /\ (z ∉ around C);
  ra_b : forall z, z ∈ inorder b -> z <> x /\ z <> y /\ (z ∉ around C);
  ra_e : forall z, z ∈ inorder e -> z <> x /\ z <> y /\ z <> ptr b /\ (z ∉ around C);
  ra_C : forall z, z ∈ around C -> z <> x /\ z <> y /\ z <> ptr b;
  ra_s : s <> x /\ s <> y /\ (s ∉ inorder b) /\ (s ∉ around C);
  ra_ptr : ptr b <> x /\ ptr b <> y;
  ra_nb : NoDup (inorder b);
  ra_nC : NoDup (around C)
}.

Lemma rotate_nodes C d c1 a x c2 b y e :
  inorder (plug C (node d c1 a x (node d c2 b y e))) ≡ₚ inorder (plug C (node d c2 (node d c1 a x b) y e)).
Proof.
  rewrite !nodes_plug. f_equiv. destruct d; cbn; rewrite <- ?app_assoc; cbn; rewrite <- ?app_assoc; done.
Qed.

Lemma rotate_apart_ok h C d c1 a x c2 b y e :
  holds_tree h (plug C (node d c1 a x (node d c2 b y e))) -> rotate_apart C a x b y e.
Proof.
  intros H. pose proof (ht_nodup _ _ H) as Hn. pose proof (ht_sentinel _ _ H) as Hs. clear H.
  assert (HP : inorder (plug C (node d c1 a x (node d c2 b y e)))
    ≡ₚ x :: y :: inorder b ++ inorder a ++ inorder e ++ around C).
  { rewrite nodes_plug, !nodes_node. rewrite Permutation_app_comm. cbn. constructor.
    rewrite <- Permutation_middle. cbn. constructor. rewrite <- !app_assoc.
    rewrite (app_assoc (inorder a)), (Permutation_app_comm (inorder a)). by rewrite <- app_assoc. }
  rewrite HP in Hn, Hs. clear HP. apply NoDup_cons in Hn as [N1 Hn]. apply NoDup_cons in Hn as [N2 Hn].
  apply NoDup_app in Hn as (N3 & N4 & N5). apply NoDup_app in N5 as (N6 & N7 & N8). apply NoDup_app in N8 as (N8 & N9 & N10).
  assert (Hb : ptr b = s \/ ptr b ∈ inorder b) by (destruct (ptr_cases b) as [[_ ->]|]; auto).
  split; try done; try (intros z Hz; split_and!; intros E; subst); try (destruct Hb as [Hb|Hb]; rewrite ?Hb in *); set_solver.
Qed.

(** The memory after the first half of a rotation: the node [x] has the subtree at
    [b] of the node [y], whose parent is [p0]. *)
Definition moved_down (d : dir) (h : heap) (x b y p0 : Z) : heap :=
  upd_parent (adopt (upd_child (opp d) h x b) b x) y p0.

(** The second half: [y] is the parent of [x]. *)
Definition moved_up (d : dir) (h : heap) (x y : Z) : heap := upd_parent (upd_child d h y x) x y.

Section moved.
Context (d : dir) (h : heap) (x b y p0 : Z) (Hxy : x <> y) (Hbx : b <> x) (Hby : b <> y).

Let h3 := moved_down d h x b y p0.

Lemma moved_down_fields : h_color h3 = h_color h /\ h_key h3 = h_key h /\ h_root h3 = h_root h.
Proof using.
  unfold h3, moved_down. cbn. destruct (adopt_fields (upd_child (opp d) h x b) b x) as (_ & _ & -> & -> & ->).
  by rewrite color_upd_child, key_upd_child, root_upd_child.
Qed.

Lemma moved_down_child d' z : z <> x -> child d' h3 !! z = child d' h !! z.
Proof using.
  intros Hz. unfold h3, moved_down. rewrite child_upd_parent.
  destruct (adopt_fields (upd_child (opp d) h x b) b x) as (El & Er & _).
  assert (E : child d' (adopt (upd_child (opp d) h x b) b x) = child d' (upd_child (opp d) h x b)) by by destruct d'.
  rewrite E. apply same_child. by apply same_upd_child.
Qed.

Lemma moved_down_x : child d h3 !! x = child d h !! x /\ child (opp d) h3 !! x = Some b /\ h_parent h3 !! x = h_parent h !! x.
Proof using Hxy Hbx.
  unfold h3, moved_down. rewrite !child_upd_parent, parent_upd_ne by done.
  destruct (adopt_fields (upd_child (opp d) h x b) b x) as (El & Er & _).
  assert (E : forall d', child d' (adopt (upd_child (opp d) h x b) b x) = child d' (upd_child (opp d) h x b)) by by intros [].
  rewrite !E, child_opp_upd, child_upd_eq, (same_parent _ _ _ (same_adopt _ b x x ltac:(done))).
  by rewrite parent_upd_child.
Qed.

Lemma moved_down_other z : z <> x -> z <> b -> z <> y -> same_at h h3 z.
Proof using.
  intros Z1 Z2 Z3. apply (same_trans _ (upd_child (opp d) h x b)); [by apply same_upd_child|].
  eapply same_trans; [by apply (same_adopt _ b x)|by apply same_upd_parent].
Qed.

Lemma moved_down_sentinel : y <> s -> h_parent h3 !! s = h_parent h !! s.
Proof using.
  intros Hy. unfold h3, moved_down. rewrite parent_upd_ne, adopt_sentinel by done. by rewrite parent_upd_child.
Qed.

(** The subtree that changes sides, where the rest of the rotation leaves it alone. *)
Lemma moved_down_rep h' t :
  ptr t = b -> (s ∉ inorder t) -> NoDup (inorder t) -> (x ∉ inorder t) -> (y ∉ inorder t) -> rep h (Some y) t ->
  (forall z, z ∈ inorder t -> same_at h3 h' z) -> rep h' (Some x) t.
Proof using.
  intros Et Hs Hn Hx Hy Hr Hsame.
  apply (rep_adopted (upd_child (opp d) h x b) h' t x (Some y)); [done..| |].
  - eapply rep_frame; [|done]. intros z Hz. apply same_upd_child. by intros ->.
  - intros z Hz. rewrite Et. eapply same_trans; [|by apply Hsame]. apply same_upd_parent. by intros ->.
Qed.

Lemma moved_up_fields : h_color (moved_up d h x y) = h_color h /\ h_key (moved_up d h x y) = h_key h /\
  h_root (moved_up d h x y) = h_root h.
Proof using. unfold moved_up. cbn. by rewrite color_upd_child, key_upd_child, root_upd_child. Qed.

Lemma moved_up_at :
  (forall d', child d' (moved_up d h x y) !! x = child d' h !! x) /\ h_parent (moved_up d h x y) !! x = Some y /\
  child d (moved_up d h x y) !! y = Some x /\ child (opp d) (moved_up d h x y) !! y = child (opp d) h !! y /\
  h_parent (moved_up d h x y) !! y = h_parent h !! y.
Proof using Hxy.
  unfold moved_up. split_and!.
  - intros d'. rewrite child_upd_parent. by apply same_child, same_upd_child.
  - apply parent_upd_eq.
  - rewrite child_upd_parent. apply child_upd_eq.
  - by rewrite child_upd_parent, child_upd_opp.
  - by rewrite parent_upd_ne, parent_upd_child by done.
Qed.

Lemma moved_up_other z : z <> x -> z <> y -> same_at h (moved_up d h x y) z.
Proof using. intros Z1 Z2. eapply same_trans; [by apply (same_upd_child d)|by apply same_upd_parent]. Qed.

End moved.

(** Running a rotation. *)
Lemma rotate_run d h C c1 a x c2 b y e :
  holds_tree h (plug C (node d c1 a x (node d c2 b y e))) -> rotate_apart C a x b y e ->
  exists p0 h4, h_parent h !! x = Some p0 /\ rotate d h x = Ok (moved_up d h4 x y) /\
    relinked C (moved_down d h x (ptr b) y p0) h4 y.
Proof.
  intros H [Hxy Ha Hb He HaC (Hsx & Hsy & Hsb & HsC) (Hb1 & Hb2) Nb NC].
  pose proof (ht_rep _ _ H) as Hr. apply rep_plug in Hr as [Hr HC]. rewrite ptr_node in HC.
  apply rep_node in Hr as (Cx & Ra & Hr). apply rep_node in Hr as (Cy & Rb & Re). rewrite ptr_node in Cx.
  destruct (ncell_elim _ _ _ _ _ _ _ Cx) as [_ Ex]. destruct (ncell_elim _ _ _ _ _ _ _ Cy) as [Ey _].
  assert (HxC : x ∉ around C) by (intros Hin; by destruct (HaC x Hin)).
  assert (HyC : y ∉ around C) by (intros Hin; by destruct (HaC y Hin) as (_ & ? & _)).
  pose proof (cell_parent _ _ _ _ _ _ Cx) as Hpx.
  destruct (has_parent_some _ _ _ Hpx) as [p0 Hp0]. exists p0.
  set (h3 := moved_down d h x (ptr b) y p0).
  destruct (moved_down_x d h x (ptr b) y p0) as (D1 & D2 & D3); [done..|]. fold h3 in D1, D2, D3.
  destruct (moved_down_fields d h x (ptr b) y p0) as (_ & _ & Dr). fold h3 in Dr.
  destruct (relink_ok d h3 C x y) as (h4 & E4 & Hrl).
  { eapply rep_ctx_frame; [|done]. intros z Hz. by apply moved_down_other; apply (HaC z Hz). }
  { done. } { done. } { done. }
  { rewrite Dr, (ht_root _ _ H). destruct C as [|f C']; [cbn [plug]; apply ptr_node|].
    intros E. pose proof (root_in_ctx (f :: C') (node d c1 a x (node d c2 b y e)) ltac:(done)) as Hin.
    by rewrite E in Hin. }
  { destruct C; cbn in *; by rewrite D3. }
  exists h4. split; [done|]. split; [|done]. unfold rotate.
  rewrite (get_ok _ _ _ _ Ex). cbn [mbind outcome_bind]. rewrite (get_ok _ _ _ _ Ey). cbn [mbind outcome_bind].
  rewrite (set_child_ok _ _ _ _ _ Ex). cbn [mbind outcome_bind].
  assert (Ey' : child d (upd_child (opp d) h x (ptr b)) !! y = Some (ptr b)) by (by rewrite child_opp_upd).
  rewrite (get_ok _ _ _ _ Ey'). cbn [mbind outcome_bind].
  rewrite (adopt_ok _ b x (Some y)) by (eapply rep_frame; [|done]; intros z Hz; by apply same_upd_child, (Hb z Hz)).
  cbn [mbind outcome_bind]. pose proof D3 as D3'. unfold h3, moved_down in D3. rewrite parent_upd_ne in D3 by done.
  rewrite (get_ok h_parent _ x p0) by (rewrite D3; done). cbn [mbind outcome_bind].
  assert (Hpy : h_parent (adopt (upd_child (opp d) h x (ptr b)) (ptr b) x) !! y = Some x).
  { rewrite (same_parent _ _ _ (same_adopt _ (ptr b) x y ltac:(done))), parent_upd_child.
    apply (cell_parent _ _ _ _ _ _ Cy). }
  rewrite (set_parent_ok _ _ _ _ Hpy). cbn [mbind outcome_bind]. fold (moved_down d h x (ptr b) y p0). fold h3.
  rewrite E4. cbn [mbind outcome_bind]. destruct Hrl as [_ RS RP _ _ _].
  rewrite (set_child_ok d h4 y (ptr b)) by (rewrite (same_child h3) by (by apply RS);
    unfold h3; by rewrite moved_down_child). cbn [mbind outcome_bind].
  by rewrite (set_parent_ok _ x p0) by (by rewrite parent_upd_child, RP, D3').
Qed.

(** The two nodes and the three subtrees after a rotation. *)
Lemma rotated_rep d h h3 h4 C c1 a x c2 b y e p0 :
  holds_tree h (plug C (node d c1 a x (node d c2 b y e))) -> rotate_apart C a x b y e ->
  h_parent h !! x = Some p0 -> h3 = moved_down d h x (ptr b) y p0 -> relinked C h3 h4 y ->
  rep (moved_up d h4 x y) (ctx_parent C) (node d c2 (node d c1 a x b) y e).
Proof.
  intros H [Hxy Ha Hb He HaC (Hsx & Hsy & Hsb & HsC) (Hb1 & Hb2) Nb NC] Hp0 E3 [RC RS RP RCo RK RR].
  assert (HxC : x ∉ around C) by (intros Hin; by destruct (HaC x Hin)).
  assert (HyC : y ∉ around C) by (intros Hin; by destruct (HaC y Hin) as (_ & ? & _)).
  pose proof (ht_rep _ _ H) as Hr. apply rep_plug in Hr as [Hr HC].
  apply rep_node in Hr as (Cx & Ra & Hr). apply rep_node in Hr as (Cy & Rb & Re). rewrite ptr_node in Cx.
  destruct (ncell_elim _ _ _ _ _ _ _ Cx) as [Ex1 Ex2]. destruct (ncell_elim _ _ _ _ _ _ _ Cy) as [_ Ey].
  destruct (moved_down_x d h x (ptr b) y p0) as (D1 & D2 & D3); [done..|].
  destruct (moved_down_fields d h x (ptr b) y p0) as (Dc & Dk & _). rewrite <- E3 in D1, D2, D3, Dc, Dk.
  destruct (moved_up_fields d h4 x y) as (Uc & Uk & _). set (h6 := moved_up d h4 x y) in *.
  destruct (moved_up_at d h4 x y Hxy) as (U1 & U2 & U3 & U4 & U5). fold h6 in U1, U2, U3, U4, U5.
  assert (Hx4 : same_at h3 h4 x) by (by apply RS). assert (Hy4 : same_at h3 h4 y) by (by apply RS).
  assert (S6 : forall z, z <> x -> z <> y -> (z ∉ around C) -> same_at h3 h6 z).
  { intros z Z1 Z2 Z3. apply (same_trans _ h4); [by apply RS|by apply moved_up_other]. }
  assert (S : forall z, z <> x -> z <> y -> z <> ptr b -> (z ∉ around C) -> same_at h h6 z).
  { intros z Z1 Z2 Z3 Z4. apply (same_trans _ h3); [subst h3; by apply moved_down_other|by apply S6]. }
  apply rep_node. rewrite ptr_node. split; [|split].
  - apply ncell_intro; [done| | | |].
    + rewrite U4, (same_child h3) by done. subst h3. by rewrite moved_down_child.
    + assert (E : h_parent h6 !! y = Some p0) by (rewrite U5, (same_parent h3) by done; subst h3; apply parent_upd_eq).
      pose proof (cell_parent _ _ _ _ _ _ Cx) as Hpx. destruct (ctx_parent C); cbn in *; [congruence|by eexists].
    + rewrite Uc, RCo, Dc. apply (cell_color _ _ _ _ _ _ Cy).
    + rewrite Uk, RK, Dk. apply (cell_key _ _ _ _ _ _ Cy).
  - apply rep_node. split; [|split].
    + apply ncell_intro; [| |done| |].
      * by rewrite U1, (same_child h3), D1 by done.
      * by rewrite U1, (same_child h3) by done.
      * rewrite Uc, RCo, Dc. apply (cell_color _ _ _ _ _ _ Cx).
      * rewrite Uk, RK, Dk. apply (cell_key _ _ _ _ _ _ Cx).
    + eapply rep_frame; [|exact Ra]. intros z Hz. by apply S; apply (Ha z Hz).
    + apply (moved_down_rep d h x (ptr b) y p0 h6 b); try done; [by intros (? & ? & ?)%Hb..|].
      intros z Hz. rewrite <- E3. by apply S6; apply (Hb z Hz).
  - eapply rep_frame; [|exact Re]. intros z Hz. by apply S; apply (He z Hz).
Qed.

Lemma rotate_ok d h C c1 a x c2 b y e :
  holds_tree h (plug C (node d c1 a x (node d c2 b y e))) ->
  exists h', rotate d h x = Ok h' /\ holds_tree h' (plug C (node d c2 (node d c1 a x b) y e)) /\
    keeps (inorder (plug C (node d c1 a x (node d c2 b y e)))) h h' /\ h_color h' = h_color h.
Proof.
  intros H. pose proof (rotate_apart_ok _ _ _ _ _ _ _ _ _ _ H) as HA.
  destruct (rotate_run _ _ _ _ _ _ _ _ _ _ H HA) as (p0 & h4 & Hp0 & Erun & Hrl).
  exists (moved_up d h4 x y). split; [done|].
  pose proof HA as [Hxy Ha Hb He HaC (Hsx & Hsy & Hsb & HsC) (Hb1 & Hb2) Nb NC]. set (h3 := moved_down d h x (ptr b) y p0) in *. set (h6 := moved_up d h4 x y).
  pose proof Hrl as [RC RS RP RCo RK RR].
  destruct (moved_down_fields d h x (ptr b) y p0) as (Dc & Dk & Dr). fold h3 in Dc, Dk, Dr.
  destruct (moved_up_fields d h4 x y) as (Uc & Uk & Ur). fold h6 in Uc, Uk, Ur.
  assert (K6 : h_key h6 = h_key h) by congruence. assert (C6 : h_color h6 = h_color h) by congruence.
  assert (S6 : forall z, z <> x -> z <> y -> (z ∉ around C) -> same_at h3 h6 z).
  { intros z Z1 Z2 Z3. apply (same_trans _ h4); [by apply RS|by apply moved_up_other]. }
  assert (S : forall z, z <> x -> z <> y -> z <> ptr b -> (z ∉ around C) -> same_at h h6 z).
  { intros z Z1 Z2 Z3 Z4. apply (same_trans _ h3); [by apply moved_down_other|by apply S6]. }
  assert (Hsp : h_parent h6 !! s = h_parent h !! s).
  { rewrite (same_parent h3 h6) by (by apply S6). by apply moved_down_sentinel. }
  split; [|split; [|done]].
  - split.
    + apply rep_plug. rewrite ptr_node. split; [|eapply rep_ctx_frame; [|exact RC]; intros z Hz; by apply moved_up_other; apply (HaC z Hz)].
      by apply (rotated_rep d h h3 h4 C c1 a x c2 b y e p0).
    + rewrite <- rotate_nodes. apply (ht_nodup _ _ H).
    + rewrite <- rotate_nodes. apply (ht_sentinel _ _ H).
    + rewrite Ur, RR. destruct C as [|f C']; [cbn [plug]; by rewrite ptr_node|].
      rewrite Dr, (ht_root _ _ H). cbn [plug]. apply ptr_plug_same. by rewrite !ptr_fill.
    + rewrite C6. apply (ht_black _ _ H).
    + rewrite Hsp. apply (ht_parent _ _ H).
  - split; [|done|done]. intros z Hz Hzs.
    rewrite nodes_plug, !nodes_node in Hz. apply not_elem_of_app in Hz as [Z1 Z2].
    apply not_elem_of_cons in Z2 as [Z2 Z3]. apply not_elem_of_app in Z3 as [_ Z3].
    apply not_elem_of_cons in Z3 as [Z3 Z4]. apply not_elem_of_app in Z4 as [Z4 _].
    apply S; try done. destruct (ptr_cases b) as [[_ ->]|Hin]; [done|]. by intros ->.
Qed.


(** ** Colours *)

Lemma plug_nodes_same C t t' : inorder t = inorder t' -> inorder (plug C t) = inorder (plug C t').
Proof. intros E. by rewrite !inorder_plug, E. Qed.

Lemma recolor_ok c' h C c l x r :
  holds_tree h (plug C (T c l x r)) ->
  exists h', set_color h x (color_z c') = Ok h' /\ holds_tree h' (plug C (T c' l x r)) /\
    keeps (inorder (plug C (T c l x r))) h h'.
Proof.
  intros H. pose proof (focus_cell _ _ _ _ _ _ H) as Hc.
  destruct (focus_nodup _ _ _ H) as (Hn & Hout & HnC & Hs & HsC). cbn [inorder] in *.
  apply NoDup_app in Hn as (N1 & N2 & N3). apply NoDup_cons in N3 as [N3 N4].
  assert (Hx : x <> s) by (intros ->; apply Hs; set_solver).
  assert (HxC : x ∉ around C) by (apply Hout; set_solver).
  pose proof (ht_rep _ _ H) as Hr. apply rep_plug in Hr as [(_ & Hl & Hr) HC].
  rewrite (set_color_ok _ _ _ _ (cell_color _ _ _ _ _ _ Hc)). eexists. split; [done|]. split.
  - split; try apply H.
    + apply rep_plug. cbn [ptr rep]. split; [|eapply rep_ctx_frame; [|done]; intros z Hz; apply same_upd_color; congruence].
      split; [destruct Hc; split; cbn; try done; by rewrite lookup_insert_eq|].
      split; (eapply rep_frame; [|done]); intros z Hz; apply same_upd_color; intros ->; [by apply (N2 x); [|left]|done].
    + rewrite (plug_nodes_same _ _ (T c l x r)) by done. apply (ht_nodup _ _ H).
    + rewrite (plug_nodes_same _ _ (T c l x r)) by done. apply (ht_sentinel _ _ H).
    + cbn. rewrite (ht_root _ _ H). by apply ptr_plug_same.
    + cbn. rewrite lookup_insert_ne by done. apply (ht_black _ _ H).
  - split; [|done|done]. intros z Hz Hzs. apply same_upd_color. intros ->. apply Hz. rewrite nodes_plug. set_solver.
Qed.

Lemma recolor_node c' h C d c a x b :
  holds_tree h (plug C (node d c a x b)) ->
  exists h', set_color h x (color_z c') = Ok h' /\ holds_tree h' (plug C (node d c' a x b)) /\
    keeps (inorder (plug C (node d c a x b))) h h'.
Proof. destruct d; apply recolor_ok. Qed.

(** Colouring the focus black, which may be the sentinel. *)
Lemma blacken_ok h C t :
  holds_tree h (plug C t) ->
  exists h', ngx_rbt_black h (ptr t) = Ok h' /\ holds_tree h' (plug C (paint Black t)) /\
    keeps (inorder (plug C t)) h h'.
Proof.
  destruct t as [|c l x r]; [|apply (recolor_ok Black)]. intros H. cbn [ptr paint].
  unfold ngx_rbt_black. rewrite (set_color_ok _ _ _ _ (ht_black _ _ H)). eexists. split; [done|].
  assert (Hu : upd_color h s 0 = h).
  { pose proof (ht_black _ _ H) as Hb. clear H. destruct h as [hk hl hr hp hc ro]. unfold upd_color.
    cbn [update_field h_color] in *. unfold update_field. cbn in *. by rewrite insert_id. }
  rewrite Hu. split; [done|apply keeps_refl].
Qed.

(** ** A new leaf *)

(** A node that is in the memory and not in the tree. *)
Record fresh_node (h : heap) (N : list Z) (x : Z) : Prop := {
  fn_out : x ∉ N;
  fn_sentinel : x <> s;
  fn_left : is_Some (h_left h !! x);
  fn_right : is_Some (h_right h !! x);
  fn_parent : is_Some (h_parent h !! x);
  fn_color : is_Some (h_color h !! x);
  fn_key : is_Some (h_key h !! x)
}.

(** The writes that make [x] a red leaf under [p]. *)
Definition new_leaf (d : dir) (h : heap) (p x : Z) : heap :=
  upd_color (upd_child R (upd_child L (upd_parent (upd_child d h p x) x p) x s) x s) x 1.

Lemma new_leaf_other d h p x z : z <> x -> z <> p -> same_at h (new_leaf d h p x) z.
Proof. intros Z1 Z2. destruct d; split; cbn; by rewrite ?lookup_insert_ne by done. Qed.

Lemma new_leaf_ok d c p b C h x :
  holds_tree h (plug (mk_frame d c p b :: C) E) -> fresh_node h (inorder (plug (mk_frame d c p b :: C) E)) x ->
  holds_tree (new_leaf d h p x) (plug (mk_frame d c p b :: C) (T Red E x E)) /\
  keeps (x :: inorder (plug (mk_frame d c p b :: C) E)) h (new_leaf d h p x).
Proof.
  intros H [Fo Fs [l El] [r Er] [u Eu] [k Ek] Fk]. destruct (focus_nodup _ _ _ H) as (_ & _ & HnC & _ & HsC).
  pose proof (ht_rep _ _ H) as Hr. apply rep_plug in Hr as [_ HC]. cbn [ptr] in HC.
  rewrite nodes_plug in Fo. cbn [inorder] in Fo. rewrite app_nil_r in Fo.
  pose proof HnC as HnC'. pose proof HsC as HsC'. pose proof Fo as Fo'.
  rewrite around_frame in HnC', HsC', Fo'. cbn [f_node f_sib] in HnC', HsC', Fo'.
  apply NoDup_cons in HnC' as [Np _]. apply not_elem_of_cons in HsC' as [Hsp _].
  apply not_elem_of_cons in Fo' as [Fp Fo']. apply not_elem_of_app in Fo' as [Fb FC].
  apply not_elem_of_app in Np as [Nb NC].
  assert (Hne : ptr b <> x) by (destruct (ptr_cases b) as [[_ ->]|]; congruence).
  destruct HC as (Hcell & Hb & HC). split; [split|split].
  - apply rep_plug. split.
    + cbn [rep ptr ctx_parent f_node]. split; [|done]. split; try done; destruct d; cbn; by rewrite ?lookup_insert_eq.
    + cbn [rep_ctx ptr]. split; [|split].
      * destruct Hcell as [C1 C2 C3 C4 C5].
        destruct d; split; cbn; rewrite ?lookup_insert_ne, ?lookup_insert_eq by congruence; try done;
          destruct (ctx_parent C); cbn in *; by rewrite lookup_insert_ne by done.
      * eapply rep_frame; [|done]. intros z Hz. apply new_leaf_other; congruence.
      * eapply rep_ctx_frame; [|done]. intros z Hz. apply new_leaf_other; congruence.
  - rewrite nodes_plug. cbn [inorder app]. apply NoDup_app. split_and!; [done| |apply NoDup_singleton].
    intros z Hz ->%list_elem_of_singleton. done.
  - rewrite nodes_plug. cbn [inorder app]. rewrite not_elem_of_app, list_elem_of_singleton. split; [done|congruence].
  - rewrite (ltac:(by destruct d) : h_root (new_leaf d h p x) = h_root h), (ht_root _ _ H). cbn [plug].
    apply ptr_plug_same. by rewrite !ptr_fill.
  - rewrite (same_color h) by (by apply new_leaf_other; congruence). apply (ht_black _ _ H).
  - rewrite (same_parent h) by (by apply new_leaf_other; congruence). apply (ht_parent _ _ H).
  - intros z Hz Hzs. apply not_elem_of_cons in Hz as [Z1 Z2]. apply new_leaf_other; [done|]. intros ->.
    apply Z2. rewrite nodes_plug, around_frame. cbn. by left.
  - by destruct d.
  - by rewrite (same_parent h) by (by apply new_leaf_other; congruence).
Qed.

End shape.

(** ** Automation *)

(** The frames above the focus as nodes of the tree. *)
Tactic Notation "open_frame" "in" hyp(H) :=
  cbn [plug] in H; unfold fill in H; cbn [f_dir f_color f_node f_sib] in H.
Tactic Notation "open_frame" := cbn [plug]; unfold fill; cbn [f_dir f_color f_node f_sib].

(** Trees with the same nodes: colours and rotations keep the order. *)
Ltac same_nodes :=
  open_frame; rewrite !inorder_plug;
  repeat match goal with d : dir |- context [?d'] => constr_eq d d'; destruct d end; 
  cbn [node opp inorder]; rewrite ?paint_inorder; repeat first [rewrite <- !app_assoc | progress cbn [app]].

(** Composes the effects of the steps in the hypotheses. *)
Ltac chain_keeps :=
  match goal with
  | K : keeps ?s _ ?h ?h' |- keeps ?s _ ?h ?h' => eapply keeps_perm; [|exact K]; by same_nodes
  | K : keeps ?s _ ?h ?h1 |- keeps ?s _ ?h ?h' =>
      eapply keeps_trans; [reflexivity|eapply keeps_perm; [|exact K]; by same_nodes|]; clear K; chain_keeps
  end.
