(* ===== verification/RbTreeInsert.v ===== *)
(** Component "red-black tree", continued: the red-black invariant, and insertion
    keeps it and puts the node in its place in the order. *)

From stdpp Require Import base numbers list option gmap sorting.
From Stdlib Require Import ZArith Lia.
From S2P Require Import Prelude RbTree RbTreeShape.
Local Open Scope Z_scope.

(** * The invariant *)

(** [rb c n t]: [t] is a red-black tree with a root of the colour [c] and [n] black
    nodes on each path. *)
Inductive rb : color -> nat -> tree -> Prop :=
| rb_E : rb Black 0 E
| rb_red n l x r : rb Black n l -> rb Black n r -> rb Red n (T Red l x r)
| rb_black n cl cr l x r : rb cl n l -> rb cr n r -> rb Black (S n) (T Black l x r).

(** [rbc c n C]: with such a tree at its focus, [C] is a tree with a black root. *)
Inductive rbc : color -> nat -> ctx -> Prop :=
| rbc_nil n : rbc Black n []
| rbc_red n d x b C : rb Black n b -> rbc Red n C -> rbc Black n (mk_frame d Red x b :: C)
| rbc_black c n d x b cb C : rb cb n b -> rbc Black (S n) C -> rbc c n (mk_frame d Black x b :: C).

Definition rb_tree (t : tree) : Prop := exists n, rb Black n t.

(** A subtree that can stand under a black node. *)
Definition rb_any (n : nat) (t : tree) : Prop := exists c, rb c n t.

Lemma rb_color c n t : rb c n t -> root_color t = c.
Proof. by destruct 1. Qed.

Lemma rb_any_of c n t : rb c n t -> rb_any n t.
Proof. by exists c. Qed.

Lemma rb_any_black n t : rb_any n t -> root_color t = Black -> rb Black n t.
Proof. intros [c H] Hc. rewrite (rb_color _ _ _ H) in Hc. by subst c. Qed.

Lemma rb_any_red n t : rb_any n t -> root_color t = Red -> rb Red n t.
Proof. intros [c H] Hc. rewrite (rb_color _ _ _ H) in Hc. by subst c. Qed.

Lemma rb_any_black_node n t : rb_any n t -> root_color t = Black -> rb_any n t /\ rb Black n t.
Proof. intros H E. split; [done|by apply rb_any_black]. Qed.

Lemma node_red n d a x b : rb Black n a -> rb Black n b -> rb Red n (node d Red a x b).
Proof. destruct d; intros; by constructor. Qed.

Lemma node_black n d a x b : rb_any n a -> rb_any n b -> rb Black (S n) (node d Black a x b).
Proof. intros [ca Ha] [cb Hb]. destruct d; econstructor; eauto. Qed.

Lemma node_red_inv n d a x b : rb Red n (node d Red a x b) -> rb Black n a /\ rb Black n b.
Proof. destruct d; inversion 1; by subst. Qed.

Lemma frame_black c n d x b C : rb_any n b -> rbc Black (S n) C -> rbc c n (mk_frame d Black x b :: C).
Proof. intros [cb Hb] HC. by econstructor. Qed.

Lemma rbc_any c n C : rbc c n C -> rbc Black n C.
Proof. destruct 1; try by constructor. by econstructor. Qed.

Lemma rb_plug c n C t : rb c n t -> rbc c n C -> rb_tree (plug C t).
Proof.
  intros Ht HC. revert t Ht. induction HC as [n|n d x b C Hb HC IH|c n d x b cb C Hb HC IH]; intros t Ht.
  - by exists n.
  - apply IH. by apply node_red.
  - apply IH. apply node_black; by eapply rb_any_of.
Qed.

Lemma rb_plug_inv C t : rb_tree (plug C t) -> exists c n, rb c n t /\ rbc c n C.
Proof.
  revert t. induction C as [|[d c x b] C IH]; intros t H; cbn [plug] in H.
  - destruct H as [n H]. exists Black, n. split; [done|constructor].
  - apply IH in H as (c' & n & H & HC). cbn [fill f_dir f_color f_node f_sib] in H.
    destruct d; inversion H; subst; eexists _, _; (split; [eassumption|]); by econstructor.
Qed.

Lemma rb_paint n t : rb_any n t -> rb_tree (paint Black t).
Proof. intros [c H]. destruct H; eexists; cbn [paint]; econstructor; eauto. Qed.

(** A path is not longer than there are nodes. *)
Lemma ctx_length C t : (length C + length (inorder t) <= length (inorder (plug C t)))%nat.
Proof.
  rewrite nodes_plug. rewrite length_app. assert (length C <= length (around C))%nat; [|lia].
  induction C as [|f C IH]; [done|]. rewrite around_frame. cbn [length]. rewrite length_app. lia.
Qed.

Section insert.
Context (s : Z).

Lemma node_has_key h par t z : rep s h par t -> z ∈ inorder t -> is_Some (h_key h !! z).
Proof.
  revert par. induction t as [|c l IHl x r IHr]; intros par; cbn [rep inorder]; [set_solver|].
  intros ([] & Hl & Hr). rewrite elem_of_app, elem_of_cons. intros [|[->|]]; eauto.
Qed.

Lemma nodes_in_steps h t : holds_tree s h t -> (length (inorder t) < steps h)%nat.
Proof.
  intros H. unfold steps. rewrite <- size_dom, <- (size_list_to_set (C := gset Z) _ (ht_nodup _ _ _ H)).
  apply le_n_S, subseteq_size. intros z. rewrite elem_of_list_to_set, elem_of_dom.
  apply (node_has_key _ None), (ht_rep _ _ _ H).
Qed.

Lemma ptr_ne h C d c a x b : holds_tree s h (plug C (node d c a x b)) -> a <> E -> ptr s a <> ptr s b.
Proof.
  intros H Ha. destruct (focus_nodup _ _ _ _ H) as (Hn & _ & _ & Hs & _). rewrite nodes_node in Hn, Hs.
  apply NoDup_cons in Hn as [_ (_ & Hab & _)%NoDup_app]. pose proof (ptr_in s a Ha) as Hin.
  destruct (ptr_cases s b) as [[_ ->]|Hb].
  - intros E. apply Hs. rewrite <- E at 1. set_solver.
  - intros E. by apply (Hab (ptr s a)); [|rewrite E].
Qed.

(** ** The position *)

(** Where the search for a place ends: [bf x] goes to the left of [x]. *)
Fixpoint descend (bf : Z -> bool) (C : ctx) (t : tree) : ctx :=
  match t with
  | E => C
  | T c l x r => if bf x then descend bf (mk_frame L c x r :: C) l else descend bf (mk_frame R c x l :: C) r
  end.

Lemma descend_plug bf C t : plug (descend bf C t) E = plug C t.
Proof. revert C. induction t as [|c l IHl x r IHr]; intros C; [done|]. cbn [descend]. destruct (bf x); [by rewrite IHl|by rewrite IHr]. Qed.

(** The nodes are in an order that agrees with the tests. *)
Abbreviation ordered bf := (StronglySorted (fun y1 y2 : Z => bf y1 = true -> bf y2 = true)).

Lemma descend_split bf C t :
  ordered bf (inorder t) ->
  exists l1 l2, inorder t = l1 ++ l2 /\ before (descend bf C t) = before C ++ l1 /\
    after (descend bf C t) = l2 ++ after C /\ Forall (fun y => bf y = false) l1 /\ Forall (fun y => bf y = true) l2.
Proof.
  revert C. induction t as [|c l IHl x r IHr]; intros C Ho.
  { exists [], []. cbn [descend]. split_and!; (done || constructor || by rewrite app_nil_r). }
  cbn [inorder descend] in *. apply StronglySorted_app in Ho as (Hc & Hl & Hr).
  apply StronglySorted_cons in Hr as [Hx Hr]. destruct (bf x) eqn:Ex.
  - destruct (IHl (mk_frame L c x r :: C) Hl) as (l1 & l2 & El & E1 & E2 & F1 & F2).
    exists l1, (l2 ++ x :: inorder r). rewrite El, E1, E2. cbn [before after]. split_and!.
    + by rewrite <- app_assoc.
    + done.
    + by rewrite <- app_assoc.
    + done.
    + apply Forall_app. split; [done|]. constructor; [done|]. eapply Forall_impl; [exact Hx|].
      intros y Hy. by apply Hy.
  - destruct (IHr (mk_frame R c x l :: C) Hr) as (l1 & l2 & El & E1 & E2 & F1 & F2).
    exists (inorder l ++ x :: l1), l2. rewrite El, E1, E2. cbn [before after]. split_and!.
    + by rewrite <- app_assoc.
    + rewrite <- !app_assoc. done.
    + done.
    + apply Forall_app. split; [|by constructor]. apply Forall_forall. intros y Hy.
      destruct (bf y) eqn:Ey; [|done]. specialize (Hc y x Hy ltac:(by left)). cbn in Hc.
      rewrite Ey, Ex in Hc. by discriminate Hc.
    + done.
Qed.

(** The values that the tests read are in the memory. *)
Definition test_ok (bef : heap -> Z -> Z -> outcome bool) (bf : heap -> Z -> Z -> bool) : Prop :=
  forall h z y, is_Some (h_key h !! z) -> is_Some (h_key h !! y) -> bef h z y = Ok (bf h z y).

Definition key (h : heap) (x : Z) : Z := default 0 (h_key h !! x).
Definition key_bf (h : heap) (z y : Z) : bool := key h z <? key h y.
Definition timer_bf (h : heap) (z y : Z) : bool := to_i64 (to_u64 (key h z - key h y)) <? 0.

Lemma get_key h x : is_Some (h_key h !! x) -> get h_key h x = Ok (key h x).
Proof. intros [k E]. unfold get, load_at, key. by rewrite E. Qed.

Lemma key_before_ok : test_ok key_before key_bf.
Proof. intros h z y Hz Hy. unfold key_before. by rewrite !get_key. Qed.
Lemma timer_before_ok : test_ok timer_before timer_bf.
Proof. intros h z y Hz Hy. unfold timer_before. by rewrite !get_key. Qed.

Lemma new_leaf_run d h p z u :
  child d h !! p = Some u -> fresh_node s h [] z -> z <> p ->
  (h ← set_child d h p z; h ← set_parent h z p; h ← set_left h z s; h ← set_right h z s; ngx_rbt_red h z) =
  Ok (new_leaf s d h p z).
Proof.
  intros Ep [_ _ [l El] [r Er] [q Eq] [k Ek] _] Hz. rewrite (set_child_ok d h p u z Ep). cbn [mbind outcome_bind].
  rewrite (set_parent_ok _ z q p) by (by rewrite parent_upd_child). cbn [mbind outcome_bind].
  assert (El' : exists l', child L (upd_parent (upd_child d h p z) z p) !! z = Some l').
  { rewrite child_upd_parent. exists l. destruct d; cbn; [by rewrite lookup_insert_ne by done|done]. }
  destruct El' as [l' El']. rewrite (set_child_ok L _ z l' s El' : set_left _ z s = Ok _). cbn [mbind outcome_bind].
  change set_right with (set_child R). rewrite (set_child_ok R _ z r s).
  2:{ destruct d; cbn; [done|by rewrite lookup_insert_ne by done]. }
  cbn [mbind outcome_bind]. unfold ngx_rbt_red. rewrite (set_color_ok _ z k 1); [done|]. by destruct d.
Qed.

Lemma fresh_weaken h N N' z : fresh_node s h N z -> (forall y, y ∈ N' -> y ∈ N) -> fresh_node s h N' z.
Proof. intros [] HN. split; [by intros ?%HN|done..]. Qed.

(** One level of the search. *)
Lemma insert_loop_step bef bf fuel h C c l x r z :
  test_ok bef bf -> holds_tree s h (plug C (T c l x r)) -> fresh_node s h (inorder (plug C (T c l x r))) z ->
  let d := if bf h z x then L else R in
  let t' := if bf h z x then l else r in
  let C' := mk_frame d c x (if bf h z x then r else l) :: C in
  insert_loop s bef (S fuel) h x z =
    (if ptr s t' =? s then Ok (new_leaf s d h x z) else insert_loop s bef fuel h (ptr s t') z) /\
  (ptr s t' = s -> t' = E) /\ plug C' t' = plug C (T c l x r).
Proof.
  intros Ht H Hf. pose proof (focus_cell _ _ _ _ _ _ _ H) as Hc.
  destruct (focus_nodup _ _ _ _ H) as (_ & _ & _ & Hs & _). cbn [inorder] in Hs.
  apply not_elem_of_app in Hs as [Hsl Hsr]. apply not_elem_of_cons in Hsr as [Hsx Hsr].
  assert (Hzx : z <> x).
  { intros ->. apply (fn_out _ _ _ _ Hf). rewrite nodes_plug. cbn. set_solver. }
  assert (Hl : ptr s l = s -> l = E) by (destruct (ptr_cases s l) as [[? _]|?]; [done|congruence]).
  assert (Hr : ptr s r = s -> r = E) by (destruct (ptr_cases s r) as [[? _]|?]; [done|congruence]).
  pose proof (fresh_weaken _ _ [] _ Hf ltac:(by intros ? ?%not_elem_of_nil)) as Hf'.
  cbn [insert_loop]. rewrite (Ht h z x (fn_key _ _ _ _ Hf) (cell_key _ _ _ _ _ _ Hc)). cbn [mbind outcome_bind].
  destruct (bf h z x); cbn zeta; (split; [|done]).
  - rewrite (get_ok _ _ _ _ (cell_left _ _ _ _ _ _ Hc)). cbn [mbind outcome_bind].
    destruct (ptr s l =? s); [|done]. apply (new_leaf_run L h x z _ (cell_left _ _ _ _ _ _ Hc) Hf' Hzx).
  - rewrite (get_ok _ _ _ _ (cell_right _ _ _ _ _ _ Hc)). cbn [mbind outcome_bind].
    destruct (ptr s r =? s); [|done]. apply (new_leaf_run R h x z _ (cell_right _ _ _ _ _ _ Hc) Hf' Hzx).
Qed.

(** The search ends at the place that [descend] gives. *)
Lemma insert_loop_ok bef bf h z t C fuel :
  test_ok bef bf -> t <> E -> holds_tree s h (plug C t) -> fresh_node s h (inorder (plug C t)) z ->
  (length (inorder t) <= fuel)%nat ->
  exists d c p b C', descend (bf h z) C t = mk_frame d c p b :: C' /\
    insert_loop s bef fuel h (ptr s t) z = Ok (new_leaf s d h p z).
Proof.
  intros Ht. revert C fuel. induction t as [|c l IHl x r IHr]; intros C fuel Hne H Hf Hfuel; [done|].
  cbn [inorder] in Hfuel. rewrite length_app in Hfuel. cbn [length] in Hfuel. destruct fuel as [|fuel]; [lia|].
  destruct (insert_loop_step bef bf fuel h C c l x r z Ht H Hf) as (E1 & E2 & E3). cbn [ptr descend].
  rewrite E1. clear E1. destruct (bf h z x).
  - destruct (Z.eqb_spec (ptr s l) s) as [El|El]; [rewrite (E2 El); cbn [descend]; by eexists _, _, _, _, _|].
    apply IHl; [by intros ->|done|done|lia].
  - destruct (Z.eqb_spec (ptr s r) s) as [El|El]; [rewrite (E2 El); cbn [descend]; by eexists _, _, _, _, _|].
    apply IHr; [by intros ->|done|done|lia].
Qed.

(** * The interface of [tree->insert]

    The function makes the node a red leaf, at the place that its test gives. *)
Class InsertFn (ins : heap -> Z -> Z -> outcome heap) (bf : heap -> Z -> Z -> bool) : Prop :=
  insert_fn_ok : forall h t z,
    t <> E -> holds_tree s h t -> fresh_node s h (inorder t) z ->
    exists d c p b C h', descend (bf h z) [] t = mk_frame d c p b :: C /\ ins h (ptr s t) z = Ok h' /\
      holds_tree s h' (plug (mk_frame d c p b :: C) (T Red E z E)) /\ keeps s (z :: inorder t) h h'.

Lemma insert_loop_fn bef bf :
  test_ok bef bf -> InsertFn (fun h temp node => insert_loop s bef (steps h) h temp node) bf.
Proof.
  intros Ht h t z Hne H Hf. pose proof (nodes_in_steps _ _ H).
  destruct (insert_loop_ok bef bf h z t [] (steps h) Ht Hne H Hf ltac:(lia)) as (d & c & p & b & C & Ed & E).
  exists d, c, p, b, C, (new_leaf s d h p z). pose proof (descend_plug (bf h z) [] t) as Hp. rewrite Ed in Hp.
  change (plug [] t) with t in Hp. rewrite <- Hp in H, Hf.
  destruct (new_leaf_ok _ _ _ _ _ _ _ _ H Hf) as [H1 H2]. rewrite Hp in H2. done.
Qed.

#[export] Instance insert_value_fn : InsertFn (ngx_rbtree_insert_value s) key_bf.
Proof. apply (insert_loop_fn _ _ key_before_ok). Qed.
#[export] Instance insert_timer_value_fn : InsertFn (ngx_rbtree_insert_timer_value s) timer_bf.
Proof. apply (insert_loop_fn _ _ timer_before_ok). Qed.

(** * The fixup *)

(** The part of the loop's body for the parent at the side [d]. *)
Definition insert_side (d : dir) (h : heap) (x : Z) : outcome (heap * Z) :=
  g ← grandparent h x; temp ← get (child (opp d)) h g;
  red ← ngx_rbt_is_red h temp;
  if (red : bool) then
    p ← get h_parent h x; h ← ngx_rbt_black h p;
    h ← ngx_rbt_black h temp;
    g ← grandparent h x; h ← ngx_rbt_red h g;
    g ← grandparent h x; Ok (h, g)
  else
    p ← get h_parent h x; r ← get (child (opp d)) h p;
    '(h, x) ← (if x =? r then p ← get h_parent h x; h ← rotate s d h p; Ok (h, p) else Ok (h, x));
    p ← get h_parent h x; h ← ngx_rbt_black h p;
    g ← grandparent h x; h ← ngx_rbt_red h g;
    g ← grandparent h x; h ← rotate s (opp d) h g; Ok (h, x).

Lemma insert_fix_step_eq h x :
  insert_fix_step s h x =
    (p ← get h_parent h x; g ← grandparent h x; l ← get h_left h g;
     if p =? l then insert_side L h x else insert_side R h x).
Proof. reflexivity. Qed.

(** What the code reads around a node with two frames above it. *)
Record two_up (h : heap) (x : Z) (d1 : dir) (p : Z) (b : tree) (d2 : dir) (g : Z) (u : tree) : Prop := {
  tu_parent : get h_parent h x = Ok p;
  tu_grandparent : grandparent h x = Ok g;
  tu_up : get (child d2) h g = Ok p;
  tu_uncle : get (child (opp d2)) h g = Ok (ptr s u);
  tu_side : get (child d1) h p = Ok x;
  tu_other : get (child (opp d1)) h p = Ok (ptr s b);
  tu_uncle_ne : p <> ptr s u;
  tu_other_ne : x <> ptr s b
}.

Lemma two_up_ok h C d1 c1 p b d2 c2 g u d c a x e :
  holds_tree s h (plug C (node d2 c2 (node d1 c1 (node d c a x e) p b) g u)) -> two_up h x d1 p b d2 g u.
Proof.
  intros H. pose proof H as H1.
  change (holds_tree s h (plug (mk_frame d2 c2 g u :: C) (node d1 c1 (node d c a x e) p b))) in H1.
  pose proof H1 as H2.
  change (holds_tree s h (plug (mk_frame d1 c1 p b :: mk_frame d2 c2 g u :: C) (node d c a x e))) in H2.
  destruct (read_child _ _ _ _ _ _ _ _ H) as [R1 R2]. destruct (read_child _ _ _ _ _ _ _ _ H1) as [R3 R4].
  rewrite ptr_node in R1, R3. pose proof (read_node_parent _ _ _ _ _ _ _ _ p H2 eq_refl) as Pp.
  pose proof (ptr_ne _ _ _ _ _ _ _ H1 ltac:(by destruct d)) as N1. pose proof (ptr_ne _ _ _ _ _ _ _ H ltac:(by destruct d1)) as N2.
  rewrite ptr_node in N1, N2. split; try done. unfold grandparent. rewrite Pp. cbn [mbind outcome_bind].
  apply (read_node_parent _ _ _ _ _ _ _ _ g H1 eq_refl).
Qed.

(** The first reads find the side of the parent. *)
Lemma insert_fix_step_side h x d1 p b d2 g u :
  two_up h x d1 p b d2 g u -> insert_fix_step s h x = insert_side d2 h x.
Proof.
  intros [Hp Hg Hu Hv _ _ Hne _]. rewrite insert_fix_step_eq, Hp, Hg. cbn [mbind outcome_bind].
  destruct d2; cbn [child opp] in *.
  - rewrite Hu. cbn [mbind outcome_bind]. by rewrite Z.eqb_refl.
  - rewrite Hv. cbn [mbind outcome_bind]. by rewrite (proj2 (Z.eqb_neq _ _) Hne).
Qed.

Lemma red_uncle_ok h C d1 p b d2 g ul v ur d a x e :
  holds_tree s h (plug C (node d2 Black (node d1 Red (node d Red a x e) p b) g (T Red ul v ur))) ->
  exists h', insert_fix_step s h x = Ok (h', g) /\
    holds_tree s h' (plug C (node d2 Red (node d1 Black (node d Red a x e) p b) g (T Black ul v ur))) /\
    keeps s (inorder (plug C (node d2 Black (node d1 Red (node d Red a x e) p b) g (T Red ul v ur)))) h h'.
Proof.
  intros H. pose proof (two_up_ok _ _ _ _ _ _ _ _ _ _ _ _ _ _ _ H) as Hu.
  rewrite (insert_fix_step_side _ _ _ _ _ _ _ _ Hu). unfold insert_side.
  rewrite (tu_grandparent _ _ _ _ _ _ _ _ Hu). cbn [mbind outcome_bind].
  rewrite (tu_uncle _ _ _ _ _ _ _ _ Hu). cbn [mbind outcome_bind].
  pose proof H as Hv. change (node d2 Black ?t g ?u) with (fill (mk_frame d2 Black g u) t) in Hv.
  assert (Ev : forall h' c c2 c1, holds_tree s h' (plug C (node d2 c2 (node d1 c1 (node d Red a x e) p b) g (T c ul v ur))) ->
    holds_tree s h' (plug (mk_frame (opp d2) c2 g (node d1 c1 (node d Red a x e) p b) :: C) (T c ul v ur))).
  { intros h' c c2 c1 H'. open_frame. by rewrite node_opp. }
  pose proof (is_red_focus _ _ _ _ (Ev _ _ _ _ H)) as Er. cbn [ptr root_color] in Er |- *.
  rewrite Er. cbn [mbind outcome_bind]. rewrite bool_decide_true by done.
  rewrite (tu_parent _ _ _ _ _ _ _ _ Hu). cbn [mbind outcome_bind].
  destruct (recolor_node s Black h (mk_frame d2 Black g (T Red ul v ur) :: C) d1 _ _ _ _ H) as (h1 & E1 & H1 & K1).
  unfold ngx_rbt_black. rewrite (E1 : set_color h p 0 = _). cbn [mbind outcome_bind]. cbn [plug] in H1.
  destruct (recolor_ok s Black h1 _ _ _ _ _ (Ev _ _ _ _ H1)) as (h2 & E2 & H2 & K2).
  rewrite (E2 : set_color h1 v 0 = _). cbn [mbind outcome_bind].
  open_frame in H2. rewrite node_opp in H2.
  pose proof (two_up_ok _ _ _ _ _ _ _ _ _ _ _ _ _ _ _ H2) as Hu2.
  rewrite (tu_grandparent _ _ _ _ _ _ _ _ Hu2). cbn [mbind outcome_bind].
  destruct (recolor_node s Red h2 C d2 _ _ _ _ H2) as (h3 & E3 & H3 & K3).
  unfold ngx_rbt_red. rewrite (E3 : set_color h2 g 1 = _). cbn [mbind outcome_bind].
  pose proof (two_up_ok _ _ _ _ _ _ _ _ _ _ _ _ _ _ _ H3) as Hu3.
  rewrite (tu_grandparent _ _ _ _ _ _ _ _ Hu3). cbn [mbind outcome_bind].
  exists h3. split; [done|]. split; [done|].
  chain_keeps.
Qed.

(** The end of the black-uncle case: the grandparent goes down. *)
Definition insert_last (d : dir) (h : heap) (x : Z) : outcome (heap * Z) :=
  p ← get h_parent h x; h ← ngx_rbt_black h p;
  g ← grandparent h x; h ← ngx_rbt_red h g;
  g ← grandparent h x; h ← rotate s (opp d) h g; Ok (h, x).

Lemma insert_last_ok h C d1 d a x e p b g u :
  let t := node d1 Red a x e in
  holds_tree s h (plug C (node d Black (node d Red t p b) g u)) ->
  exists h', insert_last d h x = Ok (h', x) /\
    holds_tree s h' (plug C (node d Black t p (node d Red b g u))) /\
    keeps s (inorder (plug C (node d Black (node d Red t p b) g u))) h h'.
Proof.
  intros t H. unfold insert_last. pose proof (two_up_ok _ _ _ _ _ _ _ _ _ _ _ _ _ _ _ H) as Hu.
  rewrite (tu_parent _ _ _ _ _ _ _ _ Hu). cbn [mbind outcome_bind].
  destruct (recolor_node s Black h (mk_frame d Black g u :: C) d _ _ _ _ H) as (h1 & E1 & H1 & K1).
  unfold ngx_rbt_black. rewrite (E1 : set_color h p 0 = _). cbn [mbind outcome_bind]. open_frame in H1.
  pose proof (two_up_ok _ _ _ _ _ _ _ _ _ _ _ _ _ _ _ H1) as Hu1.
  rewrite (tu_grandparent _ _ _ _ _ _ _ _ Hu1). cbn [mbind outcome_bind].
  destruct (recolor_node s Red h1 C d _ _ _ _ H1) as (h2 & E2 & H2 & K2).
  unfold ngx_rbt_red. rewrite (E2 : set_color h1 g 1 = _). cbn [mbind outcome_bind].
  pose proof (two_up_ok _ _ _ _ _ _ _ _ _ _ _ _ _ _ _ H2) as Hu2.
  rewrite (tu_grandparent _ _ _ _ _ _ _ _ Hu2). cbn [mbind outcome_bind].
  pose proof H2 as H2'.
  rewrite <- !(node_opp d) in H2'.
  destruct (rotate_ok s _ _ _ _ _ _ _ _ _ _ H2') as (h3 & E3 & H3 & K3 & _).
  rewrite E3. cbn [mbind outcome_bind]. exists h3. split; [done|].
  rewrite !(node_opp d) in H3. split; [done|].
  subst t. chain_keeps.
Qed.

(** What a step does with a black uncle: the new focus is red, under a black node. *)
Lemma black_uncle_ok h C d1 p b d g u c l x r :
  let t := plug [mk_frame d1 Red p b; mk_frame d Black g u] (T Red l x r) in
  c = Black -> root_color u = c -> holds_tree s h (plug C t) ->
  exists h' l' x' r' q v, insert_fix_step s h x = Ok (h', x') /\
    let t' := node d Black (T Red l' x' r') q v in
    holds_tree s h' (plug C t') /\ keeps s (inorder (plug C t)) h h' /\ inorder t' = inorder t /\
    (forall n, rb Black n l -> rb Black n r -> rb Black n b -> rb Black n u ->
     rb Black n l' /\ rb Black n r' /\ rb Red n v).
Proof.
  intros t -> Hc H. subst t. open_frame in H.
  pose proof (two_up_ok _ _ _ _ _ _ _ _ _ _ L Red l x r H) as Hu.
  rewrite (insert_fix_step_side _ _ _ _ _ _ _ _ Hu).
  assert (Er : ngx_rbt_is_red h (ptr s u) = Ok false).
  { pose proof H as Hv. rewrite <- node_opp in Hv.
    rewrite (is_red_focus s h (mk_frame (opp d) Black g (node d1 Red (T Red l x r) p b) :: C) u Hv), Hc. done. }
  unfold insert_side. rewrite (tu_grandparent _ _ _ _ _ _ _ _ Hu). cbn [mbind outcome_bind].
  rewrite (tu_uncle _ _ _ _ _ _ _ _ Hu). cbn [mbind outcome_bind]. rewrite Er. cbn [mbind outcome_bind].
  rewrite (tu_parent _ _ _ _ _ _ _ _ Hu). cbn [mbind outcome_bind].
  destruct (decide (d1 = d)) as [->|Hd].
  - rewrite (tu_other _ _ _ _ _ _ _ _ Hu). cbn [mbind outcome_bind].
    rewrite (proj2 (Z.eqb_neq _ _) (tu_other_ne _ _ _ _ _ _ _ _ Hu)). cbn [mbind outcome_bind].
    destruct (insert_last_ok h C L d l x r p b g u H) as (h' & E' & H' & K').
    exists h', l, x, r, p, (node d Red b g u). split; [exact E'|]. open_frame.
    split; [exact H'|]. split; [exact K'|]. split; [|intros; split_and!; auto using node_red].
    destruct d; cbn; by rewrite <- ?app_assoc.
  - assert (d1 = opp d) as -> by (destruct d, d1; done).
    rewrite (tu_side _ _ _ _ _ _ _ _ Hu). cbn [mbind outcome_bind]. rewrite Z.eqb_refl.
    assert (exists a e, T Red l x r = node d Red a x e /\ (a = l /\ e = r \/ a = r /\ e = l)) as (a & e & Et & Hae).
    { destruct d; eexists _, _; (split; [reflexivity|auto]). }
    rewrite Et, node_opp in H. destruct (rotate_ok s d h (mk_frame d Black g u :: C) _ _ _ _ _ _ _ H) as (h1 & E1 & H1 & K1 & _).
    rewrite E1. cbn [mbind outcome_bind]. open_frame in H1.
    destruct (insert_last_ok h1 C d d b p a x e g u H1) as (h' & E' & H' & K').
    assert (exists l' r', node d Red b p a = T Red l' p r' /\ (l' = a /\ r' = b \/ l' = b /\ r' = a)) as (l' & r' & Et' & Hlr).
    { destruct d; eexists _, _; (split; [reflexivity|auto]). }
    exists h', l', p, r', x, (node d Red e g u). split; [exact E'|]. rewrite <- Et'. split; [exact H'|].
    open_frame. rewrite Et, node_opp. split; [|split].
    + chain_keeps.
    + destruct d; cbn; repeat first [rewrite <- !app_assoc | progress cbn [app]]; done.
    + intros n Hl Hr Hb Hv. destruct Hae as [[-> ->]|[-> ->]], Hlr as [[-> ->]|[-> ->]]; auto using node_red.
Qed.

(** The test of the loop. *)
Lemma insert_fix_test h C c l x r :
  holds_tree s h (plug C (T c l x r)) ->
  (if negb (x =? h_root h) then p ← get h_parent h x; ngx_rbt_is_red h p else Ok false) =
  Ok (match C with [] => false | f :: _ => bool_decide (f_color f = Red) end).
Proof.
  intros H. rewrite (ht_root _ _ _ H). destruct C as [|[d c1 p b] C]; [cbn; by rewrite Z.eqb_refl|].
  rewrite (proj2 (Z.eqb_neq _ _)). 2:{
    intros E. destruct (focus_nodup _ _ _ _ H) as (_ & Hout & _). apply (Hout x); [cbn; set_solver|].
    rewrite E at 1. by apply root_in_ctx. }
  cbn [negb]. rewrite (read_parent _ _ _ _ _ _ _ H p eq_refl). cbn [mbind outcome_bind f_color].
  pose proof H as Hp. open_frame in Hp. pose proof (is_red_focus _ _ _ _ Hp) as Er.
  rewrite ptr_node in Er. rewrite Er. by destruct d.
Qed.

Lemma insert_fix_ok fuel h C l x r n :
  holds_tree s h (plug C (T Red l x r)) -> rb Black n l -> rb Black n r -> rbc Black n C ->
  (length C < fuel)%nat ->
  exists h' t', insert_fix s fuel h x = Ok h' /\ holds_tree s h' t' /\ keeps s (inorder (plug C (T Red l x r))) h h' /\
    inorder t' = inorder (plug C (T Red l x r)) /\ rb_tree (paint Black t').
Proof.
  revert h C l x r n. induction fuel as [|fuel IH]; intros h C l x r n H Hl Hr HC Hf; [lia|].
  assert (Hred : rb Red n (T Red l x r)) by (by constructor).
  cbn [insert_fix]. rewrite (insert_fix_test _ _ _ _ _ _ H). cbn [mbind outcome_bind].
  assert (Hstop : rbc Red n C -> rb_tree (paint Black (plug C (T Red l x r)))).
  { intros HC'. destruct (rb_plug _ _ _ _ Hred HC') as [m Hm]. by eapply rb_paint, rb_any_of. }
  inversion HC as [m|m d p b C1 Hb HC1|c m d p b cb C1 Hb HC1]; subst; cbn [f_color].
  - exists h, (T Red l x r). split_and!; try done. by eapply rb_paint, rb_any_of.
  - rewrite bool_decide_true by done. inversion HC1 as [| |c m d2 g u cu C2 Hu HC2]; subst.
    destruct (root_color u) eqn:Eu.
    + destruct u as [|[] ul v ur]; [done| |done]. assert (cu = Red) as -> by (by inversion Hu). inversion Hu; subst.
      open_frame in H. destruct (red_uncle_ok h C2 d p b d2 g ul v ur L l x r H) as (h1 & E1 & H1 & K1).
      rewrite E1. cbn [mbind outcome_bind].
      assert (exists l' r', node d2 Red (node d Black (T Red l x r) p b) g (T Black ul v ur) = T Red l' g r' /\
        rb Black (S n) l' /\ rb Black (S n) r') as (l' & r' & Et & Hl' & Hr').
      { assert (rb Black (S n) (node d Black (T Red l x r) p b)) by (apply node_black; by eapply rb_any_of).
        assert (rb Black (S n) (T Black ul v ur)) by (by econstructor). destruct d2; eauto. }
      change (node L Red l x r) with (T Red l x r) in H1. rewrite Et in H1. cbn [length] in Hf.
      destruct (IH h1 C2 l' g r' (S n) H1 Hl' Hr' HC2 ltac:(lia)) as (h' & t' & E' & H' & K' & I' & R').
      assert (Ei : inorder (plug (mk_frame d Red p b :: mk_frame d2 Black g (T Red ul v ur) :: C2) (T Red l x r)) =
        inorder (plug C2 (T Red l' g r'))) by (rewrite <- Et; by same_nodes).
      exists h', t'. split_and!; [done|done| |by rewrite Ei|done]. by eapply keeps_trans; [|exact K1|exact K']; rewrite <- Ei.
    + change (mk_frame d Red p b :: mk_frame d2 Black g u :: C2) with ([mk_frame d Red p b; mk_frame d2 Black g u] ++ C2) in *.
      rewrite plug_app in *. destruct (black_uncle_ok h C2 d p b d2 g u Black l x r eq_refl Eu H)
        as (h1 & l' & x' & r' & q & v & E1 & H1 & K1 & I1 & Hrb).
      rewrite E1. cbn [mbind outcome_bind].
      assert (cu = Black) as -> by (by rewrite <- Eu, (rb_color _ _ _ Hu)).
      destruct (Hrb n Hl Hr Hb Hu) as (Hl' & Hr' & Hv).
      rewrite length_app in Hf. cbn [length] in Hf.
      destruct (IH h1 (mk_frame d2 Black q v :: C2) l' x' r' n H1 Hl' Hr' ltac:(by econstructor) ltac:(cbn; lia))
        as (h' & t' & E' & H' & K' & I' & R').
      assert (Ei : inorder (plug C2 (plug [mk_frame d Red p b; mk_frame d2 Black g u] (T Red l x r))) =
        inorder (plug (mk_frame d2 Black q v :: C2) (T Red l' x' r'))).
      { open_frame. symmetry. apply plug_nodes_same, I1. }
      exists h', t'. split_and!; [done|done| |by rewrite Ei|done]. by eapply keeps_trans; [|exact K1|exact K']; rewrite <- Ei.
  - rewrite bool_decide_false by done. eexists h, _. split_and!; [done|done|by apply keeps_refl|done|].
    apply Hstop. by econstructor.
Qed.

(** * ngx_rbtree_insert *)

Lemma insert_empty_ok ins h z :
  holds_tree s h E -> fresh_node s h [] z ->
  exists h', ngx_rbtree_insert s ins h z = Ok h' /\ holds_tree s h' (T Black E z E) /\ keeps s [z] h h'.
Proof.
  intros H [Ho Hs Fl Fr Fp Fc Fk]. unfold ngx_rbtree_insert. rewrite (ht_root _ _ _ H). cbn [ptr]. rewrite Z.eqb_refl.
  unfold set_parent. rewrite store_at_some by done. cbn [mbind outcome_bind]. unfold set_left. rewrite store_at_some by done.
  cbn [mbind outcome_bind]. unfold set_right. rewrite store_at_some by done. cbn [mbind outcome_bind].
  unfold ngx_rbt_black, set_color. rewrite store_at_some by done. cbn [mbind outcome_bind]. eexists. split; [reflexivity|].
  split; split; try done; cbn.
  - split; [|done]. split; cbn; try done; by rewrite lookup_insert_eq.
  - apply NoDup_singleton.
  - by rewrite list_elem_of_singleton.
  - rewrite lookup_insert_ne by done. apply (ht_black _ _ _ H).
  - rewrite lookup_insert_ne by done. apply (ht_parent _ _ _ H).
  - intros y Hy%not_elem_of_cons Hys. split; cbn; by rewrite ?lookup_insert_ne by (destruct Hy; done).
  - by rewrite lookup_insert_ne.
Qed.

(** Insertion with any [tree->insert] that has the interface. *)
Lemma insert_run ins bf (Hfn : InsertFn ins bf) h t z :
  holds_tree s h t -> rb_tree t -> fresh_node s h (inorder t) z -> ordered (bf h z) (inorder t) ->
  exists h' t' l1 l2, ngx_rbtree_insert s ins h z = Ok h' /\ holds_tree s h' t' /\ rb_tree t' /\
    inorder t = l1 ++ l2 /\ inorder t' = l1 ++ z :: l2 /\
    Forall (fun y => bf h z y = false) l1 /\ Forall (fun y => bf h z y = true) l2 /\ keeps s (z :: inorder t) h h'.
Proof.
  intros H Hrb Hf Ho. assert (t = E \/ t <> E) as [->|Hne] by (destruct t; auto).
  { destruct (insert_empty_ok ins h z H Hf) as (h' & Er & H' & K).
    exists h', (T Black E z E), [], []. split_and!; try done. exists 1%nat. econstructor; constructor. }
  destruct (Hfn h t z Hne H Hf) as (d & c & p & b & C & h1 & Ed & E1 & H1 & K1).
  destruct (descend_split (bf h z) [] t Ho) as (l1 & l2 & Et & B & A & F1 & F2).
  pose proof (descend_plug (bf h z) [] t) as Hp. change (plug [] t) with t in Hp.
  rewrite Ed in Hp, A, B. remember (mk_frame d c p b :: C) as F eqn:EF. clear EF Ed.
  cbn [before after app] in A, B. rewrite app_nil_r in A.
  rewrite <- Hp in Hrb. apply rb_plug_inv in Hrb as (cc & n & HE & HC). inversion HE; subst cc n.
  assert (Hsteps : (length F < steps h1)%nat).
  { pose proof (nodes_in_steps _ _ H1). pose proof (ctx_length F (T Red E z E)) as Hc.
    cbn [inorder app length] in Hc. lia. }
  destruct (insert_fix_ok (steps h1) h1 F E z E 0 H1 rb_E rb_E HC Hsteps) as (h2 & t2 & E2 & H2 & K2 & I2 & R2).
  destruct (blacken_ok s h2 [] t2 H2) as (h3 & E3 & H3 & K3).
  exists h3, (paint Black t2), l1, l2. unfold ngx_rbtree_insert.
  rewrite (proj2 (Z.eqb_neq _ _)) by (rewrite (ht_root _ _ _ H); intros E; apply (ht_sentinel _ _ _ H);
    rewrite <- E; by apply ptr_in).
  rewrite (ht_root _ _ _ H), E1. cbn [mbind outcome_bind]. rewrite E2. cbn [mbind outcome_bind].
  rewrite (ht_root _ _ _ H2), E3. rewrite inorder_plug in I2. cbn [inorder app] in I2. rewrite A, B in I2.
  split_and!; try done; [by rewrite paint_inorder|].
  assert (Hperm : z :: inorder t ≡ₚ l1 ++ z :: l2) by (rewrite Et; by rewrite Permutation_middle).
  eapply keeps_trans; [|exact K1|eapply keeps_trans; [|exact K2|exact K3]].
  - rewrite inorder_plug. cbn [inorder app]. by rewrite A, B.
  - rewrite inorder_plug. cbn [inorder plug app]. rewrite A, B. by rewrite I2.
Qed.
End insert.
