(* ===== verification/RbTreeDelete.v ===== *)
(** Component "red-black tree", continued: the fixup of ngx_rbtree_delete. *)

From stdpp Require Import base numbers list option gmap sorting.
From Stdlib Require Import ZArith Lia.
From S2P Require Import Prelude RbTree RbTreeShape RbTreeInsert.
Local Open Scope Z_scope.

(** A subtree that is to have [S n] black nodes on each path: it has one less, or its
    root is red and to be black. *)
Definition short (n : nat) (t : tree) : Prop :=
  match root_color t with Red => rb Black (S n) (paint Black t) | Black => rb Black n t end.

Lemma short_any n t : rb_any n t -> short n t.
Proof.
  intros [c H]. unfold short. rewrite (rb_color _ _ _ H). destruct H; [constructor| |by econstructor].
  cbn. by econstructor.
Qed.

Lemma rb_any_paint n t : rb_any n t -> root_color t = Red -> rb Black (S n) (paint Black t).
Proof. intros H E. pose proof (short_any _ _ H) as Hs. unfold short in Hs. by rewrite E in Hs. Qed.

(** A tree with at least one black node on each path is a node. *)
Lemma rb_node d n t : rb Black (S n) t -> exists a w b, t = node d Black a w b /\ rb_any n a /\ rb_any n b.
Proof.
  inversion 1; subst. destruct d; eexists _, _, _; (split; [reflexivity|]); split; by eapply rb_any_of.
Qed.

Lemma rb_red_node d n t : rb Red n t -> exists a w b, t = node d Red a w b /\ rb Black n a /\ rb Black n b.
Proof. inversion 1; subst. destruct d; eexists _, _, _; (split; [reflexivity|]); by split. Qed.

Lemma node_color d c a x b : root_color (node d c a x b) = c.
Proof. by destruct d. Qed.
Lemma paint_node d c c' a x b : paint c' (node d c a x b) = node d c' a x b.
Proof. by destruct d. Qed.

Section delete.
Context (s : Z).

(** ** A focus with its parent

    The fixup goes up from [temp], whose parent is set also when it is the sentinel. *)
Record holds_focus (h : heap) (C : ctx) (t : tree) : Prop := {
  hf_tree : holds_tree s h (plug C t);
  hf_parent : has_parent h (ctx_parent C) (ptr s t)
}.

Lemma focus_parent h C t p : holds_focus h C t -> ctx_parent C = Some p -> get h_parent h (ptr s t) = Ok p.
Proof. intros [_ H] E. rewrite E in H. by apply get_ok. Qed.

Lemma focus_intro h C t :
  holds_tree s h (plug C t) -> (t = E -> has_parent h (ctx_parent C) s) -> holds_focus h C t.
Proof.
  intros H Hs. split; [done|]. destruct t as [|c l x r]; [by apply Hs|]. apply (cell_parent _ _ _ _ _ _ (focus_cell _ _ _ _ _ _ _ H)).
Qed.

Lemma focus_keep N h h' C C' t :
  holds_focus h C t -> keeps s N h h' -> ctx_parent C' = ctx_parent C -> holds_tree s h' (plug C' t) ->
  holds_focus h' C' t.
Proof.
  intros [_ Hp] [_ _ Hs] EC H. apply focus_intro; [done|]. intros ->. cbn [ptr] in Hp. rewrite EC.
  destruct (ctx_parent C); cbn in *; by rewrite Hs.
Qed.

(** ** The parts of the loop's body *)

Definition fix_red_sibling (d : dir) (red : bool) (h : heap) (temp w : Z) : outcome (heap * Z) :=
  if red then
    h ← ngx_rbt_black h w;
    p ← get h_parent h temp; h ← ngx_rbt_red h p;
    p ← get h_parent h temp; h ← rotate s d h p;
    p ← get h_parent h temp; w ← get (child (opp d)) h p; Ok (h, w)
  else Ok (h, w).

Definition fix_near_child (d : dir) (br : bool) (h : heap) (temp w : Z) : outcome (heap * Z) :=
  if br then
    l ← get (child d) h w; h ← ngx_rbt_black h l;
    h ← ngx_rbt_red h w;
    h ← rotate s (opp d) h w;
    p ← get h_parent h temp; w ← get (child (opp d)) h p; Ok (h, w)
  else Ok (h, w).

Definition fix_last (d : dir) (h : heap) (temp w : Z) : outcome (heap * Z) :=
  p ← get h_parent h temp; h ← ngx_rbt_copy_color h w p;
  p ← get h_parent h temp; h ← ngx_rbt_black h p;
  r ← get (child (opp d)) h w; h ← ngx_rbt_black h r;
  p ← get h_parent h temp; h ← rotate s d h p;
  Ok (h, h_root h).

Definition fix_black_sibling (d : dir) (h : heap) (temp w : Z) : outcome (heap * Z) :=
  l ← get h_left h w; bl ← ngx_rbt_is_black h l;
  both ← (if (bl : bool) then r ← get h_right h w; ngx_rbt_is_black h r else Ok false);
  if (both : bool) then
    h ← ngx_rbt_red h w; p ← get h_parent h temp; Ok (h, p)
  else
    r ← get (child (opp d)) h w; br ← ngx_rbt_is_black h r;
    '(h, w) ← fix_near_child d br h temp w;
    fix_last d h temp w.

Definition delete_side (d : dir) (h : heap) (temp : Z) : outcome (heap * Z) :=
  p ← get h_parent h temp; w ← get (child (opp d)) h p;
  red ← ngx_rbt_is_red h w;
  '(h, w) ← fix_red_sibling d red h temp w;
  fix_black_sibling d h temp w.

Lemma delete_fix_step_eq h temp :
  delete_fix_step s h temp =
    (p ← get h_parent h temp; l ← get h_left h p;
     if temp =? l then delete_side L h temp else delete_side R h temp).
Proof. reflexivity. Qed.

(** The side is found by the first reads. *)
Lemma delete_fix_step_side h d c p C t u :
  holds_focus h (mk_frame d c p u :: C) t -> u <> E ->
  delete_fix_step s h (ptr s t) = delete_side d h (ptr s t).
Proof.
  intros H Hu. rewrite delete_fix_step_eq, (focus_parent _ _ _ p H eq_refl). cbn [mbind outcome_bind].
  pose proof (hf_tree _ _ _ H) as Ht. open_frame in Ht.
  destruct (read_child _ _ _ _ _ _ _ _ Ht) as [E1 E2]. destruct d; cbn [child opp] in *.
  - rewrite E1. cbn [mbind outcome_bind]. by rewrite Z.eqb_refl.
  - rewrite E2. cbn [mbind outcome_bind]. rewrite (proj2 (Z.eqb_neq _ _)); [done|].
    rewrite <- (node_opp R) in Ht. intros Ee. by apply (ptr_ne _ _ _ _ _ _ _ _ Ht Hu).
Qed.

(** A red sibling goes up, and its near child becomes the sibling. *)
Lemma red_sibling_ok h d p C t a w b :
  holds_focus h (mk_frame d Black p (node d Red a w b) :: C) t ->
  exists h', fix_red_sibling d true h (ptr s t) w = Ok (h', ptr s a) /\
    holds_focus h' (mk_frame d Red p a :: mk_frame d Black w b :: C) t /\
    keeps s (inorder (plug (mk_frame d Black p (node d Red a w b) :: C) t)) h h'.
Proof.
  intros H. unfold fix_red_sibling. pose proof (hf_tree _ _ _ H) as H0. open_frame in H0.
  rewrite <- node_opp in H0.
  destruct (recolor_node s Black h (mk_frame (opp d) Black p t :: C) d _ _ _ _ H0) as (h1 & E1 & H1 & K1).
  unfold ngx_rbt_black, ngx_rbt_red. rewrite (E1 : set_color h w 0 = _). cbn [mbind outcome_bind].
  open_frame in H1. rewrite node_opp in H1.
  assert (F1 : holds_focus h1 (mk_frame d Black p (node d Black a w b) :: C) t) by (by eapply focus_keep).
  rewrite (focus_parent _ _ _ p F1 eq_refl). cbn [mbind outcome_bind].
  destruct (recolor_node s Red h1 C d _ _ _ _ H1) as (h2 & E2 & H2 & K2).
  rewrite (E2 : set_color h1 p 1 = _). cbn [mbind outcome_bind].
  assert (F2 : holds_focus h2 (mk_frame d Red p (node d Black a w b) :: C) t) by (by eapply focus_keep).
  rewrite (focus_parent _ _ _ p F2 eq_refl). cbn [mbind outcome_bind].
  destruct (rotate_ok s d _ _ _ _ _ _ _ _ _ H2) as (h3 & E3 & H3 & K3 & _).
  rewrite E3. cbn [mbind outcome_bind].
  assert (F3 : holds_focus h3 (mk_frame d Red p a :: mk_frame d Black w b :: C) t) by (by eapply focus_keep).
  rewrite (focus_parent _ _ _ p F3 eq_refl). cbn [mbind outcome_bind].
  pose proof (hf_tree _ _ _ F3) as H4. open_frame in H4.
  destruct (read_child s h3 (mk_frame d Black w b :: C) d _ _ _ _ H4) as [_ Ea]. rewrite Ea. cbn [mbind outcome_bind].
  exists h3. split; [done|]. split; [done|].
  chain_keeps.
Qed.

(** A black sibling with a red near child and a black far child: the near child goes up. *)
Lemma near_child_ok h d c p C t a y e w b :
  holds_focus h (mk_frame d c p (node d Black (node d Red a y e) w b) :: C) t ->
  exists h', fix_near_child d true h (ptr s t) w = Ok (h', y) /\
    holds_focus h' (mk_frame d c p (node d Black a y (node d Red e w b)) :: C) t /\
    keeps s (inorder (plug (mk_frame d c p (node d Black (node d Red a y e) w b) :: C) t)) h h'.
Proof.
  intros H. unfold fix_near_child. pose proof (hf_tree _ _ _ H) as H0. open_frame in H0. rewrite <- node_opp in H0.
  destruct (read_child s h (mk_frame (opp d) c p t :: C) d _ _ _ _ H0) as [Ey _]. rewrite ptr_node in Ey.
  rewrite Ey. cbn [mbind outcome_bind].
  destruct (recolor_node s Black h (mk_frame d Black w b :: mk_frame (opp d) c p t :: C) d _ _ _ _ H0) as (h1 & E1 & H1 & K1).
  unfold ngx_rbt_black, ngx_rbt_red. rewrite (E1 : set_color h y 0 = _). cbn [mbind outcome_bind].
  destruct (recolor_node s Red h1 (mk_frame (opp d) c p t :: C) d _ _ _ _ H1) as (h2 & E2 & H2 & K2).
  rewrite (E2 : set_color h1 w 1 = _). cbn [mbind outcome_bind].
  pose proof H2 as H2'. cbn [f_color f_dir f_node f_sib] in H2'. rewrite <- !(node_opp d) in H2'.
  destruct (rotate_ok s (opp d) h2 (mk_frame (opp d) c p t :: C) _ _ _ _ _ _ _ H2') as (h3 & E3 & H3 & K3 & _).
  rewrite E3. cbn [mbind outcome_bind]. open_frame in H3. rewrite !(node_opp d) in H3.
  assert (K : keeps s (inorder (plug (mk_frame d c p (node d Black (node d Red a y e) w b) :: C) t)) h h3) by chain_keeps.
  assert (F3 : holds_focus h3 (mk_frame d c p (node d Black a y (node d Red e w b)) :: C) t) by (by eapply focus_keep).
  rewrite (focus_parent _ _ _ p F3 eq_refl). cbn [mbind outcome_bind].
  destruct (read_child s h3 C d _ _ _ _ H3) as [_ Ea]. rewrite Ea. cbn [mbind outcome_bind]. rewrite ptr_node.
  by exists h3.
Qed.

(** A black sibling with a red far child: the parent goes down. *)
Lemma fix_last_ok h d c p C t a w b :
  holds_focus h (mk_frame d c p (node d Black a w b) :: C) t ->
  exists h', fix_last d h (ptr s t) w = Ok (h', h_root h') /\
    holds_tree s h' (plug C (node d c (node d Black t p a) w (paint Black b))) /\
    keeps s (inorder (plug (mk_frame d c p (node d Black a w b) :: C) t)) h h'.
Proof.
  intros H. unfold fix_last. rewrite (focus_parent _ _ _ p H eq_refl). cbn [mbind outcome_bind].
  pose proof (hf_tree _ _ _ H) as H0. open_frame in H0.
  unfold ngx_rbt_copy_color. rewrite (read_node_color _ _ _ _ _ _ _ _ H0). cbn [mbind outcome_bind].
  rewrite <- node_opp in H0.
  destruct (recolor_node s c h (mk_frame (opp d) c p t :: C) d _ _ _ _ H0) as (h1 & E1 & H1 & K1).
  rewrite E1. cbn [mbind outcome_bind]. open_frame in H1. rewrite node_opp in H1.
  assert (F1 : holds_focus h1 (mk_frame d c p (node d c a w b) :: C) t) by (by eapply focus_keep).
  rewrite (focus_parent _ _ _ p F1 eq_refl). cbn [mbind outcome_bind].
  destruct (recolor_node s Black h1 C d _ _ _ _ H1) as (h2 & E2 & H2 & K2).
  unfold ngx_rbt_black. rewrite (E2 : set_color h1 p 0 = _). cbn [mbind outcome_bind].
  assert (F2 : holds_focus h2 (mk_frame d Black p (node d c a w b) :: C) t) by (by eapply focus_keep).
  assert (H2' : holds_tree s h2 (plug (mk_frame (opp d) c w a :: mk_frame (opp d) Black p t :: C) b)).
  { open_frame. by rewrite !node_opp. }
  pose proof H2 as H2n. rewrite <- node_opp in H2n.
  destruct (read_child s h2 (mk_frame (opp d) Black p t :: C) d _ _ _ _ H2n) as [_ Eb]. rewrite Eb. cbn [mbind outcome_bind].
  destruct (blacken_ok s h2 _ _ H2') as (h3 & E3 & H3 & K3). unfold ngx_rbt_black in E3. rewrite E3. cbn [mbind outcome_bind].
  open_frame in H3. rewrite !node_opp in H3.
  assert (F3 : holds_focus h3 (mk_frame d Black p (node d c a w (paint Black b)) :: C) t).
  { eapply focus_keep; [exact F2|exact K3|reflexivity|exact H3]. }
  rewrite (focus_parent _ _ _ p F3 eq_refl). cbn [mbind outcome_bind].
  destruct (rotate_ok s d _ _ _ _ _ _ _ _ _ H3) as (h4 & E4 & H4 & K4 & _).
  rewrite E4. cbn [mbind outcome_bind]. exists h4. split; [done|]. split; [done|].
  chain_keeps.
Qed.

(** ** The loop *)

(** The black nodes up to the parent's level. *)
Definition up (c : color) (n : nat) : nat := match c with Red => n | Black => S n end.

Lemma rbc_frame n d c p u C :
  rbc Black (S n) (mk_frame d c p u :: C) -> rb_any (S n) u /\ (c = Red -> rb Black (S n) u) /\ rbc c (up c (S n)) C.
Proof. inversion 1; subst; (split; [by eapply rb_any_of|]); split; done. Qed.

Lemma rbc_up n c C : rbc c (up c (S n)) C -> rbc Black (S (up c n)) C.
Proof. destruct c; [apply rbc_any|done]. Qed.

(** The state of the loop: the focus is one short, or all is done. *)
Definition fixing (h : heap) (C : ctx) (t : tree) : Prop :=
  holds_focus h C t /\ ((exists n, short n t /\ rbc Black (S n) C) \/ C = [] /\ rb_tree t).

(** A bound of the steps that are left. *)
Definition steps_left (C : ctx) (t : tree) : nat := match root_color t with Red => 0 | Black => length C end.

Lemma steps_left_nil t : steps_left [] t = 0%nat.
Proof. unfold steps_left. by destruct (root_color t). Qed.

Lemma fixing_whole h t : holds_tree s h t -> rb_tree t -> fixing h [] t.
Proof.
  intros H Hr. split; [|by right]. apply focus_intro; [done|]. intros _. apply (ht_parent _ _ _ H).
Qed.

Lemma is_black_child h C d c a x b :
  holds_tree s h (plug C (node d c a x b)) ->
  ngx_rbt_is_black h (ptr s a) = Ok (bool_decide (root_color a = Black)) /\
  ngx_rbt_is_black h (ptr s b) = Ok (bool_decide (root_color b = Black)).
Proof.
  intros H. split; [apply (is_black_focus s h (mk_frame d c x b :: C)), H|].
  apply (is_black_focus s h (mk_frame (opp d) c x a :: C)). open_frame. by rewrite node_opp.
Qed.

(** The test of both children, which is the same on both sides. *)
Lemma both_black_ok h C d c a x b :
  holds_tree s h (plug C (node d c a x b)) ->
  (l ← get h_left h x; bl ← ngx_rbt_is_black h l;
   if (bl : bool) then r ← get h_right h x; ngx_rbt_is_black h r else Ok false) =
  Ok (bool_decide (root_color a = Black) && bool_decide (root_color b = Black)).
Proof.
  intros H. destruct (read_child _ _ _ _ _ _ _ _ H) as [E1 E2]. destruct (is_black_child _ _ _ _ _ _ _ H) as [B1 B2].
  destruct d; cbn [child opp] in *; rewrite ?E1, ?E2; cbn [mbind outcome_bind]; rewrite ?B1, ?B2; cbn [mbind outcome_bind].
  - by destruct (bool_decide (root_color a = Black)), (bool_decide (root_color b = Black)).
  - by destruct (bool_decide (root_color a = Black)), (bool_decide (root_color b = Black)).
Qed.

(** The result of a step with a black sibling. *)
Definition step_result (h : heap) (c : color) (C : ctx) (t : tree) (r : outcome (heap * Z)) : Prop :=
  exists h' C' t', r = Ok (h', ptr s t') /\ fixing h' C' t' /\ inorder (plug C' t') = inorder (plug C t) /\
    keeps s (inorder (plug C t)) h h' /\ (steps_left C' t' <= match c with Red => 0 | Black => length C end)%nat.

Lemma both_black_result h d c p C t a w b n :
  holds_focus h (mk_frame d c p (node d Black a w b) :: C) t -> rb Black n t -> rb Black n a -> rb Black n b ->
  rbc c (up c (S n)) C ->
  step_result h c C (node d c t p (node d Black a w b))
    (h ← ngx_rbt_red h w; p ← get h_parent h (ptr s t); Ok (h, p)).
Proof.
  intros H Ht Ha Hb HC. pose proof (hf_tree _ _ _ H) as H0. open_frame in H0. rewrite <- node_opp in H0.
  destruct (recolor_node s Red h (mk_frame (opp d) c p t :: C) d _ _ _ _ H0) as (h1 & E1 & H1 & K1).
  unfold ngx_rbt_red. rewrite (E1 : set_color h w 1 = _). cbn [mbind outcome_bind]. open_frame in H1. rewrite node_opp in H1.
  assert (F1 : holds_focus h1 (mk_frame d c p (node d Red a w b) :: C) t) by (by eapply focus_keep).
  rewrite (focus_parent _ _ _ p F1 eq_refl). cbn [mbind outcome_bind].
  exists h1, C, (node d c t p (node d Red a w b)). rewrite ptr_node. split; [done|].
  assert (Hred : rb Red n (node d Red a w b)) by (by apply node_red).
  split; [split; [apply focus_intro; [done|by destruct d]|left; exists (up c n)]|].
  { split; [|by apply rbc_up]. unfold short. rewrite node_color, paint_node.
    destruct c; apply node_black; by eapply rb_any_of. }
  split; [by same_nodes|]. split; [chain_keeps|]. unfold steps_left. rewrite node_color. by destruct c.
Qed.

Lemma fix_last_result h d c p C t a w b n :
  holds_focus h (mk_frame d c p (node d Black a w b) :: C) t -> rb Black n t -> rb_any n a -> rb_any n b ->
  root_color b = Red -> rbc c (up c (S n)) C ->
  step_result h c C (node d c t p (node d Black a w b)) (fix_last d h (ptr s t) w).
Proof.
  intros H Ht Ha Hb Hred HC. destruct (fix_last_ok _ _ _ _ _ _ _ _ _ H) as (h' & E' & H' & K').
  exists h', [], (plug C (node d c (node d Black t p a) w (paint Black b))).
  rewrite E', (ht_root _ _ _ H'). split; [done|]. split; [|split; [|split; [chain_keeps|]]].
  - apply fixing_whole; [done|]. apply (rb_plug c (up c (S n))); [|done].
    assert (rb Black (S n) (node d Black t p a)) by (apply node_black; [by eapply rb_any_of|done]).
    pose proof (rb_any_paint _ _ Hb Hred).
    destruct c; [by apply node_red|]. apply node_black; by eapply rb_any_of.
  - by same_nodes.
  - rewrite steps_left_nil. lia.
Qed.

Lemma step_result_trans h h1 c C t t1 r :
  keeps s (inorder (plug C t)) h h1 -> inorder t1 = inorder t -> step_result h1 c C t1 r -> step_result h c C t r.
Proof.
  intros K Ei (h' & C' & t' & Er & F & Ei' & K' & Hs). pose proof (plug_nodes_same C _ _ Ei) as Ep.
  exists h', C', t'. split; [done|]. split; [done|]. split; [congruence|]. split; [|done].
  eapply keeps_trans; [reflexivity|exact K|]. by rewrite <- Ep.
Qed.

Lemma black_sibling_result h d c p C t a w b n :
  holds_focus h (mk_frame d c p (node d Black a w b) :: C) t -> rb Black n t -> rb_any n a -> rb_any n b ->
  rbc c (up c (S n)) C ->
  step_result h c C (node d c t p (node d Black a w b)) (fix_black_sibling d h (ptr s t) w).
Proof.
  intros H Ht Ha Hb HC. unfold fix_black_sibling. pose proof (hf_tree _ _ _ H) as H0. open_frame in H0.
  rewrite <- (node_opp d c) in H0. change (holds_tree s h (plug (mk_frame (opp d) c p t :: C) (node d Black a w b))) in H0.
  pose proof (both_black_ok _ _ _ _ _ _ _ H0) as Eb. destruct (read_child _ _ _ _ _ _ _ _ H0) as [_ Er].
  destruct (is_black_child _ _ _ _ _ _ _ H0) as [_ Bb].
  assert (Hbind : forall (k : bool -> outcome (heap * Z)),
    (l ← get h_left h w; bl ← ngx_rbt_is_black h l;
     both ← (if (bl : bool) then r ← get h_right h w; ngx_rbt_is_black h r else Ok false); k both) =
    k (bool_decide (root_color a = Black) && bool_decide (root_color b = Black))).
  { intros k. revert Eb. destruct (get h_left h w) as [l| |]; [|done..]. cbn [mbind outcome_bind].
    destruct (ngx_rbt_is_black h l) as [bl| |]; [|done..]. cbn [mbind outcome_bind]. by intros ->. }
  rewrite Hbind. clear Hbind Eb. destruct (root_color b) eqn:Ecb.
  - rewrite (bool_decide_false (Red = Black)) in * by done. rewrite andb_false_r, Er. cbn [mbind outcome_bind]. rewrite Bb.
    cbn [mbind outcome_bind fix_near_child]. by apply (fix_last_result _ _ _ _ _ _ _ _ _ n).
  - rewrite (bool_decide_true (Black = Black)) in * by done. rewrite andb_true_r. destruct (root_color a) eqn:Eca.
    + rewrite bool_decide_false by done. rewrite Er. cbn [mbind outcome_bind]. rewrite Bb. cbn [mbind outcome_bind].
      destruct (rb_red_node d _ _ (rb_any_red _ _ Ha Eca)) as (a1 & y & e & -> & Ha1 & He).
      destruct (near_child_ok _ _ _ _ _ _ _ _ _ _ _ H) as (h1 & E1 & F1 & K1). rewrite E1. cbn [mbind outcome_bind].
      pose proof (rb_any_black _ _ Hb Ecb) as Hbb.
      apply (step_result_trans _ h1 _ _ _ (node d c t p (node d Black a1 y (node d Red e w b)))); [exact K1|by (destruct d; cbn [node inorder]; repeat first [rewrite <- !app_assoc | progress cbn [app]])|].
      apply (fix_last_result _ _ _ _ _ _ _ _ _ n); [done|done|by eapply rb_any_of| |apply node_color|done].
      eapply rb_any_of. by apply node_red.
    + rewrite bool_decide_true by done.
      apply (both_black_result _ _ _ _ _ _ _ _ _ n); [done|done|by apply rb_any_black..|done].
Qed.

Lemma delete_step_ok h d c p u C t n :
  holds_focus h (mk_frame d c p u :: C) t -> rb Black n t -> rbc Black (S n) (mk_frame d c p u :: C) ->
  exists h' C' t', delete_fix_step s h (ptr s t) = Ok (h', ptr s t') /\ fixing h' C' t' /\
    inorder (plug C' t') = inorder (plug (mk_frame d c p u :: C) t) /\
    keeps s (inorder (plug (mk_frame d c p u :: C) t)) h h' /\ (steps_left C' t' <= length C)%nat.
Proof.
  intros H Ht HC. destruct (rbc_frame _ _ _ _ _ _ HC) as (Hu & Hur & HC').
  assert (Hne : u <> E) by (intros ->; destruct Hu as [? Hu]; inversion Hu).
  rewrite (delete_fix_step_side _ _ _ _ _ _ _ H Hne). unfold delete_side.
  rewrite (focus_parent _ _ _ p H eq_refl). cbn [mbind outcome_bind].
  pose proof (hf_tree _ _ _ H) as H0. open_frame in H0. destruct (read_child _ _ _ _ _ _ _ _ H0) as [_ Er].
  rewrite Er. cbn [mbind outcome_bind].
  assert (Hred : ngx_rbt_is_red h (ptr s u) = Ok (bool_decide (root_color u = Red))).
  { apply (is_red_focus s h (mk_frame (opp d) c p t :: C)). open_frame. by rewrite node_opp. }
  rewrite Hred. cbn [mbind outcome_bind]. destruct (root_color u) eqn:Eu.
  - assert (c = Black) as -> by (destruct c; [|done]; specialize (Hur eq_refl); apply rb_color in Hur; congruence).
    rewrite bool_decide_true by done. destruct (rb_red_node d _ _ (rb_any_red _ _ Hu Eu)) as (a & w & b & -> & Ha & Hb).
    rewrite ptr_node. destruct (red_sibling_ok _ _ _ _ _ _ _ _ H) as (h1 & E1 & F1 & K1). rewrite E1. cbn [mbind outcome_bind].
    destruct (rb_node d _ _ Ha) as (a1 & w1 & b1 & -> & Ha1 & Hb1). rewrite ptr_node in *.
    assert (HC1 : rbc Red (up Red (S n)) (mk_frame d Black w b :: C)) by (apply frame_black; [by eapply rb_any_of|done]).
    destruct (black_sibling_result h1 d Red p _ t a1 w1 b1 n F1 Ht Ha1 Hb1 HC1) as (h' & C' & t' & E' & F' & I' & K' & Hs).
    exists h', C', t'. split; [done|]. split; [done|]. split; [rewrite I'; by same_nodes|]. split; [chain_keeps|lia].
  - rewrite bool_decide_false by done. cbn [fix_red_sibling mbind outcome_bind].
    destruct (rb_node d _ _ (rb_any_black _ _ Hu Eu)) as (a & w & b & -> & Ha & Hb). rewrite ptr_node.
    destruct (black_sibling_result h d c p C t a w b n H Ht Ha Hb HC') as (h' & C' & t' & E' & F' & I' & K' & Hs).
    exists h', C', t'. split_and!; try done. destruct c; lia.
Qed.

Lemma delete_fix_test h C t :
  holds_focus h C t ->
  (if negb (ptr s t =? h_root h) then ngx_rbt_is_black h (ptr s t) else Ok false) =
  Ok (match C with [] => false | _ => bool_decide (root_color t = Black) end).
Proof.
  intros [H _]. rewrite (ht_root _ _ _ H). destruct C as [|f C]; [cbn [plug]; by rewrite Z.eqb_refl|].
  rewrite (proj2 (Z.eqb_neq _ _)); [by apply is_black_focus in H|]. intros Ee.
  destruct (focus_nodup _ _ _ _ H) as (_ & Hout & _ & _ & Hsc).
  pose proof (root_in_ctx s (f :: C) t ltac:(done)) as Hin. rewrite <- Ee in Hin.
  destruct (ptr_cases s t) as [[_ Et]|Ht]; [by rewrite Et in Hin|]. by apply (Hout _ Ht).
Qed.

Lemma fixing_exit h C t :
  fixing h C t -> C = [] \/ root_color t = Red -> rb_tree (plug C (paint Black t)).
Proof.
  intros [_ [(n & Ht & HC)|[-> [m Ht]]]] He; [|cbn [plug]; by eapply rb_paint, rb_any_of].
  unfold short in Ht. destruct (root_color t) eqn:Et.
  - by eapply rb_plug.
  - destruct He as [->|]; [|done]. cbn [plug]. by eapply rb_paint, rb_any_of.
Qed.

Lemma delete_fix_ok fuel h C t :
  fixing h C t -> (steps_left C t < fuel)%nat ->
  exists h' t', delete_fix s fuel h (ptr s t) = Ok h' /\ holds_tree s h' t' /\ rb_tree t' /\
    inorder t' = inorder (plug C t) /\ keeps s (inorder (plug C t)) h h'.
Proof.
  revert h C t. induction fuel as [|fuel IH]; intros h C t HF Hf; [lia|]. pose proof HF as [H Hn].
  cbn [delete_fix]. rewrite (delete_fix_test _ _ _ H). cbn [mbind outcome_bind].
  assert (Hexit : C = [] \/ root_color t = Red -> exists h' t', ngx_rbt_black h (ptr s t) = Ok h' /\ holds_tree s h' t' /\
    rb_tree t' /\ inorder t' = inorder (plug C t) /\ keeps s (inorder (plug C t)) h h').
  { intros He. destruct (blacken_ok s h C t (hf_tree _ _ _ H)) as (h' & E' & H' & K').
    exists h', (plug C (paint Black t)). split_and!; try done; [by eapply fixing_exit|].
    apply plug_nodes_same, paint_inorder. }
  destruct C as [|[d c p u] C]; [by apply Hexit; left|]. destruct (root_color t) eqn:Et.
  { rewrite bool_decide_false by done. by apply Hexit; right. }
  rewrite bool_decide_true by done. destruct Hn as [(n & Ht & HC)|[? _]]; [|done].
  unfold short in Ht. rewrite Et in Ht.
  destruct (delete_step_ok _ _ _ _ _ _ _ n H Ht HC) as (h1 & C1 & t1 & E1 & F1 & I1 & K1 & S1).
  rewrite E1. cbn [mbind outcome_bind]. unfold steps_left in Hf. rewrite Et in Hf. cbn [length] in Hf.
  destruct (IH h1 C1 t1 F1 ltac:(lia)) as (h' & t' & E' & H' & R' & I' & K').
  exists h', t'. split; [done|]. split; [done|]. split; [done|]. split; [congruence|].
  eapply keeps_trans; [reflexivity|exact K1|]. by rewrite <- I1.
Qed.

End delete.
