(* ===== verification/RbTreeRemove.v ===== *)
(** Component "red-black tree", continued: ngx_rbtree_delete takes the node out and
    keeps the order and the invariant. *)

From stdpp Require Import base numbers list option gmap sorting.
From Stdlib Require Import ZArith Lia.
From S2P Require Import Prelude RbTree RbTreeShape RbTreeInsert RbTreeDelete.
Local Open Scope Z_scope.

Section remove.
Context (s : Z).

(** ** Subtrees in the memory *)

Lemma rep_plug_app h C1 C2 t :
  rep s h (ctx_parent (C1 ++ C2)) t /\ rep_ctx s h (C1 ++ C2) (ptr s t) <->
  rep s h (ctx_parent C2) (plug C1 t) /\ rep_ctx s h C2 (ptr s (plug C1 t)).
Proof.
  revert t. induction C1 as [|[d c x b] C1 IH]; intros t; cbn [app plug]; [done|].
  rewrite <- IH, ptr_fill. destruct d; cbn; tauto.
Qed.

Lemma rep_weaken h par t : rep s h par t -> rep s h None t.
Proof.
  destruct t; [done|]. cbn. intros ([] & Hl & Hr). split; [|done]. split; try done. by eapply has_parent_some.
Qed.

Lemma around_app C1 C2 : around (C1 ++ C2) ≡ₚ around C1 ++ around C2.
Proof.
  induction C1 as [|f C1 IH]; [done|]. cbn [app]. rewrite !around_frame, IH. cbn [app]. by rewrite <- !app_assoc.
Qed.

Lemma before_app C1 C2 : before (C1 ++ C2) = before C2 ++ before C1.
Proof.
  induction C1 as [|[[] c x b] C1 IH]; cbn [app before].
  - by rewrite app_nil_r.
  - done.
  - rewrite IH. by rewrite <- app_assoc.
Qed.
Lemma after_app C1 C2 : after (C1 ++ C2) = after C1 ++ after C2.
Proof.
  induction C1 as [|[[] c x b] C1 IH]; cbn [app after]; [done| |done]. rewrite IH. cbn. by rewrite <- app_assoc.
Qed.

(** ** Taking a node out of its place *)

Definition unlink (h : heap) (x y : Z) : outcome heap :=
  p ← get h_parent h x; l ← get h_left h p; if x =? l then set_left h p y else set_right h p y.

Lemma unlink_ok h f C x y :
  rep_ctx s h (f :: C) x -> NoDup (around (f :: C)) -> (x ∉ around (f :: C)) -> x <> s -> h_root h <> x ->
  has_parent h (ctx_parent (f :: C)) x ->
  exists h', unlink h x y = Ok h' /\ relinked s (f :: C) h h' y.
Proof.
  intros HC Hn Hx Hs Hroot Hp. destruct (relink_ok s L h (f :: C) x y HC Hn Hx Hs Hroot Hp) as (h' & E & H').
  exists h'. split; [|done]. unfold relink in E. by rewrite (proj2 (Z.eqb_neq _ _)) in E by congruence.
Qed.

(** The memory after [temp] has taken the place of [x], with the parent [q]. *)
Record spliced (CC : ctx) (u : tree) (q : Z) (h h2 : heap) : Prop := {
  sp_ctx : rep_ctx s h2 CC (ptr s u);
  sp_sub : rep s h2 (Some q) u;
  sp_parent : h_parent h2 !! ptr s u = Some q;
  sp_color : h_color h2 = h_color h;
  sp_key : h_key h2 = h_key h;
  sp_root : h_root h2 = h_root h;
  sp_same : forall z, z ∉ around CC -> z <> ptr s u -> same_at h h2 z;
  sp_parents : forall z, z <> ptr s u -> h_parent h2 !! z = h_parent h !! z
}.

(** A node with at most one child. *)
Definition only_child (u a b : tree) : Prop := u = a /\ b = E \/ u = b /\ a = E.

Lemma only_child_nodes u a b x c : only_child u a b -> inorder (T c a x b) ≡ₚ x :: inorder u.
Proof. intros [[-> ->]|[-> ->]]; cbn; [|done]. by rewrite <- Permutation_cons_append. Qed.

Lemma splice_ok h f C c a x b u :
  holds_tree s h (plug (f :: C) (T c a x b)) -> only_child u a b ->
  exists h1, unlink h x (ptr s u) = Ok h1 /\ h_parent h1 = h_parent h /\
    forall q, set_parent h1 (ptr s u) q = Ok (upd_parent h1 (ptr s u) q) /\
      spliced (f :: C) u q h (upd_parent h1 (ptr s u) q).
Proof.
  intros H Hu. set (CC := f :: C) in *. destruct (focus_nodup _ _ _ _ H) as (Hn & Hout & HnC & Hs & HsC).
  pose proof (only_child_nodes u a b x c Hu) as Hperm.
  assert (Hout' : forall z, z ∈ x :: inorder u -> z ∉ around CC) by (intros z Hz; apply Hout; by rewrite Hperm).
  rewrite Hperm in Hn, Hs. apply NoDup_cons in Hn as [Hxu Hn]. apply not_elem_of_cons in Hs as [Hsx Hsu].
  pose proof (focus_cell _ _ _ _ _ _ _ H) as Hc. pose proof (ht_rep _ _ _ H) as Hr. apply rep_plug in Hr as [Hr HC].
  destruct (unlink_ok h f C x (ptr s u)) as (h1 & E1 & [RC RS RP RCo RK RR]).
  { apply HC. } { done. } { apply Hout'. by left. } { done. }
  { intros Ee. pose proof (root_in_ctx s CC (T c a x b) ltac:(done)) as Hin. rewrite <- (ht_root _ _ _ H), Ee in Hin.
    apply (Hout' x); [by left|done]. }
  { apply (cell_parent _ _ _ _ _ _ Hc). }
  assert (Hru : rep s h (Some x) u) by (destruct Hr as (_ & Ha & Hb), Hu as [[-> ->]|[-> ->]]; done).
  assert (Hpu : ptr s u ∉ around CC).
  { destruct (ptr_cases s u) as [[_ ->]|Hin]; [done|]. apply Hout'. by right. }
  assert (Hpar : is_Some (h_parent h1 !! ptr s u)).
  { rewrite RP. destruct u as [|cu ul ux ur]; [apply (ht_parent _ _ _ H)|].
    eapply has_parent_some, (cell_parent _ _ _ _ _ _ (proj1 Hru)). }
  exists h1. split; [done|]. split; [done|]. intros q. destruct Hpar as [v Hv].
  split; [by eapply set_parent_ok|]. split.
  - eapply rep_ctx_frame; [|exact RC]. intros z Hz. apply same_upd_parent. congruence.
  - eapply (rep_moved s h); [done| | |exact Hru].
    + intros z Hz Hzp. apply (same_trans _ h1); [|by apply same_upd_parent].
      apply RS, Hout'. by right.
    + intros Hne. assert (Hz : same_at h h1 (ptr s u)) by by apply RS. destruct Hz.
      cbn. rewrite lookup_insert_eq. split_and!; done.
  - apply parent_upd_eq.
  - done.
  - done.
  - exact RR.
  - intros z Hz Hzp. apply (same_trans _ h1); [by apply RS|by apply same_upd_parent].
  - intros z Hzp. rewrite parent_upd_ne by done. by rewrite RP.
Qed.

(** ** Putting the node in the place of another *)

Lemma delete_replace_eq h x y :
  delete_replace s h x y =
    (l ← get h_left h x; h ← set_left h y l;
     r ← get h_right h x; h ← set_right h y r;
     p ← get h_parent h x; h ← set_parent h y p;
     h ← ngx_rbt_copy_color h y x;
     h ← relink L h x y;
     l ← get h_left h y;
     h ← (if negb (l =? s) then set_parent h l y else Ok h);
     r ← get h_right h y;
     if negb (r =? s) then set_parent h r y else Ok h).
Proof. reflexivity. Qed.

(** The state before: [x] with its two subtrees, the right one with any parent. *)
Record replaceable (h : heap) (C : ctx) (c : color) (l : tree) (x : Z) (r : tree) (y q : Z) : Prop := {
  ra_ctx : rep_ctx s h C x;
  ra_cell : cell h (ctx_parent C) c (ptr s l) x (ptr s r);
  ra_left : rep s h (Some x) l;
  ra_right : rep s h (Some q) r;
  ra_root : if C is [] then h_root h = x else h_root h <> x;
  ra_nodup : NoDup (y :: x :: inorder l ++ inorder r ++ around C);
  ra_sentinel : s ∉ y :: x :: inorder l ++ inorder r ++ around C;
  ra_fresh : fresh_node s h [] y
}.

(** The memory after the four assignments to the members of [y]. *)
Definition copied (h : heap) (c : color) (l r y p : Z) : heap :=
  upd_color (upd_parent (upd_child R (upd_child L h y l) y r) y p) y (color_z c).

Lemma copied_other h c l r y p z : z <> y -> same_at h (copied h c l r y p) z.
Proof. intros Hz. split; cbn; by rewrite ?lookup_insert_ne by done. Qed.

Lemma copied_at h c l r y p :
  h_left (copied h c l r y p) !! y = Some l /\ h_right (copied h c l r y p) !! y = Some r /\
  h_parent (copied h c l r y p) !! y = Some p /\ h_color (copied h c l r y p) !! y = Some (color_z c).
Proof. cbn. by rewrite !lookup_insert_eq. Qed.

Lemma copied_run {A} h c l r x y p (k : heap -> outcome A) :
  x <> y -> fresh_node s h [] y -> h_left h !! x = Some l -> h_right h !! x = Some r -> h_parent h !! x = Some p ->
  h_color h !! x = Some (color_z c) ->
  (l ← get h_left h x; h ← set_left h y l; r ← get h_right h x; h ← set_right h y r;
   p ← get h_parent h x; h ← set_parent h y p; h ← ngx_rbt_copy_color h y x; k h) =
  k (copied h c l r y p).
Proof.
  intros Hxy [_ _ [l0 El] [r0 Er] [p0 Ep] [c0 Ec] _] Hl Hr Hp Hc.
  rewrite (get_ok h_left _ _ _ Hl). cbn [mbind outcome_bind].
  change set_left with (set_child L). change set_right with (set_child R).
  rewrite (set_child_ok L h y l0) by done. cbn [mbind outcome_bind].
  rewrite (get_ok h_right _ x r) by done. cbn [mbind outcome_bind].
  rewrite (set_child_ok R _ y r0) by done. cbn [mbind outcome_bind].
  rewrite (get_ok h_parent _ x p) by done. cbn [mbind outcome_bind].
  rewrite (set_parent_ok _ y p0) by done. cbn [mbind outcome_bind]. unfold ngx_rbt_copy_color.
  rewrite (get_ok h_color _ x (color_z c)) by done. cbn [mbind outcome_bind].
  by rewrite (set_color_ok _ y c0) by done.
Qed.

(** The memory after the parent's link, the rest is the parents of the subtrees. *)
Definition adopted (h : heap) (l r y : Z) : heap := adopt s (adopt s h l y) r y.

(** A subtree with a new parent: the sentinel is left alone. *)
Lemma same_adopt_sub h t y z : s ∉ inorder t -> (z ∉ inorder t) -> same_at h (adopt s h (ptr s t) y) z.
Proof.
  intros Hs Hz. destruct (ptr_cases s t) as [[_ ->]|Hin]; [unfold adopt; by rewrite Z.eqb_refl|].
  apply same_adopt. by intros ->.
Qed.

Lemma adopt_rep h q t y :
  rep s h (Some q) t -> NoDup (inorder t) -> (s ∉ inorder t) -> rep s (adopt s h (ptr s t) y) (Some y) t.
Proof.
  intros Hr Hn Hs. destruct t as [|c l x r]; [done|]. set (t := T c l x r) in *.
  pose proof (ptr_in s t ltac:(done)) as Hin. assert (Hp : ptr s t <> s) by congruence.
  eapply (rep_moved s h); [done| | |exact Hr].
  - intros z Hz Hzp. by apply same_adopt.
  - intros _. destruct (adopt_fields s h (ptr s t) y) as (-> & -> & -> & -> & _). split_and!; try done.
    cbn [has_parent]. unfold adopt. rewrite (proj2 (Z.eqb_neq _ _) Hp). apply parent_upd_eq.
Qed.

Record replaced (h : heap) (C : ctx) (c : color) (l r : tree) (y : Z) (h' : heap) : Prop := {
  rd_ctx : rep_ctx s h' C y;
  rd_tree : rep s h' (ctx_parent C) (T c l y r);
  rd_root : h_root h' = match C with [] => y | _ => h_root h end;
  rd_key : h_key h' = h_key h;
  rd_same : forall z, z ∉ y :: inorder l ++ inorder r ++ around C -> same_at h h' z
}.

Lemma replace_ok h C c l x r y q :
  replaceable h C c l x r y q -> exists h', delete_replace s h x y = Ok h' /\ replaced h C c l r y h'.
Proof.
  intros [RC [Hxl Hxr Hxp Hxc Hxk] Hl Hr Hroot Hn Hs Hf]. rewrite delete_replace_eq.
  apply NoDup_cons in Hn as [Hy Hn]. apply NoDup_cons in Hn as [Hx Hn].
  apply NoDup_app in Hn as (Nl & Hlo & Hn). apply NoDup_app in Hn as (Nr & Hro & NC).
  rewrite !not_elem_of_cons, !not_elem_of_app in Hs. rewrite !not_elem_of_cons, !not_elem_of_app in Hy.
  rewrite !not_elem_of_app in Hx.
  destruct Hs as (Sy & Sx & Sl & Sr & SC), Hy as (Yx & Yl & Yr & YC), Hx as (Xl & Xr & XC).
  pose proof (has_parent_some _ _ _ Hxp) as [p Hp].
  rewrite (copied_run h c (ptr s l) (ptr s r) x y p) by (done || congruence).
  set (h4 := copied h c (ptr s l) (ptr s r) y p).
  assert (S4 : forall z, z <> y -> same_at h h4 z) by (intros; by apply copied_other).
  destruct (copied_at h c (ptr s l) (ptr s r) y p) as (A1 & A2 & A3 & A4). fold h4 in A1, A2, A3, A4.
  destruct (relink_ok s L h4 C x y) as (h5 & E5 & [LC LS LP LCo LK LR]); [|done|done|congruence|by destruct C| |].
  { eapply rep_ctx_frame; [|exact RC]. intros z Hz. apply S4. congruence. }
  { pose proof (same_parent _ _ _ (S4 x ltac:(congruence))) as Ep.
    destruct (ctx_parent C); cbn in *; rewrite lookup_insert_ne by congruence; [congruence|by eexists]. }
  rewrite E5. cbn [mbind outcome_bind].
  assert (S5 : forall z, z <> y -> z ∉ around C -> same_at h h5 z).
  { intros z Hz HzC. apply (same_trans _ h4); [by apply S4|by apply LS]. }
  destruct (LS y YC) as [B1 B2 B3 B4 B5]. rewrite (get_ok h_left _ _ (ptr s l)) by (by rewrite B1). cbn [mbind outcome_bind].
  assert (R5 : rep s h5 (Some x) l).
  { eapply rep_frame; [|exact Hl]. intros z Hz. apply S5; [congruence|intros HzC; apply (Hlo z Hz)].
    by rewrite elem_of_app; right. }
  rewrite (adopt_ok s h5 l y _ R5). cbn [mbind outcome_bind]. set (h6 := adopt s h5 (ptr s l) y).
  assert (S6 : forall z, z ∉ inorder l -> same_at h5 h6 z) by (intros; by apply same_adopt_sub).
  rewrite (get_ok h_right _ _ (ptr s r)) by (by rewrite (same_right _ _ _ (S6 y Yl)), B2). cbn [mbind outcome_bind].
  assert (R6 : rep s h6 (Some q) r).
  { eapply rep_frame; [|exact Hr]. intros z Hz. apply (same_trans _ h5).
    - apply S5; [congruence|by apply Hro].
    - apply S6. intros Hzl. apply (Hlo z Hzl). by rewrite elem_of_app; left. }
  rewrite (adopt_ok s h6 r y _ R6). set (h7 := adopt s h6 (ptr s r) y). exists h7. split; [done|].
  assert (S7 : forall z, z ∉ inorder r -> same_at h6 h7 z) by (intros; by apply same_adopt_sub).
  assert (S57 : forall z, z ∉ inorder l -> z ∉ inorder r -> same_at h5 h7 z).
  { intros z Zl Zr. apply (same_trans _ h6); [by apply S6|by apply S7]. }
  destruct (S57 y Yl Yr) as [Y1 Y2 Y3 Y4 Y5].
  destruct (adopt_fields s h5 (ptr s l) y) as (_ & _ & _ & K6 & Ro6). destruct (adopt_fields s h6 (ptr s r) y) as (_ & _ & _ & K7 & Ro7).
  fold h6 in K6, Ro6. fold h7 in K7, Ro7. split.
  - eapply rep_ctx_frame; [|exact LC]. intros z Hz. apply S57; intros Hin; [apply (Hlo z Hin); rewrite elem_of_app; by right|by apply (Hro z)].
  - split; [|split].
    + split; [congruence|congruence| |congruence|rewrite Y5, B5; apply (fn_key _ _ _ _ Hf)].
      assert (Ey : h_parent h7 !! y = Some p) by congruence.
      destruct (ctx_parent C); cbn in *; [congruence|by eexists].
    + eapply rep_frame; [|by apply (adopt_rep h5 x l y)]. intros z Hz. apply S7. intros Hzr. apply (Hlo z Hz).
      by rewrite elem_of_app; left.
    + by apply (adopt_rep h6 q r y).
  - by rewrite Ro7, Ro6, LR.
  - by rewrite K7, K6, LK.
  - intros z Hz. rewrite not_elem_of_cons, !not_elem_of_app in Hz. destruct Hz as (Z1 & Z2 & Z3 & Z4).
    apply (same_trans _ h5); [by apply S5|by apply S57].
Qed.

(** ** The node that is taken out *)

Lemma ptr_eqb t : s ∉ inorder t -> (ptr s t =? s) = match t with E => true | _ => false end.
Proof.
  intros Hs. destruct t as [|c l x r]; [apply Z.eqb_refl|]. apply Z.eqb_neq. intros Ex. apply Hs. rewrite <- Ex. by apply ptr_in.
Qed.

Lemma leftmost t :
  t <> E -> exists C cy y ry, t = plug C (T cy E y ry) /\ before C = [] /\
    forall h CC fuel, holds_tree s h (plug CC t) -> (length (inorder t) <= fuel)%nat ->
    rbtree_min_loop s fuel h (ptr s t) = Ok y.
Proof.
  induction t as [|c l IHl x r _]; [done|]. intros _. assert (l = E \/ l <> E) as [->|Hl] by (destruct l; auto).
  - exists [], c, x, r. split; [done|]. split; [done|]. intros h CC fuel H Hf. cbn [inorder length app] in Hf.
    destruct fuel as [|fuel]; [lia|]. cbn [rbtree_min_loop ptr]. rewrite (read_left _ _ _ _ _ _ _ H).
    cbn [mbind outcome_bind ptr]. by rewrite Z.eqb_refl.
  - destruct (IHl Hl) as (C & cy & y & ry & El & Eb & Hmin). exists (C ++ [mk_frame L c x r]), cy, y, ry.
    split; [rewrite plug_app; by rewrite <- El|]. split; [by rewrite before_app, Eb|]. intros h CC fuel H Hf.
    cbn [inorder] in Hf. rewrite length_app in Hf. cbn [length] in Hf. destruct fuel as [|fuel]; [lia|].
    cbn [rbtree_min_loop ptr]. rewrite (read_left _ _ _ _ _ _ _ H). cbn [mbind outcome_bind].
    destruct (focus_nodup _ _ _ _ H) as (_ & _ & _ & Hs & _). cbn [inorder] in Hs.
    rewrite ptr_eqb by (intros Hin; apply Hs; rewrite elem_of_app; by left). destruct l as [|cl ll xl rl]; [done|].
    cbn [negb]. apply (Hmin h (mk_frame L c x r :: CC)); [exact H|lia].
Qed.

(** ngx_rbtree_min finds the first node. *)
Lemma rbtree_min_ok h CC t :
  holds_tree s h (plug CC t) -> t <> E ->
  exists x l, ngx_rbtree_min s h (ptr s t) = Ok x /\ inorder t = x :: l.
Proof.
  intros H Hne. destruct (leftmost t Hne) as (C & cy & y & ry & Et & Eb & Hmin).
  exists y, (inorder ry ++ after C). split.
  - apply (Hmin h CC); [done|]. pose proof (nodes_in_steps _ _ _ H). pose proof (ctx_length CC t). lia.
  - by rewrite Et, inorder_plug, Eb.
Qed.

(** ** Clearing *)

Definition cleared (h : heap) (x : Z) : heap :=
  h <| h_left := <[x := NULL]> (h_left h) |> <| h_right := <[x := NULL]> (h_right h) |>
    <| h_parent := <[x := NULL]> (h_parent h) |> <| h_key := <[x := 0]> (h_key h) |>.

Record is_cleared (h : heap) (x : Z) : Prop := {
  ic_left : h_left h !! x = Some NULL;
  ic_right : h_right h !! x = Some NULL;
  ic_parent : h_parent h !! x = Some NULL;
  ic_key : h_key h !! x = Some 0;
  ic_color : is_Some (h_color h !! x)
}.

Lemma clear_ok h x : fresh_node s h [] x -> clear_node h x = Ok (cleared h x).
Proof.
  intros [_ _ Hl Hr Hp _ Hk]. unfold clear_node, set_left, set_right, set_parent, set_key.
  rewrite store_at_some by done. cbn [mbind outcome_bind]. rewrite store_at_some by done. cbn [mbind outcome_bind].
  rewrite store_at_some by done. cbn [mbind outcome_bind]. by rewrite store_at_some by done.
Qed.

Lemma cleared_other h x z : z <> x -> same_at h (cleared h x) z.
Proof. intros Hz. split; cbn; by rewrite ?lookup_insert_ne by done. Qed.

Lemma cleared_is h N x : fresh_node s h N x -> is_cleared (cleared h x) x.
Proof. intros Hf. split; [apply lookup_insert_eq..|apply (fn_color _ _ _ _ Hf)]. Qed.

Lemma cleared_same h h' x : same_at h h' x -> is_cleared h x -> is_cleared h' x.
Proof. intros [] []. split; congruence. Qed.

(** The same nodes, root and sentinel. *)
Lemma holds_same h h' t :
  (forall z, z ∈ inorder t -> same_at h h' z) -> same_at h h' s -> h_root h' = h_root h ->
  holds_tree s h t -> holds_tree s h' t.
Proof.
  intros Hz [] Hr [H1 H2 H3 H4 H5 H6]. split; try congruence. by eapply rep_frame.
Qed.

Lemma focus_same h h' C t :
  (forall z, z ∈ inorder (plug C t) -> same_at h h' z) -> same_at h h' s -> h_root h' = h_root h ->
  holds_focus s h C t -> holds_focus s h' C t.
Proof.
  intros Hz Hs Hr [H Hp]. apply focus_intro; [by eapply holds_same|]. intros ->. cbn [ptr] in Hp.
  destruct Hs. destruct (ctx_parent C); cbn in *; congruence.
Qed.

(** ** The end of the deletion *)

(** What the whole deletion does to the memory: [N] are the nodes of the tree. *)
Record deleted (h : heap) (N : list Z) (x : Z) (h' : heap) : Prop := {
  dl_cleared : is_cleared h' x;
  dl_keys : forall z, z <> x -> h_key h' !! z = h_key h !! z;
  dl_same : forall z, (z ∉ N) -> z <> s -> same_at h h' z
}.

Lemma deleted_before h h1 N N' x h' :
  N' ≡ₚ N -> h_key h1 = h_key h -> (forall z, (z ∉ N) -> z <> s -> same_at h h1 z) -> deleted h1 N' x h' ->
  deleted h N x h'.
Proof.
  intros HN Hk Hs [D1 D2 D3]. split; [done|intros z Hz; by rewrite D2, Hk|].
  intros z Hz Hzs. apply (same_trans _ h1); [by apply Hs|apply D3; [by rewrite HN|done]].
Qed.

(** The subtree that moves up: all is well if the node was red, otherwise it is short. *)
Definition removed_rb (red : bool) (C : ctx) (u : tree) : Prop :=
  if red then rb_tree (plug C u) else exists n, short n u /\ rbc Black (S n) C.

Definition delete_finish (red : bool) (h : heap) (x temp : Z) : outcome heap :=
  h ← clear_node h x; if red then Ok h else delete_fix s (steps h) h temp.

Lemma delete_finish_ok red h C u x :
  holds_focus s h C u -> removed_rb red C u -> fresh_node s h (inorder (plug C u)) x ->
  exists h' t', delete_finish red h x (ptr s u) = Ok h' /\ holds_tree s h' t' /\ rb_tree t' /\
    inorder t' = inorder (plug C u) /\ deleted h (x :: inorder (plug C u)) x h'.
Proof.
  intros H Hrb Hf. pose proof (fn_out _ _ _ _ Hf) as Hx. pose proof (fn_sentinel _ _ _ _ Hf) as Hxs. unfold delete_finish.
  rewrite clear_ok by (eapply fresh_weaken; [exact Hf|by intros ? ?%not_elem_of_nil]). cbn [mbind outcome_bind].
  assert (H' : holds_focus s (cleared h x) C u).
  { apply (focus_same h); [intros z Hz; apply cleared_other|apply cleared_other| |exact H]; [congruence..|done]. }
  assert (Hd : deleted h (x :: inorder (plug C u)) x (cleared h x)).
  { split; [by eapply cleared_is|intros z Hz; cbn; by rewrite lookup_insert_ne by done|].
    intros z Hz _. apply cleared_other. by apply not_elem_of_cons in Hz as [? _]. }
  destruct red; cbn [removed_rb] in Hrb.
  - exists (cleared h x), (plug C u). split; [done|]. split; [apply (hf_tree _ _ _ _ H')|]. done.
  - assert (Hsteps : (steps_left C u < steps (cleared h x))%nat).
    { pose proof (nodes_in_steps _ _ _ (hf_tree _ _ _ _ H')). pose proof (ctx_length C u).
      unfold steps_left. destruct (root_color u); lia. }
    destruct (delete_fix_ok s _ _ _ _ (conj H' (or_introl Hrb)) Hsteps) as (h' & t' & E' & Ht' & R' & I' & [K1 K2 K3]).
    exists h', t'. split_and!; try done. destruct Hd as [D1 D2 D3]. split.
    + eapply cleared_same; [|exact D1]. by apply K1.
    + intros z Hz. by rewrite K2, D2.
    + intros z Hz Hzs. apply (same_trans _ (cleared h x)); [by apply D3|]. apply K1; [|done].
      by apply not_elem_of_cons in Hz as [_ ?].
Qed.

(** The invariant without the node. *)
Lemma removed_rb_ok CC c a x b u :
  rb_tree (plug CC (T c a x b)) -> only_child u a b ->
  exists n, rbc c n CC /\ match c with Red => rb Black n u | Black => exists m, n = S m /\ short m u end.
Proof.
  intros H Hu. apply rb_plug_inv in H as (c' & n & H & HC). assert (c' = c) as -> by (by inversion H).
  exists n. split; [done|]. inversion H; subst.
  - by destruct Hu as [[-> _]|[-> _]].
  - eexists. split; [done|]. apply short_any. destruct Hu as [[-> _]|[-> _]]; by eapply rb_any_of.
Qed.

Definition is_red (c : color) : bool := bool_decide (c = Red).

Lemma removed_rb_red c CC n u :
  rbc c n CC -> match c with Red => rb Black n u | Black => exists m, n = S m /\ short m u end ->
  removed_rb (is_red c) CC u.
Proof.
  destruct c; intros HC Hu; cbn.
  - eapply rb_plug; [exact Hu|by eapply rbc_any].
  - destruct Hu as (m & -> & Hu). by exists m.
Qed.

(** The colours of the nodes above do not depend on which nodes they are. *)
Lemma rbc_rename c n C2 d k x y b C :
  rbc c n (C2 ++ mk_frame d k x b :: C) -> rbc c n (C2 ++ mk_frame d k y b :: C).
Proof.
  revert c n. induction C2 as [|f C2 IH]; intros c n H; cbn [app] in *.
  - inversion H; subst; by econstructor.
  - inversion H; subst; econstructor; eauto.
Qed.

(** ** ngx_rbtree_delete *)

Definition delete_splice (h : heap) (x y temp : Z) : outcome heap :=
  h ← unlink h y temp;
  if y =? x then p ← get h_parent h y; set_parent h temp p
  else
    p ← get h_parent h y;
    h ← (if p =? x then set_parent h temp y else set_parent h temp p);
    delete_replace s h x y.

Lemma delete_inner_eq h x y temp red :
  delete_subst s h x = Ok (y, temp) -> (y =? h_root h) = false -> ngx_rbt_is_red h y = Ok red ->
  ngx_rbtree_delete s h x = (h ← delete_splice h x y temp; delete_finish red h x temp).
Proof.
  intros E1 E2 E3. unfold ngx_rbtree_delete, delete_splice, unlink, delete_finish. rewrite E1. cbn [mbind outcome_bind].
  rewrite E2, E3. cbn [mbind outcome_bind].
  destruct (get h_parent h y) as [p| |]; [|done..]. cbn [mbind outcome_bind].
  destruct (get h_left h p) as [l| |]; [|done..]. cbn [mbind outcome_bind].
  by destruct (if y =? l then set_left h p temp else set_right h p temp) as [h1| |].
Qed.

Lemma node_fresh h C c l x r : holds_tree s h (plug C (T c l x r)) -> fresh_node s h [] x.
Proof.
  intros H. pose proof (focus_cell _ _ _ _ _ _ _ H) as []. destruct (focus_nodup _ _ _ _ H) as (_ & _ & _ & Hs & _).
  cbn [inorder] in Hs. rewrite not_elem_of_app, not_elem_of_cons in Hs.
  split; [by apply not_elem_of_nil|by intros ->; destruct Hs as (_ & ? & _)|by eexists..|by eapply has_parent_some|by eexists|done].
Qed.

Lemma fresh_same h h' N x :
  fresh_node s h [] x -> same_at h h' x -> (x ∉ N) -> fresh_node s h' N x.
Proof. intros [_ H1 H2 H3 H4 H5 H6] [E1 E2 E3 E4 E5] Hx. split; congruence. Qed.

(** A node with at most one child is taken out itself. *)
Lemma delete_subst_one h C c a x b :
  holds_tree s h (plug C (T c a x b)) -> a = E \/ b = E ->
  exists u, only_child u a b /\ delete_subst s h x = Ok (x, ptr s u).
Proof.
  intros H Hab. destruct (focus_nodup _ _ _ _ H) as (_ & _ & _ & Hs & _). cbn [inorder] in Hs.
  rewrite not_elem_of_app, not_elem_of_cons in Hs. destruct Hs as (Sa & _ & Sb).
  unfold delete_subst. rewrite (read_left _ _ _ _ _ _ _ H), (read_right _ _ _ _ _ _ _ H). cbn [mbind outcome_bind].
  rewrite !ptr_eqb by done. destruct a as [|ca la xa ra]; [exists b; split; [by right|done]|].
  destruct Hab as [?|Hb]; [done|subst b]. eexists. split; [by left|done].
Qed.

Lemma only_child_perm C c a x b u :
  only_child u a b -> inorder (plug C (T c a x b)) ≡ₚ x :: inorder (plug C u).
Proof.
  intros Hu. rewrite !nodes_plug, (only_child_nodes _ _ _ x c Hu). by rewrite Permutation_middle.
Qed.

Lemma only_child_order C c a x b u :
  only_child u a b -> exists l1 l2, inorder (plug C (T c a x b)) = l1 ++ x :: l2 /\ inorder (plug C u) = l1 ++ l2.
Proof.
  intros Hu. rewrite !inorder_plug. destruct Hu as [[-> ->]|[-> ->]].
  - exists (before C ++ inorder a), (after C). cbn [inorder]. by rewrite <- !app_assoc.
  - exists (before C), (inorder b ++ after C). by cbn [inorder app].
Qed.

(** The result of the deletion of [x]. *)
Definition delete_result (h : heap) (t : tree) (x : Z) (r : outcome heap) : Prop :=
  exists h' t', r = Ok h' /\ holds_tree s h' t' /\ rb_tree t' /\
    (exists l1 l2, inorder t = l1 ++ x :: l2 /\ inorder t' = l1 ++ l2) /\ deleted h (inorder t) x h'.

(** The node is the root, with at most one child. *)
Lemma delete_root_ok h c a x b u :
  holds_tree s h (T c a x b) -> rb_tree (T c a x b) -> only_child u a b -> delete_subst s h x = Ok (x, ptr s u) ->
  delete_result h (T c a x b) x (ngx_rbtree_delete s h x).
Proof.
  intros H Hrb Hu Es. pose proof (node_fresh h [] _ _ _ _ H) as Hf. unfold ngx_rbtree_delete. rewrite Es. cbn [mbind outcome_bind].
  rewrite (ht_root _ _ _ H). cbn [ptr]. rewrite Z.eqb_refl.
  pose proof (only_child_perm [] c a x b u Hu) as Hperm. cbn [plug] in Hperm.
  pose proof H as [Hr Hn Hs _ Hbl Hpa]. rewrite Hperm in Hn, Hs. apply NoDup_cons in Hn as [Hx Hn].
  apply not_elem_of_cons in Hs as [_ Hs].
  assert (H1 : holds_tree s (h <| h_root := ptr s u |>) u).
  { split; try done. apply (rep_weaken _ (Some x)), (rep_frame s h); [done|].
    by destruct Hr as (_ & Ha & Hb), Hu as [[-> _]|[-> _]]. }
  destruct (blacken_ok s _ [] u H1) as (h2 & E2 & H2 & [K1 K2 K3]). rewrite E2. cbn [mbind outcome_bind].
  assert (Hs2 : forall z, z ∉ inorder u -> z <> s -> same_at h h2 z).
  { intros z Hz Hzs. destruct (K1 z Hz Hzs). by split. }
  assert (Hf2 : fresh_node s h2 [] x).
  { eapply fresh_same; [exact Hf| |by apply not_elem_of_nil]. apply Hs2; [done|apply (fn_sentinel _ _ _ _ Hf)]. }
  rewrite (clear_ok _ _ Hf2). destruct (only_child_order [] c a x b u Hu) as (l1 & l2 & Eo & Eu).
  exists (cleared h2 x), (paint Black u). split; [done|]. split; [|split; [|split]].
  - eapply (holds_same h2); [| |done|exact H2]; intros; apply cleared_other.
    + cbn [plug] in *. rewrite paint_inorder in *. congruence.
    + apply not_eq_sym, (fn_sentinel _ _ _ _ Hf).
  - destruct (removed_rb_ok [] c a x b u Hrb Hu) as (n & HC & Hn'). inversion HC; subst.
    destruct Hn' as (m & _ & Hm). unfold short in Hm. destruct (root_color u); [by eexists|by eapply rb_paint, rb_any_of].
  - exists l1, l2. split; [done|]. by rewrite paint_inorder.
  - split; [by eapply cleared_is|intros z Hz; cbn; rewrite lookup_insert_ne by done; by rewrite K2|].
    intros z Hz Hzs. rewrite Hperm in Hz. apply not_elem_of_cons in Hz as [Z1 Z2].
    apply (same_trans _ h2); [by apply Hs2|by apply cleared_other].
Qed.

Lemma not_root h f C c a x b : holds_tree s h (plug (f :: C) (T c a x b)) -> h_root h <> x.
Proof.
  intros H Ex. pose proof (root_in_ctx s (f :: C) (T c a x b) ltac:(done)) as Hin.
  rewrite <- (ht_root _ _ _ H), Ex in Hin. destruct (focus_nodup _ _ _ _ H) as (_ & Hout & _).
  apply (Hout x); [cbn; set_solver|done].
Qed.

Lemma is_red_node h C c a x b : holds_tree s h (plug C (T c a x b)) -> ngx_rbt_is_red h x = Ok (is_red c).
Proof. intros H. apply (is_red_focus _ _ _ _ H). Qed.

(** The spliced tree as a whole. *)
Lemma spliced_focus h h2 f C c a x b u :
  holds_tree s h (plug (f :: C) (T c a x b)) -> only_child u a b -> spliced (f :: C) u (f_node f) h h2 ->
  holds_focus s h2 (f :: C) u.
Proof.
  intros H Hu [S1 S2 S3 S4 S5 S6 S7 S8]. pose proof (only_child_perm (f :: C) c a x b u Hu) as Hperm.
  pose proof (ht_nodup _ _ _ H) as Hn. pose proof (ht_sentinel _ _ _ H) as Hs. rewrite Hperm in Hn, Hs.
  apply NoDup_cons in Hn as [_ Hn]. apply not_elem_of_cons in Hs as [_ Hs]. split; [split; try done|exact S3].
  - by apply rep_plug.
  - rewrite S6, (ht_root _ _ _ H). cbn [plug]. apply ptr_plug_same. by rewrite !ptr_fill.
  - rewrite S4. apply (ht_black _ _ _ H).
  - destruct (Z.eq_dec s (ptr s u)) as [Eu|Eu]; [rewrite Eu, S3; by eexists|].
    rewrite S8 by done. apply (ht_parent _ _ _ H).
Qed.

(** What is outside of the tree is not touched by the splice. *)
Lemma spliced_outside h h2 CC u q x N :
  spliced CC u q h h2 -> N ≡ₚ x :: inorder (plug CC u) ->
  forall z, (z ∉ N) -> z <> s -> same_at h h2 z.
Proof.
  intros Hsp HN z Hz Hzs. rewrite HN, nodes_plug in Hz. apply not_elem_of_cons in Hz as [_ Hz].
  apply not_elem_of_app in Hz as [Z1 Z2]. apply (sp_same _ _ _ _ _ Hsp); [done|].
  destruct (ptr_cases s u) as [[_ ->]|Hin]; [done|]. by intros ->.
Qed.

Lemma delete_one_ok h f C c a x b u :
  holds_tree s h (plug (f :: C) (T c a x b)) -> rb_tree (plug (f :: C) (T c a x b)) -> only_child u a b ->
  delete_subst s h x = Ok (x, ptr s u) ->
  delete_result h (plug (f :: C) (T c a x b)) x (ngx_rbtree_delete s h x).
Proof.
  intros H Hrb Hu Es. rewrite (delete_inner_eq h x x (ptr s u) (is_red c) Es); [| |by eapply is_red_node].
  2:{ apply Z.eqb_neq, not_eq_sym. by eapply not_root. }
  destruct (splice_ok h f C c a x b u H Hu) as (h1 & E1 & Hp1 & Hq). destruct (Hq (f_node f)) as [E2 Hsp].
  set (h2 := upd_parent h1 (ptr s u) (f_node f)) in *.
  assert (Hpar : get h_parent h1 x = Ok (f_node f)).
  { unfold get, load_at. rewrite Hp1. apply (read_parent s h (f :: C) c a x b H (f_node f) eq_refl). }
  unfold delete_splice. rewrite E1. cbn [mbind outcome_bind]. rewrite Z.eqb_refl, Hpar. cbn [mbind outcome_bind].
  rewrite E2. cbn [mbind outcome_bind].
  pose proof (only_child_perm (f :: C) c a x b u Hu) as Hperm.
  pose proof (ht_nodup _ _ _ H) as Hn. rewrite Hperm in Hn. apply NoDup_cons in Hn as [Hx _].
  pose proof (node_fresh _ _ _ _ _ _ H) as Hf.
  assert (Hsame : same_at h h2 x).
  { rewrite nodes_plug in Hx. apply not_elem_of_app in Hx as [X1 X2]. apply (sp_same _ _ _ _ _ Hsp); [done|].
    destruct (ptr_cases s u) as [[_ ->]|Hin]; [apply (fn_sentinel _ _ _ _ Hf)|]. by intros ->. }
  destruct (removed_rb_ok _ _ _ _ _ _ Hrb Hu) as (n & HC & Hn).
  destruct (delete_finish_ok (is_red c) h2 (f :: C) u x) as (h' & t' & E' & H' & R' & I' & D').
  { by eapply spliced_focus. } { by eapply removed_rb_red. } { by eapply fresh_same. }
  exists h', t'. split; [done|]. split; [done|]. split; [done|]. rewrite I'.
  split; [by apply only_child_order|].
  eapply deleted_before; [|apply (sp_key _ _ _ _ _ Hsp)| |exact D']; [by rewrite Hperm|].
  apply (spliced_outside _ _ _ _ _ x _ Hsp Hperm).
Qed.

(** ** Two children: the successor takes the place *)

Section successor.
Context (h : heap) (C : ctx) (c : color) (l : tree) (x : Z) (C2 : ctx) (cy : color) (y : Z) (ry : tree).
Context (H : holds_tree s h (plug C (T c l x (plug C2 (T cy E y ry))))).

(** The contexts of the successor before and after. *)
Definition succ_ctx (v : Z) : ctx := C2 ++ mk_frame R c v l :: C.

(** The parent of the subtree that moves up. *)
Definition succ_parent (v : Z) : Z := match C2 with [] => v | g :: _ => f_node g end.

Lemma succ_ctx_parent v : ctx_parent (succ_ctx v) = Some (succ_parent v).
Proof. unfold succ_ctx, succ_parent. by destruct C2. Qed.

Lemma succ_plug v t : plug (succ_ctx v) t = plug C (T c l v (plug C2 t)).
Proof. unfold succ_ctx. by rewrite plug_app. Qed.

Lemma succ_holds : holds_tree s h (plug (succ_ctx x) (T cy E y ry)).
Proof. by rewrite succ_plug. Qed.

Lemma succ_perm : inorder (plug C (T c l x (plug C2 (T cy E y ry)))) ≡ₚ
  y :: x :: inorder l ++ inorder (plug C2 ry) ++ around C.
Proof. rewrite nodes_plug. cbn [inorder]. rewrite !nodes_plug. cbn [inorder app]. solve_Permutation. Qed.

Lemma succ_perm_after v : inorder (plug (succ_ctx v) ry) ≡ₚ v :: inorder l ++ inorder (plug C2 ry) ++ around C.
Proof. rewrite succ_plug, nodes_plug. cbn [inorder]. solve_Permutation. Qed.

Lemma succ_order : before C2 = [] ->
  exists l1 l2, inorder (plug C (T c l x (plug C2 (T cy E y ry)))) = l1 ++ x :: l2 /\
    inorder (plug (succ_ctx y) ry) = l1 ++ l2.
Proof.
  intros Eb. exists (before C ++ inorder l), (y :: inorder ry ++ after C2 ++ after C). rewrite succ_plug, !inorder_plug.
  cbn [inorder]. rewrite !inorder_plug, Eb. cbn [inorder app]. by repeat first [rewrite <- !app_assoc | progress cbn [app]].
Qed.

(** After the splice the node can be replaced. *)
Lemma succ_replaceable h2 :
  spliced (succ_ctx x) ry (succ_parent y) h h2 ->
  replaceable h2 C c l x (plug C2 ry) y (match C2 with [] => y | _ => x end).
Proof.
  intros Hsp. pose proof Hsp as [S1 S2 S3 S4 S5 S6 S7 S8].
  pose proof (ht_nodup _ _ _ H) as Hn. pose proof (ht_sentinel _ _ _ H) as Hs. rewrite succ_perm in Hn, Hs.
  assert (Hy : fresh_node s h2 [] y).
  { eapply fresh_same; [by eapply node_fresh, succ_holds| |by apply not_elem_of_nil].
    destruct (focus_nodup _ _ _ _ succ_holds) as (Hyn & Hout & _ & Hys & _). cbn [inorder app] in *.
    apply NoDup_cons in Hyn as [Hyn _]. apply not_elem_of_cons in Hys as [Hys _].
    apply S7; [apply Hout; by left|]. destruct (ptr_cases s ry) as [[_ ->]|Hin]; [congruence|]. by intros ->. }
  assert (Hroot : if C is [] then h_root h2 = x else h_root h2 <> x).
  { rewrite S6. destruct C as [|f C']; [by rewrite (ht_root _ _ _ H)|by eapply not_root]. }
  assert (Hlow : rep s h2 (Some (match C2 with [] => y | _ => x end)) (plug C2 ry) /\
    rep_ctx s h2 (mk_frame R c x l :: C) (ptr s (plug C2 ry))).
  { unfold succ_ctx in S1. unfold succ_parent in S2. destruct C2 as [|g G] eqn:EC; [done|].
    destruct (rep_plug_app h2 (g :: G) (mk_frame R c x l :: C) ry) as [Hw _]. by destruct Hw as [Hw1 Hw2]. }
  destruct Hlow as (Hr & Hcell & Hl & HC). by split.
Qed.

(** The members of the result after the replacement. *)
Lemma succ_focus h2 h3 :
  spliced (succ_ctx x) ry (succ_parent y) h h2 -> replaced h2 C c l (plug C2 ry) y h3 ->
  holds_focus s h3 (succ_ctx y) ry.
Proof.
  intros [S1 S2 S3 S4 S5 S6 S7 S8] [R1 R2 R3 R4 R5].
  pose proof (ht_nodup _ _ _ H) as Hn. pose proof (ht_sentinel _ _ _ H) as Hs. rewrite succ_perm in Hn, Hs.
  apply not_elem_of_cons in Hs as [Hsy Hs]. pose proof (proj2 (proj1 (not_elem_of_cons _ _ _) Hs)) as Hs'.
  assert (Hss : same_at h2 h3 s) by (apply R5; by rewrite not_elem_of_cons). destruct Hss as [_ _ Ep Ec _].
  apply focus_intro.
  - rewrite succ_plug. split.
    + by apply rep_plug.
    + rewrite <- succ_plug, succ_perm_after. apply NoDup_cons in Hn as [N1 N2]. apply NoDup_cons in N2 as [_ N2].
      apply NoDup_cons. split; [|done]. by apply not_elem_of_cons in N1 as [_ ?].
    + rewrite <- succ_plug, succ_perm_after. by apply not_elem_of_cons.
    + rewrite R3. destruct C as [|f C']; [done|]. rewrite S6, (ht_root _ _ _ H). cbn [plug]. apply ptr_plug_same. by rewrite !ptr_fill.
    + rewrite Ec, S4. apply (ht_black _ _ _ H).
    + rewrite Ep. destruct (Z.eq_dec s (ptr s ry)) as [Eu|Eu]; [rewrite Eu, S3; by eexists|].
      rewrite S8 by done. apply (ht_parent _ _ _ H).
  - intros Er. rewrite succ_ctx_parent. cbn [has_parent]. rewrite Ep, <- S3, Er. done.
Qed.

Lemma succ_splice :
  exists h3, delete_splice h x y (ptr s ry) = Ok h3 /\ holds_focus s h3 (succ_ctx y) ry /\ h_key h3 = h_key h /\
    (forall z, (z ∉ inorder (plug C (T c l x (plug C2 (T cy E y ry))))) -> z <> s -> same_at h h3 z) /\
    fresh_node s h3 (inorder (plug (succ_ctx y) ry)) x.
Proof.
  pose proof succ_holds as Hc. pose proof (ht_nodup _ _ _ H) as Hn. rewrite succ_perm in Hn.
  pose proof (ht_sentinel _ _ _ H) as Hs. rewrite succ_perm in Hs.
  apply NoDup_cons in Hn as [Hy Hn]. apply NoDup_cons in Hn as [Hx Hn]. apply not_elem_of_cons in Hy as [Hyx Hy].
  assert (exists f G, succ_ctx x = f :: G /\ f_node f = succ_parent x) as (f & G & Ef & Efn).
  { unfold succ_ctx, succ_parent. destruct C2 as [|g G]; by eexists _, _. }
  pose proof Hc as Hc'. rewrite Ef in Hc'.
  destruct (splice_ok h f G cy E y ry ry Hc' ltac:(by right)) as (h1 & E1 & Hp1 & Hq).
  destruct (Hq (succ_parent y)) as [E2 Hsp]. set (h2 := upd_parent h1 (ptr s ry) (succ_parent y)) in *.
  rewrite <- Ef in Hsp. unfold delete_splice. rewrite E1. cbn [mbind outcome_bind].
  rewrite (proj2 (Z.eqb_neq _ _) Hyx).
  assert (Hpar : get h_parent h1 y = Ok (succ_parent x)).
  { unfold get, load_at. rewrite Hp1. apply (read_parent s h _ cy E y ry Hc (succ_parent x) (succ_ctx_parent x)). }
  rewrite Hpar. cbn [mbind outcome_bind].
  assert (Esel : (if succ_parent x =? x then set_parent h1 (ptr s ry) y else set_parent h1 (ptr s ry) (succ_parent x)) = Ok h2).
  { rewrite <- E2. unfold succ_parent in *. destruct C2 as [|g G2]; [by rewrite Z.eqb_refl|].
    rewrite (proj2 (Z.eqb_neq _ _)); [done|]. intros Eg. apply Hx. rewrite <- Eg, !elem_of_app, nodes_plug, around_frame. set_solver. }
  rewrite Esel. cbn [mbind outcome_bind].
  pose proof (succ_replaceable h2 Hsp) as Hrep. destruct (replace_ok _ _ _ _ _ _ _ _ Hrep) as (h3 & E3 & H3). exists h3.
  assert (Hout : forall z, z <> y -> z <> s -> z ∉ inorder l ++ inorder (plug C2 ry) ++ around C -> z <> x -> same_at h h3 z).
  { intros z Zy Zs Zr Zx. apply (same_trans _ h2).
    - eapply (spliced_outside _ _ _ _ _ y (y :: inorder (plug (succ_ctx x) ry)) Hsp); [done| |done].
      by rewrite succ_perm_after, !not_elem_of_cons.
    - apply (rd_same _ _ _ _ _ _ _ H3). by rewrite not_elem_of_cons. }
  split; [done|]. split; [by eapply succ_focus|]. split; [by rewrite (rd_key _ _ _ _ _ _ _ H3), (sp_key _ _ _ _ _ Hsp)|]. split.
  - intros z Hz Hzs. rewrite succ_perm in Hz. apply not_elem_of_cons in Hz as [Zy Hz]. apply not_elem_of_cons in Hz as [Zx Hz]. by apply Hout.
  - destruct Hrep as [_ [Fl Fr Fp Fc Fk] _ _ _ _ Fs _]. rewrite !not_elem_of_cons in Fs. destruct Fs as (_ & Fx & _).
    apply (fresh_same h2).
    + split; [by apply not_elem_of_nil|done|by eexists..|by eapply has_parent_some|by eexists|done].
    + apply (rd_same _ _ _ _ _ _ _ H3). by rewrite not_elem_of_cons.
    + rewrite succ_perm_after. by rewrite not_elem_of_cons.
Qed.

Lemma delete_two_ok :
  let t := plug C (T c l x (plug C2 (T cy E y ry))) in
  rb_tree t -> before C2 = [] -> delete_subst s h x = Ok (y, ptr s ry) ->
  delete_result h t x (ngx_rbtree_delete s h x).
Proof.
  intros t Hrb Eb Es. subst t. pose proof succ_holds as Hc.
  rewrite (delete_inner_eq h x y (ptr s ry) (is_red cy) Es); [| |by eapply is_red_node].
  2:{ apply Z.eqb_neq, not_eq_sym. unfold succ_ctx in Hc. destruct C2; by eapply not_root. }
  destruct succ_splice as (h3 & E3 & F3 & K3 & O3 & X3). rewrite E3. cbn [mbind outcome_bind].
  rewrite <- succ_plug in Hrb. destruct (removed_rb_ok _ _ _ _ _ ry Hrb ltac:(by right)) as (n & HC & Hn).
  apply rbc_rename with (y := y) in HC.
  destruct (delete_finish_ok (is_red cy) h3 (succ_ctx y) ry x F3 (removed_rb_red _ _ _ _ HC Hn) X3)
    as (h' & t' & E' & H' & R' & I' & D').
  exists h', t'. split; [done|]. split; [done|]. split; [done|]. rewrite I'. split; [by apply succ_order|].
  eapply deleted_before; [|exact K3|exact O3|exact D']. rewrite succ_perm, succ_perm_after. by constructor.
Qed.
End successor.

(** ** Any node *)

Lemma find_node t x : x ∈ inorder t -> exists C c l r, t = plug C (T c l x r).
Proof.
  induction t as [|c l IHl v r IHr]; cbn [inorder]; [by intros ?%not_elem_of_nil|].
  rewrite elem_of_app, elem_of_cons. intros [Hx|[->|Hx]].
  - destruct (IHl Hx) as (C & c' & l' & r' & ->). exists (C ++ [mk_frame L c v r]), c', l', r'. by rewrite plug_app.
  - by exists [], c, l, r.
  - destruct (IHr Hx) as (C & c' & l' & r' & ->). exists (C ++ [mk_frame R c v l]), c', l', r'. by rewrite plug_app.
Qed.

(** With two children, the successor and its right subtree. *)
Lemma delete_subst_two h C c l x C2 cy y ry :
  holds_tree s h (plug C (T c l x (plug C2 (T cy E y ry)))) -> l <> E ->
  (forall h' CC fuel, holds_tree s h' (plug CC (plug C2 (T cy E y ry))) ->
    (length (inorder (plug C2 (T cy E y ry))) <= fuel)%nat ->
    rbtree_min_loop s fuel h' (ptr s (plug C2 (T cy E y ry))) = Ok y) ->
  delete_subst s h x = Ok (y, ptr s ry).
Proof.
  set (r := plug C2 (T cy E y ry)). intros H Hl Hmin. unfold delete_subst.
  destruct (focus_nodup _ _ _ _ H) as (_ & _ & _ & Hs & _). cbn [inorder] in Hs.
  rewrite not_elem_of_app, not_elem_of_cons in Hs. destruct Hs as (Sl & _ & Sr).
  rewrite (read_left _ _ _ _ _ _ _ H), (read_right _ _ _ _ _ _ _ H). cbn [mbind outcome_bind].
  rewrite !ptr_eqb by done. destruct l as [|cl ll xl rl]; [done|].
  assert (Hr : r <> E).
  { intros Er. apply (f_equal inorder) in Er. unfold r in Er. rewrite inorder_plug in Er. cbn in Er.
    by destruct (before C2). }
  pose proof (ctx_length (mk_frame R c x (T cl ll xl rl) :: C) r) as Hlen. pose proof (nodes_in_steps _ _ _ H).
  change (plug (mk_frame R c x (T cl ll xl rl) :: C) r) with (plug C (T c (T cl ll xl rl) x r)) in Hlen.
  assert (Em : ngx_rbtree_min s h (ptr s r) = Ok y) by (apply (Hmin h (mk_frame R c x (T cl ll xl rl) :: C)); [exact H|lia]).
  destruct r eqn:Er; [done|]. rewrite <- Er in *. rewrite Em. cbn [mbind outcome_bind].
  assert (Hy : holds_tree s h (plug (C2 ++ mk_frame R c x (T cl ll xl rl) :: C) (T cy E y ry))).
  { by rewrite plug_app. }
  rewrite (read_left _ _ _ _ _ _ _ Hy). cbn [mbind outcome_bind ptr]. rewrite Z.eqb_refl. cbn [negb].
  by rewrite (read_right _ _ _ _ _ _ _ Hy).
Qed.

Lemma delete_ok h t x :
  holds_tree s h t -> rb_tree t -> x ∈ inorder t -> delete_result h t x (ngx_rbtree_delete s h x).
Proof.
  intros H Hrb Hx. destruct (find_node t x Hx) as (C & c & l & r & ->).
  assert ((l = E \/ r = E) \/ l <> E /\ r <> E) as [Hone|[Hl Hr]] by (destruct l, r; auto; right; done).
  - destruct (delete_subst_one _ _ _ _ _ _ H Hone) as (u & Hu & Es).
    destruct C as [|f C]; [by eapply delete_root_ok|by eapply delete_one_ok].
  - destruct (leftmost r Hr) as (C2 & cy & y & ry & -> & Eb & Hmin).
    apply delete_two_ok; [done|done|done|]. by eapply delete_subst_two.
Qed.

End remove.
