(* ===== verification/RbTreeTheory.v ===== *)
(** Component "red-black tree", continued: what the operations do, as theorems about
    the order of the nodes. *)

From stdpp Require Import base numbers list option gmap sorting.
From Stdlib Require Import ZArith Lia.
From S2P Require Import Prelude RbTree RbTreeShape RbTreeInsert RbTreeDelete RbTreeRemove.
Local Open Scope Z_scope.

(** ** Order and depth *)

Abbreviation sorted_by rank := (StronglySorted (fun y1 y2 : Z => Z.le (rank y1) (rank y2))).

Lemma sorted_place rank (l1 l2 : list Z) z :
  sorted_by rank (l1 ++ l2) -> Forall (fun y => rank y <= rank z) l1 -> Forall (fun y => rank z <= rank y) l2 ->
  sorted_by rank (l1 ++ z :: l2).
Proof.
  rewrite !StronglySorted_app, StronglySorted_cons, !Forall_forall. intros (H & H1 & H2) F1 F2.
  split; [|done]. intros x1 x2 Hx1 [->|Hx2]%elem_of_cons; auto.
Qed.

Lemma sorted_drop rank (l1 l2 : list Z) z : sorted_by rank (l1 ++ z :: l2) -> sorted_by rank (l1 ++ l2).
Proof.
  rewrite !StronglySorted_app, StronglySorted_cons. intros (H & H1 & _ & H2). split; [|done].
  intros x1 x2 Hx1 Hx2. apply H; [done|by right].
Qed.

Lemma nodup_pivot (l1 l2 k1 k2 : list Z) x :
  NoDup (l1 ++ x :: l2) -> l1 ++ x :: l2 = k1 ++ x :: k2 -> l1 = k1 /\ l2 = k2.
Proof.
  revert k1. induction l1 as [|a l1 IH]; intros [|b k1] Hn Hl; cbn in *; simplify_eq; [done| | |].
  - apply NoDup_cons in Hn as [Hx _]. destruct Hx. rewrite elem_of_app, elem_of_cons. auto.
  - apply NoDup_cons in Hn as [Hx _]. destruct Hx. rewrite elem_of_app, elem_of_cons. auto.
  - apply NoDup_cons in Hn as [_ Hn]. by destruct (IH k1 Hn ltac:(done)) as [-> ->].
Qed.

Fixpoint height (t : tree) : nat := match t with E => 0 | T _ l _ r => S (Nat.max (height l) (height r)) end.

Lemma rb_height_size c n t :
  rb c n t -> (height t <= 2 * n + match c with Red => 1 | Black => 0 end)%nat /\
    (2 ^ n <= S (length (inorder t)))%nat.
Proof.
  induction 1 as [|n l x r Hl [H1 H2] Hr [H3 H4]|n cl cr l x r Hl [H1 H2] Hr [H3 H4]]; cbn [height inorder].
  - cbn. lia.
  - rewrite length_app. cbn [length]. lia.
  - rewrite length_app. cbn [length]. rewrite Nat.pow_succ_r'. destruct cl, cr; lia.
Qed.

(** The depth is logarithmic. *)
Lemma rb_tree_height t : rb_tree t -> (height t <= 2 * Nat.log2 (S (length (inorder t))))%nat.
Proof.
  intros [n H]. destruct (rb_height_size _ _ _ H) as [H1 H2]. assert (n <= Nat.log2 (S (length (inorder t))))%nat; [|lia].
  apply Nat.log2_le_pow2; lia.
Qed.

Section theory.
Context (s : Z).

(** ** ngx_rbtree_init *)

Lemma init_ok h :
  is_Some (h_color h !! s) -> is_Some (h_parent h !! s) ->
  exists h', ngx_rbtree_init s h = Ok h' /\ holds_tree s h' E /\ keeps s [] h h'.
Proof.
  intros [v Hc] Hp. unfold ngx_rbtree_init, ngx_rbt_black. rewrite (set_color_ok _ _ _ _ Hc). cbn [mbind outcome_bind].
  eexists. split; [done|]. split.
  - split; try done; cbn; [constructor|by apply not_elem_of_nil|by rewrite lookup_insert_eq].
  - split; [|done|done]. intros z _ Hz. by destruct (same_upd_color h s 0 z Hz).
Qed.

(** ** Traversal *)

(** Going up from a node without a right subtree. *)
Lemma next_loop_ok fuel h C t :
  holds_tree s h (plug C t) -> t <> E -> (length C < fuel)%nat ->
  next_loop fuel h (ptr s t) = Ok (hd NULL (after C)).
Proof.
  revert C t. induction fuel as [|fuel IH]; intros C t H Hne Hf; [lia|]. cbn [next_loop].
  destruct t as [|c l x r]; [done|]. cbn [ptr]. pose proof (focus_cell _ _ _ _ _ _ _ H) as Hc.
  destruct (has_parent_some _ _ _ (cell_parent _ _ _ _ _ _ Hc)) as [p0 Hp0].
  rewrite (get_ok h_parent _ _ _ Hp0). cbn [mbind outcome_bind]. rewrite (ht_root _ _ _ H).
  destruct C as [|[d k p b] C]; [cbn [plug ptr]; by rewrite Z.eqb_refl|].
  rewrite (proj2 (Z.eqb_neq _ _)) by (apply not_eq_sym; rewrite <- (ht_root _ _ _ H); by eapply not_root).
  pose proof (cell_parent _ _ _ _ _ _ Hc) as Hp. cbn in Hp. rewrite Hp0 in Hp. injection Hp as ->.
  pose proof H as H1. open_frame in H1. destruct (read_child _ _ _ _ _ _ _ _ H1) as [R1 R2].
  destruct d; cbn [child opp] in *.
  - rewrite R1. cbn [mbind outcome_bind ptr after hd]. by rewrite Z.eqb_refl.
  - rewrite R2. cbn [mbind outcome_bind].
    rewrite (proj2 (Z.eqb_neq _ _)) by (apply (ptr_ne _ _ _ _ _ _ _ _ H1); done).
    cbn [length] in Hf. cbn [after]. apply (IH C (T k b p (T c l x r))); [exact H1|done|lia].
Qed.

Lemma next_focus h C c l x r :
  holds_tree s h (plug C (T c l x r)) -> ngx_rbtree_next s h x = Ok (hd NULL (inorder r ++ after C)).
Proof.
  intros H. unfold ngx_rbtree_next. rewrite (read_right _ _ _ _ _ _ _ H). cbn [mbind outcome_bind].
  destruct (focus_nodup _ _ _ _ H) as (_ & _ & _ & Hs & _). cbn [inorder] in Hs.
  rewrite ptr_eqb by (intros Hin; apply Hs; rewrite elem_of_app, elem_of_cons; auto).
  assert (r = E \/ r <> E) as [->|Hr] by (destruct r; auto).
  - cbn [negb inorder app]. pose proof (nodes_in_steps _ _ _ H). pose proof (ctx_length C (T c l x E)).
    apply (next_loop_ok (steps h) h C (T c l x E)); [done|done|lia].
  - destruct (rbtree_min_ok s h (mk_frame R c x l :: C) r H Hr) as (y & l' & E1 & E2).
    rewrite E2. destruct r; [done|]. exact E1.
Qed.

Lemma next_ok h t l1 x l2 :
  holds_tree s h t -> inorder t = l1 ++ x :: l2 -> ngx_rbtree_next s h x = Ok (hd NULL l2).
Proof.
  intros H Eo. assert (Hx : x ∈ inorder t) by (rewrite Eo, elem_of_app, elem_of_cons; auto).
  destruct (find_node t x Hx) as (C & c & l & r & ->). rewrite (next_focus _ _ _ _ _ _ H).
  pose proof (ht_nodup _ _ _ H) as Hn. rewrite inorder_plug in Eo, Hn. cbn [inorder] in Eo, Hn.
  rewrite <- app_assoc, app_assoc in Eo, Hn. cbn [app] in Eo, Hn.
  by destruct (nodup_pivot _ _ _ _ _ Hn Eo) as [_ <-].
Qed.

Lemma min_root_ok h t x l :
  holds_tree s h t -> inorder t = x :: l -> ngx_rbtree_min s h (h_root h) = Ok x.
Proof.
  intros H Eo. rewrite (ht_root _ _ _ H). destruct (rbtree_min_ok s h [] t H) as (y & k & E1 & E2); [by intros ->|].
  congruence.
Qed.

(** ** Insertion and deletion in the order *)

Lemma insert_sorted_ok ins bf {Hfn : InsertFn s ins bf} (rank : Z -> Z) h t z :
  holds_tree s h t -> rb_tree t -> fresh_node s h (inorder t) z ->
  (forall y, y ∈ inorder t -> bf h z y = (rank z <? rank y)) -> sorted_by rank (inorder t) ->
  exists h' t' l1 l2,
    ngx_rbtree_insert s ins h z = Ok h' /\ holds_tree s h' t' /\ rb_tree t' /\ sorted_by rank (inorder t') /\
    inorder t = l1 ++ l2 /\ inorder t' = l1 ++ z :: l2 /\
    Forall (fun y => rank y <= rank z) l1 /\ Forall (fun y => rank z < rank y) l2 /\
    keeps s (z :: inorder t) h h'.
Proof.
  intros H Hrb Hf Hbf Hs.
  assert (Ho : StronglySorted (fun y1 y2 => bf h z y1 = true -> bf h z y2 = true) (inorder t)).
  { clear H Hrb Hf. induction Hs as [|x l Hs IH Hx]; [constructor|].
    constructor; [apply IH; intros y Hy; apply Hbf; by right|]. rewrite Forall_forall in Hx |- *.
    intros y Hy. rewrite !Hbf by (by (left || right)). specialize (Hx y Hy). lia. }
  destruct (insert_run s ins bf Hfn h t z H Hrb Hf Ho) as (h' & t' & l1 & l2 & E1 & H' & R' & Et & Et' & F1 & F2 & K).
  assert (G1 : Forall (fun y => rank y <= rank z) l1).
  { rewrite Forall_forall in F1 |- *. intros y Hy. specialize (F1 y Hy). rewrite Hbf in F1; [lia|].
    rewrite Et, elem_of_app. auto. }
  assert (G2 : Forall (fun y => rank z < rank y) l2).
  { rewrite Forall_forall in F2 |- *. intros y Hy. specialize (F2 y Hy). rewrite Hbf in F2; [lia|].
    rewrite Et, elem_of_app. auto. }
  exists h', t', l1, l2. split_and!; try done. rewrite Et'. apply sorted_place; [by rewrite <- Et|done|].
  eapply Forall_impl; [exact G2|]. intros y Hy. cbn in Hy. lia.
Qed.

Lemma delete_at_ok h t l1 x l2 :
  holds_tree s h t -> rb_tree t -> inorder t = l1 ++ x :: l2 ->
  exists h' t', ngx_rbtree_delete s h x = Ok h' /\ holds_tree s h' t' /\ rb_tree t' /\ inorder t' = l1 ++ l2 /\
    deleted s h (inorder t) x h'.
Proof.
  intros H Hrb Eo. assert (Hx : x ∈ inorder t) by (rewrite Eo, elem_of_app, elem_of_cons; auto).
  destruct (delete_ok s h t x H Hrb Hx) as (h' & t' & E1 & H' & R' & (k1 & k2 & Ek & Ek') & D).
  exists h', t'. split_and!; try done. pose proof (ht_nodup _ _ _ H) as Hn. rewrite Eo in Hn, Ek.
  by destruct (nodup_pivot _ _ _ _ _ Hn Ek) as [-> ->].
Qed.

End theory.

(** * The theorems *)

(** C15. ngx_rbtree_insert, with any function for tree->insert that has the
    interface of the two of ngx_rbtree.c, terminates and keeps the red-black tree: the
    links to children and parents agree, the colours are right and so the depth is
    logarithmic; the nodes stay sorted, with the new one after those of the same rank,
    and no other node of the memory is touched. *)
Theorem ngx_rbtree_insert_correct s ins bf {Hfn : InsertFn s ins bf} (rank : Z -> Z) h t z :
  holds_tree s h t -> rb_tree t -> fresh_node s h (inorder t) z ->
  (forall y, y ∈ inorder t -> bf h z y = (rank z <? rank y)) -> sorted_by rank (inorder t) ->
  exists h' t' l1 l2,
    ngx_rbtree_insert s ins h z = Ok h' /\ holds_tree s h' t' /\ rb_tree t' /\ sorted_by rank (inorder t') /\
    (height t' <= 2 * Nat.log2 (S (length (inorder t'))))%nat /\
    inorder t = l1 ++ l2 /\ inorder t' = l1 ++ z :: l2 /\
    Forall (fun y => rank y <= rank z) l1 /\ Forall (fun y => rank z < rank y) l2 /\
    keeps s (z :: inorder t) h h'.
Proof.
  intros H Hrb Hf Hbf Hs.
  destruct (insert_sorted_ok s ins bf rank h t z H Hrb Hf Hbf Hs) as (h' & t' & l1 & l2 & ? & ? & R' & ?).
  exists h', t', l1, l2. split_and!; try tauto. by apply rb_tree_height.
Qed.

(** C16. ngx_rbtree_delete terminates and takes exactly the node out of the sequence
    of the nodes, whichever children it has; the result is a red-black tree in the
    memory, the node is cleared, no other key changes and no node outside of the tree is
    touched. *)
Theorem ngx_rbtree_delete_correct s h t l1 x l2 :
  holds_tree s h t -> rb_tree t -> inorder t = l1 ++ x :: l2 ->
  exists h' t', ngx_rbtree_delete s h x = Ok h' /\ holds_tree s h' t' /\ rb_tree t' /\ inorder t' = l1 ++ l2 /\
    deleted s h (inorder t) x h'.
Proof. apply delete_at_ok. Qed.

Theorem ngx_rbtree_walk_correct s h t :
  holds_tree s h t ->
  (forall x l, inorder t = x :: l -> ngx_rbtree_min s h (h_root h) = Ok x) /\
  (forall l1 x l2, inorder t = l1 ++ x :: l2 -> ngx_rbtree_next s h x = Ok (hd NULL l2)).
Proof. intros H. split; intros; [by eapply min_root_ok|by eapply next_ok]. Qed.

(** ** Witnesses *)

(** Three nodes with the keys 5, 2 and 8, one that is not in the tree with the key 3,
    and the sentinel 99. *)
Definition demo_tree : tree := T Black (T Red E 2 E) 1 (T Red E 3 E).

Definition map_of (l : list (Z * Z)) : gmap Z Z := list_to_map l.

Definition demo_heap : heap := mk_heap
  (map_of [(1, 5); (2, 2); (3, 8); (4, 3); (99, 0)])
  (map_of [(1, 2); (2, 99); (3, 99); (4, 0); (99, 0)])
  (map_of [(1, 3); (2, 99); (3, 99); (4, 0); (99, 0)])
  (map_of [(1, 0); (2, 1); (3, 1); (4, 0); (99, 0)])
  (map_of [(1, 0); (2, 1); (3, 1); (4, 0); (99, 0)]) 1.

Lemma demo_holds : holds_tree 99 demo_heap demo_tree.
Proof.
  split; [|apply (bool_decide_unpack _); reflexivity|apply (bool_decide_unpack _); reflexivity|reflexivity|reflexivity|by eexists].
  cbn. split_and!; try done; split; (reflexivity || by eexists).
Qed.

Lemma demo_rb : rb_tree demo_tree.
Proof. exists 1%nat. repeat econstructor. Qed.

Lemma demo_node_fresh : fresh_node 99 demo_heap (inorder demo_tree) 4.
Proof. split; [apply (bool_decide_unpack _); reflexivity|done|by eexists..]. Qed.

Lemma demo_sorted : sorted_by (key demo_heap) (inorder demo_tree).
Proof.
  assert (key demo_heap 2 = 2 /\ key demo_heap 1 = 5 /\ key demo_heap 3 = 8) as (E2 & E1 & E3) by (split_and!; reflexivity).
  change (inorder demo_tree) with [2; 1; 3].
  rewrite !StronglySorted_cons, !Forall_cons, !Forall_nil, E1, E2, E3. split_and!; (lia || constructor).
Qed.

Lemma ngx_rbtree_insert_correct_witness :
  exists h' t' l1 l2,
    ngx_rbtree_insert 99 (ngx_rbtree_insert_value 99) demo_heap 4 = Ok h' /\ holds_tree 99 h' t' /\ rb_tree t' /\
    sorted_by (key demo_heap) (inorder t') /\ (height t' <= 2 * Nat.log2 (S (length (inorder t'))))%nat /\
    inorder demo_tree = l1 ++ l2 /\ inorder t' = l1 ++ 4 :: l2 /\
    Forall (fun y => key demo_heap y <= key demo_heap 4) l1 /\ Forall (fun y => key demo_heap 4 < key demo_heap y) l2 /\
    keeps 99 (4 :: inorder demo_tree) demo_heap h'.
Proof.
  apply (ngx_rbtree_insert_correct 99 _ key_bf (key demo_heap) demo_heap demo_tree 4).
  - apply demo_holds.
  - apply demo_rb.
  - apply demo_node_fresh.
  - reflexivity.
  - apply demo_sorted.
Defined.

Lemma ngx_rbtree_delete_correct_witness :
  exists h' t', ngx_rbtree_delete 99 demo_heap 1 = Ok h' /\ holds_tree 99 h' t' /\ rb_tree t' /\ inorder t' = [2; 3] /\
    deleted 99 demo_heap (inorder demo_tree) 1 h'.
Proof. apply (ngx_rbtree_delete_correct 99 demo_heap demo_tree [2] 1 [3] demo_holds demo_rb eq_refl). Defined.

Lemma ngx_rbtree_walk_correct_witness :
  (forall x l, inorder demo_tree = x :: l -> ngx_rbtree_min 99 demo_heap (h_root demo_heap) = Ok x) /\
  (forall l1 x l2, inorder demo_tree = l1 ++ x :: l2 -> ngx_rbtree_next 99 demo_heap x = Ok (hd NULL l2)).
Proof. apply (ngx_rbtree_walk_correct 99 demo_heap demo_tree demo_holds). Defined.
