(* ===== verification/EventTimer.v ===== *)
(** Component "event timers": event/ngx_event_timer.c and event/ngx_event_timer.h, the
    timers of all events in one red-black tree.

    The node [ev->timer] is a member at a fixed place of the event, so the address of
    the node stands for the event ([offsetof] goes from one to the other).  The current
    time is an argument. *)

From stdpp Require Import base numbers list option gmap sorting.
From Stdlib Require Import ZArith Lia.
From S2P Require Import Prelude TimesCache RbTree RbTreeShape RbTreeInsert RbTreeDelete RbTreeRemove RbTreeTheory.
Local Open Scope Z_scope.

(** * Definitions *)

Definition NGX_TIMER_INFINITE : Z := 2 ^ 64 - 1.
Definition NGX_TIMER_LAZY_DELAY : Z := 300.

(** The memory of the events: the nodes of their timers and the members used here. *)
Record timers : Type := mk_timers {
  tm_heap : heap;
  tm_timer_set : gmap Z Z;
  tm_timedout : gmap Z Z;
  tm_cancelable : gmap Z Z
}.

#[export] Instance eta_timers : Eta timers := fun t =>
  mk_timers (tm_heap t) (tm_timer_set t) (tm_timedout t) (tm_cancelable t).

Section timers.
Context (sentinel : Z).
Context (ngx_current_msec : Z).

Definition ngx_event_timer_init (tm : timers) : outcome timers :=
  h ← ngx_rbtree_init sentinel (tm_heap tm); Ok (tm <| tm_heap := h |>).

(** [(ngx_msec_int_t) (a - b)] for unsigned [a] and [b] *)
Definition msec_diff (a b : Z) : Z := to_i64 (to_u64 (a - b)).

Definition ngx_event_find_timer (tm : timers) : outcome Z :=
  let h := tm_heap tm in
  if h_root h =? sentinel then Ok NGX_TIMER_INFINITE
  else
    node ← ngx_rbtree_min sentinel h (h_root h);
    k ← get h_key h node;
    let timer := msec_diff k ngx_current_msec in
    Ok (to_u64 (if 0 <? timer then timer else 0)).

Definition ngx_event_del_timer (tm : timers) (ev : Z) : outcome timers :=
  h ← ngx_rbtree_delete sentinel (tm_heap tm) ev;
  m ← store_at (tm_timer_set tm) ev 0;
  Ok (tm <| tm_heap := h |> <| tm_timer_set := m |>).

(** The test that keeps a previous value. *)
Definition timer_is_near (tm : timers) (ev key : Z) : outcome bool :=
  k ← get h_key (tm_heap tm) ev;
  d ← int64 (ngx_abs (msec_diff key k));
  Ok (d <? NGX_TIMER_LAZY_DELAY).

Definition ngx_event_add_timer (tm : timers) (ev timer : Z) : outcome timers :=
  let key := to_u64 (ngx_current_msec + timer) in
  set ← load_at (tm_timer_set tm) ev;
  near ← (if negb (set =? 0) then timer_is_near tm ev key else Ok false);
  if (near : bool) then Ok tm
  else
    tm ← (if negb (set =? 0) then ngx_event_del_timer tm ev else Ok tm);
    h ← set_key (tm_heap tm) ev key;
    h ← ngx_rbtree_insert sentinel (ngx_rbtree_insert_timer_value sentinel) h ev;
    m ← store_at (tm_timer_set tm) ev 1;
    Ok (tm <| tm_heap := h |> <| tm_timer_set := m |>).

(** The handlers of the events act on the timers and on all else. *)
Context {W : Type} (handler : timers -> W -> Z -> outcome (timers * W)).

(** One round of the loop: [None] is the return. *)
Definition expire_step (tm : timers) (w : W) : outcome (option (timers * W)) :=
  let h := tm_heap tm in
  if h_root h =? sentinel then Ok None
  else
    ev ← ngx_rbtree_min sentinel h (h_root h);
    k ← get h_key h ev;
    if 0 <? msec_diff k ngx_current_msec then Ok None
    else
      h ← ngx_rbtree_delete sentinel h ev;
      m ← store_at (tm_timer_set tm) ev 0;
      out ← store_at (tm_timedout tm) ev 1;
      r ← handler (tm <| tm_heap := h |> <| tm_timer_set := m |> <| tm_timedout := out |>) w ev;
      Ok (Some r).

Fixpoint ngx_event_expire_timers (fuel : nat) (tm : timers) (w : W) : outcome (timers * W) :=
  match fuel with
  | O => NoFuel
  | S fuel' =>
      r ← expire_step tm w;
      match r with None => Ok (tm, w) | Some (tm, w) => ngx_event_expire_timers fuel' tm w end
  end.

(** The loop from [node] on. *)
Fixpoint no_timers_loop (fuel : nat) (tm : timers) (node : Z) : outcome Z :=
  match fuel with
  | O => NoFuel
  | S fuel' =>
      if node =? NULL then Ok NGX_OK
      else
        c ← load_at (tm_cancelable tm) node;
        if c =? 0 then Ok NGX_AGAIN
        else node ← ngx_rbtree_next sentinel (tm_heap tm) node; no_timers_loop fuel' tm node
  end.

Definition ngx_event_no_timers_left (tm : timers) : outcome Z :=
  let h := tm_heap tm in
  if h_root h =? sentinel then Ok NGX_OK
  else node ← ngx_rbtree_min sentinel h (h_root h); no_timers_loop (steps h) tm node.

End timers.
