(* ===== verification/EventTimerTheory.v ===== *)
(** Component "event timers", continued: the invariant of the timers, and what each
    operation does to the times at which the timers expire. *)

From stdpp Require Import base numbers list option gmap sorting.
From Stdlib Require Import ZArith Lia.
From S2P Require Import Prelude TimesCache RbTree RbTreeShape RbTreeInsert RbTreeDelete RbTreeRemove RbTreeTheory EventTimer.
Local Open Scope Z_scope.

(** ** Times relative to the current time

    The keys wrap; with all timers less than [2 ^ 62] milliseconds away from the current
    time, the order of the tree is the order of the times that are left. *)
Definition left_at (now : Z) (h : heap) (x : Z) : Z := msec_diff (key h x) now.

Definition in_window (now : Z) (h : heap) (x : Z) : Prop := - 2 ^ 62 < left_at now h x < 2 ^ 62.

Lemma msec_diff_sub a b now :
  - 2 ^ 62 < msec_diff a now < 2 ^ 62 -> - 2 ^ 62 < msec_diff b now < 2 ^ 62 ->
  msec_diff a b = msec_diff a now - msec_diff b now.
Proof. unfold msec_diff. casts. Qed.

Lemma timer_bf_left now h z y :
  in_window now h z -> in_window now h y -> timer_bf h z y = (left_at now h z <? left_at now h y).
Proof.
  intros Hz Hy. unfold timer_bf, in_window, left_at in *. pose proof (msec_diff_sub _ _ _ Hz Hy) as Hd.
  unfold msec_diff in Hd at 1. rewrite Hd. lia.
Qed.

Lemma left_at_new now timer : 0 <= timer < 2 ^ 62 -> msec_diff (to_u64 (now + timer)) now = timer.
Proof. unfold msec_diff. intros. casts. Qed.

Lemma left_at_same now h h' x : h_key h' !! x = h_key h !! x -> left_at now h' x = left_at now h x.
Proof. intros Hk. unfold left_at, key. by rewrite Hk. Qed.

Section theory.
Context (s : Z).

(** * The invariant *)

Record timers_ok (now : Z) (tm : timers) (t : tree) : Prop := {
  to_tree : holds_tree s (tm_heap tm) t;
  to_rb : rb_tree t;
  to_sorted : sorted_by (left_at now (tm_heap tm)) (inorder t);
  to_window : forall x, x ∈ inorder t -> in_window now (tm_heap tm) x;
  to_set : forall x, x ∈ inorder t <-> tm_timer_set tm !! x = Some 1;
  to_event : forall x v, tm_timer_set tm !! x = Some v ->
    (v = 0 \/ v = 1) /\ x <> NULL /\ fresh_node s (tm_heap tm) [] x /\
    is_Some (tm_timedout tm !! x) /\ is_Some (tm_cancelable tm !! x)
}.

(** An order with other ranks that agree. *)
Lemma sorted_same (r r' : Z -> Z) l : (forall x, x ∈ l -> r' x = r x) -> sorted_by r l -> sorted_by r' l.
Proof.
  intros Hr Hs. induction Hs as [|x l Hs IH Hx]; constructor; [apply IH; intros y Hy; apply Hr; by right|].
  rewrite Forall_forall in Hx |- *. intros y Hy. rewrite !Hr by (by (left || right)). by apply Hx.
Qed.

(** As time goes on the timers stay ordered. *)
Lemma timers_ok_later now now' tm t :
  timers_ok now tm t -> (forall x, x ∈ inorder t -> in_window now' (tm_heap tm) x) -> timers_ok now' tm t.
Proof.
  intros [H1 H2 H3 H4 H5 H6] Hw. split; try done.
  assert (Hd : forall x y, x ∈ inorder t -> y ∈ inorder t ->
    left_at now (tm_heap tm) x - left_at now (tm_heap tm) y = left_at now' (tm_heap tm) x - left_at now' (tm_heap tm) y).
  { intros x y Hx Hy. unfold left_at.
    rewrite <- (msec_diff_sub _ _ now), <- (msec_diff_sub _ _ now'); [done|by apply Hw|by apply Hw|by apply H4|by apply H4]. }
  clear - H3 Hd. induction H3 as [|x l Hs IH Hx]; constructor; [apply IH; intros y z Hy Hz; apply Hd; by right|].
  rewrite Forall_forall in Hx |- *. intros y Hy. specialize (Hd x y ltac:(by left) ltac:(by right)). specialize (Hx y Hy). lia.
Qed.

Lemma tree_fresh h t x : holds_tree s h t -> x ∈ inorder t -> fresh_node s h [] x.
Proof. intros H Hx. destruct (find_node t x Hx) as (C & c & l & r & ->). by eapply node_fresh. Qed.

Lemma root_sentinel h t : holds_tree s h t -> (h_root h =? s) = match t with E => true | _ => false end.
Proof. intros H. rewrite (ht_root _ _ _ H). apply ptr_eqb, (ht_sentinel _ _ _ H). Qed.

Lemma inorder_nonempty t : t <> E -> exists x l, inorder t = x :: l.
Proof. destruct t as [|c l x r]; [done|]. intros _. cbn. destruct (inorder l); by eexists _, _. Qed.

(** ** Setting and clearing *)

Lemma init_timers_ok now tm :
  is_Some (h_color (tm_heap tm) !! s) -> is_Some (h_parent (tm_heap tm) !! s) ->
  (forall x v, tm_timer_set tm !! x = Some v -> v = 0 /\ x <> NULL /\ fresh_node s (tm_heap tm) [] x /\
    is_Some (tm_timedout tm !! x) /\ is_Some (tm_cancelable tm !! x)) ->
  exists tm', ngx_event_timer_init s tm = Ok tm' /\ timers_ok now tm' E.
Proof.
  intros Hc Hp He. unfold ngx_event_timer_init. destruct (init_ok s _ Hc Hp) as (h' & -> & H' & [K1 _ _]).
  cbn [mbind outcome_bind]. eexists. split; [done|].
  assert (Hset : forall x, tm_timer_set tm !! x <> Some 1) by (by intros x [? _]%He).
  split; cbn [tm_heap tm_timer_set update_field]; try done.
  - exists 0%nat. constructor.
  - constructor.
  - by intros x ?%not_elem_of_nil.
  - intros x. split; [by intros ?%not_elem_of_nil|by intros ?%Hset].
  - intros x v Hx. destruct (He x v Hx) as (-> & Hn & Hf & ? & ?). split_and!; try done; [by left|].
    eapply fresh_same; [exact Hf| |by apply not_elem_of_nil]. apply K1; [by apply not_elem_of_nil|apply (fn_sentinel _ _ _ _ Hf)].
Qed.

(** What remains of the events' memory when a node leaves the tree. *)
Lemma deleted_events now tm t t' x h' :
  timers_ok now tm t -> deleted s (tm_heap tm) (inorder t) x h' -> holds_tree s h' t' -> inorder t ≡ₚ x :: inorder t' ->
  forall y, fresh_node s (tm_heap tm) [] y -> fresh_node s h' [] y.
Proof.
  intros Hok [D1 D2 D3] H' HN y Hf. destruct (decide (y ∈ inorder t')) as [Hy|Hy]; [by eapply tree_fresh|].
  destruct (Z.eq_dec y x) as [->|Hyx].
  - destruct D1. split; try by eexists. all: first [by apply not_elem_of_nil|apply (fn_sentinel _ _ _ _ Hf)|done].
  - eapply fresh_same; [exact Hf| |by apply not_elem_of_nil]. apply D3; [|apply (fn_sentinel _ _ _ _ Hf)].
    rewrite HN. by apply not_elem_of_cons.
Qed.

Lemma deleted_tree_ok now tm t l1 x l2 :
  timers_ok now tm t -> inorder t = l1 ++ x :: l2 ->
  exists h' m t', ngx_rbtree_delete s (tm_heap tm) x = Ok h' /\ store_at (tm_timer_set tm) x 0 = Ok m /\
    inorder t' = l1 ++ l2 /\ timers_ok now (tm <| tm_heap := h' |> <| tm_timer_set := m |>) t' /\
    m = <[x := 0]> (tm_timer_set tm) /\ (forall y, y <> x -> h_key h' !! y = h_key (tm_heap tm) !! y).
Proof.
  intros Hok Eo. pose proof Hok as [H1 H2 H3 H4 H5 H6].
  destruct (delete_at_ok s _ _ _ _ _ H1 H2 Eo) as (h' & t' & E1 & H' & R' & Eo' & D).
  assert (Hin : x ∈ inorder t) by (rewrite Eo, elem_of_app, elem_of_cons; auto). pose proof Hin as Hset. apply H5 in Hset.
  assert (HN : inorder t ≡ₚ x :: inorder t') by (rewrite Eo, Eo'; by rewrite Permutation_middle).
  pose proof (ht_nodup _ _ _ H1) as Hn. rewrite HN in Hn. apply NoDup_cons in Hn as [Hx Hn].
  assert (Hin' : forall y, y ∈ inorder t' -> y ∈ inorder t /\ y <> x).
  { intros y Hy. split; [rewrite HN; by right|by intros ->]. }
  assert (Hl : forall y, y ∈ inorder t' -> left_at now h' y = left_at now (tm_heap tm) y).
  { intros y Hy. apply left_at_same, (dl_keys _ _ _ _ _ D). by apply Hin'. }
  exists h', (<[x := 0]> (tm_timer_set tm)), t'. split; [done|]. split; [by apply store_at_some; eexists|]. split; [done|].
  split; [|split; [done|apply (dl_keys _ _ _ _ _ D)]].
  split; cbn [tm_heap tm_timer_set tm_timedout tm_cancelable update_field]; try done.
  - eapply sorted_same; [exact Hl|]. rewrite Eo'. rewrite Eo in H3. by eapply sorted_drop.
  - intros y Hy. unfold in_window. rewrite Hl by done. by apply H4, Hin'.
  - intros y. destruct (Z.eq_dec y x) as [->|Hyx].
    + cbn. rewrite lookup_insert_eq. split; [done|intros; done].
    + cbn. rewrite lookup_insert_ne by done. rewrite <- H5, HN, elem_of_cons. clear - Hyx. tauto.
  - intros y v Hy. cbn in Hy. assert (exists v', tm_timer_set tm !! y = Some v' /\ (v = 0 \/ v = v')) as (v' & Hv & Hvv).
    { destruct (Z.eq_dec y x) as [->|Hyx]; [rewrite lookup_insert_eq in Hy; injection Hy as <-; eauto|].
      rewrite lookup_insert_ne in Hy by done. eauto. }
    destruct (H6 y v' Hv) as (? & ? & Hf & ? & ?). split_and!; try done; [naive_solver|].
    by apply (deleted_events now tm t t' x h').
Qed.

Lemma del_timer_ok now tm t l1 x l2 :
  timers_ok now tm t -> inorder t = l1 ++ x :: l2 ->
  exists tm' t', ngx_event_del_timer s tm x = Ok tm' /\ timers_ok now tm' t' /\ inorder t' = l1 ++ l2 /\
    tm_timer_set tm' = <[x := 0]> (tm_timer_set tm) /\ tm_timedout tm' = tm_timedout tm /\
    tm_cancelable tm' = tm_cancelable tm /\
    (forall y, y <> x -> h_key (tm_heap tm') !! y = h_key (tm_heap tm) !! y).
Proof.
  intros Hok Eo. destruct (deleted_tree_ok _ _ _ _ _ _ Hok Eo) as (h' & m & t' & E1 & E2 & Eo' & Hok' & Em & Hk).
  unfold ngx_event_del_timer. rewrite E1. cbn [mbind outcome_bind]. rewrite E2. cbn [mbind outcome_bind].
  eexists _, t'. split; [done|]. split; [done|]. done.
Qed.

Lemma same_set_key h x k z : z <> x -> same_at h (h <| h_key := <[x := k]> (h_key h) |>) z.
Proof. intros Hz. split; cbn; by rewrite ?lookup_insert_ne by done. Qed.

(** The order and the window do not change when a node outside gets a key. *)
Lemma set_key_ok now tm t x k :
  timers_ok now tm t -> (x ∉ inorder t) -> fresh_node s (tm_heap tm) [] x ->
  exists h1, set_key (tm_heap tm) x k = Ok h1 /\ holds_tree s h1 t /\ sorted_by (left_at now h1) (inorder t) /\
    (forall y, y ∈ inorder t -> in_window now h1 y) /\ fresh_node s h1 (inorder t) x /\
    h_key h1 = <[x := k]> (h_key (tm_heap tm)) /\
    (forall y, fresh_node s (tm_heap tm) [] y -> fresh_node s h1 [] y).
Proof.
  intros [H1 H2 H3 H4 H5 H6] Hx Hf. set (h := tm_heap tm) in *. unfold set_key.
  rewrite (store_at_some _ _ _ (fn_key _ _ _ _ Hf)). cbn [mbind outcome_bind]. eexists. split; [done|].
  assert (Hl : forall y, y ∈ inorder t -> left_at now (h <| h_key := <[x := k]> (h_key h) |>) y = left_at now h y).
  { intros y Hy. apply left_at_same, same_set_key. by intros ->. }
  assert (Hfresh : forall y, fresh_node s h [] y -> fresh_node s (h <| h_key := <[x := k]> (h_key h) |>) [] y).
  { intros y []. split; try done. cbn. destruct (Z.eq_dec y x) as [->|Hyx]; [rewrite lookup_insert_eq; by eexists|].
    by rewrite lookup_insert_ne. }
  split; [|split; [|split; [|split; [|done]]]].
  - apply (holds_same s h); [intros z Hz; apply same_set_key; by intros ->| |done|done].
    apply same_set_key, not_eq_sym, (fn_sentinel _ _ _ _ Hf).
  - by eapply sorted_same.
  - intros y Hy. unfold in_window. rewrite Hl by done. by apply H4.
  - destruct (Hfresh x Hf). by split.
Qed.

Lemma insert_timer_ok now tm t x k :
  timers_ok now tm t -> tm_timer_set tm !! x = Some 0 -> - 2 ^ 62 < msec_diff k now < 2 ^ 62 ->
  exists h1 h2 m t' l1 l2,
    set_key (tm_heap tm) x k = Ok h1 /\ ngx_rbtree_insert s (ngx_rbtree_insert_timer_value s) h1 x = Ok h2 /\
    store_at (tm_timer_set tm) x 1 = Ok m /\ timers_ok now (tm <| tm_heap := h2 |> <| tm_timer_set := m |>) t' /\
    inorder t = l1 ++ l2 /\ inorder t' = l1 ++ x :: l2 /\ h_key h2 = <[x := k]> (h_key (tm_heap tm)) /\
    m = <[x := 1]> (tm_timer_set tm).
Proof.
  intros Hok Hset Hk. pose proof Hok as [H1 H2 H3 H4 H5 H6].
  destruct (H6 x 0 Hset) as (_ & Hnull & Hf & Hto & Hca).
  assert (Hx : x ∉ inorder t) by (intros Hin%H5; congruence).
  destruct (set_key_ok _ _ _ x k Hok Hx Hf) as (h1 & E1 & Ht1 & Hs1 & Hw1 & Hf1 & Hk1 & Hfr1).
  assert (Hxw : in_window now h1 x) by (unfold in_window, left_at, key; by rewrite Hk1, lookup_insert_eq).
  destruct (insert_sorted_ok s (ngx_rbtree_insert_timer_value s) timer_bf (left_at now h1) h1 t x Ht1 H2 Hf1)
    as (h2 & t' & l1 & l2 & E2 & Ht2 & R2 & Hs2 & Eo & Eo' & _ & _ & [K1 K2 _]); [|done|].
  { intros y Hy. by apply timer_bf_left; [|apply Hw1]. }
  assert (Hin' : forall y, y ∈ inorder t' <-> y = x \/ y ∈ inorder t).
  { intros y. rewrite Eo', Eo, !elem_of_app, elem_of_cons. tauto. }
  assert (Hl : forall y, left_at now h2 y = left_at now h1 y) by (intros y; apply left_at_same; by rewrite K2).
  exists h1, h2, (<[x := 1]> (tm_timer_set tm)), t', l1, l2.
  split; [done|]. split; [done|]. split; [by apply store_at_some; eexists|]. split; [|by rewrite K2, Hk1].
  split; cbn [tm_heap tm_timer_set tm_timedout tm_cancelable update_field]; try done.
  - eapply sorted_same; [|exact Hs2]. intros; apply Hl.
  - intros y Hy%Hin'. unfold in_window. rewrite Hl. destruct Hy as [->|Hy]; [done|by apply Hw1].
  - intros y. cbn. rewrite Hin'. destruct (Z.eq_dec y x) as [->|Hyx]; [rewrite lookup_insert_eq; tauto|].
    rewrite lookup_insert_ne by done. rewrite H5. tauto.
  - intros y v Hy. cbn in Hy. assert (exists v', tm_timer_set tm !! y = Some v' /\ (v = 1 \/ v = v')) as (v' & Hv & Hvv).
    { destruct (Z.eq_dec y x) as [->|Hyx]; [rewrite lookup_insert_eq in Hy; injection Hy as <-; eauto|].
      rewrite lookup_insert_ne in Hy by done. eauto. }
    destruct (H6 y v' Hv) as (? & ? & Hfy & ? & ?). split_and!; try done; [naive_solver|].
    destruct (decide (y ∈ inorder t')) as [Hy'|Hy']; [by eapply tree_fresh|].
    eapply fresh_same; [by apply Hfr1| |by apply not_elem_of_nil]. apply K1; [|apply (fn_sentinel _ _ _ _ Hfy)].
    rewrite Hin' in Hy'. rewrite not_elem_of_cons. tauto.
Qed.

(** ** ngx_event_add_timer *)

Lemma near_test now tm t x k :
  timers_ok now tm t -> x ∈ inorder t -> - 2 ^ 62 < msec_diff k now < 2 ^ 62 ->
  timer_is_near tm x k = Ok (Z.abs (msec_diff k now - left_at now (tm_heap tm) x) <? NGX_TIMER_LAZY_DELAY).
Proof.
  intros Hok Hx Hk. unfold timer_is_near. pose proof (to_window _ _ _ Hok x Hx) as Hw.
  rewrite (get_key _ _ (fn_key _ _ _ _ (tree_fresh _ _ _ (to_tree _ _ _ Hok) Hx))). cbn [mbind outcome_bind].
  rewrite (msec_diff_sub _ _ now) by done. unfold in_window in Hw. fold (left_at now (tm_heap tm) x). unfold ngx_abs.
  destruct (Z.leb_spec 0 (msec_diff k now - left_at now (tm_heap tm) x)); rewrite int64_ok by lia; cbn [mbind outcome_bind];
    do 2 f_equal; lia.
Qed.

(** The order after the event has been moved: [l] has the nodes without it. *)
Definition without (x : Z) (l : list Z) : list Z := filter (fun y => y <> x) l.

Lemma without_none x l : x ∉ l -> without x l = l.
Proof.
  intros Hx. unfold without. induction l as [|y l IH]; [done|]. apply not_elem_of_cons in Hx as [? ?].
  rewrite filter_cons_True by done. by rewrite IH.
Qed.

Lemma without_app x l1 l2 : (x ∉ l1) -> (x ∉ l2) -> without x (l1 ++ x :: l2) = l1 ++ l2.
Proof.
  intros H1 H2. unfold without. rewrite filter_app, filter_cons_False by auto.
  fold (without x l1) (without x l2). by rewrite !without_none.
Qed.

Lemma add_timer_ok now tm t x timer :
  timers_ok now tm t -> is_Some (tm_timer_set tm !! x) -> 0 <= timer < 2 ^ 62 ->
  exists tm' t', ngx_event_add_timer s now tm x timer = Ok tm' /\ timers_ok now tm' t' /\ x ∈ inorder t' /\
    without x (inorder t') = without x (inorder t) /\
    (forall y, y <> x -> left_at now (tm_heap tm') y = left_at now (tm_heap tm) y) /\
    (tm' = tm /\ x ∈ inorder t /\ Z.abs (left_at now (tm_heap tm) x - timer) < NGX_TIMER_LAZY_DELAY \/
     left_at now (tm_heap tm') x = timer).
Proof.
  intros Hok [v Hv] Htimer. pose proof (left_at_new now timer Htimer) as Hk.
  assert (Hkw : - 2 ^ 62 < msec_diff (to_u64 (now + timer)) now < 2 ^ 62) by lia. set (k := to_u64 (now + timer)) in *.
  assert (Hlast : forall tm1 t1, timers_ok now tm1 t1 -> tm_timer_set tm1 !! x = Some 0 ->
    inorder t1 = without x (inorder t) ->
    (forall y, y <> x -> h_key (tm_heap tm1) !! y = h_key (tm_heap tm) !! y) ->
    exists tm' t', (h ← set_key (tm_heap tm1) x k; h ← ngx_rbtree_insert s (ngx_rbtree_insert_timer_value s) h x;
      m ← store_at (tm_timer_set tm1) x 1; Ok (tm1 <| tm_heap := h |> <| tm_timer_set := m |>)) = Ok tm' /\
      timers_ok now tm' t' /\ x ∈ inorder t' /\ without x (inorder t') = without x (inorder t) /\
      (forall y, y <> x -> left_at now (tm_heap tm') y = left_at now (tm_heap tm) y) /\
      left_at now (tm_heap tm') x = timer).
  { intros tm1 t1 Hok1 Hs1 Eo1 Hk1. destruct (insert_timer_ok now tm1 t1 x k Hok1 Hs1 Hkw)
      as (h1 & h2 & m & t' & l1 & l2 & E1 & E2 & E3 & Hok' & Eo & Eo' & Hkk & _).
    rewrite E1. cbn [mbind outcome_bind]. rewrite E2. cbn [mbind outcome_bind]. rewrite E3. cbn [mbind outcome_bind].
    eexists _, t'. split; [done|]. split; [done|]. split; [rewrite Eo', elem_of_app, elem_of_cons; auto|].
    pose proof (ht_nodup _ _ _ (to_tree _ _ _ Hok')) as Hn. rewrite Eo' in Hn.
    rewrite <- Permutation_middle in Hn. apply NoDup_cons in Hn as [Hn _]. apply not_elem_of_app in Hn as [N1 N2].
    split; [rewrite Eo', without_app, <- Eo by done; by rewrite Eo1|]. split.
    - intros y Hy. apply left_at_same. cbn. by rewrite Hkk, lookup_insert_ne, Hk1 by done.
    - unfold left_at, key. cbn. by rewrite Hkk, lookup_insert_eq. }
  unfold ngx_event_add_timer. fold k. unfold load_at. rewrite Hv. cbn [mbind outcome_bind].
  pose proof (to_event _ _ _ Hok x v Hv) as ([->| ->] & _).
  - change (negb (0 =? 0)) with false. cbn [mbind outcome_bind].
    assert (Hx : x ∉ inorder t) by (intros Hin%(to_set _ _ _ Hok); congruence).
    destruct (Hlast tm t Hok Hv ltac:(by rewrite without_none) ltac:(done)) as (tm' & t' & E' & ? & ? & ? & ? & ?).
    exists tm', t'. rewrite E'. by split_and!; auto.
  - apply (to_set _ _ _ Hok) in Hv as Hx. change (negb (1 =? 0)) with true. cbv iota.
    rewrite (near_test _ _ _ _ _ Hok Hx Hkw). cbn [mbind outcome_bind]. rewrite Hk.
    destruct (Z.ltb_spec (Z.abs (timer - left_at now (tm_heap tm) x)) NGX_TIMER_LAZY_DELAY).
    + exists tm, t. split_and!; try done. left. split_and!; try done. lia.
    + apply list_elem_of_split in Hx as (l1 & l2 & Eo).
      destruct (del_timer_ok _ _ _ _ _ _ Hok Eo) as (tm1 & t1 & E1 & Hok1 & Eo1 & Hs1 & _ & _ & Hk1).
      rewrite E1. cbn [mbind outcome_bind].
      pose proof (ht_nodup _ _ _ (to_tree _ _ _ Hok)) as Hn. rewrite Eo, <- Permutation_middle in Hn.
      apply NoDup_cons in Hn as [Hn _]. apply not_elem_of_app in Hn as [N1 N2].
      destruct (Hlast tm1 t1 Hok1) as (tm' & t' & E' & ? & ? & ? & ? & ?).
      { by rewrite Hs1, lookup_insert_eq. } { by rewrite Eo1, Eo, without_app. } { done. }
      exists tm', t'. rewrite E'. by split_and!; auto.
Qed.

(** ** The first timer *)

Lemma first_timer now tm t x l :
  timers_ok now tm t -> inorder t = x :: l ->
  ngx_rbtree_min s (tm_heap tm) (h_root (tm_heap tm)) = Ok x /\
  get h_key (tm_heap tm) x = Ok (key (tm_heap tm) x) /\ in_window now (tm_heap tm) x /\
  forall y, y ∈ inorder t -> left_at now (tm_heap tm) x <= left_at now (tm_heap tm) y.
Proof.
  intros Hok Eo. assert (Hx : x ∈ inorder t) by (rewrite Eo; by left). pose proof (to_tree _ _ _ Hok) as H.
  split; [by eapply min_root_ok|]. split; [by apply get_key, (fn_key _ _ _ _ (tree_fresh _ _ _ H Hx))|].
  split; [by apply (to_window _ _ _ Hok)|]. intros y Hy. pose proof (to_sorted _ _ _ Hok) as Hs. rewrite Eo in Hy, Hs.
  apply StronglySorted_cons in Hs as [Hs _]. rewrite Forall_forall in Hs. apply elem_of_cons in Hy as [->|Hy]; [lia|by apply Hs].
Qed.

Lemma find_timer_ok now tm t :
  timers_ok now tm t ->
  match inorder t with
  | [] => ngx_event_find_timer s now tm = Ok NGX_TIMER_INFINITE
  | x :: _ => ngx_event_find_timer s now tm = Ok (Z.max 0 (left_at now (tm_heap tm) x)) /\
      forall y, y ∈ inorder t -> left_at now (tm_heap tm) x <= left_at now (tm_heap tm) y
  end.
Proof.
  intros Hok. unfold ngx_event_find_timer. rewrite (root_sentinel _ _ (to_tree _ _ _ Hok)).
  destruct (inorder t) as [|x l] eqn:Eo.
  - destruct t as [|c tl tx tr]; [done|]. cbn in Eo. by destruct (inorder tl).
  - destruct t as [|c tl tx tr]; [done|]. destruct (first_timer _ _ _ _ _ Hok Eo) as (-> & Ek & Hw & Hmin).
    cbn [mbind outcome_bind]. rewrite Ek. cbn [mbind outcome_bind]. rewrite <- Eo. split; [|done]. f_equal.
    fold (left_at now (tm_heap tm) x). unfold in_window in Hw.
    destruct (Z.ltb_spec 0 (left_at now (tm_heap tm) x)); rewrite to_u64_id; lia.
Qed.

(** ** ngx_event_expire_timers *)

Section expire.
Context {W : Type} (handler : timers -> W -> Z -> outcome (timers * W)) (now : Z).

(** A timer whose time has come. *)
Definition expired (tm : timers) (x : Z) : Prop := left_at now (tm_heap tm) x <= 0.

(** What the loop needs of the handlers: they keep the timers well formed, and the
    timers they add are in the future. *)
Definition handler_ok : Prop :=
  forall tm w ev t, timers_ok now tm t -> tm_timer_set tm !! ev = Some 0 -> tm_timedout tm !! ev = Some 1 ->
  exists tm' w' t', handler tm w ev = Ok (tm', w') /\ timers_ok now tm' t' /\
    forall x, x ∈ inorder t' -> expired tm' x -> x ∈ inorder t /\ expired tm x.

Lemma expire_step_ok tm w t :
  timers_ok now tm t ->
  match inorder t with
  | [] => expire_step s now handler tm w = Ok None
  | x :: l =>
      (0 < left_at now (tm_heap tm) x -> expire_step s now handler tm w = Ok None) /\
      (expired tm x -> exists tm1 t1,
        expire_step s now handler tm w = (r ← handler tm1 w x; Ok (Some r)) /\
        timers_ok now tm1 t1 /\ inorder t1 = l /\ tm_timer_set tm1 = <[x := 0]> (tm_timer_set tm) /\
        tm_timedout tm1 = <[x := 1]> (tm_timedout tm) /\ tm_cancelable tm1 = tm_cancelable tm /\
        forall y, y <> x -> left_at now (tm_heap tm1) y = left_at now (tm_heap tm) y)
  end.
Proof.
  intros Hok. unfold expire_step. rewrite (root_sentinel _ _ (to_tree _ _ _ Hok)).
  destruct (inorder t) as [|x l] eqn:Eo.
  { destruct t as [|c tl tx tr]; [done|]. cbn in Eo. by destruct (inorder tl). }
  destruct t as [|c tl tx tr] eqn:Et; [done|]. rewrite <- Et in *. destruct (first_timer _ _ _ _ _ Hok Eo) as (-> & Ek & _ & _).
  cbn [mbind outcome_bind]. rewrite Ek. cbn [mbind outcome_bind]. fold (left_at now (tm_heap tm) x). split.
  - intros Hx. by rewrite (proj2 (Z.ltb_lt _ _) Hx).
  - unfold expired. intros Hx. rewrite (proj2 (Z.ltb_ge _ _) Hx).
    destruct (deleted_tree_ok now tm t [] x l Hok Eo) as (h' & m & t' & E1 & E2 & Eo' & Hok' & Em & Hk).
    rewrite E1. cbn [mbind outcome_bind]. rewrite E2. cbn [mbind outcome_bind].
    assert (Hset : tm_timer_set tm !! x = Some 1) by (apply (to_set _ _ _ Hok); rewrite Eo; by left).
    destruct (to_event _ _ _ Hok x 1 Hset) as (_ & _ & _ & Hout & _). rewrite (store_at_some _ _ _ Hout). cbn [mbind outcome_bind].
    eexists _, t'. split; [reflexivity|]. split.
    + destruct Hok' as [G1 G2 G3 G4 G5 G6]. split; cbn [tm_heap tm_timer_set tm_timedout tm_cancelable update_field] in *; try done.
      intros y v Hy. destruct (G6 y v Hy) as (? & ? & ? & ? & ?). split_and!; try done. cbn.
      destruct (Z.eq_dec y x) as [->|Hyx]; [rewrite lookup_insert_eq; by eexists|by rewrite lookup_insert_ne].
    + split; [done|]. split; [done|]. split; [done|]. split; [done|]. intros y Hy. by apply left_at_same, Hk.
Qed.

(** With handlers that leave the timers alone the handlers of the expired timers run in
    the order of the times. *)
Lemma expire_all_ok (f : W -> Z -> W) fuel tm w t l1 l2 :
  (forall tm w ev, handler tm w ev = Ok (tm, f w ev)) ->
  timers_ok now tm t -> inorder t = l1 ++ l2 -> Forall (expired tm) l1 ->
  Forall (fun x => 0 < left_at now (tm_heap tm) x) l2 -> (length l1 < fuel)%nat ->
  exists tm' t', ngx_event_expire_timers s now handler fuel tm w = Ok (tm', foldl f w l1) /\
    timers_ok now tm' t' /\ inorder t' = l2 /\
    tm_timer_set tm' = foldl (fun m x => <[x := 0]> m) (tm_timer_set tm) l1 /\
    tm_timedout tm' = foldl (fun m x => <[x := 1]> m) (tm_timedout tm) l1.
Proof.
  intros Hh. revert tm w t l1. induction fuel as [|fuel IH]; intros tm w t l1 Hok Eo F1 F2 Hf; [lia|].
  cbn [ngx_event_expire_timers]. pose proof (expire_step_ok tm w t Hok) as Hstep. rewrite Eo in Hstep.
  destruct l1 as [|x l1]; cbn [app] in *.
  - assert (Es : expire_step s now handler tm w = Ok None).
    { destruct l2 as [|y l2]; [done|]. apply Hstep. by inversion F2. }
    rewrite Es. cbn [mbind outcome_bind]. by exists tm, t.
  - apply Forall_cons in F1 as [Fx F1]. destruct Hstep as [_ Hstep].
    destruct (Hstep Fx) as (tm1 & t1 & Es & Hok1 & Eo1 & Em & Eout & _ & Hl).
    rewrite Es, Hh. cbn [mbind outcome_bind]. cbn [length] in Hf.
    pose proof (ht_nodup _ _ _ (to_tree _ _ _ Hok)) as Hn. rewrite Eo in Hn. apply NoDup_cons in Hn as [Hn _].
    assert (Hl' : forall y, y ∈ l1 ++ l2 -> left_at now (tm_heap tm1) y = left_at now (tm_heap tm) y).
    { intros y Hy. apply Hl. by intros ->. }
    destruct (IH tm1 (f w x) t1 l1 Hok1 Eo1) as (tm' & t' & E' & Hok' & Eo' & Em' & Eout'); [| |lia|].
    + rewrite Forall_forall in F1 |- *. intros y Hy. unfold expired. rewrite Hl' by (rewrite elem_of_app; auto). by apply F1.
    + rewrite Forall_forall in F2 |- *. intros y Hy. rewrite Hl' by (rewrite elem_of_app; auto). by apply F2.
    + exists tm', t'. rewrite E', Em', Eout', Em, Eout. done.
Qed.

(** The expired timers of a tree. *)
Definition expired_nodes (tm : timers) (t : tree) : list Z :=
  filter (fun x => left_at now (tm_heap tm) x <= 0) (inorder t).

Lemma expired_nodes_spec tm t x : x ∈ expired_nodes tm t <-> expired tm x /\ x ∈ inorder t.
Proof. unfold expired_nodes. apply list_elem_of_filter. Qed.

(** A run of the loop, as the list of the events whose handlers it calls.  Each one is the
    first of the tree and its time has come; it is taken out, marked as not set and as timed
    out, all else stays, and its handler goes on from there.  At the end the time of no timer of the
    tree has come. *)
Inductive fires : timers -> tree -> W -> list Z -> timers -> tree -> W -> Prop :=
| fires_none tm t w :
    (forall x, x ∈ inorder t -> 0 < left_at now (tm_heap tm) x) -> fires tm t w [] tm t w
| fires_first tm t w x l tm1 t1 tm2 t2 w2 events tm' t' w' :
    inorder t = x :: l -> expired tm x ->
    (forall y, y ∈ l -> left_at now (tm_heap tm) x <= left_at now (tm_heap tm) y) ->
    timers_ok now tm1 t1 -> inorder t1 = l -> tm_timer_set tm1 = <[x := 0]> (tm_timer_set tm) ->
    tm_timedout tm1 = <[x := 1]> (tm_timedout tm) -> tm_cancelable tm1 = tm_cancelable tm ->
    (forall y, y <> x -> left_at now (tm_heap tm1) y = left_at now (tm_heap tm) y) ->
    handler tm1 w x = Ok (tm2, w2) -> timers_ok now tm2 t2 -> fires tm2 t2 w2 events tm' t' w' ->
    fires tm t w (x :: events) tm' t' w'.


Lemma expire_fires fuel tm w t :
  handler_ok -> timers_ok now tm t -> (length (expired_nodes tm t) < fuel)%nat ->
  exists events tm' w' t', ngx_event_expire_timers s now handler fuel tm w = Ok (tm', w') /\
    fires tm t w events tm' t' w' /\ timers_ok now tm' t' /\ events ⊆+ expired_nodes tm t.
Proof.
  intros Hh. revert tm w t. induction fuel as [|fuel IH]; intros tm w t Hok Hf; [lia|].
  cbn [ngx_event_expire_timers]. pose proof (expire_step_ok tm w t Hok) as Hstep.
  destruct (inorder t) as [|x l] eqn:Eo.
  - rewrite Hstep. cbn [mbind outcome_bind]. exists [], tm, w, t. split_and!; try done; [|apply submseteq_nil_l].
    constructor. rewrite Eo. by intros ? ?%not_elem_of_nil.
  - pose proof (proj2 (proj2 (proj2 (first_timer _ _ _ _ _ Hok Eo)))) as Hmin.
    destruct Hstep as [Hnone Hsome]. destruct (Z.le_gt_cases (left_at now (tm_heap tm) x) 0) as [Hx|Hx].
    + destruct (Hsome Hx) as (tm1 & t1 & Es & Hok1 & Eo1 & Em & Eout & Eca & Hl).
      destruct (Hh tm1 w x t1 Hok1) as (tm2 & w2 & t2 & Eh & Hok2 & Hexp).
      { by rewrite Em, lookup_insert_eq. } { by rewrite Eout, lookup_insert_eq. }
      pose proof (ht_nodup _ _ _ (to_tree _ _ _ Hok)) as Hn. rewrite Eo in Hn. apply NoDup_cons in Hn as [Hxl _].
      assert (Hsub : x :: expired_nodes tm2 t2 ⊆+ expired_nodes tm t).
      { apply NoDup_submseteq.
        - apply NoDup_cons. split; [|by apply NoDup_filter, (ht_nodup _ _ _ (to_tree _ _ _ Hok2))].
          intros [He Hin]%expired_nodes_spec. destruct (Hexp x Hin He) as [Hin1 _]. by rewrite Eo1 in Hin1.
        - intros y [->|[He Hin]%expired_nodes_spec]%elem_of_cons; apply expired_nodes_spec; [split; [done|rewrite Eo; by left]|].
          destruct (Hexp y Hin He) as [Hin1 He1]. rewrite Eo1 in Hin1. unfold expired in *.
          rewrite Hl in He1 by (by intros ->). split; [done|rewrite Eo; by right]. }
      pose proof (submseteq_length _ _ Hsub) as Hlen. cbn [length] in Hlen.
      destruct (IH tm2 w2 t2 Hok2 ltac:(lia)) as (events & tm' & w' & t' & E' & HF & Hok' & Hs').
      rewrite Es, Eh. cbn [mbind outcome_bind]. exists (x :: events), tm', w', t'. split_and!; [done| |done|].
      * apply (fires_first tm t w x l tm1 t1 tm2 t2 w2); try done. intros y Hy. apply Hmin. rewrite Eo. by right.
      * etransitivity; [|exact Hsub]. by apply submseteq_skip.
    + rewrite (Hnone ltac:(lia)). cbn [mbind outcome_bind]. exists [], tm, w, t. split_and!; try done; [|apply submseteq_nil_l].
      constructor. intros y Hy. pose proof (Hmin y Hy). lia.
Qed.


End expire.

(** ** ngx_event_no_timers_left *)

Lemma no_timers_loop_ok now tm t fuel l1 l2 :
  timers_ok now tm t -> inorder t = l1 ++ l2 -> (length l2 < fuel)%nat ->
  no_timers_loop s fuel tm (hd NULL l2) =
    Ok (if decide (Forall (fun x => tm_cancelable tm !! x <> Some 0) l2) then NGX_OK else NGX_AGAIN).
Proof.
  intros Hok. revert l1 l2. induction fuel as [|fuel IH]; intros l1 l2 Eo Hf; [lia|]. cbn [no_timers_loop].
  destruct l2 as [|x l2]; [by cbn|]. cbn [hd]. cbn [length] in Hf.
  assert (Hset : tm_timer_set tm !! x = Some 1) by (apply (to_set _ _ _ Hok); rewrite Eo, elem_of_app, elem_of_cons; auto).
  destruct (to_event _ _ _ Hok x 1 Hset) as (_ & Hnull & _ & _ & [c Hc]). rewrite (proj2 (Z.eqb_neq _ _) Hnull).
  unfold load_at. rewrite Hc. cbn [mbind outcome_bind]. destruct (Z.eqb_spec c 0) as [->|Hne].
  - destruct (decide _) as [Hall|]; [|done]. apply Forall_cons in Hall as [Hall _]. by rewrite Hc in Hall.
  - rewrite (next_ok s _ _ _ _ _ (to_tree _ _ _ Hok) Eo). cbn [mbind outcome_bind].
    rewrite (IH (l1 ++ [x]) l2) by (try (by rewrite <- app_assoc); lia).
    destruct (decide _) as [Ha|Ha], (decide _) as [Hb|Hb]; [done| | |done].
    + destruct Hb. constructor; [congruence|done].
    + destruct Ha. by apply Forall_cons in Hb as [_ ?].
Qed.

Lemma no_timers_left_ok now tm t :
  timers_ok now tm t ->
  ngx_event_no_timers_left s tm =
    Ok (if decide (Forall (fun x => tm_cancelable tm !! x <> Some 0) (inorder t)) then NGX_OK else NGX_AGAIN).
Proof.
  intros Hok. unfold ngx_event_no_timers_left. rewrite (root_sentinel _ _ (to_tree _ _ _ Hok)).
  destruct t as [|c l x r] eqn:Et; [done|]. rewrite <- Et in *.
  destruct (inorder_nonempty t) as (y & k & Eo); [by subst|]. rewrite (min_root_ok s _ _ _ _ (to_tree _ _ _ Hok) Eo).
  cbn [mbind outcome_bind]. pose proof (nodes_in_steps _ _ _ (to_tree _ _ _ Hok)).
  pose proof (no_timers_loop_ok now tm t (steps (tm_heap tm)) [] (inorder t) Hok eq_refl ltac:(lia)) as Hl.
  by rewrite Eo in Hl |- *.
Qed.

End theory.

(** * The theorems *)

(** C17. ngx_event_add_timer keeps the invariant of the timers: the event is in the
    tree, to expire after the given time, or within NGX_TIMER_LAZY_DELAY of it when it
    was set already; the other timers keep their times and their order, although keys
    wrap around. *)
Theorem ngx_event_add_timer_correct s now tm t x timer :
  timers_ok s now tm t -> is_Some (tm_timer_set tm !! x) -> 0 <= timer < 2 ^ 62 ->
  exists tm' t', ngx_event_add_timer s now tm x timer = Ok tm' /\ timers_ok s now tm' t' /\ x ∈ inorder t' /\
    without x (inorder t') = without x (inorder t) /\
    (forall y, y <> x -> left_at now (tm_heap tm') y = left_at now (tm_heap tm) y) /\
    (tm' = tm /\ x ∈ inorder t /\ Z.abs (left_at now (tm_heap tm) x - timer) < NGX_TIMER_LAZY_DELAY \/
     left_at now (tm_heap tm') x = timer).
Proof. apply add_timer_ok. Qed.

Theorem ngx_event_find_timer_correct s now tm t :
  timers_ok s now tm t ->
  match inorder t with
  | [] => ngx_event_find_timer s now tm = Ok NGX_TIMER_INFINITE
  | x :: _ => ngx_event_find_timer s now tm = Ok (Z.max 0 (left_at now (tm_heap tm) x)) /\
      forall y, y ∈ inorder t -> left_at now (tm_heap tm) x <= left_at now (tm_heap tm) y
  end.
Proof. apply find_timer_ok. Qed.

(** C18. With handlers that keep the timers well formed and add timers in the future
    only, a run of ngx_event_expire_timers is a sequence of calls: each time the first
    timer of the tree, whose time has come, is taken out and marked as timed out and not
    set, the others stay, and its handler goes on from there; at the end the time of no
    timer has come. Each event is called at most once, and only if its time had come at
    the start. When the handlers leave the timers alone, the events are exactly the
    expired ones in the order of their times, and the timers in the future stay. *)
Theorem ngx_event_expire_timers_order {W : Type} s now (handler : timers -> W -> Z -> outcome (timers * W))
    fuel tm w t :
  handler_ok s handler now -> timers_ok s now tm t -> (length (expired_nodes now tm t) < fuel)%nat ->
  (exists events tm' w' t', ngx_event_expire_timers s now handler fuel tm w = Ok (tm', w') /\
     fires s handler now tm t w events tm' t' w' /\ timers_ok s now tm' t' /\ events ⊆+ expired_nodes now tm t) /\
  (forall (f : W -> Z -> W) l1 l2,
     (forall tm w ev, handler tm w ev = Ok (tm, f w ev)) -> inorder t = l1 ++ l2 -> Forall (expired now tm) l1 ->
     Forall (fun x => 0 < left_at now (tm_heap tm) x) l2 ->
     exists tm' t', ngx_event_expire_timers s now handler fuel tm w = Ok (tm', foldl f w l1) /\
       timers_ok s now tm' t' /\ inorder t' = l2 /\
       tm_timer_set tm' = foldl (fun m x => <[x := 0]> m) (tm_timer_set tm) l1 /\
       tm_timedout tm' = foldl (fun m x => <[x := 1]> m) (tm_timedout tm) l1).
Proof.
  intros Hh Hok Hf. split; [by apply expire_fires|]. intros f l1 l2 Hf1 Eo F1 F2.
  apply (expire_all_ok s handler now f fuel tm w t l1 l2); try done.
  unfold expired_nodes in Hf. rewrite Eo, filter_app, length_app in Hf.
  assert (E1 : filter (fun x => left_at now (tm_heap tm) x <= 0) l1 = l1)
    by (clear - F1; induction F1; [done|]; rewrite filter_cons_True by done; by f_equal).
  rewrite E1 in Hf. lia.
Qed.


Theorem ngx_event_no_timers_left_correct s now tm t :
  timers_ok s now tm t ->
  ngx_event_no_timers_left s tm =
    Ok (if decide (Forall (fun x => tm_cancelable tm !! x <> Some 0) (inorder t)) then NGX_OK else NGX_AGAIN).
Proof. apply no_timers_left_ok. Qed.

(** ** Witnesses *)

(** The tree of RbTreeTheory at the time 3: one timer has expired. *)
Definition demo_timers : timers := mk_timers demo_heap
  (map_of [(1, 1); (2, 1); (3, 1); (4, 0)]) (map_of [(1, 0); (2, 0); (3, 0); (4, 0)])
  (map_of [(1, 0); (2, 0); (3, 1); (4, 1)]).

Lemma map_of_in l x v : map_of l !! x = Some v -> (x, v) ∈ l.
Proof. apply elem_of_list_to_map_2. Qed.

Lemma demo_left : left_at 3 demo_heap 2 = -1 /\ left_at 3 demo_heap 1 = 2 /\ left_at 3 demo_heap 3 = 5.
Proof. split_and!; vm_compute; reflexivity. Qed.

Lemma demo_in x : x ∈ inorder demo_tree <-> x = 2 \/ x = 1 \/ x = 3.
Proof.
  change (inorder demo_tree) with [2; 1; 3]. rewrite !elem_of_cons, elem_of_nil. tauto.
Qed.

Lemma demo_event x v :
  tm_timer_set demo_timers !! x = Some v ->
  (x = 1 \/ x = 2 \/ x = 3) /\ v = 1 \/ x = 4 /\ v = 0.
Proof.
  intros H. apply map_of_in in H. rewrite !elem_of_cons, elem_of_nil in H.
  destruct H as [H|[H|[H|[H|[]]]]]; injection H as -> ->; lia.
Qed.

Lemma demo_timers_ok : timers_ok 99 3 demo_timers demo_tree.
Proof.
  destruct demo_left as (E2 & E1 & E3). split; [apply demo_holds|apply demo_rb| | | |].
  - change (inorder demo_tree) with [2; 1; 3]. change (tm_heap demo_timers) with demo_heap.
    rewrite !StronglySorted_cons, !Forall_cons, !Forall_nil, E1, E2, E3. split_and!; (lia || constructor).
  - intros x Hx%demo_in. unfold in_window. change (tm_heap demo_timers) with demo_heap.
    destruct Hx as [->|[->| ->]]; rewrite ?E1, ?E2, ?E3; lia.
  - intros x. rewrite demo_in. split; [by intros [->|[->| ->]]|]. intros Hx%demo_event. lia.
  - intros x v Hx%demo_event. change (tm_heap demo_timers) with demo_heap.
    destruct Hx as [[[->|[->| ->]] ->]|[-> ->]];
      (split_and!; [auto|done|split; [by apply not_elem_of_nil|done|by eexists..]|by eexists..]).
Qed.

Definition log_handler (tm : timers) (w : list Z) (ev : Z) : outcome (timers * list Z) := Ok (tm, w ++ [ev]).

Lemma log_handler_ok : handler_ok 99 log_handler 3.
Proof. intros tm w ev t Hok _ _. exists tm, (w ++ [ev]), t. by split_and!. Qed.

Lemma ngx_event_add_timer_correct_witness :
  exists tm' t', ngx_event_add_timer 99 3 demo_timers 4 1000 = Ok tm' /\ timers_ok 99 3 tm' t' /\ 4 ∈ inorder t' /\
    without 4 (inorder t') = without 4 (inorder demo_tree) /\
    (forall y, y <> 4 -> left_at 3 (tm_heap tm') y = left_at 3 (tm_heap demo_timers) y) /\
    (tm' = demo_timers /\ 4 ∈ inorder demo_tree /\ Z.abs (left_at 3 (tm_heap demo_timers) 4 - 1000) < NGX_TIMER_LAZY_DELAY \/
     left_at 3 (tm_heap tm') 4 = 1000).
Proof.
  apply (ngx_event_add_timer_correct 99 3 demo_timers demo_tree 4 1000 demo_timers_ok); [by eexists|lia].
Defined.

Lemma ngx_event_find_timer_correct_witness :
  ngx_event_find_timer 99 3 demo_timers = Ok (Z.max 0 (left_at 3 (tm_heap demo_timers) 2)) /\
  forall y, y ∈ inorder demo_tree -> left_at 3 (tm_heap demo_timers) 2 <= left_at 3 (tm_heap demo_timers) y.
Proof. apply (ngx_event_find_timer_correct 99 3 demo_timers demo_tree demo_timers_ok). Defined.

(** A handler that sets its timer again. *)
Definition rearm_handler (tm : timers) (w : list Z) (ev : Z) : outcome (timers * list Z) :=
  tm ← ngx_event_add_timer 99 3 tm ev 50; Ok (tm, w ++ [ev]).

Lemma rearm_handler_ok : handler_ok 99 rearm_handler 3.
Proof.
  intros tm w ev t Hok Hset _. unfold rearm_handler.
  destruct (add_timer_ok 99 3 tm t ev 50 Hok) as (tm' & t' & E & Hok' & Hin & Hw & Hl & Hev); [by eexists|lia|].
  rewrite E. cbn [mbind outcome_bind]. exists tm', (w ++ [ev]), t'. split; [done|]. split; [done|].
  intros x Hx He. unfold expired in *. destruct Hev as [(_ & Hin' & _)|Hev].
  { apply (to_set _ _ _ _ Hok) in Hin'. congruence. }
  destruct (Z.eq_dec x ev) as [->|N]; [lia|]. rewrite Hl in He by done. split; [|done].
  assert (Hx' : x ∈ without ev (inorder t')) by (by apply list_elem_of_filter).
  rewrite Hw in Hx'. by apply list_elem_of_filter in Hx' as [_ ?].
Qed.

Lemma ngx_event_expire_timers_order_witness :
  (exists events tm' w' t', ngx_event_expire_timers 99 3 rearm_handler 5 demo_timers [] = Ok (tm', w') /\
     fires 99 rearm_handler 3 demo_timers demo_tree [] events tm' t' w') /\
  exists tm' t', ngx_event_expire_timers 99 3 log_handler 5 demo_timers [] = Ok (tm', [2]) /\
    timers_ok 99 3 tm' t' /\ inorder t' = [1; 3] /\
    tm_timer_set tm' = <[2 := 0]> (tm_timer_set demo_timers) /\
    tm_timedout tm' = <[2 := 1]> (tm_timedout demo_timers).
Proof.
  assert (Hf : (length (expired_nodes 3 demo_timers demo_tree) < 5)%nat)
    by (apply (Nat.le_lt_trans _ (length (inorder demo_tree))); [apply length_filter|cbn; lia]).
  split.
  - destruct (ngx_event_expire_timers_order 99 3 rearm_handler 5 demo_timers [] demo_tree rearm_handler_ok demo_timers_ok Hf)
      as [(events & tm' & w' & t' & E & HF & _ & _) _].
    exists events, tm', w', t'. by split.
  - destruct (ngx_event_expire_timers_order 99 3 log_handler 5 demo_timers [] demo_tree log_handler_ok demo_timers_ok Hf)
      as [_ H].
    apply (H (fun w ev => w ++ [ev]) [2] [1; 3]).
    + reflexivity.
    + reflexivity.
    + apply Forall_singleton. unfold expired. change (tm_heap demo_timers) with demo_heap. rewrite (proj1 demo_left). lia.
    + destruct demo_left as (_ & E1 & E3). change (tm_heap demo_timers) with demo_heap.
      rewrite !Forall_cons, Forall_nil, E1, E3. lia.
Defined.


Lemma ngx_event_no_timers_left_correct_witness :
  ngx_event_no_timers_left 99 demo_timers =
    Ok (if decide (Forall (fun x => tm_cancelable demo_timers !! x <> Some 0) (inorder demo_tree)) then NGX_OK else NGX_AGAIN).
Proof. apply (ngx_event_no_timers_left_correct 99 3 demo_timers demo_tree demo_timers_ok). Defined.
