(* ===== verification/RadixTree.v ===== *)
(** Component "radix tree": core/ngx_radix_tree.c and core/ngx_radix_tree.h, trees of
    the prefixes of addresses.

    The nodes are structures that point to one another (Prelude, [load_at]).  The pages
    that ngx_pmemalign() will give are a list in the state, NULL when it is empty.
    RadixTreeTheory has the theorems. *)

From stdpp Require Import base numbers list option gmap.
From Stdlib Require Import ZArith Lia.
From S2P Require Import Prelude.
Local Open Scope Z_scope.

(** * Definitions *)

Definition NGX_RADIX_NO_VALUE : Z := 2 ^ 64 - 1.

(** [sizeof(ngx_radix_node_t)] *)
Definition radix_node_size : Z := 32.

Record radix : Type := mk_radix {
  rx_right : gmap Z Z;
  rx_left : gmap Z Z;
  rx_parent : gmap Z Z;
  rx_value : gmap Z Z;
  rx_root : Z;
  rx_free : Z;
  rx_start : Z;
  rx_size : Z;
  rx_pages : list Z
}.

#[export] Instance eta_radix : Eta radix := fun t =>
  mk_radix (rx_right t) (rx_left t) (rx_parent t) (rx_value t) (rx_root t) (rx_free t) (rx_start t) (rx_size t)
    (rx_pages t).

Definition put_right (t : radix) (x v : Z) : outcome radix := m ← store_at (rx_right t) x v; Ok (t <| rx_right := m |>).
Definition put_left (t : radix) (x v : Z) : outcome radix := m ← store_at (rx_left t) x v; Ok (t <| rx_left := m |>).
Definition put_parent (t : radix) (x v : Z) : outcome radix := m ← store_at (rx_parent t) x v; Ok (t <| rx_parent := m |>).
Definition put_value (t : radix) (x v : Z) : outcome radix := m ← store_at (rx_value t) x v; Ok (t <| rx_value := m |>).

(** [if (key & bit) ... node->right ... else ... node->left] *)
Definition get_child (t : radix) (b : bool) (node : Z) : outcome Z :=
  load_at (if b then rx_right t else rx_left t) node.
Definition put_child (t : radix) (b : bool) (node next : Z) : outcome radix :=
  if b then put_right t node next else put_left t node next.

(** [node->right || node->left] *)
Definition has_child (t : radix) (node : Z) : outcome bool :=
  r ← load_at (rx_right t) node;
  if negb (r =? NULL) then Ok true else l ← load_at (rx_left t) node; Ok (negb (l =? NULL)).

Section radix.
Context (ngx_pagesize : Z).

Definition ngx_radix_alloc (t : radix) : outcome (radix * Z) :=
  if negb (rx_free t =? NULL) then
    r ← load_at (rx_right t) (rx_free t); Ok (t <| rx_free := r |>, rx_free t)
  else
    let t := if rx_size t <? radix_node_size then
        match rx_pages t with
        | [] => t <| rx_start := NULL |>
        | page :: pages => t <| rx_start := page |> <| rx_size := ngx_pagesize |> <| rx_pages := pages |>
        end
      else t in
    if rx_size t <? radix_node_size then Ok (t, NULL)
    else Ok (t <| rx_start := rx_start t + radix_node_size |> <| rx_size := rx_size t - radix_node_size |>, rx_start t).

(** The assignments to the members of a new node. *)
Definition new_radix_node (t : radix) (next parent : Z) : outcome radix :=
  t ← put_right t next NULL; t ← put_left t next NULL; t ← put_parent t next parent;
  put_value t next NGX_RADIX_NO_VALUE.

(** What is done with the node that was found. *)
Definition set_if_none (t : radix) (node value : Z) : outcome (radix * Z) :=
  v ← load_at (rx_value t) node;
  if negb (v =? NGX_RADIX_NO_VALUE) then Ok (t, NGX_BUSY)
  else t ← put_value t node value; Ok (t, NGX_OK).

(** ** 32-bit keys *)

(** The first loop: [bit], [node] and [next]. *)
Fixpoint place32 (fuel : nat) (t : radix) (key mask bit node next : Z) : outcome (Z * Z * Z) :=
  match fuel with
  | O => NoFuel
  | S fuel' =>
      if Z.land bit mask =? 0 then Ok (bit, node, next)
      else
        next ← get_child t (negb (Z.land key bit =? 0)) node;
        if next =? NULL then Ok (bit, node, next)
        else place32 fuel' t key mask (Z.shiftr bit 1) next next
  end.

(** The second loop, with the last assignment. *)
Fixpoint grow32 (fuel : nat) (t : radix) (key mask bit node value : Z) : outcome (radix * Z) :=
  match fuel with
  | O => NoFuel
  | S fuel' =>
      if Z.land bit mask =? 0 then t ← put_value t node value; Ok (t, NGX_OK)
      else
        '(t, next) ← ngx_radix_alloc t;
        if next =? NULL then Ok (t, NGX_ERROR)
        else
          t ← new_radix_node t next node;
          t ← put_child t (negb (Z.land key bit =? 0)) node next;
          grow32 fuel' t key mask (Z.shiftr bit 1) next value
  end.

Definition ngx_radix32tree_insert (t : radix) (key mask value : Z) : outcome (radix * Z) :=
  '(bit, node, next) ← place32 33 t key mask (2 ^ 31) (rx_root t) (rx_root t);
  if negb (next =? NULL) then set_if_none t node value
  else grow32 33 t key mask bit node value.

Fixpoint node32 (fuel : nat) (t : radix) (key mask bit node : Z) : outcome Z :=
  match fuel with
  | O => NoFuel
  | S fuel' =>
      if node =? NULL then Ok node
      else if Z.land bit mask =? 0 then Ok node
      else
        node ← get_child t (negb (Z.land key bit =? 0)) node;
        node32 fuel' t key mask (Z.shiftr bit 1) node
  end.

(** The loop that frees a leaf, and the nodes above it that are not used. *)
Fixpoint prune (fuel : nat) (t : radix) (node : Z) : outcome radix :=
  match fuel with
  | O => NoFuel
  | S fuel' =>
      p ← load_at (rx_parent t) node; r ← load_at (rx_right t) p;
      t ← (if r =? node then put_right t p NULL else put_left t p NULL);
      t ← put_right t node (rx_free t);
      let t := t <| rx_free := node |> in
      node ← load_at (rx_parent t) node;
      c ← has_child t node;
      if (c : bool) then Ok t
      else
        v ← load_at (rx_value t) node;
        if negb (v =? NGX_RADIX_NO_VALUE) then Ok t
        else p ← load_at (rx_parent t) node; if p =? NULL then Ok t else prune fuel' t node
  end.

(** The rest of a deletion. *)
Definition delete_node (t : radix) (node : Z) : outcome (radix * Z) :=
  if node =? NULL then Ok (t, NGX_ERROR)
  else
    c ← has_child t node;
    if (c : bool) then
      v ← load_at (rx_value t) node;
      if negb (v =? NGX_RADIX_NO_VALUE) then t ← put_value t node NGX_RADIX_NO_VALUE; Ok (t, NGX_OK)
      else Ok (t, NGX_ERROR)
    else t ← prune 129 t node; Ok (t, NGX_OK).

Definition ngx_radix32tree_delete (t : radix) (key mask : Z) : outcome (radix * Z) :=
  node ← node32 33 t key mask (2 ^ 31) (rx_root t); delete_node t node.

Fixpoint find32 (fuel : nat) (t : radix) (key bit value node : Z) : outcome Z :=
  match fuel with
  | O => NoFuel
  | S fuel' =>
      if node =? NULL then Ok value
      else
        v ← load_at (rx_value t) node;
        let value := if negb (v =? NGX_RADIX_NO_VALUE) then v else value in
        node ← get_child t (negb (Z.land key bit =? 0)) node;
        find32 fuel' t key (Z.shiftr bit 1) value node
  end.

Definition ngx_radix32tree_find (t : radix) (key : Z) : outcome Z :=
  find32 34 t key (2 ^ 31) NGX_RADIX_NO_VALUE (rx_root t).

(** ** 128-bit keys

    The position is the byte [i] and the mask [bit] in it; [i = 16] ends the loops. *)

Definition next_bit (i : nat) (bit : Z) : nat * Z :=
  if Z.shiftr bit 1 =? 0 then (S i, 128) else (i, Z.shiftr bit 1).

Fixpoint place128 (fuel : nat) (t : radix) (key mask : list Z) (i : nat) (bit node next : Z)
  : outcome (nat * Z * Z * Z) :=
  match fuel with
  | O => NoFuel
  | S fuel' =>
      m ← deref mask i;
      if Z.land bit m =? 0 then Ok (i, bit, node, next)
      else
        k ← deref key i;
        next ← get_child t (negb (Z.land k bit =? 0)) node;
        if next =? NULL then Ok (i, bit, node, next)
        else
          let '(i, bit) := next_bit i bit in
          if (i =? 16)%nat then Ok (i, bit, next, next) else place128 fuel' t key mask i bit next next
  end.

Fixpoint grow128 (fuel : nat) (t : radix) (key mask : list Z) (i : nat) (bit node value : Z) : outcome (radix * Z) :=
  match fuel with
  | O => NoFuel
  | S fuel' =>
      m ← deref mask i;
      if Z.land bit m =? 0 then t ← put_value t node value; Ok (t, NGX_OK)
      else
        '(t, next) ← ngx_radix_alloc t;
        if next =? NULL then Ok (t, NGX_ERROR)
        else
          t ← new_radix_node t next node;
          k ← deref key i;
          t ← put_child t (negb (Z.land k bit =? 0)) node next;
          let '(i, bit) := next_bit i bit in
          if (i =? 16)%nat then t ← put_value t next value; Ok (t, NGX_OK)
          else grow128 fuel' t key mask i bit next value
  end.

Definition ngx_radix128tree_insert (t : radix) (key mask : list Z) (value : Z) : outcome (radix * Z) :=
  '(i, bit, node, next) ← place128 129 t key mask 0 128 (rx_root t) (rx_root t);
  if negb (next =? NULL) then set_if_none t node value
  else grow128 129 t key mask i bit node value.

Fixpoint node128 (fuel : nat) (t : radix) (key mask : list Z) (i : nat) (bit node : Z) : outcome Z :=
  match fuel with
  | O => NoFuel
  | S fuel' =>
      if node =? NULL then Ok node
      else
        m ← deref mask i;
        if Z.land bit m =? 0 then Ok node
        else
          k ← deref key i;
          node ← get_child t (negb (Z.land k bit =? 0)) node;
          let '(i, bit) := next_bit i bit in
          if (i =? 16)%nat then Ok node else node128 fuel' t key mask i bit node
  end.

Definition ngx_radix128tree_delete (t : radix) (key mask : list Z) : outcome (radix * Z) :=
  node ← node128 129 t key mask 0 128 (rx_root t); delete_node t node.

Fixpoint find128 (fuel : nat) (t : radix) (key : list Z) (i : nat) (bit value node : Z) : outcome Z :=
  match fuel with
  | O => NoFuel
  | S fuel' =>
      if node =? NULL then Ok value
      else
        v ← load_at (rx_value t) node;
        let value := if negb (v =? NGX_RADIX_NO_VALUE) then v else value in
        k ← deref key i;
        node ← get_child t (negb (Z.land k bit =? 0)) node;
        let '(i, bit) := next_bit i bit in find128 fuel' t key i bit value node
  end.

Definition ngx_radix128tree_find (t : radix) (key : list Z) : outcome Z :=
  find128 130 t key 0 128 NGX_RADIX_NO_VALUE (rx_root t).

(** ** Creation *)

(** The number of bits for [preallocate]. *)
Definition preallocated_bits (preallocate : Z) : Z :=
  if preallocate =? -1 then
    let n := ngx_pagesize / radix_node_size in if n =? 128 then 6 else if n =? 256 then 7 else 8
  else preallocate.

(** The inner loop: [None] is a failure. *)
Fixpoint prealloc_level (fuel : nat) (t : radix) (key mask inc : Z) : outcome (option radix) :=
  match fuel with
  | O => NoFuel
  | S fuel' =>
      '(t, rc) ← ngx_radix32tree_insert t key mask NGX_RADIX_NO_VALUE;
      if negb (rc =? NGX_OK) then Ok None
      else
        let key := to_u32 (key + inc) in
        if negb (key =? 0) then prealloc_level fuel' t key mask inc else Ok (Some t)
  end.

(** The outer loop, [n] rounds of it. *)
Fixpoint prealloc (n : nat) (t : radix) (mask inc : Z) : outcome (option radix) :=
  match n with
  | O => Ok (Some t)
  | S n' =>
      let mask := Z.lor (Z.shiftr mask 1) (2 ^ 31) in
      r ← prealloc_level (S (Z.to_nat (2 ^ 32 / inc))) t 0 mask inc;
      match r with None => Ok None | Some t => prealloc n' t mask (Z.shiftr inc 1) end
  end.

(** [t] has the memory only; ngx_palloc() of the tree itself succeeds.  The loop does not
    end in any time for a [preallocate] below -1. *)
Definition ngx_radix_tree_create (t : radix) (preallocate : Z) : outcome (option radix) :=
  let t := t <| rx_free := NULL |> <| rx_start := NULL |> <| rx_size := 0 |> in
  '(t, root) ← ngx_radix_alloc t;
  if root =? NULL then Ok None
  else
    let t := t <| rx_root := root |> in
    t ← new_radix_node t root NULL;
    if preallocate =? 0 then Ok (Some t)
    else if preallocate <? -1 then NoFuel
    else prealloc (Z.to_nat (preallocated_bits preallocate)) t 0 (2 ^ 31).

End radix.

(** ** Examples *)

(** The memory of pages at the addresses given. *)
Definition fresh_radix (pagesize : Z) (pages : list Z) : radix :=
  let nodes := p ← pages; (fun k => p + radix_node_size * k) <$> seqZ 0 (pagesize / radix_node_size) in
  let zero := list_to_map ((fun x => (x, 0)) <$> nodes) : gmap Z Z in
  mk_radix zero zero zero zero 0 0 0 0 pages.

Definition demo_radix : outcome radix :=
  r ← ngx_radix_tree_create 4096 (fresh_radix 4096 [4096; 8192; 12288; 16384; 20480]) 0;
  match r with Some t => Ok t | None => UB end.

(** 10.0.0.0/8, 10.1.0.0/16 and a default. *)
Example radix32_example :
  (t ← demo_radix;
   '(t, r1) ← ngx_radix32tree_insert 4096 t 0x0a000000 0xff000000 7;
   '(t, r2) ← ngx_radix32tree_insert 4096 t 0x0a010000 0xffff0000 8;
   '(t, r3) ← ngx_radix32tree_insert 4096 t 0 0 9;
   '(t, r4) ← ngx_radix32tree_insert 4096 t 0x0a000000 0xff000000 1;
   f1 ← ngx_radix32tree_find t 0x0a010203; f2 ← ngx_radix32tree_find t 0x0a020203; f3 ← ngx_radix32tree_find t 0x0b000000;
   '(t, r5) ← ngx_radix32tree_delete t 0x0a010000 0xffff0000;
   f4 ← ngx_radix32tree_find t 0x0a010203;
   '(t, r6) ← ngx_radix32tree_delete t 0x0a010000 0xffff0000;
   Ok ([r1; r2; r3; r4; r5; r6], [f1; f2; f3; f4])) =
  Ok ([NGX_OK; NGX_OK; NGX_OK; NGX_BUSY; NGX_OK; NGX_ERROR], [8; 7; 9; 7]).
Proof. vm_compute. reflexivity. Qed.

Definition zeros (n : nat) : list Z := replicate n 0.
Definition ones (n : nat) : list Z := replicate n 255.

(** With a value for a single address, ngx_radix128tree_find reads the byte behind the key. *)
Example find128_overread :
  (t ← demo_radix;
   '(t, r) ← ngx_radix128tree_insert 4096 t (zeros 16) (ones 16) 5;
   ngx_radix128tree_find t (zeros 16)) = UB /\
  (t ← demo_radix;
   '(t, r) ← ngx_radix128tree_insert 4096 t (zeros 16) (ones 16) 5;
   ngx_radix128tree_find t (zeros 17)) = Ok 5.
Proof. split; vm_compute; reflexivity. Qed.

(** The prefix of no bits, alone in the tree, is the root, which has no parent. *)
Example delete_root :
  (t ← demo_radix;
   '(t, r) ← ngx_radix32tree_insert 4096 t 0 0 5;
   ngx_radix32tree_delete t 0 0) = UB.
Proof. vm_compute. reflexivity. Qed.

(** A node that was made in advance is deleted as if it had a value. *)
Example delete_preallocated :
  (r ← ngx_radix_tree_create 4096 (fresh_radix 4096 [4096]) 3;
   match r with Some t => '(t, rc) ← ngx_radix32tree_delete t 0 0xe0000000; Ok rc | None => UB end) = Ok NGX_OK.
Proof. vm_compute. reflexivity. Qed.
