(* ===== verification/RadixTreeTheory.v ===== *)
(** Component "radix tree", continued: the tree is a map from prefixes to values, and
    a search finds the longest prefix. *)

From stdpp Require Import base numbers list option gmap.
From Stdlib Require Import ZArith Lia.
From S2P Require Import Prelude RadixTree.
Local Open Scope Z_scope.

(** * The nodes of a tree

    A node stands for the path to it, the last bit first; [nodes] has the address of the
    node of each path. *)
Abbreviation path := (list bool).

Definition node_at (nodes : gmap path Z) (p : path) : Z := default NULL (nodes !! p).
Definition up_at (nodes : gmap path Z) (p : path) : Z := match p with [] => NULL | _ :: q => node_at nodes q end.

Definition side (b : bool) (t : radix) : gmap Z Z := if b then rx_right t else rx_left t.

Record shape (D : nat) (t : radix) (nodes : gmap path Z) : Prop := {
  sh_root : nodes !! [] = Some (rx_root t);
  sh_null : forall p x, nodes !! p = Some x -> x <> NULL;
  sh_side : forall p x b, nodes !! p = Some x -> side b t !! x = Some (node_at nodes (b :: p));
  sh_parent : forall p x, nodes !! p = Some x -> rx_parent t !! x = Some (up_at nodes p);
  sh_value : forall p x, nodes !! p = Some x -> is_Some (rx_value t !! x);
  sh_closed : forall b p, is_Some (nodes !! (b :: p)) -> is_Some (nodes !! p);
  sh_inj : forall p q x, nodes !! p = Some x -> nodes !! q = Some x -> p = q;
  sh_depth : forall p, is_Some (nodes !! p) -> (length p <= D)%nat
}.

(** The value of a path. *)
Definition value_at (t : radix) (nodes : gmap path Z) (p : path) : option Z :=
  x ← nodes !! p; v ← rx_value t !! x; if v =? NGX_RADIX_NO_VALUE then None else Some v.

(** What [value] is as the value of a path. *)
Definition as_value (v : Z) : option Z := if v =? NGX_RADIX_NO_VALUE then None else Some v.

Lemma value_at_some t nodes p x v :
  nodes !! p = Some x -> rx_value t !! x = Some v -> value_at t nodes p = as_value v.
Proof. intros Hx Hv. unfold value_at. rewrite Hx. cbn. rewrite Hv. done. Qed.

Lemma value_at_none t nodes p : nodes !! p = None -> value_at t nodes p = None.
Proof. intros Hx. unfold value_at. by rewrite Hx. Qed.

(** ** The memory for nodes *)

Section alloc.
Context (pagesize : Z) (Hpage : radix_node_size <= pagesize).

Definition chunk (start size : Z) : list Z := (fun k => start + radix_node_size * k) <$> seqZ 0 (size / radix_node_size).

(** The list that starts at [tree->free]. *)
Fixpoint chain (m : gmap Z Z) (p : Z) (l : list Z) : Prop :=
  match l with
  | [] => p = NULL
  | x :: l => p = x /\ x <> NULL /\ exists q, m !! x = Some q /\ chain m q l
  end.

(** The nodes that ngx_radix_alloc will give, in their order. *)
Definition free_nodes (t : radix) (l : list Z) : Prop :=
  exists fl, chain (rx_right t) (rx_free t) fl /\
    l = fl ++ chunk (rx_start t) (rx_size t) ++ (p ← rx_pages t; chunk p pagesize).

Lemma chain_same m m' p l : (forall x, x ∈ l -> m' !! x = m !! x) -> chain m p l -> chain m' p l.
Proof.
  revert p. induction l as [|x l IH]; intros p Hs; [done|]. cbn [chain]. intros (-> & Hx & q & Hq & Hl).
  split; [done|]. split; [done|]. exists q. split; [by rewrite Hs by (by left)|]. apply IH; [|done]. intros y Hy. apply Hs. by right.
Qed.





(** * The invariant *)

Record radix_ok (D : nat) (t : radix) (nodes : gmap path Z) (free : list Z) : Prop := {
  ro_shape : shape D t nodes;
  ro_size : 0 <= rx_size t;
  ro_free : free_nodes t free;
  ro_nodup : NoDup free;
  ro_unused : forall x, x ∈ free -> x <> NULL /\ (forall p, nodes !! p <> Some x) /\
    is_Some (rx_right t !! x) /\ is_Some (rx_left t !! x) /\ is_Some (rx_parent t !! x) /\ is_Some (rx_value t !! x)
}.

Lemma get_child_side t b x : get_child t b x = load_at (side b t) x.
Proof. by destruct b. Qed.


Lemma node_at_some nodes p x : nodes !! p = Some x -> node_at nodes p = x.
Proof. intros E. unfold node_at. by rewrite E. Qed.

Lemma node_at_none nodes p : nodes !! p = None -> node_at nodes p = NULL.
Proof. intros E. unfold node_at. by rewrite E. Qed.





(** ** A new node *)








(** ** A new value *)



(** * Keys as lists of bits *)






(** Every path that goes on from a path without a node is without a node. *)
Lemma shape_none D t nodes l p : shape D t nodes -> nodes !! p = None -> nodes !! (l ++ p) = None.
Proof.
  intros H Hp. induction l as [|b l IH]; [done|]. cbn [app]. destruct (nodes !! (b :: l ++ p)) eqn:E; [|done].
  destruct (sh_closed _ _ _ H b (l ++ p) ltac:(by eexists)). congruence.
Qed.


(** ** Growing *)





Section grow.
Context (D : nat) (value : Z).




End grow.

(** ** 32-bit keys *)

Definition bits32 (x : Z) : list bool := (fun i => Z.testbit x (31 - Z.of_nat i)) <$> seq 0 32.
Definition bit32 (n : nat) : Z := Z.shiftr (2 ^ 31) (Z.of_nat n).

Lemma bits32_length x : length (bits32 x) = 32%nat.
Proof. unfold bits32. by rewrite length_fmap, length_seq. Qed.

Lemma bits32_drop x n : (n < 32)%nat -> drop n (bits32 x) = Z.testbit x (31 - Z.of_nat n) :: drop (S n) (bits32 x).
Proof.
  intros Hn. apply drop_S. unfold bits32. rewrite list_lookup_fmap, lookup_seq_lt by done. done.
Qed.

Lemma land_pow x k : 0 <= k -> (Z.land (2 ^ k) x =? 0) = negb (Z.testbit x k).
Proof.
  intros Hk. destruct (Z.testbit x k) eqn:E; cbn [negb].
  - apply Z.eqb_neq. intros H. apply (f_equal (fun z => Z.testbit z k)) in H.
    rewrite Z.land_spec, Z.pow2_bits_true, E, Z.bits_0 in H by done. done.
  - apply Z.eqb_eq, Z.bits_inj'. intros j Hj. rewrite Z.land_spec, Z.bits_0, Z.pow2_bits_eqb by done.
    destruct (Z.eqb_spec k j) as [->|]; [by rewrite E|done].
Qed.

Lemma bit32_test x n : (n < 32)%nat -> (Z.land (bit32 n) x =? 0) = negb (Z.testbit x (31 - Z.of_nat n)).
Proof.
  intros Hn. unfold bit32. rewrite Z.shiftr_div_pow2 by lia.
  replace (2 ^ 31 / 2 ^ Z.of_nat n) with (2 ^ (31 - Z.of_nat n)) by (rewrite Z.pow_sub_r by lia; done).
  apply land_pow. lia.
Qed.


Lemma bit32_next n : Z.shiftr (bit32 n) 1 = bit32 (S n).
Proof. unfold bit32. rewrite Z.shiftr_shiftr by lia. f_equal. lia. Qed.





(** ** Insertion *)






(** ** Deletion *)














(** ** Searching *)

(** The last value on the way along [l]. *)
Fixpoint last_value (f : path -> option Z) (p : path) (l : list bool) (acc : Z) : Z :=
  let acc := default acc (f p) in match l with [] => acc | b :: l => last_value f (b :: p) l acc end.

Lemma last_value_none f p l acc : (forall q, f (q ++ p) = None) -> last_value f p l acc = acc.
Proof.
  revert p. induction l as [|b l IH]; intros p Hf; cbn [last_value]; rewrite (Hf [] : f p = None); [done|].
  cbn [default]. apply IH. intros q. pose proof (Hf (q ++ [b])) as Hq. by rewrite <- app_assoc in Hq.
Qed.

(** The value of the longest prefix of [l] that has one. *)
Definition longest (f : path -> option Z) (l : list bool) (v : Z) : Prop :=
  (exists n, (n <= length l)%nat /\ f (rev (take n l)) = Some v /\
     forall k, (n < k <= length l)%nat -> f (rev (take k l)) = None) \/
  v = NGX_RADIX_NO_VALUE /\ forall k, (k <= length l)%nat -> f (rev (take k l)) = None.

Lemma last_value_app f p l1 l2 acc :
  last_value f p (l1 ++ l2) acc = match l2 with [] => last_value f p l1 acc | b :: l2 => last_value f (b :: rev l1 ++ p) l2 (last_value f p l1 acc) end.
Proof.
  revert p acc. induction l1 as [|c l1 IH]; intros p acc; cbn [app].
  - destruct l2; done.
  - cbn [last_value]. rewrite IH. destruct l2; [done|]. cbn [rev]. by rewrite <- app_assoc.
Qed.

Lemma last_value_longest f l : longest f l (last_value f [] l NGX_RADIX_NO_VALUE).
Proof.
  induction l as [|b l IH] using rev_ind.
  - cbn [last_value]. destruct (f []) as [v|] eqn:E; cbn [default].
    + left. exists 0%nat. split; [done|]. split; [done|]. cbn. lia.
    + right. split; [done|]. intros k Hk. by rewrite take_nil.
  - rewrite last_value_app. cbn [last_value]. rewrite app_nil_r.
    assert (Hall : rev (take (length (l ++ [b])) (l ++ [b])) = b :: rev l).
    { rewrite take_ge by done. by rewrite rev_app_distr. }
    assert (Hsub : forall k, (k <= length l)%nat -> take k (l ++ [b]) = take k l) by (intros; by rewrite take_app_le).
    rewrite length_app in Hall. cbn [length] in Hall.
    destruct (f (b :: rev l)) as [v|] eqn:E; cbn [default].
    + left. exists (length l + 1)%nat. rewrite length_app. cbn [length]. split; [lia|]. rewrite Hall. split; [done|]. lia.
    + destruct IH as [(n & Hn & Hv & Hk)|[Hv Hk]].
      * left. exists n. split; [rewrite length_app; cbn; lia|]. rewrite Hsub by done. split; [done|]. intros k Hk'.
        rewrite length_app in Hk'. cbn in Hk'. destruct (decide (k = length l + 1)%nat) as [->|]; [by rewrite Hall|].
        rewrite Hsub by lia. apply Hk. lia.
      * right. split; [done|]. intros k Hk'. rewrite length_app in Hk'. cbn in Hk'.
        destruct (decide (k = length l + 1)%nat) as [->|]; [by rewrite Hall|]. rewrite Hsub by lia. apply Hk. lia.
Qed.

(** One round: the value of the node. *)
Lemma node_value t nodes p x u acc :
  nodes !! p = Some x -> rx_value t !! x = Some u ->
  (if negb (u =? NGX_RADIX_NO_VALUE) then u else acc) = default acc (value_at t nodes p).
Proof.
  intros Hp Hu. rewrite (value_at_some _ _ _ _ _ Hp Hu). unfold as_value. by destruct (u =? NGX_RADIX_NO_VALUE).
Qed.

Lemma find32_ok t nodes key fuel p x acc :
  shape 32 t nodes -> nodes !! p = Some x -> (length p <= 32)%nat -> (33 - length p < fuel)%nat ->
  find32 fuel t key (bit32 (length p)) acc x =
    Ok (last_value (value_at t nodes) p (drop (length p) (bits32 key)) acc).
Proof.
  intros H. revert p x acc. induction fuel as [|fuel IH]; intros p x acc Hp Hl Hf; [lia|]. cbn [find32].
  rewrite (proj2 (Z.eqb_neq _ _) (sh_null _ _ _ H _ _ Hp)).
  destruct (sh_value _ _ _ H _ _ Hp) as [u Hu]. rewrite (load_at_ok _ _ _ Hu). cbn [mbind outcome_bind].
  rewrite (node_value _ _ _ _ _ acc Hp Hu), get_child_side. set (acc' := default acc (value_at t nodes p)).
  set (b := negb (Z.land key (bit32 (length p)) =? 0)). rewrite (load_at_ok _ _ _ (sh_side _ _ _ H p x b Hp)). cbn [mbind outcome_bind].
  assert (Hnone : nodes !! (b :: p) = None -> forall l, find32 fuel t key (Z.shiftr (bit32 (length p)) 1) acc' (node_at nodes (b :: p)) =
    Ok (last_value (value_at t nodes) (b :: p) l acc')).
  { intros E l. rewrite (node_at_none _ _ E). rewrite last_value_none.
    - destruct fuel; [lia|]. cbn [find32]. by rewrite Z.eqb_refl.
    - intros q. apply value_at_none. by eapply shape_none. }
  destruct (decide (length p = 32)%nat) as [E32|Hlt].
  - assert (E : nodes !! (b :: p) = None).
    { destruct (nodes !! (b :: p)) eqn:E; [|done]. pose proof (sh_depth _ _ _ H (b :: p) ltac:(by eexists)) as Hd. cbn in Hd. lia. }
    rewrite (Hnone E []). rewrite drop_ge by (rewrite bits32_length; lia). cbn [last_value].
    by rewrite (value_at_none _ _ _ E).
  - rewrite bits32_drop by lia. cbn [last_value]. fold acc'.
    assert (Eb : Z.testbit key (31 - Z.of_nat (length p)) = b).
    { unfold b. rewrite Z.land_comm, bit32_test by lia. by rewrite negb_involutive. }
    rewrite Eb. destruct (nodes !! (b :: p)) as [y|] eqn:E; [|by apply Hnone].
    rewrite bit32_next, (node_at_some _ _ _ E). change (S (length p)) with (length (b :: p)).
    apply (IH (b :: p) y acc' E); cbn; lia.
Qed.

Lemma find32_longest t nodes free key :
  radix_ok 32 t nodes free ->
  exists v, ngx_radix32tree_find t key = Ok v /\ longest (value_at t nodes) (bits32 key) v.
Proof.
  intros H. pose proof (ro_shape _ _ _ _ H) as Hs. eexists. split; [|apply last_value_longest]. unfold ngx_radix32tree_find.
  change (2 ^ 31) with (bit32 (length (@nil bool))). rewrite (find32_ok t nodes key 34 [] _ _ Hs (sh_root _ _ _ Hs)) by (cbn; lia). done.
Qed.

(** ** 128-bit keys *)

Definition key_bit (k : list Z) (n : nat) : bool := Z.testbit (nth (n / 8) k 0) (7 - Z.of_nat (n mod 8)).
Definition bits128 (k : list Z) : list bool := key_bit k <$> seq 0 128.

(** The position [n] as a byte and a mask. *)
Definition bit8 (n : nat) : Z := Z.shiftr 128 (Z.of_nat (n mod 8)).

Lemma bits128_length k : length (bits128 k) = 128%nat.
Proof. unfold bits128. by rewrite length_fmap, length_seq. Qed.

Lemma bits128_drop k n : (n < 128)%nat -> drop n (bits128 k) = key_bit k n :: drop (S n) (bits128 k).
Proof. intros Hn. apply drop_S. unfold bits128. rewrite list_lookup_fmap, lookup_seq_lt by done. done. Qed.

Lemma mod8_cases n : (n mod 8 = 0 \/ n mod 8 = 1 \/ n mod 8 = 2 \/ n mod 8 = 3 \/ n mod 8 = 4 \/ n mod 8 = 5 \/ n mod 8 = 6 \/ n mod 8 = 7)%nat.
Proof. pose proof (Nat.mod_upper_bound n 8 ltac:(done)). lia. Qed.

Lemma bit8_test x n : (Z.land (bit8 n) x =? 0) = negb (Z.testbit x (7 - Z.of_nat (n mod 8))).
Proof.
  unfold bit8. pose proof (Nat.mod_upper_bound n 8 ltac:(done)). rewrite Z.shiftr_div_pow2 by lia.
  replace (128 / 2 ^ Z.of_nat (n mod 8)) with (2 ^ (7 - Z.of_nat (n mod 8))).
  - apply land_pow. lia.
  - change 128 with (2 ^ 7). by rewrite Z.pow_sub_r by lia.
Qed.

Lemma next_bit_pos n : next_bit (n / 8) (bit8 n) = ((S n / 8)%nat, bit8 (S n)).
Proof.
  pose proof (Nat.div_mod_eq n 8) as Hn. unfold next_bit, bit8. rewrite Z.shiftr_shiftr by lia.
  destruct (decide (n mod 8 = 7)%nat) as [E|E].
  - rewrite E. change (Z.shiftr 128 (Z.of_nat 7 + 1) =? 0) with true. cbv iota.
    assert (Hd : (S n / 8 = S (n / 8))%nat) by (symmetry; apply (Nat.div_unique _ _ _ 0); lia).
    assert (Hm : (S n mod 8 = 0)%nat) by (symmetry; apply (Nat.mod_unique _ _ (S (n / 8))); lia).
    by rewrite Hm, Hd.
  - assert (Hm : (S n mod 8 = S (n mod 8))%nat).
    { symmetry. apply (Nat.mod_unique _ _ (n / 8)); [pose proof (Nat.mod_upper_bound n 8 ltac:(done)); lia|lia]. }
    assert (Hd : (S n / 8 = n / 8)%nat).
    { symmetry. apply (Nat.div_unique _ _ _ (S (n mod 8))); [pose proof (Nat.mod_upper_bound n 8 ltac:(done)); lia|lia]. }
    rewrite Hm, Hd. replace (Z.of_nat (S (n mod 8))) with (Z.of_nat (n mod 8) + 1) by lia.
    destruct (Z.eqb_spec (Z.shiftr 128 (Z.of_nat (n mod 8) + 1)) 0) as [E0|]; [|done].
    exfalso. revert E0. destruct (mod8_cases n) as [H|[H|[H|[H|[H|[H|[H|H]]]]]]]; rewrite H in *; done.
Qed.


Lemma deref_byte (k : list Z) n : (n < 128)%nat -> (16 <= length k)%nat -> deref k (n / 8) = Ok (nth (n / 8) k 0).
Proof.
  intros Hn Hk. unfold deref. assert (Hi : (n / 8 < length k)%nat) by (pose proof (Nat.div_mod_eq n 8); lia).
  destruct (lookup_lt_is_Some_2 k _ Hi) as [x E]. rewrite E. f_equal. symmetry. by apply nth_lookup_Some.
Qed.




Section keys128.
Context (key mask : list Z) (Hkey : (16 <= length key)%nat) (Hmask : (16 <= length mask)%nat).







(** The byte behind the key is read at the nodes of single addresses only. *)
Lemma find128_ok t nodes fuel p x acc :
  shape 128 t nodes -> nodes !! p = Some x -> (129 - length p < fuel)%nat ->
  (17 <= length key)%nat \/ (forall q, is_Some (nodes !! q) -> (length q < 128)%nat) ->
  find128 fuel t key (length p / 8) (bit8 (length p)) acc x =
    Ok (last_value (value_at t nodes) p (drop (length p) (bits128 key)) acc).
Proof.
  intros H Hp Hf Hend. revert p x acc Hp Hf. induction fuel as [|fuel IH]; intros p x acc Hp Hf; [lia|]. cbn [find128].
  rewrite (proj2 (Z.eqb_neq _ _) (sh_null _ _ _ H _ _ Hp)). pose proof (sh_depth _ _ _ H p ltac:(by eexists)) as Hl.
  destruct (sh_value _ _ _ H _ _ Hp) as [u Hu]. rewrite (load_at_ok _ _ _ Hu). cbn [mbind outcome_bind].
  rewrite (node_value _ _ _ _ _ acc Hp Hu). set (acc' := default acc (value_at t nodes p)).
  assert (Hd : deref key (length p / 8) = Ok (nth (length p / 8) key 0)).
  { destruct (decide (length p = 128)%nat) as [E|]; [|apply deref_byte; [lia|done]]. rewrite E.
    destruct Hend as [Hlong|Hend]; [|specialize (Hend p ltac:(by eexists)); lia]. change (128 / 8)%nat with 16%nat. unfold deref.
    destruct (lookup_lt_is_Some_2 key 16 ltac:(lia)) as [y Ey]. rewrite Ey. f_equal. symmetry. by apply nth_lookup_Some. }
  rewrite Hd. cbn [mbind outcome_bind]. rewrite get_child_side.
  set (b := negb (Z.land (nth (length p / 8) key 0) (bit8 (length p)) =? 0)).
  rewrite (load_at_ok _ _ _ (sh_side _ _ _ H p x b Hp)). cbn [mbind outcome_bind]. rewrite next_bit_pos.
  assert (Hnone : nodes !! (b :: p) = None -> forall l, find128 fuel t key (S (length p) / 8) (bit8 (S (length p))) acc' (node_at nodes (b :: p)) =
    Ok (last_value (value_at t nodes) (b :: p) l acc')).
  { intros E l. rewrite (node_at_none _ _ E). rewrite last_value_none.
    - destruct fuel; [lia|]. cbn [find128]. by rewrite Z.eqb_refl.
    - intros q. apply value_at_none. by eapply shape_none. }
  destruct (decide (length p = 128)%nat) as [E128|Hlt].
  - assert (E : nodes !! (b :: p) = None).
    { destruct (nodes !! (b :: p)) eqn:E; [|done]. pose proof (sh_depth _ _ _ H (b :: p) ltac:(by eexists)) as Hd'. cbn in Hd'. lia. }
    rewrite (Hnone E []). rewrite drop_ge by (rewrite bits128_length; lia). cbn [last_value]. by rewrite (value_at_none _ _ _ E).
  - rewrite bits128_drop by lia. cbn [last_value]. fold acc'.
    assert (Eb : key_bit key (length p) = b).
    { unfold b, key_bit. rewrite Z.land_comm, bit8_test. by rewrite negb_involutive. }
    rewrite Eb. destruct (nodes !! (b :: p)) as [y|] eqn:E; [|by apply Hnone].
    rewrite (node_at_some _ _ _ E). change (S (length p)) with (length (b :: p)). apply (IH (b :: p) y acc' E). cbn. lia.
Qed.

Lemma find128_longest t nodes free :
  radix_ok 128 t nodes free -> (17 <= length key)%nat \/ (forall q, is_Some (nodes !! q) -> (length q < 128)%nat) ->
  exists v, ngx_radix128tree_find t key = Ok v /\ longest (value_at t nodes) (bits128 key) v.
Proof.
  intros H Hend. pose proof (ro_shape _ _ _ _ H) as Hs. eexists. split; [|apply last_value_longest]. unfold ngx_radix128tree_find.
  pose proof (find128_ok t nodes 130 [] _ NGX_RADIX_NO_VALUE Hs (sh_root _ _ _ Hs) ltac:(cbn; lia) Hend) as Hf.
  cbn [length] in Hf. change (0 / 8)%nat with 0%nat in Hf. change (bit8 0) with 128 in Hf. by rewrite Hf.
Qed.

End keys128.


(** ** Creation *)


Definition rooted (t : radix) (x : Z) : radix :=
  t <| rx_right := <[x := NULL]> (rx_right t) |> <| rx_left := <[x := NULL]> (rx_left t) |>
    <| rx_parent := <[x := NULL]> (rx_parent t) |> <| rx_value := <[x := NGX_RADIX_NO_VALUE]> (rx_value t) |>.


Definition no_values (t : radix) (nodes : gmap path Z) : Prop := forall p, value_at t nodes p = None.

(** The root alone. *)
Lemma rooted_ok t x free :
  rx_root t = x -> 0 <= rx_size t -> free_nodes t free -> NoDup (x :: free) ->
  (forall y, y ∈ x :: free -> y <> NULL /\ is_Some (rx_right t !! y) /\ is_Some (rx_left t !! y) /\
    is_Some (rx_parent t !! y) /\ is_Some (rx_value t !! y)) ->
  radix_ok 32 (rooted t x) {[ [] := x ]} free /\ no_values (rooted t x) {[ [] := x ]}.
Proof.
  intros Hr Hs (fl & Hc & El) [Hx Hnd]%NoDup_cons Hmem. destruct (Hmem x ltac:(by left)) as (Hx0 & _).
  assert (Hnew : forall (m : gmap Z Z) v y, is_Some (m !! y) -> is_Some (<[x := v]> m !! y)).
  { intros m v y Hy. destruct (Z.eq_dec y x) as [->|Hne]; [rewrite lookup_insert_eq; by eexists|by rewrite lookup_insert_ne]. }
  assert (Hone : forall p y, ({[ [] := x ]} : gmap path Z) !! p = Some y -> p = [] /\ y = x).
  { intros p y E. by apply lookup_singleton_Some in E as [<- <-]. }
  split; [split; [split|done|exists fl|done|]|].
  - by rewrite lookup_singleton_eq, <- Hr.
  - intros p y [_ ->]%Hone. done.
  - intros p y b [-> ->]%Hone. unfold node_at. rewrite lookup_singleton_ne by done.
    destruct b; cbn; by rewrite lookup_insert_eq.
  - intros p y [-> ->]%Hone. cbn. by rewrite lookup_insert_eq.
  - intros p y [-> ->]%Hone. cbn. rewrite lookup_insert_eq. by eexists.
  - intros b p [y [E _]%Hone]. done.
  - intros p q y [-> _]%Hone [-> _]%Hone. done.
  - intros p [y [-> _]%Hone]. cbn. lia.
  - split; [|done]. eapply chain_same; [|exact Hc]. intros y Hy. cbn. rewrite lookup_insert_ne; [done|].
    intros <-. apply Hx. rewrite El, elem_of_app. by left.
  - intros y Hy. destruct (Hmem y ltac:(by right)) as (Y1 & Y2 & Y3 & Y4 & Y5). split; [done|].
    split; [intros p [_ ->]%Hone; done|]. cbn. split_and!; by apply Hnew.
  - intros p. unfold value_at. destruct (({[ [] := x ]} : gmap path Z) !! p) as [y|] eqn:E; [|done].
    apply Hone in E as [-> ->]. cbn. by rewrite lookup_insert_eq.
Qed.

(** *** Nodes made in advance *)



















Lemma radix_ok_deeper t nodes free : radix_ok 32 t nodes free -> radix_ok 128 t nodes free.
Proof.
  intros [[S1 S2 S3 S4 S5 S6 S7 S8] H2 H3 H4 H5]. split; try done. split; try done. intros p Hp. specialize (S8 p Hp). lia.
Qed.



End alloc.

(** * Properties *)

(** A tree of a root, with memory for two more nodes. *)
Definition demo_memory : radix :=
  let zero := list_to_map [(96, 0); (128, 0); (160, 0)] : gmap Z Z in mk_radix zero zero zero zero 96 NULL 128 64 [].
Definition demo_tree : radix := rooted demo_memory 96.
Definition demo_nodes : gmap path Z := {[ [] := 96 ]}.

Lemma demo_mapped x : x ∈ [96; 128; 160] ->
  x <> NULL /\ is_Some (rx_right demo_memory !! x) /\ is_Some (rx_left demo_memory !! x) /\
  is_Some (rx_parent demo_memory !! x) /\ is_Some (rx_value demo_memory !! x).
Proof. intros H. repeat (apply elem_of_cons in H as [->|H]; [split; [done|]; split_and!; by eexists|]). by apply elem_of_nil in H. Qed.

Lemma demo_tree_ok : radix_ok 96 32 demo_tree demo_nodes [128; 160] /\ no_values demo_tree demo_nodes.
Proof.
  apply rooted_ok; [done|done| | |apply demo_mapped].
  - exists []. split; [done|]. by vm_compute.
  - repeat (apply NoDup_cons; split; [rewrite ?elem_of_cons, elem_of_nil; naive_solver lia|]). by apply NoDup_nil.
Qed.






(** A search gives the value of the longest prefix of the key that has one.  For 128 bits
    a key of 16 bytes is enough only when there is no node for a whole address. *)
(** C25. ngx_radix32tree_find and ngx_radix128tree_find give the value of the
    longest prefix of the key that has one; the latter needs a byte behind the 16 of the
    key when there is a node for a whole address. *)
Theorem ngx_radix_find_correct pagesize t nodes free :
  (forall key, radix_ok pagesize 32 t nodes free ->
     exists v, ngx_radix32tree_find t key = Ok v /\ longest (value_at t nodes) (bits32 key) v) /\
  (forall key, radix_ok pagesize 128 t nodes free -> (16 <= length key)%nat ->
     (17 <= length key)%nat \/ (forall q, is_Some (nodes !! q) -> (length q < 128)%nat) ->
     exists v, ngx_radix128tree_find t key = Ok v /\ longest (value_at t nodes) (bits128 key) v).
Proof. split; intros key H; [by eapply find32_longest|]. intros Hk He. by eapply find128_longest. Qed.

Lemma ngx_radix_find_correct_witness :
  exists v, ngx_radix128tree_find demo_tree (ones 16) = Ok v /\ longest (value_at demo_tree demo_nodes) (bits128 (ones 16)) v.
Proof.
  destruct demo_tree_ok as [H Hv].
  destruct (ngx_radix_find_correct 96 demo_tree demo_nodes [128; 160]) as [_ H2].
  apply (H2 (ones 16) (radix_ok_deeper _ _ _ _ H)); [vm_compute; lia|].
  right. unfold demo_nodes. intros q [y E]. apply lookup_singleton_Some in E as [<- _]. cbn. lia.
Defined.
