(* ===== verification/Huff.v ===== *)
(** Component "HPACK": the Huffman coding of strings, http/v2/ngx_http_v2_huff_encode.c
    and http/v2/ngx_http_v2_huff_decode.c.

    The destinations are memories with positions in them.  HuffTheory has the theorems. *)

From stdpp Require Import base numbers list option strings.
From Stdlib Require Import ZArith Lia.
From S2P Require Import Prelude HuffTables.
Local Open Scope Z_scope.

(** * Definitions *)

(** ** Encoding *)

(** [dst[d] = (u_char) (buf >> s)] for the shifts [s], one octet behind the other. *)
Fixpoint put_octets (dst : list Z) (d : nat) (buf : Z) (shifts : list Z) : outcome (list Z) :=
  match shifts with
  | [] => Ok dst
  | s :: shifts' => dst ← store dst d (to_u8 (Z.shiftr buf s)); put_octets dst (S d) buf shifts'
  end.

(** The word, the most significant octet first. *)
Definition ngx_http_v2_huff_encode_buf (dst : list Z) (d : nat) (buf : Z) : outcome (list Z) :=
  put_octets dst d buf [56; 48; 40; 32; 24; 16; 8; 0].

Definition encode_code (table : list ngx_http_v2_huff_encode_code_t) (c : Z) : outcome ngx_http_v2_huff_encode_code_t :=
  match table !! Z.to_nat c with Some next => Ok next | None => UB end.

(** The loop over the bytes of [src]: [hlen], [buf] and [pending], or [None] when the
    function returns 0. *)
Fixpoint huff_encode_loop (table : list ngx_http_v2_huff_encode_code_t) (src dst : list Z) (len hlen : nat) (buf pending : Z)
  : outcome (list Z * option (nat * Z * Z)) :=
  match src with
  | [] => Ok (dst, Some (hlen, buf, pending))
  | c :: src' =>
      next ← encode_code table c;
      let code := ec_code next in
      let pending := pending + ec_len next in
      if pending <? 64 then
        huff_encode_loop table src' dst len hlen (Z.lor buf (to_u64 (Z.shiftl code (64 - pending)))) pending
      else if (len <=? hlen + 8)%nat then Ok (dst, None)
      else
        let pending := pending - 64 in
        let buf := Z.lor buf (Z.shiftr code pending) in
        dst ← ngx_http_v2_huff_encode_buf dst hlen buf;
        let buf := if negb (pending =? 0) then to_u64 (Z.shiftl code (64 - pending)) else 0 in
        huff_encode_loop table src' dst len (hlen + 8) buf pending
  end.

(** The loop over the last octets. *)
Fixpoint huff_encode_rest (fuel : nat) (dst : list Z) (hlen : nat) (buf pending : Z) : outcome (list Z * nat) :=
  match fuel with
  | O => NoFuel
  | S fuel' =>
      let pending := pending - 8 in
      dst ← store dst hlen (to_u8 (Z.shiftr buf pending));
      if negb (pending =? 0) then huff_encode_rest fuel' dst (S hlen) buf pending else Ok (dst, S hlen)
  end.

(** [ngx_align(d, a)] *)
Definition ngx_align (d a : Z) : Z := Z.land (d + (a - 1)) (Z.lnot (a - 1)).

(** [src] has [len] bytes; the result is the memory of [dst] and the length. *)
Definition ngx_http_v2_huff_encode (src dst : list Z) (lower : bool) : outcome (list Z * nat) :=
  let len := length src in
  let table := if lower then ngx_http_v2_huff_encode_table_lc else ngx_http_v2_huff_encode_table in
  '(dst, r) ← huff_encode_loop table src dst len 0 0 0;
  match r with
  | None => Ok (dst, 0%nat)
  | Some (hlen, buf, pending) =>
      if pending =? 0 then Ok (dst, hlen)
      else
        let buf := Z.lor buf (Z.shiftr (2 ^ 64 - 1) pending) in
        let pending := ngx_align pending 8 in
        if (len <=? hlen + Z.to_nat (pending / 8))%nat then Ok (dst, 0%nat)
        else huff_encode_rest 8 dst hlen (Z.shiftr buf (64 - pending)) pending
  end.

(** ** Decoding *)

(** What ngx_http_v2_huff_decode keeps: [*state], [ending], and the memory of [*dst] with
    the position in it. *)
Record huff_decoder : Type := mk_huff {
  hd_state : Z;
  hd_ending : Z;
  hd_mem : list Z;
  hd_dst : nat
}.

Definition decode_code (state bits : Z) : outcome ngx_http_v2_huff_decode_code_t :=
  match row ← ngx_http_v2_huff_decode_codes !! Z.to_nat state; row !! Z.to_nat bits with
  | Some code => Ok code
  | None => UB
  end.

Definition ngx_http_v2_huff_decode_bits (h : huff_decoder) (bits : Z) : outcome (huff_decoder * Z) :=
  code ← decode_code (hd_state h) bits;
  if dc_next code =? hd_state h then Ok (h, NGX_ERROR)
  else
    '(mem, d) ← (if negb (dc_emit code =? 0) then
                   mem ← store (hd_mem h) (hd_dst h) (dc_sym code); Ok (mem, S (hd_dst h))
                 else Ok (hd_mem h, hd_dst h));
    Ok (mk_huff (dc_next code) (dc_ending code) mem d, NGX_OK).

Fixpoint huff_decode_loop (src : list Z) (h : huff_decoder) : outcome (huff_decoder * Z) :=
  match src with
  | [] => Ok (h, NGX_OK)
  | ch :: src' =>
      '(h, rc) ← ngx_http_v2_huff_decode_bits h (Z.shiftr ch 4);
      if negb (rc =? NGX_OK) then Ok (h, NGX_ERROR)
      else
        '(h, rc) ← ngx_http_v2_huff_decode_bits h (Z.land ch 0xf);
        if negb (rc =? NGX_OK) then Ok (h, NGX_ERROR) else huff_decode_loop src' h
  end.

(** The result is the state, the memory, the position and the return code. *)
Definition ngx_http_v2_huff_decode (state : Z) (src mem : list Z) (dst : nat) (last : bool) : outcome (Z * list Z * nat * Z) :=
  '(h, rc) ← huff_decode_loop src (mk_huff state 1 mem dst);
  if negb (rc =? NGX_OK) then Ok (hd_state h, hd_mem h, hd_dst h, NGX_ERROR)
  else if last then
    if hd_ending h =? 0 then Ok (hd_state h, hd_mem h, hd_dst h, NGX_ERROR) else Ok (0, hd_mem h, hd_dst h, NGX_OK)
  else Ok (hd_state h, hd_mem h, hd_dst h, NGX_OK).

(** ** Examples *)

(** The example of the standard: "www.example.com". *)
Example huff_encode_example :
  ngx_http_v2_huff_encode (bytes "www.example.com") (replicate 15 0) false =
    Ok ([0xf1; 0xe3; 0xc2; 0xe5; 0xf2; 0x3a; 0x6b; 0xa0; 0xab; 0x90; 0xf4; 0xff; 0; 0; 0], 12%nat).
Proof. vm_compute. reflexivity. Qed.

Example huff_encode_lower_example :
  ngx_http_v2_huff_encode (bytes "WWW.Example.COM") (replicate 15 0) true =
  ngx_http_v2_huff_encode (bytes "www.example.com") (replicate 15 0) false.
Proof. vm_compute. reflexivity. Qed.

Example huff_decode_example :
  ngx_http_v2_huff_decode 0 [0xf1; 0xe3; 0xc2; 0xe5; 0xf2; 0x3a; 0x6b; 0xa0; 0xab; 0x90; 0xf4; 0xff] (replicate 20 0) 0 true =
    Ok (0, bytes "www.example.com" ++ replicate 5 0, 15%nat, NGX_OK).
Proof. vm_compute. reflexivity. Qed.

(** A padding of more than seven bits, which the standard (RFC 7541, 5.2) takes for an error, is accepted. *)
Example long_padding :
  ngx_http_v2_huff_decode 0 [0x1f; 0xff; 0xff] (replicate 5 0) 0 true = Ok (0, bytes "a" ++ replicate 4 0, 1%nat, NGX_OK) /\
  ngx_http_v2_huff_decode 0 [0xff; 0xff; 0xff] (replicate 5 0) 0 true = Ok (0, replicate 5 0, 0%nat, NGX_OK) /\
  (_ ← ngx_http_v2_huff_decode 0 [0xff; 0xff; 0xff; 0xff] (replicate 5 0) 0 true; Ok ()) = Ok () /\
  (r ← ngx_http_v2_huff_decode 0 [0xff; 0xff; 0xff; 0xff] (replicate 5 0) 0 true; Ok r.2) = Ok NGX_ERROR.
Proof. split_and!; vm_compute; reflexivity. Qed.
