(* ===== verification/HuffTheory.v ===== *)
(** Component "HPACK", continued: the Huffman coding against the code as a set of strings
    of bits. *)

From stdpp Require Import base numbers list option.
From Stdlib Require Import ZArith Lia.
From S2P Require Import Prelude StringCompare HuffTables Huff.
Local Open Scope Z_scope.

(** * Strings of bits *)

Lemma orb_app l1 l2 k : (length l2 <= k)%nat ->
  zip_with orb (l1 ++ replicate k false) (replicate (length l1) false ++ l2 ++ replicate (k - length l2) false) =
  l1 ++ l2 ++ replicate (k - length l2) false.
Proof.
  intros Hk. rewrite zip_with_app by (by rewrite length_replicate). f_equal.
  - induction l1 as [|b l1 IH]; [done|]. cbn. by rewrite orb_false_r, IH.
  - assert (H : forall l, zip_with orb (replicate (length l) false) l = l) by (intros l; induction l; cbn; congruence).
    rewrite <- (H (l2 ++ _)) at 2. do 2 f_equal. rewrite length_app, length_replicate. lia.
Qed.

(** ** Octets *)

Definition octet_bits (l : list Z) : list bool := l ≫= bits_of 8.

Lemma octet_bits_length l : length (octet_bits l) = (8 * length l)%nat.
Proof. induction l as [|c l IH]; [done|]. cbn [octet_bits mbind list_bind length]. rewrite length_app, bits_of_length. unfold octet_bits in IH. rewrite IH. lia. Qed.

Lemma octet_bits_app l1 l2 : octet_bits (l1 ++ l2) = octet_bits l1 ++ octet_bits l2.
Proof. apply bind_app. Qed.

(** The octets of a number of [k] octets, and the shifts that give them. *)
Fixpoint shifts (k : nat) : list Z := match k with O => [] | S k' => 8 * Z.of_nat k' :: shifts k' end.
Definition octets (k : nat) (v : Z) : list Z := (fun s => to_u8 (Z.shiftr v s)) <$> shifts k.

Lemma octets_length k v : length (octets k v) = k.
Proof. unfold octets. rewrite length_fmap. induction k; cbn; congruence. Qed.

Lemma octets_bits k v : octet_bits (octets k v) = bits_of (8 * k) v.
Proof.
  induction k as [|k IH]; [done|]. unfold octets in *. cbn [shifts fmap list_fmap]. cbn [octet_bits mbind list_bind].
  unfold octet_bits in IH. rewrite IH. replace (8 * S k)%nat with (8 + 8 * k)%nat by lia. rewrite (bits_of_app 8 (8 * k)). f_equal.
  unfold to_u8. rewrite (bits_of_mod 8 8) by done. f_equal. f_equal. lia.
Qed.

Lemma octets_ok k v : bytes_ok (octets k v).
Proof. apply Forall_fmap, Forall_forall. intros s _. unfold compose, byte_ok, to_u8. change 256 with (2 ^ 8). apply Z.mod_pos_bound. done. Qed.

Lemma store_at_end (out rest : list Z) c x :
  store (out ++ x :: rest) (length out) c = Ok (out ++ c :: rest).
Proof.
  unfold store. rewrite (proj2 (Nat.ltb_lt _ _)) by (rewrite length_app; cbn; lia).
  by rewrite insert_app_r_alt, Nat.sub_diag by done.
Qed.

Lemma put_octets_ok k out rest v :
  (k <= length rest)%nat -> put_octets (out ++ rest) (length out) v (shifts k) = Ok ((out ++ octets k v) ++ drop k rest).
Proof.
  revert out rest. induction k as [|k IH]; intros out rest Hk; [by rewrite app_nil_r|]. cbn [put_octets shifts].
  destruct rest as [|x rest]; [cbn in Hk; lia|]. rewrite store_at_end. cbn [mbind outcome_bind].
  rewrite (cons_middle _ out rest), app_assoc. replace (S (length out)) with (length (out ++ [to_u8 (Z.shiftr v (8 * Z.of_nat k))])) by (rewrite length_app; cbn; lia).
  rewrite IH by (cbn in Hk; lia). unfold octets. cbn [shifts fmap list_fmap drop]. by rewrite <- !app_assoc.
Qed.

(** * Encoding *)

Definition code_bits (e : ngx_http_v2_huff_encode_code_t) : list bool := bits_of (Z.to_nat (ec_len e)) (ec_code e).
Definition encode_table (lower : bool) : list ngx_http_v2_huff_encode_code_t :=
  if lower then ngx_http_v2_huff_encode_table_lc else ngx_http_v2_huff_encode_table.

(** The code of a byte, and of a string. *)
Definition byte_code (lower : bool) (c : Z) : list bool :=
  match encode_table lower !! Z.to_nat c with Some e => code_bits e | None => [] end.
Definition stream (lower : bool) (src : list Z) : list bool := src ≫= byte_code lower.

Definition code_ok (e : ngx_http_v2_huff_encode_code_t) : bool :=
  (5 <=? ec_len e) && (ec_len e <=? 30) && (0 <=? ec_code e) && (ec_code e <? 2 ^ ec_len e).

Lemma table_checked lower : forallb code_ok (encode_table lower) = true /\ length (encode_table lower) = 256%nat.
Proof. destruct lower; split; vm_compute; reflexivity. Qed.

Lemma encode_code_ok lower c :
  byte_ok c -> exists e, encode_code (encode_table lower) c = Ok e /\ byte_code lower c = code_bits e /\
    5 <= ec_len e <= 30 /\ 0 <= ec_code e < 2 ^ ec_len e.
Proof.
  intros Hc. destruct (table_checked lower) as [Ht Hl]. unfold encode_code, byte_code.
  destruct (lookup_lt_is_Some_2 (encode_table lower) (Z.to_nat c)) as [e Ee]; [unfold byte_ok in Hc; lia|]. rewrite Ee.
  exists e. split; [done|]. split; [done|]. rewrite forallb_forall in Ht. specialize (Ht e).
  assert (Hin : In e (encode_table lower)) by (by apply list_elem_of_In, (list_elem_of_lookup_2 _ _ _ Ee)). specialize (Ht Hin).
  unfold code_ok in Ht. rewrite !andb_true_iff in Ht. lia.
Qed.

(** The bits of the buffer when a code of [n] bits is added. *)
Lemma add_code_low (l : list bool) buf code (n : nat) :
  bits_of 64 buf = l ++ replicate (64 - length l) false -> 0 <= code < 2 ^ Z.of_nat n -> (length l + n <= 64)%nat ->
  bits_of 64 (Z.lor buf (to_u64 (Z.shiftl code (64 - Z.of_nat (length l + n))))) =
    (l ++ bits_of n code) ++ replicate (64 - length (l ++ bits_of n code)) false.
Proof.
  intros Hb Hc Hl. rewrite bits_of_lor, Hb. unfold to_u64. change (2 ^ 64) with (2 ^ Z.of_nat 64). rewrite bits_of_mod by done.
  set (k := (64 - (length l + n))%nat). replace (64 - Z.of_nat (length l + n)) with (Z.of_nat k) by (unfold k; lia).
  assert (E64 : bits_of 64 (Z.shiftl code (Z.of_nat k)) = bits_of (length l + n + k) (Z.shiftl code (Z.of_nat k))) by (f_equal; unfold k; lia).
  rewrite E64, bits_of_shiftl, bits_of_small by done. rewrite <- !app_assoc, length_app, bits_of_length.
  replace k with (64 - length l - length (bits_of n code))%nat by (rewrite bits_of_length; unfold k; lia).
  rewrite orb_app by (rewrite bits_of_length; lia). rewrite bits_of_length. do 3 f_equal. lia.
Qed.

Lemma add_code_high (l : list bool) buf code (n k : nat) :
  bits_of 64 buf = l ++ replicate (64 - length l) false -> 0 <= code < 2 ^ Z.of_nat n -> (length l + n = 64 + k)%nat -> (k <= n)%nat ->
  bits_of 64 (Z.lor buf (Z.shiftr code (Z.of_nat k))) = l ++ take (n - k) (bits_of n code).
Proof.
  intros Hb Hc Hl Hk. rewrite bits_of_lor, Hb.
  assert (E64 : bits_of 64 (Z.shiftr code (Z.of_nat k)) = replicate (length l) false ++ take (n - k) (bits_of n code)).
  { assert (En : bits_of (64 + k) code = bits_of (length l + n) code) by (f_equal; lia).
    rewrite (bits_of_small (length l) n) in En by done. rewrite (bits_of_app 64 k) in En. apply (f_equal (take 64)) in En.
    rewrite take_app_length' in En by (by rewrite bits_of_length). rewrite En, take_app, length_replicate.
    rewrite take_ge by (rewrite length_replicate; lia). do 2 f_equal. lia. }
  rewrite E64. replace (take (n - k) (bits_of n code)) with (take (n - k) (bits_of n code) ++ replicate (64 - length l - length (take (n - k) (bits_of n code))) false).
  - rewrite orb_app; [done|]. rewrite length_take, bits_of_length. lia.
  - replace (64 - length l - _)%nat with 0%nat by (rewrite length_take, bits_of_length; lia). by rewrite app_nil_r.
Qed.

Lemma start_word code (n k : nat) : (k <= n)%nat -> (0 < k <= 64)%nat ->
  bits_of 64 (to_u64 (Z.shiftl code (64 - Z.of_nat k))) = drop (n - k) (bits_of n code) ++ replicate (64 - k) false.
Proof.
  intros Hn Hk. unfold to_u64. change (2 ^ 64) with (2 ^ Z.of_nat 64). rewrite bits_of_mod by done.
  replace (64 - Z.of_nat k) with (Z.of_nat (64 - k)) by lia.
  assert (E : bits_of 64 (Z.shiftl code (Z.of_nat (64 - k))) = bits_of (k + (64 - k)) (Z.shiftl code (Z.of_nat (64 - k)))) by (f_equal; lia).
  rewrite E, bits_of_shiftl. f_equal.
  assert (En : bits_of n code = bits_of (n - k) (Z.shiftr code (Z.of_nat k)) ++ bits_of k code) by (rewrite <- bits_of_app; f_equal; lia).
  rewrite En. by rewrite drop_app_length' by (by rewrite bits_of_length).
Qed.

Record encoding (len : nat) (size : nat) (total : list bool) (r : list Z * option (nat * Z * Z)) : Prop := {
  en_size : length r.1 = size;
  en_result : match r.2 with
    | None => (8 * len <= length total)%nat
    | Some (hlen, buf, pending) => exists out rest l, r.1 = out ++ rest /\ hlen = length out /\ pending = Z.of_nat (length l) /\
        (length l < 64)%nat /\ bits_of 64 buf = l ++ replicate (64 - length l) false /\ octet_bits out ++ l = total /\
        (out = [] \/ (length out < len)%nat) /\ bytes_ok out
    end
}.

Lemma huff_encode_loop_ok lower len src : bytes_ok src -> forall out rest l buf,
  (length l < 64)%nat -> bits_of 64 buf = l ++ replicate (64 - length l) false -> (len <= length (out ++ rest))%nat ->
  (out = [] \/ (length out < len)%nat) -> bytes_ok out ->
  exists r, huff_encode_loop (encode_table lower) src (out ++ rest) len (length out) buf (Z.of_nat (length l)) = Ok r /\
    encoding len (length (out ++ rest)) (octet_bits out ++ l ++ stream lower src) r.
Proof.
  induction 1 as [|c src Hc Hsrc IH]; intros out rest l buf Hl Hb Hlen Hout Hok; cbn [huff_encode_loop].
  - eexists. split; [done|]. split; [done|]. exists out, rest, l. by rewrite app_nil_r.
  - destruct (encode_code_ok lower c Hc) as (e & -> & Ec & He1 & He2). cbn [mbind outcome_bind].
    unfold stream. cbn [mbind list_bind]. fold (stream lower src). rewrite Ec. unfold code_bits.
    set (n := Z.to_nat (ec_len e)) in *. assert (En : ec_len e = Z.of_nat n) by (unfold n; lia). rewrite En in *.
    rewrite <- Nat2Z.inj_add. destruct (Z.ltb_spec (Z.of_nat (length l + n)) 64) as [Hlt|Hge].
    + pose proof (add_code_low l buf (ec_code e) n Hb He2 ltac:(lia)) as Hb'.
      assert (Ell : (length l + n)%nat = length (l ++ bits_of n (ec_code e))) by (by rewrite length_app, bits_of_length).
      rewrite (app_assoc l). rewrite Ell in Hlt, Hb' |- *.
      apply IH; [lia|done|done|done|done].
    + destruct (Nat.leb_spec len (length out + 8)) as [Hr|Hr].
      { eexists. split; [done|]. split; [done|]. cbn [snd]. rewrite !length_app, octet_bits_length, bits_of_length. lia. }
      set (k := (length l + n - 64)%nat). replace (Z.of_nat (length l + n) - 64) with (Z.of_nat k) by (unfold k; lia).
      assert (Hk : (k < 30)%nat) by (unfold k; lia). assert (Hkn : (k <= n)%nat) by (unfold k; lia).
      pose proof (add_code_high l buf (ec_code e) n k Hb He2 ltac:(unfold k; lia) Hkn) as Hhigh.
      unfold ngx_http_v2_huff_encode_buf. change [56; 48; 40; 32; 24; 16; 8; 0] with (shifts 8).
      rewrite length_app in Hlen. rewrite put_octets_ok by lia. cbn [mbind outcome_bind].
      set (w := Z.lor buf _) in *. set (l' := drop (n - k) (bits_of n (ec_code e))).
      assert (El' : length l' = k) by (unfold l'; rewrite length_drop, bits_of_length; lia).
      assert (Elen : (length out + 8)%nat = length (out ++ octets 8 w)) by (rewrite length_app, octets_length; done).
      assert (Eb : bits_of 64 (if negb (Z.of_nat k =? 0) then to_u64 (Z.shiftl (ec_code e) (64 - Z.of_nat k)) else 0) =
        l' ++ replicate (64 - length l') false).
      { rewrite El'. destruct (Z.eqb_spec (Z.of_nat k) 0) as [E0|Hk0]; cbn [negb].
        - assert (Enil : l' = []) by (apply nil_length_inv; lia). rewrite bits_of_zeros, Enil. by replace (64 - k)%nat with 64%nat by lia.
        - apply start_word; lia. }
      rewrite Elen. rewrite <- El'. rewrite <- El' in Eb.
      destruct (IH (out ++ octets 8 w) (drop 8 rest) l' _ ltac:(lia) Eb) as (r & -> & Hr').
      * rewrite !length_app, octets_length, length_drop. lia.
      * right. lia.
      * apply Forall_app. split; [done|apply octets_ok].
      * eexists. split; [done|]. rewrite octet_bits_app, octets_bits in Hr'. change (8 * 8)%nat with 64%nat in Hr'. rewrite Hhigh in Hr'.
        assert (Et : octet_bits out ++ l ++ bits_of n (ec_code e) ++ stream lower src =
          (octet_bits out ++ l ++ take (n - k) (bits_of n (ec_code e))) ++ l' ++ stream lower src).
        { rewrite <- !app_assoc. do 2 f_equal. rewrite app_assoc. f_equal. unfold l'. by rewrite take_drop. }
        rewrite Et. destruct Hr' as [H1 H2]. split; [|done]. rewrite H1, !length_app, octets_length, length_drop. lia.
Qed.

(** ** The end of the string *)

Lemma align8 p : 0 <= p -> ngx_align p 8 = 8 * ((p + 7) / 8).
Proof.
  intros Hp. unfold ngx_align. change (Z.lnot (8 - 1)) with (Z.lnot (Z.ones 3)). rewrite <- Z.ldiff_land, Z.ldiff_ones_r by lia.
  rewrite Z.shiftl_mul_pow2, Z.shiftr_div_pow2 by lia. change (2 ^ 3) with 8. replace (p + (8 - 1)) with (p + 7) by lia. lia.
Qed.

Lemma huff_encode_rest_ok q fuel out rest buf :
  (0 < q <= fuel)%nat -> (q <= length rest)%nat ->
  huff_encode_rest fuel (out ++ rest) (length out) buf (8 * Z.of_nat q) =
    Ok ((out ++ octets q buf) ++ drop q rest, (length out + q)%nat).
Proof.
  intros Hq Hr. enough (H : huff_encode_rest fuel (out ++ rest) (length out) buf (8 * Z.of_nat q) =
    (dst ← put_octets (out ++ rest) (length out) buf (shifts q); Ok (dst, (length out + q)%nat))) by (by rewrite H, put_octets_ok).
  clear Hr. generalize (out ++ rest) as dst. generalize (length out) as d. revert fuel Hq. induction q as [|q IH]; [lia|].
  intros [|fuel] Hq d dst; [lia|]. cbn [huff_encode_rest put_octets shifts].
  replace (8 * Z.of_nat (S q) - 8) with (8 * Z.of_nat q) by lia. destruct (store _ _ _) as [dst'| |]; [|done..]. cbn [mbind outcome_bind].
  destruct (Z.eqb_spec (8 * Z.of_nat q) 0) as [E0|E0]; cbn [negb].
  - replace q with 0%nat by lia. cbn. by rewrite Nat.add_1_r.
  - rewrite IH by lia. by replace (S d + q)%nat with (d + S q)%nat by lia.
Qed.

(** The octets that a string of bits takes. *)
Definition octets_of (n : nat) : nat := (n + 7) / 8.

Lemma octets_of_bound n : (n <= 8 * octets_of n < n + 8)%nat.
Proof. unfold octets_of. pose proof (Nat.div_mod_eq (n + 7) 8). pose proof (Nat.mod_upper_bound (n + 7) 8 ltac:(done)). lia. Qed.

Lemma octets_of_add a n : octets_of (8 * a + n) = (a + octets_of n)%nat.
Proof. unfold octets_of. rewrite <- Nat.add_assoc, Nat.mul_comm, Nat.div_add_l by done. done. Qed.

Lemma octets_of_Z n : (Z.of_nat n + 7) / 8 = Z.of_nat (octets_of n).
Proof. unfold octets_of. by rewrite Nat2Z.inj_div, Nat2Z.inj_add. Qed.

(** The bits of a string, filled up with ones. *)
Definition padded (l : list bool) : list bool := l ++ replicate (8 * octets_of (length l) - length l) true.

Lemma padded_app (out : list Z) l : padded (octet_bits out ++ l) = octet_bits out ++ padded l.
Proof.
  unfold padded. rewrite length_app, octet_bits_length, octets_of_add, <- app_assoc. do 3 f_equal. lia.
Qed.

Lemma last_word_bits (l : list bool) buf :
  (length l < 64)%nat -> bits_of 64 buf = l ++ replicate (64 - length l) false ->
  bits_of (8 * octets_of (length l)) (Z.shiftr (Z.lor buf (Z.shiftr (2 ^ 64 - 1) (Z.of_nat (length l)))) (64 - 8 * Z.of_nat (octets_of (length l)))) =
    padded l.
Proof.
  intros Hl Hb. set (q := octets_of (length l)). pose proof (octets_of_bound (length l)) as Hq. fold q in Hq.
  assert (Hq8 : (q <= 8)%nat) by lia. set (w := Z.lor _ _).
  assert (Hw : bits_of 64 w = l ++ replicate (64 - length l) true).
  { unfold w. rewrite bits_of_lor, Hb. rewrite (bits_of_shiftr 64 (length l)) by (done || lia).
    change (2 ^ 64 - 1) with (2 ^ Z.of_nat 64 - 1). rewrite bits_of_ones by done. rewrite take_replicate, Nat.min_l by lia.
    pose proof (orb_app l (replicate (64 - length l) true) (64 - length l)) as H. rewrite length_replicate, Nat.sub_diag, app_nil_r in H.
    by apply H. }
  assert (E : bits_of 64 w = bits_of (8 * q) (Z.shiftr w (Z.of_nat (64 - 8 * q))) ++ bits_of (64 - 8 * q) w) by (rewrite <- bits_of_app; f_equal; lia).
  replace (64 - 8 * Z.of_nat q) with (Z.of_nat (64 - 8 * q)) by lia. rewrite Hw in E. apply (f_equal (take (8 * q))) in E.
  etransitivity; [symmetry; etransitivity; [exact E|apply take_app_length'; by rewrite bits_of_length]|]. unfold padded. fold q.
  rewrite take_app, take_ge by lia. by rewrite take_replicate, Nat.min_l by lia.
Qed.

(** The encoder gives the codes of the bytes and a padding of ones, when that is shorter
    than the string, and 0 when it is not; it writes to no more than the length of the
    string. *)
Lemma huff_encode_ok lower src dst :
  bytes_ok src -> (length src <= length dst)%nat ->
  let n := octets_of (length (stream lower src)) in
  exists dst', ngx_http_v2_huff_encode src dst lower = Ok (dst', if decide (n < length src)%nat then n else 0%nat) /\
    length dst' = length dst /\
    ((n < length src)%nat -> octet_bits (take n dst') = padded (stream lower src) /\ bytes_ok (take n dst')).
Proof.
  intros Hsrc Hlen n. unfold ngx_http_v2_huff_encode.
  destruct (huff_encode_loop_ok lower (length src) src Hsrc [] dst [] 0) as (r & Er & [Hs Hr]); [cbn; lia|done|done|by left|by apply Forall_nil|].
  cbn [app length octet_bits mbind list_bind] in *. change (Z.of_nat 0) with 0 in Er.
  change (if lower then ngx_http_v2_huff_encode_table_lc else ngx_http_v2_huff_encode_table) with (encode_table lower). rewrite Er.
  cbn [mbind outcome_bind]. destruct r as [dst' [[[hlen buf] pending]|]]; cbn [fst snd] in *; cycle 1.
  { pose proof (octets_of_bound (length (stream lower src))). fold n in H. exists dst'. rewrite decide_False by lia. split; [done|]. split; [done|lia]. }
  destruct Hr as (out & rest & l & -> & -> & -> & Hl & Hb & Ht & Hout & Hok).
  assert (En : n = (length out + octets_of (length l))%nat) by (unfold n; rewrite <- Ht, length_app, octet_bits_length; apply octets_of_add).
  assert (Hpad : padded (stream lower src) = octet_bits out ++ padded l) by (rewrite <- Ht; apply padded_app).
  destruct (Z.eqb_spec (Z.of_nat (length l)) 0) as [E0|E0].
  - assert (El : l = []) by (apply nil_length_inv; lia). subst l. change (octets_of (length (@nil bool))) with 0%nat in En. rewrite Nat.add_0_r in En. rewrite En.
    exists (out ++ rest). split; [|split; [done|]].
    + case_decide; [done|]. destruct Hout as [->|]; [done|lia].
    + intros _. rewrite take_app_length, Hpad. by rewrite app_nil_r.
  - rewrite align8 by lia. rewrite octets_of_Z. rewrite Z.mul_comm, Z.div_mul, Nat2Z.id by done. rewrite <- En.
    destruct (Nat.leb_spec (length src) n) as [Hle|Hgt].
    { exists (out ++ rest). rewrite decide_False by lia. split; [done|]. split; [done|lia]. }
    rewrite decide_True by done. rewrite (Z.mul_comm _ 8). set (v := Z.shiftr _ (64 - _)). pose proof (octets_of_bound (length l)).
    rewrite length_app in Hs. rewrite huff_encode_rest_ok by lia. rewrite <- En.
    eexists. split; [done|]. split; [rewrite !length_app, octets_length, length_drop; lia|]. intros _.
    rewrite take_app_length' by (rewrite length_app, octets_length; lia). split; [|apply Forall_app; split; [done|apply octets_ok]].
    rewrite octet_bits_app, octets_bits, Hpad. f_equal. apply last_word_bits; [done|done].
Qed.

(** * The tree of the code

    The inner nodes of the tree are the states of the decoder. *)

Inductive tree : Type :=
| Nil
| Leaf (c : Z)
| Node (zero one : tree).

Fixpoint tree_insert (t : tree) (l : list bool) (c : Z) : tree :=
  match l with
  | [] => Leaf c
  | b :: l' =>
      let '(zero, one) := match t with Node zero one => (zero, one) | _ => (Nil, Nil) end in
      if b then Node zero (tree_insert one l' c) else Node (tree_insert zero l' c) one
  end.

(** The codes of the bytes and that of the end of the string, 30 ones, which is taken out. *)
Definition huff_tree : tree :=
  Eval vm_compute in
    tree_insert (foldr (fun c t => tree_insert t (byte_code false c) c) Nil (seqZ 0 256)) (replicate 30 true) 256.

Fixpoint sub (t : tree) (l : list bool) {struct l} : tree :=
  match l with [] => t | b :: l' => match t with Node zero one => sub (if b then one else zero) l' | _ => Nil end end.

Definition is_node (t : tree) : bool := match t with Node _ _ => true | _ => false end.

(** One bit: the new state, and the byte it completes. *)
Definition step (p : list bool) (b : bool) : option (list bool * list Z) :=
  match sub huff_tree (p ++ [b]) with
  | Node _ _ => Some (p ++ [b], [])
  | Leaf c => if c =? 256 then None else Some ([], [c])
  | Nil => None
  end.

Fixpoint run (p : list bool) (l : list bool) : option (list bool * list Z) :=
  match l with
  | [] => Some (p, [])
  | b :: l' => '(p, out) ← step p b; '(p, out') ← run p l'; Some (p, out ++ out')
  end.

Lemma run_app p l1 l2 :
  run p (l1 ++ l2) = ('(p, out) ← run p l1; '(p, out') ← run p l2; Some (p, out ++ out')).
Proof.
  revert p. induction l1 as [|b l1 IH]; intros p; [cbn; by destruct (run p l2) as [[? ?]|]|].
  cbn [run app]. destruct (step p b) as [[p' o]|]; [|done]. cbn. rewrite IH. destruct (run p' l1) as [[p'' o']|]; [|done].
  cbn. destruct (run p'' l2) as [[p3 o'']|]; [|done]. cbn. by rewrite app_assoc.
Qed.

(** ** The states as paths *)

Definition ext (s n : nat) (p : list bool) (e : ngx_http_v2_huff_decode_code_t) : list bool :=
  let q := p ++ bits_of 4 (Z.of_nat n) in if dc_emit e =? 0 then q else drop (length (byte_code false (dc_sym e))) q.

(** The rows that can be reached from the first, with their paths. *)
Fixpoint find_paths (fuel : nat) (known : list (option (list bool))) (todo : list nat) : list (option (list bool)) :=
  match fuel, todo with
  | S fuel', s :: todo' =>
      match known !! s, ngx_http_v2_huff_decode_codes !! s with
      | Some (Some p), Some row =>
          let '(known, todo') := foldr (fun '(n, e) '(known, todo) =>
              let s' := Z.to_nat (dc_next e) in
              match known !! s' with
              | Some None => (<[s' := Some (ext s n p e)]> known, todo ++ [s'])
              | _ => (known, todo)
              end) (known, todo') (zip (seq 0 16) row) in
          find_paths fuel' known todo'
      | _, _ => known
      end
  | _, _ => known
  end.

Definition state_paths : list (list bool) :=
  Eval vm_compute in (default []) <$> find_paths 300 (<[0%nat := Some []]> (replicate 256 None)) [0%nat].

Definition path_of (s : Z) : list bool := nth (Z.to_nat s) state_paths [].

Definition entry_ok (p : list bool) (s n : nat) (e : ngx_http_v2_huff_decode_code_t) : bool :=
  match run p (bits_of 4 (Z.of_nat n)) with
  | None => dc_next e =? Z.of_nat s
  | Some (q, out) =>
      negb (dc_next e =? Z.of_nat s) && (0 <=? dc_next e) && (dc_next e <? 256) && bool_decide (path_of (dc_next e) = q) &&
      match out with [] => dc_emit e =? 0 | [c] => negb (dc_emit e =? 0) && (dc_sym e =? c) | _ => false end &&
      (dc_ending e =? (if forallb id q then 1 else 0))
  end.

Definition row_ok (s : nat) (row : list ngx_http_v2_huff_decode_code_t) : bool :=
  let p := nth s state_paths [] in
  is_node (sub huff_tree p) && (length row =? 16)%nat && forallb (fun '(n, e) => entry_ok p s n e) (zip (seq 0 16) row).

Lemma rows_checked :
  (length ngx_http_v2_huff_decode_codes =? 256)%nat &&
  forallb (fun '(s, row) => row_ok s row) (zip (seq 0 256) ngx_http_v2_huff_decode_codes) = true.
Proof. vm_compute. reflexivity. Qed.

Lemma forallb_zip {A} (f : nat -> A -> bool) (l : list A) s i x :
  forallb (fun '(s, x) => f s x) (zip (seq s (length l)) l) = true -> l !! i = Some x -> f (s + i)%nat x = true.
Proof.
  revert s i. induction l as [|y l IH]; intros s i; [done|]. cbn. rewrite andb_true_iff. intros [H1 H2] Hi.
  destruct i as [|i]; [injection Hi as <-; by rewrite Nat.add_0_r|]. rewrite Nat.add_succ_r. by apply (IH (S s)).
Qed.

(** The row of a state, and the entries of a row. *)
Lemma decode_code_ok s n :
  0 <= s < 256 -> 0 <= n < 16 ->
  exists e, decode_code s n = Ok e /\ entry_ok (path_of s) (Z.to_nat s) (Z.to_nat n) e = true.
Proof.
  intros Hs Hn. pose proof rows_checked as H. apply andb_true_iff in H as [Hl%Nat.eqb_eq H]. rewrite <- Hl in H.
  destruct (lookup_lt_is_Some_2 ngx_http_v2_huff_decode_codes (Z.to_nat s)) as [row Er]; [lia|].
  pose proof (forallb_zip row_ok _ _ _ _ H Er) as Hr. rewrite Nat.add_0_l in Hr. unfold row_ok in Hr. rewrite !andb_true_iff in Hr.
  destruct Hr as [[_ Hr2%Nat.eqb_eq] Hr3]. rewrite <- Hr2 in Hr3.
  destruct (lookup_lt_is_Some_2 row (Z.to_nat n)) as [e Ee]; [lia|].
  pose proof (forallb_zip (entry_ok (nth (Z.to_nat s) state_paths []) (Z.to_nat s)) _ _ _ _ Hr3 Ee) as He. rewrite Nat.add_0_l in He.
  exists e. split; [|done]. unfold decode_code. rewrite Er. cbn [mbind option_bind]. by rewrite Ee.
Qed.

Lemma state_node s : 0 <= s < 256 -> is_node (sub huff_tree (path_of s)) = true.
Proof.
  intros Hs. pose proof rows_checked as H. apply andb_true_iff in H as [Hl%Nat.eqb_eq H]. rewrite <- Hl in H.
  destruct (lookup_lt_is_Some_2 ngx_http_v2_huff_decode_codes (Z.to_nat s)) as [row Er]; [lia|].
  pose proof (forallb_zip row_ok _ _ _ _ H Er) as Hr. rewrite Nat.add_0_l in Hr. unfold row_ok in Hr. rewrite !andb_true_iff in Hr. apply Hr.
Qed.

Definition all_ones (l : list bool) : bool := forallb id l.

(** Four bits. *)
Lemma decode_bits_ok h n pre post :
  0 <= hd_state h < 256 -> 0 <= n < 16 -> hd_mem h = pre ++ post -> length pre = hd_dst h ->
  match run (path_of (hd_state h)) (bits_of 4 n) with
  | None => ngx_http_v2_huff_decode_bits h n = Ok (h, NGX_ERROR)
  | Some (q, out) => (length out <= length post)%nat ->
      exists s, 0 <= s < 256 /\ path_of s = q /\
        ngx_http_v2_huff_decode_bits h n = Ok (mk_huff s (if all_ones q then 1 else 0)
          ((pre ++ out) ++ drop (length out) post) (length (pre ++ out)), NGX_OK)
  end.
Proof.
  intros Hs Hn Em Ed. destruct (decode_code_ok (hd_state h) n Hs Hn) as (e & Ee & He). unfold entry_ok in He.
  rewrite Z2Nat.id in He by lia. unfold ngx_http_v2_huff_decode_bits. rewrite Ee. cbn [mbind outcome_bind].
  rewrite (Z2Nat.id (hd_state h)) in He by lia.
  destruct (run (path_of (hd_state h)) (bits_of 4 n)) as [[q out]|]; [|by rewrite He].
  rewrite !andb_true_iff in He. destruct He as (((((He1 & He2) & He3) & He4) & He5) & He6%Z.eqb_eq).
  apply negb_true_iff in He1. rewrite He1. apply bool_decide_eq_true in He4. intros Hroom.
  exists (dc_next e). split; [lia|]. split; [done|]. unfold all_ones. rewrite <- He6, Em, <- Ed.
  destruct out as [|c [|c' out]]; [| |done].
  - rewrite He5. cbn [negb mbind outcome_bind length drop]. by rewrite app_nil_r.
  - destruct post as [|x post]; [cbn in Hroom; lia|]. apply andb_true_iff in He5 as [He5 Hc%Z.eqb_eq]. rewrite He5, store_at_end.
    cbn [mbind outcome_bind length drop]. rewrite Hc, length_app, Nat.add_1_r, <- app_assoc. done.
Qed.

(** ** The leaves are the codes *)

Fixpoint leaves_ok (t : tree) (p : list bool) (f : list bool -> Z -> bool) : bool :=
  match t with Nil => true | Leaf c => f p c | Node zero one => leaves_ok zero (p ++ [false]) f && leaves_ok one (p ++ [true]) f end.

Lemma leaves_sub t p f q c : leaves_ok t p f = true -> sub t q = Leaf c -> f (p ++ q) c = true.
Proof.
  revert t p. induction q as [|b q IH]; intros t p; cbn [sub].
  - intros H ->. cbn in H. by rewrite app_nil_r.
  - destruct t as [| |zero one]; [done..|]. cbn [leaves_ok]. rewrite andb_true_iff. intros [H0 H1] E.
    rewrite (cons_middle _ p q), app_assoc. destruct b; by eapply IH.
Qed.

Lemma leaf_code q c : sub huff_tree q = Leaf c -> c <> 256 -> byte_ok c /\ q = byte_code false c.
Proof.
  intros E Hc. pose (f := fun (q : list bool) c => (c =? 256) || ((0 <=? c) && (c <? 256) && bool_decide (q = byte_code false c))).
  assert (Hf : leaves_ok huff_tree [] f = true) by (vm_compute; reflexivity).
  pose proof (leaves_sub _ _ _ _ _ Hf E) as H. unfold f in H. rewrite (proj2 (Z.eqb_neq c 256) Hc) in H. cbn [orb app] in H.
  rewrite !andb_true_iff in H. destruct H as [H1 H2%bool_decide_eq_true]. split; [unfold byte_ok; lia|done].
Qed.

Lemma code_leaf c : byte_ok c -> sub huff_tree (byte_code false c) = Leaf c.
Proof.
  intros Hc. assert (H : forallb (fun c => match sub huff_tree (byte_code false c) with Leaf d => c =? d | _ => false end) (seqZ 0 256) = true)
    by (vm_compute; reflexivity).
  rewrite forallb_forall in H. specialize (H c ltac:(apply list_elem_of_In, elem_of_seqZ; unfold byte_ok in Hc; lia)).
  destruct (sub huff_tree (byte_code false c)); [done| |done]. by apply Z.eqb_eq in H as ->.
Qed.

Lemma sub_app t l1 l2 : sub t (l1 ++ l2) = sub (sub t l1) l2.
Proof.
  revert t. induction l1 as [|b l1 IH]; intros t; [done|]. cbn [sub app].
  destruct t; [by destruct l2|by destruct l2|apply IH].
Qed.

Lemma step_sound p b q out : step p b = Some (q, out) ->
  bytes_ok out /\ p ++ [b] = stream false out ++ q /\ (q = [] \/ is_node (sub huff_tree q) = true).
Proof.
  unfold step. destruct (sub huff_tree (p ++ [b])) as [|c|zero one] eqn:E; [done| |].
  - destruct (Z.eqb_spec c 256) as [|Hc]; [done|]. intros [= <- <-]. destruct (leaf_code _ _ E Hc) as [Hb ->].
    split; [by apply Forall_singleton|]. split; [|by left]. unfold stream. cbn. by rewrite !app_nil_r.
  - intros [= <- <-]. split; [by constructor|]. split; [done|]. right. by rewrite E.
Qed.

Lemma run_sound p l q out : run p l = Some (q, out) ->
  bytes_ok out /\ p ++ l = stream false out ++ q /\ (is_node (sub huff_tree p) = true -> is_node (sub huff_tree q) = true).
Proof.
  revert p q out. induction l as [|b l IH]; intros p q out; cbn [run].
  - intros [= <- <-]. split; [by constructor|]. split; [by rewrite app_nil_r|done].
  - destruct (step p b) as [[p' o]|] eqn:Es; [|done]. cbn. destruct (run p' l) as [[q' o']|] eqn:Er; [|done]. intros [= <- <-].
    destruct (step_sound _ _ _ _ Es) as (S1 & S2 & S3). destruct (IH _ _ _ Er) as (R1 & R2 & R3).
    split; [by apply Forall_app|]. split.
    + rewrite cons_middle, app_assoc, S2, <- app_assoc, R2. unfold stream. by rewrite bind_app, app_assoc.
    + intros _. apply R3. destruct S3 as [->|S3]; [done|done].
Qed.

Lemma byte_code_length c : byte_ok c -> (5 <= length (byte_code false c) <= 30)%nat.
Proof. intros Hc. destruct (encode_code_ok false c Hc) as (e & _ & -> & He & _). unfold code_bits. rewrite bits_of_length. lia. Qed.

Lemma stream_length out : bytes_ok out -> (5 * length out <= length (stream false out))%nat.
Proof.
  induction 1 as [|c out Hc Hout IH]; [done|]. unfold stream in *. cbn [mbind list_bind length]. rewrite length_app.
  pose proof (byte_code_length c Hc). lia.
Qed.

Lemma run_room p l q out : run p l = Some (q, out) -> (5 * length out + length q <= length p + length l)%nat.
Proof.
  intros H. destruct (run_sound _ _ _ _ H) as (Hb & E & _). apply (f_equal length) in E. rewrite !length_app in E.
  pose proof (stream_length out Hb). lia.
Qed.

(** A path in the tree is a state. *)
Lemma run_path p l : is_node (sub huff_tree (p ++ l)) = true -> run p l = Some (p ++ l, []).
Proof.
  revert p. induction l as [|b l IH]; intros p H; cbn [run]; [by rewrite app_nil_r|].
  rewrite cons_middle, app_assoc in H. unfold step. pose proof H as H'. rewrite sub_app in H'.
  destruct (sub huff_tree (p ++ [b])) as [|c|] eqn:E; [by destruct l| |].
  - destruct l; done.
  - cbn. rewrite IH by done. cbn. by rewrite <- app_assoc.
Qed.

Lemma run_code c l : byte_ok c -> run [] (byte_code false c ++ l) = ('(q, out) ← run [] l; Some (q, c :: out)).
Proof.
  intros Hc. pose proof (code_leaf c Hc) as E. pose proof (byte_code_length c Hc) as Hl.
  destruct (exists_last (l := byte_code false c)) as (p & b & E0); [by intros E0; rewrite E0 in Hl; cbn in Hl; lia|].
  rewrite E0 in *. rewrite <- app_assoc, run_app.
  assert (Hn : is_node (sub huff_tree ([] ++ p)) = true).
  { rewrite sub_app in E. cbn [app]. destruct (sub huff_tree p); [done|done|done]. }
  rewrite (run_path [] p Hn). cbn [mbind option_bind app run]. unfold step. rewrite E.
  rewrite (proj2 (Z.eqb_neq c 256)) by (unfold byte_ok in Hc; lia). cbn [mbind option_bind]. by destruct (run [] l) as [[q out]|].
Qed.

Lemma run_stream out l : bytes_ok out -> run [] (stream false out ++ l) = ('(q, out') ← run [] l; Some (q, out ++ out')).
Proof.
  induction 1 as [|c out Hc Hout IH]; [cbn; by destruct (run [] l) as [[? ?]|]|].
  unfold stream in *. cbn [mbind list_bind]. rewrite <- app_assoc, run_code, IH by done. by destruct (run [] l) as [[q o]|].
Qed.

(** Ones that are no code. *)
Lemma ones_node k : is_node (sub huff_tree (replicate k true)) = true <-> (k < 30)%nat.
Proof.
  split.
  - intros H. destruct (decide (k < 30)%nat) as [|Hk]; [done|]. exfalso. replace k with (30 + (k - 30))%nat in H by lia.
    rewrite replicate_add, sub_app in H. change (sub huff_tree (replicate 30 true)) with (Leaf 256) in H. by destruct (k - 30)%nat.
  - intros Hk. assert (H : forallb (fun k => is_node (sub huff_tree (replicate k true))) (seq 0 30) = true) by (vm_compute; reflexivity).
    rewrite forallb_forall in H. apply H, in_seq. lia.
Qed.

(** * Decoding *)

Lemma octet_nibbles ch : byte_ok ch -> bits_of 8 ch = bits_of 4 (Z.shiftr ch 4) ++ bits_of 4 (Z.land ch 0xf) /\
  0 <= Z.shiftr ch 4 < 16 /\ 0 <= Z.land ch 0xf < 16.
Proof.
  intros Hc. unfold byte_ok in Hc. split_and!.
  - change 8%nat with (4 + 4)%nat. rewrite bits_of_app. f_equal. change 0xf with (Z.ones 4). rewrite Z.land_ones by lia.
    symmetry. by apply (bits_of_mod 4 4).
  - apply Z.shiftr_nonneg. lia.
  - rewrite Z.shiftr_div_pow2 by lia. apply Z.div_lt_upper_bound; lia.
  - apply Z.land_nonneg. lia.
  - change 0xf with (Z.ones 4). rewrite Z.land_ones by lia. apply Z.mod_pos_bound. lia.
Qed.

(** The loop, with room for a byte of the result for every five bits. *)
Lemma huff_decode_loop_ok src : bytes_ok src -> forall h pre post,
  0 <= hd_state h < 256 -> hd_mem h = pre ++ post -> length pre = hd_dst h ->
  (length (path_of (hd_state h)) + 8 * length src < 5 * (length post + 1))%nat ->
  match run (path_of (hd_state h)) (octet_bits src) with
  | None => exists h' post', huff_decode_loop src h = Ok (h', NGX_ERROR) /\ hd_mem h' = pre ++ post' /\ length post' = length post
  | Some (q, out) => exists s, 0 <= s < 256 /\ path_of s = q /\
      huff_decode_loop src h = Ok (mk_huff s (match src with [] => hd_ending h | _ => if all_ones q then 1 else 0 end)
        ((pre ++ out) ++ drop (length out) post) (length (pre ++ out)), NGX_OK)
  end.
Proof.
  induction 1 as [|ch src Hch Hsrc IH]; intros h pre post Hs Em Ed Hroom.
  { cbn. exists (hd_state h). split; [done|]. split; [done|]. rewrite app_nil_r, drop_0, <- Em, Ed. by destruct h. }
  destruct (octet_nibbles ch Hch) as (Hbits & Hn1 & Hn2). cbn [octet_bits mbind list_bind huff_decode_loop length] in *.
  fold (octet_bits src). rewrite Hbits, <- app_assoc, run_app.
  pose proof (decode_bits_ok h (Z.shiftr ch 4) pre post Hs Hn1 Em Ed) as H1.
  destruct (run (path_of (hd_state h)) (bits_of 4 (Z.shiftr ch 4))) as [[q1 o1]|] eqn:R1; cbn [mbind option_bind]; cycle 1.
  { rewrite H1. cbn [mbind outcome_bind]. change (negb (NGX_ERROR =? NGX_OK)) with true. cbv iota. by exists h, post. }
  pose proof (run_room _ _ _ _ R1) as L1. rewrite bits_of_length in L1. destruct H1 as (s1 & Hs1 & P1 & ->); [lia|]. cbn [mbind outcome_bind].
  change (negb (NGX_OK =? NGX_OK)) with false. cbv iota. rewrite run_app.
  set (h1 := mk_huff s1 _ _ _).
  assert (Hlen : length (drop (length o1) post) = (length post - length o1)%nat) by apply length_drop.
  pose proof (decode_bits_ok h1 (Z.land ch 0xf) (pre ++ o1) (drop (length o1) post) Hs1 Hn2 eq_refl eq_refl) as H2.
  change (hd_state h1) with s1 in H2. rewrite P1 in H2.
  destruct (run q1 (bits_of 4 (Z.land ch 0xf))) as [[q2 o2]|] eqn:R2; cbn [mbind option_bind]; cycle 1.
  { rewrite H2. cbn [mbind outcome_bind]. change (negb (NGX_ERROR =? NGX_OK)) with true. cbv iota.
    exists h1, (o1 ++ drop (length o1) post). split; [done|]. split; [cbn; by rewrite app_assoc|]. rewrite length_app, Hlen. lia. }
  pose proof (run_room _ _ _ _ R2) as L2. rewrite bits_of_length in L2. destruct H2 as (s2 & Hs2 & P2 & ->); [lia|]. cbn [mbind outcome_bind].
  change (negb (NGX_OK =? NGX_OK)) with false. cbv iota. set (h2 := mk_huff s2 _ _ _).
  specialize (IH h2 ((pre ++ o1) ++ o2) (drop (length o2) (drop (length o1) post)) Hs2 eq_refl eq_refl).
  change (hd_state h2) with s2 in IH. rewrite P2, !length_drop in IH. specialize (IH ltac:(lia)).
  destruct (run q2 (octet_bits src)) as [[q out]|] eqn:R3; cbn [mbind option_bind].
  - destruct IH as (s & Hss & P & ->). exists s. split; [done|]. split; [done|]. rewrite !drop_drop, !length_app.
    rewrite <- !app_assoc. do 3 f_equal.
    + destruct src; [|done]. cbn [octet_bits mbind list_bind run] in R3. by injection R3 as -> <-.
    + lia.
  - destruct IH as (h' & post' & -> & Eh & El). exists h', (o1 ++ o2 ++ post'). split; [done|]. split; [by rewrite Eh, <- !app_assoc|].
    rewrite !length_app, El. lia.
Qed.

(** What a string of bits is the code of. *)
Definition coded (src out : list Z) : Prop :=
  bytes_ok out /\ exists k, (k < 30)%nat /\ octet_bits src = stream false out ++ replicate k true.

Lemma all_ones_replicate l : all_ones l = true <-> l = replicate (length l) true.
Proof.
  unfold all_ones. split; [|intros ->; by induction (length l)].
  induction l as [|b l IH]; [done|]. cbn. rewrite andb_true_iff. intros [-> H]. f_equal. by apply IH.
Qed.

Lemma coded_run src out : coded src out <-> exists q, run [] (octet_bits src) = Some (q, out) /\ all_ones q = true.
Proof.
  split.
  - intros [Hout (k & Hk & ->)]. rewrite run_stream by done. rewrite (run_path [] (replicate k true)) by (by apply ones_node). cbn.
    exists (replicate k true). rewrite app_nil_r. split; [done|]. apply all_ones_replicate. by rewrite length_replicate.
  - intros (q & E & Hq). destruct (run_sound _ _ _ _ E) as (Hb & Ebits & Hn). split; [done|]. exists (length q).
    apply all_ones_replicate in Hq. split; [|by rewrite <- Hq]. apply ones_node. rewrite <- Hq. by apply Hn.
Qed.

Lemma coded_unique src out out' : coded src out -> coded src out' -> out = out'.
Proof. rewrite !coded_run. intros (q & E & _) (q' & E' & _). rewrite E in E'. by injection E'. Qed.

Lemma huff_decode_ok src pre post :
  bytes_ok src -> (8 * length src < 5 * (length post + 1))%nat ->
  (exists out, coded src out /\
     ngx_http_v2_huff_decode 0 src (pre ++ post) (length pre) true = Ok (0, (pre ++ out) ++ drop (length out) post, length (pre ++ out), NGX_OK)) \/
  ((forall out, ~ coded src out) /\ exists state post' dst, length post' = length post /\
     ngx_http_v2_huff_decode 0 src (pre ++ post) (length pre) true = Ok (state, pre ++ post', dst, NGX_ERROR)).
Proof.
  intros Hsrc Hroom. unfold ngx_http_v2_huff_decode.
  pose proof (huff_decode_loop_ok src Hsrc (mk_huff 0 1 (pre ++ post) (length pre)) pre post ltac:(cbn; lia) eq_refl eq_refl) as H.
  cbn [hd_state] in H. change (path_of 0) with (@nil bool) in H. specialize (H ltac:(cbn [length]; lia)).
  destruct (run [] (octet_bits src)) as [[q out]|] eqn:R.
  - destruct H as (s & Hs & P & ->). cbn [mbind outcome_bind]. change (negb (NGX_OK =? NGX_OK)) with false. cbv iota.
    cbn [hd_ending hd_mem hd_dst hd_state].
    assert (Eend : (match src with [] => 1 | _ => if all_ones q then 1 else 0 end) = if all_ones q then 1 else 0).
    { destruct src; [|done]. cbn in R. by injection R as <- <-. }
    rewrite Eend. destruct (all_ones q) eqn:Eq; cbv iota.
    + left. exists out. split; [|done]. apply coded_run. by exists q.
    + right. split; [|exists s, (out ++ drop (length out) post), (length (pre ++ out))].
      * intros out'. rewrite coded_run. intros (q' & E' & Hq'). rewrite R in E'. injection E' as <- <-. congruence.
      * pose proof (run_room _ _ _ _ R) as L. rewrite octet_bits_length in L. cbn [length] in L.
        split; [rewrite length_app, length_drop; lia|by rewrite app_assoc].
  - destruct H as (h' & post' & -> & Eh & El). right. split.
    + intros out'. rewrite coded_run. intros (q' & E' & _). congruence.
    + exists (hd_state h'), post', (hd_dst h'). split; [done|]. cbn [mbind outcome_bind]. change (negb (NGX_ERROR =? NGX_OK)) with true.
      cbv iota. by rewrite Eh.
Qed.

(** ** A string in fragments *)

Lemma huff_decode_loop_app s1 s2 h :
  huff_decode_loop (s1 ++ s2) h = ('(h, rc) ← huff_decode_loop s1 h; if negb (rc =? NGX_OK) then Ok (h, rc) else huff_decode_loop s2 h).
Proof.
  revert h. induction s1 as [|ch s1 IH]; intros h; [done|]. cbn [huff_decode_loop app].
  destruct (ngx_http_v2_huff_decode_bits h (Z.shiftr ch 4)) as [[h1 rc1]| |]; [|done..]. cbn [mbind outcome_bind].
  destruct (negb (rc1 =? NGX_OK)); [done|].
  destruct (ngx_http_v2_huff_decode_bits h1 (Z.land ch 0xf)) as [[h2 rc2]| |]; [|done..]. cbn [mbind outcome_bind].
  destruct (negb (rc2 =? NGX_OK)); [done|apply IH].
Qed.

(** The flag at the start does not matter to a fragment that is not empty. *)
Lemma huff_decode_loop_ending {B} ch src s e e' mem d (k : huff_decoder * Z -> outcome B) :
  (forall e e', k (mk_huff s e mem d, NGX_ERROR) = k (mk_huff s e' mem d, NGX_ERROR)) ->
  (huff_decode_loop (ch :: src) (mk_huff s e mem d) ≫= k) = (huff_decode_loop (ch :: src) (mk_huff s e' mem d) ≫= k).
Proof.
  intros Hk. cbn [huff_decode_loop]. set (next := fun '(h, rc) => _ : outcome (huff_decoder * Z)).
  unfold ngx_http_v2_huff_decode_bits. cbn [hd_state hd_mem hd_dst].
  destruct (decode_code s (Z.shiftr ch 4)) as [c| |]; [|done..]. cbn [mbind outcome_bind].
  destruct (dc_next c =? s); [apply Hk|]. by destruct (negb (dc_emit c =? 0)).
Qed.

Lemma huff_decode_loop_rc src h h' rc : huff_decode_loop src h = Ok (h', rc) -> rc = NGX_OK \/ rc = NGX_ERROR.
Proof.
  revert h. induction src as [|ch src IH]; intros h; cbn [huff_decode_loop]; [intros [= <- <-]; by left|].
  destruct (ngx_http_v2_huff_decode_bits h (Z.shiftr ch 4)) as [[h1 rc1]| |]; [|done..]. cbn [mbind outcome_bind].
  destruct (negb (rc1 =? NGX_OK)); [intros [= <- <-]; by right|].
  destruct (ngx_http_v2_huff_decode_bits h1 (Z.land ch 0xf)) as [[h2 rc2]| |]; [|done..]. cbn [mbind outcome_bind].
  destruct (negb (rc2 =? NGX_OK)); [intros [= <- <-]; by right|apply IH].
Qed.

Lemma huff_decode_fragments s s1 s2 mem d last :
  s2 <> [] \/ last = false ->
  ngx_http_v2_huff_decode s (s1 ++ s2) mem d last =
    ('(s, mem, d, rc) ← ngx_http_v2_huff_decode s s1 mem d false;
     if rc =? NGX_OK then ngx_http_v2_huff_decode s s2 mem d last else Ok (s, mem, d, rc)).
Proof.
  intros Hlast. unfold ngx_http_v2_huff_decode. rewrite huff_decode_loop_app.
  destruct (huff_decode_loop s1 (mk_huff s 1 mem d)) as [[h rc]| |] eqn:E1; [|done..]. cbn [mbind outcome_bind].
  destruct (huff_decode_loop_rc _ _ _ _ E1) as [-> | ->]; [|done].
  change (negb (NGX_OK =? NGX_OK)) with false. cbv iota. cbn [mbind outcome_bind]. change (NGX_OK =? NGX_OK) with true. cbv iota.
  destruct h as [hs he hm hdst]. cbn [hd_state hd_mem hd_dst].
  destruct s2 as [|ch s2]; [destruct Hlast as [?|E]; [done|by rewrite E]|]. by apply huff_decode_loop_ending.
Qed.

(** ** Lower case *)

Lemma byte_code_lower c : byte_ok c -> byte_code true c = byte_code false (ngx_tolower c) /\ byte_ok (ngx_tolower c).
Proof.
  intros Hc. assert (H : forallb (fun c => bool_decide (byte_code true c = byte_code false (ngx_tolower c)) &&
    (0 <=? ngx_tolower c) && (ngx_tolower c <? 256)) (seqZ 0 256) = true) by (vm_compute; reflexivity).
  rewrite forallb_forall in H. specialize (H c ltac:(apply list_elem_of_In, elem_of_seqZ; unfold byte_ok in Hc; lia)).
  rewrite !andb_true_iff in H. destruct H as [[H1%bool_decide_eq_true H2] H3]. split; [done|unfold byte_ok; lia].
Qed.

(** The string that the encoder means. *)
Definition meant (lower : bool) (src : list Z) : list Z := if lower then ngx_tolower <$> src else src.

Lemma stream_meant lower src : bytes_ok src -> stream lower src = stream false (meant lower src) /\ bytes_ok (meant lower src).
Proof.
  intros Hsrc. destruct lower; [|done]. unfold stream, meant. induction Hsrc as [|c src Hc Hsrc [IH1 IH2]]; [split; [done|by apply Forall_nil]|].
  destruct (byte_code_lower c Hc) as [E Hb]. cbn [mbind list_bind fmap list_fmap]. split; [by rewrite E, IH1|by constructor].
Qed.

Lemma padded_coded lower src out : bytes_ok src -> octet_bits out = padded (stream lower src) -> coded out (meant lower src).
Proof.
  intros Hsrc E. destruct (stream_meant lower src Hsrc) as [Es Hb]. split; [done|]. rewrite <- Es, E.
  eexists. split; [|done]. pose proof (octets_of_bound (length (stream lower src))). lia.
Qed.

(** * Properties *)

(** What ngx_http_v2_huff_encode writes, when the code is shorter than the string, decodes
    to the string, or to the string in lower case, whatever else is behind it in memory and
    in every way to cut it in two; when it is not shorter the result is 0.  No byte is
    written behind the length of the string. *)
(** C23. What ngx_http_v2_huff_encode writes, when the code is shorter than the
    string, decodes to the string, or to the string in lower case, in every way to cut
    it in two; otherwise the result is 0. No byte is written behind the length of the
    string. *)
Theorem huff_roundtrip lower src dst :
  bytes_ok src -> (length src <= length dst)%nat ->
  exists dst' n, ngx_http_v2_huff_encode src dst lower = Ok (dst', n) /\ length dst' = length dst /\
    n = (if decide (octets_of (length (stream lower src)) < length src)%nat then octets_of (length (stream lower src)) else 0%nat) /\
    (n <> 0%nat -> forall pre post s1 s2, s2 <> [] -> take n dst' = s1 ++ s2 -> (8 * n < 5 * (length post + 1))%nat ->
      ('(s, mem, d, rc) ← ngx_http_v2_huff_decode 0 s1 (pre ++ post) (length pre) false;
       if rc =? NGX_OK then ngx_http_v2_huff_decode s s2 mem d true else Ok (s, mem, d, rc)) =
      Ok (0, (pre ++ meant lower src) ++ drop (length src) post, (length pre + length src)%nat, NGX_OK)).
Proof.
  intros Hsrc Hlen. destruct (huff_encode_ok lower src dst Hsrc Hlen) as (dst' & E & Hl & Hn). eexists dst', _. split; [exact E|].
  split; [done|]. split; [done|]. case_decide as Hd; [|done]. intros _ pre post s1 s2 Hs2 Ht Hroom. specialize (Hn Hd) as [Hbits Hok].
  set (n := octets_of _) in *. assert (Hcut : length (take n dst') = n) by (rewrite length_take; lia).
  rewrite <- huff_decode_fragments by (by left). rewrite <- Ht.
  destruct (huff_decode_ok (take n dst') pre post Hok ltac:(by rewrite Hcut)) as [(out & Hc & ->)|(Hno & _)].
  - assert (out = meant lower src) as -> by (eapply coded_unique; [exact Hc|by apply padded_coded]).
    assert (Hm : length (meant lower src) = length src) by (destruct lower; [apply length_fmap|done]). by rewrite length_app, Hm.
  - by destruct (Hno (meant lower src) (padded_coded _ _ _ Hsrc Hbits)).
Qed.

Lemma huff_roundtrip_witness :
  exists dst', ngx_http_v2_huff_encode [97; 97; 97] [0; 0; 0] false = Ok (dst', 2%nat) /\
    ('(s, mem, d, rc) ← ngx_http_v2_huff_decode 0 [] [0; 0; 0; 0] 0 false;
     if rc =? NGX_OK then ngx_http_v2_huff_decode s (take 2 dst') mem d true else Ok (s, mem, d, rc)) = Ok (0, [97; 97; 97; 0], 3%nat, NGX_OK).
Proof.
  destruct (huff_roundtrip false [97; 97; 97] [0; 0; 0]) as (dst' & n & E & Hl & Hn & Hd).
  - repeat (apply Forall_cons_2; [unfold byte_ok; lia|]). apply Forall_nil_2.
  - done.
  - assert (En : n = 2%nat) by (rewrite Hn; by vm_compute). clear Hn. subst n. exists dst'. split; [exact E|].
    destruct dst' as [|x [|y dst']]; [done..|]. apply (Hd ltac:(done) [] [0; 0; 0; 0] [] (take 2 (x :: y :: dst')) ltac:(done) eq_refl). cbn. lia.
Defined.

(** On any octets, with room for eight bytes of the result for every five of them rounded
    down, which ngx_http_v2_state_field_len allocates, ngx_http_v2_huff_decode stays in its
    memory, and accepts exactly the strings that are the codes of bytes followed by fewer
    than 30 ones; it gives those bytes. *)
(** C22. On any octets, with the room that ngx_http_v2_state_field_len allocates,
    ngx_http_v2_huff_decode stays in its memory and accepts exactly the codes of strings
    of bytes followed by fewer than 30 ones; it gives those bytes. *)
Theorem huff_decode_exact src pre post :
  bytes_ok src -> (8 * length src < 5 * (length post + 1))%nat ->
  (exists out, bytes_ok out /\ (exists k, (k < 30)%nat /\ octet_bits src = stream false out ++ replicate k true) /\
     ngx_http_v2_huff_decode 0 src (pre ++ post) (length pre) true = Ok (0, (pre ++ out) ++ drop (length out) post, length (pre ++ out), NGX_OK)) \/
  ((forall out k, bytes_ok out -> (k < 30)%nat -> octet_bits src <> stream false out ++ replicate k true) /\
   exists state post' dst, length post' = length post /\
     ngx_http_v2_huff_decode 0 src (pre ++ post) (length pre) true = Ok (state, pre ++ post', dst, NGX_ERROR)).
Proof.
  intros Hsrc Hroom. destruct (huff_decode_ok src pre post Hsrc Hroom) as [(out & [H1 H2] & E)|[Hno E]].
  - left. by exists out.
  - right. split; [|exact E]. intros out k Hout Hk Hbits. apply (Hno out). split; [done|]. by exists k.
Qed.

Lemma huff_decode_exact_witness :
  exists mem d, ngx_http_v2_huff_decode 0 [0x1f; 0xff; 0xff] [0; 0; 0; 0] 0 true = Ok (0, mem, d, NGX_OK).
Proof.
  destruct (huff_decode_exact [0x1f; 0xff; 0xff] [] [0; 0; 0; 0]) as [(out & _ & _ & E)|[Hno _]].
  - repeat (apply Forall_cons_2; [unfold byte_ok; lia|]). apply Forall_nil_2.
  - cbn. lia.
  - eexists _, _. exact E.
  - exfalso. apply (Hno [97] 19%nat); [|lia|by vm_compute]. apply Forall_cons_2; [unfold byte_ok; lia|]. apply Forall_nil_2.
Defined.
