(* ===== verification/HpackString.v ===== *)
(** Component "HPACK": integers and strings, written by http/v2/ngx_http_v2_filter_module.c
    and read by http/v2/ngx_http_v2.c.

    Reading stops at the end of the bytes that have arrived: a handler saves what it has not
    used and is called again with more.  HpackStringTheory has the theorems. *)

From stdpp Require Import base numbers list option strings.
From Stdlib Require Import ZArith Lia.
From S2P Require Import Prelude StringCompare HuffTables Huff.
Local Open Scope Z_scope.

(** * Definitions *)

Definition NGX_HTTP_V2_INT_OCTETS : nat := 4.
Definition NGX_HTTP_V2_ENCODE_RAW : Z := 0.
Definition NGX_HTTP_V2_ENCODE_HUFF : Z := 0x80.
Definition NGX_HTTP_V2_STATE_BUFFER_SIZE : nat := 16.
Definition NGX_HTTP_V2_INTERNAL_ERROR : Z := 0x2.
Definition NGX_HTTP_V2_SIZE_ERROR : Z := 0x6.
Definition NGX_HTTP_V2_COMP_ERROR : Z := 0x9.
Definition NGX_HTTP_V2_ENHANCE_YOUR_CALM : Z := 0xb.
Definition ngx_http_v2_prefix (bits : Z) : Z := Z.shiftl 1 bits - 1.
Definition ngx_http_v2_integer_octets (v : Z) : Z := 1 + v / 127.

(** ** Writing *)

Fixpoint write_int_loop (fuel : nat) (dst : list Z) (pos : nat) (value : Z) : outcome (list Z * nat) :=
  match fuel with
  | O => NoFuel
  | S fuel' =>
      if 128 <=? value then
        dst ← store dst pos (to_u8 (value mod 128 + 128)); write_int_loop fuel' dst (S pos) (value / 128)
      else dst ← store dst pos (to_u8 value); Ok (dst, S pos)
  end.

(** The memory of [pos], and the position returned. *)
Definition ngx_http_v2_write_int (dst : list Z) (pos : nat) (prefix value : Z) : outcome (list Z * nat) :=
  c ← deref dst pos;
  if value <? prefix then dst ← store dst pos (to_u8 (Z.lor c value)); Ok (dst, S pos)
  else dst ← store dst pos (to_u8 (Z.lor c prefix)); write_int_loop 10 dst (S pos) (value - prefix).

(** [ngx_cpymem(dst, src, n)] for the [n] bytes of [src]. *)
Fixpoint copy_bytes (dst : list Z) (pos : nat) (src : list Z) : outcome (list Z * nat) :=
  match src with [] => Ok (dst, pos) | c :: src' => dst ← store dst pos c; copy_bytes dst (S pos) src' end.

(** [len] is the length of [src]. *)
Definition ngx_http_v2_string_encode (dst : list Z) (pos : nat) (src tmp : list Z) (lower : bool) : outcome (list Z * nat) :=
  '(tmp, hlen) ← ngx_http_v2_huff_encode src tmp lower;
  if (0 <? hlen)%nat then
    dst ← store dst pos NGX_HTTP_V2_ENCODE_HUFF;
    '(dst, pos) ← ngx_http_v2_write_int dst pos (ngx_http_v2_prefix 7) (Z.of_nat hlen);
    copy_bytes dst pos (take hlen tmp)
  else
    dst ← store dst pos NGX_HTTP_V2_ENCODE_RAW;
    '(dst, pos) ← ngx_http_v2_write_int dst pos (ngx_http_v2_prefix 7) (Z.of_nat (length src));
    if lower then s ← ngx_strlow src (length src); copy_bytes dst pos s
    else copy_bytes dst pos src.

(** ** Reading integers *)

(** The loop from [p] to [end]; [start] is [*pos]. *)
Fixpoint parse_int_loop (fuel : nat) (buf : list Z) (start end_ p : nat) (shift value length : Z) : outcome (Z * nat * Z) :=
  match fuel with
  | O => NoFuel
  | S fuel' =>
      if (p =? end_)%nat then
        if length <=? Z.of_nat (end_ - start) then Ok (NGX_ERROR, start, length)
        else if (end_ =? start + NGX_HTTP_V2_INT_OCTETS)%nat then Ok (NGX_DECLINED, start, length)
        else Ok (NGX_AGAIN, start, length)
      else
        octet ← deref buf p;
        let p := S p in
        let value := value + Z.shiftl (Z.land octet 0x7f) shift in
        if octet <? 128 then
          if length <? Z.of_nat (p - start) then Ok (NGX_ERROR, start, length)
          else Ok (value, p, length - Z.of_nat (p - start))
        else parse_int_loop fuel' buf start end_ p (shift + 7) value length
  end.

(** The value or error, [*pos] and [h2c->state.length]. *)
Definition ngx_http_v2_parse_int (buf : list Z) (start end_ : nat) (prefix length : Z) : outcome (Z * nat * Z) :=
  c ← deref buf start;
  let value := Z.land c prefix in
  if negb (value =? prefix) then
    if length =? 0 then Ok (NGX_ERROR, start, length) else Ok (value, S start, length - 1)
  else
    let end_ := if (NGX_HTTP_V2_INT_OCTETS <? end_ - start)%nat then (start + NGX_HTTP_V2_INT_OCTETS)%nat else end_ in
    parse_int_loop NGX_HTTP_V2_INT_OCTETS buf start end_ (S start) 0 value length.

(** ** Reading strings *)

(** What [h2c->state] has of a string, [END_HEADERS] as a flag of its own; [fd_mem] is the
    memory from [field_start], [fd_end] is [field_end] in it. *)
Record field : Type := mk_field {
  fd_length : Z;
  fd_end_headers : bool;
  fd_stream : bool;
  fd_index : bool;
  fd_state : Z;
  fd_rest : Z;
  fd_mem : list Z;
  fd_end : nat
}.

#[export] Instance eta_field : Eta field := fun f =>
  mk_field (fd_length f) (fd_end_headers f) (fd_stream f) (fd_index f) (fd_state f) (fd_rest f) (fd_mem f) (fd_end f).

Inductive field_handler : Type := FieldLen | FieldHuff | FieldRaw | FieldSkip.

(** How a handler ends: the bytes it did not use are saved for the next call,
    ngx_http_v2_handle_continuation or ngx_http_v2_state_process_header is called, or
    ngx_http_v2_connection_error. *)
Inductive field_action : Type :=
| Saved (handler : field_handler) (buffer : list Z)
| Continue (handler : field_handler) (pos : nat)
| Process (pos : nat)
| Failed (err : Z).

Section field.
Context (ngx_pnalloc : Z -> option (list Z)) (max_field_size : Z).

Definition ngx_http_v2_state_save (buf : list Z) (pos : nat) (handler : field_handler) : field_action :=
  let rest := drop pos buf in
  if (NGX_HTTP_V2_STATE_BUFFER_SIZE <? length rest)%nat then Failed NGX_HTTP_V2_INTERNAL_ERROR else Saved handler rest.

(** The bytes of the string that can be used now. *)
Definition field_size (f : field) (buf : list Z) (pos : nat) : Z :=
  Z.min (Z.min (Z.of_nat (length buf - pos)) (fd_rest f)) (fd_length f).

(** The end of the three handlers. *)
Definition field_next (f : field) (buf : list Z) (pos : nat) (handler : field_handler) (nul : bool) : outcome (field * field_action) :=
  if fd_rest f =? 0 then
    if nul then mem ← store (fd_mem f) (fd_end f) 0; Ok (f <| fd_mem := mem |>, Process pos)
    else Ok (f, Process pos)
  else if negb (fd_length f =? 0) then Ok (f, ngx_http_v2_state_save buf pos handler)
  else if fd_end_headers f then Ok (f, Failed NGX_HTTP_V2_SIZE_ERROR)
  else Ok (f, Continue handler pos).

Definition ngx_http_v2_state_field_huff (f : field) (buf : list Z) (pos : nat) : outcome (field * field_action) :=
  let size := field_size f buf pos in
  let f := f <| fd_length := fd_length f - size |> <| fd_rest := fd_rest f - size |> in
  '(state, mem, d, rc) ←
    ngx_http_v2_huff_decode (fd_state f) (take (Z.to_nat size) (drop pos buf)) (fd_mem f) (fd_end f) (fd_rest f =? 0);
  let f := f <| fd_state := state |> <| fd_mem := mem |> <| fd_end := d |> in
  if negb (rc =? NGX_OK) then Ok (f, Failed NGX_HTTP_V2_COMP_ERROR)
  else field_next f buf (pos + Z.to_nat size) FieldHuff true.

Definition ngx_http_v2_state_field_raw (f : field) (buf : list Z) (pos : nat) : outcome (field * field_action) :=
  let size := field_size f buf pos in
  let f := f <| fd_length := fd_length f - size |> <| fd_rest := fd_rest f - size |> in
  '(mem, d) ← copy_bytes (fd_mem f) (fd_end f) (take (Z.to_nat size) (drop pos buf));
  field_next (f <| fd_mem := mem |> <| fd_end := d |>) buf (pos + Z.to_nat size) FieldRaw true.

Definition ngx_http_v2_state_field_skip (f : field) (buf : list Z) (pos : nat) : outcome (field * field_action) :=
  let size := field_size f buf pos in
  let f := f <| fd_length := fd_length f - size |> <| fd_rest := fd_rest f - size |> in
  field_next f buf (pos + Z.to_nat size) FieldSkip false.

Definition ngx_http_v2_state_field_len (f : field) (buf : list Z) (pos : nat) : outcome (field * field_action) :=
  if negb (fd_end_headers f) && (fd_length f <? Z.of_nat NGX_HTTP_V2_INT_OCTETS) then Ok (f, Continue FieldLen pos)
  else if fd_length f <? 1 then Ok (f, Failed NGX_HTTP_V2_SIZE_ERROR)
  else if (length buf - pos <? 1)%nat then Ok (f, ngx_http_v2_state_save buf pos FieldLen)
  else
    c ← deref buf pos;
    let huff := Z.shiftr c 7 in
    '(len, pos, length) ← ngx_http_v2_parse_int buf pos (length buf) (ngx_http_v2_prefix 7) (fd_length f);
    let f := f <| fd_length := length |> in
    if len <? 0 then
      if len =? NGX_AGAIN then Ok (f, ngx_http_v2_state_save buf pos FieldLen)
      else if len =? NGX_DECLINED then Ok (f, Failed NGX_HTTP_V2_COMP_ERROR)
      else Ok (f, Failed NGX_HTTP_V2_SIZE_ERROR)
    else if max_field_size <? len then Ok (f, Failed NGX_HTTP_V2_ENHANCE_YOUR_CALM)
    else
      let f := f <| fd_rest := len |> in
      if negb (fd_stream f) && negb (fd_index f) then ngx_http_v2_state_field_skip f buf pos
      else
        let alloc := (if negb (huff =? 0) then len * 8 / 5 else len) + 1 in
        match ngx_pnalloc alloc with
        | None => Ok (f, Failed NGX_HTTP_V2_INTERNAL_ERROR)
        | Some mem =>
            let f := f <| fd_mem := mem |> <| fd_end := 0%nat |> in
            if negb (huff =? 0) then ngx_http_v2_state_field_huff f buf pos else ngx_http_v2_state_field_raw f buf pos
        end.

Definition run_handler (handler : field_handler) : field -> list Z -> nat -> outcome (field * field_action) :=
  match handler with
  | FieldLen => ngx_http_v2_state_field_len
  | FieldHuff => ngx_http_v2_state_field_huff
  | FieldRaw => ngx_http_v2_state_field_raw
  | FieldSkip => ngx_http_v2_state_field_skip
  end.

(** The loop of ngx_http_v2_read_handler, for the parts of a string as they arrive: what was
    saved comes before the new bytes.  The result has the buffer of the last call, which the
    position belongs to. *)
Fixpoint feed (handler : field_handler) (saved : list Z) (f : field) (parts : list (list Z)) {struct parts} : outcome (field * field_action * list Z) :=
  match parts with
  | [] => Ok (f, Saved handler saved, [])
  | part :: parts' =>
      let buf := saved ++ part in
      '(f, a) ← run_handler handler f buf 0;
      match a with Saved handler saved => feed handler saved f parts' | _ => Ok (f, a, buf) end
  end.

End field.
