(* ===== verification/HpackStringTheory.v ===== *)
(** Component "HPACK", continued: integers and strings are read back as they were written,
    in whatever parts they arrive. *)

From stdpp Require Import base numbers list option.
From Stdlib Require Import ZArith Lia.
From S2P Require Import Prelude StringCompare HuffTables Huff HuffTheory HpackString.
Local Open Scope Z_scope.

(** * Memories that are written from left to right *)

Lemma copy_bytes_ok src out rest :
  (length src <= length rest)%nat ->
  copy_bytes (out ++ rest) (length out) src = Ok ((out ++ src) ++ drop (length src) rest, length (out ++ src)).
Proof.
  revert out rest. induction src as [|c src IH]; intros out rest Hl; cbn [copy_bytes length drop]; [by rewrite app_nil_r|].
  destruct rest as [|x rest]; [cbn in Hl; lia|]. rewrite store_at_end. cbn [mbind outcome_bind drop].
  rewrite (cons_middle c out rest), app_assoc. replace (S (length out)) with (length (out ++ [c])) by (rewrite length_app; cbn; lia).
  rewrite IH by (cbn in Hl; lia). by rewrite <- !app_assoc.
Qed.

Lemma deref_at_end (out rest : list Z) c : deref (out ++ c :: rest) (length out) = Ok c.
Proof. unfold deref. by rewrite list_lookup_middle. Qed.

(** * Integers *)

(** The octets behind the first, for what is above the prefix. *)
Fixpoint int_rest (fuel : nat) (v : Z) : list Z :=
  match fuel with O => [] | S fuel' => if 128 <=? v then (v mod 128 + 128) :: int_rest fuel' (v / 128) else [v] end.

(** What is put into the first octet, and the octets behind it. *)
Definition int_first (prefix v : Z) : Z := if v <? prefix then v else prefix.
Definition int_tail (prefix v : Z) : list Z := if v <? prefix then [] else int_rest 10 (v - prefix).

Lemma pow_128 n : 2 ^ (7 * Z.of_nat (S n)) = 128 * 2 ^ (7 * Z.of_nat n).
Proof. replace (7 * Z.of_nat (S n)) with (7 + 7 * Z.of_nat n) by lia. by rewrite Z.pow_add_r by lia. Qed.

Lemma div_128 n v : 128 <= v -> v < 128 * 2 ^ (7 * Z.of_nat n) -> (0 < n)%nat /\ 0 <= v / 128 < 2 ^ (7 * Z.of_nat n).
Proof.
  intros H1 H2. pose proof (Z.div_le_lower_bound v 128 1 ltac:(lia) ltac:(lia)).
  pose proof (Z.div_lt_upper_bound v 128 (2 ^ (7 * Z.of_nat n)) ltac:(lia) H2).
  split; [|lia]. destruct n; [change (2 ^ (7 * Z.of_nat 0)) with 1 in *; lia|lia].
Qed.

Lemma write_int_loop_ok fuel v out rest :
  (0 < fuel)%nat -> 0 <= v < 2 ^ (7 * Z.of_nat fuel) -> (length (int_rest fuel v) <= length rest)%nat ->
  write_int_loop fuel (out ++ rest) (length out) v =
    Ok ((out ++ int_rest fuel v) ++ drop (length (int_rest fuel v)) rest, length (out ++ int_rest fuel v)).
Proof.
  revert v out rest. induction fuel as [|fuel IH]; intros v out rest Hf Hv Hl; [lia|]. rewrite pow_128 in Hv.
  cbn [write_int_loop int_rest] in *. destruct (Z.leb_spec 128 v) as [Hge|Hlt].
  - destruct rest as [|x rest]; [cbn in Hl; lia|]. rewrite store_at_end. cbn [mbind outcome_bind length drop].
    pose proof (Z.mod_pos_bound v 128 ltac:(lia)). rewrite (to_u8_id (v mod 128 + 128)) by (unfold byte_ok; lia). set (c := v mod 128 + 128) in *.
    rewrite (cons_middle c out rest), app_assoc. replace (S (length out)) with (length (out ++ [c])) by (rewrite length_app; cbn; lia).
    destruct (div_128 fuel v Hge (proj2 Hv)) as [Hf' Hv']. rewrite IH; [by rewrite <- !app_assoc|done|done|cbn in Hl; lia].
  - destruct rest as [|x rest]; [cbn in Hl; lia|]. rewrite store_at_end. cbn [mbind outcome_bind length drop].
    rewrite to_u8_id by (unfold byte_ok; lia). rewrite length_app, <- app_assoc. cbn. by rewrite Nat.add_1_r.
Qed.

Lemma int_rest_length_S fuel v : (0 < fuel)%nat -> (0 < length (int_rest fuel v))%nat.
Proof. destruct fuel; [lia|]. intros _. cbn. destruct (128 <=? v); cbn; lia. Qed.

(** The octets that fit three octets behind the first. *)
Lemma int_rest_length fuel v k : 0 <= v < 2 ^ (7 * Z.of_nat fuel) -> (0 < k <= fuel)%nat ->
  (length (int_rest fuel v) <= k)%nat <-> v < 2 ^ (7 * Z.of_nat k).
Proof.
  revert v k. induction fuel as [|fuel IH]; intros v k Hv Hk; [lia|]. rewrite pow_128 in Hv. cbn [int_rest].
  destruct k as [|k]; [lia|]. rewrite pow_128. pose proof (Z.pow_pos_nonneg 2 (7 * Z.of_nat k) ltac:(lia) ltac:(lia)).
  destruct (Z.leb_spec 128 v) as [Hge|Hlt]; cbn [length]; [|nia]. destruct k as [|k].
  - destruct (div_128 fuel v Hge (proj2 Hv)) as [Hf _]. pose proof (int_rest_length_S fuel (v / 128) Hf).
    change (2 ^ (7 * Z.of_nat 0)) with 1. lia.
  - specialize (IH (v / 128) (S k)). rewrite <- Nat.succ_le_mono, IH; [|apply (div_128 fuel v Hge (proj2 Hv))|lia].
    split; intros H'; [pose proof (Z.div_mod v 128 ltac:(lia)); pose proof (Z.mod_pos_bound v 128 ltac:(lia)); nia|apply Z.div_lt_upper_bound; lia].
Qed.

(** The loop over whole octets, and over octets that are cut off. *)
Definition int_verdict (start end_ : nat) (len : Z) : outcome (Z * nat * Z) :=
  if len <=? Z.of_nat (end_ - start) then Ok (NGX_ERROR, start, len)
  else if (end_ =? start + NGX_HTTP_V2_INT_OCTETS)%nat then Ok (NGX_DECLINED, start, len)
  else Ok (NGX_AGAIN, start, len).

Lemma low_bits a : 0 <= a < 128 -> Z.land (a + 128) 0x7f = a.
Proof.
  intros Ha. change 0x7f with (Z.ones 7). rewrite Z.land_ones by lia. change (2 ^ 7) with 128.
  replace (a + 128) with (a + 1 * 128) by lia. rewrite Z.mod_add by lia. apply Z.mod_small. lia.
Qed.

Lemma parse_int_loop_ok m fuel buf start end_ p shift acc len v tail :
  (0 < m)%nat -> drop p buf = int_rest m v ++ tail -> 0 <= v < 2 ^ (7 * Z.of_nat m) -> 0 <= shift -> (p <= end_)%nat -> (end_ - p < fuel)%nat ->
  let q := (p + length (int_rest m v))%nat in
  parse_int_loop fuel buf start end_ p shift acc len =
    if (q <=? end_)%nat then
      if len <? Z.of_nat (q - start) then Ok (NGX_ERROR, start, len) else Ok (acc + v * 2 ^ shift, q, len - Z.of_nat (q - start))
    else int_verdict start end_ len.
Proof.
  revert fuel p shift acc v. induction m as [|m IH]; intros fuel p shift acc v Hm Hd Hv Hs Hp Hf; [lia|]. rewrite pow_128 in Hv.
  destruct fuel as [|fuel]; [lia|]. cbn zeta. cbn [parse_int_loop].
  pose proof (int_rest_length_S (S m) v ltac:(lia)) as Hpos.
  destruct (Nat.eqb_spec p end_) as [->|Hne]; [rewrite (proj2 (Nat.leb_gt _ _)) by lia; done|]. cbn [int_rest] in *.
  destruct (Z.leb_spec 128 v) as [Hge|Hlt]; cbn [length app] in *.
  - assert (Hc : deref buf p = Ok (v mod 128 + 128)) by (unfold deref; rewrite <- (Nat.add_0_r p), <- lookup_drop, Hd; done).
    rewrite Hc. cbn [mbind outcome_bind]. pose proof (Z.mod_pos_bound v 128 ltac:(lia)) as Hmod. rewrite (proj2 (Z.ltb_ge _ _)) by lia.
    rewrite (low_bits (v mod 128)) by lia. rewrite Z.shiftl_mul_pow2 by lia.
    assert (Hd' : drop (S p) buf = int_rest m (v / 128) ++ tail).
    { rewrite <- Nat.add_1_r, <- drop_drop, Hd. done. }
    destruct (div_128 m v Hge (proj2 Hv)) as [Hm' Hv']. rewrite (IH fuel (S p) (shift + 7) _ (v / 128) Hm' Hd' Hv') by lia.
    cbn zeta. rewrite Nat.add_succ_r, <- Nat.add_succ_l. destruct (_ <=? _)%nat; [|done]. destruct (_ <? _); [done|]. do 3 f_equal.
    rewrite Z.pow_add_r by lia. change (2 ^ 7) with 128. pose proof (Z.div_mod v 128 ltac:(lia)). nia.
  - assert (Hc : deref buf p = Ok v) by (unfold deref; rewrite <- (Nat.add_0_r p), <- lookup_drop, Hd; done).
    rewrite Hc. cbn [mbind outcome_bind]. rewrite (proj2 (Z.ltb_lt v 128)) by done. rewrite (proj2 (Nat.leb_le _ _)) by lia.
    rewrite Nat.add_1_r. change 0x7f with (Z.ones 7). rewrite Z.land_ones, (Z.mod_small v), Z.shiftl_mul_pow2 by lia. done.
Qed.

(** Bytes behind the end are not read. *)
Lemma parse_int_loop_app fuel buf tail start end_ p shift acc len :
  (p <= end_ <= length buf)%nat ->
  parse_int_loop fuel (buf ++ tail) start end_ p shift acc len = parse_int_loop fuel buf start end_ p shift acc len.
Proof.
  revert p shift acc. induction fuel as [|fuel IH]; intros p shift acc Hp; [done|]. cbn [parse_int_loop].
  destruct (Nat.eqb_spec p end_) as [|Hne]; [done|]. unfold deref at 1. rewrite lookup_app_l by lia. fold (deref buf p).
  destruct (deref buf p); [|done..]. cbn [mbind outcome_bind]. destruct (_ <? 128); [done|]. apply IH. lia.
Qed.

Lemma parse_int_app buf tail start end_ pre len :
  (start < end_ <= length buf)%nat ->
  ngx_http_v2_parse_int (buf ++ tail) start end_ pre len = ngx_http_v2_parse_int buf start end_ pre len.
Proof.
  intros H. unfold ngx_http_v2_parse_int. unfold deref at 1. rewrite lookup_app_l by lia. fold (deref buf start).
  destruct (deref buf start); [|done..]. cbn [mbind outcome_bind]. destruct (negb _); [done|]. apply parse_int_loop_app.
  unfold NGX_HTTP_V2_INT_OCTETS. destruct (Nat.ltb_spec 4 (end_ - start)); lia.
Qed.

(** ** An integer behind the high bits of its first octet *)

Lemma lor_byte a b : byte_ok a -> byte_ok b -> byte_ok (Z.lor a b).
Proof.
  intros Ha Hb. enough (E : Z.lor a b = to_u8 (Z.lor a b)) by (rewrite E; apply to_u8_ok). unfold to_u8.
  rewrite <- Z.land_ones, Z.land_lor_distr_l, !Z.land_ones by lia. unfold byte_ok in *. by rewrite !Z.mod_small by lia.
Qed.

Section integers.
Context (bits : Z) (Hbits : 1 <= bits <= 8).
Let prefix : Z := ngx_http_v2_prefix bits.

Lemma prefix_ones : prefix = Z.ones bits /\ 1 <= prefix < 256.
Proof.
  unfold prefix, ngx_http_v2_prefix. rewrite Z.shiftl_mul_pow2, Z.mul_1_l, Z.ones_equiv by lia. split; [lia|].
  pose proof (Z.pow_le_mono_r 2 1 bits ltac:(lia) ltac:(lia)). pose proof (Z.pow_le_mono_r 2 bits 8 ltac:(lia) ltac:(lia)).
  change (2 ^ 1) with 2 in *. change (2 ^ 8) with 256 in *. lia.
Qed.

Context (c value : Z) (Hc : byte_ok c) (Hlow : Z.land c prefix = 0) (Hv : 0 <= value < 2 ^ 64).

Lemma int_first_ok : 0 <= int_first prefix value <= prefix.
Proof. unfold int_first. pose proof prefix_ones. destruct (Z.ltb_spec value prefix); lia. Qed.

Lemma int_tail_bound : 0 <= value - prefix -> 0 <= value - prefix < 2 ^ (7 * Z.of_nat 10).
Proof. intros H. pose proof prefix_ones. change (2 ^ (7 * Z.of_nat 10)) with (2 ^ 70). lia. Qed.

(** The octets of the integer. *)
Definition int_octets : list Z := Z.lor c (int_first prefix value) :: int_tail prefix value.

Lemma write_int_ok out rest :
  (length (int_tail prefix value) <= length rest)%nat ->
  ngx_http_v2_write_int (out ++ c :: rest) (length out) prefix value =
    Ok ((out ++ int_octets) ++ drop (length (int_tail prefix value)) rest, length (out ++ int_octets)).
Proof.
  pose proof prefix_ones as [_ Hp]. pose proof int_first_ok as Hf. intros Hl. unfold ngx_http_v2_write_int, int_octets. rewrite deref_at_end. cbn [mbind outcome_bind].
  unfold int_tail, int_first in *. destruct (Z.ltb_spec value prefix) as [Hlt|Hge].
  - rewrite store_at_end. cbn [mbind outcome_bind length drop]. rewrite to_u8_id by (apply lor_byte; [done|unfold byte_ok; lia]).
    rewrite length_app, Nat.add_1_r, <- app_assoc. done.
  - rewrite store_at_end. cbn [mbind outcome_bind]. rewrite to_u8_id by (apply lor_byte; [done|unfold byte_ok; lia]).
    set (d := Z.lor c prefix). rewrite (cons_middle d out rest), app_assoc.
    replace (S (length out)) with (length (out ++ [d])) by (rewrite length_app; cbn; lia).
    rewrite write_int_loop_ok; [by rewrite <- !app_assoc|lia|apply int_tail_bound; lia|done].
Qed.

Lemma int_octets_prefix : Z.land (Z.lor c (int_first prefix value)) prefix = int_first prefix value.
Proof.
  rewrite Z.land_lor_distr_l, Hlow, Z.lor_0_l. destruct prefix_ones as [E Hp]. pose proof int_first_ok as Hf. rewrite E at 2.
  rewrite Z.land_ones by lia. apply Z.mod_small. rewrite Z.ones_equiv in E. lia.
Qed.

Lemma parse_int_ok buf start end_ len tail :
  drop start buf = int_octets ++ tail -> (start < end_)%nat -> 0 <= len ->
  let k := length int_octets in
  ngx_http_v2_parse_int buf start end_ prefix len =
    if (k <=? Nat.min (end_ - start) NGX_HTTP_V2_INT_OCTETS)%nat then
      if len <? Z.of_nat k then Ok (NGX_ERROR, start, len) else Ok (value, (start + k)%nat, len - Z.of_nat k)
    else int_verdict start (Nat.min end_ (start + NGX_HTTP_V2_INT_OCTETS)) len.
Proof.
  intros Hd He Hlen. cbn zeta. unfold ngx_http_v2_parse_int.
  assert (Hc0 : deref buf start = Ok (Z.lor c (int_first prefix value))) by (unfold deref; rewrite <- (Nat.add_0_r start), <- lookup_drop, Hd; done).
  rewrite Hc0. cbn [mbind outcome_bind]. rewrite int_octets_prefix. unfold int_octets in *. unfold int_first, int_tail, NGX_HTTP_V2_INT_OCTETS in *.
  destruct (Z.ltb_spec value prefix) as [Hlt|Hge].
  - rewrite (proj2 (Z.eqb_neq value prefix)) by lia. cbn [negb length]. rewrite (proj2 (Nat.leb_le _ _)) by lia.
    destruct (Z.eqb_spec len 0) as [->|Hne]; [done|]. rewrite (proj2 (Z.ltb_ge _ _)) by lia. by rewrite Nat.add_1_r.
  - rewrite Z.eqb_refl. cbn [negb length]. assert (Hd' : drop (S start) buf = int_rest 10 (value - prefix) ++ tail).
    { rewrite <- Nat.add_1_r, <- drop_drop, Hd. done. }
    set (e := if (4 <? end_ - start)%nat then (start + 4)%nat else end_).
    assert (Ee : e = Nat.min end_ (start + 4)) by (unfold e; destruct (Nat.ltb_spec 4 (end_ - start)); lia).
    rewrite (parse_int_loop_ok 10 4 buf start e (S start) 0 prefix len (value - prefix) tail);
      [|lia|done|apply int_tail_bound; lia|lia|lia|lia].
    cbn zeta. rewrite <- Ee. set (m := length (int_rest 10 (value - prefix))).
    destruct (Nat.leb_spec (S start + m) e) as [Hle|Hgt].
    + rewrite (proj2 (Nat.leb_le _ _)) by lia. replace (S start + m - start)%nat with (S m) by lia.
      destruct (_ <? _); [done|]. rewrite Z.pow_0_r. do 3 f_equal; lia.
    + by rewrite (proj2 (Nat.leb_gt _ _)) by lia.
Qed.

(** Four octets are enough for the lengths that the module writes. *)
Lemma int_octets_length : (length int_octets <= 4)%nat <-> value < prefix + 2 ^ 21.
Proof.
  unfold int_octets, int_tail. cbn [length]. destruct (Z.ltb_spec value prefix) as [Hlt|Hge]; [cbn; lia|].
  pose proof (int_rest_length 10 (value - prefix) 3 ltac:(apply int_tail_bound; lia) ltac:(lia)) as H. change (7 * Z.of_nat 3) with 21 in H. lia.
Qed.

End integers.

Lemma int_rest_short fuel v : 0 <= v -> Z.of_nat (length (int_rest fuel v)) <= 1 + v / 128.
Proof.
  revert v. induction fuel as [|fuel IH]; intros v Hv; cbn [int_rest].
  - pose proof (Z.div_pos v 128 Hv ltac:(lia)). cbn. lia.
  - destruct (Z.leb_spec 128 v) as [Hge|Hlt]; cbn [length]; [|rewrite Z.div_small by lia; lia].
    pose proof (Z.div_le_lower_bound v 128 1 ltac:(lia) ltac:(lia)). specialize (IH (v / 128) ltac:(lia)).
    pose proof (Z.div_mod (v / 128) 128 ltac:(lia)). pose proof (Z.mod_pos_bound (v / 128) 128 ltac:(lia)).
    pose proof (Z.div_pos (v / 128) 128 ltac:(lia) ltac:(lia)). lia.
Qed.

Lemma integer_octets_enough c v : 0 <= v -> Z.of_nat (length (int_octets 7 c v)) <= ngx_http_v2_integer_octets v.
Proof.
  intros Hv. unfold int_octets, int_tail, ngx_http_v2_integer_octets. change (ngx_http_v2_prefix 7) with 127. cbn [length].
  destruct (Z.ltb_spec v 127) as [Hlt|Hge]; [cbn; pose proof (Z.div_pos v 127 Hv ltac:(lia)); lia|].
  pose proof (int_rest_short 10 (v - 127) ltac:(lia)). replace v with (v - 127 + 1 * 127) at 2 by lia. rewrite Z.div_add by lia.
  pose proof (Z.div_mod (v - 127) 127 ltac:(lia)). pose proof (Z.mod_pos_bound (v - 127) 127 ltac:(lia)).
  pose proof (Z.div_mod (v - 127) 128 ltac:(lia)). pose proof (Z.mod_pos_bound (v - 127) 128 ltac:(lia)). nia.
Qed.

(** * Writing strings *)

(** The flag, and the octets of the string behind its length. *)
Definition string_flag (huff : bool) : Z := if huff then NGX_HTTP_V2_ENCODE_HUFF else NGX_HTTP_V2_ENCODE_RAW.
Definition string_octets (huff : bool) (body : list Z) : list Z := int_octets 7 (string_flag huff) (Z.of_nat (length body)) ++ body.
Definition string_body (huff : bool) (text body : list Z) : Prop := bytes_ok body /\ if huff then coded body text else body = text.

(** NGX_HTTP_V2_MAX_FIELD, which the callers compare the lengths with. *)
Definition NGX_HTTP_V2_MAX_FIELD : Z := 127 + Z.shiftl 1 ((Z.of_nat NGX_HTTP_V2_INT_OCTETS - 1) * 7) - 1.

Lemma string_flag_ok huff : byte_ok (string_flag huff) /\ Z.land (string_flag huff) (ngx_http_v2_prefix 7) = 0.
Proof. split; [|by destruct huff]. unfold byte_ok, string_flag, NGX_HTTP_V2_ENCODE_HUFF, NGX_HTTP_V2_ENCODE_RAW. destruct huff; lia. Qed.

Lemma strlow_all src : ngx_strlow src (length src) = Ok (ngx_tolower <$> src).
Proof. induction src as [|c src IH]; [done|]. cbn [ngx_strlow length fmap list_fmap]. by rewrite IH. Qed.

Lemma write_string huff body out rest x :
  Z.of_nat (length body) <= NGX_HTTP_V2_MAX_FIELD -> (4 + length body <= S (length rest))%nat ->
  ('(dst, pos) ← ngx_http_v2_write_int (out ++ string_flag huff :: rest) (length out) (ngx_http_v2_prefix 7) (Z.of_nat (length body));
   copy_bytes dst pos body) =
  Ok ((out ++ string_octets huff body) ++ drop (length (string_octets huff body)) (x :: rest), length (out ++ string_octets huff body)).
Proof.
  intros Hmax Hl. destruct (string_flag_ok huff) as [Hf Hp]. change NGX_HTTP_V2_MAX_FIELD with (126 + 2 ^ 21) in Hmax.
  assert (Hv : 0 <= Z.of_nat (length body) < 2 ^ 64) by (change (2 ^ 21) with 2097152 in Hmax; change (2 ^ 64) with 18446744073709551616; lia).
  pose proof (proj2 (int_octets_length 7 ltac:(lia) (string_flag huff) (Z.of_nat (length body)) Hv)) as H4. specialize (H4 ltac:(change (ngx_http_v2_prefix 7) with 127; lia)).
  set (oct := int_octets 7 (string_flag huff) (Z.of_nat (length body))) in *.
  assert (Ht : S (length (int_tail (ngx_http_v2_prefix 7) (Z.of_nat (length body)))) = length oct) by done.
  rewrite write_int_ok; [|lia|done|done|lia]. cbn [mbind outcome_bind]. fold oct. rewrite copy_bytes_ok by (rewrite length_drop; lia).
  unfold string_octets. fold oct. rewrite drop_drop, (app_assoc out oct body), (length_app oct), <- Ht. done.
Qed.

Lemma string_encode_ok lower src tmp out rest :
  bytes_ok src -> Z.of_nat (length src) <= NGX_HTTP_V2_MAX_FIELD -> (length src <= length tmp)%nat -> (4 + length src <= length rest)%nat ->
  exists huff body, string_body huff (meant lower src) body /\ (length body <= length src)%nat /\
    ngx_http_v2_string_encode (out ++ rest) (length out) src tmp lower =
      Ok ((out ++ string_octets huff body) ++ drop (length (string_octets huff body)) rest, length (out ++ string_octets huff body)).
Proof.
  intros Hsrc Hmax Htmp Hrest. unfold ngx_http_v2_string_encode.
  destruct (huff_encode_ok lower src tmp Hsrc Htmp) as (tmp' & -> & Hlen & Hbits). cbn [mbind outcome_bind].
  set (n := octets_of (length (stream lower src))) in *. destruct rest as [|x rest]; [cbn in Hrest; lia|].
  destruct (Nat.ltb_spec 0 (if decide (n < length src)%nat then n else 0%nat)) as [Hpos|Hzero].
  - case_decide as Hn; [|lia]. destruct (Hbits Hn) as [Hb Hok].
    assert (Htake : length (take n tmp') = n) by (rewrite length_take; lia).
    exists true, (take n tmp'). split; [split; [done|by apply padded_coded]|]. rewrite Htake. split; [lia|].
    rewrite store_at_end. cbn [mbind outcome_bind]. change NGX_HTTP_V2_ENCODE_HUFF with (string_flag true).
    pose proof (write_string true (take n tmp') out rest x) as Hw. rewrite Htake in Hw. cbn in Hrest. apply Hw; lia.
  - assert (Hm : bytes_ok (meant lower src)) by (by apply stream_meant).
    assert (Hml : length (meant lower src) = length src) by (destruct lower; [apply length_fmap|done]).
    exists false, (meant lower src). split; [split; done|]. split; [lia|].
    rewrite store_at_end. cbn [mbind outcome_bind]. change NGX_HTTP_V2_ENCODE_RAW with (string_flag false).
    pose proof (write_string false (meant lower src) out rest x) as Hw. rewrite Hml in Hw. cbn in Hrest. rewrite <- Hw by lia.
    destruct (ngx_http_v2_write_int _ _ _ _) as [[dst pos]| |]; [|done..]. cbn [mbind outcome_bind]. destruct lower; [|done]. by rewrite strlow_all.
Qed.

(** * Reading strings *)

Lemma copy_bytes_app s1 s2 dst d : copy_bytes dst d (s1 ++ s2) = ('(dst, d) ← copy_bytes dst d s1; copy_bytes dst d s2).
Proof.
  revert dst d. induction s1 as [|c s1 IH]; intros dst d; [done|]. cbn [copy_bytes app].
  destruct (store dst d c); [|done..]. cbn [mbind outcome_bind]. apply IH.
Qed.

(** What the two handlers do with the bytes of a string. *)
Definition body_step (huff : bool) (state : Z) (src mem : list Z) (d : nat) (last : bool) : outcome (Z * list Z * nat * Z) :=
  if huff then ngx_http_v2_huff_decode state src mem d last
  else '(mem, d) ← copy_bytes mem d src; Ok (state, mem, d, NGX_OK).

Lemma body_fragments huff state s1 s2 mem d :
  s2 <> [] ->
  body_step huff state (s1 ++ s2) mem d true =
    ('(state, mem, d, rc) ← body_step huff state s1 mem d false;
     if rc =? NGX_OK then body_step huff state s2 mem d true else Ok (state, mem, d, rc)).
Proof.
  intros Hs. destruct huff; [apply huff_decode_fragments; by left|]. cbn [body_step]. rewrite copy_bytes_app.
  destruct (copy_bytes mem d s1) as [[mem' d']| |]; [|done..]. cbn [mbind outcome_bind].
  by destruct (copy_bytes mem' d' s2) as [[? ?]| |].
Qed.

Section reading.
Context (ngx_pnalloc : Z -> option (list Z)) (max_field_size : Z).
Let handle := run_handler ngx_pnalloc max_field_size.

Definition body_handler (huff : bool) : field_handler := if huff then FieldHuff else FieldRaw.

Definition body_field (f : field) (size state : Z) (mem : list Z) (d : nat) : field :=
  mk_field (fd_length f - size) (fd_end_headers f) (fd_stream f) (fd_index f) state (fd_rest f - size) mem d.

Lemma handle_body huff f buf pos :
  handle (body_handler huff) f buf pos =
    (let size := field_size f buf pos in
     '(state, mem, d, rc) ← body_step huff (fd_state f) (take (Z.to_nat size) (drop pos buf)) (fd_mem f) (fd_end f) (fd_rest f - size =? 0);
     if negb (rc =? NGX_OK) then Ok (body_field f size state mem d, Failed NGX_HTTP_V2_COMP_ERROR)
     else field_next (body_field f size state mem d) buf (pos + Z.to_nat size) (body_handler huff) true).
Proof.
  destruct huff; [done|]. cbn [handle run_handler body_handler body_step]. unfold ngx_http_v2_state_field_raw. cbn zeta.
  cbn [fd_mem fd_end update_field]. destruct (copy_bytes _ _ _) as [[mem d]| |]; done.
Qed.

(** The string that is still to come: its bytes, and what they make of the memory. *)
Record body_ahead (huff : bool) (f : field) (r memF : list Z) (dF : nat) (stF : Z) : Prop := {
  ba_rest : fd_rest f = Z.of_nat (length r);
  ba_length : Z.of_nat (length r) <= fd_length f;
  ba_step : body_step huff (fd_state f) r (fd_mem f) (fd_end f) true = Ok (stF, memF, dF, NGX_OK)
}.

Lemma body_last huff f r memF dF stF buf pos tail :
  body_ahead huff f r memF dF stF -> drop pos buf = r ++ tail -> (dF < length memF)%nat ->
  handle (body_handler huff) f buf pos =
    Ok (body_field f (Z.of_nat (length r)) stF (<[dF := 0]> memF) dF, Process (pos + length r)).
Proof.
  intros [H1 H2 H3] Hd Hroom. rewrite handle_body. cbn zeta.
  assert (Hsz : field_size f buf pos = Z.of_nat (length r)).
  { unfold field_size. rewrite H1. rewrite <- length_drop, Hd, length_app. lia. }
  rewrite Hsz, Nat2Z.id, Hd, take_app_length, H1, Z.sub_diag. change (0 =? 0) with true. rewrite H3. cbn [mbind outcome_bind].
  change (negb (NGX_OK =? NGX_OK)) with false. cbv iota. unfold field_next. cbn [body_field fd_rest fd_mem fd_end]. rewrite H1, Z.sub_diag.
  change (0 =? 0) with true. cbv iota. unfold store. rewrite (proj2 (Nat.ltb_lt _ _)) by done. cbn [mbind outcome_bind].
  unfold body_field. cbn. by rewrite H1, Z.sub_diag.
Qed.

Lemma body_part huff f p r memF dF stF buf pos :
  body_ahead huff f (p ++ r) memF dF stF -> drop pos buf = p -> r <> [] ->
  exists f', handle (body_handler huff) f buf pos = Ok (f', Saved (body_handler huff) []) /\ body_ahead huff f' r memF dF stF /\
    fd_length f' = fd_length f - Z.of_nat (length p) /\ fd_end_headers f' = fd_end_headers f.
Proof.
  intros [H1 H2 H3] Hd Hr. rewrite handle_body. cbn zeta. rewrite length_app in H1, H2.
  assert (Hrl : (0 < length r)%nat) by (destruct r; [done|cbn; lia]).
  assert (Hsz : field_size f buf pos = Z.of_nat (length p)).
  { unfold field_size. rewrite H1. rewrite <- length_drop, Hd. lia. }
  rewrite Hsz, Nat2Z.id, Hd, take_ge by lia. rewrite (proj2 (Z.eqb_neq (fd_rest f - _) 0)) by lia.
  rewrite body_fragments in H3 by done. destruct (body_step huff (fd_state f) p (fd_mem f) (fd_end f) false) as [[[[st mem] d] rc]| |]; [|done..].
  cbn [mbind outcome_bind] in *. destruct (rc =? NGX_OK) eqn:Erc; [|injection H3 as ?; subst; done]. cbn [negb].
  unfold field_next. cbn [body_field fd_rest fd_length]. rewrite (proj2 (Z.eqb_neq (fd_rest f - _) 0)) by lia.
  rewrite (proj2 (Z.eqb_neq (fd_length f - _) 0)) by lia. cbn [negb]. unfold ngx_http_v2_state_save.
  assert (Hdrop : drop (pos + length p) buf = []) by (rewrite <- drop_drop, Hd; apply drop_ge; lia). rewrite Hdrop.
  eexists. split; [done|]. split; [|done]. split; cbn; [lia|lia|done].
Qed.

Lemma feed_body huff f parts last tail memF dF stF :
  body_ahead huff f (concat parts ++ last) memF dF stF -> last <> [] -> (dF < length memF)%nat ->
  exists f' pos buf, feed ngx_pnalloc max_field_size (body_handler huff) [] f (parts ++ [last ++ tail]) = Ok (f', Process pos, buf) /\
    drop pos buf = tail /\ fd_mem f' = <[dF := 0]> memF /\ fd_end f' = dF /\ fd_state f' = stF /\
    fd_length f' = fd_length f - Z.of_nat (length (concat parts ++ last)).
Proof.
  intros H Hlast Hroom. revert f H. induction parts as [|p parts IH]; intros f H; cbn [concat app feed] in *.
  - change (run_handler ngx_pnalloc max_field_size) with handle. rewrite (body_last _ _ last memF dF stF (last ++ tail) 0 tail H eq_refl Hroom).
    cbn [mbind outcome_bind]. eexists _, _, _. split; [done|]. split; [by rewrite Nat.add_0_l, drop_app_length|done].
  - rewrite <- app_assoc in H. destruct (body_part _ _ _ _ _ _ _ p 0 H eq_refl) as (f' & E & H' & Hl & _).
    { intros E. by apply app_eq_nil in E as [_ ?]. }
    change (run_handler ngx_pnalloc max_field_size) with handle. rewrite E. cbn [mbind outcome_bind].
    destruct (IH f' H') as (f2 & pos & buf & -> & Hd & Hm & He & Hst & Hlen). exists f2, pos, buf. split_and!; try done.
    rewrite Hlen, Hl, <- app_assoc, (length_app p). lia.
Qed.

(** ** The length *)

Context (Halloc : forall n, 0 < n -> exists mem, ngx_pnalloc n = Some mem /\ Z.of_nat (length mem) = n).

Section whole.
Context (huff : bool) (text body : list Z) (Hbody : string_body huff text body).
Context (Hmax : Z.of_nat (length body) <= max_field_size) (Hoct : Z.of_nat (length body) <= NGX_HTTP_V2_MAX_FIELD).
Let oct : list Z := int_octets 7 (string_flag huff) (Z.of_nat (length body)).

(** The state before the string. *)
Record string_ahead (f : field) : Prop := {
  sa_length : Z.of_nat (length oct + length body) <= fd_length f;
  sa_end : fd_end_headers f = true \/ 4 <= fd_length f;
  sa_used : fd_stream f = true \/ fd_index f = true;
  sa_state : fd_state f = 0
}.

Lemma body_size : 0 <= Z.of_nat (length body) < 2 ^ 64.
Proof. change NGX_HTTP_V2_MAX_FIELD with (126 + 2 ^ 21) in Hoct. change (2 ^ 21) with 2097152 in Hoct. change (2 ^ 64) with 18446744073709551616. lia. Qed.

Lemma oct_short : (0 < length oct <= 4)%nat.
Proof.
  split; [cbn; lia|]. destruct (string_flag_ok huff) as [Hf _]. apply int_octets_length; [lia|apply body_size|].
  change NGX_HTTP_V2_MAX_FIELD with (126 + 2 ^ 21) in Hoct. change (ngx_http_v2_prefix 7) with 127. lia.
Qed.

Lemma oct_flag : exists c rest, oct = c :: rest /\ byte_ok c /\ Z.shiftr c 7 = (if huff then 1 else 0).
Proof.
  unfold oct, int_octets. destruct (string_flag_ok huff) as [Hf _]. pose proof (int_first_ok 7 ltac:(lia) (Z.of_nat (length body)) body_size) as Hfirst.
  change (ngx_http_v2_prefix 7) with 127 in *. set (x := int_first 127 _) in *.
  eexists _, _. split; [done|]. split; [apply lor_byte; [done|unfold byte_ok; lia]|].
  rewrite Z.shiftr_lor, (Z.shiftr_div_pow2 x), (Z.div_small x) by (change (2 ^ 7) with 128; lia). by destruct huff.
Qed.

(** Where the text is when all is read. *)
Definition text_read (memF : list Z) (dF : nat) : Prop := take dF memF = text /\ (dF < length memF)%nat.

Lemma body_start mem :
  Z.of_nat (length mem) = (if huff then Z.of_nat (length body) * 8 / 5 else Z.of_nat (length body)) + 1 ->
  exists memF dF, body_step huff 0 body mem 0 true = Ok (0, memF, dF, NGX_OK) /\ text_read memF dF.
Proof.
  destruct Hbody as [Hok Hb]. unfold text_read, body_step. destruct huff; intros Hm.
  - pose proof (Z.div_mod (Z.of_nat (length body) * 8) 5 ltac:(lia)). pose proof (Z.mod_pos_bound (Z.of_nat (length body) * 8) 5 ltac:(lia)).
    destruct (huff_decode_ok body [] mem Hok ltac:(lia)) as [(out & Hc & E)|[Hno _]]; [|by destruct (Hno text)].
    assert (out = text) as -> by (by eapply coded_unique). cbn [app length] in E. eexists _, _. split; [exact E|].
    destruct Hb as [Ht (k & Hk & Hbits)]. apply (f_equal length) in Hbits. rewrite octet_bits_length, length_app in Hbits.
    pose proof (stream_length text Ht). rewrite take_app_length, length_app, length_drop. split; [done|lia].
  - subst body. pose proof (copy_bytes_ok text [] mem ltac:(lia)) as E. cbn [app length] in E. rewrite E. cbn [mbind outcome_bind].
    eexists _, _. split; [done|]. rewrite take_app_length, length_app, length_drop. split; [done|lia].
Qed.

Lemma handle_len f buf p :
  string_ahead f -> buf = oct ++ p ->
  exists f' memF dF, handle FieldLen f buf 0 = handle (body_handler huff) f' buf (length oct) /\
    body_ahead huff f' body memF dF 0 /\ text_read memF dF /\ fd_length f' = fd_length f - Z.of_nat (length oct).
Proof.
  intros [H1 H2 H3 H4] Hb. pose proof oct_short as Ho. cbn [handle run_handler]. unfold ngx_http_v2_state_field_len.
  replace (negb (fd_end_headers f) && (fd_length f <? Z.of_nat NGX_HTTP_V2_INT_OCTETS)) with false; cycle 1.
  { symmetry. apply andb_false_iff. destruct H2 as [-> | H2]; [by left|]. right. apply Z.ltb_ge. unfold NGX_HTTP_V2_INT_OCTETS. lia. }
  rewrite (proj2 (Z.ltb_ge _ 1)) by lia. rewrite (proj2 (Nat.ltb_ge _ 1)) by (rewrite Hb, length_app; lia).
  destruct oct_flag as (c & rest & Eo & Hc & Hhuff).
  assert (Ec : deref buf 0 = Ok c) by (by rewrite Hb, Eo). rewrite Ec. cbn [mbind outcome_bind]. rewrite Hhuff.
  destruct (string_flag_ok huff) as [Hf Hp].
  rewrite (parse_int_ok 7 ltac:(lia) (string_flag huff) (Z.of_nat (length body)) Hp body_size buf 0 (length buf) (fd_length f) p Hb ltac:(rewrite Hb, length_app; lia) ltac:(lia)).
  fold oct. rewrite (proj2 (Nat.leb_le _ _)) by (rewrite Hb, length_app; unfold NGX_HTTP_V2_INT_OCTETS; lia).
  rewrite (proj2 (Z.ltb_ge (fd_length f) _)) by lia. cbn [mbind outcome_bind]. rewrite Nat.add_0_l.
  rewrite (proj2 (Z.ltb_ge (Z.of_nat (length body)) 0)) by lia. rewrite (proj2 (Z.ltb_ge max_field_size _)) by done.
  cbn [fd_stream fd_index update_field].
  replace (negb (fd_stream f) && negb (fd_index f)) with false by (destruct H3 as [-> | ->]; [done|by rewrite andb_false_r]).
  replace (negb ((if huff then 1 else 0) =? 0)) with huff by (by destruct huff).
  destruct (Halloc ((if huff then Z.of_nat (length body) * 8 / 5 else Z.of_nat (length body)) + 1)) as (mem & -> & Hm).
  { destruct huff; [|lia]. pose proof (Z.div_pos (Z.of_nat (length body) * 8) 5). lia. }
  destruct (body_start mem Hm) as (memF & dF & E & Ht).
  exists (mk_field (fd_length f - Z.of_nat (length oct)) (fd_end_headers f) (fd_stream f) (fd_index f) (fd_state f) (Z.of_nat (length body)) mem 0), memF, dF. split; [by destruct huff|]. split; [|done].
  split; cbn [fd_rest fd_length fd_state fd_mem fd_end]; [done|lia|]. by rewrite H4.
Qed.

(** Not all octets of the length are there. *)
Lemma handle_len_short f buf r :
  string_ahead f -> oct = buf ++ r -> r <> [] -> handle FieldLen f buf 0 = Ok (f, Saved FieldLen buf).
Proof.
  intros [H1 H2 H3 H4] Hb Hr. pose proof oct_short as Ho. assert (Hrl : (0 < length r)%nat) by (destruct r; [done|cbn; lia]).
  assert (Hlen : length oct = (length buf + length r)%nat) by (by rewrite Hb, length_app).
  assert (Hsave : ngx_http_v2_state_save buf 0 FieldLen = Saved FieldLen buf).
  { unfold ngx_http_v2_state_save. rewrite drop_0, (proj2 (Nat.ltb_ge _ _)) by (unfold NGX_HTTP_V2_STATE_BUFFER_SIZE; lia). done. }
  cbn [handle run_handler]. unfold ngx_http_v2_state_field_len.
  replace (negb (fd_end_headers f) && (fd_length f <? Z.of_nat NGX_HTTP_V2_INT_OCTETS)) with false; cycle 1.
  { symmetry. apply andb_false_iff. destruct H2 as [-> | H2]; [by left|]. right. apply Z.ltb_ge. unfold NGX_HTTP_V2_INT_OCTETS. lia. }
  rewrite (proj2 (Z.ltb_ge _ 1)) by lia. rewrite Hsave. destruct (Nat.ltb_spec (length buf - 0) 1) as [|Hne]; [done|].
  destruct (string_flag_ok huff) as [Hf Hp].
  assert (E : exists c, deref buf 0 = Ok c) by (destruct buf as [|c buf]; [cbn in Hne; lia|by exists c]). destruct E as [c ->]. cbn [mbind outcome_bind].
  assert (Epad : ngx_http_v2_parse_int buf 0 (length buf) (ngx_http_v2_prefix 7) (fd_length f) = ngx_http_v2_parse_int oct 0 (length buf) (ngx_http_v2_prefix 7) (fd_length f)).
  { rewrite Hb. symmetry. apply parse_int_app; lia. }
  rewrite Epad. rewrite (parse_int_ok 7 ltac:(lia) (string_flag huff) (Z.of_nat (length body)) Hp body_size oct 0 (length buf) (fd_length f) []);
    [|by rewrite app_nil_r|lia|lia].
  fold oct. rewrite (proj2 (Nat.leb_gt _ _)) by lia. unfold int_verdict, NGX_HTTP_V2_INT_OCTETS. rewrite (proj2 (Z.leb_gt _ _)) by lia.
  rewrite (proj2 (Nat.eqb_neq _ _)) by lia. cbn [mbind outcome_bind]. change (NGX_AGAIN <? 0) with true. change (NGX_AGAIN =? NGX_AGAIN) with true. cbv iota.
  rewrite Hsave. by destruct f.
Qed.

(** ** The string in parts *)

Record string_done (f f' : field) : Prop := {
  sd_text : take (fd_end f') (fd_mem f') = text;
  sd_nul : fd_mem f' !! fd_end f' = Some 0;
  sd_state : fd_state f' = 0;
  sd_length : fd_length f' = fd_length f - Z.of_nat (length oct + length body)
}.

Lemma text_done f f' memF dF :
  text_read memF dF -> fd_mem f' = <[dF := 0]> memF -> fd_end f' = dF -> fd_state f' = 0 ->
  fd_length f' = fd_length f - Z.of_nat (length oct + length body) -> string_done f f'.
Proof.
  intros [Ht Hl] Hm He Hst Hlen. split; [|rewrite Hm, He; by apply list_lookup_insert_eq|done|done].
  rewrite Hm, He. by rewrite take_insert_ge by lia.
Qed.

Lemma feed_string parts last tail saved f :
  string_ahead f -> saved ++ concat parts ++ last = oct ++ body -> (length saved < length oct)%nat -> last <> [] ->
  exists f' pos buf, feed ngx_pnalloc max_field_size FieldLen saved f (parts ++ [last ++ tail]) = Ok (f', Process pos, buf) /\
    drop pos buf = tail /\ string_done f f'.
Proof.
  intros Hf E Hs Hlast. revert saved E Hs. induction parts as [|p parts IH]; intros saved E Hs; cbn [concat app feed] in *;
    change (run_handler ngx_pnalloc max_field_size) with handle.
  - destruct (handle_len f (saved ++ last ++ tail) (body ++ tail) Hf) as (f' & memF & dF & -> & Ha & Ht & Hl); [by rewrite !app_assoc, E|].
    pose proof Ht as [Ht1 Ht2]. rewrite (body_last _ _ _ _ _ _ _ _ tail Ha) by (done || by rewrite app_assoc, E, <- app_assoc, drop_app_length).
    cbn [mbind outcome_bind]. eexists _, _, _. split; [done|]. split; [by rewrite <- drop_drop, app_assoc, E, <- app_assoc, !drop_app_length|].
    eapply text_done; [exact Ht|done|done|done|]. cbn [fd_length body_field]. rewrite Hl. lia.
  - rewrite <- !app_assoc in E. rewrite app_assoc in E.
    assert (Hcase : (exists k, k <> [] /\ oct = (saved ++ p) ++ k) \/
      exists k, saved ++ p = oct ++ k /\ body = k ++ concat parts ++ last).
    { destruct (app_eq_inv _ _ _ _ E) as [(k & E1 & E2)|([|x k] & E1 & E2)]; [right; by exists k| |left; by exists (x :: k)].
      right. exists []. by rewrite app_nil_r in *. }
    destruct Hcase as [(k & Hk & E1)|(k & E1 & E2)].
    + rewrite (handle_len_short f (saved ++ p) k Hf E1 Hk). cbn [mbind outcome_bind]. apply IH; [done|].
      rewrite E1, (length_app _ k). destruct k; [done|cbn; lia].
    + destruct (handle_len f (saved ++ p) k Hf E1) as (f' & memF & dF & -> & Ha & Ht & Hl). pose proof Ht as [Ht1 Ht2].
      rewrite E2 in Ha. destruct (body_part _ _ _ _ _ _ _ (saved ++ p) (length oct) Ha) as (f2 & -> & Ha2 & Hl2 & _).
      { by rewrite E1, drop_app_length. }
      { intros E3. by apply app_eq_nil in E3 as [_ ?]. }
      cbn [mbind outcome_bind]. destruct (feed_body _ _ _ _ tail _ _ _ Ha2 Hlast Ht2) as (f3 & pos & buf & -> & Hd & Hm & He & Hst & Hlen).
      exists f3, pos, buf. split; [done|]. split; [done|]. eapply text_done; [exact Ht|done|done|done|].
      rewrite Hlen, Hl2, Hl, E2. rewrite !length_app. lia.
Qed.

End whole.
End reading.

(** * Properties *)

(** An integer written behind the high bits of an octet is read back whatever follows, by
    ngx_http_v2_parse_int with the same prefix, when the octets are there and belong to the
    block; with fewer of them nothing is used and NGX_AGAIN is returned; a value that needs
    more than NGX_HTTP_V2_INT_OCTETS is refused.  The estimate ngx_http_v2_integer_octets is
    enough for a prefix of seven bits. *)
Theorem hpack_int_roundtrip bits c value out rest :
  1 <= bits <= 8 -> byte_ok c -> Z.land c (ngx_http_v2_prefix bits) = 0 -> 0 <= value < 2 ^ 64 ->
  let k := length (int_octets bits c value) in
  (k <= S (length rest))%nat ->
  (bits = 7 -> Z.of_nat k <= ngx_http_v2_integer_octets value) /\
  exists octets rest', length octets = k /\
    ngx_http_v2_write_int (out ++ c :: rest) (length out) (ngx_http_v2_prefix bits) value = Ok (out ++ octets ++ rest', length (out ++ octets)) /\
    forall end_ len, (length out < end_)%nat -> 0 <= len ->
      let start := length out in
      ngx_http_v2_parse_int (out ++ octets ++ rest') start end_ (ngx_http_v2_prefix bits) len =
        if decide (value < ngx_http_v2_prefix bits + 2 ^ 21 /\ (start + k <= end_)%nat) then
          if len <? Z.of_nat k then Ok (NGX_ERROR, start, len) else Ok (value, (start + k)%nat, len - Z.of_nat k)
        else if len <=? Z.of_nat (Nat.min (end_ - start) 4) then Ok (NGX_ERROR, start, len)
        else if decide (start + 4 <= end_)%nat then Ok (NGX_DECLINED, start, len)
        else Ok (NGX_AGAIN, start, len).
Proof.
  intros Hb Hc Hlow Hv k Hk. split; [intros ->; apply integer_octets_enough, Hv|].
  exists (int_octets bits c value), (drop (length (int_tail (ngx_http_v2_prefix bits) value)) rest). split; [done|].
  rewrite write_int_ok by (done || (cbn in Hk; lia)). split; [by rewrite <- app_assoc|]. intros end_ len He Hlen start. unfold start.
  rewrite (parse_int_ok bits Hb c value Hlow Hv _ _ _ _ (drop (length (int_tail (ngx_http_v2_prefix bits) value)) rest) ltac:(apply drop_app_length) He Hlen).
  fold k start. pose proof (int_octets_length bits Hb c value Hv) as H4. fold k in H4. unfold NGX_HTTP_V2_INT_OCTETS in *.
  destruct (Nat.leb_spec k (Nat.min (end_ - start) 4)) as [Hle|Hgt].
  - rewrite decide_True; [done|]. split; [apply H4; lia|lia].
  - rewrite decide_False by (rewrite <- H4; lia). unfold int_verdict, NGX_HTTP_V2_INT_OCTETS.
    replace (Nat.min end_ (start + 4) - start)%nat with (Nat.min (end_ - start) 4) by lia. destruct (len <=? _); [done|].
    case_decide; [by rewrite (proj2 (Nat.eqb_eq _ _)) by lia|by rewrite (proj2 (Nat.eqb_neq _ _)) by lia].
Qed.

Lemma hpack_int_roundtrip_witness :
  exists octets rest', ngx_http_v2_write_int [0x80; 0; 0; 0] 0 127 300 = Ok (octets ++ rest', length octets) /\
    ngx_http_v2_parse_int (octets ++ rest') 0 3 127 10 = Ok (300, 3%nat, 7).
Proof.
  destruct (hpack_int_roundtrip 7 0x80 300 [] [0; 0; 0]) as [_ (octets & rest' & Hl & Hw & Hp)].
  - lia.
  - unfold byte_ok. lia.
  - done.
  - lia.
  - vm_compute. lia.
  - exists octets, rest'. split; [exact Hw|]. etransitivity; [apply (Hp 3%nat 10 ltac:(cbn; lia) ltac:(lia))|by vm_compute].
Defined.

(** The memory that is asked for is there. *)
Definition allocates (ngx_pnalloc : Z -> option (list Z)) : Prop :=
  forall n, 0 < n -> exists mem, ngx_pnalloc n = Some mem /\ Z.of_nat (length mem) = n.

(** A string that ngx_http_v2_string_encode writes, with the Huffman code or without it and
    within the four octets and the length of the string that its callers reserve, is read
    by ngx_http_v2_state_field_len and the handlers it hands over to, in whatever parts it
    arrives: the field is the string, in lower case if that was asked for, with a NUL
    behind it, and what follows the string is left. *)
(** C21. A string that ngx_http_v2_string_encode writes, with the Huffman code or
    without it, is read by ngx_http_v2_state_field_len and the handlers behind it, in
    whatever parts it arrives; what follows it is left. *)
Theorem hpack_string_roundtrip ngx_pnalloc max_field_size lower src tmp out rest :
  allocates ngx_pnalloc -> bytes_ok src -> Z.of_nat (length src) <= NGX_HTTP_V2_MAX_FIELD -> Z.of_nat (length src) <= max_field_size ->
  (length src <= length tmp)%nat -> (4 + length src <= length rest)%nat ->
  exists octets rest', (length octets <= 4 + length src)%nat /\
    ngx_http_v2_string_encode (out ++ rest) (length out) src tmp lower = Ok (out ++ octets ++ rest', length (out ++ octets)) /\
    forall f parts last tail, concat parts ++ last = octets -> last <> [] ->
      Z.of_nat (length octets) <= fd_length f -> fd_end_headers f = true \/ 4 <= fd_length f ->
      fd_stream f = true \/ fd_index f = true -> fd_state f = 0 ->
      exists f' pos buf,
        feed ngx_pnalloc max_field_size FieldLen [] f (parts ++ [last ++ tail]) = Ok (f', Process pos, buf) /\ drop pos buf = tail /\
        take (fd_end f') (fd_mem f') = meant lower src /\ fd_mem f' !! fd_end f' = Some 0 /\ fd_state f' = 0 /\
        fd_length f' = fd_length f - Z.of_nat (length octets).
Proof.
  intros Halloc Hsrc Hmax Hmax' Htmp Hrest.
  destruct (string_encode_ok lower src tmp out rest Hsrc Hmax Htmp Hrest) as (huff & body & Hbody & Hlen & E).
  exists (string_octets huff body), (drop (length (string_octets huff body)) rest). rewrite E. unfold string_octets.
  pose proof (oct_short huff body ltac:(lia)) as Ho. rewrite length_app. split; [lia|].
  split; [by rewrite <- !app_assoc|]. intros f parts last tail Ep Hlast H1 H2 H3 H4.
  destruct (feed_string ngx_pnalloc max_field_size Halloc huff (meant lower src) body Hbody ltac:(lia) ltac:(lia) parts last tail [] f)
    as (f' & pos & buf & Ef & Hd & [T1 T2 T3 T4]); [by split|done|cbn in Ho |- *; lia|done|].
  exists f', pos, buf. by split_and!.
Qed.

Lemma hpack_string_roundtrip_witness :
  exists octets rest', (length octets <= 7)%nat /\
    ngx_http_v2_string_encode (replicate 7 0) 0 [97; 97; 97] [0; 0; 0] false = Ok (octets ++ rest', length octets).
Proof.
  destruct (hpack_string_roundtrip (fun n => Some (replicate (Z.to_nat n) 0)) 4096 false [97; 97; 97] [0; 0; 0] [] (replicate 7 0))
    as (octets & rest' & H1 & H2 & _).
  - intros n Hn. eexists. split; [done|]. rewrite length_replicate. lia.
  - repeat (apply Forall_cons_2; [unfold byte_ok; lia|]). apply Forall_nil_2.
  - by vm_compute.
  - by vm_compute.
  - cbn. lia.
  - cbn. lia.
  - exists octets, rest'. split; [exact H1|exact H2].
Defined.
