(* ===== verification/HpackTable.v ===== *)
(** Component "HPACK": the static and the dynamic table of headers,
    http/v2/ngx_http_v2_table.c.

    The dynamic table is a ring of bytes, [hp_storage], that holds the names and values,
    and a ring of pointers, [hp_entries], to structures that say where each is; the
    structures of entries that were removed are used again.  The structures have addresses
    and their contents are in [hp_heap].  HpackTableTheory has the theorems. *)

From stdpp Require Import base numbers list option strings gmap.
From Stdlib Require Import ZArith Lia.
From S2P Require Import Prelude HpackString.
Local Open Scope Z_scope.

(** * Definitions *)

Definition NGX_HTTP_V2_TABLE_SIZE : Z := 4096.

(** A name and a value. *)
Abbreviation header := (list Z * list Z)%type.

Definition ngx_http_v2_static_table : list header := [
  (bytes ":authority", []);
  (bytes ":method", bytes "GET");
  (bytes ":method", bytes "POST");
  (bytes ":path", bytes "/");
  (bytes ":path", bytes "/index.html");
  (bytes ":scheme", bytes "http");
  (bytes ":scheme", bytes "https");
  (bytes ":status", bytes "200");
  (bytes ":status", bytes "204");
  (bytes ":status", bytes "206");
  (bytes ":status", bytes "304");
  (bytes ":status", bytes "400");
  (bytes ":status", bytes "404");
  (bytes ":status", bytes "500");
  (bytes "accept-charset", []);
  (bytes "accept-encoding", bytes "gzip, deflate");
  (bytes "accept-language", []);
  (bytes "accept-ranges", []);
  (bytes "accept", []);
  (bytes "access-control-allow-origin", []);
  (bytes "age", []);
  (bytes "allow", []);
  (bytes "authorization", []);
  (bytes "cache-control", []);
  (bytes "content-disposition", []);
  (bytes "content-encoding", []);
  (bytes "content-language", []);
  (bytes "content-length", []);
  (bytes "content-location", []);
  (bytes "content-range", []);
  (bytes "content-type", []);
  (bytes "cookie", []);
  (bytes "date", []);
  (bytes "etag", []);
  (bytes "expect", []);
  (bytes "expires", []);
  (bytes "from", []);
  (bytes "host", []);
  (bytes "if-match", []);
  (bytes "if-modified-since", []);
  (bytes "if-none-match", []);
  (bytes "if-range", []);
  (bytes "if-unmodified-since", []);
  (bytes "last-modified", []);
  (bytes "link", []);
  (bytes "location", []);
  (bytes "max-forwards", []);
  (bytes "proxy-authenticate", []);
  (bytes "proxy-authorization", []);
  (bytes "range", []);
  (bytes "referer", []);
  (bytes "refresh", []);
  (bytes "retry-after", []);
  (bytes "server", []);
  (bytes "set-cookie", []);
  (bytes "strict-transport-security", []);
  (bytes "transfer-encoding", []);
  (bytes "user-agent", []);
  (bytes "vary", []);
  (bytes "via", []);
  (bytes "www-authenticate", [])].

Definition NGX_HTTP_V2_STATIC_TABLE_ENTRIES : Z := Z.of_nat (length ngx_http_v2_static_table).

(** ngx_http_v2_header_t of the dynamic table: the [data] are positions in the storage. *)
Record entry : Type := mk_entry {
  en_name_len : nat;
  en_name : nat;
  en_value_len : nat;
  en_value : nat
}.

(** ngx_http_v2_hpack_t; [hp_entries] is [None] for NULL, and [hp_pos] a position in the storage. *)
Record hpack : Type := mk_hpack {
  hp_entries : option (list Z);
  hp_heap : gmap Z entry;
  hp_added : Z;
  hp_deleted : Z;
  hp_reused : Z;
  hp_allocated : Z;
  hp_size : Z;
  hp_free : Z;
  hp_storage : list Z;
  hp_pos : nat
}.

#[export] Instance eta_hpack : Eta hpack := fun h =>
  mk_hpack (hp_entries h) (hp_heap h) (hp_added h) (hp_deleted h) (hp_reused h) (hp_allocated h) (hp_size h) (hp_free h)
    (hp_storage h) (hp_pos h).

(** [h2c->hpack.entries[i % h2c->hpack.allocated]] *)
Definition slot_at (h : hpack) (i : Z) : outcome Z :=
  match hp_entries h with
  | Some entries => if hp_allocated h =? 0 then UB else deref entries (Z.to_nat (i mod hp_allocated h))
  | None => UB
  end.

Definition entry_at (h : hpack) (a : Z) : outcome entry := match hp_heap h !! a with Some e => Ok e | None => UB end.

(** The bytes that ngx_cpymem() copies from the storage. *)
Definition storage_bytes (storage : list Z) (off n : nat) : outcome (list Z) :=
  if (off + n <=? length storage)%nat then Ok (take n (drop off storage)) else UB.

(** A string of [len] bytes at [data], which may go on at the start of the storage. *)
Definition ring_get (storage : list Z) (data len : nat) : outcome (list Z) :=
  let rest := Z.to_nat (NGX_HTTP_V2_TABLE_SIZE - Z.of_nat data) in
  if (rest <? len)%nat then
    s1 ← storage_bytes storage data rest; s2 ← storage_bytes storage 0 (len - rest); Ok (s1 ++ s2)
  else storage_bytes storage data len.

(** A string put at [pos], where [avail] bytes are thought to be left. *)
Definition ring_put (storage : list Z) (pos avail : nat) (s : list Z) : outcome (list Z * nat) :=
  if (length s <=? avail)%nat then copy_bytes storage pos s
  else '(storage, _) ← copy_bytes storage pos (take avail s); copy_bytes storage 0 (drop avail s).

Section table.
(** ngx_pnalloc() and ngx_palloc(): whether a string can be allocated, the memory for the
    pointers and for the storage, and the address of a new structure. *)
Context (string_alloc : nat -> bool) (entries_alloc : Z -> option (list Z)) (storage_alloc : option (list Z))
  (entry_alloc : gmap Z entry -> option Z).

(** [hdr] is [h2c->state.header] before and after. *)
Definition ngx_http_v2_get_indexed_header (h : hpack) (hdr : header) (index : Z) (name_only : bool) : outcome (header * Z) :=
  if index =? 0 then Ok (hdr, NGX_ERROR)
  else
    let index := index - 1 in
    if index <? NGX_HTTP_V2_STATIC_TABLE_ENTRIES then
      match ngx_http_v2_static_table !! Z.to_nat index with Some e => Ok (e, NGX_OK) | None => UB end
    else
      let index := index - NGX_HTTP_V2_STATIC_TABLE_ENTRIES in
      if index <? to_u64 (hp_added h - hp_deleted h) then
        a ← slot_at h (to_u64 (hp_added h - index - 1));
        e ← entry_at h a;
        if negb (string_alloc (en_name_len e + 1)) then Ok (hdr, NGX_ERROR)
        else
          name ← ring_get (hp_storage h) (en_name e) (en_name_len e);
          if name_only then Ok ((name, hdr.2), NGX_OK)
          else if negb (string_alloc (en_value_len e + 1)) then Ok ((name, hdr.2), NGX_ERROR)
          else value ← ring_get (hp_storage h) (en_value e) (en_value_len e); Ok ((name, value), NGX_OK)
      else Ok (hdr, NGX_ERROR).

(** The removal of the oldest entry. *)
Definition table_evict (h : hpack) : outcome hpack :=
  a ← slot_at h (hp_deleted h);
  e ← entry_at h a;
  Ok (h <| hp_deleted := to_u64 (hp_deleted h + 1) |>
        <| hp_free := to_u64 (hp_free h + (32 + Z.of_nat (en_name_len e) + Z.of_nat (en_value_len e))) |>).

Fixpoint account_loop (fuel : nat) (h : hpack) (size : Z) : outcome hpack :=
  match fuel with
  | O => NoFuel
  | S fuel' => h ← table_evict h; if hp_free h <? size then account_loop fuel' h size else Ok h
  end.

(** The fuel is the number of entries that a table can have, and one. *)
Definition table_fuel : nat := 129.

Definition ngx_http_v2_table_account (h : hpack) (size : Z) : outcome (hpack * Z) :=
  let size := size + 32 in
  if size <=? hp_free h then Ok (h <| hp_free := hp_free h - size |>, NGX_OK)
  else if hp_size h <? size then Ok (h <| hp_deleted := hp_added h |> <| hp_free := hp_size h |>, NGX_DECLINED)
  else h ← account_loop table_fuel h size; Ok (h <| hp_free := hp_free h - size |>, NGX_OK).

(** The start of ngx_http_v2_add_header.  When the storage cannot be allocated the sizes and
    the pointers stay as they were set, and the storage is NULL, here an empty one. *)
Definition table_init (h : hpack) : hpack * Z :=
  match hp_entries h with
  | Some _ => (h, NGX_OK)
  | None =>
      let h := h <| hp_allocated := 64 |> <| hp_size := NGX_HTTP_V2_TABLE_SIZE |> <| hp_free := NGX_HTTP_V2_TABLE_SIZE |> in
      match entries_alloc 64 with
      | None => (h, NGX_ERROR)
      | Some entries =>
          let h := h <| hp_entries := Some entries |> in
          match storage_alloc with
          | None => (h <| hp_storage := [] |>, NGX_ERROR)
          | Some storage => (h <| hp_storage := storage |> <| hp_pos := 0%nat |>, NGX_OK)
          end
      end
  end.

(** The structure for a new entry. *)
Definition take_entry (h : hpack) : outcome (hpack * option Z) :=
  if hp_reused h =? hp_deleted h then Ok (h, entry_alloc (hp_heap h))
  else a ← slot_at h (hp_reused h); Ok (h <| hp_reused := to_u64 (hp_reused h + 1) |>, Some a).

(** The strings, and where they are. *)
Definition put_strings (h : hpack) (a : Z) (name value : list Z) : outcome hpack :=
  let avail := Z.to_nat (NGX_HTTP_V2_TABLE_SIZE - Z.of_nat (hp_pos h)) in
  let name_data := hp_pos h in
  '(storage, pos) ← ring_put (hp_storage h) (hp_pos h) avail name;
  let avail := ((if (length name <=? avail)%nat then avail else Z.to_nat NGX_HTTP_V2_TABLE_SIZE) - length name)%nat in
  let value_data := pos in
  '(storage, pos) ← ring_put storage pos avail value;
  Ok (h <| hp_heap := <[a := mk_entry (length name) name_data (length value) value_data]> (hp_heap h) |>
        <| hp_storage := storage |> <| hp_pos := pos |>).

(** The growth of the ring of pointers, when it is full: [None] when there is no memory. *)
Definition table_grow (h : hpack) : outcome (option hpack) :=
  if hp_allocated h =? to_u64 (hp_added h - hp_deleted h) then
    match entries_alloc (hp_allocated h + 64), hp_entries h with
    | None, _ => Ok None
    | Some memory, Some old =>
        if hp_allocated h =? 0 then UB
        else
          let index := Z.to_nat (hp_deleted h mod hp_allocated h) in
          '(entries, n) ← copy_bytes memory 0 (drop index old);
          '(entries, _) ← copy_bytes entries n (take index old);
          Ok (Some (h <| hp_entries := Some entries |> <| hp_added := hp_allocated h |> <| hp_deleted := 0 |>
                      <| hp_reused := 0 |> <| hp_allocated := hp_allocated h + 64 |>))
    | Some _, None => UB
    end
  else Ok (Some h).

(** [h2c->hpack.entries[h2c->hpack.added++ % h2c->hpack.allocated] = entry] *)
Definition push_entry (h : hpack) (a : Z) : outcome hpack :=
  match hp_entries h with
  | Some entries =>
      if hp_allocated h =? 0 then UB
      else
        entries ← store entries (Z.to_nat (hp_added h mod hp_allocated h)) a;
        Ok (h <| hp_entries := Some entries |> <| hp_added := to_u64 (hp_added h + 1) |>)
  | None => UB
  end.

Definition ngx_http_v2_add_header (h : hpack) (name value : list Z) : outcome (hpack * Z) :=
  let '(h, rc) := table_init h in
  if negb (rc =? NGX_OK) then Ok (h, NGX_ERROR)
  else
    '(h, rc) ← ngx_http_v2_table_account h (Z.of_nat (length name) + Z.of_nat (length value));
    if negb (rc =? NGX_OK) then Ok (h, NGX_OK)
    else
      '(h, entry) ← take_entry h;
      match entry with
      | None => Ok (h, NGX_ERROR)
      | Some a =>
          h ← put_strings h a name value;
          r ← table_grow h;
          match r with None => Ok (h, NGX_ERROR) | Some h => h ← push_entry h a; Ok (h, NGX_OK) end
      end.

(** [size - needed] is signed. *)
Fixpoint table_size_loop (fuel : nat) (h : hpack) (needed : Z) : outcome hpack :=
  match fuel with
  | O => NoFuel
  | S fuel' => if hp_free h <? needed then h ← table_evict h; table_size_loop fuel' h needed else Ok h
  end.

Definition ngx_http_v2_table_size (h : hpack) (size : Z) : outcome (hpack * Z) :=
  if NGX_HTTP_V2_TABLE_SIZE <? size then Ok (h, NGX_ERROR)
  else
    let needed := hp_size h - size in
    h ← table_size_loop table_fuel h needed;
    Ok (h <| hp_size := size |> <| hp_free := hp_free h - needed |>, NGX_OK).

End table.

(** ** Examples *)

Definition empty_hpack : hpack := mk_hpack None ∅ 0 0 0 0 0 0 [] 0.

(** Addresses one above another. *)
Definition next_address (m : gmap Z entry) : option Z := Some (Z.of_nat (size m)).

Definition demo_add : hpack -> list Z -> list Z -> outcome (hpack * Z) :=
  ngx_http_v2_add_header (fun n => Some (replicate (Z.to_nat n) 0)) (Some (replicate 4096 0)) next_address.
Definition demo_get : hpack -> Z -> outcome (header * Z) :=
  fun h i => ngx_http_v2_get_indexed_header (fun _ => true) h ([], []) i false.

Example table_example :
  ('(h, _) ← demo_add empty_hpack (bytes "a") (bytes "1");
   '(h, _) ← demo_add h (bytes "b") (bytes "22");
   '(h, rc) ← ngx_http_v2_table_size h 60;
   r0 ← demo_get h 2; r1 ← demo_get h 62; r2 ← demo_get h 63; Ok (rc, r0, r1, r2.2)) =
  Ok (NGX_OK, ((bytes ":method", bytes "GET"), NGX_OK), ((bytes "b", bytes "22"), NGX_OK), NGX_ERROR).
Proof. vm_compute. reflexivity. Qed.

(** A size that is set before the first entry is forgotten when the entry is added: with
    no room for any entry the table has one. *)
Example size_forgotten :
  ('(h, rc) ← ngx_http_v2_table_size empty_hpack 0;
   '(h, _) ← demo_add h (bytes "a") (bytes "1");
   r ← demo_get h 62; Ok (rc, r, hp_size h)) = Ok (NGX_OK, ((bytes "a", bytes "1"), NGX_OK), 4096).
Proof. vm_compute. reflexivity. Qed.

(** A table whose storage could not be allocated is taken for one that was made. *)
Example storage_failed :
  (let add storage := ngx_http_v2_add_header (fun n => Some (replicate (Z.to_nat n) 0)) storage next_address in
   '(h, rc) ← add None empty_hpack (bytes "a") (bytes "1");
   Ok (rc, hp_size h, hp_free h, bool_decide (is_Some (hp_entries h)), add (Some (replicate 4096 0)) h (bytes "a") (bytes "1"))) =
  Ok (NGX_ERROR, 4096, 4096, true, UB).
Proof. vm_compute. reflexivity. Qed.
