(* ===== verification/HpackTableTheory.v ===== *)
(** Component "HPACK", continued: the dynamic table is a queue of headers of bounded size. *)

From stdpp Require Import base numbers list option gmap.
From Stdlib Require Import ZArith Lia.
From S2P Require Import Prelude HpackString HpackTable.
Local Open Scope Z_scope.

(** * The ring of bytes

    A position grows without end; the byte is at its remainder. *)

Definition ring_index (p : Z) : nat := Z.to_nat (p mod NGX_HTTP_V2_TABLE_SIZE).
Definition holds (st : list Z) (p : Z) (s : list Z) : Prop :=
  forall k c, s !! k = Some c -> st !! ring_index (p + Z.of_nat k) = Some c.

(** [off] is a pointer for the position [p]: the end of the storage stands for its start. *)
Definition at_ring (off : nat) (p : Z) : Prop :=
  Z.of_nat off <= NGX_HTTP_V2_TABLE_SIZE /\ Z.of_nat off mod NGX_HTTP_V2_TABLE_SIZE = p mod NGX_HTTP_V2_TABLE_SIZE.

(** Only the [n] bytes from [p] differ. *)
Definition keep (st st' : list Z) (p : Z) (n : nat) : Prop :=
  forall i, (forall k, (k < n)%nat -> i <> ring_index (p + Z.of_nat k)) -> st' !! i = st !! i.

Lemma size_pos : NGX_HTTP_V2_TABLE_SIZE = 4096. Proof. done. Qed.

Lemma ring_index_ne a b : a < b < a + NGX_HTTP_V2_TABLE_SIZE -> ring_index a <> ring_index b.
Proof.
  rewrite size_pos. unfold ring_index. rewrite size_pos. intros H E.
  pose proof (Z.mod_pos_bound a 4096 ltac:(lia)). pose proof (Z.mod_pos_bound b 4096 ltac:(lia)).
  assert (E' : a mod 4096 = b mod 4096) by lia. pose proof (Z.div_mod a 4096 ltac:(lia)). pose proof (Z.div_mod b 4096 ltac:(lia)). nia.
Qed.

(** The index of a position that is not behind the end of the storage, and of one that is. *)
Lemma ring_index_low off p k : at_ring off p -> Z.of_nat off + Z.of_nat k < 4096 -> ring_index (p + Z.of_nat k) = (off + k)%nat.
Proof.
  intros [H1 H2] Hk. unfold ring_index. rewrite size_pos in *. rewrite <- Z.add_mod_idemp_l, <- H2, Z.add_mod_idemp_l by lia.
  rewrite Z.mod_small by lia. lia.
Qed.

Lemma ring_index_high off p k : at_ring off p -> 4096 <= Z.of_nat off + Z.of_nat k < 8192 ->
  ring_index (p + Z.of_nat k) = (k - Z.to_nat (4096 - Z.of_nat off))%nat.
Proof.
  intros [H1 H2] Hk. unfold ring_index. rewrite size_pos in *. rewrite <- Z.add_mod_idemp_l, <- H2, Z.add_mod_idemp_l by lia.
  replace (Z.of_nat off + Z.of_nat k) with (Z.of_nat off + Z.of_nat k - 4096 + 1 * 4096) by lia.
  rewrite Z.mod_add, Z.mod_small by lia. lia.
Qed.

Lemma storage_bytes_ok st off s :
  (forall k c, s !! k = Some c -> st !! (off + k)%nat = Some c) -> (off + length s <= length st)%nat ->
  storage_bytes st off (length s) = Ok s.
Proof.
  intros Hs Hl. unfold storage_bytes. rewrite (proj2 (Nat.leb_le _ _)) by done. f_equal. apply list_eq. intros k.
  destruct (decide (k < length s)%nat) as [Hk|Hk].
  - rewrite lookup_take_lt, lookup_drop by done. destruct (lookup_lt_is_Some_2 s k Hk) as [c Ec]. rewrite Ec. by apply Hs.
  - rewrite !lookup_ge_None_2; [done|lia|]. rewrite length_take, length_drop. lia.
Qed.

Lemma ring_get_ok st off p s :
  Z.of_nat (length st) = 4096 -> at_ring off p -> holds st p s -> Z.of_nat (length s) <= 4096 -> ring_get st off (length s) = Ok s.
Proof.
  intros Hst Hoff Hs Hl. unfold ring_get. rewrite size_pos. set (rest := Z.to_nat (4096 - Z.of_nat off)). pose proof (proj1 Hoff) as Ho. rewrite size_pos in Ho.
  destruct (Nat.ltb_spec rest (length s)) as [Hlt|Hge].
  - assert (E1 : storage_bytes st off rest = Ok (take rest s)).
    { assert (Hr : rest = length (take rest s)) by (rewrite length_take; lia). rewrite Hr at 1. apply storage_bytes_ok; [|rewrite <- Hr; unfold rest; lia].
      intros k c Hk. pose proof (lookup_lt_Some _ _ _ Hk) as Hkl. rewrite <- Hr in Hkl. rewrite lookup_take_lt in Hk by done.
      rewrite <- (ring_index_low off p k Hoff) by (unfold rest in Hkl; lia). by apply Hs. }
    assert (E2 : storage_bytes st 0 (length s - rest) = Ok (drop rest s)).
    { rewrite <- length_drop. apply storage_bytes_ok; [|rewrite length_drop; lia].
      intros k c Hk. rewrite lookup_drop in Hk. pose proof (lookup_lt_Some _ _ _ Hk) as Hkl. specialize (Hs _ _ Hk).
      rewrite (ring_index_high off p (rest + k) Hoff) in Hs by (unfold rest in *; lia). rewrite <- Hs. f_equal. unfold rest. lia. }
    rewrite E1, E2. cbn [mbind outcome_bind]. by rewrite take_drop.
  - apply storage_bytes_ok; [|unfold rest in Hge; lia]. intros k c Hk. pose proof (lookup_lt_Some _ _ _ Hk) as Hkl.
    rewrite <- (ring_index_low off p k Hoff) by (unfold rest in Hge; lia). by apply Hs.
Qed.

Lemma copy_bytes_lookup s st pos :
  (pos + length s <= length st)%nat ->
  exists st', copy_bytes st pos s = Ok (st', (pos + length s)%nat) /\ length st' = length st /\
    forall i, st' !! i = if decide (pos <= i < pos + length s)%nat then s !! (i - pos)%nat else st !! i.
Proof.
  revert st pos. induction s as [|c s IH]; intros st pos Hl; cbn [copy_bytes length] in *.
  - exists st. rewrite Nat.add_0_r. split; [done|]. split; [done|]. intros i. by rewrite decide_False by lia.
  - unfold store at 1. rewrite (proj2 (Nat.ltb_lt _ _)) by lia. cbn [mbind outcome_bind].
    destruct (IH (<[pos := c]> st) (S pos)) as (st' & -> & Hl' & Hi); [rewrite length_insert; lia|]. exists st'.
    split; [do 2 f_equal; lia|]. split; [by rewrite Hl', length_insert|]. intros i. rewrite Hi.
    destruct (decide (S pos <= i < S pos + length s)%nat) as [H1|H1].
    + rewrite decide_True by lia. by replace (i - pos)%nat with (S (i - S pos)) by lia.
    + destruct (decide (i = pos)) as [->|Hne].
      * rewrite decide_True by lia. rewrite Nat.sub_diag. apply list_lookup_insert_eq. lia.
      * rewrite decide_False by lia. by apply list_lookup_insert_ne.
Qed.

Lemma ring_put_ok st off avail p s :
  Z.of_nat (length st) = 4096 -> at_ring off p -> Z.of_nat (length s) <= 4096 ->
  Z.of_nat avail = 4096 - Z.of_nat off \/ (length s <= avail)%nat /\ Z.of_nat off + Z.of_nat (length s) <= 4096 ->
  exists st' off', ring_put st off avail s = Ok (st', off') /\ Z.of_nat (length st') = 4096 /\ at_ring off' (p + Z.of_nat (length s)) /\
    holds st' p s /\ keep st st' p (length s) /\ off' = (if (length s <=? avail)%nat then off + length s else length s - avail)%nat.
Proof.
  intros Hst Hoff Hl Hav. unfold ring_put. pose proof Hoff as [Ho1 Ho2]. rewrite size_pos in Ho1, Ho2.
  destruct (Nat.leb_spec (length s) avail) as [Hle|Hgt].
  - destruct (copy_bytes_lookup s st off) as (st' & -> & Hl' & Hi); [lia|]. exists st', (off + length s)%nat. split; [done|]. split; [lia|].
    split; [|split; [|split; [|done]]].
    + split; rewrite size_pos; [lia|]. rewrite Nat2Z.inj_add, <- Z.add_mod_idemp_l, Ho2 by lia. by rewrite Z.add_mod_idemp_l by lia.
    + intros k c Hk. pose proof (lookup_lt_Some _ _ _ Hk). rewrite (ring_index_low off) by (done || lia). rewrite Hi, decide_True by lia.
      rewrite <- Hk. f_equal. lia.
    + intros i Hk. rewrite Hi. destruct (decide _) as [Hd|]; [|done]. exfalso. apply (Hk (i - off)%nat ltac:(lia)).
      rewrite (ring_index_low off) by (done || lia). lia.
  - assert (Havail : Z.of_nat avail = 4096 - Z.of_nat off) by lia.
    assert (Ht : length (take avail s) = avail) by (rewrite length_take; lia).
    destruct (copy_bytes_lookup (take avail s) st off) as (st1 & -> & Hl1 & Hi1); [lia|]. cbn [mbind outcome_bind].
    destruct (copy_bytes_lookup (drop avail s) st1 0) as (st2 & -> & Hl2 & Hi2); [rewrite length_drop; lia|]. rewrite length_drop in *. rewrite Ht in *.
    eexists st2, _. split; [done|]. split; [lia|]. split; [|split; [|split; [|done]]].
    + split; rewrite size_pos; [lia|]. rewrite <- Z.add_mod_idemp_l, <- Ho2, Z.add_mod_idemp_l by lia.
      replace (Z.of_nat off + Z.of_nat (length s)) with (Z.of_nat (0 + (length s - avail)) + 1 * 4096) by lia. by rewrite Z.mod_add by lia.
    + intros k c Hk. pose proof (lookup_lt_Some _ _ _ Hk). rewrite Hi2. destruct (decide (k < avail)%nat) as [Hka|Hka].
      * rewrite (ring_index_low off) by (done || lia). rewrite decide_False by lia. rewrite Hi1, decide_True by lia.
        rewrite lookup_take_lt by lia. rewrite <- Hk. f_equal. lia.
      * rewrite (ring_index_high off) by (done || lia). rewrite decide_True by lia. rewrite lookup_drop, <- Hk. f_equal. lia.
    + intros i Hk. rewrite Hi2. destruct (decide _) as [Hd|Hd].
      * exfalso. apply (Hk (avail + i)%nat ltac:(lia)). rewrite (ring_index_high off) by (done || lia). lia.
      * rewrite Hi1. destruct (decide _) as [Hd'|]; [|done]. exfalso. apply (Hk (i - off)%nat ltac:(lia)).
        rewrite (ring_index_low off) by (done || lia). lia.
Qed.

Lemma holds_keep st st' p s q n :
  holds st p s -> keep st st' q n -> p + Z.of_nat (length s) <= q -> q + Z.of_nat n <= p + 4096 -> holds st' p s.
Proof.
  intros Hs Hk H1 H2 k c Hc. pose proof (lookup_lt_Some _ _ _ Hc). rewrite Hk; [by apply Hs|]. intros j Hj. apply ring_index_ne. rewrite size_pos. lia.
Qed.

(** * The invariant *)

Definition header_bytes (x : header) : Z := Z.of_nat (length x.1) + Z.of_nat (length x.2).
Definition cost (x : header) : Z := 32 + header_bytes x.
Fixpoint total (T : list header) : Z := match T with [] => 0 | x :: T' => cost x + total T' end.
Fixpoint bytes_in (T : list header) : Z := match T with [] => 0 | x :: T' => header_bytes x + bytes_in T' end.

Lemma total_bytes T : total T = bytes_in T + 32 * Z.of_nat (length T) /\ 0 <= bytes_in T.
Proof. induction T as [|x T IH]; [done|]. cbn [total bytes_in length]. unfold cost, header_bytes. lia. Qed.

Lemma total_app T1 T2 : total (T1 ++ T2) = total T1 + total T2.
Proof. induction T1 as [|x T IH]; [done|]. cbn [total app]. lia. Qed.

Lemma bytes_in_app T1 T2 : bytes_in (T1 ++ T2) = bytes_in T1 + bytes_in T2.
Proof. induction T1 as [|x T IH]; [done|]. cbn [bytes_in app]. lia. Qed.

(** An entry is the address of its structure and its header. *)
Abbreviation item := (Z * header)%type.

Definition item_laid (heap : gmap Z entry) (st : list Z) (p : Z) (x : item) : Prop :=
  let '(a, (name, value)) := x in
  exists e, heap !! a = Some e /\ en_name_len e = length name /\ en_value_len e = length value /\
    at_ring (en_name e) p /\ at_ring (en_value e) (p + Z.of_nat (length name)) /\ holds st p (name ++ value).

(** The entries lie one behind the other in the ring, from the oldest. *)
Fixpoint laid (heap : gmap Z entry) (st : list Z) (p : Z) (L : list item) : Prop :=
  match L with [] => True | x :: L' => item_laid heap st p x /\ laid heap st (p + header_bytes x.2) L' end.

Lemma laid_app heap st p L1 L2 : laid heap st p (L1 ++ L2) <-> laid heap st p L1 /\ laid heap st (p + bytes_in L1.*2) L2.
Proof.
  revert p. induction L1 as [|x L1 IH]; intros p; cbn [laid app fmap list_fmap bytes_in]; [rewrite Z.add_0_r; tauto|].
  rewrite IH. rewrite Z.add_assoc. tauto.
Qed.

Lemma laid_frame heap st st' a e p q n L :
  laid heap st p L -> (a ∉ L.*1) -> keep st st' q n -> p + bytes_in L.*2 <= q -> q + Z.of_nat n <= p + 4096 ->
  laid (<[a := e]> heap) st' p L.
Proof.
  revert p. induction L as [|[b [name value]] L IH]; intros p; cbn [laid fmap list_fmap bytes_in]; [done|].
  intros [(d & E1 & E2 & E3 & E4 & E5 & E6) HL] Ha Hk H1 H2. cbn [snd header_bytes fst] in *. unfold header_bytes in H1. cbn [fst snd] in H1.
  pose proof (proj2 (total_bytes L.*2)) as Hb. apply not_elem_of_cons in Ha as [Ha1 Ha2].
  split; [|apply IH; [done|done|done|unfold header_bytes; cbn [fst snd]; lia|unfold header_bytes; cbn [fst snd]; lia]].
  exists d. rewrite lookup_insert_ne by done. split_and!; try done. eapply holds_keep; [exact E6|exact Hk| |lia]. rewrite length_app. lia.
Qed.

Record table_in (h : hpack) (slots dead : list Z) (L : list item) (p r x : Z) : Prop := {
  ti_entries : hp_entries h = Some slots;
  ti_slots_len : Z.of_nat (length slots) = hp_allocated h;
  ti_allocated : 0 < hp_allocated h < 2 ^ 64;
  ti_storage : Z.of_nat (length (hp_storage h)) = 4096;
  ti_reused : 0 <= hp_reused h;
  ti_deleted : hp_deleted h = hp_reused h + Z.of_nat (length dead);
  ti_added : hp_added h = hp_deleted h + Z.of_nat (length L);
  ti_word : hp_added h < 2 ^ 64;
  ti_room : Z.of_nat (length dead) + Z.of_nat (length L) <= hp_allocated h;
  ti_slots : forall j a, (dead ++ L.*1) !! j = Some a -> slots !! Z.to_nat ((hp_reused h + Z.of_nat j) mod hp_allocated h) = Some a;
  ti_nodup : NoDup (dead ++ L.*1);
  ti_dead : forall a, a ∈ dead -> is_Some (hp_heap h !! a);
  ti_laid : laid (hp_heap h) (hp_storage h) p L;
  ti_pos : at_ring (hp_pos h) (p + bytes_in L.*2 + x);
  ti_free : hp_free h = hp_size h - total L.*2 - r;
  ti_free_pos : 0 <= hp_free h;
  ti_size : hp_size h <= 4096;
  ti_reserved : 0 <= r
}.

Lemma slot_at_ok h slots dead L p r x j a :
  table_in h slots dead L p r x -> (dead ++ L.*1) !! j = Some a -> slot_at h (hp_reused h + Z.of_nat j) = Ok a.
Proof.
  intros H Hj. unfold slot_at. rewrite (ti_entries _ _ _ _ _ _ _ H). pose proof (ti_allocated _ _ _ _ _ _ _ H).
  rewrite (proj2 (Z.eqb_neq _ 0)) by lia. unfold deref. by rewrite (ti_slots _ _ _ _ _ _ _ H j a Hj).
Qed.

(** ** The removal of the oldest entry *)

Lemma table_evict_ok h slots dead y L p r x :
  table_in h slots dead (y :: L) p r x -> exists h', table_evict h = Ok h' /\
    table_in h' slots (dead ++ [y.1]) L (p + header_bytes y.2) r x /\ hp_size h' = hp_size h /\ hp_added h' = hp_added h /\
    hp_free h' = hp_free h + cost y.2.
Proof.
  intros H. pose proof H as [T1 T2 T3 T4 T5 T6 T7 T8 T9 T10 T11 T12 T13 T14 T15 T16 T17 T18].
  destruct y as [a [name value]]. cbn [fst snd fmap list_fmap length laid bytes_in total] in *.
  unfold table_evict. rewrite T6. rewrite (slot_at_ok _ _ _ _ _ _ _ _ a H) by (cbn [fmap list_fmap fst]; by rewrite list_lookup_middle).
  cbn [mbind outcome_bind]. destruct T13 as [(e & E1 & E2 & E3 & E4) HL]. unfold entry_at. rewrite E1. cbn [mbind outcome_bind].
  pose proof (total_bytes L.*2) as [Ht Hb]. unfold cost, header_bytes in *. cbn [fst snd] in *.
  assert (Ef : to_u64 (hp_free h + (32 + Z.of_nat (en_name_len e) + Z.of_nat (en_value_len e))) =
    hp_free h + (32 + (Z.of_nat (length name) + Z.of_nat (length value)))).
  { rewrite E2, E3. unfold to_u64. rewrite Z.mod_small; [lia|]. change (2 ^ 64) with 18446744073709551616. lia. }
  assert (Ed : to_u64 (hp_reused h + Z.of_nat (length dead) + 1) = hp_reused h + Z.of_nat (length dead) + 1).
  { unfold to_u64. apply Z.mod_small. lia. }
  eexists. split; [done|]. rewrite Ef, Ed.
  split; [|split; [done|split; done]]. split; cbn [hp_entries hp_allocated hp_storage hp_reused hp_deleted hp_added hp_heap hp_pos hp_free hp_size update_field];
    rewrite ?length_app; cbn [length]; try done; try lia.
  - intros j b Hj. rewrite <- app_assoc in Hj. by apply T10.
  - by rewrite <- app_assoc.
  - intros b Hb'. apply elem_of_app in Hb' as [Hb'|Hb']; [by apply T12|]. apply list_elem_of_singleton in Hb' as ->. by eexists.
  - unfold header_bytes. cbn [fst snd]. replace (p + (Z.of_nat (length name) + Z.of_nat (length value)) + bytes_in L.*2 + x) with
      (p + (Z.of_nat (length name) + Z.of_nat (length value) + bytes_in L.*2) + x) by lia. done.
Qed.

(** What is left when the oldest are removed until [need] more fits. *)
Fixpoint evict (need limit : Z) (T : list header) : list header :=
  match T with [] => [] | x :: T' => if total T + need <=? limit then T else evict need limit T' end.

Lemma evict_fits need limit T : total T + need <= limit -> evict need limit T = T.
Proof. intros H. destruct T as [|x T]; [done|]. cbn [evict]. by rewrite (proj2 (Z.leb_le _ _)) by done. Qed.

Lemma evict_total need limit T : need <= limit -> total (evict need limit T) + need <= limit.
Proof. intros H. induction T as [|x T IH]; [done|]. cbn [evict]. destruct (Z.leb_spec (total (x :: T) + need) limit); [done|apply IH]. Qed.

Lemma entries_few h slots dead L p r x : table_in h slots dead L p r x -> 0 <= hp_size h /\ Z.of_nat (length L) <= 128.
Proof.
  intros H. pose proof (total_bytes L.*2) as [H1 H2]. rewrite length_fmap in H1.
  pose proof (ti_free _ _ _ _ _ _ _ H). pose proof (ti_free_pos _ _ _ _ _ _ _ H). pose proof (ti_size _ _ _ _ _ _ _ H). pose proof (ti_reserved _ _ _ _ _ _ _ H). lia.
Qed.

(** The two loops. *)
Lemma account_loop_ok fuel h slots dead L p x need :
  table_in h slots dead L p 0 x -> (length L <= fuel)%nat -> hp_free h < need -> need <= hp_size h ->
  exists h' dead' L' p', account_loop fuel h need = Ok h' /\ table_in h' slots dead' L' p' 0 x /\
    L'.*2 = evict need (hp_size h) L.*2 /\ need <= hp_free h' /\ hp_size h' = hp_size h /\ hp_added h' = hp_added h.
Proof.
  revert h dead L p. induction fuel as [|fuel IH]; intros h dead L p H Hf Hfree Hsize.
  { destruct L; [|cbn in Hf; lia]. pose proof (ti_free _ _ _ _ _ _ _ H). cbn in *. lia. }
  destruct L as [|y L]; [pose proof (ti_free _ _ _ _ _ _ _ H); cbn in *; lia|]. cbn [account_loop].
  destruct (table_evict_ok _ _ _ _ _ _ _ _ H) as (h1 & -> & H1 & S1 & A1 & F1). cbn [mbind outcome_bind].
  pose proof (ti_free _ _ _ _ _ _ _ H) as Ef. cbn [fmap list_fmap total evict] in *.
  rewrite (proj2 (Z.leb_gt _ _)) by lia. pose proof (ti_free _ _ _ _ _ _ _ H1) as Ef1. rewrite S1 in Ef1.
  destruct (Z.ltb_spec (hp_free h1) need) as [Hlt|Hge].
  - destruct (IH h1 _ L _ H1) as (h' & dead' & L' & p' & E & H' & EL & Hn & S' & A'); [cbn in Hf; lia|done|lia|].
    exists h', dead', L', p'. rewrite <- S1. split_and!; try done; congruence.
  - exists h1, (dead ++ [y.1]), L, (p + header_bytes y.2). split; [done|]. split; [done|]. split; [by rewrite evict_fits by lia|done].
Qed.

Lemma table_size_loop_ok fuel h slots dead L p x size :
  table_in h slots dead L p 0 x -> (length L < fuel)%nat -> 0 <= size ->
  exists h' dead' L' p', table_size_loop fuel h (hp_size h - size) = Ok h' /\ table_in h' slots dead' L' p' 0 x /\
    L'.*2 = evict 0 size L.*2 /\ hp_size h - size <= hp_free h' /\ hp_size h' = hp_size h /\ hp_added h' = hp_added h.
Proof.
  intros H Hf Hs. remember (hp_size h - size) as needed eqn:En. revert h dead L p H Hf En. induction fuel as [|fuel IH]; intros h dead L p H Hf En; [lia|].
  cbn [table_size_loop]. pose proof (ti_free _ _ _ _ _ _ _ H) as Ef. destruct (Z.ltb_spec (hp_free h) needed) as [Hlt|Hge].
  - destruct L as [|y L]; [cbn in *; lia|].
    destruct (table_evict_ok _ _ _ _ _ _ _ _ H) as (h1 & -> & H1 & S1 & A1 & F1). cbn [mbind outcome_bind].
    destruct (IH h1 _ L _ H1) as (h' & dead' & L' & p' & E & H' & EL & Hn & S' & A'); [cbn in Hf; lia|lia|].
    exists h', dead', L', p'. cbn [fmap list_fmap total evict] in *. rewrite (proj2 (Z.leb_gt _ _)) by lia. split_and!; try done; congruence.
  - exists h, dead, L, p. split_and!; try done. by rewrite evict_fits by lia.
Qed.

(** ** The structure for a new entry *)

Section alloc.
Context (string_alloc : nat -> bool) (entries_alloc : Z -> option (list Z)) (storage_alloc : option (list Z))
  (entry_alloc : gmap Z entry -> option Z).

(** The memory has the length that was asked for, and a structure a new address. *)
Record allocators : Prop := {
  al_entries : forall n m, 0 <= n -> entries_alloc n = Some m -> Z.of_nat (length m) = n;
  al_storage : forall m, storage_alloc = Some m -> Z.of_nat (length m) = 4096;
  al_entry : forall m a, entry_alloc m = Some a -> m !! a = None
}.
Context (Halloc : allocators).

Lemma laid_heap heap st p L a : laid heap st p L -> a ∈ L.*1 -> is_Some (heap !! a).
Proof.
  revert p. induction L as [|[b [n v]] L IH]; intros p; cbn [laid fmap list_fmap fst]; [by intros _ ?%not_elem_of_nil|].
  intros [(e & E & _) HL] [->|Ha]%elem_of_cons; [by eexists|]. by eapply IH.
Qed.

Lemma take_entry_ok h slots dead L p r x :
  table_in h slots dead L p r x ->
  exists h' o, take_entry entry_alloc h = Ok (h', o) /\
    match o with
    | None => entry_alloc (hp_heap h) = None
    | Some a => exists dead', table_in h' slots dead' L p r x /\ (a ∉ dead' ++ L.*1) /\ hp_added h' = hp_added h /\ hp_size h' = hp_size h /\
        hp_allocated h' = hp_allocated h /\ (dead' = [] \/ Z.of_nat (length dead') + Z.of_nat (length L) < hp_allocated h)
    end.
Proof.
  intros H. pose proof H as [T1 T2 T3 T4 T5 T6 T7 T8 T9 T10 T11 T12 T13 T14 T15 T16 T17 T18]. unfold take_entry.
  destruct dead as [|a dead].
  - cbn [length] in T6. rewrite (proj2 (Z.eqb_eq (hp_reused h) _)) by lia. exists h, (entry_alloc (hp_heap h)). split; [done|].
    destruct (entry_alloc (hp_heap h)) as [a|] eqn:Ea; [|done]. exists []. split; [done|]. split; [|by split_and!; [..|left]].
    cbn [app]. intros Ha. destruct (laid_heap _ _ _ _ _ T13 Ha) as [e E]. by rewrite (al_entry Halloc _ _ Ea) in E.
  - cbn [length app] in *. rewrite (proj2 (Z.eqb_neq (hp_reused h) _)) by lia.
    pose proof (slot_at_ok _ _ _ _ _ _ _ 0 a H eq_refl) as E. change (Z.of_nat 0) with 0 in E. rewrite Z.add_0_r in E. rewrite E. cbn [mbind outcome_bind].
    assert (Er : to_u64 (hp_reused h + 1) = hp_reused h + 1) by (unfold to_u64; apply Z.mod_small; lia). rewrite Er.
    apply NoDup_cons in T11 as [Ha T11]. eexists _, (Some a). split; [done|]. exists dead.
    split; [|split_and!; try done; right; lia].
    split; cbn [hp_entries hp_allocated hp_storage hp_reused hp_deleted hp_added hp_heap hp_pos hp_free hp_size update_field]; try done; try lia.
    + intros j b Hj. rewrite <- (T10 (S j) b Hj). do 3 f_equal. lia.
    + intros b Hb. apply T12. by right.
Qed.

(** ** The strings of a new entry *)

Lemma put_strings_ok h slots dead L p r a name value :
  table_in h slots dead L p r 0 -> (a ∉ dead ++ L.*1) -> cost (name, value) <= r ->
  exists h', put_strings h a name value = Ok h' /\ table_in h' slots dead L p r (header_bytes (name, value)) /\
    item_laid (hp_heap h') (hp_storage h') (p + bytes_in L.*2) (a, (name, value)) /\
    hp_added h' = hp_added h /\ hp_size h' = hp_size h /\ hp_allocated h' = hp_allocated h.
Proof.
  intros H Ha Hr. pose proof H as [T1 T2 T3 T4 T5 T6 T7 T8 T9 T10 T11 T12 T13 T14 T15 T16 T17 T18].
  destruct (total_bytes L.*2) as [Ht Hb]. unfold cost, header_bytes in *. cbn [fst snd] in *. rewrite Z.add_0_r in T14.
  unfold put_strings. rewrite size_pos. pose proof T14 as [Hpos _]. rewrite size_pos in Hpos.
  destruct (ring_put_ok (hp_storage h) (hp_pos h) (Z.to_nat (4096 - Z.of_nat (hp_pos h))) _ name T4 T14 ltac:(lia) ltac:(left; lia))
    as (st1 & off1 & -> & L1 & R1 & H1 & K1 & Eoff1). cbn [mbind outcome_bind]. pose proof R1 as [Hoff1 _]. rewrite size_pos in Hoff1.
  set (q := p + bytes_in L.*2) in *.
  destruct (ring_put_ok st1 off1 ((if (length name <=? Z.to_nat (4096 - Z.of_nat (hp_pos h)))%nat then Z.to_nat (4096 - Z.of_nat (hp_pos h)) else Z.to_nat 4096) - length name)
    (q + Z.of_nat (length name)) value L1 R1 ltac:(lia)) as (st2 & off2 & -> & L2 & R2 & H2 & K2 & _).
  { rewrite Eoff1. destruct (Nat.leb_spec (length name) (Z.to_nat (4096 - Z.of_nat (hp_pos h)))); lia. }
  cbn [mbind outcome_bind].
  assert (K : keep (hp_storage h) st2 q (length name + length value)).
  { intros i Hi. rewrite K2, K1; [done|intros k Hk; apply Hi; lia|]. intros k Hk. specialize (Hi (length name + k)%nat ltac:(lia)).
    by rewrite Nat2Z.inj_add, Z.add_assoc in Hi. }
  apply not_elem_of_app in Ha as [Ha1 Ha2].
  eexists. split; [done|]. cbn [hp_heap hp_storage hp_added hp_size hp_allocated update_field]. split; [|split; [|done]].
  - split; cbn [hp_entries hp_allocated hp_storage hp_reused hp_deleted hp_added hp_heap hp_pos hp_free hp_size update_field]; try done; try lia.
    + intros b Hb'. rewrite lookup_insert_ne by (intros <-; done). by apply T12.
    + eapply laid_frame; [exact T13|done|exact K|lia|]. unfold q. rewrite Nat2Z.inj_add. lia.
    + fold q. by rewrite Z.add_assoc.
  - exists (mk_entry (length name) (hp_pos h) (length value) off1). rewrite lookup_insert_eq. split_and!; try done.
    intros k c Hk. destruct (decide (k < length name)%nat) as [Hkn|Hkn].
    + rewrite lookup_app_l in Hk by done. eapply (holds_keep st1 st2 q name); [exact H1|exact K2|lia|lia|done].
    + rewrite lookup_app_r in Hk by lia. replace (q + Z.of_nat k) with (q + Z.of_nat (length name) + Z.of_nat (k - length name)) by lia.
      by apply H2.
Qed.

(** ** The ring of pointers *)

Lemma slots_inj (a n i j : Z) : 0 < n -> 0 <= i < n -> 0 <= j < n -> (a + i) mod n = (a + j) mod n -> i = j.
Proof.
  intros Hn Hi Hj E. pose proof (Z.div_mod (a + i) n ltac:(lia)) as E1. pose proof (Z.div_mod (a + j) n ltac:(lia)) as E2.
  rewrite E in E1. set (x := (a + i) / n) in *. set (y := (a + j) / n) in *. assert (Ed : i - j = n * (x - y)) by lia.
  assert (x - y = 0) by nia. lia.
Qed.

Lemma table_grow_ok h slots dead L p r x :
  table_in h slots dead L p r x -> dead = [] \/ Z.of_nat (length dead) + Z.of_nat (length L) < hp_allocated h ->
  exists o, table_grow entries_alloc h = Ok o /\
    match o with
    | None => entries_alloc (hp_allocated h + 64) = None
    | Some h' => exists slots' dead', table_in h' slots' dead' L p r x /\ (forall a, a ∈ dead' -> a ∈ dead) /\
        Z.of_nat (length dead') + Z.of_nat (length L) < hp_allocated h' /\ hp_heap h' = hp_heap h /\ hp_storage h' = hp_storage h /\
        hp_size h' = hp_size h /\ (hp_added h' <= hp_added h \/ hp_added h' <= 128)
    end.
Proof.
  intros H Hroom. pose proof H as [T1 T2 T3 T4 T5 T6 T7 T8 T9 T10 T11 T12 T13 T14 T15 T16 T17 T18]. unfold table_grow.
  pose proof (proj2 (entries_few _ _ _ _ _ _ _ H)) as Hfew.
  assert (Ed : to_u64 (hp_added h - hp_deleted h) = Z.of_nat (length L)) by (unfold to_u64; rewrite Z.mod_small by lia; lia). rewrite Ed.
  destruct (Z.eqb_spec (hp_allocated h) (Z.of_nat (length L))) as [Efull|Hne].
  - assert (dead = []) as -> by (destruct dead; [done|cbn in T9; lia]). cbn [length app] in *.
    destruct (entries_alloc (hp_allocated h + 64)) as [memory|] eqn:Em; [|by eexists]. rewrite T1. rewrite (proj2 (Z.eqb_neq (hp_allocated h) 0)) by lia.
    pose proof (al_entries Halloc (hp_allocated h + 64) _ ltac:(lia) Em) as Hml. set (idx := Z.to_nat (hp_deleted h mod hp_allocated h)).
    pose proof (Z.mod_pos_bound (hp_deleted h) (hp_allocated h) ltac:(lia)) as Hidx.
    destruct (copy_bytes_lookup (drop idx slots) memory 0) as (m1 & -> & Hl1 & Hi1); [rewrite length_drop; lia|]. cbn [mbind outcome_bind].
    rewrite length_drop in *.
    destruct (copy_bytes_lookup (take idx slots) m1 (0 + (length slots - idx))) as (m2 & -> & Hl2 & Hi2); [rewrite length_take; lia|].
    cbn [mbind outcome_bind]. rewrite length_take in *. eexists. split; [done|]. exists m2, [].
    split; [|split; [done|split; [cbn; lia|split_and!; try done; cbn; lia]]].
    split; cbn [hp_entries hp_allocated hp_storage hp_reused hp_deleted hp_added hp_heap hp_pos hp_free hp_size update_field length app]; try done; try lia.
    intros j a Hj. pose proof (lookup_lt_Some _ _ _ Hj) as Hjl. rewrite length_fmap in Hjl. rewrite Z.add_0_l, Z.mod_small, Nat2Z.id by lia.
    rewrite <- (T10 j a Hj), Hi2. replace (hp_reused h) with (hp_deleted h) by lia. unfold idx in *.
    rewrite <- Z.add_mod_idemp_l by lia. set (d := hp_deleted h mod hp_allocated h) in *.
    destruct (decide (Z.of_nat j < hp_allocated h - d)) as [Hlow|Hhigh].
    + rewrite decide_False by lia. rewrite Hi1, decide_True by lia. rewrite lookup_drop. f_equal. rewrite Z.mod_small by lia. lia.
    + rewrite decide_True by lia. rewrite lookup_take_lt by lia. f_equal.
      replace (d + Z.of_nat j) with (d + Z.of_nat j - hp_allocated h + 1 * hp_allocated h) by lia. rewrite Z.mod_add, Z.mod_small by lia. lia.
  - eexists. split; [done|]. exists slots, dead. split; [done|]. split; [done|]. split; [|split_and!; try done; by left].
    destruct Hroom as [->|]; [cbn in *; lia|lia].
Qed.

Lemma push_entry_ok h slots dead L p a y :
  table_in h slots dead L p (cost y) (header_bytes y) -> (a ∉ dead ++ L.*1) -> item_laid (hp_heap h) (hp_storage h) (p + bytes_in L.*2) (a, y) ->
  Z.of_nat (length dead) + Z.of_nat (length L) < hp_allocated h -> hp_added h + 1 < 2 ^ 64 ->
  exists h' slots', push_entry h a = Ok h' /\ table_in h' slots' dead (L ++ [(a, y)]) p 0 0 /\ hp_size h' = hp_size h /\
    hp_added h' = hp_added h + 1.
Proof.
  intros H Ha Hy Hroom Hw. pose proof H as [T1 T2 T3 T4 T5 T6 T7 T8 T9 T10 T11 T12 T13 T14 T15 T16 T17 T18]. unfold push_entry.
  rewrite T1. rewrite (proj2 (Z.eqb_neq (hp_allocated h) 0)) by lia.
  pose proof (Z.mod_pos_bound (hp_added h) (hp_allocated h) ltac:(lia)) as Hi. unfold store. rewrite (proj2 (Nat.ltb_lt _ _)) by lia.
  cbn [mbind outcome_bind]. assert (Ea : to_u64 (hp_added h + 1) = hp_added h + 1) by (unfold to_u64; apply Z.mod_small; lia). rewrite Ea.
  eexists _, _. split; [done|]. split; [|done].
  destruct (total_bytes L.*2) as [Ht Hb]. assert (Hc : 0 <= cost y) by (unfold cost, header_bytes; lia).
  assert (EL1 : (L ++ [(a, y)]).*1 = L.*1 ++ [a]) by (by rewrite fmap_app). assert (EL2 : (L ++ [(a, y)]).*2 = L.*2 ++ [y]) by (by rewrite fmap_app).
  assert (El : length (L ++ [(a, y)]) = S (length L)) by (rewrite length_app; cbn; lia).
  split; cbn [hp_entries hp_allocated hp_storage hp_reused hp_deleted hp_added hp_heap hp_pos hp_free hp_size update_field];
    rewrite ?EL1, ?EL2, ?El; try done; try lia.
  - by rewrite length_insert.
  - intros j b Hj. rewrite app_assoc in Hj. destruct (decide (j < length (dead ++ L.*1))%nat) as [Hjl|Hjl].
    + rewrite lookup_app_l in Hj by done. rewrite <- (T10 j b Hj). apply list_lookup_insert_ne. rewrite length_app, length_fmap in Hjl.
      intros E. assert (E' : (hp_reused h + (Z.of_nat (length dead) + Z.of_nat (length L))) mod hp_allocated h = (hp_reused h + Z.of_nat j) mod hp_allocated h).
      { rewrite T7, T6, <- Z.add_assoc in E. pose proof (Z.mod_pos_bound (hp_reused h + Z.of_nat j) (hp_allocated h) ltac:(lia)).
        pose proof (Z.mod_pos_bound (hp_reused h + (Z.of_nat (length dead) + Z.of_nat (length L))) (hp_allocated h) ltac:(lia)). lia. }
      apply slots_inj in E'; lia.
    + rewrite lookup_app_r in Hj by lia. rewrite length_app, length_fmap in *. apply list_lookup_singleton_Some in Hj as [Hj <-].
      replace (hp_reused h + Z.of_nat j) with (hp_added h) by lia. apply list_lookup_insert_eq. lia.
  - rewrite app_assoc. apply NoDup_app. split; [done|]. split; [|apply NoDup_singleton]. intros b Hb' ->%list_elem_of_singleton. done.
  - apply laid_app. split; [done|]. by cbn [laid].
  - rewrite bytes_in_app. cbn [bytes_in]. replace (p + (bytes_in L.*2 + (header_bytes y + 0)) + 0) with (p + bytes_in L.*2 + header_bytes y) by lia. done.
  - rewrite total_app. cbn [total]. lia.
Qed.

(** ** Accounting *)

Lemma table_clear_ok h slots dead L p x :
  table_in h slots dead L p 0 x ->
  table_in (h <| hp_deleted := hp_added h |> <| hp_free := hp_size h |>) slots (dead ++ L.*1) [] (p + bytes_in L.*2) 0 x.
Proof.
  intros H. pose proof H as [T1 T2 T3 T4 T5 T6 T7 T8 T9 T10 T11 T12 T13 T14 T15 T16 T17 T18].
  destruct (entries_few _ _ _ _ _ _ _ H) as [Hsz _]. assert (El : length (dead ++ L.*1) = (length dead + length L)%nat) by (rewrite length_app, length_fmap; lia).
  split; cbn [hp_entries hp_allocated hp_storage hp_reused hp_deleted hp_added hp_heap hp_pos hp_free hp_size update_field fmap list_fmap total bytes_in laid];
    rewrite ?El, ?app_nil_r; try done; try (cbn [length]; lia).
  - intros b Hb. apply elem_of_app in Hb as [Hb|Hb]; [by apply T12|]. by eapply laid_heap.
  - by rewrite Z.add_0_r.
Qed.

Lemma reserve_ok h slots dead L p x r :
  table_in h slots dead L p 0 x -> 0 <= r -> r <= hp_free h -> table_in (h <| hp_free := hp_free h - r |>) slots dead L p r x.
Proof.
  intros [T1 T2 T3 T4 T5 T6 T7 T8 T9 T10 T11 T12 T13 T14 T15 T16 T17 T18] H1 H2.
  split; cbn [hp_entries hp_allocated hp_storage hp_reused hp_deleted hp_added hp_heap hp_pos hp_free hp_size update_field]; try done; lia.
Qed.

Lemma account_ok h slots dead L p y :
  table_in h slots dead L p 0 0 ->
  exists h' dead' L' p', table_in h' slots dead' L' p' (if decide (cost y <= hp_size h) then cost y else 0) 0 /\
    ngx_http_v2_table_account h (header_bytes y) = Ok (h', if decide (cost y <= hp_size h) then NGX_OK else NGX_DECLINED) /\
    L'.*2 = (if decide (cost y <= hp_size h) then evict (cost y) (hp_size h) L.*2 else []) /\ hp_size h' = hp_size h /\ hp_added h' = hp_added h.
Proof.
  intros H. destruct (entries_few _ _ _ _ _ _ _ H) as [Hsz Hfew]. pose proof (ti_free _ _ _ _ _ _ _ H) as Ef.
  assert (Hc : 0 <= cost y) by (unfold cost, header_bytes; lia). unfold ngx_http_v2_table_account.
  replace (header_bytes y + 32) with (cost y) by (unfold cost; lia). pose proof (proj2 (total_bytes L.*2)). pose proof (proj1 (total_bytes L.*2)).
  destruct (Z.leb_spec (cost y) (hp_free h)) as [Hle|Hgt].
  - exists (h <| hp_free := hp_free h - cost y |>), dead, L, p. rewrite !decide_True by lia. split; [by apply reserve_ok|]. split; [done|].
    split; [by rewrite evict_fits by lia|done].
  - destruct (Z.ltb_spec (hp_size h) (cost y)) as [Hbig|Hfit].
    + rewrite !decide_False by lia. eexists _, _, [], _. split; [by apply table_clear_ok|done].
    + rewrite !decide_True by lia.
      destruct (account_loop_ok table_fuel h slots dead L p 0 (cost y) H ltac:(unfold table_fuel; lia) Hgt Hfit) as (h' & dead' & L' & p' & -> & H' & EL & Hn & S' & A').
      cbn [mbind outcome_bind]. eexists _, dead', L', p'. split; [by apply reserve_ok|]. split; [done|]. split; [done|]. by split.
Qed.

(** * The table as a queue *)

(** [T] are the headers from the oldest on, [limit] is the size. *)
Definition table_is (h : hpack) (limit : Z) (T : list header) : Prop :=
  hp_size h = limit /\
  ((hp_entries h = None /\ T = [] /\ hp_added h = 0 /\ hp_deleted h = 0 /\ hp_reused h = 0 /\ hp_free h = limit /\ 0 <= limit <= 4096) \/
   exists slots dead L p, table_in h slots dead L p 0 0 /\ T = L.*2).

(** The size that an addition finds: the first one sets it. *)
Definition limit_at (h : hpack) : Z := match hp_entries h with None => NGX_HTTP_V2_TABLE_SIZE | Some _ => hp_size h end.

Definition no_memory : Prop := (exists n, entries_alloc n = None) \/ storage_alloc = None \/ exists m, entry_alloc m = None.

Lemma table_init_ok h limit T :
  table_is h limit T ->
  let '(h', rc) := table_init entries_alloc storage_alloc h in
  rc = NGX_ERROR /\ no_memory \/
  rc = NGX_OK /\ exists slots dead L p, table_in h' slots dead L p 0 0 /\ T = L.*2 /\ hp_size h' = limit_at h /\ hp_added h' = hp_added h.
Proof.
  intros [Hl [(E & -> & E1 & E2 & E3 & E4 & E5)|(slots & dead & L & p & H & ->)]]; unfold table_init, limit_at.
  - rewrite E. destruct (entries_alloc 64) as [entries|] eqn:Ee; [|left; split; [done|by left; eexists]].
    destruct storage_alloc as [storage|] eqn:Es; [|left; split; [done|by right; left]].
    pose proof (al_entries Halloc 64 _ ltac:(lia) Ee). pose proof (al_storage Halloc _ Es).
    right. split; [done|]. exists entries, [], [], 0. split; [|done].
    split; cbn [hp_entries hp_allocated hp_storage hp_reused hp_deleted hp_added hp_heap hp_pos hp_free hp_size update_field length app fmap list_fmap laid bytes_in total];
      rewrite ?E1, ?E2, ?E3; try done; [by apply NoDup_nil|by intros a ?%not_elem_of_nil].
  - rewrite (ti_entries _ _ _ _ _ _ _ H). right. split; [done|]. by exists slots, dead, L, p.
Qed.

Lemma add_header_ok h limit T y :
  table_is h limit T -> hp_added h + 1 < 2 ^ 64 ->
  exists h' rc, ngx_http_v2_add_header entries_alloc storage_alloc entry_alloc h y.1 y.2 = Ok (h', rc) /\
    (rc = NGX_OK /\ table_is h' (limit_at h) (if decide (cost y <= limit_at h) then evict (cost y) (limit_at h) T ++ [y] else []) \/
     rc = NGX_ERROR /\ no_memory).
Proof.
  intros HT Hw. unfold ngx_http_v2_add_header. pose proof (table_init_ok _ _ _ HT) as Hi.
  destruct (table_init entries_alloc storage_alloc h) as [h0 rc0].
  destruct Hi as [[-> Hm]|(-> & Hi)]; [change (negb (NGX_ERROR =? NGX_OK)) with true; eexists _, _; split; [done|by right]|].
  change (negb (NGX_OK =? NGX_OK)) with false. cbv iota. destruct Hi as (slots & dead & L & p & H & -> & S0 & A0). rewrite <- S0.
  destruct (account_ok _ _ _ _ _ y H) as (h1 & dead1 & L1 & p1 & H1 & E & EL & S1 & A1). unfold header_bytes in E. rewrite E. cbn [mbind outcome_bind].
  case_decide as Hfit; cycle 1.
  { change (negb (NGX_DECLINED =? NGX_OK)) with true. cbv iota. eexists _, _. split; [done|]. left. split; [done|]. split; [done|]. right.
    exists slots, dead1, L1, p1. by rewrite EL. }
  change (negb (NGX_OK =? NGX_OK)) with false. cbv iota.
  destruct (take_entry_ok _ _ _ _ _ _ _ H1) as (h2 & o & -> & Ho). cbn [mbind outcome_bind].
  destruct o as [a|]; [|eexists _, _; split; [done|]; right; split; [done|]; right; right; by eexists].
  destruct Ho as (dead2 & H2 & Ha & A2 & S2 & C2 & Hroom). destruct y as [name value]. cbn [fst snd] in *.
  destruct (put_strings_ok _ _ _ _ _ _ a name value H2 Ha ltac:(lia)) as (h3 & -> & H3 & Hy & A3 & S3 & C3). cbn [mbind outcome_bind].
  destruct (table_grow_ok _ _ _ _ _ _ _ H3) as (o & -> & Ho); [rewrite C3, C2; exact Hroom|]. cbn [mbind outcome_bind].
  destruct o as [h4|]; [|eexists _, _; split; [done|]; right; split; [done|]; left; by eexists].
  destruct Ho as (slots4 & dead4 & H4 & Hsub & Hroom4 & Eh & Es & S4 & A4).
  destruct (push_entry_ok h4 slots4 dead4 L1 p1 a (name, value) H4) as (h5 & slots5 & -> & H5 & S5 & A5).
  - intros [Hd|HL]%elem_of_app; [by apply Ha, elem_of_app; left; apply Hsub|by apply Ha, elem_of_app; right].
  - by rewrite Eh, Es.
  - done.
  - change (2 ^ 64) with 18446744073709551616 in *. lia.
  - cbn [mbind outcome_bind]. eexists _, _. split; [done|]. left. split; [done|]. split; [congruence|]. right.
    exists slots5, dead4, (L1 ++ [(a, (name, value))]), p1. split; [done|]. by rewrite fmap_app, EL.
Qed.

Lemma table_size_ok h limit T size :
  table_is h limit T -> 0 <= size <= 4096 ->
  exists h', ngx_http_v2_table_size h size = Ok (h', NGX_OK) /\ table_is h' size (evict 0 size T).
Proof.
  intros [Hl [(E & -> & E1 & E2 & E3 & E4 & E5)|(slots & dead & L & p & H & ->)]] Hs; unfold ngx_http_v2_table_size; rewrite size_pos;
    rewrite (proj2 (Z.ltb_ge 4096 size)) by lia.
  - change table_fuel with (S 128). cbn [table_size_loop]. rewrite (proj2 (Z.ltb_ge _ _)) by lia. cbn [mbind outcome_bind].
    eexists. split; [done|]. split; [done|]. left. cbn [hp_entries hp_added hp_deleted hp_reused hp_free update_field evict]. split_and!; try done; lia.
  - destruct (entries_few _ _ _ _ _ _ _ H) as [Hsz Hfew].
    destruct (table_size_loop_ok table_fuel h slots dead L p 0 size H ltac:(unfold table_fuel; lia) ltac:(lia)) as (h' & dead' & L' & p' & -> & H' & EL & Hn & S' & A').
    cbn [mbind outcome_bind]. eexists. split; [done|]. split; [done|]. right. exists slots, dead', L', p'. split; [|done].
    pose proof (ti_free _ _ _ _ _ _ _ H') as Ef. pose proof (evict_total 0 size L.*2 ltac:(lia)) as Hev. rewrite <- EL in Hev.
    destruct H' as [T1 T2 T3 T4 T5 T6 T7 T8 T9 T10 T11 T12 T13 T14 T15 T16 T17 T18].
    split; cbn [hp_entries hp_allocated hp_storage hp_reused hp_deleted hp_added hp_heap hp_pos hp_free hp_size update_field]; try done; lia.
Qed.

(** ** Looking up *)

Lemma laid_lookup heap st p L i x : laid heap st p L -> L !! i = Some x -> exists q, item_laid heap st q x.
Proof.
  revert p i. induction L as [|y L IH]; intros p i; [done|]. cbn [laid]. intros [Hy HL] Hi. destruct i as [|i]; [injection Hi as <-; by exists p|].
  by eapply IH.
Qed.

Lemma ring_holds_app st p s1 s2 : holds st p (s1 ++ s2) -> holds st p s1 /\ holds st (p + Z.of_nat (length s1)) s2.
Proof.
  intros H. split; intros k c Hk.
  - apply H. rewrite lookup_app_l; [done|]. by eapply lookup_lt_Some.
  - rewrite <- Z.add_assoc, <- Nat2Z.inj_add. apply H. rewrite lookup_app_r by lia. rewrite <- Hk. f_equal. lia.
Qed.

Lemma total_lookup T i x : T !! i = Some x -> cost x <= total T.
Proof.
  revert i. induction T as [|y T IH]; intros i; [done|]. cbn [total]. pose proof (total_bytes T). assert (0 <= cost y) by (unfold cost, header_bytes; lia).
  destruct i as [|i]; [intros [= ->]; lia|]. intros Hi. specialize (IH i Hi). lia.
Qed.

Lemma get_indexed_ok h limit T hdr index name_only :
  table_is h limit T -> (forall n, string_alloc n = true) -> 0 <= index < 2 ^ 64 ->
  ngx_http_v2_get_indexed_header string_alloc h hdr index name_only =
    match (if decide (index <= 0) then None
           else if decide (index <= 61) then ngx_http_v2_static_table !! Z.to_nat (index - 1)
           else (fun x => (x.1, if name_only then hdr.2 else x.2)) <$> reverse T !! Z.to_nat (index - 62)) with
    | Some x => Ok (x, NGX_OK)
    | None => Ok (hdr, NGX_ERROR)
    end.
Proof.
  intros HT Hstr Hi. unfold ngx_http_v2_get_indexed_header. destruct (Z.eqb_spec index 0) as [->|Hne]; [done|].
  rewrite decide_False by lia. change NGX_HTTP_V2_STATIC_TABLE_ENTRIES with 61. destruct (Z.ltb_spec (index - 1) 61) as [Hs|Hd].
  { rewrite decide_True by lia. destruct (lookup_lt_is_Some_2 ngx_http_v2_static_table (Z.to_nat (index - 1))) as [x E]; [change (length ngx_http_v2_static_table) with 61%nat; lia|].
    by rewrite E. }
  rewrite decide_False by lia. replace (index - 1 - 61) with (index - 62) by lia. set (i := index - 62). assert (Hi0 : 0 <= i) by (unfold i; lia).
  destruct HT as [Hl [(E & -> & E1 & E2 & E3 & E4 & E5)|(slots & dead & L & p & H & ->)]].
  { rewrite E1, E2. change (to_u64 (0 - 0)) with 0. rewrite (proj2 (Z.ltb_ge i 0)) by lia. done. }
  pose proof H as [T1 T2 T3 T4 T5 T6 T7 T8 T9 T10 T11 T12 T13 T14 T15 T16 T17 T18]. destruct (entries_few _ _ _ _ _ _ _ H) as [Hsz Hfew].
  assert (Ed : to_u64 (hp_added h - hp_deleted h) = Z.of_nat (length L)) by (unfold to_u64; rewrite Z.mod_small by lia; lia). rewrite Ed.
  destruct (Z.ltb_spec i (Z.of_nat (length L))) as [Hin|Hout].
  - assert (Ej : to_u64 (hp_added h - i - 1) = hp_reused h + Z.of_nat (length dead + (length L - 1 - Z.to_nat i))).
    { unfold to_u64. rewrite Z.mod_small by lia. lia. }
    destruct (lookup_lt_is_Some_2 L (length L - 1 - Z.to_nat i)) as [[a [name value]] Ex]; [lia|].
    assert (Hj : (dead ++ L.*1) !! (length dead + (length L - 1 - Z.to_nat i))%nat = Some a).
    { rewrite lookup_app_r by lia. replace (_ - length dead)%nat with (length L - 1 - Z.to_nat i)%nat by lia. by rewrite list_lookup_fmap, Ex. }
    rewrite Ej, (slot_at_ok _ _ _ _ _ _ _ _ a H Hj). cbn [mbind outcome_bind].
    destruct (laid_lookup _ _ _ _ _ _ T13 Ex) as (q & e & F1 & F2 & F3 & F4 & F5 & F6). apply ring_holds_app in F6 as [F6 F7].
    assert (Ey : L.*2 !! (length L - 1 - Z.to_nat i)%nat = Some (name, value)) by (by rewrite list_lookup_fmap, Ex).
    pose proof (total_lookup _ _ _ Ey) as Hcost. unfold cost, header_bytes in Hcost. cbn [fst snd] in Hcost.
    unfold entry_at. rewrite F1. cbn [mbind outcome_bind]. rewrite Hstr. cbn [negb]. rewrite F2, (ring_get_ok _ _ q name) by (done || lia). cbn [mbind outcome_bind].
    assert (Er : reverse L.*2 !! Z.to_nat i = Some (name, value)).
    { rewrite reverse_lookup by (rewrite length_fmap; lia). rewrite length_fmap, <- Ey. f_equal. lia. }
    rewrite Er. cbn [fmap option_fmap option_map fst snd]. destruct name_only; [done|]. rewrite Hstr. cbn [negb].
    by rewrite F3, (ring_get_ok _ _ (q + Z.of_nat (length name)) value) by (done || lia).
  - rewrite lookup_ge_None_2; [done|]. rewrite length_reverse, length_fmap. lia.
Qed.

End alloc.

(** * Properties *)

(** The dynamic table is a queue of headers whose cost, 32 octets each and their bytes, is
    within the size.  ngx_http_v2_add_header removes the oldest until the new header fits
    and adds it, or empties the table when it cannot fit; an error is for lack of memory.
    ngx_http_v2_table_size sets the size and removes the oldest that are too many.
    ngx_http_v2_get_indexed_header gives the entries of the static table and then those of
    the queue, the newest first, and an error for any other index.  So every string is
    found as it was put, wherever it lies in the ring, and the rings, the structures used
    again and the growth are not seen.  The first addition sets the size to
    NGX_HTTP_V2_TABLE_SIZE. *)
(** C20. The dynamic table of HPACK is a queue of headers of bounded size:
    ngx_http_v2_add_header removes the oldest until the new one fits,
    ngx_http_v2_table_size until the new size is kept, and
    ngx_http_v2_get_indexed_header gives the static table and then the queue, the newest
    first, every string as it was put. *)
Theorem hpack_table_refines string_alloc entries_alloc storage_alloc entry_alloc h limit T :
  allocators entries_alloc storage_alloc entry_alloc -> (forall n, string_alloc n = true) -> table_is h limit T ->
  (forall x, hp_added h + 1 < 2 ^ 64 ->
     exists h' rc, ngx_http_v2_add_header entries_alloc storage_alloc entry_alloc h x.1 x.2 = Ok (h', rc) /\
       (rc = NGX_OK /\ table_is h' (limit_at h) (if decide (cost x <= limit_at h) then evict (cost x) (limit_at h) T ++ [x] else []) \/
        rc = NGX_ERROR /\ no_memory entries_alloc storage_alloc entry_alloc)) /\
  (forall size, 0 <= size <= NGX_HTTP_V2_TABLE_SIZE ->
     exists h', ngx_http_v2_table_size h size = Ok (h', NGX_OK) /\ table_is h' size (evict 0 size T)) /\
  (forall size, NGX_HTTP_V2_TABLE_SIZE < size -> ngx_http_v2_table_size h size = Ok (h, NGX_ERROR)) /\
  (forall hdr index name_only, 0 <= index < 2 ^ 64 ->
     ngx_http_v2_get_indexed_header string_alloc h hdr index name_only =
       match (if decide (index <= 0) then None
              else if decide (index <= 61) then ngx_http_v2_static_table !! Z.to_nat (index - 1)
              else (fun x => (x.1, if name_only then hdr.2 else x.2)) <$> reverse T !! Z.to_nat (index - 62)) with
       | Some x => Ok (x, NGX_OK)
       | None => Ok (hdr, NGX_ERROR)
       end).
Proof.
  intros Halloc Hstr HT. split_and!.
  - intros x. by eapply add_header_ok.
  - intros size. by eapply table_size_ok.
  - intros size Hs. unfold ngx_http_v2_table_size. by rewrite (proj2 (Z.ltb_lt _ _)) by done.
  - intros hdr index name_only. by eapply get_indexed_ok.
Qed.

Lemma empty_hpack_ok : table_is empty_hpack 0 [].
Proof. split; [done|]. left. cbn. split_and!; done || lia. Qed.

Lemma demo_allocators : allocators (fun n => Some (replicate (Z.to_nat n) 0)) (Some (replicate 4096 0)) (fun m => Some (fresh (dom m))).
Proof.
  split.
  - intros n m Hn [= <-]. rewrite length_replicate. lia.
  - intros m E. apply (inj Some) in E as <-. by rewrite length_replicate.
  - intros m a [= <-]. apply not_elem_of_dom, is_fresh.
Qed.

Lemma hpack_table_refines_witness :
  exists h', ngx_http_v2_add_header (fun n => Some (replicate (Z.to_nat n) 0)) (Some (replicate 4096 0)) (fun m => Some (fresh (dom m)))
      empty_hpack [97] [49] = Ok (h', NGX_OK) /\
    ngx_http_v2_get_indexed_header (fun _ => true) h' ([], []) 62 false = Ok (([97], [49]), NGX_OK).
Proof.
  destruct (hpack_table_refines (fun _ => true) _ _ _ empty_hpack 0 [] demo_allocators (fun _ => eq_refl) empty_hpack_ok) as (H & _).
  destruct (H ([97], [49])) as (h' & rc & E & [[-> H']|[_ [[n Hn]|[Hs|[m Hm]]]]]); [done| |done..].
  exists h'. split; [exact E|]. destruct (hpack_table_refines (fun _ => true) _ _ _ h' _ _ demo_allocators (fun _ => eq_refl) H') as (_ & _ & _ & Hget).
  rewrite Hget by done. by vm_compute.
Defined.
